(* ===== verification/_CoqProject ===== *)
-Q . S2P
Prelude.v
Protocol.v
Message.v
SafeMap.v
Tap.v
Bridge.v
FireWall.v
GoStd.v
Json.v
Md5.v
Base64.v
Models.v
UserCache.v
NetCache.v
Socket.v
Cache.v
Apps.v
Switch.v
Rules.v
Utils.v
Config.v
PointTap.v
PointSocket.v
PointWorker.v
Session.v
OpenLAN.v
Esp.v
Fabric.v
Relay.v
Xdp.v
Vpn.v
VpnClients.v
Worker.v
ConfigFiles.v
Schema.v
Mux.v
Api.v
Node.v
Http.v
UserApi.v
Proxy.v
Shadow.v
Cmd.v
CmdUser.v
Ovsdb.v
CmdDb.v
ConfD.v
Transports.v
LinuxBridge.v
Logger.v
IpCmd.v
PointNode.v
SwitchNode.v
