(* ===== verification/Prelude.v ===== *)
(** * OpenLAN: a verification development

    OpenLAN is a virtual private network in Go.  Points connect to a switch over
    TCP, UDP, KCP or web sockets, log in, and exchange Ethernet frames; the switch
    puts the frames of a point on a tap device, a bridge forwards them to the taps of
    the other points, and packet filter rules connect the virtual networks to others.
    Besides these networks the switch runs IPsec, VxLAN and fabric networks, which it
    configures in the kernel and in Open vSwitch.  This development models both ends,
    from the configuration and the bytes of a connection to the rules of the firewall
    and the routes of a point, and proves what makes them correct.

    ** The program and its model, file by file

    Shared:
    - [Prelude] (this file): outcomes of Go code ([go]: it returns or panics; [run]: it
      returns, blocks for ever or panics), errors, integers of fixed width, bytes and
      slices with their bounds checks, the hint and rewrite databases [go] and
      [go_codec] and the tactics of the development.
    - [GoStd]: the Go standard library as far as it is used (strings, addresses).
    - [Json], [Md5], [Base64]: encoding/json (values, [Marshal], the reader and
      [Unmarshal] into structs of strings), crypto/md5, encoding/base64 and HTTP basic
      authentication, which the API, its client and the proxies use.
    - [Logger] (pkg/libol/logger.go, go.go, wait.go): the log, its prefixes and its list of
      messages, panics that are caught, goroutines that are counted.
    - [Utils] (pkg/libol/utils.go): prefixes, names, text forms of times and
      sizes; numbers as text and paths, of the standard library.
    - [Protocol] (pkg/libol/protocol.go): headers of Ethernet, VLAN, ARP, IPv4, TCP, UDP.
    - [Message] (pkg/libol/message.go): frames, control messages, and the two messagers
      that carry them over streams and datagrams, encrypted or not.
    - [SafeMap] (pkg/libol/safe.go): the bounded maps and counters every table is made of.
    - [Socket] (pkg/libol/socket.go, tcpsocket.go, udpsocket.go, promise.go): clients with
      their status machine, the server with its limit on clients, retries.
    - [Config] (pkg/config): the configuration of switch, networks and points, and every
      default and correction applied to it.
    - [ConfigFiles] (pkg/config/switch.go, network.go): the files of the configuration, as
      [Save] writes them and [Load] reads them, over a codec.

    Devices and the packet filter:
    - [Tap] (pkg/network/taper.go, tap_virtual.go, tap_kernel.go): tap devices; the
      interface [Taper] is a class, [TaperLaws] is what bridges rely on.
    - [Bridge] (pkg/network/bridge_virtual.go, bridger.go, framer.go): the software
      bridge, over any [Taper].
    - [LinuxBridge] (pkg/network/bridge_linux.go, brctl_linux.go): the bridge of the
      kernel, over any kernel of class [LinkKernel] with [LinkLaws].
    - [FireWall] (pkg/network/iptables.go, firewall.go): rules, chains, and their
      installation, over any kernel of class [Iptables] with [IptablesLaws].

    The switch:
    - [Models] (pkg/models, pkg/schema): users, points, lines, neighbors, networks, leases.
    - [UserCache] (pkg/olsw/cache/user.go): the user database and its file.
    - [NetCache] (pkg/olsw/cache/network.go): networks and address leases.
    - [Cache] (pkg/olsw/cache/point.go, neighbor.go, online.go, link.go): the other tables.
    - [Apps] (pkg/olsw/app): login, neighbor learning, traffic lines, requests, over a
      switch of class [Master].
    - [Switch] (pkg/olsw/switch.go): the chain of hooks, a frame's way from a client to
      its tap, taps of points, closed connections; it is the [Master] of [Apps].
    - [Rules] (pkg/olsw/switch.go, network.go, openlan.go): every packet filter rule the
      switch makes of its configuration.
    - [OpenLAN] (pkg/olsw/openlan.go, link.go, network.go): the worker of a network: the
      tables it fills, its bridge, routes and links.
    - [Esp] (pkg/olsw/esp.go, confd.go, cache/esp.go): the worker of an IPsec network and
      what the database watcher does to it.
    - [Fabric] (pkg/olsw/vxlan.go, fabric.go): the workers of VxLAN and fabric networks,
      and what the flows of a fabric do to packets.
    - [Vpn] (pkg/olsw/openvpn.go): VPN servers: the files written for them, from the
      templates of the source, and their processes.
    - [VpnClients] (pkg/olsw/cache/openvpn.go): the clients read from their status files,
      and the profiles given out.
    - [Worker] (pkg/olsw/openlan.go): a worker as a whole, of [OpenLAN] and [Vpn].
    - [Relay] (pkg/libol/socket.go, pkg/olsw/switch.go, app/access.go,
      network/bridge_virtual.go): the goroutines that carry frames: from a client to the
      switch, from a tap to its client, from a tap into a bridge.
    - [Xdp] (pkg/libol/xdp.go): connections over one datagram socket.
    - [Transports] (pkg/libol/websocket.go, kcpsocket.go, pkg/olap/worker.go): clients over
      web sockets and KCP, what a point dials and a switch listens on, the loop that
      accepts.

    The API of the switch:
    - [Schema] (pkg/schema, pkg/models/schema.go, esp.go): what the API shows and takes, and
      its text.
    - [Mux] (vendor gorilla/mux): the router: templates of paths, their matching, the
      cleaning of paths.
    - [Api] (pkg/olsw/api, pkg/network/bridger.go): the handlers, over a switch of class
      [Switcher].
    - [Node] (pkg/olsw/switch.go, network.go): the switch with its workers, which is the
      [Switcher] of [Api]: its server, identity, [Reload] and [Save].
    - [SwitchNode] (pkg/olsw/switch.go): [Initialize], [Start] and [Stop] of the switch, with
      the tables its workers share.
    - [Http] (pkg/olsw/http.go): tokens and the file they are in, the table of routes, the
      check of tokens before each handler.
    - [UserApi]: the requests about users as operations on a table of users.

    The command line (cmd, pkg/libol/http.go):
    - [Cmd] (cmd/api/v5, cmd/main.go): the client of the API and every command, from its
      flags to the URL, the request net/http makes of it and what is done with the answer;
      the server at the other end is [Http].
    - [CmdUser]: a user added by one command and checked by another.

    The configuration database (pkg/database, vendor ovn-org/libovsdb):
    - [Ovsdb]: its rows, a client's copy of them with its indexes, the operations a client
      asks for and the events of its copy; the server is an argument.
    - [CmdDb] (cmd/api/v6): the commands that change it, from their flags to transactions.
    - [ConfD] (pkg/olsw/confd.go): the watcher: events handed to the workers of [Node], and
      the way of a link from its command to the kernel.

    The proxy, a program of its own:
    - [Proxy] (pkg/proxy, pkg/config/proxy.go): the HTTP proxy, the TCP proxy with its
      balancing, tunnels, and the proxies of one configuration.
    - [Shadow] (pkg/proxy/ss): shadowsocks servers: their start, plugins, the NAT table of
      the UDP relay, a connection of the TCP relay.

    The point:
    - [PointTap] (pkg/olap/tap.go, neighbor.go): the device worker, its neighbor table,
      and the order in which the two take their locks.
    - [PointSocket] (pkg/olap/socket.go): the socket worker: events, jobs, login, backoff.
    - [PointWorker] (pkg/olap/worker.go, point_linux.go): addresses turned into rules for
      next hops and into routes of the kernel.
    - [IpCmd] (pkg/libol/iputils.go, pkg/olap/point_darwin.go, point_windows.go): the commands
      that set addresses and routes, and the points that use them.
    - [PointNode] (pkg/olap/pointer.go, worker.go, terminal.go, http): the point as a whole:
      made, started and stopped, its terminal and HTTP server; on Linux its bridge.
    - [Session]: the point of [PointSocket] and the switch of [Apps] talking to each other.

    A struct is a [Record], or an [Inductive] when it is recursive; a method that mutates
    its receiver returns the new one.  Where objects are shared and changed in place
    (channels of a tap, devices of a bridge, leases, clients, the configuration of links)
    they live in a store and are referred to by an index or a name.  What code asks of
    the kernel, of other programs and of clients is a list of requests in order.  A Go
    map is a [gmap], and where its iteration order matters the order is an argument.
    Integers are [Z] with the wrap-around written out where the code relies on it.

    ** What the theorems show

    - Wire formats: headers round trip, decoding never panics; [stream_reassembly]:
      every cut of a byte stream into segments gives back the messages sent;
      [stream_send_exact], [packet_roundtrip], [packet_receive_bounds],
      [control_roundtrip]; and where the receivers fail
      ([stream_receive_oversize_spins], [packet_receive_accepts_truncated],
      [proto_decode_vlan_opaque]).
    - Containers: [safestrmap_refines_cells] and the theorems beside it.
    - Devices: [tap_queue_safe], an invariant over all interleavings of readers and
      writers, and [tap_reopen_wedges], what breaks it; [bridge_input_delivers] and
      [bridge_fdb_last_seen], what the bridge does against what was seen.
    - The Linux bridge: [bridge_ports_exact], whatever the kernel refuses, against its laws.
    - Packet filter: [firewall_stop_restores], against the laws of any kernel;
      [switch_rules_confined] and [switch_forwarding_symmetric] for all configurations;
      [revoke_rule_returns_iff].
    - Configuration: [switch_default_again], what a second [Default] changes, which loads
      the files once more; [esp_correct_returns_iff], [vpn_devices_fresh];
      [configured_network_served], from the configuration over [Initialize] of a worker to
      what a client of the switch gets; [saved_networks_load], and the networks for which
      it fails, [inline_network_loses_routes]; [reload_shows_configuration].
    - The API: [api_needs_token] and [get_changes_nothing], over all routes and handlers;
      [profile_confined]; [token_survives_restart]; [user_api_refines], from the text of a
      request to the tables, the file and the text of the answer, against a table of users;
      [added_user_logs_in], from a request to a login after a restart.
    - The command line: [cli_added_user_checks], through URL, request, token, route,
      handler and tables; [token_filed_initialized], where its token comes from; and
      [remove_cuts_name], what a name can do to a URL.
    - The configuration database: [link_add_makes_member], from the command over the
      transaction and its announcement to the worker and the kernel; [rc_Create_ok],
      [rc_Update_ok], [rc_Delete_ok] and [RowByModel_index], the indexes of a copy;
      [link_roundtrip]; [deletion_ignored], [auth_of_bare_link_panics],
      [device_forgets_connection], [refused_add_succeeds], [statistics_end_updates].
    - The proxy: [http_proxy_authenticates]; [tcp_proxy_balances]; [tcp_tunnel_relays], over
      all interleavings of the two copies, against [http_tunnel_keeps_target] and
      [half_close_cuts_answer]; [http_start_first_only]; [proxies_registered];
      [udp_nat_exact], an invariant of the table and of the goroutines of the relay in all
      interleavings, and [udp_answers_never_come].
    - Users and addresses: [check_sound], [check_local_user], [user_file_roundtrip] and its
      limit [user_file_colon_breaks]; [lease_addresses_unique] in all
      interleavings of requests that do not overlap and [overlapping_leases_share] in one
      of those that do, [alloc_first_free], [alloc_wraps_around], [onclose_lease].
    - Connections: [server_alive_exact], [terminal_is_final], [terminal_during_dial_lost],
      [point_newest_wins], [login_replaces_last]; [web_client_hangs], which calls of a web
      client return; [accepting_keeps_counts] and [close_between_looks], about the loop that
      accepts.
    - The whole path: [access_only_authenticated], [unauthenticated_frame_dropped];
      [frame_crosses_switch], from one client's message over tap, bridge and tap to the
      message for another; [frames_handled_in_order] over all interleavings of the two
      goroutines of a client, [refused_client_hangs]; [ipaddr_request_safe],
      [newtap_ports_collide].
    - Datagrams: [xdp_demultiplexes], an invariant of all interleavings and what [Read]
      returns, and
      [xdp_stalled_by_closed], how the listener stops.
    - VPN servers: [exec_xauth], [exec_cert] and [exec_profile] (what the templates come
      to), [server_lifecycle], [profile_served], [status_roundtrip],
      [stopped_server_still_listed].
    - The switch from start to stop: [switch_lifecycle], every worker and the packet filter.
    - Workers: [worker_start_stop], [routes_taken_back], [link_lifecycle], [links_share_config];
      [tunnel_ends_agree] and [reload_exact] for IPsec; [fabric_floods], about the
      configured tunnels, borders and networks of a fabric, every packet with an unknown
      destination and every switch that follows OpenFlow, and
      [fabric_tunnel_names_collide].
    - The point: [socket_worker_invariant], [reconnect_backoff],
      [unauthenticated_point_sends_nothing], [loss_in_same_second_not_redialled];
      [arp_resolution] and [tun_packet_roundtrip] between two points,
      [tap_lock_order_deadlock], [tap_reset_debt]; [stale_routes_win] and
      [routes_undone_bypass_kept]; with the switch, [login_handshake].  As a whole:
      [point_stop_frees] and, with an HTTP server, [http_point_never_stops];
      [darwin_frees_what_it_adds] and [windows_clears_old_routes].
    - The log: [log_keeps_first], what its list holds after any messages; [logged_line].

    ** Bounds and fuel

    Loops whose recursion is not structural have fuel.  [stream_Receive] is run with one
    more than the measure of the remaining segments, [writeX] with at least as many
    rounds as bytes, [allocLease] with one round more than there are leases, and the
    scanner of the user file with one more than the length of the text; the theorems
    prove that this is enough, so they state that the code returns.  Where the code
    itself does not return, the result is [Spinning] or [Blocks], and the theorem holds
    for every amount of fuel.  [demo_run] of [Fabric] follows a packet for as many tables
    as there are (256), which is enough since flows only lead to later tables.  The
    scanner of a status file or profile has one more than the length of the text, and so
    have the lexer and the parser of [Vpn], which run on constant templates.  The reader of
    [Json] has one more than the length of the text ([read_value_enough]: more changes
    nothing), and the trimming of a token the length of its text.  A request of the command
    line is followed for ten redirects, as the client of net/http does; a connection to the
    TCP proxy tries one backend more than there are targets, which is none.

    ** What is not modelled

    The log of the other components ([Logger] is on its own), statistics that are only
    printed, and [String] methods.  Locks: an operation
    that holds its lock throughout is one step, and code that releases it in between is
    cut there ([Tap], [Socket], [PointTap], [NetCache], [Xdp], [Shadow]).  Deadlines and timers are errors of the
    connection.  Third-party code is a parameter with laws where something depends on it:
    block ciphers, LDAP, iptables, the kernel's tap device, routes and devices, Open
    vSwitch, name resolution, the JSON of the configuration and of control messages (that of
    the API is modelled), html/template, the text form of times.  The length of a slice is its
    capacity, except for [Framer]; upper and lower case are those of ASCII; a slice of
    pointers holds no nil unless the code tests for it or [Config], [Esp] and [Fabric]
    say what happens then.
    Handlers of the API run one at a time: each locks the tables it reads, and what two of
    them do at once is not modelled.
    Not modelled, and why: what KCP, web sockets and TLS do on the wire (third-party), what
    commands print, the parts of pkg/proxy/ss nothing uses, ciphers and the SOCKS server. *)

From stdpp Require Export base tactics list gmap strings pretty.
From Stdlib Require Export ZArith Lia.

#[global] Set Default Goal Selector "!".

Declare Scope go_scope.
Delimit Scope go_scope with go.
Open Scope go_scope.

(** ** Panics

    [go A] is the outcome of a piece of Go code that may hit a run-time panic
    (slice or index out of range, nil dereference). *)
Inductive go (A : Type) : Type :=
| Ret (a : A)
| Panic.
Arguments Ret {A} a.
Arguments Panic {A}.

#[export] Instance go_ret : MRet go := @Ret.
#[export] Instance go_bind : MBind go := fun A B f m =>
  match m with Ret a => f a | Panic => Panic end.
#[export] Instance go_fmap : FMap go := fun A B f m =>
  match m with Ret a => Ret (f a) | Panic => Panic end.

Definition returns {A} (m : go A) : Prop := exists a, m = Ret a.

(** [run A] is the outcome of code that may also block for ever, on a channel or
    on a lock that is never released. *)
Inductive run (A : Type) : Type :=
| Finished (a : A)
| Blocks
| Crashes.
Arguments Finished {A} a.
Arguments Blocks {A}.
Arguments Crashes {A}.

#[export] Instance run_ret : MRet run := @Finished.
#[export] Instance run_bind : MBind run := fun A B f m =>
  match m with Finished a => f a | Blocks => Blocks | Crashes => Crashes end.

(** Panicking code as part of code that may block. *)
Definition lift {A} (m : go A) : run A := match m with Ret a => Finished a | Panic => Crashes end.

(** ** Errors

    [NewErr] of pkg/libol/error.go is [fmt.Errorf]; the model keeps the format
    and its numeric arguments instead of the rendered text. *)
Record error := NewErr { err_format : string; err_args : list Z }.

#[export] Instance error_eq_dec : EqDecision error.
Proof. solve_decision. Defined.

(** The pair [(T, error)] of a Go function whose value is not used on error. *)
Abbreviation result A := (sum A error).

(** ** Machine integers *)

Definition wrap8 (z : Z) : Z := (z mod 2 ^ 8)%Z.
Definition wrap16 (z : Z) : Z := (z mod 2 ^ 16)%Z.
Definition wrap32 (z : Z) : Z := (z mod 2 ^ 32)%Z.

Definition u8 (z : Z) : Prop := (0 <= z < 2 ^ 8)%Z.
Definition u16 (z : Z) : Prop := (0 <= z < 2 ^ 16)%Z.
Definition u32 (z : Z) : Prop := (0 <= z < 2 ^ 32)%Z.

(** Signed 64-bit wrap-around, Go's [int64] and [int]. *)
Definition wrap64s (z : Z) : Z := ((z + 2 ^ 63) mod 2 ^ 64 - 2 ^ 63)%Z.
Definition i64 (z : Z) : Prop := (- 2 ^ 63 <= z < 2 ^ 63)%Z.

#[export] Instance u8_dec z : Decision (u8 z).
Proof. unfold u8. apply _. Defined.
#[export] Instance u16_dec z : Decision (u16 z).
Proof. unfold u16. apply _. Defined.
#[export] Instance u32_dec z : Decision (u32 z).
Proof. unfold u32. apply _. Defined.

Lemma wrap16_id z : u16 z -> wrap16 z = z.
Proof. intros H. apply Z.mod_small, H. Qed.

Lemma wrap16_u16 z : u16 (wrap16 z).
Proof. apply Z.mod_pos_bound. lia. Qed.

Lemma wrap64s_id z : i64 z -> wrap64s z = z.
Proof. unfold i64, wrap64s. intros H. rewrite Z.mod_small; lia. Qed.

Lemma wrap64s_i64 z : i64 (wrap64s z).
Proof.
  unfold i64, wrap64s.
  pose proof (Z.mod_pos_bound (z + 2 ^ 63) (2 ^ 64) ltac:(lia)). lia.
Qed.

(** ** Byte slices

    A [[]byte] is a list of [Z]; [bytes_ok] says every element is a byte. *)
Abbreviation bytes := (list Z).

Definition bytes_ok (l : bytes) : Prop := Forall u8 l.

#[export] Instance bytes_ok_dec l : Decision (bytes_ok l).
Proof. unfold bytes_ok. apply _. Defined.

Definition zlen {A} (l : list A) : Z := Z.of_nat (length l).

(** [make([]byte, n)] *)
Definition make_bytes (n : Z) : bytes := replicate (Z.to_nat n) 0%Z.

(** [l[lo:hi]] *)
Definition slice {A} (l : list A) (lo hi : Z) : go (list A) :=
  if (0 <=? lo)%Z && (lo <=? hi)%Z && (hi <=? zlen l)%Z
  then Ret (take (Z.to_nat (hi - lo)) (drop (Z.to_nat lo) l))
  else Panic.

(** [l[lo:]] *)
Definition slice_from {A} (l : list A) (lo : Z) : go (list A) := slice l lo (zlen l).

(** [l[i]] *)
Definition index (l : bytes) (i : Z) : go Z :=
  if (0 <=? i)%Z then
    match l !! Z.to_nat i with Some b => Ret b | None => Panic end
  else Panic.

(** The bytes of [buf] after [copy(buf[off:], src)], [off] within [buf]. *)
Definition write_at (buf : bytes) (off : nat) (src : bytes) : bytes :=
  take off buf ++ take (length buf - off) src ++ drop (off + length src) buf.

(** [copy(buf[lo:hi], src)] *)
Definition copy_into (buf : bytes) (lo hi : Z) (src : bytes) : go bytes :=
  if (0 <=? lo)%Z && (lo <=? hi)%Z && (hi <=? zlen buf)%Z
  then Ret (write_at buf (Z.to_nat lo) (take (Z.to_nat (hi - lo)) src))
  else Panic.

(** [buf[i] = b] *)
Definition set_index (buf : bytes) (i : Z) (b : Z) : go bytes :=
  copy_into buf i (i + 1) [b].

(** ** encoding/binary.BigEndian *)

Definition byte_at (k v : Z) : Z := wrap8 (Z.shiftr v k).
Definition join16 (b0 b1 : Z) : Z := Z.lor b1 (Z.shiftl b0 8).
Definition join32 (b0 b1 b2 b3 : Z) : Z :=
  Z.lor (Z.lor (Z.lor b3 (Z.shiftl b2 8)) (Z.shiftl b1 16)) (Z.shiftl b0 24).

Definition Uint16 (b : bytes) : go Z :=
  match b with b0 :: b1 :: _ => Ret (join16 b0 b1) | _ => Panic end.
Definition Uint32 (b : bytes) : go Z :=
  match b with
  | b0 :: b1 :: b2 :: b3 :: _ => Ret (join32 b0 b1 b2 b3)
  | _ => Panic
  end.
Definition be16 (v : Z) : bytes := [byte_at 8 v; byte_at 0 v].
Definition be32 (v : Z) : bytes := [byte_at 24 v; byte_at 16 v; byte_at 8 v; byte_at 0 v].

(** [PutUint16(buf[lo:hi], v)] and [PutUint32(buf[lo:hi], v)], for constant
    bounds two and four bytes apart. *)
Definition PutUint16 (buf : bytes) (lo hi v : Z) : go bytes := copy_into buf lo hi (be16 v).
Definition PutUint32 (buf : bytes) (lo hi v : Z) : go bytes := copy_into buf lo hi (be32 v).

(** A bitwise or of disjoint ranges is a sum. *)
Lemma lor_shiftl_add a b n :
  (0 <= n)%Z -> (0 <= a < 2 ^ n)%Z -> Z.lor a (Z.shiftl b n) = (a + b * 2 ^ n)%Z.
Proof.
  intros Hn Ha.
  rewrite <- Z.shiftl_mul_pow2 by done.
  assert (Hd : Z.land a (Z.shiftl b n) = 0%Z).
  { apply Z.bits_inj'. intros k Hk. rewrite Z.land_spec, Z.bits_0.
    destruct (decide (k < n)%Z) as [Hlt|Hge].
    - rewrite Z.shiftl_spec_low by done. apply andb_false_r.
    - destruct (decide (a = 0)%Z) as [->|Hnz]; [by rewrite Z.bits_0|].
      rewrite (Z.bits_above_log2 a k); [done|lia|].
      apply Z.log2_lt_pow2; [lia|].
      eapply Z.lt_le_trans; [apply Ha|]. apply Z.pow_le_mono_r; lia. }
  rewrite <- Z.lxor_lor by done. symmetry. by apply Z.add_nocarry_lxor.
Qed.

Lemma join16_add b0 b1 : u8 b1 -> join16 b0 b1 = (b0 * 256 + b1)%Z.
Proof.
  intros H1. unfold join16. rewrite lor_shiftl_add by (unfold u8 in *; lia). lia.
Qed.

Lemma join32_add b0 b1 b2 b3 :
  u8 b0 -> u8 b1 -> u8 b2 -> u8 b3 ->
  join32 b0 b1 b2 b3 = (b0 * 2 ^ 24 + b1 * 2 ^ 16 + b2 * 2 ^ 8 + b3)%Z.
Proof.
  unfold u8. intros H0 H1 H2 H3. unfold join32.
  rewrite (lor_shiftl_add b3 b2), (lor_shiftl_add _ b1), (lor_shiftl_add _ b0); lia.
Qed.

Lemma byte_at_u8 k v : u8 (byte_at k v).
Proof. unfold u8, byte_at, wrap8. apply Z.mod_pos_bound. lia. Qed.

Lemma byte_at_div k v : (0 <= k)%Z -> byte_at k v = ((v / 2 ^ k) mod 2 ^ 8)%Z.
Proof. intros Hk. unfold byte_at, wrap8. by rewrite Z.shiftr_div_pow2. Qed.

Lemma byte_at_join16_hi b0 b1 : u8 b0 -> u8 b1 -> byte_at 8 (join16 b0 b1) = b0.
Proof.
  intros H0 H1. rewrite join16_add, byte_at_div by (done || lia). unfold u8 in *.
  change (2 ^ 8)%Z with 256%Z. rewrite Z.div_add_l, (Z.div_small b1) by lia.
  rewrite Z.add_0_r. apply Z.mod_small. lia.
Qed.

Lemma byte_at_join16_lo b0 b1 : u8 b0 -> u8 b1 -> byte_at 0 (join16 b0 b1) = b1.
Proof.
  intros H0 H1. rewrite join16_add, byte_at_div by (done || lia). unfold u8 in *.
  change (2 ^ 8)%Z with 256%Z. change (2 ^ 0)%Z with 1%Z. rewrite Z.div_1_r.
  rewrite Z.add_comm, Z.mod_add by lia. apply Z.mod_small. lia.
Qed.

Lemma be16_join16 b0 b1 : u8 b0 -> u8 b1 -> be16 (join16 b0 b1) = [b0; b1].
Proof. intros. unfold be16. by rewrite byte_at_join16_hi, byte_at_join16_lo. Qed.

Lemma join16_be16 v : u16 v -> join16 (byte_at 8 v) (byte_at 0 v) = v.
Proof.
  intros H. rewrite join16_add by apply byte_at_u8.
  rewrite !byte_at_div by lia. unfold u16 in H.
  change (2 ^ 8)%Z with 256%Z. change (2 ^ 0)%Z with 1%Z. rewrite Z.div_1_r.
  rewrite (Z.mod_small (v / 256)).
  2:{ split; [apply Z.div_pos; lia|]. apply Z.div_lt_upper_bound; lia. }
  pose proof (Z.div_mod v 256 ltac:(lia)). lia.
Qed.

Lemma join16_u16 b0 b1 : u8 b0 -> u8 b1 -> u16 (join16 b0 b1).
Proof. intros H0 H1. rewrite join16_add by done. unfold u8, u16 in *. lia. Qed.

Lemma join32_be32 v :
  u32 v -> join32 (byte_at 24 v) (byte_at 16 v) (byte_at 8 v) (byte_at 0 v) = v.
Proof.
  intros H. rewrite join32_add by apply byte_at_u8.
  rewrite !byte_at_div by lia. unfold u32 in H.
  replace (v / 2 ^ 24)%Z with (v / 2 ^ 8 / 2 ^ 8 / 2 ^ 8)%Z
    by (rewrite !Z.div_div by lia; f_equal).
  replace (v / 2 ^ 16)%Z with (v / 2 ^ 8 / 2 ^ 8)%Z
    by (rewrite !Z.div_div by lia; f_equal).
  change (2 ^ 0)%Z with 1%Z. rewrite Z.div_1_r.
  pose proof (Z.div_mod v (2 ^ 8) ltac:(lia)).
  pose proof (Z.div_mod (v / 2 ^ 8) (2 ^ 8) ltac:(lia)).
  pose proof (Z.div_mod (v / 2 ^ 8 / 2 ^ 8) (2 ^ 8) ltac:(lia)).
  rewrite (Z.mod_small (v / 2 ^ 8 / 2 ^ 8 / 2 ^ 8)); [lia|].
  rewrite !Z.div_div by lia.
  split; [apply Z.div_pos; lia|]. apply Z.div_lt_upper_bound; lia.
Qed.

Lemma join32_u32 b0 b1 b2 b3 :
  u8 b0 -> u8 b1 -> u8 b2 -> u8 b3 -> u32 (join32 b0 b1 b2 b3).
Proof. intros. rewrite join32_add by done. unfold u8, u32 in *. lia. Qed.

Lemma be32_join32 b0 b1 b2 b3 :
  u8 b0 -> u8 b1 -> u8 b2 -> u8 b3 -> be32 (join32 b0 b1 b2 b3) = [b0; b1; b2; b3].
Proof.
  intros H0 H1 H2 H3. unfold be32. rewrite join32_add by done.
  rewrite !byte_at_div by lia. unfold u8 in *.
  repeat f_equal; change (2 ^ 0)%Z with 1%Z; rewrite ?Z.div_1_r.
  - symmetry. apply (Z.mod_unique_pos _ _ 0); [lia|].
    rewrite <- (Z.div_unique_pos _ (2 ^ 24) b0 (b1 * 2 ^ 16 + b2 * 2 ^ 8 + b3)); lia.
  - symmetry. apply (Z.mod_unique_pos _ _ b0); [lia|].
    rewrite <- (Z.div_unique_pos _ (2 ^ 16) (b0 * 2 ^ 8 + b1) (b2 * 2 ^ 8 + b3)); lia.
  - symmetry. apply (Z.mod_unique_pos _ _ (b0 * 2 ^ 8 + b1)); [lia|].
    rewrite <- (Z.div_unique_pos _ (2 ^ 8) (b0 * 2 ^ 16 + b1 * 2 ^ 8 + b2) b3); lia.
  - symmetry. apply (Z.mod_unique_pos _ _ (b0 * 2 ^ 16 + b1 * 2 ^ 8 + b2)); lia.
Qed.

Lemma byte_at_join32_3 b0 b1 b2 b3 :
  u8 b0 -> u8 b1 -> u8 b2 -> u8 b3 -> byte_at 24 (join32 b0 b1 b2 b3) = b0.
Proof. intros H0 H1 H2 H3. exact (f_equal (fun l => nth 0 l 0%Z) (be32_join32 _ _ _ _ H0 H1 H2 H3)). Qed.
Lemma byte_at_join32_2 b0 b1 b2 b3 :
  u8 b0 -> u8 b1 -> u8 b2 -> u8 b3 -> byte_at 16 (join32 b0 b1 b2 b3) = b1.
Proof. intros H0 H1 H2 H3. exact (f_equal (fun l => nth 1 l 0%Z) (be32_join32 _ _ _ _ H0 H1 H2 H3)). Qed.
Lemma byte_at_join32_1 b0 b1 b2 b3 :
  u8 b0 -> u8 b1 -> u8 b2 -> u8 b3 -> byte_at 8 (join32 b0 b1 b2 b3) = b2.
Proof. intros H0 H1 H2 H3. exact (f_equal (fun l => nth 2 l 0%Z) (be32_join32 _ _ _ _ H0 H1 H2 H3)). Qed.
Lemma byte_at_join32_0 b0 b1 b2 b3 :
  u8 b0 -> u8 b1 -> u8 b2 -> u8 b3 -> byte_at 0 (join32 b0 b1 b2 b3) = b3.
Proof. intros H0 H1 H2 H3. exact (f_equal (fun l => nth 3 l 0%Z) (be32_join32 _ _ _ _ H0 H1 H2 H3)). Qed.

(** ** Lemmas on slices *)

Lemma zlen_app {A} (l1 l2 : list A) : zlen (l1 ++ l2) = (zlen l1 + zlen l2)%Z.
Proof. unfold zlen. rewrite length_app. lia. Qed.

Lemma zlen_nonneg {A} (l : list A) : (0 <= zlen l)%Z.
Proof. unfold zlen. lia. Qed.

Lemma slice_ok {A} (l : list A) lo hi :
  (0 <= lo <= hi)%Z -> (hi <= zlen l)%Z ->
  slice l lo hi = Ret (take (Z.to_nat (hi - lo)) (drop (Z.to_nat lo) l)).
Proof.
  intros H1 H2. unfold slice.
  rewrite (proj2 (Z.leb_le 0 lo)), (proj2 (Z.leb_le lo hi)), (proj2 (Z.leb_le hi _)) by lia.
  done.
Qed.

Lemma slice_from_ok {A} (l : list A) lo :
  (0 <= lo <= zlen l)%Z -> slice_from l lo = Ret (drop (Z.to_nat lo) l).
Proof.
  intros H. unfold slice_from. rewrite slice_ok by lia. f_equal.
  apply take_ge. rewrite length_drop. unfold zlen in *. lia.
Qed.

Lemma length_slice {A} (l s : list A) lo hi :
  slice l lo hi = Ret s -> zlen s = (hi - lo)%Z.
Proof.
  unfold slice.
  destruct (0 <=? lo)%Z eqn:E1, (lo <=? hi)%Z eqn:E2, (hi <=? zlen l)%Z eqn:E3;
    simpl; intros H; simplify_eq.
  apply Z.leb_le in E1, E2, E3. unfold zlen in *.
  rewrite length_take, length_drop. lia.
Qed.

Lemma copy_into_ok buf lo hi src :
  (0 <= lo <= hi)%Z -> (hi <= zlen buf)%Z ->
  copy_into buf lo hi src =
    Ret (write_at buf (Z.to_nat lo) (take (Z.to_nat (hi - lo)) src)).
Proof.
  intros H1 H2. unfold copy_into.
  rewrite (proj2 (Z.leb_le 0 lo)), (proj2 (Z.leb_le lo hi)), (proj2 (Z.leb_le hi _)) by lia.
  done.
Qed.

Lemma length_write_at buf off src :
  off <= length buf -> length (write_at buf off src) = length buf.
Proof.
  intros H. unfold write_at.
  rewrite !length_app, !length_take, length_drop. lia.
Qed.

(** Writing next to what is already written extends it. *)
Lemma write_at_app pre rest src :
  length src <= length rest ->
  write_at (pre ++ rest) (length pre) src = (pre ++ src) ++ drop (length src) rest.
Proof.
  intros H. unfold write_at. rewrite take_app_length, length_app.
  rewrite (take_ge src) by lia. rewrite <- app_assoc. do 2 f_equal.
  rewrite <- drop_drop, drop_app_length. done.
Qed.

Lemma bytes_ok_app l1 l2 : bytes_ok (l1 ++ l2) <-> bytes_ok l1 /\ bytes_ok l2.
Proof. apply Forall_app. Qed.

Lemma bytes_ok_take n l : bytes_ok l -> bytes_ok (take n l).
Proof. apply Forall_take. Qed.

Lemma bytes_ok_drop n l : bytes_ok l -> bytes_ok (drop n l).
Proof. apply Forall_drop. Qed.

Lemma bytes_ok_be16 v : bytes_ok (be16 v).
Proof. repeat constructor; apply byte_at_u8. Qed.

Lemma bytes_ok_make n : bytes_ok (make_bytes n).
Proof. apply Forall_replicate. unfold u8. lia. Qed.

(** ** Filters *)

Lemma filter_all {A} (P : A -> Prop) `{!forall x, Decision (P x)} (l : list A) :
  (forall x, x ∈ l -> P x) -> filter P l = l.
Proof.
  induction l as [|x l IH]; intros Hl; [done|].
  rewrite filter_cons_True by (apply Hl, elem_of_cons; by left). f_equal.
  apply IH. intros y Hy. apply Hl, elem_of_cons. by right.
Qed.

Lemma filter_none {A} (P : A -> Prop) `{!forall x, Decision (P x)} (l : list A) :
  (forall x, x ∈ l -> ~ P x) -> filter P l = [].
Proof.
  induction l as [|x l IH]; intros Hl; [done|].
  rewrite filter_cons_False by (apply Hl, elem_of_cons; by left).
  apply IH. intros y Hy. apply Hl, elem_of_cons. by right.
Qed.

(** ** Strings as bytes

    Go strings are byte strings; [string_of_bytes] is the conversion
    [string(b)], [bytes_of_string] the conversion [[]byte(s)]. *)
Fixpoint string_of_bytes (l : bytes) : string :=
  match l with
  | [] => EmptyString
  | b :: l => String (Ascii.ascii_of_N (Z.to_N b)) (string_of_bytes l)
  end.

Fixpoint bytes_of_string (s : string) : bytes :=
  match s with
  | EmptyString => []
  | String a s => Z.of_N (Ascii.N_of_ascii a) :: bytes_of_string s
  end.

Lemma string_of_bytes_of_string s : string_of_bytes (bytes_of_string s) = s.
Proof.
  induction s as [|a s IH]; [done|]. simpl.
  by rewrite N2Z.id, Ascii.ascii_N_embedding, IH.
Qed.

Lemma bytes_of_string_of_bytes l : bytes_ok l -> bytes_of_string (string_of_bytes l) = l.
Proof.
  induction 1 as [|b l Hb _ IH]; [done|]. simpl. unfold u8 in Hb.
  rewrite Ascii.N_ascii_embedding, IH, Z2N.id by lia. done.
Qed.

Lemma length_bytes_of_string s : length (bytes_of_string s) = String.length s.
Proof. induction s as [|a s IH]; simpl; congruence. Qed.

Lemma bytes_ok_of_string s : bytes_ok (bytes_of_string s).
Proof.
  induction s as [|a s IH]; constructor; [|done].
  pose proof (Ascii.N_ascii_bounded a). unfold u8. lia.
Qed.

Lemma string_app_cons a s1 s2 : String a s1 +:+ s2 = String a (s1 +:+ s2).
Proof. done. Qed.

Lemma bytes_of_string_app s1 s2 :
  bytes_of_string (s1 +:+ s2) = bytes_of_string s1 ++ bytes_of_string s2.
Proof.
  induction s1 as [|a s1 IH]; [done|]. rewrite string_app_cons. simpl. by rewrite IH.
Qed.

Lemma bytes_of_string_inj s1 s2 : bytes_of_string s1 = bytes_of_string s2 -> s1 = s2.
Proof.
  intros H. rewrite <- (string_of_bytes_of_string s1), H. apply string_of_bytes_of_string.
Qed.

(** ** Automation *)

Create HintDb go discriminated.
#[export] Hint Resolve byte_at_u8 join16_u16 join32_u32 wrap16_u16 bytes_ok_be16
  bytes_ok_make bytes_ok_of_string bytes_ok_take bytes_ok_drop : go.

Create Rewrite HintDb go_codec.
#[export] Hint Rewrite byte_at_join16_hi byte_at_join16_lo byte_at_join32_3 byte_at_join32_2
  byte_at_join32_1 byte_at_join32_0 join16_be16 join32_be32 using
  (first [assumption | unfold u8, u16, u32 in *; lia | eauto with go]) : go_codec.

(** Evaluate slicing and buffer writes on lists of known length, keeping the
    byte operations folded. *)
Ltac go_eval :=
  cbv -[join16 join32 byte_at Z.land Z.lor Z.shiftl Z.shiftr Z.eqb wrap8 wrap16
        u8 u16 u32].
Ltac go_eval_in H :=
  cbv -[join16 join32 byte_at Z.land Z.lor Z.shiftl Z.shiftr Z.eqb wrap8 wrap16
        u8 u16 u32] in H.

(** A bind that finished is a finished first part and a finished rest. *)
Lemma run_bind_finished {A B} (m : run A) (f : A -> run B) b :
  m ≫= f = Finished b -> exists a, m = Finished a /\ f a = Finished b.
Proof. destruct m as [a| |]; [|done|done]. intros H. by exists a. Qed.

Lemma lift_finished {A} (m : go A) a : lift m = Finished a -> m = Ret a.
Proof. destruct m; [|done]. by intros [= ->]. Qed.

Lemma go_bind_ret {A B} (m : go A) (f : A -> go B) b :
  m ≫= f = Ret b -> exists a, m = Ret a /\ f a = Ret b.
Proof. destruct m as [a|]; [|done]. intros H. by exists a. Qed.

(** Take a finished chain of binds apart, naming nothing. *)
Ltac run_inv :=
  repeat match goal with
  | H : Finished _ = Finished _ |- _ => injection H as H
  | H : Ret _ = Ret _ |- _ => injection H as H
  | H : Crashes = Finished _ |- _ => discriminate H
  | H : Blocks = Finished _ |- _ => discriminate H
  | H : Panic = Ret _ |- _ => discriminate H
  | H : lift _ = Finished _ |- _ => apply lift_finished in H
  | H : _ ≫= _ = Finished _ |- _ => apply run_bind_finished in H as (? & ? & H)
  | H : _ ≫= _ = Ret _ |- _ => apply go_bind_ret in H as (? & ? & H)
  end.

(** Split a [bytes_ok] or [Forall] of an explicit list into its elements. *)
Ltac bytes_inv :=
  repeat match goal with
  | H : bytes_ok (_ :: _) |- _ => apply Forall_cons in H as [? H]
  | H : Forall u8 (_ :: _) |- _ => apply Forall_cons in H as [? H]
  | H : bytes_ok [] |- _ => clear H
  | H : Forall u8 [] |- _ => clear H
  end.

Ltac bytes_solve :=
  repeat match goal with
  | |- bytes_ok (_ :: _) => apply Forall_cons; split
  | |- bytes_ok [] => apply Forall_nil_2
  | |- Forall u8 (_ :: _) => apply Forall_cons; split
  | |- Forall u8 [] => apply Forall_nil_2
  | |- _ /\ _ => split
  | |- u8 _ => first [assumption | apply byte_at_u8]
  end; try reflexivity; eauto with go.

(** Name the elements of a list of known length. *)
Ltac explode l :=
  match goal with
  | H : length l = 0 |- _ => destruct l; [clear H|discriminate H]
  | H : length l = S _ |- _ =>
      let x := fresh "x" in
      destruct l as [|x l]; [discriminate H|injection H as H; explode l]
  end.

(** ** Packed bit fields

    [hi << k | lo] in a [w]-bit word, the way the headers pack two fields. *)
Definition pack (w k hi lo : Z) : Z := Z.lor (Z.shiftl hi k mod 2 ^ w) lo.

Lemma pack_add w k hi lo :
  (0 <= k <= w)%Z -> (0 <= hi < 2 ^ (w - k))%Z -> (0 <= lo < 2 ^ k)%Z ->
  pack w k hi lo = (hi * 2 ^ k + lo)%Z.
Proof.
  intros Hk Hhi Hlo. unfold pack.
  assert (Hb : (0 <= hi * 2 ^ k < 2 ^ w)%Z).
  { replace (2 ^ w)%Z with (2 ^ (w - k) * 2 ^ k)%Z.
    2:{ rewrite <- Z.pow_add_r by lia. f_equal. lia. }
    split; [apply Z.mul_nonneg_nonneg; lia|]. apply Z.mul_lt_mono_pos_r; lia. }
  rewrite Z.shiftl_mul_pow2, Z.mod_small by lia.
  rewrite <- Z.shiftl_mul_pow2 by lia.
  rewrite Z.lor_comm, lor_shiftl_add, ?Z.shiftl_mul_pow2 by lia. lia.
Qed.

Lemma pack_bound w k hi lo :
  (0 <= k <= w)%Z -> (0 <= hi < 2 ^ (w - k))%Z -> (0 <= lo < 2 ^ k)%Z ->
  (0 <= pack w k hi lo < 2 ^ w)%Z.
Proof.
  intros Hk Hhi Hlo. rewrite pack_add by done.
  replace (2 ^ w)%Z with (2 ^ (w - k) * 2 ^ k)%Z.
  2:{ rewrite <- Z.pow_add_r by lia. f_equal. lia. }
  nia.
Qed.

Lemma pack_hi w k hi lo :
  (0 <= k <= w)%Z -> (0 <= hi < 2 ^ (w - k))%Z -> (0 <= lo < 2 ^ k)%Z ->
  Z.shiftr (pack w k hi lo) k = hi.
Proof.
  intros Hk Hhi Hlo. rewrite pack_add, Z.shiftr_div_pow2 by lia.
  rewrite Z.div_add_l, Z.div_small by lia. lia.
Qed.

Lemma pack_lo w k hi lo :
  (0 <= k <= w)%Z -> (0 <= hi < 2 ^ (w - k))%Z -> (0 <= lo < 2 ^ k)%Z ->
  Z.land (pack w k hi lo) (Z.ones k) = lo.
Proof.
  intros Hk Hhi Hlo. rewrite pack_add, Z.land_ones by lia.
  rewrite Z.add_comm, Z.mod_add by lia. by apply Z.mod_small.
Qed.

Lemma pack_unpack w k v :
  (0 <= k <= w)%Z -> (0 <= v < 2 ^ w)%Z ->
  pack w k (Z.shiftr v k) (Z.land v (Z.ones k)) = v.
Proof.
  intros Hk Hv. rewrite Z.land_ones, Z.shiftr_div_pow2 by lia.
  assert (0 < 2 ^ k)%Z by lia.
  rewrite pack_add; [|lia| |apply Z.mod_pos_bound; lia].
  - pose proof (Z.div_mod v (2 ^ k) ltac:(lia)). lia.
  - split; [apply Z.div_pos; lia|]. apply Z.div_lt_upper_bound; [lia|].
    rewrite <- Z.pow_add_r by lia. replace (k + (w - k))%Z with w by lia. lia.
Qed.
