(* ===== verification/Protocol.v ===== *)
(** * Packet headers: pkg/libol/protocol.go

    The Ethernet, VLAN, ARP, IPv4, TCP and UDP headers with their [Decode] and
    [Encode] methods.  A [Decode] method mutates its receiver and returns an
    error; the model returns the new receiver together with the error, so that
    the fields set before an early return are visible.  Slice expressions are
    bounds-checked by [slice], so a panic of the code is a [Panic] here. *)

From S2P Require Import Prelude.
Open Scope Z_scope.

Definition EthZero : bytes := [0; 0; 0; 0; 0; 0].
Definition EthAll : bytes := [255; 255; 255; 255; 255; 255].

Definition EthArp : Z := 0x0806.
Definition EthIp4 : Z := 0x0800.
Definition EthIp6 : Z := 0x86DD.
Definition EthVlan : Z := 0x8100.

Definition EtherLen : Z := 14.
Definition VlanLen : Z := 4.
Definition TcpLen : Z := 20.
Definition Ipv4Len : Z := 20.
Definition UdpLen : Z := 8.

(** ** Ethernet *)

Module Ether.

Record t := mk { Dst : bytes; Src : bytes; Type_ : Z; Len : Z }.

Definition NewEther (ty : Z) : t :=
  {| Dst := make_bytes 6; Src := make_bytes 6; Type_ := ty; Len := EtherLen |}.

Definition NewEtherArp : t := NewEther EthArp.
Definition NewEtherIP4 : t := NewEther EthIp4.

Definition Decode (e : t) (frame : bytes) : go (t * option error) :=
  if zlen frame <? 14
  then Ret (e, Some (NewErr "Ether.Decode too small header: %d" [zlen frame]))
  else
    d ← slice frame 0 6;
    dst ← copy_into (Dst e) 0 6 d;
    s ← slice frame 6 12;
    src ← copy_into (Src e) 0 6 s;
    t16 ← slice frame 12 14;
    ty ← Uint16 t16;
    Ret ({| Dst := dst; Src := src; Type_ := ty; Len := 14 |}, None).

Definition NewEtherFromFrame (frame : bytes) : go (t * option error) :=
  Decode (NewEther 0) frame.

Definition Encode (e : t) : go bytes :=
  let buffer := make_bytes 14 in
  d ← slice (Dst e) 0 6;
  buffer ← copy_into buffer 0 6 d;
  s ← slice (Src e) 0 6;
  buffer ← copy_into buffer 6 12 s;
  buffer ← PutUint16 buffer 12 14 (Type_ e);
  slice buffer 0 14.

Definition IsVlan (e : t) : bool := Type_ e =? EthVlan.
Definition IsArp (e : t) : bool := Type_ e =? EthArp.
Definition IsIP4 (e : t) : bool := Type_ e =? EthIp4.

(** A header as [NewEther] and [Decode] build it. *)
Definition wf (e : t) : Prop :=
  length (Dst e) = 6%nat /\ length (Src e) = 6%nat /\
  bytes_ok (Dst e) /\ bytes_ok (Src e) /\ u16 (Type_ e) /\ Len e = EtherLen.

#[export] Instance ether_wf_dec e : Decision (wf e).
Proof. unfold wf. apply _. Defined.

End Ether.

(** ** VLAN *)

Module Vlan.

Record t := mk { Tci : Z; Vid : Z; Pro : Z; Len : Z }.

Definition NewVlan (tci vid : Z) : t := {| Tci := tci; Vid := vid; Pro := 0; Len := VlanLen |}.

Definition Decode (n : t) (frame : bytes) : go (t * option error) :=
  if zlen frame <? VlanLen
  then Ret (n, Some (NewErr "Vlan.Decode: too small header" []))
  else
    s ← slice frame 0 2;
    v ← Uint16 s;
    s2 ← slice frame 2 4;
    pro ← Uint16 s2;
    Ret ({| Tci := wrap16 (Z.shiftr v 12); Vid := wrap16 (Z.land 0x0fff v);
            Pro := pro; Len := Len n |}, None).

Definition NewVlanFromFrame (frame : bytes) : go (t * option error) :=
  Decode {| Tci := 0; Vid := 0; Pro := 0; Len := VlanLen |} frame.

Definition Encode (n : t) : go bytes :=
  let buffer := make_bytes 16 in
  let v := Z.lor (wrap16 (Z.shiftl (Tci n) 12)) (Vid n) in
  buffer ← PutUint16 buffer 0 2 v;
  buffer ← PutUint16 buffer 2 4 (Pro n);
  slice buffer 0 4.

(** The field widths of an 802.1Q tag: four bits of priority and CFI, twelve
    bits of VLAN id. *)
Definition wf (n : t) : Prop :=
  0 <= Tci n < 2 ^ 4 /\ 0 <= Vid n < 2 ^ 12 /\ u16 (Pro n) /\ Len n = VlanLen.

#[export] Instance vlan_wf_dec n : Decision (wf n).
Proof. unfold wf. apply _. Defined.

End Vlan.

(** ** ARP *)

Definition ArpRequest : Z := 1.
Definition ArpReply : Z := 2.
Definition ArpHrdNetrom : Z := 0.
Definition ArpHrdEther : Z := 1.

Module Arp.

Record t := mk {
  HrdCode : Z; ProCode : Z; HrdLen : Z; ProLen : Z; OpCode : Z;
  SHwAddr : bytes; SIpAddr : bytes; THwAddr : bytes; TIpAddr : bytes;
  Len : Z }.

Definition NewArp : t :=
  {| HrdCode := ArpHrdEther; ProCode := EthIp4; HrdLen := 6; ProLen := 4;
     OpCode := ArpRequest; Len := 0;
     SHwAddr := make_bytes 6; SIpAddr := make_bytes 4;
     THwAddr := make_bytes 6; TIpAddr := make_bytes 4 |}.

(** The header fields, set before the address-length check. *)
Definition set_head (a : t) (hc pc hl pl : Z) : t :=
  {| HrdCode := hc; ProCode := pc; HrdLen := hl; ProLen := pl; OpCode := OpCode a;
     SHwAddr := SHwAddr a; SIpAddr := SIpAddr a; THwAddr := THwAddr a;
     TIpAddr := TIpAddr a; Len := Len a |}.

Definition set_op (a : t) (op : Z) : t :=
  {| HrdCode := HrdCode a; ProCode := ProCode a; HrdLen := HrdLen a; ProLen := ProLen a;
     OpCode := op; SHwAddr := SHwAddr a; SIpAddr := SIpAddr a; THwAddr := THwAddr a;
     TIpAddr := TIpAddr a; Len := Len a |}.

Definition set_len (a : t) (n : Z) : t :=
  {| HrdCode := HrdCode a; ProCode := ProCode a; HrdLen := HrdLen a; ProLen := ProLen a;
     OpCode := OpCode a; SHwAddr := SHwAddr a; SIpAddr := SIpAddr a; THwAddr := THwAddr a;
     TIpAddr := TIpAddr a; Len := n |}.

(** [p] is a [uint8]: every addition to it wraps at 8 bits. *)
Definition Decode (a : t) (frame : bytes) : go (t * option error) :=
  if zlen frame <? 8
  then Ret (a, Some (NewErr "Arp.Decode: too small header: %d" [zlen frame]))
  else
    hc ← (slice frame 0 2 ≫= Uint16);
    pc ← (slice frame 2 4 ≫= Uint16);
    hl ← index frame 4;
    pl ← index frame 5;
    let a := set_head a hc pc hl pl in
    if negb (hl =? 6) || negb (pl =? 4)
    then Ret (a, Some (NewErr "Arp.Decode: AddrLen: %d,%d" [hl; pl]))
    else
      op ← (slice frame 6 8 ≫= Uint16);
      let a := set_op a op in
      let p := 8 in
      if zlen frame <? wrap8 (p + wrap8 (2 * wrap8 (hl + pl)))
      then Ret (a, Some (NewErr "Arp.Decode: too small frame: %d" [zlen frame]))
      else
        f ← slice frame p (wrap8 (p + 6));
        shw ← copy_into (SHwAddr a) 0 6 f;
        let p := wrap8 (p + hl) in
        f ← slice frame p (wrap8 (p + 4));
        sip ← copy_into (SIpAddr a) 0 4 f;
        let p := wrap8 (p + pl) in
        f ← slice frame p (wrap8 (p + 6));
        thw ← copy_into (THwAddr a) 0 6 f;
        let p := wrap8 (p + hl) in
        f ← slice frame p (wrap8 (p + 4));
        tip ← copy_into (TIpAddr a) 0 4 f;
        let p := wrap8 (p + pl) in
        Ret ({| HrdCode := hc; ProCode := pc; HrdLen := hl; ProLen := pl; OpCode := op;
                SHwAddr := shw; SIpAddr := sip; THwAddr := thw; TIpAddr := tip;
                Len := p |}, None).

Definition NewArpFromFrame (frame : bytes) : go (t * option error) := Decode NewArp frame.

(** [copy(buffer[p:p+n], addr[0:n]); p += n] *)
Definition put_addr (st : bytes * Z) (addr : bytes) (n : Z) : go (bytes * Z) :=
  let '(buffer, p) := st in
  s ← slice addr 0 n;
  buffer ← copy_into buffer p (wrap8 (p + n)) s;
  Ret (buffer, wrap8 (p + n)).

(** [Encode] also stores the length it produced in the receiver. *)
Definition Encode (a : t) : go (bytes * t) :=
  let buffer := make_bytes 1024 in
  buffer ← PutUint16 buffer 0 2 (HrdCode a);
  buffer ← PutUint16 buffer 2 4 (ProCode a);
  buffer ← set_index buffer 4 (HrdLen a);
  buffer ← set_index buffer 5 (ProLen a);
  buffer ← PutUint16 buffer 6 8 (OpCode a);
  st ← put_addr (buffer, 8) (SHwAddr a) (HrdLen a);
  st ← put_addr st (SIpAddr a) (ProLen a);
  st ← put_addr st (THwAddr a) (HrdLen a);
  st ← put_addr st (TIpAddr a) (ProLen a);
  out ← slice (fst st) 0 (snd st);
  Ret (out, set_len a (snd st)).

Definition IsIP4 (a : t) : bool := ProCode a =? EthIp4.
Definition IsReply (a : t) : bool := OpCode a =? ArpReply.
Definition IsRequest (a : t) : bool := OpCode a =? ArpRequest.

Definition wf (a : t) : Prop :=
  u16 (HrdCode a) /\ u16 (ProCode a) /\ u16 (OpCode a) /\ HrdLen a = 6 /\ ProLen a = 4 /\
  length (SHwAddr a) = 6%nat /\ length (SIpAddr a) = 4%nat /\
  length (THwAddr a) = 6%nat /\ length (TIpAddr a) = 4%nat /\
  bytes_ok (SHwAddr a) /\ bytes_ok (SIpAddr a) /\
  bytes_ok (THwAddr a) /\ bytes_ok (TIpAddr a).

#[export] Instance arp_wf_dec a : Decision (wf a).
Proof. unfold wf. apply _. Defined.

End Arp.

(** ** IPv4 *)

Definition Ipv4Ver : Z := 0x04.
Definition Ipv6Ver : Z := 0x06.

Definition IpIcmp : Z := 0x01.
Definition IpIgmp : Z := 0x02.
Definition IpIpIp : Z := 0x04.
Definition IpTcp : Z := 0x06.
Definition IpUdp : Z := 0x11.
Definition IpEsp : Z := 0x32.
Definition IpAh : Z := 0x33.
Definition IpOspf : Z := 0x59.
Definition IpPim : Z := 0x67.
Definition IpVrrp : Z := 0x70.
Definition IpIsis : Z := 0x7c.

(** One digit of [%x]. *)
Definition hex_digit (d : Z) : Ascii.ascii :=
  Ascii.ascii_of_N (Z.to_N (if d <? 10 then 48 + d else 87 + d)).

(** [fmt.Sprintf("%02x", proto)] of a byte. *)
Definition hex02 (b : Z) : string :=
  String (hex_digit (Z.shiftr b 4)) (String (hex_digit (Z.land b 15)) EmptyString).

Definition IpProto2Str (proto : Z) : string :=
  if proto =? IpIcmp then "icmp"
  else if proto =? IpIgmp then "igmp"
  else if proto =? IpIpIp then "ipip"
  else if proto =? IpEsp then "esp"
  else if proto =? IpAh then "ah"
  else if proto =? IpOspf then "ospf"
  else if proto =? IpIsis then "isis"
  else if proto =? IpUdp then "udp"
  else if proto =? IpTcp then "tcp"
  else if proto =? IpPim then "pim"
  else if proto =? IpVrrp then "vrrp"
  else hex02 proto.

Module Ipv4.

Record t := mk {
  Version : Z; HeaderLen : Z; ToS : Z; TotalLen : Z; Identifier : Z;
  Flag : Z; Offset : Z; ToL : Z; Protocol : Z; HeaderChecksum : Z;
  Source : bytes; Destination : bytes; Options : Z; Len : Z }.

Definition NewIpv4 : t :=
  {| Version := 4; HeaderLen := 5; ToS := 0; TotalLen := 0; Identifier := 0;
     Flag := 0; Offset := 0; ToL := 255; Protocol := 0; HeaderChecksum := 0;
     Options := 0; Len := Ipv4Len; Source := make_bytes 4; Destination := make_bytes 4 |}.

Definition IsIP4 (i : t) : bool := Version i =? Ipv4Ver.

Definition Decode (i : t) (frame : bytes) : go (t * option error) :=
  if zlen frame <? Ipv4Len
  then Ret (i, Some (NewErr "Ipv4.Decode: too small header: %d" [zlen frame]))
  else
    h ← index frame 0;
    tos ← index frame 1;
    tl ← (slice frame 2 4 ≫= Uint16);
    ident ← (slice frame 4 6 ≫= Uint16);
    f ← (slice frame 6 8 ≫= Uint16);
    tol ← index frame 8;
    proto ← index frame 9;
    ck ← (slice frame 10 12 ≫= Uint16);
    let i1 :=
      {| Version := Z.shiftr h 4; HeaderLen := Z.land h 0x0f; ToS := tos; TotalLen := tl;
         Identifier := ident; Flag := Z.shiftr f 13; Offset := Z.land f 0x1fff; ToL := tol;
         Protocol := proto; HeaderChecksum := ck; Source := Source i;
         Destination := Destination i; Options := Options i; Len := Len i |} in
    if negb (IsIP4 i1)
    then Ret (i1, Some (NewErr "Ipv4.Decode: not right ipv4 version: 0x%x" [Version i1]))
    else
      s ← slice frame 12 16;
      src ← copy_into (Source i) 0 4 s;
      d ← slice frame 16 20;
      dst ← copy_into (Destination i) 0 4 d;
      Ret ({| Version := Version i1; HeaderLen := HeaderLen i1; ToS := ToS i1;
              TotalLen := TotalLen i1; Identifier := Identifier i1; Flag := Flag i1;
              Offset := Offset i1; ToL := ToL i1; Protocol := Protocol i1;
              HeaderChecksum := HeaderChecksum i1; Source := src; Destination := dst;
              Options := Options i1; Len := Len i1 |}, None).

Definition NewIpv4FromFrame (frame : bytes) : go (t * option error) := Decode NewIpv4 frame.

Definition Encode (i : t) : go bytes :=
  let buffer := make_bytes 32 in
  let h := Z.lor (wrap8 (Z.shiftl (Version i) 4)) (HeaderLen i) in
  buffer ← set_index buffer 0 h;
  buffer ← set_index buffer 1 (ToS i);
  buffer ← PutUint16 buffer 2 4 (TotalLen i);
  buffer ← PutUint16 buffer 4 6 (Identifier i);
  let f := Z.lor (wrap16 (Z.shiftl (Flag i) 13)) (Offset i) in
  buffer ← PutUint16 buffer 6 8 f;
  buffer ← set_index buffer 8 (ToL i);
  buffer ← set_index buffer 9 (Protocol i);
  buffer ← PutUint16 buffer 10 12 (HeaderChecksum i);
  s ← slice (Source i) 0 4;
  buffer ← copy_into buffer 12 16 s;
  d ← slice (Destination i) 0 4;
  buffer ← copy_into buffer 16 20 d;
  slice buffer 0 (Len i).

Definition wf (i : t) : Prop :=
  Version i = Ipv4Ver /\ 0 <= HeaderLen i < 2 ^ 4 /\ u8 (ToS i) /\ u16 (TotalLen i) /\
  u16 (Identifier i) /\ 0 <= Flag i < 2 ^ 3 /\ 0 <= Offset i < 2 ^ 13 /\ u8 (ToL i) /\
  u8 (Protocol i) /\ u16 (HeaderChecksum i) /\
  length (Source i) = 4%nat /\ length (Destination i) = 4%nat /\
  bytes_ok (Source i) /\ bytes_ok (Destination i) /\ Options i = 0 /\ Len i = Ipv4Len.

#[export] Instance ipv4_wf_dec i : Decision (wf i).
Proof. unfold wf. apply _. Defined.

End Ipv4.

(** ** TCP *)

Definition TcpUrg : Z := 0x20.
Definition TcpAck : Z := 0x10.
Definition TcpPsh : Z := 0x08.
Definition TcpRst : Z := 0x04.
Definition TcpSyn : Z := 0x02.
Definition TcpFin : Z := 0x01.

Module Tcp.

Record t := mk {
  Source : Z; Destination : Z; Sequence : Z; Acknowledgment : Z; DataOffset : Z;
  ControlBits : Z; Window : Z; Checksum : Z; UrgentPointer : Z;
  Options : bytes; Padding : bytes; Len : Z }.

Definition NewTcp : t :=
  {| Source := 0; Destination := 0; Sequence := 0; Acknowledgment := 0; DataOffset := 0;
     ControlBits := 0; Window := 0; Checksum := 0; UrgentPointer := 0;
     Options := []; Padding := []; Len := TcpLen |}.

Definition Decode (t0 : t) (frame : bytes) : go (t * option error) :=
  if zlen frame <? TcpLen
  then Ret (t0, Some (NewErr "Tcp.Decode: too small header: %d" [zlen frame]))
  else
    src ← (slice frame 0 2 ≫= Uint16);
    dst ← (slice frame 2 4 ≫= Uint16);
    sq ← (slice frame 4 8 ≫= Uint32);
    ack ← (slice frame 8 12 ≫= Uint32);
    off ← index frame 12;
    cb ← index frame 13;
    win ← (slice frame 14 16 ≫= Uint16);
    ck ← (slice frame 16 18 ≫= Uint16);
    up ← (slice frame 18 20 ≫= Uint16);
    Ret ({| Source := src; Destination := dst; Sequence := sq; Acknowledgment := ack;
            DataOffset := off; ControlBits := cb; Window := win; Checksum := ck;
            UrgentPointer := up; Options := Options t0; Padding := Padding t0;
            Len := Len t0 |}, None).

Definition NewTcpFromFrame (frame : bytes) : go (t * option error) := Decode NewTcp frame.

Definition Encode (t0 : t) : go bytes :=
  let buffer := make_bytes 32 in
  buffer ← PutUint16 buffer 0 2 (Source t0);
  buffer ← PutUint16 buffer 2 4 (Destination t0);
  buffer ← PutUint32 buffer 4 8 (Sequence t0);
  buffer ← PutUint32 buffer 8 12 (Acknowledgment t0);
  buffer ← set_index buffer 12 (DataOffset t0);
  buffer ← set_index buffer 13 (ControlBits t0);
  buffer ← PutUint16 buffer 14 16 (Window t0);
  buffer ← PutUint16 buffer 16 18 (Checksum t0);
  buffer ← PutUint16 buffer 18 20 (UrgentPointer t0);
  slice buffer 0 (Len t0).

Definition HasFlag (t0 : t) (flag : Z) : bool := Z.land (ControlBits t0) flag =? flag.

Definition wf (x : t) : Prop :=
  u16 (Source x) /\ u16 (Destination x) /\ u32 (Sequence x) /\ u32 (Acknowledgment x) /\
  u8 (DataOffset x) /\ u8 (ControlBits x) /\ u16 (Window x) /\ u16 (Checksum x) /\
  u16 (UrgentPointer x) /\ Options x = [] /\ Padding x = [] /\ Len x = TcpLen.

#[export] Instance tcp_wf_dec x : Decision (wf x).
Proof. unfold wf. apply _. Defined.

End Tcp.

(** ** UDP *)

Module Udp.

Record t := mk { Source : Z; Destination : Z; Length : Z; Checksum : Z; Len : Z }.

Definition NewUdp : t :=
  {| Source := 0; Destination := 0; Length := 0; Checksum := 0; Len := UdpLen |}.

Definition Decode (u : t) (frame : bytes) : go (t * option error) :=
  if zlen frame <? UdpLen
  then Ret (u, Some (NewErr "Udp.Decode: too small header: %d" [zlen frame]))
  else
    src ← (slice frame 0 2 ≫= Uint16);
    dst ← (slice frame 2 4 ≫= Uint16);
    ln ← (slice frame 4 6 ≫= Uint16);
    ck ← (slice frame 6 8 ≫= Uint16);
    Ret ({| Source := src; Destination := dst; Length := ln; Checksum := ck; Len := Len u |},
         None).

Definition NewUdpFromFrame (frame : bytes) : go (t * option error) := Decode NewUdp frame.

Definition Encode (u : t) : go bytes :=
  let buffer := make_bytes 32 in
  buffer ← PutUint16 buffer 0 2 (Source u);
  buffer ← PutUint16 buffer 2 4 (Destination u);
  buffer ← PutUint16 buffer 4 6 (Length u);
  buffer ← PutUint16 buffer 6 8 (Checksum u);
  slice buffer 0 (Len u).

Definition wf (u : t) : Prop :=
  u16 (Source u) /\ u16 (Destination u) /\ u16 (Length u) /\ u16 (Checksum u) /\ Len u = UdpLen.

#[export] Instance udp_wf_dec u : Decision (wf u).
Proof. unfold wf. apply _. Defined.

End Udp.

(** ** Decoding looks only at the header

    Every decoder depends on the first bytes of the frame alone. *)

Lemma slice_app_l {A} (l1 l2 : list A) lo hi :
  0 <= lo <= hi -> hi <= zlen l1 -> slice (l1 ++ l2) lo hi = slice l1 lo hi.
Proof.
  intros H1 H2. pose proof (zlen_nonneg l2).
  rewrite !slice_ok by (rewrite ?zlen_app; lia). f_equal.
  unfold zlen in *.
  rewrite drop_app_le by lia. rewrite take_app_le by (rewrite length_drop; lia). done.
Qed.

Lemma index_app_l l1 l2 i :
  0 <= i < zlen l1 -> index (l1 ++ l2) i = index l1 i.
Proof.
  intros H. unfold index, zlen in *.
  rewrite lookup_app_l by lia. done.
Qed.

Lemma ltb_app_l {A} (l1 l2 : list A) n : n <= zlen l1 -> (zlen (l1 ++ l2) <? n) = false.
Proof. intros H. pose proof (zlen_nonneg l2). rewrite zlen_app. apply Z.ltb_ge. lia. Qed.

Lemma ltb_self {A} (l : list A) n : n <= zlen l -> (zlen l <? n) = false.
Proof. intros H. apply Z.ltb_ge. lia. Qed.

(** Replace every access to [h ++ rest] below [n] by one to [h]. *)
Ltac head_only :=
  repeat match goal with
  | |- context [zlen (?a ++ ?b) <? ?n] => rewrite (ltb_app_l a b n) by lia
  | |- context [slice (?a ++ ?b) ?lo ?hi] => rewrite (slice_app_l a b lo hi) by lia
  | |- context [index (?a ++ ?b) ?i] => rewrite (index_app_l a b i) by lia
  end;
  repeat match goal with
  | |- context [zlen ?a <? ?n] => rewrite (ltb_self a n) by lia
  end.

Lemma ether_decode_app e h rest :
  zlen h = EtherLen -> Ether.Decode e (h ++ rest) = Ether.Decode e h.
Proof. unfold EtherLen, Ether.Decode. intros H. head_only. done. Qed.

Lemma vlan_decode_app n h rest :
  zlen h = VlanLen -> Vlan.Decode n (h ++ rest) = Vlan.Decode n h.
Proof. unfold Vlan.Decode, VlanLen. intros H. head_only. done. Qed.

Lemma ipv4_decode_app i h rest :
  zlen h = Ipv4Len -> Ipv4.Decode i (h ++ rest) = Ipv4.Decode i h.
Proof. unfold Ipv4.Decode, Ipv4Len. intros H. head_only. done. Qed.

Lemma tcp_decode_app t h rest :
  zlen h = TcpLen -> Tcp.Decode t (h ++ rest) = Tcp.Decode t h.
Proof. unfold Tcp.Decode, TcpLen. intros H. head_only. done. Qed.

Lemma udp_decode_app u h rest :
  zlen h = UdpLen -> Udp.Decode u (h ++ rest) = Udp.Decode u h.
Proof. unfold Udp.Decode, UdpLen. intros H. head_only. done. Qed.

(** ** Wire formats *)

Lemma ether_encode_wire e :
  Ether.wf e -> Ether.Encode e = Ret (Ether.Dst e ++ Ether.Src e ++ be16 (Ether.Type_ e)).
Proof.
  destruct e as [d s ty ln]. unfold Ether.wf. simpl. intros (Hd & Hs & _).
  explode d. explode s. reflexivity.
Qed.

Lemma arp_decode_app a h rest :
  zlen h = 28 -> Arp.Decode a (h ++ rest) = Arp.Decode a h.
Proof.
  unfold Arp.Decode. intros H. head_only.
  destruct (slice h 0 2 ≫= Uint16) as [hc|]; [simpl|done].
  destruct (slice h 2 4 ≫= Uint16) as [pc|]; [simpl|done].
  destruct (index h 4) as [hl|]; [simpl|done].
  destruct (index h 5) as [pl|]; [simpl|done].
  destruct (Z.eqb_spec hl 6) as [->|]; [simpl|done].
  destruct (Z.eqb_spec pl 4) as [->|]; [simpl|done].
  destruct (slice h 6 8 ≫= Uint16) as [op|]; [simpl|done].
  repeat match goal with |- context [wrap8 ?z] =>
    let v := eval vm_compute in (wrap8 z) in change (wrap8 z) with v end.
  head_only. done.
Qed.

Definition vlan_tci_word (n : Vlan.t) : Z := Z.lor (wrap16 (Z.shiftl (Vlan.Tci n) 12)) (Vlan.Vid n).

Lemma vlan_tci_word_pack n : vlan_tci_word n = pack 16 12 (Vlan.Tci n) (Vlan.Vid n).
Proof. reflexivity. Qed.

Lemma vlan_encode_wire n :
  Vlan.Encode n = Ret (be16 (vlan_tci_word n) ++ be16 (Vlan.Pro n)).
Proof. reflexivity. Qed.

Definition arp_wire (a : Arp.t) : bytes :=
  be16 (Arp.HrdCode a) ++ be16 (Arp.ProCode a) ++ [6; 4] ++ be16 (Arp.OpCode a) ++
  Arp.SHwAddr a ++ Arp.SIpAddr a ++ Arp.THwAddr a ++ Arp.TIpAddr a.

Lemma arp_encode_wire a :
  Arp.wf a -> Arp.Encode a = Ret (arp_wire a, Arp.set_len a 28).
Proof.
  destruct a as [hc pc hl pl op shw sip thw tip ln]. unfold Arp.wf. simpl.
  intros (_ & _ & _ & -> & -> & H1 & H2 & H3 & H4 & _).
  explode shw. explode sip. explode thw. explode tip. reflexivity.
Qed.

Lemma arp_wire_len a : Arp.wf a -> zlen (arp_wire a) = 28.
Proof.
  intros (_ & _ & _ & _ & _ & H1 & H2 & H3 & H4 & _).
  unfold arp_wire, zlen. rewrite !length_app, H1, H2, H3, H4. done.
Qed.

Definition ipv4_head_byte (i : Ipv4.t) : Z :=
  Z.lor (wrap8 (Z.shiftl (Ipv4.Version i) 4)) (Ipv4.HeaderLen i).
Definition ipv4_frag_word (i : Ipv4.t) : Z :=
  Z.lor (wrap16 (Z.shiftl (Ipv4.Flag i) 13)) (Ipv4.Offset i).

Lemma ipv4_encode_wire i :
  Ipv4.wf i ->
  Ipv4.Encode i =
    Ret ([ipv4_head_byte i; Ipv4.ToS i] ++ be16 (Ipv4.TotalLen i) ++
         be16 (Ipv4.Identifier i) ++ be16 (ipv4_frag_word i) ++
         [Ipv4.ToL i; Ipv4.Protocol i] ++ be16 (Ipv4.HeaderChecksum i) ++
         Ipv4.Source i ++ Ipv4.Destination i).
Proof.
  destruct i as [v hl tos tl id fl off tol pr ck s d op ln]. unfold Ipv4.wf. simpl.
  intros (-> & _ & _ & _ & _ & _ & _ & _ & _ & _ & Hs & Hd & _ & _ & _ & ->).
  explode s. explode d. reflexivity.
Qed.

Lemma tcp_encode_wire t :
  Tcp.Len t = TcpLen ->
  Tcp.Encode t =
    Ret (be16 (Tcp.Source t) ++ be16 (Tcp.Destination t) ++ be32 (Tcp.Sequence t) ++
         be32 (Tcp.Acknowledgment t) ++ [Tcp.DataOffset t; Tcp.ControlBits t] ++
         be16 (Tcp.Window t) ++ be16 (Tcp.Checksum t) ++ be16 (Tcp.UrgentPointer t)).
Proof. destruct t as [s d sq ak off cb w ck up o p ln]. simpl. intros ->. reflexivity. Qed.

Lemma udp_encode_wire u :
  Udp.Len u = UdpLen ->
  Udp.Encode u = Ret (be16 (Udp.Source u) ++ be16 (Udp.Destination u) ++
                      be16 (Udp.Length u) ++ be16 (Udp.Checksum u)).
Proof. destruct u as [s d l ck ln]. simpl. intros ->. reflexivity. Qed.

(** ** Round trips

    Each theorem gives both directions: decoding what [Encode] wrote, followed
    by any payload, yields the header again, and encoding a decoded header
    yields the bytes it was decoded from. *)

(** A frame at least [n] long splits into its header and the rest. *)
Lemma frame_split (frame : bytes) (n : nat) :
  Z.of_nat n <= zlen frame ->
  exists h rest, frame = h ++ rest /\ length h = n /\ take n frame = h.
Proof.
  intros H. exists (take n frame), (drop n frame).
  unfold zlen in *. rewrite length_take. split_and!; [by rewrite take_drop|lia|done].
Qed.

Lemma bytes_ok_app_l h rest : bytes_ok (h ++ rest) -> bytes_ok h.
Proof. rewrite bytes_ok_app. by intros [? _]. Qed.

(** Ethernet header round trip: for a well-formed header [e], [Encode e]
    succeeds with 14 bytes and [NewEtherFromFrame] of those bytes followed by
    any payload gives [e] back without error; conversely every frame of at
    least 14 bytes decodes without error to a well-formed header whose encoding
    is the first 14 bytes of the frame. *)
Theorem ether_roundtrip :
  (forall e, Ether.wf e -> exists b, Ether.Encode e = Ret b /\ zlen b = EtherLen /\
     forall payload, Ether.NewEtherFromFrame (b ++ payload) = Ret (e, None)) /\
  (forall frame, bytes_ok frame -> EtherLen <= zlen frame ->
     exists e, Ether.NewEtherFromFrame frame = Ret (e, None) /\ Ether.wf e /\
       Ether.Encode e = Ret (take 14 frame)).
Proof.
  split.
  - intros e He. rewrite ether_encode_wire by done. eexists. split; [done|].
    destruct e as [d s ty ln]. destruct He as (Hd & Hs & _ & _ & Hty & Hln); simpl in *.
    split; [unfold zlen; rewrite !length_app, Hd, Hs; done|]. intros payload.
    unfold Ether.NewEtherFromFrame.
    rewrite ether_decode_app by (unfold zlen; rewrite !length_app, Hd, Hs; done).
    subst ln. explode d. explode s. go_eval. autorewrite with go_codec. done.
  - intros frame Hok Hlen.
    destruct (frame_split frame 14) as (h & rest & -> & Hl & ->); [done|].
    unfold Ether.NewEtherFromFrame.
    rewrite ether_decode_app by (unfold zlen; by rewrite Hl).
    apply bytes_ok_app_l in Hok. clear Hlen. explode h. bytes_inv.
    eexists. split; [go_eval; reflexivity|]. split.
    + unfold Ether.wf; simpl. bytes_solve.
    + go_eval. autorewrite with go_codec. done.
Qed.

Lemma wrap16_land12 z : wrap16 (Z.land 0x0fff z) = Z.land z (Z.ones 12).
Proof.
  change 0x0fff with (Z.ones 12). rewrite Z.land_comm, Z.land_ones by lia.
  apply Z.mod_small. pose proof (Z.mod_pos_bound z (2 ^ 12) ltac:(lia)). lia.
Qed.

Lemma wrap16_shiftr z k : 0 <= k -> u16 z -> wrap16 (Z.shiftr z k) = Z.shiftr z k.
Proof.
  intros Hk Hz. unfold u16 in Hz. apply Z.mod_small. rewrite Z.shiftr_div_pow2 by done.
  assert (0 < 2 ^ k) by lia. split; [apply Z.div_pos; lia|].
  eapply Z.le_lt_trans; [apply Z.div_le_upper_bound with (q := z)|]; nia.
Qed.

(** The tag word of a VLAN header and its two fields. *)
Lemma vlan_word_fields n :
  Vlan.wf n ->
  u16 (vlan_tci_word n) /\ wrap16 (Z.shiftr (vlan_tci_word n) 12) = Vlan.Tci n /\
  wrap16 (Z.land 0x0fff (vlan_tci_word n)) = Vlan.Vid n.
Proof.
  intros (Ht & Hv & _ & _). rewrite vlan_tci_word_pack.
  pose proof (pack_bound 16 12 (Vlan.Tci n) (Vlan.Vid n)) as Hb.
  assert (Hu : u16 (pack 16 12 (Vlan.Tci n) (Vlan.Vid n))) by (unfold u16; lia).
  split; [done|]. split.
  - rewrite wrap16_shiftr, pack_hi by (done || lia). done.
  - rewrite wrap16_land12, pack_lo by lia. done.
Qed.

(** VLAN header round trip: a header whose fields fit their bit widths is
    recovered from its encoding; a decoded tag fits its widths and encodes to
    the four bytes it came from. *)
Theorem vlan_roundtrip :
  (forall n, Vlan.wf n -> exists b, Vlan.Encode n = Ret b /\ zlen b = VlanLen /\
     forall payload, Vlan.NewVlanFromFrame (b ++ payload) = Ret (n, None)) /\
  (forall frame, bytes_ok frame -> VlanLen <= zlen frame ->
     exists n, Vlan.NewVlanFromFrame frame = Ret (n, None) /\ Vlan.wf n /\
       Vlan.Encode n = Ret (take 4 frame)).
Proof.
  split.
  - intros n Hn. rewrite vlan_encode_wire. eexists. split; [done|]. split; [done|].
    intros payload. unfold Vlan.NewVlanFromFrame. rewrite vlan_decode_app by done.
    destruct (vlan_word_fields n Hn) as (Hu & Ht & Hv).
    destruct Hn as (_ & _ & Hp & Hl).
    destruct n as [tci vid pro ln]; simpl in *. unfold be16.
    cbv -[join16 byte_at Z.land Z.lor Z.shiftl Z.shiftr wrap16 vlan_tci_word].
    rewrite !join16_be16 by done. rewrite Ht, Hv. by subst ln.
  - intros frame Hok Hlen.
    destruct (frame_split frame 4) as (h & rest & -> & Hl & ->); [done|].
    unfold Vlan.NewVlanFromFrame. rewrite vlan_decode_app by (unfold zlen; by rewrite Hl).
    apply bytes_ok_app_l in Hok. clear Hlen. explode h. bytes_inv.
    eexists. split; [go_eval; reflexivity|].
    assert (Hu : u16 (join16 x x0)) by eauto with go.
    rewrite wrap16_shiftr, wrap16_land12 by (done || lia).
    split.
    + unfold Vlan.wf; simpl. unfold u16 in Hu. split_and!; [| | | |eauto with go|done].
      * apply Z.shiftr_nonneg. lia.
      * rewrite Z.shiftr_div_pow2 by lia. apply Z.div_lt_upper_bound; lia.
      * apply Z.land_nonneg. lia.
      * rewrite Z.land_ones by lia. apply Z.mod_pos_bound. lia.
    + rewrite vlan_encode_wire. simpl. unfold vlan_tci_word. simpl.
      change (Z.lor (wrap16 (Z.shiftl ?a 12)) ?b) with (pack 16 12 a b).
      rewrite pack_unpack by (unfold u16 in *; lia). unfold be16.
      by autorewrite with go_codec.
Qed.

(** ARP packet round trip for Ethernet/IPv4 packets: 28 bytes, every field
    recovered, with the length field set to the bytes consumed; a frame of at
    least 28 bytes that announces 6-byte hardware and 4-byte protocol addresses
    is accepted and re-encodes to its first 28 bytes. *)
Theorem arp_roundtrip :
  (forall a, Arp.wf a -> exists b, Arp.Encode a = Ret (b, Arp.set_len a 28) /\ zlen b = 28 /\
     forall payload, Arp.NewArpFromFrame (b ++ payload) = Ret (Arp.set_len a 28, None)) /\
  (forall frame, bytes_ok frame -> 28 <= zlen frame ->
     index frame 4 = Ret 6 -> index frame 5 = Ret 4 ->
     exists a, Arp.NewArpFromFrame frame = Ret (a, None) /\ Arp.wf a /\ Arp.Len a = 28 /\
       Arp.Encode a = Ret (take 28 frame, a)).
Proof.
  split.
  - intros a Ha. rewrite arp_encode_wire by done. eexists. split; [done|].
    split; [by apply arp_wire_len|]. intros payload. unfold Arp.NewArpFromFrame.
    rewrite arp_decode_app by (by apply arp_wire_len).
    destruct a as [hc pc hl pl op shw sip thw tip ln].
    destruct Ha as (Hhc & Hpc & Hop & Hhl & Hpl & H1 & H2 & H3 & H4 & _).
    cbn [Arp.HrdCode Arp.ProCode Arp.OpCode Arp.HrdLen Arp.ProLen Arp.SHwAddr Arp.SIpAddr
         Arp.THwAddr Arp.TIpAddr] in *.
    subst hl pl. explode shw. explode sip. explode thw. explode tip.
    cbv -[join16 byte_at]. by autorewrite with go_codec.
  - intros frame Hok Hlen.
    destruct (frame_split frame 28) as (h & rest & -> & Hl & ->); [done|].
    rewrite !index_app_l by (unfold zlen; rewrite Hl; lia).
    unfold Arp.NewArpFromFrame. rewrite arp_decode_app by (unfold zlen; by rewrite Hl).
    apply bytes_ok_app_l in Hok. clear Hlen. explode h.
    intros E4 E5. cbv in E4, E5. injection E4 as ->. injection E5 as ->. bytes_inv.
    eexists. split; [cbv -[join16]; reflexivity|]. split; [unfold Arp.wf; simpl; bytes_solve|].
    split; [done|]. cbv -[join16 byte_at]. by autorewrite with go_codec.
Qed.

Lemma ipv4_head_byte_pack i :
  ipv4_head_byte i = pack 8 4 (Ipv4.Version i) (Ipv4.HeaderLen i).
Proof. reflexivity. Qed.

Lemma ipv4_frag_word_pack i : ipv4_frag_word i = pack 16 13 (Ipv4.Flag i) (Ipv4.Offset i).
Proof. reflexivity. Qed.

(** The two packed fields of an IPv4 header. *)
Lemma ipv4_packed_fields i :
  Ipv4.wf i ->
  Z.shiftr (ipv4_head_byte i) 4 = Ipv4Ver /\
  Z.land (ipv4_head_byte i) 0x0f = Ipv4.HeaderLen i /\
  u16 (ipv4_frag_word i) /\
  Z.shiftr (ipv4_frag_word i) 13 = Ipv4.Flag i /\
  Z.land (ipv4_frag_word i) 0x1fff = Ipv4.Offset i.
Proof.
  intros (Hv & Hh & _ & _ & _ & Hf & Ho & _).
  rewrite ipv4_head_byte_pack, ipv4_frag_word_pack, Hv.
  change 0x0f with (Z.ones 4). change 0x1fff with (Z.ones 13). unfold Ipv4Ver.
  rewrite !pack_hi, !pack_lo by lia.
  pose proof (pack_bound 16 13 (Ipv4.Flag i) (Ipv4.Offset i)). unfold u16. lia.
Qed.

Definition ipv4_wire (i : Ipv4.t) : bytes :=
  [ipv4_head_byte i; Ipv4.ToS i] ++ be16 (Ipv4.TotalLen i) ++
  be16 (Ipv4.Identifier i) ++ be16 (ipv4_frag_word i) ++
  [Ipv4.ToL i; Ipv4.Protocol i] ++ be16 (Ipv4.HeaderChecksum i) ++
  Ipv4.Source i ++ Ipv4.Destination i.

Lemma ipv4_wire_len i : Ipv4.wf i -> zlen (ipv4_wire i) = Ipv4Len.
Proof.
  intros (_ & _ & _ & _ & _ & _ & _ & _ & _ & _ & Hs & Hd & _).
  unfold ipv4_wire, zlen. rewrite !length_app, Hs, Hd. done.
Qed.

Lemma ipv4_head_unpack h :
  u8 h -> Z.shiftr h 4 = 4 -> Z.lor (wrap8 (Z.shiftl 4 4)) (Z.land h 15) = h.
Proof.
  intros Hh E. unfold u8 in Hh. pose proof (pack_unpack 8 4 h) as P. rewrite E in P.
  apply P; lia.
Qed.

Lemma ipv4_frag_unpack f :
  u16 f -> Z.lor (wrap16 (Z.shiftl (Z.shiftr f 13) 13)) (Z.land f 8191) = f.
Proof. intros Hf. unfold u16 in Hf. apply (pack_unpack 16 13); lia. Qed.

(** IPv4 header round trip: a well-formed option-less header is recovered
    from its 20 encoded bytes; a frame of at least 20 bytes whose version
    nibble is 4 decodes to a well-formed header that re-encodes to those 20
    bytes, and a frame with another version nibble is refused. *)
Theorem ipv4_roundtrip :
  (forall i, Ipv4.wf i -> exists b, Ipv4.Encode i = Ret b /\ zlen b = Ipv4Len /\
     forall payload, Ipv4.NewIpv4FromFrame (b ++ payload) = Ret (i, None)) /\
  (forall frame h0, bytes_ok frame -> Ipv4Len <= zlen frame -> index frame 0 = Ret h0 ->
     if Z.shiftr h0 4 =? Ipv4Ver then
       exists i, Ipv4.NewIpv4FromFrame frame = Ret (i, None) /\ Ipv4.wf i /\
         Ipv4.Encode i = Ret (take 20 frame)
     else
       exists i err, Ipv4.NewIpv4FromFrame frame = Ret (i, Some err)).
Proof.
  split.
  - intros i Hi. rewrite ipv4_encode_wire by done. eexists. split; [done|].
    split; [by apply ipv4_wire_len|]. intros payload. unfold Ipv4.NewIpv4FromFrame.
    rewrite (ipv4_decode_app _ (ipv4_wire i)) by (by apply ipv4_wire_len).
    pose proof (ipv4_packed_fields i Hi) as (Ev & Eh & Hu & Ef & Eo). revert Ev Eh Hu Ef Eo.
    unfold ipv4_wire. generalize (ipv4_head_byte i) (ipv4_frag_word i).
    destruct i as [v hl tos tl id fl off tol pr ck s d op ln].
    destruct Hi as (Hv & Hh & Ht & Htl & Hid & Hf & Ho & Htol & Hpr & Hck & Hs & Hd & _ & _ & Hop & Hln).
    cbn [Ipv4.Version Ipv4.Source Ipv4.Destination Ipv4.TotalLen Ipv4.Identifier Ipv4.HeaderChecksum
         Ipv4.HeaderLen Ipv4.Flag Ipv4.Offset Ipv4.Options Ipv4.Len] in *.
    subst v op ln. explode s. explode d. intros hb fw Ev Eh Hu Ef Eo.
    cbv -[join16 byte_at Z.shiftr Z.land Z.eqb].
    autorewrite with go_codec. rewrite Ev, Eh, Ef, Eo. done.
  - intros frame h0 Hok Hlen.
    destruct (frame_split frame 20) as (h & rest & -> & Hl & ->); [done|].
    rewrite index_app_l by (unfold zlen; rewrite Hl; lia).
    unfold Ipv4.NewIpv4FromFrame. rewrite ipv4_decode_app by (unfold zlen; by rewrite Hl).
    apply bytes_ok_app_l in Hok. clear Hlen. explode h. bytes_inv.
    intros E0. cbv in E0. injection E0 as <-.
    destruct (Z.eqb_spec (Z.shiftr x 4) Ipv4Ver) as [Ev|Ev]; unfold Ipv4Ver in Ev.
    + assert (Hu : u16 (join16 x5 x6)) by eauto with go.
      eexists. split.
      { cbv -[join16 Z.shiftr Z.land Z.eqb Z.pow]. rewrite Ev. reflexivity. }
      split.
      * unfold Ipv4.wf; simpl. unfold u8, u16 in Hu, H.
        change 15 with (Z.ones 4). change 8191 with (Z.ones 13).
        rewrite !Z.land_ones, Z.shiftr_div_pow2 by lia.
        split_and!; try (apply Z.mod_pos_bound; lia); bytes_solve.
        { apply Z.div_pos; lia. }
        { apply Z.div_lt_upper_bound; lia. }
      * cbv -[join16 byte_at Z.shiftl Z.shiftr Z.land Z.lor wrap8 wrap16].
        rewrite ipv4_head_unpack, ipv4_frag_unpack by done.
        by autorewrite with go_codec.
    + eexists _, _. cbv -[join16 Z.shiftr Z.land Z.eqb Z.pow].
      destruct (Z.eqb_spec (Z.shiftr x 4) 4) as [?|_]; done.
Qed.

(** TCP header round trip over the fixed 20-byte header (the code keeps
    options and padding empty): every field, the 32-bit sequence numbers
    included, survives encode-decode and decode-encode. *)
Theorem tcp_roundtrip :
  (forall t, Tcp.wf t -> exists b, Tcp.Encode t = Ret b /\ zlen b = TcpLen /\
     forall payload, Tcp.NewTcpFromFrame (b ++ payload) = Ret (t, None)) /\
  (forall frame, bytes_ok frame -> TcpLen <= zlen frame ->
     exists t, Tcp.NewTcpFromFrame frame = Ret (t, None) /\ Tcp.wf t /\
       Tcp.Encode t = Ret (take 20 frame)).
Proof.
  split.
  - intros t Ht. rewrite tcp_encode_wire by apply Ht. eexists. split; [done|].
    split; [done|]. intros payload. unfold Tcp.NewTcpFromFrame. rewrite tcp_decode_app by done.
    destruct t as [sp dp sq ak off cb w ck up o p ln].
    destruct Ht as (? & ? & ? & ? & ? & ? & ? & ? & ? & Ho & Hp & Hln).
    cbn [Tcp.Source Tcp.Destination Tcp.Sequence Tcp.Acknowledgment Tcp.DataOffset
         Tcp.ControlBits Tcp.Window Tcp.Checksum Tcp.UrgentPointer Tcp.Options Tcp.Padding
         Tcp.Len] in *.
    subst o p ln. cbv -[join16 join32 byte_at]. by autorewrite with go_codec.
  - intros frame Hok Hlen.
    destruct (frame_split frame 20) as (h & rest & -> & Hl & ->); [done|].
    unfold Tcp.NewTcpFromFrame. rewrite tcp_decode_app by (unfold zlen; by rewrite Hl).
    apply bytes_ok_app_l in Hok. clear Hlen. explode h. bytes_inv.
    eexists. split; [cbv -[join16 join32]; reflexivity|].
    split; [unfold Tcp.wf; simpl; bytes_solve|].
    cbv -[join16 join32 byte_at]. by autorewrite with go_codec.
Qed.

(** UDP header round trip over its 8 bytes. *)
Theorem udp_roundtrip :
  (forall u, Udp.wf u -> exists b, Udp.Encode u = Ret b /\ zlen b = UdpLen /\
     forall payload, Udp.NewUdpFromFrame (b ++ payload) = Ret (u, None)) /\
  (forall frame, bytes_ok frame -> UdpLen <= zlen frame ->
     exists u, Udp.NewUdpFromFrame frame = Ret (u, None) /\ Udp.wf u /\
       Udp.Encode u = Ret (take 8 frame)).
Proof.
  split.
  - intros u Hu. rewrite udp_encode_wire by apply Hu. eexists. split; [done|].
    split; [done|]. intros payload. unfold Udp.NewUdpFromFrame. rewrite udp_decode_app by done.
    destruct u as [sp dp l ck ln]. destruct Hu as (? & ? & ? & ? & Hln).
    cbn [Udp.Source Udp.Destination Udp.Length Udp.Checksum Udp.Len] in *.
    subst ln. cbv -[join16 byte_at]. by autorewrite with go_codec.
  - intros frame Hok Hlen.
    destruct (frame_split frame 8) as (h & rest & -> & Hl & ->); [done|].
    unfold Udp.NewUdpFromFrame. rewrite udp_decode_app by (unfold zlen; by rewrite Hl).
    apply bytes_ok_app_l in Hok. clear Hlen. explode h. bytes_inv.
    eexists. split; [cbv -[join16]; reflexivity|].
    split; [unfold Udp.wf; simpl; bytes_solve|].
    cbv -[join16 byte_at]. by autorewrite with go_codec.
Qed.

(** ** No decoder panics

    Every slice expression of the decoders is guarded by the length check that
    precedes it. *)

Lemma ether_decode_total frame :
  exists e err, Ether.NewEtherFromFrame frame = Ret (e, err) /\
    (err = None <-> EtherLen <= zlen frame) /\ (err = None -> Ether.Len e = EtherLen).
Proof.
  destruct (Z.lt_ge_cases (zlen frame) EtherLen) as [Hs|Hl].
  - eexists _, _. unfold Ether.NewEtherFromFrame, Ether.Decode, EtherLen in *.
    rewrite (proj2 (Z.ltb_lt _ _)) by done. split; [done|]. split; [split; [done|lia]|done].
  - destruct (frame_split frame 14) as (h & rest & -> & Hh & _); [done|].
    unfold Ether.NewEtherFromFrame. rewrite ether_decode_app by (unfold zlen; by rewrite Hh).
    explode h. eexists _, _. split; [cbv -[join16]; reflexivity|]. done.
Qed.

Lemma vlan_decode_total frame :
  exists n err, Vlan.NewVlanFromFrame frame = Ret (n, err) /\
    (err = None <-> VlanLen <= zlen frame) /\ Vlan.Len n = VlanLen.
Proof.
  destruct (Z.lt_ge_cases (zlen frame) VlanLen) as [Hs|Hl].
  - eexists _, _. unfold Vlan.NewVlanFromFrame, Vlan.Decode.
    rewrite (proj2 (Z.ltb_lt _ _)) by done. split; [done|]. split; [split; [done|lia]|done].
  - destruct (frame_split frame 4) as (h & rest & -> & Hh & _); [done|].
    unfold Vlan.NewVlanFromFrame. rewrite vlan_decode_app by (unfold zlen; by rewrite Hh).
    explode h. eexists _, _. split; [cbv -[join16 wrap16 Z.shiftr Z.land]; reflexivity|]. done.
Qed.

Lemma ipv4_decode_total frame :
  exists i err, Ipv4.NewIpv4FromFrame frame = Ret (i, err) /\
    (err = None -> Ipv4Len <= zlen frame) /\ Ipv4.Len i = Ipv4Len.
Proof.
  destruct (Z.lt_ge_cases (zlen frame) Ipv4Len) as [Hs|Hl].
  - eexists _, _. unfold Ipv4.NewIpv4FromFrame, Ipv4.Decode.
    rewrite (proj2 (Z.ltb_lt _ _)) by done. done.
  - destruct (frame_split frame 20) as (h & rest & -> & Hh & _); [done|].
    unfold Ipv4.NewIpv4FromFrame. rewrite ipv4_decode_app by (unfold zlen; by rewrite Hh).
    explode h. cbv -[join16 Z.shiftr Z.land Z.eqb zlen].
    destruct (Z.shiftr x 4 =? 4); eexists _, _; done.
Qed.

Lemma tcp_decode_total frame :
  exists t err, Tcp.NewTcpFromFrame frame = Ret (t, err) /\ (err = None <-> TcpLen <= zlen frame).
Proof.
  destruct (Z.lt_ge_cases (zlen frame) TcpLen) as [Hs|Hl].
  - eexists _, _. unfold Tcp.NewTcpFromFrame, Tcp.Decode.
    rewrite (proj2 (Z.ltb_lt _ _)) by done. split; [done|]. split; [done|lia].
  - destruct (frame_split frame 20) as (h & rest & -> & Hh & _); [done|].
    unfold Tcp.NewTcpFromFrame. rewrite tcp_decode_app by (unfold zlen; by rewrite Hh).
    explode h. eexists _, _. split; [cbv -[join16 join32]; reflexivity|]. done.
Qed.

Lemma udp_decode_total frame :
  exists u err, Udp.NewUdpFromFrame frame = Ret (u, err) /\ (err = None <-> UdpLen <= zlen frame).
Proof.
  destruct (Z.lt_ge_cases (zlen frame) UdpLen) as [Hs|Hl].
  - eexists _, _. unfold Udp.NewUdpFromFrame, Udp.Decode.
    rewrite (proj2 (Z.ltb_lt _ _)) by done. split; [done|]. split; [done|lia].
  - destruct (frame_split frame 8) as (h & rest & -> & Hh & _); [done|].
    unfold Udp.NewUdpFromFrame. rewrite udp_decode_app by (unfold zlen; by rewrite Hh).
    explode h. eexists _, _. split; [cbv -[join16]; reflexivity|]. done.
Qed.

Lemma slice16_ok frame lo hi :
  0 <= lo -> hi = lo + 2 -> hi <= zlen frame -> exists v, (slice frame lo hi ≫= Uint16) = Ret v.
Proof.
  intros Hlo -> Hhi. rewrite slice_ok by lia. replace (lo + 2 - lo) with 2 by lia.
  assert (2 <= length (drop (Z.to_nat lo) frame))%nat
    by (rewrite length_drop; unfold zlen in *; lia).
  destruct (drop (Z.to_nat lo) frame) as [|b0 [|b1 l]]; simpl in *; [lia|lia|].
  by eexists.
Qed.

Lemma index_ok (frame : bytes) i : 0 <= i < zlen frame -> exists b, index frame i = Ret b.
Proof.
  intros H. unfold index. rewrite (proj2 (Z.leb_le 0 i)) by lia.
  destruct (lookup_lt_is_Some_2 frame (Z.to_nat i)) as [b ->]; [unfold zlen in *; lia|].
  by eexists.
Qed.

(** An ARP frame decodes without error exactly when it has 28 bytes and announces
    6-byte hardware and 4-byte protocol addresses. *)
Lemma arp_decode_total frame :
  exists a err, Arp.NewArpFromFrame frame = Ret (a, err) /\
    (err = None <-> 28 <= zlen frame /\ index frame 4 = Ret 6 /\ index frame 5 = Ret 4).
Proof.
  unfold Arp.NewArpFromFrame, Arp.Decode. destruct (Z.ltb_spec (zlen frame) 8) as [H8|H8].
  { eexists _, _. split; [done|]. split; [done|lia]. }
  destruct (slice16_ok frame 0 2) as [hc ->]; [done|done|lia|]. simpl.
  destruct (slice16_ok frame 2 4) as [pc ->]; [done|done|lia|]. simpl.
  destruct (index_ok frame 4) as [hl ->]; [lia|]. simpl.
  destruct (index_ok frame 5) as [pl ->]; [lia|]. simpl.
  destruct (Z.eqb_spec hl 6) as [->|Hhl]; simpl.
  2:{ eexists _, _. split; [done|]. split; [done|]. intros (_ & H & _). congruence. }
  destruct (Z.eqb_spec pl 4) as [->|Hpl]; simpl.
  2:{ eexists _, _. split; [done|]. split; [done|]. intros (_ & _ & H). congruence. }
  destruct (slice16_ok frame 6 8) as [op ->]; [done|done|lia|]. simpl.
  repeat match goal with |- context [wrap8 ?z] =>
    let v := eval vm_compute in (wrap8 z) in change (wrap8 z) with v end.
  destruct (Z.ltb_spec (zlen frame) 28) as [H28|H28].
  { eexists _, _. split; [done|]. split; [done|lia]. }
  repeat (rewrite slice_ok by lia; simpl).
  eexists _, _. done.
Qed.
