(* ===== verification/Message.v ===== *)
(** * Messages on the wire: pkg/libol/message.go

    [FrameProto] (a decoded Ethernet frame), [FrameMessage] (a frame with its
    four-byte header), [ControlMessage], and the two [Messager]s that send and
    receive frames over a stream and over datagrams.

    [m.frame] is a window of [m.buffer] that starts at [HlSize]; the model keeps
    the buffer and the length of the window, so that a write through the window
    is a write to the buffer.  The connection is an oracle: the sequence of
    results of its [Read] and [Write] calls, so that every theorem holds for
    every fragmentation.  Block ciphers (third-party code) are a record of two
    functions with their laws as a type class. *)

From S2P Require Import Prelude Protocol.
Open Scope Z_scope.

Definition MaxFrame : Z := 1600.
Definition MaxBuf : Z := 4096.
Definition HlMI : Z := 2.
Definition HlLI : Z := 4.
Definition HlSize : Z := 4.
Definition EthDI : Z := 6.
Definition MaxMsg : Z := 1600 * 8.

Definition MAGIC : bytes := [255; 255].

Definition LoginReq : string := "logi= ".
Definition LoginResp : string := "logi: ".
Definition NeighborReq : string := "neig= ".
Definition NeighborResp : string := "neig: ".
Definition IpAddrReq : string := "ipad= ".
Definition IpAddrResp : string := "ipad: ".
Definition LeftReq : string := "left= ".
Definition SignReq : string := "sign= ".
Definition PingReq : string := "ping= ".
Definition PongResp : string := "pong: ".

(** ** Decoded frames *)

Definition isControl (data : bytes) : bool :=
  if zlen data <? 6 then false
  else bool_decide (take 6 data = EthZero).

Record FrameProto := {
  fp_Eth : option Ether.t;
  fp_Vlan : option Vlan.t;
  fp_Arp : option Arp.t;
  fp_Ip4 : option Ipv4.t;
  fp_Udp : option Udp.t;
  fp_Tcp : option Tcp.t;
  fp_Err : option error;
  fp_Frame : bytes }.

Definition new_proto (frame : bytes) : FrameProto :=
  {| fp_Eth := None; fp_Vlan := None; fp_Arp := None; fp_Ip4 := None; fp_Udp := None;
     fp_Tcp := None; fp_Err := None; fp_Frame := frame |}.

(** The switch on the Ethernet type, after the optional VLAN tag. *)
Definition proto_network (i : FrameProto) (ty : Z) (data : bytes) : go FrameProto :=
  if ty =? EthIp4 then
    r ← Ipv4.NewIpv4FromFrame data;
    let '(ip, err) := r in
    let i := {| fp_Eth := fp_Eth i; fp_Vlan := fp_Vlan i; fp_Arp := fp_Arp i;
                fp_Ip4 := Some ip; fp_Udp := fp_Udp i; fp_Tcp := fp_Tcp i;
                fp_Err := err; fp_Frame := fp_Frame i |} in
    match err with
    | Some _ => Ret i
    | None =>
        data ← slice_from data (Ipv4.Len ip);
        if Ipv4.Protocol ip =? IpTcp then
          r ← Tcp.NewTcpFromFrame data;
          let '(tcp, err) := r in
          Ret {| fp_Eth := fp_Eth i; fp_Vlan := fp_Vlan i; fp_Arp := fp_Arp i;
                 fp_Ip4 := fp_Ip4 i; fp_Udp := fp_Udp i; fp_Tcp := Some tcp;
                 fp_Err := err; fp_Frame := fp_Frame i |}
        else if Ipv4.Protocol ip =? IpUdp then
          r ← Udp.NewUdpFromFrame data;
          let '(udp, err) := r in
          Ret {| fp_Eth := fp_Eth i; fp_Vlan := fp_Vlan i; fp_Arp := fp_Arp i;
                 fp_Ip4 := fp_Ip4 i; fp_Udp := Some udp; fp_Tcp := fp_Tcp i;
                 fp_Err := err; fp_Frame := fp_Frame i |}
        else Ret i
    end
  else if ty =? EthArp then
    r ← Arp.NewArpFromFrame data;
    let '(arp, err) := r in
    Ret {| fp_Eth := fp_Eth i; fp_Vlan := fp_Vlan i; fp_Arp := Some arp;
           fp_Ip4 := fp_Ip4 i; fp_Udp := fp_Udp i; fp_Tcp := fp_Tcp i;
           fp_Err := err; fp_Frame := fp_Frame i |}
  else Ret i.

(** The returned error is the [Err] field of the result. *)
Definition proto_Decode (i : FrameProto) : go FrameProto :=
  let data := fp_Frame i in
  r ← Ether.NewEtherFromFrame data;
  let '(eth, err) := r in
  let i := {| fp_Eth := Some eth; fp_Vlan := fp_Vlan i; fp_Arp := fp_Arp i; fp_Ip4 := fp_Ip4 i;
              fp_Udp := fp_Udp i; fp_Tcp := fp_Tcp i; fp_Err := err; fp_Frame := fp_Frame i |} in
  match err with
  | Some _ => Ret i
  | None =>
      data ← slice_from data (Ether.Len eth);
      if Ether.IsVlan eth then
        r ← Vlan.NewVlanFromFrame data;
        let '(vlan, err) := r in
        let i := {| fp_Eth := fp_Eth i; fp_Vlan := Some vlan; fp_Arp := fp_Arp i;
                    fp_Ip4 := fp_Ip4 i; fp_Udp := fp_Udp i; fp_Tcp := fp_Tcp i;
                    fp_Err := err; fp_Frame := fp_Frame i |} in
        match err with
        | Some _ => Ret i
        | None =>
            data ← slice_from data (Vlan.Len vlan);
            proto_network i (Ether.Type_ eth) data
        end
      else proto_network i (Ether.Type_ eth) data
  end.

(** ** Frame messages *)

Record FrameMessage := {
  control : bool;
  action : string;
  params : bytes;
  buffer : bytes;
  frame_len : Z;            (* length of the window [frame = buffer[HlSize:HlSize+frame_len]] *)
  size : Z;
  total : Z;
  proto : option FrameProto }.

Definition Frame (m : FrameMessage) : bytes :=
  take (Z.to_nat (frame_len m)) (drop (Z.to_nat HlSize) (buffer m)).

Definition NewFrameMessage (maxSize : Z) : FrameMessage :=
  let maxSize := if maxSize <=? 0 then MaxBuf else maxSize in
  let maxSize := maxSize + (HlSize + EthDI) in
  {| control := false; action := ""; params := []; buffer := make_bytes maxSize;
     frame_len := maxSize - HlSize; size := 0; total := maxSize - HlSize; proto := None |}.

Definition NewFrameMessageFromBytes (buf : bytes) : go FrameMessage :=
  frame ← slice_from buf HlSize;
  Ret {| control := false; action := ""; params := []; buffer := buf;
         frame_len := zlen frame; size := zlen frame; total := zlen frame; proto := None |}.

(** [Decode] returns [m.control]. *)
Definition Decode (m : FrameMessage) : go FrameMessage :=
  let c := isControl (Frame m) in
  if c then
    if zlen (Frame m) <? 2 * EthDI
    then Ret {| control := c; action := action m; params := params m; buffer := buffer m;
                frame_len := frame_len m; size := size m; total := total m; proto := proto m |}
    else
      a ← slice (Frame m) EthDI (2 * EthDI);
      p ← slice_from (Frame m) (2 * EthDI);
      Ret {| control := c; action := string_of_bytes a; params := p; buffer := buffer m;
             frame_len := frame_len m; size := size m; total := total m; proto := proto m |}
  else
    Ret {| control := c; action := action m; params := params m; buffer := buffer m;
           frame_len := frame_len m; size := size m; total := total m; proto := proto m |}.

Definition IsEthernet (m : FrameMessage) : bool := negb (control m).
Definition IsControl (m : FrameMessage) : bool := control m.
Definition CmdAndParams (m : FrameMessage) : string * bytes := (action m, params m).

(** [copy(m.frame[off:], data)] through the window. *)
Definition frame_copy (m : FrameMessage) (off : Z) (data : bytes) : go bytes :=
  if (0 <=? off) && (off <=? frame_len m)
  then copy_into (buffer m) (HlSize + off) (HlSize + frame_len m) data
  else Panic.

Definition Append (m : FrameMessage) (data : bytes) : go FrameMessage :=
  let add := zlen data in
  if add <=? total m - size m then
    b ← frame_copy m (size m) data;
    Ret {| control := control m; action := action m; params := params m; buffer := b;
           frame_len := frame_len m; size := size m + add; total := total m; proto := proto m |}
  else Ret m.

Definition SetSize (m : FrameMessage) (v : Z) : FrameMessage :=
  {| control := control m; action := action m; params := params m; buffer := buffer m;
     frame_len := frame_len m; size := v; total := total m; proto := proto m |}.

(** [Proto] decodes once and keeps the result. *)
Definition Proto (m : FrameMessage) : go (FrameMessage * FrameProto * option error) :=
  match proto m with
  | Some p => Ret (m, p, fp_Err p)
  | None =>
      p ← proto_Decode (new_proto (Frame m));
      Ret ({| control := control m; action := action m; params := params m;
              buffer := buffer m; frame_len := frame_len m; size := size m;
              total := total m; proto := Some p |}, p, fp_Err p)
  end.

(** ** Control messages *)

Record ControlMessage := {
  cm_control : bool;
  cm_operator : string;
  cm_action : string;
  cm_params : bytes }.

Definition NewControlMessage (act opr : string) (body : bytes) : ControlMessage :=
  {| cm_control := true; cm_action := act; cm_params := body; cm_operator := opr |}.

Definition control_Encode (c : ControlMessage) : go FrameMessage :=
  a ← slice (bytes_of_string (cm_action c)) 0 4;
  o ← slice (bytes_of_string (cm_operator c)) 0 2;
  let p := a ++ o ++ cm_params c in
  let frame := NewFrameMessage (zlen p) in
  let frame := {| control := cm_control c; action := cm_action c +:+ cm_operator c;
                  params := cm_params c; buffer := buffer frame;
                  frame_len := frame_len frame; size := size frame; total := total frame;
                  proto := proto frame |} in
  frame ← Append frame EthZero;
  Append frame p.

Definition NewControlFrame (act : string) (body : bytes) : go FrameMessage :=
  a ← slice (bytes_of_string act) 0 4;
  o ← slice_from (bytes_of_string act) 4;
  control_Encode (NewControlMessage (string_of_bytes a) (string_of_bytes o) body).

(** ** Block ciphers

    [kcp.BlockCrypt] of the vendored kcp-go. *)
Record BlockCrypt := { Encrypt : bytes -> bytes; Decrypt : bytes -> bytes }.

(** What the messagers rely on: a cipher keeps lengths and bytes, and decrypting
    a prefix of a ciphertext gives that prefix of the plaintext (the ciphers run
    in CFB mode or are a byte-wise xor). *)
Class BlockLaws (b : BlockCrypt) : Prop := {
  encrypt_length : forall l, length (Encrypt b l) = length l;
  decrypt_length : forall l, length (Decrypt b l) = length l;
  decrypt_prefix : forall l n, Decrypt b (take n (Encrypt b l)) = take n l }.

(** [simpleXORBlockCrypt]: xor with a key table, over the shorter of the two. *)
Fixpoint xor_bytes (src tbl : bytes) : bytes :=
  match src, tbl with
  | s :: src, t :: tbl => Z.lxor s t :: xor_bytes src tbl
  | _, _ => src
  end.

Definition simpleXOR (xortbl : bytes) : BlockCrypt :=
  {| Encrypt l := xor_bytes l xortbl; Decrypt l := xor_bytes l xortbl |}.

Lemma xor_bytes_length src tbl : length (xor_bytes src tbl) = length src.
Proof.
  revert tbl. induction src as [|s src IH]; intros [|t tbl]; simpl; [done..|]. by rewrite IH.
Qed.

Lemma xor_bytes_prefix src tbl n : xor_bytes (take n (xor_bytes src tbl)) tbl = take n src.
Proof.
  revert tbl n. induction src as [|s src IH]; intros [|t tbl] [|n]; simpl; try done.
  rewrite IH, Z.lxor_assoc, Z.lxor_nilpotent, Z.lxor_0_r. done.
Qed.

#[export] Instance simpleXOR_laws xortbl : BlockLaws (simpleXOR xortbl).
Proof.
  split; intros; simpl; [apply xor_bytes_length|apply xor_bytes_length|apply xor_bytes_prefix].
Qed.

(** [s.block] may be nil: no encryption. *)
Definition encrypt_with (block : option BlockCrypt) (l : bytes) : bytes :=
  match block with Some b => Encrypt b l | None => l end.
Definition decrypt_with (block : option BlockCrypt) (l : bytes) : bytes :=
  match block with Some b => Decrypt b l | None => l end.

Definition block_ok (block : option BlockCrypt) : Prop :=
  match block with Some b => BlockLaws b | None => True end.

Lemma encrypt_with_length block l :
  block_ok block -> length (encrypt_with block l) = length l.
Proof. destruct block as [b|]; simpl; [|done]. intros ?. apply encrypt_length. Qed.

Lemma decrypt_with_length block l :
  block_ok block -> length (decrypt_with block l) = length l.
Proof. destruct block as [b|]; simpl; [|done]. intros ?. apply decrypt_length. Qed.

Lemma decrypt_with_prefix block l n :
  block_ok block -> decrypt_with block (take n (encrypt_with block l)) = take n l.
Proof. destruct block as [b|]; simpl; [|done]. intros ?. apply decrypt_prefix. Qed.

(** ** Connections

    A [net.Conn] as the results its calls will have.  [rx]: each element is a
    segment that arrives, or the error of a [Read] (or of the deadline set
    before it).  [wr]: for each [Write], the number of bytes it accepts, or its
    error.  [tx]: the bytes written so far. *)
Record Conn := {
  rx : list (bytes + error);
  wr : list (Z + error);
  tx : bytes }.

(** Read on a stream into a slice of [k] bytes.  [None]: blocks, nothing will
    arrive.  A read into an empty slice returns at once with no byte. *)
Definition stream_read (c : Conn) (k : Z) : option (Conn * result bytes) :=
  if k <=? 0 then Some (c, inl [])
  else match rx c with
  | [] => None
  | inr e :: l => Some ({| rx := l; wr := wr c; tx := tx c |}, inr e)
  | inl seg :: l =>
      if zlen seg <=? k then Some ({| rx := l; wr := wr c; tx := tx c |}, inl seg)
      else Some ({| rx := inl (drop (Z.to_nat k) seg) :: l; wr := wr c; tx := tx c |},
                 inl (take (Z.to_nat k) seg))
  end.

(** Read of a datagram: what does not fit is lost. *)
Definition packet_read (c : Conn) (k : Z) : option (Conn * result bytes) :=
  match rx c with
  | [] => None
  | inr e :: l => Some ({| rx := l; wr := wr c; tx := tx c |}, inr e)
  | inl seg :: l =>
      Some ({| rx := l; wr := wr c; tx := tx c |}, inl (take (Z.to_nat k) seg))
  end.

Definition conn_write (c : Conn) (tmp : bytes) : option (Conn * result Z) :=
  match wr c with
  | [] => None
  | inr e :: l => Some ({| rx := rx c; wr := l; tx := tx c |}, inr e)
  | inl n :: l =>
      let n := Z.max 0 (Z.min n (zlen tmp)) in
      Some ({| rx := rx c; wr := l; tx := tx c ++ take (Z.to_nat n) tmp |}, inl n)
  end.

(** The outcome of an operation on a connection: it returns, blocks for ever
    on the connection, or is still looping when the fuel is spent. *)
Inductive io (A : Type) : Type :=
| Done (a : A)
| Blocked
| Spinning.
Arguments Done {A} a.
Arguments Blocked {A}.
Arguments Spinning {A}.

(** ** The stream messager *)

Record StreamMessagerImpl := {
  sm_block : option BlockCrypt;
  sm_buffer : bytes;
  sm_bufSize : Z }.

Definition set_sm_buffer (s : StreamMessagerImpl) (b : bytes) : StreamMessagerImpl :=
  {| sm_block := sm_block s; sm_buffer := b; sm_bufSize := sm_bufSize s |}.

Definition stream_Flush (s : StreamMessagerImpl) : StreamMessagerImpl := set_sm_buffer s [].

(** The loop of [writeX]: from [offset] until nothing is left. *)
Fixpoint writeX_loop (fuel : nat) (c : Conn) (buf : bytes) (offset : Z)
    : io (Conn * option error) :=
  let left := zlen buf - offset in
  if left <=? 0 then Done (c, None) else
  match fuel with
  | O => Spinning
  | S fuel =>
      match conn_write c (drop (Z.to_nat offset) buf) with
      | None => Blocked
      | Some (c, inr e) => Done (c, Some e)
      | Some (c, inl n) => writeX_loop fuel c buf (offset + n)
      end
  end.

Definition writeX (fuel : nat) (c : option Conn) (buf : bytes) : io (option Conn * option error) :=
  match c with
  | None => Done (None, Some (NewErr "connection is nil" []))
  | Some c =>
      match writeX_loop fuel c buf 0 with
      | Done (c, e) => Done (Some c, e)
      | Blocked => Blocked
      | Spinning => Spinning
      end
  end.

(** [encode]: the header, then the whole frame window encrypted in place. *)
Definition stream_encode (block : option BlockCrypt) (m : FrameMessage) : go FrameMessage :=
  b ← set_index (buffer m) 0 255;
  b ← set_index b 1 255;
  b ← PutUint16 b HlMI HlLI (wrap16 (size m));
  let enc := encrypt_with block (take (Z.to_nat (frame_len m)) (drop (Z.to_nat HlSize) b)) in
  b ← copy_into b HlSize (HlSize + frame_len m) enc;
  Ret {| control := control m; action := action m; params := params m; buffer := b;
         frame_len := frame_len m; size := size m; total := total m; proto := proto m |}.

(** [Send] returns the number of bytes written, header included. *)
Definition stream_Send (fuel : nat) (s : StreamMessagerImpl) (c : option Conn) (m : FrameMessage)
    : go (io (option Conn * result Z)) :=
  m ← stream_encode (sm_block s) m;
  let fs := size m + HlSize in
  out ← slice (buffer m) 0 fs;
  Ret (match writeX fuel c out with
       | Done (c, None) => Done (c, inl fs)
       | Done (c, Some e) => Done (c, inr e)
       | Blocked => Blocked
       | Spinning => Spinning
       end).

(** [decode]: [inl None] is "no complete message yet". *)
Definition stream_decode (s : StreamMessagerImpl) (tmp : bytes) (min : Z)
    : go (StreamMessagerImpl * result (option FrameMessage)) :=
  let ts := zlen tmp in
  if ts <? min then Ret (s, inl None) else
  magic ← slice tmp 0 HlMI;
  if bool_decide (magic ≠ MAGIC) then Ret (s, inr (NewErr "wrong magic" [])) else
  ps ← (slice tmp HlMI HlLI ≫= Uint16);
  let fs := ps + HlSize in
  if fs <=? ts then
    rest ← slice_from tmp fs;
    let s := set_sm_buffer s rest in
    body ← slice tmp HlSize fs;
    tmp ← copy_into tmp HlSize fs (decrypt_with (sm_block s) body);
    msg ← slice tmp 0 fs;
    m ← NewFrameMessageFromBytes msg;
    Ret (s, inl (Some m))
  else Ret (s, inl None).

(** The loop of [Receive]; [cur] is [tmp[:bs]]. *)
Fixpoint stream_loop (fuel : nat) (s : StreamMessagerImpl) (c : Conn) (min : Z) (cur : bytes)
    : go (io (StreamMessagerImpl * Conn * result FrameMessage)) :=
  match fuel with
  | O => Ret Spinning
  | S fuel =>
      match stream_read c (sm_bufSize s - zlen cur) with
      | None => Ret Blocked
      | Some (c, inr e) => Ret (Done (s, c, inr e))
      | Some (c, inl seg) =>
          let cur := cur ++ seg in
          r ← stream_decode s cur min;
          match r with
          | (s, inr e) => Ret (Done (s, c, inr e))
          | (s, inl (Some m)) => Ret (Done (s, c, inl m))
          | (s, inl None) => stream_loop fuel s c min cur
          end
      end
  end.

Definition stream_Receive (fuel : nat) (s : StreamMessagerImpl) (c : Conn) (min : Z)
    : go (io (StreamMessagerImpl * Conn * result FrameMessage)) :=
  r ← stream_decode s (sm_buffer s) min;
  match r with
  | (s, inr e) => Ret (Done (s, c, inr e))
  | (s, inl (Some m)) => Ret (Done (s, c, inl m))
  | (s, inl None) =>
      let s := if sm_bufSize s =? 0
               then {| sm_block := sm_block s; sm_buffer := sm_buffer s; sm_bufSize := MaxMsg |}
               else s in
      let bs := zlen (sm_buffer s) in
      (* make([]byte, bufSize); tmp[:bs] must fit *)
      if (sm_bufSize s <? 0) || (sm_bufSize s <? bs) then Panic
      else stream_loop fuel s c min (sm_buffer s)
  end.

(** ** The packet messager *)

Record PacketMessagerImpl := { pm_block : option BlockCrypt; pm_bufSize : Z }.

Definition packet_Send (s : PacketMessagerImpl) (c : Conn) (m : FrameMessage)
    : go (io (Conn * result Z)) :=
  m ← stream_encode (pm_block s) m;
  out ← slice (buffer m) 0 (HlSize + size m);
  Ret (match conn_write c out with
       | None => Blocked
       | Some (c, inr e) => Done (c, inr e)
       | Some (c, inl _) => Done (c, inl (size m))
       end).

Definition packet_Receive (s : PacketMessagerImpl) (c : Conn) (max min : Z)
    : go (io (Conn * result FrameMessage)) :=
  let bufSize := if pm_bufSize s =? 0 then MaxMsg else pm_bufSize s in
  let frame := NewFrameMessage bufSize in
  match packet_read c (zlen (buffer frame)) with
  | None => Ret Blocked
  | Some (c, inr e) => Ret (Done (c, inr e))
  | Some (c, inl seg) =>
      let n := zlen seg in
      let b := write_at (buffer frame) 0 seg in
      if n <=? 4 then Ret (Done (c, inr (NewErr "%s: small frame" []))) else
      magic ← slice b 0 HlMI;
      if bool_decide (magic ≠ MAGIC) then Ret (Done (c, inr (NewErr "%s: wrong magic" []))) else
      sz ← (slice b HlMI HlLI ≫= Uint16);
      if (max <? sz) || (sz <? min)
      then Ret (Done (c, inr (NewErr "%s: wrong size %d" [sz]))) else
      tmp ← slice b HlSize (HlSize + sz);
      b ← copy_into b HlSize (HlSize + sz) (decrypt_with (pm_block s) tmp);
      Ret (Done (c, inl {| control := control frame; action := action frame;
                           params := params frame; buffer := b; frame_len := sz; size := sz;
                           total := total frame; proto := None |}))
  end.

(** * Properties *)

(** ** Decoding a frame never panics *)

Lemma proto_network_total i ty data : returns (proto_network i ty data).
Proof.
  unfold proto_network, returns.
  destruct (ty =? EthIp4).
  - destruct (ipv4_decode_total data) as (ip & err & -> & Hlen & Hip). simpl.
    destruct err as [e|]; [by eexists|].
    rewrite slice_from_ok by (rewrite Hip; unfold Ipv4Len in *; split; [lia|auto]). simpl.
    destruct (Ipv4.Protocol ip =? IpTcp).
    { destruct (tcp_decode_total (drop (Z.to_nat (Ipv4.Len ip)) data)) as (t & e & -> & _).
      by eexists. }
    destruct (Ipv4.Protocol ip =? IpUdp); [|by eexists].
    destruct (udp_decode_total (drop (Z.to_nat (Ipv4.Len ip)) data)) as (t & e & -> & _).
    by eexists.
  - destruct (ty =? EthArp); [|by eexists].
    destruct (arp_decode_total data) as (a & e & -> & _). by eexists.
Qed.

Lemma proto_decode_total (i : FrameProto) : returns (proto_Decode i).
Proof.
  unfold proto_Decode, returns.
  destruct (ether_decode_total (fp_Frame i)) as (e & err & -> & Hlen & He). simpl.
  destruct err as [er|]; [by eexists|].
  rewrite slice_from_ok by (rewrite He by done; unfold EtherLen in *; split; [lia|by apply Hlen]).
  simpl. destruct (Ether.IsVlan e); [|apply proto_network_total].
  set (data := drop _ _).
  destruct (vlan_decode_total data) as (v & err & -> & Hl & Hv). simpl.
  destruct err as [er|]; [by eexists|].
  rewrite slice_from_ok by (rewrite Hv; unfold VlanLen in *; split; [lia|by apply Hl]).
  apply proto_network_total.
Qed.

(** Decoding is panic-free: for every byte string, whatever its length and
    content, [FrameProto.Decode] returns; each of its slice expressions is
    within bounds. *)
Theorem proto_decode_no_panic (i : FrameProto) : returns (proto_Decode i).
Proof. apply proto_decode_total. Qed.

Lemma proto_network_eth i ty data p :
  proto_network i ty data = Ret p -> fp_Eth p = fp_Eth i.
Proof.
  unfold proto_network. destruct (ty =? EthIp4); [|destruct (ty =? EthArp)].
  - destruct (Ipv4.NewIpv4FromFrame data) as [[ip err]|]; [simpl|done].
    destruct err as [er|]; [by intros [= <-]|].
    destruct (slice_from data (Ipv4.Len ip)) as [data2|]; [simpl|done].
    destruct (Ipv4.Protocol ip =? IpTcp); [|destruct (Ipv4.Protocol ip =? IpUdp)].
    + destruct (Tcp.NewTcpFromFrame data2) as [[t er]|]; [by intros [= <-]|done].
    + destruct (Udp.NewUdpFromFrame data2) as [[t er]|]; [by intros [= <-]|done].
    + by intros [= <-].
  - destruct (Arp.NewArpFromFrame data) as [[a er]|]; [by intros [= <-]|done].
  - by intros [= <-].
Qed.

(** A VLAN-tagged frame is never decoded past its tag: the switch on the
    Ethernet type looks at the outer type, so no ARP, IPv4, TCP or UDP header
    of a tagged frame is ever produced, whatever the inner protocol is. *)
Theorem proto_decode_vlan_opaque (frame : bytes) (p : FrameProto) (e : Ether.t) :
  proto_Decode (new_proto frame) = Ret p -> fp_Eth p = Some e -> Ether.IsVlan e = true ->
  fp_Arp p = None /\ fp_Ip4 p = None /\ fp_Tcp p = None /\ fp_Udp p = None.
Proof.
  unfold proto_Decode. simpl.
  destruct (Ether.NewEtherFromFrame frame) as [[e0 err]|]; [simpl|done].
  destruct err as [er|]; [intros H; simplify_eq; done|].
  destruct (slice_from frame (Ether.Len e0)) as [data|]; [simpl|done].
  destruct (Ether.IsVlan e0) eqn:Ev.
  - destruct (Vlan.NewVlanFromFrame data) as [[v err]|]; [simpl|done].
    destruct err as [er|]; [intros H; simplify_eq; done|].
    destruct (slice_from data (Vlan.Len v)) as [data2|]; [simpl|done].
    unfold proto_network. unfold Ether.IsVlan in Ev. apply Z.eqb_eq in Ev. rewrite Ev.
    simpl. intros H; simplify_eq. done.
  - intros H He Hv. assert (He0 : fp_Eth p = Some e0); [|congruence].
    apply proto_network_eth in H. done.
Qed.

Definition vlan_frame : bytes :=
  [1;2;3;4;5;6; 7;8;9;10;11;12; 0x81;0; 0;5; 8;0] ++ replicate 40 0.

Lemma proto_decode_vlan_opaque_witness :
  exists p e, proto_Decode (new_proto vlan_frame) = Ret p /\ fp_Eth p = Some e /\
    fp_Arp p = None /\ fp_Ip4 p = None.
Proof.
  destruct (proto_Decode (new_proto vlan_frame)) as [p|] eqn:E; [|by vm_compute in E].
  destruct (fp_Eth p) as [e|] eqn:Ee.
  - exists p, e.
    assert (Hv : Ether.IsVlan e = true)
      by (vm_compute in E; injection E as <-; vm_compute in Ee; injection Ee as <-; reflexivity).
    destruct (proto_decode_vlan_opaque vlan_frame p e E Ee Hv) as (H1 & H2 & _).
    done.
  - exfalso. vm_compute in E. injection E as <-. discriminate Ee.
Defined.

(** ** Frame messages *)

(** The window runs to the end of the buffer and the size is within it. *)
Definition msg_wf (m : FrameMessage) : Prop :=
  zlen (buffer m) = HlSize + frame_len m /\ total m = frame_len m /\
  0 <= size m <= total m.

(** The bytes in use. *)
Definition payload (m : FrameMessage) : bytes := take (Z.to_nat (size m)) (Frame m).

Lemma msg_split m :
  msg_wf m -> exists h, buffer m = h ++ Frame m /\ length h = 4%nat /\ zlen (Frame m) = frame_len m.
Proof.
  intros (Hb & Ht & Hs). exists (take 4 (buffer m)).
  unfold HlSize, zlen in *.
  assert (E : Frame m = drop 4 (buffer m)).
  { unfold Frame. apply take_ge. change (Z.to_nat HlSize) with 4%nat. rewrite length_drop. lia. }
  rewrite E, take_drop, length_take, length_drop. split_and!; [done|lia|lia].
Qed.

Lemma Frame_app m h f :
  buffer m = h ++ f -> length h = 4%nat -> frame_len m = zlen f -> Frame m = f.
Proof.
  intros E Hh Hf. unfold Frame. change (Z.to_nat HlSize) with 4%nat.
  rewrite E, Hf, <- Hh, drop_app_length. apply take_ge. unfold zlen. lia.
Qed.

Lemma NewFrameMessage_wf n :
  msg_wf (NewFrameMessage n) /\ size (NewFrameMessage n) = 0 /\
  total (NewFrameMessage n) = (if n <=? 0 then MaxBuf else n) + EthDI.
Proof.
  unfold msg_wf, NewFrameMessage. simpl. unfold zlen, make_bytes, HlSize, EthDI, MaxBuf.
  rewrite length_replicate. destruct (Z.leb_spec n 0); lia.
Qed.

Lemma write_at_skip h f off src :
  write_at (h ++ f) (length h + off) src = h ++ write_at f off src.
Proof.
  unfold write_at. rewrite length_app, take_app_add, <- !app_assoc. do 3 f_equal.
  - f_equal. lia.
  - rewrite <- Nat.add_assoc, drop_app_add. done.
Qed.

Lemma frame_copy_ok m h f off data :
  buffer m = h ++ f -> length h = 4%nat -> frame_len m = zlen f -> 0 <= off <= zlen f ->
  zlen data <= zlen f - off ->
  frame_copy m off data = Ret (h ++ write_at f (Z.to_nat off) data).
Proof.
  intros E Hh Hf Ho Hd. unfold frame_copy.
  rewrite Hf, (proj2 (Z.leb_le 0 off)), (proj2 (Z.leb_le off _)) by lia. simpl.
  assert (Hz : zlen h = 4) by (unfold zlen; by rewrite Hh).
  rewrite E, copy_into_ok by (rewrite ?zlen_app; unfold HlSize; lia). f_equal.
  rewrite take_ge by (unfold HlSize, zlen in *; lia).
  rewrite <- write_at_skip. f_equal. unfold HlSize. lia.
Qed.

Lemma Append_exact (m : FrameMessage) (data : bytes) :
  msg_wf m ->
  exists m', Append m data = Ret m' /\ msg_wf m' /\
    if zlen data <=? total m - size m
    then size m' = size m + zlen data /\ payload m' = payload m ++ data /\
         total m' = total m /\ control m' = control m /\ action m' = action m /\
         params m' = params m
    else m' = m.
Proof.
  intros Hwf. unfold Append. destruct (Z.leb_spec (zlen data) (total m - size m)) as [Hd|Hd].
  2:{ by exists m. }
  destruct (msg_split m Hwf) as (h & Hb & Hh & Hz). destruct Hwf as (Hl & Ht & Hs).
  rewrite (frame_copy_ok m h (Frame m)) by (done || lia). simpl.
  eexists. split; [done|].
  set (m' := {| control := _ |}).
  assert (Hw : length (write_at (Frame m) (Z.to_nat (size m)) data) = length (Frame m))
    by (apply length_write_at; unfold zlen in *; lia).
  assert (HF : Frame m' = write_at (Frame m) (Z.to_nat (size m)) data).
  { apply (Frame_app m' h); [done|done|]. simpl. unfold zlen in *. rewrite Hw. lia. }
  pose proof (zlen_nonneg data).
  split; [|split; [done|split; [|done]]].
  - unfold msg_wf. simpl. rewrite zlen_app. unfold zlen in *. rewrite Hw, Hh. unfold HlSize. lia.
  - unfold payload. rewrite HF. simpl. unfold write_at.
    set (k := Z.to_nat (size m)).
    assert (Hk : length (take k (Frame m)) = k) by (rewrite length_take; unfold zlen in *; lia).
    rewrite (take_ge data) by (unfold zlen in *; lia).
    replace (Z.to_nat (size m + zlen data)) with (k + length data)%nat
      by (unfold zlen, k in *; lia).
    rewrite app_assoc. rewrite take_app_length'; [done|]. rewrite length_app, Hk. done.
Qed.

(** [Append] is exact: on a well-formed message it never panics, it appends
    the data after the bytes already in use when they fit in the window, and it
    leaves the message untouched when they do not. *)
Theorem append_spec (m : FrameMessage) (data : bytes) :
  msg_wf m ->
  exists m', Append m data = Ret m' /\ msg_wf m' /\
    if zlen data <=? total m - size m
    then size m' = size m + zlen data /\ payload m' = payload m ++ data /\
         total m' = total m /\ control m' = control m /\ action m' = action m /\
         params m' = params m
    else m' = m.
Proof. apply Append_exact. Qed.

Lemma append_spec_witness :
  exists m', Append (NewFrameMessage 8) [1; 2; 3] = Ret m' /\ payload m' = [1; 2; 3].
Proof.
  destruct (append_spec (NewFrameMessage 8) [1; 2; 3]) as (m' & E & _ & H).
  - apply NewFrameMessage_wf.
  - exists m'. split; [exact E|]. vm_compute in H. destruct H as (_ & H & _).
    vm_compute in E. injection E as <-. reflexivity.
Defined.

(** Appending what fits, in the form the builders use. *)
Lemma Append_fits m data :
  msg_wf m -> zlen data <= total m - size m ->
  exists m', Append m data = Ret m' /\ msg_wf m' /\ size m' = size m + zlen data /\
    payload m' = payload m ++ data /\ total m' = total m /\ control m' = control m /\
    action m' = action m /\ params m' = params m.
Proof.
  intros Hwf Hd. destruct (Append_exact m data Hwf) as (m' & E & Hwf' & H).
  rewrite (proj2 (Z.leb_le _ _)) in H by done. exists m'.
  destruct H as (? & ? & ? & ? & ? & ?). done.
Qed.

Lemma payload_full m : msg_wf m -> size m = total m -> payload m = Frame m.
Proof.
  intros Hwf Hs. destruct (msg_split m Hwf) as (h & _ & _ & Hz). destruct Hwf as (_ & Ht & _).
  unfold payload. apply take_ge. unfold zlen in *. lia.
Qed.

(** The message [ControlMessage.Encode] builds fills its window exactly. *)
Lemma control_Encode_spec act opr body :
  String.length act = 4%nat -> String.length opr = 2%nat ->
  exists m, control_Encode (NewControlMessage act opr body) = Ret m /\ msg_wf m /\
    control m = true /\ action m = act +:+ opr /\ params m = body /\
    size m = 12 + zlen body /\
    Frame m = EthZero ++ bytes_of_string act ++ bytes_of_string opr ++ body.
Proof.
  intros Ha Ho.
  pose proof (length_bytes_of_string act) as La. pose proof (length_bytes_of_string opr) as Lo.
  rewrite Ha in La. rewrite Ho in Lo.
  unfold control_Encode. simpl.
  rewrite !slice_ok by (unfold zlen; rewrite ?La, ?Lo; lia). simpl.
  rewrite (take_ge (bytes_of_string act)), (take_ge (bytes_of_string opr)) by (rewrite ?La, ?Lo; done).
  set (p := bytes_of_string act ++ bytes_of_string opr ++ body).
  assert (Hp : zlen p = 6 + zlen body) by (unfold p; rewrite !zlen_app; unfold zlen; lia).
  pose proof (zlen_nonneg body).
  set (m0 := {| control := true |}).
  destruct (NewFrameMessage_wf (zlen p)) as (Hwf & Hs0 & Ht0).
  rewrite (proj2 (Z.leb_gt _ _)) in Ht0 by lia. unfold EthDI in Ht0.
  assert (Hwf0 : msg_wf m0) by apply Hwf.
  change (size (NewFrameMessage (zlen p))) with (size m0) in Hs0.
  change (total (NewFrameMessage (zlen p))) with (total m0) in Ht0.
  assert (Hz : zlen EthZero = 6) by done.
  destruct (Append_fits m0 EthZero Hwf0) as (m1 & E1 & Hwf1 & Hs1 & Hp1 & Ht1 & C1 & A1 & P1); [lia|].
  change (go_bind _ _ ?f (Append m0 EthZero)) with (Append m0 EthZero ≫= f).
  rewrite E1. simpl.
  destruct (Append_fits m1 p Hwf1) as (m2 & E2 & Hwf2 & Hs2 & Hp2 & Ht2 & C2 & A2 & P2); [lia|].
  exists m2. rewrite C2, C1, A2, A1, P2, P1. split_and!; try done; [lia|].
  rewrite <- payload_full by (done || lia). rewrite Hp2, Hp1.
  unfold payload at 1. rewrite Hs0. done.
Qed.

Lemma control_frame_spec act body :
  String.length act = 6%nat ->
  exists m, NewControlFrame act body = Ret m /\ msg_wf m /\ control m = true /\
    action m = act /\ params m = body /\ size m = 12 + zlen body /\
    Frame m = EthZero ++ bytes_of_string act ++ body.
Proof.
  intros Hl. pose proof (length_bytes_of_string act) as La. rewrite Hl in La.
  unfold NewControlFrame. rewrite slice_ok, slice_from_ok by (unfold zlen; rewrite ?La; lia).
  simpl. change (Z.to_nat (4 - 0)) with 4%nat. change (Z.to_nat 0) with 0%nat.
  change (Z.to_nat 4) with 4%nat. rewrite drop_0.
  set (b := bytes_of_string act) in *.
  assert (Hb : bytes_ok b) by apply bytes_ok_of_string.
  destruct (control_Encode_spec (string_of_bytes (take 4 b)) (string_of_bytes (drop 4 b)) body)
    as (m & E & Hwf & Hc & Ha & Hp & Hs & Hf).
  { rewrite <- length_bytes_of_string, bytes_of_string_of_bytes by eauto with go.
    rewrite length_take. lia. }
  { rewrite <- length_bytes_of_string, bytes_of_string_of_bytes by eauto with go.
    rewrite length_drop. lia. }
  exists m. split_and!; try done.
  - rewrite Ha. apply bytes_of_string_inj.
    rewrite bytes_of_string_app, !bytes_of_string_of_bytes by eauto with go. apply take_drop.
  - rewrite Hf, !bytes_of_string_of_bytes by eauto with go.
    rewrite (app_assoc (take 4 b)), take_drop. done.
Qed.

(** ** The wire format of the stream *)

Lemma write_at_head h f off src :
  (off + length src <= length h)%nat -> write_at (h ++ f) off src = write_at h off src ++ f.
Proof.
  intros H. unfold write_at. rewrite take_app_le by lia. rewrite <- !app_assoc. f_equal.
  rewrite (take_ge src (length (h ++ f) - off)), (take_ge src (length h - off))
    by (rewrite ?length_app; lia).
  f_equal. apply drop_app_le. lia.
Qed.

Lemma copy_into_head h f lo hi src :
  0 <= lo <= hi -> hi <= zlen h -> zlen src <= hi - lo ->
  copy_into (h ++ f) lo hi src = Ret (write_at h (Z.to_nat lo) src ++ f).
Proof.
  intros H1 H2 H3. pose proof (zlen_nonneg f).
  rewrite copy_into_ok by (rewrite ?zlen_app; lia). f_equal.
  rewrite take_ge by (unfold zlen in *; lia). apply write_at_head. unfold zlen in *. lia.
Qed.

(** What a message looks like on the wire. *)
Definition wire (block : option BlockCrypt) (m : FrameMessage) : bytes :=
  MAGIC ++ be16 (size m) ++ take (Z.to_nat (size m)) (encrypt_with block (Frame m)).

Lemma wire_length block m :
  block_ok block -> msg_wf m -> zlen (wire block m) = HlSize + size m.
Proof.
  intros Hb Hwf. destruct (msg_split m Hwf) as (h & _ & _ & Hz). destruct Hwf as (_ & Ht & Hs).
  unfold wire. rewrite !zlen_app. change (zlen MAGIC) with 2. change (zlen (be16 _)) with 2.
  unfold zlen in *. rewrite length_take, encrypt_with_length by done. unfold HlSize. lia.
Qed.

Lemma encode_header h f sz :
  length h = 4%nat ->
  (set_index (h ++ f) 0 255 ≫= fun b => set_index b 1 255 ≫= fun b =>
   PutUint16 b HlMI HlLI sz) = Ret ((MAGIC ++ be16 sz) ++ f).
Proof.
  intros Hh. explode h. unfold set_index, PutUint16.
  rewrite copy_into_head by (vm_compute; intuition discriminate). cbn [mbind go_bind].
  change (write_at _ _ _) with [255; x0; x1; x2].
  rewrite copy_into_head by (vm_compute; intuition discriminate). cbn [mbind go_bind].
  change (write_at _ _ _) with [255; 255; x1; x2].
  rewrite copy_into_head by (vm_compute; intuition discriminate). done.
Qed.

Lemma stream_encode_spec block m :
  block_ok block -> msg_wf m -> u16 (size m) ->
  exists m', stream_encode block m = Ret m' /\ size m' = size m /\
    slice (buffer m') 0 (size m + HlSize) = Ret (wire block m).
Proof.
  intros Hb Hwf Hu. destruct (msg_split m Hwf) as (h & Eb & Hh & Hz).
  destruct Hwf as (Hl & Ht & Hs). unfold stream_encode. rewrite Eb.
  set (f := Frame m) in *. rewrite wrap16_id by done.
  pose proof (encode_header h f (size m) Hh) as E.
  destruct (set_index (h ++ f) 0 255) as [b1|]; [cbn [mbind go_bind] in *|done].
  destruct (set_index b1 1 255) as [b2|]; [cbn [mbind go_bind] in *|done].
  rewrite E. cbn [mbind go_bind].
  set (hd := MAGIC ++ be16 (size m)).
  change (Z.to_nat HlSize) with (length hd). rewrite drop_app_length.
  rewrite (take_ge f) by (unfold zlen in *; lia).
  set (enc := encrypt_with block f).
  assert (He : length enc = length f) by (by apply encrypt_with_length).
  assert (Hzd : zlen hd = 4) by done.
  rewrite copy_into_ok by (rewrite ?zlen_app; unfold HlSize, zlen in *; lia).
  cbn [mbind go_bind]. eexists. split; [done|]. split; [done|]. cbn [buffer].
  rewrite (take_ge enc) by (unfold HlSize, zlen in *; lia).
  change (Z.to_nat HlSize) with (length hd).
  rewrite write_at_app by lia. rewrite He, drop_all, app_nil_r.
  rewrite slice_ok by (rewrite ?zlen_app; unfold HlSize, zlen in *; lia). f_equal.
  change (Z.to_nat 0) with 0%nat. rewrite drop_0. unfold wire.
  rewrite app_assoc. fold hd. fold f. fold enc.
  replace (Z.to_nat (size m + HlSize - 0)) with (length hd + Z.to_nat (size m))%nat
    by (unfold HlSize, zlen in *; lia).
  by rewrite take_app_add.
Qed.

(** The header part of [decode]. *)
Lemma stream_decode_header s sz t min :
  u16 sz ->
  stream_decode s ((MAGIC ++ be16 sz) ++ t) min =
    let tmp := (MAGIC ++ be16 sz) ++ t in
    if zlen tmp <? min then Ret (s, inl None)
    else if sz + HlSize <=? zlen tmp then
      rest ← slice_from tmp (sz + HlSize);
      body ← slice tmp HlSize (sz + HlSize);
      tmp ← copy_into tmp HlSize (sz + HlSize) (decrypt_with (sm_block s) body);
      msg ← slice tmp 0 (sz + HlSize);
      m ← NewFrameMessageFromBytes msg;
      Ret (set_sm_buffer s rest, inl (Some m))
    else Ret (s, inl None).
Proof.
  intros Hu. unfold stream_decode. cbv zeta.
  set (hd := MAGIC ++ be16 sz). assert (Hz : zlen hd = 4) by done.
  destruct (zlen (hd ++ t) <? min); [done|].
  rewrite !(slice_app_l hd t 0), !(slice_app_l hd t HlMI) by (rewrite ?Hz; unfold HlMI, HlLI; lia).
  change (slice hd 0 HlMI) with (Ret MAGIC). cbn [mbind go_bind].
  rewrite bool_decide_false by tauto.
  change (slice hd HlMI HlLI) with (Ret (be16 sz)). cbn [mbind go_bind].
  change (Uint16 (be16 sz)) with (Ret (join16 (byte_at 8 sz) (byte_at 0 sz))). cbn [mbind go_bind].
  rewrite join16_be16 by done. done.
Qed.

Lemma wire_split block m :
  wire block m = (MAGIC ++ be16 (size m)) ++ take (Z.to_nat (size m)) (encrypt_with block (Frame m)).
Proof. unfold wire. by rewrite app_assoc. Qed.

(** What [decode] makes of a complete message. *)
Definition received (m : FrameMessage) (m' : FrameMessage) : Prop :=
  buffer m' = (MAGIC ++ be16 (size m)) ++ payload m /\ Frame m' = payload m /\
  size m' = size m /\ msg_wf m' /\ control m' = false /\ proto m' = None.

Lemma stream_decode_complete s m rest min :
  block_ok (sm_block s) -> msg_wf m -> u16 (size m) -> min <= HlSize + size m ->
  exists m', stream_decode s (wire (sm_block s) m ++ rest) min =
    Ret (set_sm_buffer s rest, inl (Some m')) /\ received m m'.
Proof.
  intros Hb Hwf Hu Hmin.
  pose proof (wire_length (sm_block s) m Hb Hwf) as Hwl.
  destruct (msg_split m Hwf) as (h & _ & _ & HzF). pose proof Hwf as (_ & Ht & Hs).
  rewrite wire_split in *. set (body := take _ _) in *. rewrite <- app_assoc.
  rewrite stream_decode_header by done. cbv zeta.
  set (hd := MAGIC ++ be16 (size m)) in *.
  assert (Hhd : zlen hd = 4) by done. pose proof (zlen_nonneg rest).
  assert (Hbl : zlen body = size m) by (rewrite zlen_app in Hwl; unfold HlSize in *; lia).
  assert (Hall : zlen (hd ++ body ++ rest) = 4 + size m + zlen rest) by (rewrite !zlen_app; lia).
  unfold HlSize in *.
  rewrite (proj2 (Z.ltb_ge _ _)), (proj2 (Z.leb_le (size m + 4) _)) by lia.
  rewrite slice_from_ok, slice_ok by lia. cbn [mbind go_bind].
  replace (Z.to_nat (size m + 4)) with (length hd + length body)%nat
    by (unfold zlen in *; lia).
  change (Z.to_nat 4) with (length hd).
  rewrite <- drop_drop, !drop_app_length.
  rewrite (take_app_length' body) by (unfold zlen in *; lia).
  assert (Hdec : decrypt_with (sm_block s) body = payload m)
    by (by apply decrypt_with_prefix).
  rewrite Hdec.
  assert (Hpl : length (payload m) = length body)
    by (unfold payload; rewrite length_take; unfold zlen in *; lia).
  rewrite copy_into_ok by lia. cbn [mbind go_bind].
  rewrite (take_ge (payload m)) by (unfold zlen in *; lia).
  change (Z.to_nat 4) with (length hd).
  rewrite write_at_app by (rewrite length_app; lia).
  rewrite Hpl, drop_app_length.
  rewrite slice_ok by (rewrite ?zlen_app; unfold zlen in *; lia). cbn [mbind go_bind].
  change (Z.to_nat 0) with 0%nat. rewrite drop_0.
  rewrite take_app_length' by (rewrite length_app; unfold zlen in *; lia).
  unfold NewFrameMessageFromBytes, HlSize.
  rewrite slice_from_ok by (rewrite zlen_app; unfold zlen in *; lia). cbn [mbind go_bind].
  change (Z.to_nat 4) with (length hd). rewrite drop_app_length.
  eexists. split; [done|]. unfold received. cbn [buffer size control proto].
  split_and!; try done.
  - unfold Frame. cbn [buffer frame_len]. change (Z.to_nat HlSize) with (length hd).
    rewrite drop_app_length. apply take_ge. unfold zlen. lia.
  - unfold zlen in *. lia.
  - unfold msg_wf, HlSize. cbn [buffer frame_len total size]. rewrite zlen_app.
    pose proof (zlen_nonneg (payload m)). lia.
Qed.

Lemma stream_decode_partial s m cur more min :
  block_ok (sm_block s) -> msg_wf m -> u16 (size m) -> HlSize <= min ->
  cur ++ more = wire (sm_block s) m -> zlen cur < HlSize + size m ->
  stream_decode s cur min = Ret (s, inl None).
Proof.
  intros Hb Hwf Hu Hmin E Hlt. unfold HlSize in *.
  destruct (Z.lt_ge_cases (zlen cur) 4) as [Hc|Hc].
  { unfold stream_decode. rewrite (proj2 (Z.ltb_lt _ _)) by lia. done. }
  rewrite wire_split in E.
  assert (exists t, cur = (MAGIC ++ be16 (size m)) ++ t) as [t ->].
  { exists (drop 4 cur). apply (f_equal (take 4)) in E.
    rewrite take_app_le in E by (unfold zlen in *; lia).
    rewrite take_app_length' in E by done. rewrite <- E. by rewrite take_drop. }
  rewrite stream_decode_header by done. cbv zeta.
  destruct (zlen _ <? min); [done|]. unfold HlSize.
  rewrite (proj2 (Z.leb_gt _ _)) by lia. done.
Qed.

(** ** Reassembly *)

(** Segments still to be read: their number and their bytes. *)
Definition seg_measure (segs : list bytes) : nat := (length segs + length (concat segs))%nat.

(** [c] will deliver [segs], then whatever [tail] says. *)
Definition delivers (c : Conn) (segs : list bytes) (tail : list (bytes + error)) : Prop :=
  rx c = map inl segs ++ tail.

Lemma stream_read_segment c seg segs tail k :
  delivers c (seg :: segs) tail -> 0 < k ->
  exists c' got segs', stream_read c k = Some (c', inl got) /\ delivers c' segs' tail /\
    got ++ concat segs' = concat (seg :: segs) /\ zlen got <= k /\
    (seg_measure segs' < seg_measure (seg :: segs))%nat.
Proof.
  unfold delivers, seg_measure. intros Hd Hk. unfold stream_read.
  rewrite (proj2 (Z.leb_gt k 0)), Hd by lia. simpl.
  destruct (Z.leb_spec (zlen seg) k) as [Hs|Hs].
  - eexists _, seg, segs. split; [done|]. split_and!; [done|done|done|].
    rewrite length_app. lia.
  - eexists _, (take (Z.to_nat k) seg), (drop (Z.to_nat k) seg :: segs).
    split; [done|]. unfold zlen in *. split_and!; [done| | |].
    + simpl. by rewrite app_assoc, take_drop.
    + rewrite length_take. lia.
    + simpl. rewrite !length_app, length_drop. lia.
Qed.

Lemma app_prefix_split (cur w more rest : bytes) :
  cur ++ more = w ++ rest -> zlen w <= zlen cur ->
  exists b, cur = w ++ b /\ b ++ more = rest.
Proof.
  intros E Hl. exists (drop (length w) cur). unfold zlen in *.
  assert (Ew : take (length w) cur = w).
  { apply (f_equal (take (length w))) in E. rewrite take_app_length in E.
    rewrite take_app_le in E by lia. done. }
  split; [by rewrite <- Ew at 1; rewrite take_drop|].
  apply (f_equal (drop (length w))) in E. rewrite drop_app_length in E.
  rewrite drop_app_le in E by lia. done.
Qed.

Lemma app_prefix_short (cur w more rest : bytes) :
  cur ++ more = w ++ rest -> zlen cur <= zlen w -> exists t, cur ++ t = w.
Proof.
  intros E Hl. exists (drop (length cur) w). unfold zlen in *.
  apply (f_equal (take (length cur))) in E. rewrite take_app_length in E.
  rewrite take_app_le in E by lia. rewrite E at 1. apply take_drop.
Qed.

Lemma stream_loop_message fuel s c min cur m segs tail rest :
  block_ok (sm_block s) -> msg_wf m -> u16 (size m) ->
  HlSize <= min <= HlSize + size m -> HlSize + size m <= sm_bufSize s ->
  delivers c segs tail -> cur ++ concat segs = wire (sm_block s) m ++ rest ->
  zlen cur < HlSize + size m -> (seg_measure segs < fuel)%nat ->
  exists m' b' c' segs',
    stream_loop fuel s c min cur = Ret (Done (set_sm_buffer s b', c', inl m')) /\
    received m m' /\ delivers c' segs' tail /\ b' ++ concat segs' = rest /\
    zlen b' <= sm_bufSize s /\ (seg_measure segs' <= seg_measure segs)%nat.
Proof.
  intros Hb Hwf Hu Hmin Hbuf.
  pose proof (wire_length (sm_block s) m Hb Hwf) as Hwl.
  revert c cur segs. induction fuel as [|fuel IH]; intros c cur segs Hd E Hlt Hf; [lia|].
  destruct segs as [|seg segs].
  { exfalso. cbn [concat] in E. rewrite app_nil_r in E. apply (f_equal zlen) in E.
    rewrite zlen_app in E. pose proof (zlen_nonneg rest). lia. }
  destruct (stream_read_segment c seg segs tail (sm_bufSize s - zlen cur) Hd)
    as (c1 & got & segs1 & Erd & Hd1 & Eg & Hk & Hm); [lia|].
  cbn [stream_loop]. rewrite Erd. cbv zeta.
  rewrite <- Eg, app_assoc in E.
  destruct (Z.lt_ge_cases (zlen (cur ++ got)) (HlSize + size m)) as [Hs|Hs].
  - destruct (app_prefix_short _ _ _ _ E) as [t Et]; [lia|].
    rewrite (stream_decode_partial s m _ t) by (done || lia). cbn [mbind go_bind].
    destruct (IH c1 (cur ++ got) segs1) as (m' & b' & c' & segs' & -> & Hr & Hd' & E' & Hz & Hm');
      [done|done|done|lia|].
    exists m', b', c', segs'. split_and!; try done. lia.
  - destruct (app_prefix_split _ _ _ _ E) as (b & Ec & Eb); [lia|]. rewrite Ec.
    destruct (stream_decode_complete s m b min) as (m' & -> & Hr); [done..|lia|].
    cbn [mbind go_bind].
    exists m', b, c1, segs1. split_and!; try done; [|lia].
    apply (f_equal zlen) in Ec. rewrite !zlen_app in Ec.
    pose proof (zlen_nonneg (wire (sm_block s) m)). lia.
Qed.

(** One call of [Receive]. *)
Lemma stream_Receive_message fuel s c min m segs tail rest :
  block_ok (sm_block s) -> msg_wf m -> u16 (size m) ->
  HlSize <= min <= HlSize + size m -> HlSize + size m <= sm_bufSize s ->
  zlen (sm_buffer s) <= sm_bufSize s ->
  delivers c segs tail -> sm_buffer s ++ concat segs = wire (sm_block s) m ++ rest ->
  (seg_measure segs < fuel)%nat ->
  exists m' b' c' segs',
    stream_Receive fuel s c min = Ret (Done (set_sm_buffer s b', c', inl m')) /\
    received m m' /\ delivers c' segs' tail /\ b' ++ concat segs' = rest /\
    zlen b' <= sm_bufSize s /\ (seg_measure segs' <= seg_measure segs)%nat.
Proof.
  intros Hb Hwf Hu Hmin Hbuf Hsz Hd E Hf. unfold stream_Receive.
  pose proof (wire_length (sm_block s) m Hb Hwf) as Hwl. pose proof Hwf as (_ & _ & Hs0).
  destruct (Z.lt_ge_cases (zlen (sm_buffer s)) (HlSize + size m)) as [Hs|Hs].
  - destruct (app_prefix_short _ _ _ _ E) as [t Et]; [lia|].
    rewrite (stream_decode_partial s m _ t) by (done || lia). cbn [mbind go_bind].
    unfold HlSize in *.
    rewrite (proj2 (Z.eqb_neq _ _)), (proj2 (Z.ltb_ge _ _)), (proj2 (Z.ltb_ge _ _)) by lia.
    simpl. apply (stream_loop_message fuel); done.
  - destruct (app_prefix_split _ _ _ _ E) as (b & Ec & Eb); [lia|]. rewrite Ec.
    destruct (stream_decode_complete s m b min) as (m' & -> & Hr); [done..|lia|].
    cbn [mbind go_bind].
    exists m', b, c, segs. split_and!; try done.
    apply (f_equal zlen) in Ec. rewrite !zlen_app in Ec.
    pose proof (zlen_nonneg (wire (sm_block s) m)). lia.
Qed.

(** Calling [Receive] [n] times. *)
Fixpoint receive_n (n : nat) (fuel : nat) (s : StreamMessagerImpl) (c : Conn) (min : Z)
    : go (io (StreamMessagerImpl * Conn * result (list FrameMessage))) :=
  match n with
  | O => Ret (Done (s, c, inl []))
  | S n =>
      r ← stream_Receive fuel s c min;
      match r with
      | Done (s, c, inl m) =>
          rs ← receive_n n fuel s c min;
          Ret (match rs with
               | Done (s, c, inl ms) => Done (s, c, inl (m :: ms))
               | Done (s, c, inr e) => Done (s, c, inr e)
               | Blocked => Blocked
               | Spinning => Spinning
               end)
      | Done (s, c, inr e) => Ret (Done (s, c, inr e))
      | Blocked => Ret Blocked
      | Spinning => Ret Spinning
      end
  end.

(** The messages a sender with this configuration may send: well formed, a size
    that fits the 16-bit length field and the receive buffer, and not below the
    receiver's minimum. *)
Definition sendable (min bufSize : Z) (m : FrameMessage) : Prop :=
  msg_wf m /\ u16 (size m) /\ min <= HlSize + size m <= bufSize.

Lemma receive_n_messages s min ms c segs tail rest fuel :
  block_ok (sm_block s) -> HlSize <= min ->
  Forall (sendable min (sm_bufSize s)) ms ->
  zlen (sm_buffer s) <= sm_bufSize s ->
  delivers c segs tail ->
  sm_buffer s ++ concat segs = concat (map (wire (sm_block s)) ms) ++ rest ->
  (seg_measure segs < fuel)%nat ->
  exists ms' b' c' segs',
    receive_n (length ms) fuel s c min = Ret (Done (set_sm_buffer s b', c', inl ms')) /\
    Forall2 received ms ms' /\ delivers c' segs' tail /\ b' ++ concat segs' = rest.
Proof.
  intros Hb Hmin Hms. revert s c segs Hb Hms.
  induction ms as [|m ms IH]; intros s c segs Hb Hms Hz Hd E Hf.
  - exists [], (sm_buffer s), c, segs. split; [by destruct s|]. done.
  - apply Forall_cons in Hms as [(Hwf & Hu & Hm) Hms].
    cbn [map concat] in E. rewrite <- app_assoc in E.
    destruct (stream_Receive_message fuel s c min m segs tail _ Hb Hwf Hu
                ltac:(lia) ltac:(lia) Hz Hd E Hf)
      as (m' & b' & c' & segs' & E1 & Hr & Hd' & E' & Hz' & Hm').
    cbn [receive_n length]. rewrite E1. cbn [mbind go_bind].
    destruct (IH (set_sm_buffer s b') c' segs') as (ms' & b2 & c2 & segs2 & E2 & Hrs & Hd2 & Er);
      [done|done|done|done|done|lia|].
    rewrite E2. cbn [mbind go_bind]. exists (m' :: ms'), b2, c2, segs2.
    split; [done|]. split; [by constructor|]. done.
Qed.

(** (C4) Stream reassembly: whatever way the connection cuts the byte stream of
    any sequence of messages into segments (empty ones and ones that straddle
    several messages included), and with any cipher that satisfies the
    [BlockLaws], calling [Receive] once per message returns exactly those
    messages, in order, each with the payload that was sent, and keeps the bytes
    that follow for the next call; it neither blocks nor panics. *)
Theorem stream_reassembly (block : option BlockCrypt) (bufSize min : Z)
    (ms : list FrameMessage) (segs : list bytes) (rest : bytes) (tail : list (bytes + error)) :
  block_ok block -> HlSize <= min <= bufSize ->
  Forall (sendable min bufSize) ms ->
  concat segs = concat (map (wire block) ms) ++ rest ->
  exists ms' b' c' segs',
    receive_n (length ms) (S (seg_measure segs))
      {| sm_block := block; sm_buffer := []; sm_bufSize := bufSize |}
      {| rx := map inl segs ++ tail; wr := []; tx := [] |} min
    = Ret (Done ({| sm_block := block; sm_buffer := b'; sm_bufSize := bufSize |}, c', inl ms')) /\
    Forall2 received ms ms' /\ delivers c' segs' tail /\ b' ++ concat segs' = rest.
Proof.
  intros Hb Hmin Hms E.
  eapply (receive_n_messages {| sm_block := block; sm_buffer := []; sm_bufSize := bufSize |}
    min ms {| rx := map inl segs ++ tail; wr := []; tx := [] |} segs);
    cbn [sm_block sm_buffer sm_bufSize]; try done; try lia.
  change (zlen []) with 0. unfold HlSize in *. lia.
Qed.

(** Two messages, xor-encrypted, cut into five segments across their boundary. *)
Definition demo_msg (b : Z) : FrameMessage :=
  {| control := false; action := ""; params := [];
     buffer := [0; 0; 0; 0] ++ replicate 12 b; frame_len := 12; size := 12; total := 12;
     proto := None |}.

Definition demo_block : option BlockCrypt := Some (simpleXOR [1; 2; 3; 4; 5; 6; 7; 8; 9]).

Lemma stream_reassembly_witness :
  exists ms' b' c',
    receive_n 2 40 {| sm_block := demo_block; sm_buffer := []; sm_bufSize := 64 |}
      {| rx := map inl
           (let w := wire demo_block (demo_msg 7) ++ wire demo_block (demo_msg 9) in
            [take 3 w; []; take 18 (drop 3 w); take 4 (drop 21 w); drop 25 w]);
         wr := []; tx := [] |} 15
    = Ret (Done ({| sm_block := demo_block; sm_buffer := b'; sm_bufSize := 64 |}, c', inl ms')) /\
    Forall2 received [demo_msg 7; demo_msg 9] ms'.
Proof.
  destruct (stream_reassembly demo_block 64 15 [demo_msg 7; demo_msg 9]
    (let w := wire demo_block (demo_msg 7) ++ wire demo_block (demo_msg 9) in
     [take 3 w; []; take 18 (drop 3 w); take 4 (drop 21 w); drop 25 w]) [] [])
    as (ms' & b' & c' & segs' & E & Hr & _).
  - apply simpleXOR_laws.
  - vm_compute. intuition discriminate.
  - repeat constructor; vm_compute; intuition discriminate.
  - reflexivity.
  - exists ms', b', c'. split; [|exact Hr]. rewrite <- E. vm_compute. reflexivity.
Defined.

Lemma stream_decode_oversize s sz t min :
  u16 sz -> zlen ((MAGIC ++ be16 sz) ++ t) < sz + HlSize ->
  stream_decode s ((MAGIC ++ be16 sz) ++ t) min = Ret (s, inl None).
Proof.
  intros Hu Hl. rewrite stream_decode_header by done. cbv zeta.
  destruct (_ <? min); [done|]. rewrite (proj2 (Z.leb_gt _ _)) by done. done.
Qed.

(** A prefix of an oversized message is never complete. *)
Lemma stream_decode_oversize_prefix s sz t cur more min :
  u16 sz -> HlSize <= min -> cur ++ more = (MAGIC ++ be16 sz) ++ t -> zlen cur < sz + HlSize ->
  stream_decode s cur min = Ret (s, inl None).
Proof.
  intros Hu Hmin E Hl. destruct (Z.lt_ge_cases (zlen cur) HlSize) as [Hc|Hc].
  { unfold stream_decode. rewrite (proj2 (Z.ltb_lt _ _)) by lia. done. }
  destruct (app_prefix_split _ _ _ _ E) as (b & -> & _); [done|].
  by apply stream_decode_oversize.
Qed.

Lemma stream_loop_spins fuel s c min sz t cur segs tail :
  u16 sz -> HlSize <= min -> sm_bufSize s < sz + HlSize -> zlen cur <= sm_bufSize s ->
  delivers c segs tail -> cur ++ concat segs = (MAGIC ++ be16 sz) ++ t ->
  sm_bufSize s <= zlen ((MAGIC ++ be16 sz) ++ t) ->
  stream_loop fuel s c min cur = Ret Spinning.
Proof.
  intros Hu Hmin Hbig. revert c cur segs.
  induction fuel as [|fuel IH]; intros c cur segs Hc Hd E Hall; [done|].
  cbn [stream_loop].
  destruct (decide (zlen cur = sm_bufSize s)) as [Hfull|Hroom].
  - unfold stream_read. rewrite (proj2 (Z.leb_le _ _)) by lia. cbv zeta. rewrite app_nil_r.
    rewrite (stream_decode_oversize_prefix s sz t cur (concat segs)) by (done || lia).
    cbn [mbind go_bind]. by apply (IH c cur segs).
  - destruct segs as [|seg segs].
    { exfalso. rewrite app_nil_r in E. apply (f_equal zlen) in E. lia. }
    destruct (stream_read_segment c seg segs tail (sm_bufSize s - zlen cur) Hd)
      as (c1 & got & segs1 & -> & Hd1 & Eg & Hk & _); [lia|]. cbv zeta.
    rewrite <- Eg, app_assoc in E.
    assert (zlen (cur ++ got) <= sm_bufSize s) by (rewrite zlen_app; lia).
    rewrite (stream_decode_oversize_prefix s sz t (cur ++ got) (concat segs1)) by (done || lia).
    cbn [mbind go_bind]. by apply (IH c1 (cur ++ got) segs1).
Qed.

(** (C40) The receive loop can spin for ever: once a peer has announced a message
    that does not fit the receive buffer and filled that buffer, [Receive] reads
    into an empty slice again and again: it neither returns a message nor an
    error nor blocks, whatever number of iterations it is given. *)
Theorem stream_receive_oversize_spins (fuel : nat) (s : StreamMessagerImpl) (c : Conn)
    (min sz : Z) (t : bytes) (segs : list bytes) (tail : list (bytes + error)) :
  u16 sz -> HlSize <= min -> 0 < sm_bufSize s -> sm_bufSize s < sz + HlSize ->
  sm_buffer s = [] -> delivers c segs tail ->
  concat segs = (MAGIC ++ be16 sz) ++ t -> sm_bufSize s <= zlen (concat segs) ->
  stream_Receive fuel s c min = Ret Spinning.
Proof.
  intros Hu Hmin Hpos Hbig Hb Hd E Hall. unfold stream_Receive. rewrite Hb.
  unfold stream_decode. change (zlen []) with 0. unfold HlSize in Hmin.
  rewrite (proj2 (Z.ltb_lt 0 min)) by lia. cbn [mbind go_bind].
  rewrite (proj2 (Z.eqb_neq _ _)) by lia. rewrite Hb. change (zlen []) with 0.
  rewrite (proj2 (Z.ltb_ge (sm_bufSize s) 0)) by lia. cbn [orb].
  apply (stream_loop_spins fuel s c min sz t [] segs tail); try done.
  - unfold zlen; simpl; lia.
  - by rewrite <- E.
Qed.

Lemma stream_receive_oversize_spins_witness :
  stream_Receive 1000
    {| sm_block := None; sm_buffer := []; sm_bufSize := 16 |}
    {| rx := [inl ([255; 255; 0; 200] ++ replicate 30 1)]; wr := []; tx := [] |} 15
  = Ret Spinning.
Proof.
  apply (stream_receive_oversize_spins 1000 _ _ 15 200 (replicate 30 1)
    [[255; 255; 0; 200] ++ replicate 30 1] []); try done; vm_compute; intuition discriminate.
Defined.

(** ** Sending *)

Lemma writeX_loop_sends fuel c buf offset :
  0 <= offset <= zlen buf ->
  (forall n, In (inl n) (wr c) -> 0 < n) ->
  match writeX_loop fuel c buf offset with
  | Done (c', None) => tx c' = tx c ++ drop (Z.to_nat offset) buf
  | Done (c', Some e) => exists k, tx c' = tx c ++ take k (drop (Z.to_nat offset) buf)
  | Blocked => True
  | Spinning => (fuel < length (drop (Z.to_nat offset) buf))%nat
  end.
Proof.
  revert c offset. induction fuel as [|fuel IH]; intros c offset Ho Hpos; cbn [writeX_loop];
    destruct (Z.leb_spec (zlen buf - offset) 0) as [Hl|Hl].
  1, 3: rewrite drop_ge by (unfold zlen in *; lia); by rewrite app_nil_r.
  - rewrite length_drop. unfold zlen in *. lia.
  - unfold conn_write. destruct (wr c) as [|[n|e] l] eqn:Ew; [done| |].
    2:{ exists 0%nat. simpl. by rewrite app_nil_r. }
    set (n' := Z.max 0 (Z.min n _)).
    assert (Hn : 0 < n' <= zlen buf - offset).
    { pose proof (Hpos n ltac:(by left)). unfold n', zlen in *.
      rewrite length_drop. lia. }
    specialize (IH {| rx := rx c; wr := l; tx := tx c ++ take (Z.to_nat n') (drop (Z.to_nat offset) buf) |}
                  (offset + n') ltac:(lia)).
    assert (Hpos' : forall k, In (inl k) l -> 0 < k) by (intros; apply Hpos; by right).
    specialize (IH Hpos'). cbn [rx wr tx] in IH.
    replace (Z.to_nat (offset + n')) with (Z.to_nat offset + Z.to_nat n')%nat in IH by lia.
    rewrite <- drop_drop in IH.
    destruct (writeX_loop fuel _ buf (offset + n')) as [[c' [e|]]| |].
    + destruct IH as [k ->]. exists (Z.to_nat n' + k)%nat. rewrite <- app_assoc. f_equal.
      by rewrite take_take_drop.
    + rewrite IH, <- app_assoc, take_drop. done.
    + done.
    + rewrite !length_drop in *. lia.
Qed.

(** Sending is exact: on a live connection, however the writes are cut
    short, a successful [Send] has written the wire image of the message and
    nothing else and returns its length; a failed one has written a prefix of
    it; the loop ends within as many writes as there are bytes. *)
Theorem stream_send_exact (fuel : nat) (s : StreamMessagerImpl) (c : Conn) (m : FrameMessage) :
  block_ok (sm_block s) -> msg_wf m -> u16 (size m) ->
  (forall n, In (inl n) (wr c) -> 0 < n) -> (Z.to_nat (HlSize + size m) <= fuel)%nat ->
  exists r, stream_Send fuel s (Some c) m = Ret r /\
    match r with
    | Done (Some c', inl n) => n = HlSize + size m /\ tx c' = tx c ++ wire (sm_block s) m
    | Done (Some c', inr e) => exists k, tx c' = tx c ++ take k (wire (sm_block s) m)
    | Done (None, _) => False
    | Blocked => True
    | Spinning => False
    end.
Proof.
  intros Hb Hwf Hu Hpos Hf.
  destruct (stream_encode_spec _ m Hb Hwf Hu) as (m' & E & Hs & Hw).
  unfold stream_Send. rewrite E. cbn [mbind go_bind]. rewrite Hs, Hw. cbn [mbind go_bind].
  eexists. split; [done|]. unfold writeX.
  pose proof (wire_length _ m Hb Hwf) as Hwl.
  pose proof (writeX_loop_sends fuel c (wire (sm_block s) m) 0) as HX.
  specialize (HX ltac:(pose proof (zlen_nonneg (wire (sm_block s) m)); lia) Hpos).
  change (Z.to_nat 0) with 0%nat in HX. rewrite drop_0 in HX.
  destruct (writeX_loop fuel c _ 0) as [[c' [e|]]| |]; try done.
  - split; [lia|done].
  - unfold zlen in *. lia.
Qed.

Lemma stream_send_exact_witness :
  exists r, stream_Send 20 {| sm_block := None; sm_buffer := []; sm_bufSize := 64 |}
    (Some {| rx := []; wr := [inl 5; inl 1; inl 100]; tx := [] |}) (demo_msg 7) = Ret r /\
    match r with Done (Some c', inl n) => tx c' = wire None (demo_msg 7) | _ => False end.
Proof.
  destruct (stream_send_exact 20 {| sm_block := None; sm_buffer := []; sm_bufSize := 64 |}
    {| rx := []; wr := [inl 5; inl 1; inl 100]; tx := [] |} (demo_msg 7)) as (r & E & H).
  - exact I.
  - vm_compute. intuition discriminate.
  - vm_compute. intuition discriminate.
  - simpl. intros n [[= <-]|[[= <-]|[[= <-]|[]]]]; reflexivity.
  - vm_compute. intuition lia.
  - exists r. split; [exact E|]. vm_compute in E. injection E as <-. reflexivity.
Defined.

(** Sending and receiving a message, then [Decode]. *)
Lemma decode_received m m' :
  received m m' -> bytes_ok (payload m) ->
  exists m2, Decode m' = Ret m2 /\ control m2 = isControl (payload m) /\ Frame m2 = payload m /\
    (control m2 = true -> 12 <= zlen (payload m) ->
     action m2 = string_of_bytes (take 6 (drop 6 (payload m))) /\ params m2 = drop 12 (payload m)).
Proof.
  intros (Hbuf & HF & Hsz & Hwf & Hc & Hp) Hok. unfold Decode. rewrite HF.
  destruct (isControl (payload m)) eqn:Ec.
  2:{ eexists. split; [done|]. split; [done|]. split; [done|]. simpl. done. }
  unfold EthDI. change (2 * 6) with 12.
  destruct (Z.ltb_spec (zlen (payload m)) 12) as [Hl|Hl].
  { eexists. split; [done|]. split; [done|]. split; [done|]. simpl. lia. }
  rewrite slice_ok, slice_from_ok by lia. cbn [mbind go_bind].
  eexists. split; [done|]. split; [done|]. split; [done|]. done.
Qed.

(** Control messages survive the trip: the message [NewControlFrame] builds
    for a six-character instruction such as login, with any body, is recognised
    by the receiver's [Decode] as a control message with that instruction and
    that body. *)
Theorem control_roundtrip (act : string) (body : bytes) :
  String.length act = 6%nat -> bytes_ok body ->
  exists m, NewControlFrame act body = Ret m /\ msg_wf m /\
    forall m', received m m' ->
      exists m2, Decode m' = Ret m2 /\ control m2 = true /\ CmdAndParams m2 = (act, body).
Proof.
  intros Hl Hok. destruct (control_frame_spec act body Hl) as (m & E & Hwf & Hc & Ha & Hp & Hs & HF).
  exists m. split; [done|]. split; [done|]. intros m' Hr.
  assert (La : length (bytes_of_string act) = 6%nat) by (by rewrite length_bytes_of_string).
  assert (Hpay : payload m = EthZero ++ bytes_of_string act ++ body).
  { rewrite <- HF. unfold payload. apply take_ge. rewrite HF, !length_app, La.
    change (length EthZero) with 6%nat. unfold zlen in Hs. lia. }
  assert (Hpok : bytes_ok (payload m)).
  { rewrite Hpay, !bytes_ok_app. split; [vm_compute; repeat constructor; discriminate|].
    split; [apply bytes_ok_of_string|done]. }
  destruct (decode_received m m' Hr Hpok) as (m2 & E2 & C2 & F2 & H2).
  exists m2. split; [done|].
  assert (Ec : isControl (payload m) = true).
  { unfold isControl. rewrite Hpay, zlen_app. change (zlen EthZero) with 6.
    pose proof (zlen_nonneg (bytes_of_string act ++ body)).
    rewrite (proj2 (Z.ltb_ge _ _)) by lia. by apply bool_decide_true. }
  rewrite Ec in C2. split; [done|]. unfold CmdAndParams.
  destruct H2 as [-> ->]; [done| |].
  { rewrite Hpay, !zlen_app. change (zlen EthZero) with 6. unfold zlen. rewrite La. lia. }
  rewrite Hpay. f_equal.
  - change 6%nat with (length EthZero) at 2. rewrite drop_app_length.
    rewrite <- La, take_app_length. apply string_of_bytes_of_string.
  - change 12%nat with (length EthZero + 6)%nat. rewrite <- drop_drop, drop_app_length.
    rewrite <- La, drop_app_length. done.
Qed.

Lemma control_roundtrip_witness :
  exists m, NewControlFrame LoginReq (bytes_of_string "okay") = Ret m /\ msg_wf m.
Proof.
  destruct (control_roundtrip LoginReq (bytes_of_string "okay")) as (m & E & Hwf & _).
  - reflexivity.
  - apply bytes_ok_of_string.
  - exists m. split; [exact E|exact Hwf].
Defined.

(** ** Datagrams *)

Definition packet_bufSize (s : PacketMessagerImpl) : Z :=
  if pm_bufSize s =? 0 then MaxMsg else pm_bufSize s.

Lemma packet_buffer_len s :
  0 <= pm_bufSize s ->
  0 < packet_bufSize s /\
  zlen (buffer (NewFrameMessage (packet_bufSize s))) = packet_bufSize s + 10.
Proof.
  intros H. unfold packet_bufSize.
  assert (Hp : 0 < if pm_bufSize s =? 0 then MaxMsg else pm_bufSize s)
    by (destruct (Z.eqb_spec (pm_bufSize s) 0); unfold MaxMsg; lia).
  split; [done|]. destruct (NewFrameMessage_wf (if pm_bufSize s =? 0 then MaxMsg else pm_bufSize s))
    as ((Hl & Ht & _) & _ & Htot).
  rewrite (proj2 (Z.leb_gt _ _)) in Htot by done. unfold HlSize, EthDI in *. lia.
Qed.

(** What [Receive] makes of a datagram with a good header: the announced number
    of bytes, padded with the zeroes of the buffer when fewer arrived. *)
Lemma packet_Receive_body s c sz t l max min :
  block_ok (pm_block s) -> 0 <= pm_bufSize s -> u16 sz ->
  rx c = inl ((MAGIC ++ be16 sz) ++ t) :: l ->
  t <> [] -> zlen t <= packet_bufSize s + 6 ->
  min <= sz <= max -> max <= packet_bufSize s + 6 ->
  exists m', packet_Receive s c max min =
      Ret (Done ({| rx := l; wr := wr c; tx := tx c |}, inl m')) /\
    size m' = sz /\
    Frame m' = decrypt_with (pm_block s)
                 (take (Z.to_nat sz) (t ++ make_bytes (packet_bufSize s + 6 - zlen t))).
Proof.
  intros Hb Hbs Hu Hrx Ht Htl Hsz Hmax.
  destruct (packet_buffer_len s Hbs) as (Hpos & Hbl).
  unfold packet_Receive. fold (packet_bufSize s). cbv zeta.
  set (hd := MAGIC ++ be16 sz) in *. assert (Hhd : zlen hd = 4) by done.
  assert (0 < zlen t) by (destruct t; [done|unfold zlen; simpl; lia]).
  unfold packet_read. rewrite Hrx, Hbl.
  rewrite (take_ge (hd ++ t)) by (rewrite length_app; unfold zlen in *; lia).
  rewrite zlen_app, (proj2 (Z.leb_gt _ _)) by lia.
  assert (Eb : write_at (buffer (NewFrameMessage (packet_bufSize s))) 0 (hd ++ t) =
               hd ++ t ++ make_bytes (packet_bufSize s + 6 - zlen t)).
  { unfold write_at. rewrite take_0, app_nil_l.
    rewrite (take_ge (hd ++ t)) by (rewrite length_app; unfold zlen in *; lia).
    rewrite <- app_assoc. do 2 f_equal. unfold NewFrameMessage. cbn [buffer].
    rewrite (proj2 (Z.leb_gt _ _)) by lia. unfold make_bytes. rewrite drop_replicate.
    f_equal. rewrite length_app. unfold HlSize, EthDI, zlen in *. lia. }
  rewrite Eb. set (body := t ++ _).
  assert (Hbody : zlen body = packet_bufSize s + 6).
  { unfold body. rewrite zlen_app. unfold zlen at 2. unfold make_bytes.
    rewrite length_replicate. lia. }
  rewrite !(slice_app_l hd body 0), !(slice_app_l hd body HlMI)
    by (rewrite ?Hhd; unfold HlMI, HlLI; lia).
  change (slice hd 0 HlMI) with (Ret MAGIC). cbn [mbind go_bind].
  rewrite bool_decide_false by tauto.
  change (slice hd HlMI HlLI) with (Ret (be16 sz)). cbn [mbind go_bind].
  change (Uint16 (be16 sz)) with (Ret (join16 (byte_at 8 sz) (byte_at 0 sz))). cbn [mbind go_bind].
  rewrite join16_be16 by done.
  rewrite (proj2 (Z.ltb_ge max sz)), (proj2 (Z.ltb_ge sz min)) by lia. cbn [orb].
  unfold u16 in Hu.
  rewrite slice_ok by (rewrite ?zlen_app; unfold HlSize; lia). cbn [mbind go_bind].
  change (Z.to_nat HlSize) with (length hd). rewrite drop_app_length.
  replace (Z.to_nat (HlSize + sz - HlSize)) with (Z.to_nat sz) by lia.
  set (dec := decrypt_with _ _).
  assert (Hdl : length dec = Z.to_nat sz).
  { unfold dec. rewrite decrypt_with_length, length_take by done. unfold zlen in *. lia. }
  rewrite copy_into_ok by (rewrite ?zlen_app; unfold HlSize; lia). cbn [mbind go_bind].
  rewrite (take_ge dec) by lia. change (Z.to_nat HlSize) with (length hd).
  rewrite write_at_app by (unfold zlen in *; lia).
  eexists. split; [done|]. split; [done|].
  unfold Frame. cbn [buffer frame_len]. change (Z.to_nat HlSize) with (length hd).
  rewrite <- app_assoc, drop_app_length. rewrite take_app_length' by lia. done.
Qed.

(** Datagram round trip: the datagram [Send] writes for a non-empty message
    whose size is between the receiver's limits is received as one message with
    the same payload, with or without encryption. *)
Theorem packet_roundtrip (s : PacketMessagerImpl) (c : Conn) (m : FrameMessage) (max min : Z) :
  block_ok (pm_block s) -> 0 <= pm_bufSize s -> msg_wf m -> u16 (size m) -> 0 < size m ->
  min <= size m <= max -> max <= packet_bufSize s + 6 ->
  wr c = [inl (HlSize + size m)] -> tx c = [] ->
  exists c', packet_Send s c m = Ret (Done (c', inl (size m))) /\
    exists m' c2,
      packet_Receive s {| rx := [inl (tx c')]; wr := []; tx := [] |} max min =
        Ret (Done (c2, inl m')) /\
      size m' = size m /\ Frame m' = payload m.
Proof.
  intros Hb Hbs Hwf Hu Hpos Hsz Hmax Hwr Htx.
  destruct (stream_encode_spec _ m Hb Hwf Hu) as (m' & E & Hs & Hw).
  pose proof (wire_length _ m Hb Hwf) as Hwl.
  destruct (msg_split m Hwf) as (h & _ & _ & HzF). pose proof Hwf as (_ & Ht & Hs0).
  unfold packet_Send. rewrite E. cbn [mbind go_bind]. rewrite Hs.
  replace (HlSize + size m) with (size m + HlSize) in * by lia. rewrite Hw. cbn [mbind go_bind].
  unfold conn_write. rewrite Hwr, Htx, Hwl. simpl app.
  eexists. split; [done|]. cbn [tx].
  rewrite take_ge by (unfold zlen in *; lia).
  rewrite wire_split in *. set (t := take (Z.to_nat (size m)) _) in *.
  assert (Hzt : zlen t = size m).
  { rewrite zlen_app in Hwl. change (zlen (MAGIC ++ _)) with 4 in Hwl. unfold HlSize in *. lia. }
  destruct (packet_Receive_body s {| rx := [inl ((MAGIC ++ be16 (size m)) ++ t)]; wr := []; tx := [] |}
              (size m) t [] max min) as (m2 & E2 & Hs2 & HF); try done.
  - intros ->. change (zlen []) with 0 in Hzt. lia.
  - lia.
  - exists m2. eexists. split; [exact E2|]. split; [done|].
    rewrite HF, take_app_length' by (unfold zlen in *; lia).
    unfold t. by apply decrypt_with_prefix.
Qed.

Lemma packet_roundtrip_witness :
  exists c', packet_Send {| pm_block := demo_block; pm_bufSize := 0 |}
      {| rx := []; wr := [inl 16]; tx := [] |} (demo_msg 7) = Ret (Done (c', inl 12)) /\
    exists m' c2, packet_Receive {| pm_block := demo_block; pm_bufSize := 0 |}
      {| rx := [inl (tx c')]; wr := []; tx := [] |} 1514 12 = Ret (Done (c2, inl m')) /\
      Frame m' = replicate 12 7.
Proof.
  destruct (packet_roundtrip {| pm_block := demo_block; pm_bufSize := 0 |}
      {| rx := []; wr := [inl 16]; tx := [] |} (demo_msg 7) 1514 12)
    as (c' & E & m' & c2 & E2 & _ & HF).
  - apply simpleXOR_laws.
  - vm_compute; discriminate.
  - vm_compute. intuition discriminate.
  - vm_compute. intuition discriminate.
  - reflexivity.
  - vm_compute. intuition discriminate.
  - vm_compute; discriminate.
  - reflexivity.
  - reflexivity.
  - exists c'. split; [exact E|]. exists m', c2. split; [exact E2|exact HF].
Defined.

(** Every datagram is handled: with a maximum size that fits the buffer and
    a non-negative minimum, [Receive] never panics, whatever arrives, and a
    message it returns has a size between the two limits. *)
Theorem packet_receive_bounds (s : PacketMessagerImpl) (c : Conn) (max min : Z) :
  0 <= pm_bufSize s -> 0 <= min -> max <= packet_bufSize s + 6 ->
  exists r, packet_Receive s c max min = Ret r /\
    match r with
    | Done (_, inl m) => min <= size m <= max
    | _ => True
    end.
Proof.
  intros Hbs Hmin Hmax. destruct (packet_buffer_len s Hbs) as (Hpos & Hbl).
  unfold packet_Receive. fold (packet_bufSize s). cbv zeta.
  unfold packet_read. destruct (rx c) as [|[seg|e] l]; [by eexists| |by eexists].
  set (seg' := take _ seg). set (b := write_at _ 0 seg').
  assert (Hb : zlen b = packet_bufSize s + 10).
  { unfold b, zlen. rewrite length_write_at by lia. exact Hbl. }
  destruct (zlen seg' <=? 4); [by eexists|].
  rewrite (slice_ok b 0 HlMI) by (unfold HlMI; lia). cbn [mbind go_bind].
  destruct (bool_decide _); [by eexists|].
  destruct (slice16_ok b HlMI HlLI) as [sz ->]; [done|done|unfold HlLI; lia|]. cbn [mbind go_bind].
  destruct (Z.ltb_spec max sz); [by eexists|]. destruct (Z.ltb_spec sz min); [by eexists|].
  cbn [orb].
  rewrite slice_ok by (unfold HlSize; lia). cbn [mbind go_bind].
  rewrite copy_into_ok by (unfold HlSize; lia). cbn [mbind go_bind].
  eexists. split; [done|]. simpl. lia.
Qed.

Lemma packet_receive_bounds_witness :
  exists r, packet_Receive {| pm_block := None; pm_bufSize := 0 |}
    {| rx := [inl [255; 255; 0; 20; 1; 2; 3]]; wr := []; tx := [] |} 1514 15 = Ret r.
Proof.
  destruct (packet_receive_bounds {| pm_block := None; pm_bufSize := 0 |}
    {| rx := [inl [255; 255; 0; 20; 1; 2; 3]]; wr := []; tx := [] |} 1514 15) as (r & E & _).
  - vm_compute; discriminate.
  - vm_compute; discriminate.
  - vm_compute; discriminate.
  - exists r. exact E.
Defined.

(** A truncated datagram is accepted: the announced size is checked against
    the limits but never against the number of bytes that arrived, so a datagram
    that announces more than it carries yields a message of the announced size
    whose missing bytes are the zeroes of the fresh buffer (before decryption). *)
Theorem packet_receive_accepts_truncated (s : PacketMessagerImpl) (sz : Z) (t : bytes) (max min : Z) :
  pm_block s = None -> 0 <= pm_bufSize s -> u16 sz -> t <> [] -> zlen t < sz ->
  min <= sz <= max -> max <= packet_bufSize s + 6 ->
  exists m' c',
    packet_Receive s {| rx := [inl ((MAGIC ++ be16 sz) ++ t)]; wr := []; tx := [] |} max min =
      Ret (Done (c', inl m')) /\
    size m' = sz /\ Frame m' = t ++ make_bytes (sz - zlen t).
Proof.
  intros Hb Hbs Hu Ht Hl Hsz Hmax.
  destruct (packet_Receive_body s {| rx := [inl ((MAGIC ++ be16 sz) ++ t)]; wr := []; tx := [] |}
    sz t [] max min) as (m' & E & Hs & HF); try done.
  - by rewrite Hb.
  - lia.
  - exists m'. eexists. split; [exact E|]. split; [done|].
    rewrite HF, Hb. simpl. rewrite take_app_ge by (unfold zlen in *; lia). f_equal.
    unfold make_bytes. rewrite take_replicate. f_equal. unfold zlen in *. lia.
Qed.

Lemma packet_receive_accepts_truncated_witness :
  exists m' c', packet_Receive {| pm_block := None; pm_bufSize := 0 |}
    {| rx := [inl [255; 255; 0; 20; 1; 2]]; wr := []; tx := [] |} 1514 15 =
      Ret (Done (c', inl m')) /\ Frame m' = [1; 2] ++ replicate 18 0.
Proof.
  destruct (packet_receive_accepts_truncated {| pm_block := None; pm_bufSize := 0 |} 20 [1; 2]
    1514 15) as (m' & c' & E & _ & HF).
  - reflexivity.
  - vm_compute; discriminate.
  - vm_compute; intuition discriminate.
  - discriminate.
  - reflexivity.
  - vm_compute; intuition discriminate.
  - vm_compute; discriminate.
  - exists m', c'. split; [exact E|exact HF].
Defined.
