(* ===== verification/SafeMap.v ===== *)
(** * Bounded maps and counters (pkg/libol/safe.go)

    [SafeStrMap], [SafeStrStr], [SafeVar] and [SafeStrInt64]: the containers in
    which every other component keeps its tables.  A Go [map] is a [gmap]; an
    [interface{}] value is an [option], [None] being [nil]; the iteration order
    of a Go map is unspecified, so [Iter] takes the order as an argument.  Each
    operation holds the lock from its first to its last line and is one step of
    the model. *)

From S2P Require Import Prelude.

Local Open Scope Z_scope.

Definition err_full (f : string) : error := NewErr f [].

(** ** SafeStrMap *)
Module SafeStrMap.

Record t (A : Type) := mk { size : Z; data : gmap string (option A) }.
Arguments mk {A}.
Arguments size {A}.
Arguments data {A}.

Definition NewSafeStrMap {A} (size : Z) : t A := {| size := size; data := ∅ |}.

Definition Len {A} (sm : t A) : Z := Z.of_nat (base.size (data sm)).

Definition full {A} (sm : t A) : bool := negb (size sm =? 0) && (size sm <=? Len sm).

Definition upd {A} (sm : t A) (d : gmap string (option A)) : t A :=
  {| size := size sm; data := d |}.

Definition add {A} (sm : t A) (k : string) (v : option A) : t A * option error :=
  if full sm then (sm, Some (err_full "SafeStrMap.Set already full"))
  else match data sm !! k with
       | None => (upd sm (<[k := v]> (data sm)), None)
       | Some _ => (sm, None)
       end.

Definition Set_ {A} (sm : t A) (k : string) (v : option A) : t A * option error := add sm k v.

Definition Mod {A} (sm : t A) (k : string) (v : option A) : t A * option error :=
  match data sm !! k with
  | None => add sm k v
  | Some _ => (upd sm (<[k := v]> (data sm)), None)
  end.

Definition Del {A} (sm : t A) (k : string) : t A :=
  match data sm !! k with
  | Some _ => upd sm (delete k (data sm))
  | None => sm
  end.

Definition Clear {A} (sm : t A) : t A := upd sm ∅.

Definition Get {A} (sm : t A) (k : string) : option A := default None (data sm !! k).

Definition GetEx {A} (sm : t A) (k : string) : option A * bool :=
  match data sm !! k with Some v => (v, true) | None => (None, false) end.

(** [Iter] over the entries in the order [order]: [proc] threads a state, the
    count is of the entries that are not [nil]. *)
Fixpoint Iter {A S} (order : list (string * option A)) (proc : string -> A -> S -> S)
    (s : S) : S * Z :=
  match order with
  | [] => (s, 0)
  | (k, Some u) :: l => let (s', n) := Iter l proc (proc k u s) in (s', n + 1)
  | (_, None) :: l => Iter l proc s
  end.

(** The orders Go may choose. *)
Definition orders {A} (sm : t A) (order : list (string * option A)) : Prop :=
  order ≡ₚ map_to_list (data sm).

(** The entries an iteration visits. *)
Definition visited {A} (order : list (string * option A)) : list (string * A) :=
  omap (fun e => match e with (k, Some u) => Some (k, u) | _ => None end) order.

End SafeStrMap.
Import SafeStrMap (NewSafeStrMap).

(** ** SafeStrStr *)
Module SafeStrStr.

Record t := mk { size : Z; data : gmap string string }.

Definition NewSafeStrStr (size : Z) : t := {| size := size; data := ∅ |}.

Definition Len (sm : t) : Z := Z.of_nat (base.size (data sm)).

Definition full (sm : t) : bool := negb (size sm =? 0) && (size sm <=? Len sm).

Definition Reset (sm : t) (k v : string) : t * option error :=
  if full sm then (sm, Some (err_full "SafeStrStr.Set already full"))
  else ({| size := size sm; data := <[k := v]> (data sm) |}, None).

Definition Set_ (sm : t) (k v : string) : t * option error :=
  if full sm then (sm, Some (err_full "SafeStrStr.Set already full"))
  else match data sm !! k with
       | None => ({| size := size sm; data := <[k := v]> (data sm) |}, None)
       | Some _ => (sm, None)
       end.

Definition Del (sm : t) (k : string) : t :=
  match data sm !! k with
  | Some _ => {| size := size sm; data := delete k (data sm) |}
  | None => sm
  end.

Definition Get (sm : t) (k : string) : string := default ""%string (data sm !! k).

Definition GetEx (sm : t) (k : string) : string * bool :=
  match data sm !! k with Some v => (v, true) | None => (""%string, false) end.

Fixpoint Iter {S} (order : list (string * string)) (proc : string -> string -> S -> S)
    (s : S) : S * Z :=
  match order with
  | [] => (s, 0)
  | (k, u) :: l =>
      if String.eqb k "" then Iter l proc s
      else let (s', n) := Iter l proc (proc k u s) in (s', n + 1)
  end.

End SafeStrStr.

(** ** SafeVar *)
Module SafeVar.

Definition t (A : Type) := option A.
Definition NewSafeVar {A} : t A := None.
Definition Set_ {A} (sv : t A) (v : option A) : t A := v.
Definition Get {A} (sv : t A) : option A := sv.
Definition GetWithFunc {A S} (sv : t A) (proc : option A -> S -> S) (s : S) : S := proc sv s.

End SafeVar.

(** ** SafeStrInt64 *)
Module SafeStrInt64.

Abbreviation t := (gmap string Z).

Definition NewSafeStrInt64 : t := ∅.
Definition Get (s : t) (k : string) : Z := match s !! k with Some v => v | None => 0 end.
Definition Set_ (s : t) (k : string) (v : Z) : t := <[k := v]> s.
Definition Add (s : t) (k : string) (v : Z) : t :=
  match s !! k with
  | Some v0 => <[k := wrap64s (v0 + v)]> s
  | None => <[k := v]> s
  end.
(** [Copy(dst)]: the entries of the receiver win. *)
Definition Copy (s : t) (dst : t) : t := s ∪ dst.
Definition Data (s : t) : t := Copy s ∅.

End SafeStrInt64.

(** ** Operations as data, for sequences of calls *)

Inductive map_op (A : Type) :=
| OSet (k : string) (v : option A)
| OMod (k : string) (v : option A)
| ODel (k : string)
| OClear.
Arguments OSet {A}.
Arguments OMod {A}.
Arguments ODel {A}.
Arguments OClear {A}.

Definition map_step {A} (sm : SafeStrMap.t A) (o : map_op A) : SafeStrMap.t A * option error :=
  match o with
  | OSet k v => SafeStrMap.Set_ sm k v
  | OMod k v => SafeStrMap.Mod sm k v
  | ODel k => (SafeStrMap.Del sm k, None)
  | OClear => (SafeStrMap.Clear sm, None)
  end.

(** The calls that were made on a map, with the answer each got. *)
Fixpoint map_run {A} (sm : SafeStrMap.t A) (os : list (map_op A))
    : SafeStrMap.t A * list (option error) :=
  match os with
  | [] => (sm, [])
  | o :: os =>
      let (sm', e) := map_step sm o in
      let (sm'', es) := map_run sm' os in (sm'', e :: es)
  end.

(** The abstract content of a map: one write-once cell per key. *)
Definition cell_step {A} (k : string) (c : option (option A)) (o : map_op A) : option (option A) :=
  match o with
  | OSet k' v => if decide (k = k') then match c with None => Some v | Some _ => c end else c
  | OMod k' v => if decide (k = k') then Some v else c
  | ODel k' => if decide (k = k') then None else c
  | OClear => None
  end.

(** Which calls took effect. *)
Definition effective {A} (os : list (map_op A)) (es : list (option error)) : list (map_op A) :=
  omap (fun oe => match snd oe with None => Some (fst oe) | Some _ => None end) (zip os es).

Section safestrmap.
Context {A : Type}.
Implicit Types (sm : SafeStrMap.t A) (k : string) (v : option A) (o : map_op A).

Definition bounded sm : Prop :=
  SafeStrMap.size sm = 0 \/ SafeStrMap.Len sm <= SafeStrMap.size sm.

Lemma full_false sm :
  SafeStrMap.full sm = false <->
  SafeStrMap.size sm = 0 \/ SafeStrMap.Len sm < SafeStrMap.size sm.
Proof.
  unfold SafeStrMap.full. rewrite andb_false_iff, negb_false_iff, Z.eqb_eq, Z.leb_gt. done.
Qed.

Lemma map_size_insert_le (m : gmap string (option A)) k v :
  (base.size (<[k := v]> m) <= S (base.size m))%nat.
Proof.
  destruct (m !! k) as [v'|] eqn:E.
  - rewrite map_size_insert_Some by (by rewrite E). lia.
  - rewrite map_size_insert_None by done. lia.
Qed.

Lemma map_step_size sm o : SafeStrMap.size (map_step sm o).1 = SafeStrMap.size sm.
Proof.
  destruct o as [k v|k v|k|]; simpl; try done;
    unfold SafeStrMap.Set_, SafeStrMap.Mod, SafeStrMap.Del, SafeStrMap.add; by repeat case_match.
Qed.

Lemma add_bounded sm k v : bounded sm -> bounded (SafeStrMap.add sm k v).1.
Proof.
  intros H. unfold SafeStrMap.add. destruct (SafeStrMap.full sm) eqn:Ef; [done|].
  destruct (SafeStrMap.data sm !! k); [done|]. simpl.
  apply full_false in Ef. unfold bounded, SafeStrMap.Len in *. simpl.
  pose proof (map_size_insert_le (SafeStrMap.data sm) k v).
  destruct Ef as [Ef|Ef]; [by left|right; lia].
Qed.

Lemma map_step_bounded sm o : bounded sm -> bounded (map_step sm o).1.
Proof.
  intros H. destruct o as [k v|k v|k|]; simpl.
  - by apply add_bounded.
  - unfold SafeStrMap.Mod. destruct (SafeStrMap.data sm !! k) as [v'|] eqn:E;
      [|by apply add_bounded].
    unfold bounded, SafeStrMap.Len in *. simpl. by rewrite map_size_insert_Some by (by rewrite E).
  - unfold SafeStrMap.Del. destruct (SafeStrMap.data sm !! k) as [v'|] eqn:E; [|done].
    unfold bounded, SafeStrMap.Len in *. simpl.
    rewrite map_size_delete_Some by (by rewrite E). lia.
  - unfold bounded, SafeStrMap.Len in *. simpl. rewrite map_size_empty. lia.
Qed.

(** An operation that fails changes nothing; one that succeeds acts on the cell
    of its key only. *)
Lemma map_step_cell sm o k :
  SafeStrMap.data (map_step sm o).1 !! k =
    match (map_step sm o).2 with
    | None => cell_step k (SafeStrMap.data sm !! k) o
    | Some _ => SafeStrMap.data sm !! k
    end.
Proof.
  destruct o as [k' v|k' v|k'|]; simpl;
    unfold SafeStrMap.Set_, SafeStrMap.Mod, SafeStrMap.Del, SafeStrMap.add; simpl.
  - destruct (SafeStrMap.full sm); [done|].
    destruct (SafeStrMap.data sm !! k') eqn:E; simpl; case_decide; subst;
      rewrite ?lookup_insert_eq, ?lookup_insert_ne by done; rewrite ?E; done.
  - destruct (SafeStrMap.data sm !! k') eqn:E; simpl;
      [|destruct (SafeStrMap.full sm); [done|]; simpl];
      case_decide; subst; by rewrite ?lookup_insert_eq, ?lookup_insert_ne.
  - destruct (SafeStrMap.data sm !! k') eqn:E; simpl; case_decide; subst;
      rewrite ?lookup_delete_eq, ?lookup_delete_ne by done; done.
  - by rewrite lookup_empty.
Qed.

Lemma map_run_bounded os sm : bounded sm -> bounded (map_run sm os).1.
Proof.
  revert sm. induction os as [|o os IH]; intros sm H; [done|]. simpl.
  pose proof (map_step_bounded sm o H) as Hs.
  destruct (map_step sm o) as [sm' e]. simpl in Hs. specialize (IH sm' Hs).
  by destruct (map_run sm' os).
Qed.

Lemma map_run_size os sm : SafeStrMap.size (map_run sm os).1 = SafeStrMap.size sm.
Proof.
  revert sm. induction os as [|o os IH]; intros sm; [done|]. simpl.
  pose proof (map_step_size sm o) as Hs.
  destruct (map_step sm o) as [sm' e]. simpl in Hs. specialize (IH sm').
  destruct (map_run sm' os). simpl in *. congruence.
Qed.

Lemma map_run_cell os sm k :
  SafeStrMap.data (map_run sm os).1 !! k =
    foldl (cell_step k) (SafeStrMap.data sm !! k) (effective os (map_run sm os).2).
Proof.
  revert sm. induction os as [|o os IH]; intros sm; [done|]. simpl.
  pose proof (map_step_cell sm o k) as Hs.
  destruct (map_step sm o) as [sm' e]. simpl in Hs. specialize (IH sm').
  destruct (map_run sm' os) as [sm'' es]. simpl in *. rewrite IH, Hs.
  unfold effective. simpl. by destruct e.
Qed.

Lemma map_step_error sm o :
  (map_step sm o).2 <> None <->
  SafeStrMap.full sm = true /\
  match o with OSet _ _ => True | OMod k _ => SafeStrMap.data sm !! k = None | _ => False end.
Proof.
  destruct o as [k v|k v|k|]; simpl; try (split; [done|tauto]);
    unfold SafeStrMap.Set_, SafeStrMap.Mod, SafeStrMap.add;
    destruct (SafeStrMap.data sm !! k) eqn:E, (SafeStrMap.full sm) eqn:F; simpl;
    (split; [intros; (done || split; congruence)|intros [? ?]; congruence]).
Qed.

Lemma Iter_visited {S} order (proc : string -> A -> S -> S) s :
  SafeStrMap.Iter order proc s =
    (foldl (fun s e => proc e.1 e.2 s) s (SafeStrMap.visited order),
     zlen (SafeStrMap.visited order)).
Proof.
  revert s. induction order as [|[k [u|]] l IH]; intros s; simpl; [done| |done].
  rewrite IH. f_equal. unfold zlen. simpl. lia.
Qed.

End safestrmap.

#[export] Hint Resolve map_step_bounded map_run_bounded : go.

(** The bounded map refines write-once cells: for every sequence of calls of
    [Set], [Mod], [Del] and [Clear] on a fresh map, the number of entries never
    exceeds the capacity, and the content of every key is what the calls that
    were not refused make of one cell for that key: [Set] writes only an absent
    key, [Mod] always writes, [Del] and [Clear] empty it. *)
Theorem safestrmap_refines_cells {A} (n : Z) (os : list (map_op A)) :
  let sm := (map_run (NewSafeStrMap n) os).1 in
  0 <= n ->
  (n = 0 \/ SafeStrMap.Len sm <= n) /\
  forall k, SafeStrMap.GetEx sm k =
    match foldl (cell_step k) None (effective os (map_run (NewSafeStrMap n) os).2) with
    | Some v => (v, true)
    | None => (None, false)
    end.
Proof.
  intros sm Hn. split.
  - pose proof (map_run_bounded os (NewSafeStrMap (A:=A) n)) as Hb.
    unfold bounded in Hb. rewrite map_run_size in Hb. apply Hb.
    unfold NewSafeStrMap, SafeStrMap.Len. simpl. rewrite map_size_empty. lia.
  - intros k. unfold SafeStrMap.GetEx, sm. by rewrite map_run_cell.
Qed.

Lemma safestrmap_refines_cells_witness :
  let os := [OSet "a" (Some 1); OSet "b" (Some 2); OSet "a" (Some 3); OMod "a" (Some 4)] in
  SafeStrMap.Len (map_run (NewSafeStrMap 2) os).1 <= 2 /\
  SafeStrMap.Get (map_run (NewSafeStrMap 2) os).1 "a" = Some 4 /\
  (map_run (NewSafeStrMap 2) os).2 =
    [None; None; Some (err_full "SafeStrMap.Set already full"); None].
Proof.
  split; [|split; vm_compute; done].
  destruct (safestrmap_refines_cells 2
    [OSet "a" (Some 1); OSet "b" (Some 2); OSet "a" (Some 3); OMod "a" (Some 4)])
    as [[H|H] _]; [lia|discriminate H|exact H].
Defined.

(** A write is refused exactly when the map is full, and then, for [Mod], the
    key is absent; [Set] is refused for a key that is already there as well.  A
    refused call leaves the map as it was. *)
Theorem safestrmap_refusal {A} (sm : SafeStrMap.t A) (o : map_op A) :
  ((map_step sm o).2 <> None <->
    SafeStrMap.size sm <> 0 /\ SafeStrMap.size sm <= SafeStrMap.Len sm /\
    match o with OSet _ _ => True | OMod k _ => (SafeStrMap.GetEx sm k).2 = false | _ => False end) /\
  ((map_step sm o).2 = None \/ (map_step sm o).1 = sm).
Proof.
  split.
  - rewrite map_step_error. unfold SafeStrMap.full, SafeStrMap.GetEx.
    rewrite andb_true_iff, negb_true_iff, Z.eqb_neq, Z.leb_le.
    destruct o as [k v|k v|k|]; try tauto.
    destruct (SafeStrMap.data sm !! k); simpl; intuition congruence.
  - destruct o as [k v|k v|k|]; simpl; try (by left);
      unfold SafeStrMap.Set_, SafeStrMap.Mod, SafeStrMap.add;
      destruct (SafeStrMap.data sm !! k), (SafeStrMap.full sm); simpl; naive_solver.
Qed.

Lemma visited_NoDup {A} (sm : SafeStrMap.t A) order :
  SafeStrMap.orders sm order -> NoDup (SafeStrMap.visited order).*1.
Proof.
  intros Ho.
  assert (Hnd : NoDup (order.*1)) by (rewrite Ho; apply NoDup_fst_map_to_list).
  clear -Hnd. induction order as [|[k [u|]] l IH]; simpl in *; [constructor| |].
  - apply NoDup_cons in Hnd as [Hk Hnd]. apply NoDup_cons. split; [|by apply IH].
    intros Hin. apply Hk. apply list_elem_of_fmap in Hin as ([k' u'] & -> & Hin).
    apply list_elem_of_omap in Hin as ([k2 [u2|]] & Hin & E2); simplify_eq.
    apply list_elem_of_fmap. by exists (k', Some u').
  - apply NoDup_cons in Hnd as [_ Hnd]. by apply IH.
Qed.

Lemma visited_length {A} (sm : SafeStrMap.t A) order :
  SafeStrMap.orders sm order -> zlen (SafeStrMap.visited order) <= SafeStrMap.Len sm.
Proof.
  intros Ho. unfold SafeStrMap.Len, zlen. rewrite <- length_map_to_list, <- Ho.
  clear Ho. induction order as [|[k [u|]] l IH]; simpl; lia.
Qed.

Lemma orders_visited {A} (sm : SafeStrMap.t A) order k u :
  SafeStrMap.orders sm order ->
  (k, u) ∈ SafeStrMap.visited order <-> SafeStrMap.Get sm k = Some u.
Proof.
  intros Ho. unfold SafeStrMap.visited, SafeStrMap.Get, SafeStrMap.orders in *.
  rewrite list_elem_of_omap. setoid_rewrite Ho. split.
  - intros ([k' [u'|]] & Hin & E); simplify_eq.
    apply elem_of_map_to_list in Hin. by rewrite Hin.
  - intros E. exists (k, Some u). split; [|done]. apply elem_of_map_to_list.
    destruct (SafeStrMap.data sm !! k) as [v|]; naive_solver.
Qed.

(** Whatever order the map is iterated in, [Iter] calls its procedure once for
    each key that holds a value other than [nil], and for nothing else; the count
    it returns is the number of these calls. *)
Theorem safestrmap_iter_exact {A} (sm : SafeStrMap.t A) (order : list (string * option A)) :
  SafeStrMap.orders sm order ->
  let calls := SafeStrMap.Iter order (fun k u l => l ++ [(k, u)]) [] in
  calls.2 = zlen calls.1 /\ NoDup calls.1.*1 /\
  forall k u, (k, u) ∈ calls.1 <-> SafeStrMap.Get sm k = Some u.
Proof.
  intros Ho calls. unfold calls. rewrite Iter_visited. simpl.
  assert (E : forall (l acc : list (string * A)),
             foldl (fun s e => s ++ [(e.1, e.2)]) acc l = acc ++ l).
  { induction l as [|[k u] l IH]; intros acc; simpl; [by rewrite app_nil_r|].
    by rewrite IH, <- app_assoc. }
  rewrite E. simpl. split; [done|]. split; [|intros k u; by apply orders_visited].
  by eapply visited_NoDup.
Qed.

Lemma safestrmap_iter_exact_witness :
  let sm := (map_run (NewSafeStrMap 0) [OSet "a" (Some 1); OSet "b" None]).1 in
  (SafeStrMap.Iter [("b", None); ("a", Some 1)]%string (fun k u l => l ++ [(k, u)]) []).2 = 1.
Proof.
  set (sm := (map_run (NewSafeStrMap 0) [OSet "a" (Some 1); OSet "b" None]).1).
  destruct (safestrmap_iter_exact sm [("b", None); ("a", Some 1)]%string) as [H _].
  - unfold SafeStrMap.orders. vm_compute. first [reflexivity | apply perm_swap].
  - rewrite H. reflexivity.
Defined.

(** ** Counters *)

Fixpoint adds (s : SafeStrInt64.t) (l : list (string * Z)) : SafeStrInt64.t :=
  match l with [] => s | (k, v) :: l => adds (SafeStrInt64.Add s k v) l end.

Definition sum_of (k : string) (l : list (string * Z)) : Z :=
  foldr (fun e n => if decide (e.1 = k) then e.2 + n else n) 0 l.

Lemma Add_get s k k' v :
  i64 v ->
  SafeStrInt64.Get (SafeStrInt64.Add s k v) k' =
    if decide (k = k') then wrap64s (SafeStrInt64.Get s k + v) else SafeStrInt64.Get s k'.
Proof.
  intros Hv. unfold SafeStrInt64.Add, SafeStrInt64.Get.
  destruct (s !! k) eqn:E; case_decide; subst;
    rewrite ?lookup_insert_eq, ?lookup_insert_ne by done; try done.
  by rewrite wrap64s_id.
Qed.

Lemma wrap64s_add_l a b : wrap64s (wrap64s a + b) = wrap64s (a + b).
Proof.
  unfold wrap64s.
  replace ((a + 2 ^ 63) mod 2 ^ 64 - 2 ^ 63 + b + 2 ^ 63) with ((a + 2 ^ 63) mod 2 ^ 64 + b) by lia.
  rewrite Zplus_mod_idemp_l. do 2 f_equal. lia.
Qed.

(** Counters add up: after any sequence of [Add]s, each counter is the sum of
    what was added to it, in 64-bit two's complement; the others do not count. *)
Theorem counters_sum (l : list (string * Z)) (k : string) :
  Forall (fun e => i64 e.2) l ->
  SafeStrInt64.Get (adds SafeStrInt64.NewSafeStrInt64 l) k = wrap64s (sum_of k l).
Proof.
  intros Hl.
  assert (G : forall s, wrap64s (SafeStrInt64.Get s k) = SafeStrInt64.Get s k ->
            SafeStrInt64.Get (adds s l) k = wrap64s (SafeStrInt64.Get s k + sum_of k l)).
  { induction Hl as [|[k' v] l Hv Hl IH]; intros s Hs; simpl in *.
    - by rewrite Z.add_0_r.
    - rewrite IH; rewrite (Add_get s k' k v Hv); case_decide; subst; simpl; try done.
      + rewrite wrap64s_add_l. f_equal. lia.
      + apply wrap64s_id, wrap64s_i64. }
  by rewrite G.
Qed.

Lemma counters_sum_witness :
  SafeStrInt64.Get (adds SafeStrInt64.NewSafeStrInt64 [("a", 2); ("b", 7); ("a", 5)]%string) "a" = 7.
Proof.
  rewrite (counters_sum [("a", 2); ("b", 7); ("a", 5)]%string "a"); [reflexivity|].
  repeat constructor; simpl; unfold i64; lia.
Defined.
