(* ===== verification/Tap.v ===== *)
(** * Tap devices (pkg/network/taper.go, tap_virtual.go, tap_kernel.go)

    [VirtualTap] is a pair of bounded Go channels between the worker that serves
    a point and a bridge; [KernelTap] wraps a tap device of the kernel.  Both
    implement the [Taper] interface, here a type class; what a bridge may rely
    on is the class [TaperLaws], which both discharge.  The registry [Taps] maps
    names to devices.

    Channels live in the heap [chans] of the device and are named by their index,
    since a reader that evaluated [t.kernQ] keeps reading from that channel after
    [Down] has closed it and [Up] has made a new one. *)

From S2P Require Import Prelude.

Local Open Scope Z_scope.

Definition UsClose : Z := 0x02.
Definition UsUp : Z := 0x04.
Definition TUN : Z := 0x01.
Definition TAP : Z := 0x02.

Definition ProviderVir : string := "virtual".
Definition ProviderKer : string := "kernel".

Record DeviceStats := { st_Send : Z; st_Recv : Z; st_Drop : Z }.
Definition no_stats : DeviceStats := {| st_Send := 0; st_Recv := 0; st_Drop := 0 |}.
Definition inc_send (s : DeviceStats) : DeviceStats :=
  {| st_Send := wrap64s (st_Send s + 1); st_Recv := st_Recv s; st_Drop := st_Drop s |}.
Definition inc_recv (s : DeviceStats) : DeviceStats :=
  {| st_Send := st_Send s; st_Recv := wrap64s (st_Recv s + 1); st_Drop := st_Drop s |}.
Definition inc_drop (s : DeviceStats) : DeviceStats :=
  {| st_Send := st_Send s; st_Recv := st_Recv s; st_Drop := wrap64s (st_Drop s + 1) |}.

Record TapConfig := {
  Provider : string; cfg_Type : Z; cfg_Network : string; cfg_Name : string;
  VirBuf : Z; KernBuf : Z; cfg_Mtu : Z
}.

(** A bridge is known to a tap by its identity. *)
Definition bridge_id := nat.

(** ** Channels *)

Record chan := { cap : Z; items : list bytes; closed : bool }.

Definition new_chan (n : Z) : chan := {| cap := n; items := []; closed := false |}.

(** [q <- p], [q] being an index of the heap or the nil channel. *)
Definition chan_send (h : list chan) (q : option nat) (p : bytes) : run (list chan) :=
  match q with
  | None => Blocks
  | Some c =>
      match h !! c with
      | None => Blocks
      | Some ch =>
          if closed ch then Crashes
          else if cap ch <=? zlen (items ch) then Blocks
          else Finished (<[c := {| cap := cap ch; items := items ch ++ [p]; closed := false |}]> h)
      end
  end.

(** [<-q]: a closed channel gives what is left in it, then nil slices. *)
Definition chan_recv (h : list chan) (q : option nat) : run (list chan * bytes) :=
  match q with
  | None => Blocks
  | Some c =>
      match h !! c with
      | None => Blocks
      | Some ch =>
          match items ch with
          | p :: l => Finished (<[c := {| cap := cap ch; items := l; closed := closed ch |}]> h, p)
          | [] => if closed ch then Finished (h, []) else Blocks
          end
      end
  end.

Definition chan_close (h : list chan) (q : option nat) : run (list chan) :=
  match q with
  | None => Crashes
  | Some c =>
      match h !! c with
      | None => Crashes
      | Some ch =>
          if closed ch then Crashes
          else Finished (<[c := {| cap := cap ch; items := items ch; closed := true |}]> h)
      end
  end.

(** ** VirtualTap *)

Record VirtualTap := {
  chans : list chan;
  kernC : Z; kernQ : option nat;
  virtC : Z; virtQ : option nat;
  master : option bridge_id;
  tenant : string; flags : Z; cfg : TapConfig; name : string; ifMtu : Z; sts : DeviceStats
}.

Definition set_kern (t : VirtualTap) (h : list chan) (c : Z) : VirtualTap :=
  {| chans := h; kernC := c; kernQ := kernQ t; virtC := virtC t; virtQ := virtQ t;
     master := master t; tenant := tenant t; flags := flags t; cfg := cfg t;
     name := name t; ifMtu := ifMtu t; sts := sts t |}.
Definition set_virt (t : VirtualTap) (h : list chan) (c : Z) : VirtualTap :=
  {| chans := h; kernC := kernC t; kernQ := kernQ t; virtC := c; virtQ := virtQ t;
     master := master t; tenant := tenant t; flags := flags t; cfg := cfg t;
     name := name t; ifMtu := ifMtu t; sts := sts t |}.
Definition set_queues (t : VirtualTap) (h : list chan) (kc : Z) (kq : option nat) (vc : Z)
    (vq : option nat) (fl : Z) : VirtualTap :=
  {| chans := h; kernC := kc; kernQ := kq; virtC := vc; virtQ := vq;
     master := master t; tenant := tenant t; flags := fl; cfg := cfg t;
     name := name t; ifMtu := ifMtu t; sts := sts t |}.
Definition set_flags_master (t : VirtualTap) (fl : Z) (m : option bridge_id) : VirtualTap :=
  {| chans := chans t; kernC := kernC t; kernQ := kernQ t; virtC := virtC t; virtQ := virtQ t;
     master := m; tenant := tenant t; flags := fl; cfg := cfg t;
     name := name t; ifMtu := ifMtu t; sts := sts t |}.
Definition set_sts (t : VirtualTap) (s : DeviceStats) : VirtualTap :=
  {| chans := chans t; kernC := kernC t; kernQ := kernQ t; virtC := virtC t; virtQ := virtQ t;
     master := master t; tenant := tenant t; flags := flags t; cfg := cfg t;
     name := name t; ifMtu := ifMtu t; sts := s |}.

(** The device [NewVirtualTap] makes; the caller registers it. *)
Definition new_virtual (tenant : string) (c : TapConfig) (name : string) : VirtualTap :=
  {| chans := []; kernC := 0; kernQ := None; virtC := 0; virtQ := None; master := None;
     tenant := tenant; flags := 0; cfg := c; name := name; ifMtu := 1514; sts := no_stats |}.

Definition hasFlags (t : VirtualTap) (v : Z) : bool := Z.land (flags t) v =? v.
(** [flags |= v] and [flags &= ^v] *)
Definition setFlags (fl v : Z) : Z := Z.lor fl v.
Definition clearFlags (fl v : Z) : Z := Z.ldiff fl v.

Definition vt_Has (t : VirtualTap) (v : Z) : bool := hasFlags t v.
Definition vt_IsTun (t : VirtualTap) : bool := cfg_Type (cfg t) =? TUN.

Definition not_up : error := NewErr "notUp" [].

Definition vt_Write (t : VirtualTap) (p : bytes) : run (VirtualTap * result Z) :=
  if negb (hasFlags t UsUp) then Finished (t, inr not_up)
  else if VirBuf (cfg t) <=? virtC t then Finished (set_sts t (inc_drop (sts t)), inl 0)
  else
    h ← chan_send (chans t) (virtQ t) p;
    Finished (set_virt t h (wrap64s (virtC t + 1)), inl (zlen p)).

Definition vt_Send (t : VirtualTap) (p : bytes) : run (VirtualTap * result Z) :=
  if negb (hasFlags t UsUp) then Finished (t, inr not_up)
  else if KernBuf (cfg t) <=? kernC t then Finished (set_sts t (inc_drop (sts t)), inl 0)
  else
    h ← chan_send (chans t) (kernQ t) p;
    Finished (set_kern t h (wrap64s (kernC t + 1)), inl (zlen p)).

(** [copy(p, data)] for a [p] of [n] bytes: the bytes read and their number. *)
Definition copy_out (n : Z) (data : bytes) : bytes := take (Z.to_nat n) data.

(** [Read] and [Recv] take the lock twice, with the receive in between:
    the three parts are named, since others may run between them. *)
Definition read_check (t : VirtualTap) : bool := hasFlags t UsUp.
Definition read_take (t : VirtualTap) (q : option nat) : run (VirtualTap * bytes) :=
  hd ← chan_recv (chans t) q;
  let '(h, data) := hd in Finished (set_kern t h (kernC t), data).
Definition read_done (t : VirtualTap) : VirtualTap := set_kern t (chans t) (wrap64s (kernC t - 1)).
Definition recv_take (t : VirtualTap) (q : option nat) : run (VirtualTap * bytes) :=
  hd ← chan_recv (chans t) q;
  let '(h, data) := hd in Finished (set_virt t h (virtC t), data).
Definition recv_done (t : VirtualTap) : VirtualTap := set_virt t (chans t) (wrap64s (virtC t - 1)).

Definition vt_Read (t : VirtualTap) (n : Z) : run (VirtualTap * result bytes) :=
  if negb (read_check t) then Finished (t, inr not_up)
  else
    td ← read_take t (kernQ t);
    let '(t', data) := td in Finished (read_done t', inl (copy_out n data)).

Definition vt_Recv (t : VirtualTap) (n : Z) : run (VirtualTap * result bytes) :=
  if negb (read_check t) then Finished (t, inr not_up)
  else
    td ← recv_take t (virtQ t);
    let '(t', data) := td in Finished (recv_done t', inl (copy_out n data)).

Definition vt_Up (t : VirtualTap) : run VirtualTap :=
  if hasFlags t UsUp then Finished t
  else if (KernBuf (cfg t) <? 0) || (VirBuf (cfg t) <? 0) then Crashes
  else
    let n := length (chans t) in
    Finished (set_queues t (chans t ++ [new_chan (KernBuf (cfg t)); new_chan (VirBuf (cfg t))])
                0 (Some n) 0 (Some (S n)) (setFlags (flags t) UsUp)).

Definition vt_Down (t : VirtualTap) : run VirtualTap :=
  if hasFlags t UsUp then
    h ← chan_close (chans t) (kernQ t);
    h ← chan_close h (virtQ t);
    Finished (set_queues t h (kernC t) None (virtC t) None (clearFlags (flags t) UsUp))
  else Finished t.

(** What [Close] does to others: leave the bridge, leave the registry. *)
Record detach := { det_master : option bridge_id; det_name : option string }.
Definition no_detach : detach := {| det_master := None; det_name := None |}.

Definition vt_Close (t : VirtualTap) : run (VirtualTap * detach) :=
  t ← vt_Down t;
  if hasFlags t UsClose then Finished (t, no_detach)
  else
    let fl := clearFlags (setFlags (flags t) UsClose) UsUp in
    Finished (set_flags_master t fl None, {| det_master := master t; det_name := Some (name t) |}).

(** [SetMaster] answers with an error in every case. *)
Definition vt_SetMaster (t : VirtualTap) (dev : bridge_id) : VirtualTap * error :=
  (match master t with
   | None => set_flags_master t (flags t) (Some dev)
   | Some _ => t
   end, NewErr "already to %s" []).

(** ** KernelTap

    The kernel's device (package water) is not part of the sources: what it
    will answer to reads and writes is data of the environment, and [w_out] is
    what was written to it. *)
Record Water := { w_rd : list (result bytes); w_wr : list (result Z); w_out : list bytes }.

Record KernelTap := {
  k_device : option Water; k_master : option bridge_id; k_tenant : string; k_name : string;
  k_config : TapConfig; k_ipMtu : Z
}.

Definition k_set (t : KernelTap) (d : option Water) (m : option bridge_id) : KernelTap :=
  {| k_device := d; k_master := m; k_tenant := k_tenant t; k_name := k_name t;
     k_config := k_config t; k_ipMtu := k_ipMtu t |}.

Definition kt_Has (t : KernelTap) (v : Z) : bool :=
  if v =? UsClose then bool_decide (k_device t = None)
  else if v =? UsUp then bool_decide (k_device t <> None)
  else false.

Definition kt_IsTun (t : KernelTap) : bool := cfg_Type (k_config t) =? TUN.

Definition err_closed : error := NewErr "Closed" [].

Definition kt_Read (t : KernelTap) (n : Z) : run (KernelTap * result bytes) :=
  match k_device t with
  | None => Finished (t, inr err_closed)
  | Some d =>
      match w_rd d with
      | [] => Blocks
      | r :: l =>
          Finished (k_set t (Some {| w_rd := l; w_wr := w_wr d; w_out := w_out d |}) (k_master t),
                    match r with inl data => inl (copy_out n data) | inr e => inr e end)
      end
  end.

Definition kt_Write (t : KernelTap) (p : bytes) : run (KernelTap * result Z) :=
  match k_device t with
  | None => Finished (t, inr err_closed)
  | Some d =>
      match w_wr d with
      | [] => Blocks
      | r :: l =>
          Finished (k_set t (Some {| w_rd := w_rd d; w_wr := l;
                                     w_out := match r with inl _ => w_out d ++ [p] | inr _ => w_out d end |})
                          (k_master t), r)
      end
  end.

Definition kt_Recv (t : KernelTap) (n : Z) := kt_Read t n.
Definition kt_Send (t : KernelTap) (p : bytes) := kt_Write t p.

Definition kt_Close (t : KernelTap) : run (KernelTap * detach) :=
  match k_device t with
  | None => Finished (t, no_detach)
  | Some _ =>
      Finished (k_set t None None, {| det_master := k_master t; det_name := Some (k_name t) |})
  end.

Definition kt_SetMaster (t : KernelTap) (dev : bridge_id) : KernelTap * error :=
  (match k_master t with
   | None => k_set t (k_device t) (Some dev)
   | Some _ => t
   end, NewErr "already to %s" []).

(** ** The interface *)

Class Taper (T : Type) := {
  Name : T -> string;
  IsTun : T -> bool;
  Has : T -> Z -> bool;
  Read : T -> Z -> run (T * result bytes);
  Write : T -> bytes -> run (T * result Z);
  Send : T -> bytes -> run (T * result Z);
  Recv : T -> Z -> run (T * result bytes);
  Close : T -> run (T * detach);
  Master : T -> option bridge_id;
  SetMaster : T -> bridge_id -> T * error
}.

#[export] Instance virtual_taper : Taper VirtualTap := {|
  Name := name; IsTun := vt_IsTun; Has := vt_Has; Read := vt_Read; Write := vt_Write;
  Send := vt_Send; Recv := vt_Recv; Close := vt_Close; Master := master; SetMaster := vt_SetMaster
|}.

#[export] Instance kernel_taper : Taper KernelTap := {|
  Name := k_name; IsTun := kt_IsTun; Has := kt_Has; Read := kt_Read; Write := kt_Write;
  Send := kt_Send; Recv := kt_Recv; Close := kt_Close; Master := k_master;
  SetMaster := kt_SetMaster
|}.

(** ** The registry [Taps] *)

Record tapers := { tp_index : Z; tp_devices : gmap string nat }.

Definition empty_taps : tapers := {| tp_index := 0; tp_devices := ∅ |}.
Definition tp_GenName (t : tapers) : tapers * string :=
  let i := wrap64s (tp_index t + 1) in
  ({| tp_index := i; tp_devices := tp_devices t |}, ("vir" +:+ pretty i)%string).
Definition tp_Add (t : tapers) (nm : string) (d : nat) : tapers :=
  {| tp_index := tp_index t; tp_devices := <[nm := d]> (tp_devices t) |}.
Definition tp_Get (t : tapers) (nm : string) : option nat := tp_devices t !! nm.
Definition tp_Del (t : tapers) (nm : string) : tapers :=
  {| tp_index := tp_index t; tp_devices := delete nm (tp_devices t) |}.

(** [NewVirtualTap]: the new device and the registry that knows it as [d]. *)
Definition NewVirtualTap (tp : tapers) (d : nat) (ten : string) (c : TapConfig)
    : tapers * VirtualTap :=
  let '(tp, nm) := if String.eqb (cfg_Name c) "" then tp_GenName tp else (tp, cfg_Name c) in
  let tap := new_virtual ten c nm in
  (tp_Add tp (name tap) d, tap).

(** [NewKernelTap]; [WaterNew] is the environment's. *)
Definition NewKernelTap (WaterNew : TapConfig -> result (string * Water)) (tp : tapers) (d : nat)
    (ten : string) (c : TapConfig) : tapers * result KernelTap :=
  let mtu := if cfg_Mtu c =? 0 then 1500 else cfg_Mtu c in
  let '(tp, nm) :=
    if String.eqb (cfg_Name c) "auto" then tp_GenName tp else (tp, cfg_Name c) in
  let c := {| Provider := Provider c; cfg_Type := cfg_Type c; cfg_Network := cfg_Network c;
              cfg_Name := nm; VirBuf := VirBuf c; KernBuf := KernBuf c; cfg_Mtu := mtu |} in
  match WaterNew c with
  | inr e => (tp, inr e)
  | inl (dname, dev) =>
      let tap := {| k_device := Some dev; k_master := None; k_tenant := ten; k_name := dname;
                    k_config := c; k_ipMtu := mtu |} in
      (tp_Add tp dname d, inl tap)
  end.

(** ** The invariant of a virtual tap

    [side_ok h q n buf owed]: [q] is an open channel of capacity [buf] whose
    counter [n] exceeds its length by [owed], the readers that have taken a frame
    and not yet decremented the counter. *)
Definition side_ok (h : list chan) (q : option nat) (n buf owed : Z) : Prop :=
  exists c ch, q = Some c /\ h !! c = Some ch /\ closed ch = false /\ cap ch = buf /\
    n = zlen (items ch) + owed /\ 0 <= owed /\ n <= buf.

Definition vt_inv (t : VirtualTap) : Prop :=
  0 <= KernBuf (cfg t) < 2 ^ 62 /\ 0 <= VirBuf (cfg t) < 2 ^ 62 /\
  (hasFlags t UsUp = true ->
   exists ok ov, side_ok (chans t) (kernQ t) (kernC t) (KernBuf (cfg t)) ok /\
     side_ok (chans t) (virtQ t) (virtC t) (VirBuf (cfg t)) ov /\ kernQ t <> virtQ t).

(** The frames that wait in a channel. *)
Definition chan_items (h : list chan) (q : option nat) : list bytes :=
  match q with
  | Some c => match h !! c with Some ch => items ch | None => [] end
  | None => []
  end.

Lemma chan_send_ok h q n buf owed p :
  side_ok h q n buf owed -> n < buf ->
  exists h', chan_send h q p = Finished h' /\ side_ok h' q (n + 1) buf owed /\
    chan_items h' q = chan_items h q ++ [p] /\
    (forall q', q' <> q -> (forall n' b' o', side_ok h q' n' b' o' -> side_ok h' q' n' b' o') /\
                chan_items h' q' = chan_items h q').
Proof.
  intros (c & ch & -> & Hc & Hcl & Hcap & Hn & Ho & Hle) Hlt.
  unfold chan_send, chan_items. rewrite Hc, Hcl, Hcap.
  rewrite (proj2 (Z.leb_gt _ _)) by lia. eexists. split; [done|].
  pose proof (lookup_lt_Some _ _ _ Hc) as Hlen.
  rewrite list_lookup_insert_eq by done. split; [|split; [done|]].
  - eexists c, _. split; [done|]. rewrite list_lookup_insert_eq by done.
    split; [done|]. simpl. rewrite zlen_app. unfold zlen at 2. simpl. repeat split; lia.
  - intros q' Hq. split.
    + intros n' b' o' (c' & ch' & -> & Hc' & H'). exists c', ch'. split; [done|].
      rewrite list_lookup_insert_ne by congruence. done.
    + destruct q' as [c'|]; [|done]. by rewrite list_lookup_insert_ne by congruence.
Qed.

Lemma side_ok_items h q n buf owed :
  side_ok h q n buf owed -> n = zlen (chan_items h q) + owed.
Proof. intros (c & ch & -> & Hc & _ & _ & Hn & _). simpl. by rewrite Hc. Qed.

Lemma side_ok_bounds h q n buf owed : side_ok h q n buf owed -> 0 <= n <= buf.
Proof.
  intros (c & ch & _ & _ & _ & _ & Hn & Ho & Hle). pose proof (zlen_nonneg (items ch)). lia.
Qed.

Lemma hasFlags_set_kern t h c v : hasFlags (set_kern t h c) v = hasFlags t v.
Proof. done. Qed.

Definition vt_room (t : VirtualTap) : Prop :=
  hasFlags t UsUp = true /\ kernC t < KernBuf (cfg t).

(** Sending to a virtual tap that is up and has room queues the frame. *)
Lemma vt_send_room t p :
  vt_inv t -> vt_room t ->
  exists t', vt_Send t p = Finished (t', inl (zlen p)) /\ vt_inv t' /\
    chan_items (chans t') (kernQ t') = chan_items (chans t) (kernQ t) ++ [p] /\
    kernC t' = kernC t + 1 /\ kernQ t' = kernQ t /\ flags t' = flags t /\ name t' = name t /\
    cfg t' = cfg t.
Proof.
  intros (Hk & Hv & Hup) [Hu Hroom]. unfold vt_Send. rewrite Hu. simpl.
  rewrite (proj2 (Z.leb_gt _ _)) by lia.
  destruct (Hup Hu) as (ok & ov & Sk & Sv & Hne).
  destruct (chan_send_ok _ _ _ _ _ p Sk Hroom) as (h' & -> & Sk' & Hi & Hoth).
  pose proof (side_ok_bounds _ _ _ _ _ Sk).
  cbn [mbind run_bind]. rewrite wrap64s_id by (unfold i64; lia).
  eexists. split; [done|]. simpl. split; [|done].
  split; [done|]. split; [done|]. intros _. exists ok, ov. simpl.
  split; [done|]. split; [|done]. by apply Hoth.
Qed.

(** Sending always returns, and changes the queue by at most the frame. *)
Lemma vt_send_frame t p :
  vt_inv t ->
  exists t' r, vt_Send t p = Finished (t', r) /\ vt_inv t' /\ name t' = name t /\
    flags t' = flags t /\
    (chan_items (chans t') (kernQ t') = chan_items (chans t) (kernQ t) \/
     chan_items (chans t') (kernQ t') = chan_items (chans t) (kernQ t) ++ [p]).
Proof.
  intros Hinv. destruct (hasFlags t UsUp) eqn:Hu.
  - destruct (decide (kernC t < KernBuf (cfg t))) as [Hlt|Hge].
    + destruct (vt_send_room t p Hinv (conj Hu Hlt))
        as (t' & E & Hinv' & Hi & _ & _ & Hf & Hn & _).
      exists t', (inl (zlen p)). split_and!; try done. by right.
    + unfold vt_Send. rewrite Hu. simpl. rewrite (proj2 (Z.leb_le _ _)) by lia.
      eexists _, _. split_and!; try done. by left.
  - unfold vt_Send. rewrite Hu. simpl. eexists _, _. split_and!; try done. by left.
Qed.

(** Writing to a virtual tap that is up: the frame is queued for the bridge, or
    dropped when the queue is full. *)
Lemma vt_write_up t p :
  vt_inv t -> hasFlags t UsUp = true ->
  exists t' n, vt_Write t p = Finished (t', inl n) /\ vt_inv t' /\ name t' = name t /\ flags t' = flags t /\
    chan_items (chans t') (virtQ t') =
      chan_items (chans t) (virtQ t) ++ (if virtC t <? VirBuf (cfg t) then [p] else []).
Proof.
  intros (Hk & Hv & Hup) Hu. unfold vt_Write. rewrite Hu. simpl.
  destruct (Hup Hu) as (ok & ov & Sk & Sv & Hne).
  destruct (virtC t <? VirBuf (cfg t)) eqn:E.
  - apply Z.ltb_lt in E. rewrite (proj2 (Z.leb_gt _ _)) by lia.
    destruct (chan_send_ok _ _ _ _ _ p Sv E) as (h' & -> & Sv' & Hi & Hoth).
    pose proof (side_ok_bounds _ _ _ _ _ Sv).
    cbn [mbind run_bind]. rewrite wrap64s_id by (unfold i64; lia).
    eexists _, _. split; [done|]. simpl. split; [|done].
    split; [done|]. split; [done|]. intros _. exists ok, ov. simpl. split; [|done]. by apply Hoth.
  - apply Z.ltb_ge in E. rewrite (proj2 (Z.leb_le _ _)) by lia.
    eexists _, _. rewrite app_nil_r. done.
Qed.

Lemma chan_close_ok h q n buf owed :
  side_ok h q n buf owed ->
  exists h', chan_close h q = Finished h' /\
    forall q' n' b' o', q' <> q -> side_ok h q' n' b' o' -> side_ok h' q' n' b' o'.
Proof.
  intros (c & ch & -> & Hc & Hcl & _). unfold chan_close. rewrite Hc, Hcl. eexists. split; [done|].
  intros q' n' b' o' Hq (c' & ch' & -> & Hc' & H). exists c', ch'. split; [done|]. split; [|done].
  rewrite list_lookup_insert_ne; [done|]. congruence.
Qed.

(** Closing a virtual tap returns; the first time it leaves its bridge and the registry. *)
Lemma vt_close_total t :
  vt_inv t ->
  exists t' d, vt_Close t = Finished (t', d) /\
    (hasFlags t UsClose = false -> d = {| det_master := master t; det_name := Some (name t) |}).
Proof.
  intros (Hk & Hv & Hup). unfold vt_Close, vt_Down. destruct (hasFlags t UsUp) eqn:Hu.
  - destruct (Hup eq_refl) as (ok & ov & Sk & Sv & Hne).
    destruct (chan_close_ok _ _ _ _ _ Sk) as (h1 & -> & Ho). cbn [mbind run_bind].
    destruct (chan_close_ok h1 (virtQ t) _ _ _ (Ho _ _ _ _ (not_eq_sym Hne) Sv)) as (h2 & -> & _).
    cbn [mbind run_bind].
    match goal with |- context [if ?x then _ else _] => assert (Hx : x = hasFlags t UsClose) end.
    { unfold hasFlags. simpl. unfold clearFlags. f_equal.
      apply Z.bits_inj'. intros i Hi. rewrite !Z.land_spec, Z.ldiff_spec.
      destruct (decide (i = 1)) as [->|]; [simpl; by rewrite andb_true_r|].
      assert (Z.testbit UsClose i = false) as ->; [|by rewrite !andb_false_r].
      unfold UsClose. change 2 with (2 ^ 1). by apply Z.pow2_bits_false. }
    rewrite Hx. destruct (hasFlags t UsClose); eexists _, _; (split; [done|]); done.
  - cbn [mbind run_bind]. destruct (hasFlags t UsClose); eexists _, _; (split; [done|]); done.
Qed.

(** ** What a bridge may rely on *)

Class TaperLaws (T : Type) `{Taper T} := {
  tap_inv : T -> Prop;
  queued : T -> list bytes;
  room : T -> Prop;
  live : T -> Prop;
  send_live t p : tap_inv t -> live t -> exists t' r, Send t p = Finished (t', r);
  send_frame t p t' r :
    tap_inv t -> Send t p = Finished (t', r) ->
    tap_inv t' /\ Name t' = Name t /\ (forall v, Has t' v = Has t v) /\
    (queued t' = queued t \/ queued t' = queued t ++ [p]);
  send_room t p t' r :
    tap_inv t -> room t -> Send t p = Finished (t', r) -> queued t' = queued t ++ [p];
  room_up t : room t -> Has t UsUp = true;
  send_down t p : Has t UsUp = false -> exists e, Send t p = Finished (t, inr e)
}.

#[export] Program Instance virtual_laws : TaperLaws VirtualTap := {|
  tap_inv := vt_inv;
  queued t := chan_items (chans t) (kernQ t);
  room := vt_room;
  live _ := True
|}.
Next Obligation.
  intros t p Hinv _. destruct (vt_send_frame t p Hinv) as (t' & r & E & _). by exists t', r.
Qed.
Next Obligation.
  simpl. intros t p t' r Hinv E.
  destruct (vt_send_frame t p Hinv) as (t2 & r2 & E2 & Hi & Hn & Hf & Hq).
  rewrite E in E2. simplify_eq. split_and!; try done.
  intros v. unfold vt_Has, hasFlags. by rewrite Hf.
Qed.
Next Obligation.
  simpl. intros t p t' r Hinv Hr E.
  destruct (vt_send_room t p Hinv Hr) as (t2 & E2 & _ & Hi & _). congruence.
Qed.
Next Obligation. simpl. intros t [H _]. exact H. Qed.
Next Obligation.
  simpl. unfold vt_Has. intros t p H. unfold vt_Send. rewrite H. simpl. by eexists.
Qed.

#[export] Program Instance kernel_laws : TaperLaws KernelTap := {|
  tap_inv _ := True;
  queued t := match k_device t with Some d => w_out d | None => [] end;
  room t := match k_device t with Some d => exists n l, w_wr d = inl n :: l | None => False end;
  live t := match k_device t with Some d => w_wr d <> [] | None => True end
|}.
Next Obligation.
  simpl. intros t p _ Hl. unfold kt_Send, kt_Write. destruct (k_device t) as [d|]; [|by eexists _, _].
  destruct (w_wr d); [done|]. by eexists _, _.
Qed.
Next Obligation.
  simpl. unfold kt_Send, kt_Write. intros t p t' r _ E.
  destruct (k_device t) as [d|] eqn:Ed; [|simplify_eq; rewrite Ed; by repeat split; left].
  destruct (w_wr d) as [|x l]; [done|]. simplify_eq. split; [done|]. split; [done|]. split.
  - intros v. unfold kt_Has. simpl. rewrite Ed.
    destruct (v =? UsClose), (v =? UsUp); try done;
      (rewrite !bool_decide_eq_false_2 by done || rewrite !bool_decide_eq_true_2 by done); done.
  - simpl. destruct r; [by right|by left].
Qed.
Next Obligation.
  simpl. unfold kt_Send, kt_Write. intros t p t' r _ Hr E.
  destruct (k_device t) as [d|]; [|done]. destruct Hr as (n & l & Hw). rewrite Hw in E.
  simplify_eq. done.
Qed.
Next Obligation.
  simpl. intros t. unfold kt_Has. by destruct (k_device t).
Qed.
Next Obligation.
  simpl. unfold kt_Has. intros t p. simpl. destruct (k_device t) eqn:E.
  - done.
  - intros _. unfold kt_Send, kt_Write. rewrite E. by eexists.
Qed.

(** ** Interleavings

    Any number of readers run beside the senders.  [Read] is not atomic: it
    checks the flag under the lock, evaluates [t.kernQ], receives, and takes the
    lock again to decrement the counter.  [accepted] and [taken] record the frames
    that entered and left the queue. *)
Inductive rpc :=
| RTake             (* the flag was checked *)
| RWait (c : nat)   (* waiting on channel [c] *)
| RNil              (* waiting on the nil channel, for ever *)
| RDone.            (* a frame was received, the counter not yet decremented *)

Record conc := mk_conc {
  ct : VirtualTap; readers : list rpc; accepted : list bytes; taken : list bytes
}.

Inductive cstep : conc -> conc -> Prop :=
| C_send t rs acc tk p t' r :
    vt_Send t p = Finished (t', r) ->
    cstep (mk_conc t rs acc tk)
          (mk_conc t' rs (if hasFlags t UsUp && (kernC t <? KernBuf (cfg t))
                          then acc ++ [p] else acc) tk)
| C_write t rs acc tk p t' r :
    vt_Write t p = Finished (t', r) ->
    cstep (mk_conc t rs acc tk) (mk_conc t' rs acc tk)
| C_check t rs acc tk :
    read_check t = true ->
    cstep (mk_conc t rs acc tk) (mk_conc t (RTake :: rs) acc tk)
| C_eval t l1 l2 acc tk :
    cstep (mk_conc t (l1 ++ RTake :: l2) acc tk)
          (mk_conc t (l1 ++ match kernQ t with Some c => RWait c | None => RNil end :: l2) acc tk)
| C_recv t l1 l2 acc tk c t' data :
    read_take t (Some c) = Finished (t', data) ->
    cstep (mk_conc t (l1 ++ RWait c :: l2) acc tk)
          (mk_conc t' (l1 ++ RDone :: l2) acc (tk ++ [data]))
| C_done t l1 l2 acc tk :
    cstep (mk_conc t (l1 ++ RDone :: l2) acc tk) (mk_conc (read_done t) (l1 ++ l2) acc tk)
| C_down t rs acc tk t' :
    vt_Down t = Finished t' ->
    cstep (mk_conc t rs acc tk) (mk_conc t' rs acc tk)
| C_close t rs acc tk t' d :
    vt_Close t = Finished (t', d) ->
    cstep (mk_conc t rs acc tk) (mk_conc t' rs acc tk).

(** The same device with [Up] called again. *)
Inductive cstep_reopen : conc -> conc -> Prop :=
| R_step s s' : cstep s s' -> cstep_reopen s s'
| R_up t rs acc tk t' :
    vt_Up t = Finished t' -> cstep_reopen (mk_conc t rs acc tk) (mk_conc t' rs acc tk).

Definition owed (rs : list rpc) : Z :=
  foldr (fun r n => (match r with RDone => 1 | _ => 0 end) + n) 0 rs.

(** A device that was made and brought up. *)
Definition fresh_up (c : TapConfig) (nm : string) : run conc :=
  t ← vt_Up (new_virtual "" c nm);
  Finished (mk_conc t [] [] []).

Definition conc_inv (s : conc) : Prop :=
  let t := ct s in
  0 <= KernBuf (cfg t) < 2 ^ 62 /\ 0 <= VirBuf (cfg t) < 2 ^ 62 /\
  (hasFlags t UsUp = true ->
    side_ok (chans t) (kernQ t) (kernC t) (KernBuf (cfg t)) (owed (readers s)) /\
    (exists ov, side_ok (chans t) (virtQ t) (virtC t) (VirBuf (cfg t)) ov) /\
    kernQ t <> virtQ t /\
    accepted s = taken s ++ chan_items (chans t) (kernQ t) /\
    (forall c, RWait c ∈ readers s -> Some c = kernQ t)).

Lemma owed_app l1 l2 : owed (l1 ++ l2) = owed l1 + owed l2.
Proof.
  induction l1 as [|r l1 IH]; [done|].
  change (owed ((r :: l1) ++ l2)) with ((match r with RDone => 1 | _ => 0 end) + owed (l1 ++ l2)).
  change (owed (r :: l1)) with ((match r with RDone => 1 | _ => 0 end) + owed l1). lia.
Qed.

Lemma owed_cons r l :
  owed (r :: l) = (match r with RDone => 1 | _ => 0 end) + owed l.
Proof. done. Qed.

Lemma chan_recv_ok h c n buf ow h' d :
  side_ok h (Some c) n buf ow -> chan_recv h (Some c) = Finished (h', d) ->
  side_ok h' (Some c) n buf (ow + 1) /\ chan_items h (Some c) = d :: chan_items h' (Some c) /\
  (forall q n' b' o', q <> Some c -> side_ok h q n' b' o' -> side_ok h' q n' b' o').
Proof.
  intros (c' & ch & Ec & Hc & Hcl & Hcap & Hn & Ho & Hle) E. injection Ec as <-.
  unfold chan_recv, chan_items in *. rewrite Hc in *. rewrite Hcl in E.
  destruct (items ch) as [|x l] eqn:Hi; [done|]. simplify_eq.
  pose proof (lookup_lt_Some _ _ _ Hc) as Hlen. rewrite list_lookup_insert_eq by done. split; [|split; [done|]].
  - eexists c, _. rewrite list_lookup_insert_eq by done. split; [done|]. split; [done|]. simpl.
    unfold zlen in *. simpl in *. repeat split; lia.
  - intros q n' b' o' Hq (c2 & ch2 & -> & Hc2 & H2). exists c2, ch2.
    rewrite list_lookup_insert_ne by congruence. done.
Qed.

Lemma up_cleared fl : (Z.land (Z.ldiff fl UsUp) UsUp =? UsUp) = false.
Proof.
  apply Z.eqb_neq. intros H.
  assert (Z.testbit (Z.land (Z.ldiff fl UsUp) UsUp) 2 = Z.testbit UsUp 2) as Hb by by rewrite H.
  rewrite Z.land_spec, Z.ldiff_spec in Hb. change (Z.testbit UsUp 2) with true in Hb.
  by rewrite andb_false_r in Hb.
Qed.

Lemma vt_Down_down t t' :
  vt_Down t = Finished t' -> hasFlags t' UsUp = false /\ cfg t' = cfg t.
Proof.
  unfold vt_Down. destruct (hasFlags t UsUp) eqn:Hu; [|by intros; simplify_eq].
  destruct (chan_close (chans t) (kernQ t)) as [h| |]; [|done|done]. cbn [mbind run_bind].
  destruct (chan_close h (virtQ t)) as [h2| |]; [|done|done]. cbn [mbind run_bind].
  intros H. simplify_eq. split; [apply up_cleared|done].
Qed.

Lemma vt_Close_down t t' d :
  vt_Close t = Finished (t', d) -> hasFlags t' UsUp = false /\ cfg t' = cfg t.
Proof.
  unfold vt_Close. destruct (vt_Down t) as [t1| |] eqn:E; [|done|done]. cbn [mbind run_bind].
  destruct (vt_Down_down _ _ E) as [Hd Hc].
  destruct (hasFlags t1 UsClose); intros H; simplify_eq; [done|]. split; [apply up_cleared|done].
Qed.

Lemma conc_inv_send t rs acc tk p t' r :
  conc_inv (mk_conc t rs acc tk) -> vt_Send t p = Finished (t', r) ->
  conc_inv (mk_conc t' rs (if hasFlags t UsUp && (kernC t <? KernBuf (cfg t))
                           then acc ++ [p] else acc) tk).
Proof.
  intros (Hk & Hv & Hup) E. simpl in *. unfold vt_Send in E.
  destruct (hasFlags t UsUp) eqn:Hu; simpl in *;
    [|simplify_eq; split; [done|]; split; [done|]; simpl; congruence].
  destruct (Hup eq_refl) as (Sk & (ov & Sv) & Hne & Hacc & Hw).
  destruct (kernC t <? KernBuf (cfg t)) eqn:Hlt.
  - apply Z.ltb_lt in Hlt. rewrite (proj2 (Z.leb_gt _ _)) in E by lia.
    destruct (chan_send_ok _ _ _ _ _ p Sk Hlt) as (h' & Eh & Sk' & Hi & Hoth).
    rewrite Eh in E. cbn [mbind run_bind] in E.
    pose proof (side_ok_bounds _ _ _ _ _ Sk).
    rewrite wrap64s_id in E by (unfold i64; lia). simplify_eq.
    split; [done|]. split; [done|]. intros _. simpl. split_and!; try done.
    + exists ov. by apply Hoth.
    + by rewrite Hi, app_assoc.
  - apply Z.ltb_ge in Hlt. rewrite (proj2 (Z.leb_le _ _)) in E by lia. simplify_eq.
    split; [done|]. split; [done|]. intros _. simpl. split_and!; try done. by exists ov.
Qed.

Lemma conc_inv_write t rs acc tk p t' r :
  conc_inv (mk_conc t rs acc tk) -> vt_Write t p = Finished (t', r) ->
  conc_inv (mk_conc t' rs acc tk).
Proof.
  intros (Hk & Hv & Hup) E. simpl in *. unfold vt_Write in E.
  destruct (hasFlags t UsUp) eqn:Hu; simpl in *;
    [|simplify_eq; split; [done|]; split; [done|]; simpl; congruence].
  destruct (Hup eq_refl) as (Sk & (ov & Sv) & Hne & Hacc & Hw).
  destruct (VirBuf (cfg t) <=? virtC t) eqn:Hle.
  - simplify_eq. split; [done|]. split; [done|]. intros _. simpl. split_and!; try done. by exists ov.
  - apply Z.leb_gt in Hle.
    destruct (chan_send_ok _ _ _ _ _ p Sv Hle) as (h' & Eh & Sv' & _ & Hoth).
    rewrite Eh in E. cbn [mbind run_bind] in E.
    pose proof (side_ok_bounds _ _ _ _ _ Sv).
    rewrite wrap64s_id in E by (unfold i64; lia). simplify_eq.
    destruct (Hoth (kernQ t) Hne) as [Hs Hit].
    split; [done|]. split; [done|]. intros _. simpl. split_and!; try done.
    + by apply Hs.
    + by exists ov.
    + by rewrite Hit.
Qed.

Lemma conc_inv_recv t l1 l2 acc tk c t' data :
  conc_inv (mk_conc t (l1 ++ RWait c :: l2) acc tk) -> read_take t (Some c) = Finished (t', data) ->
  conc_inv (mk_conc t' (l1 ++ RDone :: l2) acc (tk ++ [data])).
Proof.
  intros (Hk & Hv & Hup) E. simpl in *. unfold read_take in E.
  destruct (chan_recv (chans t) (Some c)) as [[h' d]| |] eqn:Er; [|done|done].
  cbn [mbind run_bind] in E. simplify_eq. split; [done|]. split; [done|].
  simpl. rewrite hasFlags_set_kern. intros Hu.
  destruct (Hup Hu) as (Sk & (ov & Sv) & Hne & Hacc & Hw).
  assert (Hq : Some c = kernQ t) by (apply Hw; set_solver).
  rewrite <- Hq in *.
  destruct (chan_recv_ok _ _ _ _ _ _ _ Sk Er) as (Sk' & Hi & Hoth).
  split_and!; try done.
  - rewrite owed_app, !owed_cons in *.
    replace (owed l1 + (1 + owed l2)) with (owed l1 + (0 + owed l2) + 1) by lia. done.
  - exists ov. by apply Hoth.
  - by rewrite Hacc, Hi, <- app_assoc.
  - intros c'. rewrite elem_of_app, elem_of_cons. intros [?|[?|?]]; [|done|]; apply Hw; set_solver.
Qed.

Lemma conc_inv_done t l1 l2 acc tk :
  conc_inv (mk_conc t (l1 ++ RDone :: l2) acc tk) ->
  conc_inv (mk_conc (read_done t) (l1 ++ l2) acc tk).
Proof.
  intros (Hk & Hv & Hup). simpl in *. split; [done|]. split; [done|]. simpl. intros Hu.
  destruct (Hup Hu) as ((c & ch & Eq & Hc & Hcl & Hcap & Hn & Ho & Hle) & Hov & Hne & Hacc & Hw).
  rewrite owed_app, owed_cons in *. pose proof (zlen_nonneg (items ch)).
  assert (Hpos : forall l, 0 <= owed l).
  { intros l. induction l as [|r l IH]; [done|]. rewrite owed_cons. destruct r; lia. }
  pose proof (Hpos l1). pose proof (Hpos l2).
  rewrite wrap64s_id by (unfold i64; lia). split_and!; try done.
  - exists c, ch. split_and!; (done || lia).
  - intros c' Hin. apply Hw. set_solver.
Qed.

Lemma cstep_inv s s' : cstep s s' -> conc_inv s -> conc_inv s'.
Proof.
  destruct 1 as [t rs acc tk p t' r E|t rs acc tk p t' r E|t rs acc tk E|t l1 l2 acc tk
    |t l1 l2 acc tk c t' data E|t l1 l2 acc tk|t rs acc tk t' E|t rs acc tk t' d E]; intros Hinv.
  - by eapply conc_inv_send.
  - by eapply conc_inv_write.
  - destruct Hinv as (Hk & Hv & Hup). split; [done|]. split; [done|]. intros Hu.
    destruct (Hup Hu) as (Sk & Hov & Hne & Hacc & Hw). split_and!; try done.
    intros c'. simpl. rewrite elem_of_cons. intros [?|?]; [done|]. by apply Hw.
  - destruct Hinv as (Hk & Hv & Hup). split; [done|]. split; [done|]. intros Hu.
    destruct (Hup Hu) as (Sk & Hov & Hne & Hacc & Hw). simpl in *. split_and!; try done.
    + rewrite owed_app, owed_cons in *. by destruct (kernQ t).
    + intros c' Hin. apply elem_of_app in Hin as [?|Hin]; [apply Hw; set_solver|].
      apply elem_of_cons in Hin as [Hin|?]; [|apply Hw; set_solver].
      destruct (kernQ t); congruence.
  - by eapply conc_inv_recv.
  - by apply conc_inv_done.
  - destruct (vt_Down_down _ _ E) as [Hd Hc]. destruct Hinv as (Hk & Hv & _). simpl in *.
    split; [|split]; simpl; rewrite ?Hc; try done. congruence.
  - destruct (vt_Close_down _ _ _ E) as [Hd Hc]. destruct Hinv as (Hk & Hv & _). simpl in *.
    split; [|split]; simpl; rewrite ?Hc; try done. congruence.
Qed.

Lemma fresh_up_inv c nm :
  0 <= KernBuf c < 2 ^ 62 -> 0 <= VirBuf c < 2 ^ 62 ->
  exists s, fresh_up c nm = Finished s /\ conc_inv s /\ hasFlags (ct s) UsUp = true /\ cfg (ct s) = c.
Proof.
  intros Hk Hv. unfold fresh_up, vt_Up. simpl.
  rewrite (proj2 (Z.ltb_ge (KernBuf c) 0)), (proj2 (Z.ltb_ge (VirBuf c) 0)) by lia. simpl.
  eexists. split; [done|]. split; [|done]. split; [done|]. split; [done|]. intros _. simpl.
  split_and!; try done.
  - eexists _, _. split; [done|]. simpl. split; [done|]. unfold owed, zlen. simpl. split_and!; (done || lia).
  - exists 0. eexists _, _. split; [done|]. simpl. split; [done|]. unfold zlen. simpl. split_and!; (done || lia).
  - intros c' Hin. set_solver.
Qed.

(** (C23) The queue of a virtual tap is safe under every interleaving of senders,
    readers, [Down] and [Close] with a device that was brought up once: as long as
    it is up, the counter is the number of queued frames plus the readers that
    still have to decrement it, never above [KernBuf]; the frames leave in the
    order in which they were accepted; and [Send], which holds the lock, never
    blocks on the channel and never panics. *)
Theorem tap_queue_safe (c : TapConfig) (nm : string) (s0 s : conc) :
  0 <= KernBuf c < 2 ^ 62 -> 0 <= VirBuf c < 2 ^ 62 ->
  fresh_up c nm = Finished s0 -> rtc cstep s0 s -> hasFlags (ct s) UsUp = true ->
  let q := chan_items (chans (ct s)) (kernQ (ct s)) in
  kernC (ct s) = zlen q + owed (readers s) /\ 0 <= kernC (ct s) <= KernBuf (cfg (ct s)) /\
  accepted s = taken s ++ q /\
  forall p, exists t' r, vt_Send (ct s) p = Finished (t', r).
Proof.
  intros Hk Hv E Hsteps Hu q.
  destruct (fresh_up_inv c nm Hk Hv) as (s1 & E1 & Hinv & _). rewrite E in E1. simplify_eq.
  assert (Hi : conc_inv s) by (clear -Hsteps Hinv; induction Hsteps; eauto using cstep_inv).
  destruct Hi as (Hk' & Hv' & Hup). destruct (Hup Hu) as (Sk & (ov & Sv) & Hne & Hacc & _).
  split; [by apply side_ok_items in Sk|]. split; [by apply side_ok_bounds in Sk|].
  split; [done|]. intros p.
  destruct (vt_send_frame (ct s) p) as (t' & r & Es & _); [|by exists t', r].
  split; [done|]. split; [done|]. intros _. by exists (owed (readers s)), ov.
Qed.

Definition demo_cfg : TapConfig :=
  {| Provider := ProviderVir; cfg_Type := TAP; cfg_Network := ""; cfg_Name := "t"; VirBuf := 1;
     KernBuf := 1; cfg_Mtu := 1500 |}.

Lemma tap_queue_safe_witness :
  exists s0 s t', fresh_up demo_cfg "t" = Finished s0 /\ vt_Send (ct s0) [7] = Finished (t', inl 1) /\
    s = mk_conc t' [] [[7]] [] /\ kernC (ct s) = 1 /\
    exists t2 r, vt_Send (ct s) [8] = Finished (t2, r).
Proof.
  eexists _, _, _. split; [reflexivity|]. split; [reflexivity|]. split; [reflexivity|].
  split; [reflexivity|].
  edestruct (tap_queue_safe demo_cfg "t") as (_ & _ & _ & H);
    [simpl; lia|simpl; lia|reflexivity| | |apply H].
  - eapply rtc_once.
    match goal with |- cstep (mk_conc ?t _ _ _) (mk_conc ?t' _ _ _) =>
      exact (C_send t [] [] [] [7] t' (inl 1) eq_refl) end.
  - reflexivity.
Defined.

(** ** Bringing a device up again *)

(** A device whose counter is one below the length of its queue. *)
Definition off_by_one (t : VirtualTap) (k : Z) : Prop :=
  hasFlags t UsUp = true /\ kernC t = k - 1 /\
  exists c ch, kernQ t = Some c /\ chans t !! c = Some ch /\ closed ch = false /\
    cap ch = KernBuf (cfg t) /\ zlen (items ch) = k.

Lemma off_by_one_send t k p :
  off_by_one t k -> 0 <= k < KernBuf (cfg t) -> KernBuf (cfg t) < 2 ^ 62 ->
  exists t', vt_Send t p = Finished (t', inl (zlen p)) /\ off_by_one t' (k + 1) /\ cfg t' = cfg t.
Proof.
  intros (Hu & Hk & c & ch & Hq & Hc & Hcl & Hcap & Hl) Hlt Hb.
  unfold vt_Send. rewrite Hu. simpl. rewrite (proj2 (Z.leb_gt _ _)) by lia.
  unfold chan_send. rewrite Hq, Hc, Hcl, Hcap, (proj2 (Z.leb_gt _ _)) by lia.
  cbn [mbind run_bind]. rewrite wrap64s_id by (unfold i64; lia).
  eexists. split; [done|]. split; [|done]. split; [done|]. split; [simpl; lia|].
  eexists c, _. split; [done|]. simpl.
  rewrite list_lookup_insert_eq by (by eapply lookup_lt_Some). split; [done|].
  simpl. rewrite zlen_app, Hl. done.
Qed.

Lemma off_by_one_full t p :
  off_by_one t (KernBuf (cfg t)) -> vt_Send t p = Blocks.
Proof.
  intros (Hu & Hk & c & ch & Hq & Hc & Hcl & Hcap & Hl).
  unfold vt_Send. rewrite Hu. simpl. rewrite (proj2 (Z.leb_gt _ _)) by lia.
  unfold chan_send. rewrite Hq, Hc, Hcl, Hcap, (proj2 (Z.leb_le _ _)) by lia. done.
Qed.

Lemma off_by_one_fill n t k rs acc tk :
  off_by_one t k -> 0 <= k -> k + Z.of_nat n = KernBuf (cfg t) -> KernBuf (cfg t) < 2 ^ 62 ->
  exists t' acc', rtc cstep_reopen (mk_conc t rs acc tk) (mk_conc t' rs acc' tk) /\
    off_by_one t' (KernBuf (cfg t')) /\ cfg t' = cfg t.
Proof.
  revert t k acc. induction n as [|n IH]; intros t k acc Ho Hk Hn Hb.
  - exists t, acc. split; [done|]. replace (KernBuf (cfg t)) with k by lia. done.
  - destruct (off_by_one_send t k [] Ho) as (t1 & E & Ho1 & Hc1); [lia|done|].
    edestruct (IH t1 (k + 1)) as (t' & acc' & Hs & Ho' & Hc'); [done|lia|rewrite Hc1; lia|by rewrite Hc1|].
    exists t', acc'. split; [|split; [done|congruence]].
    eapply rtc_l; [|exact Hs]. apply R_step. eapply C_send. exact E.
Qed.

Lemma reopen_off_by_one c nm :
  0 <= KernBuf c -> 0 <= VirBuf c ->
  exists s0 t acc tk, fresh_up c nm = Finished s0 /\
    rtc cstep_reopen s0 (mk_conc t [] acc tk) /\ off_by_one t 0 /\ cfg t = c.
Proof.
  intros Hk Hv. unfold fresh_up, vt_Up. simpl.
  rewrite (proj2 (Z.ltb_ge (KernBuf c) 0)), (proj2 (Z.ltb_ge (VirBuf c) 0)) by lia. simpl.
  eexists _, _, _, _. split; [done|]. split.
  - eapply rtc_l; [apply R_step, C_check; reflexivity|].
    eapply rtc_l; [apply R_step, (C_eval _ [] [])|].
    eapply rtc_l; [apply R_step, C_down; reflexivity|].
    eapply rtc_l.
    { apply R_up. unfold vt_Up. simpl.
      rewrite (proj2 (Z.ltb_ge (KernBuf c) 0)), (proj2 (Z.ltb_ge (VirBuf c) 0)) by lia. reflexivity. }
    eapply rtc_l; [apply R_step, (C_recv _ [] [] _ _ 0%nat); reflexivity|].
    eapply rtc_l; [apply R_step, (C_done _ [] [])|]. apply rtc_refl.
  - split; [|done]. split; [done|]. split; [done|]. eexists _, _. split; [done|]. simpl. done.
Qed.

(** Bringing a device up a second time can wedge it: if a reader was waiting
    when the device went down, it decrements the counter of the new queue when it
    wakes up; from then on [KernBuf + 1] frames pass the check, and [Send] blocks
    on the full channel with the lock held, for every size of the buffer. *)
Theorem tap_reopen_wedges (c : TapConfig) (nm : string) (p : bytes) :
  0 <= KernBuf c < 2 ^ 62 -> 0 <= VirBuf c ->
  exists s0 s, fresh_up c nm = Finished s0 /\ rtc cstep_reopen s0 s /\
    readers s = [] /\ kernC (ct s) < KernBuf c /\ vt_Send (ct s) p = Blocks.
Proof.
  intros Hk Hv.
  destruct (reopen_off_by_one c nm) as (s0 & t & acc & tk & E & Hs & Ho & Hc); [lia|lia|].
  destruct (off_by_one_fill (Z.to_nat (KernBuf c)) t 0 [] acc tk Ho)
    as (t' & acc' & Hs' & Ho' & Hc'); [lia|rewrite Hc; lia|rewrite Hc; lia|].
  exists s0, (mk_conc t' [] acc' tk). split; [done|]. split; [by etrans|]. split; [done|].
  split; [|by apply off_by_one_full]. simpl. destruct Ho' as (_ & -> & _).
  rewrite Hc', Hc. lia.
Qed.

Lemma tap_reopen_wedges_witness :
  exists s0 s, fresh_up demo_cfg "t" = Finished s0 /\ rtc cstep_reopen s0 s /\
    readers s = [] /\ kernC (ct s) < KernBuf demo_cfg /\ vt_Send (ct s) [1] = Blocks.
Proof. apply (tap_reopen_wedges demo_cfg "t" [1]); simpl; lia. Defined.
