(* ===== verification/Bridge.v ===== *)
(** * The software bridge (pkg/network/bridger.go, bridge_virtual.go)

    [VirtualBridge] learns the source address of every frame, forwards a frame to
    the port its destination was learnt on, floods it when the destination is
    unknown, and expires what it has learnt.  Its ports are devices of any type
    that implements [Taper]; the theorems are proved against [TaperLaws].

    The devices live in a store, since the bridge, the registry and the forwarding
    table all hold references to them. *)

From S2P Require Import Prelude Protocol Tap.

Local Open Scope Z_scope.

Abbreviation dev_id := nat.

(** The devices, by identity. *)
Abbreviation store T := (gmap dev_id T).

Record MacFdb := { Address : bytes; Device : dev_id; Uptime : Z; NewTime : Z }.

Record VirtualBridge := {
  ipMtu : Z; br_name : string;
  ports : gmap string dev_id; macs : gmap string MacFdb;
  timeout : Z; address : string; kernel : option dev_id; br_sts : DeviceStats
}.

(** A frame is a slice of the buffer it was read into: [Data] and the rest of the
    buffer up to its capacity, which slice expressions may reach. *)
Record Framer := { Data : bytes; spare : bytes; Source : dev_id }.
Definition backing (m : Framer) : bytes := Data m ++ spare m.

Definition NewVirtualBridge (name : string) (mtu : Z) : VirtualBridge :=
  {| ipMtu := mtu; br_name := name; ports := ∅; macs := ∅; timeout := 5 * 60; address := "";
     kernel := None; br_sts := no_stats |}.

Definition set_macs (b : VirtualBridge) (m : gmap string MacFdb) : VirtualBridge :=
  {| ipMtu := ipMtu b; br_name := br_name b; ports := ports b; macs := m;
     timeout := timeout b; address := address b; kernel := kernel b; br_sts := br_sts b |}.
Definition set_ports (b : VirtualBridge) (p : gmap string dev_id) : VirtualBridge :=
  {| ipMtu := ipMtu b; br_name := br_name b; ports := p; macs := macs b;
     timeout := timeout b; address := address b; kernel := kernel b; br_sts := br_sts b |}.
Definition set_br_sts (b : VirtualBridge) (s : DeviceStats) : VirtualBridge :=
  {| ipMtu := ipMtu b; br_name := br_name b; ports := ports b; macs := macs b;
     timeout := timeout b; address := address b; kernel := kernel b; br_sts := s |}.
Definition set_kernel (b : VirtualBridge) (k : option dev_id) (a : string) : VirtualBridge :=
  {| ipMtu := ipMtu b; br_name := br_name b; ports := ports b; macs := macs b;
     timeout := timeout b; address := a; kernel := k; br_sts := br_sts b |}.

(** [net.HardwareAddr(addr).String()] *)
Fixpoint hw_tail (l : bytes) : string :=
  match l with
  | [] => ""
  | b :: l => ":" +:+ hex02 b +:+ hw_tail l
  end%string.
Definition hw_string (l : bytes) : string :=
  match l with [] => "" | b :: l => hex02 b +:+ hw_tail l end%string.

Definition Eth2Str (addr : bytes) : string :=
  if zlen addr <? 6 then "" else hw_string addr.

Definition GetMac (b : VirtualBridge) (mac : string) : option MacFdb := macs b !! mac.

Definition AddMac (b : VirtualBridge) (mac : string) (fdb : MacFdb) : VirtualBridge :=
  set_macs b (<[mac := fdb]> (macs b)).

Definition UpdateMac (b : VirtualBridge) (mac : string) (dev : dev_id) (now : Z) : VirtualBridge :=
  match macs b !! mac with
  | Some fdb =>
      set_macs b (<[mac := {| Address := Address fdb; Device := dev; Uptime := now;
                              NewTime := NewTime fdb |}]> (macs b))
  | None => b
  end.

Definition Learn (b : VirtualBridge) (m : Framer) (now : Z) : go VirtualBridge :=
  mac ← slice (backing m) 6 12;
  b0 ← index mac 0;
  if Z.land b0 0x01 =? 0x01 then Ret b
  else
    let key := Eth2Str mac in
    match GetMac b key with
    | Some _ => Ret (UpdateMac b key (Source m) now)
    | None => Ret (AddMac b key {| Address := mac; Device := Source m; Uptime := now; NewTime := now |})
    end.

(** [Expire] collects under the read lock, then deletes under the write lock. *)
Definition expire_collect (b : VirtualBridge) (now : Z) : list string :=
  (filter (fun kv => timeout b < now - Uptime kv.2) (map_to_list (macs b))).*1.
Definition expire_delete (b : VirtualBridge) (deletes : list string) : VirtualBridge :=
  set_macs b (foldr delete (macs b) deletes).
Definition Expire (b : VirtualBridge) (now : Z) : VirtualBridge :=
  expire_delete b (expire_collect b now).

(** ** Ports *)

Inductive ipcmd :=
| IpLinkUp (name : string)
| IpAddrAdd (name addr : string)
| IpAddrDel (name addr : string).

Definition notFound (dest : string) : error := NewErr (dest +:+ " notFound")%string [].

Section bridge.
Context {T : Type} `{HT : Taper T}.

Definition AddSlave (id : bridge_id) (b : VirtualBridge) (tp : tapers) (devs : store T) (nm : string)
    : run (VirtualBridge * store T * option error) :=
  match tp_Get tp nm with
  | None => Finished (b, devs, Some (NewErr "%s notFound" []))
  | Some d =>
      match devs !! d with
      | None => Crashes
      | Some t =>
          Finished (set_ports b (<[nm := d]> (ports b)), <[d := (SetMaster t id).1]> devs, None)
      end
  end.

Definition DelSlave (b : VirtualBridge) (nm : string) : VirtualBridge :=
  set_ports b (delete nm (ports b)).

(** The devices a frame from [from] is flooded to, in the order [order] in which
    the map of ports is iterated. *)
Definition flood_outs (from : dev_id) (order : list (string * dev_id)) : list dev_id :=
  (filter (fun p => from <> p.2) order).*2.

Fixpoint flood_send (b : VirtualBridge) (devs : store T) (data : bytes) (outs : list dev_id)
    : run (VirtualBridge * store T) :=
  match outs with
  | [] => Finished (b, devs)
  | d :: outs =>
      match devs !! d with
      | None => Crashes
      | Some t =>
          tr ← Send t data;
          flood_send (set_br_sts b (inc_send (br_sts b))) (<[d := tr.1]> devs) data outs
      end
  end.

Definition Flood (order : list (string * dev_id)) (b : VirtualBridge) (devs : store T) (m : Framer)
    : run (VirtualBridge * store T) :=
  flood_send b devs (Data m) (flood_outs (Source m) order).

Definition UniCast (b : VirtualBridge) (devs : store T) (m : Framer)
    : run (VirtualBridge * store T * option error) :=
  dst ← lift (slice (backing m) 0 6);
  match GetMac b (Eth2Str dst) with
  | None => Finished (b, devs, Some (notFound (Eth2Str dst)))
  | Some learn =>
      let out := Device learn in
      match devs !! out with
      | None => Crashes
      | Some t =>
          if negb (bool_decide (out = Source m)) && Has t UsUp then
            tr ← Send t (Data m);
            Finished (set_br_sts b (inc_send (br_sts b)), <[out := tr.1]> devs, None)
          else Finished (set_br_sts b (inc_drop (br_sts b)), devs, None)
      end
  end.

Definition Forward (order : list (string * dev_id)) (b : VirtualBridge) (devs : store T) (m : Framer)
    : run (VirtualBridge * store T) :=
  r ← UniCast b devs m;
  match r with
  | (b, devs, None) => Finished (b, devs)
  | (b, devs, Some _) => Flood order b devs m
  end.

Definition Input (order : list (string * dev_id)) (now : Z) (b : VirtualBridge) (devs : store T)
    (m : Framer) : run (VirtualBridge * store T) :=
  let b := set_br_sts b (inc_recv (br_sts b)) in
  b ← lift (Learn b m now);
  Forward order b devs m.

(** [Open]: [mk_tap] is what [NewKernelTap] gave, already registered in [tp] as [d];
    the outcome of the ip commands is only logged. *)
Definition Open (id : bridge_id) (b : VirtualBridge) (tp : tapers) (devs : store T)
    (mk_tap : result dev_id) (addr : string) : run (VirtualBridge * store T * list ipcmd) :=
  r ← match mk_tap with
      | inr _ => Finished (b, devs, [])
      | inl d =>
          match devs !! d with
          | None => Crashes
          | Some t =>
              r ← AddSlave id (set_kernel b (Some d) (address b)) tp devs (Name t);
              let '(b, devs, _) := r in Finished (b, devs, [IpLinkUp (Name t)])
          end
      end;
  let '(b, devs, cmds) := r in
  match kernel b with
  | Some k =>
      if String.eqb addr "" then Finished (b, devs, cmds)
      else
        match devs !! k with
        | None => Crashes
        | Some t => Finished (set_kernel b (kernel b) addr, devs, cmds ++ [IpAddrAdd (Name t) addr])
        end
  | None => Finished (b, devs, cmds)
  end.

(** [Close]: closing the kernel device makes it leave this bridge; it stays the
    value of [kernel].  [started] says whether the expiry loop runs, which is who
    receives from [done]. *)
Definition Close_bridge (started : bool) (id : bridge_id) (b : VirtualBridge) (tp : tapers)
    (devs : store T) : run (VirtualBridge * tapers * store T * list ipcmd) :=
  r ← match kernel b with
      | None => Finished (b, tp, devs, [])
      | Some k =>
          match devs !! k with
          | None => Crashes
          | Some t =>
              let cmds := if String.eqb (address b) "" then []
                          else [IpAddrDel (Name t) (address b)] in
              td ← Close t;
              let '(t', d) := td in
              let b := if bool_decide (det_master d = Some id) then DelSlave b (Name t) else b in
              let tp := match det_name d with Some nm => tp_Del tp nm | None => tp end in
              Finished (b, tp, <[k := t']> devs, cmds)
          end
      end;
  if started then Finished r else Blocks.

End bridge.

(** ** Keys *)

Lemma hex_digit_inj a b : 0 <= a < 16 -> 0 <= b < 16 -> hex_digit a = hex_digit b -> a = b.
Proof.
  intros Ha Hb H. unfold hex_digit in H.
  apply (f_equal Ascii.N_of_ascii) in H.
  destruct (a <? 10) eqn:Ea, (b <? 10) eqn:Eb; rewrite !Ascii.N_ascii_embedding in H; lia.
Qed.

Lemma nibbles_inj a b :
  u8 a -> u8 b -> Z.shiftr a 4 = Z.shiftr b 4 -> Z.land a 15 = Z.land b 15 -> a = b.
Proof.
  intros Ha Hb H1 H2. rewrite <- (pack_unpack 8 4 a), <- (pack_unpack 8 4 b) by (unfold u8 in *; lia).
  change (Z.ones 4) with 15. congruence.
Qed.

Lemma nibble_bounds a : u8 a -> 0 <= Z.shiftr a 4 < 16 /\ 0 <= Z.land a 15 < 16.
Proof.
  intros Ha. unfold u8 in Ha. rewrite Z.shiftr_div_pow2 by lia. split.
  - split; [apply Z.div_pos; lia|apply Z.div_lt_upper_bound; lia].
  - change 15 with (Z.ones 4). rewrite Z.land_ones by lia. apply Z.mod_pos_bound. lia.
Qed.

Lemma Eth2Str_inj l1 l2 :
  bytes_ok l1 -> bytes_ok l2 -> length l1 = 6%nat -> length l2 = 6%nat ->
  Eth2Str l1 = Eth2Str l2 -> l1 = l2.
Proof.
  intros H1 H2 L1 L2 E. explode l1. explode l2. bytes_inv.
  cbv -[hex_digit Z.shiftr Z.land u8] in E. injection E as E.
  repeat match goal with
  | Ha : u8 ?a, Hb : u8 ?b, E1 : hex_digit (Z.shiftr ?a 4) = hex_digit (Z.shiftr ?b 4),
    E2 : hex_digit (Z.land ?a 15) = hex_digit (Z.land ?b 15) |- _ =>
      assert (a = b) by (destruct (nibble_bounds a Ha), (nibble_bounds b Hb);
        apply nibbles_inj; [done|done|by apply hex_digit_inj|by apply hex_digit_inj]);
      clear E1 E2
  end. congruence.
Qed.

(** ** The forwarding table *)

Inductive fdb_event :=
| Seen (m : Framer) (now : Z)
| Aged (now : Z).

Definition fdb_step (b : VirtualBridge) (e : fdb_event) : go VirtualBridge :=
  match e with
  | Seen m now => Learn b m now
  | Aged now => Ret (Expire b now)
  end.

Fixpoint fdb_run (b : VirtualBridge) (es : list fdb_event) : go VirtualBridge :=
  match es with
  | [] => Ret b
  | e :: es => b ← fdb_step b e; fdb_run b es
  end.

Definition src_mac (m : Framer) : bytes := take 6 (drop 6 (backing m)).
Definition dst_mac (m : Framer) : bytes := take 6 (backing m).
Definition multicast (mac : bytes) : Prop :=
  match mac with b :: _ => Z.land b 1 = 1 | [] => False end.

#[export] Instance multicast_dec mac : Decision (multicast mac).
Proof. destruct mac; simpl; apply _. Defined.

(** What is known of one station: where and when it was last seen, unless that is
    too long ago. *)
Definition station_step (x : bytes) (tmo : Z) (c : option (dev_id * Z)) (e : fdb_event)
    : option (dev_id * Z) :=
  match e with
  | Seen m now =>
      if decide (src_mac m = x /\ ~ multicast x) then Some (Source m, now) else c
  | Aged now => match c with
                | Some (d, up) => if tmo <? now - up then None else c
                | None => None
                end
  end.

Definition frame_ok (m : Framer) : Prop := bytes_ok (backing m) /\ 12 <= zlen (backing m).

#[export] Instance frame_ok_dec m : Decision (frame_ok m).
Proof. unfold frame_ok. apply _. Defined.

Definition event_ok (e : fdb_event) : Prop := match e with Seen m _ => frame_ok m | Aged _ => True end.

Definition station (b : VirtualBridge) (x : bytes) : option (dev_id * Z) :=
  (fun f => (Device f, Uptime f)) <$> GetMac b (Eth2Str x).

Lemma mac_slices m :
  frame_ok m -> slice (backing m) 6 12 = Ret (src_mac m) /\ slice (backing m) 0 6 = Ret (dst_mac m) /\
    length (src_mac m) = 6%nat /\ length (dst_mac m) = 6%nat /\ bytes_ok (src_mac m) /\ bytes_ok (dst_mac m).
Proof.
  intros [Hok Hl]. rewrite !slice_ok by lia. unfold src_mac, dst_mac.
  rewrite !length_take, length_drop. unfold zlen in Hl.
  split_and!; (done || lia || auto with go).
Qed.

(** Learning, in one equation per address. *)
Lemma Learn_station b m now :
  frame_ok m ->
  exists b', Learn b m now = Ret b' /\ timeout b' = timeout b /\ ports b' = ports b /\
    br_sts b' = br_sts b /\
    forall x, bytes_ok x -> length x = 6%nat ->
      station b' x = station_step x (timeout b) (station b x) (Seen m now).
Proof.
  intros Hf. destruct (mac_slices m Hf) as (E & _ & Hl & _ & Hok & _).
  unfold Learn. rewrite E. cbn [mbind go_bind].
  assert (Hm : exists b0, index (src_mac m) 0 = Ret b0 /\ (multicast (src_mac m) <-> Z.land b0 1 = 1)).
  { destruct (src_mac m) as [|b0 l]; [done|]. by exists b0. }
  destruct Hm as (b0 & -> & Hm). cbn [mbind go_bind].
  destruct (Z.land b0 1 =? 1) eqn:Eb.
  { apply Z.eqb_eq, Hm in Eb. exists b. split_and!; try done. intros x Hx Lx. simpl.
    rewrite decide_False; [done|]. intros [<- ?]. done. }
  apply Z.eqb_neq in Eb. rewrite <- Hm in Eb.
  destruct (GetMac b (Eth2Str (src_mac m))) as [f|] eqn:Eg.
  - eexists. split; [done|]. unfold UpdateMac. unfold GetMac in Eg. rewrite Eg.
    split_and!; try done. intros x Hx Lx. unfold station, GetMac. simpl.
    destruct (decide (src_mac m = x)) as [<-|Hne].
    + rewrite lookup_insert_eq. simpl. by rewrite decide_True.
    + rewrite lookup_insert_ne by (intros Heq; apply Hne; by apply Eth2Str_inj).
      rewrite decide_False by tauto. done.
  - eexists. split; [done|]. unfold AddMac.
    split_and!; try done. intros x Hx Lx. unfold station, GetMac. simpl.
    destruct (decide (src_mac m = x)) as [<-|Hne].
    + rewrite lookup_insert_eq. simpl. by rewrite decide_True.
    + rewrite lookup_insert_ne by (intros Heq; apply Hne; by apply Eth2Str_inj).
      rewrite decide_False by tauto. done.
Qed.

Lemma foldr_delete_lookup {A} (m : gmap string A) (ks : list string) k :
  foldr delete m ks !! k = if decide (k ∈ ks) then None else m !! k.
Proof.
  induction ks as [|k' ks IH]; simpl.
  - done.
  - destruct (decide (k = k')) as [->|Hne].
    + by rewrite lookup_delete_eq, decide_True by (apply elem_of_cons; by left).
    + rewrite lookup_delete_ne, IH by done.
      destruct (decide (k ∈ ks)) as [Hi|Hi].
      * by rewrite decide_True by (apply elem_of_cons; by right).
      * rewrite decide_False; [done|]. rewrite elem_of_cons. tauto.
Qed.

(** Expiry removes exactly the entries that are too old. *)
Lemma Expire_lookup b now k :
  macs (Expire b now) !! k =
    match macs b !! k with
    | Some f => if timeout b <? now - Uptime f then None else Some f
    | None => None
    end.
Proof.
  unfold Expire, expire_delete. simpl. rewrite foldr_delete_lookup.
  assert (Hin : k ∈ expire_collect b now <->
                exists f, macs b !! k = Some f /\ timeout b < now - Uptime f).
  { unfold expire_collect. rewrite list_elem_of_fmap. split.
    - intros ([k' f] & -> & Hin). apply list_elem_of_filter in Hin as [Ht Hin].
      apply elem_of_map_to_list in Hin. by exists f.
    - intros (f & Hf & Ht). exists (k, f). split; [done|].
      apply list_elem_of_filter. split; [done|]. by apply elem_of_map_to_list. }
  case_decide as Hd; rewrite Hin in Hd.
  - destruct Hd as (f & -> & Ht). by rewrite (proj2 (Z.ltb_lt _ _)) by lia.
  - destruct (macs b !! k) as [f|] eqn:Ef; [|done].
    destruct (timeout b <? now - Uptime f) eqn:Et; [|done].
    apply Z.ltb_lt in Et. exfalso. apply Hd. by exists f.
Qed.

Lemma Expire_station b now x :
  station (Expire b now) x = station_step x (timeout b) (station b x) (Aged now).
Proof.
  unfold station, GetMac. rewrite Expire_lookup. simpl.
  destruct (macs b !! Eth2Str x) as [f|]; [|done]. simpl. by destruct (timeout b <? now - Uptime f).
Qed.

(** (C29) The forwarding table says where each station was last seen: after any
    sequence of learnt frames and expiries on a fresh bridge, the entry of an
    address is the device and the time of the last frame that came from it, unless
    an expiry since then found it more than five minutes old; multicast addresses
    are never learnt; and two addresses never share an entry. *)
Theorem bridge_fdb_last_seen (name : string) (mtu : Z) (es : list fdb_event) :
  Forall event_ok es ->
  exists b, fdb_run (NewVirtualBridge name mtu) es = Ret b /\
    forall x, bytes_ok x -> length x = 6%nat ->
      station b x = foldl (station_step x 300) None es.
Proof.
  intros Hes.
  assert (G : forall b0, timeout b0 = 300 ->
            exists b, fdb_run b0 es = Ret b /\
              forall x, bytes_ok x -> length x = 6%nat ->
                station b x = foldl (station_step x 300) (station b0 x) es).
  { induction Hes as [|e es He Hes IH]; intros b0 Ht; simpl; [by exists b0|].
    assert (Hs : exists b1, fdb_step b0 e = Ret b1 /\ timeout b1 = 300 /\
               forall x, bytes_ok x -> length x = 6%nat ->
                 station b1 x = station_step x 300 (station b0 x) e).
    { destruct e as [m now|now]; simpl in *.
      - destruct (Learn_station b0 m now He) as (b1 & E & Ht1 & _ & _ & Hx). exists b1.
        split; [done|]. split; [congruence|]. intros x ??. by rewrite Hx, Ht.
      - eexists. split; [done|]. split; [done|]. intros x _ _. by rewrite Expire_station, Ht. }
    destruct Hs as (b1 & -> & Ht1 & Hx1). cbn [mbind go_bind].
    destruct (IH b1 Ht1) as (b & E & Hx). exists b. split; [done|].
    intros x Hxo Hxl. by rewrite Hx, Hx1. }
  by apply G.
Qed.

Definition demo_frame (dst src : bytes) (d : dev_id) : Framer :=
  {| Data := dst ++ src ++ [8; 0]; spare := []; Source := d |}.

Lemma bridge_fdb_last_seen_witness :
  exists b, fdb_run (NewVirtualBridge "br" 1514)
      [Seen (demo_frame EthAll [2; 0; 0; 0; 0; 1] 1%nat) 10;
       Seen (demo_frame EthAll [2; 0; 0; 0; 0; 1] 2%nat) 20; Aged 320] = Ret b /\
    station b [2; 0; 0; 0; 0; 1] = Some (2%nat, 20).
Proof.
  destruct (bridge_fdb_last_seen "br" 1514
      [Seen (demo_frame EthAll [2; 0; 0; 0; 0; 1] 1%nat) 10;
       Seen (demo_frame EthAll [2; 0; 0; 0; 0; 1] 2%nat) 20; Aged 320]) as (b & E & H).
  - repeat constructor; vm_compute; congruence.
  - exists b. split; [exact E|].
    rewrite H; [reflexivity|repeat constructor; vm_compute; congruence|reflexivity].
Defined.

(** ** Forwarding *)

Section forwarding.
Context {T : Type} `{HT : Taper T} `{HL : !TaperLaws T}.
Implicit Types (devs : store T) (b : VirtualBridge).

(** The references of a bridge lead to live devices, and no device has two ports. *)
Definition bridge_ok b devs : Prop :=
  (forall d t, devs !! d = Some t -> tap_inv t /\ live t) /\
  (forall n d, ports b !! n = Some d -> is_Some (devs !! d)) /\
  (forall n1 n2 d, ports b !! n1 = Some d -> ports b !! n2 = Some d -> n1 = n2) /\
  (forall k f, macs b !! k = Some f -> is_Some (devs !! Device f)).

(** Who is to get a frame: the port its destination was last seen on, when it is up;
    every port when the destination is unknown; never the device it came from. *)
Definition recipient b (m : Framer) (now : Z) (d : dev_id) (t : T) : Prop :=
  d <> Source m /\
  match station_step (dst_mac m) (timeout b) (station b (dst_mac m)) (Seen m now) with
  | Some (o, _) => d = o /\ Has t UsUp = true
  | None => exists n, ports b !! n = Some d
  end.

Definition sent_or_same (data : bytes) (hit : Prop) (t t' : T) : Prop :=
  (hit -> exists r, Send t data = Finished (t', r)) /\ (~ hit -> t' = t).

Lemma flood_send_spec data outs b devs :
  NoDup outs -> (forall d, d ∈ outs -> exists t, devs !! d = Some t /\ tap_inv t /\ live t) ->
  exists b' devs', flood_send b devs data outs = Finished (b', devs') /\
    forall d t, devs !! d = Some t ->
      exists t', devs' !! d = Some t' /\ sent_or_same data (d ∈ outs) t t'.
Proof.
  revert b devs. induction outs as [|d0 outs IH]; intros b devs Hnd Hex; simpl.
  - eexists _, _. split; [done|]. intros d t Hd. exists t. split; [done|].
    split; [|done]. by intros ?%not_elem_of_nil.
  - apply NoDup_cons in Hnd as [Hni Hnd].
    destruct (Hex d0) as (t0 & Ht0 & Hi0 & Hl0); [apply elem_of_cons; by left|]. rewrite Ht0.
    destruct (send_live t0 data Hi0 Hl0) as (t0' & r0 & Es). rewrite Es. cbn [mbind run_bind fst].
    destruct (IH (set_br_sts b (inc_send (br_sts b))) (<[d0 := t0']> devs) Hnd)
      as (b' & devs' & E & H').
    { intros d Hd. rewrite lookup_insert_ne by (intros ->; done). apply Hex, elem_of_cons. by right. }
    exists b', devs'. split; [done|]. intros d t Hd. destruct (decide (d = d0)) as [->|Hne].
    + assert (t = t0) as -> by congruence.
      destruct (H' d0 t0') as (t' & Ht' & _ & Hs); [by rewrite lookup_insert_eq|].
      rewrite (Hs Hni) in Ht'. exists t0'. split; [done|]. split; [by exists r0|].
      intros []. apply elem_of_cons. by left.
    + destruct (H' d t) as (t' & Ht' & Hs1 & Hs2); [by rewrite lookup_insert_ne|].
      exists t'. split; [done|]. split.
      * intros [?|Hin]%elem_of_cons; [done|]. by apply Hs1.
      * intros Hni'. apply Hs2. intros Hin. apply Hni', elem_of_cons. by right.
Qed.

Lemma flood_outs_elem from order b d :
  order ≡ₚ map_to_list (ports b) ->
  d ∈ flood_outs from order <-> d <> from /\ exists n, ports b !! n = Some d.
Proof.
  intros Ho. unfold flood_outs. rewrite list_elem_of_fmap. split.
  - intros ([n d'] & -> & Hin). apply list_elem_of_filter in Hin as [Hne Hin]. simpl in *.
    rewrite Ho in Hin. apply elem_of_map_to_list in Hin. split; [congruence|by exists n].
  - intros (Hne & n & Hn). exists (n, d). split; [done|]. apply list_elem_of_filter. simpl.
    split; [congruence|]. rewrite Ho. by apply elem_of_map_to_list.
Qed.

Lemma flood_outs_NoDup from order b :
  (forall n1 n2 d, ports b !! n1 = Some d -> ports b !! n2 = Some d -> n1 = n2) ->
  order ≡ₚ map_to_list (ports b) -> NoDup (flood_outs from order).
Proof.
  intros Hinj Ho. unfold flood_outs. apply NoDup_fmap_2_strong.
  - intros [n1 d1] [n2 d2] [_ H1]%list_elem_of_filter [_ H2]%list_elem_of_filter. simpl. intros ->.
    rewrite Ho, elem_of_map_to_list in H1, H2. by rewrite (Hinj n1 n2 d2).
  - apply NoDup_filter. rewrite Ho. apply NoDup_map_to_list.
Qed.

Lemma Learn_macs b m now b' :
  Learn b m now = Ret b' ->
  forall k f, macs b' !! k = Some f -> Device f = Source m \/ macs b !! k = Some f.
Proof.
  unfold Learn. destruct (slice (backing m) 6 12) as [mac|]; [|done]. cbn [mbind go_bind].
  destruct (index mac 0) as [b0|]; [|done]. cbn [mbind go_bind].
  destruct (_ =? _); [intros; simplify_eq; by right|].
  unfold UpdateMac, GetMac, AddMac. destruct (macs b !! Eth2Str mac) eqn:E; intros; simplify_eq;
    simpl in *; rewrite ?E in *; simpl in *;
    match goal with H : <[_ := _]> _ !! _ = Some _ |- _ =>
      apply lookup_insert_Some in H as [[_ <-]|[_ ?]]; [by left|by right] end.
Qed.

(** Forwarding a frame on a bridge that has learnt from it. *)
Lemma Forward_spec order b devs m :
  bridge_ok b devs -> frame_ok m -> order ≡ₚ map_to_list (ports b) ->
  exists b' devs', Forward order b devs m = Finished (b', devs') /\
    forall d t, devs !! d = Some t ->
      exists t', devs' !! d = Some t' /\
        sent_or_same (Data m)
          (d <> Source m /\
           match station b (dst_mac m) with
           | Some (o, _) => d = o /\ Has t UsUp = true
           | None => exists n, ports b !! n = Some d
           end) t t'.
Proof.
  intros (Hinv & Hports & Hinj & Hfdb) Hf Ho.
  destruct (mac_slices m Hf) as (_ & E & _).
  unfold Forward, UniCast. rewrite E. cbn [lift mbind run_bind]. unfold station.
  destruct (GetMac b (Eth2Str (dst_mac m))) as [f|] eqn:Eg.
  - cbn [mbind run_bind fmap option_fmap option_map].
    destruct (Hfdb _ _ Eg) as [t0 Ht0]. rewrite Ht0.
    destruct (negb (bool_decide (Device f = Source m)) && Has t0 UsUp) eqn:Eb.
    + apply andb_true_iff in Eb as [Eb Hup]. apply negb_true_iff, bool_decide_eq_false in Eb.
      destruct (Hinv _ _ Ht0) as [Hi Hl].
      destruct (send_live t0 (Data m) Hi Hl) as (t0' & r & Es). rewrite Es. cbn [mbind run_bind fst].
      eexists _, _. split; [done|]. intros d t Hd. destruct (decide (d = Device f)) as [->|Hne].
      * exists t0'. rewrite lookup_insert_eq. split; [done|]. assert (t = t0) as -> by congruence.
        split; [by exists r|]. intros []. by split.
      * exists t. rewrite lookup_insert_ne by done. split; [done|]. split; [|done].
        by intros (_ & -> & _).
    + cbn [mbind run_bind]. eexists _, _. split; [done|]. intros d t Hd. exists t. split; [done|].
      split; [|done]. intros (Hs & -> & Hup). exfalso.
      assert (t = t0) as -> by congruence.
      rewrite Hup, andb_true_r in Eb. apply negb_false_iff, bool_decide_eq_true in Eb. congruence.
  - cbn [mbind run_bind fmap option_fmap option_map]. unfold Flood.
    destruct (flood_send_spec (Data m) (flood_outs (Source m) order) b devs) as (b' & devs' & Ef & H').
    { by eapply flood_outs_NoDup. }
    { intros d Hd. apply (flood_outs_elem _ _ b) in Hd as (_ & n & Hn); [|done].
      destruct (Hports n d Hn) as [t Ht]. exists t. split; [done|]. by apply (Hinv d). }
    exists b', devs'. split; [done|]. intros d t Hd.
    destruct (H' d t Hd) as (t' & Ht' & H1 & H2). exists t'. split; [done|].
    split; [intros Hh; apply H1|intros Hh; apply H2; intros Hin; apply Hh];
      by apply (flood_outs_elem (Source m) order b).
Qed.

(** What [Input] does with the devices of a consistent bridge. *)
Lemma Input_spec (order : list (string * dev_id)) (now : Z) b devs (m : Framer) :
  bridge_ok b devs -> frame_ok m -> is_Some (devs !! Source m) ->
  order ≡ₚ map_to_list (ports b) ->
  exists b' devs', Input order now b devs m = Finished (b', devs') /\
    forall d t, devs !! d = Some t ->
      exists t', devs' !! d = Some t' /\ sent_or_same (Data m) (recipient b m now d t) t t'.
Proof.
  intros (Hinv & Hports & Hinj & Hfdb) Hf Hsrc Ho. unfold Input.
  set (b1 := set_br_sts b (inc_recv (br_sts b))).
  destruct (Learn_station b1 m now Hf) as (b2 & El & Ht & Hp & _ & Hst). rewrite El.
  cbn [lift mbind run_bind].
  destruct (mac_slices m Hf) as (_ & _ & _ & Hdl & _ & Hdo).
  assert (Hst' : station b2 (dst_mac m) =
     station_step (dst_mac m) (timeout b) (station b (dst_mac m)) (Seen m now)) by by apply Hst.
  destruct (Forward_spec order b2 devs m) as (b' & devs' & Ef & H').
  { split; [done|]. rewrite Hp. split; [done|]. split; [done|].
    intros k f Hk. destruct (Learn_macs _ _ _ _ El k f Hk) as [->|Hk']; [done|by apply (Hfdb k)]. }
  { done. } { by rewrite Hp. }
  exists b', devs'. split; [done|]. by rewrite Hst', Hp in H'.
Qed.

(** (C5) The bridge delivers every frame to the right ports and to no other: on a
    consistent bridge [Input] returns whatever the frame is, for every iteration
    order of the port map; a device that is not a recipient is left untouched, the
    device the frame came from in particular; a recipient gets the frame sent to
    it once, and queues it when it has room. *)
Theorem bridge_input_delivers (order : list (string * dev_id)) (now : Z) (b : VirtualBridge)
    (devs : store T) (m : Framer) :
  bridge_ok b devs -> frame_ok m -> is_Some (devs !! Source m) ->
  order ≡ₚ map_to_list (ports b) ->
  exists b' devs', Input order now b devs m = Finished (b', devs') /\
    devs' !! Source m = devs !! Source m /\
    forall d t, devs !! d = Some t ->
      exists t', devs' !! d = Some t' /\
        (recipient b m now d t ->
          (queued t' = queued t \/ queued t' = queued t ++ [Data m]) /\
          (room t -> queued t' = queued t ++ [Data m])) /\
        (~ recipient b m now d t -> t' = t).
Proof.
  intros Hb Hf Hsrc Ho. destruct (Input_spec order now b devs m Hb Hf Hsrc Ho) as (b' & devs' & E & H').
  exists b', devs'. split; [done|]. split.
  - destruct Hsrc as [t0 Ht0]. destruct (H' _ _ Ht0) as (t' & -> & _ & Hs). rewrite Ht0. f_equal.
    apply Hs. by intros [].
  - intros d t Hd. destruct (H' d t Hd) as (t' & Ht' & Hs1 & Hs2). exists t'. split; [done|].
    split; [|exact Hs2]. intros Hr. destruct (Hs1 Hr) as [r Es]. destruct Hb as (Hinv & _).
    destruct (Hinv d t Hd) as [Hi _]. split.
    + by destruct (send_frame t (Data m) t' r Hi Es) as (_ & _ & _ & ?).
    + intros Hroom. by apply (send_room t (Data m) t' r).
Qed.

End forwarding.

(** Two virtual taps on a bridge: a frame from the first to an unknown station. *)
Definition demo_tap (nm : string) : VirtualTap :=
  match vt_Up (new_virtual "" demo_cfg nm) with Finished t => t | _ => new_virtual "" demo_cfg nm end.
Definition demo_devs : store VirtualTap := {[ 1%nat := demo_tap "a"; 2%nat := demo_tap "b" ]}.
Definition demo_bridge : VirtualBridge :=
  set_ports (NewVirtualBridge "br" 1514) {[ "a" := 1%nat; "b" := 2%nat ]}.

Lemma demo_bridge_ok : bridge_ok demo_bridge demo_devs.
Proof.
  split; [|split; [|split]].
  - intros d t Hd. split; [|done]. unfold demo_devs in Hd.
    assert (Ht : exists nm, t = demo_tap nm).
    { apply lookup_insert_Some in Hd as [[_ <-]|[_ Hd]]; [by eexists|].
      apply lookup_singleton_Some in Hd as [_ <-]. by eexists. }
    destruct Ht as [nm ->]. split; [simpl; lia|]. split; [simpl; lia|]. intros _. exists 0, 0.
    split; [|split; [|done]]; eexists _, _; (split; [reflexivity|]); (split; [reflexivity|]);
      vm_compute; split_and!; (done || congruence).
  - intros n d Hd. unfold demo_bridge in Hd. simpl in Hd.
    apply lookup_insert_Some in Hd as [[_ <-]|[_ Hd]]; [by eexists|].
    apply lookup_singleton_Some in Hd as [_ <-]. by eexists.
  - intros n1 n2 d. unfold demo_bridge. simpl.
    intros [[<- <-]|[_ [<- <-]%lookup_singleton_Some]]%lookup_insert_Some
      [[<- ?]|[_ [<- ?]%lookup_singleton_Some]]%lookup_insert_Some; done.
  - intros k f Hk. unfold demo_bridge in Hk. simpl in Hk. by rewrite lookup_empty in Hk.
Qed.

Lemma bridge_input_delivers_witness :
  let m := demo_frame EthAll [2; 0; 0; 0; 0; 1] 1%nat in
  exists b' devs' t', Input [("b", 2); ("a", 1)]%nat 10 demo_bridge demo_devs m = Finished (b', devs') /\
    devs' !! 1%nat = Some (demo_tap "a") /\ devs' !! 2%nat = Some t' /\ queued t' = [Data m].
Proof.
  intros m.
  destruct (bridge_input_delivers [("b", 2); ("a", 1)]%nat%string 10 demo_bridge demo_devs m)
    as (b' & devs' & E & Hs & H).
  - apply demo_bridge_ok.
  - split; [repeat constructor; vm_compute; congruence|vm_compute; congruence].
  - by eexists.
  - vm_compute. first [reflexivity | apply perm_swap].
  - destruct (H 2%nat (demo_tap "b") eq_refl) as (t' & Ht' & Hr & _).
    exists b', devs', t'. split; [exact E|]. split; [exact Hs|]. split; [exact Ht'|].
    destruct Hr as [_ Hroom].
    + split; [discriminate|]. exists "b"%string. reflexivity.
    + rewrite Hroom; [reflexivity|]. split; reflexivity.
Defined.

(** Expiry is exact: it drops the entries that were not refreshed for more
    than the timeout and keeps every other entry as it is. *)
Theorem bridge_expire_exact (b : VirtualBridge) (now : Z) (k : string) :
  GetMac (Expire b now) k =
    match GetMac b k with
    | Some f => if timeout b <? now - Uptime f then None else Some f
    | None => None
    end.
Proof. apply Expire_lookup. Qed.
