(* ===== verification/FireWall.v ===== *)
(** * Packet filter rules (pkg/network/iptables.go, firewall.go)

    [IpRule], [IpChain] and the [FireWall] that installs and removes them.  The
    kernel's tables are reached through the iptables package: they are the type
    parameter [K] with the operations of the class [Iptables]; what the firewall
    relies on is the class [IptablesLaws]. *)

From S2P Require Import Prelude.

Local Open Scope Z_scope.

Definition TNat : string := "nat".
Definition TRaw : string := "raw".
Definition TMangle : string := "mangle".
Definition TFilter : string := "filter".
Definition CInput : string := "INPUT".
Definition CForward : string := "FORWARD".
Definition COutput : string := "OUTPUT".
Definition CPost : string := "POSTROUTING".
Definition CPre : string := "PREROUTING".
Definition CMasq : string := "MASQUERADE".
Definition CNoTrk : string := "NOTRACK".
Definition CSnat : string := "SNAT".

Definition OLCInput : string := "OPENLAN-IN".
Definition OLCForward : string := "OPENLAN-FWD".
Definition OLCOutput : string := "OPENLAN-OUT".
Definition OLCPre : string := "OPENLAN-PRE".
Definition OLCPost : string := "OPENLAN-POST".

Record IpRule := {
  Table : string; Chain : string; Source : string; ToSource : string; Dest : string;
  ToDest : string; Proto : string; DstPort : string; SrcPort : string; Input : string;
  Output : string; Comment : string; Jump : string; SetMss : Z; Order : string;
  Match : string; TcpFlag : list string
}.

Abbreviation IpRules := (list IpRule).

Record IpChain := { ch_Table : string; ch_Name : string }.

Abbreviation IpChains := (list IpChain).

#[export] Instance iprule_eq_dec : EqDecision IpRule.
Proof. solve_decision. Defined.
#[export] Instance ipchain_eq_dec : EqDecision IpChain.
Proof. solve_decision. Defined.

(** [strings.ToUpper] on ASCII letters; the result is only compared with ASCII
    constants. *)
Definition upper_ascii (a : Ascii.ascii) : Ascii.ascii :=
  let n := Ascii.N_of_ascii a in
  if ((97 <=? n) && (n <=? 122))%N then Ascii.ascii_of_N (n - 32) else a.
Fixpoint ToUpper (s : string) : string :=
  match s with EmptyString => EmptyString | String a s => String (upper_ascii a) (ToUpper s) end.

Definition nonempty (s : string) : bool := negb (String.eqb s "").

(** [args = append(args, flag, value)] when the value is not empty. *)
Definition opt_arg (flag value : string) : list string :=
  if nonempty value then [flag; value] else [].

Definition Itoa (z : Z) : string := pretty z.

Definition Args (ru : IpRule) : go (list string) :=
  flags ← match TcpFlag ru with
          | [] => Ret []
          | [_] => Panic
          | f0 :: f1 :: _ => Ret ["--tcp-flags"%string; f0; f1]
          end;
  Ret (opt_arg "-s" (Source ru) ++ opt_arg "-d" (Dest ru) ++ opt_arg "-p" (Proto ru) ++
       opt_arg "-m" (Match ru) ++ flags ++ opt_arg "--sport" (SrcPort ru) ++
       opt_arg (if String.eqb (Match ru) "multiport" then "--dports" else "--dport") (DstPort ru) ++
       opt_arg "-i" (Input ru) ++ opt_arg "-o" (Output ru) ++
       (if nonempty (Jump ru) then
          (let jump := ToUpper (Jump ru) in
           if String.eqb jump "DROP" || String.eqb jump "ACCEPT"
           then ["-j"%string; jump] else ["-j"%string; Jump ru]) ++
          (if 0 <? SetMss ru then ["--set-mss"%string; Itoa (SetMss ru)] else [])
        else ["-j"; "ACCEPT"]%string) ++
       opt_arg "--to-source" (ToSource ru) ++ opt_arg "--to-destination" (ToDest ru)).

Definition Eq (ru obj : IpRule) : bool :=
  String.eqb (Table ru) (Table obj) && String.eqb (Chain ru) (Chain obj) &&
  String.eqb (Input ru) (Input obj) && String.eqb (Source ru) (Source obj) &&
  String.eqb (ToSource ru) (ToSource obj) && String.eqb (Dest ru) (Dest obj) &&
  String.eqb (ToDest ru) (ToDest obj) && String.eqb (Proto ru) (Proto obj) &&
  String.eqb (SrcPort ru) (SrcPort obj) && String.eqb (DstPort ru) (DstPort obj).

Definition rules_Add (rules : IpRules) (obj : IpRule) : IpRules := rules ++ [obj].

(** [Pop]: [news] is made with length 0, so [news[index] = item] indexes past its
    end whatever [index] is. *)
Fixpoint pop_loop {A} (eq : A -> A -> bool) (items : list A) (obj : A) (find : bool)
    (news : list A) (index : nat) : go (list A) :=
  match items with
  | [] => slice news 0 (Z.of_nat index)
  | item :: items =>
      if negb find && eq item obj then pop_loop eq items obj true news index
      else if (index <? length news)%nat
           then pop_loop eq items obj find (<[index := item]> news) (S index)
           else Panic
  end.
Definition rules_Pop (rules : IpRules) (obj : IpRule) : go IpRules :=
  pop_loop Eq rules obj false [] 0.

Definition chain_Eq (ch obj : IpChain) : bool :=
  String.eqb (ch_Table ch) (ch_Table obj) && String.eqb (ch_Name ch) (ch_Name obj).
Definition chains_Add (chains : IpChains) (obj : IpChain) : IpChains := chains ++ [obj].
Definition chains_Pop (chains : IpChains) (obj : IpChain) : go IpChains :=
  pop_loop chain_Eq chains obj false [] 0.

(** ** The kernel's tables *)

Class Iptables (K : Type) := {
  Exists : K -> string -> string -> list string -> bool;
  Raw : K -> list string -> K * option error;
  ExistChain : K -> string -> string -> bool;
  NewChain : K -> string -> string -> K * option error;
  RemoveExistingChain : K -> string -> string -> K * option error
}.

(** ** FireWall *)

Record FlowRule := {
  fl_Table : string; fl_Chain : string; fl_Input : string; fl_Output : string;
  fl_Source : string; fl_Dest : string; fl_ToSource : string; fl_ToDest : string;
  fl_Proto : string; fl_Match : string; fl_DstPort : string; fl_SrcPort : string;
  fl_Comment : string; fl_Jump : string
}.

Record FireWall := { chains : IpChains; rules : IpRules }.

Definition flow_rule (rule : FlowRule) : IpRule :=
  {| Table := fl_Table rule; Chain := fl_Chain rule; Source := fl_Source rule;
     Dest := fl_Dest rule; Jump := fl_Jump rule; ToSource := fl_ToSource rule;
     ToDest := fl_ToDest rule; Comment := fl_Comment rule; Proto := fl_Proto rule;
     Match := fl_Match rule; DstPort := fl_DstPort rule; SrcPort := fl_SrcPort rule;
     Input := fl_Input rule; Output := fl_Output rule; SetMss := 0; Order := ""; TcpFlag := [] |}.

Definition NewFireWall (flows : list FlowRule) : FireWall :=
  {| chains := []; rules := foldl (fun rs rule => rules_Add rs (flow_rule rule)) [] flows |}.

Definition AddChain (f : FireWall) (c : IpChain) : FireWall :=
  {| chains := chains_Add (chains f) c; rules := rules f |}.
Definition AddRule (f : FireWall) (r : IpRule) : FireWall :=
  {| chains := chains f; rules := rules_Add (rules f) r |}.

Definition addOLC (f : FireWall) : FireWall :=
  foldl (fun f '(t, n) => AddChain f {| ch_Table := t; ch_Name := n |}) f
    [(TFilter, OLCInput); (TFilter, OLCForward); (TFilter, OLCOutput);
     (TNat, OLCPre); (TNat, OLCInput); (TNat, OLCPost); (TNat, OLCOutput);
     (TMangle, OLCPre); (TMangle, OLCInput); (TMangle, OLCForward); (TMangle, OLCPost);
     (TMangle, OLCOutput); (TRaw, OLCPre); (TRaw, OLCOutput)].

Definition jump_rule (t c j : string) : IpRule :=
  {| Table := t; Chain := c; Source := ""; ToSource := ""; Dest := ""; ToDest := "";
     Proto := ""; DstPort := ""; SrcPort := ""; Input := ""; Output := ""; Comment := "";
     Jump := j; SetMss := 0; Order := "-I"; Match := ""; TcpFlag := [] |}.

Definition jumpOLC (f : FireWall) : FireWall :=
  foldl (fun f '(t, c, j) => AddRule f (jump_rule t c j)) f
    [(TFilter, CInput, OLCInput); (TFilter, CForward, OLCForward); (TFilter, COutput, OLCOutput);
     (TNat, CPre, OLCPre); (TNat, CInput, OLCInput); (TNat, CPost, OLCPost);
     (TNat, COutput, OLCOutput); (TMangle, CPre, OLCPre); (TMangle, CInput, OLCInput);
     (TMangle, CForward, OLCForward); (TMangle, CPost, OLCPost); (TMangle, COutput, OLCOutput);
     (TRaw, CPre, OLCPre); (TRaw, COutput, OLCOutput)].

Definition Initialize (f : FireWall) : FireWall := jumpOLC (addOLC f).

Definition rule_order (r : IpRule) : string := if String.eqb (Order r) "" then "-A" else Order r.

Section firewall.
Context {K : Type} `{HK : Iptables K} (linux : bool).

Definition notSupport : error := NewErr "iptables notSupport %s" [].

Definition rule_Opr (ru : IpRule) (opr : string) (k : K) : go (K * option error) :=
  if linux then
    args ← Args ru;
    if (String.eqb opr "-I" || String.eqb opr "-A") && Exists k (Table ru) (Chain ru) args
    then Ret (k, None)
    else Ret (Raw k (["-t"%string; Table ru; opr; Chain ru] ++ args))
  else Ret (k, Some notSupport).

Definition chain_Opr (ch : IpChain) (opr : string) (k : K) : K * option error :=
  if linux then
    if String.eqb opr "-N" then
      if ExistChain k (ch_Name ch) (ch_Table ch) then (k, None)
      else NewChain k (ch_Name ch) (ch_Table ch)
    else if String.eqb opr "-X" then RemoveExistingChain k (ch_Name ch) (ch_Table ch)
    else (k, None)
  else (k, Some notSupport).

(** The loops of [install] and [uninstall]; errors are only logged. *)
Fixpoint each_chain (opr : string) (cs : IpChains) (k : K) : K :=
  match cs with [] => k | c :: cs => each_chain opr cs (chain_Opr c opr k).1 end.
Fixpoint each_rule (opr : IpRule -> string) (rs : IpRules) (k : K) : go K :=
  match rs with
  | [] => Ret k
  | r :: rs => ke ← rule_Opr r (opr r) k; each_rule opr rs ke.1
  end.

Definition install (f : FireWall) (k : K) : go K :=
  each_rule rule_order (rules f) (each_chain "-N" (chains f) k).

Definition uninstall (f : FireWall) (k : K) : go K :=
  k ← each_rule (fun _ => "-D"%string) (rules f) k;
  Ret (each_chain "-X" (chains f) k).

(** [Start] installs, and registers [install] to be run again on every reload. *)
Definition Start (f : FireWall) (k : K) : go K := install f k.
(** Started again, any number of times. *)
Fixpoint Start_again (n : nat) (f : FireWall) (k : K) : go K :=
  match n with O => Ret k | S n => k ← Start f k; Start_again n f k end.
Definition Stop (f : FireWall) (k : K) : go K := uninstall f k.
Definition Refresh (f : FireWall) (k : K) : go K := k ← uninstall f k; install f k.

Definition ApplyRule (f : FireWall) (rule : IpRule) (k : K) : go (FireWall * K * option error) :=
  ke ← rule_Opr rule (rule_order rule) k;
  match ke.2 with
  | Some e => Ret (f, ke.1, Some e)
  | None => Ret ({| chains := chains f; rules := rules_Add (rules f) rule |}, ke.1, None)
  end.

Definition RevokeRule (f : FireWall) (rule : IpRule) (k : K) : go (FireWall * K * option error) :=
  ke ← rule_Opr rule "-D" k;
  match ke.2 with
  | Some e => Ret (f, ke.1, Some e)
  | None =>
      rs ← rules_Pop (rules f) rule;
      Ret ({| chains := chains f; rules := rs |}, ke.1, None)
  end.

End firewall.

(** ** What the firewall relies on *)

(** A rule with these arguments jumps to chain [c]. *)
Fixpoint jumps (args : list string) (c : string) : bool :=
  match args with
  | a :: args =>
      (String.eqb a "-j" && (match args with b :: _ => String.eqb b c | [] => false end)) || jumps args c
  | [] => false
  end.

(** [rules_in k t c]: the rules of chain [c] of table [t], when it exists.  Adding a
    rule may fail and then changes nothing; deleting removes the first match; a
    chain that no rule of its table refers to can be flushed and removed. *)
Class IptablesLaws (K : Type) `{Iptables K} := {
  rules_in : K -> string -> string -> option (list (list string));
  exists_spec k t c args :
    Exists k t c args = true <-> exists l, rules_in k t c = Some l /\ args ∈ l;
  raw_add k t c args opr :
    opr = "-A"%string \/ opr = "-I"%string ->
    let ke := Raw k (["-t"%string; t; opr; c] ++ args) in
    match ke.2 with
    | Some _ => forall t' c', rules_in ke.1 t' c' = rules_in k t' c'
    | None =>
        exists l, rules_in k t c = Some l /\
          rules_in ke.1 t c = Some (if String.eqb opr "-A" then l ++ [args] else args :: l) /\
          forall t' c', (t', c') <> (t, c) -> rules_in ke.1 t' c' = rules_in k t' c'
    end;
  raw_del k t c args :
    let ke := Raw k (["-t"; t; "-D"; c]%string ++ args) in
    match rules_in k t c with
    | Some l =>
        (args ∈ l -> exists l1 l2, l = l1 ++ args :: l2 /\ (args ∉ l1) /\
          rules_in ke.1 t c = Some (l1 ++ l2)) /\
        (args ∉ l -> rules_in ke.1 t c = Some l)
    | None => rules_in ke.1 t c = None
    end /\
    forall t' c', (t', c') <> (t, c) -> rules_in ke.1 t' c' = rules_in k t' c';
  exist_chain k t c : ExistChain k c t = true <-> is_Some (rules_in k t c);
  new_chain k t c :
    rules_in k t c = None ->
    let ke := NewChain k c t in
    (rules_in ke.1 t c = Some [] \/ rules_in ke.1 t c = None) /\
    forall t' c', (t', c') <> (t, c) -> rules_in ke.1 t' c' = rules_in k t' c';
  remove_chain k t c :
    (forall c' l args, rules_in k t c' = Some l -> args ∈ l -> args <> [] /\ jumps args c = false) ->
    let ke := RemoveExistingChain k c t in
    rules_in ke.1 t c = None /\
    forall t' c', (t', c') <> (t, c) -> rules_in ke.1 t' c' = rules_in k t' c'
}.

(** The arguments that the rules [rs] put in a chain. *)
Definition our_args (rs : IpRules) (t c : string) : list (list string) :=
  omap (fun r => if decide (Table r = t /\ Chain r = c) then
                   match Args r with Ret a => Some a | Panic => None end
                 else None) rs.

Lemma our_args_elem rs t c args :
  args ∈ our_args rs t c <->
  exists r, r ∈ rs /\ Table r = t /\ Chain r = c /\ Args r = Ret args.
Proof.
  unfold our_args. rewrite list_elem_of_omap. split.
  - intros (r & Hr & E). exists r. case_decide as Hd; [|done]. destruct Hd as [? ?].
    destruct (Args r); simplify_eq. done.
  - intros (r & Hr & <- & <- & E). exists r. split; [done|].
    rewrite decide_True by done. by rewrite E.
Qed.

Section restore.
Context {K : Type} `{HK : Iptables K} `{HL : !IptablesLaws K}.
Context (f : FireWall) (k0 : K).
Implicit Types (k : K) (t c : string).

Definition rules_ok (rs : IpRules) : Prop :=
  Forall (fun r => length (TcpFlag r) <> 1%nat /\ (Order r = "" \/ Order r = "-A" \/ Order r = "-I")%string) rs.

Hypothesis Hrules : rules_ok (rules f).
(** None of the firewall's rules and chains is in the tables before. *)
Hypothesis Hfresh : forall t c args, args ∈ our_args (rules f) t c ->
  forall l, rules_in k0 t c = Some l -> args ∉ l.
Hypothesis Hchains : forall ch, ch ∈ chains f ->
  rules_in k0 (ch_Table ch) (ch_Name ch) = None /\
  forall c' l args, rules_in k0 (ch_Table ch) c' = Some l -> args ∈ l ->
    args <> [] /\ jumps args (ch_Name ch) = false.

(** While the firewall is at work the tables are those of [k0] plus at most one copy
    of each of its rules, in old chains and in its own. *)
Definition mixed k : Prop :=
  forall t c,
    match rules_in k t c with
    | Some l =>
        (is_Some (rules_in k0 t c) \/ {| ch_Table := t; ch_Name := c |} ∈ chains f) /\
        filter (fun a => a ∉ our_args (rules f) t c) l = default [] (rules_in k0 t c) /\
        NoDup (filter (fun a => a ∈ our_args (rules f) t c) l)
    | None => rules_in k0 t c = None
    end.

Lemma rule_Args r : r ∈ rules f -> exists args, Args r = Ret args /\ args ∈ our_args (rules f) (Table r) (Chain r).
Proof.
  intros Hr. pose proof Hrules as Hf. unfold rules_ok in Hf. rewrite Forall_forall in Hf.
  destruct (Hf r Hr) as [Hl _].
  assert (E : exists args, Args r = Ret args).
  { unfold Args. destruct (TcpFlag r) as [|f0 [|f1 fl]]; [by eexists| |by eexists]. done. }
  destruct E as [args E]. exists args. split; [done|]. apply our_args_elem. by exists r.
Qed.

Lemma rule_order_ok r : r ∈ rules f -> rule_order r = "-A"%string \/ rule_order r = "-I"%string.
Proof.
  intros Hr. pose proof Hrules as Hf. unfold rules_ok in Hf. rewrite Forall_forall in Hf.
  destruct (Hf r Hr) as [_ Ho]. unfold rule_order.
  destruct Ho as [->|[->| ->]]; [by left|by left|by right].
Qed.

Lemma mixed_k0 : mixed k0.
Proof.
  intros t c. destruct (rules_in k0 t c) as [l|] eqn:E; [|done]. split; [by left|]. simpl. split.
  - apply filter_all. intros a Ha Ho. by eapply Hfresh.
  - rewrite filter_none; [constructor|]. intros a Ha Ho. by eapply Hfresh.
Qed.

(** A step that leaves every chain but [(t, c)] alone preserves the invariant when
    that chain is in order. *)
Lemma mixed_at k k' t c :
  mixed k -> (forall t' c', (t', c') <> (t, c) -> rules_in k' t' c' = rules_in k t' c') ->
  match rules_in k' t c with
  | Some l =>
      (is_Some (rules_in k0 t c) \/ {| ch_Table := t; ch_Name := c |} ∈ chains f) /\
      filter (fun a => a ∉ our_args (rules f) t c) l = default [] (rules_in k0 t c) /\
      NoDup (filter (fun a => a ∈ our_args (rules f) t c) l)
  | None => rules_in k0 t c = None
  end ->
  mixed k'.
Proof.
  intros Hm Ho Ht t' c'. destruct (decide ((t', c') = (t, c))) as [E|Hne].
  - by injection E as -> ->.
  - rewrite Ho by done. apply Hm.
Qed.

Lemma mixed_new_chain ch k :
  mixed k -> ch ∈ chains f -> mixed (chain_Opr true ch "-N" k).1.
Proof.
  intros Hm Hch. unfold chain_Opr. simpl.
  destruct (ExistChain k (ch_Name ch) (ch_Table ch)) eqn:Ee; [done|].
  assert (En : rules_in k (ch_Table ch) (ch_Name ch) = None).
  { apply eq_None_not_Some. intros Hs. apply exist_chain in Hs. congruence. }
  destruct (new_chain k (ch_Table ch) (ch_Name ch) En) as [Hn Ho].
  apply (mixed_at k _ (ch_Table ch) (ch_Name ch) Hm Ho).
  destruct (Hchains ch Hch) as [H0 _]. rewrite H0.
  destruct Hn as [-> | ->]; [|done]. split; [right; by destruct ch|].
  split; [done|constructor].
Qed.

Lemma mixed_add r k :
  mixed k -> r ∈ rules f ->
  exists k' e, rule_Opr true r (rule_order r) k = Ret (k', e) /\ mixed k'.
Proof.
  intros Hm Hr. destruct (rule_Args r Hr) as (args & Ea & Hin). unfold rule_Opr. rewrite Ea.
  cbn [mbind go_bind]. destruct (rule_order_ok r Hr) as [Eo|Eo]; rewrite Eo; simpl;
    (destruct (Exists k (Table r) (Chain r) args) eqn:Ee; [by eexists _, _|]);
    (eexists _, _; split; [by rewrite <- surjective_pairing|]);
    match goal with |- context [Raw _ (_ :: _ :: ?o :: _)] =>
      pose proof (raw_add k (Table r) (Chain r) args o ltac:(tauto)) as Hadd end;
    simpl in Hadd; destruct (Raw _ _).2;
    [by intros t c; rewrite Hadd; apply Hm| |by intros t c; rewrite Hadd; apply Hm|];
    destruct Hadd as (l & El & El' & Ho); apply (mixed_at k _ (Table r) (Chain r) Hm Ho);
    rewrite El'; pose proof (Hm (Table r) (Chain r)) as Hmt; rewrite El in Hmt;
    destruct Hmt as (H1 & H2 & H3); (split; [done|]);
    assert (Hn : args ∉ l) by (intros Hl; assert (Exists k (Table r) (Chain r) args = true)
      by (apply exists_spec; by exists l); congruence).
  - rewrite !filter_app, filter_cons_False, filter_cons_True, !filter_nil, app_nil_r by tauto.
    split; [done|]. apply NoDup_app. split; [done|]. split; [|apply NoDup_singleton].
    intros x Hx Hx'. apply list_elem_of_singleton in Hx' as ->. by apply list_elem_of_filter in Hx as [_ ?].
  - rewrite filter_cons_False, filter_cons_True by tauto. split; [done|]. apply NoDup_cons.
    split; [|done]. by intros [_ ?]%list_elem_of_filter.
Qed.

(** Deleting a rule keeps the invariant, removes that rule and adds none. *)
Lemma mixed_del r k :
  mixed k -> r ∈ rules f ->
  exists k' e args, rule_Opr true r "-D" k = Ret (k', e) /\ Args r = Ret args /\ mixed k' /\
    (forall l, rules_in k' (Table r) (Chain r) = Some l -> args ∉ l) /\
    (forall t c l, rules_in k' t c = Some l -> exists l0, rules_in k t c = Some l0 /\ l ⊆ l0).
Proof.
  intros Hm Hr. destruct (rule_Args r Hr) as (args & Ea & Hin). unfold rule_Opr. rewrite Ea.
  cbn [mbind go_bind]. simpl. eexists _, _, args. split; [by rewrite <- surjective_pairing|].
  split; [done|]. destruct (raw_del k (Table r) (Chain r) args) as [Hd Ho]. simpl in Hd, Ho.
  set (k' := (Raw k _).1) in *.
  pose proof (Hm (Table r) (Chain r)) as Hmt.
  destruct (rules_in k (Table r) (Chain r)) as [l|] eqn:El.
  2:{ split; [apply (mixed_at k _ (Table r) (Chain r) Hm Ho); by rewrite Hd|].
      split; [intros l; rewrite Hd; done|]. intros t c l Hl.
      destruct (decide ((t, c) = (Table r, Chain r))) as [E|Hne]; [injection E as -> ->; congruence|].
      exists l. by rewrite <- Ho. }
  destruct Hmt as (H1 & H2 & H3), Hd as [Hd1 Hd2].
  destruct (decide (args ∈ l)) as [Hl|Hl].
  - destruct (Hd1 Hl) as (l1 & l2 & -> & Hn1 & Er).
    rewrite filter_app in H2, H3. rewrite filter_cons_False in H2 by tauto.
    rewrite filter_cons_True in H3 by done.
    assert (Hn2 : args ∉ l2).
    { intros Hl2. apply NoDup_app in H3 as (_ & _ & H3). apply NoDup_cons in H3 as [H3 _].
      apply H3. by apply list_elem_of_filter. }
    split; [|split].
    + apply (mixed_at k _ (Table r) (Chain r) Hm Ho). rewrite Er. split; [done|].
      rewrite !filter_app. split; [done|]. apply NoDup_app in H3 as (Ha & Hb & Hc).
      apply NoDup_cons in Hc as [_ Hc]. apply NoDup_app. split; [done|]. split; [|done].
      intros x Hx Hx2. apply (Hb x Hx), elem_of_cons. by right.
    + intros l. rewrite Er. intros E. injection E as <-. rewrite elem_of_app. tauto.
    + intros t c l Hl'. destruct (decide ((t, c) = (Table r, Chain r))) as [E|Hne].
      * injection E as -> ->. eexists. split; [exact El|]. rewrite Er in Hl'. injection Hl' as <-.
        intros x. rewrite !elem_of_app, elem_of_cons. tauto.
      * exists l. by rewrite <- Ho.
  - specialize (Hd2 Hl). split; [|split].
    + apply (mixed_at k _ (Table r) (Chain r) Hm Ho). by rewrite Hd2.
    + intros l'. rewrite Hd2. by intros [= <-].
    + intros t c l' Hl'. destruct (decide ((t, c) = (Table r, Chain r))) as [E|Hne].
      * injection E as -> ->. exists l. split; [done|]. rewrite Hd2 in Hl'. by injection Hl' as <-.
      * exists l'. by rewrite <- Ho.
Qed.

Lemma mixed_install k1 : mixed k1 -> exists k', install true f k1 = Ret k' /\ mixed k'.
Proof.
  intros Hk. unfold install.
  assert (Hc : forall cs k, (forall ch, ch ∈ cs -> ch ∈ chains f) -> mixed k ->
             mixed (each_chain true "-N" cs k)).
  { intros cs. induction cs as [|ch cs IH]; intros k Hin Hm; simpl; [done|]. apply IH.
    - intros ch' Hc'. apply Hin, elem_of_cons. by right.
    - apply mixed_new_chain; [done|]. apply Hin, elem_of_cons. by left. }
  assert (Hr : forall rs k, (forall r, r ∈ rs -> r ∈ rules f) -> mixed k ->
             exists k', each_rule true rule_order rs k = Ret k' /\ mixed k').
  { intros rs. induction rs as [|r rs IH]; intros k Hin Hm; cbn [each_rule]; [by exists k|].
    destruct (mixed_add r k) as (k' & e & E & Hm'); [done|apply Hin, elem_of_cons; by left|].
    rewrite E. cbn [mbind go_bind fst]. apply IH; [|done].
    intros r' Hr'. apply Hin, elem_of_cons. by right. }
  apply Hr; [done|]. by apply Hc.
Qed.

Lemma mixed_uninstall_rules rs k :
  (forall r, r ∈ rs -> r ∈ rules f) -> mixed k ->
  exists k', each_rule true (fun _ => "-D"%string) rs k = Ret k' /\ mixed k' /\
    (forall r args l, r ∈ rs -> Args r = Ret args -> rules_in k' (Table r) (Chain r) = Some l -> args ∉ l) /\
    (forall t c l, rules_in k' t c = Some l -> exists l0, rules_in k t c = Some l0 /\ l ⊆ l0).
Proof.
  revert k. induction rs as [|r rs IH]; intros k Hin Hm; cbn [each_rule].
  - exists k. split; [done|]. split; [done|]. split; [by intros r args l ?%not_elem_of_nil|].
    intros t c l Hl. by exists l.
  - destruct (mixed_del r k) as (k1 & e & args & E & Ea & Hm1 & Hg & Hs);
      [done|apply Hin, elem_of_cons; by left|].
    rewrite E. cbn [mbind go_bind fst].
    destruct (IH k1) as (k' & E' & Hm' & Hg' & Hs'); [intros r' Hr'; apply Hin, elem_of_cons; by right|done|].
    exists k'. split; [done|]. split; [done|]. split.
    + intros r' args' l [->|Hr']%elem_of_cons Ea' Hl; [|by eapply Hg'].
      destruct (Hs' _ _ _ Hl) as (l1 & Hl1 & Hsub). intros Ha. apply Hsub in Ha.
      rewrite Ea in Ea'. injection Ea' as <-. by eapply Hg.
    + intros t c l Hl. destruct (Hs' _ _ _ Hl) as (l1 & Hl1 & Hsub).
      destruct (Hs _ _ _ Hl1) as (l0 & Hl0 & Hsub0). exists l0. split; [done|]. by etrans.
Qed.

(** Only empty chains of the firewall are left. *)
Definition only_chains (cs : IpChains) k : Prop :=
  forall t c, rules_in k t c = rules_in k0 t c \/
    (rules_in k0 t c = None /\ {| ch_Table := t; ch_Name := c |} ∈ cs /\ rules_in k t c = Some []).

Lemma only_chains_remove cs k :
  (forall ch, ch ∈ cs -> ch ∈ chains f) -> only_chains cs k ->
  only_chains [] (each_chain true "-X" cs k).
Proof.
  revert k. induction cs as [|ch cs IH]; intros k Hin Hk; simpl; [done|].
  apply IH; [intros ch' ?; apply Hin, elem_of_cons; by right|].
  unfold chain_Opr. simpl.
  destruct (Hchains ch) as [Hn Hj]; [apply Hin, elem_of_cons; by left|].
  destruct (remove_chain k (ch_Table ch) (ch_Name ch)) as [Hr Ho].
  { intros c' l args Hl Ha. destruct (Hk (ch_Table ch) c') as [E|(_ & _ & E)]; rewrite Hl in E.
    - by eapply (Hj c' l).
    - injection E as ->. by apply not_elem_of_nil in Ha. }
  intros t c. destruct (decide ((t, c) = (ch_Table ch, ch_Name ch))) as [E|Hne].
  - injection E as -> ->. left. by rewrite Hr, Hn.
  - rewrite Ho by done. destruct (Hk t c) as [E|(E1 & E2 & E3)]; [by left|right].
    split; [done|]. split; [|done]. apply elem_of_cons in E2 as [<-|?]; done.
Qed.

Lemma mixed_again n : forall k, mixed k -> exists k', Start_again true n f k = Ret k' /\ mixed k'.
Proof.
  induction n as [|n IH]; intros k Hk; [by exists k|]. cbn [Start_again]. unfold Start.
  destruct (mixed_install k Hk) as (k1 & -> & Hk1). apply IH, Hk1.
Qed.

Lemma install_uninstall n :
  exists k1 k2, Start_again true n f k0 = Ret k1 /\ uninstall true f k1 = Ret k2 /\
    forall t c, rules_in k2 t c = rules_in k0 t c.
Proof.
  destruct (mixed_again n k0 mixed_k0) as (k1 & E1 & Hm1).
  destruct (mixed_uninstall_rules (rules f) k1) as (k' & E' & Hm' & Hg & _); [done|done|].
  exists k1, (each_chain true "-X" (chains f) k'). split; [done|]. split.
  { unfold uninstall. by rewrite E'. }
  assert (Hoc : only_chains (chains f) k').
  { intros t c. pose proof (Hm' t c) as Hmt. destruct (rules_in k' t c) as [l|] eqn:El; [|by left].
    destruct Hmt as (H1 & H2 & _).
    assert (Hl : l = default [] (rules_in k0 t c)).
    { rewrite <- H2. symmetry. apply filter_all. intros a Ha Hour.
      apply our_args_elem in Hour as (r & Hr & <- & <- & Ea). by eapply Hg. }
    destruct (rules_in k0 t c) as [l0|]; simpl in Hl; [left; by rewrite Hl|].
    right. split; [done|]. destruct H1 as [[? ?]|H1]; [done|]. by rewrite Hl. }
  pose proof (only_chains_remove (chains f) k') as H. intros t c.
  destruct (H ltac:(done) Hoc t c) as [?|(_ & ?%not_elem_of_nil & _)]; done.
Qed.

End restore.

(** ** Tables as a map

    A concrete kernel for which the laws hold: one list of rules per chain; a chain
    that a rule of its table jumps to cannot be removed. *)
Abbreviation tables := (gmap (string * string) (list (list string))).

Definition tables_Raw (k : tables) (cmd : list string) : tables * option error :=
  match cmd with
  | flag :: t :: opr :: c :: args =>
      match k !! (t, c) with
      | None => (k, Some (NewErr "No chain by that name" []))
      | Some l =>
          if String.eqb opr "-A" then (<[(t, c) := l ++ [args]]> k, None)
          else if String.eqb opr "-I" then (<[(t, c) := args :: l]> k, None)
          else if String.eqb opr "-D" then
            match list_find (fun a => a = args) l with
            | Some (i, _) => (<[(t, c) := take i l ++ drop (S i) l]> k, None)
            | None => (k, Some (NewErr "Bad rule" []))
            end
          else (k, Some (NewErr "Unknown command" []))
      end
  | _ => (k, Some (NewErr "Bad argument" []))
  end.

Definition tables_free (k : tables) (t c : string) : bool :=
  forallb (fun e : (string * string) * list (list string) =>
             negb (String.eqb e.1.1 t) || forallb (fun args => negb (jumps args c)) e.2)
    (map_to_list k).

#[export] Instance tables_iptables : Iptables tables := {|
  Exists k t c args :=
    match k !! (t, c) with Some l => bool_decide (args ∈ l) | None => false end;
  Raw := tables_Raw;
  ExistChain k c t := bool_decide (is_Some (k !! (t, c)));
  NewChain k c t := (<[(t, c) := []]> k, None);
  RemoveExistingChain k c t := (if tables_free k t c then delete (t, c) k else k, None)
|}.

#[export] Program Instance tables_laws : IptablesLaws tables := {|
  rules_in k t c := k !! (t, c)
|}.
Next Obligation.
  intros k t c args. simpl. destruct (k !! (t, c)) as [l|]; [|split; [done|by intros (? & ? & _)]].
  rewrite bool_decide_eq_true. split; [by exists l|]. intros (? & [= <-] & ?). done.
Qed.
Next Obligation.
  intros k t c args opr Ho. simpl. destruct (k !! (t, c)) as [l|] eqn:E; [|done].
  destruct Ho as [-> | ->]; simpl; exists l; (split; [done|]); rewrite lookup_insert_eq;
    (split; [done|]); intros t' c' Hne; by rewrite lookup_insert_ne.
Qed.
Next Obligation.
  intros k t c args. simpl. destruct (k !! (t, c)) as [l|] eqn:E; [|by split].
  destruct (list_find (fun a => a = args) l) as [[i a]|] eqn:Ef.
  - apply list_find_Some in Ef as (Hi & -> & Hlt). split.
    + split.
      * intros _. exists (take i l), (drop (S i) l). split; [symmetry; by apply take_drop_middle|].
        split; [|simpl; by rewrite lookup_insert_eq]. intros [j Hj]%list_elem_of_lookup.
        apply lookup_take_Some in Hj as [Hj Hji]. by apply (Hlt j args Hj Hji).
      * intros Hn. exfalso. apply Hn. by eapply list_elem_of_lookup_2.
    + intros t' c' Hne. simpl. by rewrite lookup_insert_ne.
  - simpl. apply list_find_None in Ef. rewrite Forall_forall in Ef. split; [|done]. split.
    + intros Hin. by destruct (Ef args Hin).
    + done.
Qed.
Next Obligation. intros k t c. simpl. by rewrite bool_decide_eq_true. Qed.
Next Obligation.
  intros k t c Hn. simpl. rewrite lookup_insert_eq. split; [by left|].
  intros t' c' Hne. by rewrite lookup_insert_ne.
Qed.
Next Obligation.
  intros k t c H. simpl.
  assert (Hf : tables_free k t c = true).
  { unfold tables_free. apply forallb_forall. intros [[t' c'] l] Hin. simpl.
    apply list_elem_of_In, elem_of_map_to_list in Hin.
    destruct (String.eqb_spec t' t) as [->|]; [|done]. simpl. apply forallb_forall. intros args Ha.
    apply negb_true_iff. by eapply (H c' l), list_elem_of_In. }
  rewrite Hf, lookup_delete_eq. split; [done|]. intros t' c' Hne. by rewrite lookup_delete_ne.
Qed.

(** (C25) Stopping the firewall undoes starting it: if none of its rules and chains is
    in the tables before and nothing refers to its chains, then [Start], however often it
    is repeated (the switch starts the firewall again whenever it reloads), followed by
    one [Stop] leaves every chain of every table with exactly the rules it had, in
    their order, and no chain more; whichever of the additions failed, and even if
    the firewall's list names the same rule twice. *)
Theorem firewall_stop_restores {K} `{HK : Iptables K} `{HL : !IptablesLaws K} (f : FireWall) (k0 : K) (n : nat) :
  rules_ok (rules f) ->
  (forall t c args, args ∈ our_args (rules f) t c ->
     forall l, rules_in k0 t c = Some l -> args ∉ l) ->
  (forall ch, ch ∈ chains f ->
     rules_in k0 (ch_Table ch) (ch_Name ch) = None /\
     forall c' l args, rules_in k0 (ch_Table ch) c' = Some l -> args ∈ l ->
       args <> [] /\ jumps args (ch_Name ch) = false) ->
  exists k1 k2, Start_again true n f k0 = Ret k1 /\ Stop true f k1 = Ret k2 /\
    forall t c, rules_in k2 t c = rules_in k0 t c.
Proof. intros H1 H2 H3. by apply install_uninstall. Qed.

Definition demo_tables : tables :=
  {[ (TFilter, CInput) := [["-s"; "10.0.0.1"; "-j"; "DROP"]%string]; (TFilter, CForward) := [] ]}.
Definition demo_firewall : FireWall := Initialize (NewFireWall []).

Lemma demo_rules_short :
  Forall (fun r => match Args r with Ret a => length a | Panic => 0%nat end = 2%nat)
    (rules demo_firewall).
Proof. apply (bool_decide_unpack _). vm_compute. done. Qed.

Lemma demo_chains_new :
  Forall (fun ch => demo_tables !! (ch_Table ch, ch_Name ch) = None /\
                    jumps ["-s"; "10.0.0.1"; "-j"; "DROP"]%string (ch_Name ch) = false)
    (chains demo_firewall).
Proof. apply (bool_decide_unpack _). vm_compute. done. Qed.

Lemma firewall_stop_restores_witness :
  exists k1 k2, Start_again true 2 demo_firewall demo_tables = Ret k1 /\
    Stop true demo_firewall k1 = Ret k2 /\
    k1 !! (TFilter, CInput) =
      Some [["-j"; OLCInput]; ["-s"; "10.0.0.1"; "-j"; "DROP"]]%string /\
    k2 !! (TFilter, CInput) = demo_tables !! (TFilter, CInput).
Proof.
  destruct (firewall_stop_restores demo_firewall demo_tables 2) as (k1 & k2 & E1 & E2 & H).
  - unfold rules_ok. apply (bool_decide_unpack _). vm_compute. done.
  - intros t c args Ha l Hl.
    assert (Hlen : length args = 2%nat).
    { apply our_args_elem in Ha as (r & Hr & _ & _ & Ea).
      pose proof demo_rules_short as Hf. rewrite Forall_forall in Hf. specialize (Hf r Hr).
      by rewrite Ea in Hf. }
    intros Hin. change (demo_tables !! (t, c) = Some l) in Hl. unfold demo_tables in Hl.
    apply lookup_insert_Some in Hl as [[_ <-]|[_ Hl]].
    + apply list_elem_of_singleton in Hin as ->. discriminate Hlen.
    + apply lookup_singleton_Some in Hl as [_ <-]. by apply not_elem_of_nil in Hin.
  - intros ch Hch. pose proof demo_chains_new as Hf. rewrite Forall_forall in Hf.
    destruct (Hf ch Hch) as [Hn Hj]. split; [exact Hn|].
    intros c' l args Hl Ha. change (demo_tables !! (ch_Table ch, c') = Some l) in Hl.
    unfold demo_tables in Hl.
    apply lookup_insert_Some in Hl as [[_ <-]|[_ Hl]].
    + apply list_elem_of_singleton in Ha as ->. split; [done|exact Hj].
    + apply lookup_singleton_Some in Hl as [_ <-]. by apply not_elem_of_nil in Ha.
  - exists k1, k2. split; [exact E1|]. split; [exact E2|]. split; [|apply H].
    assert (Hc : match Start_again true 2 demo_firewall demo_tables with
                 | Ret k => k !! (TFilter, CInput) | Panic => None
                 end = Some [["-j"; OLCInput]; ["-s"; "10.0.0.1"; "-j"; "DROP"]]%string)
      by (vm_compute; reflexivity).
    rewrite E1 in Hc. exact Hc.
Defined.

(** ** Taking a rule back *)

Lemma pop_loop_panics {A} (eq : A -> A -> bool) items obj find :
  items <> [] -> (find = true \/ forall x l, items = x :: l -> l <> [] \/ eq x obj = false) ->
  pop_loop eq items obj find [] 0 = Panic.
Proof.
  intros Hne H. destruct items as [|x l]; [done|]. simpl.
  destruct find; [done|]. destruct H as [H|H]; [done|]. simpl.
  destruct (eq x obj) eqn:E; [|done]. destruct (H x l eq_refl) as [Hl|Hl]; [|congruence].
  by destruct l.
Qed.

(** Taking a rule back crashes: after the kernel has deleted the rule,
    [RevokeRule] returns only if the firewall had no rule at all or exactly the
    one taken back; in every other case [Pop] writes past the end of an empty
    slice and panics. *)
Theorem revoke_rule_returns_iff {K} `{HK : Iptables K} (f : FireWall) (rule : IpRule) (k k' : K) :
  rule_Opr true rule "-D" k = Ret (k', None) ->
  returns (RevokeRule true f rule k) <->
  rules f = [] \/ exists r, rules f = [r] /\ Eq r rule = true.
Proof.
  intros E. unfold RevokeRule. rewrite E. cbn [mbind go_bind snd]. unfold rules_Pop. split.
  - intros [a H]. destruct (rules f) as [|r [|r2 l]] eqn:Er; [by left|right|].
    + exists r. split; [done|]. destruct (Eq r rule) eqn:Ee; [done|].
      rewrite pop_loop_panics in H; [done|done|right].
      intros x l [= <- <-]. by right.
    + rewrite pop_loop_panics in H; [done|done|right]. intros x l0 [= <- <-]. by left.
  - intros [->|(r & -> & Ee)]; simpl; [by eexists|]. rewrite Ee. simpl. by eexists.
Qed.

Lemma revoke_rule_returns_iff_witness :
  let r1 := jump_rule TFilter CInput OLCInput in
  let r2 := jump_rule TFilter CInput OLCForward in
  let k : tables := {[ (TFilter, CInput) := [["-j"; OLCInput]; ["-j"; OLCForward]]%string ]} in
  returns (RevokeRule true {| chains := []; rules := [r1] |} r1 k) /\
  ~ returns (RevokeRule true {| chains := []; rules := [r1; r2] |} r1 k).
Proof.
  intros r1 r2 k.
  assert (E : rule_Opr true r1 "-D" k =
              Ret ({[ (TFilter, CInput) := [["-j"; OLCForward]]%string ]}, None)) by reflexivity.
  split.
  - apply (revoke_rule_returns_iff _ _ _ _ E). right. by exists r1.
  - rewrite (revoke_rule_returns_iff _ _ _ _ E). intros [H|(r' & H & _)]; discriminate H.
Defined.
