(* ===== verification/GoStd.v ===== *)
(** * The Go standard library, as far as the sources use it

    package strings on one-character separators, decimal numbers of package
    strconv, and the addresses of package net: [ParseIP], [To4] and [String].
    Go strings are byte strings. *)

From S2P Require Import Prelude.

Local Open Scope Z_scope.

(** ** strings *)

Fixpoint contains_char (c : Ascii.ascii) (s : string) : bool :=
  match s with
  | EmptyString => false
  | String a s => Ascii.eqb a c || contains_char c s
  end.

(** [s[:m]] and [s[m+1:]] for the first index [m] of [c]. *)
Fixpoint cut (c : Ascii.ascii) (s : string) : option (string * string) :=
  match s with
  | EmptyString => None
  | String a s =>
      if Ascii.eqb a c then Some (EmptyString, s)
      else match cut c s with
           | Some (l, r) => Some (String a l, r)
           | None => None
           end
  end.

Fixpoint SplitN (s : string) (c : Ascii.ascii) (n : nat) : list string :=
  match n with
  | O => []
  | S O => [s]
  | S n => match cut c s with
           | Some (l, r) => l :: SplitN r c n
           | None => [s]
           end
  end.

Definition lower_ascii (a : Ascii.ascii) : Ascii.ascii :=
  let n := Ascii.N_of_ascii a in
  if ((65 <=? n) && (n <=? 90))%N then Ascii.ascii_of_N (n + 32) else a.

(** [strings.ToLower] on ASCII text. *)
Fixpoint ToLower (s : string) : string :=
  match s with EmptyString => EmptyString | String a s => String (lower_ascii a) (ToLower s) end.

Definition HasPrefix (s pre : string) : bool := String.prefix pre s.

Lemma cut_app c s1 s2 : contains_char c s1 = false -> cut c (s1 +:+ String c s2) = Some (s1, s2).
Proof.
  induction s1 as [|a s1 IH]; intros H.
  - change (EmptyString +:+ String c s2) with (String c s2). simpl.
    by rewrite Ascii.eqb_refl.
  - rewrite string_app_cons. simpl in *. apply orb_false_iff in H as [H1 H2].
    rewrite H1, IH by done. done.
Qed.

Lemma cut_none c s : contains_char c s = false -> cut c s = None.
Proof.
  induction s as [|a s IH]; [done|]. simpl. intros [H1 H2]%orb_false_iff.
  by rewrite H1, IH.
Qed.

Lemma cut_some c s : contains_char c s = true -> exists l r, cut c s = Some (l, r) /\
  s = l +:+ String c r /\ contains_char c l = false.
Proof.
  induction s as [|a s IH]; [done|]. simpl. destruct (Ascii.eqb a c) eqn:E.
  - intros _. apply Ascii.eqb_eq in E as ->. exists EmptyString, s. done.
  - simpl. intros H. destruct (IH H) as (l & r & -> & -> & Hl). exists (String a l), r.
    split; [done|]. split; [by rewrite string_app_cons|]. simpl. by rewrite E.
Qed.

Lemma SplitN_cons s1 s2 c n :
  contains_char c s1 = false ->
  SplitN (s1 +:+ String c s2) c (S (S n)) = s1 :: SplitN s2 c (S n).
Proof. intros H. cbn [SplitN]. by rewrite cut_app. Qed.

Lemma contains_app c s1 s2 :
  contains_char c (s1 +:+ s2) = contains_char c s1 || contains_char c s2.
Proof.
  induction s1 as [|a s1 IH]; [done|]. rewrite string_app_cons. simpl. by rewrite IH, orb_assoc.
Qed.

Lemma string_app_assoc (s1 s2 s3 : string) : (s1 +:+ s2) +:+ s3 = s1 +:+ (s2 +:+ s3).
Proof.
  induction s1 as [|a s1 IH]; [done|]. rewrite !string_app_cons. by rewrite IH.
Qed.

Lemma string_app_nil_r (s : string) : s +:+ EmptyString = s.
Proof. induction s as [|a s IH]; [done|]. rewrite string_app_cons. by rewrite IH. Qed.

Lemma string_length_app (s t : string) : String.length (s +:+ t) = (String.length s + String.length t)%nat.
Proof. induction s as [|a s IH]; [done|]. rewrite string_app_cons. simpl. by rewrite IH. Qed.

Lemma lower_lower a : lower_ascii (lower_ascii a) = lower_ascii a.
Proof.
  unfold lower_ascii at 2 3. destruct ((65 <=? Ascii.N_of_ascii a) && _)%N eqn:E.
  - unfold lower_ascii. apply andb_true_iff in E as [E1 E2]. apply N.leb_le in E1, E2.
    rewrite Ascii.N_ascii_embedding by lia.
    rewrite (proj2 (N.leb_gt _ 90)) by lia. by rewrite andb_false_r.
  - unfold lower_ascii. by rewrite E.
Qed.

Lemma ToLower_idem s : ToLower (ToLower s) = ToLower s.
Proof. induction s as [|a s IH]; simpl; [done|]. by rewrite lower_lower, IH. Qed.

(** ** Decimal numbers *)

(** [strconv.FormatUint(n, 10)] and [strconv.Itoa]. *)
Definition FormatInt (n : Z) : string := pretty n.

Definition digit (a : Ascii.ascii) : option Z :=
  let n := Z.of_N (Ascii.N_of_ascii a) in
  if (48 <=? n) && (n <=? 57) then Some (n - 48) else None.

Definition hex_digit_val (a : Ascii.ascii) : option Z :=
  let n := Z.of_N (Ascii.N_of_ascii a) in
  if (48 <=? n) && (n <=? 57) then Some (n - 48)
  else if (97 <=? n) && (n <=? 102) then Some (n - 87)
  else if (65 <=? n) && (n <=? 70) then Some (n - 55)
  else None.

(** The loop of [dtoi] and [xtoi]: the value of the leading digits in the given
    base and what follows them; [None] when it reaches [big]. *)
Definition big : Z := 0xFFFFFF.
Fixpoint num_loop (val : Ascii.ascii -> option Z) (base : Z) (s : string) (n : Z) (some : bool)
    : option (Z * string) :=
  match s with
  | EmptyString => if some then Some (n, s) else None
  | String a r =>
      match val a with
      | Some d => let n := n * base + d in
                  if big <=? n then None else num_loop val base r n true
      | None => if some then Some (n, s) else None
      end
  end.
Definition dtoi (s : string) : option (Z * string) := num_loop digit 10 s 0 false.
Definition xtoi (s : string) : option (Z * string) := num_loop hex_digit_val 16 s 0 false.

(** ** net.IP *)

Definition char_dot : Ascii.ascii := Ascii.ascii_of_N 46.
Definition char_colon : Ascii.ascii := Ascii.ascii_of_N 58.

(** The four octets of [parseIPv4]; [k] octets are left, the first of all has no dot. *)
Fixpoint parse_octets (k : nat) (first : bool) (s : string) : option (list Z) :=
  match k with
  | O => match s with EmptyString => Some [] | _ => None end
  | S k =>
      match s with
      | EmptyString => None
      | String a r =>
          let s' := if first then Some s else if Ascii.eqb a char_dot then Some r else None in
          match s' with
          | None => None
          | Some s' =>
              match dtoi s' with
              | Some (n, rest) =>
                  if 0xFF <? n then None
                  else match parse_octets k false rest with
                       | Some l => Some (n :: l)
                       | None => None
                       end
              | None => None
              end
          end
      end
  end.

(** The prefix of an IPv4 address in its 16-byte form. *)
Definition v4InV6Prefix : bytes := [0; 0; 0; 0; 0; 0; 0; 0; 0; 0; 255; 255].

Definition parseIPv4 (s : string) : option bytes :=
  match parse_octets 4 true s with Some l => Some (v4InV6Prefix ++ l) | None => None end.

(** The groups of [parseIPv6]: [acc] is what was parsed, [ell] the position of the
    ellipsis.  Each round parses two bytes, eight rounds are enough. *)
Fixpoint parse_groups (fuel : nat) (s : string) (acc : bytes) (ell : option nat)
    : option (bytes * option nat * string) :=
  match fuel with
  | O => Some (acc, ell, s)
  | S fuel =>
      match xtoi s with
      | None => None
      | Some (n, rest) =>
          if 0xFFFF <? n then None
          else
            let next acc :=
              match rest with
              | EmptyString => Some (acc, ell, rest)
              | String a r =>
                  if negb (Ascii.eqb a char_colon) then None
                  else match r with
                       | EmptyString => None
                       | String a2 r2 =>
                           if Ascii.eqb a2 char_colon then
                             match ell with
                             | Some _ => None
                             | None =>
                                 match r2 with
                                 | EmptyString => Some (acc, Some (length acc), r2)
                                 | _ => parse_groups fuel r2 acc (Some (length acc))
                                 end
                             end
                           else parse_groups fuel r acc ell
                       end
              end in
            match rest with
            | String a _ =>
                if Ascii.eqb a char_dot then
                  if (match ell with None => negb (Nat.eqb (length acc) 12) | Some _ => false end)
                     || (12 <? length acc)%nat then None
                  else match parse_octets 4 true s with
                       | Some l => Some (acc ++ l, ell, EmptyString)
                       | None => None
                       end
                else next (acc ++ be16 n)
            | EmptyString => next (acc ++ be16 n)
            end
      end
  end.

Definition parseIPv6 (s : string) : option bytes :=
  let '(ell, s1) := match s with
                    | String a (String b r) =>
                        if Ascii.eqb a char_colon && Ascii.eqb b char_colon
                        then (Some 0%nat, r) else (None, s)
                    | _ => (None, s)
                    end in
  match ell, s1 with
  | Some _, EmptyString => Some (make_bytes 16)
  | _, _ =>
      match parse_groups 8 s1 [] ell with
      | None => None
      | Some (acc, ell, rest) =>
          match rest with
          | String _ _ => None
          | EmptyString =>
              if (length acc <? 16)%nat then
                match ell with
                | None => None
                | Some e => Some (take e acc ++ make_bytes (16 - zlen acc) ++ drop e acc)
                end
              else match ell with Some _ => None | None => Some acc end
          end
      end
  end.

(** The first dot or colon decides. *)
Fixpoint ip_kind (s : string) : option bool :=
  match s with
  | EmptyString => None
  | String a s => if Ascii.eqb a char_dot then Some true
                  else if Ascii.eqb a char_colon then Some false else ip_kind s
  end.

Definition ParseIP (s : string) : option bytes :=
  match ip_kind s with
  | Some true => parseIPv4 s
  | Some false => parseIPv6 s
  | None => None
  end.

(** [nil] is the empty slice. *)
Definition To4 (ip : bytes) : bytes :=
  if Nat.eqb (length ip) 4 then ip
  else if Nat.eqb (length ip) 16 && bool_decide (take 12 ip = v4InV6Prefix) then drop 12 ip
  else [].

(** [String] of a 4-byte address. *)
Definition ip4_string (ip : bytes) : string :=
  match ip with
  | [a; b; c; d] =>
      (FormatInt a +:+ "." +:+ FormatInt b +:+ "." +:+ FormatInt c +:+ "." +:+ FormatInt d)%string
  | _ => "?"%string
  end.

(** [String] of a 16-byte address: the longest run of at least two zero groups is
    written as an ellipsis; an IPv4 address in 16 bytes is written in IPv4 form. *)
Fixpoint words (ip : bytes) : list Z :=
  match ip with a :: b :: l => join16 a b :: words l | _ => [] end.
Fixpoint zeros (ws : list Z) : nat :=
  match ws with w :: ws => if w =? 0 then S (zeros ws) else 0%nat | [] => 0%nat end.
Fixpoint longest_zeros (fuel : nat) (ws : list Z) (i e0 e1 : nat) : nat * nat :=
  match fuel with
  | O => (e0, e1)
  | S fuel =>
      match ws with
      | [] => (e0, e1)
      | _ :: ws' =>
          let k := zeros ws in
          if (e1 - e0 <? k)%nat
          then longest_zeros fuel (drop (S k) ws) (i + S k) i (i + k)
          else longest_zeros fuel ws' (S i) e0 e1
      end
  end.
Definition hex_char (d : Z) : Ascii.ascii :=
  Ascii.ascii_of_N (Z.to_N (if d <? 10 then 48 + d else 87 + d)).
(** The hexadecimal digits of a 16-bit word, without leading zeros. *)
Fixpoint hex_digits (k : nat) (w : Z) (started : bool) : string :=
  match k with
  | O => String (hex_char (Z.land w 15)) EmptyString
  | S k' =>
      let d := Z.land (Z.shiftr w (4 * Z.of_nat k)) 15 in
      if started || negb (d =? 0) then String (hex_char d) (hex_digits k' w true)
      else hex_digits k' w false
  end.
Definition hex_word (w : Z) : string := hex_digits 3 w false.
Fixpoint join_words (sep : bool) (ws : list Z) : string :=
  match ws with
  | [] => ""
  | w :: ws => (if sep then ":" else "") +:+ hex_word w +:+ join_words true ws
  end%string.
Definition ip_String (ip : bytes) : string :=
  match To4 ip with
  | [a; b; c; d] => ip4_string [a; b; c; d]
  | _ =>
      let ws := words ip in
      let '(e0, e1) := longest_zeros 8 ws 0 0 0 in
      if (2 <=? e1 - e0)%nat
      then (join_words false (take e0 ws) +:+ "::" +:+ join_words false (drop e1 ws))%string
      else join_words false ws
  end.

(** [net.CIDRMask(n, 8 * len)] *)
Definition CIDRMask (n : Z) (len : nat) : bytes :=
  map (fun i : nat => let k := Z.max 0 (Z.min 8 (n - 8 * Z.of_nat i)) in
                      255 - Z.ones (8 - k)) (seq 0 len).

(** The mask of [net.ParseCIDR] for the text before and after the slash. *)
Definition ParseCIDR_mask (addr mask : string) : option bytes :=
  let len := match parseIPv4 addr with
             | Some _ => Some 4%nat
             | None => match parseIPv6 addr with Some _ => Some 16%nat | None => None end
             end in
  match len, dtoi mask with
  | Some len, Some (n, EmptyString) =>
      if 8 * Z.of_nat len <? n then None else Some (CIDRMask n len)
  | _, _ => None
  end.

(** [IPMask.Size] as the length of the prefix; 0 for a mask that is not one. *)
Fixpoint mask_bits (k : nat) (b : Z) : option Z :=
  match k with
  | O => Some 0
  | S k' =>
      if Z.testbit b (Z.of_nat k') then option_map (Z.add 1) (mask_bits k' b)
      else if Z.land b (Z.ones (Z.of_nat k)) =? 0 then Some 0 else None
  end.
Fixpoint simpleMaskLength (mask : bytes) : option Z :=
  match mask with
  | [] => Some 0
  | b :: l =>
      if b =? 255 then option_map (Z.add 8) (simpleMaskLength l)
      else if forallb (Z.eqb 0) l then mask_bits 8 b else None
  end.
Definition mask_Size (mask : bytes) : Z := default 0 (simpleMaskLength mask).

(** [net.ParseCIDR] of a text: the network and the length of its prefix. *)
Definition char_slash : Ascii.ascii := Ascii.ascii_of_N 47.
Definition ParseCIDR (s : string) : option (bytes * Z) :=
  match cut char_slash s with
  | None => None
  | Some (addr, mask) =>
      let ip := match parseIPv4 addr with
                | Some ip => Some (To4 ip)
                | None => parseIPv6 addr
                end in
      match ip, dtoi mask with
      | Some ip, Some (n, EmptyString) =>
          if 8 * zlen ip <? n then None
          else Some (zip_with Z.land ip (CIDRMask n (length ip)), n)
      | _, _ => None
      end
  end.
(** [String] of the network [ParseCIDR] returns; one of IPv4 addresses in 16 bytes is
    written in IPv4 form. *)
Definition ipnet_String (net : bytes * Z) : string :=
  let n := if Nat.eqb (length net.1) 16 && negb (bool_decide (To4 net.1 = [])) then net.2 - 96 else net.2 in
  (ip_String net.1 +:+ "/" +:+ FormatInt n)%string.

(** ** Printing and parsing addresses *)

Lemma num_loop_app val base s rest n m some :
  num_loop val base s n some = Some (m, EmptyString) ->
  (forall a r, rest = String a r -> val a = None) ->
  num_loop val base (s +:+ rest) n some = Some (m, rest).
Proof.
  intros H Hr. revert n some H. induction s as [|a s IH]; intros n some H.
  - change (EmptyString +:+ rest) with rest. simpl in H. destruct some; [|done].
    injection H as <-. destruct rest as [|a r]; [done|]. simpl. by rewrite (Hr a r eq_refl).
  - rewrite string_app_cons. simpl in *. destruct (val a) as [d|]; [|by destruct some].
    destruct (big <=? n * base + d); [done|]. by apply IH.
Qed.

Lemma dtoi_byte_closed n : u8 n -> dtoi (FormatInt n) = Some (n, EmptyString).
Proof.
  intros Hn.
  assert (Hall : Forall (fun m => dtoi (FormatInt m) = Some (m, EmptyString)) (seqZ 0 256)).
  { apply (bool_decide_unpack _). vm_compute. done. }
  rewrite Forall_forall in Hall. apply Hall, elem_of_seqZ. unfold u8 in Hn. lia.
Qed.

Lemma dtoi_byte n rest :
  u8 n -> (forall a r, rest = String a r -> digit a = None) ->
  dtoi (FormatInt n +:+ rest) = Some (n, rest).
Proof. intros Hn Hr. apply num_loop_app; [by apply dtoi_byte_closed|done]. Qed.

Lemma FormatInt_shape n :
  u8 n -> exists a s, FormatInt n = String a s /\ ip_kind (FormatInt n) = None /\
    contains_char char_dot (FormatInt n) = false.
Proof.
  intros Hn.
  assert (Hall : Forall (fun m => FormatInt m <> EmptyString /\ ip_kind (FormatInt m) = None /\
      contains_char char_dot (FormatInt m) = false) (seqZ 0 256)).
  { apply (bool_decide_unpack _). vm_compute. done. }
  rewrite Forall_forall in Hall. destruct (Hall n) as (H1 & H2 & H3).
  { apply elem_of_seqZ. unfold u8 in Hn. lia. }
  destruct (FormatInt n) as [|a s]; [done|]. by exists a, s.
Qed.

Lemma ip_kind_app s r : ip_kind s = None -> ip_kind (s +:+ r) = ip_kind r.
Proof.
  induction s as [|a s IH]; [done|]. rewrite string_app_cons. simpl.
  destruct (Ascii.eqb a char_dot); [done|]. destruct (Ascii.eqb a char_colon); [done|]. apply IH.
Qed.

Lemma parse_octets_last n k : u8 n -> (k = 0)%nat -> parse_octets (S k) false ("." +:+ FormatInt n) = Some [n].
Proof.
  intros Hn ->. change ("." +:+ FormatInt n) with (String char_dot (FormatInt n)).
  cbn [parse_octets]. rewrite Ascii.eqb_refl, dtoi_byte_closed by done.
  by rewrite (proj2 (Z.ltb_ge _ _)) by (unfold u8 in Hn; lia).
Qed.

Lemma parse_octets_next n k r l :
  u8 n -> parse_octets k false ("." +:+ r) = Some l ->
  parse_octets (S k) false ("." +:+ FormatInt n +:+ "." +:+ r) = Some (n :: l).
Proof.
  intros Hn H. change ("." +:+ FormatInt n +:+ "." +:+ r)
    with (String char_dot (FormatInt n +:+ ("." +:+ r))).
  cbn [parse_octets]. rewrite Ascii.eqb_refl, dtoi_byte by (done || by intros a r' [= <- <-]).
  rewrite (proj2 (Z.ltb_ge _ _)) by (unfold u8 in Hn; lia). by rewrite H.
Qed.

Lemma parse_octets_first n k r l :
  u8 n -> parse_octets k false ("." +:+ r) = Some l ->
  parse_octets (S k) true (FormatInt n +:+ "." +:+ r) = Some (n :: l).
Proof.
  intros Hn H. destruct (FormatInt_shape n Hn) as (x & s & Es & _).
  assert (Hd : dtoi (FormatInt n +:+ "." +:+ r) = Some (n, "." +:+ r))
    by (apply dtoi_byte; [done|by intros a' r' [= <- <-]]).
  destruct (FormatInt n +:+ "." +:+ r) as [|a0 s0] eqn:E; [by rewrite Es in E|].
  cbn [parse_octets]. rewrite Hd, (proj2 (Z.ltb_ge _ _)) by (unfold u8 in Hn; lia). by rewrite H.
Qed.

(** Parsing what [String] prints gives the address back. *)
Lemma ParseIP_string a b c d :
  u8 a -> u8 b -> u8 c -> u8 d ->
  ParseIP (ip4_string [a; b; c; d]) = Some (v4InV6Prefix ++ [a; b; c; d]).
Proof.
  intros Ha Hb Hc Hd. destruct (FormatInt_shape a Ha) as (x & s & Es & Hk & _).
  unfold ParseIP, ip4_string. rewrite ip_kind_app by done.
  change (ip_kind ("." +:+ _)) with (Some true). unfold parseIPv4.
  rewrite (parse_octets_first a 3 (FormatInt b +:+ "." +:+ FormatInt c +:+ "." +:+ FormatInt d) [b; c; d]);
    [done|done|].
  apply (parse_octets_next b 2 (FormatInt c +:+ "." +:+ FormatInt d) [c; d]); [done|].
  apply (parse_octets_next c 1 (FormatInt d) [d]); [done|]. by apply (parse_octets_last d 0).
Qed.

Lemma ip4_string_inj l1 l2 :
  length l1 = 4%nat -> length l2 = 4%nat -> bytes_ok l1 -> bytes_ok l2 ->
  ip4_string l1 = ip4_string l2 -> l1 = l2.
Proof.
  intros L1 L2 H1 H2 E. explode l1. explode l2. bytes_inv.
  match type of E with ip4_string [?a; ?b; ?c; ?d] = ip4_string [?a'; ?b'; ?c'; ?d'] =>
    assert (Ep : ParseIP (ip4_string [a; b; c; d]) = ParseIP (ip4_string [a'; b'; c'; d'])) by (by rewrite E);
    rewrite !ParseIP_string in Ep by done end.
  by injection Ep as -> -> -> ->.
Qed.

Example parse_ip_examples :
  ParseIP "10.1.2.3" = Some (v4InV6Prefix ++ [10; 1; 2; 3]) /\
  ParseIP "10.1.2" = None /\ ParseIP "10.1.2.256" = None /\ ParseIP "" = None /\
  ParseIP "::1" = Some (make_bytes 15 ++ [1]) /\
  ParseIP "fe80::a:0" = Some ([254; 128] ++ make_bytes 10 ++ [0; 10; 0; 0]) /\
  ParseIP "::ffff:10.0.0.1" = Some (v4InV6Prefix ++ [10; 0; 0; 1]) /\
  ParseIP "1:2:3:4:5:6:7:8:9" = None /\
  option_map ip_String (ParseIP "fe80:0:0:1::2") = Some "fe80:0:0:1::2"%string /\
  option_map ip_String (ParseIP "1::") = Some "1::"%string /\
  option_map ip_String (ParseCIDR_mask "10.0.0.1" "20") = Some "255.255.240.0"%string /\
  option_map ip_String (ParseCIDR_mask "fe80::1" "64") = Some "ffff:ffff:ffff:ffff::"%string /\
  ParseCIDR_mask "10.0.0.1" "33" = None /\
  option_map ipnet_String (ParseCIDR "10.1.2.3/20") = Some "10.1.0.0/20"%string /\
  option_map ipnet_String (ParseCIDR "fe80::1:2/112") = Some "fe80::1:0/112"%string /\
  ParseCIDR "10.1.2.3" = None /\ ParseCIDR "10.1.2.3/33" = None /\
  mask_Size [255; 255; 240; 0] = 20 /\ mask_Size [255; 0; 240; 0] = 0 /\ mask_Size [] = 0.
Proof. vm_compute. repeat split. Qed.
