(* ===== verification/Json.v ===== *)
(** * JSON texts (encoding/json, as the API uses it)

    Values as trees, the compact text [Marshal] writes and the reader behind
    [Unmarshal].  Strings are byte strings: bytes that are not UTF-8 become U+FFFD in
    both directions.  A number is kept as its literal text. *)

From S2P Require Import Prelude GoStd.

Local Open Scope Z_scope.
Local Arguments String.append !_ _ / : simpl nomatch.

Inductive json :=
| JNull
| JBool (b : bool)
| JNum (lit : string)
| JStr (s : string)
| JArr (l : list json)
| JObj (l : list (string * json)).

Definition JInt (n : Z) : json := JNum (FormatInt n).

(** Induction on a value and its parts. *)
Section json_ind.
Context (P : json -> Prop).
Context (Hnull : P JNull) (Hbool : forall b, P (JBool b)) (Hnum : forall s, P (JNum s)) (Hstr : forall s, P (JStr s)).
Context (Harr : forall l, Forall P l -> P (JArr l)) (Hobj : forall l, Forall (fun e => P e.2) l -> P (JObj l)).
Fixpoint json_parts (v : json) : P v :=
  match v with
  | JNull => Hnull
  | JBool b => Hbool b
  | JNum s => Hnum s
  | JStr s => Hstr s
  | JArr l => Harr l ((fix go l : Forall P l :=
      match l with [] => Forall_nil_2 P | v :: l => Forall_cons_2 P _ _ (json_parts v) (go l) end) l)
  | JObj l => Hobj l ((fix go l : Forall (fun e => P e.2) l :=
      match l with
      | [] => Forall_nil_2 _
      | e :: l => Forall_cons_2 (fun e => P e.2) _ _ (json_parts e.2) (go l)
      end) l)
  end.
End json_ind.

(** ** UTF-8 *)

Definition byte (a : Ascii.ascii) : Z := Z.of_N (Ascii.N_of_ascii a).
Definition chr (n : Z) : Ascii.ascii := Ascii.ascii_of_N (Z.to_N n).
Definition between (lo hi b : Z) : bool := (lo <=? b) && (b <=? hi).
Definition cont (b : Z) : bool := between 0x80 0xBF b.

(** How many bytes the rune at the start takes ([utf8.DecodeRune]); zero if it is not
    well formed. *)
Definition rune_width (s : string) : nat :=
  match map byte (String.list_ascii_of_string (String.substring 0 4 s)) with
  | [] => 0%nat
  | b0 :: r =>
      if b0 <? 0x80 then 1%nat
      else match r with
           | [] => 0%nat
           | b1 :: r =>
               if between 0xC2 0xDF b0 && cont b1 then 2%nat
               else match r with
                    | [] => 0%nat
                    | b2 :: r =>
                        let second :=
                          if b0 =? 0xE0 then between 0xA0 0xBF b1
                          else if b0 =? 0xED then between 0x80 0x9F b1 else cont b1 in
                        if between 0xE0 0xEF b0 && second && cont b2 then 3%nat
                        else match r with
                             | [] => 0%nat
                             | b3 :: _ =>
                                 let second :=
                                   if b0 =? 0xF0 then between 0x90 0xBF b1
                                   else if b0 =? 0xF4 then between 0x80 0x8F b1 else cont b1 in
                                 if between 0xF0 0xF4 b0 && second && cont b2 && cont b3 then 4%nat else 0%nat
                             end
                    end
           end
  end.

(** [utf8.EncodeRune]; surrogates and numbers that are no rune become U+FFFD. *)
Definition encode_rune (r : Z) : string :=
  let r := if between 0xD800 0xDFFF r || (0x10FFFF <? r) then 0xFFFD else r in
  let tail k := chr (0x80 + Z.land (Z.shiftr r k) 0x3F) in
  if r <? 0x80 then String (chr r) ""
  else if r <? 0x800 then String (chr (0xC0 + Z.shiftr r 6)) (String (tail 0) "")
  else if r <? 0x10000 then String (chr (0xE0 + Z.shiftr r 12)) (String (tail 6) (String (tail 0) ""))
  else String (chr (0xF0 + Z.shiftr r 18)) (String (tail 12) (String (tail 6) (String (tail 0) ""))).

(** ** Writing *)

Definition quote_mark : Ascii.ascii := chr 34.
Definition backslash : Ascii.ascii := chr 92.
Definition hex4 (n : Z) : string :=
  String (hex_char (n / 4096 mod 16)) (String (hex_char (n / 256 mod 16))
    (String (hex_char (n / 16 mod 16)) (String (hex_char (n mod 16)) ""))).
Definition escape_u (n : Z) : string := String backslash (String (chr 117) (hex4 n)).

(** A byte below 0x80; the characters that mean something in HTML are escaped. *)
Definition escape_ascii (a : Ascii.ascii) : string :=
  let b := byte a in
  if (b =? 34) || (b =? 92) then String backslash (String a "")
  else if b =? 10 then String backslash (String (chr 110) "")
  else if b =? 13 then String backslash (String (chr 114) "")
  else if b =? 9 then String backslash (String (chr 116) "")
  else if (b <? 32) || (b =? 60) || (b =? 62) || (b =? 38) then escape_u b
  else String a "".

(** [skip] bytes of a rune that is copied are left. *)
Fixpoint escape (skip : nat) (s : string) : string :=
  match s with
  | EmptyString => EmptyString
  | String a r =>
      match skip with
      | S k => String a (escape k r)
      | O =>
          if byte a <? 0x80 then escape_ascii a +:+ escape 0 r
          else match rune_width s, r with
               | O, _ => escape_u 0xFFFD +:+ escape 0 r
               | S k, String b (String c r2) =>
                   if (byte a =? 0xE2) && (byte b =? 0x80) && between 0xA8 0xA9 (byte c)
                   then escape_u (0x2000 + (byte c - 0x80)) +:+ escape 0 r2
                   else String a (escape k r)
               | S k, _ => String a (escape k r)
               end
      end
  end.
Definition quote (s : string) : string := String quote_mark (escape 0 s +:+ String quote_mark "").
#[global] Arguments quote : simpl never.

Fixpoint comma_sep (l : list string) : string :=
  match l with
  | [] => EmptyString
  | [s] => s
  | s :: l => s +:+ String (chr 44) (comma_sep l)
  end.

(** The members of an object are written in the order of the struct's fields. *)
Fixpoint Marshal (v : json) : string :=
  match v with
  | JNull => "null"
  | JBool b => if b then "true" else "false"
  | JNum lit => lit
  | JStr s => quote s
  | JArr l => String (chr 91) (comma_sep (map Marshal l) +:+ String (chr 93) "")
  | JObj l => String (chr 123) (comma_sep (map (fun e => quote e.1 +:+ String (chr 58) (Marshal e.2)) l) +:+ String (chr 125) "")
  end.

(** ** Reading *)

Definition blank (a : Ascii.ascii) : bool :=
  let b := byte a in (b =? 32) || (b =? 9) || (b =? 13) || (b =? 10).
Fixpoint skip_blank (s : string) : string :=
  match s with
  | String a r => if blank a then skip_blank r else s
  | EmptyString => s
  end.

Definition hex_value (a b c d : Ascii.ascii) : option Z :=
  match hex_digit_val a, hex_digit_val b, hex_digit_val c, hex_digit_val d with
  | Some a, Some b, Some c, Some d => Some (((a * 16 + b) * 16 + c) * 16 + d)
  | _, _, _, _ => None
  end.

(** What a backslash and one more character stand for, [u] apart. *)
Definition simple_escape (a : Ascii.ascii) : option Ascii.ascii :=
  let b := byte a in
  if (b =? 34) || (b =? 92) || (b =? 47) then Some a
  else if b =? 98 then Some (chr 8)
  else if b =? 102 then Some (chr 12)
  else if b =? 110 then Some (chr 10)
  else if b =? 114 then Some (chr 13)
  else if b =? 116 then Some (chr 9)
  else None.

Definition prepend (s : string) (r : option (string * string)) : option (string * string) :=
  match r with Some (t, rest) => Some (s +:+ t, rest) | None => None end.

(** After the opening quotation mark: the string and what follows its end. *)
Fixpoint read_string (skip : nat) (s : string) : option (string * string) :=
  match s with
  | EmptyString => None
  | String a r =>
      match skip with
      | S k => prepend (String a "") (read_string k r)
      | O =>
          let b := byte a in
          if b =? 34 then Some (EmptyString, r)
          else if b <? 32 then None
          else if b =? 92 then
            match r with
            | EmptyString => None
            | String e r1 =>
                if byte e =? 117 then
                  match r1 with
                  | String h1 (String h2 (String h3 (String h4 r2))) =>
                      match hex_value h1 h2 h3 h4 with
                      | None => None
                      | Some n =>
                          if between 0xD800 0xDBFF n then
                            match r2 with
                            | String b2 (String u2 (String l1 (String l2 (String l3 (String l4 r3))))) =>
                                match if (byte b2 =? 92) && (byte u2 =? 117) then hex_value l1 l2 l3 l4 else None with
                                | Some m =>
                                    if between 0xDC00 0xDFFF m
                                    then prepend (encode_rune ((n - 0xD800) * 0x400 + (m - 0xDC00) + 0x10000)) (read_string 0 r3)
                                    else prepend (encode_rune 0xFFFD) (read_string 0 r2)
                                | None => prepend (encode_rune 0xFFFD) (read_string 0 r2)
                                end
                            | _ => prepend (encode_rune 0xFFFD) (read_string 0 r2)
                            end
                          else prepend (encode_rune n) (read_string 0 r2)
                      end
                  | _ => None
                  end
                else match simple_escape e with
                     | Some c => prepend (String c "") (read_string 0 r1)
                     | None => None
                     end
            end
          else match rune_width s with
               | O => prepend (encode_rune 0xFFFD) (read_string 0 r)
               | S k => prepend (String a "") (read_string k r)
               end
      end
  end.

(** A piece of a number: what was read and what follows. *)
Fixpoint digits (s : string) : string * string :=
  match s with
  | String a r => if between 48 57 (byte a) then let (d, rest) := digits r in (String a d, rest) else (EmptyString, s)
  | EmptyString => (EmptyString, EmptyString)
  end.
Definition some_digits (s : string) : option (string * string) :=
  let (d, r) := digits s in if String.eqb d "" then None else Some (d, r).
Definition int_part (s : string) : option (string * string) :=
  match s with
  | String a r => if byte a =? 48 then Some (String a "", r) else some_digits s
  | EmptyString => None
  end.
Definition sign_part (plus : bool) (s : string) : string * string :=
  match s with
  | String a r => if (byte a =? 45) || (plus && (byte a =? 43)) then (String a "", r) else (EmptyString, s)
  | EmptyString => (EmptyString, s)
  end.
Definition frac_part (s : string) : option (string * string) :=
  match s with
  | String a r => if byte a =? 46 then prepend (String a "") (some_digits r) else Some (EmptyString, s)
  | EmptyString => Some (EmptyString, s)
  end.
Definition exp_part (s : string) : option (string * string) :=
  match s with
  | String a r =>
      if (byte a =? 101) || (byte a =? 69)
      then let (sg, r) := sign_part true r in prepend (String a sg) (some_digits r)
      else Some (EmptyString, s)
  | EmptyString => Some (EmptyString, s)
  end.
Definition read_number (s : string) : option (string * string) :=
  let (sg, s) := sign_part false s in
  '(i, s) ← int_part s;
  '(f, s) ← frac_part s;
  '(e, s) ← exp_part s;
  Some (sg +:+ i +:+ f +:+ e, s).

Fixpoint strip (pre s : string) : option string :=
  match pre, s with
  | EmptyString, _ => Some s
  | String a pre, String b s => if Ascii.eqb a b then strip pre s else None
  | _, _ => None
  end.

(** The next character that is not blank, if it is [c], is skipped. *)
Definition expect (c : Z) (s : string) : option string :=
  match skip_blank s with
  | String a r => if byte a =? c then Some r else None
  | EmptyString => None
  end.

(** The rest of an array or object after its first bracket, with [value] to read what
    is in it. *)
Section items.
Context (value : string -> option (json * string)).

Definition read_member (s : string) : option ((string * json) * string) :=
  s ← expect 34 s;
  '(k, s) ← read_string 0 s;
  s ← expect 58 s;
  '(v, s) ← value s;
  Some ((k, v), s).

Fixpoint read_items {A} (item : string -> option (A * string)) (close : Z) (fuel : nat) (s : string)
    : option (list A * string) :=
  match fuel with
  | O => None
  | S fuel =>
      '(x, s) ← item s;
      match expect close s with
      | Some s => Some ([x], s)
      | None => s ← expect 44 s; '(l, s) ← read_items item close fuel s; Some (x :: l, s)
      end
  end.
Definition read_list {A} (item : string -> option (A * string)) (close : Z) (fuel : nat) (s : string)
    : option (list A * string) :=
  match expect close s with
  | Some s => Some ([], s)
  | None => read_items item close fuel s
  end.
End items.

Fixpoint read_value (fuel : nat) (s : string) : option (json * string) :=
  match fuel with
  | O => None
  | S fuel =>
      let s := skip_blank s in
      match s with
      | EmptyString => None
      | String a r =>
          let b := byte a in
          if b =? 123 then '(l, s) ← read_list (read_member (read_value fuel)) 125 fuel r; Some (JObj l, s)
          else if b =? 91 then '(l, s) ← read_list (read_value fuel) 93 fuel r; Some (JArr l, s)
          else if b =? 34 then '(t, s) ← read_string 0 r; Some (JStr t, s)
          else if b =? 116 then s ← strip "true" s; Some (JBool true, s)
          else if b =? 102 then s ← strip "false" s; Some (JBool false, s)
          else if b =? 110 then s ← strip "null" s; Some (JNull, s)
          else '(lit, s) ← read_number s; Some (JNum lit, s)
      end
  end.

(** The whole text is one value. *)
Definition Parse (text : string) : option json :=
  '(v, s) ← read_value (S (String.length text)) text;
  if String.eqb (skip_blank s) "" then Some v else None.

(** ** Filling a struct of strings *)

(** Names are compared without regard to case; the letters s and k have one more form
    each outside of ASCII. *)
Fixpoint fold_name (s : string) : string :=
  match s with
  | EmptyString => EmptyString
  | String a r =>
      let ascii := String (lower_ascii a) (fold_name r) in
      match r with
      | EmptyString => ascii
      | String b r1 =>
          if (byte a =? 0xC5) && (byte b =? 0xBF) then String (chr 115) (fold_name r1)
          else match r1 with
               | EmptyString => ascii
               | String c r2 =>
                   if (byte a =? 0xE2) && (byte b =? 0x84) && (byte c =? 0xAA)
                   then String (chr 107) (fold_name r2) else ascii
               end
      end
  end.
Definition field_of (fields : list string) (key : string) : option string :=
  match List.find (String.eqb key) fields with
  | Some f => Some f
  | None => List.find (fun f => String.eqb (fold_name f) (fold_name key)) fields
  end.

(** One member of the object; the flag says that no value had the wrong type. *)
Definition fill (fields : list string) (st : gmap string string * bool) (e : string * json) : gmap string string * bool :=
  match field_of fields e.1 with
  | None => st
  | Some f => match e.2 with
              | JStr s => (<[f := s]> st.1, st.2)
              | JNull => st
              | _ => (st.1, false)
              end
  end.
Definition Unmarshal (fields : list string) (text : string) : option (gmap string string) :=
  match Parse text with
  | Some (JObj l) => let (st, ok) := foldl (fill fields) (∅, true) l in if ok then Some st else None
  | Some JNull => Some ∅
  | _ => None
  end.
Definition got (st : gmap string string) (f : string) : string := default ""%string (st !! f).

(** ** Strings come back *)

(** Well-formed UTF-8, after [skip] bytes that belong to a rune. *)
Fixpoint utf8 (skip : nat) (s : string) : bool :=
  match s with
  | EmptyString => (skip =? 0)%nat
  | String a r => match skip with
                  | S k => utf8 k r
                  | O => match rune_width s with O => false | S k => utf8 k r end
                  end
  end.

Lemma rune_width_le s : (rune_width s <= 4)%nat.
Proof. unfold rune_width. repeat (case_match; try lia). Qed.

(** The width is decided by the bytes of the rune alone. *)
Lemma rune_width_local a p x y k :
  rune_width (String a (p +:+ x)) = S k -> String.length p = k -> rune_width (String a (p +:+ y)) = S k.
Proof.
  intros Hw Hp. pose proof (rune_width_le (String a (p +:+ x))) as Hk. rewrite Hw in Hk.
  destruct p as [|b [|c [|d [|e p]]]]; simpl in Hp; subst k; try lia;
    unfold rune_width in *; cbn [String.append String.substring String.list_ascii_of_string map] in *;
    repeat (case_match; simplify_eq/=; try done).
Qed.

Lemma rune_width_high a s : (byte a <? 0x80) = false -> rune_width (String a s) <> 1%nat.
Proof.
  intros Ha. unfold rune_width. cbn [String.substring String.list_ascii_of_string map]. rewrite Ha.
  repeat (case_match; try done).
Qed.

Lemma utf8_split k s : utf8 k s = true ->
  exists p r, s = p +:+ r /\ String.length p = k /\ utf8 0 r = true /\ escape k s = p +:+ escape 0 r.
Proof.
  revert s. induction k as [|k IH]; intros s H; [by exists "", s|].
  destruct s as [|a s]; [done|]. destruct (IH s H) as (p & r & -> & Hp & Hr & He).
  exists (String a p), r. simpl. by rewrite He, Hp.
Qed.

Lemma read_escape_ascii a t : (byte a <? 0x80) = true ->
  read_string 0 (escape_ascii a +:+ t) = prepend (String a "") (read_string 0 t).
Proof. destruct a as [[] [] [] [] [] [] [] []]; intros H; try discriminate H; reflexivity. Qed.

Lemma read_skipped p t : read_string (String.length p) (p +:+ t) = prepend p (read_string 0 t).
Proof.
  induction p as [|a p IH]; cbn [String.length String.append read_string];
    [|rewrite IH]; by destruct (read_string 0 t) as [[]|].
Qed.

Lemma read_string_high a s k : (byte a <? 0x80) = false -> rune_width (String a s) = S k ->
  read_string 0 (String a s) = prepend (String a "") (read_string k s).
Proof.
  intros Ha Hw. cbn [read_string]. apply Z.ltb_ge in Ha.
  rewrite (proj2 (Z.eqb_neq (byte a) 34)), (proj2 (Z.ltb_ge (byte a) 32)), (proj2 (Z.eqb_neq (byte a) 92)) by lia.
  by rewrite Hw.
Qed.

Lemma escape_high a r k : rune_width (String a r) = S k -> (byte a <? 0x80) = false -> utf8 k r = true ->
  (exists c r2, r = String (chr 0x80) (String c r2) /\ a = chr 0xE2 /\ (c = chr 0xA8 \/ c = chr 0xA9) /\ utf8 0 r2 = true /\
     escape 0 (String a r) = escape_u (0x2000 + (byte c - 0x80)) +:+ escape 0 r2) \/
  escape 0 (String a r) = String a (escape k r).
Proof.
  intros Hw Ha Hu. cbn [escape]. rewrite Ha, Hw. destruct r as [|b [|c r2]]; [by right..|].
  destruct (_ && _) eqn:E; [left|by right].
  apply andb_true_iff in E as [[E1 E2]%andb_true_iff E3].
  assert (Hchr : forall x n, byte x = n -> x = chr n).
  { intros x n <-. unfold chr, byte. by rewrite N2Z.id, Ascii.ascii_N_embedding. }
  apply Z.eqb_eq, Hchr in E1 as ->. apply Z.eqb_eq, Hchr in E2 as ->.
  exists c, r2. split; [done|]. split; [done|]. unfold between in E3. apply andb_true_iff in E3 as [E3 E4].
  assert (Hc : byte c = 0xA8 \/ byte c = 0xA9) by lia.
  split; [destruct Hc as [Hc|Hc]; apply Hchr in Hc; tauto|]. split; [|done].
  destruct Hc as [Hc|Hc]; apply Hchr in Hc as ->; cbn in Hw; injection Hw as <-; exact Hu.
Qed.

Lemma read_escape s t : utf8 0 s = true ->
  read_string 0 (escape 0 s +:+ String quote_mark t) = Some (s, t).
Proof.
  remember (String.length s) as n eqn:Hn. assert (Hle : (String.length s <= n)%nat) by lia. clear Hn.
  revert s Hle. induction n as [|n IH]; intros [|a r] Hle Hu; try done; [simpl in Hle; lia|].
  simpl in Hle. cbn [utf8] in Hu. destruct (byte a <? 0x80) eqn:Ha.
  - assert (Hw : rune_width (String a r) = 1%nat) by
      (unfold rune_width; cbn [String.substring String.list_ascii_of_string map]; by rewrite Ha).
    rewrite Hw in Hu. cbn [escape]. rewrite Ha, string_app_assoc, read_escape_ascii, IH by (done || lia). done.
  - destruct (rune_width (String a r)) as [|k] eqn:Hw; [done|].
    destruct (escape_high a r k Hw Ha Hu) as [(c & r2 & -> & -> & Hc & Hu2 & ->)| ->].
    + rewrite string_app_assoc. simpl in Hle.
      destruct Hc as [-> | ->]; cbn; rewrite IH by (done || lia); done.
    + destruct (utf8_split k r Hu) as (p & r' & -> & Hp & Hr & ->).
      cbn [String.append]. rewrite string_app_assoc. rewrite string_length_app in Hle.
      rewrite (read_string_high _ _ k Ha) by (eapply rune_width_local; done).
      rewrite <- Hp, read_skipped, IH by (done || lia). done.
Qed.

(** ** Values come back *)

(** What may follow a value: nothing, a comma or a closing bracket. *)
Definition stops (t : string) : Prop :=
  match t with
  | EmptyString => True
  | String a _ => byte a = 44 \/ byte a = 93 \/ byte a = 125
  end.

Lemma stops_other t a r : t = String a r -> stops t ->
  between 48 57 (byte a) = false /\ (byte a =? 46) = false /\ (byte a =? 101) = false /\ (byte a =? 69) = false /\
  blank a = false.
Proof.
  intros -> [H|[H|H]]; unfold between, blank; rewrite H; done.
Qed.

Ltac stop_cases t H :=
  let a := fresh "a" in let r := fresh "r" in
  destruct t as [|a r]; [done|]; destruct (stops_other _ a r eq_refl H) as (?Hd & ?Hp & ?He & ?HE & ?Hb).

Lemma digits_app s t d r : stops t -> digits s = (d, r) -> digits (s +:+ t) = (d, r +:+ t).
Proof.
  intros Ht. revert d r. induction s as [|a s IH]; intros d r.
  - intros [= <- <-]. stop_cases t Ht. cbn [String.append digits]. by rewrite Hd.
  - cbn [String.append digits]. destruct (between _ _ _); [|by intros [= <- <-]].
    destruct (digits s) as [d0 r0]. rewrite (IH d0 r0) by done. by intros [= <- <-].
Qed.

Lemma some_digits_app s t d r : stops t -> some_digits s = Some (d, r) -> some_digits (s +:+ t) = Some (d, r +:+ t).
Proof.
  intros Ht. unfold some_digits. destruct (digits s) as [d0 r0] eqn:E. rewrite (digits_app _ t _ _ Ht E).
  destruct (String.eqb d0 ""); [done|]. by intros [= <- <-].
Qed.

Lemma int_app s t d r : stops t -> int_part s = Some (d, r) -> int_part (s +:+ t) = Some (d, r +:+ t).
Proof.
  intros Ht. destruct s as [|a s]; [done|]. cbn [String.append int_part].
  destruct (byte a =? 48); [by intros [= <- <-]|]. apply (some_digits_app (String a s)), Ht.
Qed.

Lemma prepend_some p o x y : prepend p o = Some (x, y) -> exists x', o = Some (x', y) /\ x = p +:+ x'.
Proof. destruct o as [[x' y']|]; [|done]. intros [= <- <-]. by exists x'. Qed.

Lemma frac_app s t d r : stops t -> frac_part s = Some (d, r) -> frac_part (s +:+ t) = Some (d, r +:+ t).
Proof.
  intros Ht. destruct s as [|a s]; cbn [String.append frac_part].
  - intros [= <- <-]. stop_cases t Ht. cbn [frac_part]. by rewrite Hp.
  - destruct (byte a =? 46); [|by intros [= <- <-]].
    intros (x & Hx & ->)%prepend_some. by rewrite (some_digits_app _ _ _ _ Ht Hx).
Qed.

Lemma exp_app s t d r : stops t -> exp_part s = Some (d, r) -> exp_part (s +:+ t) = Some (d, r +:+ t).
Proof.
  intros Ht. destruct s as [|a s]; cbn [String.append exp_part].
  - intros [= <- <-]. stop_cases t Ht. cbn [exp_part]. by rewrite He, HE.
  - destruct (_ || _); [|by intros [= <- <-]]. destruct s as [|b s]; [done|]. cbn [String.append sign_part].
    destruct (_ || _).
    + intros (x & Hx & ->)%prepend_some. by rewrite (some_digits_app _ _ _ _ Ht Hx).
    + intros (x & Hx & ->)%prepend_some. pose proof (some_digits_app (String b s) t _ _ Ht Hx) as E. cbn [String.append] in E. by rewrite E.
Qed.

Lemma number_app s t d r : stops t -> read_number s = Some (d, r) -> read_number (s +:+ t) = Some (d, r +:+ t).
Proof.
  intros Ht. destruct s as [|a s]; [done|]. unfold read_number. cbn [String.append sign_part].
  destruct (_ || _); [|change (String a (s +:+ t)) with (String a s +:+ t)];
    (destruct (int_part _) as [[i s1]|] eqn:Ei; [|done]); rewrite (int_app _ t _ _ Ht Ei); cbn [mbind option_bind];
    (destruct (frac_part s1) as [[f s2]|] eqn:Ef; [|done]); rewrite (frac_app _ t _ _ Ht Ef); cbn [mbind option_bind];
    (destruct (exp_part s2) as [[e s3]|] eqn:Ee; [|done]); rewrite (exp_app _ t _ _ Ht Ee); cbn [mbind option_bind];
    by intros [= <- <-].
Qed.

(** The literal of a number is a number, and strings are UTF-8. *)
Definition number_ok (lit : string) : Prop := read_number lit = Some (lit, EmptyString).
Fixpoint well_formed (v : json) : Prop :=
  match v with
  | JNull | JBool _ => True
  | JNum lit => number_ok lit
  | JStr s => utf8 0 s = true
  | JArr l => foldr (fun v P => well_formed v /\ P) True l
  | JObj l => foldr (fun e P => (utf8 0 e.1 = true /\ well_formed e.2) /\ P) True l
  end.

(** Fuel that is enough. *)
Fixpoint rank (v : json) : nat :=
  match v with
  | JArr l => S (foldr (fun v n => S (rank v + n)) 0 l)
  | JObj l => S (foldr (fun e n => S (rank e.2 + n)) 0 l)
  | _ => 1
  end%nat.

Lemma skip_blank_head a s : blank a = false -> skip_blank (String a s) = String a s.
Proof. intros H. simpl. by rewrite H. Qed.

Lemma expect_head c a s : blank a = false -> expect c (String a s) = if byte a =? c then Some s else None.
Proof. intros H. unfold expect. by rewrite skip_blank_head. Qed.

(** The characters a value starts with. *)
Definition starts (a : Ascii.ascii) : Prop :=
  blank a = false /\ byte a <> 93 /\ byte a <> 125 /\ byte a <> 44.

Lemma number_head lit : number_ok lit -> exists a r, lit = String a r /\ (byte a = 45 \/ 48 <= byte a <= 57).
Proof.
  unfold number_ok, read_number. destruct lit as [|a r]; [done|]. intros H. exists a, r. split; [done|].
  cbn [sign_part] in H. destruct (byte a =? 45) eqn:E; [left; lia|right]. cbn [orb andb] in H.
  destruct (int_part (String a r)) as [[i s]|] eqn:Ei; [|done]. cbn [int_part] in Ei.
  destruct (byte a =? 48) eqn:E2; [lia|]. unfold some_digits in Ei. cbn [digits] in Ei.
  destruct (between 48 57 (byte a)) eqn:Eb; [unfold between in Eb; lia|done].
Qed.

Lemma Marshal_head v : well_formed v -> exists a r, Marshal v = String a r /\ starts a.
Proof.
  destruct v as [|b|lit|s|l|l]; simpl; intros H;
    [eexists _, _; split; [done|by split_and!]|destruct b; eexists _, _; (split; [done|by split_and!])| |
     eexists _, _; (split; [done|by split_and!])..].
  destruct (number_head _ H) as (a & r & -> & Ha). exists a, r. split; [done|].
  unfold starts, blank. split_and!; [|lia..].
  rewrite !orb_false_iff, !Z.eqb_neq. lia.
Qed.

(** Reading the written items, given that each is read. *)
Lemma read_items_app {A} (item : string -> option (A * string)) (f : A -> string) (close : Z) l x t fuel :
  close = 93 \/ close = 125 ->
  Forall (fun y => forall t', stops t' -> item (f y +:+ t') = Some (y, t')) (x :: l) ->
  (length (x :: l) <= fuel)%nat ->
  read_items item close fuel (comma_sep (map f (x :: l)) +:+ String (chr close) t) = Some (x :: l, t).
Proof.
  intros Hc Hl. revert x Hl fuel. induction l as [|y l IH]; intros x Hl [|fuel] Hf; try (simpl in Hf; lia).
  - cbn [read_items map comma_sep]. apply Forall_cons in Hl as [Hx _].
    rewrite Hx by (destruct Hc as [-> | ->]; simpl; tauto). cbn [mbind option_bind].
    rewrite expect_head by (by destruct Hc as [-> | ->]). by destruct Hc as [-> | ->].
  - apply Forall_cons in Hl as [Hx Hl].
    change (comma_sep (map f (x :: y :: l))) with (f x +:+ String (chr 44) (comma_sep (map f (y :: l)))).
    rewrite string_app_assoc. cbn [String.append read_items]. rewrite Hx by (simpl; tauto). cbn [mbind option_bind].
    rewrite expect_head by done. replace (byte (chr 44) =? close) with false by (by destruct Hc as [-> | ->]).
    rewrite expect_head by done. change (byte (chr 44) =? 44) with true. cbn [mbind option_bind].
    rewrite IH by (done || (simpl in *; lia)). done.
Qed.

Lemma read_list_app {A} (item : string -> option (A * string)) (f : A -> string) (close : Z) l t fuel :
  close = 93 \/ close = 125 ->
  Forall (fun y => (exists a r, f y = String a r /\ starts a) /\
            forall t', stops t' -> item (f y +:+ t') = Some (y, t')) l ->
  (length l <= fuel)%nat ->
  read_list item close fuel (comma_sep (map f l) +:+ String (chr close) t) = Some (l, t).
Proof.
  intros Hc Hl Hf. unfold read_list. destruct l as [|x l].
  - cbn [map comma_sep String.append]. rewrite expect_head by (by destruct Hc as [-> | ->]).
    by destruct Hc as [-> | ->].
  - assert (He : expect close (comma_sep (map f (x :: l)) +:+ String (chr close) t) = None).
    { apply Forall_cons in Hl as [[(a & r & Ea & Hb & H1 & H2 & _) _] _].
      assert (exists u, comma_sep (map f (x :: l)) = String a u) as [u ->].
      { cbn [map comma_sep]. rewrite Ea. destruct (map f l); [by exists r|]. eexists. reflexivity. }
      cbn [String.append]. rewrite expect_head by done. by rewrite (proj2 (Z.eqb_neq (byte a) close)) by lia. }
    rewrite He. apply read_items_app; [done| |done]. eapply Forall_impl; [exact Hl|]. by intros y [_ H].
Qed.

Lemma ranks {A} (g : A -> nat) l : (length l <= foldr (fun v n => S (g v + n)) 0 l)%nat /\
  Forall (fun v => (g v <= foldr (fun v n => S (g v + n)) 0 l)%nat) l.
Proof.
  induction l as [|x l [IH1 IH2]]; [done|]. simpl. split; [lia|]. constructor; [lia|].
  eapply Forall_impl; [exact IH2|]. simpl. lia.
Qed.

Lemma foldr_Forall {A} (Q : A -> Prop) l : foldr (fun v P => Q v /\ P) True l <-> Forall Q l.
Proof. induction l as [|x l IH]; simpl; [by split|]. by rewrite Forall_cons, IH. Qed.

Lemma read_member_app value k v t :
  utf8 0 k = true -> (forall t', stops t' -> value (Marshal v +:+ t') = Some (v, t')) -> stops t ->
  read_member value ((quote k +:+ String (chr 58) (Marshal v)) +:+ t) = Some ((k, v), t).
Proof.
  intros Hk Hv Ht. unfold read_member, quote. cbn [String.append]. rewrite expect_head by done.
  change (byte quote_mark =? 34) with true. cbn [mbind option_bind].
  rewrite !string_app_assoc. cbn [String.append]. rewrite read_escape by done. cbn [mbind option_bind].
  rewrite expect_head by done. change (byte (chr 58) =? 58) with true. cbn [mbind option_bind].
  by rewrite Hv.
Qed.

(** Every value is read back from its text, whatever follows. *)
Lemma read_Marshal v : forall fuel t, well_formed v -> (rank v <= fuel)%nat -> stops t ->
  read_value fuel (Marshal v +:+ t) = Some (v, t).
Proof.
  induction v as [|b|lit|s|l IH|l IH] using json_parts; intros [|fuel] t Hw Hf Ht; try (simpl in Hf; lia).
  - done.
  - by destruct b.
  - destruct (number_head _ Hw) as (a & r & E & Ha). pose proof (number_app lit t _ _ Ht Hw) as Hn. rewrite E in *.
    cbn [Marshal String.append read_value] in *.
    rewrite skip_blank_head by (unfold blank; rewrite !orb_false_iff, !Z.eqb_neq; lia).
    rewrite !(proj2 (Z.eqb_neq (byte a) _)) by lia. by rewrite Hn.
  - cbn [Marshal]. unfold quote. cbn [String.append read_value]. rewrite string_app_assoc. cbn [String.append].
    rewrite skip_blank_head by done. cbn. by rewrite read_escape.
  - cbn [Marshal String.append read_value]. rewrite string_app_assoc. cbn [String.append].
    rewrite skip_blank_head by done. simpl in Hf. destruct (ranks rank l) as [Hr1 Hr2].
    change (byte (chr 91)) with 91. cbn [Z.eqb Pos.eqb].
    rewrite (read_list_app _ Marshal); [done|by left| |lia]. apply foldr_Forall in Hw.
    apply Forall_forall. intros y Hy. rewrite Forall_forall in IH, Hw, Hr2.
    split; [by apply Marshal_head, Hw|]. intros t' Ht'. apply IH; [done|by apply Hw| |done]. specialize (Hr2 y Hy). lia.
  - cbn [Marshal String.append read_value]. rewrite string_app_assoc. cbn [String.append].
    rewrite skip_blank_head by done. simpl in Hf. destruct (ranks (fun e : string * json => rank e.2) l) as [Hr1 Hr2]. cbn beta in Hr1, Hr2.
    change (byte (chr 123)) with 123. cbn [Z.eqb Pos.eqb].
    rewrite (read_list_app _ (fun e => quote e.1 +:+ String (chr 58) (Marshal e.2))); [done|by right| |lia].
    apply foldr_Forall in Hw. apply Forall_forall. intros [k v] Hy. rewrite Forall_forall in IH, Hw, Hr2.
    split; [eexists _, _; split; [reflexivity|by split_and!]|].
    intros t' Ht'. apply read_member_app; [by apply (Hw _ Hy)| |done].
    intros t2 Ht2. apply (IH _ Hy); [by apply (Hw _ Hy)| |done]. specialize (Hr2 _ Hy). simpl in *. lia.
Qed.

(** A value is no longer to read than its text. *)
Lemma length_comma_sep l : (foldr (fun s n => S (String.length s + n)) 0 l <= S (String.length (comma_sep l)))%nat.
Proof.
  induction l as [|s [|s2 l] IH]; simpl in *; [lia..|]. rewrite string_length_app. simpl. lia.
Qed.

Lemma rank_length v : well_formed v -> (rank v <= String.length (Marshal v))%nat.
Proof.
  induction v as [|b|lit|s|l IH|l IH] using json_parts; intros Hw; cbn [rank Marshal].
  - simpl. lia.
  - destruct b; simpl; lia.
  - destruct (number_head _ Hw) as (a & r & -> & _). simpl. lia.
  - unfold quote. simpl. lia.
  - cbn [String.length]. rewrite string_length_app. simpl.
    pose proof (length_comma_sep (map Marshal l)) as Hl. apply foldr_Forall in Hw.
    assert (foldr (fun v n => S (rank v + n)) 0 l <= foldr (fun s n => S (String.length s + n)) 0 (map Marshal l))%nat; [|lia].
    clear Hl. induction IH as [|v l Hv _ IHl]; [done|]. apply Forall_cons in Hw as [Hw1 Hw2]. simpl.
    specialize (Hv Hw1). specialize (IHl Hw2). lia.
  - cbn [String.length]. rewrite string_length_app. cbn [String.length].
    pose proof (length_comma_sep (map (fun e => quote e.1 +:+ String (chr 58) (Marshal e.2)) l)) as Hl. apply foldr_Forall in Hw.
    assert (foldr (fun e n => S (rank e.2 + n)) 0 l <= foldr (fun s n => S (String.length s + n)) 0
      (map (fun e => quote e.1 +:+ String (chr 58) (Marshal e.2)) l))%nat; [|lia].
    clear Hl. induction IH as [|v l Hv _ IHl]; [done|]. apply Forall_cons in Hw as [[_ Hw1] Hw2]. cbn [foldr map].
    rewrite string_length_app. specialize (Hv Hw1). specialize (IHl Hw2). simpl in *. lia.
Qed.

(** What [Marshal] writes is read back as it was. *)
Theorem Parse_Marshal v : well_formed v -> Parse (Marshal v) = Some v.
Proof.
  intros Hw. unfold Parse. pose proof (read_Marshal v (S (String.length (Marshal v))) "" Hw) as H.
  rewrite string_app_nil_r in H. rewrite H; [done| |done]. pose proof (rank_length v Hw). lia.
Qed.

(** ** The fuel is enough *)

Definition shrinks {A} (item : string -> option (A * string)) : Prop :=
  forall s x r, item s = Some (x, r) -> (String.length r <= String.length s)%nat.

Lemma skip_blank_length s : (String.length (skip_blank s) <= String.length s)%nat.
Proof. induction s as [|a s IH]; simpl; [lia|]. destruct (blank a); simpl; lia. Qed.

Lemma expect_length c s r : expect c s = Some r -> (String.length r < String.length s)%nat.
Proof.
  unfold expect. pose proof (skip_blank_length s) as H. destruct (skip_blank s) as [|a t]; [done|].
  destruct (_ =? _); [|done]. intros [= <-]. simpl in H. lia.
Qed.

Lemma prepend_shrinks p o x r n :
  (forall x r, o = Some (x, r) -> (String.length r <= n)%nat) -> prepend p o = Some (x, r) -> (String.length r <= n)%nat.
Proof. intros H (x' & E & _)%prepend_some. by eapply H. Qed.

Lemma read_string_shrinks k : shrinks (read_string k).
Proof.
  intros s. remember (String.length s) as n eqn:Hn. assert (Hle : (String.length s <= n)%nat) by lia. clear Hn.
  revert k s Hle. induction n as [|n IH]; intros k [|a s] Hle x r; try done; [simpl in Hle; lia|].
  simpl in Hle. cbn [read_string].
  repeat match goal with |- (match ?x with _ => _ end) = _ -> _ => destruct x end;
    first [ done | intros [= <- <-]; lia | apply prepend_shrinks; intros x' r' H';
      match type of H' with read_string ?k ?s = _ => pose proof (IH k s ltac:(simpl in *; lia) x' r' H') end;
      simpl in *; lia ].
Qed.

Lemma digits_shrinks s d r : digits s = (d, r) -> (String.length r <= String.length s)%nat.
Proof.
  revert d r. induction s as [|a s IH]; intros d r; simpl; [by intros [= <- <-]|].
  destruct (between _ _ _); [|by intros [= <- <-]].
  destruct (digits s) as [d0 r0] eqn:E. intros [= <- <-]. specialize (IH _ _ eq_refl). lia.
Qed.

Lemma some_digits_shrinks : shrinks some_digits.
Proof.
  intros s d r. unfold some_digits. destruct (digits s) as [d0 r0] eqn:E.
  destruct (String.eqb d0 ""); [done|]. intros [= <- <-]. by eapply digits_shrinks.
Qed.

Lemma sign_shrinks p s sg r : sign_part p s = (sg, r) -> (String.length r <= String.length s)%nat.
Proof. destruct s as [|a s]; simpl; [by intros [= <- <-]|]. destruct (_ || _); intros [= <- <-]; simpl; lia. Qed.

Lemma int_shrinks : shrinks int_part.
Proof.
  intros [|a s] d r; simpl; [done|]. destruct (byte a =? 48); [intros [= <- <-]; lia|].
  intros H%some_digits_shrinks. simpl in H. lia.
Qed.

Lemma frac_shrinks : shrinks frac_part.
Proof.
  intros [|a s] d r; simpl; [by intros [= <- <-]|]. destruct (byte a =? 46); [|by intros [= <- <-]].
  apply prepend_shrinks. intros x r' H%some_digits_shrinks. lia.
Qed.

Lemma exp_shrinks : shrinks exp_part.
Proof.
  intros [|a s] d r; simpl; [by intros [= <- <-]|]. destruct (_ || _); [|by intros [= <- <-]].
  destruct (sign_part true s) as [sg r0] eqn:E. apply sign_shrinks in E.
  apply prepend_shrinks. intros x r' H%some_digits_shrinks. lia.
Qed.

Lemma read_number_shrinks : shrinks read_number.
Proof.
  intros s d r. unfold read_number. destruct (sign_part false s) as [sg s0] eqn:E. apply sign_shrinks in E.
  destruct (int_part s0) as [[i s1]|] eqn:Ei; [|done]. apply int_shrinks in Ei. cbn [mbind option_bind].
  destruct (frac_part s1) as [[f s2]|] eqn:Ef; [|done]. apply frac_shrinks in Ef. cbn [mbind option_bind].
  destruct (exp_part s2) as [[e s3]|] eqn:Ee; [|done]. apply exp_shrinks in Ee. cbn [mbind option_bind].
  intros [= <- <-]. lia.
Qed.

Lemma strip_app p s : strip p (p +:+ s) = Some s.
Proof. induction p as [|a p IH]; simpl; [by destruct s|]. by rewrite Ascii.eqb_refl. Qed.
Lemma strip_some p s r : strip p s = Some r -> s = p +:+ r.
Proof.
  revert s. induction p as [|a p IH]; intros s; simpl; [by intros [= ->]|]. destruct s as [|b s]; [done|].
  destruct (Ascii.eqb_spec a b) as [->|]; [|done]. intros H%IH. by subst s.
Qed.
Lemma strip_length p s r : strip p s = Some r -> (String.length r <= String.length s)%nat.
Proof.
  revert s. induction p as [|a p IH]; intros s; simpl; [by intros [= <-]|].
  destruct s as [|b s]; [done|]. destruct (Ascii.eqb a b); [|done]. intros H%IH. simpl. lia.
Qed.

Lemma read_items_shrinks {A} (item : string -> option (A * string)) c fuel : shrinks item -> shrinks (read_items item c fuel).
Proof.
  intros Hi. induction fuel as [|fuel IH]; intros s l r; cbn [read_items]; [done|].
  destruct (item s) as [[x s1]|] eqn:E1; [|done]. apply Hi in E1. cbn [mbind option_bind].
  destruct (expect c s1) as [s2|] eqn:E2; [apply expect_length in E2; intros [= <- <-]; lia|].
  destruct (expect 44 s1) as [s3|] eqn:E3; [|done]. apply expect_length in E3. cbn [mbind option_bind].
  destruct (read_items item c fuel s3) as [[l4 s4]|] eqn:E4; [|done]. apply IH in E4. intros [= <- <-]. lia.
Qed.

Lemma read_list_shrinks {A} (item : string -> option (A * string)) c fuel : shrinks item -> shrinks (read_list item c fuel).
Proof.
  intros Hi s l r. unfold read_list. destruct (expect c s) as [s2|] eqn:E.
  - apply expect_length in E. intros [= <- <-]. lia.
  - by apply read_items_shrinks.
Qed.

Lemma read_member_shrinks value : shrinks value -> shrinks (read_member value).
Proof.
  intros Hv s m r. unfold read_member. destruct (expect 34 s) as [s1|] eqn:E1; [|done].
  apply expect_length in E1. cbn [mbind option_bind].
  destruct (read_string 0 s1) as [[k s2]|] eqn:E2; [|done]. apply read_string_shrinks in E2. cbn [mbind option_bind].
  destruct (expect 58 s2) as [s3|] eqn:E3; [|done]. apply expect_length in E3. cbn [mbind option_bind].
  destruct (value s3) as [[v s4]|] eqn:E4; [|done]. apply Hv in E4. intros [= <- <-]. lia.
Qed.

Lemma read_value_shrinks fuel : shrinks (read_value fuel).
Proof.
  induction fuel as [|fuel IH]; intros s v r; [done|]. cbn [read_value].
  pose proof (skip_blank_length s) as Hb. destruct (skip_blank s) as [|a t] eqn:Es; [done|]. simpl in Hb.
  repeat match goal with |- (if ?b then _ else _) = _ -> _ => destruct b end;
    match goal with |- (?o ≫= _) = _ -> _ => destruct o as [y|] eqn:Ey; [|done] end;
    cbn [mbind option_bind]; try destruct y as [y u]; intros [= <- <-].
  - apply read_list_shrinks in Ey; [lia|by apply read_member_shrinks].
  - apply read_list_shrinks in Ey; [lia|done].
  - apply read_string_shrinks in Ey. lia.
  - apply strip_length in Ey. simpl in Ey. lia.
  - apply strip_length in Ey. simpl in Ey. lia.
  - apply strip_length in Ey. simpl in Ey. lia.
  - apply read_number_shrinks in Ey. simpl in Ey. lia.
Qed.

(** Two readers that agree on short texts. *)
Definition agree {A} (n : nat) (f g : string -> option (A * string)) : Prop :=
  forall s, (String.length s < n)%nat -> f s = g s.

Lemma read_items_agree {A} (f g : string -> option (A * string)) c n f1 f2 s :
  agree n f g -> shrinks f -> (String.length s < n)%nat -> (String.length s < f1)%nat -> (String.length s < f2)%nat ->
  read_items f c f1 s = read_items g c f2 s.
Proof.
  intros Ha Hs. revert f2 s. induction f1 as [|f1 IH]; intros [|f2] s Hn H1 H2; try lia. cbn [read_items].
  rewrite <- (Ha s) by done. destruct (f s) as [[x s1]|] eqn:E; [|done]. apply Hs in E. cbn [mbind option_bind].
  destruct (expect c s1); [done|]. destruct (expect 44 s1) as [s3|] eqn:E3; [|done]. apply expect_length in E3.
  cbn [mbind option_bind]. by rewrite (IH f2 s3) by lia.
Qed.

Lemma read_list_agree {A} (f g : string -> option (A * string)) c n f1 f2 s :
  agree n f g -> shrinks f -> (String.length s < n)%nat -> (String.length s < f1)%nat -> (String.length s < f2)%nat ->
  read_list f c f1 s = read_list g c f2 s.
Proof. intros. unfold read_list. destruct (expect c s); [done|]. by eapply read_items_agree. Qed.

Lemma read_member_agree n f g : agree n f g -> agree (S n) (read_member f) (read_member g).
Proof.
  intros Ha s Hs. unfold read_member. destruct (expect 34 s) as [s1|] eqn:E1; [|done].
  apply expect_length in E1. cbn [mbind option_bind].
  destruct (read_string 0 s1) as [[k s2]|] eqn:E2; [|done]. apply read_string_shrinks in E2. cbn [mbind option_bind].
  destruct (expect 58 s2) as [s3|] eqn:E3; [|done]. apply expect_length in E3. cbn [mbind option_bind].
  by rewrite Ha by lia.
Qed.

(** More fuel than the text is long gives one answer. *)
Theorem read_value_enough f1 f2 s :
  (String.length s < f1)%nat -> (String.length s < f2)%nat -> read_value f1 s = read_value f2 s.
Proof.
  revert f2 s. induction f1 as [|f1 IH]; intros [|f2] s H1 H2; try lia. cbn [read_value].
  pose proof (skip_blank_length s) as Hb. destruct (skip_blank s) as [|a t] eqn:Es; [done|]. simpl in Hb.
  assert (Ha : agree (min f1 f2) (read_value f1) (read_value f2)) by (intros u Hu; apply IH; lia).
  rewrite (read_list_agree (read_value f1) (read_value f2) 93 (min f1 f2) f1 f2 t) by
    (done || apply read_value_shrinks || lia).
  rewrite (read_list_agree (read_member (read_value f1)) (read_member (read_value f2)) 125 (S (min f1 f2)) f1 f2 t) by
    ((by apply read_member_agree) || (apply read_member_shrinks, read_value_shrinks) || lia).
  done.
Qed.

(** ** Structs of strings come back *)

(** The struct with its fields in order, none of whose names is another form of one
    before it. *)
Definition string_struct (l : list (string * string)) : json := JObj (map (fun e => (e.1, JStr e.2)) l).

Lemma field_of_self fields f : f ∈ fields -> field_of fields f = Some f.
Proof.
  intros H. unfold field_of. assert (List.find (String.eqb f) fields = Some f) as ->; [|done].
  induction H as [f l|f g l _ IH]; simpl; [by rewrite String.eqb_refl|].
  destruct (String.eqb_spec f g) as [->|]; [done|exact IH].
Qed.

Theorem Unmarshal_Marshal fields l :
  NoDup l.*1 -> l.*1 ⊆ fields -> Forall (fun e => utf8 0 e.1 = true /\ utf8 0 e.2 = true) l ->
  exists st, Unmarshal fields (Marshal (string_struct l)) = Some st /\
    (forall f v, (f, v) ∈ l -> got st f = v) /\ (forall f, f ∉ l.*1 -> got st f = ""%string).
Proof.
  intros Hnd Hin Hu. unfold Unmarshal. rewrite Parse_Marshal.
  2:{ simpl. clear Hnd Hin. induction Hu as [|[f v] l [? ?] _ IH]; simpl in *; tauto. }
  unfold string_struct.
  assert (Hgen : forall l, NoDup l.*1 -> l.*1 ⊆ fields -> forall st, exists st',
    foldl (fill fields) (st, true) (map (fun e : string * string => (e.1, JStr e.2)) l) = (st', true) /\
    (forall f v, (f, v) ∈ l -> got st' f = v) /\ (forall f, f ∉ l.*1 -> got st' f = got st f)).
  { clear. induction l as [|[f v] l IH]; intros Hnd Hin st; [by exists st; split_and!; [|intros ?? ?%not_elem_of_nil|]|].
    cbn [fmap list_fmap fst] in *. apply NoDup_cons in Hnd as [Hf Hnd].
    destruct (IH Hnd ltac:(set_solver) (<[f := v]> st)) as (st' & E & H1 & H2). exists st'. split_and!.
    - cbn [map foldl]. unfold fill at 2. cbn [fst snd]. by rewrite field_of_self by set_solver.
    - intros g w [[= -> ->]|Hg]%elem_of_cons; [|by apply H1]. rewrite H2 by done. unfold got. by rewrite lookup_insert_eq.
    - intros g Hg. rewrite H2 by set_solver. unfold got. rewrite lookup_insert_ne by set_solver. done. }
  destruct (Hgen l Hnd Hin ∅) as (st & E & H1 & H2). exists st. rewrite E. split_and!; [done..|].
  intros f Hf. rewrite H2 by done. done.
Qed.
