(* ===== verification/Md5.v ===== *)
(** * MD5 (crypto/md5, RFC 1321) and hexadecimal text (encoding/hex)

    The guest token of the API is made of the checksum of the administrator's token. *)

From S2P Require Import Prelude GoStd.

Local Open Scope Z_scope.

(** The constants of the 64 steps and by how many bits each rotates. *)
Definition md5_K : list Z :=
  [
    0xd76aa478; 0xe8c7b756; 0x242070db; 0xc1bdceee; 0xf57c0faf; 0x4787c62a; 0xa8304613; 0xfd469501;
    0x698098d8; 0x8b44f7af; 0xffff5bb1; 0x895cd7be; 0x6b901122; 0xfd987193; 0xa679438e; 0x49b40821;
    0xf61e2562; 0xc040b340; 0x265e5a51; 0xe9b6c7aa; 0xd62f105d; 0x02441453; 0xd8a1e681; 0xe7d3fbc8;
    0x21e1cde6; 0xc33707d6; 0xf4d50d87; 0x455a14ed; 0xa9e3e905; 0xfcefa3f8; 0x676f02d9; 0x8d2a4c8a;
    0xfffa3942; 0x8771f681; 0x6d9d6122; 0xfde5380c; 0xa4beea44; 0x4bdecfa9; 0xf6bb4b60; 0xbebfbc70;
    0x289b7ec6; 0xeaa127fa; 0xd4ef3085; 0x04881d05; 0xd9d4d039; 0xe6db99e5; 0x1fa27cf8; 0xc4ac5665;
    0xf4292244; 0x432aff97; 0xab9423a7; 0xfc93a039; 0x655b59c3; 0x8f0ccc92; 0xffeff47d; 0x85845dd1;
    0x6fa87e4f; 0xfe2ce6e0; 0xa3014314; 0x4e0811a1; 0xf7537e82; 0xbd3af235; 0x2ad7d2bb; 0xeb86d391
  ].
Definition md5_S : list nat :=
  concat (map (fun r => concat (replicate 4 r)) [[7; 12; 17; 22]; [5; 9; 14; 20]; [4; 11; 16; 23]; [6; 10; 15; 21]])%nat.

Definition rotl (x : Z) (n : nat) : Z :=
  Z.lor (wrap32 (Z.shiftl x (Z.of_nat n))) (Z.shiftr x (32 - Z.of_nat n)).
Definition not32 (x : Z) : Z := 0xFFFFFFFF - x.

(** Little-endian words. *)
Definition le (n : nat) (v : Z) : bytes := map (fun i => byte_at (8 * Z.of_nat i) v) (seq 0 n).
Fixpoint le_words (l : bytes) : list Z :=
  match l with
  | b0 :: b1 :: b2 :: b3 :: r => join32 b3 b2 b1 b0 :: le_words r
  | _ => []
  end.

Definition md5_pad (msg : bytes) : bytes :=
  let n := zlen msg in
  msg ++ [0x80] ++ make_bytes ((55 - n) mod 64) ++ le 8 (8 * n).

(** Step [i] of a block with the words [M]. *)
Definition md5_step (M : list Z) (st : Z * Z * Z * Z) (i : nat) : Z * Z * Z * Z :=
  let '(a, b, c, d) := st in
  let '(f, g) :=
    if (i <? 16)%nat then (Z.lor (Z.land b c) (Z.land (not32 b) d), i)
    else if (i <? 32)%nat then (Z.lor (Z.land d b) (Z.land (not32 d) c), (5 * i + 1) mod 16)%nat
    else if (i <? 48)%nat then (Z.lxor (Z.lxor b c) d, (3 * i + 5) mod 16)%nat
    else (Z.lxor c (Z.lor b (not32 d)), (7 * i) mod 16)%nat in
  let f := wrap32 (f + a + nth i md5_K 0 + nth g M 0) in
  (d, wrap32 (b + rotl f (nth i md5_S 0%nat)), b, c).

Definition md5_block (st : Z * Z * Z * Z) (M : list Z) : Z * Z * Z * Z :=
  let '(a, b, c, d) := foldl (md5_step M) st (seq 0 64) in
  let '(a0, b0, c0, d0) := st in (wrap32 (a0 + a), wrap32 (b0 + b), wrap32 (c0 + c), wrap32 (d0 + d)).

Fixpoint blocks (fuel : nat) (l : list Z) : list (list Z) :=
  match fuel, l with
  | S fuel, _ :: _ => take 16 l :: blocks fuel (drop 16 l)
  | _, _ => []
  end.

(** [md5.Sum] *)
Definition Sum (msg : bytes) : bytes :=
  let ws := le_words (md5_pad msg) in
  let '(a, b, c, d) := foldl md5_block (0x67452301, 0xefcdab89, 0x98badcfe, 0x10325476) (blocks (length ws) ws) in
  le 4 a ++ le 4 b ++ le 4 c ++ le 4 d.

(** [hex.EncodeToString] *)
Fixpoint EncodeToString (l : bytes) : string :=
  match l with
  | [] => EmptyString
  | b :: l => String (hex_char (b / 16)) (String (hex_char (b mod 16)) (EncodeToString l))
  end.

(** The test suite of the RFC, and a message of two blocks. *)
Example md5_suite :
  map (fun s => EncodeToString (Sum (bytes_of_string s)))
    [""; "a"; "abc"; "message digest"; "abcdefghijklmnopqrstuvwxyz";
     "12345678901234567890123456789012345678901234567890123456789012345678901234567890"]%string =
    ["d41d8cd98f00b204e9800998ecf8427e"; "0cc175b9c0f1b6a831c399e269772661"; "900150983cd24fb0d6963f7d28e17f72";
     "f96b697d7cb7938d525a2f31aaf161d0"; "c3fcd3d76192e4007dfb496cca67e13b"; "57edf4a22be3c955ac49da2e2107b67a"]%string.
Proof. vm_compute. reflexivity. Qed.

Lemma Sum_length msg : length (Sum msg) = 16%nat.
Proof. unfold Sum. by destruct (foldl _ _ _) as [[[a b] c] d]. Qed.

Lemma EncodeToString_length l : String.length (EncodeToString l) = (2 * length l)%nat.
Proof. induction l as [|b l IH]; simpl; lia. Qed.
