(* ===== verification/Base64.v ===== *)
(** * The Go standard library: encoding/base64 and HTTP basic authentication

    [StdEncoding] and [URLEncoding] (padded, not strict), as far as the sources use
    them, and the [Authorization] header of [net/http]: [SetBasicAuth] and [BasicAuth]. *)

From S2P Require Import Prelude GoStd Json.

Local Open Scope Z_scope.
Local Arguments String.append !_ _ / : simpl nomatch.

(** ** Alphabets *)

(** The last two symbols tell the alphabets apart. *)
Record alphabet := { sym62 : Z; sym63 : Z }.
Definition StdAlphabet : alphabet := {| sym62 := 43; sym63 := 47 |}.
Definition URLAlphabet : alphabet := {| sym62 := 45; sym63 := 95 |}.

Definition sym (al : alphabet) (n : Z) : Ascii.ascii :=
  chr (if n <? 26 then 65 + n else if n <? 52 then 71 + n else if n <? 62 then n - 4
       else if n =? 62 then sym62 al else sym63 al).
Definition sextet (al : alphabet) (a : Ascii.ascii) : option Z :=
  let b := byte a in
  if between 65 90 b then Some (b - 65)
  else if between 97 122 b then Some (b - 71)
  else if between 48 57 b then Some (b + 4)
  else if b =? sym62 al then Some 62
  else if b =? sym63 al then Some 63
  else None.
Definition pad : Ascii.ascii := chr 61.

(** ** Encoding *)

Section encoding.
Context (al : alphabet).

(** Three bytes are four symbols. *)
Definition quad (a b c : Z) : string :=
  String (sym al (a / 4)) (String (sym al (a mod 4 * 16 + b / 16))
    (String (sym al (b mod 16 * 4 + c / 64)) (String (sym al (c mod 64)) ""))).

Fixpoint Encode (s : string) : string :=
  match s with
  | EmptyString => ""
  | String a EmptyString =>
      let a := byte a in String (sym al (a / 4)) (String (sym al (a mod 4 * 16)) (String pad (String pad "")))
  | String a (String b EmptyString) =>
      let a := byte a in let b := byte b in
      String (sym al (a / 4)) (String (sym al (a mod 4 * 16 + b / 16)) (String (sym al (b mod 16 * 4)) (String pad "")))
  | String a (String b (String c r)) => quad (byte a) (byte b) (byte c) +:+ Encode r
  end%string.

(** ** Decoding *)

Definition byte1 (x y : Z) : Ascii.ascii := chr (x * 4 + y / 16).
Definition byte2 (y z : Z) : Ascii.ascii := chr (y mod 16 * 16 + z / 4).
Definition byte3 (z w : Z) : Ascii.ascii := chr (z mod 4 * 64 + w).

(** [decodeQuantum], on text without line ends; the bits a padded quantum has to spare
    are not looked at. *)
Fixpoint quanta (s : string) : option string :=
  match s with
  | EmptyString => Some ""
  | String a (String b (String c (String d r))) =>
      x ← sextet al a; y ← sextet al b;
      if Ascii.eqb c pad then
        if Ascii.eqb d pad && String.eqb r "" then Some (String (byte1 x y) "") else None
      else
        z ← sextet al c;
        if Ascii.eqb d pad then
          if String.eqb r "" then Some (String (byte1 x y) (String (byte2 y z) "")) else None
        else
          w ← sextet al d; t ← quanta r;
          Some (String (byte1 x y) (String (byte2 y z) (String (byte3 z w) t)))
  | _ => None
  end%string.

Fixpoint no_line_ends (s : string) : string :=
  match s with
  | EmptyString => EmptyString
  | String a r => if (byte a =? 10) || (byte a =? 13) then no_line_ends r else String a (no_line_ends r)
  end.

Definition DecodeString (s : string) : option string := quanta (no_line_ends s).
End encoding.

(** ** Round trip *)

(** The symbols of an alphabet are its own, and neither the padding nor a line end. *)
Definition good_symbol (al : alphabet) (n : Z) : bool :=
  bool_decide (sextet al (sym al n) = Some n) && negb (Ascii.eqb (sym al n) pad)
  && negb ((byte (sym al n) =? 10) || (byte (sym al n) =? 13)).
Definition good_alphabet (al : alphabet) : Prop :=
  forallb (fun n => good_symbol al (Z.of_nat n)) (seq 0 64) = true.

Lemma std_good : good_alphabet StdAlphabet.
Proof. vm_compute. reflexivity. Qed.
Lemma url_good : good_alphabet URLAlphabet.
Proof. vm_compute. reflexivity. Qed.

Lemma byte_bounds a : 0 <= byte a < 256.
Proof.
  unfold byte. pose proof (Ascii.N_ascii_bounded a) as H. lia.
Qed.
Lemma chr_byte a : chr (byte a) = a.
Proof. unfold chr, byte. rewrite N2Z.id. apply Ascii.ascii_N_embedding. Qed.

Section roundtrip.
Context (al : alphabet) (Hal : good_alphabet al).

Lemma good n : 0 <= n < 64 -> good_symbol al n = true.
Proof.
  intros Hn. unfold good_alphabet in Hal. rewrite forallb_forall in Hal.
  specialize (Hal (Z.to_nat n)). rewrite Z2Nat.id in Hal by lia. apply Hal, in_seq. lia.
Qed.
Lemma sextet_sym n : 0 <= n < 64 -> sextet al (sym al n) = Some n.
Proof. intros [[H _]%andb_true_iff _]%good%andb_true_iff. by apply bool_decide_eq_true in H. Qed.
Lemma sym_not_pad n : 0 <= n < 64 -> Ascii.eqb (sym al n) pad = false.
Proof. intros [[_ H]%andb_true_iff _]%good%andb_true_iff. by apply negb_true_iff in H. Qed.
Lemma sym_no_line_end n r : 0 <= n < 64 -> no_line_ends (String (sym al n) r) = String (sym al n) (no_line_ends r).
Proof. intros [_ H]%good%andb_true_iff. cbn [no_line_ends]. apply negb_true_iff in H. by rewrite H. Qed.

(** A text is read three bytes at a time. *)
Lemma string_by_three (P : string -> Prop) :
  P "" -> (forall a, P (String a "")) -> (forall a b, P (String a (String b ""))) ->
  (forall a b c r, P r -> P (String a (String b (String c r)))) -> forall s, P s.
Proof.
  intros H0 H1 H2 H3 s. remember (String.length s) as n eqn:En. revert s En.
  induction n as [n IH] using lt_wf_ind. intros [|a [|b [|c r]]] ->; [done|done|done|].
  apply H3. apply (IH (String.length r)); [simpl; lia|done].
Qed.

Ltac sextets := repeat match goal with
  | |- context [byte ?a] => lazymatch goal with _ : 0 <= byte a < 256 |- _ => fail | _ => pose proof (byte_bounds a) end
  end.
Ltac in_range := sextets; Z.div_mod_to_equations; lia.

Lemma byte1_back a b' : 0 <= b' < 16 -> byte1 (byte a / 4) (byte a mod 4 * 16 + b') = a.
Proof. intros Hb. unfold byte1. rewrite <- (chr_byte a) at 3. f_equal. in_range. Qed.
Lemma byte2_back hi b c' : 0 <= c' < 4 -> byte2 (hi * 16 + byte b / 16) (byte b mod 16 * 4 + c') = b.
Proof. intros Hc. unfold byte2. rewrite <- (chr_byte b) at 3. f_equal. in_range. Qed.
Lemma byte3_back hi c : byte3 (hi * 4 + byte c / 64) (byte c mod 64) = c.
Proof. unfold byte3. rewrite <- (chr_byte c) at 3. f_equal. in_range. Qed.

Lemma Encode_no_line_ends s : no_line_ends (Encode al s) = Encode al s.
Proof.
  induction s as [|a|a b|a b c r IH] using string_by_three; [done| | |].
  - cbn [Encode]. rewrite !sym_no_line_end by in_range. done.
  - cbn [Encode]. rewrite !sym_no_line_end by in_range. done.
  - cbn [Encode quad String.append]. rewrite !sym_no_line_end by in_range. by rewrite IH.
Qed.

Lemma DecodeString_Encode s : DecodeString al (Encode al s) = Some s.
Proof.
  unfold DecodeString. rewrite Encode_no_line_ends.
  induction s as [|a|a b|a b c r IH] using string_by_three; [done| | |]; cbn [Encode quad String.append quanta].
  - rewrite !sextet_sym by in_range. cbn [mbind option_bind]. rewrite Ascii.eqb_refl. cbn [andb String.eqb].
    by rewrite <- (Z.add_0_r (byte a mod 4 * 16)), byte1_back.
  - rewrite !sextet_sym by in_range. cbn [mbind option_bind]. rewrite sym_not_pad by in_range.
    rewrite Ascii.eqb_refl. cbn [String.eqb].
    rewrite byte1_back by in_range. by rewrite <- (Z.add_0_r (byte b mod 16 * 4)), byte2_back.
  - rewrite !sextet_sym by in_range. cbn [mbind option_bind]. rewrite !sym_not_pad by in_range.
    rewrite IH. cbn [mbind option_bind].
    by rewrite byte1_back, byte2_back, byte3_back by in_range.
Qed.
End roundtrip.

(** ** HTTP basic authentication (net/http) *)

Definition basic_prefix : string := "Basic ".

(** [SetBasicAuth] *)
Definition basicAuth (username password : string) : string :=
  basic_prefix +:+ Encode StdAlphabet (username +:+ String char_colon password).

(** [BasicAuth]: the case of the scheme does not matter. *)
Definition http_parseBasicAuth (auth : string) : option (string * string) :=
  if (String.length auth <? 6)%nat || negb (String.eqb (ToLower (String.substring 0 6 auth)) "basic ") then None
  else cs ← DecodeString StdAlphabet (String.substring 6 (String.length auth - 6) auth);
       cut char_colon cs.

Lemma substring_all s : String.substring 0 (String.length s) s = s.
Proof. induction s as [|a s IH]; simpl; [done|]. by rewrite IH. Qed.

Lemma substring_zero s : String.substring 0 0 s = ""%string.
Proof. by destruct s. Qed.

Lemma http_parse_basicAuth username password :
  contains_char char_colon username = false ->
  http_parseBasicAuth (basicAuth username password) = Some (username, password).
Proof.
  intros Hu. unfold http_parseBasicAuth, basicAuth, basic_prefix.
  set (t := Encode _ _). cbn [String.append String.length String.substring Nat.ltb Nat.leb Nat.sub orb].
  rewrite Nat.sub_0_r, substring_all, substring_zero.
  change (negb _) with false. cbv iota.
  unfold t. rewrite DecodeString_Encode by apply std_good. cbn [mbind option_bind]. by apply cut_app.
Qed.
