(* ===== verification/Models.v ===== *)
(** * The data the switch keeps (pkg/models, pkg/schema)

    Users, points, networks and their routes, neighbors and traffic lines.  A
    socket client is referred to by the address its [String] method prints; a tap
    device by its identity in the device store; times are seconds since the zero
    time of Go, so that [IsZero] is [= 0]. *)

From S2P Require Import Prelude GoStd.
From stdpp Require Import sorting.

Local Open Scope Z_scope.

Abbreviation client_id := string (only parsing).

(** ** User *)
Module User.

Record t := mk {
  Alias : string; Name : string; Network : string; Password : string; UUID : string;
  System : string; Role : string; Last : option client_id; Lease : Z; UpdateAt : Z
}.

Definition char_at : Ascii.ascii := Ascii.ascii_of_N 64.

Definition NewUser (goos name network password : string) : t :=
  {| Alias := ""; Name := name; Network := network; Password := password; UUID := "";
     System := goos; Role := "guest"; Last := None; Lease := 0; UpdateAt := 0 |}.

(** The zero value of the struct with some fields set. *)
Definition with_login (name password role alias : string) (lease : Z) : t :=
  {| Alias := alias; Name := name; Network := ""; Password := password; UUID := "";
     System := ""; Role := role; Last := None; Lease := lease; UpdateAt := 0 |}.

Definition nth_or (l : list string) (n : nat) : string := nth n l ""%string.

Definition Update (u : t) (now : Z) : t :=
  let net0 := if String.eqb (Network u) "" && contains_char char_at (Name u)
              then nth_or (SplitN (Name u) char_at 2) 1 else Network u in
  let net := if String.eqb net0 "" then "default"%string else net0 in
  let name := if contains_char char_at (Name u)
              then nth_or (SplitN (Name u) char_at 2) 0 else Name u in
  let alias := ToLower (Alias u) in
  {| Alias := alias; Name := name; Network := net; Password := Password u;
     UUID := if String.eqb (UUID u) "" then alias else UUID u;
     System := System u; Role := Role u; Last := Last u; Lease := Lease u; UpdateAt := now |}.

Definition Id (u : t) : string := (Name u +:+ "@" +:+ Network u)%string.

Definition set_last (u : t) (c : client_id) : t :=
  {| Alias := Alias u; Name := Name u; Network := Network u; Password := Password u;
     UUID := UUID u; System := System u; Role := Role u; Last := Some c; Lease := Lease u;
     UpdateAt := UpdateAt u |}.

End User.

(** ** Point *)
Module Point.

Record t := mk {
  UUID : string; Alias : string; Network : string; User : string; Protocol : string;
  Server : string; Uptime : Z; Status : string; IfName : string;
  Client : client_id; Device : option nat; System : string
}.

Definition NewPoint (c : client_id) (local : string) (d : nat) (proto : string) : t :=
  {| UUID := ""; Alias := ""; Network := ""; User := ""; Protocol := proto; Server := local;
     Uptime := 0; Status := ""; IfName := ""; Client := c; Device := Some d; System := "" |}.

(** [Update], given what the client and the device answer. *)
Definition Update (p : t) (uptime : Z) (status : string) (dev_name : string) : t :=
  {| UUID := UUID p; Alias := Alias p; Network := Network p; User := User p;
     Protocol := Protocol p; Server := Server p; Uptime := uptime; Status := status;
     IfName := match Device p with Some _ => dev_name | None => IfName p end;
     Client := Client p; Device := Device p; System := System p |}.

(** [s[:n]] of a string known to be longer. *)
Definition shorten (n : nat) (s : string) : string :=
  if (n <? String.length s)%nat then String.substring 0 n s else s.

Definition SetUser (p : t) (u : User.t) : t :=
  {| UUID := shorten 13 (User.UUID u); Alias := User.Alias u; Network := User.Network u;
     User := User.Name u; Protocol := Protocol p; Server := Server p; Uptime := Uptime p;
     Status := Status p; IfName := IfName p; Client := Client p; Device := Device p;
     System := User.System u |}.

End Point.

(** ** Line: one flow of traffic *)
Module Line.

Record t := mk {
  EthType : Z; IpSource : bytes; IpDest : bytes; IpProtocol : Z; PortDest : Z; PortSource : Z;
  NewTime : Z; HitTime : Z
}.

Definition NewLine (ty now : Z) : t :=
  {| EthType := ty; IpSource := []; IpDest := []; IpProtocol := 0; PortDest := 0; PortSource := 0;
     NewTime := now; HitTime := now |}.

Definition String_ (l : t) : string :=
  (FormatInt (EthType l) +:+ ":" +:+ ip4_string (IpSource l) +:+ ":" +:+ ip4_string (IpDest l) +:+
   ":" +:+ FormatInt (IpProtocol l) +:+ ":" +:+ FormatInt (PortSource l) +:+ ":" +:+
   FormatInt (PortDest l))%string.

Definition UpTime (l : t) (now : Z) : Z := now - NewTime l.
Definition LastTime (l : t) (now : Z) : Z := now - HitTime l.

Definition set_hit (l : t) (now : Z) : t :=
  {| EthType := EthType l; IpSource := IpSource l; IpDest := IpDest l; IpProtocol := IpProtocol l;
     PortDest := PortDest l; PortSource := PortSource l; NewTime := NewTime l; HitTime := now |}.

End Line.

(** ** Neighbor *)
Module Neighbor.

Record t := mk {
  Network : string; Device : string; Client : client_id; HwAddr : bytes; IpAddr : bytes;
  NewTime : Z; HitTime : Z
}.

(** [Update] with a client whose private data is the point [p], if it has one. *)
Definition Update (e : t) (c : client_id) (p : option Point.t) : t :=
  match p with
  | None => e
  | Some p =>
      {| Network := Point.Network p; Device := Point.IfName p; Client := c; HwAddr := HwAddr e;
         IpAddr := IpAddr e; NewTime := NewTime e; HitTime := HitTime e |}
  end.

Definition NewNeighbor (hw ip : bytes) (c : client_id) (p : option Point.t) (now : Z) : t :=
  Update {| Network := ""; Device := ""; Client := c; HwAddr := hw; IpAddr := ip;
            NewTime := now; HitTime := now |} c p.

Definition UpTime (e : t) (now : Z) : Z := now - HitTime e.

Definition set_hit (e : t) (now : Z) : t :=
  {| Network := Network e; Device := Device e; Client := Client e; HwAddr := HwAddr e;
     IpAddr := IpAddr e; NewTime := NewTime e; HitTime := now |}.
Definition set_seen (e : t) (hw : bytes) (now : Z) : t :=
  {| Network := Network e; Device := Device e; Client := Client e; HwAddr := hw;
     IpAddr := IpAddr e; NewTime := NewTime e; HitTime := now |}.

End Neighbor.

(** ** Networks and routes *)
Module Route.

Record t := mk { Prefix : string; NextHop : string; Metric : Z; Mode : string }.

Definition NewRoute (prefix nexthop mode : string) : t :=
  {| Prefix := prefix; NextHop := nexthop; Metric := 250; Mode := mode |}.
Definition SetMetric (r : t) (v : Z) : t :=
  {| Prefix := Prefix r; NextHop := NextHop r; Metric := v; Mode := Mode r |}.
Definition String_ (r : t) : string := (Prefix r +:+ ", " +:+ NextHop r)%string.

End Route.

Module Network.

Record t := mk {
  Name : string; Tenant : string; IfAddr : string; IpStart : string; IpEnd : string;
  Netmask : string; Routes : list Route.t
}.

Definition char_slash : Ascii.ascii := Ascii.ascii_of_N 47.

Definition NewNetwork (name ifAddr : string) : t :=
  let '(address, netmask) :=
    match SplitN ifAddr char_slash 2 with
    | [a; m] =>
        (a, match ParseCIDR_mask a m with Some mask => ip_String mask | None => m end)
    | _ => (ifAddr, "255.255.255.255"%string)
    end in
  {| Name := name; Tenant := ""; IfAddr := address; IpStart := ""; IpEnd := "";
     Netmask := netmask; Routes := [] |}.

(** [sort.Strings] *)
Definition sort_strings (l : list string) : list string := merge_sort String.le l.

(** [NetworkEqual] of two networks that are not [nil]; [same] says whether they are
    the same object. *)
Definition NetworkEqual (same : bool) (o n : option t) : bool :=
  if same then true
  else match o, n with
       | Some o, Some n =>
           if negb (String.eqb (IfAddr o) (IfAddr n)) || negb (String.eqb (Netmask o) (Netmask n))
           then false
           else
             let ors := map Route.String_ (Routes o) in
             let nrs := map Route.String_ (Routes n) in
             if negb (length ors =? length nrs)%nat then false
             else bool_decide (sort_strings ors = sort_strings nrs)
       | _, _ => false
       end.

End Network.

(** ** Leases *)
Module Lease.

Record t := mk {
  Address : string; UUID : string; Alias : string; Client : client_id; Type_ : string;
  Network : string
}.

Definition NewLease (uuid addr : string) : t :=
  {| Address := addr; UUID := uuid; Alias := uuid; Client := ""; Type_ := ""; Network := "" |}.

End Lease.

(** ** Theorems *)

(** [Update] normalises a user: afterwards the name holds no at-sign, the
    network is not empty, the alias is in lower case, and updating again changes
    nothing but the time. *)
Theorem user_update_normal (u : User.t) (t1 t2 : Z) :
  let v := User.Update u t1 in
  contains_char User.char_at (User.Name v) = false /\ User.Network v <> ""%string /\
  ToLower (User.Alias v) = User.Alias v /\
  User.Update v t2 = User.mk (User.Alias v) (User.Name v) (User.Network v) (User.Password v)
    (User.UUID v) (User.System v) (User.Role v) (User.Last v) (User.Lease v) t2.
Proof.
  intros v.
  assert (Hn : contains_char User.char_at (User.Name v) = false).
  { unfold v, User.Update. simpl. destruct (contains_char User.char_at (User.Name u)) eqn:E; [|done].
    destruct (cut_some _ _ E) as (l & r & Ec & _ & Hl). unfold SplitN, User.nth_or. by rewrite Ec. }
  assert (Hw : User.Network v <> ""%string).
  { unfold v, User.Update. cbn [User.Network].
    match goal with |- context [String.eqb ?n0 _] => by destruct (String.eqb_spec n0 "") end. }
  split; [done|]. split; [done|]. split; [unfold v; simpl; apply ToLower_idem|].
  unfold User.Update at 1. rewrite Hn, andb_false_r.
  apply String.eqb_neq in Hw. rewrite Hw.
  assert (Ha : ToLower (User.Alias v) = User.Alias v) by (unfold v; simpl; apply ToLower_idem).
  rewrite Ha. f_equal.
  assert (Hu : User.UUID v = if String.eqb (User.UUID u) "" then User.Alias v else User.UUID u) by done.
  destruct (String.eqb_spec (User.UUID v) "") as [E|]; [|done]. rewrite E.
  destruct (String.eqb_spec (User.UUID u) ""); congruence.
Qed.

(** [NetworkEqual] compares networks up to the order of their routes: two
    different objects are equal exactly when interface address and mask agree and
    their routes, as prefix and next hop, are the same with the same multiplicity;
    names, tenants, address ranges and metrics do not count. *)
Theorem network_equal_spec (o n : Network.t) :
  Network.NetworkEqual false (Some o) (Some n) = true <->
  Network.IfAddr o = Network.IfAddr n /\ Network.Netmask o = Network.Netmask n /\
  map Route.String_ (Network.Routes o) ≡ₚ map Route.String_ (Network.Routes n).
Proof.
  unfold Network.NetworkEqual. simpl.
  destruct (String.eqb_spec (Network.IfAddr o) (Network.IfAddr n)) as [E1|E1]; simpl; [|naive_solver].
  destruct (String.eqb_spec (Network.Netmask o) (Network.Netmask n)) as [E2|E2]; simpl; [|naive_solver].
  set (ors := map Route.String_ (Network.Routes o)). set (nrs := map Route.String_ (Network.Routes n)).
  unfold Network.sort_strings. split.
  - destruct (_ =? _)%nat; [|done]. simpl. intros H%bool_decide_eq_true. split_and!; try done.
    by rewrite <- (merge_sort_Permutation String.le ors), <- (merge_sort_Permutation String.le nrs), H.
  - intros (_ & _ & Hp). rewrite Hp, Nat.eqb_refl. simpl. apply bool_decide_eq_true.
    apply (Sorted_unique String.le); [apply Sorted_merge_sort, _|apply Sorted_merge_sort, _|].
    by rewrite !merge_sort_Permutation.
Qed.

Lemma shorten_length n s : (String.length (Point.shorten n s) <= max n (String.length s))%nat.
Proof.
  unfold Point.shorten. destruct (n <? String.length s)%nat eqn:E; [|lia].
  assert (H : forall k m t, (String.length (String.substring k m t) <= m)%nat).
  { intros k. induction k as [|k IH]; intros m t.
    - revert t. induction m as [|m IHm]; intros [|a t]; simpl; try lia. specialize (IHm t). lia.
    - destruct t as [|a t]; simpl; [destruct m; simpl; lia|apply IH]. }
  specialize (H 0%nat n s). lia.
Qed.
