(* ===== verification/UserCache.v ===== *)
(** * The user database (pkg/olsw/cache/user.go)

    Users by identity, loaded from and saved to a text file with one user per line,
    and the decision whether a login is accepted.  The LDAP server and the text form
    of lease times are parameters; the objects a caller gets are those in the map,
    so changing an older user in place is an update of the map. *)

From S2P Require Import Prelude GoStd SafeMap Models.

Local Open Scope Z_scope.

Record LDAPConfig := {
  Server : string; lc_BindDN : string; lc_Password : string; lc_BaseDN : string; lc_Attr : string; lc_Filter : string;
  lc_EnableTls : bool; Timeout_ : Z
}.

(** A connected LDAP service: whether its connection is closing, and its answer to
    [Login]. *)
Record LDAPService := { closing : bool; Login : string -> string -> bool }.

Record user := {
  File : string; Users : SafeStrMap.t User.t; LdapCfg : option LDAPConfig;
  LdapSvc : option LDAPService
}.

Definition set_users (w : user) (m : SafeStrMap.t User.t) : user :=
  {| File := File w; Users := m; LdapCfg := LdapCfg w; LdapSvc := LdapSvc w |}.
Definition set_ldap_svc (w : user) (cfg : option LDAPConfig) (s : option LDAPService) : user :=
  {| File := File w; Users := Users w; LdapCfg := cfg; LdapSvc := s |}.
Definition SetFile (w : user) (f : string) : user :=
  {| File := f; Users := Users w; LdapCfg := LdapCfg w; LdapSvc := LdapSvc w |}.
Definition Init (w : user) (size : Z) : user := set_users w (SafeStrMap.NewSafeStrMap size).

Definition NewUserCache : user :=
  {| File := ""; Users := SafeStrMap.NewSafeStrMap 1024; LdapCfg := None; LdapSvc := None |}.

Definition Get (w : user) (key : string) : option User.t := SafeStrMap.Get (Users w) key.

Definition Del (w : user) (key : string) : user := set_users w (SafeStrMap.Del (Users w) key).

(** What [Add] makes of the older user. *)
Definition merge (older u : User.t) : User.t :=
  {| User.Alias := if String.eqb (User.Alias u) "" then User.Alias older else User.Alias u;
     User.Name := User.Name older; User.Network := User.Network older;
     User.Password := if String.eqb (User.Password u) "" then User.Password older else User.Password u;
     User.UUID := User.UUID older; User.System := User.System older;
     User.Role := if String.eqb (User.Role u) "" then User.Role older else User.Role u;
     User.Last := User.Last older;
     User.Lease := if User.Lease u =? 0 then User.Lease older else User.Lease u;
     User.UpdateAt := User.UpdateAt u |}.

(** Changing the object that is stored under a key. *)
Definition mutate (w : user) (key : string) (u : User.t) : user :=
  set_users w (SafeStrMap.upd (Users w) (<[key := Some u]> (SafeStrMap.data (Users w)))).

Definition Add (w : user) (u : User.t) : user :=
  let key := User.Id u in
  match Get w key with
  | None => set_users w (SafeStrMap.Set_ (Users w) key (Some u)).1
  | Some older => mutate w key (merge older u)
  end.

(** [List] in the order in which the map is iterated. *)
Definition List_ (order : list (string * option User.t)) : list User.t :=
  (SafeStrMap.visited order).*2.

(** ** Logging in *)

Section login.
Context (dial : LDAPConfig -> option LDAPService).

Definition GetLdap (w : user) : user * option LDAPService :=
  match LdapCfg w with
  | None => (w, None)
  | Some cfg =>
      let stale := match LdapSvc w with None => true | Some s => closing s end in
      let w := if stale then set_ldap_svc w (LdapCfg w) (dial cfg) else w in
      (w, LdapSvc w)
  end.

Definition SetLdap (w : user) (cfg : LDAPConfig) : user :=
  match dial cfg with
  | Some l => set_ldap_svc w (Some cfg) (Some l)
  | None => set_ldap_svc w (Some cfg) (LdapSvc w)
  end.

Definition CheckLdap (w : user) (obj : User.t) (now : Z) : user * option User.t :=
  let '(w, svc) := GetLdap w in
  match svc with
  | None => (w, None)
  | Some svc =>
      let known := match Get w (User.Id obj) with
                   | Some u => negb (String.eqb (User.Role u) "ldap")
                   | None => false
                   end in
      if known then (w, None)
      else if negb (Login svc (User.Id obj) (User.Password obj)) then (w, None)
      else
        let u := User.Update
                   (User.with_login (User.Id obj) (User.Password obj) "ldap" (User.Alias obj) 0) now in
        (Add w u, Some u)
  end.

Definition Timeout (w : user) (u : User.t) (now : Z) : go bool :=
  if String.eqb (User.Role u) "ldap" then
    match LdapCfg w with
    | None => Panic
    | Some cfg => Ret (Timeout_ cfg <? now - User.UpdateAt u)
    end
  else Ret true.

Definition local_role (r : string) : bool :=
  String.eqb r "" || String.eqb r "admin" || String.eqb r "guest".

(** The zero time to the start of the year 2000, in the local time of the lease,
    which is [tz] seconds ahead. *)
Definition year2000 : Z := 63082281600.
Definition lease_valid (tz now t : Z) : bool := (t + tz <? year2000) || (now <? t).

Definition out_of_date : error := NewErr "out of date" [].
Definition wrong_login : error := NewErr "wrong user or password" [].

Definition Check (w : user) (obj : User.t) (tz now : Z) : user * result User.t :=
  let stored :=
    match Get w (User.Id obj) with
    | Some u =>
        if local_role (User.Role u) && String.eqb (User.Password u) (User.Password obj)
        then Some u else None
    | None => None
    end in
  match stored with
  | Some u => (w, if lease_valid tz now (User.Lease u) then inl u else inr out_of_date)
  | None =>
      let '(w, r) := CheckLdap w obj now in
      (w, match r with Some u => inl u | None => inr wrong_login end)
  end.

End login.

(** ** The file *)

Section file.
(** [Lease.Format(LeaseTime)] and [GetLocalTime(LeaseTime, s)], which gives the
    zero time for text it cannot parse. *)
Context (fmt_lease : Z -> string) (parse_lease : string -> Z).

Definition newline : Ascii.ascii := Ascii.ascii_of_N 10.
Definition char_cr : Ascii.ascii := Ascii.ascii_of_N 13.

(** [bufio.Scanner] with its default split function: lines without their newline and
    a carriage return before it; a line of 64 KiB or more ends the scan. *)
Fixpoint drop_cr (s : string) : string :=
  match s with
  | EmptyString => EmptyString
  | String a EmptyString => if Ascii.eqb a char_cr then EmptyString else s
  | String a s => String a (drop_cr s)
  end.
Fixpoint raw_lines (fuel : nat) (s : string) : list string :=
  match fuel with
  | O => []
  | S fuel =>
      match cut newline s with
      | Some (l, r) => l :: raw_lines fuel r
      | None => match s with EmptyString => [] | _ => [s] end
      end
  end.
Fixpoint until_long (ls : list string) : list string :=
  match ls with
  | [] => []
  | l :: ls => if 65536 <=? Z.of_nat (String.length l) then [] else drop_cr l :: until_long ls
  end.
Definition scan_lines (content : string) : list string :=
  until_long (raw_lines (S (String.length content)) content).

Definition parse_line (line : string) (now : Z) : option User.t :=
  match SplitN line char_colon 4 with
  | name :: pass :: rest =>
      let role := match rest with r :: _ => r | [] => "guest"%string end in
      let leStr := match rest with _ :: l :: _ => l | _ => ""%string end in
      Some (User.Update (User.with_login name pass role "" (parse_lease leStr)) now)
  | _ => None
  end.

Definition Load (w : user) (content : option string) (now : Z) : user :=
  match content with
  | None => w
  | Some text =>
      foldl (fun w line => match parse_line line now with Some u => Add w u | None => w end)
        w (scan_lines text)
  end.

Definition user_line (u : User.t) : string :=
  (User.Id u +:+ ":" +:+ User.Password u +:+ ":" +:+ User.Role u +:+ ":" +:+ fmt_lease (User.Lease u))%string.

(** The text [Save] writes; [None] when there is no file to write. *)
Definition Save (w : user) (order : list (string * option User.t)) : option string :=
  if String.eqb (File w) "" then None
  else Some (foldr (fun u text => if String.eqb (User.Role u) "ldap" then text
                                  else (user_line u +:+ "
" +:+ text)%string) ""%string (List_ order)).

End file.

(** ** Who may log in *)

(** What [Check] answers about a stored user with a local role. *)
Lemma check_stored (dial : LDAPConfig -> option LDAPService) (w : user) (obj u : User.t) (tz now : Z) :
  Get w (User.Id obj) = Some u -> local_role (User.Role u) = true ->
  Users (Check dial w obj tz now).1 = Users w /\
  (Check dial w obj tz now).2 = if String.eqb (User.Password u) (User.Password obj)
        then if lease_valid tz now (User.Lease u) then inl u else inr out_of_date
        else inr wrong_login.
Proof.
  intros Hg Hr. unfold Check. rewrite Hg, Hr. simpl.
  destruct (String.eqb (User.Password u) (User.Password obj)); [by simpl|].
  unfold CheckLdap.
  assert (Hl : Users (GetLdap dial w).1 = Users w).
  { unfold GetLdap. destruct (LdapCfg w); [|done]. simpl.
    destruct (LdapSvc w) as [s|]; [|done]. by destruct (closing s). }
  destruct (GetLdap dial w) as [w' [svc|]]; simpl in *; [|done].
  unfold Get in *. rewrite Hl, Hg.
  assert (Hn : String.eqb (User.Role u) "ldap" = false).
  { unfold local_role in Hr. apply String.eqb_neq. intros E. rewrite E in Hr. discriminate Hr. }
  rewrite Hn. done.
Qed.

(** A local user logs in with the password and before the lease ends, and in
    no other way: for a stored user of role admin, guest or none, [Check] returns
    that user exactly if the password matches and the lease has no year or ends in
    the future; a matching password after the lease is refused even if the LDAP
    server would accept it; with a wrong password the LDAP server is not asked
    either; in no case does [Check] change the stored users. *)
Theorem check_local_user (dial : LDAPConfig -> option LDAPService) (w : user) (obj u : User.t)
    (tz now : Z) :
  Get w (User.Id obj) = Some u -> local_role (User.Role u) = true ->
  let r := Check dial w obj tz now in
  Users r.1 = Users w /\
  r.2 = if String.eqb (User.Password u) (User.Password obj)
        then if lease_valid tz now (User.Lease u) then inl u else inr out_of_date
        else inr wrong_login.
Proof. apply check_stored. Qed.

Definition demo_user : User.t :=
  {| User.Alias := ""; User.Name := "bob"; User.Network := "net"; User.Password := "pw";
     User.UUID := ""; User.System := ""; User.Role := "guest"; User.Last := None;
     User.Lease := 0; User.UpdateAt := 5 |}.

Lemma check_local_user_witness :
  let w := Add NewUserCache demo_user in
  (Check (fun _ => None) w demo_user 0 100).2 = inl demo_user /\
  (Check (fun _ => None) w (User.with_login "bob@net" "no" "" "" 0) 0 100).2 = inr wrong_login.
Proof.
  intros w. split; [|reflexivity].
  destruct (check_local_user (fun _ => None) w demo_user demo_user 0 100) as [_ H];
    [reflexivity|reflexivity|exact H].
Defined.

(** (C7) Nobody gets in without a password check: when [Check] returns a user, either
    the map holds that user with the given password and a local role, or the LDAP
    service in use accepted the identity with that password; and the user returned
    has the identity that was asked for. *)
Theorem check_sound (dial : LDAPConfig -> option LDAPService) (w w' : user) (obj u : User.t) (tz now : Z) :
  contains_char User.char_at (User.Name obj) = false -> User.Network obj <> ""%string ->
  Check dial w obj tz now = (w', inl u) ->
  (Get w (User.Id obj) = Some u /\ User.Password u = User.Password obj /\
     local_role (User.Role u) = true /\ lease_valid tz now (User.Lease u) = true) \/
  (exists svc, (GetLdap dial w).2 = Some svc /\ Login svc (User.Id obj) (User.Password obj) = true /\
     User.Id u = User.Id obj /\ User.Role u = "ldap"%string).
Proof.
  intros Hat Hnet. unfold Check.
  destruct (match Get w (User.Id obj) with Some _ => _ | None => _ end) as [u0|] eqn:Es.
  - intros H. left. destruct (Get w (User.Id obj)) as [u1|] eqn:Eg; [|done].
    destruct (local_role (User.Role u1)) eqn:El; [|done].
    destruct (String.eqb_spec (User.Password u1) (User.Password obj)) as [Ep|]; [|done].
    simpl in Es. injection Es as <-.
    destruct (lease_valid tz now (User.Lease u1)) eqn:Ev; [|done].
    injection H as _ <-. done.
  - clear Es. unfold CheckLdap. destruct (GetLdap dial w) as [w1 [svc|]]; [|done].
    simpl. intros H. right. exists svc. split; [done|].
    destruct (match Get w1 _ with Some _ => _ | None => _ end); [done|].
    destruct (Login svc (User.Id obj) (User.Password obj)); [|done]. simpl in H.
    injection H as _ <-. split; [done|]. split; [|done].
    unfold User.Id at 1, User.Update, User.with_login. cbn [User.Name User.Network].
    assert (Hc : contains_char User.char_at (User.Id obj) = true).
    { unfold User.Id. rewrite !contains_app. simpl. by rewrite orb_true_r. }
    rewrite Hc.
    assert (Hs : SplitN (User.Id obj) User.char_at 2 = [User.Name obj; User.Network obj]).
    { unfold User.Id. change ("@" +:+ User.Network obj)%string with (String User.char_at (User.Network obj)).
      by rewrite SplitN_cons. }
    rewrite Hs. unfold User.nth_or. cbn [nth String.eqb andb].
    by rewrite (proj2 (String.eqb_neq _ _) Hnet).
Qed.

Lemma check_sound_witness :
  let svc := {| closing := false; Login := fun id pw => String.eqb pw "secret" |} in
  let dial := fun _ : LDAPConfig => Some svc in
  let w := SetLdap dial NewUserCache {| Server := "s"; lc_BindDN := ""; lc_Password := ""; lc_BaseDN := ""; lc_Attr := ""; lc_Filter := "";
       lc_EnableTls := false; Timeout_ := 60 |} in
  let obj := User.Update (User.with_login "ann@net" "secret" "" "" 0) 7 in
  exists u, (Check dial w obj 0 100).2 = inl u /\ User.Id u = "ann@net"%string /\ User.Role u = "ldap"%string.
Proof.
  intros svc dial w obj.
  destruct (check_sound dial w (Check dial w obj 0 100).1 obj
    (User.Update (User.with_login "ann@net" "secret" "ldap" "" 0) 100) 0 100)
    as [(H & _)|(s & _ & _ & Hi & Hr)]; [reflexivity|discriminate|reflexivity|discriminate H|].
  eexists. split; [reflexivity|]. split; [exact Hi|exact Hr].
Defined.

(** ** Saving and loading *)

Definition plain (c : Ascii.ascii) (s : string) : Prop := contains_char c s = false.

Lemma drop_cr_app s t : t <> ""%string -> drop_cr (s +:+ t) = s +:+ drop_cr t.
Proof.
  intros Ht. induction s as [|a s IH]; [done|]. rewrite string_app_cons.
  destruct (s +:+ t) as [|b r] eqn:E.
  - destruct s; [|done]. change (EmptyString +:+ t) with t in E. done.
  - change (drop_cr (String a (String b r))) with (String a (drop_cr (String b r))).
    by rewrite IH, string_app_cons.
Qed.

Definition unlines (ls : list string) : string :=
  foldr (fun l t => l +:+ String newline t) ""%string ls.

Lemma raw_lines_unlines fuel ls :
  Forall (plain newline) ls -> (length ls < fuel)%nat -> raw_lines fuel (unlines ls) = ls.
Proof.
  intros Hls. revert fuel. induction Hls as [|l ls Hl Hls IH]; intros [|fuel] Hf; simpl in *; try lia; try done.
  rewrite cut_app by done. rewrite IH by lia. done.
Qed.

Lemma length_unlines ls : (length ls <= String.length (unlines ls))%nat.
Proof.
  induction ls as [|l ls IH]; simpl; [lia|]. rewrite string_length_app. simpl. lia.
Qed.

Lemma until_long_id ls :
  Forall (fun l => Z.of_nat (String.length l) < 65536 /\ drop_cr l = l) ls -> until_long ls = ls.
Proof.
  induction 1 as [|l ls [Hl Hc] Hls IH]; [done|]. simpl.
  rewrite (proj2 (Z.leb_gt _ _)) by lia. by rewrite Hc, IH.
Qed.

Lemma scan_unlines ls :
  Forall (fun l => plain newline l /\ Z.of_nat (String.length l) < 65536 /\ drop_cr l = l) ls ->
  scan_lines (unlines ls) = ls.
Proof.
  intros H. unfold scan_lines. rewrite raw_lines_unlines.
  - apply until_long_id. eapply Forall_impl; [exact H|]. simpl. tauto.
  - eapply Forall_impl; [exact H|]. simpl. tauto.
  - pose proof (length_unlines ls). lia.
Qed.

(** Adding users with new identities to a map with room for them stores them all. *)
Lemma add_all us : forall w,
  NoDup (User.Id <$> us) ->
  (forall u, u ∈ us -> SafeStrMap.data (Users w) !! User.Id u = None) ->
  SafeStrMap.size (Users w) = 0 \/ SafeStrMap.Len (Users w) + zlen us <= SafeStrMap.size (Users w) ->
  let w' := foldl Add w us in
  (forall u, u ∈ us -> Get w' (User.Id u) = Some u) /\
  (forall key, key ∉ (User.Id <$> us) -> Get w' key = Get w key).
Proof.
  induction us as [|u us IH]; intros w Hnd Hnew Hroom; simpl.
  - split; [by intros u ?%not_elem_of_nil|done].
  - apply NoDup_cons in Hnd as [Hni Hnd].
    assert (Hu : SafeStrMap.data (Users w) !! User.Id u = None) by (apply Hnew, elem_of_cons; by left).
    assert (Hg : Get w (User.Id u) = None) by (unfold Get, SafeStrMap.Get; by rewrite Hu).
    set (w1 := Add w u).
    assert (Hw1 : w1 = set_users w (SafeStrMap.upd (Users w) (<[User.Id u := Some u]> (SafeStrMap.data (Users w))))).
    { unfold w1, Add. rewrite Hg. unfold SafeStrMap.Set_, SafeStrMap.add.
      rewrite (proj2 (full_false (Users w))), Hu; [done|].
      destruct Hroom as [?|Hr]; [by left|right]. unfold zlen in Hr. simpl in Hr. lia. }
    assert (Hget : forall key, Get w1 key = if decide (key = User.Id u) then Some u else Get w key).
    { intros key. rewrite Hw1. unfold Get, SafeStrMap.Get. simpl. case_decide as E.
      - rewrite E, lookup_insert_eq. done.
      - by rewrite lookup_insert_ne by done. }
    destruct (IH w1 Hnd) as [H1 H2].
    + intros u' Hu'. rewrite Hw1. simpl. rewrite lookup_insert_ne.
      * apply Hnew, elem_of_cons. by right.
      * intros E. apply Hni. apply list_elem_of_fmap. by exists u'.
    + rewrite Hw1. unfold SafeStrMap.Len in *. simpl. rewrite map_size_insert_None by done.
      destruct Hroom as [?|Hr]; [by left|right]. unfold zlen in *. simpl in Hr. lia.
    + split.
      * intros u' [->|Hu']%elem_of_cons; [|by apply H1].
        rewrite H2 by done. rewrite Hget. by rewrite decide_True.
      * intros key Hk. rewrite H2 by (intros Hin; apply Hk, elem_of_cons; by right).
        rewrite Hget, decide_False; [done|]. intros ->. apply Hk, elem_of_cons. by left.
Qed.

Section roundtrip.
Context (fmt_lease : Z -> string) (parse_lease : string -> Z).

(** A user whose line can be read back. *)
Definition savable (u : User.t) : Prop :=
  plain User.char_at (User.Name u) /\ User.Network u <> ""%string /\
  plain char_colon (User.Id u) /\ plain char_colon (User.Password u) /\ plain char_colon (User.Role u) /\
  plain newline (user_line fmt_lease u) /\ Z.of_nat (String.length (user_line fmt_lease u)) < 65536 /\
  fmt_lease (User.Lease u) <> ""%string /\ drop_cr (fmt_lease (User.Lease u)) = fmt_lease (User.Lease u) /\
  parse_lease (fmt_lease (User.Lease u)) = User.Lease u.

(** The user that is read back. *)
Definition reloaded (u : User.t) (now : Z) : User.t :=
  {| User.Alias := ""; User.Name := User.Name u; User.Network := User.Network u;
     User.Password := User.Password u; User.UUID := ""; User.System := ""; User.Role := User.Role u;
     User.Last := None; User.Lease := User.Lease u; User.UpdateAt := now |}.

Lemma parse_user_line u now :
  savable u -> parse_line parse_lease (user_line fmt_lease u) now = Some (reloaded u now).
Proof.
  intros (Hat & Hnet & Hci & Hcp & Hcr & _ & _ & _ & _ & Hl). unfold parse_line, user_line.
  change (":" +:+ ?s)%string with (String char_colon s).
  rewrite SplitN_cons by done.
  change (":" +:+ User.Role u +:+ ":" +:+ fmt_lease (User.Lease u))%string
    with (String char_colon (User.Role u +:+ String char_colon (fmt_lease (User.Lease u)))).
  rewrite !SplitN_cons by done. cbn [SplitN]. rewrite Hl. f_equal.
  assert (Hs : SplitN (User.Id u) User.char_at 2 = [User.Name u; User.Network u]).
  { unfold User.Id. change ("@" +:+ User.Network u)%string with (String User.char_at (User.Network u)).
    by rewrite SplitN_cons. }
  assert (Hc : contains_char User.char_at (User.Id u) = true).
  { unfold User.Id. rewrite !contains_app. simpl. by rewrite orb_true_r. }
  unfold User.Update, User.with_login. cbn [User.Name User.Network User.Alias User.UUID].
  rewrite Hc, Hs. unfold User.nth_or. cbn [nth String.eqb andb].
  by rewrite (proj2 (String.eqb_neq _ _) Hnet).
Qed.

Lemma line_drop_cr u : savable u -> drop_cr (user_line fmt_lease u) = user_line fmt_lease u.
Proof.
  intros (_ & _ & _ & _ & _ & _ & _ & Hne & Hcr & _). unfold user_line.
  rewrite <- !string_app_assoc. by rewrite drop_cr_app, Hcr.
Qed.

Lemma save_unlines w order :
  File w <> ""%string ->
  Save fmt_lease w order =
    Some (unlines (user_line fmt_lease <$> filter (fun u => User.Role u <> "ldap"%string) (List_ order))).
Proof.
  intros Hf. unfold Save. rewrite (proj2 (String.eqb_neq _ _) Hf). f_equal.
  induction (List_ order) as [|u us IH]; [done|]. cbn [foldr]. rewrite IH.
  destruct (String.eqb_spec (User.Role u) "ldap") as [E|E].
  - by rewrite filter_cons_False by tauto.
  - rewrite filter_cons_True by done. done.
Qed.

End roundtrip.

(** The users [Save] writes, in the order of the map. *)
Definition saved_users (order : list (string * option User.t)) : list User.t :=
  filter (fun u => User.Role u <> "ldap"%string) (List_ order).

Section saved.
Context (w : user) (order : list (string * option User.t)).
Hypothesis Ho : SafeStrMap.orders (Users w) order.
Hypothesis Hkey : forall key u, Get w key = Some u -> key = User.Id u.

Lemma saved_users_elem u :
  u ∈ saved_users order <-> User.Role u <> "ldap"%string /\ Get w (User.Id u) = Some u.
Proof.
  unfold saved_users, List_. rewrite list_elem_of_filter, list_elem_of_fmap. split.
  - intros (Hr & [k u'] & -> & Hin). apply (orders_visited (Users w)) in Hin; [|done].
    split; [done|]. simpl in *. by rewrite <- (Hkey k u' Hin).
  - intros [Hr Hg]. split; [done|]. exists (User.Id u, u). split; [done|].
    by apply (orders_visited (Users w)).
Qed.

Lemma saved_users_ids : NoDup (User.Id <$> saved_users order).
Proof.
  apply NoDup_fmap_2_strong.
  - intros u1 u2 [_ G1]%saved_users_elem [_ G2]%saved_users_elem E. congruence.
  - apply NoDup_filter, NoDup_fmap_2_strong.
    + intros [k1 u1] [k2 u2] Hi1 Hi2. simpl. intros ->.
      apply (orders_visited (Users w)) in Hi1, Hi2; [|done..].
      by rewrite (Hkey _ _ Hi1), (Hkey _ _ Hi2).
    + eapply NoDup_fmap_1, visited_NoDup, Ho.
Qed.

Lemma saved_users_length : zlen (saved_users order) <= SafeStrMap.Len (Users w).
Proof.
  pose proof (visited_length _ _ Ho) as Hv. unfold zlen, saved_users, List_ in *.
  pose proof (length_filter (fun u => User.Role u <> "ldap"%string) (SafeStrMap.visited order).*2) as Hlf.
  rewrite length_fmap in Hlf. lia.
Qed.

End saved.

(** Reading the lines of savable users adds them one after the other. *)
Lemma load_lines fmt_lease parse_lease now l w0 :
  Forall (savable fmt_lease parse_lease) l ->
  foldl (fun w line => match parse_line parse_lease line now with Some u => Add w u | None => w end)
    w0 (user_line fmt_lease <$> l) = foldl Add w0 ((fun u => reloaded u now) <$> l).
Proof.
  revert w0. induction l as [|u l IH]; intros w0 Hl; [done|]. apply Forall_cons in Hl as [Hu Hl].
  cbn [fmap list_fmap foldl]. rewrite parse_user_line by done. by apply IH.
Qed.

Lemma reloaded_ids (l : list User.t) now : User.Id <$> ((fun u => reloaded u now) <$> l) = User.Id <$> l.
Proof. rewrite <- list_fmap_compose. by apply list_fmap_ext. Qed.

(** Loading what was saved. *)
Lemma save_load (fmt_lease : Z -> string) (parse_lease : string -> Z) (w : user)
    (order : list (string * option User.t)) (now : Z) (text : string) :
  SafeStrMap.orders (Users w) order -> SafeStrMap.Len (Users w) <= 1024 ->
  (forall key u, Get w key = Some u -> key = User.Id u /\ savable fmt_lease parse_lease u) ->
  Save fmt_lease w order = Some text ->
  forall key, Get (Load parse_lease NewUserCache (Some text) now) key =
    match Get w key with
    | Some u => if String.eqb (User.Role u) "ldap" then None else Some (reloaded u now)
    | None => None
    end.
Proof.
  intros Ho Hlen Hok Hsave. set (us := saved_users order).
  assert (Hkey : forall key u, Get w key = Some u -> key = User.Id u) by (intros key u Hg; by destruct (Hok key u Hg)).
  assert (Hf : File w <> ""%string) by (intros E; unfold Save in Hsave; by rewrite E in Hsave).
  rewrite save_unlines in Hsave by done. injection Hsave as <-. fold (saved_users order). fold us.
  assert (Hsav : Forall (savable fmt_lease parse_lease) us).
  { apply Forall_forall. intros u [_ Hg]%(saved_users_elem w order Ho Hkey). by apply (Hok (User.Id u)). }
  unfold Load. rewrite scan_unlines.
  2:{ apply Forall_fmap. eapply Forall_impl; [exact Hsav|]. intros u Hu. simpl.
      split; [apply Hu|]. split; [apply Hu|]. by eapply line_drop_cr. }
  rewrite (load_lines fmt_lease) by done.
  destruct (add_all ((fun u => reloaded u now) <$> us) NewUserCache) as [H1 H2].
  - rewrite reloaded_ids. by apply (saved_users_ids w).
  - intros u _. apply lookup_empty.
  - right. pose proof (saved_users_length w order Ho) as Hl. fold us in Hl.
    unfold zlen in *. rewrite length_fmap. change (SafeStrMap.Len (Users NewUserCache)) with 0. simpl. lia.
  - intros key. destruct (decide (key ∈ User.Id <$> us)) as [Hin|Hin].
    + apply list_elem_of_fmap in Hin as (u & -> & Hu). pose proof Hu as [Hr Hg]%(saved_users_elem w order Ho Hkey).
      rewrite Hg, (proj2 (String.eqb_neq _ _) Hr).
      apply (H1 (reloaded u now)). apply list_elem_of_fmap. by exists u.
    + rewrite H2 by (by rewrite reloaded_ids). destruct (Get w key) as [u|] eqn:Hg; [|done].
      destruct (String.eqb_spec (User.Role u) "ldap") as [|Hr]; [done|].
      exfalso. apply Hin, list_elem_of_fmap. rewrite (Hkey key u Hg) in Hg |- *.
      exists u. split; [done|]. by apply (saved_users_elem w order Ho Hkey).
Qed.

(** The user file keeps the users: saving a database and loading the file into a
    fresh one gives, for every identity, the same name, network, password, role and
    lease; LDAP users are left out; no other user appears; whatever the order in which
    the map is written.  It holds for users whose fields hold none of the separators
    of the file, and not without that, see the next theorem. *)
Theorem user_file_roundtrip (fmt_lease : Z -> string) (parse_lease : string -> Z) (w : user)
    (order : list (string * option User.t)) (now : Z) (text : string) :
  SafeStrMap.orders (Users w) order -> SafeStrMap.Len (Users w) <= 1024 ->
  (forall key u, Get w key = Some u -> key = User.Id u /\ savable fmt_lease parse_lease u) ->
  Save fmt_lease w order = Some text ->
  forall key, Get (Load parse_lease NewUserCache (Some text) now) key =
    match Get w key with
    | Some u => if String.eqb (User.Role u) "ldap" then None else Some (reloaded u now)
    | None => None
    end.
Proof. apply save_load. Qed.

(** A stand-in for the layout of lease times: decimal seconds. *)
Definition demo_fmt (t : Z) : string := FormatInt t.
Definition demo_parse (s : string) : Z := match dtoi s with Some (n, _) => n | None => 0 end.

Lemma user_file_roundtrip_witness :
  let w := SetFile (Add NewUserCache demo_user) "/etc/users" in
  let order := [("bob@net"%string, Some demo_user)] in
  Save demo_fmt w order = Some ("bob@net:pw:guest:0
"%string) /\
  Get (Load demo_parse NewUserCache (Save demo_fmt w order) 9) "bob@net" = Some (reloaded demo_user 9).
Proof.
  intros w order.
  assert (Es : Save demo_fmt w order = Some ("bob@net:pw:guest:0
"%string)) by reflexivity.
  split; [exact Es|]. rewrite Es.
  rewrite (user_file_roundtrip demo_fmt demo_parse w order 9 _); [reflexivity|vm_compute; reflexivity|vm_compute; congruence| |exact Es].
  intros key u Hg. unfold Get, SafeStrMap.Get in Hg.
  destruct (decide (key = "bob@net"%string)) as [->|Hne].
  - vm_compute in Hg. injection Hg as <-. split; [reflexivity|].
    vm_compute. split_and!; (reflexivity || discriminate).
  - change (SafeStrMap.data (Users w)) with (<["bob@net"%string := Some demo_user]> (∅ : gmap string (option User.t))) in Hg.
    rewrite lookup_insert_ne, lookup_empty in Hg by congruence. discriminate Hg.
Defined.

(** The line of a user whose password holds one colon. *)
Lemma parse_colon_line parse_lease (p1 p2 le : string) now :
  plain char_colon p1 -> plain char_colon p2 ->
  parse_line parse_lease ("bob@net" +:+ ":" +:+ (p1 +:+ ":" +:+ p2) +:+ ":" +:+ "guest" +:+ ":" +:+ le)%string now =
    Some (User.Update (User.with_login "bob@net" p1 p2 "" (parse_lease ("guest:" +:+ le)%string)) now).
Proof.
  intros H1 H2. unfold parse_line.
  change ("bob@net" +:+ ":" +:+ (p1 +:+ ":" +:+ p2) +:+ ":" +:+ "guest" +:+ ":" +:+ le)%string
    with ("bob@net" +:+ String char_colon ((p1 +:+ String char_colon p2) +:+ String char_colon ("guest:" +:+ le)))%string.
  rewrite SplitN_cons, string_app_assoc, string_app_cons, !SplitN_cons by done. done.
Qed.

(** The user file does not escape its separators: a user whose password holds a
    colon is written and read back with the password cut at the colon and the rest of
    it as the role, so that the right password is refused after a restart, and the
    role is whatever followed the colon. *)
Theorem user_file_colon_breaks (fmt_lease : Z -> string) (parse_lease : string -> Z)
    (p1 p2 : string) (now tz t : Z) :
  plain char_colon p1 -> plain newline p1 -> plain char_colon p2 -> plain newline p2 ->
  Z.of_nat (String.length p1 + String.length p2) < 60000 ->
  plain newline (fmt_lease 0) -> fmt_lease 0 <> ""%string -> drop_cr (fmt_lease 0) = fmt_lease 0 ->
  Z.of_nat (String.length (fmt_lease 0)) < 1000 -> tz < year2000 ->
  let u := User.Update (User.with_login "bob@net" (p1 +:+ ":" +:+ p2)%string "guest" "" 0) t in
  let w := SetFile (Add NewUserCache u) "/etc/users" in
  exists text u', Save fmt_lease w [(User.Id u, Some u)] = Some text /\
    let w' := Load parse_lease NewUserCache (Some text) now in
    Get w' "bob@net" = Some u' /\ User.Password u' = p1 /\ User.Role u' = p2 /\
    (Check (fun _ => None) w u tz now).2 = inl u /\
    (Check (fun _ => None) w' u tz now).2 = inr wrong_login.
Proof.
  intros Hc1 Hn1 Hc2 Hn2 Hlen Hfn Hfe Hfc Hfl Htz u w.
  set (u' := User.Update (User.with_login "bob@net" p1 p2 ""
                            (parse_lease ("guest:" +:+ fmt_lease 0)%string)) now).
  exists (unlines [user_line fmt_lease u]), u'.
  split; [by rewrite (save_unlines fmt_lease w)|].
  assert (Hl : Load parse_lease NewUserCache (Some (unlines [user_line fmt_lease u])) now = Add NewUserCache u').
  { unfold Load. rewrite scan_unlines.
    - cbn [foldl]. change (user_line fmt_lease u) with
        ("bob@net" +:+ ":" +:+ (p1 +:+ ":" +:+ p2) +:+ ":" +:+ "guest" +:+ ":" +:+ fmt_lease 0)%string.
      by rewrite parse_colon_line.
    - constructor; [|done].
      change (user_line fmt_lease u) with
        ("bob@net" +:+ ":" +:+ (p1 +:+ ":" +:+ p2) +:+ ":" +:+ "guest" +:+ ":" +:+ fmt_lease 0)%string.
      split; [unfold plain in *; rewrite !contains_app, Hn1, Hn2, Hfn; done|]. split.
      + rewrite !string_length_app. simpl. lia.
      + rewrite <- !string_app_assoc. by rewrite drop_cr_app, Hfc. }
  cbv zeta. rewrite Hl.
  assert (Hg : Get (Add NewUserCache u') "bob@net" = Some u') by done.
  split; [done|]. split; [done|]. split; [done|]. split.
  - unfold Check. change (Get w (User.Id u)) with (Some u). cbn [local_role].
    change (local_role (User.Role u)) with true. rewrite String.eqb_refl. simpl.
    unfold lease_valid. change (User.Lease u) with 0. rewrite (proj2 (Z.ltb_lt _ _)) by lia. done.
  - unfold Check. change (User.Id u) with "bob@net"%string. rewrite Hg.
    assert (Hp : String.eqb (User.Password u') (User.Password u) = false).
    { apply String.eqb_neq. change (User.Password u') with p1.
      change (User.Password u) with (p1 +:+ ":" +:+ p2)%string. intros E.
      apply (f_equal String.length) in E. rewrite !string_length_app in E. simpl in E. lia. }
    rewrite Hp, andb_false_r. done.
Qed.

Lemma user_file_colon_breaks_witness :
  let u := User.Update (User.with_login "bob@net" "x:admin" "guest" "" 0) 1 in
  let w := SetFile (Add NewUserCache u) "/etc/users" in
  exists text u', Save demo_fmt w [(User.Id u, Some u)] = Some text /\
    Get (Load demo_parse NewUserCache (Some text) 2) "bob@net" = Some u' /\
    User.Role u' = "admin"%string.
Proof.
  intros u w.
  destruct (user_file_colon_breaks demo_fmt demo_parse "x" "admin" 2 0 1)
    as (text & u' & Hs & Hg & _ & Hr & _);
    try reflexivity; try discriminate; try (vm_compute; reflexivity).
  exists text, u'. split; [exact Hs|]. split; [exact Hg|exact Hr].
Defined.
