(* ===== verification/NetCache.v ===== *)
(** * Networks and address leases (pkg/olsw/cache/network.go)

    The networks of the switch and the addresses leased to points.  A lease object is
    reachable from two maps, by the identity of the point and by the address, and its
    holders change its fields: leases live in a heap and the maps hold references.  Clients have goroutines of
    their own and no lock is held between two uses of the maps: beside the operations as
    wholes there are calls, which take one step at a time. *)

From S2P Require Import Prelude GoStd SafeMap Models.

Local Open Scope Z_scope.

Abbreviation lease_id := nat (only parsing).

Record network := {
  Networks : SafeStrMap.t Network.t;
  UUID : SafeStrMap.t nat;
  Addr : SafeStrMap.t nat;
  leases : list Lease.t
}.

Definition NewNetworkCache : network :=
  {| Networks := SafeStrMap.NewSafeStrMap 1024; UUID := SafeStrMap.NewSafeStrMap 1024;
     Addr := SafeStrMap.NewSafeStrMap 1024; leases := [] |}.

Definition set_networks (w : network) (m : SafeStrMap.t Network.t) : network :=
  {| Networks := m; UUID := UUID w; Addr := Addr w; leases := leases w |}.
Definition set_maps (w : network) (u a : SafeStrMap.t nat) (ls : list Lease.t) : network :=
  {| Networks := Networks w; UUID := u; Addr := a; leases := ls |}.

Definition Add (w : network) (n : Network.t) : network :=
  set_networks w (SafeStrMap.Set_ (Networks w) (Network.Name n) (Some n)).1.
Definition Del (w : network) (name : string) : network :=
  set_networks w (SafeStrMap.Del (Networks w) name).
Definition Get (w : network) (name : string) : option Network.t := SafeStrMap.Get (Networks w) name.
Definition List_ (order : list (string * option Network.t)) : list Network.t :=
  (SafeStrMap.visited order).*2.
Definition ListLease (w : network) (order : list (string * option nat)) : list Lease.t :=
  omap (fun e : string * nat => leases w !! e.2) (SafeStrMap.visited order).

(** [net.IP(tmp).String()] of the 32-bit address [i]. *)
Definition addr_string (i : Z) : string := ip4_string (be32 i).

(** The loop [for i := start; i <= end; i++] over a 32-bit [i]; [None] when the fuel
    is used up. *)
Fixpoint alloc_loop (fuel : nat) (addr : SafeStrMap.t nat) (i end_ : Z) : option string :=
  match fuel with
  | O => None
  | S fuel =>
      if i <=? end_ then
        if (SafeStrMap.GetEx addr (addr_string i)).2
        then alloc_loop fuel addr (wrap32 (i + 1)) end_
        else Some (addr_string i)
      else Some ""%string
  end.

(** One round more than there are leased addresses is enough. *)
Definition alloc_fuel (w : network) : nat := S (base.size (SafeStrMap.data (Addr w))).

Definition ip_number (ip : bytes) : go Z := b ← slice (To4 ip) 0 4; Uint32 b.

Definition allocLease (w : network) (sAddr eAddr : string) : go (option string) :=
  match ParseIP sAddr, ParseIP eAddr with
  | Some sIp, Some eIp =>
      start ← ip_number sIp;
      end_ ← ip_number eIp;
      Ret (alloc_loop (alloc_fuel w) (Addr w) start end_)
  | _, _ => Ret (Some ""%string)
  end.

Definition GetLease (w : network) (uuid : string) : option nat := (SafeStrMap.GetEx (UUID w) uuid).1.
Definition GetLeaseByAlias (w : network) (name : string) : option nat :=
  (SafeStrMap.GetEx (UUID w) name).1.

Definition AddLease (w : network) (uuid ipStr : string) : network * option nat :=
  if String.eqb ipStr "" then (w, None)
  else
    let l := length (leases w) in
    (set_maps w (SafeStrMap.Set_ (UUID w) uuid (Some l)).1 (SafeStrMap.Set_ (Addr w) ipStr (Some l)).1
       (leases w ++ [Lease.NewLease uuid ipStr]), Some l).

Definition NewLease (w : network) (uuid net : string) : go (network * option nat) :=
  match Get w net with
  | None => Ret (w, None)
  | Some n =>
      if String.eqb uuid "" then Ret (w, None)
      else match SafeStrMap.GetEx (UUID w) uuid with
           | (l, true) => Ret (w, l)
           | (_, false) =>
               r ← allocLease w (Network.IpStart n) (Network.IpEnd n);
               match r with
               | None => Ret (w, None)
               | Some ipStr =>
                   if String.eqb ipStr "" then Ret (w, None)
                   else let w' := (AddLease w uuid ipStr).1 in Ret (w', GetLease w' uuid)
               end
           end
  end.

Definition is_static (l : Lease.t) : bool := String.eqb (Lease.Type_ l) "static".

(** A reference to no lease is a nil pointer. *)
Definition DelLease (w : network) (uuid : string) : go network :=
  r ← match SafeStrMap.GetEx (UUID w) uuid with
      | (v, true) =>
          match v ≫= fun id => leases w !! id with
          | None => Panic
          | Some lease =>
              Ret (if is_static lease then w
                   else set_maps w (SafeStrMap.Del (UUID w) uuid) (Addr w) (leases w), Lease.Address lease)
          end
      | (_, false) => Ret (w, ""%string)
      end;
  let '(w, addr) := r in
  match SafeStrMap.GetEx (Addr w) addr with
  | (v, true) =>
      match v ≫= fun id => leases w !! id with
      | None => Panic
      | Some lease =>
          if String.eqb (Lease.UUID lease) uuid && negb (is_static lease)
          then Ret (set_maps w (UUID w) (SafeStrMap.Del (Addr w) addr) (leases w))
          else Ret w
      end
  | (_, false) => Ret w
  end.

(** What holders of a lease do to it: every field but the address. *)
Definition touch (w : network) (id : nat) (uuid alias client type net : string) : network :=
  match leases w !! id with
  | None => w
  | Some l =>
      set_maps w (UUID w) (Addr w)
        (<[id := {| Lease.Address := Lease.Address l; Lease.UUID := uuid; Lease.Alias := alias;
                    Lease.Client := client; Lease.Type_ := type; Lease.Network := net |}]> (leases w))
  end.

(** ** Calls that overlap

    The maps are locked for one operation each and the clients of a switch are served by
    goroutines of their own, so between two operations of a call those of others may come.
    A call is the point it has reached: what it does next is written beside each. *)
Inductive call :=
| N_get (uuid net : string)                    (* NewLease: w.Get(network) *)
| N_uuid (uuid : string) (n : Network.t)       (* w.UUID.GetEx(uuid) *)
| N_loop (uuid : string) (i end_ : Z)          (* allocLease: w.Addr.GetEx of the address i *)
| A_uuid (uuid ip : string) (fresh : bool)     (* AddLease: w.UUID.Set(uuid, l) *)
| A_addr (uuid ip : string) (id : nat) (fresh : bool)  (* w.Addr.Set(ipStr, l) *)
| N_back (uuid : string)                       (* NewLease: w.GetLease(uuid) *)
| D_get (uuid : string)                        (* DelLease: w.UUID.GetEx(uuid) *)
| D_type (uuid : string) (id : nat)            (* if lease.Type != static *)
| D_del (uuid addr : string)                   (* w.UUID.Del(uuid) *)
| D_addr (uuid addr : string)                  (* w.Addr.GetEx(addr) *)
| D_owner (uuid addr : string) (id : nat)      (* if lease.UUID == uuid *)
| D_kind (addr : string) (id : nat)            (* if lease.Type != static *)
| D_free (addr : string)                       (* w.Addr.Del(addr) *)
| Returned (r : option nat).

Definition lease_at_ref (w : network) (v : option nat) : go (nat * Lease.t) :=
  match v with
  | None => Panic
  | Some id => match leases w !! id with Some l => Ret (id, l) | None => Panic end
  end.

(** The next step of a call; [fresh] is whether [NewLease] called [AddLease]. *)
Definition advance (w : network) (c : call) : go (network * call) :=
  match c with
  | N_get uuid net =>
      Ret (w, match Get w net with
              | None => Returned None
              | Some n => if String.eqb uuid "" then Returned None else N_uuid uuid n
              end)
  | N_uuid uuid n =>
      match SafeStrMap.GetEx (UUID w) uuid with
      | (l, true) => Ret (w, Returned l)
      | (_, false) =>
          match ParseIP (Network.IpStart n), ParseIP (Network.IpEnd n) with
          | Some sIp, Some eIp => start ← ip_number sIp; end_ ← ip_number eIp; Ret (w, N_loop uuid start end_)
          | _, _ => Ret (w, Returned None)
          end
      end
  | N_loop uuid i end_ =>
      Ret (w, if i <=? end_
              then if (SafeStrMap.GetEx (Addr w) (addr_string i)).2 then N_loop uuid (wrap32 (i + 1)) end_
                   else A_uuid uuid (addr_string i) true
              else Returned None)
  | A_uuid uuid ip fresh =>
      let l := length (leases w) in
      Ret (if String.eqb ip "" then (w, Returned None)
           else (set_maps w (SafeStrMap.Set_ (UUID w) uuid (Some l)).1 (Addr w) (leases w ++ [Lease.NewLease uuid ip]),
                 A_addr uuid ip l fresh))
  | A_addr uuid ip id fresh =>
      Ret (set_maps w (UUID w) (SafeStrMap.Set_ (Addr w) ip (Some id)).1 (leases w),
           if fresh then N_back uuid else Returned (Some id))
  | N_back uuid => Ret (w, Returned (GetLease w uuid))
  | D_get uuid =>
      match SafeStrMap.GetEx (UUID w) uuid with
      | (v, true) => r ← lease_at_ref w v; Ret (w, D_type uuid r.1)
      | (_, false) => Ret (w, D_addr uuid "")
      end
  | D_type uuid id =>
      r ← lease_at_ref w (Some id);
      Ret (w, if is_static r.2 then D_addr uuid (Lease.Address r.2) else D_del uuid (Lease.Address r.2))
  | D_del uuid addr => Ret (set_maps w (SafeStrMap.Del (UUID w) uuid) (Addr w) (leases w), D_addr uuid addr)
  | D_addr uuid addr =>
      match SafeStrMap.GetEx (Addr w) addr with
      | (v, true) => r ← lease_at_ref w v; Ret (w, D_owner uuid addr r.1)
      | (_, false) => Ret (w, Returned None)
      end
  | D_owner uuid addr id =>
      r ← lease_at_ref w (Some id);
      Ret (w, if String.eqb (Lease.UUID r.2) uuid then D_kind addr id else Returned None)
  | D_kind addr id =>
      r ← lease_at_ref w (Some id); Ret (w, if is_static r.2 then Returned None else D_free addr)
  | D_free addr => Ret (set_maps w (UUID w) (SafeStrMap.Del (Addr w) addr) (leases w), Returned None)
  | Returned r => Ret (w, Returned r)
  end.

(** The switch at work: the tables and the calls that were made, in order. *)
Record switch_leases := { sl_w : network; sl_calls : list call }.
Definition no_calls (w : network) : switch_leases := {| sl_w := w; sl_calls := [] |}.

(** What can happen: a call is made, a call takes its next step, a holder of a lease
    changes it in place (any field but the address; a lease that is static stays so), a
    network is added or deleted. *)
Inductive lease_event :=
| Call_NewLease (uuid net : string)
| Call_AddLease (uuid ip : string)
| Call_DelLease (uuid : string)
| Advance (i : nat)
| Touch (id : nat) (uuid alias client net : string) (fix_ : bool)
| Add_network (n : Network.t)
| Del_network (name : string).

Definition begin_call (p : switch_leases) (c : call) : go switch_leases :=
  Ret {| sl_w := sl_w p; sl_calls := sl_calls p ++ [c] |}.
Definition change_tables (p : switch_leases) (w : network) : go switch_leases :=
  Ret {| sl_w := w; sl_calls := sl_calls p |}.

Definition lease_step (p : switch_leases) (e : lease_event) : go switch_leases :=
  match e with
  | Call_NewLease uuid net => begin_call p (N_get uuid net)
  | Call_AddLease uuid ip => begin_call p (A_uuid uuid ip false)
  | Call_DelLease uuid => begin_call p (D_get uuid)
  | Advance i =>
      match sl_calls p !! i with
      | None => Ret p
      | Some c => r ← advance (sl_w p) c; Ret {| sl_w := r.1; sl_calls := <[i := r.2]> (sl_calls p) |}
      end
  | Touch id uuid alias client net fix_ =>
      change_tables p
        (match leases (sl_w p) !! id with
         | None => sl_w p
         | Some l => touch (sl_w p) id uuid alias client (if fix_ then "static"%string else Lease.Type_ l) net
         end)
  | Add_network n => change_tables p (Add (sl_w p) n)
  | Del_network name => change_tables p (Del (sl_w p) name)
  end.

Fixpoint lease_steps (p : switch_leases) (es : list lease_event) : go switch_leases :=
  match es with
  | [] => Ret p
  | e :: es => p ← lease_step p e; lease_steps p es
  end.

(** ** Allocation *)

Lemma be32_bytes i : length (be32 i) = 4%nat /\ bytes_ok (be32 i).
Proof. split; [done|]. repeat constructor; apply byte_at_u8. Qed.

Lemma addr_string_inj i j : u32 i -> u32 j -> addr_string i = addr_string j -> i = j.
Proof.
  intros Hi Hj E. destruct (be32_bytes i) as [Li Oi], (be32_bytes j) as [Lj Oj].
  apply ip4_string_inj in E; [|done..].
  rewrite <- (join32_be32 i), <- (join32_be32 j) by done. unfold be32 in E. by injection E as -> -> -> ->.
Qed.

Definition taken (addr : SafeStrMap.t nat) (i : Z) : Prop :=
  (SafeStrMap.GetEx addr (addr_string i)).2 = true.

#[export] Instance taken_dec addr i : Decision (taken addr i).
Proof. unfold taken. apply _. Defined.

Lemma taken_elem addr i : taken addr i <-> addr_string i ∈ dom (SafeStrMap.data addr).
Proof.
  unfold taken, SafeStrMap.GetEx. rewrite elem_of_dom.
  destruct (SafeStrMap.data addr !! addr_string i) eqn:E; by split.
Qed.

(** A run of taken addresses is no longer than the map. *)
Lemma taken_run addr (nums : list Z) :
  NoDup nums -> Forall u32 nums -> Forall (taken addr) nums ->
  (length nums <= base.size (SafeStrMap.data addr))%nat.
Proof.
  intros Hnd Hu Ht. rewrite <- size_dom.
  rewrite <- (length_fmap addr_string nums).
  rewrite <- (size_list_to_set (C := gset string)).
  - apply subseteq_size. intros x. rewrite elem_of_list_to_set, list_elem_of_fmap.
    intros (i & -> & Hi). rewrite Forall_forall in Ht. by apply taken_elem, Ht.
  - apply NoDup_fmap_2_strong; [|done]. intros i j Hi Hj. rewrite Forall_forall in Hu.
    apply addr_string_inj; by apply Hu.
Qed.

(** The addresses the loop visits after [n] rounds. *)
Definition visit (start : Z) (n : nat) : Z := wrap32 (start + Z.of_nat n).

Lemma visit_S start n : wrap32 (visit start n + 1) = visit start (S n).
Proof.
  unfold visit, wrap32. rewrite Zplus_mod_idemp_l. f_equal. lia.
Qed.

Lemma visit_NoDup start n : Z.of_nat n <= 2 ^ 32 -> NoDup (visit start <$> seq 0 n).
Proof.
  intros Hn. apply NoDup_fmap_2_strong; [|apply NoDup_seq].
  intros i j Hi%elem_of_seq Hj%elem_of_seq. unfold visit, wrap32. intros E.
  apply (f_equal (fun x => (x - start) mod 2 ^ 32)) in E.
  rewrite !Zminus_mod_idemp_l in E.
  replace (start + Z.of_nat i - start) with (Z.of_nat i) in E by lia.
  replace (start + Z.of_nat j - start) with (Z.of_nat j) in E by lia.
  rewrite !Z.mod_small in E by lia. lia.
Qed.

Lemma visit_u32 start n : u32 (visit start n).
Proof. unfold u32, visit, wrap32. apply Z.mod_pos_bound. lia. Qed.

(** The loop stops at the first address that is free or past the end. *)
Lemma alloc_loop_spec fuel addr start end_ n :
  (forall k, (k < n)%nat -> visit start k <= end_ /\ taken addr (visit start k)) ->
  (n <= fuel)%nat ->
  alloc_loop fuel addr (wrap32 start) end_ = alloc_loop (fuel - n) addr (visit start n) end_.
Proof.
  revert fuel. induction n as [|n IH]; intros fuel Hk Hf.
  - unfold visit. simpl. rewrite Z.add_0_r, Nat.sub_0_r. done.
  - rewrite IH by (try lia; intros; apply Hk; lia).
    destruct (Hk n) as [Hle Ht]; [lia|].
    replace (fuel - n)%nat with (S (fuel - S n)) by lia. cbn [alloc_loop].
    rewrite (proj2 (Z.leb_le _ _)), Ht, visit_S by done. done.
Qed.

Lemma first_failure (P : nat -> Prop) `{!forall k, Decision (P k)} m :
  (forall k, (k < m)%nat -> P k) \/ exists n, (n < m)%nat /\ (forall k, (k < n)%nat -> P k) /\ ~ P n.
Proof.
  induction m as [|m [IH|(n & Hn & Hk & Hp)]]; [left; lia| |right; exists n; split_and!; (done || lia)].
  destruct (decide (P m)) as [Hp|Hp]; [left|right; exists m; split_and!; (done || lia)].
  intros k Hk. destruct (decide (k = m)) as [->|]; [done|]. apply IH. lia.
Qed.

(** Some round within the fuel ends the loop. *)
Lemma alloc_stops w start end_ :
  SafeStrMap.Len (Addr w) < 2 ^ 32 ->
  exists n, (n < alloc_fuel w)%nat /\
    (forall k, (k < n)%nat -> visit start k <= end_ /\ taken (Addr w) (visit start k)) /\
    ~ (visit start n <= end_ /\ taken (Addr w) (visit start n)).
Proof.
  intros Hlen.
  destruct (first_failure (fun k => visit start k <= end_ /\ taken (Addr w) (visit start k)) (alloc_fuel w))
    as [Hall|H]; [exfalso|exact H].
  unfold alloc_fuel in *. unfold SafeStrMap.Len in Hlen.
  pose proof (taken_run (Addr w) (visit start <$> seq 0 (S (base.size (SafeStrMap.data (Addr w)))))) as Hr.
  rewrite length_fmap, length_seq in Hr.
  assert (S (base.size (SafeStrMap.data (Addr w))) <= base.size (SafeStrMap.data (Addr w)))%nat; [|lia].
  apply Hr.
  - apply visit_NoDup. lia.
  - apply Forall_fmap, Forall_forall. intros k _. apply visit_u32.
  - apply Forall_fmap, Forall_forall. intros k Hk%elem_of_seq. apply Hall. lia.
Qed.

Lemma alloc_loop_result w start end_ :
  SafeStrMap.Len (Addr w) < 2 ^ 32 ->
  exists n, (forall k, (k < n)%nat -> visit start k <= end_ /\ taken (Addr w) (visit start k)) /\
    ((alloc_loop (alloc_fuel w) (Addr w) (wrap32 start) end_ = Some ""%string /\ end_ < visit start n) \/
     (alloc_loop (alloc_fuel w) (Addr w) (wrap32 start) end_ = Some (addr_string (visit start n)) /\
      visit start n <= end_ /\ ~ taken (Addr w) (visit start n))).
Proof.
  intros Hlen. destruct (alloc_stops w start end_ Hlen) as (n & Hn & Hk & Hp).
  exists n. split; [done|]. rewrite (alloc_loop_spec _ _ _ _ n) by (done || lia).
  destruct (alloc_fuel w - n)%nat as [|f] eqn:Ef; [lia|]. cbn [alloc_loop].
  destruct (visit start n <=? end_) eqn:El.
  - apply Z.leb_le in El. right.
    assert (Hnt : ~ taken (Addr w) (visit start n)) by tauto.
    destruct (SafeStrMap.GetEx (Addr w) (addr_string (visit start n))).2 eqn:Eg; [done|]. done.
  - apply Z.leb_gt in El. by left.
Qed.

(** The number an address text stands for. *)
Definition number_of (s : string) : option Z :=
  match ParseIP s with
  | Some ip => match ip_number ip with Ret n => Some n | Panic => None end
  | None => None
  end.

Lemma allocLease_numbers w sAddr eAddr start end_ :
  number_of sAddr = Some start -> number_of eAddr = Some end_ ->
  allocLease w sAddr eAddr = Ret (alloc_loop (alloc_fuel w) (Addr w) start end_).
Proof.
  unfold number_of, allocLease. intros Hs He.
  destruct (ParseIP sAddr) as [sIp|]; [|done]. destruct (ParseIP eAddr) as [eIp|]; [|done].
  destruct (ip_number sIp); [|done]. destruct (ip_number eIp); [|done]. by simplify_eq.
Qed.

(** Allocation finds the first free address: for a range that does not end at the
    very last address, [allocLease] returns the lowest address of the range that is
    not leased, and the empty string only if all of them are leased (or the range is
    empty); it stops within one round more than there are leases. *)
Theorem alloc_first_free (w : network) (sAddr eAddr : string) (start end_ : Z) :
  number_of sAddr = Some start -> number_of eAddr = Some end_ ->
  u32 start -> 0 <= end_ < 2 ^ 32 - 1 -> SafeStrMap.Len (Addr w) < 2 ^ 32 ->
  exists r, allocLease w sAddr eAddr = Ret (Some r) /\
    ((r = ""%string /\ forall i, start <= i <= end_ -> taken (Addr w) i) \/
     (exists i, r = addr_string i /\ start <= i <= end_ /\ ~ taken (Addr w) i /\
        forall j, start <= j < i -> taken (Addr w) j)).
Proof.
  intros Hs He Hu Hend Hlen. rewrite (allocLease_numbers w _ _ start end_) by done.
  unfold u32 in Hu. assert (Ew : wrap32 start = start) by (by apply Z.mod_small).
  destruct (alloc_loop_result w start end_ Hlen) as (n & Hk & H). rewrite Ew in H.
  (* within the range the counter does not wrap *)
  assert (Hv : forall k, (k <= n)%nat -> visit start k = start + Z.of_nat k).
  { intros k Hkn. induction k as [|k IH]; [unfold visit, wrap32; rewrite Z.mod_small; lia|].
    rewrite <- visit_S, IH by lia. destruct (Hk k) as [Hle _]; [lia|]. rewrite IH in Hle by lia.
    unfold wrap32. rewrite Z.mod_small; lia. }
  assert (Hbelow : forall j, start <= j < start + Z.of_nat n -> taken (Addr w) j).
  { intros j Hj. destruct (Hk (Z.to_nat (j - start))) as [_ Ht]; [lia|].
    rewrite Hv in Ht by lia. replace (start + Z.of_nat (Z.to_nat (j - start))) with j in Ht by lia. done. }
  rewrite Hv in H by lia. destruct H as [[-> Hgt]|(-> & Hle & Hnt)]; (eexists; split; [done|]).
  - left. split; [done|]. intros i Hi. apply Hbelow. lia.
  - right. exists (start + Z.of_nat n). split; [done|]. split; [lia|]. split; [done|]. done.
Qed.

(** A range that ends at the last address has no end: the 32-bit counter wraps
    around, so once the addresses from [start] up are leased, [allocLease] hands out
    0.0.0.0 and the addresses after it, which are not in the range. *)
Theorem alloc_wraps_around (w : network) (sAddr : string) (start : Z) :
  number_of sAddr = Some start -> u32 start -> 0 < start -> SafeStrMap.Len (Addr w) < 2 ^ 32 ->
  (forall i, start <= i < 2 ^ 32 -> taken (Addr w) i) -> ~ taken (Addr w) 0 ->
  allocLease w sAddr "255.255.255.255" = Ret (Some "0.0.0.0"%string).
Proof.
  intros Hs Hu Hpos Hlen Htk H0. rewrite (allocLease_numbers w _ _ start (2 ^ 32 - 1)) by done.
  unfold u32 in Hu. assert (Ew : wrap32 start = start) by (by apply Z.mod_small). f_equal.
  destruct (alloc_loop_result w start (2 ^ 32 - 1) Hlen) as (n & Hk & H). rewrite Ew in H.
  set (m := Z.to_nat (2 ^ 32 - start)).
  assert (Hvm : visit start m = 0).
  { unfold visit, wrap32, m. replace (start + Z.of_nat (Z.to_nat (2 ^ 32 - start))) with (2 ^ 32) by lia.
    apply Z.mod_same. lia. }
  assert (Hvk : forall k, (k < m)%nat -> visit start k = start + Z.of_nat k).
  { intros k Hkm. unfold visit, wrap32. apply Z.mod_small. unfold m in Hkm. lia. }
  assert (n = m) as ->.
  { destruct (lt_eq_lt_dec n m) as [[Hlt|]|Hgt]; [|done|].
    - exfalso. pose proof (Hvk n Hlt) as E. unfold m in Hlt. destruct H as [[_ H]|(_ & _ & H)].
      + pose proof (visit_u32 start n) as Hu2. unfold u32 in Hu2. lia.
      + apply H. rewrite E. apply Htk. lia.
    - exfalso. destruct (Hk m Hgt) as [_ Ht]. rewrite Hvm in Ht. done. }
  rewrite Hvm in H. destruct H as [[_ H]|(-> & _)]; [lia|done].
Qed.

Definition lease_at (addrs : list string) : network :=
  foldl (fun w a => (AddLease w a a).1) NewNetworkCache addrs.

Lemma alloc_first_free_witness :
  allocLease (lease_at ["10.0.0.1"; "10.0.0.2"]%string) "10.0.0.1" "10.0.0.9" =
    Ret (Some "10.0.0.3"%string).
Proof.
  set (w := lease_at ["10.0.0.1"; "10.0.0.2"]%string).
  destruct (alloc_first_free w "10.0.0.1" "10.0.0.9" 167772161 167772169)
    as (r & E & [[_ H]|(i & -> & Hi & Hn & Hj)]);
    [reflexivity|reflexivity|unfold u32; lia|lia|vm_compute; reflexivity| |].
  - exfalso. assert (Ht : taken (Addr w) 167772163) by (apply H; lia). vm_compute in Ht. discriminate Ht.
  - assert (i = 167772163) as ->; [|exact E].
    assert (~ 167772163 < i).
    { intros Hlt. assert (Ht : taken (Addr w) 167772163) by (apply Hj; lia). vm_compute in Ht. discriminate Ht. }
    assert (i <> 167772161) by (intros ->; apply Hn; vm_compute; reflexivity).
    assert (i <> 167772162) by (intros ->; apply Hn; vm_compute; reflexivity). lia.
Defined.

Lemma alloc_wraps_around_witness :
  allocLease (lease_at ["255.255.255.254"; "255.255.255.255"]%string) "255.255.255.254" "255.255.255.255" =
    Ret (Some "0.0.0.0"%string).
Proof.
  apply (alloc_wraps_around _ _ 4294967294);
    [reflexivity|unfold u32; lia|lia|vm_compute; reflexivity| |vm_compute; discriminate].
  intros i Hi. assert (i = 4294967294 \/ i = 4294967295) as [-> | ->] by lia; vm_compute; reflexivity.
Defined.

(** ** The calls one at a time *)

(** Every identity refers to a lease of its own, which its address refers to as well. *)
Definition lease_inv (w : network) : Prop :=
  (forall k v, SafeStrMap.data (UUID w) !! k = Some v ->
     exists id l, v = Some id /\ leases w !! id = Some l /\
       SafeStrMap.data (Addr w) !! Lease.Address l = Some (Some id)) /\
  (forall k1 k2 v, SafeStrMap.data (UUID w) !! k1 = Some v ->
     SafeStrMap.data (UUID w) !! k2 = Some v -> k1 = k2) /\
  (forall a v, SafeStrMap.data (Addr w) !! a = Some v ->
     exists id l, v = Some id /\ leases w !! id = Some l /\ Lease.Address l = a) /\
  SafeStrMap.data (Addr w) !! ""%string = None.

Lemma AddLease_inv w k a :
  lease_inv w -> SafeStrMap.full (Addr w) = false -> (SafeStrMap.GetEx (Addr w) a).2 = false ->
  lease_inv (AddLease w k a).1.
Proof.
  intros (H1 & H2 & H3 & H4) Hf Hg. unfold AddLease. destruct (String.eqb_spec a "") as [|Hne]; [done|].
  assert (Ha : SafeStrMap.data (Addr w) !! a = None).
  { unfold SafeStrMap.GetEx in Hg. by destruct (SafeStrMap.data (Addr w) !! a). }
  assert (Hl : forall id l, leases w !! id = Some l ->
            (leases w ++ [Lease.NewLease k a]) !! id = Some l /\ id <> length (leases w)).
  { intros id l Hid. split; [by apply lookup_app_l_Some|].
    apply lookup_lt_Some in Hid. lia. }
  assert (Hnew : (leases w ++ [Lease.NewLease k a]) !! length (leases w) = Some (Lease.NewLease k a)).
  { rewrite lookup_app_r, Nat.sub_diag by lia. done. }
  (* the address map grows by exactly the new lease *)
  assert (Ea : (SafeStrMap.Set_ (Addr w) a (Some (length (leases w)))).1 =
               SafeStrMap.upd (Addr w) (<[a := Some (length (leases w))]> (SafeStrMap.data (Addr w)))).
  { unfold SafeStrMap.Set_, SafeStrMap.add. by rewrite Hf, Ha. }
  cbn [fst]. rewrite Ea.
  assert (Haddr : forall b v, SafeStrMap.data (Addr w) !! b = Some v ->
            <[a := Some (length (leases w))]> (SafeStrMap.data (Addr w)) !! b = Some v).
  { intros b v Hb. rewrite lookup_insert_ne; [done|]. intros ->. congruence. }
  (* the identity map grows by at most the new lease *)
  assert (Eu : forall k' v, SafeStrMap.data (SafeStrMap.Set_ (UUID w) k (Some (length (leases w)))).1 !! k' = Some v ->
            SafeStrMap.data (UUID w) !! k' = Some v \/ (k' = k /\ v = Some (length (leases w)))).
  { unfold SafeStrMap.Set_, SafeStrMap.add. intros k' v. destruct (SafeStrMap.full (UUID w)); [by left|].
    destruct (SafeStrMap.data (UUID w) !! k); [by left|]. simpl.
    intros [[<- <-]|[_ ?]]%lookup_insert_Some; [by right|by left]. }
  split; [|split; [|split; [|simpl; by rewrite lookup_insert_ne]]]; simpl.
  - intros k' v Hk. destruct (Eu k' v Hk) as [Ho|[-> ->]].
    + destruct (H1 k' v Ho) as (id & l & -> & Hid & Hb). exists id, l.
      split; [done|]. split; [by apply Hl|by apply Haddr].
    + eexists _, _. split; [done|]. split; [exact Hnew|]. simpl. by rewrite lookup_insert_eq.
  - intros k1 k2 v Hk1 Hk2. destruct (Eu _ _ Hk1) as [Ho1|[-> ->]], (Eu _ _ Hk2) as [Ho2|[-> E2]]; try done.
    + by apply (H2 _ _ v).
    + subst v. destruct (H1 _ _ Ho1) as (id & l & [= <-] & Hid & _). by destruct (Hl _ _ Hid).
    + destruct (H1 _ _ Ho2) as (id & l & [= <-] & Hid & _). by destruct (Hl _ _ Hid).
  - intros b v [[<- <-]|[_ Hb]]%lookup_insert_Some.
    + eexists _, _. split; [done|]. split; [exact Hnew|done].
    + destruct (H3 b v Hb) as (id & l & -> & Hid & Hal). exists id, l. split; [done|].
      split; [by apply Hl|done].
Qed.

Lemma alloc_loop_free fuel addr i end_ s :
  alloc_loop fuel addr i end_ = Some s -> s = ""%string \/ (SafeStrMap.GetEx addr s).2 = false.
Proof.
  revert i. induction fuel as [|fuel IH]; intros i; simpl; [done|].
  destruct (i <=? end_); [|intros; simplify_eq; by left].
  destruct (SafeStrMap.GetEx addr (addr_string i)).2 eqn:E; [apply IH|].
  intros [= <-]. by right.
Qed.

Lemma NewLease_inv w uuid net w' r :
  lease_inv w -> SafeStrMap.full (Addr w) = false -> NewLease w uuid net = Ret (w', r) -> lease_inv w'.
Proof.
  intros Hi Hf. unfold NewLease. destruct (Get w net) as [n|]; [|by intros; simplify_eq].
  destruct (String.eqb uuid ""); [by intros; simplify_eq|].
  destruct (SafeStrMap.GetEx (UUID w) uuid) as [v [|]]; [by intros; simplify_eq|].
  unfold allocLease. destruct (ParseIP (Network.IpStart n)) as [sIp|].
  2:{ simpl. by intros; simplify_eq. }
  destruct (ParseIP (Network.IpEnd n)) as [eIp|]; [|simpl; by intros; simplify_eq].
  destruct (ip_number sIp); [|done]. destruct (ip_number eIp); [|done]. cbn [mbind go_bind].
  destruct (alloc_loop _ _ _ _) as [s|] eqn:Ea; [|by intros; simplify_eq].
  destruct (String.eqb_spec s "") as [|Hs]; [by intros; simplify_eq|]. intros; simplify_eq.
  apply AddLease_inv; [done|done|]. apply alloc_loop_free in Ea as [?|?]; done.
Qed.

Lemma Del_lookup {A} (sm : SafeStrMap.t A) k k' :
  SafeStrMap.data (SafeStrMap.Del sm k) !! k' = if decide (k = k') then None else SafeStrMap.data sm !! k'.
Proof.
  unfold SafeStrMap.Del. destruct (SafeStrMap.data sm !! k) eqn:E; simpl; case_decide; subst;
    rewrite ?lookup_delete_eq, ?lookup_delete_ne by done; done.
Qed.

(** Dropping an identity, and its address if nobody else refers to it. *)
Lemma lease_inv_shrink w u a :
  lease_inv w ->
  (forall k v, SafeStrMap.data u !! k = Some v -> SafeStrMap.data (UUID w) !! k = Some v) ->
  (forall b v, SafeStrMap.data a !! b = Some v -> SafeStrMap.data (Addr w) !! b = Some v) ->
  (forall k id l, SafeStrMap.data u !! k = Some (Some id) -> leases w !! id = Some l ->
     SafeStrMap.data a !! Lease.Address l = SafeStrMap.data (Addr w) !! Lease.Address l) ->
  lease_inv (set_maps w u a (leases w)).
Proof.
  intros (H1 & H2 & H3 & H4) Hu Ha Hk. split; [|split; [|split]]; simpl.
  - intros k v Hv. destruct (H1 k v (Hu _ _ Hv)) as (id & l & -> & Hid & Hb). exists id, l.
    split; [done|]. split; [done|]. by rewrite (Hk k id l Hv Hid).
  - intros k1 k2 v Hv1 Hv2. by apply (H2 k1 k2 v); apply Hu.
  - intros b v Hb. by apply H3, Ha.
  - destruct (SafeStrMap.data a !! ""%string) as [v|] eqn:E; [|done]. apply Ha in E. congruence.
Qed.

Lemma DelLease_inv w uuid w' : lease_inv w -> DelLease w uuid = Ret w' -> lease_inv w'.
Proof.
  intros Hi. pose proof Hi as (H1 & H2 & H3 & H4). unfold DelLease, SafeStrMap.GetEx.
  destruct (SafeStrMap.data (UUID w) !! uuid) as [v|] eqn:Eu.
  - destruct (H1 uuid v Eu) as (id & l & -> & Hid & Hb). simpl. rewrite Hid. simpl.
    destruct (is_static l) eqn:Est.
    + cbn [mbind go_bind]. rewrite Hb. simpl. rewrite Hid, Est, andb_false_r. by intros; simplify_eq.
    + cbn [mbind go_bind]. simpl. rewrite Hb. simpl. rewrite Hid, Est, andb_true_r.
      destruct (String.eqb (Lease.UUID l) uuid); intros; simplify_eq; unfold set_maps at 1; simpl;
        apply lease_inv_shrink; try done.
      * intros k v. rewrite Del_lookup. case_decide; [done|]. done.
      * intros b v. rewrite Del_lookup. case_decide; [done|]. done.
      * intros k id' l'. rewrite !Del_lookup. case_decide as Hne; [done|]. intros Hk Hid'.
        case_decide as Ha; [|done]. exfalso. apply Hne.
        destruct (H1 k _ Hk) as (id2 & l2 & [= <-] & Hid2 & Hb2).
        assert (l2 = l') as -> by congruence. rewrite <- Ha, Hb in Hb2. injection Hb2 as <-.
        by apply (H2 uuid k (Some id)).
      * intros k v. rewrite Del_lookup. case_decide; [done|]. done.
  - cbn [mbind go_bind]. rewrite H4. by intros; simplify_eq.
Qed.

Lemma touch_inv w id uuid alias client type net :
  lease_inv w -> lease_inv (touch w id uuid alias client type net).
Proof.
  intros (H1 & H2 & H3 & H4). unfold touch. destruct (leases w !! id) as [l|] eqn:El; [|done].
  assert (Hl : forall i li, leases w !! i = Some li ->
            exists li', <[id := {| Lease.Address := Lease.Address l; Lease.UUID := uuid; Lease.Alias := alias;
              Lease.Client := client; Lease.Type_ := type; Lease.Network := net |}]> (leases w) !! i = Some li' /\
              Lease.Address li' = Lease.Address li).
  { intros i li Hi. destruct (decide (i = id)) as [->|Hne].
    - eexists. rewrite list_lookup_insert_eq by (by eapply lookup_lt_Some). split; [done|]. simpl. congruence.
    - exists li. by rewrite list_lookup_insert_ne by done. }
  split; [|split; [done|split; [|done]]]; simpl.
  - intros k v Hk. destruct (H1 k v Hk) as (i & li & -> & Hi & Hb).
    destruct (Hl i li Hi) as (li' & Hi' & Ea). exists i, li'. by rewrite Ea.
  - intros a v Ha. destruct (H3 a v Ha) as (i & li & -> & Hi & Hb).
    destruct (Hl i li Hi) as (li' & Hi' & Ea). exists i, li'. by rewrite Ea.
Qed.

(** The lease an identity holds. *)
Definition lease_of (w : network) (uuid : string) : option Lease.t :=
  GetLease w uuid ≫= fun id => leases w !! id.

(** Giving a lease up never panics, takes nothing from others and keeps static leases;
    a dynamic lease is gone, and with it the address, if it still belongs to the
    identity. *)
Lemma DelLease_spec w uuid :
  lease_inv w ->
  exists w', DelLease w uuid = Ret w' /\
    (forall k, k <> uuid -> lease_of w' k = lease_of w k) /\
    (forall l, lease_of w uuid = Some l -> is_static l = true -> w' = w) /\
    (forall l, lease_of w uuid = Some l -> is_static l = false ->
       lease_of w' uuid = None /\
       (Lease.UUID l = uuid -> (SafeStrMap.GetEx (Addr w') (Lease.Address l)).2 = false)).
Proof.
  intros (H1 & H2 & H3 & H4). unfold DelLease, lease_of, GetLease, SafeStrMap.GetEx.
  destruct (SafeStrMap.data (UUID w) !! uuid) as [v|] eqn:Eu.
  2:{ cbn [mbind go_bind]. rewrite H4. exists w. done. }
  destruct (H1 uuid v Eu) as (id & l & -> & Hid & Hb). simpl. rewrite Hid. simpl.
  destruct (is_static l) eqn:Est; cbn [mbind go_bind]; simpl; rewrite Hb; simpl; rewrite Hid, Est.
  { rewrite andb_false_r. exists w. split; [done|]. split; [done|]. split; [done|]. congruence. }
  rewrite andb_true_r.
  destruct (String.eqb_spec (Lease.UUID l) uuid) as [Hu|Hu]; eexists; (split; [done|]); simpl;
    (split; [intros k Hk; rewrite Del_lookup, decide_False by congruence; done|]); (split; [congruence|]);
    intros l' [= <-] _; rewrite !Del_lookup, !decide_True by done; (split; [done|]);
    intros Hu'; [done|by exfalso].
Qed.

Lemma lease_inv_new : lease_inv NewNetworkCache.
Proof. split_and!; intros *; simpl; by rewrite ?lookup_empty. Qed.

Lemma lease_inv_unique w k1 k2 l1 l2 :
  lease_inv w -> lease_of w k1 = Some l1 -> lease_of w k2 = Some l2 -> k1 <> k2 ->
  Lease.Address l1 <> Lease.Address l2 /\
  (SafeStrMap.GetEx (Addr w) (Lease.Address l1)).1 = GetLease w k1.
Proof.
  intros (H1 & H2 & _ & _). unfold lease_of, GetLease, SafeStrMap.GetEx.
  destruct (SafeStrMap.data (UUID w) !! k1) as [v1|] eqn:E1; [|done].
  destruct (SafeStrMap.data (UUID w) !! k2) as [v2|] eqn:E2; [|done]. simpl.
  destruct (H1 _ _ E1) as (id1 & m1 & -> & Hm1 & Ha1), (H1 _ _ E2) as (id2 & m2 & -> & Hm2 & Ha2).
  simpl. rewrite Hm1, Hm2. intros [= <-] [= <-] Hne. split.
  - intros E. rewrite E, Ha2 in Ha1. injection Ha1 as ->. apply Hne. by apply (H2 _ _ (Some id1)).
  - by rewrite Ha1.
Qed.

(** A call that is alone makes what the functions above say. *)
Fixpoint advances (n : nat) (w : network) (c : call) : go (network * call) :=
  match n with O => Ret (w, c) | S n => r ← advance w c; advances n r.1 r.2 end.

Lemma advances_add n m w c : advances (n + m) w c = (r ← advances n w c; advances m r.1 r.2).
Proof.
  revert w c. induction n as [|n IH]; intros w c; [done|]. cbn [advances Nat.add].
  destruct (advance w c) as [[w1 c1]|]; [|done]. apply IH.
Qed.

Lemma alloc_loop_alone fuel w uuid i end_ ip :
  alloc_loop fuel (Addr w) i end_ = Some ip -> ip <> ""%string ->
  exists n, advances n w (N_loop uuid i end_) = Ret (w, A_uuid uuid ip true).
Proof.
  revert i. induction fuel as [|fuel IH]; intros i; cbn [alloc_loop]; [done|].
  destruct (i <=? end_) eqn:Ei; [|by intros [= <-]].
  destruct (SafeStrMap.GetEx (Addr w) (addr_string i)).2 eqn:E.
  - intros H Hne. destruct (IH _ H Hne) as [n Hn]. exists (S n). cbn [advances advance]. rewrite Ei, E. exact Hn.
  - intros [= <-] _. exists 1%nat. cbn [advances advance]. by rewrite Ei, E.
Qed.

Lemma AddLease_alone w uuid ip : exists n,
  advances n w (A_uuid uuid ip false) = Ret ((AddLease w uuid ip).1, Returned (AddLease w uuid ip).2).
Proof.
  exists 2%nat. cbn [advances advance]. unfold AddLease. by destruct (String.eqb ip "").
Qed.

Lemma NewLease_alone w uuid net w' id :
  NewLease w uuid net = Ret (w', Some id) ->
  exists n, advances n w (N_get uuid net) = Ret (w', Returned (Some id)).
Proof.
  unfold NewLease. destruct (Get w net) as [nw|] eqn:Eg; [|done]. destruct (String.eqb uuid "") eqn:Eu; [done|].
  destruct (SafeStrMap.GetEx (UUID w) uuid) as [v []] eqn:Ev.
  { intros [= <- ->]. exists 2%nat. cbn [advances advance]. rewrite Eg, Eu. cbn. by rewrite Ev. }
  unfold allocLease. destruct (ParseIP (Network.IpStart nw)) as [s|] eqn:Es; [|done].
  destruct (ParseIP (Network.IpEnd nw)) as [e|] eqn:Ee; [|done].
  destruct (ip_number s) as [i|] eqn:Ei; [|done]. destruct (ip_number e) as [j|] eqn:Ej; [|done]. cbn [mbind go_bind].
  destruct (alloc_loop _ _ i j) as [ip|] eqn:Ea; [|done]. destruct (String.eqb_spec ip "") as [|Hne]; [done|].
  intros [= <- Hid]. destruct (alloc_loop_alone _ _ uuid _ _ _ Ea Hne) as [n Hn]. exists (2 + (n + 3))%nat.
  rewrite advances_add. cbn [advances advance]. rewrite Eg, Eu. cbn [mbind go_bind fst snd advance].
  rewrite Ev, Es, Ee, Ei, Ej. cbn [mbind go_bind fst snd]. rewrite advances_add, Hn. cbn [mbind go_bind fst snd].
  unfold AddLease in *. rewrite (proj2 (String.eqb_neq _ _) Hne) in *. cbn [advances advance mbind go_bind fst snd].
  rewrite (proj2 (String.eqb_neq _ _) Hne). cbn [mbind go_bind fst snd]. cbn [fst] in Hid. cbn. f_equal. f_equal. f_equal.
  exact Hid.
Qed.

Lemma DelLease_alone w uuid w' : DelLease w uuid = Ret w' -> advances 7 w (D_get uuid) = Ret (w', Returned None).
Proof.
  assert (Hend : forall n w, advances n w (Returned None) = Ret (w, Returned None))
    by (induction n; intros; [done|cbn; auto]).
  assert (Htail : forall w1 addr,
    (match SafeStrMap.GetEx (Addr w1) addr with
     | (v, true) => match v ≫= fun id => leases w1 !! id with
                    | None => Panic
                    | Some lease => if String.eqb (Lease.UUID lease) uuid && negb (is_static lease)
                                    then Ret (set_maps w1 (UUID w1) (SafeStrMap.Del (Addr w1) addr) (leases w1)) else Ret w1
                    end
     | (_, false) => Ret w1
     end) = Ret w' -> forall k, advances (4 + k) w1 (D_addr uuid addr) = Ret (w', Returned None)).
  { intros w1 addr H k. cbn [advances advance Nat.add]. destruct (SafeStrMap.GetEx (Addr w1) addr) as [v []].
    2:{ injection H as <-. cbn. apply Hend. }
    destruct v as [id|]; [|done]. cbn in H |- *. destruct (leases w1 !! id) as [l|] eqn:El; [|done]. cbn. rewrite El. cbn.
    destruct (String.eqb (Lease.UUID l) uuid); cbn in H |- *; [|by injection H as <-]. rewrite El. cbn.
    destruct (is_static l); cbn in H |- *; injection H as <-; by rewrite ?Hend. }
  unfold DelLease. cbn [advances advance]. destruct (SafeStrMap.GetEx (UUID w) uuid) as [v []].
  2:{ cbn [mbind go_bind fst snd]. intros H. exact (Htail w "" H 2%nat). }
  destruct v as [id|]; [|done]. cbn. destruct (leases w !! id) as [l|] eqn:El; [|done]. cbn. rewrite El. cbn.
  destruct (is_static l); cbn; intros H; [exact (Htail w _ H 1%nat)|exact (Htail _ _ H 0%nat)].
Qed.

(** ** The calls together *)

(** A call that has found an address free and has not yet written it down. *)
Definition writing (c : call) : bool := match c with A_uuid _ _ _ | A_addr _ _ _ _ => true | _ => false end.
(** A call that gives a lease up. *)
Definition releasing (c : call) : bool :=
  match c with D_type _ _ | D_del _ _ | D_addr _ _ | D_owner _ _ _ | D_kind _ _ | D_free _ => true | _ => false end.
Definition at_most_one (f : call -> bool) (cs : list call) : bool := (length (List.filter f cs) <=? 1)%nat.

(** A run in which no two calls are between finding an address free and writing it down, no
    two give a lease up at the same time, an address given by name is free when the call
    is made, and the map of addresses is not full when one is written to it. *)
Definition orderly_event (p : switch_leases) (e : lease_event) : bool :=
  match e with
  | Call_AddLease _ ip => negb (SafeStrMap.GetEx (Addr (sl_w p)) ip).2
  | Advance i => match sl_calls p !! i with Some (A_addr _ _ _ _) => negb (SafeStrMap.full (Addr (sl_w p))) | _ => true end
  | _ => true
  end.
Fixpoint orderly (p : switch_leases) (es : list lease_event) : bool :=
  at_most_one writing (sl_calls p) && at_most_one releasing (sl_calls p) &&
  match es with
  | [] => true
  | e :: es => orderly_event p e && match lease_step p e with Ret p => orderly p es | Panic => true end
  end.

Lemma at_most_one_index f cs i j a b :
  at_most_one f cs = true -> cs !! i = Some a -> cs !! j = Some b -> f a = true -> f b = true -> i = j.
Proof.
  unfold at_most_one. intros H%Nat.leb_le. revert i j H. induction cs as [|c cs IH]; [by intros [] ?|].
  assert (Hin : forall k x, cs !! k = Some x -> f x = true -> (0 < length (List.filter f cs))%nat).
  { intros k x Hx Hf. assert (In x (List.filter f cs)) as Hi; [|by destruct (List.filter f cs); [|cbn; lia]].
    apply filter_In. split; [|done]. by apply list_elem_of_In, list_elem_of_lookup_2 with k. }
  intros [|i] [|j]; cbn [List.filter lookup list_lookup]; intros H Hi Hj Ha Hb; [done| | |].
  - injection Hi as ->. rewrite Ha in H. cbn in H. pose proof (Hin _ _ Hj Hb). lia.
  - injection Hj as ->. rewrite Hb in H. cbn in H. pose proof (Hin _ _ Hi Ha). lia.
  - f_equal. apply IH; try done. destruct (f c); cbn in H; lia.
Qed.

(** An address a call is about to write down. *)
Definition pending (cs : list call) (k a : string) (id : nat) : Prop := exists fresh, A_addr k a id fresh ∈ cs.
Definition reserved (w : network) (cs : list call) (a : string) : Prop :=
  SafeStrMap.data (Addr w) !! a <> None \/ exists k id, pending cs k a id.

Record tables_ok (w : network) (cs : list call) : Prop := {
  to_uuid : forall k v, SafeStrMap.data (UUID w) !! k = Some v ->
    exists id l, v = Some id /\ leases w !! id = Some l /\
      (SafeStrMap.data (Addr w) !! Lease.Address l = Some (Some id) \/ pending cs k (Lease.Address l) id);
  to_inj : forall k1 k2 v, SafeStrMap.data (UUID w) !! k1 = Some v -> SafeStrMap.data (UUID w) !! k2 = Some v -> k1 = k2;
  to_addr : forall a v, SafeStrMap.data (Addr w) !! a = Some v ->
    exists id l, v = Some id /\ leases w !! id = Some l /\ Lease.Address l = a;
  to_empty : SafeStrMap.data (Addr w) !! ""%string = None
}.

(** Every identity with the address has a static lease, or there is none. *)
Definition all_static (w : network) (a : string) : Prop :=
  forall k id l, SafeStrMap.data (UUID w) !! k = Some (Some id) -> leases w !! id = Some l -> Lease.Address l = a ->
    is_static l = true.
Definition no_holder (w : network) (a : string) : Prop :=
  forall k id l, SafeStrMap.data (UUID w) !! k = Some (Some id) -> leases w !! id = Some l -> Lease.Address l <> a.

(** What a call knows at the point it has reached. *)
Definition call_ok (w : network) (cs : list call) (c : call) : Prop :=
  match c with
  | A_uuid _ ip _ => SafeStrMap.data (Addr w) !! ip = None
  | A_addr _ ip id _ =>
      SafeStrMap.data (Addr w) !! ip = None /\ ip <> ""%string /\ exists l, leases w !! id = Some l /\ Lease.Address l = ip
  | D_type uuid id => SafeStrMap.data (UUID w) !! uuid = Some (Some id)
  | D_del uuid a => exists id l, SafeStrMap.data (UUID w) !! uuid = Some (Some id) /\ leases w !! id = Some l /\ Lease.Address l = a
  | D_addr _ a => a = ""%string \/ reserved w cs a /\ all_static w a
  | D_owner _ a id | D_kind a id => SafeStrMap.data (Addr w) !! a = Some (Some id) /\ all_static w a
  | D_free a => SafeStrMap.data (Addr w) !! a <> None /\ no_holder w a
  | _ => True
  end.
Definition leases_ok (p : switch_leases) : Prop :=
  tables_ok (sl_w p) (sl_calls p) /\ forall c, c ∈ sl_calls p -> call_ok (sl_w p) (sl_calls p) c.

Lemma holder_unique w cs k1 k2 id1 id2 l1 l2 :
  tables_ok w cs -> (forall c, c ∈ cs -> call_ok w cs c) -> at_most_one writing cs = true ->
  SafeStrMap.data (UUID w) !! k1 = Some (Some id1) -> leases w !! id1 = Some l1 ->
  SafeStrMap.data (UUID w) !! k2 = Some (Some id2) -> leases w !! id2 = Some l2 ->
  Lease.Address l1 = Lease.Address l2 -> k1 = k2.
Proof.
  intros Hok Hc H1 U1 L1 U2 L2 E.
  destruct (to_uuid _ _ Hok _ _ U1) as (i & l & [= <-] & Hl & P1). assert (l = l1) as -> by congruence.
  destruct (to_uuid _ _ Hok _ _ U2) as (i' & l' & [= <-] & Hl' & P2). assert (l' = l2) as -> by congruence.
  assert (Hp : forall k a id, pending cs k a id -> SafeStrMap.data (Addr w) !! a = None).
  { intros k a id [fresh Hin]. by apply Hc in Hin as (? & _). }
  rewrite <- E in P2. destruct P1 as [P1|P1], P2 as [P2|P2].
  - rewrite P1 in P2. injection P2 as ->. by apply (to_inj _ _ Hok _ _ (Some id2)).
  - apply Hp in P2. congruence.
  - apply Hp in P1. congruence.
  - destruct P1 as [f1 [j1 J1]%list_elem_of_lookup], P2 as [f2 [j2 J2]%list_elem_of_lookup].
    pose proof (at_most_one_index writing cs j1 j2 _ _ H1 J1 J2 eq_refl eq_refl) as ->. congruence.
Qed.

Lemma lookup_update (cs : list call) i c' x : x ∈ <[i := c']> cs -> x = c' \/ exists j, j <> i /\ cs !! j = Some x.
Proof.
  intros [j Hj]%list_elem_of_lookup. destruct (decide (i = j)) as [<-|Hne].
  - left. destruct (cs !! i) as [c|] eqn:E.
    + rewrite list_lookup_insert_eq in Hj by (by eapply lookup_lt_Some). congruence.
    + apply lookup_ge_None in E. rewrite list_insert_ge in Hj by done. apply lookup_lt_Some in Hj. lia.
  - right. exists j. split; [congruence|]. by rewrite list_lookup_insert_ne in Hj.
Qed.

(** The writes of a call that has not written stay pending while another takes its step. *)
Lemma pending_update cs i c c' k a id :
  cs !! i = Some c -> pending cs k a id -> (forall fresh, c <> A_addr k a id fresh) -> pending (<[i := c']> cs) k a id.
Proof.
  intros Hi [fresh [j Hj]%list_elem_of_lookup] Hc. exists fresh. apply list_elem_of_lookup. exists j.
  rewrite list_lookup_insert_ne; [done|]. intros ->. apply (Hc fresh). congruence.
Qed.

(** What has to stay for the other calls when the tables go from [w] to [w']. *)
Record keeps (w w' : network) (cs cs' : list call) (c : call) : Prop := {
  kp_leases : forall id l, leases w !! id = Some l -> exists l', leases w' !! id = Some l' /\
    Lease.Address l' = Lease.Address l /\ (is_static l = true -> is_static l' = true);
  kp_free : writing c = true -> forall a, SafeStrMap.data (Addr w) !! a = None -> SafeStrMap.data (Addr w') !! a = None;
  kp_uuid : releasing c = true ->
    forall k v, SafeStrMap.data (UUID w) !! k = Some v -> SafeStrMap.data (UUID w') !! k = Some v;
  kp_addr : releasing c = true ->
    forall a v, SafeStrMap.data (Addr w) !! a = Some v -> SafeStrMap.data (Addr w') !! a = Some v;
  kp_reserved : releasing c = true -> forall a, reserved w cs a -> reserved w' cs' a;
  kp_holders : releasing c = true -> forall k id l, SafeStrMap.data (UUID w') !! k = Some (Some id) ->
    leases w' !! id = Some l -> reserved w cs (Lease.Address l) -> SafeStrMap.data (UUID w) !! k = Some (Some id)
}.

Lemma all_static_keeps w w' cs cs' c a :
  tables_ok w cs -> keeps w w' cs cs' c -> releasing c = true -> reserved w cs a -> all_static w a -> all_static w' a.
Proof.
  intros Hok [Kl _ _ _ _ Kh] Hr Hres Hall k id l' Hu Hl Ha. rewrite <- Ha in Hres.
  pose proof (Kh Hr _ _ _ Hu Hl Hres) as Hu0. destruct (to_uuid _ _ Hok _ _ Hu0) as (i & l & [= <-] & Hl0 & _).
  destruct (Kl _ _ Hl0) as (l2 & Hl2 & Ha2 & Hs). assert (l2 = l') as -> by congruence.
  apply Hs, (Hall k id); congruence.
Qed.

Lemma no_holder_keeps w w' cs cs' c a :
  tables_ok w cs -> keeps w w' cs cs' c -> releasing c = true -> reserved w cs a -> no_holder w a -> no_holder w' a.
Proof.
  intros Hok [Kl _ _ _ _ Kh] Hr Hres Hall k id l' Hu Hl Ha. rewrite <- Ha in Hres.
  pose proof (Kh Hr _ _ _ Hu Hl Hres) as Hu0. destruct (to_uuid _ _ Hok _ _ Hu0) as (i & l & [= <-] & Hl0 & _).
  destruct (Kl _ _ Hl0) as (l2 & Hl2 & Ha2 & _). assert (l2 = l') as -> by congruence.
  apply (Hall k id l); congruence.
Qed.

Lemma call_ok_keeps w w' cs cs' c : tables_ok w cs -> keeps w w' cs cs' c -> call_ok w cs c -> call_ok w' cs' c.
Proof.
  intros Hok K. pose proof K as [Kl Kf Ku Ka Kr _].
  assert (Hl : forall id a, (exists l, leases w !! id = Some l /\ Lease.Address l = a) ->
            exists l, leases w' !! id = Some l /\ Lease.Address l = a).
  { intros id a (l & H1 & H2). destruct (Kl _ _ H1) as (l' & ? & ? & _). exists l'. split; congruence. }
  assert (Hs : forall a, releasing c = true -> SafeStrMap.data (Addr w) !! a <> None -> SafeStrMap.data (Addr w') !! a <> None).
  { intros a Hr. destruct (_ !! a) as [v|] eqn:E; [|done]. intros _. by rewrite (Ka Hr _ _ E). }
  destruct c; cbn [call_ok]; try done.
  - by apply Kf.
  - intros (H1 & H2 & H3). split_and!; [by apply Kf|done|by apply Hl].
  - by apply Ku.
  - intros (id & l & H1 & H2). destruct (Hl id addr) as (l' & H3); [by exists l|]. exists id, l'.
    split; [by apply Ku|done].
  - intros [?|[H1 H2]]; [by left|right]. split; [by apply Kr|by eapply all_static_keeps].
  - intros [H1 H2]. split; [by apply Ka|]. eapply all_static_keeps; try done. left. congruence.
  - intros [H1 H2]. split; [by apply Ka|]. eapply all_static_keeps; try done. left. congruence.
  - intros [H1 H2]. split; [by apply Hs|]. eapply no_holder_keeps; try done. by left.
Qed.

(** A step of one call: what it leaves behind is in order if the tables are, it knows what
    it has to, and the others are kept. *)
Lemma leases_ok_step w w' cs i c c' :
  tables_ok w cs -> (forall x, x ∈ cs -> call_ok w cs x) -> cs !! i = Some c ->
  tables_ok w' (<[i := c']> cs) -> call_ok w' (<[i := c']> cs) c' ->
  (forall j x, j <> i -> cs !! j = Some x -> keeps w w' cs (<[i := c']> cs) x) ->
  leases_ok {| sl_w := w'; sl_calls := <[i := c']> cs |}.
Proof.
  intros Hok Hc Hi Hok' Hc' Hk. split; [done|]. cbn [sl_w sl_calls]. intros x [->|(j & Hj & Hx)]%lookup_update; [done|].
  apply (call_ok_keeps w w' cs); [done|by apply (Hk j)|]. apply Hc, list_elem_of_lookup. by exists j.
Qed.

Lemma keeps_same w w' cs cs' x :
  leases w' = leases w -> UUID w' = UUID w -> Addr w' = Addr w ->
  (forall k a id, pending cs k a id -> pending cs' k a id) -> keeps w w' cs cs' x.
Proof.
  intros E1 E2 E3 Hp. constructor; unfold reserved; rewrite ?E1, ?E2, ?E3; try done.
  - intros id l Hl. by exists l.
  - intros _ a [?|(k & id & ?)]; [by left|right]. exists k, id. by apply Hp.
Qed.

Lemma tables_ok_same w w' cs cs' :
  leases w' = leases w -> UUID w' = UUID w -> Addr w' = Addr w ->
  (forall k a id, pending cs k a id -> pending cs' k a id) -> tables_ok w cs -> tables_ok w' cs'.
Proof.
  intros E1 E2 E3 Hp [H1 H2 H3 H4]. constructor; rewrite ?E1, ?E2, ?E3; try done.
  intros k v (id & l & ? & ? & H)%H1. exists id, l. split_and!; try done. destruct H; auto.
Qed.

Section step.
Context (w : network) (cs : list call) (i : nat) (c : call).
Hypotheses (Hok : tables_ok w cs) (Hc : forall x, x ∈ cs -> call_ok w cs x) (Hi : cs !! i = Some c).
Hypotheses (Hw : at_most_one writing cs = true) (Hr : at_most_one releasing cs = true).

Lemma this_call_ok : call_ok w cs c.
Proof. apply Hc, list_elem_of_lookup. by exists i. Qed.

Lemma other_writing j x : j <> i -> cs !! j = Some x -> writing c = true -> writing x = true -> False.
Proof. intros Hj Hx H1 H2. apply Hj. by apply (at_most_one_index writing cs j i x c). Qed.
Lemma other_releasing j x : j <> i -> cs !! j = Some x -> releasing c = true -> releasing x = true -> False.
Proof. intros Hj Hx H1 H2. apply Hj. by apply (at_most_one_index releasing cs j i x c). Qed.

(** A step that changes no table. *)
Lemma quiet_ok c' : (forall k a id fresh, c <> A_addr k a id fresh) ->
  ((forall k a id, pending cs k a id -> pending (<[i := c']> cs) k a id) -> call_ok w (<[i := c']> cs) c') ->
  leases_ok {| sl_w := w; sl_calls := <[i := c']> cs |}.
Proof.
  intros Hn Hc'.
  assert (Hp : forall k a id, pending cs k a id -> pending (<[i := c']> cs) k a id).
  { intros k a id H. eapply pending_update; [exact Hi|done|]. intros fresh. apply Hn. }
  apply (leases_ok_step w w cs i c); [done..|by apply (tables_ok_same w w cs)|by apply Hc'|].
  intros j x _ _. by apply keeps_same.
Qed.

(** [AddLease] enters the identity, unless it has an entry. *)
Lemma enter_uuid_ok uuid ip fresh :
  c = A_uuid uuid ip fresh -> ip <> ""%string ->
  leases_ok {| sl_w := set_maps w (SafeStrMap.Set_ (UUID w) uuid (Some (length (leases w)))).1 (Addr w)
                         (leases w ++ [Lease.NewLease uuid ip]);
               sl_calls := <[i := A_addr uuid ip (length (leases w)) fresh]> cs |}.
Proof.
  intros Ec Hne. pose proof this_call_ok as Ha. rewrite Ec in Ha. cbn [call_ok] in Ha.
  set (new := A_addr uuid ip (length (leases w)) fresh).
  assert (Hl : forall id l, leases w !! id = Some l ->
            (leases w ++ [Lease.NewLease uuid ip]) !! id = Some l /\ id <> length (leases w)).
  { intros id l Hid. split; [by apply lookup_app_l_Some|]. apply lookup_lt_Some in Hid. lia. }
  assert (Hnew : (leases w ++ [Lease.NewLease uuid ip]) !! length (leases w) = Some (Lease.NewLease uuid ip))
    by (by rewrite lookup_app_r, Nat.sub_diag by lia).
  assert (Eu : forall k v, SafeStrMap.data (SafeStrMap.Set_ (UUID w) uuid (Some (length (leases w)))).1 !! k = Some v ->
            SafeStrMap.data (UUID w) !! k = Some v \/ (k = uuid /\ v = Some (length (leases w)))).
  { unfold SafeStrMap.Set_, SafeStrMap.add. intros k v. destruct (SafeStrMap.full (UUID w)); [by left|].
    destruct (SafeStrMap.data (UUID w) !! uuid); [by left|]. simpl.
    intros [[<- <-]|[_ ?]]%lookup_insert_Some; [by right|by left]. }
  assert (Hgrow : forall k v, SafeStrMap.data (UUID w) !! k = Some v ->
            SafeStrMap.data (SafeStrMap.Set_ (UUID w) uuid (Some (length (leases w)))).1 !! k = Some v).
  { unfold SafeStrMap.Set_, SafeStrMap.add. intros k v Hk. destruct (SafeStrMap.full (UUID w)); [done|].
    destruct (SafeStrMap.data (UUID w) !! uuid) eqn:E; [done|]. simpl. rewrite lookup_insert_ne; [done|]. congruence. }
  assert (Hp : forall k a id, pending cs k a id -> pending (<[i := new]> cs) k a id)
    by (intros k a id H; eapply pending_update; [exact Hi|done|by rewrite Ec]).
  assert (Hfree : ~ reserved w cs ip).
  { intros [?|(k & id & fr & [j Hj]%list_elem_of_lookup)]; [done|].
    apply (other_writing j (A_addr k ip id fr)); try done; [|by rewrite Ec]. intros ->. congruence. }
  apply (leases_ok_step w _ cs i c); [done..| | |].
  - destruct Hok as [H1 H2 H3 H4]. constructor; cbn [UUID Addr leases set_maps].
    + intros k v [(id & l & -> & Hid & H)%H1|[-> ->]]%Eu.
      * exists id, l. split_and!; [done|by apply Hl|]. destruct H; auto.
      * eexists _, _. split_and!; [done|exact Hnew|]. right. exists fresh. apply list_elem_of_lookup.
        exists i. by rewrite list_lookup_insert_eq by (by eapply lookup_lt_Some).
    + intros k1 k2 v [Ho1|[-> ->]]%Eu [Ho2|[-> E2]]%Eu; try done.
      * by apply (H2 _ _ v).
      * subst v. destruct (H1 _ _ Ho1) as (id & l & [= <-] & Hid & _). by destruct (Hl _ _ Hid).
      * destruct (H1 _ _ Ho2) as (id & l & [= <-] & Hid & _). by destruct (Hl _ _ Hid).
    + intros a v (id & l & -> & Hid & H)%H3. exists id, l. split_and!; [done|by apply Hl|done].
    + done.
  - cbn. split_and!; [done..|]. by eexists.
  - intros j x Hj Hx. constructor; cbn [UUID Addr leases set_maps]; try done.
    + intros id l Hid. exists l. split; [by apply Hl|done].
    + intros _ a [?|(k & id & ?)]; [by left|right]. exists k, id. by apply Hp.
    + intros _ k id l [Hu|[-> [= ->]]]%Eu Hid Hres; [done|]. rewrite Hnew in Hid. injection Hid as <-. done.
Qed.
(** [AddLease] enters the address. *)
Lemma enter_addr_ok uuid ip id fresh c' :
  c = A_addr uuid ip id fresh -> SafeStrMap.full (Addr w) = false -> (forall w' cs', call_ok w' cs' c' = True) ->
  leases_ok {| sl_w := set_maps w (UUID w) (SafeStrMap.Set_ (Addr w) ip (Some id)).1 (leases w); sl_calls := <[i := c']> cs |}.
Proof.
  intros Ec Hf Ht. pose proof this_call_ok as Ha. rewrite Ec in Ha. destruct Ha as (Ha & Hne & l0 & Hl0 & Hip).
  assert (Ea : (SafeStrMap.Set_ (Addr w) ip (Some id)).1 = SafeStrMap.upd (Addr w) (<[ip := Some id]> (SafeStrMap.data (Addr w)))).
  { unfold SafeStrMap.Set_, SafeStrMap.add. by rewrite Hf, Ha. }
  rewrite Ea.
  assert (Hg : forall b v, SafeStrMap.data (Addr w) !! b = Some v -> <[ip := Some id]> (SafeStrMap.data (Addr w)) !! b = Some v).
  { intros b v Hb. rewrite lookup_insert_ne; [done|]. congruence. }
  assert (Hp : forall k a id', pending cs k a id' ->
            (k = uuid /\ a = ip /\ id' = id) \/ pending (<[i := c']> cs) k a id').
  { intros k a id' H. destruct (decide ((k, a, id') = (uuid, ip, id))) as [[= -> -> ->]|Hn]; [by left|right].
    eapply pending_update; [exact Hi|done|]. intros fr. rewrite Ec. congruence. }
  apply (leases_ok_step w _ cs i c); [done..| | |].
  - destruct Hok as [H1 H2 H3 H4]. constructor; cbn [UUID Addr leases set_maps SafeStrMap.data SafeStrMap.upd]; try done.
    + intros k v (id1 & l & -> & Hid & H)%H1. exists id1, l. split_and!; [done..|]. destruct H as [H|H]; [by left; apply Hg|].
      apply Hp in H as [(-> & -> & ->)|H]; [left; apply lookup_insert_eq|by right].
    + intros b v [[<- <-]|[_ Hb]]%lookup_insert_Some; [by exists id, l0|by apply H3].
    + by rewrite lookup_insert_ne.
  - by rewrite Ht.
  - intros j x Hj Hx. constructor; cbn [UUID Addr leases set_maps SafeStrMap.data SafeStrMap.upd]; try done.
    + intros id1 l Hid. by exists l.
    + intros Hwx. exfalso. apply (other_writing j x); try done. by rewrite Ec.
    + intros _ b [Hb|(k & id1 & H)].
      * left. cbn. destruct (SafeStrMap.data (Addr w) !! b) as [v|] eqn:E; [|done]. by rewrite (Hg _ _ E).
      * apply Hp in H as [(-> & -> & ->)|H]; [left; cbn; by rewrite lookup_insert_eq|right; by exists k, id1].
Qed.

(** [DelLease] takes the identity out. *)
Lemma remove_uuid_ok uuid addr :
  c = D_del uuid addr ->
  leases_ok {| sl_w := set_maps w (SafeStrMap.Del (UUID w) uuid) (Addr w) (leases w);
               sl_calls := <[i := D_addr uuid addr]> cs |}.
Proof.
  intros Ec. pose proof this_call_ok as Ha. rewrite Ec in Ha. destruct Ha as (id & l & Hu & Hl & Hadr).
  assert (Hp : forall k a id, pending cs k a id -> pending (<[i := D_addr uuid addr]> cs) k a id)
    by (intros k a id' H; eapply pending_update; [exact Hi|done|by rewrite Ec]).
  assert (Hdel : forall k v, SafeStrMap.data (SafeStrMap.Del (UUID w) uuid) !! k = Some v ->
            k <> uuid /\ SafeStrMap.data (UUID w) !! k = Some v).
  { intros k v. rewrite Del_lookup. case_decide; [done|]. split; [congruence|done]. }
  apply (leases_ok_step w _ cs i c); [done..| | |].
  - destruct Hok as [H1 H2 H3 H4]. constructor; cbn [UUID Addr leases set_maps]; try done.
    + intros k v [_ (id1 & l1 & -> & Hid & H)%H1]%Hdel. exists id1, l1. split_and!; [done..|]. destruct H; auto.
    + intros k1 k2 v [_ Hk1]%Hdel [_ Hk2]%Hdel. by apply (H2 k1 k2 v).
  - right. split.
    + destruct (to_uuid _ _ Hok _ _ Hu) as (id1 & l1 & [= <-] & Hid & H). assert (l1 = l) as -> by congruence.
      subst addr. destruct H as [H|H]; [left; cbn; congruence|right; exists uuid, id; by apply Hp].
    + intros k id1 l1 [Hne Hk]%Hdel Hid Ha1. exfalso. apply Hne.
      apply (holder_unique w cs k uuid id1 id l1 l); try done. congruence.
  - intros j x Hj Hx. assert (Hno : releasing x = true -> False) by (apply other_releasing with j; [done..|by rewrite Ec]).
    constructor; cbn [UUID Addr leases set_maps]; try done; try (intros Hx'; by destruct (Hno Hx')).
    intros id1 l1 Hid. by exists l1.
Qed.

(** [DelLease] takes the address out. *)
Lemma remove_addr_ok addr :
  c = D_free addr ->
  leases_ok {| sl_w := set_maps w (UUID w) (SafeStrMap.Del (Addr w) addr) (leases w); sl_calls := <[i := Returned None]> cs |}.
Proof.
  intros Ec. pose proof this_call_ok as Ha. rewrite Ec in Ha. destruct Ha as (Htk & Hno).
  assert (Hp : forall k a id, pending cs k a id -> pending (<[i := Returned None]> cs) k a id)
    by (intros k a id' H; eapply pending_update; [exact Hi|done|by rewrite Ec]).
  apply (leases_ok_step w _ cs i c); [done..| |done|].
  - destruct Hok as [H1 H2 H3 H4]. constructor; cbn [UUID Addr leases set_maps]; try done.
    + intros k v Hk. destruct (H1 k v Hk) as (id & l & -> & Hid & H). exists id, l. split_and!; [done..|].
      pose proof (Hno _ _ _ Hk Hid) as Hne. destruct H as [H|H]; [left|right; by apply Hp].
      rewrite Del_lookup, decide_False by congruence. done.
    + intros b v. rewrite Del_lookup. case_decide; [done|]. by apply H3.
    + rewrite Del_lookup. by case_decide.
  - intros j x Hj Hx. assert (Hnr : releasing x = true -> False) by (apply other_releasing with j; [done..|by rewrite Ec]).
    constructor; cbn [UUID Addr leases set_maps]; try (intros Hx'; by destruct (Hnr Hx')).
    + intros id1 l1 Hid. by exists l1.
    + intros _ b Hb. rewrite Del_lookup. by case_decide.
Qed.

Lemma lease_at_ref_known v r : lease_at_ref w v = Ret r -> v = Some r.1 /\ leases w !! r.1 = Some r.2.
Proof. unfold lease_at_ref. destruct v as [id|]; [|done]. destruct (leases w !! id) eqn:E; [|done]. by intros [= <-]. Qed.

Lemma owner_step_ok uuid addr id : c = D_owner uuid addr id -> leases_ok {| sl_w := w; sl_calls := <[i := D_kind addr id]> cs |}.
Proof. intros Ec. pose proof this_call_ok as Ha. rewrite Ec in Ha. (apply quiet_ok; [by rewrite Ec|by intros _]). Qed.

Lemma type_step_ok uuid id l : c = D_type uuid id -> leases w !! id = Some l ->
  leases_ok {| sl_w := w; sl_calls := <[i := if is_static l then D_addr uuid (Lease.Address l)
                                             else D_del uuid (Lease.Address l)]> cs |}.
Proof.
  intros Ec Hl. pose proof this_call_ok as Ha. rewrite Ec in Ha. cbn in Ha. apply quiet_ok; [by rewrite Ec|intros Hp].
  destruct (is_static l) eqn:Es; [|by exists id, l]. right.
  destruct (to_uuid _ _ Hok _ _ Ha) as (id1 & l1 & [= <-] & Hid & H). assert (l1 = l) as -> by congruence. split.
  - destruct H as [H|H]; [left; congruence|right; exists uuid, id; by apply Hp].
  - intros k id2 l2 Hk Hid2 E.
    pose proof (holder_unique w cs k uuid id2 id l2 l Hok Hc Hw Hk Hid2 Ha Hl E) as ->. congruence.
Qed.

Lemma kind_step_ok addr id l : c = D_kind addr id -> leases w !! id = Some l -> is_static l = false ->
  leases_ok {| sl_w := w; sl_calls := <[i := D_free addr]> cs |}.
Proof.
  intros Ec Hl Es. pose proof this_call_ok as Ha. rewrite Ec in Ha. destruct Ha as (Ha & Hall).
  apply quiet_ok; [by rewrite Ec|intros Hp]. split; [congruence|]. intros k id1 l1 Hk Hid E.
  pose proof (Hall _ _ _ Hk Hid E) as Hst. destruct (to_uuid _ _ Hok _ _ Hk) as (id2 & l2 & [= <-] & Hid2 & H).
  assert (l2 = l1) as -> by congruence. rewrite E in H. destruct H as [H|[fresh H]].
  - rewrite Ha in H. injection H as ->. congruence.
  - apply Hc in H as (H & _). congruence.
Qed.

Lemma advance_ok r :
  (forall k a id fresh, c = A_addr k a id fresh -> SafeStrMap.full (Addr w) = false) -> advance w c = Ret r ->
  leases_ok {| sl_w := r.1; sl_calls := <[i := r.2]> cs |}.
Proof.
  pose proof this_call_ok as Ha. assert (exists c0, c = c0) as [c0 Ec] by eauto. revert Ha. rewrite Ec.
  destruct c0 as [uuid net|uuid n|uuid k e|uuid ip fresh|uuid ip id fresh|uuid
    |uuid|uuid id|uuid addr|uuid addr|uuid addr id|addr id|addr|res]; intros Ha Hf Hr1; cbn [advance] in Hr1.
  - injection Hr1 as <-. apply quiet_ok; [by rewrite Ec|intros _]. cbn. destruct (Get w net); [|done].
    by destruct (String.eqb uuid "").
  - destruct (SafeStrMap.GetEx (UUID w) uuid) as [v []]; [injection Hr1 as <-; (apply quiet_ok; [by rewrite Ec|done])|].
    destruct (ParseIP (Network.IpStart n)) as [s|], (ParseIP (Network.IpEnd n)) as [e|]; try (injection Hr1 as <-; (apply quiet_ok; [by rewrite Ec|done])).
    destruct (ip_number s), (ip_number e); try done. injection Hr1 as <-. (apply quiet_ok; [by rewrite Ec|done]).
  - injection Hr1 as <-. apply quiet_ok; [by rewrite Ec|intros _]. cbn [snd]. destruct (k <=? e); [|done].
    unfold SafeStrMap.GetEx. by destruct (SafeStrMap.data (Addr w) !! addr_string k) eqn:E.
  - injection Hr1 as <-. destruct (String.eqb_spec ip "").
    + (apply quiet_ok; [by rewrite Ec|done]).
    + by apply enter_uuid_ok.
  - injection Hr1 as <-. apply (enter_addr_ok uuid ip id fresh); [done|by eapply Hf|]. intros w' cs'. by destruct fresh.
  - injection Hr1 as <-. (apply quiet_ok; [by rewrite Ec|done]).
  - unfold SafeStrMap.GetEx in Hr1. destruct (SafeStrMap.data (UUID w) !! uuid) as [v|] eqn:Eu.
    + destruct (lease_at_ref w v) as [x|] eqn:Ex; [|done]. apply lease_at_ref_known in Ex as [-> _]. injection Hr1 as <-.
      (apply quiet_ok; [by rewrite Ec|done]).
    + injection Hr1 as <-. apply quiet_ok; [by rewrite Ec|]. by left.
  - destruct (lease_at_ref w (Some id)) as [x|] eqn:Ex; [|done]. apply lease_at_ref_known in Ex as [[= ->] Hx].
    injection Hr1 as <-. by apply type_step_ok with x.1.
  - injection Hr1 as <-. by apply remove_uuid_ok.
  - unfold SafeStrMap.GetEx in Hr1. destruct (SafeStrMap.data (Addr w) !! addr) as [v|] eqn:Ea.
    + destruct (lease_at_ref w v) as [x|] eqn:Ex; [|done]. apply lease_at_ref_known in Ex as [-> _]. injection Hr1 as <-.
      apply quiet_ok; [by rewrite Ec|intros _]. cbn. split; [done|]. destruct Ha as [->|[_ Ha]]; [|done].
      rewrite (to_empty _ _ Hok) in Ea. done.
    + injection Hr1 as <-. (apply quiet_ok; [by rewrite Ec|done]).
  - destruct (lease_at_ref w (Some id)) as [x|] eqn:Ex; [|done]. injection Hr1 as <-. cbn.
    destruct (String.eqb (Lease.UUID x.2) uuid); [by apply owner_step_ok with uuid|(apply quiet_ok; [by rewrite Ec|done])].
  - destruct (lease_at_ref w (Some id)) as [x|] eqn:Ex; [|done]. apply lease_at_ref_known in Ex as [[= ->] Hx].
    injection Hr1 as <-. cbn. destruct (is_static x.2) eqn:Es; [(apply quiet_ok; [by rewrite Ec|done])|].
    by apply kind_step_ok with x.1 x.2.
  - injection Hr1 as <-. by apply remove_addr_ok.
  - injection Hr1 as <-. (apply quiet_ok; [by rewrite Ec|done]).
Qed.
End step.

Lemma begin_ok p c p' : leases_ok p -> call_ok (sl_w p) (sl_calls p) c -> begin_call p c = Ret p' -> leases_ok p'.
Proof.
  intros [Hok Hc] Hn [= <-].
  assert (Hp : forall k a id, pending (sl_calls p) k a id -> pending (sl_calls p ++ [c]) k a id)
    by (intros k a id [fresh H]; exists fresh; set_solver).
  split; cbn [sl_w sl_calls]; [by apply (tables_ok_same (sl_w p) _ (sl_calls p))|].
  intros x Hx. apply (call_ok_keeps (sl_w p) _ (sl_calls p)); [done|by apply keeps_same|].
  apply elem_of_app in Hx as [?|E%list_elem_of_singleton]; [by apply Hc|by subst].
Qed.

Lemma tables_same_ok p w p' : leases_ok p -> leases w = leases (sl_w p) -> UUID w = UUID (sl_w p) ->
  Addr w = Addr (sl_w p) -> change_tables p w = Ret p' -> leases_ok p'.
Proof.
  intros [Hok Hc] E1 E2 E3 [= <-]. split; cbn [sl_w sl_calls]; [by apply (tables_ok_same (sl_w p) _ (sl_calls p))|].
  intros x Hx. apply (call_ok_keeps (sl_w p) _ (sl_calls p)); [done|by apply keeps_same|by apply Hc].
Qed.

Lemma touch_ok p id l uuid alias client type net p' : leases_ok p -> leases (sl_w p) !! id = Some l ->
  type = Lease.Type_ l \/ type = "static"%string ->
  change_tables p (touch (sl_w p) id uuid alias client type net) = Ret p' -> leases_ok p'.
Proof.
  intros [Hok Hc] Hl Ht [= <-]. unfold touch. rewrite Hl.
  set (l' := {| Lease.Address := Lease.Address l; Lease.UUID := uuid; Lease.Alias := alias; Lease.Client := client;
                Lease.Type_ := type; Lease.Network := net |}).
  assert (Hk : forall i x, leases (sl_w p) !! i = Some x -> exists x', <[id := l']> (leases (sl_w p)) !! i = Some x' /\
            Lease.Address x' = Lease.Address x /\ (is_static x = true -> is_static x' = true)).
  { intros i x Hx. destruct (decide (i = id)) as [->|Hne].
    - exists l'. rewrite list_lookup_insert_eq by (by eapply lookup_lt_Some). assert (x = l) as -> by congruence.
      split_and!; [done..|]. unfold is_static. cbn. by destruct Ht as [-> | ->].
    - exists x. by rewrite list_lookup_insert_ne. }
  split; cbn [sl_w sl_calls].
  - destruct Hok as [H1 H2 H3 H4]. constructor; cbn [UUID Addr leases set_maps]; try done.
    + intros k v (i & x & -> & Hx & H)%H1. destruct (Hk i x Hx) as (x' & Hx' & Ea & _). exists i, x'. by rewrite Ea.
    + intros a v (i & x & -> & Hx & H)%H3. destruct (Hk i x Hx) as (x' & Hx' & Ea & _). exists i, x'. by rewrite Ea.
  - intros c Hin. apply (call_ok_keeps (sl_w p) _ (sl_calls p)); [done| |by apply Hc].
    constructor; cbn [UUID Addr leases set_maps]; done.
Qed.

Lemma lease_step_ok p e p' :
  leases_ok p -> at_most_one writing (sl_calls p) = true -> at_most_one releasing (sl_calls p) = true ->
  orderly_event p e = true -> lease_step p e = Ret p' -> leases_ok p'.
Proof.
  intros Hok Hw Hr He Hst. destruct e as [uuid net|uuid ip|uuid|i|id uuid alias client net fix_|n|name]; cbn [lease_step] in Hst.
  - eapply (begin_ok p); [done| |done]. done.
  - eapply begin_ok; [done| |done]. cbn in *. unfold SafeStrMap.GetEx in He.
    by destruct (SafeStrMap.data (Addr (sl_w p)) !! ip).
  - eapply (begin_ok p); [done| |done]. done.
  - destruct (sl_calls p !! i) as [c|] eqn:Ei; [|by injection Hst as <-].
    destruct (advance (sl_w p) c) as [r|] eqn:Ea; [|done]. injection Hst as <-. destruct Hok as [Hok Hc].
    apply (advance_ok (sl_w p) (sl_calls p) i c); try done. intros k a id fresh ->. cbn in He. rewrite Ei in He.
    by destruct (SafeStrMap.full _).
  - destruct (leases (sl_w p) !! id) as [l|] eqn:El; [|by apply (tables_same_ok p (sl_w p))].
    eapply touch_ok; [done|done| |done]. destruct fix_; auto.
  - by apply (tables_same_ok p (Add (sl_w p) n)).
  - by apply (tables_same_ok p (Del (sl_w p) name)).
Qed.

Lemma orderly_ok es : forall p p', leases_ok p -> orderly p es = true -> lease_steps p es = Ret p' ->
  leases_ok p' /\ at_most_one writing (sl_calls p') = true.
Proof.
  induction es as [|e es IH]; intros p p' Hok; cbn [orderly lease_steps].
  - intros [[? _]%andb_prop _]%andb_prop [= <-]. done.
  - intros [[Hw Hr]%andb_prop [He Ho]%andb_prop]%andb_prop. destruct (lease_step p e) as [p1|] eqn:E; [|done].
    apply IH; [|done]. by eapply lease_step_ok.
Qed.

Lemma leases_ok_new : leases_ok (no_calls NewNetworkCache).
Proof. split; [constructor; cbn; intros *; by rewrite ?lookup_empty|]. cbn. set_solver. Qed.

(** (C10) No two points share an address as long as their calls keep apart where it matters.
    Calls of [NewLease], [AddLease] and [DelLease] begin at any time and take their steps,
    one operation on one map each, in any order, while holders change leases in place and
    networks come and go.  If no two calls are between finding an address free and having
    it in the map of addresses, no two are giving a lease up, [AddLease] is given free
    addresses, and that map is not full when it is written to, then different identities
    hold leases with different addresses, and whenever no call is about to write one, the
    map of addresses says who holds each of them.  (Without the first condition it fails:
    [overlapping_leases_share].) *)
Theorem lease_addresses_unique (es : list lease_event) (p : switch_leases) (k1 k2 : string) (l1 l2 : Lease.t) :
  orderly (no_calls NewNetworkCache) es = true -> lease_steps (no_calls NewNetworkCache) es = Ret p ->
  lease_of (sl_w p) k1 = Some l1 -> lease_of (sl_w p) k2 = Some l2 -> k1 <> k2 ->
  Lease.Address l1 <> Lease.Address l2 /\
  (Forall (fun c => writing c = false) (sl_calls p) ->
   SafeStrMap.GetEx (Addr (sl_w p)) (Lease.Address l1) = (GetLease (sl_w p) k1, true)).
Proof.
  intros Ho Hs H1 H2 Hne. destruct (orderly_ok es _ _ leases_ok_new Ho Hs) as [[Hok Hc] Hw].
  unfold lease_of, GetLease, SafeStrMap.GetEx in H1, H2 |- *.
  destruct (SafeStrMap.data (UUID (sl_w p)) !! k1) as [v1|] eqn:E1; [|done].
  destruct (SafeStrMap.data (UUID (sl_w p)) !! k2) as [v2|] eqn:E2; [|done].
  destruct v1 as [id1|], v2 as [id2|]; try done. cbn in H1, H2. split.
  - intros E. apply Hne. by apply (holder_unique (sl_w p) (sl_calls p) k1 k2 id1 id2 l1 l2).
  - intros Hn. destruct (to_uuid _ _ Hok _ _ E1) as (id & l & [= <-] & Hl & H). assert (l = l1) as -> by congruence.
    destruct H as [-> | [fresh Hin]]; [done|]. rewrite Forall_forall in Hn. by apply Hn in Hin.
Qed.

Definition demo_net : Network.t :=
  {| Network.Name := "net"; Network.Tenant := ""; Network.IfAddr := ""; Network.IpStart := "10.0.0.1";
     Network.IpEnd := "10.0.0.9"; Network.Netmask := ""; Network.Routes := [] |}.

Definition after {A} (d : A) (m : go (A * option nat)) : A := match m with Ret (a, _) => a | Panic => d end.

(** Two points lease and the first leaves, with steps of the calls in between. *)
Definition orderly_demo : list lease_event :=
  [Add_network demo_net; Call_NewLease "a" "net"; Call_NewLease "b" "net"; Advance 0; Advance 1; Advance 0; Advance 1;
   Advance 0; Advance 0; Advance 0; Advance 1; Advance 1; Advance 0; Advance 1; Advance 1; Advance 1].
Lemma lease_addresses_unique_witness :
  exists p l1 l2, lease_steps (no_calls NewNetworkCache) orderly_demo = Ret p /\
    lease_of (sl_w p) "a" = Some l1 /\ lease_of (sl_w p) "b" = Some l2 /\ Lease.Address l1 <> Lease.Address l2.
Proof.
  eexists _, _, _. split; [vm_compute; reflexivity|]. split; [vm_compute; reflexivity|]. split; [vm_compute; reflexivity|].
  eapply (lease_addresses_unique orderly_demo _ "a" "b"); [vm_compute; reflexivity..|done].
Defined.

(** Two points that ask at the same time get one address: both calls find it free before
    either has written it down. *)
Definition overlap_demo : list lease_event :=
  [Add_network demo_net; Call_NewLease "a" "net"; Call_NewLease "b" "net"; Advance 0; Advance 0; Advance 0; Advance 1;
   Advance 1; Advance 1; Advance 0; Advance 0; Advance 1; Advance 1; Advance 0; Advance 1].
Lemma overlapping_leases_share :
  exists p l1 l2, lease_steps (no_calls NewNetworkCache) overlap_demo = Ret p /\
    lease_of (sl_w p) "a" = Some l1 /\ lease_of (sl_w p) "b" = Some l2 /\
    Lease.Address l1 = "10.0.0.1"%string /\ Lease.Address l2 = "10.0.0.1"%string /\
    Forall (fun c => exists id, c = Returned (Some id)) (sl_calls p).
Proof.
  eexists _, _, _. split; [vm_compute; reflexivity|]. split; [vm_compute; reflexivity|]. split; [vm_compute; reflexivity|].
  split; [reflexivity|]. split; [reflexivity|]. repeat constructor; by eexists.
Qed.

