(* ===== verification/Socket.v ===== *)
(** * Sockets (pkg/libol/socket.go, tcpsocket.go, udpsocket.go, promise.go)

    The client side of a connection with its status machine, reading and writing of
    messages with their statistics, and the server that accepts clients up to a
    limit and gives each of them up exactly once.  Dialling is two steps around the
    call that leaves the process, since the lock is not held across it.  Listener
    callbacks are returned as events. *)

From S2P Require Import Prelude Protocol Message SafeMap.

Local Open Scope Z_scope.

Definition ClInit : Z := 0x00.
Definition ClConnected : Z := 0x01.
Definition ClUnAuth : Z := 0x02.
Definition ClAuth : Z := 0x03.
Definition ClConnecting : Z := 0x04.
Definition ClTerminal : Z := 0x05.
Definition ClClosed : Z := 0x06.

Definition status_String (s : Z) : string :=
  if s =? ClInit then "initialized"
  else if s =? ClConnected then "connected"
  else if s =? ClUnAuth then "unauthenticated"
  else if s =? ClAuth then "authenticated"
  else if s =? ClClosed then "closed"
  else if s =? ClConnecting then "connecting"
  else if s =? ClTerminal then "terminal"
  else "".

Definition CsSendOkay : string := "send".
Definition CsRecvOkay : string := "recv".
Definition CsSendError : string := "error".
Definition CsDropped : string := "dropped".

(** ** Messagers *)

(** The two implementations of the [Messager] interface. *)
Inductive Messager :=
| MStream (s : StreamMessagerImpl)
| MPacket (s : PacketMessagerImpl).

Definition default_messager : Messager :=
  MStream {| sm_block := None; sm_buffer := []; sm_bufSize := 0 |}.

Definition msg_Send (fuel : nat) (ms : Messager) (c : Conn) (m : FrameMessage)
    : go (io (Messager * Conn * result Z)) :=
  match ms with
  | MStream s =>
      r ← stream_Send fuel s (Some c) m;
      Ret (match r with
           | Done (Some c', res) => Done (ms, c', res)
           | Done (None, res) => Done (ms, c, res)
           | Blocked => Blocked
           | Spinning => Spinning
           end)
  | MPacket s =>
      r ← packet_Send s c m;
      Ret (match r with
           | Done (c', res) => Done (ms, c', res)
           | Blocked => Blocked
           | Spinning => Spinning
           end)
  end.

Definition msg_Receive (fuel : nat) (ms : Messager) (c : Conn) (max min : Z)
    : go (io (Messager * Conn * result FrameMessage)) :=
  match ms with
  | MStream s =>
      r ← stream_Receive fuel s c min;
      Ret (match r with
           | Done (s', c', res) => Done (MStream s', c', res)
           | Blocked => Blocked
           | Spinning => Spinning
           end)
  | MPacket s =>
      r ← packet_Receive s c max min;
      Ret (match r with
           | Done (c', res) => Done (ms, c', res)
           | Blocked => Blocked
           | Spinning => Spinning
           end)
  end.

Definition msg_Flush (ms : Messager) : Messager :=
  match ms with MStream s => MStream (stream_Flush s) | MPacket s => MPacket s end.

(** ** The client *)

Section client.
Context {P : Type}.

Record SocketClientImpl := {
  message : option Messager; connection : option Conn; statistics : SafeStrInt64.t;
  maxSize : Z; minSize : Z; remoteAddr : string; localAddr : string; address : string;
  newTime : Z; connectedTime : Z; private : option P; status : Z
}.

(** What the listener is told. *)
Inductive event :=
| OnConnected
| OnClose
| OnStatus (old new : Z).

Definition set_message (s : SocketClientImpl) (m : option Messager) (c : option Conn)
    (st : SafeStrInt64.t) : SocketClientImpl :=
  {| message := m; connection := c; statistics := st; maxSize := maxSize s; minSize := minSize s;
     remoteAddr := remoteAddr s; localAddr := localAddr s; address := address s;
     newTime := newTime s; connectedTime := connectedTime s; private := private s; status := status s |}.
Definition set_status (s : SocketClientImpl) (v : Z) : SocketClientImpl :=
  {| message := message s; connection := connection s; statistics := statistics s;
     maxSize := maxSize s; minSize := minSize s; remoteAddr := remoteAddr s;
     localAddr := localAddr s; address := address s; newTime := newTime s;
     connectedTime := connectedTime s; private := private s; status := v |}.
Definition SetPrivate (s : SocketClientImpl) (v : option P) : SocketClientImpl :=
  {| message := message s; connection := connection s; statistics := statistics s;
     maxSize := maxSize s; minSize := minSize s; remoteAddr := remoteAddr s;
     localAddr := localAddr s; address := address s; newTime := newTime s;
     connectedTime := connectedTime s; private := v; status := status s |}.

Definition NewSocketClient (addr : string) (m : Messager) (now : Z) : SocketClientImpl :=
  {| message := Some m; connection := None; statistics := SafeStrInt64.NewSafeStrInt64;
     maxSize := 1514; minSize := 15; remoteAddr := addr; localAddr := ""; address := addr;
     newTime := now; connectedTime := 0; private := None; status := ClInit |}.

Definition IsOk (s : SocketClientImpl) : bool := bool_decide (is_Some (connection s)).

Definition Have (s : SocketClientImpl) (state : Z) : bool := status s =? state.

Definition Retry (s : SocketClientImpl) : SocketClientImpl * bool :=
  if IsOk s || (status s =? ClTerminal) || (status s =? ClUnAuth) then (s, false)
  else (set_status s ClConnecting, true).

Definition UpTime (s : SocketClientImpl) (now : Z) : Z := now - newTime s.
Definition AliveTime (s : SocketClientImpl) (now : Z) : Z :=
  if connectedTime s =? 0 then 0 else now - connectedTime s.

Definition Statistics (s : SocketClientImpl) : SafeStrInt64.t := SafeStrInt64.Copy (statistics s) ∅.

(** A connection with its two addresses. *)
Record net_conn := { nc : Conn; nc_local : string; nc_remote : string }.

(** Dropping the connection flushes the messager, which must not be nil. *)
Definition updateConn (s : SocketClientImpl) (conn : option net_conn) (now : Z) : go SocketClientImpl :=
  match conn with
  | Some c =>
      Ret {| message := message s; connection := Some (nc c); statistics := statistics s;
             maxSize := maxSize s; minSize := minSize s; remoteAddr := nc_remote c;
             localAddr := nc_local c; address := address s; newTime := newTime s;
             connectedTime := now; private := private s; status := status s |}
  | None =>
      match message s with
      | None => Panic
      | Some m =>
          Ret {| message := Some (msg_Flush m); connection := None; statistics := statistics s;
                 maxSize := maxSize s; minSize := minSize s; remoteAddr := ""; localAddr := "";
                 address := address s; newTime := newTime s; connectedTime := connectedTime s;
                 private := private s; status := status s |}
      end
  end.

Definition SetConnection (s : SocketClientImpl) (conn : net_conn) (now : Z) : go SocketClientImpl :=
  s ← updateConn s (Some conn) now;
  Ret (set_status s ClConnected).

Definition not_okay : error := NewErr "%s not okay" [].

Definition WriteMsg (fuel : nat) (s : SocketClientImpl) (m : FrameMessage)
    : go (io (SocketClientImpl * option error)) :=
  match connection s with
  | None =>
      Ret (Done (set_message s (message s) None (SafeStrInt64.Add (statistics s) CsDropped 1),
                 Some not_okay))
  | Some c =>
      r ← msg_Send fuel (default default_messager (message s)) c m;
      Ret (match r with
           | Done (ms, c', inr e) =>
               Done (set_message s (Some ms) (Some c') (SafeStrInt64.Add (statistics s) CsSendError 1), Some e)
           | Done (ms, c', inl n) =>
               Done (set_message s (Some ms) (Some c') (SafeStrInt64.Add (statistics s) CsSendOkay n), None)
           | Blocked => Blocked
           | Spinning => Spinning
           end)
  end.

Definition ReadMsg (fuel : nat) (s : SocketClientImpl)
    : go (io (SocketClientImpl * result FrameMessage)) :=
  match connection s with
  | None => Ret (Done (s, inr not_okay))
  | Some c =>
      r ← msg_Receive fuel (default default_messager (message s)) c (maxSize s) (minSize s);
      Ret (match r with
           | Done (ms, c', inr e) => Done (set_message s (Some ms) (Some c') (statistics s), inr e)
           | Done (ms, c', inl f) =>
               Done (set_message s (Some ms) (Some c')
                       (SafeStrInt64.Add (statistics s) CsRecvOkay (frame_len f)), inl f)
           | Blocked => Blocked
           | Spinning => Spinning
           end)
  end.

(** ** TCP and UDP clients *)

Definition NewTcpClient (addr : string) (block : option BlockCrypt) (rdQus now : Z) : SocketClientImpl :=
  NewSocketClient addr
    (MStream {| sm_block := block; sm_buffer := []; sm_bufSize := rdQus * MaxFrame |}) now.
Definition NewUdpClient (addr : string) (block : option BlockCrypt) (rdQus now : Z) : SocketClientImpl :=
  NewSocketClient addr (MPacket {| pm_block := block; pm_bufSize := rdQus * MaxFrame |}) now.

Definition NewTcpClientFromConn (conn : net_conn) (block : option BlockCrypt) (rdQus now : Z)
    : go SocketClientImpl :=
  updateConn (NewTcpClient (nc_remote conn) block rdQus now) (Some conn) now.
Definition NewUdpClientFromConn (conn : net_conn) (block : option BlockCrypt) (rdQus now : Z)
    : go SocketClientImpl :=
  updateConn (NewUdpClient (nc_remote conn) block rdQus now) (Some conn) now.

(** [Connect] up to the dial, and what follows it with the outcome of the dial. *)
Definition connect_begin (s : SocketClientImpl) : SocketClientImpl * bool := Retry s.
Definition connect_end (s : SocketClientImpl) (dial : result net_conn) (now : Z)
    : go (SocketClientImpl * list event * option error) :=
  match dial with
  | inr e => Ret (s, [], Some e)
  | inl conn => s ← SetConnection s conn now; Ret (s, [OnConnected], None)
  end.
Definition Connect (s : SocketClientImpl) (dial : result net_conn) (now : Z)
    : go (SocketClientImpl * list event * option error) :=
  match connect_begin s with
  | (s, false) => Ret (s, [], None)
  | (s, true) => connect_end s dial now
  end.

Definition Close (s : SocketClientImpl) (now : Z) : go (SocketClientImpl * list event) :=
  if IsOk s then
    let s := if status s =? ClTerminal then s else set_status s ClClosed in
    s ← updateConn s None now;
    Ret (SetPrivate s None, [OnClose])
  else Ret (s, []).

Definition SetStatus (s : SocketClientImpl) (v : Z) : SocketClientImpl * list event :=
  if status s =? v then (s, []) else (set_status s v, [OnStatus (status s) v]).

Definition Terminal (s : SocketClientImpl) (now : Z) : go (SocketClientImpl * list event) :=
  let '(s, ev) := SetStatus s ClTerminal in
  r ← Close s now;
  Ret (r.1, ev ++ r.2).

(** The calls on a client, as data. *)
Inductive client_op :=
| OConnect (dial : result net_conn)
| OClose
| OTerminal
| OPrivate (v : option P).

Definition client_step (s : SocketClientImpl) (o : client_op) (now : Z) : go SocketClientImpl :=
  match o with
  | OConnect d => r ← Connect s d now; Ret r.1.1
  | OClose => r ← Close s now; Ret r.1
  | OTerminal => r ← Terminal s now; Ret r.1
  | OPrivate v => Ret (SetPrivate s v)
  end.

Fixpoint client_run (s : SocketClientImpl) (os : list client_op) (now : Z) : go SocketClientImpl :=
  match os with
  | [] => Ret s
  | o :: os => s ← client_step s o now; client_run s os now
  end.

(** A client made by one of the constructors keeps its messager. *)
Definition client_ok (s : SocketClientImpl) : Prop := message s <> None.

Definition down_for_good (s : SocketClientImpl) : Prop :=
  client_ok s /\ status s = ClTerminal /\ connection s = None.

Lemma Terminal_down s now :
  client_ok s -> exists s' ev, Terminal s now = Ret (s', ev) /\ down_for_good s'.
Proof.
  unfold client_ok. intros Hm. unfold Terminal, SetStatus.
  assert (G : forall s0, message s0 <> None -> status s0 = ClTerminal ->
            exists s' ev, Close s0 now = Ret (s', ev) /\ down_for_good s').
  { intros s0 Hm0 Hs0. unfold Close, IsOk. destruct (connection s0) as [c|] eqn:Ec.
    - rewrite bool_decide_eq_true_2 by done. rewrite Hs0, Z.eqb_refl.
      unfold updateConn. destruct (message s0) as [m|]; [|done]. cbn [mbind go_bind].
      eexists _, _. split; [done|]. done.
    - rewrite bool_decide_eq_false_2 by (by intros [? ?]). eexists _, _. split; [done|]. done. }
  destruct (status s =? ClTerminal) eqn:E.
  - apply Z.eqb_eq in E. destruct (G s Hm E) as (s' & ev & -> & Hd). simpl. by eexists _, _.
  - destruct (G (set_status s ClTerminal) Hm eq_refl) as (s' & ev & -> & Hd). simpl. by eexists _, _.
Qed.

Lemma down_step s o now :
  down_for_good s -> exists s', client_step s o now = Ret s' /\ down_for_good s'.
Proof.
  intros (Hm & Hs & Hc). destruct o as [d| | |v]; simpl.
  - unfold Connect, connect_begin, Retry. rewrite Hs, Z.eqb_refl, orb_true_r. simpl. by eexists.
  - unfold Close, IsOk. rewrite Hc, bool_decide_eq_false_2 by (by intros [? ?]). simpl. by eexists.
  - destruct (Terminal_down s now Hm) as (s' & ev & -> & Hd). simpl. by eexists.
  - eexists. split; [done|]. done.
Qed.

End client.
Arguments SocketClientImpl : clear implicits.
Arguments client_op : clear implicits.

(** [Terminal] is final when calls do not overlap: after it, no sequence of
    [Connect], [Close], [Terminal] and [SetPrivate] brings the client back; it stays
    terminal and without a connection, even if the server could be reached. *)
Theorem terminal_is_final {P} (s : SocketClientImpl P) (os : list (client_op P)) (now : Z) :
  client_ok s ->
  exists s1 ev s2, Terminal s now = Ret (s1, ev) /\ client_run s1 os now = Ret s2 /\
    status s2 = ClTerminal /\ connection s2 = None.
Proof.
  intros Hm. destruct (Terminal_down s now Hm) as (s1 & ev & E & Hd). exists s1, ev.
  assert (G : forall s0, down_for_good s0 -> exists s2, client_run s0 os now = Ret s2 /\ down_for_good s2).
  { induction os as [|o os IH]; intros s0 H0; simpl; [by exists s0|].
    destruct (down_step s0 o now H0) as (s' & -> & H'). cbn [mbind go_bind]. by apply IH. }
  destruct (G s1 Hd) as (s2 & E2 & _ & Hs & Hc). by exists s2.
Qed.

Definition demo_conn : net_conn := {| nc := {| rx := []; wr := []; tx := [] |}; nc_local := "l"; nc_remote := "r" |}.

Lemma terminal_is_final_witness :
  let s : SocketClientImpl nat := NewTcpClient "host:10002" None 8 100 in
  exists s1 ev s2, Terminal s 100 = Ret (s1, ev) /\
    client_run s1 [OConnect (inl demo_conn); OClose] 200 = Ret s2 /\
    status s2 = ClTerminal /\ connection s2 = None.
Proof.
  intros s. destruct (terminal_is_final s [OConnect (inl demo_conn); OClose] 100)
    as (s1 & ev & s2 & E1 & E2 & H); [discriminate|].
  exists s1, ev, s2. split; [exact E1|]. split; [|exact H].
  vm_compute in E1. injection E1 as <- <-. exact E2.
Defined.

(** A [Terminal] that comes while the client is dialling is lost: the dial does
    not hold the lock, and [SetConnection] sets the status without looking at it, so
    the client ends up connected. *)
Theorem terminal_during_dial_lost {P} (s : SocketClientImpl P) (conn : net_conn) (now : Z) :
  client_ok s -> connection s = None -> status s <> ClTerminal -> status s <> ClUnAuth ->
  exists s1 s2 ev2 s3 ev3,
    connect_begin s = (s1, true) /\ Terminal s1 now = Ret (s2, ev2) /\ status s2 = ClTerminal /\
    connect_end s2 (inl conn) now = Ret (s3, ev3, None) /\
    status s3 = ClConnected /\ connection s3 = Some (nc conn).
Proof.
  intros Hm Hc H1 H2. exists (set_status s ClConnecting).
  assert (Hr : connect_begin s = (set_status s ClConnecting, true)).
  { unfold connect_begin, Retry, IsOk. rewrite Hc, bool_decide_eq_false_2 by (by intros [? ?]).
    by rewrite (proj2 (Z.eqb_neq _ _) H1), (proj2 (Z.eqb_neq _ _) H2). }
  destruct (Terminal_down (set_status s ClConnecting) now Hm) as (s2 & ev2 & E & (Hm2 & Hs2 & _)).
  exists s2, ev2. eexists _, _. split; [done|]. split; [done|]. split; [done|]. split; [done|]. done.
Qed.

Lemma terminal_during_dial_lost_witness :
  let s : SocketClientImpl nat := NewTcpClient "host:10002" None 8 100 in
  exists s1 s2 ev2 s3 ev3,
    connect_begin s = (s1, true) /\ Terminal s1 100 = Ret (s2, ev2) /\ status s2 = ClTerminal /\
    connect_end s2 (inl demo_conn) 100 = Ret (s3, ev3, None) /\
    status s3 = ClConnected /\ connection s3 = Some (nc demo_conn).
Proof. intros s. apply terminal_during_dial_lost; [discriminate|reflexivity|discriminate|discriminate]. Defined.

(** ** The server

    Clients are shared between the server's map, its queues and the callbacks, and
    closing a client empties its remote address: [remote] gives the current address
    of every client object. *)

Definition SsRecv : string := "recv".
Definition SsDeny : string := "deny".
Definition SsAlive : string := "alive".
Definition SsSend : string := "send".
Definition SsDrop : string := "dropped".
Definition SsAccept : string := "accept".
Definition SsClose : string := "closed".

Record SocketServerImpl := {
  ss_statistics : SafeStrInt64.t; ss_address : string; maxClient : Z;
  clients : SafeStrMap.t nat; onClients : list nat; offClients : list nat;
  ss_error : option error; remote : gmap nat string
}.

Definition NewSocketServer (listen : string) : SocketServerImpl :=
  {| ss_statistics := SafeStrInt64.NewSafeStrInt64; ss_address := listen; maxClient := 128;
     clients := SafeStrMap.NewSafeStrMap 1024; onClients := []; offClients := [];
     ss_error := None; remote := ∅ |}.

Definition ss_set (t : SocketServerImpl) (st : SafeStrInt64.t) (cl : SafeStrMap.t nat)
    (on off : list nat) (e : option error) (r : gmap nat string) : SocketServerImpl :=
  {| ss_statistics := st; ss_address := ss_address t; maxClient := maxClient t; clients := cl;
     onClients := on; offClients := off; ss_error := e; remote := r |}.

Definition stat (t : SocketServerImpl) (k : string) (v : Z) : SocketServerImpl :=
  ss_set t (SafeStrInt64.Add (ss_statistics t) k v) (clients t) (onClients t) (offClients t)
    (ss_error t) (remote t).

Definition TotalClient (t : SocketServerImpl) : Z := SafeStrMap.Len (clients t).
Definition alive (t : SocketServerImpl) : Z := SafeStrInt64.Get (ss_statistics t) SsAlive.

(** [OffClient] of a client that is not nil; [None] when the queue is full. *)
Definition OffClient (t : SocketServerImpl) (c : nat) : option SocketServerImpl :=
  if 1024 <=? zlen (offClients t) then None
  else Some (ss_set t (ss_statistics t) (clients t) (onClients t) (offClients t ++ [c])
               (ss_error t) (remote t)).

(** [preAccept] of an accepted connection or of the error of [Accept]. *)
Definition preAccept (t : SocketServerImpl) (err : option error) : SocketServerImpl * option error :=
  match err with
  | Some e =>
      (ss_set t (ss_statistics t) (clients t) (onClients t) (offClients t) (Some e) (remote t), Some e)
  | None =>
      let t := ss_set t (ss_statistics t) (clients t) (onClients t) (offClients t) None (remote t) in
      let t := stat t SsAccept 1 in
      if maxClient t <=? alive t
      then (stat (stat t SsDeny 1) SsClose 1, Some (NewErr "too many open clients" []))
      else (stat t SsAlive 1, None)
  end.

(** One round of the accept loop: connection [c] from [addr] is queued if allowed. *)
Definition accept (t : SocketServerImpl) (c : nat) (addr : string) : SocketServerImpl :=
  match preAccept t None with
  | (t, Some _) => t
  | (t, None) =>
      ss_set t (ss_statistics t) (clients t) (onClients t ++ [c]) (offClients t) (ss_error t)
        (<[c := addr]> (remote t))
  end.

Definition RemoteAddr (t : SocketServerImpl) (c : nat) : string := default ""%string (remote t !! c).

(** [doOnClient] and [doOffClient]; the callbacks are the caller's. *)
Definition doOnClient (t : SocketServerImpl) (c : nat) : SocketServerImpl :=
  ss_set t (ss_statistics t) (SafeStrMap.Set_ (clients t) (RemoteAddr t c) (Some c)).1
    (onClients t) (offClients t) (ss_error t) (remote t).

Definition doOffClient (t : SocketServerImpl) (c : nat) : SocketServerImpl * bool :=
  let addr := RemoteAddr t c in
  if (SafeStrMap.GetEx (clients t) addr).2 then
    let t := stat t SsClose 1 in
    let t := ss_set t (ss_statistics t) (SafeStrMap.Del (clients t) addr) (onClients t)
               (offClients t) (ss_error t) (<[c := ""%string]> (remote t)) in
    (stat t SsAlive (-1), true)
  else (t, false).

(** The server at work: connections arrive from addresses that are not in use, the
    loop takes clients from its two queues in any order, and anyone may ask at any
    time, and more than once, for a client to be given up. *)
Inductive server_step : SocketServerImpl -> SocketServerImpl -> Prop :=
| SS_accept t c addr :
    remote t !! c = None -> addr <> ""%string ->
    (forall c', RemoteAddr t c' <> addr) ->
    server_step t (accept t c addr)
| SS_error t e : server_step t (preAccept t (Some e)).1
| SS_on t c on :
    onClients t = c :: on ->
    server_step t (doOnClient (ss_set t (ss_statistics t) (clients t) on (offClients t)
                                 (ss_error t) (remote t)) c)
| SS_off t c off :
    offClients t = c :: off ->
    server_step t (doOffClient (ss_set t (ss_statistics t) (clients t) (onClients t) off
                                  (ss_error t) (remote t)) c).1
| SS_request t c t' :
    is_Some (remote t !! c) -> OffClient t c = Some t' -> server_step t t'.

(** Every open client is in the map under its address or waits to be put there. *)
Definition server_inv (t : SocketServerImpl) : Prop :=
  maxClient t = 128 /\ SafeStrMap.size (clients t) = 1024 /\
  alive t = SafeStrMap.Len (clients t) + zlen (onClients t) /\ alive t <= 128 /\
  (forall a v, SafeStrMap.data (clients t) !! a = Some v ->
     a <> ""%string /\ exists c, v = Some c /\ RemoteAddr t c = a /\ c ∉ onClients t) /\
  (forall c, c ∈ onClients t -> RemoteAddr t c <> ""%string) /\
  NoDup (onClients t) /\
  (forall c1 c2, RemoteAddr t c1 = RemoteAddr t c2 -> RemoteAddr t c1 <> ""%string -> c1 = c2).

Lemma get_add_other s k k' v : k <> k' -> SafeStrInt64.Get (SafeStrInt64.Add s k v) k' = SafeStrInt64.Get s k'.
Proof.
  intros Hne. unfold SafeStrInt64.Add, SafeStrInt64.Get. destruct (s !! k);
    by rewrite lookup_insert_ne.
Qed.

Lemma alive_stat_other t k v : k <> SsAlive -> alive (stat t k v) = alive t.
Proof. intros Hk. unfold alive, stat. simpl. by apply get_add_other. Qed.

Lemma alive_stat t v : i64 v -> i64 (alive t + v) -> alive (stat t SsAlive v) = alive t + v.
Proof.
  intros Hv Hs. unfold alive, stat. cbn [ss_set ss_statistics].
  rewrite Add_get by done. rewrite decide_True by done. by apply wrap64s_id.
Qed.

Lemma server_inv_alive t : server_inv t -> 0 <= alive t <= 128.
Proof.
  intros (_ & _ & Ha & Hb & _). unfold SafeStrMap.Len in Ha. pose proof (zlen_nonneg (onClients t)). lia.
Qed.

Lemma accept_inv t c addr :
  server_inv t -> remote t !! c = None -> addr <> ""%string -> (forall c', RemoteAddr t c' <> addr) ->
  server_inv (accept t c addr).
Proof.
  intros Hi Hc Ha Hf. pose proof (server_inv_alive t Hi) as Hal.
  destruct Hi as (Hmax & Hsz & Hac & Hle & Hcl & Hon & Hnd & Hinj). unfold accept, preAccept.
  set (t0 := stat (ss_set t _ _ _ _ _ _) SsAccept 1).
  assert (Ha0 : alive t0 = alive t) by (unfold t0; by rewrite alive_stat_other).
  change (maxClient t0) with (maxClient t). rewrite Ha0, Hmax.
  destruct (128 <=? alive t) eqn:E.
  - assert (Hd : alive (stat (stat t0 SsDeny 1) SsClose 1) = alive t)
      by (rewrite !alive_stat_other by done; done).
    unfold server_inv. rewrite Hd. done.
  - apply Z.leb_gt in E.
    assert (Hs : alive (stat t0 SsAlive 1) = alive t + 1)
      by (rewrite alive_stat, Ha0; unfold i64; lia).
    assert (Hr : forall c', RemoteAddr (ss_set (stat t0 SsAlive 1) (ss_statistics (stat t0 SsAlive 1))
                 (clients (stat t0 SsAlive 1)) (onClients (stat t0 SsAlive 1) ++ [c])
                 (offClients (stat t0 SsAlive 1)) (ss_error (stat t0 SsAlive 1))
                 (<[c := addr]> (remote (stat t0 SsAlive 1)))) c' = if decide (c = c') then addr else RemoteAddr t c').
    { intros c'. unfold RemoteAddr. simpl. case_decide as Hd; subst; [by rewrite lookup_insert_eq|].
      by rewrite lookup_insert_ne by done. }
    assert (Hnew : c ∉ onClients t).
    { intros Hin. apply (Hon c Hin). unfold RemoteAddr. by rewrite Hc. }
    unfold server_inv. setoid_rewrite Hr. split_and!; try done.
    + unfold alive in *. simpl in *. rewrite Hs. simpl. rewrite zlen_app, Hac. unfold zlen. simpl. lia.
    + unfold alive in *. simpl in *. rewrite Hs. lia.
    + intros a v Hv. destruct (Hcl a v Hv) as (Hne & c' & -> & Hra & Hni). split; [done|].
      exists c'. split; [done|]. assert (c <> c').
      { intros <-. apply Hne. rewrite <- Hra. unfold RemoteAddr. by rewrite Hc. }
      rewrite decide_False by done. split; [done|]. simpl.
      rewrite elem_of_app, list_elem_of_singleton. naive_solver.
    + simpl. intros c' [Hin|Hin]%elem_of_app.
      * case_decide; [done|]. by apply Hon.
      * apply list_elem_of_singleton in Hin as ->. by rewrite decide_True.
    + simpl. apply NoDup_app. split; [done|]. split; [|apply NoDup_singleton].
      intros x Hx Hx'. apply list_elem_of_singleton in Hx' as ->. done.
    + intros c1 c2. case_decide as H1; case_decide as H2; subst; try done.
      * intros E2. by destruct (Hf c2).
      * intros E2. by destruct (Hf c1).
      * apply Hinj.
Qed.

Lemma on_inv t c on :
  server_inv t -> onClients t = c :: on ->
  server_inv (doOnClient (ss_set t (ss_statistics t) (clients t) on (offClients t) (ss_error t) (remote t)) c).
Proof.
  intros Hi Hq. destruct Hi as (Hmax & Hsz & Hac & Hle & Hcl & Hon & Hnd & Hinj).
  rewrite Hq in Hac, Hon, Hnd. apply NoDup_cons in Hnd as [Hni Hnd].
  assert (Hlen : zlen (c :: on) = zlen on + 1) by (unfold zlen; simpl; lia).
  pose proof (zlen_nonneg on).
  unfold doOnClient. cbn [ss_set clients onClients]. change (RemoteAddr (ss_set t _ _ _ _ _ _) c) with (RemoteAddr t c).
  assert (Hrc : RemoteAddr t c <> ""%string) by (apply Hon, elem_of_cons; by left).
  assert (Hnone : SafeStrMap.data (clients t) !! RemoteAddr t c = None).
  { apply eq_None_not_Some. intros [v Hv]. destruct (Hcl _ _ Hv) as (_ & c' & -> & Hra & Hn).
    assert (c' = c) as -> by (apply Hinj; congruence). apply Hn. rewrite Hq. apply elem_of_cons. by left. }
  assert (Hset : (SafeStrMap.Set_ (clients t) (RemoteAddr t c) (Some c)).1 =
                 SafeStrMap.upd (clients t) (<[RemoteAddr t c := Some c]> (SafeStrMap.data (clients t)))).
  { unfold SafeStrMap.Set_, SafeStrMap.add. rewrite (proj2 (full_false (clients t))), Hnone; [done|].
    right. rewrite Hsz. lia. }
  rewrite Hset. unfold server_inv. cbn [ss_set clients onClients maxClient].
  change (RemoteAddr (ss_set _ _ _ _ _ _ _)) with (RemoteAddr t).
  change (alive (ss_set _ _ _ _ _ _ _)) with (alive t).
  split_and!; try done.
  - unfold SafeStrMap.Len in *. simpl. rewrite map_size_insert_None by done. lia.
  - simpl. intros a v [[<- <-]|[_ Hv]]%lookup_insert_Some.
    + split; [done|]. by exists c.
    + destruct (Hcl a v Hv) as (Hne & c' & -> & Hra & Hn). split; [done|]. exists c'.
      split; [done|]. split; [done|]. intros Hin. apply Hn. rewrite Hq. apply elem_of_cons. by right.
  - intros c' Hin. apply Hon, elem_of_cons. by right.
Qed.

Lemma off_inv t c off :
  server_inv t -> offClients t = c :: off ->
  server_inv (doOffClient (ss_set t (ss_statistics t) (clients t) (onClients t) off (ss_error t) (remote t)) c).1.
Proof.
  intros Hi _. pose proof (server_inv_alive t Hi) as Hal.
  destruct Hi as (Hmax & Hsz & Hac & Hle & Hcl & Hon & Hnd & Hinj).
  unfold doOffClient. cbn [ss_set clients]. change (RemoteAddr (ss_set t _ _ _ _ _ _) c) with (RemoteAddr t c).
  unfold SafeStrMap.GetEx. destruct (SafeStrMap.data (clients t) !! RemoteAddr t c) as [v|] eqn:Ev; [|done].
  destruct (Hcl _ _ Ev) as (Hne & c' & -> & Hra & Hn).
  assert (c' = c) as -> by (apply Hinj; congruence). cbn [snd fst].
  set (t1 := ss_set (stat _ SsClose 1) _ _ _ _ _ _).
  assert (Hal1 : alive t1 = alive t).
  { unfold t1. unfold alive at 1, stat. cbn [ss_set ss_statistics]. by apply get_add_other. }
  assert (Hpos : 0 < alive t).
  { rewrite Hac. unfold SafeStrMap.Len. assert (base.size (SafeStrMap.data (clients t)) <> 0%nat).
    { intros E. apply map_size_empty_inv in E. rewrite E, lookup_empty in Ev. done. }
    pose proof (zlen_nonneg (onClients t)). lia. }
  assert (Hal2 : alive (stat t1 SsAlive (-1)) = alive t - 1) by (rewrite alive_stat, Hal1; unfold i64; lia).
  assert (Hr : forall c2, RemoteAddr (stat t1 SsAlive (-1)) c2 = if decide (c = c2) then ""%string else RemoteAddr t c2).
  { intros c2. unfold RemoteAddr. simpl. case_decide; subst; [by rewrite lookup_insert_eq|].
    by rewrite lookup_insert_ne by done. }
  assert (Hd : SafeStrMap.Del (clients t) (RemoteAddr t c) =
               SafeStrMap.upd (clients t) (delete (RemoteAddr t c) (SafeStrMap.data (clients t)))).
  { unfold SafeStrMap.Del. by rewrite Ev. }
  unfold server_inv. rewrite Hal2. setoid_rewrite Hr. cbn [stat ss_set clients onClients maxClient t1].
  rewrite Hd. split_and!; try done.
  - rewrite Hac. unfold SafeStrMap.Len. simpl. rewrite map_size_delete_Some by (by rewrite Ev).
    assert (base.size (SafeStrMap.data (clients t)) <> 0%nat); [|lia].
    intros E. apply map_size_empty_inv in E. rewrite E, lookup_empty in Ev. done.
  - lia.
  - simpl. intros a v [Hna Hv]%lookup_delete_Some. destruct (Hcl a v Hv) as (Hne2 & c2 & -> & Hra2 & Hn2).
    split; [done|]. exists c2. split; [done|]. rewrite decide_False; [done|]. congruence.
  - intros c2 Hin. rewrite decide_False; [by apply Hon|]. congruence.
  - intros c1 c2. case_decide; case_decide; subst; try done. apply Hinj.
Qed.

Lemma server_step_inv t t' : server_step t t' -> server_inv t -> server_inv t'.
Proof.
  destruct 1 as [t c addr Hc Ha Hf|t e|t c on Hq|t c off Hq|t c t' Hc Ho]; intros Hi.
  - by apply accept_inv.
  - exact Hi.
  - by apply on_inv.
  - by apply (off_inv t c off).
  - unfold OffClient in Ho. destruct (1024 <=? _); simplify_eq. exact Hi.
Qed.

Lemma server_inv_new listen : server_inv (NewSocketServer listen).
Proof.
  unfold server_inv. split_and!; try done.
  - intros c Hin. by apply not_elem_of_nil in Hin.
  - constructor.
Qed.

(** (C20) The count of live clients is exact: in every reachable state of a server the
    [alive] counter is the number of clients in the map plus those accepted and not
    yet taken up; there are never more than 128 of them, the map never refuses one,
    a new connection is refused exactly at the limit, and giving a client up more
    than once neither counts twice nor hits another client. *)
Theorem server_alive_exact (listen : string) (t : SocketServerImpl) :
  rtc server_step (NewSocketServer listen) t ->
  alive t = TotalClient t + zlen (onClients t) /\ 0 <= alive t <= 128 /\
  SafeStrMap.full (clients t) = false /\
  ((preAccept t None).2 <> None <-> alive t = 128) /\
  (forall c t1 t2 hit, doOffClient t c = (t1, true) -> doOffClient t1 c = (t2, hit) -> hit = false /\ t2 = t1) /\
  (forall c t1, doOffClient t c = (t1, true) -> (SafeStrMap.GetEx (clients t) (RemoteAddr t c)).1 = Some c).
Proof.
  intros Hs.
  assert (Hi : server_inv t).
  { pose proof (server_inv_new listen) as H0. revert H0. induction Hs; eauto using server_step_inv. }
  pose proof (server_inv_alive t Hi) as Hal.
  destruct Hi as (Hmax & Hsz & Hac & Hle & Hcl & Hon & Hnd & Hinj).
  split; [exact Hac|]. split; [done|]. split.
  { apply full_false. right. rewrite Hsz. pose proof (zlen_nonneg (onClients t)). lia. }
  split.
  { unfold preAccept. rewrite alive_stat_other by done.
    change (maxClient (stat _ _ _)) with (maxClient t).
    change (alive (ss_set _ _ _ _ _ _ _)) with (alive t). rewrite Hmax.
    destruct (128 <=? alive t) eqn:E; simpl; [apply Z.leb_le in E|apply Z.leb_gt in E]; split; (done || lia). }
  split.
  - intros c t1 t2 hit E1 E2. unfold doOffClient in E1.
    destruct (SafeStrMap.GetEx (clients t) (RemoteAddr t c)).2; simplify_eq.
    unfold doOffClient in E2.
    set (t1 := stat (ss_set _ _ _ _ _ _ _) SsAlive (-1)) in E2.
    assert (Hr : RemoteAddr t1 c = ""%string) by (unfold RemoteAddr, t1; simpl; by rewrite lookup_insert_eq).
    rewrite Hr in E2. unfold SafeStrMap.GetEx in E2.
    destruct (SafeStrMap.data (clients t1) !! ""%string) as [v|] eqn:Ev; simpl in E2; [|by simplify_eq].
    exfalso. unfold t1 in Ev. simpl in Ev. unfold SafeStrMap.Del in Ev.
    destruct (SafeStrMap.data (clients t) !! RemoteAddr t c); simpl in Ev.
    + apply lookup_delete_Some in Ev as [_ Ev]. by destruct (Hcl _ _ Ev).
    + by destruct (Hcl _ _ Ev).
  - intros c t1. unfold doOffClient, SafeStrMap.GetEx.
    destruct (SafeStrMap.data (clients t) !! RemoteAddr t c) as [v|] eqn:Ev; [|done]. intros _. simpl.
    destruct (Hcl _ _ Ev) as (Hne & c' & -> & Hra & _). f_equal. apply Hinj; congruence.
Qed.

Lemma server_alive_exact_witness :
  let t := accept (NewSocketServer "0.0.0.0:10002") 1%nat "10.0.0.1:4000" in
  alive t = 1 /\ TotalClient t = 0 /\ (preAccept t None).2 = None.
Proof.
  intros t. destruct (server_alive_exact "0.0.0.0:10002" t) as (Ha & _ & _ & Hp & _).
  - apply rtc_once, SS_accept; [done|done|]. intros c'. unfold RemoteAddr. simpl. by rewrite lookup_empty.
  - split; [rewrite Ha; reflexivity|]. split; [reflexivity|].
    destruct (preAccept t None).2 as [e|] eqn:E; [|reflexivity]. exfalso.
    assert (Hx : alive t = 128) by (apply Hp; congruence). vm_compute in Hx. discriminate Hx.
Defined.

(** ** Retrying *)

(** [Promise.Done]: the calls it makes and the time it sleeps before each retry, given
    the outcomes of the calls; [None] when the outcomes are used up. *)
Record Promise := { Count : Z; MaxTry : Z; First : Z; MinInt : Z; MaxInt : Z }.

Definition NewPromise (first min max : Z) : Promise :=
  {| Count := 0; MaxTry := 0; First := first; MinInt := min; MaxInt := max |}.

Fixpoint promise_Done (p : Promise) (outcomes : list bool) (slept : list Z)
    : option (Promise * list Z * list bool) :=
  let p := {| Count := Count p + 1; MaxTry := MaxTry p; First := First p; MinInt := MinInt p;
              MaxInt := MaxInt p |} in
  if (0 <? MaxTry p) && (MaxTry p <? Count p) then Some (p, slept, outcomes)
  else match outcomes with
       | [] => None
       | true :: outcomes => Some (p, slept, outcomes)
       | false :: outcomes =>
           let first := if First p <? MaxInt p then First p + MinInt p else First p in
           promise_Done {| Count := Count p; MaxTry := MaxTry p; First := first; MinInt := MinInt p;
                           MaxInt := MaxInt p |} outcomes (slept ++ [First p])
       end.

Lemma promise_Done_fails n rest p slept :
  MaxTry p = 0 -> 0 <= MinInt p -> First p <= MaxInt p + MinInt p ->
  exists p' more, promise_Done p (replicate n false ++ true :: rest) slept = Some (p', slept ++ more, rest) /\
    length more = n /\ Forall (fun d => First p <= d <= MaxInt p + MinInt p) more.
Proof.
  revert p slept. induction n as [|n IH]; intros p slept Ht Hm Hf; simpl; rewrite Ht; simpl.
  - exists {| Count := Count p + 1; MaxTry := 0; First := First p; MinInt := MinInt p; MaxInt := MaxInt p |}, [].
    by rewrite app_nil_r.
  - set (q := {| Count := Count p + 1; MaxTry := 0;
                 First := if First p <? MaxInt p then First p + MinInt p else First p;
                 MinInt := MinInt p; MaxInt := MaxInt p |}).
    assert (Hq : First p <= First q <= MaxInt p + MinInt p).
    { unfold q. simpl. destruct (First p <? MaxInt p) eqn:E; [apply Z.ltb_lt in E|]; lia. }
    destruct (IH q (slept ++ [First p])) as (p' & more & E & Hl & Hall); [done|done|apply Hq|].
    exists p', (First p :: more). rewrite E, <- app_assoc. split; [done|]. split; [simpl; lia|].
    constructor; [lia|]. eapply Forall_impl; [exact Hall|]. intros d Hd.
    cbv beta in Hd. change (MaxInt q + MinInt q) with (MaxInt p + MinInt p) in Hd. lia.
Qed.

(** Retrying backs off within bounds: a promise without a limit on its tries calls
    again after every failure until the first success, sleeps once before each retry,
    at least its first delay and at most its largest interval plus one increment, and
    then stops calling. *)
Theorem promise_backoff (p : Promise) (n : nat) (rest : list bool) :
  MaxTry p = 0 -> 0 <= MinInt p -> First p <= MaxInt p + MinInt p ->
  exists p' slept, promise_Done p (replicate n false ++ true :: rest) [] = Some (p', slept, rest) /\
    length slept = n /\ Forall (fun d => First p <= d <= MaxInt p + MinInt p) slept.
Proof. intros Ht Hm Hf. apply (promise_Done_fails n rest p []); done. Qed.

Lemma promise_backoff_witness :
  exists p', promise_Done (NewPromise 2 5 30) [false; false; true; true] [] = Some (p', [2; 7], [true]).
Proof.
  destruct (promise_backoff (NewPromise 2 5 30) 2 [true]) as (p' & slept & E & _); [done|simpl; lia|simpl; lia|].
  vm_compute in E. injection E as <- <-. eexists. vm_compute. reflexivity.
Defined.
