(* ===== verification/Cache.v ===== *)
(** * Points, neighbors, lines and links (pkg/olsw/cache/point.go, neighbor.go, online.go, link.go)

    The remaining tables of the switch, on the bounded maps of pkg/libol. *)

From S2P Require Import Prelude GoStd SafeMap Models.

Local Open Scope Z_scope.

(** ** Points: by client address, and between identity and address *)
Module PointCache.

Record t := mk {
  Clients : SafeStrMap.t Point.t; UUIDAddr : SafeStrStr.t; AddrUUID : SafeStrStr.t
}.

Definition New : t :=
  {| Clients := SafeStrMap.NewSafeStrMap 1024; UUIDAddr := SafeStrStr.NewSafeStrStr 1024;
     AddrUUID := SafeStrStr.NewSafeStrStr 1024 |}.

Definition Init (p : t) (size : Z) : t :=
  {| Clients := SafeStrMap.NewSafeStrMap size; UUIDAddr := UUIDAddr p; AddrUUID := AddrUUID p |}.

Definition Add (p : t) (m : Point.t) : t :=
  {| Clients := (SafeStrMap.Set_ (Clients p) (Point.Client m) (Some m)).1;
     UUIDAddr := (SafeStrStr.Reset (UUIDAddr p) (Point.UUID m) (Point.Client m)).1;
     AddrUUID := (SafeStrStr.Set_ (AddrUUID p) (Point.Client m) (Point.UUID m)).1 |}.

(** [m.Update()] asks the client and the device; their answers are [refresh]. *)
Definition Get (refresh : Point.t -> Point.t) (p : t) (addr : string) : t * option Point.t :=
  match SafeStrMap.Get (Clients p) addr with
  | Some m =>
      let m := refresh m in
      ({| Clients := SafeStrMap.upd (Clients p) (<[addr := Some m]> (SafeStrMap.data (Clients p)));
          UUIDAddr := UUIDAddr p; AddrUUID := AddrUUID p |}, Some m)
  | None => (p, None)
  end.

Definition GetUUID (p : t) (addr : string) : string := SafeStrStr.Get (AddrUUID p) addr.
Definition GetAddr (p : t) (uuid : string) : string := SafeStrStr.Get (UUIDAddr p) uuid.

Definition GetByUUID (refresh : Point.t -> Point.t) (p : t) (uuid : string) : t * option Point.t :=
  let addr := GetAddr p uuid in
  if String.eqb addr "" then (p, None) else Get refresh p addr.

(** [Del]: the device of the point, if any, is to be closed. *)
Definition Del (p : t) (addr : string) : t * option nat :=
  match SafeStrMap.Get (Clients p) addr with
  | Some m =>
      ({| Clients := SafeStrMap.Del (Clients p) addr;
          UUIDAddr := if String.eqb (SafeStrStr.Get (UUIDAddr p) (Point.UUID m)) addr
                      then SafeStrStr.Del (UUIDAddr p) (Point.UUID m) else UUIDAddr p;
          AddrUUID := SafeStrStr.Del (AddrUUID p) (Point.Client m) |}, Point.Device m)
  | None => (p, None)
  end.

Definition List_ (refresh : Point.t -> Point.t) (order : list (string * option Point.t)) : list Point.t :=
  refresh <$> (SafeStrMap.visited order).*2.

End PointCache.

(** ** Neighbors by address *)
Module NeighborCache.

Abbreviation t := (SafeStrMap.t Neighbor.t).

Definition New : t := SafeStrMap.NewSafeStrMap 1024.
Definition Init (size : Z) : t := SafeStrMap.NewSafeStrMap size.
Definition key (m : Neighbor.t) : string := ip4_string (Neighbor.IpAddr m).

Definition Get (p : t) (k : string) : option Neighbor.t := SafeStrMap.Get p k.
Definition Del (p : t) (k : string) : t := SafeStrMap.Del p k.
Definition Add (p : t) (m : Neighbor.t) : t :=
  let p := match SafeStrMap.Get p (key m) with Some _ => SafeStrMap.Del p (key m) | None => p end in
  (SafeStrMap.Set_ p (key m) (Some m)).1.
(** Changing the stored object in place. *)
Definition mutate (p : t) (k : string) (m : Neighbor.t) : t :=
  SafeStrMap.upd p (<[k := Some m]> (SafeStrMap.data p)).
Definition Update (p : t) (m : Neighbor.t) : t :=
  match SafeStrMap.Get p (key m) with
  | Some n => mutate p (key m) (Neighbor.set_seen n (Neighbor.HwAddr m) (Neighbor.HitTime m))
  | None => p
  end.
Definition List_ (order : list (string * option Neighbor.t)) : list Neighbor.t :=
  (SafeStrMap.visited order).*2.

End NeighborCache.

(** ** Traffic lines *)
Module OnlineCache.

Abbreviation t := (SafeStrMap.t Line.t).

Definition New : t := SafeStrMap.NewSafeStrMap 1024.
Definition Init (size : Z) : t := SafeStrMap.NewSafeStrMap size.
Definition Add (p : t) (m : Line.t) : t := (SafeStrMap.Set_ p (Line.String_ m) (Some m)).1.
Definition Update (p : t) (m : Line.t) : t :=
  match SafeStrMap.Get p (Line.String_ m) with
  | Some l => SafeStrMap.upd p (<[Line.String_ m := Some (Line.set_hit l (Line.HitTime m))]> (SafeStrMap.data p))
  | None => p
  end.
Definition Get (p : t) (k : string) : option Line.t := SafeStrMap.Get p k.
Definition Del (p : t) (k : string) : t := SafeStrMap.Del p k.
Definition List_ (order : list (string * option Line.t)) : list Line.t := (SafeStrMap.visited order).*2.

End OnlineCache.

(** ** Links to other switches *)
Module LinkCache.

Record Link := { User : string; Network : string; Protocol : string; StatusFile : string }.
Abbreviation t := (SafeStrMap.t Link).

Definition New : t := SafeStrMap.NewSafeStrMap 1024.
Definition Init (size : Z) : t := SafeStrMap.NewSafeStrMap size.
Definition Add (p : t) (uuid : string) (l : Link) : t := (SafeStrMap.Set_ p uuid (Some l)).1.
Definition Get (p : t) (k : string) : option Link := SafeStrMap.Get p k.
Definition Del (p : t) (k : string) : t := SafeStrMap.Del p k.
Definition List_ (order : list (string * option Link)) : list Link := (SafeStrMap.visited order).*2.

End LinkCache.

(** ** Reconnecting points *)

Lemma safestrstr_full_false (sm : SafeStrStr.t) :
  SafeStrStr.Len sm < SafeStrStr.size sm -> SafeStrStr.full sm = false.
Proof. intros H. unfold SafeStrStr.full. rewrite (proj2 (Z.leb_gt _ _)) by done. apply andb_false_r. Qed.

Section points.
Import PointCache.
Implicit Types p : PointCache.t.

Lemma Add_lookup p m :
  SafeStrMap.full (Clients p) = false -> SafeStrStr.Len (UUIDAddr p) < SafeStrStr.size (UUIDAddr p) ->
  SafeStrMap.data (Clients p) !! Point.Client m = None ->
  SafeStrMap.data (Clients (Add p m)) = <[Point.Client m := Some m]> (SafeStrMap.data (Clients p)) /\
  SafeStrStr.data (UUIDAddr (Add p m)) = <[Point.UUID m := Point.Client m]> (SafeStrStr.data (UUIDAddr p)).
Proof.
  intros Hc Hu Hn. unfold Add. simpl.
  unfold SafeStrMap.Set_, SafeStrMap.add. rewrite Hc, Hn.
  unfold SafeStrStr.Reset. rewrite safestrstr_full_false by done. done.
Qed.

End points.

(** The newest connection of a point is the one that is found: adding a point on a
    new address makes it the point of its identity, even if an older connection of
    the same identity is still there, and closing that older connection, or any
    other, afterwards leaves the new one in place; only closing the new one ends
    the identity. *)
Theorem point_newest_wins (refresh : Point.t -> Point.t) (p : PointCache.t) (m : Point.t) (old : string) :
  SafeStrMap.full (PointCache.Clients p) = false ->
  SafeStrStr.Len (PointCache.UUIDAddr p) < SafeStrStr.size (PointCache.UUIDAddr p) ->
  SafeStrMap.data (PointCache.Clients p) !! Point.Client m = None ->
  Point.Client m <> ""%string -> old <> Point.Client m ->
  let p1 := PointCache.Add p m in
  (PointCache.GetByUUID refresh p1 (Point.UUID m)).2 = Some (refresh m) /\
  (PointCache.GetByUUID refresh (PointCache.Del p1 old).1 (Point.UUID m)).2 = Some (refresh m) /\
  (PointCache.GetByUUID refresh (PointCache.Del p1 (Point.Client m)).1 (Point.UUID m)).2 = None.
Proof.
  intros Hc Hu Hn Hne Hold p1. destruct (Add_lookup p m Hc Hu Hn) as [Ec Eu]. fold p1 in Ec, Eu. clearbody p1.
  assert (Hlook : forall p2, SafeStrMap.data (PointCache.Clients p2) !! Point.Client m = Some (Some m) ->
            SafeStrStr.data (PointCache.UUIDAddr p2) !! Point.UUID m = Some (Point.Client m) ->
            (PointCache.GetByUUID refresh p2 (Point.UUID m)).2 = Some (refresh m)).
  { intros p2 H1 H2. unfold PointCache.GetByUUID, PointCache.GetAddr, SafeStrStr.Get. rewrite H2. simpl.
    rewrite (proj2 (String.eqb_neq _ _) Hne). unfold PointCache.Get, SafeStrMap.Get. by rewrite H1. }
  split; [|split].
  - apply Hlook; [by rewrite Ec, lookup_insert_eq|by rewrite Eu, lookup_insert_eq].
  - unfold PointCache.Del. destruct (SafeStrMap.Get (PointCache.Clients p1) old) as [mo|] eqn:Eo.
    2:{ cbn [fst]. apply Hlook; [by rewrite Ec, lookup_insert_eq|by rewrite Eu, lookup_insert_eq]. }
    cbn [fst]. apply Hlook; cbn [PointCache.Clients PointCache.UUIDAddr].
    + unfold SafeStrMap.Del. destruct (SafeStrMap.data (PointCache.Clients p1) !! old); simpl;
        rewrite ?lookup_delete_ne by done; by rewrite Ec, lookup_insert_eq.
    + unfold SafeStrStr.Get. destruct (decide (Point.UUID mo = Point.UUID m)) as [E|E].
      * rewrite E, Eu, lookup_insert_eq. simpl.
        rewrite (proj2 (String.eqb_neq (Point.Client m) old)) by congruence.
        by rewrite Eu, lookup_insert_eq.
      * destruct (String.eqb _ old); [|by rewrite Eu, lookup_insert_eq].
        unfold SafeStrStr.Del. destruct (SafeStrStr.data (PointCache.UUIDAddr p1) !! Point.UUID mo); simpl;
          rewrite ?lookup_delete_ne by done; by rewrite Eu, lookup_insert_eq.
  - assert (Hg : SafeStrMap.Get (PointCache.Clients p1) (Point.Client m) = Some m)
      by (unfold SafeStrMap.Get; by rewrite Ec, lookup_insert_eq).
    unfold PointCache.Del. rewrite Hg. cbn [fst].
    unfold PointCache.GetByUUID, PointCache.GetAddr, SafeStrStr.Get. cbn [PointCache.UUIDAddr].
    rewrite Eu, lookup_insert_eq. simpl. rewrite String.eqb_refl. unfold SafeStrStr.Del.
    rewrite Eu, lookup_insert_eq. simpl. by rewrite lookup_delete_eq.
Qed.

Definition demo_point (uuid client : string) : Point.t :=
  {| Point.UUID := uuid; Point.Alias := ""; Point.Network := "net"; Point.User := "bob";
     Point.Protocol := "tcp"; Point.Server := ""; Point.Uptime := 0; Point.Status := "";
     Point.IfName := ""; Point.Client := client; Point.Device := None; Point.System := "" |}.

Lemma point_newest_wins_witness :
  let p := PointCache.Add PointCache.New (demo_point "u" "10.0.0.1:1") in
  let p1 := PointCache.Add p (demo_point "u" "10.0.0.1:2") in
  (PointCache.GetByUUID id (PointCache.Del p1 "10.0.0.1:1").1 "u").2 = Some (demo_point "u" "10.0.0.1:2").
Proof.
  intros p p1.
  destruct (point_newest_wins id p (demo_point "u" "10.0.0.1:2") "10.0.0.1:1") as (_ & H & _);
    [reflexivity|vm_compute; reflexivity|reflexivity|discriminate|discriminate|exact H].
Defined.
