(* ===== verification/Apps.v ===== *)
(** * What the switch does with a frame (pkg/olsw/app)

    [Access] lets points log in and drops the frames of those that have not;
    [Neighbors] learns from ARP; [Online] keeps the list of traffic lines;
    [Request] answers control messages, address requests in particular.  They share
    the tables of pkg/olsw/cache, here one [world]; clients are known by the address
    their [String] method prints; what is asked of the master (the worker that
    serves the clients) is recorded in order. *)

From S2P Require Import Prelude GoStd Protocol Message SafeMap Models UserCache NetCache Cache Socket.

Local Open Scope Z_scope.

Abbreviation Client := (SocketClientImpl Point.t).

(** What an application asks of the master and what it writes to clients. *)
Inductive effect :=
| OffClient (c : client_id)
| ReadTap (dev : nat) (c : client_id)
| WriteMsg (c : client_id) (action : string) (body : bytes).

(** [SocketClient] values are pointers into this store. *)
Record world := {
  w_users : UserCache.user; w_nets : NetCache.network; w_points : PointCache.t;
  w_neighbors : NeighborCache.t; w_lines : OnlineCache.t;
  w_clients : gmap string Client; w_effects : list effect
}.

Definition upd_users (w : world) (u : UserCache.user) : world :=
  {| w_users := u; w_nets := w_nets w; w_points := w_points w; w_neighbors := w_neighbors w;
     w_lines := w_lines w; w_clients := w_clients w; w_effects := w_effects w |}.
Definition upd_nets (w : world) (n : NetCache.network) : world :=
  {| w_users := w_users w; w_nets := n; w_points := w_points w; w_neighbors := w_neighbors w;
     w_lines := w_lines w; w_clients := w_clients w; w_effects := w_effects w |}.
Definition upd_points (w : world) (p : PointCache.t) : world :=
  {| w_users := w_users w; w_nets := w_nets w; w_points := p; w_neighbors := w_neighbors w;
     w_lines := w_lines w; w_clients := w_clients w; w_effects := w_effects w |}.
Definition upd_neighbors (w : world) (n : NeighborCache.t) : world :=
  {| w_users := w_users w; w_nets := w_nets w; w_points := w_points w; w_neighbors := n;
     w_lines := w_lines w; w_clients := w_clients w; w_effects := w_effects w |}.
Definition upd_lines (w : world) (l : OnlineCache.t) : world :=
  {| w_users := w_users w; w_nets := w_nets w; w_points := w_points w; w_neighbors := w_neighbors w;
     w_lines := l; w_clients := w_clients w; w_effects := w_effects w |}.
Definition upd_client (w : world) (c : client_id) (cl : Client) : world :=
  {| w_users := w_users w; w_nets := w_nets w; w_points := w_points w; w_neighbors := w_neighbors w;
     w_lines := w_lines w; w_clients := <[c := cl]> (w_clients w); w_effects := w_effects w |}.
Definition emit (w : world) (e : effect) : world :=
  {| w_users := w_users w; w_nets := w_nets w; w_points := w_points w; w_neighbors := w_neighbors w;
     w_lines := w_lines w; w_clients := w_clients w; w_effects := w_effects w ++ [e] |}.

Definition have (w : world) (c : client_id) (st : Z) : bool :=
  match w_clients w !! c with Some cl => Have cl st | None => false end.
Definition set_client_status (w : world) (c : client_id) (st : Z) : world :=
  match w_clients w !! c with Some cl => upd_client w c (SetStatus cl st).1 | None => w end.

(** The interface [Master]: what the applications need of the switch, whose own state
    is [M]. *)
Class Master (M : Type) := {
  Protocol : M -> string;
  NewTap : M -> string -> run (M * result nat)
}.

(** What [Update] of a point would read from its client and device. *)
Definition refresh (w : world) (dev_name : nat -> string) (now : Z) (m : Point.t) : Point.t :=
  match w_clients w !! Point.Client m with
  | Some cl => Point.Update m (UpTime cl now) (status_String (status cl))
                 (match Point.Device m with Some d => dev_name d | None => ""%string end)
  | None => m
  end.

(** ** Access *)

Record Access := { success : Z; failed : Z }.

Section access.
Context {M : Type} `{HM : Master M}.
(** [encoding/json] and the LDAP server are the environment's. *)
Context (decode_user : bytes -> option User.t) (dial : LDAPConfig -> option LDAPService).
Context (dev_name : nat -> string) (tz : Z).

Definition local_addr (w : world) (c : client_id) : string :=
  match w_clients w !! c with Some cl => localAddr cl | None => ""%string end.

Definition onAuth (ms : M) (w : world) (c : client_id) (u : User.t) (now : Z)
    : run (M * world * option error) :=
  if negb (have w c ClAuth) then Finished (ms, w, Some (NewErr "not auth." []))
  else
    r ← NewTap ms (User.Network u);
    let '(ms, r) := r in
    match r with
       | inr e => Finished (ms, w, Some e)
       | inl dev =>
           let m := Point.SetUser (Point.NewPoint c (local_addr w c) dev (Protocol ms)) u in
           let '(ps, om) := PointCache.GetByUUID (refresh w dev_name now) (w_points w) (Point.UUID m) in
           let w := upd_points w ps in
           let w := match om with Some om => emit w (OffClient (Point.Client om)) | None => w end in
           let w := match w_clients w !! c with
                    | Some cl => upd_client w c (SetPrivate cl (Some m)) | None => w end in
           let w := upd_points w (PointCache.Add (w_points w) m) in
           Finished (ms, emit w (ReadTap dev c), None)
    end.

(** The user [Check] returned is the stored object unless it is an LDAP user that was
    known before: then it is a copy and the stored one does not hear of the client. *)
Definition is_stored (before after : UserCache.user) (id : string) : bool :=
  match UserCache.Get before id with
  | Some u => negb (String.eqb (User.Role u) "ldap")
  | None => bool_decide (is_Some (UserCache.Get after id))
  end.

Definition handleLogin (a : Access) (ms : M) (w : world) (c : client_id) (data : bytes) (now : Z)
    : run (Access * M * world * option error) :=
  if have w c ClAuth then Finished (a, ms, w, None)
  else match decode_user data with
       | None => Finished (a, ms, w, Some (NewErr "Invalid json data." []))
       | Some u0 =>
           let u := User.Update u0 now in
           let '(users, r) := UserCache.Check dial (w_users w) u tz now in
           let stored := is_stored (w_users w) users (User.Id u) in
           let w := upd_users w users in
           match r with
           | inl known =>
               let w := match User.Last known with
                        | Some last => if String.eqb (User.Role known) "admin" then w
                                       else emit w (OffClient last)
                        | None => w
                        end in
               let a := {| success := success a + 1; failed := failed a |} in
               let w := if stored
                        then upd_users w (UserCache.mutate (w_users w) (User.Id u) (User.set_last known c))
                        else w in
               let w := set_client_status w c ClAuth in
               r ← onAuth ms w c u now;
               Finished (a, r.1.1, r.1.2, None)
           | inr _ =>
               Finished ({| success := success a; failed := failed a + 1 |}, ms,
                 set_client_status w c ClUnAuth, Some (NewErr "Auth failed." []))
           end
       end.

Definition err_text (e : error) : bytes := bytes_of_string (err_format e).
Definition unAuth : error := NewErr "unAuth client." [].

Definition access_OnFrame (a : Access) (ms : M) (w : world) (c : client_id) (frame : FrameMessage)
    (now : Z) : run (Access * M * world * option error) :=
  let gate w := if have w c ClAuth then None else Some unAuth in
  if IsControl frame then
    let '(act, data) := CmdAndParams frame in
    if String.eqb act LoginReq then
      r ← handleLogin a ms w c data now;
      match r with
      | (a, ms, w, Some e) => Finished (a, ms, emit w (WriteMsg c LoginResp (err_text e)), Some e)
      | (a, ms, w, None) =>
          let w := emit w (WriteMsg c LoginResp (bytes_of_string "okay")) in
          Finished (a, ms, w, gate w)
      end
    else Finished (a, ms, w, gate w)
  else Finished (a, ms, w, gate w).

End access.

(** ** Neighbors *)

Definition private_point (w : world) (c : client_id) : option Point.t :=
  match w_clients w !! c with Some cl => private cl | None => None end.

Definition AddNeighbor (w : world) (n : Neighbor.t) (c : client_id) (now : Z) : world :=
  match NeighborCache.Get (w_neighbors w) (NeighborCache.key n) with
  | Some old =>
      upd_neighbors w (NeighborCache.mutate (w_neighbors w) (NeighborCache.key n)
        (Neighbor.set_hit (Neighbor.Update old c (private_point w c)) now))
  | None => upd_neighbors w (NeighborCache.Add (w_neighbors w) n)
  end.

Definition DelNeighbor (w : world) (ip : bytes) : world :=
  match NeighborCache.Get (w_neighbors w) (ip4_string ip) with
  | Some _ => upd_neighbors w (NeighborCache.Del (w_neighbors w) (ip4_string ip))
  | None => w
  end.

Definition neighbors_OnFrame (w : world) (c : client_id) (frame : FrameMessage) (now : Z)
    : go (FrameMessage * world * option error) :=
  if IsControl frame then Ret (frame, w, None)
  else
    r ← Proto frame;
    let '(frame, proto, err) := r in
    match err with
    | Some e => Ret (frame, w, Some e)
    | None =>
        match fp_Eth proto with
        | None => Panic
        | Some eth =>
            if negb (Ether.IsArp eth) then Ret (frame, w, None)
            else match fp_Arp proto with
                 | None => Panic
                 | Some arp =>
                     if Arp.IsIP4 arp && (Arp.IsReply arp || Arp.IsRequest arp)
                     then let n := Neighbor.NewNeighbor (Arp.SHwAddr arp) (Arp.SIpAddr arp) c
                                     (private_point w c) now in
                          Ret (frame, AddNeighbor w n c now, None)
                     else Ret (frame, w, None)
                 end
        end
    end.

(** ** Online *)

(** [lineList] holds the lines of [lineMap] in the order of their arrival; a line is
    known by its text, which does not change. *)
Record Online := { maxLines : Z; lineMap : gmap string Line.t; lineList : list string }.

Definition NewOnline (ms : Z) : Online := {| maxLines := ms; lineMap := ∅; lineList := [] |}.

Definition popLine (o : Online) (cache : OnlineCache.t) : Online * OnlineCache.t :=
  if zlen (lineList o) <? maxLines o then (o, cache)
  else match lineList o with
       | [] => (o, cache)
       | k :: rest =>
           ({| maxLines := maxLines o; lineMap := delete k (lineMap o); lineList := rest |},
            OnlineCache.Del cache k)
       end.

Definition AddLine (o : Online) (cache : OnlineCache.t) (line : Line.t) (now : Z)
    : Online * OnlineCache.t :=
  let key := Line.String_ line in
  match lineMap o !! key with
  | None =>
      let '(o, cache) := popLine o cache in
      ({| maxLines := maxLines o; lineMap := <[key := line]> (lineMap o); lineList := lineList o ++ [key] |},
       OnlineCache.Add cache line)
  | Some find =>
      let find := Line.set_hit find now in
      ({| maxLines := maxLines o; lineMap := <[key := find]> (lineMap o); lineList := lineList o |},
       OnlineCache.Update cache find)
  end.

(** The line of an IPv4 frame. *)
Definition frame_line (proto : FrameProto) (ip : Ipv4.t) (now : Z) : Line.t :=
  let '(dst, src) :=
    match fp_Tcp proto with
    | Some tcp => (Tcp.Destination tcp, Tcp.Source tcp)
    | None => match fp_Udp proto with
              | Some udp => (Udp.Destination udp, Udp.Source udp)
              | None => (0, 0)
              end
    end in
  {| Line.EthType := EthIp4; Line.IpSource := Ipv4.Source ip; Line.IpDest := Ipv4.Destination ip;
     Line.IpProtocol := Ipv4.Protocol ip; Line.PortDest := dst; Line.PortSource := src;
     Line.NewTime := now; Line.HitTime := now |}.

Definition online_OnFrame (o : Online) (w : world) (frame : FrameMessage) (now : Z)
    : go (Online * FrameMessage * world * option error) :=
  if IsControl frame then Ret (o, frame, w, None)
  else
    r ← Proto frame;
    let '(frame, proto, err) := r in
    match err with
    | Some e => Ret (o, frame, w, Some e)
    | None =>
        match fp_Ip4 proto with
        | None => Ret (o, frame, w, None)
        | Some ip =>
            let '(o, lines) := AddLine o (w_lines w) (frame_line proto ip now) now in
            Ret (o, frame, upd_lines w lines, None)
        end
    end.

(** ** Request *)

Section request.
Context (dev_name : nat -> string).
(** [encoding/json]: [decode_net] fills a network that starts as [NewNetwork("", "")]. *)
Context (decode_net : bytes -> option Network.t) (encode_net : Network.t -> option bytes).
Context (encode_neighbors : list Neighbor.t -> option bytes).

Definition onDefault (w : world) (c : client_id) (data : bytes) : world :=
  emit w (WriteMsg c PongResp data).

Definition onNeighbor (w : world) (c : client_id) (order : list (string * option Neighbor.t)) : world :=
  match encode_neighbors (NeighborCache.List_ order) with
  | Some resp => emit w (WriteMsg c NeighborResp resp)
  | None => w
  end.

Definition set_lease (n : NetCache.network) (id : nat) (f : Lease.t -> Lease.t) : NetCache.network :=
  match leases n !! id with
  | Some l =>
      let l' := f l in
      touch n id (Lease.UUID l') (Lease.Alias l') (Lease.Client l') (Lease.Type_ l') (Lease.Network l')
  | None => n
  end.
Definition with_uuid (uuid : string) (l : Lease.t) : Lease.t :=
  {| Lease.Address := Lease.Address l; Lease.UUID := uuid; Lease.Alias := Lease.Alias l;
     Lease.Client := Lease.Client l; Lease.Type_ := Lease.Type_ l; Lease.Network := Lease.Network l |}.
Definition with_alias (alias : string) (l : Lease.t) : Lease.t :=
  {| Lease.Address := Lease.Address l; Lease.UUID := Lease.UUID l; Lease.Alias := alias;
     Lease.Client := Lease.Client l; Lease.Type_ := Lease.Type_ l; Lease.Network := Lease.Network l |}.
Definition with_holder (net client : string) (l : Lease.t) : Lease.t :=
  {| Lease.Address := Lease.Address l; Lease.UUID := Lease.UUID l; Lease.Alias := Lease.Alias l;
     Lease.Client := client; Lease.Type_ := Lease.Type_ l; Lease.Network := net |}.

Definition lease_address (n : NetCache.network) (id : nat) : string :=
  match leases n !! id with Some l => Lease.Address l | None => ""%string end.

(** [getLease] for a network that is not nil. *)
Definition getLease (nets : NetCache.network) (ifAddr : string) (p : Point.t) (n : Network.t)
    : go (NetCache.network * option nat) :=
  let uuid := Point.UUID p in
  let alias := Point.Alias p in
  let net := Network.Name n in
  let lease := GetLeaseByAlias nets alias in
  r ← (if String.eqb ifAddr "" then
         match lease with
         | None =>
             r ← NewLease nets uuid net;
             let '(nets, lease) := r in
             Ret (match lease with Some id => set_lease nets id (with_alias alias) | None => nets end, lease)
         | Some id => Ret (set_lease nets id (with_uuid uuid), lease)
         end
       else
         let ipAddr := User.nth_or (SplitN ifAddr Network.char_slash 2) 0 in
         let same := match lease with Some id => String.eqb (lease_address nets id) ipAddr | None => false end in
         if same then
           Ret (match lease with Some id => set_lease nets id (with_uuid uuid) | None => nets end, lease)
         else
           match AddLease nets uuid ipAddr with
           | (nets, Some id) => Ret (set_lease nets id (with_alias alias), Some id)
           | (_, None) => Panic
           end);
  let '(nets, lease) := r in
  Ret (match lease with Some id => set_lease nets id (with_holder net (Point.Client p)) | None => nets end, lease).

Definition with_ifaddr (n : Network.t) (addr mask : string) (rts : list Route.t) : Network.t :=
  {| Network.Name := Network.Name n; Network.Tenant := ""; Network.IfAddr := addr; Network.IpStart := "";
     Network.IpEnd := ""; Network.Netmask := mask; Network.Routes := rts |}.

Definition onIpAddr (w : world) (c : client_id) (data : bytes) (now : Z) : go world :=
  match decode_net data with
  | None => Ret w
  | Some recv =>
      let name := if String.eqb (Network.Name recv) "" then Network.Tenant recv else Network.Name recv in
      let name := if String.eqb name "" then "default"%string else name in
      match NetCache.Get (w_nets w) name with
      | None => Ret w
      | Some n =>
          let '(ps, p) := PointCache.Get (refresh w dev_name now) (w_points w) c in
          let w := upd_points w ps in
          match p with
          | None => Ret w
          | Some p =>
              r ← (if String.eqb (Network.IfAddr recv) "" then
                     r ← getLease (w_nets w) "" p n;
                     let '(nets, lease) := r in
                     Ret (nets,
                       match lease with
                       | Some id => with_ifaddr n (lease_address nets id) (Network.Netmask n) (Network.Routes n)
                       | None => with_ifaddr n "169.254.0.0"
                                   (if String.eqb (Network.Netmask n) "" then "255.255.0.0" else Network.Netmask n)
                                   (Network.Routes n)
                       end)
                   else Ret (w_nets w,
                          with_ifaddr n (Network.IfAddr recv) (Network.Netmask recv) (Network.Routes n)));
              let '(nets, resp) := r in
              let w := upd_nets w nets in
              Ret (match encode_net resp with
                   | Some body => emit w (WriteMsg c IpAddrResp body)
                   | None => w
                   end)
          end
      end
  end.

Definition onLeave (w : world) (c : client_id) : world := emit w (OffClient c).

(** [order]: the order in which the neighbors are listed, if they are. *)
Definition request_OnFrame (w : world) (c : client_id) (frame : FrameMessage)
    (order : list (string * option Neighbor.t)) (now : Z) : go (world * option error) :=
  if IsEthernet frame then Ret (w, None)
  else
    let '(act, body) := CmdAndParams frame in
    w ← (if String.eqb act NeighborReq then Ret (onNeighbor w c order)
         else if String.eqb act IpAddrReq then onIpAddr w c body now
         else if String.eqb act LeftReq then Ret (onLeave w c)
         else if String.eqb act LoginReq then Ret w
         else Ret (onDefault w c body));
    Ret (w, None).

End request.

(** ** Only authenticated clients pass *)

Lemma have_emit w e c st : have (emit w e) c st = have w c st.
Proof. done. Qed.

Lemma have_upd_client w c cl c' st :
  have (upd_client w c cl) c' st = if decide (c = c') then Have cl st else have w c' st.
Proof.
  unfold have, upd_client. simpl. case_decide; subst; [by rewrite lookup_insert_eq|].
  by rewrite lookup_insert_ne by done.
Qed.

Lemma SetStatus_status {P} (s : SocketClientImpl P) v : status (SetStatus s v).1 = v.
Proof. unfold SetStatus. destruct (status s =? v) eqn:E; [by apply Z.eqb_eq in E|done]. Qed.

Lemma have_set_status w c st c' v :
  have (set_client_status w c st) c' v =
    if decide (c = c') then bool_decide (is_Some (w_clients w !! c)) && (st =? v) else have w c' v.
Proof.
  unfold set_client_status. destruct (w_clients w !! c) as [cl|] eqn:E.
  - rewrite have_upd_client. case_decide; [|done].
    unfold Have. rewrite SetStatus_status. simpl. done.
  - case_decide; subst; [|done]. unfold have. rewrite E. done.
Qed.

Section auth.
Context {M : Type} `{HM : Master M}.
Context (decode_user : bytes -> option User.t) (dial : LDAPConfig -> option LDAPService).
Context (dev_name : nat -> string) (tz : Z).

Lemma onAuth_have ms w c u now ms' w' e c' st :
  onAuth dev_name ms w c u now = Finished (ms', w', e) -> have w' c' st = have w c' st.
Proof.
  unfold onAuth. destruct (negb _); [intros; by simplify_eq|].
  destruct (NewTap _ _) as [[ms1 [dev|]]| |]; cbn [mbind run_bind]; [|intros; by simplify_eq|done|done].
  set (m := Point.SetUser _ _).
  destruct (PointCache.GetByUUID _ _ _) as [ps om]. intros H; simplify_eq. rewrite have_emit.
  set (w1 := match om with Some _ => _ | None => _ end).
  assert (Hc : w_clients w1 = w_clients w) by (unfold w1; by destruct om).
  assert (Hh : forall x, have (upd_points w1 x) c' st = have w c' st) by (intros x; unfold have; simpl; by rewrite Hc).
  rewrite Hc. destruct (w_clients w !! c) as [cl|] eqn:E; [|apply Hh].
  change (have (upd_points ?a ?b) c' st) with (have a c' st).
  rewrite have_upd_client. case_decide; subst; [|unfold have; by rewrite Hc].
  unfold have. by rewrite E.
Qed.

Lemma onAuth_users_effects ms w c u now ms' w' e :
  onAuth dev_name ms w c u now = Finished (ms', w', e) ->
  w_users w' = w_users w /\ exists more, w_effects w' = w_effects w ++ more.
Proof.
  unfold onAuth. destruct (negb _); [intros; simplify_eq; split; [done|]; exists []; by rewrite app_nil_r|].
  destruct (NewTap _ _) as [[ms1 [dev|]]| |]; cbn [mbind run_bind];
    [|intros; simplify_eq; split; [done|]; exists []; by rewrite app_nil_r|done|done].
  destruct (PointCache.GetByUUID _ _ _) as [ps [om|]]; cbv zeta;
    match goal with |- context [match ?x with Some _ => _ | None => _ end] => destruct x end;
    intros; simplify_eq; simpl; (split; [done|]); rewrite <- ?app_assoc; eexists; reflexivity.
Qed.

(** A login changes the status of the client only, and to authenticated only if the
    check accepts. *)
Lemma handleLogin_have a ms w c data now a' ms' w' e :
  have w c ClAuth = false ->
  handleLogin decode_user dial dev_name tz a ms w c data now = Finished (a', ms', w', e) ->
  (forall c' st, c' <> c -> have w' c' st = have w c' st) /\
  (have w' c ClAuth = true -> e = None /\
     exists u0 known, decode_user data = Some u0 /\
       (UserCache.Check dial (w_users w) (User.Update u0 now) tz now).2 = inl known).
Proof.
  intros Hn. unfold handleLogin. rewrite Hn.
  destruct (decode_user data) as [u0|]; [|intros; simplify_eq; by rewrite Hn].
  destruct (UserCache.Check dial (w_users w) (User.Update u0 now) tz now) as [users r] eqn:Ec.
  destruct r as [known|er].
  - match goal with |- context [onAuth _ ?a ?b ?c ?d ?f] => destruct (onAuth _ a b c d f) as [[[ms1 w1] e1]| |] eqn:Eo end;
      cbn [mbind run_bind]; [|done|done]. intros H; simplify_eq. cbn [fst snd]. split.
    + intros c' st Hne. rewrite (onAuth_have _ _ _ _ _ _ _ _ c' st Eo), have_set_status, decide_False by done.
      destruct (is_stored _ _ _), (User.Last known); try done; by destruct (String.eqb _ "admin").
    + intros _. split; [done|]. exists u0, known. by rewrite Ec.
  - intros H; simplify_eq. split.
    + intros c' st Hne. by rewrite have_set_status, decide_False by done.
    + rewrite have_set_status, decide_True by done. by rewrite andb_false_r.
Qed.

End auth.


Definition demo_client : Client := NewTcpClient "10.0.0.9:5000" None 8 100.
Definition demo_world : world :=
  {| w_users := UserCache.Add NewUserCache demo_user; w_nets := NewNetworkCache;
     w_points := PointCache.New; w_neighbors := NeighborCache.New; w_lines := OnlineCache.New;
     w_clients := {[ "10.0.0.9:5000"%string := demo_client ]}; w_effects := [] |}.
(** A master that has handed out [n] taps. *)
Definition demo_master : Master nat :=
  {| Protocol _ := "tcp"%string; NewTap n _ := Finished (S n, inl n) |}.
Definition control_frame (act : string) (body : bytes) : FrameMessage :=
  {| control := true; action := act; params := body; buffer := []; frame_len := 0; size := 0;
     total := 0; proto := None |}.


(** ** One connection per guest *)

(** A guest has one connection: when a stored user who is not an administrator
    logs in from a new client, the client of the previous login is given up first,
    the database remembers the new client, and the login is counted; an
    administrator's earlier clients are left alone. *)
Theorem login_replaces_last {M : Type} `{HM : Master M} (decode_user : bytes -> option User.t)
    (dial : LDAPConfig -> option LDAPService) (dev_name : nat -> string) (tz : Z)
    (a a' : Access) (ms ms' : M) (w w' : world) (c : client_id) (data : bytes) (now : Z)
    (e : option error) (u0 known : User.t) :
  have w c ClAuth = false -> decode_user data = Some u0 ->
  UserCache.Get (w_users w) (User.Id (User.Update u0 now)) = Some known ->
  local_role (User.Role known) = true ->
  User.Password known = User.Password u0 -> lease_valid tz now (User.Lease known) = true ->
  handleLogin decode_user dial dev_name tz a ms w c data now = Finished (a', ms', w', e) ->
  e = None /\ success a' = success a + 1 /\
  UserCache.Get (w_users w') (User.Id (User.Update u0 now)) = Some (User.set_last known c) /\
  exists more, w_effects w' = w_effects w ++
    match User.Last known with
    | Some last => if String.eqb (User.Role known) "admin" then [] else [OffClient last]
    | None => []
    end ++ more.
Proof.
  intros Hn Hd Hg Hr Hp Hv. unfold handleLogin. rewrite Hn, Hd.
  unfold UserCache.Check. rewrite Hg, Hr. change (User.Password (User.Update u0 now)) with (User.Password u0).
  rewrite Hp, String.eqb_refl. cbn [andb]. rewrite Hv.
  assert (Hl : String.eqb (User.Role known) "ldap" = false).
  { apply String.eqb_neq. intros E. rewrite E in Hr. discriminate Hr. }
  unfold is_stored. rewrite Hg, Hl. cbn [negb].
  set (w1 := match User.Last known with Some _ => _ | None => _ end).
  set (w2 := upd_users w1 _). set (w3 := set_client_status w2 c ClAuth).
  assert (Hu3 : w_users w3 = w_users w2) by (unfold w3, set_client_status; by destruct (w_clients w2 !! c)).
  assert (He3 : w_effects w3 = w_effects w1)
    by (unfold w3, set_client_status; by destruct (w_clients w2 !! c)).
  destruct (onAuth dev_name ms w3 c (User.Update u0 now) now) as [[[ms1 w4] e1]| |] eqn:Eo;
    cbn [mbind run_bind]; [|done|done]. intros H; simplify_eq. cbn [fst snd].
  destruct (onAuth_users_effects _ _ _ _ _ _ _ _ _ Eo) as [Hua (more & Hea)].
  split; [done|]. split; [done|]. split.
  - rewrite Hua, Hu3. unfold w2, UserCache.Get, SafeStrMap.Get. simpl. by rewrite lookup_insert_eq.
  - exists more. rewrite Hea, He3, app_assoc. f_equal. unfold w1.
    destruct (User.Last known); [|by rewrite app_nil_r].
    destruct (String.eqb (User.Role known) "admin"); [by rewrite app_nil_r|done].
Qed.

Lemma login_replaces_last_witness :
  let known := User.set_last demo_user "10.0.0.9:4000" in
  let w := upd_users demo_world (UserCache.Add NewUserCache known) in
  match @handleLogin nat demo_master (fun _ => Some (User.with_login "bob@net" "pw" "" "" 0)) (fun _ => None)
          (fun _ => "tap7"%string) 0 {| success := 0; failed := 0 |} 7%nat w "10.0.0.9:5000" [] 200 with
  | Finished (_, _, w', _) => exists more, w_effects w' = OffClient "10.0.0.9:4000" :: more
  | _ => False
  end.
Proof.
  intros known w.
  destruct (handleLogin _ _ _ _ _ _ _ _ _ _) as [[[[a' ms'] w'] e]| |] eqn:E; [|by vm_compute in E..].
  destruct (@login_replaces_last nat demo_master (fun _ => Some (User.with_login "bob@net" "pw" "" "" 0))
    (fun _ => None) (fun _ => "tap7"%string) 0 {| success := 0; failed := 0 |} a' 7%nat ms' w w'
    "10.0.0.9:5000" [] 200 e (User.with_login "bob@net" "pw" "" "" 0) known) as (_ & _ & _ & more & He);
    [reflexivity..|exact E|]. exists more. exact He.
Defined.

(** ** Neighbors *)

Lemma proto_arp_frame frame p :
  proto_Decode (new_proto frame) = Ret p -> fp_Err p = None ->
  exists e, fp_Eth p = Some e /\ (Ether.IsArp e = true -> is_Some (fp_Arp p)).
Proof.
  unfold proto_Decode. simpl. destruct (Ether.NewEtherFromFrame frame) as [[e err]|]; [simpl|done].
  destruct err as [er|]; [by intros; simplify_eq|].
  destruct (slice_from frame (Ether.Len e)) as [data|]; [simpl|done].
  assert (Hn : forall i d, fp_Eth i = Some e -> proto_network i (Ether.Type_ e) d = Ret p -> fp_Err p = None ->
            exists e', fp_Eth p = Some e' /\ (Ether.IsArp e' = true -> is_Some (fp_Arp p))).
  { intros i d He. unfold proto_network, Ether.IsArp.
    destruct (Ether.Type_ e =? EthIp4) eqn:E4.
    - apply Z.eqb_eq in E4. assert (Hna : (Ether.Type_ e =? EthArp) = false) by (rewrite E4; done).
      destruct (Ipv4.NewIpv4FromFrame d) as [[ip err]|]; [simpl|done].
      destruct err; [intros; simplify_eq; exists e; rewrite Hna; done|].
      destruct (slice_from d (Ipv4.Len ip)) as [d2|]; [simpl|done].
      destruct (_ =? IpTcp); [|destruct (_ =? IpUdp)];
        repeat match goal with |- context [?x ≫= _] => destruct x as [[? ?]|]; [simpl|done] end;
        intros; simplify_eq; exists e; rewrite Hna; done.
    - destruct (Ether.Type_ e =? EthArp) eqn:Ea.
      + destruct (Arp.NewArpFromFrame d) as [[arp err]|]; [simpl|done].
        intros; simplify_eq. exists e. split; [done|]. intros _. by eexists.
      + intros; simplify_eq. exists e. rewrite Ea. done. }
  destruct (Ether.IsVlan e) eqn:Ev; [|by apply Hn].
  destruct (Vlan.NewVlanFromFrame data) as [[v err]|]; [simpl|done].
  destruct err; [intros; simplify_eq; done|].
  destruct (slice_from data (Vlan.Len v)) as [data2|]; [simpl|done]. by apply Hn.
Qed.

(** The neighbor table never panics and never refreshes a hardware address: for
    every Ethernet frame [Neighbors.OnFrame] returns; an entry that exists keeps the
    hardware address it was created with, whatever address later ARP messages for the
    same protocol address carry. *)
Theorem neighbors_keep_first_hwaddr (w : world) (c : client_id) (frame : FrameMessage) (now : Z) :
  proto frame = None ->
  exists frame' w' e, neighbors_OnFrame w c frame now = Ret (frame', w', e) /\
    forall k n, NeighborCache.Get (w_neighbors w) k = Some n ->
      exists n', NeighborCache.Get (w_neighbors w') k = Some n' /\
        Neighbor.HwAddr n' = Neighbor.HwAddr n /\ Neighbor.IpAddr n' = Neighbor.IpAddr n.
Proof.
  intros Hp. unfold neighbors_OnFrame. destruct (IsControl frame).
  { eexists _, _, _. split; [done|]. intros k n Hk. by exists n. }
  unfold Proto. rewrite Hp.
  destruct (proto_decode_total (new_proto (Frame frame))) as [p Ep]. rewrite Ep. cbn [mbind go_bind].
  destruct (fp_Err p) as [er|] eqn:Ee; [eexists _, _, _; split; [done|]; intros k n Hk; by exists n|].
  destruct (proto_arp_frame _ _ Ep Ee) as (e & -> & Ha).
  destruct (Ether.IsArp e); [|eexists _, _, _; split; [done|]; intros k n Hk; by exists n].
  destruct (Ha eq_refl) as [arp ->]. simpl.
  destruct (Arp.IsIP4 arp && _); [|eexists _, _, _; split; [done|]; intros k n Hk; by exists n].
  eexists _, _, _. split; [done|]. intros k n Hk. unfold AddNeighbor.
  set (new := Neighbor.NewNeighbor _ _ _ _ _).
  destruct (NeighborCache.Get (w_neighbors w) (NeighborCache.key new)) as [old|] eqn:Eo.
  - destruct (decide (k = NeighborCache.key new)) as [->|Hne].
    + rewrite Hk in Eo. injection Eo as <-. eexists.
      unfold NeighborCache.Get, SafeStrMap.Get. simpl. rewrite lookup_insert_eq. split; [done|].
      simpl. by destruct (private_point w c).
    + exists n. split; [|done]. unfold NeighborCache.Get, SafeStrMap.Get in *. simpl.
      by rewrite lookup_insert_ne.
  - exists n. split; [|done]. unfold NeighborCache.Add. simpl.
    unfold NeighborCache.Get in Eo. rewrite Eo.
    assert (Hne : k <> NeighborCache.key new) by (intros ->; unfold NeighborCache.Get in Hk; congruence).
    unfold NeighborCache.Get, SafeStrMap.Get in *. unfold SafeStrMap.Set_, SafeStrMap.add.
    destruct (SafeStrMap.full (w_neighbors w)); [done|].
    destruct (SafeStrMap.data (w_neighbors w) !! NeighborCache.key new); [done|]. simpl.
    by rewrite lookup_insert_ne.
Qed.

(** An ARP request from 10.0.0.5 with the given hardware address. *)
Definition arp_frame (hw : bytes) : FrameMessage :=
  let f := EthAll ++ hw ++ [8; 6; 0; 1; 8; 0; 6; 4; 0; 1] ++ hw ++ [10; 0; 0; 5] ++ EthZero ++ [10; 0; 0; 1] in
  {| control := false; action := ""; params := []; buffer := make_bytes 4 ++ f; frame_len := zlen f;
     size := zlen f; total := zlen f; proto := None |}.

Lemma neighbors_keep_first_hwaddr_witness :
  let w := upd_neighbors demo_world (NeighborCache.Add NeighborCache.New
             (Neighbor.NewNeighbor [2; 0; 0; 0; 0; 1] [10; 0; 0; 5] "10.0.0.9:5000" None 50)) in
  exists f' w' e n', neighbors_OnFrame w "10.0.0.9:5000" (arp_frame [2; 0; 0; 0; 0; 2]) 60 = Ret (f', w', e) /\
    NeighborCache.Get (w_neighbors w') "10.0.0.5" = Some n' /\ Neighbor.HwAddr n' = [2; 0; 0; 0; 0; 1] /\
    Neighbor.HitTime n' = 60.
Proof.
  intros w.
  destruct (neighbors_keep_first_hwaddr w "10.0.0.9:5000" (arp_frame [2; 0; 0; 0; 0; 2]) 60)
    as (f' & w' & e & E & H); [reflexivity|].
  destruct (H "10.0.0.5"%string _ eq_refl) as (n' & Hn & Hh & _). exists f', w', e, n'.
  split; [exact E|]. split; [exact Hn|]. split; [exact Hh|].
  vm_compute in E. injection E as <- <- <-. vm_compute in Hn. injection Hn as <-. reflexivity.
Defined.

(** ** Traffic lines *)

(** The two tables of [Online] and the shared one agree. *)
Definition online_inv (o : Online) (cache : OnlineCache.t) : Prop :=
  NoDup (lineList o) /\ (forall k, k ∈ lineList o <-> is_Some (lineMap o !! k)) /\
  (forall k l, lineMap o !! k = Some l -> Line.String_ l = k) /\
  zlen (lineList o) <= Z.max 1 (maxLines o) /\
  SafeStrMap.size cache = 1024 /\ SafeStrMap.data cache = Some <$> lineMap o.

Lemma online_size o cache :
  online_inv o cache -> SafeStrMap.Len cache = zlen (lineList o).
Proof.
  intros (Hnd & Hk & _ & _ & _ & Hc). unfold SafeStrMap.Len, zlen. rewrite Hc, map_size_fmap.
  rewrite <- size_dom, <- (size_list_to_set (C := gset string) (lineList o)) by done.
  do 2 f_equal. apply set_eq. intros x. by rewrite elem_of_list_to_set, elem_of_dom, Hk.
Qed.

Lemma popLine_inv o cache :
  online_inv o cache ->
  online_inv (popLine o cache).1 (popLine o cache).2 /\ maxLines (popLine o cache).1 = maxLines o /\
  zlen (lineList (popLine o cache).1) < Z.max 1 (maxLines o) /\
  (forall k, lineMap o !! k = None -> lineMap (popLine o cache).1 !! k = None).
Proof.
  intros Hi. pose proof Hi as (Hnd & Hk & Hs & Hl & Hz & Hc). unfold popLine.
  destruct (zlen (lineList o) <? maxLines o) eqn:E; [apply Z.ltb_lt in E; simpl; split_and!; (done || lia)|].
  apply Z.ltb_ge in E. destruct (lineList o) as [|k0 rest] eqn:El.
  { simpl. rewrite El. split_and!; try done. unfold zlen. simpl. lia. }
  apply NoDup_cons in Hnd as [Hni Hnd]. simpl. split_and!.
  - split_and!; simpl; try done.
    + intros k. rewrite lookup_delete_is_Some, <- Hk, elem_of_cons. naive_solver.
    + intros k l [_ Hkl]%lookup_delete_Some. by apply Hs.
    + unfold zlen in *. simpl in *. lia.
    + unfold OnlineCache.Del, SafeStrMap.Del. by destruct (SafeStrMap.data cache !! k0).
    + unfold OnlineCache.Del, SafeStrMap.Del.
      destruct (SafeStrMap.data cache !! k0) eqn:Ek; simpl; [by rewrite Hc, fmap_delete|].
      assert (is_Some (lineMap o !! k0)) as [l Hlk] by (apply Hk, elem_of_cons; by left).
      rewrite Hc, lookup_fmap, Hlk in Ek. done.
  - done.
  - unfold zlen in *. simpl in *. lia.
  - intros k Hn. rewrite lookup_delete_None. by right.
Qed.

Lemma AddLine_inv o cache line now :
  online_inv o cache -> maxLines o <= 1024 ->
  online_inv (AddLine o cache line now).1 (AddLine o cache line now).2 /\
  maxLines (AddLine o cache line now).1 = maxLines o /\
  is_Some (lineMap (AddLine o cache line now).1 !! Line.String_ line).
Proof.
  intros Hi Hm. unfold AddLine. destruct (lineMap o !! Line.String_ line) as [find|] eqn:Ef.
  - destruct Hi as (Hnd & Hk & Hs & Hl & Hz & Hc). simpl.
    assert (Hkey : Line.String_ find = Line.String_ line) by by apply Hs.
    split; [|split; [done|by rewrite lookup_insert_eq]]. split_and!; simpl; try done.
    + intros k. rewrite Hk. destruct (decide (k = Line.String_ line)) as [->|Hne];
        [rewrite lookup_insert_eq, Ef|rewrite lookup_insert_ne by done]; done.
    + intros k l [[<- <-]|[_ Hkl]]%lookup_insert_Some; [exact Hkey|by apply Hs].
    + unfold OnlineCache.Update. by destruct (SafeStrMap.Get _ _).
    + unfold OnlineCache.Update, SafeStrMap.Get.
      change (Line.String_ (Line.set_hit find now)) with (Line.String_ find). rewrite Hkey.
      rewrite Hc, lookup_fmap, Ef. simpl. by rewrite fmap_insert.
  - destruct (popLine_inv o cache Hi) as (Hi' & Hmax & Hlt & Hnone).
    destruct (popLine o cache) as [o1 c1]. simpl in *. pose proof (online_size _ _ Hi') as Hsz.
    destruct Hi' as (Hnd & Hk & Hs & Hl & Hz & Hc). specialize (Hnone _ Ef).
    assert (Hni : Line.String_ line ∉ lineList o1) by (rewrite Hk, Hnone; by intros [? ?]).
    split; [|split; [done|by rewrite lookup_insert_eq]].
    assert (Ha : OnlineCache.Add c1 line =
              SafeStrMap.upd c1 (<[Line.String_ line := Some line]> (SafeStrMap.data c1))).
    { unfold OnlineCache.Add, SafeStrMap.Set_, SafeStrMap.add.
      rewrite (proj2 (full_false c1)) by (right; rewrite Hz; lia).
      by rewrite Hc, lookup_fmap, Hnone. }
    rewrite Ha. split_and!; simpl; try done.
    + apply NoDup_app. split; [done|]. split; [|apply NoDup_singleton].
      intros x Hx Hx'. apply list_elem_of_singleton in Hx' as ->. done.
    + intros k. rewrite elem_of_app, list_elem_of_singleton, Hk.
      destruct (decide (k = Line.String_ line)) as [->|Hne];
        [rewrite lookup_insert_eq|rewrite lookup_insert_ne by done].
      * split; [by intros _; eexists|by right].
      * split; [by intros [?|?]|by left].
    + intros k l [[<- <-]|[_ Hkl]]%lookup_insert_Some; [done|by apply Hs].
    + rewrite zlen_app. unfold zlen at 2. simpl. lia.
    + by rewrite Hc, fmap_insert.
Qed.

(** Lines seen one after the other. *)
Definition add_lines (o : Online) (cache : OnlineCache.t) (ls : list (Line.t * Z)) : Online * OnlineCache.t :=
  foldl (fun oc ln => AddLine oc.1 oc.2 ln.1 ln.2) (o, cache) ls.

(** The list of traffic lines is bounded and consistent: after any sequence of
    lines the list has at most [maxSize] entries (one, if that is zero), no entry
    twice, exactly the keys of the map, the shared table holds exactly the same
    lines, and the line seen last is among them. *)
Theorem online_bounded_consistent (ms : Z) (ls : list (Line.t * Z)) (line : Line.t) (now : Z) :
  ms <= 1024 ->
  let '(o, cache) := add_lines (NewOnline ms) OnlineCache.New (ls ++ [(line, now)]) in
  zlen (lineList o) <= Z.max 1 ms /\ NoDup (lineList o) /\
  (forall k, k ∈ lineList o <-> is_Some (lineMap o !! k)) /\
  (forall k, OnlineCache.Get cache k = lineMap o !! k) /\
  is_Some (lineMap o !! Line.String_ line).
Proof.
  intros Hms.
  assert (H0 : online_inv (NewOnline ms) OnlineCache.New /\ maxLines (NewOnline ms) = ms).
  { split; [|done]. split_and!; simpl; try done.
    - constructor.
    - intros k. rewrite lookup_empty. split; [by intros ?%not_elem_of_nil|by intros [? ?]].
    - unfold zlen. simpl. lia. }
  assert (G : forall l oc, online_inv oc.1 oc.2 /\ maxLines oc.1 = ms ->
            let r := foldl (fun oc ln => AddLine oc.1 oc.2 ln.1 ln.2) oc l in
            online_inv r.1 r.2 /\ maxLines r.1 = ms).
  { intros l. induction l as [|[ln t] l IH]; intros oc [Hi Hm]; [done|]. apply IH. simpl.
    destruct (AddLine_inv oc.1 oc.2 ln t Hi) as (Hi' & Hm' & _); [lia|]. split; [done|congruence]. }
  unfold add_lines. rewrite foldl_app. simpl.
  destruct (G ls (NewOnline ms, OnlineCache.New) H0) as [Hi Hm]. simpl in Hi, Hm.
  set (r := foldl _ _ ls) in *.
  destruct (AddLine_inv r.1 r.2 line now Hi) as (Hi' & Hm' & Hs); [lia|].
  destruct (AddLine r.1 r.2 line now) as [o cache]. simpl in *.
  destruct Hi' as (Hnd & Hk & _ & Hl & _ & Hc). split_and!; try done; [lia|].
  intros k. unfold OnlineCache.Get, SafeStrMap.Get. rewrite Hc, lookup_fmap. by destruct (lineMap o !! k).
Qed.

Definition demo_line (port : Z) : Line.t :=
  {| Line.EthType := EthIp4; Line.IpSource := [10; 0; 0; 1]; Line.IpDest := [10; 0; 0; 2];
     Line.IpProtocol := 6; Line.PortDest := port; Line.PortSource := 1000; Line.NewTime := 0; Line.HitTime := 0 |}.

Lemma online_bounded_consistent_witness :
  let r := add_lines (NewOnline 2) OnlineCache.New ([(demo_line 80, 1); (demo_line 81, 2)] ++ [(demo_line 82, 3)]) in
  zlen (lineList r.1) <= 2 /\ OnlineCache.Get r.2 (Line.String_ (demo_line 80)) = None.
Proof.
  intros r. split; [|vm_compute; reflexivity].
  pose proof (online_bounded_consistent 2 [(demo_line 80, 1); (demo_line 81, 2)] (demo_line 82) 3 ltac:(lia)) as H.
  fold r in H. destruct r as [o cache]. apply H.
Defined.

(** ** Addresses for points *)

Lemma set_lease_inv n id f : lease_inv n -> lease_inv (set_lease n id f).
Proof. unfold set_lease. destruct (leases n !! id); [|done]. apply touch_inv. Qed.

Lemma getLease_inv nets p n nets' r :
  lease_inv nets -> SafeStrMap.full (Addr nets) = false -> getLease nets "" p n = Ret (nets', r) -> lease_inv nets'.
Proof.
  intros Hi Hf. unfold getLease. simpl.
  destruct (GetLeaseByAlias nets (Point.Alias p)) as [id|] eqn:El.
  - cbn [mbind go_bind]. intros; simplify_eq. by do 2 apply set_lease_inv.
  - destruct (NewLease nets (Point.UUID p) (Network.Name n)) as [[nets1 [id|]]|] eqn:En; [| |done];
      cbn [mbind go_bind]; intros; simplify_eq; repeat apply set_lease_inv; by eapply NewLease_inv.
Qed.

(** The lease [getLease] answers with is there. *)
Lemma set_lease_lookup n id f id' :
  is_Some (leases n !! id') -> is_Some (leases (set_lease n id f) !! id').
Proof.
  intros [l Hl]. unfold set_lease. destruct (leases n !! id) as [l0|] eqn:E; [|by eexists].
  unfold touch. rewrite E. simpl. destruct (decide (id' = id)) as [->|Hne].
  - rewrite list_lookup_insert_eq by (by eapply lookup_lt_Some). by eexists.
  - rewrite list_lookup_insert_ne by done. by eexists.
Qed.

Lemma GetLease_valid n k id : lease_inv n -> GetLease n k = Some id -> is_Some (leases n !! id).
Proof.
  intros (H1 & _) Hg. unfold GetLease, SafeStrMap.GetEx in Hg.
  destruct (SafeStrMap.data (UUID n) !! k) as [v|] eqn:E; [|done]. simpl in Hg. subst v.
  destruct (H1 _ _ E) as (id' & l & [= <-] & Hl & _). by eexists.
Qed.

Lemma set_lease_GetLease n id f k : GetLease (set_lease n id f) k = GetLease n k.
Proof. unfold set_lease, touch. by destruct (leases n !! id). Qed.

Lemma NewLease_GetLease n uuid net n' id :
  NewLease n uuid net = Ret (n', Some id) -> GetLease n' uuid = Some id.
Proof.
  unfold NewLease.
  destruct (NetCache.Get n net) as [nw|]; [|done]. destruct (String.eqb uuid ""); [done|].
  destruct (SafeStrMap.GetEx (UUID n) uuid) as [v [|]] eqn:Eg.
  - intros [= <- <-]. unfold GetLease. by rewrite Eg.
  - destruct (allocLease n _ _) as [[s|]|]; cbn [mbind go_bind]; [|done|done].
    destruct (String.eqb s ""); [done|]. by intros [= <- <-].
Qed.

(** The lease [getLease] answers with is the one the point's alias or identity refers to. *)
Lemma getLease_holder nets p n nets' id :
  getLease nets "" p n = Ret (nets', Some id) ->
  GetLease nets' (Point.Alias p) = Some id \/ GetLease nets' (Point.UUID p) = Some id.
Proof.
  unfold getLease. simpl.
  destruct (GetLeaseByAlias nets (Point.Alias p)) as [id0|] eqn:El.
  - cbn [mbind go_bind]. intros; simplify_eq. left. by rewrite !set_lease_GetLease.
  - destruct (NewLease nets (Point.UUID p) (Network.Name n)) as [[nets1 [id1|]]|] eqn:En; [| |done];
      cbn [mbind go_bind]; intros; simplify_eq.
    right. rewrite !set_lease_GetLease. by eapply NewLease_GetLease.
Qed.

(** Address requests keep addresses apart: when a point asks for an address without
    naming one, on leases that are in order and not full, the answer it is sent holds
    either the address of the lease its alias or its identity now refers to, or the
    link-local 169.254.0.0; the leases stay consistent, so that two identities never
    hold the same address. *)
Theorem ipaddr_request_safe (dev_name : nat -> string) (decode_net : bytes -> option Network.t)
    (encode_net : Network.t -> option bytes) (w w' : world) (c : client_id) (data : bytes) (now : Z)
    (recv : Network.t) :
  lease_inv (w_nets w) -> SafeStrMap.full (Addr (w_nets w)) = false ->
  decode_net data = Some recv -> Network.IfAddr recv = ""%string ->
  onIpAddr dev_name decode_net encode_net w c data now = Ret w' ->
  (forall k1 k2 l1 l2, lease_of (w_nets w') k1 = Some l1 -> lease_of (w_nets w') k2 = Some l2 -> k1 <> k2 ->
     Lease.Address l1 <> Lease.Address l2) /\
  (w_effects w' = w_effects w \/
   exists p resp body, (PointCache.Get (refresh w dev_name now) (w_points w) c).2 = Some p /\
     encode_net resp = Some body /\ w_effects w' = w_effects w ++ [WriteMsg c IpAddrResp body] /\
     (Network.IfAddr resp = "169.254.0.0"%string \/
      exists k l, (k = Point.Alias p \/ k = Point.UUID p) /\ lease_of (w_nets w') k = Some l /\
        Network.IfAddr resp = Lease.Address l)).
Proof.
  intros Hinv Hf Hd Hif. unfold onIpAddr. rewrite Hd.
  assert (Hu : forall nets, lease_inv nets -> forall k1 k2 l1 l2,
            lease_of nets k1 = Some l1 -> lease_of nets k2 = Some l2 -> k1 <> k2 ->
            Lease.Address l1 <> Lease.Address l2).
  { intros nets Hn k1 k2 l1 l2 G1 G2 Hne. by apply (lease_inv_unique nets k1 k2). }
  cbv zeta. destruct (NetCache.Get (w_nets w) _) as [n|]; [|intros [= <-]; split; [by apply Hu|by left]].
  destruct (PointCache.Get _ (w_points w) c) as [ps [p|]]; [|intros [= <-]; split; [by apply Hu|by left]].
  rewrite Hif. cbn [String.eqb]. change (w_nets (upd_points w ps)) with (w_nets w).
  destruct (getLease (w_nets w) "" p n) as [[nets r]|] eqn:Eg; [|done]. cbn [mbind go_bind].
  pose proof (getLease_inv _ _ _ _ _ Hinv Hf Eg) as Hinv'.
  match goal with |- context [encode_net ?x] => set (resp := x) end.
  assert (Hresp : Network.IfAddr resp = "169.254.0.0"%string \/
            exists k l, (k = Point.Alias p \/ k = Point.UUID p) /\ lease_of nets k = Some l /\
              Network.IfAddr resp = Lease.Address l).
  { unfold resp. destruct r as [id|]; [right|by left].
    assert (exists k, (k = Point.Alias p \/ k = Point.UUID p) /\ GetLease nets k = Some id) as (k & Hk & Hg)
      by (destruct (getLease_holder _ _ _ _ _ Eg); eauto).
    destruct (GetLease_valid _ _ _ Hinv' Hg) as [l Hl]. exists k, l. unfold lease_of. rewrite Hg. simpl.
    split; [done|]. split; [done|]. unfold lease_address. by rewrite Hl. }
  destruct (encode_net resp) as [body|] eqn:Ee; intros [= <-]; (split; [by apply Hu|]); [right|by left].
  by exists p, resp, body.
Qed.

Lemma ipaddr_request_safe_witness :
  let w := upd_points (upd_nets demo_world (NetCache.Add NewNetworkCache demo_net))
             (PointCache.Add PointCache.New (demo_point "u" "10.0.0.9:5000")) in
  let recv := {| Network.Name := "net"; Network.Tenant := ""; Network.IfAddr := ""; Network.IpStart := "";
                 Network.IpEnd := ""; Network.Netmask := ""; Network.Routes := [] |} in
  let enc n := Some (bytes_of_string (Network.IfAddr n)) in
  match onIpAddr (fun _ => "tap7"%string) (fun _ => Some recv) enc w "10.0.0.9:5000" [] 200 with
  | Ret w' => w_effects w' = [WriteMsg "10.0.0.9:5000" IpAddrResp (bytes_of_string "10.0.0.1")] /\
      exists l, lease_of (w_nets w') "u" = Some l
  | Panic => False
  end.
Proof.
  intros w recv enc.
  destruct (onIpAddr (fun _ => "tap7"%string) (fun _ => Some recv) enc w "10.0.0.9:5000" [] 200) as [w'|] eqn:E;
    [|by vm_compute in E].
  destruct (ipaddr_request_safe (fun _ => "tap7"%string) (fun _ => Some recv) enc w w' "10.0.0.9:5000" [] 200 recv)
    as [_ H]; [exact lease_inv_new|reflexivity|reflexivity|reflexivity|exact E|].
  assert (Hw : w_effects w' = [WriteMsg "10.0.0.9:5000" IpAddrResp (bytes_of_string "10.0.0.1")])
    by (vm_compute in E; injection E as <-; reflexivity).
  split; [exact Hw|]. rewrite Hw in H. destruct H as [H|(p & resp & body & Hp & Hb & He & Hr)]; [discriminate H|].
  injection He as <-. vm_compute in Hp. injection Hp as <-.
  injection Hb as Hb. vm_compute in E. injection E as <-. by eexists.
Defined.
