(* ===== verification/Switch.v ===== *)
(** * The switch at work (pkg/olsw/switch.go)

    How the switch puts its parts together: the applications as a chain of hooks, a
    frame's way from a client through the hooks to the client's tap, the taps and
    bridges the switch gives to points, and what a closed connection leaves behind.
    The devices are virtual taps on virtual bridges (the provider "virtual"); a
    worker without a bridge has none here either. *)

From S2P Require Import Prelude GoStd Protocol Message SafeMap Tap Bridge Models UserCache NetCache Cache Socket Apps.

Local Open Scope Z_scope.

(** ** Taps and bridges *)

(** Of the queue sizes of pkg/config the two that size virtual taps. *)
Record Queue := { VirSnd : Z; VirWrt : Z }.

(** The configuration the switch reads, the registry of taps, the devices and the
    bridges in stores of their own, and the bridge of each worker, nil included. *)
Record plant := {
  pl_protocol : string; pl_queue : Queue;
  pl_taps : tapers; pl_devs : store VirtualTap; pl_next : dev_id;
  pl_bridges : gmap bridge_id VirtualBridge; pl_worker : gmap string (option bridge_id)
}.

Definition pl_set (v : plant) (tp : tapers) (devs : store VirtualTap) (next : dev_id)
    (brs : gmap bridge_id VirtualBridge) : plant :=
  {| pl_protocol := pl_protocol v; pl_queue := pl_queue v; pl_taps := tp; pl_devs := devs;
     pl_next := next; pl_bridges := brs; pl_worker := pl_worker v |}.

Definition tap_config (q : Queue) : TapConfig :=
  {| Provider := ProviderVir; cfg_Type := TAP; cfg_Network := ""; cfg_Name := "auto";
     VirBuf := VirWrt q; KernBuf := VirSnd q; cfg_Mtu := 0 |}.

Definition GetBridge (v : plant) (tenant : string) : result (option bridge_id) :=
  match pl_worker v !! tenant with
  | None => inr (NewErr "bridge %s notFound" [])
  | Some br => inl br
  end.

(** A nil bridge has no type: asking for it panics. *)
Definition sw_NewTap (v : plant) (tenant : string) : run (plant * result dev_id) :=
  match GetBridge v tenant with
  | inr e => Finished (v, inr e)
  | inl None => Crashes
  | inl (Some id) =>
      match pl_bridges v !! id with
      | None => Crashes
      | Some br =>
          let d := pl_next v in
          let '(tp, dev) := NewVirtualTap (pl_taps v) d tenant (tap_config (pl_queue v)) in
          dev ← vt_Up dev;
          r ← AddSlave id br tp (<[d := dev]> (pl_devs v)) (name dev);
          let '(br, devs, _) := r in
          Finished (pl_set v tp devs (S d) (<[id := br]> (pl_bridges v)), inl d)
      end
  end.

Definition FreeTap (v : plant) (d : dev_id) : run (plant * option error) :=
  match pl_devs v !! d with
  | None => Crashes
  | Some dev =>
      match pl_worker v !! tenant dev with
      | None => Finished (v, Some (NewErr "bridge %s notFound" []))
      | Some None => Crashes
      | Some (Some id) =>
          match pl_bridges v !! id with
          | None => Crashes
          | Some br =>
              Finished (pl_set v (pl_taps v) (pl_devs v) (pl_next v)
                          (<[id := DelSlave br (name dev)]> (pl_bridges v)), None)
          end
      end
  end.

(** [device.Close()], with what it does to the bridge and the registry. *)
Definition close_tap (v : plant) (d : dev_id) : run plant :=
  match pl_devs v !! d with
  | None => Crashes
  | Some dev =>
      r ← vt_Close dev;
      let '(dev, det) := r in
      let brs := match det_master det, det_name det with
                 | Some id, Some nm => alter (fun br => DelSlave br nm) id (pl_bridges v)
                 | _, _ => pl_bridges v
                 end in
      let tp := match det_name det with Some nm => tp_Del (pl_taps v) nm | None => pl_taps v end in
      Finished (pl_set v tp (<[d := dev]> (pl_devs v)) (pl_next v) brs)
  end.

#[export] Instance switch_master : Apps.Master plant := {|
  Apps.Protocol := pl_protocol; Apps.NewTap := sw_NewTap
|}.

(** ** Hooks *)

Inductive Hook := HAuth | HRequest | HNeighbor | HOnLines.

Record Switch := {
  sw_hooks : list Hook; sw_auth : Access; sw_online : Online; sw_world : world; sw_plant : plant
}.

Definition sw_set (v : Switch) (a : Access) (o : Online) (w : world) (p : plant) : Switch :=
  {| sw_hooks := sw_hooks v; sw_auth := a; sw_online := o; sw_world := w; sw_plant := p |}.
Definition sw_upd (v : Switch) (w : world) : Switch := sw_set v (sw_auth v) (sw_online v) w (sw_plant v).

(** [strings.Contains] *)
Fixpoint Contains (s sub : string) : bool :=
  HasPrefix s sub || match s with EmptyString => false | String _ s => Contains s sub end.

Definition preApps (v : Switch) (Inspect : list string) (online_max : Z) : Switch :=
  let inspect := foldl String.append ""%string Inspect in
  let hooks := sw_hooks v ++ [HAuth; HRequest] in
  let hooks := if Contains inspect "neighbor" then hooks ++ [HNeighbor] else hooks in
  let on := Contains inspect "online" in
  {| sw_hooks := if on then hooks ++ [HOnLines] else hooks; sw_auth := {| success := 0; failed := 0 |};
     sw_online := if on then NewOnline online_max else sw_online v;
     sw_world := sw_world v; sw_plant := sw_plant v |}.

Section switch.
(** The environment: [encoding/json], the LDAP server, the zone of the clock and the
    order in which the table of neighbors is iterated. *)
Context (decode_user : bytes -> option User.t) (dial : LDAPConfig -> option LDAPService).
Context (decode_net : bytes -> option Network.t) (encode_net : Network.t -> option bytes).
Context (encode_neighbors : list Neighbor.t -> option bytes).
Context (encode_sign : string -> string -> option bytes).
Context (order : NeighborCache.t -> list (string * option Neighbor.t)) (tz : Z).

Definition dev_name (v : Switch) (d : dev_id) : string :=
  match pl_devs (sw_plant v) !! d with Some dev => name dev | None => ""%string end.

Definition run_hook (v : Switch) (h : Hook) (c : client_id) (f : FrameMessage) (now : Z)
    : run (Switch * FrameMessage * option error) :=
  match h with
  | HAuth =>
      r ← access_OnFrame decode_user dial (dev_name v) tz (sw_auth v) (sw_plant v) (sw_world v) c f now;
      let '(a, p, w, e) := r in Finished (sw_set v a (sw_online v) w p, f, e)
  | HRequest =>
      r ← lift (request_OnFrame (dev_name v) decode_net encode_net encode_neighbors (sw_world v) c f
                  (order (w_neighbors (sw_world v))) now);
      Finished (sw_upd v r.1, f, r.2)
  | HNeighbor =>
      r ← lift (neighbors_OnFrame (sw_world v) c f now);
      let '(f, w, e) := r in Finished (sw_upd v w, f, e)
  | HOnLines =>
      r ← lift (online_OnFrame (sw_online v) (sw_world v) f now);
      let '(o, f, w, e) := r in Finished (sw_set v (sw_auth v) o w (sw_plant v), f, e)
  end.

Fixpoint run_hooks (hs : list Hook) (v : Switch) (c : client_id) (f : FrameMessage) (now : Z)
    : run (Switch * FrameMessage * option error) :=
  match hs with
  | [] => Finished (v, f, None)
  | h :: hs =>
      r ← run_hook v h c f now;
      match r with
      | (v, f, Some e) => Finished (v, f, Some e)
      | (v, f, None) => run_hooks hs v c f now
      end
  end.

Definition onFrame (v : Switch) (c : client_id) (f : FrameMessage) (now : Z)
    : run (Switch * FrameMessage * option error) :=
  run_hooks (sw_hooks v) v c f now.

Definition OnClient (v : Switch) (c : client_id) : Switch :=
  sw_upd v (set_client_status (sw_world v) c ClConnected).

Definition SignIn (w : world) (c : client_id) : world :=
  match encode_sign c (local_addr w c) with
  | Some body => emit w (WriteMsg c SignReq body)
  | None => w
  end.

Definition ReadClient (v : Switch) (c : client_id) (f : FrameMessage) (now : Z)
    : run (Switch * option error) :=
  f ← lift (Decode f);
  r ← onFrame v c f now;
  match r with
  | (v, f, Some _) =>
      Finished (if String.eqb (action f) PingReq then sw_upd v (SignIn (sw_world v) c) else v, None)
  | (v, f, None) =>
      if IsControl f then Finished (v, None)
      else match private_point (sw_world v) c with
           | None => Finished (v, Some (NewErr "point %s notFound." []))
           | Some p =>
               match Point.Device p with
               | None => Finished (v, Some (NewErr "Tap devices is nil" []))
               | Some d =>
                   match pl_devs (sw_plant v) !! d with
                   | None => Crashes
                   | Some dev =>
                       tr ← vt_Write dev (Frame f);
                       let pl := sw_plant v in
                       Finished (sw_set v (sw_auth v) (sw_online v) (sw_world v)
                                   (pl_set pl (pl_taps pl) (<[d := tr.1]> (pl_devs pl)) (pl_next pl) (pl_bridges pl)),
                                 match tr.2 with inl _ => None | inr e => Some e end)
                   end
               end
           end
  end.

End switch.

(** [OnClose] of a connection, [addr] being its remote address. *)
Definition OnClose (v : Switch) (addr : string) : run Switch :=
  let w := sw_world v in
  let uuid := PointCache.GetUUID (w_points w) addr in
  nets ← lift (if String.eqb (PointCache.GetAddr (w_points w) uuid) addr
               then DelLease (w_nets w) uuid else Ret (w_nets w));
  let '(ps, dev) := PointCache.Del (w_points w) addr in
  p ← match dev with Some d => close_tap (sw_plant v) d | None => Finished (sw_plant v) end;
  Finished (sw_set v (sw_auth v) (sw_online v) (upd_points (upd_nets w nets) ps) p).

(** ** The gate *)

Lemma Decode_total f : exists f', Decode f = Ret f' /\ control f' = isControl (Frame f) /\
  Frame f' = Frame f /\ proto f' = proto f.
Proof.
  unfold Decode. destruct (isControl (Frame f)) eqn:E; [|by eexists].
  destruct (zlen (Frame f) <? 2 * EthDI) eqn:El; [by eexists|]. apply Z.ltb_ge in El.
  unfold slice_from, slice, EthDI in *. pose proof (zlen_nonneg (Frame f)).
  repeat (rewrite (proj2 (Z.leb_le _ _)) by lia). simpl. by eexists.
Qed.

Section gate.
Context (decode_user : bytes -> option User.t) (dial : LDAPConfig -> option LDAPService).
Context (decode_net : bytes -> option Network.t) (encode_net : Network.t -> option bytes).
Context (encode_neighbors : list Neighbor.t -> option bytes).
Context (encode_sign : string -> string -> option bytes).
Context (order : NeighborCache.t -> list (string * option Neighbor.t)) (tz : Z).

Local Abbreviation read_client := (ReadClient decode_user dial decode_net encode_net encode_neighbors encode_sign order tz).
Local Abbreviation hooks_run := (run_hooks decode_user dial decode_net encode_net encode_neighbors order tz).

(** What [access_OnFrame] does with a frame that is no login. *)
Lemma access_no_login {M} `{HM : Apps.Master M} dn a (ms : M) w c f now :
  (control f = true -> action f <> LoginReq) ->
  access_OnFrame decode_user dial dn tz a ms w c f now =
    Finished (a, ms, w, if have w c ClAuth then None else Some unAuth).
Proof.
  intros Hl. unfold access_OnFrame, IsControl. destruct (control f); [|done]. simpl.
  by rewrite (proj2 (String.eqb_neq _ _)) by auto.
Qed.

(** (C1) An unauthenticated client gets nowhere: of a client that has not logged in, every
    frame that is not a login request is dropped at the first hook.  No table, tap or
    bridge changes and nothing is written, except that a ping is answered with the
    request to sign in. *)
Theorem unauthenticated_frame_dropped (v : Switch) (hs : list Hook) (c : client_id) (f : FrameMessage) (now : Z) :
  sw_hooks v = HAuth :: hs -> have (sw_world v) c ClAuth = false ->
  (forall f', Decode f = Ret f' -> control f' = true -> action f' <> LoginReq) ->
  exists w, read_client v c f now = Finished (sw_upd v w, None) /\
    (w = sw_world v \/
     exists f' body, Decode f = Ret f' /\ action f' = PingReq /\
       encode_sign c (local_addr (sw_world v) c) = Some body /\
       w = emit (sw_world v) (WriteMsg c SignReq body)).
Proof.
  intros Hh Hn Hl. destruct (Decode_total f) as (f' & Ed & _). unfold ReadClient.
  rewrite Ed. cbn [lift mbind run_bind]. unfold onFrame. rewrite Hh. cbn [run_hooks run_hook].
  rewrite access_no_login by eauto. rewrite Hn. cbn [mbind run_bind].
  assert (Hv : sw_set v (sw_auth v) (sw_online v) (sw_world v) (sw_plant v) = v) by by destruct v.
  rewrite Hv. destruct (String.eqb_spec (action f') PingReq) as [Ep|Ep].
  - unfold SignIn. destruct (encode_sign _ _) as [body|] eqn:Es.
    + eexists. split; [done|]. right. by exists f', body.
    + exists (sw_world v). split; [done|]. by left.
  - exists (sw_world v). split; [|by left]. unfold sw_upd. by rewrite Hv.
Qed.

(** Hooks that inspect an Ethernet frame let it pass: they change neither the clients
    nor the taps, and write nothing. *)
Definition same_but_tables (v v' : Switch) : Prop :=
  sw_plant v' = sw_plant v /\ w_clients (sw_world v') = w_clients (sw_world v) /\
  w_effects (sw_world v') = w_effects (sw_world v) /\ w_points (sw_world v') = w_points (sw_world v) /\
  w_nets (sw_world v') = w_nets (sw_world v) /\ w_users (sw_world v') = w_users (sw_world v).

(** A frame that is Ethernet and whose headers are well formed, decoded or not yet. *)
Definition sound_frame (f : FrameMessage) : Prop :=
  control f = false /\
  exists p, proto_Decode (new_proto (Frame f)) = Ret p /\ fp_Err p = None /\
    (proto f = None \/ proto f = Some p).

Lemma Proto_sound f : sound_frame f -> exists f' p, Proto f = Ret (f', p, None) /\ sound_frame f' /\
  Frame f' = Frame f /\ proto_Decode (new_proto (Frame f)) = Ret p.
Proof.
  intros (Hc & p & Ed & He & Hp). unfold Proto. destruct Hp as [Hp|Hp]; rewrite Hp.
  - rewrite Ed. cbn [mbind go_bind]. rewrite He. eexists _, p. split; [done|].
    split; [|done]. split; [done|]. exists p. split; [exact Ed|]. split; [done|]. by right.
  - rewrite He. exists f, p. split; [done|]. split; [|done]. split; [done|].
    exists p. split; [done|]. split; [done|]. by right.
Qed.

Lemma hook_passes v h c f now :
  have (sw_world v) c ClAuth = true -> sound_frame f ->
  exists v' f', run_hook decode_user dial decode_net encode_net encode_neighbors order tz v h c f now =
    Finished (v', f', None) /\ same_but_tables v v' /\ sound_frame f' /\ Frame f' = Frame f.
Proof.
  intros Ha Hs. pose proof Hs as (Hc & _).
  destruct h; cbn [run_hook].
  - rewrite access_no_login by congruence. cbn [mbind run_bind]. rewrite Ha.
    eexists _, f. split; [done|]. by split; [|split].
  - unfold request_OnFrame, IsEthernet. rewrite Hc. simpl. eexists _, f. split; [done|]. by split; [|split].
  - unfold neighbors_OnFrame, IsControl. rewrite Hc.
    destruct (Proto_sound f Hs) as (f' & p & -> & Hs' & Hf & Ed). cbn [mbind go_bind].
    pose proof Hs as (_ & p' & Ed' & He' & _). rewrite Ed in Ed'. injection Ed' as <-.
    destruct (proto_arp_frame _ _ Ed He') as (e & -> & Harp).
    destruct (Ether.IsArp e); [|eexists _, f'; split; [done|]; by split; [|split]]. simpl.
    destruct (Harp eq_refl) as [arp ->].
    destruct (Arp.IsIP4 arp && _); (eexists _, f'; split; [done|]; split; [|done]); [|done].
    unfold AddNeighbor. by destruct (NeighborCache.Get _ _).
  - unfold online_OnFrame, IsControl. rewrite Hc.
    destruct (Proto_sound f Hs) as (f' & p & -> & Hs' & Hf & Ed). cbn [mbind go_bind].
    destruct (fp_Ip4 p) as [ip|]; [|eexists _, f'; split; [done|]; by split; [|split]].
    destruct (AddLine _ _ _ _) as [o ls]. eexists _, f'. split; [done|]. by split; [|split].
Qed.

Lemma hooks_pass hs v c f now :
  have (sw_world v) c ClAuth = true -> sound_frame f ->
  exists v' f', hooks_run hs v c f now = Finished (v', f', None) /\ same_but_tables v v' /\
    control f' = false /\ Frame f' = Frame f.
Proof.
  revert v f. induction hs as [|h hs IH]; intros v f Ha Hs; cbn [run_hooks].
  { exists v, f. split; [done|]. split; [done|]. split; [apply Hs|done]. }
  destruct (hook_passes v h c f now Ha Hs) as (v1 & f1 & -> & S1 & Hs1 & Hf1). cbn [mbind run_bind].
  destruct (IH v1 f1) as (v2 & f2 & -> & S2 & Hc2 & Hf2).
  - unfold have in *. destruct S1 as (_ & -> & _). done.
  - done.
  - exists v2, f2. split; [done|]. split; [|split; [done|congruence]].
    destruct S1 as (? & ? & ? & ? & ? & ?), S2 as (? & ? & ? & ? & ? & ?). split_and!; congruence.
Qed.

(** An authenticated client's frame reaches its tap: whatever is inspected, a
    well-formed Ethernet frame of a client that has logged in is queued, once and
    unchanged, on the tap of its point, unless that queue is full; nothing is written
    to any client, and no other tap, no bridge, point, lease or user changes. *)
Theorem client_frame_reaches_tap (v : Switch) (c : client_id) (f : FrameMessage) (now : Z)
    (p : Point.t) (d : dev_id) (t : VirtualTap) :
  have (sw_world v) c ClAuth = true -> isControl (Frame f) = false -> proto f = None ->
  (exists fp, proto_Decode (new_proto (Frame f)) = Ret fp /\ fp_Err fp = None) ->
  private_point (sw_world v) c = Some p -> Point.Device p = Some d ->
  pl_devs (sw_plant v) !! d = Some t -> vt_inv t -> hasFlags t UsUp = true ->
  exists v' t', read_client v c f now = Finished (v', None) /\
    pl_devs (sw_plant v') = <[d := t']> (pl_devs (sw_plant v)) /\ vt_inv t' /\ flags t' = flags t /\
    chan_items (chans t') (virtQ t') = chan_items (chans t) (virtQ t) ++
      (if virtC t <? VirBuf (cfg t) then [Frame f] else []) /\
    pl_bridges (sw_plant v') = pl_bridges (sw_plant v) /\
    w_effects (sw_world v') = w_effects (sw_world v) /\ w_points (sw_world v') = w_points (sw_world v) /\
    w_nets (sw_world v') = w_nets (sw_world v) /\ w_users (sw_world v') = w_users (sw_world v).
Proof.
  intros Ha Hc Hp (fp & Ed & Ee) Hpt Hd Ht Hi Hu. destruct (Decode_total f) as (f1 & E1 & Hc1 & Hf1 & Hp1).
  unfold ReadClient. rewrite E1. cbn [lift mbind run_bind]. unfold onFrame.
  assert (Hs : sound_frame f1).
  { split; [congruence|]. exists fp. rewrite Hf1, Hp1. split; [done|]. split; [done|]. by left. }
  destruct (hooks_pass (sw_hooks v) v c f1 now Ha Hs) as (v' & f' & -> & S & Hc' & Hf'). cbn [mbind run_bind].
  unfold IsControl. rewrite Hc'. destruct S as (Sp & Sc & Se & Spt & Sn & Su).
  assert (private_point (sw_world v') c = Some p) as -> by (unfold private_point in *; by rewrite Sc).
  rewrite Hd, Sp, Ht. rewrite Hf', Hf1.
  destruct (vt_write_up t (Frame f) Hi Hu) as (t' & n & -> & Hi' & _ & Hfl & Hq). cbn [mbind run_bind].
  eexists _, t'. split; [done|]. simpl. split_and!; done.
Qed.

End gate.

(** A switch with one network on bridge 0, on which the point of [demo_world]'s client
    has logged in. *)
Definition demo_plant : plant :=
  {| pl_protocol := "tcp"; pl_queue := {| VirSnd := 4; VirWrt := 4 |}; pl_taps := empty_taps;
     pl_devs := ∅; pl_next := 0; pl_bridges := {[ 0%nat := NewVirtualBridge "br-net" 1500 ]};
     pl_worker := {[ "net"%string := Some 0%nat ]} |}.
Definition demo_switch (v : plant) (w : world) : Switch :=
  preApps {| sw_hooks := []; sw_auth := {| success := 0; failed := 0 |}; sw_online := NewOnline 0;
             sw_world := w; sw_plant := v |} ["neighbor"%string; "online"%string] 64.

Definition demo_tap0 : VirtualTap :=
  match sw_NewTap demo_plant "net" with
  | Finished (v, inl d) => default (new_virtual "" (tap_config (pl_queue v)) "") (pl_devs v !! d)
  | _ => new_virtual "" (tap_config (pl_queue demo_plant)) ""
  end.
Definition logged_in_world : world :=
  let p := {| Point.UUID := "u"; Point.Alias := ""; Point.Network := "net"; Point.User := "bob";
              Point.Protocol := "tcp"; Point.Server := ""; Point.Uptime := 0; Point.Status := "";
              Point.IfName := ""; Point.Client := "10.0.0.9:5000"; Point.Device := Some 0%nat;
              Point.System := "" |} in
  upd_client demo_world "10.0.0.9:5000" (SetPrivate (SetStatus demo_client ClAuth).1 (Some p)).
Definition logged_in_switch : Switch :=
  demo_switch (match sw_NewTap demo_plant "net" with Finished (v, _) => v | _ => demo_plant end) logged_in_world.

Lemma unauthenticated_frame_dropped_witness :
  exists w, ReadClient (fun _ => None) (fun _ => None) (fun _ => None) (fun _ => None) (fun _ => None)
      (fun a l => Some (bytes_of_string (a +:+ l))) (fun _ => []) 0
      (demo_switch demo_plant demo_world) "10.0.0.9:5000" (arp_frame [2; 0; 0; 0; 0; 1]) 60 =
    Finished (sw_upd (demo_switch demo_plant demo_world) w, None) /\ w_effects w = [].
Proof.
  destruct (unauthenticated_frame_dropped (fun _ => None) (fun _ => None) (fun _ => None) (fun _ => None)
    (fun _ => None) (fun a l => Some (bytes_of_string (a +:+ l))) (fun _ => []) 0
    (demo_switch demo_plant demo_world) [HRequest; HNeighbor; HOnLines] "10.0.0.9:5000"
    (arp_frame [2; 0; 0; 0; 0; 1]) 60) as (w & E & Hw);
    [reflexivity|reflexivity|intros f' Ed; vm_compute in Ed; injection Ed as <-; discriminate|].
  exists w. split; [exact E|]. destruct Hw as [-> |(f' & body & Ed & Ha & _)]; [reflexivity|].
  vm_compute in Ed. injection Ed as <-. discriminate Ha.
Defined.

Lemma client_frame_reaches_tap_witness :
  let f := arp_frame [2; 0; 0; 0; 0; 1] in
  exists v' t', ReadClient (fun _ => None) (fun _ => None) (fun _ => None) (fun _ => None) (fun _ => None)
      (fun _ _ => None) (fun _ => []) 0 logged_in_switch "10.0.0.9:5000" f 60 = Finished (v', None) /\
    pl_devs (sw_plant v') !! 0%nat = Some t' /\ chan_items (chans t') (virtQ t') = [Frame f].
Proof.
  intros f.
  destruct (client_frame_reaches_tap (fun _ => None) (fun _ => None) (fun _ => None) (fun _ => None)
    (fun _ => None) (fun _ _ => None) (fun _ => []) 0 logged_in_switch "10.0.0.9:5000" f 60
    (default (demo_point "" "") (private_point logged_in_world "10.0.0.9:5000")) 0%nat demo_tap0)
    as (v' & t' & E & Hd & _ & _ & Hq & _);
    [reflexivity|reflexivity|reflexivity| |reflexivity|reflexivity|vm_compute; reflexivity| |reflexivity|].
  - destruct (proto_Decode (new_proto (Frame f))) as [fp|] eqn:Ep; [|by vm_compute in Ep].
    exists fp. split; [reflexivity|]. vm_compute in Ep. injection Ep as <-. reflexivity.
  - split; [vm_compute; by split|]. split; [vm_compute; by split|]. intros _. exists 0, 0.
    split; [|split; [|discriminate]]; (eexists _, _; split; [reflexivity|]; split; [reflexivity|]);
      vm_compute; repeat split; discriminate.
  - exists v', t'. split; [exact E|]. rewrite Hd, lookup_insert_eq. split; [reflexivity|].
    rewrite Hq. vm_compute. reflexivity.
Defined.

(** ** Taps of points *)

Definition queue_ok (q : Queue) : Prop := 0 <= VirSnd q < 2 ^ 62 /\ 0 <= VirWrt q < 2 ^ 62.

(** What [NewTap] makes: a device that is up, on the bridge of its network, under the
    name "auto". *)
Lemma sw_NewTap_spec v ten v' d :
  queue_ok (pl_queue v) -> sw_NewTap v ten = Finished (v', inl d) ->
  exists id br dev, pl_worker v !! ten = Some (Some id) /\ pl_bridges v !! id = Some br /\
    d = pl_next v /\
    v' = pl_set v (tp_Add (pl_taps v) "auto" d) (<[d := dev]> (pl_devs v)) (S d)
           (<[id := set_ports br (<["auto"%string := d]> (ports br))]> (pl_bridges v)) /\
    name dev = "auto"%string /\ master dev = Some id /\ tenant dev = ten /\ vt_inv dev /\
    hasFlags dev UsUp = true /\ hasFlags dev UsClose = false.
Proof.
  intros (Hs & Hw). unfold sw_NewTap, GetBridge.
  destruct (pl_worker v !! ten) as [[id|]|] eqn:Ew; [|done|done].
  destruct (pl_bridges v !! id) as [br|] eqn:Eb; [|done].
  unfold NewVirtualTap, vt_Up. simpl.
  rewrite (proj2 (Z.ltb_ge _ _)) by lia. rewrite (proj2 (Z.ltb_ge _ _)) by lia. simpl.
  unfold AddSlave, tp_Get, tp_Add. simpl. rewrite !lookup_insert_eq. simpl.
  intros H. injection H as <- <-. exists id, br. eexists. rewrite insert_insert_eq.
  split; [done|]. split; [done|]. split; [done|]. split; [reflexivity|]. simpl.
  split; [done|]. split; [done|]. split; [done|]. split; [|done].
  split; [done|]. split; [done|]. intros _. exists 0, 0. simpl.
  split; [|split; [|done]]; (eexists _, _; split; [done|]; split; [done|]); simpl; unfold zlen; simpl; lia.
Qed.

(** Two points of a network share one port: every tap the switch makes on a virtual
    bridge is called "auto", so the tap of a second point takes the port of the first,
    which the bridge floods and forwards to no more; and when the first point leaves,
    its tap takes the second one's port with it. *)
Theorem newtap_ports_collide (v v1 v2 : plant) (ten : string) (d1 d2 : dev_id) (id : bridge_id) (b : VirtualBridge) :
  queue_ok (pl_queue v) -> pl_worker v !! ten = Some (Some id) -> pl_bridges v !! id = Some b ->
  (forall nm d, ports b !! nm = Some d -> (d < pl_next v)%nat) ->
  sw_NewTap v ten = Finished (v1, inl d1) -> sw_NewTap v1 ten = Finished (v2, inl d2) ->
  d1 <> d2 /\
  (exists b2, pl_bridges v2 !! id = Some b2 /\ ports b2 !! "auto"%string = Some d2 /\
     forall nm, ports b2 !! nm <> Some d1) /\
  exists v3 b3, close_tap v2 d1 = Finished v3 /\ pl_bridges v3 !! id = Some b3 /\
    forall nm, ports b3 !! nm <> Some d2.
Proof.
  intros Hq Hw Hb Hlt E1 E2.
  destruct (sw_NewTap_spec v ten v1 d1 Hq E1) as (id1 & b1 & t1 & Hw1 & Hb1 & -> & -> & Hn1 & Hm1 & _ & Hi1 & _ & Hc1).
  rewrite Hw in Hw1. injection Hw1 as <-. rewrite Hb in Hb1. injection Hb1 as <-.
  apply sw_NewTap_spec in E2; [|exact Hq]. destruct E2 as (id2 & b2 & t2 & Hw2 & Hb2 & -> & -> & _).
  simpl in Hw2, Hb2. rewrite Hw in Hw2. injection Hw2 as <-.
  rewrite lookup_insert_eq in Hb2. injection Hb2 as <-. simpl. split; [lia|]. split.
  - eexists. rewrite lookup_insert_eq. split; [done|]. simpl. split; [by rewrite lookup_insert_eq|].
    intros nm [[_ ?]|[Hne Hl]]%lookup_insert_Some; [lia|].
    apply lookup_insert_Some in Hl as [[? _]|[_ Hl]]; [done|]. apply Hlt in Hl. lia.
  - unfold close_tap. simpl. rewrite lookup_insert_ne, lookup_insert_eq by lia.
    destruct (vt_close_total t1 Hi1) as (t1' & det & -> & Hdet). rewrite (Hdet Hc1), Hm1, Hn1. simpl.
    eexists _, _. split; [done|]. simpl. rewrite lookup_alter_eq, lookup_insert_eq. simpl. split; [done|].
    intros nm. unfold DelSlave. simpl. intros [Hne Hl]%lookup_delete_Some.
    apply lookup_insert_Some in Hl as [[? _]|[_ Hl]]; [done|].
    apply lookup_insert_Some in Hl as [[? _]|[_ Hl]]; [done|]. apply Hlt in Hl. lia.
Qed.

Lemma newtap_ports_collide_witness :
  exists v1 v2, sw_NewTap demo_plant "net" = Finished (v1, inl 0%nat) /\
    sw_NewTap v1 "net" = Finished (v2, inl 1%nat) /\
    exists b2, pl_bridges v2 !! 0%nat = Some b2 /\ forall nm, ports b2 !! nm <> Some 0%nat.
Proof.
  destruct (sw_NewTap demo_plant "net") as [[v1 [d1|]]| |] eqn:E1; [|by vm_compute in E1..].
  destruct (sw_NewTap v1 "net") as [[v2 [d2|]]| |] eqn:E2;
    [|by vm_compute in E1; injection E1 as <- <-; vm_compute in E2..].
  destruct (newtap_ports_collide demo_plant v1 v2 "net" d1 d2 0%nat (NewVirtualBridge "br-net" 1500))
    as (_ & (b2 & Hb & _ & Hn) & _);
    [split; vm_compute; by split|reflexivity|reflexivity|intros nm d Hl; simpl in Hl; by rewrite lookup_empty in Hl|exact E1|exact E2|].
  assert (d1 = 0%nat) as -> by (vm_compute in E1; by injection E1 as _ <-).
  exists v1, v2. split; [done|]. split.
  - rewrite E2. vm_compute in E1. injection E1 as <-. vm_compute in E2. injection E2 as <- <-. reflexivity.
  - by exists b2.
Defined.

(** ** Closed connections *)

(** Closing a connection releases the lease of the newest connection only: [OnClose]
    returns; if the identity has a newer connection every lease stays, and so does the
    address of the newer one; otherwise the identity's dynamic lease is gone and its
    address can be given out again, a static lease stays, and in every case the other
    identities keep theirs. *)
Theorem onclose_lease (v : Switch) (addr : string) :
  lease_inv (w_nets (sw_world v)) ->
  (forall p d, SafeStrMap.Get (PointCache.Clients (w_points (sw_world v))) addr = Some p ->
     Point.Device p = Some d -> exists t, pl_devs (sw_plant v) !! d = Some t /\ vt_inv t) ->
  let nets := w_nets (sw_world v) in
  let ps := w_points (sw_world v) in
  let uuid := PointCache.GetUUID ps addr in
  exists v', OnClose v addr = Finished v' /\
    let nets' := w_nets (sw_world v') in
    (PointCache.GetAddr ps uuid <> addr -> nets' = nets) /\
    (forall k, k <> uuid -> lease_of nets' k = lease_of nets k) /\
    (forall l, PointCache.GetAddr ps uuid = addr -> lease_of nets uuid = Some l ->
       if is_static l then nets' = nets
       else lease_of nets' uuid = None /\
            (Lease.UUID l = uuid -> (SafeStrMap.GetEx (Addr nets') (Lease.Address l)).2 = false)).
Proof.
  intros Hinv Hdev nets ps uuid. unfold OnClose.
  fold nets ps. fold uuid.
  assert (Hdel : exists ps' dev, PointCache.Del ps addr = (ps', dev) /\
            exists pl, match dev with Some d => close_tap (sw_plant v) d | None => Finished (sw_plant v) end = Finished pl).
  { unfold PointCache.Del. destruct (SafeStrMap.Get (PointCache.Clients ps) addr) as [p|] eqn:Ep; [|by eauto].
    eexists _, _. split; [done|]. destruct (Point.Device p) as [d|] eqn:Ed; [|by eauto].
    destruct (Hdev p d Ep Ed) as (t & Ht & Hi). unfold close_tap. rewrite Ht.
    destruct (vt_close_total t Hi) as (t' & det & -> & _). cbn [mbind run_bind]. by eauto. }
  destruct Hdel as (ps' & dev & Edel & pl & Epl).
  destruct (String.eqb_spec (PointCache.GetAddr ps uuid) addr) as [Ha|Ha].
  - destruct (DelLease_spec nets uuid Hinv) as (nets' & -> & Ho & Hst & Hdy). cbn [lift mbind run_bind].
    rewrite Edel, Epl. cbn [mbind run_bind]. eexists. split; [done|]. simpl. split; [done|]. split; [done|].
    intros l _ Hl. destruct (is_static l) eqn:Es; [by eapply Hst|by apply Hdy].
  - cbn [lift mbind run_bind]. rewrite Edel, Epl. cbn [mbind run_bind]. eexists. split; [done|]. simpl.
    split; [done|]. split; [done|]. done.
Qed.

Definition leased_world : world :=
  let nets := match NewLease (NetCache.Add NewNetworkCache demo_net) "u" "net" with
              | Ret (n, _) => n | Panic => NewNetworkCache end in
  upd_points (upd_nets demo_world nets)
    (PointCache.Add (PointCache.Add PointCache.New (demo_point "u" "10.0.0.9:4000"))
       (demo_point "u" "10.0.0.9:5000")).

Lemma onclose_lease_witness :
  let v := demo_switch demo_plant leased_world in
  (exists v', OnClose v "10.0.0.9:5000" = Finished v' /\ lease_of (w_nets (sw_world v')) "u" = None) /\
  (exists v', OnClose v "10.0.0.9:4000" = Finished v' /\
     lease_of (w_nets (sw_world v')) "u" = lease_of (w_nets leased_world) "u").
Proof.
  intros v.
  assert (Hr : lease_inv (w_nets (sw_world v))).
  { destruct (NewLease (NetCache.Add NewNetworkCache demo_net) "u" "net") as [[n r]|] eqn:E; [|by vm_compute in E].
    replace (w_nets (sw_world v)) with n; [|simpl; by rewrite E].
    apply (NewLease_inv (NetCache.Add NewNetworkCache demo_net) "u" "net" n r); [exact lease_inv_new|reflexivity|exact E]. }
  split.
  - destruct (onclose_lease v "10.0.0.9:5000" Hr) as (v' & E & _ & _ & H);
      [intros p d Hp; vm_compute in Hp; injection Hp as <-; discriminate|].
    exists v'. split; [exact E|].
    destruct (lease_of (w_nets (sw_world v)) "u") as [l|] eqn:El; [|by vm_compute in El].
    specialize (H l eq_refl El). assert (Es : is_static l = false) by (vm_compute in El; injection El as <-; reflexivity).
    rewrite Es in H. apply H.
  - destruct (onclose_lease v "10.0.0.9:4000" Hr) as (v' & E & H & _);
      [intros p d Hp; vm_compute in Hp; injection Hp as <-; discriminate|].
    exists v'. split; [exact E|]. rewrite H; [reflexivity|]. vm_compute. discriminate.
Defined.
