(* ===== verification/Rules.v ===== *)
(** * The packet filter rules of a switch (pkg/olsw/switch.go, network.go, openlan.go)

    [Initialize] of the switch turns its configuration into rules of the firewall:
    the ports it listens on, forwarding and address translation for its networks and
    their VPNs, access lists.  Here is every rule it makes, in order, and what holds
    of all of them.  The configuration records have the fields these functions read. *)

From S2P Require Import Prelude GoStd FireWall.

Local Open Scope Z_scope.

(** ** Configuration (pkg/config) *)

(** A VPN server and its variants, any of which may be nil. *)
Inductive OpenVPN := {
  vpn_Listen : string; vpn_Protocol : string; vpn_Subnet : string; vpn_Device : string;
  vpn_Routes : list string; vpn_Push : list string; vpn_Breed : list (option OpenVPN)
}.

Record Bridge := { br_Name : string; br_Address : string; br_Mss : Z }.
Record IpSubnet := { Start : string; Netmask : string }.
(** [MultiPath] matters only by being nil or not. *)
Record PrefixRoute := { Prefix : string; NextHop : string; MultiPath : bool; Mode : string }.
Record Network := {
  net_Name : string; net_Provider : string; net_Bridge : option Bridge; net_Subnet : option IpSubnet;
  net_OpenVPN : option OpenVPN; net_Routes : list PrefixRoute; net_Acl : string
}.
Record ACLRule := { rule_Name : string; SrcIp : string; DstIp : string; acl_Proto : string; acl_SrcPort : string;
  acl_DstPort : string; Action : string }.
Record ACL := { acl_Name : string; acl_Rules : list ACLRule }.
Record SwitchCfg := {
  cfg_Listen : string; cfg_Http : option string; cfg_Network : list Network; cfg_Acl : list ACL;
  cfg_FireWall : list FlowRule
}.

(** ** Rules *)

Definition enablePort (f : FireWall) (protocol port : string) : FireWall :=
  AddRule f {| Table := TFilter; Chain := OLCInput; Source := ""; ToSource := ""; Dest := ""; ToDest := "";
               Proto := protocol; DstPort := port; SrcPort := ""; Input := ""; Output := ""; Comment := "";
               Jump := ""; SetMss := 0; Order := ""; Match := "multiport"; TcpFlag := [] |}.

Definition fwd_rule (input output source prefix : string) : IpRule :=
  {| Table := TFilter; Chain := OLCForward; Source := source; ToSource := ""; Dest := prefix; ToDest := "";
     Proto := ""; DstPort := ""; SrcPort := ""; Input := input; Output := output; Comment := "";
     Jump := ""; SetMss := 0; Order := ""; Match := ""; TcpFlag := [] |}.
Definition enableFwd (f : FireWall) (input output source prefix : string) : FireWall :=
  let f := AddRule f (fwd_rule input output source prefix) in
  if negb (String.eqb source prefix) then AddRule f (fwd_rule output input prefix source) else f.

Definition post_rule (source tosource prefix jump : string) : IpRule :=
  {| Table := TNat; Chain := OLCPost; Source := source; ToSource := tosource; Dest := prefix; ToDest := "";
     Proto := ""; DstPort := ""; SrcPort := ""; Input := ""; Output := ""; Comment := "";
     Jump := jump; SetMss := 0; Order := ""; Match := ""; TcpFlag := [] |}.
Definition enableMasq (f : FireWall) (source prefix : string) : FireWall :=
  if String.eqb source prefix then f else AddRule f (post_rule source "" prefix CMasq).
Definition enableSnat (f : FireWall) (source prefix : string) : FireWall :=
  if String.eqb source prefix then f else AddRule f (post_rule "" source prefix CSnat).

Definition enableAcl (f : FireWall) (acl input : string) : FireWall :=
  if String.eqb input "" then f
  else if negb (String.eqb acl "") then
    AddRule f {| Table := TRaw; Chain := OLCPre; Source := ""; ToSource := ""; Dest := ""; ToDest := "";
                 Proto := ""; DstPort := ""; SrcPort := ""; Input := input; Output := ""; Comment := "";
                 Jump := acl; SetMss := 0; Order := ""; Match := ""; TcpFlag := [] |}
  else f.

(** ** Networks *)

Definition Netmask2Len (s : string) : Z :=
  mask_Size (match ParseIP s with Some ip => To4 ip | None => [] end).

(** [GetSubnet] of the OpenLAN worker; the other workers have none. *)
Definition openlan_GetSubnet (cfg : Network) : go string :=
  match net_Bridge cfg, net_Subnet cfg with
  | Some br, Some sub =>
      let ipAddr := if String.eqb (br_Address br) "" then Start sub else br_Address br in
      if String.eqb ipAddr "" then Ret ""%string
      else
        let addr := if String.eqb (Netmask sub) "" then ipAddr
                    else (default ""%string (SplitN ipAddr char_slash 2 !! 0%nat) +:+ "/"
                          +:+ FormatInt (Netmask2Len (Netmask sub)))%string in
        Ret (match ParseCIDR addr with Some inet => ipnet_String inet | None => ""%string end)
  | _, _ => Panic
  end.
Definition GetSubnet (cfg : Network) : go string :=
  if String.eqb (net_Provider cfg) "esp" || String.eqb (net_Provider cfg) "vxlan"
     || String.eqb (net_Provider cfg) "fabric"
  then Ret ""%string else openlan_GetSubnet cfg.

(** The routes a VPN pushes: those of the network join [Routes], the default route
    becomes an option. *)
Definition vpn_route (rp : list string * list string) (rt : PrefixRoute) : list string * list string :=
  let '(routes, push) := rp in
  if String.eqb (Prefix rt) "0.0.0.0/0" then (routes, push ++ ["redirect-gateway def1"%string])
  else match ParseCIDR (Prefix rt) with
       | Some inet => (routes ++ [ipnet_String inet], push)
       | None => (routes, push)
       end.
Fixpoint preWorkerVPN (subnet : string) (rts : list PrefixRoute) (vCfg : OpenVPN) : OpenVPN :=
  let routes := vpn_Routes vCfg ++ [vpn_Subnet vCfg] in
  let routes := if String.eqb subnet "" then routes else routes ++ [subnet] in
  let '(routes, push) := foldl vpn_route (routes, vpn_Push vCfg) rts in
  {| vpn_Listen := vpn_Listen vCfg; vpn_Protocol := vpn_Protocol vCfg; vpn_Subnet := vpn_Subnet vCfg;
     vpn_Device := vpn_Device vCfg; vpn_Routes := routes; vpn_Push := push;
     vpn_Breed := map (option_map (preWorkerVPN subnet rts)) (vpn_Breed vCfg) |}.

Definition mss_rule (br : Bridge) : IpRule :=
  {| Table := TMangle; Chain := OLCPost; Source := ""; ToSource := ""; Dest := ""; ToDest := "";
     Proto := "tcp"; DstPort := ""; SrcPort := ""; Input := ""; Output := br_Name br; Comment := "";
     Jump := "TCPMSS"; SetMss := br_Mss br; Order := ""; Match := "tcp"; TcpFlag := ["SYN,RST"; "SYN"]%string |}.
(** [preWorker] for a network with bridge [br]: it also completes the VPN. *)
Definition preWorker (f : FireWall) (cfg : Network) (br : Bridge) : go (FireWall * option OpenVPN) :=
  vpn ← match net_OpenVPN cfg with
        | None => Ret None
        | Some v => s ← GetSubnet cfg; Ret (Some (preWorkerVPN s (net_Routes cfg) v))
        end;
  Ret (if 0 <? br_Mss br then AddRule f (mss_rule br) else f, vpn).

Section breed.
Context (step : FireWall -> OpenVPN -> FireWall).
(** A step on a VPN and, in order, on its variants. *)
Fixpoint each_vpn (f : FireWall) (vCfg : OpenVPN) : FireWall :=
  foldl (fun f v => match v with Some v => each_vpn f v | None => f end) (step f vCfg) (vpn_Breed vCfg).
End breed.

Definition preNetVPN0 (f : FireWall) (acl : string) (vCfg : OpenVPN) : FireWall :=
  each_vpn (fun f vCfg =>
    foldl (fun f rt => enableMasq (enableFwd f (vpn_Device vCfg) "" (vpn_Subnet vCfg) rt) (vpn_Subnet vCfg) rt)
      (enableAcl f acl (vpn_Device vCfg)) (vpn_Routes vCfg)) f vCfg.

Definition preNetVPN1 (f : FireWall) (bridge prefix : string) (vCfg : OpenVPN) : FireWall :=
  each_vpn (fun f vCfg => enableMasq (enableFwd f "" bridge (vpn_Subnet vCfg) prefix) (vpn_Subnet vCfg) prefix)
    f vCfg.

Definition preRoute (f : FireWall) (brName ifAddr subnet : string) (vpn : option OpenVPN) (rt : PrefixRoute)
    : FireWall :=
  let f := match vpn with Some v => preNetVPN1 f brName (Prefix rt) v | None => f end in
  if negb (String.eqb (NextHop rt) ifAddr) then f
  else
    let f := enableFwd f brName "" subnet (Prefix rt) in
    if MultiPath rt then enableSnat f ifAddr (Prefix rt)
    else if String.eqb (Mode rt) "snat" then enableMasq f subnet (Prefix rt) else f.

Definition preNet (f : FireWall) (nCfg : Network) : go FireWall :=
  match net_Bridge nCfg with
  | None => Ret f
  | Some br =>
      r ← preWorker f nCfg br;
      let '(f, vpn) := r in
      let f := enableAcl f (net_Acl nCfg) (br_Name br) in
      let f := enableFwd f (br_Name br) (br_Name br) "" "" in
      let ifAddr := default ""%string (SplitN (br_Address br) char_slash 2 !! 0%nat) in
      let f := match vpn with Some v => preNetVPN0 f (net_Acl nCfg) v | None => f end in
      if String.eqb ifAddr "" then Ret f
      else
        subnet ← GetSubnet nCfg;
        Ret (foldl (fun f rt => preRoute f (br_Name br) ifAddr subnet vpn rt) f (net_Routes nCfg))
  end.

Fixpoint preNets (f : FireWall) (nets : list Network) : go FireWall :=
  match nets with
  | [] => Ret f
  | n :: nets => f ← preNet f n; preNets f nets
  end.

(** ** Access lists and ports *)

Definition acl_rule (name : string) (rule : ACLRule) : IpRule :=
  {| Table := TRaw; Chain := name; Source := SrcIp rule; ToSource := ""; Dest := DstIp rule; ToDest := "";
     Proto := acl_Proto rule; DstPort := acl_DstPort rule; SrcPort := acl_SrcPort rule; Input := "";
     Output := ""; Comment := ""; Jump := Action rule; SetMss := 0; Order := ""; Match := ""; TcpFlag := [] |}.
Definition preAcl1 (f : FireWall) (acl : ACL) : FireWall :=
  if String.eqb (acl_Name acl) "" then f
  else foldl (fun f rule => AddRule f (acl_rule (acl_Name acl) rule))
         (AddChain f {| ch_Table := TRaw; ch_Name := acl_Name acl |}) (acl_Rules acl).
Definition preAcl (f : FireWall) (acls : list ACL) : FireWall := foldl preAcl1 f acls.

(** [GetHostPort] of a listening address. *)
Definition GetPort (listen : string) : string :=
  match SplitN listen char_colon 2 with _ :: port :: _ => port | _ => ""%string end.

Definition preAllowVPN (f : FireWall) (cfg : OpenVPN) : FireWall :=
  each_vpn (fun f cfg =>
    enablePort f (if String.eqb (vpn_Protocol cfg) "udp" then "udp" else "tcp") (GetPort (vpn_Listen cfg))) f cfg.

Definition preAllow (f : FireWall) (cfg : SwitchCfg) : FireWall :=
  let port := GetPort (cfg_Listen cfg) in
  let TcpPorts := ["7471"%string; port] ++
    match cfg_Http cfg with Some listen => [GetPort listen] | None => [] end in
  let f := enablePort f "udp" (String.concat "," ["4500"; "4600"; "8472"; "4789"; port]%string) in
  let f := enablePort f "tcp" (String.concat "," TcpPorts) in
  foldl (fun f n => match net_OpenVPN n with Some v => preAllowVPN f v | None => f end) f (cfg_Network cfg).

(** The firewall when [Initialize] of the switch is done with it. *)
Definition switch_firewall (cfg : SwitchCfg) : go FireWall :=
  let f := NewFireWall (cfg_FireWall cfg) in
  let f := preAllow (preAcl f (cfg_Acl cfg)) cfg in
  f ← preNets f (cfg_Network cfg);
  Ret (Initialize f).

(** ** Where the rules go *)

Definition olc_chains : IpChains := chains (addOLC {| chains := []; rules := [] |}).

(** The chain of a rule. *)
Definition home (r : IpRule) : IpChain := {| ch_Table := Table r; ch_Name := Chain r |}.

Definition reverse (r : IpRule) : IpRule := fwd_rule (Output r) (Input r) (Dest r) (Source r).
Definition is_fwd (r : IpRule) : Prop := Table r = TFilter /\ Chain r = OLCForward.

(** The invariant of a firewall that the switch fills, [cs] being the chains of the
    access lists: what was added is well formed, goes to a chain of OpenLAN or of an
    access list, and allows forwarding both ways. *)
Definition filling (base : IpRules) (cs : IpChains) (f : FireWall) : Prop :=
  chains f = cs /\
  exists added, rules f = base ++ added /\ rules_ok added /\
    (forall r, r ∈ added -> home r ∈ olc_chains \/ home r ∈ cs) /\
    (forall r, r ∈ added -> is_fwd r -> Source r <> Dest r -> reverse r ∈ added).

Section filling.
Context (base : IpRules) (cs : IpChains).
Local Abbreviation ok := (filling base cs).

(** Rules added in one go. *)
Lemma filling_app f rs :
  ok f -> rules_ok rs -> (forall r, r ∈ rs -> home r ∈ olc_chains \/ home r ∈ cs) ->
  (forall r, r ∈ rs -> is_fwd r -> Source r <> Dest r -> reverse r ∈ rs) ->
  ok {| chains := chains f; rules := rules f ++ rs |}.
Proof.
  intros (Hc & added & Ha & Ho & Hh & Hr) Ho' Hh' Hr'. split; [done|]. exists (added ++ rs). simpl.
  rewrite Ha, app_assoc. split; [done|]. split; [by apply Forall_app|]. split.
  - intros r [?|?]%elem_of_app; auto.
  - intros r [Hin|Hin]%elem_of_app Hf Hne; apply elem_of_app; [left|right]; auto.
Qed.

Lemma filling_one f r :
  ok f -> rules_ok [r] -> (home r ∈ olc_chains \/ home r ∈ cs) -> ~ is_fwd r -> ok (AddRule f r).
Proof.
  intros Hf Ho Hh Hn. apply (filling_app f [r]); try done.
  - intros r' ->%list_elem_of_singleton. done.
  - intros r' ->%list_elem_of_singleton. done.
Qed.

(** The chains of OpenLAN, by evaluation. *)
Lemma olc_home t c : bool_decide ({| ch_Table := t; ch_Name := c |} ∈ olc_chains) = true ->
  {| ch_Table := t; ch_Name := c |} ∈ olc_chains.
Proof. apply bool_decide_eq_true_1. Qed.

Lemma rules_ok_one r : length (TcpFlag r) <> 1%nat -> Order r = ""%string -> rules_ok [r].
Proof. intros H1 H2. apply Forall_singleton. split; [done|]. by left. Qed.

Ltac in_olc := left; apply olc_home; vm_compute; reflexivity.
Ltac one_rule := apply filling_one; [assumption|apply rules_ok_one; done|in_olc|unfold is_fwd; simpl; intros [? ?]; done].

Lemma enablePort_ok f protocol port : ok f -> ok (enablePort f protocol port).
Proof. intros Hf. one_rule. Qed.

Lemma enableMasq_ok f s p : ok f -> ok (enableMasq f s p).
Proof. intros Hf. unfold enableMasq. destruct (String.eqb s p); [done|]. one_rule. Qed.

Lemma enableSnat_ok f s p : ok f -> ok (enableSnat f s p).
Proof. intros Hf. unfold enableSnat. destruct (String.eqb s p); [done|]. one_rule. Qed.

Lemma enableAcl_ok f acl input : ok f -> ok (enableAcl f acl input).
Proof.
  intros Hf. unfold enableAcl. destruct (String.eqb input ""); [done|].
  destruct (negb (String.eqb acl "")); [|done]. one_rule.
Qed.

Lemma enableFwd_ok f i o s p : ok f -> ok (enableFwd f i o s p).
Proof.
  intros Hf. unfold enableFwd. destruct (String.eqb_spec s p) as [->|Hne]; simpl.
  - apply (filling_app f [_]); [done|by apply rules_ok_one|intros r ->%list_elem_of_singleton; in_olc|].
    by intros r ->%list_elem_of_singleton _ ?.
  - unfold AddRule, rules_Add. simpl. rewrite <- app_assoc. apply (filling_app f [_; _]); [done| | |].
    + apply Forall_cons. split; [split; [done|by left]|by apply rules_ok_one].
    + intros r [-> | ->%list_elem_of_singleton]%elem_of_cons; in_olc.
    + intros r [-> | ->%list_elem_of_singleton]%elem_of_cons _ _; rewrite elem_of_cons, list_elem_of_singleton;
        [by right|by left].
Qed.

Lemma foldl_ok {A} (g : FireWall -> A -> FireWall) (l : list A) :
  (forall f x, ok f -> ok (g f x)) -> forall f, ok f -> ok (foldl g f l).
Proof. intros Hg. induction l as [|x l IH]; intros f Hf; simpl; auto. Qed.

Lemma each_vpn_ok step : (forall f v, ok f -> ok (step f v)) -> forall v f, ok f -> ok (each_vpn step f v).
Proof.
  intros Hs. fix IH 1. intros [listen proto subnet dev routes push breed] f Hf. simpl.
  assert (Hf' : ok (step f {| vpn_Listen := listen; vpn_Protocol := proto; vpn_Subnet := subnet;
    vpn_Device := dev; vpn_Routes := routes; vpn_Push := push; vpn_Breed := breed |})) by auto.
  revert Hf'. generalize (step f {| vpn_Listen := listen; vpn_Protocol := proto; vpn_Subnet := subnet;
    vpn_Device := dev; vpn_Routes := routes; vpn_Push := push; vpn_Breed := breed |}). clear f Hf.
  induction breed as [|[v|] breed IHb]; intros f Hf; simpl; [done| |by apply IHb].
  apply IHb. by apply IH.
Qed.

Lemma preNetVPN0_ok f acl v : ok f -> ok (preNetVPN0 f acl v).
Proof.
  intros Hf. apply each_vpn_ok; [|done]. intros f' v' Hf'. apply foldl_ok; [|by apply enableAcl_ok].
  intros f2 rt Hf2. by apply enableMasq_ok, enableFwd_ok.
Qed.

Lemma preNetVPN1_ok f br p v : ok f -> ok (preNetVPN1 f br p v).
Proof. intros Hf. apply each_vpn_ok; [|done]. intros f' v' Hf'. by apply enableMasq_ok, enableFwd_ok. Qed.

Lemma preRoute_ok f br ifAddr subnet vpn rt : ok f -> ok (preRoute f br ifAddr subnet vpn rt).
Proof.
  intros Hf. unfold preRoute.
  assert (Hv : ok (match vpn with Some v => preNetVPN1 f br (Prefix rt) v | None => f end))
    by (destruct vpn; [by apply preNetVPN1_ok|done]).
  destruct (negb _); [done|]. destruct (MultiPath rt); [by apply enableSnat_ok, enableFwd_ok|].
  destruct (String.eqb _ "snat"); [by apply enableMasq_ok, enableFwd_ok|by apply enableFwd_ok].
Qed.

Lemma preNet_ok f n f' : ok f -> preNet f n = Ret f' -> ok f'.
Proof.
  intros Hf. unfold preNet. destruct (net_Bridge n) as [br|]; [|by intros [= <-]].
  destruct (preWorker f n br) as [[f1 vpn]|] eqn:Ew; [|done]. cbn [mbind go_bind].
  assert (H1 : ok f1).
  { unfold preWorker in Ew.
    assert (Hm : ok (if 0 <? br_Mss br then AddRule f (mss_rule br) else f)).
    { destruct (0 <? br_Mss br); [|done]. one_rule. }
    destruct (net_OpenVPN n); cbn [mbind go_bind] in Ew;
      [destruct (GetSubnet n); cbn [mbind go_bind] in Ew; [|done]|]; by injection Ew as <- _. }
  set (f2 := enableFwd (enableAcl f1 _ _) _ _ _ _).
  assert (H2 : ok f2) by by apply enableFwd_ok, enableAcl_ok.
  assert (H3 : ok (match vpn with Some v => preNetVPN0 f2 (net_Acl n) v | None => f2 end))
    by (destruct vpn; [by apply preNetVPN0_ok|done]).
  destruct (String.eqb _ ""); [by intros [= <-]|].
  destruct (GetSubnet n) as [subnet|]; [|done]. cbn [mbind go_bind]. intros [= <-].
  apply foldl_ok; [|done]. intros f4 rt H4. by apply preRoute_ok.
Qed.

Lemma preNets_ok nets : forall f f', ok f -> preNets f nets = Ret f' -> ok f'.
Proof.
  induction nets as [|n nets IH]; intros f f' Hf; simpl; [by intros [= <-]|].
  destruct (preNet f n) as [f1|] eqn:E; [|done]. cbn [mbind go_bind]. apply IH. by eapply preNet_ok.
Qed.

Lemma preAllow_ok f cfg : ok f -> ok (preAllow f cfg).
Proof.
  intros Hf. unfold preAllow. apply foldl_ok; [|by do 2 apply enablePort_ok].
  intros f' n Hf'. destruct (net_OpenVPN n) as [v|]; [|done].
  apply each_vpn_ok; [|done]. intros f2 v2 Hf2. by apply enablePort_ok.
Qed.

End filling.

Lemma filling_chain base cs f ch : filling base cs f -> filling base (cs ++ [ch]) (AddChain f ch).
Proof.
  intros (Hc & added & Ha & Ho & Hh & Hr). split; [unfold AddChain, chains_Add; simpl; by rewrite Hc|].
  exists added. split; [done|]. split; [done|]. split; [|done].
  intros r Hin. destruct (Hh r Hin) as [?|?]; [by left|right]. apply elem_of_app. by left.
Qed.

(** The chains of the access lists. *)
Definition acl_chains (acls : list ACL) : IpChains :=
  (fun a => {| ch_Table := TRaw; ch_Name := acl_Name a |}) <$> filter (fun a => acl_Name a <> ""%string) acls.

Lemma preAcl_ok base acls : forall cs f,
  filling base cs f -> filling base (cs ++ acl_chains acls) (preAcl f acls).
Proof.
  unfold preAcl, acl_chains. induction acls as [|a acls IH]; intros cs f Hf; simpl.
  { by rewrite app_nil_r. }
  unfold preAcl1 at 2. destruct (String.eqb_spec (acl_Name a) "") as [He|He].
  - rewrite filter_cons_False by (rewrite He; tauto). by apply IH.
  - rewrite filter_cons_True by done. rewrite fmap_cons, cons_middle, app_assoc. apply IH.
    apply foldl_ok; [|by apply filling_chain]. intros f' r Hf'. apply filling_one; [done|by apply rules_ok_one| |].
    + right. apply elem_of_app. right. by apply list_elem_of_singleton.
    + by intros [? _].
Qed.

(** The built-in chains from which the rules of OpenLAN are entered. *)
Definition builtin : list string := [CInput; CForward; COutput; CPre; CPost].
Definition entries : IpRules := rules (jumpOLC {| chains := []; rules := [] |}).

(** Adding chains, or rules, one after the other. *)
Lemma foldl_AddChain {A} (mk : A -> IpChain) l : forall f,
  foldl (fun f x => AddChain f (mk x)) f l = {| chains := chains f ++ (mk <$> l); rules := rules f |}.
Proof.
  induction l as [|x l IH]; intros f; simpl; [rewrite app_nil_r; by destruct f|].
  rewrite IH. unfold AddChain, chains_Add. simpl. by rewrite <- app_assoc.
Qed.
Lemma foldl_AddRule {A} (mk : A -> IpRule) l : forall f,
  foldl (fun f x => AddRule f (mk x)) f l = {| chains := chains f; rules := rules f ++ (mk <$> l) |}.
Proof.
  induction l as [|x l IH]; intros f; simpl; [rewrite app_nil_r; by destruct f|].
  rewrite IH. unfold AddRule, rules_Add. simpl. by rewrite <- app_assoc.
Qed.

Lemma foldl_ext2 {A B} (g h : A -> B -> A) l : (forall a b, g a b = h a b) -> forall a, foldl g a l = foldl h a l.
Proof. intros H. induction l as [|x l IH]; intros a; simpl; [done|]. by rewrite H, IH. Qed.

Lemma Initialize_shape f :
  chains (Initialize f) = chains f ++ olc_chains /\ rules (Initialize f) = rules f ++ entries.
Proof.
  unfold olc_chains, entries, Initialize, jumpOLC, addOLC.
  rewrite !(foldl_ext2 _ (fun f x => AddChain f {| ch_Table := x.1; ch_Name := x.2 |})) by (by intros ? [? ?]).
  rewrite !(foldl_ext2 _ (fun f x => AddRule f (jump_rule x.1.1 x.1.2 x.2))) by (by intros ? [[? ?] ?]).
  rewrite !(foldl_AddRule (fun x => jump_rule x.1.1 x.1.2 x.2)).
  rewrite !(foldl_AddChain (fun x => {| ch_Table := x.1; ch_Name := x.2 |})). done.
Qed.

Lemma NewFireWall_rules flows : NewFireWall flows = {| chains := []; rules := flow_rule <$> flows |}.
Proof.
  unfold NewFireWall. f_equal. rewrite <- (app_nil_l (flow_rule <$> flows)). generalize (@nil IpRule) as acc.
  induction flows as [|x flows IH]; intros acc; simpl; [by rewrite app_nil_r|].
  rewrite IH. unfold rules_Add. by rewrite <- app_assoc.
Qed.

(** What [Initialize] of the switch makes of a configuration. *)
Lemma switch_firewall_shape cfg f :
  switch_firewall cfg = Ret f ->
  chains f = acl_chains (cfg_Acl cfg) ++ olc_chains /\
  exists added, rules f = (flow_rule <$> cfg_FireWall cfg) ++ added ++ entries /\ rules_ok added /\
    (forall r, r ∈ added -> home r ∈ olc_chains \/ home r ∈ acl_chains (cfg_Acl cfg)) /\
    (forall r, r ∈ added -> is_fwd r -> Source r <> Dest r -> reverse r ∈ added).
Proof.
  unfold switch_firewall. destruct (preNets _ _) as [f1|] eqn:E; [|done]. cbn [mbind go_bind]. intros [= <-].
  assert (H : filling (flow_rule <$> cfg_FireWall cfg) (acl_chains (cfg_Acl cfg)) f1).
  { eapply preNets_ok; [|exact E]. apply preAllow_ok.
    apply (preAcl_ok _ _ []). rewrite NewFireWall_rules. split; [done|]. exists [].
    split; [by rewrite app_nil_r|]. split; [constructor|]. split; intros r Hin; by apply not_elem_of_nil in Hin. }
  destruct H as (Hc & added & Ha & H). destruct (Initialize_shape f1) as [-> ->].
  split; [by rewrite Hc|]. exists added. rewrite Ha, <- app_assoc. done.
Qed.

Lemma flow_rules_ok flows : rules_ok (flow_rule <$> flows).
Proof. apply Forall_fmap, Forall_true. intros r. split; [done|by left]. Qed.

(** (C30) The switch's rules are at home: whatever the configuration, every rule it makes
    is well formed, so that the firewall can install and remove it, and is either one
    the configuration gives, or in a chain that the firewall itself creates, or one of
    those that enter such a chain from a built-in one. *)
Theorem switch_rules_confined (cfg : SwitchCfg) (f : FireWall) :
  switch_firewall cfg = Ret f ->
  rules_ok (rules f) /\
  forall r, r ∈ rules f ->
    r ∈ flow_rule <$> cfg_FireWall cfg \/ home r ∈ chains f \/
    (Chain r ∈ builtin /\ {| ch_Table := Table r; ch_Name := Jump r |} ∈ chains f).
Proof.
  intros E. destruct (switch_firewall_shape cfg f E) as (Hc & added & Hr & Ho & Hh & _). rewrite Hr. split.
  - apply Forall_app. split; [apply flow_rules_ok|]. apply Forall_app. split; [done|].
    apply (bool_decide_unpack _). vm_compute. done.
  - intros r [?|[Hin|Hin]%elem_of_app]%elem_of_app; [by left|right; left|right; right].
    + rewrite Hc. apply elem_of_app. destruct (Hh r Hin); [by right|by left].
    + assert (Hall : Forall (fun r => Chain r ∈ builtin /\ {| ch_Table := Table r; ch_Name := Jump r |} ∈ olc_chains) entries)
        by (apply (bool_decide_unpack _); vm_compute; done).
      rewrite Forall_forall in Hall. destruct (Hall r Hin). split; [done|]. rewrite Hc. apply elem_of_app. by right.
Qed.

(** Forwarding is allowed both ways: every rule the switch makes to forward from one
    prefix to another comes with the rule that forwards back. *)
Theorem switch_forwarding_symmetric (cfg : SwitchCfg) (f : FireWall) (r : IpRule) :
  switch_firewall cfg = Ret f -> r ∈ rules f -> r ∉ flow_rule <$> cfg_FireWall cfg ->
  Table r = TFilter -> Chain r = OLCForward -> Source r <> Dest r ->
  fwd_rule (Output r) (Input r) (Dest r) (Source r) ∈ rules f.
Proof.
  intros E Hin Hn Ht Hch Hne. destruct (switch_firewall_shape cfg f E) as (_ & added & Hr & _ & _ & Hs).
  rewrite Hr in Hin |- *. apply elem_of_app in Hin as [?|Hin]; [done|]. apply elem_of_app. right.
  apply elem_of_app in Hin as [Hin|Hin]; apply elem_of_app.
  - left. by apply Hs.
  - exfalso. assert (Hall : Forall (fun r => Chain r <> OLCForward) entries)
      by (apply (bool_decide_unpack _); vm_compute; done).
    rewrite Forall_forall in Hall. by apply (Hall r).
Qed.

Definition demo_cfg : SwitchCfg :=
  {| cfg_Listen := "0.0.0.0:10002"; cfg_Http := Some "0.0.0.0:10000"%string;
     cfg_Network :=
       [{| net_Name := "net"; net_Provider := "openlan";
           net_Bridge := Some {| br_Name := "br-net"; br_Address := "10.1.0.1/24"; br_Mss := 1332 |};
           net_Subnet := Some {| Start := ""; Netmask := "255.255.255.0" |};
           net_OpenVPN := Some {| vpn_Listen := "0.0.0.0:1194"; vpn_Protocol := "udp"; vpn_Subnet := "100.44.194.0/24";
             vpn_Device := "tun0"; vpn_Routes := []; vpn_Push := [];
             vpn_Breed := [None; Some {| vpn_Listen := "0.0.0.0:1195"; vpn_Protocol := "tcp";
               vpn_Subnet := "100.44.195.0/24"; vpn_Device := "tun1"; vpn_Routes := []; vpn_Push := []; vpn_Breed := [] |}] |};
           net_Routes := [{| Prefix := "192.168.9.0/24"; NextHop := "10.1.0.1"; MultiPath := false; Mode := "snat" |}];
           net_Acl := "guests" |}];
     cfg_Acl := [{| acl_Name := "guests"; acl_Rules := [{| rule_Name := ""; SrcIp := "10.1.0.9"; DstIp := ""; acl_Proto := "tcp";
       acl_SrcPort := ""; acl_DstPort := "22"; Action := "drop" |}] |}];
     cfg_FireWall := [] |}.
Definition demo_rules : FireWall := match switch_firewall demo_cfg with Ret f => f | Panic => NewFireWall [] end.

Lemma switch_rules_confined_witness :
  switch_firewall demo_cfg = Ret demo_rules /\
  ({| ch_Table := TRaw; ch_Name := "guests" |} ∈ chains demo_rules) /\ rules_ok (rules demo_rules).
Proof.
  assert (E : switch_firewall demo_cfg = Ret demo_rules) by (vm_compute; reflexivity).
  destruct (switch_rules_confined demo_cfg demo_rules E) as [H _]. split; [exact E|]. split; [|exact H].
  apply (bool_decide_unpack _). vm_compute. exact I.
Defined.

Lemma switch_forwarding_symmetric_witness :
  fwd_rule "" "br-net" "192.168.9.0/24" "10.1.0.0/24" ∈ rules demo_rules.
Proof.
  apply (switch_forwarding_symmetric demo_cfg demo_rules (fwd_rule "br-net" "" "10.1.0.0/24" "192.168.9.0/24"));
    [vm_compute; reflexivity| |by intros H%not_elem_of_nil|reflexivity|reflexivity|discriminate].
  apply (bool_decide_unpack _). vm_compute. exact I.
Defined.
