(* ===== verification/Utils.v ===== *)
(** * Helpers of pkg/libol/utils.go

    Text and address helpers shared by the point and the switch.  Times are seconds
    and sizes are bytes, both [int64] in the source. *)

From S2P Require Import Prelude GoStd.

Local Open Scope Z_scope.

(** ** Addresses *)

(** The address part of [net.ParseCIDR], in the form the function returns it. *)
Definition cidr_ip (addr : string) : option bytes :=
  match parseIPv4 addr with Some ip => Some ip | None => parseIPv6 addr end.

Definition IPNetmask (ipAddr : string) : option string :=
  match cut char_slash ipAddr with
  | None => None
  | Some (addr, mask) =>
      match cidr_ip addr, ParseCIDR_mask addr mask with
      | Some ip, Some m => Some (ip_String ip +:+ "/" +:+ ip_String m)%string
      | _, _ => None
      end
  end.

(** On error the argument comes back. *)
Definition IPNetwork (ipAddr : string) : string * bool :=
  match cut char_slash ipAddr with
  | None => (ipAddr, false)
  | Some (addr, mask) =>
      match ParseCIDR ipAddr, ParseCIDR_mask addr mask with
      | Some net, Some m => ((ip_String net.1 +:+ "/" +:+ ip_String m)%string, true)
      | _, _ => (ipAddr, false)
      end
  end.

(** [net.IPNet] *)
Record IPNet := { ipn_IP : bytes; ipn_Mask : bytes }.

(** [Contains] of an [IPNet]: both sides in IPv4 form when they have one, and never equal
    when the lengths differ.  [networkNumberAndMask] turns a 16-byte mask of an IPv4
    network into its last four bytes. *)
Definition networkNumberAndMask (n : IPNet) : option (bytes * bytes) :=
  let ip := match To4 (ipn_IP n) with
            | [] => if Nat.eqb (length (ipn_IP n)) 16 then Some (ipn_IP n) else None
            | ip => Some ip
            end in
  match ip with
  | None => None
  | Some ip =>
      if Nat.eqb (length (ipn_Mask n)) 4 then
        if Nat.eqb (length ip) 4 then Some (ip, ipn_Mask n) else None
      else if Nat.eqb (length (ipn_Mask n)) 16 then
        if Nat.eqb (length ip) 4 then Some (ip, drop 12 (ipn_Mask n)) else Some (ip, ipn_Mask n)
      else None
  end.
Definition Contains (n : IPNet) (ip : bytes) : bool :=
  let ip := match To4 ip with [] => ip | x => x end in
  match networkNumberAndMask n with
  | None => Nat.eqb (length ip) 0
  | Some (nn, m) =>
      Nat.eqb (length ip) (length nn) &&
      bool_decide (zip_with Z.land nn m = zip_with Z.land ip m)
  end.

(** [Mask] of a [net.IP]; [nil] is the empty slice. *)
Definition ip_Mask (ip mask : bytes) : bytes :=
  let mask := if Nat.eqb (length mask) 16 && Nat.eqb (length ip) 4 && forallb (Z.eqb 255) (take 12 mask)
              then drop 12 mask else mask in
  let ip := if Nat.eqb (length mask) 4 && Nat.eqb (length ip) 16 && bool_decide (take 12 ip = v4InV6Prefix)
            then drop 12 ip else ip in
  if Nat.eqb (length ip) (length mask) then zip_with Z.land ip mask else [].

(** The address as written, the mask of its prefix. *)
Definition ParseNet (addr : string) : option IPNet :=
  match cut char_slash addr with
  | None => None
  | Some (a, mask) =>
      match cidr_ip a, ParseCIDR_mask a mask with
      | Some ip, Some m => Some {| ipn_IP := ip; ipn_Mask := m |}
      | _, _ => None
      end
  end.

(** ** Text *)

Definition GetHostPort (addr : string) : string * string :=
  match SplitN addr char_colon 2 with
  | [a; p] => (a, p)
  | a :: _ => (a, ""%string)
  | [] => (""%string, ""%string)
  end.
Definition GetIPAddr (addr : string) : string := (GetHostPort addr).1.

(** [s[lo:hi]] of a string. *)
Definition str_slice (s : string) (lo hi : Z) : go string :=
  if (0 <=? lo) && (lo <=? hi) && (hi <=? Z.of_nat (String.length s))
  then Ret (String.substring (Z.to_nat lo) (Z.to_nat (hi - lo)) s) else Panic.

(** An interface name of Linux holds at most fifteen characters. *)
Definition IfName (name : string) : go string :=
  let size := Z.of_nat (String.length name) in
  if size <? 15 then Ret name else str_slice name (size - 15) size.

Definition GetPrefix (value : string) (index : Z) : go string :=
  if index <=? Z.of_nat (String.length value) then str_slice value 0 index else Ret ""%string.
Definition GetSuffix (value : string) (index : Z) : go string :=
  if index <=? Z.of_nat (String.length value)
  then str_slice value index (Z.of_nat (String.length value)) else Ret ""%string.

(** [%02d] of a number below a hundred. *)
Definition pad2 (d : Z) : string :=
  if d <? 10 then ("0" +:+ FormatInt d)%string else FormatInt d.

(** [t = -t] wraps for the least [int64]; [/] and [%] truncate towards zero. *)
Definition PrettyTime (t : Z) : string :=
  let '(s, t) := if t <? 0 then ("-"%string, wrap64s (- t)) else (""%string, t) in
  let min := Z.quot t 60 in
  if min <? 60 then (s +:+ FormatInt min +:+ "m" +:+ FormatInt (Z.rem t 60) +:+ "s")%string
  else
    let hours := Z.quot min 60 in
    if hours <? 24 then (s +:+ FormatInt hours +:+ "h" +:+ FormatInt (Z.rem min 60) +:+ "m")%string
    else (s +:+ FormatInt (Z.quot hours 24) +:+ "d" +:+ FormatInt (Z.rem hours 24) +:+ "h")%string.

(** [split]: the [float64] quotient of a number below 1024 by 1024, times a hundred, is
    exact, so its integer part is that of the fraction. *)
Definition split1024 (v : Z) : Z * Z := (v / 1024, v mod 1024 * 100 / 1024).
Definition PrettyBytes (b : Z) : string :=
  if b <? 1024 then (FormatInt b +:+ "B")%string
  else
    let '(k, d) := split1024 b in
    if k <? 1024 then (FormatInt k +:+ "." +:+ pad2 d +:+ "K")%string
    else
      let '(m, d) := split1024 k in
      if m <? 1024 then (FormatInt m +:+ "." +:+ pad2 d +:+ "M")%string
      else
        let '(g, d) := split1024 m in
        (FormatInt g +:+ "." +:+ pad2 d +:+ "G")%string.

(** ** Files with annotations

    [ScanAnn] drops the lines whose first characters that are not blank are two
    slashes and joins the others; the scanner has taken the line ends off.  A line
    too long for the scanner is an error. *)
Definition is_blank (b : Z) : bool := (b =? 32) || (b =? 9) || (b =? 13) || (b =? 10).
Fixpoint is_ann (bs : bytes) : bool :=
  match bs with
  | [] => false
  | b :: rest =>
      if is_blank b then is_ann rest
      else (b =? 47) && match rest with c :: _ => c =? 47 | [] => false end
  end.
Definition ScanAnn (lines : list bytes) : bytes :=
  foldl (fun data bs => if is_ann bs then data else data ++ bs) [] lines.

(** ** Numbers

    [strconv.Atoi] with whether it succeeded: on a syntax error the value is 0, out of
    range it is the nearest [int]. *)
Fixpoint dec_digits (s : string) (n : Z) : option Z :=
  match s with
  | EmptyString => Some n
  | String a s => match digit a with Some d => dec_digits s (n * 10 + d) | None => None end
  end.
Definition dec_value (s : string) : option Z :=
  match s with EmptyString => None | _ => dec_digits s 0 end.
Definition Atoi (s : string) : Z * bool :=
  let v := match s with
           | String a r =>
               if Ascii.eqb a (Ascii.ascii_of_N 45) then option_map Z.opp (dec_value r)
               else if Ascii.eqb a (Ascii.ascii_of_N 43) then dec_value r
               else dec_value s
           | EmptyString => None
           end in
  match v with
  | None => (0, false)
  | Some n => if n <? - 2 ^ 63 then (- 2 ^ 63, false)
              else if 2 ^ 63 <=? n then (2 ^ 63 - 1, false) else (n, true)
  end.

(** [%08d] *)
Definition zeros_string (n : nat) : string := String.concat "" (replicate n "0"%string).
Definition pad8 (n : Z) : string :=
  let s := FormatInt n in (zeros_string (8 - String.length s) +:+ s)%string.

(** ** path/filepath

    [Clean]: empty elements and [.] go, [..] takes the element before it back.  [Join]
    cleans the elements joined from the first that is not empty. *)
Definition Split (s : string) (c : Ascii.ascii) : list string := SplitN s c (S (String.length s)).
Definition clean_step (rooted : bool) (stack : list string) (e : string) : list string :=
  if String.eqb e "" || String.eqb e "." then stack
  else if String.eqb e ".." then
    match last stack with
    | Some t => if String.eqb t ".." then stack ++ [e] else removelast stack
    | None => if rooted then stack else stack ++ [e]
    end
  else stack ++ [e].
Definition path_Clean (path : string) : string :=
  let rooted := HasPrefix path "/" in
  let body := String.concat "/" (foldl (clean_step rooted) [] (Split path char_slash)) in
  if rooted then ("/" +:+ body)%string else if String.eqb body "" then "."%string else body.
Fixpoint path_Join (elems : list string) : string :=
  match elems with
  | [] => ""
  | e :: rest => if String.eqb e "" then path_Join rest else path_Clean (String.concat "/" (e :: rest))
  end.

(** ** Lemmas *)

Lemma ScanAnn_filter lines : ScanAnn lines = concat (filter (fun bs => is_ann bs = false) lines).
Proof.
  unfold ScanAnn. change (concat _) with ([] ++ concat (filter (fun bs => is_ann bs = false) lines)).
  generalize (@nil Z). induction lines as [|l lines IH]; intros acc; simpl; [by rewrite app_nil_r|].
  rewrite IH, filter_cons. destruct (is_ann l); simpl; [done|]. by rewrite <- app_assoc.
Qed.

Lemma length_substring0 n s : (String.length (String.substring 0 n s) <= n)%nat.
Proof. revert s. induction n as [|n IH]; intros [|a s]; simpl; try lia. specialize (IH s). lia. Qed.

Lemma length_substring k n s : (String.length (String.substring k n s) <= n)%nat.
Proof.
  revert s. induction k as [|k IH]; intros s; [apply length_substring0|].
  destruct s as [|a s]; simpl; [destruct n; simpl; lia|apply IH].
Qed.

(** [IfName] never fails and its result fits the kernel's limit. *)
Lemma IfName_fits name : exists s, IfName name = Ret s /\ (String.length s <= 15)%nat.
Proof.
  unfold IfName. destruct (Z.ltb_spec (Z.of_nat (String.length name)) 15); [exists name; split; [done|lia]|].
  unfold str_slice.
  rewrite (proj2 (Z.leb_le 0 _)), (proj2 (Z.leb_le _ (Z.of_nat (String.length name)))), Z.leb_refl by lia.
  eexists. split; [done|]. etrans; [apply length_substring|]. lia.
Qed.

(** Splitting a text splits its parts. *)
Lemma cut_length c s l r : cut c s = Some (l, r) -> (String.length r < String.length s)%nat.
Proof.
  intros H. destruct (contains_char c s) eqn:E; [|by rewrite (cut_none _ _ E) in H].
  destruct (cut_some _ _ E) as (l' & r' & H' & -> & _). rewrite H in H'. injection H' as <- <-.
  rewrite string_length_app. simpl. lia.
Qed.
Lemma SplitN_fuel c n m s :
  (String.length s < n)%nat -> (String.length s < m)%nat -> SplitN s c n = SplitN s c m.
Proof.
  revert m s. induction n as [|n IH]; intros [|m] s Hn Hm; try lia.
  destruct s as [|a s]; [by destruct n, m|]. destruct n as [|n]; [simpl in Hn; lia|]. destruct m as [|m]; [simpl in Hm; lia|].
  change (match cut c (String a s) with Some (l, r) => l :: SplitN r c (S n) | None => [String a s] end =
          match cut c (String a s) with Some (l, r) => l :: SplitN r c (S m) | None => [String a s] end).
  destruct (cut c (String a s)) as [[l r]|] eqn:E; [|done]. apply cut_length in E. f_equal. apply IH; lia.
Qed.
Lemma Split_unfold s c : Split s c = match cut c s with Some (l, r) => l :: Split r c | None => [s] end.
Proof.
  unfold Split. destruct s as [|a s]; [done|]. cbn [String.length].
  change (SplitN (String a s) c (S (S (String.length s)))) with
    (match cut c (String a s) with Some (l, r) => l :: SplitN r c (S (String.length s)) | None => [String a s] end).
  destruct (cut c (String a s)) as [[l r]|] eqn:E; [|done]. apply cut_length in E. simpl in E. f_equal.
  apply SplitN_fuel; lia.
Qed.
Lemma Split_app s1 s2 c : Split (s1 +:+ String c s2) c = Split s1 c ++ Split s2 c.
Proof.
  remember (String.length s1) as n eqn:En. revert s1 En. induction n as [n IH] using (well_founded_ind lt_wf). intros s1 ->.
  rewrite (Split_unfold s1). destruct (contains_char c s1) eqn:E.
  - destruct (cut_some _ _ E) as (l & r & -> & -> & Hl). rewrite string_app_assoc, string_app_cons, Split_unfold, cut_app by done.
    simpl. f_equal. eapply IH; [|done]. rewrite string_length_app. simpl. lia.
  - rewrite Split_unfold, cut_app by done. by rewrite (cut_none _ _ E).
Qed.
Lemma Split_plain s c : contains_char c s = false -> Split s c = [s].
Proof. intros H. by rewrite Split_unfold, cut_none. Qed.

(** A file name, as opposed to a path. *)
Definition base_name (n : string) : Prop :=
  contains_char char_slash n = false /\ n <> ""%string /\ n <> "."%string /\ n <> ".."%string.

(** What [Join] puts before a name depends on the directory alone. *)
Definition join_prefix (d : string) : string :=
  if String.eqb d "" then "" else
    let st := foldl (clean_step (HasPrefix d "/")) [] (Split d char_slash) in
    ((if HasPrefix d "/" then "/" else "") +:+ (match st with [] => "" | _ => String.concat "/" st +:+ "/" end))%string.

Lemma concat_snoc sep st n :
  String.concat sep (st ++ [n]) = match st with [] => n | _ => String.concat sep st +:+ (sep +:+ n) end.
Proof.
  induction st as [|x [|y st] IH]; [done|done|]. cbn [String.concat app]. cbn [String.concat app] in IH. rewrite IH.
  by rewrite !string_app_assoc.
Qed.

Lemma HasPrefix_char a s c : HasPrefix (String a s) (String c EmptyString) = Ascii.eqb c a.
Proof.
  unfold HasPrefix. cbn [String.prefix]. destruct (Ascii.ascii_dec c a) as [->|H].
  - rewrite Ascii.eqb_refl. by destruct s.
  - by rewrite (proj2 (Ascii.eqb_neq _ _) H).
Qed.

Lemma path_Join_name d n : base_name n -> path_Join [d; n] = join_prefix d +:+ n.
Proof.
  intros (Hs & H1 & H2 & H3). unfold join_prefix. cbn [path_Join].
  assert (Hstep : forall r st, clean_step r st n = st ++ [n]).
  { intros r st. unfold clean_step. by rewrite !(proj2 (String.eqb_neq _ _)). }
  destruct (String.eqb_spec d ""%string) as [->|Hd].
  - rewrite (proj2 (String.eqb_neq n "")) by done. unfold path_Clean.
    change (String.concat "/" [n]) with n.
    assert (Hr : HasPrefix n "/" = false).
    { destruct n as [|a n]; [done|]. simpl in Hs |- *. apply orb_false_iff in Hs as [Ha _].
      etransitivity; [apply (HasPrefix_char a n char_slash)|]. by rewrite Ascii.eqb_sym. }
    rewrite Hr, Split_plain by done. cbn [foldl]. rewrite Hstep. simpl.
    by rewrite (proj2 (String.eqb_neq n "")).
  - unfold path_Clean. change (String.concat "/" [d; n]) with (d +:+ String char_slash n).
    assert (Hr : HasPrefix (d +:+ String char_slash n) "/" = HasPrefix d "/").
    { destruct d as [|a d]; [done|]. rewrite string_app_cons.
      exact (eq_trans (HasPrefix_char a _ char_slash) (eq_sym (HasPrefix_char a _ char_slash))). }
    rewrite Hr, Split_app, (Split_plain n), foldl_app by done. cbn [foldl]. rewrite Hstep, concat_snoc.
    set (st := foldl _ _ _).
    assert (E : match st with [] => n | _ => String.concat "/" st +:+ ("/" +:+ n) end =
      (match st with [] => ""%string | _ => String.concat "/" st +:+ "/" end) +:+ n).
    { destruct st; [done|]. by rewrite string_app_assoc. }
    rewrite E. set (w := _ +:+ n). destruct (HasPrefix d "/"); [by rewrite string_app_assoc|].
    destruct (String.eqb_spec w ""%string) as [Ew|]; [|done]. exfalso. unfold w in Ew.
    apply (f_equal String.length) in Ew. rewrite string_length_app in Ew. destruct n; [done|]. simpl in Ew. lia.
Qed.

Lemma append_inv (s t1 t2 : string) : s +:+ t1 = s +:+ t2 -> t1 = t2.
Proof. induction s as [|a s IH]; [done|]. rewrite !string_app_cons. intros [= H]. by apply IH. Qed.
Lemma path_Join_inj d n1 n2 :
  base_name n1 -> base_name n2 -> path_Join [d; n1] = path_Join [d; n2] -> n1 = n2.
Proof. intros H1 H2. rewrite !path_Join_name by done. apply append_inv. Qed.

Example utils_examples :
  IPNetmask "192.168.1.10/24" = Some "192.168.1.10/255.255.255.0"%string /\
  IPNetmask "192.168.1.10" = None /\ IPNetmask "" = None /\
  IPNetwork "192.168.1.10/24" = ("192.168.1.0/255.255.255.0"%string, true) /\
  PrettyTime 59 = "0m59s"%string /\ PrettyTime 3661 = "1h1m"%string /\
  PrettyTime (-90061) = "-1d1h"%string /\
  PrettyBytes 1536 = "1.50K"%string /\ PrettyBytes 1023 = "1023B"%string /\
  GetHostPort "10.1.1.1:80" = ("10.1.1.1", "80")%string /\ GetHostPort "host" = ("host", "")%string /\
  IfName "abcdefghijklmnopqr" = Ret "defghijklmnopqr"%string /\
  ScanAnn [bytes_of_string "{"; bytes_of_string "  // note"; bytes_of_string "}"] = [123; 125].
Proof. vm_compute. repeat split. Qed.

Example number_examples :
  Atoi "1194" = (1194, true) /\ Atoi "" = (0, false) /\ Atoi "-12" = (-12, true) /\ Atoi "+7" = (7, true) /\
  Atoi "12a" = (0, false) /\ Atoi "99999999999999999999" = (2 ^ 63 - 1, false) /\
  pad8 7 = "00000007"%string /\ pad8 4294967295 = "4294967295"%string.
Proof. vm_compute. repeat split. Qed.

Example path_examples :
  path_Join ["/var/openlan"; "token"] = "/var/openlan/token"%string /\
  path_Join [""; "token"] = "token"%string /\ path_Join [""; ""] = ""%string /\
  path_Join ["/etc/"; "/acl//"; "x.json"] = "/etc/acl/x.json"%string /\
  path_Join ["/.."; "a"; ".."; "b"] = "/b"%string /\ path_Join ["../a"; "."] = "../a"%string /\
  path_Clean "" = "."%string /\ path_Clean "a/../.." = ".."%string.
Proof. vm_compute. repeat split. Qed.

(** Reading a number that was printed. *)
Lemma digit_pretty x : (x < 10)%N -> digit (pretty_N_char x) = Some (Z.of_N x).
Proof.
  intros H. assert (Hall : Forall (fun y => digit (pretty_N_char (Z.to_N y)) = Some y) (seqZ 0 10))
    by (apply (bool_decide_unpack _); by vm_compute).
  rewrite Forall_forall in Hall. specialize (Hall (Z.of_N x)). rewrite N2Z.id in Hall. apply Hall, elem_of_seqZ. lia.
Qed.
Lemma dec_pretty x s : dec_digits (pretty_N_go x s) 0 = dec_digits s (Z.of_N x).
Proof.
  revert s. induction x as [x IH] using (well_founded_ind N.lt_wf_0); intros s.
  destruct (decide (x = 0)%N) as [->|Hx]; [by rewrite pretty_N_go_0|].
  rewrite pretty_N_go_step by lia. rewrite IH by (apply N.div_lt; lia). cbn [dec_digits].
  rewrite digit_pretty by (apply N.mod_lt; done). f_equal. rewrite N2Z.inj_div, N2Z.inj_mod.
  pose proof (Z.div_mod (Z.of_N x) 10). lia.
Qed.
Lemma dec_FormatInt n : 0 <= n -> dec_digits (FormatInt n) 0 = Some n /\ FormatInt n <> EmptyString.
Proof.
  intros Hn. destruct n as [|n|n]; [done| |lia]. change (FormatInt (Z.pos n)) with (pretty_N_go (N.pos n) "").
  split; [by rewrite dec_pretty|]. intros E. pose proof (dec_pretty (N.pos n) "") as H. by rewrite E in H.
Qed.
(** Only digits are in a number. *)
Lemma dec_digits_plain c s : forall n m, digit c = None -> dec_digits s n = Some m -> contains_char c s = false.
Proof.
  induction s as [|a s IH]; intros n m Hc Hs; [done|]. simpl in *. destruct (digit a) eqn:Ea; [|done].
  rewrite (IH _ _ Hc Hs), orb_false_r. apply Ascii.eqb_neq. intros ->. congruence.
Qed.
Lemma FormatInt_plain c n : 0 <= n -> digit c = None -> contains_char c (FormatInt n) = false.
Proof. intros Hn Hc. destruct (dec_FormatInt n Hn) as [H _]. by apply (dec_digits_plain c _ _ _ Hc H). Qed.
Lemma Atoi_FormatInt n : 0 <= n < 2 ^ 63 -> Atoi (FormatInt n) = (n, true).
Proof.
  intros Hn. destruct (dec_FormatInt n (proj1 Hn)) as [Hd Hne]. unfold Atoi. destruct (FormatInt n) as [|a r] eqn:E; [done|].
  assert (Ha : Ascii.eqb a (Ascii.ascii_of_N 45) = false /\ Ascii.eqb a (Ascii.ascii_of_N 43) = false).
  { split; apply Ascii.eqb_neq; intros ->; simpl in Hd; done. }
  destruct Ha as [-> ->]. cbn [dec_value]. rewrite Hd.
  by rewrite (proj2 (Z.ltb_ge n _)), (proj2 (Z.leb_gt _ n)) by lia.
Qed.
