(* ===== verification/Config.v ===== *)
(** * Configuration: defaults and corrections (pkg/config)

    What the switch and the point make of a loaded configuration: every [Correct] and
    [Default] of the package, on the whole structures.  A pointer field is an [option];
    a slice of pointers is a list of options, and following a nil one panics.  Strings
    and numbers that were not given are the empty string and 0.

    Reading the JSON files, the host name, name resolution and random numbers are
    parameters of the functions that use them. *)

From S2P Require Import Prelude GoStd Utils.
From S2P Require FireWall.
From S2P Require Rules.

Local Open Scope Z_scope.

(** [if x == zero { x = d }] *)
Definition or_str (s d : string) : string := if String.eqb s "" then d else s.
Definition or_int (n d : Z) : Z := if n =? 0 then d else n.

(** A loop over a slice of pointers. *)
Fixpoint each_ptr {A} (f : A -> go A) (l : list (option A)) : go (list (option A)) :=
  match l with
  | [] => Ret []
  | None :: _ => Panic
  | Some a :: l => a ← f a; l ← each_ptr f l; Ret (Some a :: l)
  end.

Definition VarDir (name : list string) : string := ("/var/openlan/" +:+ String.concat "/" name)%string.

(** ** Queues and limits *)

Record Queue := { SockWr : Z; SockRd : Z; TapWr : Z; TapRd : Z; VirSnd : Z; VirWrt : Z }.
Definition QdSwr : Z := 1024 * 4.
Definition QdSrd : Z := 1024 * 4.
Definition QdTwr : Z := 1024 * 2.
Definition QdTrd : Z := 2.
Definition QdVsd : Z := 1024 * 8.
Definition QdVWr : Z := 1024 * 4.
Definition queue_Default (q : Queue) : Queue :=
  {| SockWr := or_int (SockWr q) QdSwr; SockRd := or_int (SockRd q) QdSrd;
     TapWr := or_int (TapWr q) QdTwr; TapRd := or_int (TapRd q) QdTrd;
     VirSnd := or_int (VirSnd q) QdVsd; VirWrt := or_int (VirWrt q) QdVWr |}.

Record Perf := {
  perf_Point : Z; perf_Neighbor : Z; perf_OnLine : Z; perf_Link : Z; perf_User : Z; perf_Esp : Z;
  perf_State : Z; perf_Policy : Z; perf_VxLAN : Z
}.
Definition DefaultPerf : Perf :=
  {| perf_Point := 1024; perf_Neighbor := 1024; perf_OnLine := 64; perf_Link := 1024; perf_User := 1024;
     perf_Esp := 1024; perf_State := 1024 * 10; perf_Policy := 1024 * 10; perf_VxLAN := 1024 |}.
Definition perf_Correct (p : Perf) (obj : option Perf) : Perf :=
  match obj with
  | None => p
  | Some o =>
      {| perf_Point := or_int (perf_Point p) (perf_Point o);
         perf_Neighbor := or_int (perf_Neighbor p) (perf_Neighbor o);
         perf_OnLine := or_int (perf_OnLine p) (perf_OnLine o);
         perf_Link := or_int (perf_Link p) (perf_Link o);
         perf_User := or_int (perf_User p) (perf_User o);
         perf_Esp := or_int (perf_Esp p) (perf_Esp o);
         perf_State := or_int (perf_State p) (perf_State o);
         perf_Policy := or_int (perf_Policy p) (perf_Policy o);
         perf_VxLAN := or_int (perf_VxLAN p) (perf_VxLAN o) |}
  end.

(** ** Encryption and certificates *)

Record Crypt := { Algo : string; Secret : string }.
Definition crypt_IsZero (c : Crypt) : bool := String.eqb (Algo c) "" && String.eqb (Secret c) "".
Definition crypt_Default (c : Crypt) : Crypt :=
  if negb (String.eqb (Secret c) "") && String.eqb (Algo c) ""
  then {| Algo := "xor"; Secret := Secret c |} else c.

(** The cipher [GetBlock] makes, and the key it makes it with. *)
Inductive BlockCrypt :=
| AESBlockCrypt (key : bytes)
| TEABlockCrypt (key : bytes)
| XTEABlockCrypt (key : bytes)
| SimpleXORBlockCrypt (key : bytes).
Definition secret_pass (secret : string) : bytes :=
  let s := bytes_of_string secret in
  if (length s <=? 64)%nat then write_at (make_bytes 64) 0 s else write_at (make_bytes 64) 0 (take 64 s).
Definition GetBlock (cfg : option Crypt) : option BlockCrypt :=
  match cfg with
  | None => None
  | Some c =>
      if crypt_IsZero c then None
      else
        let pass := secret_pass (Secret c) in
        Some (if String.eqb (Algo c) "aes-128" then AESBlockCrypt (take 16 pass)
              else if String.eqb (Algo c) "aes-192" then AESBlockCrypt (take 24 pass)
              else if String.eqb (Algo c) "aes-256" then AESBlockCrypt (take 32 pass)
              else if String.eqb (Algo c) "tea" then TEABlockCrypt (take 16 pass)
              else if String.eqb (Algo c) "xtea" then XTEABlockCrypt (take 16 pass)
              else SimpleXORBlockCrypt pass)
  end.

Record Cert := { Dir : string; CrtFile : string; KeyFile : string; CaFile : string; Insecure : bool }.
Definition cert_Correct (c : Cert) : Cert :=
  if String.eqb (Dir c) "" then c
  else {| Dir := Dir c; CrtFile := or_str (CrtFile c) (Dir c +:+ "/crt");
          KeyFile := or_str (KeyFile c) (Dir c +:+ "/key");
          CaFile := or_str (CaFile c) (Dir c +:+ "/ca-trusted.crt"); Insecure := Insecure c |}.

(** ** Addresses and names *)

(** A listening address without a port gets one. *)
Definition CorrectAddr (listen : string) (port : Z) : string :=
  match Split listen char_colon with
  | [v] => (v +:+ ":" +:+ FormatInt port)%string
  | _ => listen
  end.

(** The host's name, or thirteen random characters when it has none. *)
Definition GetAlias (hostname : option string) (random : string) : string :=
  match hostname with Some h => ToLower h | None => random end.

(** ** The bridge of a network *)

Record Bridge := {
  br_Network : string; br_Peer : string; br_Name : string; br_IPMtu : Z; br_Address : string;
  br_Provider : string; br_Stp : string; br_Delay : Z; br_Mss : Z
}.
Definition new_bridge : Bridge :=
  {| br_Network := ""; br_Peer := ""; br_Name := ""; br_IPMtu := 0; br_Address := ""; br_Provider := "";
     br_Stp := ""; br_Delay := 0; br_Mss := 0 |}.
Definition bridge_Correct (br : Bridge) : Bridge :=
  {| br_Network := br_Network br; br_Peer := br_Peer br;
     br_Name := or_str (br_Name br) ("br-" +:+ br_Network br);
     br_IPMtu := or_int (br_IPMtu br) 1500; br_Address := br_Address br;
     br_Provider := or_str (br_Provider br) "linux"; br_Stp := or_str (br_Stp br) "on";
     br_Delay := or_int (br_Delay br) 2; br_Mss := br_Mss br |}.
Definition set_br_network (br : Bridge) (n : string) : Bridge :=
  {| br_Network := n; br_Peer := br_Peer br; br_Name := br_Name br; br_IPMtu := br_IPMtu br;
     br_Address := br_Address br; br_Provider := br_Provider br; br_Stp := br_Stp br;
     br_Delay := br_Delay br; br_Mss := br_Mss br |}.
Definition set_br_mss (br : Bridge) (m : Z) : Bridge :=
  {| br_Network := br_Network br; br_Peer := br_Peer br; br_Name := br_Name br; br_IPMtu := br_IPMtu br;
     br_Address := br_Address br; br_Provider := br_Provider br; br_Stp := br_Stp br;
     br_Delay := br_Delay br; br_Mss := m |}.

Record IpSubnet := { sub_Network : string; sub_Start : string; sub_End : string; sub_Netmask : string }.
Record MultiPath := { mp_NextHop : string; mp_Weight : Z }.
(** [MultiPath] may be nil. *)
Record PrefixRoute := {
  rt_Prefix : string; rt_NextHop : string; rt_MultiPath : option (list MultiPath); rt_Metric : Z; rt_Mode : string
}.
Record HostLease := { host_Hostname : string; host_Address : string }.
Record Password := { pw_Username : string; pw_Password : string }.

(** ** VxLAN and fabric networks *)

Record VxLANMember := {
  vx_Name : string; vx_VNI : Z; vx_Local : string; vx_Remote : string; vx_Network : string; vx_Port : Z
}.
Record VxLANSpecifies := { vxs_Name : string; vxs_Local : string; vxs_Members : list (option VxLANMember) }.
Definition vx_Correct (m : VxLANMember) : VxLANMember :=
  {| vx_Name := or_str (vx_Name m) ("vni" +:+ FormatInt (vx_VNI m)); vx_VNI := vx_VNI m;
     vx_Local := vx_Local m; vx_Remote := vx_Remote m; vx_Network := vx_Network m; vx_Port := vx_Port m |}.
Definition vx_inherit (local : string) (m : VxLANMember) : VxLANMember :=
  {| vx_Name := vx_Name m; vx_VNI := vx_VNI m; vx_Local := or_str (vx_Local m) local;
     vx_Remote := vx_Remote m; vx_Network := vx_Network m; vx_Port := vx_Port m |}.
Definition vxs_Correct (n : VxLANSpecifies) : go VxLANSpecifies :=
  ms ← each_ptr (fun m => Ret (vx_Correct (vx_inherit (vxs_Local n) m))) (vxs_Members n);
  Ret {| vxs_Name := vxs_Name n; vxs_Local := vxs_Local n; vxs_Members := ms |}.

Record FabricTunnel := { ft_DstPort : Z; ft_Remote : string; ft_Local : string; ft_Mode : string }.
Record FabricOutput := { fo_Vlan : Z; fo_Interface : string }.
Record FabricNetwork := { fn_Vni : Z; fn_Bridge : string; fn_Address : string; fn_Outputs : list FabricOutput }.
Record FabricSpecifies := {
  fab_Mss : Z; fab_Fragment : bool; fab_Driver : string; fab_Name : string;
  fab_Tunnels : list (option FabricTunnel); fab_Networks : list (option FabricNetwork)
}.
Definition fn_Correct (c : FabricNetwork) : FabricNetwork :=
  {| fn_Vni := fn_Vni c; fn_Bridge := or_str (fn_Bridge c) ("br-" +:+ pad8 (fn_Vni c));
     fn_Address := fn_Address c; fn_Outputs := fn_Outputs c |}.
Definition tunnel_port (driver : string) (t : FabricTunnel) : FabricTunnel :=
  {| ft_DstPort := or_int (ft_DstPort t) (if String.eqb driver "stt" then 7471 else 4789);
     ft_Remote := ft_Remote t; ft_Local := ft_Local t; ft_Mode := ft_Mode t |}.
Definition fab_Correct (c : FabricSpecifies) : go FabricSpecifies :=
  ns ← each_ptr (fun n => Ret (fn_Correct n)) (fab_Networks c);
  ts ← each_ptr (fun t => Ret (tunnel_port (fab_Driver c) t)) (fab_Tunnels c);
  Ret {| fab_Mss := fab_Mss c; fab_Fragment := fab_Fragment c; fab_Driver := fab_Driver c;
         fab_Name := fab_Name c; fab_Tunnels := ts; fab_Networks := ns |}.

(** ** IPsec networks *)

Definition EspAuth : string := "8bc736635c0642aebc20ba5420c3e93a".
Definition EspCrypt : string := "4ac161f6635843b8b02c60cc36822515".
Definition EspUdp : Z := 4600.

(** A nil [net.IP] is the empty list; it prints as [<nil>]. *)
Definition netip_String (ip : bytes) : string :=
  match ip with [] => "<nil>"%string | _ => ip_String ip end.

Record EspState := {
  Local : string; LocalIp : bytes; Remote : string; RemotePort : Z; RemoteIp : bytes;
  Encap : string; Auth : string; Crypto : string
}.

(** [strings.Repeat(value, 64/len(value))[:size]] *)
Fixpoint Repeat (s : string) (n : nat) : string :=
  match n with O => EmptyString | S n => s +:+ Repeat s n end.
Definition Padding (value : string) (size : Z) : go string :=
  let n := Z.of_nat (String.length value) in
  if n =? 0 then Panic else str_slice (Repeat value (Z.to_nat (64 / n))) 0 size.

Record ESPPolicy := { pol_Source : string; pol_Dest : string }.
Record ESPMember := {
  mem_Name : string; mem_Address : string; mem_Peer : string; mem_Spi : Z; mem_State : EspState;
  mem_Policies : list (option ESPPolicy)
}.
Record ESPSpecifies := {
  esp_Name : string; esp_Address : string; esp_State : EspState; esp_Members : list (option ESPMember)
}.

Section esp.
(** The resolver ([net.LookupIP]; no addresses on error), and the address of the
    interface towards a remote ([GetLocalByGw], from the kernel's routes). *)
Context (LookupIP : string -> list bytes) (GetLocalByGw : string -> bytes).

Definition lookup_or (name : string) (old : bytes) : bytes :=
  match LookupIP name with a :: _ => a | [] => old end.

Definition inherit_state (s : EspState) (obj : option EspState) : EspState :=
  match obj with
  | None => s
  | Some o =>
      {| Local := or_str (Local s) (Local o); LocalIp := LocalIp s; Remote := Remote s;
         RemotePort := or_int (RemotePort s) (RemotePort o); RemoteIp := RemoteIp s; Encap := Encap s;
         Auth := or_str (Auth s) (Auth o); Crypto := or_str (Crypto s) (Crypto o) |}
  end.
Definition local_addr (local remote : string) : string :=
  if String.eqb local "" && negb (String.eqb remote "")
  then netip_String (GetLocalByGw remote) else local.
Definition state_Correct (s : EspState) (obj : option EspState) : go EspState :=
  let s := inherit_state s obj in
  let local := local_addr (Local s) (Remote s) in
  let crypt := or_str (Crypto s) (Auth s) in
  auth ← Padding (or_str (Auth s) EspAuth) 32;
  crypt ← Padding (or_str crypt EspCrypt) 32;
  Ret {| Local := local; LocalIp := lookup_or local (LocalIp s); Remote := Remote s;
         RemotePort := or_int (RemotePort s) EspUdp; RemoteIp := lookup_or (Remote s) (RemoteIp s);
         Encap := or_str (Encap s) "udp"; Auth := auth; Crypto := crypt |}.

Definition with_len (addr : string) : string :=
  if contains_char char_slash addr then addr else (addr +:+ "/32")%string.
(** Whether a policy leads to [peer]; a nil one panics. *)
Fixpoint existed (peer : string) (ps : list (option ESPPolicy)) : go bool :=
  match ps with
  | [] => Ret false
  | None :: _ => Panic
  | Some p :: ps => b ← existed peer ps; Ret (String.eqb (pol_Dest p) peer || b)
  end.
(** One member; [spi] is the number [GenInt32] would draw for it. *)
Definition member_Correct (n : ESPSpecifies) (spi : Z) (m : ESPMember) : go ESPMember :=
  let address := or_str (mem_Address m) (esp_Address n) in
  if String.eqb address "" then Ret m
  else
    let address := with_len address in
    let peer := with_len (mem_Peer m) in
    state ← state_Correct (mem_State m) (Some (esp_State n));
    ex ← existed peer (mem_Policies m);
    let spi := or_int (mem_Spi m) spi in
    Ret {| mem_Name := or_str (mem_Name m) ("spi" +:+ FormatInt spi); mem_Address := address;
           mem_Peer := peer; mem_Spi := spi; mem_State := state;
           mem_Policies := if ex : bool then mem_Policies m
                           else mem_Policies m ++ [Some {| pol_Source := address; pol_Dest := peer |}] |}.
(** [rnd] are the numbers drawn, member by member. *)
Fixpoint members_Correct (n : ESPSpecifies) (rnd : nat -> Z) (ms : list (option ESPMember))
    : go (list (option ESPMember)) :=
  match ms with
  | [] => Ret []
  | None :: _ => Panic
  | Some m :: ms =>
      m ← member_Correct n (rnd 0%nat) m;
      ms ← members_Correct n (fun k => rnd (S k)) ms;
      Ret (Some m :: ms)
  end.
Definition esp_Correct (n : ESPSpecifies) (rnd : nat -> Z) : go ESPSpecifies :=
  ms ← members_Correct n rnd (esp_Members n);
  Ret {| esp_Name := esp_Name n; esp_Address := esp_Address n; esp_State := esp_State n; esp_Members := ms |}.
End esp.

(** ** VPN servers *)

Record VPNClient := { vc_Name : string; vc_Address : string; vc_Netmask : string }.
(** The fields of an [OpenVPN] other than the variants it breeds. *)
Record VPNFields := {
  vf_Network : string; vf_Directory : string; vf_Listen : string; vf_Protocol : string; vf_Subnet : string;
  vf_Device : string; vf_Version : Z; vf_Auth : string; vf_DhPem : string; vf_RootCa : string; vf_ServerCrt : string;
  vf_ServerKey : string; vf_TlsAuth : string; vf_Cipher : string; vf_Routes : list string; vf_Renego : Z;
  vf_Script : string; vf_Push : list string; vf_Clients : list VPNClient
}.
Inductive OpenVPN := { vpn_Fields : VPNFields; vpn_Breed : list (option OpenVPN) }.

Definition or_list {A} (l d : list A) : list A := match l with [] => d | _ => l end.

Definition DefaultOpenVPN : VPNFields :=
  {| vf_Network := ""; vf_Directory := ""; vf_Listen := ""; vf_Protocol := "tcp"; vf_Subnet := "";
     vf_Device := "tun0"; vf_Version := 0; vf_Auth := "xauth"; vf_DhPem := VarDir ["openvpn/dh.pem"%string];
     vf_RootCa := VarDir ["cert/ca.crt"%string]; vf_ServerCrt := VarDir ["cert/crt"%string];
     vf_ServerKey := VarDir ["cert/key"%string]; vf_TlsAuth := VarDir ["openvpn/ta.key"%string];
     vf_Cipher := "AES-256-CBC"; vf_Routes := []; vf_Renego := 0; vf_Script := "/usr/bin/openlan";
     vf_Push := []; vf_Clients := [] |}.

(** [index] counts the devices made up so far. *)
Definition genTunName (index : Z) : string * Z := (("tun" +:+ FormatInt (index + 1))%string, index + 1).

Definition vpn_inherit (obj : VPNFields) (o : VPNFields) : VPNFields :=
  let network := or_str (vf_Network o) (vf_Network obj) in
  {| vf_Network := network; vf_Directory := vf_Directory o; vf_Listen := vf_Listen o;
     vf_Protocol := or_str (vf_Protocol o) (vf_Protocol obj); vf_Subnet := vf_Subnet o;
     vf_Device := vf_Device o; vf_Version := vf_Version o; vf_Auth := or_str (vf_Auth o) (vf_Auth obj);
     vf_DhPem := or_str (vf_DhPem o) (vf_DhPem obj); vf_RootCa := or_str (vf_RootCa o) (vf_RootCa obj);
     vf_ServerCrt := or_str (vf_ServerCrt o) (vf_ServerCrt obj);
     vf_ServerKey := or_str (vf_ServerKey o) (vf_ServerKey obj);
     vf_TlsAuth := or_str (vf_TlsAuth o) (vf_TlsAuth obj); vf_Cipher := or_str (vf_Cipher o) (vf_Cipher obj);
     vf_Routes := or_list (vf_Routes o) (vf_Routes obj); vf_Renego := vf_Renego o;
     vf_Script := or_str (vf_Script o) (vf_Script obj +:+ " user check --network " +:+ network);
     vf_Push := or_list (vf_Push o) (vf_Push obj); vf_Clients := or_list (vf_Clients o) (vf_Clients obj) |}.

Definition vpn_subnet (pool listen : string) : string :=
  (pool +:+ "." +:+ FormatInt (Z.land (Atoi (GetHostPort listen).2).1 255) +:+ ".0/24")%string.
(** The directory, the device and the subnet. *)
Definition vpn_own (pool : string) (index : Z) (o : VPNFields) : VPNFields * Z :=
  let none := String.eqb (vf_Device o) "" in
  let listen := if none && negb (contains_char char_colon (vf_Listen o))
                then (vf_Listen o +:+ ":1194")%string else vf_Listen o in
  let '(device, index) := if none then genTunName index else (vf_Device o, index) in
  ({| vf_Network := vf_Network o;
      vf_Directory := or_str (vf_Directory o) (VarDir ["openvpn"%string; vf_Network o]);
      vf_Listen := listen; vf_Protocol := vf_Protocol o;
      vf_Subnet := or_str (vf_Subnet o) (vpn_subnet pool listen); vf_Device := device;
      vf_Version := vf_Version o; vf_Auth := vf_Auth o;
      vf_DhPem := vf_DhPem o; vf_RootCa := vf_RootCa o; vf_ServerCrt := vf_ServerCrt o;
      vf_ServerKey := vf_ServerKey o; vf_TlsAuth := vf_TlsAuth o; vf_Cipher := vf_Cipher o;
      vf_Routes := vf_Routes o; vf_Renego := vf_Renego o; vf_Script := vf_Script o; vf_Push := vf_Push o;
      vf_Clients := vf_Clients o |}, index).

(** [pool] is the address pool of the switch; [Correct] of a nil variant panics. *)
Fixpoint vpn_Correct (pool : string) (obj : option VPNFields) (o : OpenVPN) (index : Z)
    : go (OpenVPN * Z) :=
  let f := match obj with Some obj => vpn_inherit obj (vpn_Fields o) | None => vpn_Fields o end in
  let '(f, index) := vpn_own pool index f in
  r ← (fix breed (chs : list (option OpenVPN)) (index : Z) : go (list (option OpenVPN) * Z) :=
         match chs with
         | [] => Ret ([], index)
         | None :: _ => Panic
         | Some ch :: chs =>
             r ← vpn_Correct pool (Some f) ch index;
             let '(ch, index) := r in
             r ← breed chs index;
             let '(chs, index) := r in
             Ret (Some ch :: chs, index)
         end) (vpn_Breed o) index;
  let '(chs, index) := r in
  Ret ({| vpn_Fields := f; vpn_Breed := chs |}, index).

Definition set_vpn_network (n : string) (v : OpenVPN) : OpenVPN :=
  let o := vpn_Fields v in
  {| vpn_Fields :=
       {| vf_Network := n; vf_Directory := vf_Directory o; vf_Listen := vf_Listen o; vf_Protocol := vf_Protocol o;
          vf_Subnet := vf_Subnet o; vf_Device := vf_Device o;
          vf_Version := vf_Version o; vf_Auth := vf_Auth o; vf_DhPem := vf_DhPem o;
          vf_RootCa := vf_RootCa o; vf_ServerCrt := vf_ServerCrt o; vf_ServerKey := vf_ServerKey o;
          vf_TlsAuth := vf_TlsAuth o; vf_Cipher := vf_Cipher o; vf_Routes := vf_Routes o;
          vf_Renego := vf_Renego o; vf_Script := vf_Script o; vf_Push := vf_Push o; vf_Clients := vf_Clients o |};
     vpn_Breed := vpn_Breed v |}.

(** ** The point *)

Record Log := { log_File : string; log_Verbose : Z }.
Record Interface := {
  if_Name : string; if_IPMtu : Z; if_Address : string; if_Bridge : string; if_Provider : string; if_Cost : Z
}.
Record Point := {
  pt_Alias : string; pt_Connection : string; pt_Timeout : Z; pt_Username : string; pt_Network : string;
  pt_Password : string; pt_Protocol : string; pt_Interface : Interface; pt_Log : Log;
  pt_Crypt : option Crypt; pt_RequestAddr : bool; pt_ByPass : bool; pt_SaveFile : string;
  pt_Queue : option Queue; pt_Terminal : string; pt_Cert : option Cert; pt_StatusFile : string;
  pt_PidFile : string
}.

Definition dot_dir (c : Cert) : Cert :=
  {| Dir := or_str (Dir c) "."; CrtFile := CrtFile c; KeyFile := KeyFile c; CaFile := CaFile c;
     Insecure := Insecure c |}.
Definition char_at : Ascii.ascii := Ascii.ascii_of_N 64.

Section point.
(** The operating system, and the name [GetAlias] finds for this host. *)
Context (GOOS alias : string).

Definition with_provider (i : Interface) : Interface :=
  if String.eqb GOOS "darwin"
  then {| if_Name := if_Name i; if_IPMtu := if_IPMtu i; if_Address := if_Address i; if_Bridge := if_Bridge i;
          if_Provider := "tun"; if_Cost := if_Cost i |}
  else i.
Definition point_network (ap : Point) (obj : option Point) : string :=
  if String.eqb (pt_Network ap) "" then
    if contains_char char_at (pt_Username ap) then default ""%string (SplitN (pt_Username ap) char_at 2 !! 1%nat)
    else match obj with Some o => pt_Network o | None => ""%string end
  else pt_Network ap.
Definition point_cert (ap : Point) (obj : option Point) : option Cert :=
  let cert := if (String.eqb (pt_Protocol ap) "tls" || String.eqb (pt_Protocol ap) "wss")
              then match pt_Cert ap, obj with None, Some o => pt_Cert o | c, _ => c end
              else pt_Cert ap in
  option_map (fun c => cert_Correct (dot_dir c)) cert.
Definition point_Correct (ap : Point) (obj : option Point) : Point :=
  {| pt_Alias := or_str (pt_Alias ap) alias; pt_Connection := CorrectAddr (pt_Connection ap) 10002;
     pt_Timeout := pt_Timeout ap; pt_Username := pt_Username ap; pt_Network := point_network ap obj;
     pt_Password := pt_Password ap; pt_Protocol := or_str (pt_Protocol ap) "tcp";
     pt_Interface := with_provider (pt_Interface ap); pt_Log := pt_Log ap; pt_Crypt := pt_Crypt ap;
     pt_RequestAddr := pt_RequestAddr ap; pt_ByPass := pt_ByPass ap; pt_SaveFile := pt_SaveFile ap;
     pt_Queue := pt_Queue ap; pt_Terminal := pt_Terminal ap; pt_Cert := point_cert ap obj;
     pt_StatusFile := pt_StatusFile ap; pt_PidFile := pt_PidFile ap |}.

Definition INFO : Z := 20.
Definition DefaultPoint : Point :=
  point_Correct
    {| pt_Alias := ""; pt_Connection := "xx.openlan.net"; pt_Timeout := 60; pt_Username := "";
       pt_Network := "default"; pt_Password := ""; pt_Protocol := "tcp";
       pt_Interface := {| if_Name := ""; if_IPMtu := 1500; if_Address := ""; if_Bridge := "";
                          if_Provider := "kernel"; if_Cost := 0 |};
       pt_Log := {| log_File := "./point.log"; log_Verbose := INFO |};
       pt_Crypt := Some {| Algo := ""; Secret := "" |}; pt_RequestAddr := true; pt_ByPass := false;
       pt_SaveFile := "./point.json"; pt_Queue := None; pt_Terminal := "on";
       pt_Cert := Some {| Dir := ""; CrtFile := ""; KeyFile := ""; CaFile := ""; Insecure := false |};
       pt_StatusFile := ""; pt_PidFile := "" |} None.

Definition with_mtu (i : Interface) (m : Z) : Interface :=
  {| if_Name := if_Name i; if_IPMtu := or_int (if_IPMtu i) m; if_Address := if_Address i;
     if_Bridge := if_Bridge i; if_Provider := if_Provider i; if_Cost := if_Cost i |}.
Definition no_queue : Queue :=
  {| SockWr := 0; SockRd := 0; TapWr := 0; TapRd := 0; VirSnd := 0; VirWrt := 0 |}.
Definition point_Default (ap : Point) : Point :=
  let obj := DefaultPoint in
  let ap := point_Correct ap (Some obj) in
  {| pt_Alias := pt_Alias ap; pt_Connection := or_str (pt_Connection ap) (pt_Connection obj);
     pt_Timeout := or_int (pt_Timeout ap) (pt_Timeout obj); pt_Username := pt_Username ap;
     pt_Network := pt_Network ap; pt_Password := pt_Password ap; pt_Protocol := pt_Protocol ap;
     pt_Interface := with_mtu (pt_Interface ap) (if_IPMtu (pt_Interface obj)); pt_Log := pt_Log ap;
     pt_Crypt := option_map crypt_Default (pt_Crypt ap); pt_RequestAddr := pt_RequestAddr ap;
     pt_ByPass := pt_ByPass ap; pt_SaveFile := pt_SaveFile ap;
     pt_Queue := Some (queue_Default (default no_queue (pt_Queue ap))); pt_Terminal := pt_Terminal ap;
     pt_Cert := pt_Cert ap; pt_StatusFile := pt_StatusFile ap; pt_PidFile := pt_PidFile ap |}.

(** [Default] on the copy of a point that a loop over a slice of points makes: what the
    copy shares with the slice, the structures behind its pointers, is changed; the
    fields of the copy are lost. *)
Definition point_Default_copy (ap : Point) : Point :=
  {| pt_Alias := pt_Alias ap; pt_Connection := pt_Connection ap; pt_Timeout := pt_Timeout ap;
     pt_Username := pt_Username ap; pt_Network := pt_Network ap; pt_Password := pt_Password ap;
     pt_Protocol := pt_Protocol ap; pt_Interface := pt_Interface ap; pt_Log := pt_Log ap;
     pt_Crypt := option_map crypt_Default (pt_Crypt ap); pt_RequestAddr := pt_RequestAddr ap;
     pt_ByPass := pt_ByPass ap; pt_SaveFile := pt_SaveFile ap;
     pt_Queue := option_map queue_Default (pt_Queue ap); pt_Terminal := pt_Terminal ap;
     pt_Cert := option_map (fun c => cert_Correct (dot_dir c)) (pt_Cert ap);
     pt_StatusFile := pt_StatusFile ap; pt_PidFile := pt_PidFile ap |}.

Definition point_Id (ap : Point) : string := (pt_Connection ap +:+ ":" +:+ pt_Network ap)%string.
End point.

(** ** Networks *)

(** Decoding makes a value of its own, here [SpecOther], where there is no object. *)
Inductive Specifies :=
| SpecESP (s : ESPSpecifies)
| SpecVxLAN (s : VxLANSpecifies)
| SpecFabric (s : FabricSpecifies)
| SpecOther.
Record Network := {
  net_ConfDir : string; net_File : string; net_Alias : string; net_Name : string; net_Provider : string;
  net_Bridge : option Bridge; net_Subnet : option IpSubnet; net_OpenVPN : option OpenVPN; net_Links : list Point;
  net_Hosts : list HostLease; net_Routes : list PrefixRoute; net_Password : list Password; net_Acl : string;
  net_Specifies : option Specifies
}.

Definition set_specifies (n : Network) (s : option Specifies) (br : option Bridge) : Network :=
  {| net_ConfDir := net_ConfDir n; net_File := net_File n; net_Alias := net_Alias n; net_Name := net_Name n; net_Provider := net_Provider n;
     net_Bridge := br; net_Subnet := net_Subnet n; net_OpenVPN := net_OpenVPN n; net_Links := net_Links n;
     net_Hosts := net_Hosts n; net_Routes := net_Routes n; net_Password := net_Password n;
     net_Acl := net_Acl n; net_Specifies := s |}.

(** The bridge's address and netmask as text, empty when it has none. *)
Definition bridge_addr (address : string) : string * string :=
  match cut char_slash address with
  | None => (""%string, ""%string)
  | Some (addr, mask) =>
      match cidr_ip addr, ParseCIDR_mask addr mask with
      | Some ip, Some m => (ip_String ip, ip_String m)
      | _, _ => (""%string, ""%string)
      end
  end.
Definition route_Correct (ipAddr : string) (r : PrefixRoute) : PrefixRoute :=
  {| rt_Prefix := rt_Prefix r; rt_NextHop := or_str (rt_NextHop r) ipAddr; rt_MultiPath := rt_MultiPath r;
     rt_Metric := or_int (rt_Metric r) 660; rt_Mode := or_str (rt_Mode r) "snat" |}.
Definition subnet_Correct (ipMask : string) (s : IpSubnet) : IpSubnet :=
  {| sub_Network := sub_Network s; sub_Start := sub_Start s; sub_End := sub_End s;
     sub_Netmask := or_str (sub_Netmask s) ipMask |}.
Definition no_subnet : IpSubnet := {| sub_Network := ""; sub_Start := ""; sub_End := ""; sub_Netmask := "" |}.

Section network.
Context (LookupIP : string -> list bytes) (GetLocalByGw : string -> bytes) (pool : string).

(** The branch of a network without a special provider. *)
Definition lan_Correct (n : Network) (index : Z) : go (Network * Z) :=
  let br := bridge_Correct (set_br_network (default new_bridge (net_Bridge n)) (net_Name n)) in
  let '(ipAddr, ipMask) := bridge_addr (br_Address br) in
  r ← match net_OpenVPN n with
      | None => Ret (None, index)
      | Some v => r ← vpn_Correct pool (Some DefaultOpenVPN) (set_vpn_network (net_Name n) v) index;
                  let '(v, index) := r in Ret (Some v, index)
      end;
  let '(vpn, index) := r : option OpenVPN * Z in
  Ret ({| net_ConfDir := net_ConfDir n; net_File := net_File n; net_Alias := net_Alias n; net_Name := net_Name n;
          net_Provider := net_Provider n; net_Bridge := Some br;
          net_Subnet := Some (subnet_Correct ipMask (default no_subnet (net_Subnet n)));
          net_OpenVPN := vpn; net_Links := net_Links n; net_Hosts := net_Hosts n;
          net_Routes := map (route_Correct ipAddr) (net_Routes n); net_Password := net_Password n;
          net_Acl := net_Acl n; net_Specifies := net_Specifies n |}, index).

Definition esp_rename (s : ESPSpecifies) (name : string) : ESPSpecifies :=
  {| esp_Name := name; esp_Address := esp_Address s; esp_State := esp_State s; esp_Members := esp_Members s |}.
Definition vxs_rename (s : VxLANSpecifies) (name : string) : VxLANSpecifies :=
  {| vxs_Name := name; vxs_Local := vxs_Local s; vxs_Members := vxs_Members s |}.
Definition fab_rename (s : FabricSpecifies) (name : string) : FabricSpecifies :=
  {| fab_Mss := fab_Mss s; fab_Fragment := fab_Fragment s; fab_Driver := fab_Driver s; fab_Name := name;
     fab_Tunnels := fab_Tunnels s; fab_Networks := fab_Networks s |}.
Definition vxlan_bridge (name : string) (br : Bridge) : Bridge :=
  let br := bridge_Correct (set_br_network br name) in set_br_mss br (or_int (br_Mss br) 1332).

Definition network_Correct (n : Network) (index : Z) (rnd : nat -> Z) : go (Network * Z) :=
  if String.eqb (net_Provider n) "esp" then
    match net_Specifies n with
    | Some (SpecESP s) =>
        s ← esp_Correct LookupIP GetLocalByGw s rnd;
        Ret (set_specifies n (Some (SpecESP (esp_rename s (net_Name n)))) (net_Bridge n), index)
    | _ => Ret (n, index)
    end
  else if String.eqb (net_Provider n) "vxlan" then
    spec ← match net_Specifies n with
           | Some (SpecVxLAN s) => s ← vxs_Correct s; Ret (Some (SpecVxLAN (vxs_rename s (net_Name n))))
           | s => Ret s
           end;
    Ret (set_specifies n spec (option_map (vxlan_bridge (net_Name n)) (net_Bridge n)), index)
  else if String.eqb (net_Provider n) "fabric" then
    match net_Specifies n with
    | Some (SpecFabric s) =>
        s ← fab_Correct s;
        Ret (set_specifies n (Some (SpecFabric (fab_rename s (net_Name n)))) (net_Bridge n), index)
    | _ => Ret (n, index)
    end
  else lan_Correct n index.

(** ** The switch *)

(** [Correct] of every network, in order, with what [LoadNetwork] adds to it: links get
    their defaults in copies, the alias and the file are filled in. *)
Definition finish_network (confDir alias : string) (n : Network) : Network :=
  {| net_ConfDir := net_ConfDir n; net_File := or_str (net_File n) (path_Join [confDir; "network"%string; (net_Name n +:+ ".json")%string]);
     net_Alias := alias; net_Name := net_Name n; net_Provider := net_Provider n; net_Bridge := net_Bridge n;
     net_Subnet := net_Subnet n; net_OpenVPN := net_OpenVPN n; net_Links := net_Links n;
     net_Hosts := net_Hosts n; net_Routes := net_Routes n; net_Password := net_Password n;
     net_Acl := net_Acl n; net_Specifies := net_Specifies n |}.
Definition copy_links (n : Network) : Network :=
  {| net_ConfDir := net_ConfDir n; net_File := net_File n; net_Alias := net_Alias n; net_Name := net_Name n; net_Provider := net_Provider n;
     net_Bridge := net_Bridge n; net_Subnet := net_Subnet n; net_OpenVPN := net_OpenVPN n;
     net_Links := map point_Default_copy (net_Links n);
     net_Hosts := net_Hosts n; net_Routes := net_Routes n; net_Password := net_Password n;
     net_Acl := net_Acl n; net_Specifies := net_Specifies n |}.
Fixpoint networks_Correct (confDir alias : string) (nets : list (option Network)) (index : Z)
    (rnd : nat -> nat -> Z) : go (list (option Network) * Z) :=
  match nets with
  | [] => Ret ([], index)
  | None :: _ => Panic
  | Some n :: nets =>
      r ← network_Correct (copy_links n) index (rnd 0%nat);
      let '(n, index) := r in
      r ← networks_Correct confDir alias nets index (fun k => rnd (S k));
      let '(nets, index) := r : list (option Network) * Z in
      Ret (Some (finish_network confDir alias n) :: nets, index)
  end.
End network.

Record Http := { http_Listen : string; http_Public : string }.
(** A file of rules for an access list. *)
Record acl_file := { acl_File : string; acl_List : Rules.ACL }.
Record LDAP := {
  ldap_Server : string; ldap_BindDN : string; ldap_Password : string; ldap_BaseDN : string; ldap_Attribute : string;
  ldap_Filter : string; ldap_EnableTls : bool
}.
Record Switch := {
  sw_File : string; sw_Alias : string; sw_Perf : Perf; sw_Protocol : string; sw_Listen : string;
  sw_Timeout : Z; sw_Http : option Http; sw_Log : Log; sw_Cert : option Cert; sw_Crypt : option Crypt;
  sw_Network : list (option Network); sw_Acl : list (option acl_file); sw_FireWall : list FireWall.FlowRule;
  sw_Inspect : list string; sw_Queue : Queue; sw_PassFile : string; sw_Ldap : option LDAP; sw_AddrPool : string;
  sw_ConfDir : string; sw_TokenFile : string
}.
Definition http_Correct (h : Http) : Http :=
  {| http_Listen := CorrectAddr (http_Listen h) 10000; http_Public := http_Public h |}.
Definition switch_Correct (alias : string) (s : Switch) : Switch :=
  {| sw_File := path_Join [sw_ConfDir s; "switch.json"%string]; sw_Alias := or_str (sw_Alias s) alias;
     sw_Perf := perf_Correct (sw_Perf s) (Some DefaultPerf); sw_Protocol := or_str (sw_Protocol s) "tcp";
     sw_Listen := CorrectAddr (sw_Listen s) 10002; sw_Timeout := sw_Timeout s;
     sw_Http := option_map http_Correct (sw_Http s); sw_Log := sw_Log s;
     sw_Cert := option_map cert_Correct (sw_Cert s); sw_Crypt := sw_Crypt s; sw_Network := sw_Network s;
     sw_Acl := sw_Acl s; sw_FireWall := sw_FireWall s;
     sw_Inspect := sw_Inspect s; sw_Queue := sw_Queue s; sw_Ldap := sw_Ldap s;
     sw_PassFile := or_str (sw_PassFile s) (path_Join [sw_ConfDir s; "password"%string]);
     sw_AddrPool := or_str (sw_AddrPool s) "100.44"; sw_ConfDir := sw_ConfDir s;
     sw_TokenFile := path_Join [sw_ConfDir s; "token"%string] |}.

Definition set_sw_loaded (s : Switch) (acls : list (option acl_file)) (nets : list (option Network)) : Switch :=
  {| sw_File := sw_File s; sw_Alias := sw_Alias s; sw_Perf := sw_Perf s; sw_Protocol := sw_Protocol s;
     sw_Listen := sw_Listen s; sw_Timeout := sw_Timeout s; sw_Http := sw_Http s; sw_Log := sw_Log s;
     sw_Cert := sw_Cert s; sw_Crypt := sw_Crypt s; sw_Network := nets; sw_Acl := acls; sw_FireWall := sw_FireWall s;
     sw_Inspect := sw_Inspect s; sw_Queue := sw_Queue s; sw_Ldap := sw_Ldap s; sw_PassFile := sw_PassFile s;
     sw_AddrPool := sw_AddrPool s; sw_ConfDir := sw_ConfDir s; sw_TokenFile := sw_TokenFile s |}.
Definition set_sw_network (s : Switch) (nets : list (option Network)) : Switch := set_sw_loaded s (sw_Acl s) nets.
Definition set_sw_acl (s : Switch) (acls : list (option acl_file)) : Switch := set_sw_loaded s acls (sw_Network s).
Definition LogFile (GOOS file : string) : string :=
  if String.eqb GOOS "linux" then ("/var/log/" +:+ file)%string else file.
Definition DefaultSwitch (GOOS alias : string) : Switch :=
  switch_Correct alias
    {| sw_File := ""; sw_Alias := "";
       sw_Perf := {| perf_Point := 0; perf_Neighbor := 0; perf_OnLine := 0; perf_Link := 0; perf_User := 0;
                     perf_Esp := 0; perf_State := 0; perf_Policy := 0; perf_VxLAN := 0 |};
       sw_Protocol := ""; sw_Listen := "0.0.0.0:10002"; sw_Timeout := 120;
       sw_Http := Some {| http_Listen := "0.0.0.0:10000"; http_Public := "" |};
       sw_Log := {| log_File := LogFile GOOS "openlan-switch.log"; log_Verbose := INFO |};
       sw_Cert := None; sw_Crypt := None; sw_Network := []; sw_Acl := []; sw_FireWall := []; sw_Inspect := [];
       sw_Queue := no_queue; sw_Ldap := None; sw_PassFile := ""; sw_AddrPool := ""; sw_ConfDir := ""; sw_TokenFile := "" |}.

(** The first part of [Default]; the access lists and the networks come after it. *)
Definition switch_defaults (GOOS alias : string) (s : Switch) : Switch :=
  let s := switch_Correct alias s in
  {| sw_File := sw_File s; sw_Alias := sw_Alias s; sw_Perf := sw_Perf s; sw_Protocol := sw_Protocol s;
     sw_Listen := sw_Listen s; sw_Timeout := or_int (sw_Timeout s) (sw_Timeout (DefaultSwitch GOOS alias));
     sw_Http := sw_Http s; sw_Log := sw_Log s; sw_Cert := sw_Cert s;
     sw_Crypt := option_map crypt_Default (sw_Crypt s); sw_Network := sw_Network s;
     sw_Acl := sw_Acl s; sw_FireWall := sw_FireWall s;
     sw_Inspect := sw_Inspect s; sw_Ldap := sw_Ldap s;
     sw_Queue := queue_Default (sw_Queue s); sw_PassFile := sw_PassFile s; sw_AddrPool := sw_AddrPool s;
     sw_ConfDir := sw_ConfDir s; sw_TokenFile := sw_TokenFile s |}.

(** [loaded] are the networks read from the configuration directory. *)
Definition LoadNetwork (LookupIP : string -> list bytes) (GetLocalByGw : string -> bytes)
    (s : Switch) (loaded : list Network) (index : Z) (rnd : nat -> nat -> Z) : go (Switch * Z) :=
  r ← networks_Correct LookupIP GetLocalByGw (sw_AddrPool s) (sw_ConfDir s) (sw_Alias s)
        (sw_Network s ++ map Some loaded) index rnd;
  let '(nets, index) := r : list (option Network) * Z in
  Ret (set_sw_network s nets, index).
(** [GetNetwork]: the first network of the name; a nil one before it panics. *)
Fixpoint GetNetwork (name : string) (nets : list (option Network)) : go (option Network) :=
  match nets with
  | [] => Ret None
  | None :: _ => Panic
  | Some n :: nets => if String.eqb (net_Name n) name then Ret (Some n) else GetNetwork name nets
  end.

(** * Properties *)

(** ** Defaults are applied once *)

Lemma or_str_idem s d : or_str (or_str s d) d = or_str s d.
Proof. unfold or_str. destruct (String.eqb s "") eqn:E; [|by rewrite E]. by destruct (String.eqb d ""). Qed.
Lemma or_int_idem n d : or_int (or_int n d) d = or_int n d.
Proof. unfold or_int. destruct (n =? 0) eqn:E; [|by rewrite E]. by destruct (d =? 0). Qed.
Lemma or_list_idem {A} (l d : list A) : or_list (or_list l d) d = or_list l d.
Proof. by destruct l, d. Qed.
Lemma or_str_id s d : s <> ""%string -> or_str s d = s.
Proof. intros H. unfold or_str. by rewrite (proj2 (String.eqb_neq s "")). Qed.
Lemma or_str_empty s : or_str s "" = s.
Proof. unfold or_str. by destruct (String.eqb_spec s ""). Qed.
Lemma or_str_nonempty s d : d <> ""%string -> or_str s d <> ""%string.
Proof. intros H. unfold or_str. by destruct (String.eqb_spec s ""). Qed.
Lemma or_int_id n d : n <> 0 -> or_int n d = n.
Proof. intros H. unfold or_int. by rewrite (proj2 (Z.eqb_neq n 0)). Qed.
Lemma or_int_nonzero n d : d <> 0 -> or_int n d <> 0.
Proof. intros H. unfold or_int. by destruct (Z.eqb_spec n 0). Qed.
Create Rewrite HintDb config.
#[export] Hint Rewrite or_str_idem or_int_idem @or_list_idem : config.

Lemma queue_Default_idem q : queue_Default (queue_Default q) = queue_Default q.
Proof. unfold queue_Default. simpl. by autorewrite with config. Qed.
Lemma perf_Correct_idem p obj : perf_Correct (perf_Correct p obj) obj = perf_Correct p obj.
Proof. destruct obj; [|done]. unfold perf_Correct. cbn. by autorewrite with config. Qed.
Lemma crypt_Default_idem c : crypt_Default (crypt_Default c) = crypt_Default c.
Proof.
  unfold crypt_Default. destruct c as [a s]. simpl.
  destruct (String.eqb s "") eqn:Es, (String.eqb a "") eqn:Ea; simpl; by rewrite ?Es, ?Ea.
Qed.
Lemma cert_Correct_idem c : cert_Correct (cert_Correct c) = cert_Correct c.
Proof.
  unfold cert_Correct at 2 3. destruct (String.eqb (Dir c) "") eqn:E; unfold cert_Correct; simpl; rewrite E; [done|].
  by autorewrite with config.
Qed.
Lemma bridge_Correct_idem b : bridge_Correct (bridge_Correct b) = bridge_Correct b.
Proof. unfold bridge_Correct. simpl. by autorewrite with config. Qed.

Lemma contains_after c s1 s2 : contains_char c (s1 +:+ String c s2) = true.
Proof. rewrite contains_app. simpl. by rewrite Ascii.eqb_refl, orb_true_r. Qed.

Lemma SplitN_ne s c n : SplitN s c (S n) <> [].
Proof. simpl. destruct n; [done|]. by destruct (cut c s) as [[? ?]|]. Qed.
(** An address with a port is left alone, one without is given it. *)
Lemma CorrectAddr_spec listen port :
  CorrectAddr listen port =
    if contains_char char_colon listen then listen else (listen +:+ ":" +:+ FormatInt port)%string.
Proof.
  unfold CorrectAddr, Split. destruct listen as [|a listen]; [done|].
  cbn [String.length]. cbn [SplitN]. destruct (contains_char char_colon (String a listen)) eqn:E.
  - destruct (cut_some _ _ E) as (l & r & -> & _ & _).
    pose proof (SplitN_ne r char_colon (String.length listen)) as Hne. cbn [SplitN] in Hne.
    revert Hne. generalize (match String.length listen with O => [r] | S _ => match cut char_colon r with
      | Some (l, r) => l :: SplitN r char_colon (String.length listen) | None => [r] end end). by intros [].
  - by rewrite cut_none.
Qed.
Lemma with_port_colon s t : contains_char char_colon (s +:+ ":" +:+ t) = true.
Proof. exact (contains_after char_colon s t). Qed.
Lemma CorrectAddr_idem listen p : CorrectAddr (CorrectAddr listen p) p = CorrectAddr listen p.
Proof.
  rewrite !CorrectAddr_spec. destruct (contains_char char_colon listen) eqn:E; [by rewrite E|].
  by rewrite with_port_colon.
Qed.
Lemma CorrectAddr_nonempty listen p : CorrectAddr listen p <> ""%string.
Proof.
  rewrite CorrectAddr_spec. destruct (contains_char char_colon listen) eqn:E; [by intros ->|].
  intros H. apply (f_equal (contains_char char_colon)) in H. by rewrite with_port_colon in H.
Qed.

(** ** Keys of IPsec *)

Lemma string_app_length (s1 s2 : string) :
  String.length (s1 +:+ s2) = (String.length s1 + String.length s2)%nat.
Proof. induction s1 as [|a s1 IH]; [done|]. rewrite string_app_cons. simpl. by rewrite IH. Qed.
Lemma Repeat_length s n : String.length (Repeat s n) = (n * String.length s)%nat.
Proof. induction n as [|n IH]; [done|]. cbn [Repeat]. rewrite string_app_length, IH. lia. Qed.
Lemma substring_app s t : String.substring 0 (String.length s) (s +:+ t) = s.
Proof. induction s as [|a s IH]; [by destruct t|]. rewrite string_app_cons. simpl. by rewrite IH. Qed.
Lemma substring_length n s : (n <= String.length s)%nat -> String.length (String.substring 0 n s) = n.
Proof. revert s. induction n as [|n IH]; intros [|a s] H; simpl in *; try lia. rewrite IH; lia. Qed.

(** A secret of one to 64 characters is cut or repeated to 32; a longer one panics. *)
Lemma Padding_spec v :
  (1 <= String.length v <= 64)%nat /\
    (exists k, Padding v 32 = Ret k /\ String.length k = 32%nat /\
       k = String.substring 0 32 (Repeat v (64 / String.length v))) \/
  ~ (1 <= String.length v <= 64)%nat /\ Padding v 32 = Panic.
Proof.
  unfold Padding, str_slice. set (n := String.length v).
  destruct (Z.eqb_spec (Z.of_nat n) 0) as [E|E]; [right; split; [lia|done]|].
  rewrite Repeat_length. fold n.
  replace (Z.to_nat (64 / Z.of_nat n)) with (64 / n)%nat
    by (rewrite <- (Nat2Z.id (64 / n)), Nat2Z.inj_div; done).
  destruct (decide (n <= 64)%nat) as [Hn|Hn].
  - left. split; [lia|].
    assert (Hl : (32 <= 64 / n * n)%nat).
    { pose proof (Nat.div_mod_eq 64 n). pose proof (Nat.mod_upper_bound 64 n ltac:(lia)).
      assert (1 <= 64 / n)%nat by (apply Nat.div_le_lower_bound; lia). nia. }
    eexists. rewrite (proj2 (Z.leb_le 32 _)) by lia. simpl. split; [done|]. split; [|done].
    apply substring_length. rewrite Repeat_length. done.
  - right. split; [lia|]. rewrite (Nat.div_small 64 n) by lia. done.
Qed.
Lemma Padding_idem v : String.length v = 32%nat -> Padding v 32 = Ret v.
Proof.
  intros H. destruct (Padding_spec v) as [[_ (k & -> & _ & ->)]|[Hn _]]; [|lia].
  rewrite H. change (64 / 32)%nat with 2%nat. cbn [Repeat]. f_equal.
  replace 32%nat with (String.length v) by done. apply substring_app.
Qed.

Lemma or_str_length s d k : (String.length s <= k)%nat -> (String.length d <= k)%nat ->
  (String.length (or_str s d) <= k)%nat.
Proof. intros. unfold or_str. by destruct (String.eqb s ""). Qed.
Lemma nonempty_length s : s <> ""%string -> (1 <= String.length s)%nat.
Proof. destruct s; [done|]. simpl. lia. Qed.
Lemma length_nonempty s n : String.length s = S n -> s <> ""%string.
Proof. by intros H ->. Qed.

Lemma with_len_slash addr : contains_char char_slash (with_len addr) = true.
Proof.
  unfold with_len. destruct (contains_char char_slash addr) eqn:E; [done|]. exact (contains_after char_slash addr "32").
Qed.
Lemma with_len_id addr : contains_char char_slash addr = true -> with_len addr = addr.
Proof. intros H. unfold with_len. by rewrite H. Qed.
Lemma slash_nonempty addr : contains_char char_slash addr = true -> addr <> ""%string.
Proof. by intros H ->. Qed.

Lemma existed_app peer ps p :
  existed peer (ps ++ [Some p]) =
    match existed peer ps with Ret b => Ret (b || String.eqb (pol_Dest p) peer) | Panic => Panic end.
Proof.
  induction ps as [|[q|] ps IH]; simpl; [by rewrite orb_false_r| |done].
  unfold mbind, go_bind. rewrite IH. destruct (existed peer ps); [|done]. by rewrite orb_assoc.
Qed.
Lemma existed_true peer ps :
  existed peer ps = Ret true -> exists p, Some p ∈ ps /\ pol_Dest p = peer.
Proof.
  induction ps as [|[q|] ps IH]; simpl; [done| |done].
  destruct (existed peer ps) as [[]|] eqn:E; cbn [mbind go_bind]; [| |done].
  - intros _. destruct (IH eq_refl) as (p & Hp & Hd). exists p. split; [by right|done].
  - rewrite orb_false_r. intros [= Hq%String.eqb_eq]. exists q. split; [by left|done].
Qed.
Lemma existed_returns peer ps : returns (existed peer ps) <-> None ∉ ps.
Proof.
  induction ps as [|[q|] ps IH]; simpl.
  - split; [intros _; apply not_elem_of_nil|intros _; by eexists].
  - rewrite not_elem_of_cons. transitivity (returns (existed peer ps)).
    + unfold returns. destruct (existed peer ps); cbn [mbind go_bind]; [|naive_solver]. split; intros _; by eexists.
    + rewrite IH. naive_solver.
  - split; [by intros [? ?]|]. intros []%not_elem_of_cons. done.
Qed.

Section esp_lemmas.
Context (LookupIP : string -> list bytes) (GetLocalByGw : string -> bytes).
Local Abbreviation state_Correct := (state_Correct LookupIP GetLocalByGw).
Local Abbreviation member_Correct := (member_Correct LookupIP GetLocalByGw).
Local Abbreviation members_Correct := (members_Correct LookupIP GetLocalByGw).
Local Abbreviation esp_Correct := (esp_Correct LookupIP GetLocalByGw).

(** The secrets [Correct] pads: those of the member or, when it has none, of the network. *)
Definition auth_secret (s o : EspState) : string := or_str (Auth s) (Auth o).
Definition crypt_secret (s o : EspState) : string := or_str (or_str (Crypto s) (Crypto o)) (auth_secret s o).
Definition secrets_fit (s o : EspState) : Prop :=
  (String.length (auth_secret s o) <= 64)%nat /\ (String.length (crypt_secret s o) <= 64)%nat.

Lemma padded_returns v d :
  d <> ""%string -> (String.length d <= 64)%nat ->
  (String.length v <= 64)%nat ->
  exists k, Padding (or_str v d) 32 = Ret k /\ String.length k = 32%nat.
Proof.
  intros Hd Hl Hv. destruct (Padding_spec (or_str v d)) as [[_ (k & Hk & Hlen & _)]|[Hn _]]; [by exists k|].
  exfalso. apply Hn. split; [by apply nonempty_length, or_str_nonempty|by apply or_str_length].
Qed.
Lemma padded_panics v d : (64 < String.length v)%nat -> Padding (or_str v d) 32 = Panic.
Proof.
  intros Hv. rewrite or_str_id by (by intros ->; simpl in Hv; lia).
  destruct (Padding_spec v) as [[? _]|[_ ?]]; [lia|done].
Qed.

Lemma state_Correct_returns s o : returns (state_Correct s (Some o)) <-> secrets_fit s o.
Proof.
  unfold Config.state_Correct, secrets_fit. cbn [inherit_state Auth Crypto].
  fold (auth_secret s o) (crypt_secret s o).
  destruct (decide (String.length (auth_secret s o) <= 64)%nat) as [Ha|Ha].
  - destruct (padded_returns (auth_secret s o) EspAuth) as (ka & -> & _); [done|by apply Nat.leb_le|done|].
    cbn [mbind go_bind]. destruct (decide (String.length (crypt_secret s o) <= 64)%nat) as [Hc|Hc].
    + destruct (padded_returns (crypt_secret s o) EspCrypt) as (kc & -> & _); [done|by apply Nat.leb_le|done|].
      cbn [mbind go_bind]. split; [done|]. intros _. by eexists.
    + rewrite (padded_panics (crypt_secret s o)) by lia. split; [by intros [? ?]|]. intros [_ ?]. lia.
  - rewrite (padded_panics (auth_secret s o)) by lia. split; [by intros [? ?]|]. intros [? _]. lia.
Qed.

(** What [Correct] promises of a state. *)
Definition state_ok (s : EspState) : Prop :=
  String.length (Auth s) = 32%nat /\ String.length (Crypto s) = 32%nat /\
  Encap s <> ""%string /\ RemotePort s <> 0.

Lemma padded_length v k : Padding v 32 = Ret k -> String.length k = 32%nat.
Proof. destruct (Padding_spec v) as [[_ (k' & -> & Hl & _)]|[_ ->]]; [by intros [= <-]|done]. Qed.

Lemma state_Correct_ok s obj s' : state_Correct s obj = Ret s' -> state_ok s'.
Proof.
  unfold Config.state_Correct. set (i := inherit_state s obj).
  destruct (Padding (or_str (Auth i) EspAuth) 32) as [ka|] eqn:Ea; [|done]. cbn [mbind go_bind].
  destruct (Padding (or_str (or_str (Crypto i) (Auth i)) EspCrypt) 32) as [kc|] eqn:Ec; [|done].
  cbn [mbind go_bind]. intros [= <-]. apply padded_length in Ea.
  apply padded_length in Ec. split; [done|]. split; [done|]. simpl.
  split; [by apply or_str_nonempty|by apply or_int_nonzero].
Qed.

Lemma local_addr_idem a b r :
  let l := local_addr GetLocalByGw (or_str a b) r in local_addr GetLocalByGw (or_str l b) r = l.
Proof.
  intros l.
  assert (Hl : or_str l b = l).
  { unfold or_str at 1. destruct (String.eqb_spec l "") as [E|E]; [|done]. rewrite E.
    subst l. unfold local_addr, or_str in E. destruct (String.eqb_spec a "") as [->|Ea].
    - destruct (String.eqb_spec b ""); [done|]. by simpl in E.
    - by rewrite (proj2 (String.eqb_neq a "")) in E. }
  rewrite Hl. subst l. unfold local_addr. destruct (String.eqb_spec (or_str a b) "") as [E|E]; simpl.
  - destruct (String.eqb_spec r ""); simpl; [by rewrite andb_false_r|by case_match].
  - by rewrite (proj2 (String.eqb_neq (or_str a b) "")).
Qed.
Lemma lookup_or_idem name old : lookup_or LookupIP name (lookup_or LookupIP name old) = lookup_or LookupIP name old.
Proof. unfold lookup_or. by destruct (LookupIP name). Qed.

Lemma state_Correct_idem s o s' :
  state_Correct s (Some o) = Ret s' -> state_Correct s' (Some o) = Ret s'.
Proof.
  unfold Config.state_Correct. cbn [inherit_state Auth Crypto Local Remote LocalIp RemoteIp RemotePort Encap].
  intros H. apply go_bind_ret in H as (ka & Ea & H). apply go_bind_ret in H as (kc & Ec & H). injection H as <-.
  cbn [inherit_state Auth Crypto Local Remote LocalIp RemoteIp RemotePort Encap].
  apply padded_length in Ea, Ec. pose proof (length_nonempty _ _ Ea) as Na. pose proof (length_nonempty _ _ Ec) as Nc.
  rewrite !(or_str_id ka), !(or_str_id kc), !Padding_idem by done. cbn [mbind go_bind].
  rewrite local_addr_idem, !lookup_or_idem.
  rewrite (or_str_id (or_str (Encap s) "udp")) by by apply or_str_nonempty.
  by rewrite !(or_int_id (or_int _ EspUdp)) by by apply or_int_nonzero.
Qed.

Definition member_fine (n : ESPSpecifies) (m : ESPMember) : Prop :=
  or_str (mem_Address m) (esp_Address n) = ""%string \/
  secrets_fit (mem_State m) (esp_State n) /\ None ∉ mem_Policies m.

Lemma member_returns n spi m : returns (member_Correct n spi m) <-> member_fine n m.
Proof.
  unfold Config.member_Correct, member_fine. destruct (String.eqb_spec (or_str (mem_Address m) (esp_Address n)) "") as [E|E].
  - split; [by left|]. intros _. by eexists.
  - pose proof (state_Correct_returns (mem_State m) (esp_State n)) as Hs.
    pose proof (existed_returns (with_len (mem_Peer m)) (mem_Policies m)) as He. unfold returns in *.
    destruct (state_Correct _ _) as [st|] eqn:Est; cbn [mbind go_bind]; [|naive_solver].
    destruct (existed _ _) as [b|] eqn:Eb; cbn [mbind go_bind]; naive_solver.
Qed.

(** What [Correct] promises of a member with an address. *)
Definition member_ok (n : ESPSpecifies) (m : ESPMember) : Prop :=
  (mem_Address m = ""%string /\ esp_Address n = ""%string) \/
  contains_char char_slash (mem_Address m) = true /\ contains_char char_slash (mem_Peer m) = true /\
  state_ok (mem_State m) /\ mem_Name m <> ""%string /\
  exists p, Some p ∈ mem_Policies m /\ pol_Dest p = mem_Peer m.

Lemma member_Correct_ok n spi m m' : member_Correct n spi m = Ret m' -> member_ok n m'.
Proof.
  unfold Config.member_Correct. destruct (String.eqb_spec (or_str (mem_Address m) (esp_Address n)) "") as [E|E].
  - intros [= <-]. left. unfold or_str in E. by destruct (String.eqb_spec (mem_Address m) "").
  - destruct (state_Correct _ _) as [st|] eqn:Est; cbn [mbind go_bind]; [|done].
    destruct (existed _ _) as [b|] eqn:Eb; cbn [mbind go_bind]; [|done]. intros [= <-]. right. simpl.
    split; [apply with_len_slash|]. split; [apply with_len_slash|]. split; [by eapply state_Correct_ok|].
    split; [by apply or_str_nonempty|]. destruct b; [by apply existed_true|].
    eexists. split; [apply elem_of_app; right; by left|done].
Qed.

Lemma member_Correct_idem n spi spi' m m' :
  spi <> 0 -> member_Correct n spi m = Ret m' -> member_Correct n spi' m' = Ret m'.
Proof.
  intros Hz. unfold Config.member_Correct at 1.
  destruct (String.eqb_spec (or_str (mem_Address m) (esp_Address n)) "") as [E|E].
  - intros [= <-]. unfold Config.member_Correct. by rewrite E.
  - destruct (state_Correct _ _) as [st|] eqn:Est; cbn [mbind go_bind]; [|done].
    destruct (existed _ _) as [b|] eqn:Eb; cbn [mbind go_bind]; [|done]. intros [= <-].
    unfold Config.member_Correct. cbn [mem_Name mem_Address mem_Peer mem_Spi mem_State mem_Policies].
    pose proof (with_len_slash (or_str (mem_Address m) (esp_Address n))) as Ha.
    pose proof (with_len_slash (mem_Peer m)) as Hp.
    rewrite !(or_str_id (with_len _)) by by apply slash_nonempty.
    rewrite (proj2 (String.eqb_neq _ _)) by by apply slash_nonempty.
    rewrite !(with_len_id (with_len _)) by done. rewrite (state_Correct_idem _ _ _ Est). cbn [mbind go_bind].
    rewrite (or_int_id (or_int (mem_Spi m) spi)) by by apply or_int_nonzero.
    rewrite or_str_id by by apply or_str_nonempty.
    destruct b; [by rewrite Eb|]. rewrite existed_app, Eb. simpl. by rewrite String.eqb_refl.
Qed.

(** Members are corrected one by one: what holds of each holds of all. *)
Lemma members_returns n ms : forall rnd,
  returns (members_Correct n rnd ms) <-> Forall (fun m => exists m0, m = Some m0 /\ member_fine n m0) ms.
Proof.
  induction ms as [|[m|] ms IH]; intros rnd; simpl.
  - split; [by constructor|]. intros _. by eexists.
  - rewrite Forall_cons, <- (IH (fun k => rnd (S k))).
    pose proof (member_returns n (rnd 0%nat) m) as Hm. unfold returns in *.
    destruct (member_Correct _ _ _) as [m'|] eqn:E; cbn [mbind go_bind]; [|naive_solver].
    destruct (members_Correct _ _ _) as [ms'|]; cbn [mbind go_bind]; naive_solver.
  - split; [by intros [? ?]|]. rewrite Forall_cons. naive_solver.
Qed.
Lemma members_ok n ms : forall rnd ms',
  members_Correct n rnd ms = Ret ms' -> Forall (fun m => exists m0, m = Some m0 /\ member_ok n m0) ms'.
Proof.
  induction ms as [|[m|] ms IH]; intros rnd ms' H; simpl in H; [by injection H as <-| |done].
  apply go_bind_ret in H as (m' & Hm & H). apply go_bind_ret in H as (ms2 & Hms & H). injection H as <-.
  constructor; [|by eapply IH]. eexists. split; [done|]. by eapply member_Correct_ok.
Qed.
Lemma members_idem n ms : forall rnd rnd' ms', (forall k, rnd k <> 0) ->
  members_Correct n rnd ms = Ret ms' -> members_Correct n rnd' ms' = Ret ms'.
Proof.
  induction ms as [|[m|] ms IH]; intros rnd rnd' ms' Hz H; simpl in H; [by injection H as <-| |done].
  apply go_bind_ret in H as (m' & Hm & H). apply go_bind_ret in H as (ms2 & Hms & H). injection H as <-.
  simpl. rewrite (member_Correct_idem n (rnd 0%nat) (rnd' 0%nat) m m') by done. cbn [mbind go_bind].
  erewrite (IH (fun k => rnd (S k))); [done| |done]. intros k. apply Hz.
Qed.
(** [Correct] reads only the address and the state of the network. *)
Lemma members_same n n' ms : forall rnd, esp_Address n = esp_Address n' -> esp_State n = esp_State n' ->
  members_Correct n rnd ms = members_Correct n' rnd ms.
Proof.
  intros rnd Ha Hs. revert rnd. induction ms as [|[m|] ms IH]; intros rnd; [done| |done].
  simpl. rewrite <- IH. unfold Config.member_Correct. by rewrite Ha, Hs.
Qed.
End esp_lemmas.

(** ** VPN servers *)

(** [Correct] of the variants of one server. *)
Fixpoint breed_Correct (pool : string) (obj : VPNFields) (chs : list (option OpenVPN)) (index : Z)
    : go (list (option OpenVPN) * Z) :=
  match chs with
  | [] => Ret ([], index)
  | None :: _ => Panic
  | Some ch :: chs =>
      r ← vpn_Correct pool (Some obj) ch index;
      let '(ch, index) := r in
      r ← breed_Correct pool obj chs index;
      let '(chs, index) := r in
      Ret (Some ch :: chs, index)
  end.
Definition vpn_fields (pool : string) (obj : option VPNFields) (f : VPNFields) (index : Z) : VPNFields * Z :=
  vpn_own pool index (match obj with Some obj => vpn_inherit obj f | None => f end).

Lemma vpn_Correct_eq pool obj o index :
  vpn_Correct pool obj o index =
    let '(f, index) := vpn_fields pool obj (vpn_Fields o) index in
    r ← breed_Correct pool f (vpn_Breed o) index;
    let '(chs, index) := r in
    Ret ({| vpn_Fields := f; vpn_Breed := chs |}, index).
Proof.
  destruct o as [o chs]. cbn [vpn_Correct vpn_Fields vpn_Breed]. fold (vpn_fields pool obj o index).
  destruct (vpn_fields pool obj o index) as [f i]. f_equal.
  revert i. induction chs as [|[ch|] chs IH]; intros i; [done| |done].
  simpl. destruct (vpn_Correct pool (Some f) ch i) as [[ch' i']|]; [|done]. simpl. by rewrite IH.
Qed.

Lemma vpn_ind (P : OpenVPN -> Prop) :
  (forall f chs, Forall (fun c => match c with Some v => P v | None => True end) chs ->
     P {| vpn_Fields := f; vpn_Breed := chs |}) -> forall v, P v.
Proof.
  intros H. fix IH 1. intros [f chs]. apply H.
  induction chs as [|[ch|] chs IHc]; constructor; auto.
Qed.

(** The fields reach a fixed point at once. *)
Lemma vpn_fields_idem pool obj f index f' index' :
  vpn_fields pool obj f index = (f', index') ->
  vf_Device f' <> ""%string /\ forall j, vpn_fields pool obj f' j = (f', j).
Proof.
  unfold vpn_fields, vpn_own. set (g := match obj with Some o => vpn_inherit o f | None => f end).
  set (none := String.eqb (vf_Device g) ""). destruct (if none then _ else _) as [dev i] eqn:Ed.
  assert (Hd : dev <> ""%string).
  { subst none. destruct (String.eqb_spec (vf_Device g) ""); [by injection Ed as <- _|by injection Ed as <- _]. }
  intros [= <- <-]. split; [done|]. intros j.
  destruct obj as [o|]; cbn [vf_Network vf_Directory vf_Listen vf_Protocol vf_Subnet vf_Device vf_Auth vf_DhPem
    vf_RootCa vf_ServerCrt vf_ServerKey vf_TlsAuth vf_Cipher vf_Routes vf_Renego vf_Script vf_Push vf_Clients vpn_inherit];
    rewrite (proj2 (String.eqb_neq dev "")) by done; cbn [andb].
  - subst g. cbn [vpn_inherit vf_Network vf_Auth vf_Protocol vf_DhPem vf_RootCa vf_ServerCrt vf_ServerKey
      vf_TlsAuth vf_Cipher vf_Routes vf_Script vf_Push vf_Clients]. autorewrite with config.
    done.
  - by autorewrite with config.
Qed.

Lemma vpn_Correct_idem pool o : forall obj index o' index',
  vpn_Correct pool obj o index = Ret (o', index') ->
  forall j, vpn_Correct pool obj o' j = Ret (o', j).
Proof.
  induction o as [f chs IH] using vpn_ind. intros obj index o' index' H j.
  rewrite vpn_Correct_eq in H. cbn [vpn_Fields vpn_Breed] in H.
  destruct (vpn_fields pool obj f index) as [f' i1] eqn:Ef.
  destruct (vpn_fields_idem _ _ _ _ _ _ Ef) as [_ Hf].
  apply go_bind_ret in H as ([chs' i2] & Hb & H). injection H as <- <-.
  rewrite vpn_Correct_eq. cbn [vpn_Fields vpn_Breed]. rewrite Hf.
  enough (forall k, breed_Correct pool f' chs' k = Ret (chs', k)) as -> by done.
  clear Ef Hf index. revert i1 chs' i2 Hb. induction IH as [|c chs Hc _ IHc]; intros i1 chs' i2 Hb k.
  - by injection Hb as <- <-.
  - destruct c as [c|]; [|done]. simpl in Hb.
    apply go_bind_ret in Hb as ([c' i3] & H1 & Hb). apply go_bind_ret in Hb as ([cs' i4] & H2 & Hb).
    injection Hb as <- <-. simpl. rewrite (Hc _ _ _ _ H1 k). cbn [mbind go_bind].
    by rewrite (IHc _ _ _ H2 k).
Qed.

(** The devices of a server and its variants, each with the one the configuration gave. *)
Fixpoint made_up (o o' : OpenVPN) : list string :=
  (if String.eqb (vf_Device (vpn_Fields o)) "" then [vf_Device (vpn_Fields o')] else []) ++
  (fix go l l' := match l, l' with
                  | Some c :: l, Some c' :: l' => made_up c c' ++ go l l'
                  | _, _ => []
                  end) (vpn_Breed o) (vpn_Breed o').
Definition made_up_breed := fix go (l l' : list (option OpenVPN)) :=
  match l, l' with
  | Some c :: l, Some c' :: l' => made_up c c' ++ go l l'
  | _, _ => []
  end.
Definition tun_name (k : Z) : string := ("tun" +:+ FormatInt k)%string.
Definition tun_names (i j : Z) : list string := map tun_name (seqZ (i + 1) (j - i)).

Lemma tun_names_app i j k : i <= j <= k -> tun_names i j ++ tun_names j k = tun_names i k.
Proof.
  intros H. unfold tun_names. rewrite <- map_app. f_equal.
  replace (k - i) with (j - i + (k - j)) by lia. rewrite seqZ_app by lia.
  by replace (i + 1 + (j - i)) with (j + 1) by lia.
Qed.
Lemma tun_names_NoDup i j : NoDup (tun_names i j).
Proof.
  apply NoDup_fmap_2; [|apply NoDup_seqZ]. intros a b [= H]. by apply (inj pretty).
Qed.

Lemma vpn_fields_device pool obj f i f' i' : vpn_fields pool obj f i = (f', i') ->
  i <= i' /\ (if String.eqb (vf_Device f) "" then [vf_Device f'] else []) = tun_names i i' /\
  (vf_Device f <> ""%string -> vf_Device f' = vf_Device f).
Proof.
  unfold vpn_fields, vpn_own.
  replace (vf_Device (match obj with Some o => vpn_inherit o f | None => f end)) with (vf_Device f) by by destruct obj.
  destruct (String.eqb_spec (vf_Device f) "") as [E|E]; cbn [genTunName]; intros [= <- <-]; simpl.
  - split; [lia|]. split; [|done]. unfold tun_names. by replace (i + 1 - i) with 1 by lia.
  - split; [done|]. split; [|done]. unfold tun_names. by rewrite Z.sub_diag.
Qed.

(** The devices made up are numbered in order from the counter on. *)
Lemma vpn_Correct_made pool o : forall obj i o' i',
  vpn_Correct pool obj o i = Ret (o', i') -> i <= i' /\ made_up o o' = tun_names i i'.
Proof.
  induction o as [f chs IH] using vpn_ind. intros obj i o' i' H.
  rewrite vpn_Correct_eq in H. cbn [vpn_Fields vpn_Breed] in H.
  destruct (vpn_fields pool obj f i) as [f' i1] eqn:Ef.
  destruct (vpn_fields_device _ _ _ _ _ _ Ef) as (Hi & Hd & _).
  apply go_bind_ret in H as ([chs' i2] & Hb & H). injection H as <- <-.
  cbn [made_up vpn_Fields vpn_Breed]. rewrite Hd. fold made_up_breed.
  enough (i1 <= i2 /\ made_up_breed chs chs' = tun_names i1 i2) as [? ->]
    by (split; [lia|by rewrite tun_names_app]).
  clear Ef Hd Hi i. revert i1 chs' i2 Hb. induction IH as [|c chs Hc _ IHc]; intros i1 chs' i2 Hb.
  - injection Hb as <- <-. unfold tun_names. by rewrite Z.sub_diag.
  - destruct c as [c|]; [|done]. simpl in Hb.
    apply go_bind_ret in Hb as ([c' i3] & H1 & Hb). apply go_bind_ret in Hb as ([cs' i4] & H2 & Hb).
    injection Hb as <- <-. apply Hc in H1 as [? Hm]. apply IHc in H2 as [? Hms].
    cbn [made_up_breed]. rewrite Hm. change (made_up_breed chs cs') with (made_up_breed chs cs') in Hms.
    rewrite Hms. split; [lia|]. by apply tun_names_app.
Qed.

(** ** Networks *)

Lemma each_ptr_idem {A} (f : A -> go A) (l l' : list (option A)) :
  (forall a b, f a = Ret b -> f b = Ret b) -> each_ptr f l = Ret l' -> each_ptr f l' = Ret l'.
Proof.
  intros Hf. revert l'. induction l as [|[a|] l IH]; intros l' H; [by injection H as <-| |done].
  apply go_bind_ret in H as (b & Hb & H). apply go_bind_ret in H as (l2 & Hl & H). injection H as <-.
  simpl. rewrite (Hf a b Hb). cbn [mbind go_bind]. by rewrite (IH _ Hl).
Qed.

Lemma vxs_Correct_idem n n' name :
  vxs_Correct n = Ret n' -> vxs_Correct (vxs_rename n' name) = Ret (vxs_rename n' name).
Proof.
  intros H. apply go_bind_ret in H as (ms & Hm & [= <-]). unfold vxs_Correct. cbn [vxs_Members vxs_Local vxs_rename].
  erewrite each_ptr_idem; [done| |exact Hm]. intros a b [= <-]. unfold vx_Correct, vx_inherit. simpl.
  by autorewrite with config.
Qed.
Lemma fab_Correct_idem c c' name :
  fab_Correct c = Ret c' -> fab_Correct (fab_rename c' name) = Ret (fab_rename c' name).
Proof.
  intros H. apply go_bind_ret in H as (ns & Hn & H). apply go_bind_ret in H as (ts & Ht & [= <-]).
  unfold fab_Correct. cbn [fab_Networks fab_Tunnels fab_Driver fab_rename].
  apply each_ptr_idem in Hn; [|by intros a b [= <-]; unfold fn_Correct; simpl; autorewrite with config].
  apply each_ptr_idem in Ht; [|by intros a b [= <-]; unfold tunnel_port; simpl; autorewrite with config].
  rewrite Hn. cbn [mbind go_bind]. by rewrite Ht.
Qed.
Lemma esp_Correct_idem L G n n' rnd rnd' name : (forall k, rnd k <> 0) ->
  esp_Correct L G n rnd = Ret n' -> esp_Correct L G (esp_rename n' name) rnd' = Ret (esp_rename n' name).
Proof.
  intros Hz H. apply go_bind_ret in H as (ms & Hm & [= <-]). unfold esp_Correct. cbn [esp_Members esp_rename].
  erewrite members_same, members_idem; [done|exact Hz|exact Hm|done|done].
Qed.

Lemma route_Correct_idem ip r : route_Correct ip (route_Correct ip r) = route_Correct ip r.
Proof. unfold route_Correct. simpl. by autorewrite with config. Qed.

Section network_lemmas.
Context (LookupIP : string -> list bytes) (GetLocalByGw : string -> bytes) (pool : string).
Local Abbreviation network_Correct := (network_Correct LookupIP GetLocalByGw pool).

Lemma lan_Correct_idem n i n' i' :
  lan_Correct pool n i = Ret (n', i') -> forall j, lan_Correct pool n' j = Ret (n', j).
Proof.
  unfold lan_Correct at 1. set (br := bridge_Correct _). destruct (bridge_addr (br_Address br)) as [a m] eqn:Ea.
  intros H. apply go_bind_ret in H as ([vpn i2] & Hv & H). injection H as <- <-. intros j.
  unfold lan_Correct. cbn [net_Bridge net_Subnet net_OpenVPN net_Routes net_Name from_option id].
  assert (Hb : bridge_Correct (set_br_network br (net_Name n)) = br).
  { subst br. unfold bridge_Correct, set_br_network. simpl. by autorewrite with config. }
  rewrite Hb, Ea.
  assert (Hvpn : match vpn with
    | None => Ret (None, j)
    | Some v => r ← vpn_Correct pool (Some DefaultOpenVPN) (set_vpn_network (net_Name n) v) j;
                let '(v, index) := r in Ret (Some v, index)
    end = Ret (vpn, j)).
  { destruct (net_OpenVPN n) as [v|]; [|by injection Hv as <- _].
    apply go_bind_ret in Hv as ([v' i3] & H1 & H2). injection H2 as <- _.
    assert (Hn : set_vpn_network (net_Name n) v' = v').
    { rewrite vpn_Correct_eq in H1. destruct (vpn_fields _ _ _ _) as [f k] eqn:Ef.
      apply go_bind_ret in H1 as ([chs k'] & _ & H). injection H as <- _.
      unfold vpn_fields, vpn_own in Ef. destruct (if String.eqb _ _ then _ else _) as [d k2].
      injection Ef as <- _. unfold set_vpn_network. cbn.
      by rewrite or_str_empty. }
    rewrite Hn, (vpn_Correct_idem _ _ _ _ _ _ H1 j). done. }
  rewrite Hvpn. cbn [mbind go_bind net_File net_Alias net_Provider net_Links net_Hosts net_Password net_Acl net_Specifies].
  do 2 f_equal. f_equal.
  - f_equal. unfold subnet_Correct. simpl. by autorewrite with config.
  - rewrite map_map. apply map_ext. apply route_Correct_idem.
Qed.

Lemma network_Correct_idem n i rnd n' i' : (forall k, rnd k <> 0) ->
  network_Correct n i rnd = Ret (n', i') ->
  net_Name n' = net_Name n /\ forall j rnd', network_Correct n' j rnd' = Ret (n', j).
Proof.
  intros Hz. unfold Config.network_Correct at 1. destruct (String.eqb (net_Provider n) "esp") eqn:E1; [|
  destruct (String.eqb (net_Provider n) "vxlan") eqn:E2; [|destruct (String.eqb (net_Provider n) "fabric") eqn:E3]].
  - destruct (net_Specifies n) as [[s| | |]|] eqn:Es;
      [|intros [= <- <-]; split; [done|]; intros; unfold Config.network_Correct; by rewrite E1, Es..].
    intros H. apply go_bind_ret in H as (s' & Hs & [= <- <-]). split; [done|]. intros j rnd'.
    unfold Config.network_Correct. cbn [net_Provider net_Specifies set_specifies net_Name]. rewrite E1.
    erewrite esp_Correct_idem; [done| |done]. exact Hz.
  - intros H. apply go_bind_ret in H as (spec & Hs & [= <- <-]). split; [done|]. intros j rnd'.
    unfold Config.network_Correct. cbn [net_Provider net_Specifies set_specifies net_Name net_Bridge]. rewrite E1, E2.
    assert (Hb : option_map (vxlan_bridge (net_Name n)) (option_map (vxlan_bridge (net_Name n)) (net_Bridge n))
      = option_map (vxlan_bridge (net_Name n)) (net_Bridge n)).
    { destruct (net_Bridge n); [|done]. simpl. unfold vxlan_bridge, bridge_Correct, set_br_network, set_br_mss. simpl.
      by autorewrite with config. }
    rewrite Hb. destruct (net_Specifies n) as [[s|s|s|]|]; [by injection Hs as <-| |by injection Hs as <-..].
    apply go_bind_ret in Hs as (s' & Hs & [= <-]). by rewrite (vxs_Correct_idem _ _ _ Hs).
  - destruct (net_Specifies n) as [[s|s|s|]|] eqn:Es;
      try (intros [= <- <-]; split; [done|]; intros; unfold Config.network_Correct; by rewrite E1, E2, E3, Es).
    intros H. apply go_bind_ret in H as (s' & Hs & [= <- <-]). split; [done|]. intros j rnd'.
    unfold Config.network_Correct. cbn [net_Provider net_Specifies set_specifies net_Name]. rewrite E1, E2, E3.
    by rewrite (fab_Correct_idem _ _ _ Hs).
  - intros H. assert (Hn : net_Name n' = net_Name n /\ net_Provider n' = net_Provider n).
    { unfold lan_Correct in H. destruct (bridge_addr _) as [a m]. apply go_bind_ret in H as ([vpn i2] & _ & H).
      by injection H as <- <-. }
    destruct Hn as [Hn Hp]. split; [done|]. intros j rnd'. unfold Config.network_Correct. rewrite Hp, E1, E2, E3.
    by eapply lan_Correct_idem.
Qed.
End network_lemmas.

(** [Correct] neither reads nor changes the file, the alias and the links. *)
Definition set_meta (f a : string) (l : list Point) (n : Network) : Network :=
  {| net_ConfDir := net_ConfDir n; net_File := f; net_Alias := a; net_Name := net_Name n; net_Provider := net_Provider n; net_Bridge := net_Bridge n;
     net_Subnet := net_Subnet n; net_OpenVPN := net_OpenVPN n; net_Links := l; net_Hosts := net_Hosts n;
     net_Routes := net_Routes n; net_Password := net_Password n; net_Acl := net_Acl n;
     net_Specifies := net_Specifies n |}.
Lemma network_Correct_meta L G pool f a l n i rnd :
  network_Correct L G pool (set_meta f a l n) i rnd =
    match network_Correct L G pool n i rnd with Ret (n', j) => Ret (set_meta f a l n', j) | Panic => Panic end.
Proof.
  unfold network_Correct, lan_Correct.
  cbn [net_Provider net_Specifies net_Bridge net_Name net_Subnet net_OpenVPN net_Routes set_meta].
  repeat case_match; try done; simplify_eq; unfold mbind, go_bind in *; repeat case_match; by simplify_eq.
Qed.
Lemma network_Correct_keeps L G pool n i rnd n' j : network_Correct L G pool n i rnd = Ret (n', j) ->
  net_File n' = net_File n /\ net_Alias n' = net_Alias n /\ net_Links n' = net_Links n.
Proof.
  intros H. pose proof (network_Correct_meta L G pool (net_File n) (net_Alias n) (net_Links n) n i rnd) as Hm.
  rewrite H in Hm. replace (set_meta _ _ _ n) with n in Hm by by destruct n. rewrite H in Hm.
  injection Hm as Hm. rewrite Hm. done.
Qed.

Lemma point_Default_copy_idem p : point_Default_copy (point_Default_copy p) = point_Default_copy p.
Proof.
  unfold point_Default_copy. simpl. f_equal.
  - destruct (pt_Crypt p); [|done]. simpl. by rewrite crypt_Default_idem.
  - destruct (pt_Queue p); [|done]. simpl. by rewrite queue_Default_idem.
  - destruct (pt_Cert p) as [c|]; [|done]. simpl. f_equal.
    replace (dot_dir (cert_Correct (dot_dir c))) with (cert_Correct (dot_dir c)); [by rewrite cert_Correct_idem|].
    assert (Hd : Dir (cert_Correct (dot_dir c)) = or_str (Dir c) ".") by (unfold cert_Correct; by case_match).
    unfold dot_dir at 2. rewrite Hd. autorewrite with config. rewrite <- Hd. by destruct (cert_Correct _).
Qed.

Lemma networks_idem L G pool d al nets : forall i rnd nets' i', (forall a b, rnd a b <> 0) ->
  networks_Correct L G pool d al nets i rnd = Ret (nets', i') ->
  forall j rnd', networks_Correct L G pool d al nets' j rnd' = Ret (nets', j).
Proof.
  induction nets as [|[n|] nets IH]; intros i rnd nets' i' Hz H j rnd'; [by injection H as <- <-| |done].
  apply go_bind_ret in H as ([n2 i2] & Hn & H). apply go_bind_ret in H as ([ns i3] & Hns & H).
  injection H as <- <-. destruct (network_Correct_keeps _ _ _ _ _ _ _ _ Hn) as (Hf & Ha & Hl).
  destruct (network_Correct_idem _ _ _ _ _ _ _ _ (Hz 0%nat) Hn) as [Hname Hi].
  assert (Hc : copy_links (finish_network d al n2) =
    set_meta (net_File (finish_network d al n2)) al (net_Links n2) n2).
  { unfold copy_links, set_meta. simpl. f_equal. rewrite Hl. unfold copy_links. simpl. rewrite map_map.
    apply map_ext, point_Default_copy_idem. }
  cbn [networks_Correct]. rewrite Hc, network_Correct_meta, Hi. cbn [mbind go_bind].
  rewrite (IH _ (fun k => rnd (S k)) ns i3) by (done || (intros; apply Hz)). cbn [mbind go_bind]. do 4 f_equal.
  unfold finish_network, set_meta. cbn. by autorewrite with config.
Qed.

Lemma switch_defaults_idem os al s : switch_defaults os al (switch_defaults os al s) = switch_defaults os al s.
Proof.
  unfold switch_defaults, switch_Correct.
  cbn [sw_File sw_Alias sw_Perf sw_Protocol sw_Listen sw_Timeout sw_Http sw_Log sw_Cert sw_Crypt sw_Network
    sw_Acl sw_FireWall sw_Inspect sw_Queue sw_PassFile sw_Ldap sw_AddrPool sw_ConfDir sw_TokenFile]. rewrite !CorrectAddr_idem. autorewrite with config. f_equal.
  - apply perf_Correct_idem.
  - destruct (sw_Http s); [|done]. simpl. unfold http_Correct. simpl. by rewrite CorrectAddr_idem.
  - destruct (sw_Cert s); [|done]. simpl. by rewrite cert_Correct_idem.
  - destruct (sw_Crypt s); [|done]. simpl. by rewrite crypt_Default_idem.
  - by rewrite queue_Default_idem.
Qed.

(** ** What a loaded configuration is worth *)

(** The networks of a list that is made of two are those of the one and then of the other. *)
Lemma networks_app L G pool d al n1 n2 : forall i rnd,
  networks_Correct L G pool d al (n1 ++ n2) i rnd =
    (r1 ← networks_Correct L G pool d al n1 i rnd;
     r2 ← networks_Correct L G pool d al n2 r1.2 (fun k => rnd (length n1 + k)%nat);
     Ret (r1.1 ++ r2.1, r2.2)).
Proof.
  induction n1 as [|[n|] n1 IH]; intros i rnd; [|cbn [app networks_Correct]|done].
  - cbn [app networks_Correct mbind go_bind fst snd length Nat.add].
    change (fun k => rnd k) with rnd. by destruct (networks_Correct L G pool d al n2 i rnd) as [[ns j]|].
  - destruct (network_Correct L G pool (copy_links n) i (rnd 0%nat)) as [[n' j]|]; [|done]. cbn [mbind go_bind].
    rewrite IH. destruct (networks_Correct L G pool d al n1 j _) as [[ns j2]|]; [|done]. cbn [mbind go_bind fst snd length Nat.add].
    by destruct (networks_Correct L G pool d al n2 j2 _) as [[ns2 j3]|].
Qed.

(** (C38) [Correct] of an IPsec network returns exactly when none of its members and
    their policies is nil and, for each member with an address, both secrets, its own or
    inherited, have at most 64 characters; a longer secret stops the process.  When it
    returns, every member with an address has a prefix length, 32-character keys, a
    name, and a policy to its peer. *)
Theorem esp_correct_returns_iff L G n rnd :
  (returns (esp_Correct L G n rnd) <->
     Forall (fun m => exists m0, m = Some m0 /\ member_fine n m0) (esp_Members n)) /\
  (forall n', esp_Correct L G n rnd = Ret n' ->
     Forall (fun m => exists m0, m = Some m0 /\ member_ok n m0) (esp_Members n')).
Proof.
  unfold esp_Correct. split.
  - rewrite <- (members_returns L G n (esp_Members n) rnd). unfold returns.
    destruct (members_Correct L G n rnd (esp_Members n)); cbn [mbind go_bind]; [|naive_solver].
    split; intros _; by eexists.
  - intros n' H. apply go_bind_ret in H as (ms & Hm & [= <-]). by eapply members_ok.
Qed.

(** The devices [Correct] makes up for the servers and their variants that were
    given none are numbered one after the other from the counter on, so that no two of
    them are equal, and the counter moves past them. *)
Theorem vpn_devices_fresh pool obj o i o' i' :
  vpn_Correct pool obj o i = Ret (o', i') ->
  made_up o o' = tun_names i i' /\ NoDup (made_up o o') /\ i <= i' /\
  forall p obj2 o2 o2' i'', vpn_Correct p obj2 o2 i' = Ret (o2', i'') ->
    NoDup (made_up o o' ++ made_up o2 o2').
Proof.
  intros H. apply vpn_Correct_made in H as [Hi ->]. split; [done|]. split; [apply tun_names_NoDup|].
  split; [done|]. intros p obj2 o2 o2' i'' H2. apply vpn_Correct_made in H2 as [Hi2 ->].
  rewrite tun_names_app by done. apply tun_names_NoDup.
Qed.

(** The script of a variant repeats the words its parent's script ends with. *)
Lemma breed_script_doubled pool f ch i o' i' :
  vf_Script f = ""%string -> vf_Script (vpn_Fields ch) = ""%string -> vf_Network (vpn_Fields ch) = ""%string ->
  vf_Network f <> ""%string ->
  vpn_Correct pool (Some DefaultOpenVPN) {| vpn_Fields := f; vpn_Breed := [Some ch] |} i = Ret (o', i') ->
  exists ch', vpn_Breed o' = [Some ch'] /\
    vf_Script (vpn_Fields ch') =
      ("/usr/bin/openlan user check --network " +:+ vf_Network f +:+ " user check --network " +:+ vf_Network f)%string.
Proof.
  intros Hs Hcs Hcn Hn H. rewrite vpn_Correct_eq in H. cbn [vpn_Fields vpn_Breed] in H.
  destruct (vpn_fields _ _ f i) as [f' i1] eqn:Ef. cbn [breed_Correct] in H.
  rewrite (vpn_Correct_eq pool _ ch) in H. destruct (vpn_fields _ _ (vpn_Fields ch) i1) as [cf i2] eqn:Ec.
  apply go_bind_ret in H as ([cs i3] & Hb & H). injection H as <- <-.
  apply go_bind_ret in Hb as ([ch' i4] & Hb & H2). apply go_bind_ret in Hb as ([gs i5] & _ & H3).
  injection H3 as <- <-. injection H2 as <- <-. eexists. split; [done|]. simpl.
  unfold vpn_fields, vpn_own in Ec. destruct (if String.eqb _ _ then _ else _) in Ec. injection Ec as <- _.
  cbn [vf_Script vpn_inherit]. rewrite Hcs, Hcn. unfold or_str at 1 2. simpl.
  unfold vpn_fields, vpn_own in Ef. destruct (if String.eqb _ _ then _ else _) in Ef. injection Ef as <- _.
  cbn [vf_Script vf_Network vpn_inherit DefaultOpenVPN]. rewrite Hs, or_str_empty. unfold or_str. simpl.
  by rewrite !string_app_cons, <- !string_app_assoc.
Qed.

(** A point without a connection is told to connect to [:10002]: the default for an empty
    connection comes after the port was added. *)
Lemma point_without_connection os al ap :
  pt_Connection ap = ""%string -> pt_Connection (point_Default os al ap) = ":10002"%string.
Proof. intros H. unfold point_Default, point_Correct. simpl. by rewrite H. Qed.

(** ** Examples *)

Definition demo_fields (device listen : string) : VPNFields :=
  {| vf_Network := ""; vf_Directory := ""; vf_Listen := listen; vf_Protocol := ""; vf_Subnet := "";
     vf_Device := device; vf_Version := 0; vf_Auth := ""; vf_DhPem := ""; vf_RootCa := ""; vf_ServerCrt := ""; vf_ServerKey := "";
     vf_TlsAuth := ""; vf_Cipher := ""; vf_Routes := []; vf_Renego := 0; vf_Script := ""; vf_Push := [];
     vf_Clients := [] |}.
Definition demo_vpn : OpenVPN :=
  {| vpn_Fields := demo_fields "" "0.0.0.0:1300";
     vpn_Breed := [Some {| vpn_Fields := demo_fields "" ""; vpn_Breed := [] |};
                   Some {| vpn_Fields := demo_fields "tun9" ":1400"; vpn_Breed := [] |}] |}.
Definition demo_link : Point :=
  {| pt_Alias := ""; pt_Connection := "hub"; pt_Timeout := 0; pt_Username := "a@b"; pt_Network := "";
     pt_Password := ""; pt_Protocol := ""; pt_Interface := {| if_Name := ""; if_IPMtu := 0; if_Address := "";
     if_Bridge := ""; if_Provider := ""; if_Cost := 0 |}; pt_Log := {| log_File := ""; log_Verbose := 0 |};
     pt_Crypt := Some {| Algo := ""; Secret := "s" |}; pt_RequestAddr := true; pt_ByPass := false; pt_SaveFile := "";
     pt_Queue := None; pt_Terminal := ""; pt_Cert := None; pt_StatusFile := ""; pt_PidFile := "" |}.
Definition demo_network (name provider : string) (vpn : option OpenVPN) (spec : option Specifies) : Network :=
  {| net_ConfDir := ""; net_File := ""; net_Alias := ""; net_Name := name; net_Provider := provider;
     net_Bridge := Some {| br_Network := ""; br_Peer := ""; br_Name := ""; br_IPMtu := 0;
       br_Address := "10.1.0.1/24"; br_Provider := ""; br_Stp := ""; br_Delay := 0; br_Mss := 0 |};
     net_Subnet := None; net_OpenVPN := vpn; net_Links := [demo_link]; net_Hosts := [];
     net_Routes := [{| rt_Prefix := "10.9.0.0/16"; rt_NextHop := ""; rt_MultiPath := None; rt_Metric := 0; rt_Mode := "" |}];
     net_Password := []; net_Acl := ""; net_Specifies := spec |}.
Definition demo_state (auth : string) : EspState :=
  {| Local := ""; LocalIp := []; Remote := "1.2.3.4"; RemotePort := 0; RemoteIp := []; Encap := "";
     Auth := auth; Crypto := "" |}.
Definition demo_esp (auth : string) : ESPSpecifies :=
  {| esp_Name := ""; esp_Address := "192.168.9.1"; esp_State := demo_state auth;
     esp_Members := [Some {| mem_Name := ""; mem_Address := ""; mem_Peer := "192.168.9.2"; mem_Spi := 0;
                             mem_State := demo_state ""; mem_Policies := [] |}] |}.
Definition demo_lookup (name : string) : list bytes :=
  match ParseIP name with Some ip => [ip] | None => [] end.
Definition demo_gw (remote : string) : bytes := [10; 0; 0; 1].
Definition demo_switch : Switch :=
  {| sw_File := ""; sw_Alias := ""; sw_Perf := DefaultPerf; sw_Protocol := ""; sw_Listen := "0.0.0.0"; sw_Timeout := 0;
     sw_Http := Some {| http_Listen := ""; http_Public := "" |}; sw_Log := {| log_File := ""; log_Verbose := 0 |};
     sw_Cert := None; sw_Crypt := Some {| Algo := ""; Secret := "s" |}; sw_Network := []; sw_Acl := []; sw_FireWall := [];
     sw_Inspect := []; sw_Queue := no_queue; sw_Ldap := None; sw_PassFile := ""; sw_AddrPool := ""; sw_ConfDir := "/etc/openlan/switch"; sw_TokenFile := "" |}.
Definition demo_nets : list Network :=
  [demo_network "lan" "" (Some demo_vpn) None; demo_network "sec" "esp" None (Some (SpecESP (demo_esp "key")))].

Lemma esp_correct_returns_iff_witness :
  Forall (fun m => exists m0, m = Some m0 /\ member_fine (demo_esp "key") m0) (esp_Members (demo_esp "key")) /\
  ~ returns (esp_Correct demo_lookup demo_gw (demo_esp (Repeat "k" 65)) (fun _ => 7)).
Proof.
  split.
  - apply (proj1 (esp_correct_returns_iff demo_lookup demo_gw (demo_esp "key") (fun _ => 7))).
    eexists. vm_compute. reflexivity.
  - intros H. apply (proj1 (esp_correct_returns_iff _ _ _ _)) in H. apply Forall_cons in H as [(m & [= <-] & H) _].
    destruct H as [H|[[H _] _]]; [by vm_compute in H|]. apply Nat.leb_le in H. by vm_compute in H.
Defined.

Lemma vpn_devices_fresh_witness :
  match vpn_Correct "100.44" (Some DefaultOpenVPN) demo_vpn 1194 with
  | Ret (o', i') => i' = 1196 /\ made_up demo_vpn o' = ["tun1195"; "tun1196"]%string /\ NoDup (made_up demo_vpn o')
  | Panic => False
  end.
Proof.
  destruct (vpn_Correct "100.44" (Some DefaultOpenVPN) demo_vpn 1194) as [[o' i']|] eqn:E; [|by vm_compute in E].
  destruct (vpn_devices_fresh _ _ _ _ _ _ E) as (Hm & Hn & _).
  assert (Hi : i' = 1196) by (vm_compute in E; congruence).
  split; [exact Hi|]. split; [rewrite Hm, Hi; vm_compute; reflexivity|exact Hn].
Defined.

Example config_examples :
  Padding "abc" 32 = Ret "abcabcabcabcabcabcabcabcabcabcab"%string /\ Padding "" 32 = Panic /\
  CorrectAddr "0.0.0.0" 10002 = "0.0.0.0:10002"%string /\ CorrectAddr ":80" 10002 = ":80"%string /\
  GetBlock (Some {| Algo := "aes-128"; Secret := "0123456789abcdef+" |}) =
    Some (AESBlockCrypt (bytes_of_string "0123456789abcdef")) /\
  GetBlock (Some {| Algo := ""; Secret := "" |}) = None /\
  pt_Network (point_Correct "linux" "h" demo_link None) = "b"%string /\
  pt_Network (point_Correct "linux" "h" demo_link None) = pt_Network (point_Default "linux" "h" demo_link) /\
  bridge_addr "10.1.0.1/24" = ("10.1.0.1", "255.255.255.0")%string /\
  fn_Bridge (fn_Correct {| fn_Vni := 10; fn_Bridge := ""; fn_Address := ""; fn_Outputs := [] |}) = "br-00000010"%string.
Proof. vm_compute. repeat split. Qed.
