(* ===== verification/PointTap.v ===== *)
(** * The device side of a point (pkg/olap/neighbor.go, pkg/olap/tap.go)

    [Neighbors] is the ARP table of a point whose device carries IP packets;
    [TapWorker] moves frames between the device and the socket worker, builds and
    strips Ethernet headers on such a device, answers and learns ARP, and opens the
    device again when it fails or its address changes.  What [ReadAt] is handed (the
    queue of the socket worker) is the list [sent]. *)

From S2P Require Import Prelude GoStd Utils Protocol Message Tap.

Local Open Scope Z_scope.

(** ** Neighbors *)
Module Neighbors.

Record Neighbor := { HwAddr : bytes; IpAddr : bytes; Uptime : Z; NewTime : Z }.

Record t := { neighbors : gmap Z Neighbor; timeout : Z; interval : Z }.

Definition set_map (n : t) (m : gmap Z Neighbor) : t :=
  {| neighbors := m; timeout := timeout n; interval := interval n |}.

(** The keys whose entry has not been confirmed for [age] seconds. *)
Definition aged (n : t) (age now : Z) : list Z :=
  (filter (fun kl : Z * Neighbor => age <= now - Uptime kl.2) (map_to_list (neighbors n))).*1.

Definition Expire (n : t) (now : Z) : t :=
  set_map n (foldl (fun m d => delete d m) (neighbors n) (aged n (timeout n) now)).

(** The addresses handed to the listener, in the order of the walk over the map. *)
Definition Interval (n : t) (now : Z) : list bytes :=
  omap (fun d => IpAddr <$> neighbors n !! d) (aged n (interval n) now).

Definition Add (n : t) (h : option Neighbor) : go t :=
  match h with
  | None => Ret n
  | Some h =>
      k ← Uint32 (IpAddr h);
      match neighbors n !! k with
      | Some l =>
          hw ← slice (HwAddr h) 0 6;
          hw ← copy_into (HwAddr l) 0 6 hw;
          Ret (set_map n (<[k := {| HwAddr := hw; IpAddr := IpAddr l; Uptime := Uptime h;
                                    NewTime := NewTime l |}]> (neighbors n)))
      | None =>
          ip ← slice (IpAddr h) 0 4;
          ip ← copy_into (make_bytes 4) 0 4 ip;
          hw ← slice (HwAddr h) 0 6;
          hw ← copy_into (make_bytes 6) 0 6 hw;
          Ret (set_map n (<[k := {| HwAddr := hw; IpAddr := ip; Uptime := Uptime h;
                                    NewTime := NewTime h |}]> (neighbors n)))
      end
  end.

Definition Get (n : t) (d : Z) : option Neighbor := neighbors n !! d.

Definition Clear (n : t) : t :=
  set_map n (foldl (fun m d => delete d m) (neighbors n) (map_to_list (neighbors n)).*1).

(** [Uint32] panics on a slice of fewer than four bytes. *)
Definition GetByBytes (n : t) (d : bytes) : go (option Neighbor) :=
  k ← Uint32 d;
  Ret (neighbors n !! k).

(** Every entry is stored under its address and holds addresses of the right size. *)
Definition entry_ok (k : Z) (l : Neighbor) : Prop :=
  length (HwAddr l) = 6%nat /\ bytes_ok (HwAddr l) /\ length (IpAddr l) = 4%nat /\
  bytes_ok (IpAddr l) /\ Uint32 (IpAddr l) = Ret k.
Definition inv (n : t) : Prop := map_Forall entry_ok (neighbors n).

Lemma foldl_delete_lookup {V} (ks : list Z) (m : gmap Z V) k :
  foldl (fun m d => delete d m) m ks !! k = if bool_decide (k ∈ ks) then None else m !! k.
Proof.
  revert m. induction ks as [|d ks IH]; intros m; simpl; [done|]. rewrite IH.
  case_bool_decide as H1; case_bool_decide as H2; [done|set_solver| |].
  - apply elem_of_cons in H2 as [->|?]; [by rewrite lookup_delete_eq|done].
  - rewrite lookup_delete_ne; [done|]. intros ->. apply H2, elem_of_cons. by left.
Qed.

Lemma elem_of_aged n age now k :
  k ∈ aged n age now <-> exists l, neighbors n !! k = Some l /\ age <= now - Uptime l.
Proof.
  unfold aged. rewrite list_elem_of_fmap. split.
  - intros ([k' l] & -> & [H1 H2]%list_elem_of_filter). apply elem_of_map_to_list in H2. eauto.
  - intros (l & H1 & H2). exists (k, l). split; [done|]. apply list_elem_of_filter.
    by rewrite elem_of_map_to_list.
Qed.

Lemma expire_lookup n now k :
  neighbors (Expire n now) !! k =
  match neighbors n !! k with
  | Some l => if timeout n <=? now - Uptime l then None else Some l
  | None => None
  end.
Proof.
  unfold Expire, set_map. simpl. rewrite foldl_delete_lookup.
  case_bool_decide as H; rewrite elem_of_aged in H.
  - destruct H as (l & -> & Hl). by rewrite (proj2 (Z.leb_le _ _)).
  - destruct (neighbors n !! k) as [l|] eqn:E; [|done].
    destruct (Z.leb_spec (timeout n) (now - Uptime l)); [|done]. exfalso. eauto.
Qed.

Lemma clear_empty n : neighbors (Clear n) = ∅.
Proof.
  apply map_eq. intros k. unfold Clear. simpl. rewrite foldl_delete_lookup, lookup_empty.
  case_bool_decide as H; [done|]. destruct (neighbors n !! k) as [l|] eqn:E; [|done].
  exfalso. apply H, list_elem_of_fmap. exists (k, l). by rewrite elem_of_map_to_list.
Qed.

Lemma uint32_4 ip : length ip = 4%nat -> exists k, Uint32 ip = Ret k.
Proof. intros H. explode ip. by eexists. Qed.

Lemma add_spec n h :
  inv n -> length (HwAddr h) = 6%nat -> bytes_ok (HwAddr h) ->
  length (IpAddr h) = 4%nat -> bytes_ok (IpAddr h) ->
  exists k n', Uint32 (IpAddr h) = Ret k /\ Add n (Some h) = Ret n' /\ inv n' /\
    timeout n' = timeout n /\ interval n' = interval n /\
    (exists l, neighbors n' !! k = Some l /\ HwAddr l = HwAddr h /\ IpAddr l = IpAddr h /\
               Uptime l = Uptime h) /\
    forall k', k' <> k -> neighbors n' !! k' = neighbors n !! k'.
Proof.
  intros Hi Hw Hbw Hp Hbp. destruct (uint32_4 _ Hp) as [k Hk]. exists k.
  assert (Hz : zlen (HwAddr h) = 6) by (unfold zlen; lia).
  assert (Hzp : zlen (IpAddr h) = 4) by (unfold zlen; lia).
  assert (Hs : slice (HwAddr h) 0 6 = Ret (HwAddr h))
    by (rewrite slice_ok by lia; f_equal; apply take_ge; simpl; lia).
  assert (Hsp : slice (IpAddr h) 0 4 = Ret (IpAddr h))
    by (rewrite slice_ok by lia; f_equal; apply take_ge; simpl; lia).
  unfold Add. rewrite Hk, Hs. cbn [mbind go_bind].
  destruct (neighbors n !! k) as [l|] eqn:E.
  - destruct (Hi _ _ E) as (Hl & Hbl & Hil & Hbil & Hkl).
    assert (Hc : copy_into (HwAddr l) 0 6 (HwAddr h) = Ret (HwAddr h)).
    { destruct l as [lh li lu ln]. simpl in *. destruct h as [hh hi hu hn]. simpl in *.
      explode lh. explode hh. reflexivity. }
    rewrite Hc. cbn [mbind go_bind]. eexists. split; [done|]. split; [done|].
    assert (Heq : IpAddr l = IpAddr h).
    { destruct l as [lh li lu ln], h as [hh hi hu hn]. simpl in *. explode li. explode hi.
      bytes_inv. simpl in Hk, Hkl. assert (Hj := eq_trans Hkl (eq_sym Hk)). injection Hj as Hj.
      apply (f_equal be32) in Hj. rewrite !be32_join32 in Hj by done. done. }
    split; [|split; [done|]; split; [done|]; split].
    + intros k' l'. simpl. rewrite lookup_insert_Some. intros [[<- <-]|[_ H]]; [|by apply (Hi k' l')].
      repeat split; simpl; done.
    + eexists. simpl. rewrite lookup_insert_eq. split; [done|]. done.
    + intros k' Hne. simpl. by rewrite lookup_insert_ne.
  - rewrite Hsp. cbn [mbind go_bind].
    assert (Hc : copy_into (make_bytes 6) 0 6 (HwAddr h) = Ret (HwAddr h)).
    { destruct h as [hh hi hu hn]. simpl in *. explode hh. reflexivity. }
    assert (Hcp : copy_into (make_bytes 4) 0 4 (IpAddr h) = Ret (IpAddr h)).
    { destruct h as [hh hi hu hn]. simpl in *. explode hi. reflexivity. }
    rewrite Hcp. cbn [mbind go_bind]. rewrite Hc. cbn [mbind go_bind].
    eexists. split; [done|]. split; [done|]. split; [|split; [done|]; split; [done|]; split].
    + intros k' l'. simpl. rewrite lookup_insert_Some. intros [[<- <-]|[_ H]]; [|by apply (Hi k' l')].
      repeat split; simpl; done.
    + eexists. simpl. rewrite lookup_insert_eq. split; [done|]. done.
    + intros k' Hne. simpl. by rewrite lookup_insert_ne.
Qed.

Lemma expire_inv n now : inv n -> inv (Expire n now).
Proof.
  intros Hi k l. rewrite expire_lookup. destruct (neighbors n !! k) as [l'|] eqn:E; [|done].
  destruct (_ <=? _); [done|]. intros [= <-]. by apply (Hi k).
Qed.

Lemma clear_inv n : inv (Clear n).
Proof. intros k l. rewrite clear_empty. by rewrite lookup_empty. Qed.

End Neighbors.

(** ** Events (pkg/olap/worker.go) *)

Definition EvTapIpAddr : string := "ipAddr".
Definition EvTapReadErr : string := "readErr".
Definition EvTapReset : string := "reset".
Definition EvTapOpenErr : string := "openErr".

Record WorkerEvent := { Type_ : string; Reason : string; Time : Z }.

Definition NewEvent (newType reason : string) (now : Z) : WorkerEvent :=
  {| Type_ := newType; Reason := reason; Time := now |}.

(** The capacity of the event queues of both workers. *)
Definition evCap : Z := 32.

(** [c <- e] on a queue of events: nobody else takes from it while the sender is the
    goroutine that reads it. *)
Definition ev_push (q : list WorkerEvent) (e : WorkerEvent) : run (list WorkerEvent) :=
  if zlen q <? evCap then Finished (q ++ [e]) else Blocks.

(** ** The worker *)

Section worker.
Context {T : Type} `{HT : Taper T}.

Record TapWorker := {
  device : option T; ether_HwAddr : bytes; ether_IpAddr : bytes; neighbor : Neighbors.t;
  devCfg : TapConfig; ifAddr : string; eventQueue : list WorkerEvent; sent : list FrameMessage
}.

Definition upd_device (a : TapWorker) (d : option T) : TapWorker :=
  {| device := d; ether_HwAddr := ether_HwAddr a; ether_IpAddr := ether_IpAddr a;
     neighbor := neighbor a; devCfg := devCfg a; ifAddr := ifAddr a;
     eventQueue := eventQueue a; sent := sent a |}.
Definition upd_ether (a : TapWorker) (hw ip : bytes) : TapWorker :=
  {| device := device a; ether_HwAddr := hw; ether_IpAddr := ip; neighbor := neighbor a;
     devCfg := devCfg a; ifAddr := ifAddr a; eventQueue := eventQueue a; sent := sent a |}.
Definition upd_neighbor (a : TapWorker) (n : Neighbors.t) : TapWorker :=
  {| device := device a; ether_HwAddr := ether_HwAddr a; ether_IpAddr := ether_IpAddr a;
     neighbor := n; devCfg := devCfg a; ifAddr := ifAddr a; eventQueue := eventQueue a;
     sent := sent a |}.
Definition upd_ifAddr (a : TapWorker) (s : string) : TapWorker :=
  {| device := device a; ether_HwAddr := ether_HwAddr a; ether_IpAddr := ether_IpAddr a;
     neighbor := neighbor a; devCfg := devCfg a; ifAddr := s; eventQueue := eventQueue a;
     sent := sent a |}.
Definition upd_events (a : TapWorker) (q : list WorkerEvent) : TapWorker :=
  {| device := device a; ether_HwAddr := ether_HwAddr a; ether_IpAddr := ether_IpAddr a;
     neighbor := neighbor a; devCfg := devCfg a; ifAddr := ifAddr a; eventQueue := q;
     sent := sent a |}.
(** [ReadAt], the listener that hands a frame to the socket worker. *)
Definition readAt (a : TapWorker) (f : FrameMessage) : TapWorker :=
  {| device := device a; ether_HwAddr := ether_HwAddr a; ether_IpAddr := ether_IpAddr a;
     neighbor := neighbor a; devCfg := devCfg a; ifAddr := ifAddr a;
     eventQueue := eventQueue a; sent := sent a ++ [f] |}.

Definition push (a : TapWorker) (e : WorkerEvent) : run TapWorker :=
  q ← ev_push (eventQueue a) e;
  Finished (upd_events a q).

(** Nil slices are empty. *)
Definition NewTapWorker (c : TapConfig) : TapWorker :=
  {| device := None; ether_HwAddr := []; ether_IpAddr := [];
     neighbor := {| Neighbors.neighbors := ∅; Neighbors.timeout := 0; Neighbors.interval := 0 |};
     devCfg := c; ifAddr := ""; eventQueue := []; sent := [] |}.

Definition isTun (a : TapWorker) : bool := cfg_Type (devCfg a) =? TUN.

Definition setEther (a : TapWorker) (ipAddr : string) (hwAddr : option bytes) (now : Z) : run TapWorker :=
  let a := upd_neighbor a (Neighbors.Clear (neighbor a)) in
  match IPNetmask ipAddr with
  | None => Finished a
  | Some ipAddr =>
      let first := default ""%string (SplitN ipAddr char_slash 2 !! 0%nat) in
      let ip := match ParseIP first with Some ip => To4 ip | None => [] end in
      let ip := match ip with [] => [0; 0; 0; 0] | _ => ip end in
      let hw := match hwAddr with Some hw => hw | None => ether_HwAddr a end in
      let a := upd_ether a hw ip in
      a ← (if negb (String.eqb (ifAddr a) "") && negb (String.eqb (ifAddr a) ipAddr)
           then push a (NewEvent EvTapReset "ifAddr changed" now) else Finished a);
      Finished (upd_ifAddr a ipAddr)
  end.

Definition OnIpAddr (a : TapWorker) (addr : string) (now : Z) : run TapWorker :=
  push a (NewEvent EvTapIpAddr addr now).

(** The device is closed and stays in its field. *)
Definition close (a : TapWorker) (OnClose : TapWorker -> TapWorker) : run TapWorker :=
  match device a with
  | None => Finished a
  | Some d =>
      let a := OnClose a in
      r ← Close d;
      Finished (upd_device a (Some r.1))
  end.

(** [open], given what [network.NewTaper] answers for the configuration; the reader of
    the new device starts as a goroutine of its own. *)
Definition open (a : TapWorker) (taper : result T) (up : T -> run T)
    (OnOpen : TapWorker -> run TapWorker) : run (TapWorker * option error) :=
  a ← close a (fun a => a);
  match taper with
  | inr e => Finished (a, Some e)
  | inl dev =>
      dev ← up dev;
      a ← OnOpen (upd_device a (Some dev));
      Finished (a, None)
  end.

Definition Initialize (a : TapWorker) (address : string) (genHw : bytes) (taper : result T)
    (up : T -> run T) (OnOpen : TapWorker -> run TapWorker) (now : Z) : run TapWorker :=
  let a := upd_neighbor a {| Neighbors.neighbors := ∅; Neighbors.timeout := 3 * 60;
                             Neighbors.interval := 60 |} in
  a ← (if isTun a then setEther a address (Some genHw) now else Finished a);
  r ← open a taper up OnOpen;
  let '(a, err) := r in
  match err with
  | Some e => push a (NewEvent EvTapOpenErr (err_format e) now)
  | None => Finished a
  end.

Definition newEth (a : TapWorker) (t : Z) (dst : bytes) : Ether.t :=
  {| Ether.Dst := dst; Ether.Src := ether_HwAddr a; Ether.Type_ := t;
     Ether.Len := Ether.Len (Ether.NewEther t) |}.

(** An ARP message from this point. *)
Definition newArp (a : TapWorker) (op : Z) (thw tip : bytes) : Arp.t :=
  let r := Arp.NewArp in
  {| Arp.HrdCode := Arp.HrdCode r; Arp.ProCode := Arp.ProCode r; Arp.HrdLen := Arp.HrdLen r;
     Arp.ProLen := Arp.ProLen r; Arp.OpCode := op; Arp.SHwAddr := ether_HwAddr a;
     Arp.SIpAddr := ether_IpAddr a; Arp.THwAddr := thw; Arp.TIpAddr := tip; Arp.Len := Arp.Len r |}.

(** A frame of an Ethernet header and an ARP message. *)
Definition arpFrame (eth : Ether.t) (arp : Arp.t) : go FrameMessage :=
  let frame := NewFrameMessage 0 in
  e ← Ether.Encode eth;
  frame ← Append frame e;
  r ← Arp.Encode arp;
  Append frame r.1.

(** The argument of the debug message slices the frame. *)
Definition onMiss (a : TapWorker) (dest : bytes) : go TapWorker :=
  frame ← arpFrame (newEth a EthArp EthAll) (newArp a ArpRequest EthZero dest);
  _ ← slice (Frame frame) 0 64;
  Ret (readAt a frame).

Definition OnArpAlive (a : TapWorker) (dest : bytes) : go TapWorker := onMiss a dest.

(** [Interval] of the table with the listener [Initialize] installs. *)
Fixpoint alive_all (a : TapWorker) (dests : list bytes) : go TapWorker :=
  match dests with
  | [] => Ret a
  | d :: dests => a ← OnArpAlive a d; alive_all a dests
  end.
Definition neighbor_tick (a : TapWorker) (now : Z) : go TapWorker :=
  a ← alive_all a (Neighbors.Interval (neighbor a) now);
  Ret (upd_neighbor a (Neighbors.Expire (neighbor a) now)).

(** [data] is the window [off, off + n) of the frame. *)
Definition onFrame (a : TapWorker) (FindNext : option (bytes -> bytes)) (frame : FrameMessage)
    (off n : Z) : go (TapWorker * FrameMessage * Z) :=
  data ← slice (Frame frame) off (off + n);
  let size := zlen data in
  if isTun a then
    r ← Ipv4.NewIpv4FromFrame data;
    let '(iph, err) := r in
    match err with
    | Some _ => Ret (a, frame, 0)
    | None =>
        let dest := Ipv4.Destination iph in
        let dest := match FindNext with Some f => f dest | None => dest end in
        neb ← Neighbors.GetByBytes (neighbor a) dest;
        match neb with
        | None => a ← onMiss a dest; Ret (a, frame, 0)
        | Some neb =>
            let eth := newEth a EthIp4 (Neighbors.HwAddr neb) in
            e ← Ether.Encode eth;
            frame ← Append frame e;
            let size := size + Ether.Len eth in
            Ret (a, SetSize frame size, size)
        end
    end
  else Ret (a, SetSize frame size, size).

(** One round of [Read] on the device [dev]; [false] when the loop ends. *)
Definition read_round (a : TapWorker) (FindNext : option (bytes -> bytes)) (dev : T)
    : run (TapWorker * T * bool) :=
  let frame := NewFrameMessage 0 in
  let off := if isTun a then EtherLen else 0 in
  r ← Read dev (frame_len frame - off);
  let '(dev, r) := r in
  match r with
  | inr _ => Finished (a, dev, false)
  | inl data =>
      b ← lift (frame_copy frame off data);
      let frame := {| control := control frame; action := action frame; params := params frame;
                      buffer := b; frame_len := frame_len frame; size := size frame;
                      total := total frame; proto := proto frame |} in
      r ← lift (onFrame a FindNext frame off (zlen data));
      let '(a, frame, size) := r in
      Finished (if size =? 0 then a else readAt a frame, dev, true)
  end.

Definition isStopped (a : TapWorker) : bool := bool_decide (device a = None).

(** What follows the loop of [Read]. *)
Definition read_end (a : TapWorker) (now : Z) : run TapWorker :=
  if isStopped a then Finished a else push a (NewEvent EvTapReadErr "from read" now).

Definition dispatch (a : TapWorker) (ev : WorkerEvent) (taper : result T) (up : T -> run T)
    (OnOpen : TapWorker -> run TapWorker) (now : Z) : run TapWorker :=
  if String.eqb (Type_ ev) EvTapReadErr || String.eqb (Type_ ev) EvTapOpenErr
     || String.eqb (Type_ ev) EvTapReset then
    r ← open a taper up OnOpen;
    let '(a, err) := r in
    match err with
    | Some e => push a (NewEvent EvTapOpenErr (err_format e) now)
    | None => Finished a
    end
  else if String.eqb (Type_ ev) EvTapIpAddr then setEther a (Reason ev) None now
  else Finished a.

(** What [toArp] does with an ARP message it could decode. *)
Definition onArp (a : TapWorker) (eth : Ether.t) (arp : Arp.t) (now : Z) : go TapWorker :=
  if Arp.IsIP4 arp then
    if negb (bool_decide (Ether.Src eth = Arp.SHwAddr arp)) then Ret a
    else if Arp.OpCode arp =? ArpRequest then
      if bool_decide (Arp.TIpAddr arp = ether_IpAddr a) then
        frame ← arpFrame (newEth a EthArp (Arp.SHwAddr arp))
                         (newArp a ArpReply (Arp.SHwAddr arp) (Arp.SIpAddr arp));
        Ret (readAt a frame)
      else Ret a
    else if Arp.OpCode arp =? ArpReply then
      if bool_decide (Arp.THwAddr arp = ether_HwAddr a) then
        n ← Neighbors.Add (neighbor a)
              (Some {| Neighbors.HwAddr := Arp.SHwAddr arp; Neighbors.IpAddr := Arp.SIpAddr arp;
                       Neighbors.Uptime := now; Neighbors.NewTime := now |});
        Ret (upd_neighbor a n)
      else Ret a
    else Ret a
  else Ret a.

(** [toArp] says whether the frame was ARP and is dealt with. *)
Definition toArp (a : TapWorker) (data : bytes) (now : Z) : go (TapWorker * bool) :=
  r ← Ether.NewEtherFromFrame data;
  let '(eth, err) := r in
  match err with
  | Some _ => Ret (a, false)
  | None =>
      if negb (Ether.IsArp eth) then Ret (a, false)
      else
        d ← slice_from data (Ether.Len eth);
        r ← Arp.NewArpFromFrame d;
        let '(arp, err) := r in
        match err with
        | Some _ => Ret (a, false)
        | None => a ← onArp a eth arp now; Ret (a, true)
        end
  end.

Definition dev_nil : error := NewErr "device is nil" [].

(** The write itself, to a device that is there. *)
Definition dev_write (a : TapWorker) (d : T) (data : bytes) : run (TapWorker * option error) :=
  r ← Write d data;
  Finished (upd_device a (Some r.1), match r.2 with inl _ => None | inr e => Some e end).

Definition DoWrite (a : TapWorker) (frame : FrameMessage) (now : Z) : run (TapWorker * option error) :=
  let data := Frame frame in
  match device a with
  | None => Finished (a, Some dev_nil)
  | Some d =>
      if IsTun d then
        r ← lift (toArp a data now);
        let '(a, handled) := (r : TapWorker * bool) in
        if handled then Finished (a, None)
        else
          r ← lift (Ether.NewEtherFromFrame data);
          let '(eth, err) := r in
          match err with
          | Some _ => Finished (a, None)
          | None =>
              if Ether.IsIP4 eth then
                data ← lift (slice_from data 14);
                dev_write a d data
              else Finished (a, None)
          end
      else dev_write a d data
  end.

(** [neighbor.Stop] and the locks are dealt with below. *)
Definition Stop (a : TapWorker) : run TapWorker :=
  a ← close a (fun a => a);
  Finished (upd_device a None).

End worker.
Arguments TapWorker : clear implicits.

(** ** Frames between points

    [ether_wire] and [arp_wire] are what the encoders produce on well-formed headers. *)

Definition ether_wire (e : Ether.t) : bytes := Ether.Dst e ++ Ether.Src e ++ be16 (Ether.Type_ e).

Lemma ether_wire_len e : Ether.wf e -> zlen (ether_wire e) = 14.
Proof. intros (H1 & H2 & _). unfold ether_wire, zlen. rewrite !length_app, H1, H2. done. Qed.

Lemma ether_wire_decode e rest :
  Ether.wf e -> Ether.NewEtherFromFrame (ether_wire e ++ rest) = Ret (e, None).
Proof.
  intros He. destruct (proj1 ether_roundtrip e He) as (b & Eb & _ & H).
  rewrite ether_encode_wire in Eb by done. injection Eb as <-. apply H.
Qed.

Lemma arp_wire_decode a rest :
  Arp.wf a -> Arp.NewArpFromFrame (arp_wire a ++ rest) = Ret (Arp.set_len a 28, None).
Proof.
  intros Ha. destruct (proj1 arp_roundtrip a Ha) as (b & Eb & _ & H).
  rewrite arp_encode_wire in Eb by done. injection Eb as <-. apply H.
Qed.

Lemma arpFrame_spec eth arp :
  Ether.wf eth -> Arp.wf arp ->
  exists m, arpFrame eth arp = Ret m /\ msg_wf m /\ size m = 42 /\
    payload m = ether_wire eth ++ arp_wire arp /\ control m = false /\ total m = MaxBuf + EthDI.
Proof.
  intros He Ha. unfold arpFrame. rewrite ether_encode_wire by done. fold (ether_wire eth).
  destruct (NewFrameMessage_wf 0) as (Hwf & Hs & Ht).
  pose proof (ether_wire_len eth He) as Hle. pose proof (arp_wire_len arp Ha) as Hla.
  cbn [mbind go_bind].
  destruct (Append_fits (NewFrameMessage 0) (ether_wire eth)) as (m1 & E1 & W1 & S1 & P1 & T1 & C1 & _);
    [done|rewrite Ht, Hs, Hle; unfold MaxBuf, MaxFrame, EthDI; simpl; lia|].
  rewrite E1. cbn [mbind go_bind]. rewrite arp_encode_wire by done. cbn [mbind go_bind fst].
  destruct (Append_fits m1 (arp_wire arp)) as (m2 & E2 & W2 & S2 & P2 & T2 & C2 & _);
    [done|rewrite T1, Ht, S1, Hs, Hle, Hla; unfold MaxBuf, MaxFrame, EthDI; simpl; lia|].
  exists m2. rewrite E2. split; [done|]. split; [done|]. split; [lia|]. split.
  - rewrite P2, P1. unfold payload at 1. rewrite Hs. done.
  - rewrite C2, C1, T2, T1, Ht. done.
Qed.

(** The message the other side receives for a message that was sent. *)
Definition deliver (m : FrameMessage) : FrameMessage :=
  {| control := false; action := ""; params := []; buffer := (MAGIC ++ be16 (size m)) ++ payload m;
     frame_len := size m; size := size m; total := size m; proto := None |}.

Lemma deliver_received m : msg_wf m -> received m (deliver m).
Proof.
  intros Hw. destruct (msg_split m Hw) as (h & _ & _ & Hz). destruct Hw as (H1 & H2 & H3).
  assert (Hp : zlen (payload m) = size m).
  { unfold payload, zlen in *. rewrite length_take. lia. }
  unfold received, deliver. cbn [buffer size control proto].
  split; [done|]. split; [|split; [done|split; [|done]]].
  - apply (Frame_app _ (MAGIC ++ be16 (size m)) (payload m)); [done|done|simpl; done].
  - unfold msg_wf. cbn [buffer frame_len size total]. rewrite zlen_app, Hp.
    change (zlen (MAGIC ++ be16 (size m))) with 4. unfold HlSize. lia.
Qed.

Section frames.
Context {T : Type} `{HT : Taper T}.
Implicit Types a b : TapWorker T.

(** The worker has its own two addresses. *)
Definition addr_ok (a : TapWorker T) : Prop :=
  length (ether_HwAddr a) = 6%nat /\ bytes_ok (ether_HwAddr a) /\
  length (ether_IpAddr a) = 4%nat /\ bytes_ok (ether_IpAddr a).

Lemma newEth_wf a t dst :
  addr_ok a -> length dst = 6%nat -> bytes_ok dst -> u16 t -> Ether.wf (newEth a t dst).
Proof. intros (H1 & H2 & _) Hd Hb Ht. by repeat split; try apply Ht. Qed.

Lemma newArp_wf a op thw tip :
  addr_ok a -> u16 op -> length thw = 6%nat -> bytes_ok thw -> length tip = 4%nat -> bytes_ok tip ->
  Arp.wf (newArp a op thw tip).
Proof. intros (H1 & H2 & H3 & H4) Ho ????. by repeat split; try apply Ho. Qed.

Lemma onMiss_spec a dest :
  addr_ok a -> length dest = 4%nat -> bytes_ok dest ->
  exists m, onMiss a dest = Ret (readAt a m) /\ msg_wf m /\ size m = 42 /\ control m = false /\
    payload m = ether_wire (newEth a EthArp EthAll) ++ arp_wire (newArp a ArpRequest EthZero dest).
Proof.
  intros Ha Hd Hb. unfold onMiss.
  destruct (arpFrame_spec (newEth a EthArp EthAll) (newArp a ArpRequest EthZero dest))
    as (m & E & W & S & P & C & Ht).
  { apply newEth_wf; [done|done|by apply (bool_decide_unpack _)|by apply (bool_decide_unpack _)]. }
  { apply newArp_wf; try done; by apply (bool_decide_unpack _). }
  exists m. rewrite E. cbn [mbind go_bind].
  destruct (msg_split m W) as (h & _ & _ & Hz). pose proof W as (W1 & W2 & W3).
  rewrite slice_ok by (rewrite ?Hz, <- ?W2, ?Ht; unfold MaxBuf, EthDI; lia). cbn [mbind go_bind]. done.
Qed.

(** [toArp] of an Ethernet frame that carries an ARP message. *)
Lemma toArp_onArp a eth arp rest now :
  Ether.wf eth -> Ether.Type_ eth = EthArp -> Arp.wf arp ->
  toArp a (ether_wire eth ++ arp_wire arp ++ rest) now =
  (a ← onArp a eth (Arp.set_len arp 28) now; Ret (a, true)).
Proof.
  intros He Hty Hw. unfold toArp.
  rewrite ether_wire_decode by done. cbn [mbind go_bind].
  unfold Ether.IsArp. rewrite Hty. change (EthArp =? EthArp) with true. cbn [negb].
  pose proof (ether_wire_len eth He) as Hle. assert (Hlen : Ether.Len eth = 14) by apply He.
  rewrite Hlen, slice_from_ok by (rewrite zlen_app, Hle; pose proof (zlen_nonneg (arp_wire arp ++ rest)); lia).
  cbn [mbind go_bind].
  replace (Z.to_nat 14) with (length (ether_wire eth)) by (unfold zlen in Hle; lia).
  by rewrite drop_app_length, arp_wire_decode.
Qed.

Lemma onArp_request a eth arp now :
  addr_ok a -> Arp.wf arp -> Arp.ProCode arp = EthIp4 -> Ether.Src eth = Arp.SHwAddr arp ->
  Arp.OpCode arp = ArpRequest -> Arp.TIpAddr arp = ether_IpAddr a ->
  exists m, onArp a eth (Arp.set_len arp 28) now = Ret (readAt a m) /\
    msg_wf m /\ size m = 42 /\ control m = false /\
    payload m = ether_wire (newEth a EthArp (Arp.SHwAddr arp)) ++
                arp_wire (newArp a ArpReply (Arp.SHwAddr arp) (Arp.SIpAddr arp)).
Proof.
  intros Ha Hw Hp Hsrc Hop Htip. unfold onArp, Arp.IsIP4.
  cbn [Arp.set_len Arp.ProCode Arp.SHwAddr Arp.OpCode Arp.TIpAddr Arp.SIpAddr].
  rewrite Hp, Hop, Z.eqb_refl, Hsrc, bool_decide_eq_true_2 by done. cbn [negb].
  change (ArpRequest =? ArpRequest) with true.
  rewrite (bool_decide_eq_true_2 (Arp.TIpAddr arp = _)) by done.
  destruct Hw as (_ & _ & _ & _ & _ & L1 & L2 & _ & _ & B1 & B2 & _).
  destruct (arpFrame_spec (newEth a EthArp (Arp.SHwAddr arp))
              (newArp a ArpReply (Arp.SHwAddr arp) (Arp.SIpAddr arp))) as (m & E & W & S & P & C & _).
  { apply newEth_wf; try done; by apply (bool_decide_unpack _). }
  { apply newArp_wf; try done; by apply (bool_decide_unpack _). }
  exists m. rewrite E. done.
Qed.

Lemma onArp_reply a eth arp now :
  Neighbors.inv (neighbor a) -> Arp.wf arp -> Arp.ProCode arp = EthIp4 ->
  Ether.Src eth = Arp.SHwAddr arp -> Arp.OpCode arp = ArpReply -> Arp.THwAddr arp = ether_HwAddr a ->
  exists n k, onArp a eth (Arp.set_len arp 28) now = Ret (upd_neighbor a n) /\
    Neighbors.inv n /\ Uint32 (Arp.SIpAddr arp) = Ret k /\
    (exists l, Neighbors.neighbors n !! k = Some l /\ Neighbors.HwAddr l = Arp.SHwAddr arp /\
       Neighbors.IpAddr l = Arp.SIpAddr arp /\ Neighbors.Uptime l = now) /\
    (forall k', k' <> k -> Neighbors.neighbors n !! k' = Neighbors.neighbors (neighbor a) !! k').
Proof.
  intros Hi Hw Hp Hsrc Hop Hthw. unfold onArp, Arp.IsIP4.
  cbn [Arp.set_len Arp.ProCode Arp.SHwAddr Arp.OpCode Arp.THwAddr Arp.SIpAddr].
  rewrite Hp, Hop, Z.eqb_refl, Hsrc, bool_decide_eq_true_2 by done. cbn [negb].
  change (ArpReply =? ArpRequest) with false. change (ArpReply =? ArpReply) with true.
  rewrite (bool_decide_eq_true_2 (Arp.THwAddr arp = _)) by done.
  destruct Hw as (_ & _ & _ & _ & _ & L1 & L2 & _ & _ & B1 & B2 & _).
  destruct (Neighbors.add_spec (neighbor a)
    {| Neighbors.HwAddr := Arp.SHwAddr arp; Neighbors.IpAddr := Arp.SIpAddr arp;
       Neighbors.Uptime := now; Neighbors.NewTime := now |}) as (k & n & Hk & E & Hin & _ & _ & Hl & Hoth);
    [done..|].
  exists n, k. rewrite E. split; [done|]. split; [done|]. split; [done|]. split; [|done].
  destruct Hl as (l & H1 & H2 & H3 & H4). by exists l.
Qed.

End frames.

(** ** Theorems: frames *)

(** [DoWrite] of a received frame on a device for IP packets. *)
Lemma DoWrite_arp {T} `{HT : Taper T} (a : TapWorker T) d eth arp m m' now :
  device a = Some d -> IsTun d = true -> Ether.wf eth -> Ether.Type_ eth = EthArp -> Arp.wf arp ->
  payload m = ether_wire eth ++ arp_wire arp -> received m m' ->
  DoWrite a m' now = (r ← lift (onArp a eth (Arp.set_len arp 28) now); Finished (r, None)).
Proof.
  intros Hd Ht He Hty Ha Hp (_ & Hf & _). unfold DoWrite. rewrite Hd, Ht, Hf, Hp.
  rewrite <- (app_nil_r (arp_wire arp)), toArp_onArp by done.
  by destruct (onArp a eth (Arp.set_len arp 28) now).
Qed.

(** (C31) Address resolution between two points with IP devices: the request [A] sends
    for the address of [B] is answered by [B] with one frame, and that answer makes
    [A] know [B]'s hardware address under [B]'s address, confirmed at that time, with
    every other entry kept; neither device is written to. *)
Theorem arp_resolution {T} `{HT : Taper T} (A B : TapWorker T) (dA dB : T) (now : Z) :
  addr_ok A -> addr_ok B -> Neighbors.inv (neighbor A) ->
  device A = Some dA -> IsTun dA = true -> device B = Some dB -> IsTun dB = true ->
  exists q, onMiss A (ether_IpAddr B) = Ret (readAt A q) /\ msg_wf q /\ size q = 42 /\
  forall q', received q q' ->
  exists p, DoWrite B q' now = Finished (readAt B p, None) /\ msg_wf p /\ size p = 42 /\
  forall p', received p p' ->
  exists A' neb, DoWrite (readAt A q) p' now = Finished (A', None) /\ device A' = Some dA /\
    Neighbors.inv (neighbor A') /\
    Neighbors.GetByBytes (neighbor A') (ether_IpAddr B) = Ret (Some neb) /\
    Neighbors.HwAddr neb = ether_HwAddr B /\ Neighbors.Uptime neb = now /\
    (forall k l, Uint32 (ether_IpAddr B) <> Ret k -> Neighbors.neighbors (neighbor A) !! k = Some l ->
       Neighbors.neighbors (neighbor A') !! k = Some l).
Proof.
  intros HA HB Hi HdA HtA HdB HtB.
  pose proof HA as (LA1 & BA1 & LA2 & BA2). pose proof HB as (LB1 & BB1 & LB2 & BB2).
  destruct (onMiss_spec A (ether_IpAddr B)) as (q & Eq & Wq & Sq & _ & Pq); [done..|].
  exists q. do 3 (split; [done|]). intros q' Rq.
  assert (W1 : Ether.wf (newEth A EthArp EthAll))
    by (apply newEth_wf; try done; by apply (bool_decide_unpack _)).
  assert (W2 : Arp.wf (newArp A ArpRequest EthZero (ether_IpAddr B)))
    by (apply newArp_wf; try done; by apply (bool_decide_unpack _)).
  rewrite (DoWrite_arp B dB _ _ q q' now HdB HtB W1 eq_refl W2 Pq Rq).
  destruct (onArp_request B (newEth A EthArp EthAll) (newArp A ArpRequest EthZero (ether_IpAddr B)) now)
    as (p & Ep & Wp & Sp & _ & Pp); [done..|].
  exists p. rewrite Ep. do 3 (split; [done|]). intros p' Rp. cbn [newArp Arp.SHwAddr Arp.SIpAddr] in Pp.
  assert (W3 : Ether.wf (newEth B EthArp (ether_HwAddr A)))
    by (apply newEth_wf; try done; by apply (bool_decide_unpack _)).
  assert (W4 : Arp.wf (newArp B ArpReply (ether_HwAddr A) (ether_IpAddr A)))
    by (apply newArp_wf; try done; by apply (bool_decide_unpack _)).
  rewrite (DoWrite_arp (readAt A q) dA _ _ p p' now HdA HtA W3 eq_refl W4 Pp Rp).
  destruct (onArp_reply (readAt A q) (newEth B EthArp (ether_HwAddr A))
    (newArp B ArpReply (ether_HwAddr A) (ether_IpAddr A)) now)
    as (n & k & En & Hn & Hk & (l & Hl & Hhw & Hip & Hup) & Hoth); [done..|].
  exists (upd_neighbor (readAt A q) n), l. rewrite En. split; [done|]. split; [done|]. split; [done|].
  change (Arp.SIpAddr _) with (ether_IpAddr B) in Hk.
  split; [unfold Neighbors.GetByBytes; rewrite Hk; cbn [mbind go_bind]; by rewrite <- Hl|].
  split; [done|]. split; [done|]. intros k' l' Hne Hl'. cbn [upd_neighbor neighbor].
  rewrite Hoth by (intros ->; by rewrite Hk in Hne). done.
Qed.

(** A point with an IP device, for the examples. *)
Definition tun_cfg : TapConfig :=
  {| Provider := "tun"; cfg_Type := TUN; cfg_Network := ""; cfg_Name := "tun0"; VirBuf := 8;
     KernBuf := 8; cfg_Mtu := 1500 |}.
Definition demo_tun (hw ip : bytes) (rd : list (result bytes)) : TapWorker KernelTap :=
  {| device := Some {| k_device := Some {| w_rd := rd; w_wr := [inl 0; inl 0]; w_out := [] |};
                       k_master := None; k_tenant := ""; k_name := "tun0";
                       k_config := tun_cfg;
                       k_ipMtu := 1500 |};
     ether_HwAddr := hw; ether_IpAddr := ip;
     neighbor := {| Neighbors.neighbors := ∅; Neighbors.timeout := 180; Neighbors.interval := 60 |};
     devCfg := tun_cfg; ifAddr := ""; eventQueue := []; sent := [] |}.

Lemma arp_resolution_witness :
  let A := demo_tun [2; 0; 0; 0; 0; 1] [10; 0; 0; 1] [] in
  let B := demo_tun [2; 0; 0; 0; 0; 2] [10; 0; 0; 2] [] in
  exists q p A' neb, onMiss A [10; 0; 0; 2] = Ret (readAt A q) /\
    DoWrite B (deliver q) 7 = Finished (readAt B p, None) /\
    DoWrite (readAt A q) (deliver p) 7 = Finished (A', None) /\
    Neighbors.GetByBytes (neighbor A') [10; 0; 0; 2] = Ret (Some neb) /\
    Neighbors.HwAddr neb = [2; 0; 0; 0; 0; 2].
Proof.
  intros A B.
  assert (HA : addr_ok A) by (repeat split; by apply (bool_decide_unpack _)).
  assert (HB : addr_ok B) by (repeat split; by apply (bool_decide_unpack _)).
  destruct (arp_resolution (HT := kernel_taper) A B _ _ 7 HA HB (map_Forall_empty _)
    eq_refl eq_refl eq_refl eq_refl) as (q & Eq & Wq & _ & H).
  destruct (H (deliver q) (deliver_received q Wq)) as (p & Ep & Wp & _ & H2).
  destruct (H2 (deliver p) (deliver_received p Wp)) as (A' & neb & E & _ & _ & G & Hw & _).
  exists q, p, A', neb. split; [exact Eq|]. split; [exact Ep|]. split; [exact E|]. split; [exact G|exact Hw].
Defined.

Definition with_buffer (m : FrameMessage) (b : bytes) : FrameMessage :=
  {| control := control m; action := action m; params := params m; buffer := b;
     frame_len := frame_len m; size := size m; total := total m; proto := proto m |}.

(** The buffer of a new message after a read of [p] behind the room for a header. *)
Lemma read_buffer p :
  zlen p <= MaxBuf + EthDI - EtherLen ->
  exists b rest, frame_copy (NewFrameMessage 0) EtherLen p = Ret b /\
    b = make_bytes 4 ++ (make_bytes 14 ++ p) ++ rest /\
    zlen p + zlen rest = MaxBuf + EthDI - EtherLen.
Proof.
  intros Hp. change (MaxBuf + EthDI - EtherLen) with 4088 in *.
  assert (Hb : buffer (NewFrameMessage 0) = make_bytes 4 ++ (make_bytes 14 ++ make_bytes 4088)) by reflexivity.
  assert (Hz : zlen (make_bytes 14 ++ make_bytes 4088) = 4102) by (vm_compute; done).
  eexists _, (drop (length p) (make_bytes 4088)).
  rewrite (frame_copy_ok _ _ _ EtherLen p Hb);
    [|done|by rewrite Hz|rewrite Hz; unfold EtherLen; lia|rewrite Hz; unfold EtherLen; lia].
  split; [done|]. split.
  - f_equal. change (Z.to_nat EtherLen) with (length (make_bytes 14)). apply write_at_app.
    unfold zlen in Hp. change (length (make_bytes 4088)) with 4088%nat. lia.
  - unfold zlen in *. rewrite length_drop. change (length (make_bytes 4088)) with 4088%nat. lia.
Qed.

(** Putting the header in front of what was read. *)
Lemma append_header b p rest e :
  b = make_bytes 4 ++ (make_bytes 14 ++ p) ++ rest ->
  zlen p + zlen rest = MaxBuf + EthDI - EtherLen -> zlen e = 14 ->
  let m := with_buffer (NewFrameMessage 0) b in
  slice (Frame m) EtherLen (EtherLen + zlen p) = Ret p /\
  exists m', Append m e = Ret m' /\ msg_wf (SetSize m' (14 + zlen p)) /\
    payload (SetSize m' (14 + zlen p)) = e ++ p /\ control m' = false.
Proof.
  intros -> Hr He m. change (MaxBuf + EthDI - EtherLen) with 4088 in *.
  pose proof (zlen_nonneg p) as Hp0. pose proof (zlen_nonneg rest) as Hr0.
  assert (Hm14 : zlen (make_bytes 14) = 14) by reflexivity.
  assert (Hz : zlen ((make_bytes 14 ++ p) ++ rest) = 4102) by (rewrite !zlen_app, Hm14; lia).
  assert (HF : Frame m = (make_bytes 14 ++ p) ++ rest).
  { apply (Frame_app m (make_bytes 4)); [done|done|]. by rewrite Hz. }
  split.
  - rewrite HF, slice_ok by (rewrite ?Hz; unfold EtherLen; lia). f_equal.
    rewrite <- app_assoc. change (Z.to_nat EtherLen) with (length (make_bytes 14)).
    rewrite drop_app_length. apply take_app_length'. unfold zlen. lia.
  - unfold Append. change (total m - size m) with 4102. rewrite (proj2 (Z.leb_le _ _)) by lia.
    change (size m) with 0.
    rewrite (frame_copy_ok m (make_bytes 4) ((make_bytes 14 ++ p) ++ rest)) by (done || rewrite ?Hz; lia).
    cbn [mbind go_bind]. eexists. split; [done|].
    assert (Hw : write_at ((make_bytes 14 ++ p) ++ rest) 0 e = e ++ p ++ rest).
    { pose proof (write_at_app [] ((make_bytes 14 ++ p) ++ rest) e ltac:(unfold zlen in *; lia)) as Ew.
      cbn [app length] in Ew. rewrite Ew. f_equal. rewrite <- app_assoc.
      replace (length e) with (length (make_bytes 14)) by (unfold zlen in *; simpl; lia).
      apply drop_app_length. }
    change (Z.to_nat 0) with 0%nat. rewrite Hw.
    match goal with |- context [SetSize ?x _] => set (m' := x) end.
    assert (HF' : Frame (SetSize m' (14 + zlen p)) = e ++ p ++ rest).
    { apply (Frame_app _ (make_bytes 4)); [done|done|]. rewrite !zlen_app, He.
      change (frame_len (SetSize m' (14 + zlen p))) with 4102. lia. }
    split; [|split; [|done]].
    + unfold msg_wf, SetSize. cbn [buffer frame_len total size m'].
      rewrite !zlen_app, He. change (zlen (make_bytes 4)) with 4. unfold HlSize.
      change (frame_len m) with 4102. change (total m) with 4102. lia.
    + unfold payload. rewrite HF', app_assoc. cbn [size SetSize].
      apply take_app_length'. rewrite length_app. unfold zlen in *. lia.
Qed.

(** An IP packet crosses from one point's device to another's unchanged: when [A]
    reads packet [p] for which the route gives the next hop [nh] and the neighbor table
    has [nh], it sends one frame, [p] behind an Ethernet header from its own to the
    neighbor's hardware address; any point with an IP device that receives that frame
    writes exactly [p]. *)
Theorem tun_packet_roundtrip {T} `{HT : Taper T} (A : TapWorker T) (dev dev' : T) (p : bytes)
    (iph : Ipv4.t) (fn : option (bytes -> bytes)) (nh : bytes) (neb : Neighbors.Neighbor) :
  isTun A = true -> addr_ok A -> Neighbors.inv (neighbor A) ->
  zlen p <= MaxBuf + EthDI - EtherLen ->
  Read dev (MaxBuf + EthDI - EtherLen) = Finished (dev', inl p) ->
  Ipv4.NewIpv4FromFrame p = Ret (iph, None) ->
  nh = match fn with Some f => f (Ipv4.Destination iph) | None => Ipv4.Destination iph end ->
  Neighbors.GetByBytes (neighbor A) nh = Ret (Some neb) ->
  exists m, read_round A fn dev = Finished (readAt A m, dev', true) /\ msg_wf m /\
    payload m = Neighbors.HwAddr neb ++ ether_HwAddr A ++ be16 EthIp4 ++ p /\
    forall (B : TapWorker T) d m' now, device B = Some d -> IsTun d = true -> received m m' ->
      DoWrite B m' now = dev_write B d p.
Proof.
  intros Ht HA Hi Hp HR Hip -> HG.
  destruct (read_buffer p Hp) as (b & rest & Eb & Hb & Hr).
  assert (Hneb : length (Neighbors.HwAddr neb) = 6%nat /\ bytes_ok (Neighbors.HwAddr neb)).
  { unfold Neighbors.GetByBytes in HG. destruct (Uint32 _) as [k|]; [|done]. cbn [mbind go_bind] in HG.
    injection HG as HG. destruct (Hi k neb HG) as (? & ? & _). done. }
  set (eth := newEth A EthIp4 (Neighbors.HwAddr neb)).
  assert (He : Ether.wf eth) by (apply newEth_wf; [done|apply Hneb..|by apply (bool_decide_unpack _)]).
  pose proof (ether_wire_len eth He) as Hle.
  destruct (append_header b p rest (ether_wire eth) Hb Hr Hle) as (Hs & m & Em & Wm & Pm & Cm).
  exists (SetSize m (14 + zlen p)). split.
  - unfold read_round. rewrite Ht. change (frame_len (NewFrameMessage 0) - EtherLen) with (MaxBuf + EthDI - EtherLen).
    rewrite HR. cbn [mbind run_bind]. rewrite Eb. cbn [lift mbind run_bind].
    fold (with_buffer (NewFrameMessage 0) b). unfold onFrame. rewrite Hs. cbn [mbind go_bind].
    rewrite Ht, Hip. cbn [mbind go_bind]. rewrite HG. cbn [mbind go_bind].
    fold eth. rewrite ether_encode_wire by done. fold (ether_wire eth). cbn [mbind go_bind].
    rewrite Em. cbn [mbind go_bind lift run_bind]. change (Ether.Len eth) with 14.
    rewrite (Z.add_comm (zlen p) 14). pose proof (zlen_nonneg p).
    by rewrite (proj2 (Z.eqb_neq (14 + zlen p) 0)) by lia.
  - split; [done|]. split; [rewrite Pm; unfold ether_wire; by rewrite <- !app_assoc|].
    intros B d m' now Hd HT2 (_ & Hf & _). unfold DoWrite. rewrite Hd, HT2, Hf, Pm.
    unfold toArp. rewrite ether_wire_decode by done. cbn [mbind go_bind lift run_bind].
    unfold Ether.IsArp, Ether.IsIP4. change (Ether.Type_ eth) with EthIp4.
    change (EthIp4 =? EthArp) with false. change (EthIp4 =? EthIp4) with true.
    cbn [negb lift mbind run_bind]. rewrite ?ether_wire_decode by done. cbn [mbind go_bind lift run_bind].
    change (Ether.Type_ eth =? EthIp4) with true. cbn iota.
    rewrite slice_from_ok by (rewrite zlen_app; pose proof (zlen_nonneg p); lia).
    cbn [lift mbind run_bind].
    replace (Z.to_nat 14) with (length (ether_wire eth)) by (unfold zlen in Hle; lia).
    by rewrite drop_app_length.
Qed.

Definition demo_packet : bytes :=
  [69; 0; 0; 20; 0; 0; 0; 0; 64; 1; 0; 0; 10; 0; 0; 1; 10; 0; 0; 2].
Definition demo_neb : Neighbors.Neighbor :=
  {| Neighbors.HwAddr := [2; 0; 0; 0; 0; 2]; Neighbors.IpAddr := [10; 0; 0; 2];
     Neighbors.Uptime := 5; Neighbors.NewTime := 5 |}.
Definition demo_sender : TapWorker KernelTap :=
  upd_neighbor (demo_tun [2; 0; 0; 0; 0; 1] [10; 0; 0; 1] [])
    {| Neighbors.neighbors := {[ join32 10 0 0 2 := demo_neb ]}; Neighbors.timeout := 180;
       Neighbors.interval := 60 |}.
Definition demo_dev (rd : list (result bytes)) : KernelTap :=
  {| k_device := Some {| w_rd := rd; w_wr := [inl 0; inl 0]; w_out := [] |}; k_master := None;
     k_tenant := ""; k_name := "tun0"; k_config := tun_cfg; k_ipMtu := 1500 |}.

Lemma tun_packet_roundtrip_witness :
  let B := demo_tun [2; 0; 0; 0; 0; 2] [10; 0; 0; 2] [] in
  exists m, read_round demo_sender None (demo_dev [inl demo_packet]) =
      Finished (readAt demo_sender m, demo_dev [], true) /\
    payload m = [2; 0; 0; 0; 0; 2; 2; 0; 0; 0; 0; 1; 8; 0] ++ demo_packet /\
    DoWrite B (deliver m) 7 = dev_write B (demo_dev []) demo_packet.
Proof.
  intros B. destruct (Ipv4.NewIpv4FromFrame demo_packet) as [[iph [e|]]|] eqn:E;
    [by vm_compute in E| |by vm_compute in E].
  assert (Hd : Ipv4.Destination iph = [10; 0; 0; 2]) by (vm_compute in E; by injection E as <-).
  destruct (tun_packet_roundtrip (HT := kernel_taper) demo_sender (demo_dev [inl demo_packet]) (demo_dev [])
    demo_packet iph None (Ipv4.Destination iph) demo_neb) as (m & Em & Wm & Pm & Hm);
    [reflexivity|repeat split; by apply (bool_decide_unpack _)| |by vm_compute|reflexivity|exact E|reflexivity| |].
  - apply map_Forall_singleton. repeat split; by apply (bool_decide_unpack _).
  - by rewrite Hd.
  - exists m. split; [exact Em|]. split; [exact Pm|].
    apply (Hm B (demo_dev []) (deliver m) 7 eq_refl eq_refl). by apply deliver_received.
Defined.

(** ** A device for IP packets without an address of its own *)

Lemma setEther_hw {T} (a a' : TapWorker T) addr now :
  setEther a addr None now = Finished a' ->
  ether_HwAddr a' = ether_HwAddr a /\ devCfg a' = devCfg a.
Proof.
  unfold setEther. destruct (IPNetmask addr) as [s|]; [|by intros [= <-]].
  destruct (_ && _); cbn [mbind run_bind]; [|by intros [= <-]].
  unfold push, ev_push. destruct (_ <? _); cbn [mbind run_bind]; [|done]. by intros [= <-].
Qed.

(** The worker after the addresses the switch handed out one after the other. *)
Fixpoint set_addrs {T} (a : TapWorker T) (addrs : list string) (now : Z) : run (TapWorker T) :=
  match addrs with
  | [] => Finished a
  | s :: addrs => a ← setEther a s None now; set_addrs a addrs now
  end.

Lemma newEth_no_hw {T} (a : TapWorker T) t dst :
  ether_HwAddr a = [] -> Ether.Encode (newEth a t dst) = Panic.
Proof.
  intros Ha. unfold Ether.Encode. cbn [newEth Ether.Dst Ether.Src]. rewrite Ha.
  destruct (slice dst 0 6) as [d|]; [|done]. cbn [mbind go_bind].
  by destruct (copy_into _ 0 6 d).
Qed.

Lemma onFrame_no_hw {T} (a : TapWorker T) fn frame off n data iph :
  isTun a = true -> ether_HwAddr a = [] -> slice (Frame frame) off (off + n) = Ret data ->
  Ipv4.NewIpv4FromFrame data = Ret (iph, None) -> onFrame a fn frame off n = Panic.
Proof.
  intros Ht Ha Hs Hi. unfold onFrame. rewrite Hs. cbn [mbind go_bind]. rewrite Ht, Hi.
  cbn [mbind go_bind].
  destruct (Neighbors.GetByBytes _ _) as [[neb|]|]; cbn [mbind go_bind]; [| |done].
  - by rewrite newEth_no_hw.
  - unfold onMiss, arpFrame. by rewrite newEth_no_hw.
Qed.

(** A point with an IP device that is configured without an address, to get one
    from the switch, never gets a hardware address: [setEther] gives up on the empty
    address before it stores the generated one, and the addresses that come later are
    set without one.  Every IPv4 packet read from the device then crashes the reader,
    whatever addresses the switch has handed out. *)
Theorem tun_without_address_crashes {T} `{HT : Taper T} (c : TapConfig) (address : string) (genHw : bytes)
    (taper : result T) (up : T -> run T) (OnOpen : TapWorker T -> run (TapWorker T)) (now : Z)
    (a a' : TapWorker T) (addrs : list string) (fn : option (bytes -> bytes)) (frame : FrameMessage)
    (off n : Z) (data : bytes) (iph : Ipv4.t) :
  cfg_Type c = TUN -> IPNetmask address = None ->
  (forall x y, OnOpen x = Finished y -> ether_HwAddr y = ether_HwAddr x /\ devCfg y = devCfg x) ->
  Initialize (NewTapWorker c) address genHw taper up OnOpen now = Finished a ->
  set_addrs a addrs now = Finished a' ->
  slice (Frame frame) off (off + n) = Ret data -> Ipv4.NewIpv4FromFrame data = Ret (iph, None) ->
  onFrame a' fn frame off n = Panic.
Proof.
  intros Hc Had Hopen Hinit Hset Hs Hi.
  assert (Ha : ether_HwAddr a = [] /\ devCfg a = c).
  { unfold Initialize, isTun in Hinit. cbn [upd_neighbor devCfg NewTapWorker] in Hinit.
    rewrite Hc in Hinit. change (TUN =? TUN) with true in Hinit. cbn iota in Hinit.
    unfold setEther in Hinit. rewrite Had in Hinit. cbn [mbind run_bind] in Hinit.
    unfold open, close in Hinit. cbn [device upd_neighbor NewTapWorker mbind run_bind] in Hinit.
    destruct taper as [dev|e]; cbn [mbind run_bind] in Hinit.
    - destruct (up dev) as [d| |]; [|done|done]. cbn [mbind run_bind] in Hinit.
      destruct (OnOpen _) as [a1| |] eqn:Eo; [|done|done]. cbn [mbind run_bind] in Hinit.
      injection Hinit as <-. by destruct (Hopen _ _ Eo) as [-> ->].
    - by injection Hinit as <-. }
  assert (G : forall addrs a, ether_HwAddr a = [] /\ devCfg a = c -> set_addrs a addrs now = Finished a' ->
              ether_HwAddr a' = [] /\ devCfg a' = c).
  { clear. intros addrs. induction addrs as [|s addrs IH]; intros a Ha; simpl; [by intros [= <-]|].
    destruct (setEther a s None now) as [a1| |] eqn:E; [|done|done]. cbn [mbind run_bind].
    apply setEther_hw in E as [E1 E2]. apply IH. by rewrite E1, E2. }
  destruct (G addrs a Ha Hset) as [H1 H2].
  eapply onFrame_no_hw; [|done..]. unfold isTun. by rewrite H2, Hc.
Qed.

Lemma tun_without_address_crashes_witness :
  let a := demo_tun [] [] [] in
  let frame := with_buffer (NewFrameMessage 0) (make_bytes 18 ++ demo_packet ++ make_bytes 4068) in
  exists a0 a1, Initialize (NewTapWorker tun_cfg) "" [2; 0; 0; 0; 0; 1] (inl (demo_dev [])) Finished Finished 5
      = Finished a0 /\
    set_addrs a0 ["10.0.0.7/24"%string] 9 = Finished a1 /\ onFrame a1 None frame 14 20 = Panic.
Proof.
  intros a frame.
  destruct (Initialize (NewTapWorker tun_cfg) "" [2; 0; 0; 0; 0; 1] (inl (demo_dev [])) Finished Finished 5)
    as [a0| |] eqn:E0; [|by vm_compute in E0..].
  destruct (set_addrs a0 ["10.0.0.7/24"%string] 9) as [a1| |] eqn:E1.
  - exists a0, a1. split; [done|]. split; [exact E1|].
    destruct (Ipv4.NewIpv4FromFrame demo_packet) as [[iph [e|]]|] eqn:E;
      [by vm_compute in E| |by vm_compute in E].
    assert (E1' : set_addrs a0 ["10.0.0.7/24"%string] 5 = Finished a1)
      by (vm_compute in E0; injection E0 as <-; vm_compute in E1; injection E1 as <-; by vm_compute).
    apply (tun_without_address_crashes tun_cfg "" [2; 0; 0; 0; 0; 1] (inl (demo_dev [])) Finished Finished 5
      a0 a1 ["10.0.0.7/24"%string] None frame 14 20 demo_packet iph);
      [done|done|by intros x y [= <-]|exact E0|exact E1'|by vm_compute|exact E].
  - exfalso. vm_compute in E0. injection E0 as <-. by vm_compute in E1.
  - exfalso. vm_compute in E0. injection E0 as <-. by vm_compute in E1.
Defined.

(** ** Locks

    [a.lock] of the worker and [lock] of its neighbor table, taken by the goroutine of
    the table ([Start]) and by the others in opposite orders.  The operations on locks
    and on the channel [done] of each function, in order: *)
Inductive mutex := ALock | NLock.
Inductive lock_op := Lock (m : mutex) | Unlock (m : mutex) | SendDone | RecvDone.

Definition Interval_ops (n : Neighbors.t) (now : Z) : list lock_op :=
  [Lock NLock] ++ concat ((fun _ => [Lock ALock; Unlock ALock]) <$> Neighbors.Interval n now)
  ++ [Unlock NLock].
(** One tick of [Start] and the return to its [select]. *)
Definition tick_ops (n : Neighbors.t) (now : Z) : list lock_op :=
  Interval_ops n now ++ [Lock NLock; Unlock NLock] ++ [RecvDone].

(** Whether [toArp] comes to [Neighbors.Add]. *)
Definition learns {T} (a : TapWorker T) (data : bytes) : bool :=
  match Ether.NewEtherFromFrame data with
  | Ret (eth, None) =>
      Ether.IsArp eth &&
      match slice_from data (Ether.Len eth) ≫= Arp.NewArpFromFrame with
      | Ret (arp, None) =>
          Arp.IsIP4 arp && bool_decide (Ether.Src eth = Arp.SHwAddr arp) &&
          (Arp.OpCode arp =? ArpReply) && bool_decide (Arp.THwAddr arp = ether_HwAddr a)
      | _ => false
      end
  | _ => false
  end.
Definition DoWrite_ops {T} `{HT : Taper T} (a : TapWorker T) (frame : FrameMessage) : list lock_op :=
  match device a with
  | Some d => if IsTun d && learns a (Frame frame)
              then [Lock ALock; Lock NLock; Unlock NLock; Unlock ALock]
              else [Lock ALock; Unlock ALock]
  | None => [Lock ALock; Unlock ALock]
  end.
(** [dispatch] of an address event clears the table. *)
Definition ipaddr_ops : list lock_op := [Lock ALock; Lock NLock; Unlock NLock; Unlock ALock].
Definition Stop_ops : list lock_op := [Lock ALock; SendDone; Unlock ALock].

(** The goroutine of the table ([true]) beside another one ([false]). *)
Record locks := {
  a_held : option bool; n_held : option bool; ticker : list lock_op; other : list lock_op
}.
Definition held (s : locks) (m : mutex) : option bool :=
  match m with ALock => a_held s | NLock => n_held s end.
Definition set_held (s : locks) (m : mutex) (h : option bool) : locks :=
  match m with
  | ALock => {| a_held := h; n_held := n_held s; ticker := ticker s; other := other s |}
  | NLock => {| a_held := a_held s; n_held := h; ticker := ticker s; other := other s |}
  end.
Definition set_ticker (s : locks) (l : list lock_op) : locks :=
  {| a_held := a_held s; n_held := n_held s; ticker := l; other := other s |}.
Definition set_other (s : locks) (l : list lock_op) : locks :=
  {| a_held := a_held s; n_held := n_held s; ticker := ticker s; other := l |}.

Inductive lstep : locks -> locks -> Prop :=
| L_tick_lock s m l : ticker s = Lock m :: l -> held s m = None ->
    lstep s (set_held (set_ticker s l) m (Some true))
| L_tick_unlock s m l : ticker s = Unlock m :: l -> held s m = Some true ->
    lstep s (set_held (set_ticker s l) m None)
| L_other_lock s m l : other s = Lock m :: l -> held s m = None ->
    lstep s (set_held (set_other s l) m (Some false))
| L_other_unlock s m l : other s = Unlock m :: l -> held s m = Some false ->
    lstep s (set_held (set_other s l) m None)
| L_done s l1 l2 : ticker s = RecvDone :: l1 -> other s = SendDone :: l2 ->
    lstep s (set_ticker (set_other s l2) l1).

(** Neither goroutine can move and both still have work to do. *)
Definition deadlocked (s : locks) : Prop :=
  ticker s <> [] /\ other s <> [] /\ forall s', ~ lstep s s'.

Definition start_locks (t o : list lock_op) : locks :=
  {| a_held := None; n_held := None; ticker := t; other := o |}.

Lemma tick_takes_n n now :
  Neighbors.Interval n now <> [] -> exists l, tick_ops n now = Lock NLock :: Lock ALock :: l.
Proof.
  unfold tick_ops, Interval_ops. destruct (Neighbors.Interval n now) as [|d ds]; [done|].
  intros _. by eexists.
Qed.

(** The table's lock first on one side, the worker's first on the other. *)
Lemma crossed_deadlock l o :
  (exists o', o = Lock NLock :: o') \/ (exists o', o = SendDone :: o') ->
  exists s, rtc lstep (start_locks (Lock NLock :: Lock ALock :: l) (Lock ALock :: o)) s /\ deadlocked s.
Proof.
  intros Ho.
  exists {| a_held := Some false; n_held := Some true; ticker := Lock ALock :: l; other := o |}. split.
  - eapply rtc_l; [by apply (L_tick_lock _ NLock (Lock ALock :: l))|].
    eapply rtc_l; [by apply (L_other_lock _ ALock o)|]. apply rtc_refl.
  - split; [done|]. split; [by destruct Ho as [[o' ->]|[o' ->]]|].
    intros s' Hs. inversion Hs; subst; simpl in *; destruct Ho as [[o' ->]|[o' ->]];
      repeat match goal with m : mutex |- _ => destruct m end; simplify_eq/=.
Qed.

(** The locks of the device worker are taken in opposite orders: whenever some
    neighbor is due for a probe, the goroutine of the neighbor table can end up waiting
    for ever for the worker's lock while the worker waits for ever for the table: when
    it writes the ARP reply of a neighbor, when it is handed an address, and when it is
    stopped. *)
Theorem tap_lock_order_deadlock {T} `{HT : Taper T} (a : TapWorker T) (d : T) (frame : FrameMessage) (now : Z) :
  Neighbors.Interval (neighbor a) now <> [] ->
  device a = Some d -> IsTun d = true -> learns a (Frame frame) = true ->
  forall ops, ops ∈ [DoWrite_ops a frame; ipaddr_ops; Stop_ops] ->
  exists s, rtc lstep (start_locks (tick_ops (neighbor a) now) ops) s /\ deadlocked s.
Proof.
  intros Hi Hd Ht Hl ops Hops. destruct (tick_takes_n _ _ Hi) as [l ->].
  assert (E : DoWrite_ops a frame = ipaddr_ops) by (unfold DoWrite_ops; by rewrite Hd, Ht, Hl).
  rewrite E in Hops. unfold ipaddr_ops, Stop_ops in *.
  repeat (apply elem_of_cons in Hops as [->|Hops]); [| | |by apply not_elem_of_nil in Hops];
    apply crossed_deadlock; [left|left|right]; by eexists.
Qed.

(** The reply of [B] to [A], as [A] receives it. *)
Definition demo_reply : FrameMessage :=
  with_buffer (deliver (SetSize (NewFrameMessage 0) 42))
    (MAGIC ++ be16 42 ++ [2; 0; 0; 0; 0; 1; 2; 0; 0; 0; 0; 2; 8; 6; 0; 1; 8; 0; 6; 4; 0; 2;
     2; 0; 0; 0; 0; 2; 10; 0; 0; 2; 2; 0; 0; 0; 0; 1; 10; 0; 0; 1]).

Lemma tap_lock_order_deadlock_witness :
  exists s, rtc lstep (start_locks (tick_ops (neighbor demo_sender) 100) (DoWrite_ops demo_sender demo_reply)) s
    /\ deadlocked s.
Proof.
  apply (tap_lock_order_deadlock (HT := kernel_taper) demo_sender (demo_dev []) demo_reply 100);
    [by vm_compute|reflexivity|reflexivity|by vm_compute|by apply elem_of_cons; left].
Defined.

(** A frame that does not come to [Neighbors.Add] leaves the table alone. *)
Lemma learns_only {T} (a a' : TapWorker T) data now r :
  learns a data = false -> toArp a data now = Ret (a', r) -> neighbor a' = neighbor a.
Proof.
  unfold learns, toArp. destruct (Ether.NewEtherFromFrame data) as [[eth [e|]]|]; cbn [mbind go_bind];
    [by intros _ [= <- _]| |done].
  destruct (Ether.IsArp eth); cbn [negb andb]; [|by intros _ [= <- _]].
  destruct (slice_from data (Ether.Len eth)) as [d|]; cbn [mbind go_bind]; [|done].
  destruct (Arp.NewArpFromFrame d) as [[arp [e|]]|]; cbn [mbind go_bind]; [by intros _ [= <- _]| |done].
  unfold onArp. destruct (Arp.IsIP4 arp); cbn [andb]; [|by intros _ [= <- _]].
  destruct (bool_decide (Ether.Src eth = _)); cbn [negb andb]; [|by intros _ [= <- _]].
  destruct (Z.eqb_spec (Arp.OpCode arp) ArpRequest) as [->|].
  - intros _. destruct (bool_decide _); [|by intros [= <- _]].
    destruct (arpFrame _ _); cbn [mbind go_bind]; [|done]. by intros [= <- _].
  - destruct (_ =? ArpReply); cbn [andb]; [|by intros _ [= <- _]].
    destruct (bool_decide (Arp.THwAddr arp = _)); [done|]. by intros _ [= <- _].
Qed.

(** ** Opening the device again

    Devices as handles, with the set of those that are closed and of those a [Read]
    goroutine still runs on.  The steps are [dispatch] on the head of the event queue,
    the end of a [Read] loop (its device answered with an error, as every closed device
    does) and the arrival of an address. *)

#[export] Instance handle_taper : Taper nat := {|
  Name h := pretty h; IsTun _ := false; Has _ _ := true; Read _ _ := Blocks;
  Write h p := Finished (h, inl (zlen p)); Send h p := Finished (h, inl (zlen p)); Recv _ _ := Blocks;
  Close h := Finished (h, no_detach); Master _ := None; SetMaster h _ := (h, err_closed)
|}.

Record tapsys := {
  ts : TapWorker nat; ts_closed : gset nat; ts_readers : gset nat; ts_next : nat
}.

Definition reopens (ev : WorkerEvent) : bool :=
  String.eqb (Type_ ev) EvTapReadErr || String.eqb (Type_ ev) EvTapOpenErr
  || String.eqb (Type_ ev) EvTapReset.

(** The sets after the dispatch of [ev]: [close] of the current device, and a reader on
    the new one if it could be opened. *)
Definition dev_set (d : option nat) : gset nat := match d with Some h => {[ h ]} | None => ∅ end.
Definition after_dispatch (s : tapsys) (ev : WorkerEvent) (ok : bool) (a : TapWorker nat) : tapsys :=
  if reopens ev then
    {| ts := a; ts_closed := ts_closed s ∪ dev_set (device (ts s));
       ts_readers := if ok then ts_readers s ∪ {[ ts_next s ]} else ts_readers s;
       ts_next := if ok then S (ts_next s) else ts_next s |}
  else {| ts := a; ts_closed := ts_closed s; ts_readers := ts_readers s; ts_next := ts_next s |}.

(** Whether the event makes [setEther] ask for a reset. *)
Definition readdresses (a : TapWorker nat) (ev : WorkerEvent) : bool :=
  String.eqb (Type_ ev) EvTapIpAddr &&
  match IPNetmask (Reason ev) with
  | Some s => negb (String.eqb (ifAddr a) "") && negb (String.eqb (ifAddr a) s)
  | None => false
  end.

(** Steps, labelled with the number of resets they ask for. *)
Inductive tstep : tapsys -> nat -> tapsys -> Prop :=
| T_dispatch s ev q (taper : result nat) now a' :
    eventQueue (ts s) = ev :: q ->
    match taper with inl h => h = ts_next s | inr _ => True end ->
    dispatch (upd_events (ts s) q) ev taper Finished Finished now = Finished a' ->
    tstep s (if readdresses (ts s) ev then 1 else 0)
          (after_dispatch s ev (match taper with inl _ => true | inr _ => false end) a')
| T_reader s h now a' :
    h ∈ ts_readers s ->
    read_end (ts s) now = Finished a' ->
    tstep s 0 {| ts := a'; ts_closed := ts_closed s; ts_readers := ts_readers s ∖ {[ h ]};
                 ts_next := ts_next s |}
| T_addr s addr now a' :
    OnIpAddr (ts s) addr now = Finished a' ->
    tstep s 0 {| ts := a'; ts_closed := ts_closed s; ts_readers := ts_readers s; ts_next := ts_next s |}.

Inductive truns : tapsys -> nat -> tapsys -> Prop :=
| truns_refl s : truns s 0 s
| truns_step s k s' j s'' : truns s k s' -> tstep s' j s'' -> truns s (k + j) s''.

(** Reopenings to come: events in the queue and readers that will find their device
    closed. *)
Definition pending (s : tapsys) : nat :=
  length (filter (fun ev => reopens ev = true) (eventQueue (ts s))) + base.size (ts_readers s ∩ ts_closed s).

(** The current device is open and read from. *)
Definition live_dev (s : tapsys) : bool :=
  match device (ts s) with
  | Some h => bool_decide (h ∈ ts_readers s /\ h ∉ ts_closed s)
  | None => false
  end.

Definition tap_ok (s : tapsys) : Prop :=
  (exists h, device (ts s) = Some h /\ (h < ts_next s)%nat) /\
  (forall h, h ∈ ts_readers s -> (h < ts_next s)%nat /\ (h ∈ ts_closed s \/ device (ts s) = Some h)) /\
  (forall h, h ∈ ts_closed s -> (h < ts_next s)%nat).

(** A worker whose first device was opened. *)
Definition fresh_sys (c : TapConfig) (addr : string) : tapsys :=
  {| ts := upd_ifAddr (upd_device (NewTapWorker c) (Some 0%nat)) addr; ts_closed := ∅;
     ts_readers := {[ 0%nat ]}; ts_next := 1 |}.

Lemma ev_push_app q e q' : ev_push q e = Finished q' -> q' = q ++ [e].
Proof. unfold ev_push. destruct (_ <? _); [|done]. by intros [= <-]. Qed.

(** [dispatch] of an event that opens the device again. *)
Lemma dispatch_reopen (a a' : TapWorker nat) ev taper now :
  reopens ev = true -> dispatch a ev taper Finished Finished now = Finished a' ->
  match taper with
  | inl h => device a' = Some h /\ eventQueue a' = eventQueue a
  | inr _ => device a' = device a /\
             exists e, eventQueue a' = eventQueue a ++ [e] /\ reopens e = true
  end.
Proof.
  unfold reopens, dispatch. intros -> E. unfold open, close in E.
  assert (Ec : match device a with
               | Some d => r ← Close d; Finished (upd_device a (Some r.1))
               | None => Finished a
               end = Finished a).
  { destruct a as [[h|] ? ? ? ? ? ? ?]; reflexivity. }
  cbn beta in E. rewrite Ec in E. cbn [mbind run_bind] in E.
  destruct taper as [h|e]; cbn [mbind run_bind] in E.
  - by injection E as <-.
  - unfold push in E. destruct (ev_push _ _) as [q| |] eqn:Eq; [|done|done]. cbn [mbind run_bind] in E.
    injection E as <-. apply ev_push_app in Eq as ->. split; [done|]. by eexists.
Qed.

(** [dispatch] of the others. *)
Lemma dispatch_keep (a a' : TapWorker nat) ev taper now :
  reopens ev = false -> dispatch a ev taper Finished Finished now = Finished a' ->
  device a' = device a /\
  exists l, eventQueue a' = eventQueue a ++ l /\
    length (filter (fun e => reopens e = true) l) = (if readdresses a ev then 1 else 0)%nat.
Proof.
  unfold reopens, dispatch, readdresses. intros ->.
  destruct (String.eqb (Type_ ev) EvTapIpAddr); cbn [andb].
  2:{ intros [= <-]. split; [done|]. exists []. by rewrite app_nil_r. }
  unfold setEther. destruct (IPNetmask (Reason ev)) as [s|].
  2:{ intros [= <-]. split; [done|]. exists []. by rewrite app_nil_r. }
  cbn [upd_ether upd_neighbor ifAddr].
  destruct (negb (String.eqb (ifAddr a) "") && negb (String.eqb (ifAddr a) s)); cbn [mbind run_bind].
  - unfold push. destruct (ev_push _ _) as [q| |] eqn:Eq; [|done|done]. cbn [mbind run_bind].
    intros [= <-]. split; [done|]. apply ev_push_app in Eq. cbn [upd_ifAddr upd_events eventQueue].
    rewrite Eq. by eexists.
  - intros [= <-]. split; [done|]. exists []. by rewrite app_nil_r.
Qed.

Lemma size_inter_add (R C : gset nat) h :
  base.size (R ∩ (C ∪ {[ h ]})) =
  (base.size (R ∩ C) + (if bool_decide (h ∈ R /\ h ∉ C) then 1 else 0))%nat.
Proof.
  case_bool_decide as H.
  - replace (R ∩ (C ∪ {[ h ]})) with ((R ∩ C) ∪ {[ h ]}) by set_solver.
    rewrite size_union by set_solver. by rewrite size_singleton.
  - replace (R ∩ (C ∪ {[ h ]})) with (R ∩ C); [lia|].
    apply set_eq. intros x. destruct (decide (x = h)) as [->|]; [|set_solver].
    destruct (decide (h ∈ R)), (decide (h ∈ C)); set_solver.
Qed.

Lemma size_diff_inter (R C : gset nat) h :
  h ∈ R -> base.size (R ∩ C) =
  (base.size ((R ∖ {[ h ]}) ∩ C) + (if bool_decide (h ∈ C) then 1 else 0))%nat.
Proof.
  intros Hr. case_bool_decide as Hc.
  - replace (R ∩ C) with (((R ∖ {[ h ]}) ∩ C) ∪ {[ h ]}).
    + rewrite size_union by set_solver. by rewrite size_singleton.
    + apply set_eq. intros x. destruct (decide (x = h)) as [->|]; set_solver.
  - replace ((R ∖ {[ h ]}) ∩ C) with (R ∩ C) by set_solver. lia.
Qed.

Definition reopen_count (q : list WorkerEvent) : nat := length (filter (fun ev => reopens ev = true) q).
Lemma reopen_count_app q1 q2 : reopen_count (q1 ++ q2) = (reopen_count q1 + reopen_count q2)%nat.
Proof. unfold reopen_count. by rewrite filter_app, length_app. Qed.
Lemma reopen_count_cons ev q :
  reopen_count (ev :: q) = ((if reopens ev then 1 else 0) + reopen_count q)%nat.
Proof. unfold reopen_count. rewrite filter_cons. by destruct (reopens ev). Qed.

Definition live_nat (s : tapsys) : nat := if live_dev s then 1 else 0.

Lemma tstep_reopen s ev q (taper : result nat) now a' :
  tap_ok s -> eventQueue (ts s) = ev :: q -> reopens ev = true ->
  match taper with inl h => h = ts_next s | inr _ => True end ->
  dispatch (upd_events (ts s) q) ev taper Finished Finished now = Finished a' ->
  let s' := after_dispatch s ev (match taper with inl _ => true | inr _ => false end) a' in
  tap_ok s' /\ (pending s' + live_nat s' = pending s + live_nat s)%nat.
Proof.
  intros ((h & Hd & Hh) & Hr & Hc) Hq Hev Ht E s'.
  apply dispatch_reopen in E; [|done]. unfold s', after_dispatch. rewrite Hev, Hd.
  fold (reopen_count (eventQueue (ts s))). unfold pending, live_nat, live_dev. fold reopen_count.
  rewrite Hd, Hq. cbn [ts ts_closed ts_readers ts_next dev_set].
  fold (reopen_count (ev :: q)). rewrite reopen_count_cons, Hev.
  destruct taper as [h'|e]; destruct E as [Ed Eq]; cbn [upd_events device eventQueue] in *.
  - subst h'. rewrite Ed, Eq. fold (reopen_count q). split.
    + unfold tap_ok. cbn [ts ts_closed ts_readers ts_next].
      split; [exists (ts_next s); split; [exact Ed|lia]|]. split.
      * intros x [Hx| ->%elem_of_singleton]%elem_of_union; [|split; [lia|by right]].
        destruct (Hr x Hx) as [Hlt [Hcl|Hdx]]; (split; [lia|left]); [set_solver|].
        assert (x = h) as -> by congruence. set_solver.
      * intros x [Hx%Hc| ->%elem_of_singleton]%elem_of_union; lia.
    + assert (Hn : ts_next s ∉ ts_closed s ∪ {[ h ]}).
      { intros [Hx%Hc|Hx%elem_of_singleton]%elem_of_union; lia. }
      replace ((ts_readers s ∪ {[ts_next s]}) ∩ (ts_closed s ∪ {[h]}))
        with (ts_readers s ∩ (ts_closed s ∪ {[h]})) by set_solver.
      rewrite size_inter_add. rewrite (bool_decide_eq_true_2 (ts_next s ∈ _ /\ _)) by set_solver.
      destruct (bool_decide _); lia.
  - destruct Eq as (e' & -> & He'). rewrite Ed, Hd. fold (reopen_count (q ++ [e'])).
    rewrite reopen_count_app, (reopen_count_cons e'), He'. split.
    + unfold tap_ok. cbn [ts ts_closed ts_readers ts_next].
      split; [exists h; split; [congruence|done]|]. split.
      * intros x Hx. destruct (Hr x Hx) as [Hlt [Hcl|Hdx]]; (split; [lia|]); [left; set_solver|right; congruence].
      * intros x [Hx%Hc| ->%elem_of_singleton]%elem_of_union; lia.
    + rewrite size_inter_add, (bool_decide_eq_false_2 (h ∈ _ /\ h ∉ _ ∪ _)) by set_solver.
      destruct (bool_decide _); unfold reopen_count at 2; simpl; lia.
Qed.

Lemma tstep_reader s h now a' :
  tap_ok s -> h ∈ ts_readers s -> read_end (ts s) now = Finished a' ->
  let s' := {| ts := a'; ts_closed := ts_closed s; ts_readers := ts_readers s ∖ {[ h ]};
               ts_next := ts_next s |} in
  tap_ok s' /\ (pending s' + live_nat s' = pending s + live_nat s)%nat.
Proof.
  intros ((h0 & Hd & Hh) & Hr & Hc) Hin E s'. unfold read_end, isStopped in E.
  rewrite Hd, bool_decide_eq_false_2 in E by done.
  unfold push in E. destruct (ev_push _ _) as [q| |] eqn:Eq; [|done|done]. cbn [mbind run_bind] in E.
  injection E as <-. apply ev_push_app in Eq.
  unfold s', pending, live_nat, live_dev. cbn [ts ts_closed ts_readers ts_next upd_events device eventQueue].
  rewrite Hd, Eq. fold (reopen_count (eventQueue (ts s) ++ [NewEvent EvTapReadErr "from read" now])).
  fold (reopen_count (eventQueue (ts s))). rewrite reopen_count_app, reopen_count_cons.
  change (reopens _) with true. change (reopen_count []) with 0%nat. split.
  - split; [by eexists|]. split; [|done]. intros x Hx. simpl in Hx.
    apply elem_of_difference in Hx as [Hx _]. by apply Hr.
  - rewrite (size_diff_inter (ts_readers s) (ts_closed s) h Hin).
    destruct (Hr h Hin) as [_ [Hcl|Hdev]].
    + rewrite (bool_decide_eq_true_2 (h ∈ ts_closed s)) by done.
      rewrite (bool_decide_ext (h0 ∈ ts_readers s ∖ {[h]} /\ h0 ∉ ts_closed s)
                 (h0 ∈ ts_readers s /\ h0 ∉ ts_closed s)) by set_solver. lia.
    + assert (h0 = h) as -> by congruence.
      rewrite (bool_decide_eq_false_2 (h ∈ ts_readers s ∖ {[h]} /\ _)) by set_solver.
      destruct (decide (h ∈ ts_closed s)).
      * rewrite (bool_decide_eq_true_2 (h ∈ ts_closed s)), bool_decide_eq_false_2 by set_solver. lia.
      * rewrite (bool_decide_eq_false_2 (h ∈ ts_closed s)), bool_decide_eq_true_2 by set_solver. lia.
Qed.

Lemma tstep_debt s j s' :
  tstep s j s' -> tap_ok s -> tap_ok s' /\ (pending s' + live_nat s' = pending s + live_nat s + j)%nat.
Proof.
  destruct 1 as [s ev q taper now a' Hq Ht E|s h now a' Hin E|s addr now a' E]; intros Hok.
  - destruct (reopens ev) eqn:Hev.
    + destruct (tstep_reopen s ev q taper now a' Hok Hq Hev Ht E) as [H1 H2]. split; [done|].
      rewrite H2. unfold readdresses. unfold reopens in Hev.
      destruct (String.eqb_spec (Type_ ev) EvTapIpAddr) as [Et|]; [by rewrite Et in Hev|]. simpl. lia.
    + apply dispatch_keep in E as (Hd & l & El & Hl); [|done]. cbn [upd_events device eventQueue] in *.
      fold (reopen_count l) in Hl. change (readdresses (upd_events (ts s) q) ev) with (readdresses (ts s) ev) in Hl.
      unfold after_dispatch. rewrite Hev. destruct Hok as (Hx & Hr & Hc). split.
      * unfold tap_ok. cbn [ts ts_closed ts_readers ts_next]. by rewrite Hd.
      * unfold pending, live_nat, live_dev. cbn [ts ts_closed ts_readers]. rewrite Hd, El, Hq.
        fold (reopen_count (q ++ l)) (reopen_count (ev :: q)).
        rewrite reopen_count_app, reopen_count_cons, Hev, Hl. lia.
  - destruct (tstep_reader s h now a' Hok Hin E). split; [done|lia].
  - unfold OnIpAddr, push in E. destruct (ev_push _ _) as [q| |] eqn:Eq; [|done|done].
    cbn [mbind run_bind] in E. injection E as <-. apply ev_push_app in Eq. split; [done|].
    unfold pending, live_nat, live_dev. cbn [ts ts_closed ts_readers upd_events device eventQueue].
    rewrite Eq. fold (reopen_count (eventQueue (ts s) ++ [NewEvent EvTapIpAddr addr now])).
    fold (reopen_count (eventQueue (ts s))). rewrite reopen_count_app, reopen_count_cons.
    change (reopens (NewEvent EvTapIpAddr addr now)) with false. change (reopen_count []) with 0%nat. cbn iota. lia.
Qed.

(** A device that fails is replaced and that is the end of it, but an address that
    changes is never dealt with for good: in every state of a run, the reopenings still
    to come are one per reset asked for so far, and one more exactly while the current
    device is not read from.  So without a reset there are none left once a device is
    up; after a reset every new device is closed again by the reader of the one before
    it, for ever. *)
Theorem tap_reset_debt (c : TapConfig) (addr : string) (k : nat) (s : tapsys) :
  truns (fresh_sys c addr) k s ->
  pending s = (k + if live_dev s then 0 else 1)%nat.
Proof.
  intros H.
  assert (G : tap_ok s /\ (pending s + live_nat s = k + 1)%nat).
  { remember (fresh_sys c addr) as s0 eqn:E0. induction H as [s|s k s' j s'' Hruns IH Hs]; subst.
    - split; [|done]. split; [by exists 0%nat; split; [|simpl; lia]|]. split.
      + intros h Hh. cbn [fresh_sys ts_readers] in Hh. apply elem_of_singleton in Hh as ->. simpl.
        split; [lia|by right].
      + intros h Hh. simpl in Hh. set_solver.
    - destruct (IH eq_refl) as [Hok Hp]. destruct (tstep_debt _ _ _ Hs Hok) as [Hok' Hp'].
      split; [done|lia]. }
  destruct G as [_ G]. unfold live_nat in G. destruct (live_dev s); lia.
Qed.

(** An address arrives and is taken, then another one. *)
Lemma tap_reset_debt_witness :
  exists s, truns (fresh_sys tun_cfg "10.0.0.1/255.255.255.0") 1 s /\
    pending s = (1 + if live_dev s then 0 else 1)%nat.
Proof.
  pose (s0 := fresh_sys tun_cfg "10.0.0.1/255.255.255.0").
  destruct (OnIpAddr (ts s0) "10.0.0.9/24" 5) as [a1| |] eqn:E1; [|by vm_compute in E1..].
  pose (s1 := {| ts := a1; ts_closed := ts_closed s0; ts_readers := ts_readers s0; ts_next := ts_next s0 |}).
  pose (ev := NewEvent EvTapIpAddr "10.0.0.9/24" 5).
  assert (Ha : a1 = upd_events (ts s0) [ev]) by (vm_compute in E1; by injection E1 as <-).
  destruct (dispatch (upd_events (ts s1) []) ev (inr err_closed) Finished Finished 5) as [a2| |] eqn:E2;
    [|exfalso; subst s1; cbn [ts] in E2; rewrite Ha in E2; by vm_compute in E2..].
  assert (Hr : truns s0 1 (after_dispatch s1 ev false a2)).
  { change 1%nat with (0 + 0 + 1)%nat. eapply truns_step; [eapply truns_step; [apply truns_refl|]|].
    - apply (T_addr s0 "10.0.0.9/24" 5 a1 E1).
    - assert (Hj : 1%nat = (if readdresses (ts s1) ev then 1 else 0)%nat) by (subst s1; simpl; by rewrite Ha).
      rewrite Hj. apply (T_dispatch s1 ev [] (inr err_closed) 5 a2); [subst s1; simpl; by rewrite Ha|done|exact E2]. }
  exists (after_dispatch s1 ev false a2). split; [exact Hr|].
  apply (tap_reset_debt tun_cfg "10.0.0.1/255.255.255.0" 1 _ Hr).
Defined.
