(* ===== verification/PointSocket.v ===== *)
(** * The socket side of a point (pkg/olap/socket.go)

    [SocketWorker] keeps the connection of a point to its switch: it dials, logs in,
    asks for an address, keeps the session alive with pings, tries again later when the
    connection is lost, and drops frames while it is not logged in.  Its client is the
    one of Socket.v, whose callbacks feed the event queue; what its own listener is told
    (the worker of PointWorker.v) is recorded in order.  Dial outcomes are numbered by
    the attempt. *)

From S2P Require Import Prelude GoStd Protocol Message SafeMap Models Socket PointTap.

Local Open Scope Z_scope.

(** ** Keep-alive (pkg/olap/worker.go) *)
Module KeepAlive.
Record t := mk { Interval : Z; LastTime : Z }.
Definition Should (k : t) (now : Z) : bool := Interval k <=? now - LastTime k.
Definition Update (k : t) (now : Z) : t := {| Interval := Interval k; LastTime := now |}.
End KeepAlive.

Definition EvSocConed : string := "conned".
Definition EvSocRecon : string := "reconn".
Definition EvSocClosed : string := "closed".
Definition EvSocSuccess : string := "success".
Definition EvSocSignIn : string := "signIn".
Definition EvSocLogin : string := "login".

Definition rtLast : string := "lastAt".
Definition rtConnected : string := "connAt".
Definition rtReConnect : string := "reconnAt".
Definition rtSuccess : string := "succAt".
Definition rtSleeps : string := "sleeps".
Definition rtClosed : string := "clsAt".
Definition rtLive : string := "liveAt".
Definition rtIpAddr : string := "addrAt".
Definition rtConnects : string := "conns".
Definition rtLatency : string := "latency".

(** What [config.Point] tells the worker. *)
Record PointCfg := {
  pc_Alias : string; pc_Username : string; pc_Password : string; pc_Network : string;
  pc_Address : string; pc_IPMtu : Z; pc_RequestAddr : bool; pc_Timeout : Z
}.

(** The bodies of ping and leave messages. *)
Record PingMsg := {
  pm_DateTime : Z; pm_UUID : string; pm_Alias : string; pm_Connection : string; pm_Address : string
}.

(** The calls of the listener. *)
Inductive notice :=
| NSuccess
| NIpAddr (n : Network.t)
| NReadAt (f : FrameMessage).

Record SocketWorker := {
  client : option (SocketClientImpl unit); user : User.t; network : Network.t;
  keepalive : KeepAlive.t; pinCfg : PointCfg; events : list WorkerEvent;
  jobber : list Z;      (* the times of the [jobTimer]s, whose call is always the same *)
  record : SafeStrInt64.t; notices : list notice;
  readers : nat         (* the [Read] goroutines that were started *)
}.

Section socket.
(** [runtime.GOOS] and [encoding/json]. *)
Context (goos : string).
Context (encode_user : User.t -> option bytes) (encode_network : Network.t -> option bytes)
  (encode_ping : PingMsg -> option bytes)
  (decode_network : bytes -> option Network.t) (decode_ping : bytes -> option Z).
(** The outcome of the n-th dial, and the fuel of [WriteMsg] and [ReadMsg]. *)
Context (dial : Z -> result net_conn) (fuel : nat).

Definition upd_client (t : SocketWorker) (c : option (SocketClientImpl unit)) : SocketWorker :=
  {| client := c; user := user t; network := network t; keepalive := keepalive t; pinCfg := pinCfg t;
     events := events t; jobber := jobber t; record := record t; notices := notices t;
     readers := readers t |}.
Definition upd_user (t : SocketWorker) (u : User.t) : SocketWorker :=
  {| client := client t; user := u; network := network t; keepalive := keepalive t; pinCfg := pinCfg t;
     events := events t; jobber := jobber t; record := record t; notices := notices t;
     readers := readers t |}.
Definition upd_network (t : SocketWorker) (n : Network.t) : SocketWorker :=
  {| client := client t; user := user t; network := n; keepalive := keepalive t; pinCfg := pinCfg t;
     events := events t; jobber := jobber t; record := record t; notices := notices t;
     readers := readers t |}.
Definition upd_keepalive (t : SocketWorker) (k : KeepAlive.t) : SocketWorker :=
  {| client := client t; user := user t; network := network t; keepalive := k; pinCfg := pinCfg t;
     events := events t; jobber := jobber t; record := record t; notices := notices t;
     readers := readers t |}.
Definition upd_evq (t : SocketWorker) (q : list WorkerEvent) : SocketWorker :=
  {| client := client t; user := user t; network := network t; keepalive := keepalive t;
     pinCfg := pinCfg t; events := q; jobber := jobber t; record := record t; notices := notices t;
     readers := readers t |}.
Definition upd_jobber (t : SocketWorker) (j : list Z) : SocketWorker :=
  {| client := client t; user := user t; network := network t; keepalive := keepalive t;
     pinCfg := pinCfg t; events := events t; jobber := j; record := record t; notices := notices t;
     readers := readers t |}.
Definition upd_record (t : SocketWorker) (r : SafeStrInt64.t) : SocketWorker :=
  {| client := client t; user := user t; network := network t; keepalive := keepalive t;
     pinCfg := pinCfg t; events := events t; jobber := jobber t; record := r; notices := notices t;
     readers := readers t |}.
Definition notify (t : SocketWorker) (n : notice) : SocketWorker :=
  {| client := client t; user := user t; network := network t; keepalive := keepalive t;
     pinCfg := pinCfg t; events := events t; jobber := jobber t; record := record t;
     notices := notices t ++ [n]; readers := readers t |}.
Definition add_reader (t : SocketWorker) : SocketWorker :=
  {| client := client t; user := user t; network := network t; keepalive := keepalive t;
     pinCfg := pinCfg t; events := events t; jobber := jobber t; record := record t;
     notices := notices t; readers := S (readers t) |}.

Definition rec_get (t : SocketWorker) (k : string) : Z := SafeStrInt64.Get (record t) k.
Definition rec_set (t : SocketWorker) (k : string) (v : Z) : SocketWorker :=
  upd_record t (SafeStrInt64.Set_ (record t) k v).
Definition rec_add (t : SocketWorker) (k : string) (v : Z) : SocketWorker :=
  upd_record t (SafeStrInt64.Add (record t) k v).

Definition post (t : SocketWorker) (ty reason : string) (now : Z) : run SocketWorker :=
  q ← ev_push (events t) (NewEvent ty reason now);
  Finished (upd_evq t q).

Definition NewSocketWorker (cl : SocketClientImpl unit) (c : PointCfg) (now : Z) : SocketWorker :=
  {| client := Some cl;
     user := {| User.Alias := pc_Alias c; User.Name := pc_Username c; User.Network := pc_Network c;
                User.Password := pc_Password c; User.UUID := ""; User.System := goos; User.Role := "";
                User.Last := None; User.Lease := 0; User.UpdateAt := 0 |};
     network := Network.NewNetwork (pc_Network c) (pc_Address c);
     keepalive := {| KeepAlive.Interval := 15; KeepAlive.LastTime := now |}; pinCfg := c;
     events := []; jobber := []; record := SafeStrInt64.NewSafeStrInt64; notices := []; readers := 0 |}.

(** ** Delay between dials *)

Definition sleepNow (t : SocketWorker) : Z := wrap64s (rec_get t rtSleeps * 5).

Definition sleepIdle (t : SocketWorker) : SocketWorker * Z :=
  let t := if rec_get t rtSleeps <? 20 then rec_add t rtSleeps 1 else t in
  (t, sleepNow t).

(** ** The client and its callbacks *)

Definition SetMaxSize (c : SocketClientImpl unit) (v : Z) : SocketClientImpl unit :=
  {| message := message c; connection := connection c; statistics := statistics c; maxSize := v;
     minSize := minSize c; remoteAddr := remoteAddr c; localAddr := localAddr c; address := address c;
     newTime := newTime c; connectedTime := connectedTime c; private := private c; status := status c |}.

(** The callbacks [Initialize] installs; a change of status is told to nobody. *)
Definition on_event (t : SocketWorker) (ev : event) (now : Z) : run SocketWorker :=
  match ev with
  | OnConnected => post (rec_set t rtConnected now) EvSocConed "from socket" now
  | OnClose => post (rec_set t rtClosed now) EvSocClosed "from socket" now
  | OnStatus _ _ => Finished t
  end.
Fixpoint on_events (t : SocketWorker) (evs : list event) (now : Z) : run SocketWorker :=
  match evs with
  | [] => Finished t
  | e :: evs => t ← on_event t e now; on_events t evs now
  end.

(** A method of the client, which must not be nil. *)
Definition with_client {A} (t : SocketWorker) (f : SocketClientImpl unit -> run A) : run A :=
  match client t with None => Crashes | Some c => f c end.

Definition cl_Close (t : SocketWorker) (now : Z) : run SocketWorker :=
  with_client t (fun c => r ← lift (Close c now); on_events (upd_client t (Some r.1)) r.2 now).
Definition cl_SetStatus (t : SocketWorker) (v now : Z) : run SocketWorker :=
  with_client t (fun c => let r := SetStatus c v in on_events (upd_client t (Some r.1)) r.2 now).
Definition cl_Terminal (t : SocketWorker) (now : Z) : run SocketWorker :=
  with_client t (fun c => r ← lift (Terminal c now); on_events (upd_client t (Some r.1)) r.2 now).
Definition cl_Connect (t : SocketWorker) (now : Z) : run (SocketWorker * option error) :=
  with_client t (fun c =>
    r ← lift (Connect c (dial (rec_get t rtConnects)) now);
    t ← on_events (upd_client t (Some r.1.1)) r.1.2 now;
    Finished (t, r.2)).
Definition cl_Write (t : SocketWorker) (m : FrameMessage) : run (SocketWorker * option error) :=
  with_client t (fun c =>
    r ← lift (WriteMsg fuel c m);
    match r with
    | Done (c, e) => Finished (upd_client t (Some c), e)
    | Blocked | Spinning => Blocks
    end).

Definition cl_have (t : SocketWorker) (st : Z) : run bool := with_client t (fun c => Finished (Have c st)).

Definition isStopped (t : SocketWorker) : bool :=
  match client t with None => true | Some c => Have c ClTerminal end.

Definition Initialize (t : SocketWorker) (now : Z) : run SocketWorker :=
  with_client t (fun c =>
    let t := upd_client t (Some (SetMaxSize c (pc_IPMtu (pinCfg t)))) in
    Finished (rec_set (rec_set t rtLast now) rtReConnect now)).

Definition close (t : SocketWorker) (now : Z) : run SocketWorker :=
  match client t with Some _ => cl_Close t now | None => Finished t end.

Definition connect (t : SocketWorker) (now : Z) : run (SocketWorker * option error) :=
  t ← cl_Close t now;
  with_client t (fun c =>
    t ← (if negb (status c =? ClInit) then cl_SetStatus t ClInit now else Finished t);
    cl_Connect (rec_add t rtConnects 1) now).

(** [Start], up to the goroutine of [Loop]. *)
Definition Start (t : SocketWorker) (now : Z) : run SocketWorker :=
  r ← connect t now; Finished r.1.

(** ** What is sent *)

Definition nil_client : error := NewErr "client is nil" [].
Definition json_err : error := NewErr "json" [].

(** The common part: encode, build the control frame, write it. *)
Definition send (t : SocketWorker) (act : string) (body : option bytes) : run (SocketWorker * option error) :=
  match body with
  | None => Finished (t, Some json_err)
  | Some body =>
      m ← lift (NewControlFrame act body);
      cl_Write t m
  end.

Definition session_msg (t : SocketWorker) (c : SocketClientImpl unit) (date : Z) : PingMsg :=
  {| pm_DateTime := date; pm_UUID := User.UUID (user t); pm_Alias := User.Alias (user t);
     pm_Connection := remoteAddr c; pm_Address := localAddr c |}.

Definition sendLeave (t : SocketWorker) (now : Z) : run (SocketWorker * option error) :=
  match client t with
  | None => Finished (t, Some nil_client)
  | Some c => send t LeftReq (encode_ping (session_msg t c now))
  end.
Definition leave (t : SocketWorker) (now : Z) : run SocketWorker :=
  r ← sendLeave t now; Finished r.1.

Definition sendLogin (t : SocketWorker) : run (SocketWorker * option error) :=
  match client t with
  | None => Finished (t, Some nil_client)
  | Some _ => send t LoginReq (encode_user (user t))
  end.
Definition toLogin (t : SocketWorker) : run SocketWorker := r ← sendLogin t; Finished r.1.

Definition sendIpAddr (t : SocketWorker) : run (SocketWorker * option error) :=
  match client t with
  | None => Finished (t, Some nil_client)
  | Some _ => send t IpAddrReq (encode_network (network t))
  end.
Definition canReqAddr (t : SocketWorker) : bool :=
  if pc_RequestAddr (pinCfg t) then true else negb (String.eqb (Network.IfAddr (network t)) "").
Definition toNetwork (t : SocketWorker) : run SocketWorker :=
  if canReqAddr t then r ← sendIpAddr t; Finished r.1 else Finished t.

(** [nano] is [time.Now().UnixNano()]. *)
Definition sendPing (t : SocketWorker) (nano : Z) : run (SocketWorker * option error) :=
  match client t with
  | None => Finished (t, Some nil_client)
  | Some c => send t PingReq (encode_ping (session_msg t c nano))
  end.

Definition Stop (t : SocketWorker) (now : Z) : run SocketWorker :=
  t ← leave t now;
  t ← cl_Terminal t now;
  Finished (upd_client t None).

(** ** Reconnecting *)

Definition reconnect (t : SocketWorker) (now : Z) : run SocketWorker :=
  if isStopped t then Finished t
  else
    let t := rec_set t rtReConnect now in
    let '(t, d) := sleepIdle t in
    Finished (upd_jobber t (jobber t ++ [wrap64s (now + d)])).

(** The call of a [jobTimer]. *)
Definition job_call (t : SocketWorker) (now : Z) : run SocketWorker :=
  if rec_get t rtReConnect <=? rec_get t rtConnected then Finished t
  else r ← connect t now; Finished r.1.

Fixpoint run_jobs (t : SocketWorker) (jobs newTimer : list Z) (now : Z) : run SocketWorker :=
  match jobs with
  | [] => Finished (upd_jobber t newTimer)
  | j :: jobs =>
      if j <=? now then t ← job_call t now; run_jobs t jobs newTimer now
      else run_jobs t jobs (newTimer ++ [j]) now
  end.
Definition checkJobber (t : SocketWorker) (now : Z) : run SocketWorker := run_jobs t (jobber t) [] now.

Definition checkAlive (t : SocketWorker) (now : Z) : run SocketWorker :=
  let out := pc_Timeout (pinCfg t) in
  if (now - rec_get t rtLast <? out) || (now - rec_get t rtLive <? out) then Finished t
  else if now - rec_get t rtReConnect <? out then Finished t
  else post t EvSocRecon "from alive check" now.

Definition keepAlive (t : SocketWorker) (now nano : Z) : run SocketWorker :=
  if negb (KeepAlive.Should (keepalive t) now) then Finished t
  else
    let t := upd_keepalive t (KeepAlive.Update (keepalive t) now) in
    auth ← cl_have t ClAuth;
    if (auth : bool) then
      t ← (if canReqAddr t && (rec_get t rtIpAddr <? rec_get t rtSuccess) then toNetwork t else Finished t);
      r ← sendPing t nano; Finished r.1
    else r ← sendLogin t; Finished r.1.

Definition doTicker (t : SocketWorker) (now nano : Z) : run SocketWorker :=
  t ← checkAlive t now;
  t ← keepAlive t now nano;
  checkJobber t now.

(** ** What is received *)

Definition onLogin (t : SocketWorker) (resp : bytes) (now : Z) : run SocketWorker :=
  auth ← cl_have t ClAuth;
  if (auth : bool) then Finished t
  else if HasPrefix (string_of_bytes resp) "okay" then
    t ← cl_SetStatus t ClAuth now;
    let t := notify t NSuccess in
    let t := rec_set (rec_set (rec_set t rtSleeps 0) rtIpAddr 0) rtSuccess now in
    post t EvSocSuccess "from login" now
  else cl_SetStatus t ClUnAuth now.

Definition onIpAddr (t : SocketWorker) (resp : bytes) : SocketWorker * option error :=
  if negb (pc_RequestAddr (pinCfg t)) then (t, None)
  else match decode_network resp with
       | None => (t, Some (NewErr "SocketWorker.onIpAddr: invalid json data." []))
       | Some n => (notify (upd_network t n) (NIpAddr n), None)
       end.

Definition onLeft (t : SocketWorker) (now : Z) : run SocketWorker := close t now.

Definition onSignIn (t : SocketWorker) (now : Z) : run SocketWorker :=
  post t EvSocSignIn "request from server" now.

Definition onPong (t : SocketWorker) (resp : bytes) (nano : Z) : SocketWorker * option error :=
  match decode_ping resp with
  | None => (t, Some (NewErr "SocketWorker.onPong: invalid json data." []))
  | Some date => (rec_set t rtLatency (Z.quot (wrap64s (nano - date)) 1000000), None)
  end.

Definition onInstruct (t : SocketWorker) (frame : FrameMessage) (now nano : Z) : run SocketWorker :=
  if negb (IsControl frame) then Finished t
  else
    let '(action, resp) := CmdAndParams frame in
    if String.eqb action LoginResp then onLogin t resp now
    else if String.eqb action IpAddrResp then Finished (onIpAddr (rec_set t rtIpAddr now) resp).1
    else if String.eqb action PongResp then Finished (onPong (rec_set t rtLive now) resp nano).1
    else if String.eqb action SignReq then onSignIn t now
    else if String.eqb action LeftReq then onLeft t now
    else Finished t.

(** One round of [Read] with what [ReadMsg] of its client returned; [false] when the loop
    ends. *)
Definition read_round (t : SocketWorker) (r : result FrameMessage) (now nano : Z)
    : run (SocketWorker * bool) :=
  match r with
  | inr _ => t ← cl_Close t now; Finished (t, false)
  | inl data =>
      if size data <=? 0 then Finished (t, true)
      else
        data ← lift (Decode data);
        if IsControl data then t ← onInstruct t data now nano; Finished (t, true)
        else Finished (notify (rec_set t rtLast now) (NReadAt data), true)
  end.
Definition read_end (t : SocketWorker) (now : Z) : run SocketWorker :=
  if isStopped t then Finished t else post t EvSocRecon "from read" now.

Definition dispatch (t : SocketWorker) (ev : WorkerEvent) (now nano : Z) : run SocketWorker :=
  if String.eqb (Type_ ev) EvSocConed then
    match client t with
    | Some _ => t ← toLogin t; Finished (add_reader t)
    | None => Finished t
    end
  else if String.eqb (Type_ ev) EvSocSuccess then
    t ← toNetwork t;
    r ← sendPing t nano; Finished r.1
  else if String.eqb (Type_ ev) EvSocRecon then reconnect t now
  else if String.eqb (Type_ ev) EvSocSignIn || String.eqb (Type_ ev) EvSocLogin then toLogin t
  else Finished t.

Definition DoWrite (t : SocketWorker) (frame : FrameMessage) (now : Z) : run (SocketWorker * option error) :=
  t ← checkAlive t now;
  match client t with
  | None => Finished (t, Some nil_client)
  | Some c => if negb (Have c ClAuth) then Finished (t, None) else cl_Write t frame
  end.

(** [strings.Split] at the colons: the part after the second colon is dropped. *)
Definition SetAuth (t : SocketWorker) (auth : string) : SocketWorker :=
  let values := SplitN auth char_colon (S (String.length auth)) in
  let u := user t in
  upd_user t {| User.Alias := User.Alias u; User.Name := User.nth_or values 0; User.Network := User.Network u;
                User.Password := match values with _ :: p :: _ => p | _ => User.Password u end;
                User.UUID := User.UUID u; User.System := User.System u; User.Role := User.Role u;
                User.Last := User.Last u; User.Lease := User.Lease u; User.UpdateAt := User.UpdateAt u |}.
Definition Auth (t : SocketWorker) : string * string := (User.Name (user t), User.Password (user t)).
Definition SetUUID (t : SocketWorker) (v : string) : SocketWorker :=
  let u := user t in
  upd_user t {| User.Alias := User.Alias u; User.Name := User.Name u; User.Network := User.Network u;
                User.Password := User.Password u; User.UUID := v; User.System := User.System u;
                User.Role := User.Role u; User.Last := User.Last u; User.Lease := User.Lease u;
                User.UpdateAt := User.UpdateAt u |}.

End socket.

(** ** The invariant of the worker

    Its client has a messager, the backoff counter stays in its range, the event queue
    within its capacity. *)

Definition sw_inv (t : SocketWorker) : Prop :=
  match client t with Some c => client_ok c | None => True end /\
  0 <= rec_get t rtSleeps <= 20 /\ zlen (events t) <= evCap.

Section invariant.
Context (goos : string).
Context (encode_user : User.t -> option bytes) (encode_network : Network.t -> option bytes)
  (encode_ping : PingMsg -> option bytes)
  (decode_network : bytes -> option Network.t) (decode_ping : bytes -> option Z).
Context (dial : Z -> result net_conn) (fuel : nat).

Abbreviation send_login := (sendLogin encode_user fuel).
Abbreviation to_network := (toNetwork encode_network fuel).
Abbreviation send_ping := (sendPing encode_ping fuel).

Lemma ev_push_inv q e q' :
  ev_push q e = Finished q' -> q' = q ++ [e] /\ zlen q' <= evCap.
Proof.
  unfold ev_push. destruct (Z.ltb_spec (zlen q) evCap); [|done]. intros [= <-].
  split; [done|]. rewrite zlen_app. change (zlen [e]) with 1. lia.
Qed.

Lemma post_spec t ty reason now t' :
  post t ty reason now = Finished t' ->
  t' = upd_evq t (events t ++ [NewEvent ty reason now]) /\ zlen (events t') <= evCap.
Proof. unfold post. intros H. run_inv. apply ev_push_inv in H0 as [-> Hl]. by subst. Qed.

Lemma post_inv t ty reason now t' : post t ty reason now = Finished t' -> sw_inv t -> sw_inv t'.
Proof. intros [-> Hl]%post_spec (Hc & Hs & _). done. Qed.

(** Recording anything but the backoff counter. *)
Lemma get_set_ne t k k' v : k <> k' -> rec_get (rec_set t k v) k' = rec_get t k'.
Proof. intros H. unfold rec_get, rec_set, SafeStrInt64.Get, SafeStrInt64.Set_. simpl. by rewrite lookup_insert_ne. Qed.
Lemma get_set_eq t k v : rec_get (rec_set t k v) k = v.
Proof. unfold rec_get, rec_set, SafeStrInt64.Get, SafeStrInt64.Set_. simpl. by rewrite lookup_insert_eq. Qed.
Lemma get_add_eq t k v : i64 (rec_get t k + v) -> rec_get (rec_add t k v) k = rec_get t k + v.
Proof.
  unfold rec_get, rec_add, SafeStrInt64.Get, SafeStrInt64.Add. simpl. intros H.
  destruct (record t !! k) as [x|]; rewrite lookup_insert_eq; [by apply wrap64s_id|lia].
Qed.
Lemma get_add_ne t k k' v : k <> k' -> rec_get (rec_add t k v) k' = rec_get t k'.
Proof.
  intros H. unfold rec_get, rec_add, SafeStrInt64.Get, SafeStrInt64.Add. simpl.
  destruct (record t !! k); by rewrite lookup_insert_ne.
Qed.

Lemma rec_set_inv t k v : k <> rtSleeps -> sw_inv t -> sw_inv (rec_set t k v).
Proof. intros Hk (Hc & Hs & He). split; [done|]. split; [by rewrite get_set_ne|done]. Qed.
Lemma rec_add_inv t k v : k <> rtSleeps -> sw_inv t -> sw_inv (rec_add t k v).
Proof. intros Hk (Hc & Hs & He). split; [done|]. split; [by rewrite get_add_ne|done]. Qed.

Lemma on_event_inv t ev now t' : on_event t ev now = Finished t' -> sw_inv t -> sw_inv t'.
Proof.
  destruct ev; simpl; intros H Hi; [| |by run_inv; subst]; eapply post_inv; try done; by apply rec_set_inv.
Qed.

Lemma on_events_inv evs : forall t now t', on_events t evs now = Finished t' -> sw_inv t -> sw_inv t'.
Proof.
  induction evs as [|e evs IH]; intros t now t' H Hi; simpl in H; [by run_inv; subst|].
  run_inv. eapply IH; [done|]. by eapply on_event_inv.
Qed.

Lemma upd_client_inv t c : client_ok c -> sw_inv t -> sw_inv (upd_client t (Some c)).
Proof. intros Hc (_ & Hs & He). done. Qed.

Lemma updateConn_ok (c : SocketClientImpl unit) o now c' :
  client_ok c -> updateConn c o now = Ret c' -> client_ok c'.
Proof.
  unfold client_ok, updateConn. intros Hm. destruct o as [n|]; [by intros [= <-]|].
  destruct (message c); [|done]. by intros [= <-].
Qed.

Lemma Close_ok (c : SocketClientImpl unit) now r : client_ok c -> Close c now = Ret r -> client_ok r.1.
Proof.
  unfold Close. intros Hm. destruct (IsOk c); [|by intros [= <-]]. intros H. run_inv. subst r. simpl.
  unfold client_ok, SetPrivate. simpl. eapply (updateConn_ok _ None); [|done].
  by destruct (status c =? ClTerminal).
Qed.

Lemma SetStatus_ok (c : SocketClientImpl unit) v : client_ok c -> client_ok (SetStatus c v).1.
Proof. unfold SetStatus. by destruct (status c =? v). Qed.

Lemma Terminal_ok (c : SocketClientImpl unit) now r : client_ok c -> Terminal c now = Ret r -> client_ok r.1.
Proof.
  unfold Terminal. intros Hm H. pose proof (SetStatus_ok c ClTerminal Hm).
  destruct (SetStatus c ClTerminal) as [c1 ev]. run_inv. subst r. simpl. by eapply Close_ok.
Qed.

Lemma Connect_ok (c : SocketClientImpl unit) d now r : client_ok c -> Connect c d now = Ret r -> client_ok r.1.1.
Proof.
  unfold Connect, connect_begin, Retry. intros Hm.
  destruct (_ || _); [by intros [= <-]|]. unfold connect_end.
  destruct d as [n|e]; [|by intros [= <-]]. intros H. run_inv. subst r. simpl.
  unfold SetConnection in *. run_inv. subst. simpl. unfold client_ok, set_status. simpl.
  eapply (updateConn_ok _ (Some n)); [|done]. done.
Qed.

Lemma WriteMsg_ok (c c' : SocketClientImpl unit) m e :
  client_ok c -> WriteMsg fuel c m = Ret (Done (c', e)) -> client_ok c' /\ status c' = status c.
Proof.
  unfold WriteMsg. intros Hm. destruct (connection c) as [cn|]; [|by intros [= <- _]].
  intros H. run_inv. destruct x as [[[ms cn'] [n|e']]| |]; simplify_eq; done.
Qed.

Lemma with_client_finished {A} t (f : SocketClientImpl unit -> run A) r :
  with_client t f = Finished r -> exists c, client t = Some c /\ f c = Finished r.
Proof. unfold with_client. destruct (client t) as [c|]; [|done]. by exists c. Qed.

Lemma client_inv t c : sw_inv t -> client t = Some c -> client_ok c.
Proof. intros (Hc & _) E. by rewrite E in Hc. Qed.

Lemma cl_Close_inv t now t' : cl_Close t now = Finished t' -> sw_inv t -> sw_inv t'.
Proof.
  intros (c & Ec & H)%with_client_finished Hi. run_inv. eapply on_events_inv; [done|].
  apply upd_client_inv; [|done]. eapply Close_ok; [|done]. by eapply client_inv.
Qed.
Lemma cl_SetStatus_inv t v now t' : cl_SetStatus t v now = Finished t' -> sw_inv t -> sw_inv t'.
Proof.
  intros (c & Ec & H)%with_client_finished Hi. eapply on_events_inv; [done|].
  apply upd_client_inv; [|done]. apply SetStatus_ok. by eapply client_inv.
Qed.
Lemma cl_Terminal_inv t now t' : cl_Terminal t now = Finished t' -> sw_inv t -> sw_inv t'.
Proof.
  intros (c & Ec & H)%with_client_finished Hi. run_inv. eapply on_events_inv; [done|].
  apply upd_client_inv; [|done]. eapply Terminal_ok; [|done]. by eapply client_inv.
Qed.
Lemma cl_Connect_inv t now r : cl_Connect dial t now = Finished r -> sw_inv t -> sw_inv r.1.
Proof.
  intros (c & Ec & H)%with_client_finished Hi. run_inv. subst r. simpl. eapply on_events_inv; [done|].
  apply upd_client_inv; [|done]. eapply Connect_ok; [|done]. by eapply client_inv.
Qed.
Lemma cl_Write_inv t m r : cl_Write fuel t m = Finished r -> sw_inv t -> sw_inv r.1.
Proof.
  intros (c & Ec & H)%with_client_finished Hi. run_inv. destruct x as [[c' e]| |]; run_inv; try done.
  subst r. simpl. apply upd_client_inv; [|done]. eapply WriteMsg_ok; [|done]. by eapply client_inv.
Qed.

Lemma send_inv t act body r : send fuel t act body = Finished r -> sw_inv t -> sw_inv r.1.
Proof.
  unfold send. destruct body as [b|]; [|by intros [= <-]]. intros H Hi. run_inv. by eapply cl_Write_inv.
Qed.

Lemma connect_inv t now r : connect dial t now = Finished r -> sw_inv t -> sw_inv r.1.
Proof.
  unfold connect. intros H Hi. run_inv. apply with_client_finished in H as (c & Ec & H).
  apply cl_Close_inv in H0; [|done]. run_inv.
  eapply cl_Connect_inv; [done|]. apply rec_add_inv; [done|].
  destruct (negb _); [by eapply cl_SetStatus_inv|by run_inv; subst].
Qed.

Lemma sleepIdle_spec t :
  0 <= rec_get t rtSleeps <= 20 ->
  let n := Z.min 20 (rec_get t rtSleeps + 1) in
  rec_get (sleepIdle t).1 rtSleeps = n /\ (sleepIdle t).2 = 5 * n /\
  client (sleepIdle t).1 = client t /\ events (sleepIdle t).1 = events t /\
  jobber (sleepIdle t).1 = jobber t /\
  (forall k, k <> rtSleeps -> rec_get (sleepIdle t).1 k = rec_get t k).
Proof.
  intros Hs n. unfold sleepIdle, sleepNow. cbn [fst snd].
  assert (Hr : rec_get (if rec_get t rtSleeps <? 20 then rec_add t rtSleeps 1 else t) rtSleeps = n).
  { unfold n. destruct (Z.ltb_spec (rec_get t rtSleeps) 20); [|lia].
    rewrite get_add_eq by (unfold i64; lia). lia. }
  split; [done|]. rewrite Hr. split; [rewrite wrap64s_id; unfold i64, n; lia|].
  destruct (_ <? 20); split_and!; try done. intros k Hk. by rewrite get_add_ne.
Qed.

Lemma reconnect_inv t now t' : reconnect t now = Finished t' -> sw_inv t -> sw_inv t'.
Proof.
  unfold reconnect. destruct (isStopped t); [by intros [= <-]|].
  intros H Hi. apply (rec_set_inv t rtReConnect now) in Hi as (Hc & Hs & He); [|done].
  pose proof (sleepIdle_spec _ Hs) as (H1 & H2 & H3 & H4 & _).
  destruct (sleepIdle _) as [t1 d]. cbn [fst snd] in *. run_inv. subst t'.
  split; [by simpl; rewrite H3|]. split; [|by simpl; rewrite H4].
  change (rec_get _ _) with (rec_get t1 rtSleeps). lia.
Qed.

Lemma job_call_inv t now t' : job_call dial t now = Finished t' -> sw_inv t -> sw_inv t'.
Proof.
  unfold job_call. destruct (_ <=? _); [by intros [= <-]|]. intros H Hi. run_inv. subst.
  by eapply connect_inv.
Qed.

Lemma run_jobs_inv jobs : forall t nt now t', run_jobs dial t jobs nt now = Finished t' -> sw_inv t -> sw_inv t'.
Proof.
  induction jobs as [|j jobs IH]; intros t nt now t' H Hi; simpl in H; [by run_inv; subst|].
  destruct (j <=? now); [|by eapply IH]. run_inv. eapply IH; [done|]. by eapply job_call_inv.
Qed.

Lemma checkAlive_inv t now t' : checkAlive t now = Finished t' -> sw_inv t -> sw_inv t'.
Proof.
  unfold checkAlive. destruct (_ || _); [by intros [= <-]|].
  destruct (_ <? _); [by intros [= <-]|]. apply post_inv.
Qed.

Lemma sendLogin_inv t r : send_login t = Finished r -> sw_inv t -> sw_inv r.1.
Proof. unfold sendLogin. destruct (client t); [apply send_inv|by intros [= <-]]. Qed.
Lemma sendPing_inv t nano r : send_ping t nano = Finished r -> sw_inv t -> sw_inv r.1.
Proof. unfold sendPing. destruct (client t); [apply send_inv|by intros [= <-]]. Qed.
Lemma toNetwork_inv t t' : to_network t = Finished t' -> sw_inv t -> sw_inv t'.
Proof.
  unfold toNetwork, sendIpAddr. destruct (canReqAddr t); [|by intros [= <-]]. intros H Hi. run_inv. subst t'.
  destruct (client t); [by eapply send_inv|by run_inv; subst].
Qed.
Lemma toLogin_inv t t' : toLogin encode_user fuel t = Finished t' -> sw_inv t -> sw_inv t'.
Proof. unfold toLogin. intros H Hi. run_inv. subst t'. by eapply sendLogin_inv. Qed.

Lemma keepAlive_inv t now nano t' :
  keepAlive encode_user encode_network encode_ping fuel t now nano = Finished t' -> sw_inv t -> sw_inv t'.
Proof.
  unfold keepAlive. destruct (negb _); [by intros [= <-]|]. intros H Hi. run_inv.
  destruct x.
  - run_inv. subst t'. eapply sendPing_inv; [done|]. destruct (_ && _); [by eapply toNetwork_inv|].
    by run_inv; subst.
  - run_inv. subst t'. by eapply sendLogin_inv.
Qed.

Lemma onLogin_inv t resp now t' : onLogin t resp now = Finished t' -> sw_inv t -> sw_inv t'.
Proof.
  unfold onLogin. intros H Hi. run_inv. destruct x; [by run_inv; subst|].
  destruct (HasPrefix _ _); [|by eapply cl_SetStatus_inv]. run_inv. eapply post_inv; [done|].
  apply cl_SetStatus_inv in H1; [|done]. do 2 (apply rec_set_inv; [done|]).
  destruct H1 as (Hc & Hs & He). split; [done|]. split; [by rewrite get_set_eq|done].
Qed.

Lemma onInstruct_inv t f now nano t' :
  onInstruct decode_network decode_ping t f now nano = Finished t' -> sw_inv t -> sw_inv t'.
Proof.
  unfold onInstruct. destruct (negb _); [by intros [= <-]|]. destruct (CmdAndParams f) as [act resp].
  destruct (String.eqb act LoginResp); [apply onLogin_inv|].
  destruct (String.eqb act IpAddrResp).
  { intros [= <-] Hi. unfold onIpAddr. apply (rec_set_inv t rtIpAddr now) in Hi; [|done].
    destruct (negb _); [done|]. by destruct (decode_network resp). }
  destruct (String.eqb act PongResp).
  { intros [= <-] Hi. unfold onPong. apply (rec_set_inv t rtLive now) in Hi; [|done].
    destruct (decode_ping resp); [by apply rec_set_inv|done]. }
  destruct (String.eqb act SignReq); [apply post_inv|].
  destruct (String.eqb act LeftReq); [|by intros [= <-]].
  unfold onLeft, close. destruct (client t); [apply cl_Close_inv|by intros [= <-]].
Qed.

Lemma dispatch_inv t ev now nano t' :
  dispatch encode_user encode_network encode_ping fuel t ev now nano = Finished t' -> sw_inv t -> sw_inv t'.
Proof.
  unfold dispatch. destruct (String.eqb _ EvSocConed).
  { destruct (client t); [|by intros [= <-]]. intros H Hi. run_inv. subst t'.
    apply toLogin_inv in H0; done. }
  destruct (String.eqb _ EvSocSuccess).
  { intros H Hi. run_inv. subst. eapply sendPing_inv; [done|]. by eapply toNetwork_inv. }
  destruct (String.eqb _ EvSocRecon); [apply reconnect_inv|].
  destruct (_ || _); [apply toLogin_inv|by intros [= <-]].
Qed.

(** Everything that happens to a worker: the rounds of [Loop] (an event, a frame to
    write, a tick), the rounds and the end of a [Read] goroutine, and the calls from
    outside. *)
Inductive sw_op :=
| OInitialize | OStart | OEvent | OWrite (f : FrameMessage) | OTick
| ORead (r : result FrameMessage) | OReadEnd | OStop | OSetAuth (s : string) | OSetUUID (s : string).

Definition sw_step (t : SocketWorker) (o : sw_op) (now nano : Z) : run SocketWorker :=
  match o with
  | OInitialize => Initialize t now
  | OStart => Start dial t now
  | OEvent => match events t with
              | [] => Blocks
              | ev :: q => dispatch encode_user encode_network encode_ping fuel (upd_evq t q) ev now nano
              end
  | OWrite f => r ← DoWrite fuel t f now; Finished r.1
  | OTick => doTicker encode_user encode_network encode_ping dial fuel t now nano
  | ORead r => r ← read_round decode_network decode_ping t r now nano; Finished r.1
  | OReadEnd => read_end t now
  | OStop => Stop encode_ping fuel t now
  | OSetAuth s => Finished (SetAuth t s)
  | OSetUUID s => Finished (SetUUID t s)
  end.

Fixpoint sw_run (t : SocketWorker) (os : list (sw_op * Z * Z)) : run SocketWorker :=
  match os with
  | [] => Finished t
  | (o, now, nano) :: os => t ← sw_step t o now nano; sw_run t os
  end.

Lemma sw_step_inv t o now nano t' : sw_step t o now nano = Finished t' -> sw_inv t -> sw_inv t'.
Proof.
  destruct o as [| | |f| |r| | |s|s]; simpl; intros H Hi.
  - unfold Initialize in H. apply with_client_finished in H as (c & Ec & H). run_inv. subst t'.
    do 2 (apply rec_set_inv; [done|]). apply upd_client_inv; [|done].
    assert (Hc : client_ok c) by by eapply client_inv. exact Hc.
  - unfold Start in H. run_inv. subst. by eapply connect_inv.
  - destruct (events t) as [|ev q] eqn:E; [done|]. eapply dispatch_inv; [done|].
    destruct Hi as (Hc & Hs & He). split; [done|]. split; [done|]. simpl. rewrite E in He.
    change (ev :: q) with ([ev] ++ q) in He. rewrite zlen_app in He. change (zlen [ev]) with 1 in He. lia.
  - unfold DoWrite in H. run_inv. subst t'. apply checkAlive_inv in H1; [|done].
    destruct (client x0) as [c|]; [|by run_inv; subst].
    destruct (negb _); [by run_inv; subst|]. by eapply cl_Write_inv.
  - unfold doTicker in H. run_inv. eapply run_jobs_inv; [done|]. eapply keepAlive_inv; [done|].
    by eapply checkAlive_inv.
  - unfold read_round in H. run_inv. subst t'. destruct r as [f|e].
    2:{ run_inv. subst. by eapply cl_Close_inv. }
    destruct (_ <=? 0); [by run_inv; subst|]. run_inv. destruct (IsControl _).
    + run_inv. subst. by eapply onInstruct_inv.
    + run_inv. subst. simpl. by apply rec_set_inv.
  - unfold read_end in H. destruct (isStopped t); [by run_inv; subst|]. by eapply post_inv.
  - unfold Stop, leave, sendLeave in H. run_inv. subst t'.
    assert (Hx : sw_inv x1.1).
    { destruct (client t); [by eapply send_inv|by run_inv; subst]. }
    subst x. apply cl_Terminal_inv in H1; [|done]. destruct H1 as (_ & Hs & He). done.
  - by run_inv; subst.
  - by run_inv; subst.
Qed.

Lemma NewSocketWorker_inv cl c now : client_ok cl -> sw_inv (NewSocketWorker goos cl c now).
Proof. intros Hc. split; [done|]. split; [done|done]. Qed.

(** (C24) The worker keeps its invariant through every event, frame, tick, message, error
    and call, whatever the switch sends and whatever the dials and writes answer: its
    client can be flushed, the delay before a dial is between 0 and 100 seconds, and at
    most 32 events wait. *)
Theorem socket_worker_invariant (cl : SocketClientImpl unit) (c : PointCfg) (now : Z)
    (os : list (sw_op * Z * Z)) (t : SocketWorker) :
  client_ok cl -> sw_run (NewSocketWorker goos cl c now) os = Finished t ->
  (forall c', client t = Some c' -> client_ok c') /\ 0 <= sleepNow t <= 100 /\ zlen (events t) <= 32.
Proof.
  intros Hc H.
  assert (G : sw_inv t).
  { apply NewSocketWorker_inv with (c := c) (now := now) in Hc.
    revert H Hc. generalize (NewSocketWorker goos cl c now).
    induction os as [|[[o n1] n2] os IH]; intros t0 H Hi; simpl in H; [by run_inv; subst|].
    run_inv. eapply IH; [done|]. by eapply sw_step_inv. }
  destruct G as (G1 & G2 & G3). split; [intros c' E; by rewrite E in G1|]. split; [|done].
  unfold sleepNow. rewrite wrap64s_id by (unfold i64; lia). lia.
Qed.

(** ** The delay before a dial

    [still]: the counter of the backoff and the planned dials stay; [undialled]: besides,
    nothing is dialled. *)

Definition still (t t' : SocketWorker) : Prop :=
  rec_get t' rtSleeps = rec_get t rtSleeps /\ jobber t' = jobber t.
Definition undialled (t t' : SocketWorker) : Prop :=
  still t t' /\ rec_get t' rtConnects = rec_get t rtConnects.

Lemma rec_get_client t c k : rec_get (upd_client t c) k = rec_get t k.
Proof. done. Qed.

#[local] Instance undialled_po : PreOrder undialled.
Proof.
  split; [done|]. intros x y z [[A B] C] [[D E] F].
  split; [split|]; congruence.
Qed.

Lemma rec_set_undialled t k v : k <> rtSleeps -> k <> rtConnects -> undialled t (rec_set t k v).
Proof. intros H1 H2. split; [split; [by rewrite get_set_ne|done]|by rewrite get_set_ne]. Qed.

Lemma post_undialled t ty reason now t' : post t ty reason now = Finished t' -> undialled t t'.
Proof. by intros [-> _]%post_spec. Qed.

Lemma on_events_undialled evs : forall t now t', on_events t evs now = Finished t' -> undialled t t'.
Proof.
  induction evs as [|e evs IH]; intros t now t' H; simpl in H; [by run_inv; subst|].
  run_inv. etrans; [|by eapply IH]. destruct e; simpl in H0; [| |by run_inv; subst];
    (etrans; [|by eapply post_undialled]); by apply rec_set_undialled.
Qed.

Lemma cl_Close_undialled t now t' : cl_Close t now = Finished t' -> undialled t t'.
Proof. intros (c & _ & H)%with_client_finished. run_inv. by apply on_events_undialled in H. Qed.
Lemma cl_SetStatus_undialled t v now t' : cl_SetStatus t v now = Finished t' -> undialled t t'.
Proof. intros (c & _ & H)%with_client_finished. by apply on_events_undialled in H. Qed.
Lemma cl_Terminal_undialled t now t' : cl_Terminal t now = Finished t' -> undialled t t'.
Proof. intros (c & _ & H)%with_client_finished. run_inv. by apply on_events_undialled in H. Qed.
Lemma cl_Write_undialled t m r : cl_Write fuel t m = Finished r -> undialled t r.1.
Proof.
  intros (c & _ & H)%with_client_finished. run_inv. destruct x as [[c' e]| |]; run_inv; try done. by subst r.
Qed.

Lemma send_undialled t act body r : send fuel t act body = Finished r -> undialled t r.1.
Proof. unfold send. destruct body; [|by intros [= <-]]. intros H. run_inv. by eapply cl_Write_undialled. Qed.
Lemma sendLogin_undialled t r : send_login t = Finished r -> undialled t r.1.
Proof. unfold sendLogin. destruct (client t); [apply send_undialled|by intros [= <-]]. Qed.
Lemma sendPing_undialled t nano r : send_ping t nano = Finished r -> undialled t r.1.
Proof. unfold sendPing. destruct (client t); [apply send_undialled|by intros [= <-]]. Qed.
Lemma toNetwork_undialled t t' : to_network t = Finished t' -> undialled t t'.
Proof.
  unfold toNetwork, sendIpAddr. destruct (canReqAddr t); [|by intros [= <-]]. intros H. run_inv. subst t'.
  destruct (client t); [by eapply send_undialled|by run_inv; subst].
Qed.
Lemma toLogin_undialled t t' : toLogin encode_user fuel t = Finished t' -> undialled t t'.
Proof. unfold toLogin. intros H. run_inv. subst t'. by eapply sendLogin_undialled. Qed.
Lemma keepAlive_undialled t now nano t' :
  keepAlive encode_user encode_network encode_ping fuel t now nano = Finished t' -> undialled t t'.
Proof.
  unfold keepAlive. destruct (negb _); [by intros [= <-]|]. intros H. run_inv. destruct x; run_inv; subst t'.
  - eapply (transitivity (R := undialled)); [|by eapply sendPing_undialled].
    destruct (_ && _); [by apply toNetwork_undialled in H1|by run_inv; subst].
  - by apply sendLogin_undialled in H1.
Qed.
Lemma checkAlive_undialled t now t' : checkAlive t now = Finished t' -> undialled t t'.
Proof.
  unfold checkAlive. destruct (_ || _); [by intros [= <-]|].
  destruct (_ <? _); [by intros [= <-]|]. apply post_undialled.
Qed.

Lemma connect_still t now r : connect dial t now = Finished r -> still t r.1.
Proof.
  unfold connect. intros H. run_inv. apply with_client_finished in H as (c & _ & H).
  apply cl_Close_undialled in H0 as [H0 _]. run_inv.
  assert (Hx : undialled x x0).
  { destruct (negb _); [by eapply cl_SetStatus_undialled|by run_inv; subst]. }
  destruct Hx as [Hx _]. apply with_client_finished in H as (c2 & _ & H). run_inv. subst r.
  match goal with H : on_events _ _ _ = _ |- _ => apply on_events_undialled in H as [[Hs Hj] _] end.
  rewrite rec_get_client, get_add_ne in Hs by done. cbn in Hj. destruct H0, Hx. split; cbn [fst]; congruence.
Qed.

(** The jobs that are not due stay, and dialling is left to those that are. *)
Lemma run_jobs_spec jobs : forall t nt now t', run_jobs dial t jobs nt now = Finished t' ->
  rec_get t' rtSleeps = rec_get t rtSleeps /\ jobber t' = nt ++ filter (fun j => now < j) jobs /\
  (Forall (fun j => now < j) jobs -> rec_get t' rtConnects = rec_get t rtConnects).
Proof.
  induction jobs as [|j jobs IH]; intros t nt now t' H; simpl in H; [run_inv; subst; by rewrite app_nil_r|].
  rewrite filter_cons. destruct (Z.leb_spec j now).
  - run_inv. rewrite decide_False by lia. assert (Hx : still t x).
    { unfold job_call in H1. destruct (_ <=? _); [by run_inv; subst|]. run_inv. subst x. by eapply connect_still. }
    destruct Hx as [Hx _], (IH _ _ _ _ H) as (H2 & H3 & _). split; [congruence|]. split; [done|].
    intros Hf. apply Forall_cons in Hf as [? _]. lia.
  - rewrite decide_True by done. destruct (IH _ _ _ _ H) as (H2 & H3 & H4). split; [done|].
    rewrite H3, <- app_assoc. split; [done|]. intros Hf. apply Forall_cons in Hf as [_ Hf]. by apply H4.
Qed.

(** The answer to a login request that is accepted by a worker that waits for it. *)
Definition accepts (t : SocketWorker) (d : FrameMessage) : bool :=
  IsControl d && String.eqb (CmdAndParams d).1 LoginResp &&
  HasPrefix (string_of_bytes (CmdAndParams d).2) "okay" &&
  match cl_have t ClAuth with Finished false => true | _ => false end.

Lemma onInstruct_spec t d now nano t' :
  onInstruct decode_network decode_ping t d now nano = Finished t' -> IsControl d = true ->
  if accepts t d then rec_get t' rtSleeps = 0 /\ jobber t' = jobber t /\ rec_get t' rtConnects = rec_get t rtConnects
  else undialled t t'.
Proof.
  unfold onInstruct, accepts. intros H Hc. rewrite Hc in H |- *. cbn [negb andb] in *.
  destruct (CmdAndParams d) as [act resp]. cbn [fst snd]. destruct (String.eqb act LoginResp) eqn:El.
  { cbn [andb]. unfold onLogin in H. run_inv. rewrite H0. destruct x; [rewrite andb_false_r; by run_inv; subst|].
    destruct (HasPrefix _ _); cbn [andb]; [|by eapply cl_SetStatus_undialled].
    run_inv. apply cl_SetStatus_undialled in H1 as [[Hs Hj] Hd]. apply post_undialled in H as [[Hs2 Hj2] Hd2].
    rewrite !get_set_ne, ?get_set_eq in * by done. cbn [rec_set upd_record jobber notify] in *.
    change (rec_get (notify x NSuccess)) with (rec_get x) in *. split_and!; congruence. }
  cbn [andb]. destruct (String.eqb act IpAddrResp).
  { injection H as <-. unfold onIpAddr. etrans; [by apply (rec_set_undialled t rtIpAddr now)|].
    destruct (negb _); [done|]. by destruct (decode_network resp). }
  destruct (String.eqb act PongResp).
  { injection H as <-. unfold onPong. etrans; [by apply (rec_set_undialled t rtLive now)|].
    destruct (decode_ping resp); [by apply rec_set_undialled|done]. }
  destruct (String.eqb act SignReq); [by eapply post_undialled|].
  destruct (String.eqb act LeftReq); [|by run_inv; subst].
  unfold onLeft, close in H. destruct (client t); [by eapply cl_Close_undialled|by run_inv; subst].
Qed.

(** A step that takes the event of a lost connection plans a dial; one that reads the answer
    to a login ends the count. *)
Definition retries (t : SocketWorker) (o : sw_op) : bool :=
  match o, events t with
  | OEvent, ev :: _ => String.eqb (Type_ ev) EvSocRecon && negb (isStopped t)
  | _, _ => false
  end.
Definition logs_in (t : SocketWorker) (o : sw_op) : bool :=
  match o with
  | ORead (inl data) => (0 <? size data) && match Decode data with Ret d => accepts t d | Panic => false end
  | _ => false
  end.
(** The dials planned since the last login, or since the worker was made. *)
Fixpoint attempts (t : SocketWorker) (os : list (sw_op * Z * Z)) (n : Z) : Z :=
  match os with
  | [] => n
  | (o, now, nano) :: os =>
      match sw_step t o now nano with
      | Finished t' => attempts t' os (if retries t o then n + 1 else if logs_in t o then 0 else n)
      | _ => n
      end
  end.

(** What a step does to the counter, to the planned dials and to the number of dials. *)
Definition plans_kept (t : SocketWorker) (o : sw_op) (now : Z) (t' : SocketWorker) : Prop :=
  jobber t' = match o with OTick => filter (fun j => now < j) (jobber t) | _ => jobber t end.
Definition dials_only (t : SocketWorker) (o : sw_op) (now : Z) (t' : SocketWorker) : Prop :=
  o <> OStart -> (o = OTick -> Forall (fun j => now < j) (jobber t)) -> rec_get t' rtConnects = rec_get t rtConnects.

Lemma reconnect_plans t now t' : reconnect t now = Finished t' -> isStopped t = false -> 0 <= rec_get t rtSleeps <= 20 ->
  rec_get t' rtSleeps = Z.min 20 (rec_get t rtSleeps + 1) /\
  jobber t' = jobber t ++ [wrap64s (now + 5 * Z.min 20 (rec_get t rtSleeps + 1))] /\
  rec_get t' rtConnects = rec_get t rtConnects.
Proof.
  unfold reconnect. intros H Hst Hs. rewrite Hst in H. pose proof (sleepIdle_spec (rec_set t rtReConnect now)) as Hi.
  rewrite get_set_ne in Hi by done. specialize (Hi Hs) as (H1 & H2 & _ & _ & H5 & H6).
  destruct (sleepIdle _) as [t1 d]. cbn [fst snd] in *. run_inv. subst t'.
  change (rec_get (upd_jobber _ _)) with (rec_get t1). cbn [upd_jobber jobber]. rewrite H5, H2, (H6 rtConnects) by done. split; [exact H1|]. split; [done|]. by apply get_set_ne.
Qed.

Lemma dispatch_spec t ev now nano t' :
  dispatch encode_user encode_network encode_ping fuel t ev now nano = Finished t' ->
  String.eqb (Type_ ev) EvSocRecon && negb (isStopped t) = false -> undialled t t'.
Proof.
  unfold dispatch. destruct (String.eqb _ EvSocConed).
  { destruct (client t); [|by intros [= <-]]. intros H _. run_inv. subst t'. by apply toLogin_undialled in H0. }
  destruct (String.eqb _ EvSocSuccess).
  { intros H _. run_inv. subst. eapply (transitivity (R := undialled)); [by eapply toNetwork_undialled|by eapply sendPing_undialled]. }
  destruct (String.eqb _ EvSocRecon); cbn [andb].
  { intros H Hs%negb_false_iff. unfold reconnect in H. rewrite Hs in H. by injection H as <-. }
  intros H _. destruct (_ || _); [by eapply toLogin_undialled|by injection H as <-].
Qed.

Lemma read_round_spec t r now nano t' b : read_round decode_network decode_ping t r now nano = Finished (t', b) ->
  if logs_in t (ORead r) then rec_get t' rtSleeps = 0 /\ jobber t' = jobber t /\ rec_get t' rtConnects = rec_get t rtConnects
  else undialled t t'.
Proof.
  unfold read_round. intros H. destruct r as [f|e]; cbn [logs_in]; [|run_inv; subst; by eapply cl_Close_undialled].
  destruct (Z.leb_spec (size f) 0); [rewrite (proj2 (Z.ltb_ge _ _)) by done; by run_inv; subst|].
  rewrite (proj2 (Z.ltb_lt _ _)) by done. cbn [andb].
  destruct (Decode f) as [d|]; [|done]. cbn [lift mbind run_bind] in H.
  destruct (IsControl _) eqn:Ec; [run_inv; subst; by eapply onInstruct_spec|].
  unfold accepts. rewrite Ec. run_inv. subst. by apply (rec_set_undialled t rtLast now).
Qed.

Lemma still_step t o now nano t' : sw_step t o now nano = Finished t' -> 0 <= rec_get t rtSleeps <= 20 ->
  if retries t o then
    rec_get t' rtSleeps = Z.min 20 (rec_get t rtSleeps + 1) /\
    jobber t' = jobber t ++ [wrap64s (now + 5 * Z.min 20 (rec_get t rtSleeps + 1))] /\ dials_only t o now t'
  else
    rec_get t' rtSleeps = (if logs_in t o then 0 else rec_get t rtSleeps) /\ plans_kept t o now t' /\ dials_only t o now t'.
Proof.
  assert (Hu : forall o', undialled t t' -> o' <> OTick -> rec_get t' rtSleeps = rec_get t rtSleeps /\
    plans_kept t o' now t' /\ dials_only t o' now t').
  { intros o' [[? ?] ?] Hne. split; [done|]. split; [by destruct o'|by intros ??]. }
  destruct o as [| | |f| |r| | |s|s]; cbn [sw_step retries logs_in]; intros H Hs.
  - apply Hu; [|done]. unfold Initialize in H. apply with_client_finished in H as (c & _ & H). run_inv. subst t'.
    etrans; [|by apply rec_set_undialled]. etrans; [|by apply rec_set_undialled]. done.
  - unfold Start in H. run_inv. subst t'. destruct (connect_still _ _ _ H0) as [Hs1 Hj1]. split; [exact Hs1|]. split; [exact Hj1|]. by intros Hne.
  - destruct (events t) as [|ev q]; [done|]. destruct (_ && _) eqn:Er.
    + apply andb_true_iff in Er as [Et Hst%negb_true_iff]. unfold dispatch in H. apply String.eqb_eq in Et. rewrite Et in H.
      cbn [String.eqb] in H. destruct (reconnect_plans (upd_evq t q) now t' H Hst Hs) as (? & ? & ?). split; [done|split; [done|by intros _ _]].
    + apply (Hu OEvent); [|done]. by apply dispatch_spec in H.
  - apply Hu; [|done]. unfold DoWrite in H. run_inv. subst t'. apply checkAlive_undialled in H1. etrans; [exact H1|].
    destruct (client x0) as [c|]; [|by run_inv; subst]. destruct (negb _); [by run_inv; subst|]. by eapply cl_Write_undialled.
  - unfold doTicker in H. run_inv. apply checkAlive_undialled in H0 as [[? ?] ?]. apply keepAlive_undialled in H1 as [[? ?] ?].
    apply run_jobs_spec in H as (H7 & H8 & H9). unfold plans_kept, dials_only.
    assert (Ej : jobber x0 = jobber t) by congruence. rewrite Ej in H8, H9. split_and!; [congruence|done|].
    intros _ Hf. rewrite H9 by auto. congruence.
  - run_inv. subst t'. destruct x as [t' b]. apply read_round_spec in H0. cbn [fst].
    destruct (logs_in t (ORead r)) eqn:El; cbn [logs_in] in El; rewrite El; [|by apply (Hu (ORead r))].
    destruct H0 as (? & ? & ?). split; [done|split; [done|by intros _ _]].
  - apply Hu; [|done]. unfold read_end in H. destruct (isStopped t); [by run_inv; subst|]. by eapply post_undialled.
  - apply Hu; [|done]. unfold Stop, leave, sendLeave in H. run_inv. subst t'.
    assert (Hx : undialled t x1.1) by (destruct (client t); [by eapply send_undialled|by run_inv; subst]).
    subst x. apply cl_Terminal_undialled in H1. etrans; [exact Hx|exact H1].
  - apply Hu; [|done]. by run_inv; subst.
  - apply Hu; [|done]. by run_inv; subst.
Qed.

(** The counter of the backoff is the number of dials planned since the last login. *)
Lemma sleeps_attempts os : forall t n t', sw_run t os = Finished t' -> 0 <= n -> rec_get t rtSleeps = Z.min 20 n ->
  0 <= attempts t os n /\ rec_get t' rtSleeps = Z.min 20 (attempts t os n).
Proof.
  induction os as [|[[o now] nano] os IH]; intros t n t' H Hn Hs; [simpl in H; run_inv; subst; by split|].
  cbn [sw_run] in H. run_inv. cbn [attempts]. rewrite H0. pose proof (still_step _ _ _ _ _ H0 ltac:(lia)) as Hst.
  destruct (retries t o); destruct Hst as (H1 & _); [apply IH; [done|lia|lia]|].
  destruct (logs_in t o); apply IH; (done || lia).
Qed.

(** (C39) Backoff: whatever a worker has gone through, if it has planned [n] dials since its
    last login (or since it was made), then on the next event of a lost connection it plans
    a dial for [5 * (n + 1)] seconds later, or a hundred if that is less, and no step but
    such an event plans one; a planned dial stays planned until a tick at or after its
    time, and no step other than [Start] and such a tick dials. *)
Theorem reconnect_backoff (cl : SocketClientImpl unit) (c : PointCfg) (made : Z) (os : list (sw_op * Z * Z))
    (t t' : SocketWorker) (o : sw_op) (now nano : Z) :
  sw_run (NewSocketWorker goos cl c made) os = Finished t -> sw_step t o now nano = Finished t' ->
  (if retries t o
   then jobber t' = jobber t ++ [wrap64s (now + Z.min 100 (5 * (attempts (NewSocketWorker goos cl c made) os 0 + 1)))]
   else jobber t' = match o with OTick => filter (fun j => now < j) (jobber t) | _ => jobber t end) /\
  (o <> OStart -> (o = OTick -> Forall (fun j => now < j) (jobber t)) -> rec_get t' rtConnects = rec_get t rtConnects).
Proof.
  intros Hr Hst. destruct (sleeps_attempts os (NewSocketWorker goos cl c made) 0 t Hr ltac:(lia) eq_refl) as [Hn Hs].
  pose proof (still_step t o now nano t' Hst ltac:(lia)) as H. destruct (retries t o); destruct H as (_ & H2 & H3).
  - split; [|exact H3]. rewrite H2, Hs. do 4 f_equal. lia.
  - by split.
Qed.

(** ** Jobs *)

Lemma run_jobs_dissed jobs : forall t nt now,
  rec_get t rtReConnect <= rec_get t rtConnected ->
  run_jobs dial t jobs nt now = Finished (upd_jobber t (nt ++ filter (fun j => now < j) jobs)).
Proof.
  induction jobs as [|j jobs IH]; intros t nt now Hd; simpl; [by rewrite app_nil_r|].
  rewrite filter_cons. destruct (Z.leb_spec j now).
  - unfold job_call. rewrite (proj2 (Z.leb_le _ _)) by done. cbn [mbind run_bind].
    rewrite decide_False by lia. by apply IH.
  - rewrite decide_True by done. rewrite IH by done. by rewrite <- app_assoc.
Qed.

(** A connection that is lost within the second it was made is not dialled again
    by the job its loss plans: the job compares seconds, takes the old connection for a
    newer one and gives up, whenever it runs.  The worker stays without a connection
    until the check for silence notices, after the whole timeout. *)
Theorem loss_in_same_second_not_redialled (t t1 : SocketWorker) (c : SocketClientImpl unit) (X now : Z) :
  client t = Some c -> status c <> ClTerminal -> jobber t = [] ->
  0 <= rec_get t rtSleeps <= 20 ->
  rec_get t rtConnected = X -> reconnect t X = Finished t1 ->
  exists j, jobber t1 = [j] /\ client t1 = Some c /\
    (forall k, k <> rtReConnect -> k <> rtSleeps -> rec_get t1 k = rec_get t k) /\
    checkJobber dial t1 now = Finished (upd_jobber t1 (if j <=? now then [] else [j])).
Proof.
  intros Hc Hst Hj Hs HX H. unfold reconnect, isStopped in H. rewrite Hc in H.
  unfold Have in H. rewrite (proj2 (Z.eqb_neq _ _) Hst) in H.
  pose proof (sleepIdle_spec (rec_set t rtReConnect X)) as Hsl.
  rewrite get_set_ne in Hsl by done. specialize (Hsl Hs) as (H1 & H2 & H3 & H4 & H5 & H6).
  destruct (sleepIdle _) as [t2 d]. cbn [fst snd] in *. run_inv. subst t1. cbn [upd_jobber jobber client].
  rewrite H5. cbn [rec_set upd_record jobber]. rewrite Hj. eexists. split; [done|].
  split; [by rewrite H3|]. split.
  { intros k Hk1 Hk2. change (rec_get (upd_jobber _ _) k) with (rec_get t2 k). rewrite H6 by done.
    by apply get_set_ne. }
  unfold checkJobber. rewrite run_jobs_dissed.
  - cbn [upd_jobber jobber app]. rewrite filter_cons. destruct (Z.leb_spec (wrap64s (X + d)) now).
    + by rewrite decide_False by lia.
    + by rewrite decide_True by lia.
  - change (rec_get t2 rtReConnect <= rec_get t2 rtConnected).
    rewrite !H6, get_set_eq, get_set_ne by done. lia.
Qed.

(** ** Frames *)

(** No frame leaves a point that is not logged in: [DoWrite] of any frame then
    leaves the client as it is and reports no error; at most the check for silence adds
    its event. *)
Theorem unauthenticated_point_sends_nothing (t : SocketWorker) (c : SocketClientImpl unit)
    (frame : FrameMessage) (now : Z) (r : SocketWorker * option error) :
  client t = Some c -> status c <> ClAuth -> DoWrite fuel t frame now = Finished r ->
  client r.1 = Some c /\ r.2 = None /\ record r.1 = record t /\
  (events r.1 = events t \/ events r.1 = events t ++ [NewEvent EvSocRecon "from alive check" now]).
Proof.
  intros Hc Hst H. unfold DoWrite in H. run_inv.
  assert (G : x = t \/ x = upd_evq t (events t ++ [NewEvent EvSocRecon "from alive check" now])).
  { unfold checkAlive in H0. destruct (_ || _); [run_inv; by left|].
    destruct (_ <? _); [run_inv; by left|]. apply post_spec in H0 as [-> _]. by right. }
  assert (Hx : client x = Some c) by (by destruct G as [-> | ->]).
  rewrite Hx in H. unfold Have in H. rewrite (proj2 (Z.eqb_neq _ _) Hst) in H. cbn [negb] in H.
  run_inv. subst r. cbn [fst snd]. split; [done|]. split; [done|].
  destruct G as [-> | ->]; (split; [done|]); [by left|by right].
Qed.

End invariant.

(** ** Examples *)

Definition demo_pc : PointCfg :=
  {| pc_Alias := "ws"; pc_Username := "bob@net"; pc_Password := "pw"; pc_Network := "net";
     pc_Address := ""; pc_IPMtu := 1500; pc_RequestAddr := true; pc_Timeout := 60 |}.
Definition demo_worker : SocketWorker :=
  NewSocketWorker "linux" (NewTcpClient "10.0.0.1:10002" None 8 100) demo_pc 100.
Definition no_json {A B} : A -> option B := fun _ => None.

Lemma socket_worker_invariant_witness :
  let ops := [(OInitialize, 100, 0); (OStart, 100, 0); (OTick, 161, 0); (OEvent, 161, 0); (OTick, 200, 0)] in
  exists t, sw_run no_json no_json no_json no_json no_json (fun _ => inr not_okay) 5 demo_worker ops = Finished t /\
    0 <= sleepNow t <= 100.
Proof.
  intros ops. destruct (sw_run _ _ _ _ _ _ _ _ _) as [t| |] eqn:E; [|by vm_compute in E..].
  exists t. split; [done|].
  by destruct (socket_worker_invariant "linux" no_json no_json no_json no_json no_json
    (fun _ => inr not_okay) 5 (NewTcpClient "10.0.0.1:10002" None 8 100) demo_pc 100 ops t
    ltac:(discriminate) E) as (_ & H & _).
Defined.

(** A point whose dials fail plans them five and ten seconds ahead. *)
Lemma reconnect_backoff_witness :
  let ops := [(OInitialize, 100, 0); (OStart, 100, 0); (OTick, 161, 0); (OEvent, 161, 0); (OTick, 170, 0); (OTick, 240, 0)] in
  let step := sw_step no_json no_json no_json no_json no_json (fun _ => inr not_okay) 5 in
  exists t t', sw_run no_json no_json no_json no_json no_json (fun _ => inr not_okay) 5 demo_worker ops = Finished t /\
    rec_get t rtConnects = 2 /\ step t OEvent 240 0 = Finished t' /\ jobber t' = jobber t ++ [250].
Proof.
  intros ops step. destruct (sw_run _ _ _ _ _ _ _ _ ops) as [t| |] eqn:E; [|by vm_compute in E..].
  destruct (step t OEvent 240 0) as [t'| |] eqn:E'.
  - exists t, t'. split; [done|]. split; [vm_compute in E; injection E as <-; vm_compute; reflexivity|]. split; [done|].
    destruct (reconnect_backoff "linux" no_json no_json no_json no_json no_json (fun _ => inr not_okay) 5
      (NewTcpClient "10.0.0.1:10002" None 8 100) demo_pc 100 ops t t' OEvent 240 0 E E') as [H _].
    assert (Hr : retries t OEvent = true) by (vm_compute in E; injection E as <-; vm_compute; reflexivity).
    rewrite Hr in H. refine (eq_trans H _). vm_compute. reflexivity.
  - vm_compute in E. injection E as <-. by vm_compute in E'.
  - vm_compute in E. injection E as <-. by vm_compute in E'.
Defined.

Lemma loss_in_same_second_not_redialled_witness :
  let t := rec_set demo_worker rtConnected 100 in
  match reconnect t 100 with
  | Finished t1 => exists j, jobber t1 = [j] /\ checkJobber (fun _ => inl demo_conn) t1 200 = Finished (upd_jobber t1 [])
  | _ => False
  end.
Proof.
  intros t. destruct (reconnect t 100) as [t1| |] eqn:E; [|by vm_compute in E..].
  destruct (loss_in_same_second_not_redialled (fun _ => inl demo_conn) t t1
    (NewTcpClient "10.0.0.1:10002" None 8 100) 100 200) as (j & Hj & _ & _ & Hc);
    [reflexivity|discriminate|reflexivity|by vm_compute|reflexivity|exact E|].
  exists j. split; [exact Hj|]. rewrite Hc.
  assert (Ej : j = 105) by (vm_compute in E; injection E as <-; vm_compute in Hj; by injection Hj as <-).
  by rewrite Ej.
Defined.

Lemma unauthenticated_point_sends_nothing_witness :
  match DoWrite 5 demo_worker (NewFrameMessage 8) 130 with
  | Finished r => client r.1 = Some (NewTcpClient "10.0.0.1:10002" None 8 100) /\ r.2 = None
  | _ => False
  end.
Proof.
  destruct (DoWrite 5 demo_worker (NewFrameMessage 8) 130) as [r| |] eqn:E; [|by vm_compute in E..].
  destruct (unauthenticated_point_sends_nothing 5 demo_worker
    (NewTcpClient "10.0.0.1:10002" None 8 100) (NewFrameMessage 8) 130 r) as (H1 & H2 & _);
    [reflexivity|discriminate|exact E|]. split; [exact H1|exact H2].
Defined.
