(* ===== verification/PointWorker.v ===== *)
(** * The worker of a point (pkg/olap/worker.go) and its kernel side (point_linux.go)

    [Worker] ties the socket side and the device side together: it takes the network
    the switch assigns, tells the device worker and the kernel about it, and keeps the
    routes by which a device for IP packets finds the next hop.  Calls of its listener
    and events for the device worker are recorded in order.  [Point] is that listener
    on Linux; the requests it makes of the kernel (package netlink) are recorded, what
    they answer is the environment's. *)

From S2P Require Import Prelude GoStd Utils Protocol Message Models Rules Tap PointTap PointSocket.

Local Open Scope Z_scope.

(** ** Routes of the worker *)

Record PrefixRule := { pr_Type : Z; pr_Destination : IPNet; pr_NextHop : bytes }.

Inductive wcall :=
| AddAddr (s : string)
| DelAddr (s : string)
| AddRoutes (rts : list Route.t)
| DelRoutes (rts : list Route.t)
| TapIpAddr (s : string).   (* [tapWorker.OnIpAddr] *)

Record Worker := {
  w_ifAddr : string; w_network : option Network.t; w_routes : list PrefixRule; w_calls : list wcall
}.

Definition NewWorker (address : string) : Worker :=
  {| w_ifAddr := address; w_network := None; w_routes := []; w_calls := [] |}.

Definition call (w : Worker) (c : wcall) : Worker :=
  {| w_ifAddr := w_ifAddr w; w_network := w_network w; w_routes := w_routes w;
     w_calls := w_calls w ++ [c] |}.
Definition set_net (w : Worker) (n : option Network.t) (rts : list PrefixRule) : Worker :=
  {| w_ifAddr := w_ifAddr w; w_network := n; w_routes := rts; w_calls := w_calls w |}.

Fixpoint find_rule (rts : list PrefixRule) (dest : bytes) : option PrefixRule :=
  match rts with
  | [] => None
  | rt :: rts => if Contains (pr_Destination rt) dest then Some rt else find_rule rts dest
  end.

(** The first rule that holds the address decides; [nil] when its next hop is not IPv4. *)
Definition FindNext (w : Worker) (dest : bytes) : bytes :=
  match find_rule (w_routes w) dest with
  | None => dest
  | Some rt => if pr_Type rt =? 0 then dest else To4 (pr_NextHop rt)
  end.

Definition ip_or_nil (s : string) : bytes := default [] (ParseIP s).

(** [fmt.Sprintf("%s/%d", n.IfAddr, prefix)] *)
Definition ip_prefix (n : Network.t) : string :=
  (Network.IfAddr n +:+ "/" +:+ FormatInt (Netmask2Len (Network.Netmask n)))%string.

(** The rule of the own subnet and those of the routes that parse. *)
Definition local_rule (n : Network.t) : PrefixRule :=
  let ip := ip_or_nil (Network.IfAddr n) in
  let m := To4 (ip_or_nil (Network.Netmask n)) in
  {| pr_Type := 0; pr_Destination := {| ipn_IP := ip_Mask ip m; ipn_Mask := m |}; pr_NextHop := EthZero |}.
Definition route_rule (rt : Route.t) : option PrefixRule :=
  match ParseCIDR (Route.Prefix rt) with
  | None => None
  | Some (dest, len) =>
      Some {| pr_Type := 1; pr_Destination := {| ipn_IP := dest; ipn_Mask := CIDRMask len (length dest) |};
              pr_NextHop := ip_or_nil (Route.NextHop rt) |}
  end.
Definition net_rules (n : Network.t) : list PrefixRule :=
  local_rule n :: omap route_rule (Network.Routes n).

Definition OnIpAddr (w : Worker) (n : Network.t) : Worker :=
  if Network.NetworkEqual false (w_network w) (Some n) then w
  else
    let w := call w (TapIpAddr (ip_prefix n)) in
    let w := call w (AddAddr (ip_prefix n)) in
    let w := call w (AddRoutes (Network.Routes n)) in
    set_net w (Some n) (w_routes w ++ net_rules n).

Definition FreeIpAddr (w : Worker) : Worker :=
  match w_network w with
  | None => w
  | Some n =>
      let w := call w (DelRoutes (Network.Routes n)) in
      let w := call w (DelAddr (ip_prefix n)) in
      set_net w None []
  end.

Definition OnClose (w : Worker) : Worker := FreeIpAddr w.
Definition OnSuccess (w : Worker) : Worker := call w (AddAddr (w_ifAddr w)).

(** The listener [Initialize] gives the device worker, after [OnTap] went well. *)
Definition OnOpen (w : Worker) : Worker :=
  match w_network w with
  | None => w
  | Some n => OnIpAddr (FreeIpAddr w) n
  end.

(** What the notices of the socket worker do. *)
Definition on_notice (w : Worker) (n : notice) : Worker :=
  match n with
  | NSuccess => OnSuccess w
  | NIpAddr n => OnIpAddr w n
  | NReadAt _ => w
  end.

(** [GetTapCfg] *)
Definition GetTapCfg (provider name address : string) (virSnd virWrt : Z) : TapConfig :=
  {| Provider := provider; cfg_Type := if String.eqb provider "tun" then TUN else TAP;
     cfg_Network := address; cfg_Name := name; VirBuf := virWrt; KernBuf := virSnd; cfg_Mtu := 0 |}.

(** ** Theorems: routes *)

Lemma find_rule_app l1 l2 dest :
  find_rule (l1 ++ l2) dest = match find_rule l1 dest with Some r => Some r | None => find_rule l2 dest end.
Proof. induction l1 as [|r l1 IH]; simpl; [done|]. by destruct (Contains _ _). Qed.

Lemma find_rule_in l dest r : find_rule l dest = Some r -> r ∈ l /\ Contains (pr_Destination r) dest = true.
Proof.
  induction l as [|r0 l IH]; simpl; [done|]. destruct (Contains (pr_Destination r0) dest) eqn:E.
  - intros [= <-]. split; [by apply elem_of_cons; left|done].
  - intros [H1 H2]%IH. split; [apply elem_of_cons; by right|done].
Qed.

(** Two networks that differ in what [NetworkEqual] compares. *)
Definition changed (o n : Network.t) : Prop := Network.NetworkEqual false (Some o) (Some n) = false.

(** When the switch assigns another network, the rules of the old one stay in front
    of the new ones: an address that any old rule covers keeps its old next hop, the old
    subnet is still taken for local, and the old interface address is not removed from
    the device.  Opening the device again is what leaves exactly the rules of the
    current network. *)
Theorem stale_routes_win (w : Worker) (n1 n2 : Network.t) (dest : bytes) (r : PrefixRule) :
  w_network w = None -> w_routes w = [] -> changed n1 n2 ->
  let w1 := OnIpAddr w n1 in
  let w2 := OnIpAddr w1 n2 in
  w_network w2 = Some n2 /\
  (find_rule (net_rules n1) dest = Some r -> FindNext w2 dest = FindNext w1 dest) /\
  w_calls w2 = w_calls w1 ++ [TapIpAddr (ip_prefix n2); AddAddr (ip_prefix n2); AddRoutes (Network.Routes n2)] /\
  w_routes (OnOpen w2) = net_rules n2 /\
  w_calls (OnOpen w2) = w_calls w2 ++
    [DelRoutes (Network.Routes n2); DelAddr (ip_prefix n2);
     TapIpAddr (ip_prefix n2); AddAddr (ip_prefix n2); AddRoutes (Network.Routes n2)].
Proof.
  intros Hn Hr Hch w1 w2.
  assert (E1 : w1 = set_net (call (call (call w (TapIpAddr (ip_prefix n1))) (AddAddr (ip_prefix n1)))
                 (AddRoutes (Network.Routes n1))) (Some n1) (net_rules n1)).
  { unfold w1, OnIpAddr. rewrite Hn. cbn [Network.NetworkEqual].
    cbn [call set_net w_routes w_ifAddr w_network w_calls]. by rewrite Hr. }
  assert (E2 : w2 = set_net (call (call (call w1 (TapIpAddr (ip_prefix n2))) (AddAddr (ip_prefix n2)))
                 (AddRoutes (Network.Routes n2))) (Some n2) (net_rules n1 ++ net_rules n2)).
  { unfold w2. rewrite E1. unfold OnIpAddr at 1. cbn [set_net w_network]. by rewrite Hch. }
  split; [by rewrite E2|]. split; [|split; [|split]].
  - intros Hf. rewrite E2, E1. unfold FindNext. cbn [set_net w_routes]. rewrite find_rule_app, Hf. done.
  - rewrite E2. cbn [set_net call w_calls]. by rewrite <- !app_assoc.
  - rewrite E2. unfold OnOpen. cbn [set_net w_network FreeIpAddr]. unfold OnIpAddr.
    cbn [set_net call w_network Network.NetworkEqual w_routes]. done.
  - rewrite E2. unfold OnOpen. cbn [set_net w_network FreeIpAddr]. unfold OnIpAddr.
    cbn [set_net call w_network Network.NetworkEqual w_calls]. by rewrite <- !app_assoc.
Qed.

Definition demo_net (ifaddr : string) (rts : list Route.t) : Network.t :=
  {| Network.Name := "net"; Network.Tenant := ""; Network.IfAddr := ifaddr; Network.IpStart := "";
     Network.IpEnd := ""; Network.Netmask := "255.255.255.0"; Network.Routes := rts |}.

Lemma stale_routes_win_witness :
  let n1 := demo_net "10.0.0.7" [Route.NewRoute "192.168.0.0/16" "10.0.0.1" ""] in
  let n2 := demo_net "10.0.9.7" [Route.NewRoute "192.168.0.0/16" "10.0.9.1" ""] in
  let w2 := OnIpAddr (OnIpAddr (NewWorker "") n1) n2 in
  FindNext w2 [192; 168; 3; 3] = [10; 0; 0; 1] /\ FindNext (OnOpen w2) [192; 168; 3; 3] = [10; 0; 9; 1].
Proof.
  intros n1 n2 w2.
  destruct (find_rule (net_rules n1) [192; 168; 3; 3]) as [r|] eqn:Er; [|by vm_compute in Er].
  destruct (stale_routes_win (NewWorker "") n1 n2 [192; 168; 3; 3] r) as (_ & H & _ & Hr & _);
    [reflexivity|reflexivity|by vm_compute|].
  split; [unfold w2; rewrite (H Er); by vm_compute|].
  unfold FindNext, w2. rewrite Hr. by vm_compute.
Defined.

(** One route whose next hop is not an IPv4 address is enough to kill the reader of
    a device for IP packets: for every packet to an address that route decides, the next
    hop the device worker gets is nil, and looking that up in the neighbor table crashes;
    the packets to other addresses are not affected by the route. *)
Theorem route_without_nexthop_crashes {T} (w : Worker) (a : TapWorker T) (frame : FrameMessage)
    (off n : Z) (data : bytes) (iph : Ipv4.t) (r : PrefixRule) :
  isTun a = true -> slice (Frame frame) off (off + n) = Ret data ->
  Ipv4.NewIpv4FromFrame data = Ret (iph, None) ->
  find_rule (w_routes w) (Ipv4.Destination iph) = Some r -> pr_Type r <> 0 -> To4 (pr_NextHop r) = [] ->
  onFrame a (Some (FindNext w)) frame off n = Panic.
Proof.
  intros Ht Hs Hi Hf Hty Hnh. unfold onFrame. rewrite Hs. cbn [mbind go_bind]. rewrite Ht, Hi.
  cbn [mbind go_bind]. unfold FindNext. rewrite Hf, (proj2 (Z.eqb_neq _ _) Hty), Hnh. done.
Qed.

Lemma route_without_nexthop_crashes_witness :
  let w := OnIpAddr (NewWorker "") (demo_net "10.0.7.7" [Route.NewRoute "10.0.0.0/24" "" ""]) in
  let frame := with_buffer (NewFrameMessage 0) (make_bytes 18 ++ demo_packet ++ make_bytes 4068) in
  onFrame demo_sender (Some (FindNext w)) frame 14 20 = Panic.
Proof.
  intros w frame.
  destruct (Ipv4.NewIpv4FromFrame demo_packet) as [[iph [e|]]|] eqn:E; [by vm_compute in E| |by vm_compute in E].
  assert (Hd : Ipv4.Destination iph = [10; 0; 0; 2]) by (vm_compute in E; by injection E as <-).
  destruct (find_rule (w_routes w) (Ipv4.Destination iph)) as [r|] eqn:Er.
  - apply (route_without_nexthop_crashes w demo_sender frame 14 20 demo_packet iph r);
      [reflexivity|by vm_compute|exact E|exact Er|..];
      rewrite Hd in Er; vm_compute in Er; injection Er as <-; [discriminate|reflexivity].
  - exfalso. rewrite Hd in Er. by vm_compute in Er.
Defined.

(** ** The kernel side (pkg/olap/point_linux.go) *)

Record nl_route := { nr_Dst : option (bytes * Z); nr_Gw : bytes; nr_Priority : Z; nr_Table : Z }.
Inductive nl_req :=
| NAddrAdd (s : string) | NAddrDel (s : string)
| NRouteAdd (r : nl_route) | NRouteReplace (r : nl_route) | NRouteDel (r : nl_route)
| NRuleAdd (table prio : Z) | NRuleDel (table prio : Z).

Record Point := {
  pt_addr : string; pt_bypass : option nl_route; pt_routes : option (list Route.t);
  pt_link : bool;        (* [p.link] is set *)
  pt_ByPass : bool;      (* of the configuration *)
  pt_reqs : list nl_req
}.

Section point.
(** Package netlink: whether it can parse an address, what it answers to a request and
    the gateway of the route it would use. *)
Context (parse_addr : string -> bool) (answer : nl_req -> bool) (RouteGet : bytes -> option bytes).
(** [GetRemote] *)
Context (remote : string).

Definition req (p : Point) (r : nl_req) : Point :=
  {| pt_addr := pt_addr p; pt_bypass := pt_bypass p; pt_routes := pt_routes p; pt_link := pt_link p;
     pt_ByPass := pt_ByPass p; pt_reqs := pt_reqs p ++ [r] |}.
Definition set_addr (p : Point) (s : string) : Point :=
  {| pt_addr := s; pt_bypass := pt_bypass p; pt_routes := pt_routes p; pt_link := pt_link p;
     pt_ByPass := pt_ByPass p; pt_reqs := pt_reqs p |}.
Definition set_bypass (p : Point) (b : option nl_route) : Point :=
  {| pt_addr := pt_addr p; pt_bypass := b; pt_routes := pt_routes p; pt_link := pt_link p;
     pt_ByPass := pt_ByPass p; pt_reqs := pt_reqs p |}.
Definition set_routes (p : Point) (r : option (list Route.t)) : Point :=
  {| pt_addr := pt_addr p; pt_bypass := pt_bypass p; pt_routes := r; pt_link := pt_link p;
     pt_ByPass := pt_ByPass p; pt_reqs := pt_reqs p |}.

Definition pt_AddAddr (p : Point) (ipStr : string) : Point :=
  if String.eqb ipStr "" || negb (pt_link p) || negb (parse_addr ipStr) then p
  else
    let p := req p (NAddrAdd ipStr) in
    if answer (NAddrAdd ipStr) then set_addr p ipStr else p.
Definition pt_DelAddr (p : Point) (ipStr : string) : Point :=
  if negb (pt_link p) || String.eqb ipStr "" || negb (parse_addr ipStr) then p
  else set_addr (req p (NAddrDel ipStr)) "".

(** The route the kernel gets for a route of the network. *)
Definition kroute (rt : Route.t) : option nl_route :=
  match ParseCIDR (Route.Prefix rt) with
  | None => None
  | Some dst => Some {| nr_Dst := Some dst; nr_Gw := ip_or_nil (Route.NextHop rt);
                        nr_Priority := Route.Metric rt; nr_Table := 0 |}
  end.
(** The two halves of the default route. *)
Definition half_routes (rt : Route.t) : list nl_route :=
  if String.eqb (Route.Prefix rt) "0.0.0.0/0" then
    [{| nr_Dst := ParseCIDR "0.0.0.0/1"; nr_Gw := ip_or_nil (Route.NextHop rt);
        nr_Priority := Route.Metric rt; nr_Table := 0 |};
     {| nr_Dst := ParseCIDR "128.0.0.0/1"; nr_Gw := ip_or_nil (Route.NextHop rt);
        nr_Priority := Route.Metric rt; nr_Table := 0 |}]
  else [].

Definition AddBypass (p : Point) (routes : list Route.t) : Point :=
  if negb (pt_ByPass p) then p
  else
    let dest := ParseCIDR (remote +:+ "/32")%string in
    match RouteGet (ip_or_nil remote) with
    | None => p
    | Some gw =>
        let rt := {| nr_Dst := dest; nr_Gw := gw; nr_Priority := 0; nr_Table := 100 |} in
        let p := req p (NRouteReplace rt) in
        if negb (answer (NRouteReplace rt)) then p
        else
          let p := req p (NRuleAdd 100 16383) in
          let p := set_bypass p (Some rt) in
          foldl (fun p r => foldl (fun p h => req p (NRouteAdd h)) p (half_routes r)) p routes
    end.

Definition pt_AddRoutes (p : Point) (routes : option (list Route.t)) : Point :=
  match routes with
  | None => p
  | Some routes =>
      if negb (pt_link p) then p
      else
        let p := AddBypass p routes in
        let p := foldl (fun p rt => match kroute rt with Some r => req p (NRouteAdd r) | None => p end) p routes in
        set_routes p (Some routes)
  end.

(** The bypass route itself is added once more, by [netlink.RouteAdd]. *)
Definition DelBypass (p : Point) (routes : list Route.t) : Point :=
  if negb (pt_ByPass p) then p
  else match pt_bypass p with
       | None => p
       | Some rt =>
           let p := set_bypass (req p (NRouteAdd rt)) None in
           foldl (fun p r => foldl (fun p h => req p (NRouteDel h)) p (half_routes r)) p routes
       end.

Definition pt_DelRoutes (p : Point) (routes : option (list Route.t)) : Point :=
  match routes with
  | None => p
  | Some routes =>
      if negb (pt_link p) then p
      else
        let p := DelBypass p routes in
        let p := foldl (fun p rt => match kroute rt with Some r => req p (NRouteDel r) | None => p end) p routes in
        set_routes p None
  end.

(** ** Theorems: the kernel side *)

Lemma fold_reqs {A} (f : A -> list nl_req) (step : Point -> A -> Point) l : forall p,
  (forall p x, pt_reqs (step p x) = pt_reqs p ++ f x /\ pt_bypass (step p x) = pt_bypass p /\
     pt_ByPass (step p x) = pt_ByPass p /\ pt_link (step p x) = pt_link p) ->
  let p' := foldl step p l in
  pt_reqs p' = pt_reqs p ++ concat (map f l) /\ pt_bypass p' = pt_bypass p /\
  pt_ByPass p' = pt_ByPass p /\ pt_link p' = pt_link p.
Proof.
  induction l as [|x l IH]; intros p Hs; simpl; [by rewrite app_nil_r|].
  destruct (Hs p x) as (H1 & H2 & H3 & H4). destruct (IH (step p x) Hs) as (G1 & G2 & G3 & G4).
  rewrite G1, G2, G3, G4, H1, H2, H3, H4. by rewrite <- app_assoc.
Qed.

Lemma halves_reqs (mk : nl_route -> nl_req) p r :
  let p' := foldl (fun p h => req p (mk h)) p (half_routes r) in
  pt_reqs p' = pt_reqs p ++ map mk (half_routes r) /\ pt_bypass p' = pt_bypass p /\
  pt_ByPass p' = pt_ByPass p /\ pt_link p' = pt_link p.
Proof.
  unfold half_routes. destruct (String.eqb _ _); simpl; [by rewrite <- app_assoc|by rewrite app_nil_r].
Qed.

Definition net_reqs (mk : nl_route -> nl_req) (routes : list Route.t) : list nl_req :=
  map mk (omap kroute routes).
Definition half_reqs (mk : nl_route -> nl_req) (routes : list Route.t) : list nl_req :=
  concat (map (fun r => map mk (half_routes r)) routes).

Lemma kroutes_reqs mk routes p :
  let p' := foldl (fun p rt => match kroute rt with Some r => req p (mk r) | None => p end) p routes in
  pt_reqs p' = pt_reqs p ++ net_reqs mk routes /\ pt_bypass p' = pt_bypass p /\
  pt_ByPass p' = pt_ByPass p /\ pt_link p' = pt_link p.
Proof.
  destruct (fold_reqs (fun rt => match kroute rt with Some r => [mk r] | None => [] end)
    (fun p rt => match kroute rt with Some r => req p (mk r) | None => p end) routes p) as (H1 & H2 & H3 & H4).
  { intros q x. destruct (kroute x); [done|by rewrite app_nil_r]. }
  split; [|done]. rewrite H1. f_equal. unfold net_reqs. clear.
  induction routes as [|r routes IH]; [done|]. simpl. destruct (kroute r); simpl; by rewrite IH.
Qed.

(** What [AddRoutes] asks for, according to whether the bypass could be set up. *)
Lemma AddRoutes_reqs p routes :
  pt_link p = true -> pt_bypass p = None ->
  let p1 := pt_AddRoutes p (Some routes) in
  exists pre, pt_reqs p1 = pt_reqs p ++ pre ++ net_reqs NRouteAdd routes /\ pt_link p1 = true /\
    pt_ByPass p1 = pt_ByPass p /\
    match pt_bypass p1 with
    | None => pre = [] \/ exists r, pre = [NRouteReplace r]
    | Some b => pt_ByPass p = true /\ pre = [NRouteReplace b; NRuleAdd 100 16383] ++ half_reqs NRouteAdd routes
    end.
Proof.
  intros Hl Hb p1. unfold p1, pt_AddRoutes. rewrite Hl. cbn [negb].
  destruct (kroutes_reqs NRouteAdd routes (AddBypass p routes)) as (H1 & H2 & H3 & H4).
  cbn [set_routes pt_reqs pt_bypass pt_ByPass pt_link]. rewrite H1, H2, H3, H4. unfold AddBypass.
  destruct (pt_ByPass p) eqn:Ebp; cbn [negb]; [|exists []; rewrite Hb, Ebp; by split_and!; try left].
  destruct (RouteGet _) as [gw|]; [|exists []; rewrite Hb, Ebp; by split_and!; try left].
  match goal with |- context [answer (NRouteReplace ?r)] => destruct (answer (NRouteReplace r)); set (b := r) end;
    cbn [negb].
  2:{ exists [NRouteReplace b]. simpl. rewrite Hb, <- app_assoc. split_and!; try done. right. by eexists. }
  match goal with |- context [foldl _ ?x routes] => set (q := x) end.
  destruct (fold_reqs (fun r => map NRouteAdd (half_routes r))
    (fun p r => foldl (fun p h => req p (NRouteAdd h)) p (half_routes r)) routes q) as (F1 & F2 & F3 & F4).
  { intros x r. apply (halves_reqs NRouteAdd). }
  rewrite F1, F2, F3, F4. simpl. exists ([NRouteReplace b; NRuleAdd 100 16383] ++ half_reqs NRouteAdd routes).
  unfold half_reqs. rewrite <- !app_assoc. done.
Qed.

Lemma DelRoutes_reqs p1 routes :
  pt_link p1 = true ->
  let p2 := pt_DelRoutes p1 (Some routes) in
  pt_reqs p2 = pt_reqs p1 ++
    match pt_bypass p1 with
    | Some b => if pt_ByPass p1 then [NRouteAdd b] ++ half_reqs NRouteDel routes else []
    | None => []
    end ++ net_reqs NRouteDel routes /\
  (pt_ByPass p1 = true -> pt_bypass p2 = None).
Proof.
  intros L1 p2. unfold p2, pt_DelRoutes. rewrite L1. cbn [negb].
  destruct (kroutes_reqs NRouteDel routes (DelBypass p1 routes)) as (H1 & H2 & H3 & H4).
  cbn [set_routes pt_reqs pt_bypass pt_ByPass pt_link]. rewrite H1, H2. unfold DelBypass.
  destruct (pt_ByPass p1) eqn:Ebp; cbn [negb]; [|split; [by destruct (pt_bypass p1)|done]].
  destruct (pt_bypass p1) as [b|] eqn:Eb; [|done].
  match goal with |- context [foldl _ ?x routes] => set (q := x) end.
  destruct (fold_reqs (fun r => map NRouteDel (half_routes r))
    (fun p r => foldl (fun p h => req p (NRouteDel h)) p (half_routes r)) routes q) as (F1 & F2 & F3 & F4).
  { intros x r. apply (halves_reqs NRouteDel). }
  rewrite F1, F2. simpl. unfold half_reqs. rewrite <- !app_assoc. done.
Qed.

Definition is_rule_del (r : nl_req) : bool := match r with NRuleDel _ _ => true | _ => false end.

Lemma no_rule_del mk routes :
  (forall r, is_rule_del (mk r) = false) ->
  Forall (fun r => is_rule_del r = false) (net_reqs mk routes) /\
  Forall (fun r => is_rule_del r = false) (half_reqs mk routes).
Proof.
  intros Hmk. unfold net_reqs, half_reqs.
  assert (G : forall l, Forall (fun r => is_rule_del r = false) (map mk l)).
  { intros l. apply Forall_fmap, Forall_true. apply Hmk. }
  split; [apply G|]. induction routes as [|r rs IH]; simpl; [done|]. by apply Forall_app.
Qed.

(** Taking the routes of a network away asks the kernel to delete exactly the routes
    that were added for it, in the same order and whatever it answered, and with the
    bypass also the two halves of every default route; but the bypass of the switch
    itself is never taken away: its route is added a second time instead of deleted,
    and nothing deletes its rule. *)
Theorem routes_undone_bypass_kept (p : Point) (routes : list Route.t) :
  pt_link p = true -> pt_bypass p = None ->
  let p1 := pt_AddRoutes p (Some routes) in
  let p2 := pt_DelRoutes p1 (Some routes) in
  (pt_bypass p1 = None ->
     exists pre, pt_reqs p1 = pt_reqs p ++ pre ++ net_reqs NRouteAdd routes /\
     pt_reqs p2 = pt_reqs p1 ++ net_reqs NRouteDel routes) /\
  (forall b, pt_bypass p1 = Some b ->
     pt_reqs p1 = pt_reqs p ++ [NRouteReplace b; NRuleAdd 100 16383] ++
       half_reqs NRouteAdd routes ++ net_reqs NRouteAdd routes /\
     pt_reqs p2 = pt_reqs p1 ++ [NRouteAdd b] ++ half_reqs NRouteDel routes ++ net_reqs NRouteDel routes /\
     pt_bypass p2 = None) /\
  exists more, pt_reqs p2 = pt_reqs p ++ more /\ Forall (fun r => is_rule_del r = false) more.
Proof.
  intros Hl Hb p1 p2. destruct (AddRoutes_reqs p routes Hl Hb) as (pre & R1 & L1 & B1 & C1).
  destruct (DelRoutes_reqs p1 routes L1) as [R2 Hb2]. fold p1 in R1, L1, B1, C1. fold p2 in R2, Hb2.
  rewrite B1 in R2, Hb2.
  destruct (no_rule_del NRouteAdd routes) as [Na Ha]; [done|].
  destruct (no_rule_del NRouteDel routes) as [Nd Hd]; [done|].
  split; [|split].
  - intros Eb. rewrite Eb in *. exists pre. done.
  - intros b Eb. rewrite Eb in *. destruct C1 as [Hbp ->]. rewrite Hbp in R2.
    split; [by rewrite R1|]. split; [by rewrite R2|]. by apply Hb2.
  - eexists. split; [rewrite R2, R1, <- !app_assoc; reflexivity|].
    repeat (apply Forall_app; split); try done; destruct (pt_bypass p1) as [b|].
    + destruct C1 as [_ ->]. by repeat constructor.
    + destruct C1 as [->|[r ->]]; by repeat constructor.
    + destruct (pt_ByPass p); [|done]. by constructor.
    + done.
Qed.

End point.

Lemma routes_undone_bypass_kept_witness :
  let p := {| pt_addr := ""; pt_bypass := None; pt_routes := None; pt_link := true; pt_ByPass := true; pt_reqs := [] |} in
  let rts := [Route.NewRoute "0.0.0.0/0" "10.0.0.1" ""] in
  let get := fun _ : bytes => Some [192; 168; 1; 1] in
  let p1 := pt_AddRoutes (fun _ => true) get "1.2.3.4" p (Some rts) in
  exists b, pt_bypass p1 = Some b /\
    pt_reqs (pt_DelRoutes p1 (Some rts)) =
      pt_reqs p1 ++ [NRouteAdd b] ++ half_reqs NRouteDel rts ++ net_reqs NRouteDel rts.
Proof.
  intros p rts get p1. destruct (pt_bypass p1) as [b|] eqn:Eb; [|by vm_compute in Eb].
  exists b. split; [done|].
  destruct (routes_undone_bypass_kept (fun _ => true) get "1.2.3.4" p rts eq_refl eq_refl) as (_ & H & _).
  by destruct (H b Eb) as (_ & H2 & _).
Defined.
