(* ===== verification/Session.v ===== *)
(** * A point and its switch

    The two sides of a session put together: what the socket worker of a point sends
    and what the applications of the switch answer, over messages as the messagers
    deliver them. *)

From S2P Require Import Prelude GoStd Protocol Message SafeMap Models UserCache NetCache Socket Cache Apps PointTap PointSocket.

Local Open Scope Z_scope.

(** ** What each side does with a control message *)

Lemma control_send act body :
  String.length act = 6%nat -> bytes_ok body ->
  exists m, NewControlFrame act body = Ret m /\ msg_wf m /\ size m = 12 + zlen body /\
    forall m', received m m' ->
      size m' = 12 + zlen body /\
      exists m2, Decode m' = Ret m2 /\ IsControl m2 = true /\ CmdAndParams m2 = (act, body).
Proof.
  intros Hl Hb. destruct (control_roundtrip act body Hl Hb) as (m & E & Hw & H).
  destruct (control_frame_spec act body Hl) as (m1 & E1 & _ & _ & _ & _ & Hs & _).
  assert (m1 = m) as -> by congruence. exists m. split; [done|]. split; [done|]. split; [done|].
  intros m' Hr. split; [by destruct Hr as (_ & _ & -> & _)|].
  destruct (H m' Hr) as (m2 & E2 & H1 & H2). by exists m2.
Qed.

Section point.
Context (decode_network : bytes -> option Network.t) (decode_ping : bytes -> option Z).

(** A point that gets the answer okay is logged in. *)
Lemma point_login_okay t c rm m' now nano :
  client t = Some c -> status c <> ClAuth -> zlen (events t) < evCap ->
  NewControlFrame LoginResp (bytes_of_string "okay") = Ret rm -> received rm m' ->
  exists t', read_round decode_network decode_ping t (inl m') now nano = Finished (t', true) /\
    client t' = Some (SetStatus c ClAuth).1 /\ Have (SetStatus c ClAuth).1 ClAuth = true /\
    events t' = events t ++ [NewEvent EvSocSuccess "from login" now] /\
    notices t' = notices t ++ [NSuccess] /\ rec_get t' rtSleeps = 0 /\ rec_get t' rtSuccess = now.
Proof.
  intros Hc Hst Hq Hm Hr.
  destruct (control_send LoginResp (bytes_of_string "okay") eq_refl (bytes_ok_of_string _))
    as (m & E & _ & _ & H). assert (m = rm) as -> by congruence.
  destruct (H m' Hr) as (Hs & m2 & Ed & Hctl & Hcmd). unfold read_round.
  rewrite (proj2 (Z.leb_gt _ _)) by (rewrite Hs; vm_compute; done). rewrite Ed. cbn [lift mbind run_bind].
  rewrite Hctl. unfold onInstruct. rewrite Hctl. cbn [negb]. rewrite Hcmd.
  change (String.eqb LoginResp LoginResp) with true. cbn iota.
  assert (Hn : (status c =? ClAuth) = false) by by apply Z.eqb_neq.
  unfold onLogin, cl_have, with_client. rewrite Hc. unfold Have. rewrite Hn. cbn [mbind run_bind].
  change (HasPrefix _ "okay") with true. cbn iota.
  unfold cl_SetStatus, with_client. rewrite Hc. unfold SetStatus. rewrite Hn.
  cbn [fst snd on_events on_event mbind run_bind].
  unfold post, ev_push. cbn [rec_set upd_record notify PointSocket.upd_client events].
  rewrite (proj2 (Z.ltb_lt _ _)) by done. cbn [mbind run_bind].
  assert (Hu : forall x q k, rec_get (upd_evq x q) k = rec_get x k) by done.
  eexists. split; [done|]. do 4 (split; [done|]).
  rewrite !Hu. split; [|by rewrite get_set_eq].
  by rewrite (get_set_ne _ rtSuccess), (get_set_ne _ rtIpAddr), get_set_eq.
Qed.
End point.

Section switch.
Context {M : Type} `{HM : Master M}.
Context (decode_user : bytes -> option User.t) (ldap : LDAPConfig -> option LDAPService).
Context (dev_name : nat -> string) (tz : Z).

Lemma have_auth_set w c : is_Some (w_clients w !! c) -> have (set_client_status w c ClAuth) c ClAuth = true.
Proof.
  intros [cl E]. unfold have, set_client_status. rewrite E. cbn [Apps.upd_client w_clients]. rewrite lookup_insert_eq.
  unfold SetStatus. destruct (status cl =? ClAuth) eqn:Es; [exact Es|done].
Qed.

(** The switch answers the login of a user it accepts with okay, as its last effect. *)
Lemma switch_login_okay (a : Access) (ms ms' : M) (w : world) (c : client_id) (frame : FrameMessage)
    (body : bytes) (now : Z) (u0 known : User.t) (tap : result nat) :
  is_Some (w_clients w !! c) -> have w c ClAuth = false ->
  IsControl frame = true -> CmdAndParams frame = (LoginReq, body) ->
  decode_user body = Some u0 ->
  (UserCache.Check ldap (w_users w) (User.Update u0 now) tz now).2 = inl known ->
  NewTap ms (User.Network (User.Update u0 now)) = Finished (ms', tap) ->
  exists a' w', access_OnFrame decode_user ldap dev_name tz a ms w c frame now = Finished (a', ms', w', None) /\
    success a' = success a + 1 /\ have w' c ClAuth = true /\
    exists es, w_effects w' = es ++ [Apps.WriteMsg c LoginResp (bytes_of_string "okay")].
Proof.
  intros Hin Hn Hctl Hcmd Hd Hk Ht. unfold access_OnFrame. rewrite Hctl, Hcmd.
  change (String.eqb LoginReq LoginReq) with true. cbn iota.
  unfold handleLogin. rewrite Hn, Hd.
  destruct (UserCache.Check ldap (w_users w) (User.Update u0 now) tz now) as [users r].
  cbn [snd] in Hk. subst r. cbn zeta.
  match goal with |- context [onAuth _ ms (set_client_status ?x c ClAuth)] => set (w1 := x) end.
  assert (Hcl : is_Some (w_clients w1 !! c)).
  { subst w1. destruct (is_stored _ _ _), (User.Last known); try done; by destruct (String.eqb _ "admin"). }
  pose proof (have_auth_set w1 c Hcl) as Hh.
  assert (Ho : exists w2 e, onAuth dev_name ms (set_client_status w1 c ClAuth) c (User.Update u0 now) now
                 = Finished (ms', w2, e)).
  { unfold onAuth. rewrite Hh. cbn [negb]. rewrite Ht. cbn [mbind run_bind].
    destruct tap as [dev|e]; [|by eexists _, _].
    destruct (PointCache.GetByUUID _ _ _) as [ps om]. by eexists _, _. }
  destruct Ho as (w2 & e & Ho). rewrite Ho. cbn [mbind run_bind fst snd].
  assert (Hh2 : have w2 c ClAuth = true) by (erewrite onAuth_have by exact Ho; exact Hh).
  eexists _, _. rewrite have_emit, Hh2. split; [done|]. split; [done|].
  split; [by rewrite have_emit|]. by eexists.
Qed.
End switch.

(** (C3) The login handshake completes.  When the worker of a point handles its new
    connection it writes one login message with its encoded user; if the switch decodes
    that user, accepts it, and its tap can be made without blocking, it authenticates
    the client, counts the login, lets the message on and answers okay as its last
    act; and the point, at any later time it still waits with the same client and has
    room for one event, becomes authenticated on that answer, resets its backoff and
    plans its address request. *)
Theorem login_handshake {M : Type} `{HM : Master M}
    (encode_user : User.t -> option bytes) (decode_user : bytes -> option User.t)
    (encode_network : Network.t -> option bytes) (encode_ping : PingMsg -> option bytes)
    (decode_network : bytes -> option Network.t) (decode_ping : bytes -> option Z)
    (ldap : LDAPConfig -> option LDAPService) (dev_name : nat -> string) (tz : Z) (fuel : nat)
    (t : SocketWorker) (cl : SocketClientImpl unit) (ev : WorkerEvent) (body : bytes) (now nano : Z)
    (a : Access) (ms ms' : M) (w : world) (c : client_id) (u0 known : User.t) (tap : result nat) :
  client t = Some cl -> Type_ ev = EvSocConed ->
  encode_user (user t) = Some body -> bytes_ok body ->
  is_Some (w_clients w !! c) -> have w c ClAuth = false -> decode_user body = Some u0 ->
  (UserCache.Check ldap (w_users w) (User.Update u0 now) tz now).2 = inl known ->
  NewTap ms (User.Network (User.Update u0 now)) = Finished (ms', tap) ->
  exists m, dispatch encode_user encode_network encode_ping fuel t ev now nano =
      (r ← cl_Write fuel t m; Finished (add_reader r.1)) /\ msg_wf m /\
  forall m', received m m' ->
  exists req a' w' es rm, Decode m' = Ret req /\
    access_OnFrame decode_user ldap dev_name tz a ms w c req now = Finished (a', ms', w', None) /\
    success a' = success a + 1 /\ have w' c ClAuth = true /\
    w_effects w' = es ++ [Apps.WriteMsg c LoginResp (bytes_of_string "okay")] /\
    NewControlFrame LoginResp (bytes_of_string "okay") = Ret rm /\
  forall rm' t1 c1 later nano', received rm rm' -> client t1 = Some c1 -> status c1 <> ClAuth ->
    zlen (events t1) < evCap ->
  exists t2 c2, read_round decode_network decode_ping t1 (inl rm') later nano' = Finished (t2, true) /\
    client t2 = Some c2 /\ Have c2 ClAuth = true /\ rec_get t2 rtSleeps = 0 /\
    events t2 = events t1 ++ [NewEvent EvSocSuccess "from login" later].
Proof.
  intros Hc Hev Henc Hb Hin Hn Hd Hk Ht.
  destruct (control_send LoginReq body eq_refl Hb) as (m & E & Hw & _ & H).
  exists m. split.
  { unfold dispatch. rewrite Hev. change (String.eqb EvSocConed EvSocConed) with true. cbn iota.
    rewrite Hc. unfold toLogin, sendLogin. rewrite Hc. unfold send. rewrite Henc, E. cbn [lift mbind run_bind].
    by destruct (cl_Write fuel t m). }
  split; [done|]. intros m' Hr. destruct (H m' Hr) as (_ & req & Ereq & Hctl & Hcmd).
  destruct (switch_login_okay decode_user ldap dev_name tz a ms ms' w c req body now u0 known tap)
    as (a' & w' & Ha & Hsucc & Hh & es & He); [done..|].
  destruct (control_send LoginResp (bytes_of_string "okay") eq_refl (bytes_ok_of_string _))
    as (rm & Erm & _ & _ & _).
  exists req, a', w', es, rm. do 6 (split; [done|]).
  intros rm' t1 c1 later nano' Hrm Hc1 Hs1 Hq.
  destruct (point_login_okay decode_network decode_ping t1 c1 rm rm' later nano' Hc1 Hs1 Hq Erm Hrm)
    as (t2 & E2 & Hc2 & Hh2 & Hev2 & _ & Hsl & _).
  exists t2, (SetStatus c1 ClAuth).1. done.
Qed.

Lemma login_handshake_witness :
  let decode := fun _ : bytes => Some (User.with_login "bob@net" "pw" "" "" 0) in
  let encode := fun _ : User.t => Some (bytes_of_string "{}") in
  exists m, dispatch encode no_json no_json 5 demo_worker (NewEvent EvSocConed "from socket" 200) 200 0 =
      (r ← cl_Write 5 demo_worker m; Finished (add_reader r.1)) /\
  exists req a' w' rm, Decode (deliver m) = Ret req /\
    @access_OnFrame nat demo_master decode (fun _ => None) (fun _ => "tap7"%string) 0
      {| success := 0; failed := 0 |} 7%nat demo_world "10.0.0.9:5000" req 200 = Finished (a', 8%nat, w', None) /\
    have w' "10.0.0.9:5000" ClAuth = true /\
    NewControlFrame LoginResp (bytes_of_string "okay") = Ret rm /\
  exists t2 c2, read_round no_json no_json demo_worker (inl (deliver rm)) 201 0 = Finished (t2, true) /\
    client t2 = Some c2 /\ Have c2 ClAuth = true.
Proof.
  intros decode encode.
  destruct (UserCache.Check (fun _ => None) (w_users demo_world)
    (User.Update (User.with_login "bob@net" "pw" "" "" 0) 200) 0 200).2 as [known|er] eqn:Ek;
    [|by vm_compute in Ek].
  destruct (@login_handshake nat demo_master encode decode no_json no_json no_json no_json (fun _ => None)
    (fun _ => "tap7"%string) 0 5 demo_worker (NewTcpClient "10.0.0.1:10002" None 8 100)
    (NewEvent EvSocConed "from socket" 200) (bytes_of_string "{}") 200 0 {| success := 0; failed := 0 |}
    7%nat 8%nat demo_world "10.0.0.9:5000" (User.with_login "bob@net" "pw" "" "" 0) known (inl 7%nat))
    as (m & Em & Wm & Hm);
    [reflexivity|reflexivity|reflexivity|apply bytes_ok_of_string|by eexists|reflexivity|reflexivity|exact Ek
    |reflexivity|].
  exists m. split; [exact Em|].
  destruct (Hm (deliver m) (deliver_received m Wm)) as (req & a' & w' & es & rm & H1 & H2 & _ & H4 & _ & H6 & H7).
  exists req, a', w', rm. split; [exact H1|]. split; [exact H2|]. split; [exact H4|]. split; [exact H6|].
  assert (Wr : msg_wf rm).
  { destruct (control_send LoginResp (bytes_of_string "okay") eq_refl (bytes_ok_of_string _))
      as (m2 & E2 & W2 & _). rewrite H6 in E2. by injection E2 as ->. }
  destruct (H7 (deliver rm) demo_worker _ 201 0 (deliver_received rm Wr) eq_refl) as (t2 & c2 & G1 & G2 & G3 & _);
    [discriminate|by vm_compute|].
  exists t2, c2. split; [exact G1|]. split; [exact G2|exact G3].
Defined.
