(* ===== verification/OpenLAN.v ===== *)
(** * The worker of a network and its links (pkg/olsw/openlan.go, link.go, network.go)

    A worker turns the configuration of one network into the tables the switch works
    with (users, the network with its routes, fixed addresses), into a bridge, into
    routes of the kernel and into links, each of which is a point program of its own.
    Requests of the kernel, commands and files are recorded in order; what they answer
    is the environment's.

    A link keeps a pointer to its configuration: points live in a store and links hold
    references, because the loop that loads them reuses one variable. *)

From S2P Require Import Prelude GoStd Utils SafeMap Models UserCache NetCache Tap Cache Config.

Local Open Scope Z_scope.

Definition PeerName (name prefix : string) : string * string :=
  ((name +:+ prefix +:+ "i")%string, (name +:+ prefix +:+ "o")%string).

(** ** Filling the tables *)

(** The shared tables of package cache. *)
Record tables := { t_user : UserCache.user; t_network : NetCache.network; t_link : LinkCache.t }.

Definition pass_user (net : string) (now : Z) (p : Password) : User.t :=
  User.Update
    {| User.Alias := ""; User.Name := pw_Username p; User.Network := net; User.Password := pw_Password p;
       User.UUID := ""; User.System := ""; User.Role := "admin"; User.Last := None; User.Lease := 0;
       User.UpdateAt := 0 |} now.
Definition load_users (net : string) (now : Z) (w : UserCache.user) (ps : list Password) : UserCache.user :=
  foldl (fun w p => UserCache.Add w (pass_user net now p)) w ps.

(** Routes without a next hop are left out. *)
Definition config_route (rt : PrefixRoute) : option Route.t :=
  if String.eqb (rt_NextHop rt) "" then None
  else
    let rte := Route.NewRoute (rt_Prefix rt) (rt_NextHop rt) (rt_Mode rt) in
    Some (if 0 <? rt_Metric rt then Route.SetMetric rte (rt_Metric rt) else rte).
Definition config_network (cfg : Network) (br : Bridge) (sub : IpSubnet) : Models.Network.t :=
  {| Models.Network.Name := net_Name cfg; Models.Network.Tenant := "";
     Models.Network.IfAddr := br_Address br; Models.Network.IpStart := sub_Start sub;
     Models.Network.IpEnd := sub_End sub; Models.Network.Netmask := sub_Netmask sub;
     Models.Network.Routes := omap config_route (net_Routes cfg) |}.

(** [lease.Type = "static"; lease.Network = name] on the lease that was made. *)
Definition load_host (net : string) (w : NetCache.network) (h : HostLease) : NetCache.network :=
  match NetCache.AddLease w (host_Hostname h) (host_Address h) with
  | (w, None) => w
  | (w, Some id) =>
      match NetCache.leases w !! id with
      | None => w
      | Some l => NetCache.touch w id (Lease.UUID l) (Lease.Alias l) (Lease.Client l) "static" net
      end
  end.
Definition load_hosts (net : string) (w : NetCache.network) (hs : list HostLease) : NetCache.network :=
  foldl (load_host net) w hs.

(** The VPN servers of a network: its own and the variants that are not nil. *)
Definition vpn_servers (v : option OpenVPN) : list OpenVPN :=
  match v with None => [] | Some v => v :: omap id (vpn_Breed v) end.

(** [Initialize]; a network without bridge or subnet panics. *)
Definition fill (now : Z) (cfg : Network) (t : tables) : go tables :=
  match net_Bridge cfg, net_Subnet cfg with
  | Some br, Some sub =>
      let users := load_users (net_Name cfg) now (t_user t) (net_Password cfg) in
      let nets := NetCache.Add (t_network t) (config_network cfg br sub) in
      Ret {| t_user := users; t_network := load_hosts (net_Name cfg) nets (net_Hosts cfg); t_link := t_link t |}
  | _, _ => Panic
  end.

(** ** Routes *)

Record nexthop := { nh_Hops : Z; nh_Gw : bytes }.
(** [netlink.Route] with the fields that are set. *)
Record Route := {
  r_Dst : bytes * Z; r_MultiPath : list nexthop; r_LinkIndex : Z; r_Gw : bytes; r_Priority : Z
}.
Inductive request := RouteAdd (r : Route) | RouteDel (r : Route).

Definition ip_or_nil (s : string) : bytes := default [] (ParseIP s).
(** The route that goes out of the bridge, of index [index]. *)
Definition via_bridge (index : Z) (dst : bytes * Z) (rt : PrefixRoute) (hops : list nexthop) : Route :=
  match rt_MultiPath rt with
  | None => {| r_Dst := dst; r_MultiPath := hops; r_LinkIndex := index; r_Gw := ip_or_nil (rt_NextHop rt);
               r_Priority := rt_Metric rt |}
  | Some _ => {| r_Dst := dst; r_MultiPath := hops; r_LinkIndex := 0; r_Gw := []; r_Priority := 0 |}
  end.
Definition hops_of (rt : PrefixRoute) : list nexthop :=
  map (fun h => {| nh_Hops := mp_Weight h; nh_Gw := ip_or_nil (mp_NextHop h) |}) (default [] (rt_MultiPath rt)).
Definition is_local (ifAddr : string) (rt : PrefixRoute) : bool :=
  String.eqb ifAddr (rt_NextHop rt) && match rt_MultiPath rt with None => true | Some _ => false end.
Definition load_route (index : Z) (ifAddr : string) (rt : PrefixRoute) : option request :=
  match ParseCIDR (rt_Prefix rt) with
  | None => None
  | Some dst => if is_local ifAddr rt then None else Some (RouteAdd (via_bridge index dst rt (hops_of rt)))
  end.
Definition unload_route (index : Z) (rt : PrefixRoute) : option request :=
  match ParseCIDR (rt_Prefix rt) with
  | None => None
  | Some dst => Some (RouteDel (via_bridge index dst rt []))
  end.
Definition if_addr (br : Bridge) : string := default ""%string (SplitN (br_Address br) char_slash 2 !! 0%nat).
(** [link] is the index of the bridge in the kernel, if it is there. *)
Definition LoadRoutes (link : option Z) (br : Bridge) (rts : list PrefixRoute) : list request :=
  match link with None => [] | Some index => omap (load_route index (if_addr br)) rts end.
Definition UnLoadRoutes (link : option Z) (rts : list PrefixRoute) : list request :=
  match link with None => [] | Some index => omap (unload_route index) rts end.

(** ** The bridge *)

Inductive brcall :=
| BrOpen (addr : string)
| BrStp (on : bool)
| BrDelay (value : Z)
| BrPeer (bridge peer inner outer : string)   (* a pair of ports, tried again until [peer] exists *)
| BrCallIptables (value : Z)
| BrUnPeer (inner outer : string)
| BrClose.

Definition connectPeer (cfg : Bridge) : list brcall :=
  if String.eqb (br_Peer cfg) "" then []
  else let '(i, o) := PeerName (br_Network cfg) "-e" in [BrPeer (br_Name cfg) (br_Peer cfg) i o].
Definition UpBridge (acl : string) (cfg : Bridge) : list brcall :=
  [BrOpen (br_Address cfg); BrStp (String.eqb (br_Stp cfg) "on"); BrDelay (br_Delay cfg)] ++
  connectPeer cfg ++ [BrCallIptables (if String.eqb acl "" then 0 else 1)].
Definition closePeer (cfg : Bridge) : list brcall :=
  if String.eqb (br_Peer cfg) "" then []
  else let '(i, o) := PeerName (br_Network cfg) "-e" in [BrUnPeer i o].
Definition downBridge (cfg : Bridge) : list brcall := closePeer cfg ++ [BrClose].

(** ** Links *)

Definition OlapBin : string := "openlan-point".
Definition OlapDir : string := "/var/openlan/point".

(** [lk_cfg] is the place of the configuration in the store of points. *)
Record Link := { lk_uuid : string; lk_cfg : nat }.

Definition ConfFile (uuid : string) : string := path_Join [OlapDir; (uuid +:+ ".json")%string].
Definition StatusFile (uuid : string) : string := path_Join [OlapDir; (uuid +:+ ".status")%string].
Definition PidFile (uuid : string) : string := path_Join [OlapDir; (uuid +:+ ".pid")%string].
Definition link_LogFile (uuid : string) : string := path_Join [OlapDir; (uuid +:+ ".log")%string].

(** What links ask of the system.  A started process gets its arguments when the
    goroutine that runs it reads them from the link, at some later time. *)
Inductive action :=
| SaveConf (file : string) (p : Point)
| Launch (uuid : string) (cfg : nat)
| KillPid (file : string)       (* the process whose number is in the file, if it can be read *)
| Remove (file : string).       (* if it exists *)

Record worker := {
  ow_alias : string; ow_cfg : Network; ow_startTime : Z; ow_uuid : string;
  ow_links : gmap string Link;          (* by connection *)
  ow_store : list Point; ow_cache : LinkCache.t; ow_taps : Tap.tapers; ow_actions : list action
}.

Definition NewOpenLANWorker (c : Network) (cache : LinkCache.t) (taps : Tap.tapers) : worker :=
  {| ow_alias := net_Alias c; ow_cfg := c; ow_startTime := 0; ow_uuid := ""; ow_links := ∅; ow_store := [];
     ow_cache := cache; ow_taps := taps; ow_actions := [] |}.

Definition set_links (w : worker) (ls : gmap string Link) (st : list Point) (c : LinkCache.t)
    (tp : Tap.tapers) (acts : list action) : worker :=
  {| ow_alias := ow_alias w; ow_cfg := ow_cfg w; ow_startTime := ow_startTime w; ow_uuid := ow_uuid w;
     ow_links := ls; ow_store := st; ow_cache := c; ow_taps := tp; ow_actions := acts |}.

Definition link_Model (uuid : string) (p : Point) : LinkCache.Link :=
  {| LinkCache.User := pt_Username p; LinkCache.Network := pt_Network p; LinkCache.Protocol := pt_Protocol p;
     LinkCache.StatusFile := StatusFile uuid |}.

(** What [AddLink] makes of the configuration it is given; [name] is a new device. *)
Definition link_point (alias net name uuid : string) (br : Bridge) (p : Point) : Point :=
  {| pt_Alias := alias; pt_Connection := pt_Connection p; pt_Timeout := pt_Timeout p;
     pt_Username := pt_Username p; pt_Network := net; pt_Password := pt_Password p; pt_Protocol := pt_Protocol p;
     pt_Interface := {| if_Name := name; if_IPMtu := br_IPMtu br; if_Address := br_Address br;
                        if_Bridge := br_Name br; if_Provider := br_Provider br;
                        if_Cost := if_Cost (pt_Interface p) |};
     pt_Log := {| log_File := "/dev/null"; log_Verbose := log_Verbose (pt_Log p) |}; pt_Crypt := pt_Crypt p;
     pt_RequestAddr := pt_RequestAddr p; pt_ByPass := pt_ByPass p; pt_SaveFile := pt_SaveFile p;
     pt_Queue := pt_Queue p; pt_Terminal := pt_Terminal p; pt_Cert := pt_Cert p;
     pt_StatusFile := StatusFile uuid; pt_PidFile := PidFile uuid |}.

Section links.
(** [CreateFile] of a log file succeeds; the identities [GenRandom] makes. *)
Context (create : string -> bool).

(** [Link.Start] *)
Definition link_Start (uuid : string) (cfg : nat) : list action :=
  if create (link_LogFile uuid) then [Launch uuid cfg] else [].
Definition link_Clean (uuid : string) : list action :=
  map Remove [link_LogFile uuid; StatusFile uuid; PidFile uuid; ConfFile uuid].
Definition link_Stop (uuid : string) : list action := KillPid (PidFile uuid) :: link_Clean uuid.

(** [AddLink] of the configuration at place [c] of the store; a worker without bridge
    panics. *)
Definition AddLink (w : worker) (uuid : string) (c : nat) : go worker :=
  match net_Bridge (ow_cfg w), ow_store w !! c with
  | Some br, Some p =>
      let '(tp, name) := Tap.tp_GenName (ow_taps w) in
      let p := link_point (ow_alias w) (net_Name (ow_cfg w)) name uuid br p in
      Ret (set_links w (<[pt_Connection p := {| lk_uuid := uuid; lk_cfg := c |}]> (ow_links w))
             (<[c := p]> (ow_store w)) (LinkCache.Add (ow_cache w) uuid (link_Model uuid p)) tp
             (ow_actions w ++ [SaveConf (ConfFile uuid) p] ++ link_Start uuid c))
  | _, _ => Panic
  end.

(** A new place in the store. *)
Definition alloc (w : worker) (p : Point) : worker * nat :=
  (set_links w (ow_links w) (ow_store w ++ [p]) (ow_cache w) (ow_taps w) (ow_actions w), length (ow_store w)).
Definition assign (w : worker) (c : nat) (p : Point) : worker :=
  set_links w (ow_links w) (<[c := p]> (ow_store w)) (ow_cache w) (ow_taps w) (ow_actions w).

(** The loop over the links: its variable is one place [c]; every round assigns it, gives
    it its defaults and adds it as a link. *)
Fixpoint load_links (os alias : string) (w : worker) (uuids : nat -> string) (c : nat) (ls : list Point)
    : go worker :=
  match ls with
  | [] => Ret w
  | p :: ls =>
      w ← AddLink (assign w c (point_Default os alias p)) (uuids 0%nat) c;
      load_links os alias w (fun k => uuids (S k)) c ls
  end.
Definition LoadLinks (os alias : string) (w : worker) (uuids : nat -> string) : go worker :=
  match net_Links (ow_cfg w) with
  | [] => Ret w
  | p :: ls => let '(w, c) := alloc w p in load_links os alias w uuids c (p :: ls)
  end.

(** [UnLoadLinks] in the order the map is iterated. *)
Definition UnLoadLinks (w : worker) (order : list (string * Link)) : worker :=
  set_links w (ow_links w) (ow_store w) (ow_cache w) (ow_taps w)
    (ow_actions w ++ concat (map (fun e => link_Stop (lk_uuid e.2)) order)).

(** [DelLink], with [Links.Remove]. *)
Definition DelLink (w : worker) (addr : string) : worker :=
  match ow_links w !! addr with
  | None => w
  | Some l =>
      set_links w (delete addr (ow_links w)) (ow_store w) (LinkCache.Del (ow_cache w) (lk_uuid l)) (ow_taps w)
        (ow_actions w ++ link_Stop (lk_uuid l))
  end.

(** The arguments of the process, read from the link when it is started. *)
Definition launch_args (store : list Point) (uuid : string) (cfg : nat) : option (list string) :=
  match store !! cfg with
  | None => None
  | Some p => Some ["-alias"; pt_Network p; "-conn"; pt_Connection p; "-conf"; ConfFile uuid; "-terminal"; "ww"]%string
  end.
End links.

Definition UpTime (w : worker) (now : Z) : Z :=
  if ow_startTime w =? 0 then 0 else wrap64s (now - ow_startTime w).

(** ** The kinds of workers *)

Inductive networker := ESPWorker | VxLANWorker | FabricWorker | OpenLANWorker.
Definition NewNetworker (provider : string) : networker :=
  if String.eqb provider "esp" then ESPWorker
  else if String.eqb provider "vxlan" then VxLANWorker
  else if String.eqb provider "fabric" then FabricWorker
  else OpenLANWorker.

(** * Properties *)

(** ** Routes *)

Lemma route_undone link br rts r : RouteAdd r ∈ LoadRoutes link br rts ->
  exists d, RouteDel d ∈ UnLoadRoutes link rts /\ r_Dst d = r_Dst r.
Proof.
  unfold LoadRoutes, UnLoadRoutes. destruct link as [index|]; [|by intros ?%not_elem_of_nil].
  intros (rt & Hin & Hr)%list_elem_of_omap. unfold load_route in Hr.
  destruct (ParseCIDR (rt_Prefix rt)) as [dst|] eqn:Ep; [|done].
  destruct (is_local (if_addr br) rt); [done|]. injection Hr as <-. exists (via_bridge index dst rt []). split.
  - apply list_elem_of_omap. exists rt. split; [done|]. unfold unload_route. by rewrite Ep.
  - unfold via_bridge. by destruct (rt_MultiPath rt).
Qed.

(** Every route a worker asks the kernel for when it starts is taken back when it
    stops, with the same destination and, unless it has several next hops, the same
    gateway, device and metric; routes whose next hop is the bridge itself are never
    asked for; and every configured route with a valid prefix is taken back, asked for
    or not. *)
Theorem routes_taken_back link br rts r :
  RouteAdd r ∈ LoadRoutes link br rts ->
  exists rt, rt ∈ rts /\ is_local (if_addr br) rt = false /\ ParseCIDR (rt_Prefix rt) = Some (r_Dst r) /\
    exists d, RouteDel d ∈ UnLoadRoutes link rts /\ r_Dst d = r_Dst r /\
      r_Gw d = r_Gw r /\ r_LinkIndex d = r_LinkIndex r /\ r_Priority d = r_Priority r /\
      (rt_MultiPath rt = None -> d = r).
Proof.
  unfold LoadRoutes, UnLoadRoutes. destruct link as [index|]; [|by intros ?%not_elem_of_nil].
  intros (rt & Hin & Hr)%list_elem_of_omap. unfold load_route in Hr.
  destruct (ParseCIDR (rt_Prefix rt)) as [dst|] eqn:Ep; [|done].
  destruct (is_local (if_addr br) rt) eqn:El; [done|]. injection Hr as <-.
  exists rt. split; [done|]. split; [done|].
  split; [rewrite Ep; f_equal; unfold via_bridge; by destruct (rt_MultiPath rt)|].
  exists (via_bridge index dst rt []). split.
  { apply list_elem_of_omap. exists rt. split; [done|]. unfold unload_route. by rewrite Ep. }
  unfold via_bridge, hops_of. destruct (rt_MultiPath rt) as [hops|]; simpl; by split_and!.
Qed.

(** ** Fixed addresses and users *)

(** The host has its address, as a static lease that knows its network. *)
Definition served (net : string) (w : NetCache.network) (h : HostLease) : Prop :=
  exists id l, SafeStrMap.data (NetCache.UUID w) !! host_Hostname h = Some (Some id) /\
    SafeStrMap.data (NetCache.Addr w) !! host_Address h = Some (Some id) /\
    NetCache.leases w !! id = Some l /\ Lease.Address l = host_Address h /\
    Lease.UUID l = host_Hostname h /\ Lease.Type_ l = "static"%string /\ Lease.Network l = net.

(** Room for [k] more entries. *)
Definition room {A} (sm : SafeStrMap.t A) (k : nat) : Prop :=
  SafeStrMap.size sm = 0 \/ SafeStrMap.Len sm + Z.of_nat k <= SafeStrMap.size sm.

Lemma room_add {A} (sm : SafeStrMap.t A) k key v :
  room sm (S k) -> SafeStrMap.data sm !! key = None ->
  SafeStrMap.data (SafeStrMap.Set_ sm key v).1 = <[key := v]> (SafeStrMap.data sm) /\
  room (SafeStrMap.Set_ sm key v).1 k.
Proof.
  intros Hr Hk. unfold SafeStrMap.Set_, SafeStrMap.add.
  assert (Hf : SafeStrMap.full sm = false).
  { unfold SafeStrMap.full. destruct Hr as [->|Hr]; [done|].
    rewrite (proj2 (Z.leb_gt _ _)) by lia. apply andb_false_r. }
  rewrite Hf, Hk. simpl. split; [done|].
  destruct Hr as [Hr|Hr]; [by left|right]. unfold SafeStrMap.Len, SafeStrMap.upd in *. simpl.
  rewrite map_size_insert_None by done. lia.
Qed.

Lemma load_host_spec net w h k :
  host_Address h <> ""%string ->
  room (NetCache.UUID w) (S k) -> room (NetCache.Addr w) (S k) ->
  SafeStrMap.data (NetCache.UUID w) !! host_Hostname h = None ->
  SafeStrMap.data (NetCache.Addr w) !! host_Address h = None ->
  let w' := load_host net w h in
  NetCache.Networks w' = NetCache.Networks w /\ served net w' h /\
  room (NetCache.UUID w') k /\ room (NetCache.Addr w') k /\
  SafeStrMap.data (NetCache.UUID w') = <[host_Hostname h := Some (length (NetCache.leases w))]> (SafeStrMap.data (NetCache.UUID w)) /\
  SafeStrMap.data (NetCache.Addr w') = <[host_Address h := Some (length (NetCache.leases w))]> (SafeStrMap.data (NetCache.Addr w)) /\
  (forall id l, NetCache.leases w !! id = Some l -> NetCache.leases w' !! id = Some l).
Proof.
  intros Ha Hu Hd Nu Nd w'.
  set (n := length (NetCache.leases w)). set (new := Lease.NewLease (host_Hostname h) (host_Address h)).
  set (l := {| Lease.Address := host_Address h; Lease.UUID := host_Hostname h; Lease.Alias := host_Hostname h;
               Lease.Client := ""; Lease.Type_ := "static"; Lease.Network := net |}).
  assert (Hmid : (NetCache.leases w ++ [new]) !! n = Some new) by by apply list_lookup_middle.
  assert (E : w' = NetCache.set_maps w (SafeStrMap.Set_ (NetCache.UUID w) (host_Hostname h) (Some n)).1
    (SafeStrMap.Set_ (NetCache.Addr w) (host_Address h) (Some n)).1 (<[n := l]> (NetCache.leases w ++ [new]))).
  { subst w'. unfold load_host, NetCache.AddLease. rewrite (proj2 (String.eqb_neq _ _) Ha). fold n new.
    cbn [NetCache.set_maps NetCache.leases]. rewrite Hmid. unfold NetCache.touch. cbn [NetCache.set_maps NetCache.leases NetCache.UUID NetCache.Addr].
    by rewrite Hmid. }
  clearbody w'. subst w'. cbn [NetCache.set_maps NetCache.UUID NetCache.Addr NetCache.Networks NetCache.leases].
  destruct (room_add (NetCache.UUID w) k _ (Some n) Hu Nu) as [Eu Ru].
  destruct (room_add (NetCache.Addr w) k _ (Some n) Hd Nd) as [Ed Rd].
  split_and!; [done| |done|done|done|done|].
  - exists n, l. cbn [NetCache.set_maps NetCache.UUID NetCache.Addr NetCache.leases].
    rewrite Eu, Ed, !lookup_insert_eq. split_and!; [done|done| |done..].
    apply list_lookup_insert_eq. rewrite length_app. subst n. simpl. lia.
  - intros id l' Hl. pose proof (lookup_lt_Some _ _ _ Hl). rewrite list_lookup_insert_ne by lia.
    by rewrite lookup_app_l by lia.
Qed.

Definition hosts_fresh (w : NetCache.network) (hs : list HostLease) : Prop :=
  NoDup (map host_Hostname hs) /\ NoDup (map host_Address hs) /\
  Forall (fun h => host_Hostname h <> ""%string /\ host_Address h <> ""%string /\
    SafeStrMap.data (NetCache.UUID w) !! host_Hostname h = None /\
    SafeStrMap.data (NetCache.Addr w) !! host_Address h = None) hs /\
  room (NetCache.UUID w) (length hs) /\ room (NetCache.Addr w) (length hs).

(** Loading the hosts serves every one of them, and those served before still are. *)
Lemma load_hosts_spec net hs : forall w, hosts_fresh w hs ->
  let w' := load_hosts net w hs in
  NetCache.Networks w' = NetCache.Networks w /\ Forall (served net w') hs /\
  forall net0 h0, served net0 w h0 -> served net0 w' h0.
Proof.
  induction hs as [|h hs IH]; intros w (Hn & Ha & Hf & Ru & Rd); [by split_and!|].
  cbn [map] in Hn, Ha. apply NoDup_cons in Hn as [Hn1 Hn], Ha as [Ha1 Ha].
  apply Forall_cons in Hf as [(_ & Hne & Fu & Fa) Hf].
  destruct (load_host_spec net w h (length hs) Hne Ru Rd Fu Fa) as (En & Hs & Ru' & Rd' & Eu & Ed & Hl).
  cbn [load_hosts foldl]. set (w1 := load_host net w h) in *.
  destruct (IH w1) as (En' & Hs' & Hk).
  { split_and!; [done|done| |done|done]. rewrite Forall_forall in Hf |- *. intros h' Hin.
    destruct (Hf h' Hin) as (? & ? & Nu & Na). rewrite Eu, Ed. split_and!; [done|done| |].
    - rewrite lookup_insert_ne; [done|]. intros E. apply Hn1. rewrite E. by apply list_elem_of_fmap_2.
    - rewrite lookup_insert_ne; [done|]. intros E. apply Ha1. rewrite E. by apply list_elem_of_fmap_2. }
  split; [by rewrite <- En|]. split; [constructor; [by apply Hk|done]|].
  intros net0 h0 (id & l & U & A & L & Hrest). apply Hk. exists id, l. rewrite Eu, Ed.
  split; [by rewrite lookup_insert_ne by congruence|]. split; [by rewrite lookup_insert_ne by congruence|].
  split; [by apply Hl|done].
Qed.

(** A served host gets its address, and keeps it when it leaves. *)
Lemma served_lease net w h name :
  served net w h -> host_Hostname h <> ""%string -> is_Some (NetCache.Get w name) ->
  exists id l, NetCache.NewLease w (host_Hostname h) name = Ret (w, Some id) /\
    NetCache.leases w !! id = Some l /\ Lease.Address l = host_Address h /\
    NetCache.DelLease w (host_Hostname h) = Ret w.
Proof.
  intros (id & l & U & A & L & La & _ & Ls & _) Hne [cn Hcn]. exists id, l.
  unfold NetCache.NewLease. rewrite Hcn, (proj2 (String.eqb_neq _ _) Hne). unfold SafeStrMap.GetEx at 1. rewrite U.
  split_and!; [done|done|done|]. unfold NetCache.DelLease, SafeStrMap.GetEx. rewrite U. cbn [mbind option_bind].
  assert (Hst : NetCache.is_static l = true) by (unfold NetCache.is_static; by rewrite Ls).
  rewrite L, Hst. cbn [mbind go_bind]. rewrite La, A. cbn [mbind option_bind]. rewrite L, Hst. by rewrite andb_false_r.
Qed.

Definition users_fresh (net : string) (now : Z) (w : UserCache.user) (ps : list Password) : Prop :=
  NoDup (map (fun p => User.Id (pass_user net now p)) ps) /\
  Forall (fun p => SafeStrMap.data (UserCache.Users w) !! User.Id (pass_user net now p) = None) ps /\
  room (UserCache.Users w) (length ps).

Lemma load_users_spec net now ps : forall w, users_fresh net now w ps ->
  let w' := load_users net now w ps in
  Forall (fun p => UserCache.Get w' (User.Id (pass_user net now p)) = Some (pass_user net now p)) ps /\
  forall k u, SafeStrMap.data (UserCache.Users w) !! k = Some u -> SafeStrMap.data (UserCache.Users w') !! k = Some u.
Proof.
  induction ps as [|p ps IH]; intros w (Hn & Hf & Hr); [by split|].
  cbn [map] in Hn. apply NoDup_cons in Hn as [Hn1 Hn]. apply Forall_cons in Hf as [F Hf].
  cbn [load_users foldl]. set (u := pass_user net now p) in *. set (w1 := UserCache.Add w u).
  change (foldl _ w1 ps) with (load_users net now w1 ps).
  assert (E : SafeStrMap.data (UserCache.Users w1) = <[User.Id u := Some u]> (SafeStrMap.data (UserCache.Users w)) /\
              room (UserCache.Users w1) (length ps)).
  { subst w1. unfold UserCache.Add, UserCache.Get, SafeStrMap.Get. rewrite F. cbn [default from_option].
    by apply room_add. }
  destruct E as [E Er]. destruct (IH w1) as [Hs Hk].
  { split_and!; [done| |done]. rewrite Forall_forall in Hf |- *. intros p' Hin. rewrite E.
    rewrite lookup_insert_ne; [by apply Hf|]. intros Eq. apply Hn1. rewrite Eq.
    by apply (list_elem_of_fmap_2 (fun p => User.Id (pass_user net now p))). }
  split.
  - constructor; [|done]. unfold UserCache.Get, SafeStrMap.Get. fold u.
    rewrite (Hk (User.Id u) (Some u)); [done|]. by rewrite E, lookup_insert_eq.
  - intros k v Hkv. apply Hk. rewrite E, lookup_insert_ne; [done|]. congruence.
Qed.

Definition tables_fresh (n : Network) (now : Z) (t : tables) : Prop :=
  users_fresh (net_Name n) now (t_user t) (net_Password n) /\ hosts_fresh (t_network t) (net_Hosts n) /\
  SafeStrMap.data (NetCache.Networks (t_network t)) !! net_Name n = None /\ room (NetCache.Networks (t_network t)) 1.

Lemma lan_Correct_fields pool n i n' i' : lan_Correct pool n i = Ret (n', i') ->
  exists br sub, net_Bridge n' = Some br /\ net_Subnet n' = Some sub /\ net_Name n' = net_Name n /\
    net_Hosts n' = net_Hosts n /\ net_Password n' = net_Password n /\
    br_Address br = br_Address (default new_bridge (net_Bridge n)) /\
    net_Routes n' = map (route_Correct (bridge_addr (br_Address br)).1) (net_Routes n).
Proof.
  unfold lan_Correct. set (br := bridge_Correct _). intros H.
  destruct (bridge_addr (br_Address br)) as [a m] eqn:Ea.
  apply go_bind_ret in H as ([v j] & _ & H). injection H as <- _. exists br, (subnet_Correct m (default no_subnet (net_Subnet n))).
  rewrite Ea. by split_and!.
Qed.

Lemma config_route_kept ip r : ip <> ""%string ->
  exists r', config_route (route_Correct ip r) = Some r' /\ Route.Prefix r' = rt_Prefix r /\
    Route.NextHop r' = or_str (rt_NextHop r) ip /\ Route.Mode r' = or_str (rt_Mode r) "snat".
Proof.
  intros Hip. unfold config_route. cbn [rt_NextHop route_Correct rt_Prefix rt_Mode rt_Metric].
  rewrite (proj2 (String.eqb_neq _ _)) by by apply or_str_nonempty.
  eexists. split; [done|]. by destruct (0 <? _).
Qed.

(** What [fill] makes of a corrected network. *)
Lemma fill_serves dial pool n i n' i' now tz t :
  lan_Correct pool n i = Ret (n', i') -> tables_fresh n now t -> tz < year2000 ->
  exists t' cn, fill now n' t = Ret t' /\
    NetCache.Get (t_network t') (net_Name n) = Some cn /\
    (forall br, net_Bridge n = Some br -> (bridge_addr (br_Address br)).1 <> ""%string ->
       map Route.Prefix (Models.Network.Routes cn) = map rt_Prefix (net_Routes n)) /\
    (forall h, h ∈ net_Hosts n ->
       exists id l, NetCache.NewLease (t_network t') (host_Hostname h) (net_Name n) = Ret (t_network t', Some id) /\
         NetCache.leases (t_network t') !! id = Some l /\ Lease.Address l = host_Address h /\
         NetCache.DelLease (t_network t') (host_Hostname h) = Ret (t_network t')) /\
    (forall p obj, p ∈ net_Password n -> User.Id obj = User.Id (pass_user (net_Name n) now p) ->
       User.Password obj = pw_Password p ->
       exists u, UserCache.Check dial (t_user t') obj tz now = (t_user t', inl u) /\ User.Role u = "admin"%string).
Proof.
  intros Hc (Hu & Hh & Hn & Hr) Htz. destruct (lan_Correct_fields _ _ _ _ _ Hc) as
    (br & sub & Eb & Es & En & Ehs & Eps & Eaddr & Ert).
  set (cn := config_network n' br sub).
  destruct (room_add _ 0 _ (Some cn) Hr Hn) as [Eadd _].
  set (nets := NetCache.Add (t_network t) cn).
  assert (Hnets : SafeStrMap.data (NetCache.Networks nets) !! net_Name n = Some (Some cn)).
  { subst nets. unfold NetCache.Add. cbn [NetCache.set_networks NetCache.Networks].
    change (Models.Network.Name cn) with (net_Name n'). by rewrite En, Eadd, lookup_insert_eq. }
  destruct (load_hosts_spec (net_Name n') (net_Hosts n) nets Hh) as (Enet & Hserved & _).
  destruct (load_users_spec (net_Name n) now (net_Password n) (t_user t) Hu) as [Husers _].
  eexists _, cn. split; [unfold fill; rewrite Eb, Es; done|]. cbn [t_network t_user]. fold cn nets. rewrite Ehs, Eps, En.
  rewrite En in Enet, Hserved. set (w' := load_hosts (net_Name n) nets (net_Hosts n)) in *.
  assert (Hget : NetCache.Get w' (net_Name n) = Some cn).
  { unfold NetCache.Get, SafeStrMap.Get. by rewrite Enet, Hnets. }
  split; [exact Hget|]. split; [|split].
  - intros br0 Hbr0 Hip. cbn [cn config_network Models.Network.Routes]. rewrite Ert, Eaddr, Hbr0. cbn [default from_option id].
    clear -Hip. induction (net_Routes n) as [|r rs IH]; [done|]. simpl.
    destruct (config_route_kept _ r Hip) as (r' & -> & Hp & _). simpl. rewrite Hp. f_equal. exact IH.
  - intros h Hin. rewrite Forall_forall in Hserved. apply served_lease with (net := net_Name n); [by apply Hserved| |by eexists].
    destruct Hh as (_ & _ & Hf & _). rewrite Forall_forall in Hf. by apply Hf.
  - intros p obj Hin Hid Hpw. rewrite Forall_forall in Husers. exists (pass_user (net_Name n) now p).
    unfold UserCache.Check. rewrite Hid, (Husers p Hin). cbn. rewrite Hpw, String.eqb_refl. cbn.
    unfold lease_valid. by rewrite (proj2 (Z.ltb_lt _ _)) by (unfold year2000 in *; lia).
Qed.

Definition demo_served : Network :=
  {| net_ConfDir := ""; net_File := ""; net_Alias := "sw"; net_Name := "lan"; net_Provider := "";
     net_Bridge := Some {| br_Network := ""; br_Peer := ""; br_Name := ""; br_IPMtu := 0;
       br_Address := "10.1.0.1/24"; br_Provider := ""; br_Stp := ""; br_Delay := 0; br_Mss := 0 |};
     net_Subnet := None; net_OpenVPN := None; net_Links := [demo_link];
     net_Hosts := [{| host_Hostname := "pc"; host_Address := "10.1.0.9" |};
                   {| host_Hostname := "nas"; host_Address := "10.1.0.8" |}];
     net_Routes := [{| rt_Prefix := "10.9.0.0/16"; rt_NextHop := ""; rt_MultiPath := None; rt_Metric := 0; rt_Mode := "" |}];
     net_Password := [{| pw_Username := "ann"; pw_Password := "secret" |}]; net_Acl := ""; net_Specifies := None |}.
Definition demo_tables : tables :=
  {| t_user := UserCache.NewUserCache; t_network := NetCache.NewNetworkCache; t_link := LinkCache.New |}.

Lemma demo_tables_fresh : tables_fresh demo_served 7 demo_tables.
Proof.
  split_and!; first [by apply (bool_decide_unpack _); vm_compute | by right; vm_compute | by constructor].
Qed.

Lemma routes_taken_back_witness :
  let br := bridge_Correct (default new_bridge (net_Bridge demo_served)) in
  let rt := {| rt_Prefix := "10.9.0.0/16"; rt_NextHop := "10.1.0.254"; rt_MultiPath := None; rt_Metric := 660; rt_Mode := "" |} in
  let own := {| rt_Prefix := "10.8.0.0/16"; rt_NextHop := "10.1.0.1"; rt_MultiPath := None; rt_Metric := 660; rt_Mode := "" |} in
  LoadRoutes (Some 5) br [own; rt] =
    [RouteAdd {| r_Dst := ([10; 9; 0; 0], 16); r_MultiPath := []; r_LinkIndex := 5;
                 r_Gw := ip_or_nil "10.1.0.254"; r_Priority := 660 |}] /\
  length (UnLoadRoutes (Some 5) [own; rt]) = 2%nat /\
  exists d, RouteDel d ∈ UnLoadRoutes (Some 5) [own; rt] /\ r_Dst d = ([10; 9; 0; 0], 16).
Proof.
  split; [vm_compute; reflexivity|]. split; [vm_compute; reflexivity|].
  destruct (routes_taken_back (Some 5) (bridge_Correct (default new_bridge (net_Bridge demo_served)))
    [{| rt_Prefix := "10.8.0.0/16"; rt_NextHop := "10.1.0.1"; rt_MultiPath := None; rt_Metric := 660; rt_Mode := "" |};
     {| rt_Prefix := "10.9.0.0/16"; rt_NextHop := "10.1.0.254"; rt_MultiPath := None; rt_Metric := 660; rt_Mode := "" |}]
    {| r_Dst := ([10; 9; 0; 0], 16); r_MultiPath := []; r_LinkIndex := 5; r_Gw := ip_or_nil "10.1.0.254"; r_Priority := 660 |})
    as (rt & _ & _ & _ & d & Hd & Hdst & _).
  { vm_compute. by left. }
  exists d. split; [exact Hd|exact Hdst].
Defined.

(** ** Links *)

Section link_lemmas.
Context (create : string -> bool).
Local Abbreviation AddLink := (AddLink create).
Local Abbreviation load_links := (load_links create).

Lemma AddLink_spec w uuid c w' p :
  AddLink w uuid c = Ret w' -> ow_store w !! c = Some p ->
  exists f, pt_Connection f = pt_Connection p /\ pt_Network f = net_Name (ow_cfg w) /\
    ow_store w' = <[c := f]> (ow_store w) /\ ow_cfg w' = ow_cfg w /\
    ow_actions w' = ow_actions w ++ SaveConf (ConfFile uuid) f :: link_Start create uuid c /\
    ow_links w' = <[pt_Connection p := {| lk_uuid := uuid; lk_cfg := c |}]> (ow_links w) /\
    ow_cache w' = LinkCache.Add (ow_cache w) uuid (link_Model uuid f).
Proof.
  unfold OpenLAN.AddLink. intros H Hp. rewrite Hp in H. destruct (net_Bridge (ow_cfg w)) as [br|]; [|done].
  destruct (Tap.tp_GenName (ow_taps w)) as [tp name]. injection H as <-. exists (link_point (ow_alias w) (net_Name (ow_cfg w)) name uuid br p).
  by split_and!.
Qed.

Section load.
Context (os alias : string).
(** The connection of a link once it has its defaults. *)
Definition conn_of (p : Point) : string := pt_Connection (point_Default os alias p).

Lemma load_links_spec ls : forall w uuids c w',
  load_links os alias w uuids c ls = Ret w' -> (c < length (ow_store w))%nat ->
  ow_cfg w' = ow_cfg w /\ (forall a, a ∈ ow_actions w -> a ∈ ow_actions w') /\
  (forall k p, ls !! k = Some p ->
     (exists f, SaveConf (ConfFile (uuids k)) f ∈ ow_actions w' /\ pt_Connection f = conn_of p) /\
     (create (link_LogFile (uuids k)) = true -> Launch (uuids k) c ∈ ow_actions w')) /\
  (forall q, last ls = Some q -> exists f, ow_store w' !! c = Some f /\ pt_Connection f = conn_of q /\
     pt_Network f = net_Name (ow_cfg w)).
Proof.
  induction ls as [|p ls IH]; intros w uuids c w' H Hc; [by injection H as <-; split_and!|].
  cbn [OpenLAN.load_links] in H. apply go_bind_ret in H as (w1 & H1 & H).
  set (w0 := assign w c (point_Default os alias p)) in *.
  assert (H0 : ow_store w0 !! c = Some (point_Default os alias p)) by by apply list_lookup_insert_eq.
  destruct (AddLink_spec _ _ _ _ _ H1 H0) as (f & Hf & Hnf & Est & Ecfg & Eact & _).
  assert (Hlen : length (ow_store w1) = length (ow_store w)) by (rewrite Est, length_insert; apply length_insert).
  destruct (IH w1 _ c w' H ltac:(lia)) as (Ecfg' & Hmono & Hk & Hlast).
  change (ow_actions w0) with (ow_actions w) in Eact. change (ow_cfg w0) with (ow_cfg w) in Ecfg, Hnf.
  split; [by rewrite Ecfg'|]. split; [intros a Ha; apply Hmono; rewrite Eact; apply elem_of_app; by left|]. split.
  - intros [|k] q Hq; [|by apply Hk]. injection Hq as <-. split.
    + exists f. split; [|done]. apply Hmono. rewrite Eact. apply elem_of_app. right. left.
    + intros Hcr. apply Hmono. rewrite Eact. apply elem_of_app. right. right. unfold link_Start. rewrite Hcr. left.
  - intros q Hq. destruct ls as [|p2 ls].
    + injection Hq as <-. simpl in H. injection H as <-. exists f. split; [|done].
      rewrite Est. apply list_lookup_insert_eq. rewrite <- Hlen, Est, length_insert in Hc. done.
    + destruct (Hlast q Hq) as (f' & ? & ? & ?). exists f'. by rewrite <- Ecfg.
Qed.
End load.
End link_lemmas.

(** The links that are loaded together share one configuration object: the loop
    variable.  Each link's configuration file, written at once, has its own connection;
    but a process that gets its arguments after the loop, whichever link it belongs to, is
    told to connect to the server of the last link. *)
Theorem links_share_config create os alias w uuids w' q :
  LoadLinks create os alias w uuids = Ret w' -> last (net_Links (ow_cfg w)) = Some q ->
  let c := length (ow_store w) in
  forall k p, net_Links (ow_cfg w) !! k = Some p ->
    (exists f, SaveConf (ConfFile (uuids k)) f ∈ ow_actions w' /\ pt_Connection f = conn_of os alias p) /\
    (create (link_LogFile (uuids k)) = true -> Launch (uuids k) c ∈ ow_actions w') /\
    launch_args (ow_store w') (uuids k) c =
      Some ["-alias"; net_Name (ow_cfg w); "-conn"; conn_of os alias q; "-conf"; ConfFile (uuids k);
            "-terminal"; "ww"]%string.
Proof.
  unfold LoadLinks. intros H Hlast k p Hk. destruct (net_Links (ow_cfg w)) as [|p0 ls] eqn:El; [done|].
  cbn [alloc] in H.
  destruct (load_links_spec _ _ _ _ _ _ _ _ H) as (_ & _ & Hks & Hl); [simpl; rewrite length_app; simpl; lia|].
  destruct (Hks k p Hk) as [Hf Hs]. split; [exact Hf|]. split; [exact Hs|].
  destruct (Hl q Hlast) as (f & Hst & Hc & Hn). unfold launch_args. rewrite Hst, Hc, Hn. done.
Qed.

Definition demo_worker : worker :=
  match lan_Correct "100.44" demo_served 1194 with
  | Ret (n, _) => NewOpenLANWorker n LinkCache.New Tap.empty_taps
  | Panic => NewOpenLANWorker demo_served LinkCache.New Tap.empty_taps
  end.
Definition with_connection (p : Point) (conn : string) : Point :=
  {| pt_Alias := pt_Alias p; pt_Connection := conn; pt_Timeout := pt_Timeout p;
     pt_Username := pt_Username p; pt_Network := pt_Network p; pt_Password := pt_Password p;
     pt_Protocol := pt_Protocol p; pt_Interface := pt_Interface p; pt_Log := pt_Log p;
     pt_Crypt := pt_Crypt p; pt_RequestAddr := pt_RequestAddr p; pt_ByPass := pt_ByPass p;
     pt_SaveFile := pt_SaveFile p; pt_Queue := pt_Queue p; pt_Terminal := pt_Terminal p;
     pt_Cert := pt_Cert p; pt_StatusFile := pt_StatusFile p; pt_PidFile := pt_PidFile p |}.
Definition two_links (n : Network) : Network :=
  set_meta (net_File n) (net_Alias n) [with_connection demo_link "hub1:99"; with_connection demo_link "hub2"] n.
Definition demo_loading : worker :=
  {| ow_alias := "sw"; ow_cfg := two_links (ow_cfg demo_worker);
     ow_startTime := 0; ow_uuid := ""; ow_links := ∅; ow_store := []; ow_cache := LinkCache.New;
     ow_taps := Tap.empty_taps; ow_actions := [] |}.
Definition demo_uuid (k : nat) : string := ("u" +:+ pretty k)%string.

Lemma links_share_config_witness :
  match LoadLinks (fun _ => true) "linux" "host" demo_loading demo_uuid with
  | Panic => False
  | Ret w' =>
      (exists f, SaveConf "/var/openlan/point/u0.json" f ∈ ow_actions w' /\ pt_Connection f = "hub1:99"%string) /\
      Launch "u0" 0 ∈ ow_actions w' /\
      launch_args (ow_store w') "u0" 0 =
        Some ["-alias"; "lan"; "-conn"; "hub2:10002"; "-conf"; "/var/openlan/point/u0.json"; "-terminal"; "ww"]%string
  end.
Proof.
  destruct (LoadLinks (fun _ => true) "linux" "host" demo_loading demo_uuid) as [w'|] eqn:E; [|by vm_compute in E].
  destruct (links_share_config _ _ _ _ _ _ (with_connection demo_link "hub2") E eq_refl 0%nat
    (with_connection demo_link "hub1:99") eq_refl) as ((f & Hf & Hc) & Hl & Ha).
  split; [exists f; split; [exact Hf|rewrite Hc; vm_compute; reflexivity]|].
  split; [exact (Hl eq_refl)|exact Ha].
Defined.

(** A link lives until it is deleted: adding a link on a new connection and deleting
    that connection leaves the links and the table of links as they were, and the process
    is stopped and its files removed.  A second link on the same connection takes the
    place of the first: deleting the connection then stops the second only, and the first
    stays in the table with no link left to stop it by. *)
Theorem link_lifecycle create w uuid c w1 p :
  AddLink create w uuid c = Ret w1 -> ow_store w !! c = Some p -> ow_links w !! pt_Connection p = None ->
  SafeStrMap.data (ow_cache w) !! uuid = None -> room (ow_cache w) 2 ->
  (ow_links (DelLink w1 (pt_Connection p)) = ow_links w /\
   SafeStrMap.data (ow_cache (DelLink w1 (pt_Connection p))) = SafeStrMap.data (ow_cache w) /\
   ow_actions (DelLink w1 (pt_Connection p)) = ow_actions w1 ++ link_Stop uuid) /\
  forall uuid2 c2 w2 p2, uuid2 <> uuid -> SafeStrMap.data (ow_cache w) !! uuid2 = None ->
    AddLink create w1 uuid2 c2 = Ret w2 -> ow_store w1 !! c2 = Some p2 -> pt_Connection p2 = pt_Connection p ->
    let w3 := DelLink w2 (pt_Connection p) in
    ow_links w3 = ow_links w /\ is_Some (SafeStrMap.data (ow_cache w3) !! uuid) /\
    ow_actions w3 = ow_actions w2 ++ link_Stop uuid2.
Proof.
  intros H1 Hp Hnone Hfresh Hroom. destruct (AddLink_spec _ _ _ _ _ _ H1 Hp) as
    (f & _ & _ & _ & _ & _ & El & Ec).
  destruct (room_add (ow_cache w) 1 uuid (Some (link_Model uuid f)) Hroom Hfresh) as [Ecd Hroom1].
  fold (LinkCache.Add (ow_cache w) uuid (link_Model uuid f)) in Ecd, Hroom1. rewrite <- Ec in Ecd, Hroom1.
  split.
  - unfold DelLink. rewrite El, lookup_insert_eq. cbn [set_links ow_links ow_cache ow_actions lk_uuid].
    rewrite delete_insert_id by done. split; [done|]. split; [|done].
    unfold LinkCache.Del, SafeStrMap.Del. rewrite Ecd, lookup_insert_eq. simpl. by apply delete_insert_id.
  - intros uuid2 c2 w2 p2 Hne Hf2 H2 Hp2 Heq. destruct (AddLink_spec _ _ _ _ _ _ H2 Hp2) as
      (f2 & _ & _ & _ & _ & _ & El2 & Ec2).
    assert (Hf2' : SafeStrMap.data (ow_cache w1) !! uuid2 = None) by by rewrite Ecd, lookup_insert_ne.
    destruct (room_add (ow_cache w1) 0 uuid2 (Some (link_Model uuid2 f2)) Hroom1 Hf2') as [Ecd2 _].
    fold (LinkCache.Add (ow_cache w1) uuid2 (link_Model uuid2 f2)) in Ecd2. rewrite <- Ec2 in Ecd2.
    unfold DelLink. rewrite El2, Heq, lookup_insert_eq. cbn [set_links ow_links ow_cache ow_actions lk_uuid].
    rewrite delete_insert_eq, El, delete_insert_id by done. split; [done|]. split; [|done].
    unfold LinkCache.Del, SafeStrMap.Del. rewrite Ecd2, lookup_insert_eq. simpl.
    rewrite delete_insert_id by done. rewrite Ecd, lookup_insert_eq. by eexists.
Qed.

Lemma link_lifecycle_witness :
  let w := (alloc (alloc demo_worker (with_connection demo_link "hub:1")).1 (with_connection demo_link "hub:1")).1 in
  match AddLink (fun _ => true) w "u1" 0 with
  | Panic => False
  | Ret w1 =>
      ow_links (DelLink w1 "hub:1") = ow_links w /\
      match AddLink (fun _ => true) w1 "u2" 1 with
      | Panic => False
      | Ret w2 => is_Some (SafeStrMap.data (ow_cache (DelLink w2 "hub:1")) !! "u1"%string) /\
          ow_actions (DelLink w2 "hub:1") = ow_actions w2 ++ link_Stop "u2"
      end
  end.
Proof.
  set (w := (alloc (alloc demo_worker (with_connection demo_link "hub:1")).1 (with_connection demo_link "hub:1")).1).
  cbv zeta. destruct (AddLink (fun _ => true) w "u1" 0) as [w1|] eqn:E1; [|by vm_compute in E1].
  assert (Hroom : room (ow_cache w) 2) by (right; by vm_compute).
  destruct (link_lifecycle _ _ _ _ _ (with_connection demo_link "hub:1") E1 eq_refl eq_refl eq_refl Hroom)
    as [(H1 & _) H2].
  split; [exact H1|]. assert (Hst : ow_store w1 !! 1%nat = Some (with_connection demo_link "hub:1")).
  { vm_compute in E1. injection E1 as <-. vm_compute. reflexivity. }
  destruct (AddLink (fun _ => true) w1 "u2" 1) as [w2|] eqn:E2.
  - destruct (H2 "u2"%string 1%nat w2 _ ltac:(done) eq_refl E2 Hst eq_refl) as (_ & H3 & H4).
    split; [exact H3|exact H4].
  - vm_compute in E1. injection E1 as <-. by vm_compute in E2.
Defined.

Example openlan_examples :
  UpBridge "" (bridge_Correct {| br_Network := "lan"; br_Peer := "br0"; br_Name := ""; br_IPMtu := 0;
      br_Address := "10.1.0.1/24"; br_Provider := ""; br_Stp := ""; br_Delay := 0; br_Mss := 0 |}) =
    [BrOpen "10.1.0.1/24"; BrStp true; BrDelay 2; BrPeer "br-lan" "br0" "lan-ei" "lan-eo"; BrCallIptables 0] /\
  ConfFile "abc" = "/var/openlan/point/abc.json"%string /\
  NewNetworker "fabric" = FabricWorker /\ NewNetworker "linux" = OpenLANWorker /\
  ow_actions (UnLoadLinks demo_worker [("hub"%string, {| lk_uuid := "u"; lk_cfg := 0 |})]) =
    [KillPid "/var/openlan/point/u.pid"; Remove "/var/openlan/point/u.log"; Remove "/var/openlan/point/u.status";
     Remove "/var/openlan/point/u.pid"; Remove "/var/openlan/point/u.json"] /\
  length (vpn_servers (Some demo_vpn)) = 3%nat /\ UpTime demo_worker 5 = 0.
Proof. vm_compute. repeat split. Qed.
