(* ===== verification/Esp.v ===== *)
(** * IPsec networks (pkg/olsw/esp.go, confd.go, cache/esp.go, models/esp.go)

    The worker of an IPsec network keeps the kernel's security associations ("states")
    and policies in step with the configuration: per member one association for each
    direction, per policy one for out, forward and in.  The database watcher adds and
    replaces members while it runs.  Requests of the kernel are recorded in order. *)

From S2P Require Import Prelude GoStd Utils SafeMap Config.

Local Open Scope Z_scope.

(** ** The tables shown to users *)

Record EspRow := { er_Name : string; er_Address : string }.
Record StateRow := { sr_Name : string; sr_Spi : Z; sr_Source : string; sr_Dest : string; sr_Proto : Z; sr_Mode : Z }.
Record PolicyRow := { po_Name : string; po_Spi : Z; po_Source : string; po_Dest : string }.

(** [%d-%s-%s] *)
Definition row_ID (spi : Z) (src dst : string) : string :=
  (FormatInt spi +:+ "-" +:+ src +:+ "-" +:+ dst)%string.
Definition state_ID (r : StateRow) : string := row_ID (sr_Spi r) (sr_Source r) (sr_Dest r).
Definition policy_ID (r : PolicyRow) : string := row_ID (po_Spi r) (po_Source r) (po_Dest r).

Record tables := { t_esp : SafeStrMap.t EspRow; t_state : SafeStrMap.t StateRow; t_policy : SafeStrMap.t PolicyRow }.
Definition no_tables : tables :=
  {| t_esp := SafeStrMap.NewSafeStrMap 1024; t_state := SafeStrMap.NewSafeStrMap 1024;
     t_policy := SafeStrMap.NewSafeStrMap 1024 |}.
Definition esp_Add (t : tables) (e : EspRow) : tables :=
  {| t_esp := (SafeStrMap.Set_ (t_esp t) (er_Name e) (Some e)).1; t_state := t_state t; t_policy := t_policy t |}.
Definition esp_Get (t : tables) (key : string) : option EspRow := SafeStrMap.Get (t_esp t) key.
Definition esp_Del (t : tables) (key : string) : tables :=
  {| t_esp := SafeStrMap.Del (t_esp t) key; t_state := t_state t; t_policy := t_policy t |}.
Definition state_Add (t : tables) (r : StateRow) : tables :=
  {| t_esp := t_esp t; t_state := (SafeStrMap.Set_ (t_state t) (state_ID r) (Some r)).1; t_policy := t_policy t |}.
Definition state_Del (t : tables) (key : string) : tables :=
  {| t_esp := t_esp t; t_state := SafeStrMap.Del (t_state t) key; t_policy := t_policy t |}.
Definition state_Clear (t : tables) : tables :=
  {| t_esp := t_esp t; t_state := SafeStrMap.Clear (t_state t); t_policy := t_policy t |}.
Definition policy_Add (t : tables) (r : PolicyRow) : tables :=
  {| t_esp := t_esp t; t_state := t_state t; t_policy := (SafeStrMap.Set_ (t_policy t) (policy_ID r) (Some r)).1 |}.
Definition policy_Del (t : tables) (key : string) : tables :=
  {| t_esp := t_esp t; t_state := t_state t; t_policy := SafeStrMap.Del (t_policy t) key |}.
Definition policy_Clear (t : tables) : tables :=
  {| t_esp := t_esp t; t_state := t_state t; t_policy := SafeStrMap.Clear (t_policy t) |}.
(** [List] of a name, in the order of iteration; the empty name lists all. *)
Definition state_List (name : string) (order : list (string * option StateRow)) : list StateRow :=
  filter (fun r => String.eqb (sr_Name r) name || String.eqb name "" = true) (SafeStrMap.visited order).*2.
Definition policy_List (name : string) (order : list (string * option PolicyRow)) : list PolicyRow :=
  filter (fun r => String.eqb (po_Name r) name || String.eqb name "" = true) (SafeStrMap.visited order).*2.

(** ** Associations and policies of the kernel *)

Definition UDPPort : Z := EspUdp.
Definition PROTO_ESP : Z := 50.
Definition MODE_TUNNEL : Z := 1.

Record StateEncap := { enc_SrcPort : Z; enc_DstPort : Z }.
Definition GetStateEncap (mode : string) (sport dport : Z) : option StateEncap :=
  let sport := if sport =? 0 then UDPPort else sport in
  let dport := if dport =? 0 then UDPPort else dport in
  if String.eqb mode "udp" then Some {| enc_SrcPort := sport; enc_DstPort := dport |} else None.

Record XfrmState := {
  xs_Src : bytes; xs_Dst : bytes; xs_Proto : Z; xs_Mode : Z; xs_Spi : Z; xs_Auth : bytes; xs_Crypt : bytes;
  xs_Encap : option StateEncap
}.
Inductive Dir := DIR_OUT | DIR_FWD | DIR_IN.
Record PolicyTmpl := { tm_Src : bytes; tm_Dst : bytes; tm_Proto : Z; tm_Mode : Z; tm_Spi : Z }.
Record XfrmPolicy := { xp_Src : IPNet; xp_Dst : IPNet; xp_Dir : Dir; xp_Tmpls : list PolicyTmpl }.

Record StateParameters := { sp_spi : Z; sp_local : bytes; sp_remote : bytes; sp_auth : string; sp_crypt : string }.
Definition newState (args : StateParameters) (encap : option StateEncap) : XfrmState :=
  {| xs_Src := sp_local args; xs_Dst := sp_remote args; xs_Proto := PROTO_ESP; xs_Mode := MODE_TUNNEL;
     xs_Spi := sp_spi args; xs_Auth := bytes_of_string (sp_auth args);
     xs_Crypt := bytes_of_string (sp_crypt args); xs_Encap := encap |}.
Record PolicyParameter := {
  pp_spi : Z; pp_local : bytes; pp_remote : bytes; pp_src : IPNet; pp_dst : IPNet; pp_dir : Dir
}.
Definition newPolicy (args : PolicyParameter) : XfrmPolicy :=
  {| xp_Src := pp_src args; xp_Dst := pp_dst args; xp_Dir := pp_dir args;
     xp_Tmpls := [{| tm_Src := pp_local args; tm_Dst := pp_remote args; tm_Proto := PROTO_ESP;
                     tm_Mode := MODE_TUNNEL; tm_Spi := pp_spi args |}] |}.

(** The worker: the pointer to its specification is nil when the network has none of the
    right kind. *)
Record EspWorker := {
  ew_name : string; ew_uuid : string; ew_states : list XfrmState; ew_policies : list XfrmPolicy;
  ew_spec : option ESPSpecifies
}.
Definition NewESPWorker (c : Network) : EspWorker :=
  {| ew_name := net_Name c; ew_uuid := ""; ew_states := []; ew_policies := [];
     ew_spec := match net_Specifies c with Some (SpecESP s) => Some s | _ => None end |}.
Definition set_xfrm (w : EspWorker) (ss : list XfrmState) (ps : list XfrmPolicy) : EspWorker :=
  {| ew_name := ew_name w; ew_uuid := ew_uuid w; ew_states := ss; ew_policies := ps; ew_spec := ew_spec w |}.
Definition set_spec (w : EspWorker) (s : option ESPSpecifies) : EspWorker :=
  {| ew_name := ew_name w; ew_uuid := ew_uuid w; ew_states := ew_states w; ew_policies := ew_policies w; ew_spec := s |}.

(** The two associations of a member and its row. *)
Definition member_states (mem : ESPMember) : list XfrmState :=
  let ste := mem_State mem in
  [newState {| sp_spi := mem_Spi mem; sp_local := LocalIp ste; sp_remote := RemoteIp ste;
               sp_auth := Auth ste; sp_crypt := Crypto ste |} (GetStateEncap (Encap ste) 0 (RemotePort ste));
   newState {| sp_spi := mem_Spi mem; sp_local := RemoteIp ste; sp_remote := LocalIp ste;
               sp_auth := Auth ste; sp_crypt := Crypto ste |} (GetStateEncap (Encap ste) (RemotePort ste) 0)].
Definition state_row (name : string) (mem : ESPMember) : StateRow :=
  {| sr_Name := name; sr_Spi := mem_Spi mem; sr_Source := netip_String (LocalIp (mem_State mem));
     sr_Dest := netip_String (RemoteIp (mem_State mem)); sr_Proto := PROTO_ESP; sr_Mode := MODE_TUNNEL |}.
Definition addState (name : string) (wt : EspWorker * tables) (mem : ESPMember) : EspWorker * tables :=
  (set_xfrm wt.1 (ew_states wt.1 ++ member_states mem) (ew_policies wt.1), state_Add wt.2 (state_row name mem)).
Definition delState (name : string) (t : tables) (mem : ESPMember) : tables :=
  state_Del t (state_ID (state_row name mem)).

Definition policy_rows (mem : ESPMember) (src dst : IPNet) : list XfrmPolicy :=
  let ste := mem_State mem in
  [newPolicy {| pp_spi := mem_Spi mem; pp_local := LocalIp ste; pp_remote := RemoteIp ste; pp_src := src;
                pp_dst := dst; pp_dir := DIR_OUT |};
   newPolicy {| pp_spi := mem_Spi mem; pp_local := RemoteIp ste; pp_remote := LocalIp ste; pp_src := dst;
                pp_dst := src; pp_dir := DIR_FWD |};
   newPolicy {| pp_spi := mem_Spi mem; pp_local := RemoteIp ste; pp_remote := LocalIp ste; pp_src := dst;
                pp_dst := src; pp_dir := DIR_IN |}].
Definition policy_row (name : string) (mem : ESPMember) (pol : ESPPolicy) : PolicyRow :=
  {| po_Name := name; po_Spi := mem_Spi mem; po_Source := pol_Source pol; po_Dest := pol_Dest pol |}.
(** A policy with a prefix that does not parse is left out. *)
Definition addPolicy (name : string) (wt : EspWorker * tables) (mem : ESPMember) (pol : ESPPolicy)
    : EspWorker * tables :=
  match ParseNet (pol_Source pol), ParseNet (pol_Dest pol) with
  | Some src, Some dst =>
      (set_xfrm wt.1 (ew_states wt.1) (ew_policies wt.1 ++ policy_rows mem src dst),
       policy_Add wt.2 (policy_row name mem pol))
  | _, _ => wt
  end.
Definition delPolicy (name : string) (t : tables) (mem : ESPMember) (pol : ESPPolicy) : tables :=
  policy_Del t (policy_ID (policy_row name mem pol)).

(** A policy without ends gets those of its member, in place. *)
Definition fill_policy (mem : ESPMember) (pol : ESPPolicy) : ESPPolicy :=
  {| pol_Source := or_str (pol_Source pol) (mem_Address mem); pol_Dest := or_str (pol_Dest pol) (mem_Peer mem) |}.
Definition fill_member (mem : ESPMember) : ESPMember :=
  {| mem_Name := mem_Name mem; mem_Address := mem_Address mem; mem_Peer := mem_Peer mem; mem_Spi := mem_Spi mem;
     mem_State := mem_State mem; mem_Policies := map (option_map (fill_policy mem)) (mem_Policies mem) |}.
Definition has_ips (mem : ESPMember) : bool :=
  match LocalIp (mem_State mem), RemoteIp (mem_State mem) with [], _ | _, [] => false | _, _ => true end.
Definition update_member (name : string) (wt : EspWorker * tables) (mem : ESPMember) : EspWorker * tables :=
  foldl (fun wt p => match p with Some p => addPolicy name wt mem p | None => wt end)
    (addState name wt mem) (mem_Policies mem).
(** The loop over the members and what it leaves of them. *)
Definition update_one (name : string) (wt : EspWorker * tables) (m : option ESPMember) : EspWorker * tables :=
  match m with
  | None => wt
  | Some mem => if has_ips mem then update_member name wt (fill_member mem) else wt
  end.
Definition updated (m : option ESPMember) : option ESPMember :=
  option_map (fun mem => if has_ips mem then fill_member mem else mem) m.
Definition set_members (s : ESPSpecifies) (ms : list (option ESPMember)) : ESPSpecifies :=
  {| esp_Name := esp_Name s; esp_Address := esp_Address s; esp_State := esp_State s; esp_Members := ms |}.
Definition updateXfrm (w : EspWorker) (t : tables) : go (EspWorker * tables) :=
  match ew_spec w with
  | None => Panic
  | Some s =>
      let '(w, t) := foldl (update_one (esp_Name s)) (w, t) (esp_Members s) in
      Ret (set_spec w (Some (set_members s (map updated (esp_Members s)))), t)
  end.
Definition esp_Initialize (w : EspWorker) (t : tables) : go (EspWorker * tables) :=
  match ew_spec w with None => Ret (w, t) | Some _ => updateXfrm w t end.

(** ** Requests of the kernel *)

Inductive request :=
| StateAdd (s : XfrmState)
| StateDel (s : XfrmState)
| PolicyAdd (p : XfrmPolicy)
| PolicyDel (p : XfrmPolicy)
| LinkAdd (name : string)
| LinkSetUp (name : string)
| LinkDel (name : string)
| AddrAdd (name addr : string)
| RouteAdd (name : string) (dst : bytes * Z) (gw : bytes).

Definition addXfrm (w : EspWorker) : list request :=
  map StateAdd (ew_states w) ++ map PolicyAdd (ew_policies w).
Definition delXfrm (w : EspWorker) : EspWorker * list request :=
  (set_xfrm w [] [], map PolicyDel (ew_policies w) ++ map StateDel (ew_states w)).

Section kernel.
(** Whether a device is there, and whether adding one, an address ([ParseAddr] included)
    or a route succeeds. *)
Context (has : string -> bool) (link_ok : string -> bool) (addr_ok : string -> string -> bool).

(** [UpDummy]: the requests up to the first that fails.  A device that is neither there
    nor can be looked up after it was added does not occur in the model. *)
Definition dummy_route (name addr peer : string) : list request :=
  match ParseCIDR peer with
  | None => []
  | Some dst => [RouteAdd name dst (default [] (ParseIP (default ""%string (SplitN addr char_slash 2 !! 0%nat))))]
  end.
Definition UpDummy (name addr peer : string) : list request :=
  let up := LinkSetUp name ::
    (if String.eqb addr "" then dummy_route name addr peer
     else AddrAdd name addr :: if addr_ok name addr then dummy_route name addr peer else []) in
  if has name then up
  else LinkAdd name :: if link_ok name then up else [].
Definition DownDummy (name : string) : list request := if has name then [LinkDel name] else [].

(** The members' devices; a nil member panics. *)
Fixpoint upMember (ms : list (option ESPMember)) : go (list request) :=
  match ms with
  | [] => Ret []
  | None :: _ => Panic
  | Some m :: ms => rs ← upMember ms; Ret (UpDummy (mem_Name m) (mem_Address m) (mem_Peer m) ++ rs)
  end.
Fixpoint downMember (ms : list (option ESPMember)) : go (list request) :=
  match ms with
  | [] => Ret []
  | None :: _ => Panic
  | Some m :: ms => rs ← downMember ms; Ret (DownDummy (mem_Name m) ++ rs)
  end.

Definition esp_Start (w : EspWorker) (t : tables) (uuid : string) : go (EspWorker * tables * list request) :=
  match ew_spec w with
  | None => Ret (w, t, [])
  | Some s =>
      rs ← upMember (esp_Members s);
      Ret ({| ew_name := ew_name w; ew_uuid := uuid; ew_states := ew_states w; ew_policies := ew_policies w;
              ew_spec := ew_spec w |},
           esp_Add t {| er_Name := ew_name w; er_Address := esp_Address s |}, addXfrm w ++ rs)
  end.
Definition esp_Stop (w : EspWorker) : go (EspWorker * list request) :=
  match ew_spec w with
  | None => Ret (w, [])
  | Some s =>
      rs ← downMember (esp_Members s);
      let '(w, ds) := delXfrm w in
      Ret (w, rs ++ ds)
  end.
(** [Reload] does not look at its argument. *)
Definition esp_Reload (w : EspWorker) (t : tables) : go (EspWorker * tables * list request) :=
  let '(w, ds) := delXfrm w in
  r ← updateXfrm w t;
  let '(w, t) := r : EspWorker * tables in
  rs ← match ew_spec w with None => Panic | Some s => upMember (esp_Members s) end;
  Ret (w, t, ds ++ addXfrm w ++ rs).
End kernel.

(** ** The database watcher (pkg/olsw/confd.go) *)

Definition GetAddrPort (conn : string) : string * Z :=
  match SplitN conn char_colon 2 with
  | [a; p] => (a, (Atoi p).1)
  | a :: _ => (a, 0)
  | [] => (""%string, 0)
  end.

(** [database.VirtualLink], as far as it is read; a missing key of a map is the empty
    string. *)
Record VirtualLink := {
  vl_Network : string; vl_Connection : string; vl_Device : string; vl_OtherConfig : gmap string string;
  vl_Authentication : gmap string string; vl_Status : gmap string string
}.
Definition key (m : gmap string string) (k : string) : string := default ""%string (m !! k).
Definition from4 (s : string) : string := String.substring 4 (String.length s - 4) s.

(** The association number and the remote end of a link, [None] when it has none. *)
Definition link_end (obj : VirtualLink) : go (option (Z * (string * Z))) :=
  let conn := vl_Connection obj in
  p ← GetPrefix conn 4;
  if String.eqb p "spi:" then
    let remote := key (vl_Status obj) "remote_connection" in
    q ← GetPrefix remote 4;
    Ret (if String.eqb q "udp:" then Some ((Atoi (from4 conn)).1, GetAddrPort (from4 remote)) else None)
  else if String.eqb p "udp:" then
    d ← GetSuffix (vl_Device obj) 3;
    Ret (Some ((Atoi d).1, GetAddrPort (from4 conn)))
  else Ret None.
Definition link_member (obj : VirtualLink) (spi : Z) (remote : string * Z) : ESPMember :=
  {| mem_Name := vl_Device obj; mem_Address := key (vl_OtherConfig obj) "local_address";
     mem_Peer := key (vl_OtherConfig obj) "remote_address"; mem_Spi := spi;
     mem_State := {| Local := ""; LocalIp := []; Remote := remote.1; RemotePort := remote.2; RemoteIp := [];
                     Encap := ""; Auth := key (vl_Authentication obj) "password";
                     Crypto := key (vl_Authentication obj) "username" |};
     mem_Policies := [] |}.

(** The loop over the members: every one with the number is replaced; a nil one panics. *)
Fixpoint replace_members (mem : ESPMember) (ms : list (option ESPMember)) : go (list (option ESPMember) * bool) :=
  match ms with
  | [] => Ret ([], false)
  | None :: _ => Panic
  | Some m :: ms =>
      r ← replace_members mem ms;
      let '(ms, found) := r : list (option ESPMember) * bool in
      Ret (if mem_Spi m =? mem_Spi mem then (Some mem :: ms, true) else (Some m :: ms, found))
  end.
Definition put_member (mem : ESPMember) (ms : list (option ESPMember)) : go (list (option ESPMember)) :=
  r ← replace_members mem ms;
  let '(ms, found) := r : list (option ESPMember) * bool in
  Ret (if found then ms else ms ++ [Some mem]).

(** [AddMember] on the IPsec worker of the network: the member is put in, everything is
    corrected, and the worker reloaded. *)
Definition AddMember (LookupIP : string -> list bytes) (GetLocalByGw : string -> bytes)
    (has link_ok : string -> bool) (addr_ok : string -> string -> bool)
    (rnd : nat -> Z) (w : EspWorker) (t : tables) (obj : VirtualLink) : go (EspWorker * tables * list request) :=
  e ← link_end obj;
  match e with
  | None => Ret (w, t, [])
  | Some (spi, remote) =>
      w ← match ew_spec w with
          | None => Ret w
          | Some s =>
              ms ← put_member (link_member obj spi remote) (esp_Members s);
              s ← esp_Correct LookupIP GetLocalByGw (set_members s ms) rnd;
              Ret (set_spec w (Some s))
          end;
      esp_Reload has link_ok addr_ok w t
  end.

(** [UpdateName] for one worker: whether some member's remote has this name and another
    address, in which case the network is corrected again and reloaded. *)
Fixpoint name_moved (name addr : string) (ms : list (option ESPMember)) : go bool :=
  match ms with
  | [] => Ret false
  | None :: _ => Panic
  | Some m :: ms =>
      b ← name_moved name addr ms;
      Ret (b || (String.eqb (Remote (mem_State m)) name &&
                 negb (String.eqb (netip_String (RemoteIp (mem_State m))) addr)))
  end.
Definition UpdateName (LookupIP : string -> list bytes) (GetLocalByGw : string -> bytes)
    (has link_ok : string -> bool) (addr_ok : string -> string -> bool)
    (rnd : nat -> Z) (w : EspWorker) (t : tables) (name addr : string) : go (EspWorker * tables * list request) :=
  if String.eqb addr "" then Ret (w, t, [])
  else match ew_spec w with
       | None => Ret (w, t, [])
       | Some s =>
           moved ← name_moved name addr (esp_Members s);
           if moved : bool then
             s ← esp_Correct LookupIP GetLocalByGw s rnd;
             esp_Reload has link_ok addr_ok (set_spec w (Some (esp_rename s (ew_name w)))) t
           else Ret (w, t, [])
       end.

(** * Properties *)

(** ** The two ends of a tunnel *)

(** What two switches configure for the same tunnel, seen from either side. *)
Definition mirrored (a b : ESPMember) : Prop :=
  mem_Spi b = mem_Spi a /\ LocalIp (mem_State b) = RemoteIp (mem_State a) /\
  RemoteIp (mem_State b) = LocalIp (mem_State a) /\ Auth (mem_State b) = Auth (mem_State a) /\
  Crypto (mem_State b) = Crypto (mem_State a) /\ Encap (mem_State b) = Encap (mem_State a) /\
  RemotePort (mem_State a) = UDPPort /\ RemotePort (mem_State b) = UDPPort.
Definition with_dir (p : XfrmPolicy) (d : Dir) : XfrmPolicy :=
  {| xp_Src := xp_Src p; xp_Dst := xp_Dst p; xp_Dir := d; xp_Tmpls := xp_Tmpls p |}.

(** (C32) The two ends of a tunnel agree: for mirrored members on the default port, the
    associations of one end are those of the other, so that what one sends the other has
    the keys for; and for policies with swapped ends, the traffic one end's policy sends
    out is what the other end's forward and in policies let in. *)
Theorem tunnel_ends_agree a b src dst :
  mirrored a b ->
  member_states b = reverse (member_states a) /\
  (forall p, p ∈ policy_rows a src dst -> xp_Dir p = DIR_OUT ->
     with_dir p DIR_IN ∈ policy_rows b dst src /\ with_dir p DIR_FWD ∈ policy_rows b dst src) /\
  (forall p, p ∈ policy_rows b dst src -> xp_Dir p = DIR_OUT ->
     with_dir p DIR_IN ∈ policy_rows a src dst /\ with_dir p DIR_FWD ∈ policy_rows a src dst).
Proof.
  intros (Hs & Hl & Hr & Ha & Hc & He & Hpa & Hpb).
  unfold member_states, policy_rows. rewrite Hs, Hl, Hr, Ha, Hc, He, Hpa, Hpb.
  split; [unfold GetStateEncap; simpl; by destruct (String.eqb _ "udp")|].
  split; intros p Hp Hd; repeat (apply elem_of_cons in Hp as [-> |Hp]); try done; try by apply not_elem_of_nil in Hp.
  - split; [right; right; by left|right; by left].
  - split; [right; right; by left|right; by left].
Qed.

(** ** Associations behind the policies *)

(** The association a policy's template asks for is among those of the worker. *)
Definition tmpl_has (ss : list XfrmState) (tm : PolicyTmpl) : Prop :=
  exists s, s ∈ ss /\ xs_Src s = tm_Src tm /\ xs_Dst s = tm_Dst tm /\ xs_Spi s = tm_Spi tm /\
    xs_Proto s = tm_Proto tm /\ xs_Mode s = tm_Mode tm.
Definition covered (w : EspWorker) : Prop :=
  Forall (fun p => Forall (tmpl_has (ew_states w)) (xp_Tmpls p)) (ew_policies w).

Lemma tmpl_has_app ss ss' tm : tmpl_has ss tm -> tmpl_has (ss ++ ss') tm.
Proof. intros (s & Hin & H). exists s. split; [apply elem_of_app; by left|done]. Qed.
Lemma covered_states w ss : covered w -> covered (set_xfrm w (ew_states w ++ ss) (ew_policies w)).
Proof.
  unfold covered. simpl. intros H. eapply Forall_impl; [exact H|]. intros p Hp. eapply Forall_impl; [exact Hp|].
  intros tm. apply tmpl_has_app.
Qed.
Lemma policy_rows_covered mem src dst ss :
  (forall s, s ∈ member_states mem -> s ∈ ss) ->
  Forall (fun p => Forall (tmpl_has ss) (xp_Tmpls p)) (policy_rows mem src dst).
Proof.
  intros Hin. set (ste := mem_State mem).
  assert (Ho : tmpl_has ss {| tm_Src := LocalIp ste; tm_Dst := RemoteIp ste; tm_Proto := PROTO_ESP;
                              tm_Mode := MODE_TUNNEL; tm_Spi := mem_Spi mem |})
    by (eexists; split; [apply Hin; left|done]).
  assert (Hi : tmpl_has ss {| tm_Src := RemoteIp ste; tm_Dst := LocalIp ste; tm_Proto := PROTO_ESP;
                              tm_Mode := MODE_TUNNEL; tm_Spi := mem_Spi mem |})
    by (eexists; split; [apply Hin; right; left|done]).
  by repeat constructor.
Qed.

Lemma addPolicy_fst name wt mem pol :
  ew_states (addPolicy name wt mem pol).1 = ew_states wt.1 /\ ew_spec (addPolicy name wt mem pol).1 = ew_spec wt.1.
Proof. unfold addPolicy. by destruct (ParseNet (pol_Source pol)), (ParseNet (pol_Dest pol)). Qed.
Lemma addPolicies_covered name mem ps : forall wt,
  (forall s, s ∈ member_states mem -> s ∈ ew_states wt.1) -> covered wt.1 ->
  covered (foldl (fun wt p => match p with Some p => addPolicy name wt mem p | None => wt end) wt ps).1.
Proof.
  induction ps as [|[p|] ps IH]; intros wt Hin Hc; simpl; [done| |by apply IH].
  apply IH.
  - by rewrite (proj1 (addPolicy_fst name wt mem p)).
  - unfold addPolicy. destruct (ParseNet (pol_Source p)) as [src|], (ParseNet (pol_Dest p)) as [dst|]; try done.
    unfold covered. simpl. apply Forall_app. split; [done|]. by apply policy_rows_covered.
Qed.
Lemma update_one_covered name wt m : covered wt.1 -> covered (update_one name wt m).1.
Proof.
  intros Hc. destruct m as [mem|]; [|done]. simpl. destruct (has_ips mem); [|done].
  unfold update_member. apply addPolicies_covered; simpl.
  - intros s Hs. apply elem_of_app. right. done.
  - by apply covered_states.
Qed.

Lemma updateXfrm_covered w t w' t' : covered w -> updateXfrm w t = Ret (w', t') -> covered w'.
Proof.
  unfold updateXfrm. destruct (ew_spec w) as [s|]; [|done]. intros Hc.
  destruct (foldl _ (w, t) (esp_Members s)) as [w1 t1] eqn:Ef. intros [= <- <-].
  enough (H : covered (w1, t1).1) by exact H. rewrite <- Ef. clear Ef.
  assert (H0 : covered (w, t).1) by done. revert H0. generalize (w, t).
  induction (esp_Members s) as [|m ms IH]; intros wt H; simpl; [done|]. apply IH. by apply update_one_covered.
Qed.

(** ** What the configuration asks for *)

Definition policy_xfrm (mem : ESPMember) (p : option ESPPolicy) : list XfrmPolicy :=
  match p with
  | None => []
  | Some p => match ParseNet (pol_Source p), ParseNet (pol_Dest p) with
              | Some src, Some dst => policy_rows mem src dst
              | _, _ => []
              end
  end.
Definition wanted_states (ms : list (option ESPMember)) : list XfrmState :=
  concat (map (fun m => match m with Some mem => if has_ips mem then member_states mem else [] | None => [] end) ms).
Definition wanted_policies (ms : list (option ESPMember)) : list XfrmPolicy :=
  concat (map (fun m => match m with
                        | Some mem => if has_ips mem then concat (map (policy_xfrm mem) (mem_Policies (fill_member mem)))
                                      else []
                        | None => []
                        end) ms).

Lemma addPolicies_spec name mem ps : forall wt,
  let w' := (foldl (fun wt p => match p with Some p => addPolicy name wt mem p | None => wt end) wt ps).1 in
  ew_states w' = ew_states wt.1 /\ ew_policies w' = ew_policies wt.1 ++ concat (map (policy_xfrm mem) ps) /\
  ew_spec w' = ew_spec wt.1.
Proof.
  induction ps as [|p ps IH]; intros wt; simpl; [by rewrite app_nil_r|].
  set (wt1 := match p with Some p => addPolicy name wt mem p | None => wt end).
  destruct (IH wt1) as (-> & -> & ->). subst wt1. destruct p as [p|]; [|done]. simpl.
  unfold addPolicy. destruct (ParseNet (pol_Source p)), (ParseNet (pol_Dest p)); simpl; try done.
  by rewrite <- app_assoc.
Qed.

Lemma update_members_spec name ms : forall wt,
  let w' := (foldl (update_one name) wt ms).1 in
  ew_states w' = ew_states wt.1 ++ wanted_states ms /\
  ew_policies w' = ew_policies wt.1 ++ wanted_policies ms /\ ew_spec w' = ew_spec wt.1.
Proof.
  induction ms as [|m ms IH]; intros wt; [by rewrite !app_nil_r|]. cbn [foldl].
  destruct (IH (update_one name wt m)) as (-> & -> & ->).
  unfold wanted_states, wanted_policies. cbn [map concat]. rewrite !app_assoc.
  destruct m as [mem|]; simpl; [|by rewrite !app_nil_r].
  destruct (has_ips mem); simpl; [|by rewrite !app_nil_r]. unfold update_member.
  destruct (addPolicies_spec name (fill_member mem) (mem_Policies (fill_member mem)) (addState name wt (fill_member mem)))
    as (-> & -> & ->). done.
Qed.

Lemma updateXfrm_spec w t s :
  ew_spec w = Some s -> exists w' t', updateXfrm w t = Ret (w', t') /\
    ew_states w' = ew_states w ++ wanted_states (esp_Members s) /\
    ew_policies w' = ew_policies w ++ wanted_policies (esp_Members s) /\
    ew_spec w' = Some (set_members s (map updated (esp_Members s))).
Proof.
  intros Hs. unfold updateXfrm. rewrite Hs.
  pose proof (update_members_spec (esp_Name s) (esp_Members s) (w, t)) as (H1 & H2 & _).
  destruct (foldl _ (w, t) (esp_Members s)) as [w1 t1]. by eexists _, _.
Qed.

(** Filling in a second time changes nothing. *)
Lemma updated_idem m : updated (updated m) = updated m.
Proof.
  destruct m as [mem|]; [|done]. unfold updated. simpl. f_equal. destruct (has_ips mem) eqn:E; [|by rewrite E].
  change (has_ips (fill_member mem)) with (has_ips mem). rewrite E. unfold fill_member. simpl. f_equal.
  rewrite map_map. apply map_ext. intros [p|]; [|done]. simpl. unfold fill_policy. simpl. by autorewrite with config.
Qed.
Lemma wanted_updated ms :
  wanted_states (map updated ms) = wanted_states ms /\ wanted_policies (map updated ms) = wanted_policies ms.
Proof.
  unfold wanted_states, wanted_policies. rewrite !map_map. split; f_equal.
  - apply map_ext. intros [mem|]; [|done]. simpl. destruct (has_ips mem) eqn:E; [|by rewrite E].
    change (has_ips (fill_member mem)) with (has_ips mem). by rewrite E.
  - apply map_ext. intros [mem|]; [|done]. pose proof (updated_idem (Some mem)) as Hi. unfold updated in *. simpl in *.
    destruct (has_ips mem) eqn:E; [|by rewrite ?E]. injection Hi as Hi.
    change (has_ips (fill_member mem)) with (has_ips mem) in *. rewrite E in *. change (policy_xfrm (fill_member mem)) with (policy_xfrm mem).
    change (map (option_map (fill_policy (fill_member mem))) (mem_Policies (fill_member mem)))
      with (mem_Policies (fill_member (fill_member mem))). by rewrite Hi.
Qed.

(** (C27) [Reload] puts the worker in step with its configuration: it takes back every
    policy and association it has, asks for exactly the two associations of each member
    whose ends are known and the three entries of each of its policies that parses, and
    keeps just these, each policy entry with an association behind it; reloading again
    keeps the same.  Without a specification it panics. *)
Theorem reload_exact has link_ok addr_ok w t :
  (ew_spec w = None -> esp_Reload has link_ok addr_ok w t = Panic) /\
  forall w' t' rs, esp_Reload has link_ok addr_ok w t = Ret (w', t', rs) ->
    exists s ds, ew_spec w = Some s /\
      ew_states w' = wanted_states (esp_Members s) /\ ew_policies w' = wanted_policies (esp_Members s) /\
      covered w' /\
      rs = map PolicyDel (ew_policies w) ++ map StateDel (ew_states w) ++
           map StateAdd (ew_states w') ++ map PolicyAdd (ew_policies w') ++ ds /\
      forall t2 w2 t2' rs2, esp_Reload has link_ok addr_ok w' t2 = Ret (w2, t2', rs2) ->
        ew_states w2 = ew_states w' /\ ew_policies w2 = ew_policies w'.
Proof.
  unfold esp_Reload. cbn [delXfrm]. split.
  { intros Hn. unfold updateXfrm. cbn [set_xfrm ew_spec]. by rewrite Hn. }
  intros w' t' rs H. destruct (ew_spec w) as [s|] eqn:Es.
  2:{ unfold updateXfrm in H. cbn [set_xfrm ew_spec] in H. by rewrite Es in H. }
  destruct (updateXfrm_spec (set_xfrm w [] []) t s Es) as (w1 & t1 & Hu & Hst & Hpo & Hsp).
  assert (Hcov : covered w1) by (eapply (updateXfrm_covered (set_xfrm w [] [])); [constructor|exact Hu]).
  rewrite Hu in H. cbn [mbind go_bind] in H. rewrite Hsp in H. apply go_bind_ret in H as (ds & _ & H).
  injection H as <- <- <-. simpl in Hst, Hpo. exists s, ds. split; [done|]. split; [done|]. split; [done|]. split; [done|].
  split; [unfold addXfrm; by rewrite <- !app_assoc|]. intros t2 w2 t2' rs2 H2.
  destruct (updateXfrm_spec (set_xfrm w1 [] []) t2 _ Hsp) as (w3 & t3 & Hu2 & Hst2 & Hpo2 & Hsp2).
  rewrite Hu2 in H2. cbn [mbind go_bind] in H2. rewrite Hsp2 in H2. apply go_bind_ret in H2 as (ds2 & _ & H2).
  injection H2 as <- _ _. simpl in Hst2, Hpo2. destruct (wanted_updated (esp_Members s)) as [E1 E2].
  by rewrite Hst2, Hpo2, E1, E2, Hst, Hpo.
Qed.

(** ** Links of the database *)

Definition numbered (m : option ESPMember) : Prop := exists m0, m = Some m0 /\ mem_Spi m0 <> 0.

Lemma replace_none mem ms :
  Forall numbered ms -> mem_Spi mem = 0 -> replace_members mem ms = Ret (ms, false).
Proof.
  intros H Hz. induction H as [|m ms (m0 & -> & Hm) _ IH]; [done|]. simpl. rewrite IH. cbn [mbind go_bind].
  by rewrite Hz, (proj2 (Z.eqb_neq _ 0)).
Qed.
Lemma members_numbered L G s ms : forall rnd ms', (forall k, rnd k <> 0) ->
  Forall (fun m => forall m0, m = Some m0 -> mem_Spi m0 <> 0 \/ or_str (mem_Address m0) (esp_Address s) <> ""%string) ms ->
  members_Correct L G s rnd ms = Ret ms' -> length ms' = length ms /\ Forall numbered ms'.
Proof.
  induction ms as [|[m|] ms IH]; intros rnd ms' Hz Hf H; [by injection H as <-| |done].
  apply Forall_cons in Hf as [Hm Hf]. simpl in H. apply go_bind_ret in H as (m' & H1 & H).
  apply go_bind_ret in H as (ms2 & H2 & [= <-]).
  destruct (IH (fun k => rnd (S k)) ms2 (fun k => Hz (S k)) Hf H2) as [Hl Hn]. split; [simpl; by rewrite Hl|].
  constructor; [|done]. exists m'. split; [done|]. unfold member_Correct in H1.
  destruct (String.eqb_spec (or_str (mem_Address m) (esp_Address s)) "") as [E|E].
  - injection H1 as <-. by destruct (Hm m eq_refl).
  - apply go_bind_ret in H1 as (st & _ & H1). apply go_bind_ret in H1 as (b & _ & [= <-]). simpl. by apply or_int_nonzero.
Qed.

(** A link whose number cannot be read from its device or connection has the number 0;
    every update of it adds one more member, with a random number, to the network. *)
Lemma numberless_link_accumulates L G s obj remote rnd s' :
  Forall numbered (esp_Members s) -> (forall k, rnd k <> 0) ->
  or_str (key (vl_OtherConfig obj) "local_address") (esp_Address s) <> ""%string ->
  (ms ← put_member (link_member obj 0 remote) (esp_Members s); esp_Correct L G (set_members s ms) rnd) = Ret s' ->
  length (esp_Members s') = S (length (esp_Members s)) /\ Forall numbered (esp_Members s').
Proof.
  intros Hn Hz Ha H. unfold put_member in H. rewrite replace_none in H by done. cbn [mbind go_bind] in H.
  unfold esp_Correct in H. cbn [esp_Members esp_Name esp_Address esp_State set_members] in H.
  apply go_bind_ret in H as (ms & Hm & [= <-]). simpl.
  rewrite (members_same L G _ s) in Hm by done. apply members_numbered in Hm as [Hl Hn']; [|done|].
  - rewrite Hl, length_app. simpl. split; [lia|done].
  - apply Forall_app. split.
    + eapply Forall_impl; [exact Hn|]. intros m (m0 & -> & Hm0) m1 [= <-]. by left.
    + constructor; [|done]. intros m0 [= <-]. by right.
Qed.

(** ** Examples *)

Definition demo_end (spi : Z) (local remote : bytes) (addr peer : string) : ESPMember :=
  {| mem_Name := "spi10"; mem_Address := addr; mem_Peer := peer; mem_Spi := spi;
     mem_State := {| Local := ""; LocalIp := local; Remote := ""; RemotePort := UDPPort; RemoteIp := remote;
                     Encap := "udp"; Auth := "k"; Crypto := "c" |};
     mem_Policies := [Some {| pol_Source := ""; pol_Dest := "10.2.0.0/16" |}; None] |}.
Definition demo_west : ESPMember := demo_end 10 [1; 1; 1; 1] [2; 2; 2; 2] "10.1.0.1/32" "10.2.0.1/32".
Definition demo_east : ESPMember := demo_end 10 [2; 2; 2; 2] [1; 1; 1; 1] "10.2.0.1/32" "10.1.0.1/32".
Definition demo_net : IPNet := {| ipn_IP := [10; 1; 0; 0]; ipn_Mask := [255; 255; 0; 0] |}.
Definition demo_net2 : IPNet := {| ipn_IP := [10; 2; 0; 0]; ipn_Mask := [255; 255; 0; 0] |}.

Lemma tunnel_ends_agree_witness :
  mirrored demo_west demo_east /\ member_states demo_east = reverse (member_states demo_west) /\
  length (member_states demo_west) = 2%nat.
Proof.
  assert (H : mirrored demo_west demo_east) by (vm_compute; repeat split).
  split; [exact H|]. split; [exact (proj1 (tunnel_ends_agree _ _ demo_net demo_net2 H))|vm_compute; reflexivity].
Defined.

Definition demo_worker : EspWorker :=
  {| ew_name := "sec"; ew_uuid := ""; ew_states := member_states demo_east; ew_policies := [];
     ew_spec := Some {| esp_Name := "sec"; esp_Address := ""; esp_State := demo_state "";
                        esp_Members := [Some demo_west] |} |}.

Lemma reload_exact_witness :
  match esp_Reload (fun _ => true) (fun _ => true) (fun _ _ => true) demo_worker no_tables with
  | Panic => False
  | Ret (w', _, rs) =>
      ew_states w' = member_states demo_west /\ length (ew_policies w') = 3%nat /\ covered w' /\
      take 2 rs = map StateDel (member_states demo_east)
  end /\ esp_Reload (fun _ => true) (fun _ => true) (fun _ _ => true) (set_spec demo_worker None) no_tables = Panic.
Proof.
  split; [|by apply (proj1 (reload_exact _ _ _ _ _))].
  destruct (esp_Reload (fun _ => true) (fun _ => true) (fun _ _ => true) demo_worker no_tables) as [[[w' t'] rs]|] eqn:E;
    [|by vm_compute in E].
  destruct (proj2 (reload_exact _ _ _ _ _) _ _ _ E) as (s & ds & Hs & Hst & Hpo & Hcov & Hrs & _).
  injection Hs as <-. rewrite Hst, Hpo. split; [vm_compute; reflexivity|]. split; [vm_compute; reflexivity|].
  split; [exact Hcov|]. rewrite Hrs. vm_compute. reflexivity.
Defined.

Example esp_examples :
  GetAddrPort "1.2.3.4:4600" = ("1.2.3.4"%string, 4600) /\ GetAddrPort "host" = ("host"%string, 0) /\
  link_end {| vl_Network := "sec"; vl_Connection := "udp:1.2.3.4:4500"; vl_Device := "spi12"; vl_OtherConfig := ∅;
              vl_Authentication := ∅; vl_Status := ∅ |} = Ret (Some (12, ("1.2.3.4"%string, 4500))) /\
  link_end {| vl_Network := "sec"; vl_Connection := "udp:1.2.3.4"; vl_Device := "d1"; vl_OtherConfig := ∅;
              vl_Authentication := ∅; vl_Status := ∅ |} = Ret (Some (0, ("1.2.3.4"%string, 0))) /\
  link_end {| vl_Network := "sec"; vl_Connection := "tcp"; vl_Device := "d1"; vl_OtherConfig := ∅;
              vl_Authentication := ∅; vl_Status := ∅ |} = Ret None /\
  row_ID 10 "a" "b" = "10-a-b"%string.
Proof. vm_compute. repeat split. Qed.
