(* ===== verification/Fabric.v ===== *)
(** * VxLAN and fabric networks (pkg/olsw/vxlan.go, fabric.go)

    A fabric worker programs an Open vSwitch bridge: a table of flows that learns
    addresses, sends known destinations to one port and floods the others to tunnels,
    borders and the patch port of a network.  Requests of Open vSwitch and of the kernel
    are recorded in order; port numbers and failures are the environment's.  What a
    table of flows does to a packet is OpenFlow's: a parameter of the theorems. *)

From S2P Require Import Prelude GoStd Utils FireWall Config OpenLAN.

Local Open Scope Z_scope.

(** ** VxLAN workers *)

Module VxLAN.

Inductive request :=
| LinkAdd (m : VxLANMember)
| LinkSetUp (name : string)
| LinkSetMaster (name bridge : string)
| LinkDel (name : string).

Definition UpBr (cfg : Bridge) : list brcall :=
  [BrOpen (br_Address cfg); BrStp (String.eqb (br_Stp cfg) "on"); BrDelay (br_Delay cfg); BrCallIptables 1].

Section kernel.
(** Whether a device is there, and whether adding one succeeds. *)
Context (has : string -> bool) (link_ok : string -> bool).

Definition UpVxLAN (bridge : option Bridge) (cfg : VxLANMember) : list request :=
  let up := LinkSetUp (vx_Name cfg) ::
            match bridge with Some br => [LinkSetMaster (vx_Name cfg) (br_Name br)] | None => [] end in
  if has (vx_Name cfg) then up
  else LinkAdd cfg :: if link_ok (vx_Name cfg) then up else [].
Definition DownVxLAN (cfg : VxLANMember) : list request :=
  if has (vx_Name cfg) then [LinkDel (vx_Name cfg)] else [].

Fixpoint each (f : VxLANMember -> list request) (ms : list (option VxLANMember)) : go (list request) :=
  match ms with
  | [] => Ret []
  | None :: _ => Panic
  | Some m :: ms => rs ← each f ms; Ret (f m ++ rs)
  end.
Definition spec_of (c : Network) : option VxLANSpecifies :=
  match net_Specifies c with Some (SpecVxLAN s) => Some s | _ => None end.
Definition Initialize (c : Network) : list brcall :=
  match spec_of c, net_Bridge c with Some _, Some br => UpBr br | _, _ => [] end.
Definition Start (c : Network) : go (list request) :=
  match spec_of c with None => Ret [] | Some s => each (UpVxLAN (net_Bridge c)) (vxs_Members s) end.
Definition Stop (c : Network) : go (list request) :=
  match spec_of c with None => Ret [] | Some s => each DownVxLAN (vxs_Members s) end.
End kernel.

End VxLAN.

(** ** Flows *)

Definition TLsToTun : Z := 2.
Definition TTunToLs : Z := 4.
Definition TSourceLearn : Z := 10.
Definition TUcastToTun : Z := 20.
Definition TFloodToTun : Z := 30.
Definition TFloodToBor : Z := 31.
Definition TFloodLoop : Z := 32.
Definition FFromLs : Z := 2.
Definition FFromTun : Z := 4.
Definition MatchRegFlag : string := "reg10".
Definition NxmRegFlag : string := "NXM_NX_REG10[0..31]".
Definition NxmRegEthDst : string := "NXM_OF_ETH_DST[]".
Definition NxmRegEthSrc : string := "NXM_OF_ETH_SRC[]".
Definition NxmRegTunId : string := "NXM_NX_TUN_ID[0..31]".
Definition NxmRegInPort : string := "NXM_OF_IN_PORT[]".

(** [libol.Uint2S] *)
Definition Uint2S (v : Z) : string := FormatInt v.

(** A match on a field with a value, as text. *)
Abbreviation fmatch := (string * string)%type (only parsing).
Record LearnedFlow := {
  lf_Table : Z; lf_Matches : list fmatch; lf_Priority : Z; lf_HardTimeout : Z; lf_Output : string
}.
Inductive action :=
| Drop
| Load (value field : string)
| Resubmit (port table : Z)
| Output (port : Z)
| Learn (f : LearnedFlow).
(** A field that is not given is 0 or empty. *)
Record Flow := {
  fl_Table : Z; fl_Priority : Z; fl_InPort : Z; fl_Matches : list fmatch; fl_Actions : list action
}.

#[export] Instance action_eq_dec : EqDecision action.
Proof. intros x y. unfold Decision. repeat decide equality. Defined.

Record InterfaceOptions := {
  io_Type : string; io_BfdEnable : bool; io_RemoteIP : string; io_Key : string; io_DstPort : Z; io_DfDefault : string
}.
Record OvsPort := { op_name : string; op_portId : Z; op_options : option InterfaceOptions }.
Record OvsNetwork := { on_bridge : string; on_vni : Z; on_patch : OvsPort }.

Inductive request :=
| AddBridge
| SetFailMode (mode : string)
| AddFlow (f : Flow)
| DelFlows
| AddPort (name : string)
| SetInterface (name : string) (o : InterfaceOptions)
| DeletePort (name : string)
| VethAdd (name peer : string)
| VethDel (name peer : string)
| LinkSetUp (name : string)
| LinuxBridge (name addr slave : string)      (* opened, with the slave, [CallIptables(1)] *)
| CloseBridge (name : string)
| VlanAdd (name : string) (parent vlan : Z)
| VlanDel (name : string)
| BridgePort (bridge port : string).

Record FabricWorker := {
  fw_name : string; fw_spec : option FabricSpecifies; fw_ovs : string;
  fw_tunnels : gmap string OvsPort; fw_borders : gmap string OvsPort; fw_networks : gmap Z OvsNetwork;
  fw_bridges : gset string; fw_requests : list request
}.
(** A network without a bridge panics. *)
Definition NewFabricWorker (c : Network) : go FabricWorker :=
  match net_Bridge c with
  | None => Panic
  | Some br =>
      Ret {| fw_name := net_Name c; fw_spec := match net_Specifies c with Some (SpecFabric s) => Some s | _ => None end;
             fw_ovs := br_Name br; fw_tunnels := ∅; fw_borders := ∅; fw_networks := ∅; fw_bridges := ∅;
             fw_requests := [] |}
  end.
Definition ask (w : FabricWorker) (rs : list request) : FabricWorker :=
  {| fw_name := fw_name w; fw_spec := fw_spec w; fw_ovs := fw_ovs w; fw_tunnels := fw_tunnels w;
     fw_borders := fw_borders w; fw_networks := fw_networks w; fw_bridges := fw_bridges w;
     fw_requests := fw_requests w ++ rs |}.
Definition set_ports (w : FabricWorker) (t b : gmap string OvsPort) : FabricWorker :=
  {| fw_name := fw_name w; fw_spec := fw_spec w; fw_ovs := fw_ovs w; fw_tunnels := t; fw_borders := b;
     fw_networks := fw_networks w; fw_bridges := fw_bridges w; fw_requests := fw_requests w |}.
Definition set_network (w : FabricWorker) (vni : Z) (n : OvsNetwork) : FabricWorker :=
  {| fw_name := fw_name w; fw_spec := fw_spec w; fw_ovs := fw_ovs w; fw_tunnels := fw_tunnels w;
     fw_borders := fw_borders w; fw_networks := <[vni := n]> (fw_networks w);
     fw_bridges := {[on_bridge n]} ∪ fw_bridges w; fw_requests := fw_requests w |}.

Definition addLearning : Flow :=
  {| fl_Table := TSourceLearn; fl_Priority := 0; fl_InPort := 0; fl_Matches := [];
     fl_Actions :=
       [Learn {| lf_Table := TUcastToTun;
                 lf_Matches := [(NxmRegTunId, NxmRegTunId); (NxmRegEthDst, NxmRegEthSrc)];
                 lf_Priority := 1; lf_HardTimeout := 300; lf_Output := NxmRegInPort |};
        Resubmit 0 TUcastToTun] |}.
Definition plain (table priority : Z) (acts : list action) : Flow :=
  {| fl_Table := table; fl_Priority := priority; fl_InPort := 0; fl_Matches := []; fl_Actions := acts |}.
Definition upTables : list Flow :=
  [plain 0 0 [Drop];
   plain TLsToTun 1 [Load (Uint2S FFromLs) NxmRegFlag; Resubmit 0 TSourceLearn];
   plain TTunToLs 1 [Load (Uint2S FFromTun) NxmRegFlag; Resubmit 0 TSourceLearn];
   addLearning;
   plain TUcastToTun 0 [Resubmit 0 TFloodToTun];
   plain TFloodToTun 0 [Drop];
   plain TFloodToBor 0 [Drop]].
(** [Initialize]; nothing more is asked when the bridge cannot be made. *)
Definition fabric_Initialize (ok : bool) (w : FabricWorker) : FabricWorker :=
  if ok then ask w (AddBridge :: SetFailMode "secure" :: map AddFlow upTables) else ask w [AddBridge].

(** [vni2peer]: the port of the Linux bridge and that of the tunnel bridge. *)
Definition vni2peer (vni : Z) : string * string := (("vt-" +:+ pad8 vni)%string, ("vb-" +:+ pad8 vni)%string).

Definition Addr2Port (addr pre : string) : go string :=
  IfName (pre +:+ String.concat "" (Split addr char_dot))%string.

Definition network_flows (vni patchPort : Z) : list Flow :=
  [{| fl_Table := 0; fl_Priority := 1; fl_InPort := patchPort; fl_Matches := [];
      fl_Actions := [Load (Uint2S vni) NxmRegTunId; Resubmit 0 TLsToTun] |};
   {| fl_Table := TFloodToTun; fl_Priority := 2; fl_InPort := 0;
      fl_Matches := [(NxmRegTunId, Uint2S vni); (MatchRegFlag, Uint2S FFromTun)];
      fl_Actions := [Output patchPort; Resubmit 0 TFloodToBor] |};
   {| fl_Table := TFloodLoop; fl_Priority := 2; fl_InPort := 0;
      fl_Matches := [(NxmRegTunId, Uint2S vni); (MatchRegFlag, Uint2S FFromLs)];
      fl_Actions := [Output patchPort] |}].

Section environment.
(** The number Open vSwitch gives a port, if the port is there ([dumpPort]); whether adding
    a port, and then setting its options, succeeds; the kernel's index of a device; whether a
    VLAN device can be added; the order in which a map of ports is iterated. *)
Context (dump : string -> option Z) (add_ok set_ok : string -> bool) (index : string -> option Z)
        (vlan_ok : string -> bool) (order : gmap string OvsPort -> list (string * OvsPort)).

(** [UpLink]: failures on the way are logged and passed over. *)
Definition UpLink (w : FabricWorker) (bridge : string) (vni : Z) (addr : string) : FabricWorker * OvsNetwork :=
  let '(brPort, tunPort) := vni2peer vni in
  (ask w [VethAdd tunPort brPort; LinkSetUp tunPort; LinuxBridge bridge addr brPort; AddPort tunPort],
   {| on_bridge := bridge; on_vni := vni;
      on_patch := {| op_name := tunPort; op_portId := default 0 (dump tunPort); op_options := None |} |}).
Definition AddNetwork (w : FabricWorker) (cfg : FabricNetwork) : FabricWorker :=
  let '(w, net) := UpLink w (fn_Bridge cfg) (fn_Vni cfg) (fn_Address cfg) in
  ask (set_network w (fn_Vni cfg) net) (map AddFlow (network_flows (fn_Vni cfg) (op_portId (on_patch net)))).

Definition vlan_name (output : string) (vlan : Z) : string := (output +:+ "." +:+ FormatInt vlan)%string.
Definition AddOutput (w : FabricWorker) (bridge : string) (o : FabricOutput) : FabricWorker :=
  match index (fo_Interface o) with
  | None => w
  | Some parent =>
      let name := vlan_name (fo_Interface o) (fo_Vlan o) in
      ask w ([LinkSetUp (fo_Interface o); VlanAdd name parent (fo_Vlan o)] ++
             if vlan_ok name then [BridgePort bridge name] else [])
  end.

Definition outputs (ports : gmap string OvsPort) : list action := map (fun e => Output (op_portId e.2)) (order ports).
Definition flood2Tunnel (w : FabricWorker) : FabricWorker :=
  ask w [AddFlow {| fl_Table := TFloodToTun; fl_Priority := 1; fl_InPort := 0;
                    fl_Matches := [(MatchRegFlag, Uint2S FFromLs)];
                    fl_Actions := outputs (fw_tunnels w) ++ [Resubmit 0 TFloodToBor] |}].
Definition flood2Border (w : FabricWorker) : FabricWorker :=
  let acts := outputs (fw_borders w) in
  ask w [AddFlow {| fl_Table := TFloodToBor; fl_Priority := 1; fl_InPort := 0;
                    fl_Matches := [(MatchRegFlag, Uint2S FFromTun)]; fl_Actions := acts |};
         AddFlow {| fl_Table := TFloodToBor; fl_Priority := 1; fl_InPort := 0;
                    fl_Matches := [(MatchRegFlag, Uint2S FFromLs)];
                    fl_Actions := acts ++ [Resubmit 0 TFloodLoop] |}].

Definition tunnelType (s : FabricSpecifies) : string := if String.eqb (fab_Driver s) "stt" then "stt" else "vxlan".
Definition from_port (port table : Z) : Flow :=
  {| fl_Table := 0; fl_Priority := 1; fl_InPort := port; fl_Matches := []; fl_Actions := [Resubmit 0 table] |}.
Definition AddTunnel (s : FabricSpecifies) (w : FabricWorker) (cfg : FabricTunnel) : go FabricWorker :=
  name ← Addr2Port (ft_Remote cfg) "vx-";
  let options := {| io_Type := tunnelType s; io_BfdEnable := true; io_RemoteIP := ft_Remote cfg; io_Key := "flow";
                    io_DstPort := ft_DstPort cfg; io_DfDefault := if fab_Fragment s then "false" else "true" |} in
  let w := ask w (AddPort name :: if add_ok name then [SetInterface name options] else []) in
  Ret (if negb (add_ok name && set_ok name) then w
       else match dump name with
            | None => w
            | Some id =>
                let port := {| op_name := name; op_portId := id; op_options := Some options |} in
                if String.eqb (ft_Mode cfg) "border" then
                  let w := ask w [AddFlow (from_port id TLsToTun)] in
                  flood2Border (set_ports w (fw_tunnels w) (<[name := port]> (fw_borders w)))
                else
                  let w := ask w [AddFlow (from_port id TTunToLs)] in
                  flood2Tunnel (set_ports w (<[name := port]> (fw_tunnels w)) (fw_borders w))
            end).

(** The rules [Start] adds to the firewall for a network. *)
Definition bridge_mss (bridge : string) (mss : Z) : IpRule :=
  {| Table := TMangle; Chain := OLCPost; Source := ""; ToSource := ""; Dest := ""; ToDest := "";
     Proto := "tcp"; DstPort := ""; SrcPort := ""; Input := ""; FireWall.Output := bridge; Comment := "";
     Jump := "TCPMSS"; SetMss := mss; Order := ""; Match := "tcp"; TcpFlag := ["SYN,RST"; "SYN"]%string |}.
Definition bridge_fwd (bridge : string) : IpRule :=
  {| Table := TFilter; Chain := OLCForward; Source := ""; ToSource := ""; Dest := ""; ToDest := "";
     Proto := ""; DstPort := ""; SrcPort := ""; Input := bridge; FireWall.Output := bridge; Comment := "";
     Jump := ""; SetMss := 0; Order := ""; Match := ""; TcpFlag := [] |}.
Fixpoint start_tunnels (s : FabricSpecifies) (w : FabricWorker) (ts : list (option FabricTunnel)) : go FabricWorker :=
  match ts with
  | [] => Ret w
  | None :: _ => Panic
  | Some t :: ts => w ← AddTunnel s w t; start_tunnels s w ts
  end.
Fixpoint start_networks (s : FabricSpecifies) (wf : FabricWorker * FireWall) (ns : list (option FabricNetwork))
    : go (FabricWorker * FireWall) :=
  match ns with
  | [] => Ret wf
  | None :: _ => Panic
  | Some n :: ns =>
      let '(w, f) := wf in
      let w := AddNetwork w n in
      let f := if 0 <? fab_Mss s then AddRule f (bridge_mss (fn_Bridge n) (fab_Mss s)) else f in
      let f := AddRule f (bridge_fwd (fn_Bridge n)) in
      start_networks s (foldl (fun w o => AddOutput w (fn_Bridge n) o) w (fn_Outputs n), f) ns
  end.
Definition fabric_Start (w : FabricWorker) (f : FireWall) : go (FabricWorker * FireWall) :=
  match fw_spec w with
  | None => Panic
  | Some s => w ← start_tunnels s w (fab_Tunnels s); start_networks s (w, f) (fab_Networks s)
  end.

Definition DelTunnel (w : FabricWorker) (remote : string) : go FabricWorker :=
  name ← Addr2Port remote "vx-"; Ret (ask w [DeletePort name]).
Definition DelOutput (w : FabricWorker) (o : FabricOutput) : FabricWorker :=
  ask w [VlanDel (vlan_name (fo_Interface o) (fo_Vlan o))].
Definition DelNetwork (w : FabricWorker) (vni : Z) : FabricWorker :=
  let '(brPort, tunPort) := vni2peer vni in ask w [DeletePort tunPort; VethDel tunPort brPort].
Fixpoint stop_tunnels (w : FabricWorker) (ts : list (option FabricTunnel)) : go FabricWorker :=
  match ts with
  | [] => Ret w
  | None :: _ => Panic
  | Some t :: ts => w ← DelTunnel w (ft_Remote t); stop_tunnels w ts
  end.
Fixpoint stop_networks (w : FabricWorker) (ns : list (option FabricNetwork)) : go FabricWorker :=
  match ns with
  | [] => Ret w
  | None :: _ => Panic
  | Some n :: ns => stop_networks (DelNetwork (foldl DelOutput w (fn_Outputs n)) (fn_Vni n)) ns
  end.
(** [Stop] closes the Linux bridges in some order. *)
Definition fabric_Stop (w : FabricWorker) (bridges : list string) : go FabricWorker :=
  match fw_spec w with
  | None => Panic
  | Some s =>
      w ← stop_tunnels (ask w [DelFlows]) (fab_Tunnels s);
      w ← stop_networks w (fab_Networks s);
      Ret (ask w (map CloseBridge bridges))
  end.
End environment.

(** * Properties *)

(** ** What the table of flows holds

    Adding a flow replaces the one with the same table, priority and match. *)
Definition slot : Type := Z * Z * Z * list fmatch.
Definition slot_of (f : Flow) : slot := (fl_Table f, fl_Priority f, fl_InPort f, fl_Matches f).
Abbreviation flows := (gmap slot (list action)).
Definition apply_flow (ft : flows) (r : request) : flows :=
  match r with
  | AddFlow f => <[slot_of f := fl_Actions f]> ft
  | DelFlows => ∅
  | _ => ft
  end.
Definition flow_table (rs : list request) : flows := foldl apply_flow ∅ rs.

(** A packet on its way: where it came in, its tunnel number, the flag of the pipeline, and
    the port that was learnt for its destination in a tunnel, if any. *)
Record packet := { pk_in : Z; pk_tun : Z; pk_flag : Z; pk_known : Z -> option Z }.
Definition match_field (p : packet) (m : fmatch) : bool :=
  if String.eqb m.1 MatchRegFlag then String.eqb m.2 (Uint2S (pk_flag p))
  else if String.eqb m.1 NxmRegTunId then String.eqb m.2 (Uint2S (pk_tun p))
  else false.
Definition match_slot (p : packet) (s : slot) : bool :=
  let '(_, _, inport, ms) := s in ((inport =? 0) || (inport =? pk_in p)) && forallb (match_field p) ms.
Definition table_of (s : slot) : Z := s.1.1.1.
Definition prio_of (s : slot) : Z := s.1.1.2.

(** A packet is never sent back where it came from. *)
Definition out (p : packet) (port : Z) : list Z := if port =? pk_in p then [] else [port].
Definition load (p : packet) (value field : string) : packet :=
  let v := (Atoi value).1 in
  if String.eqb field NxmRegFlag then {| pk_in := pk_in p; pk_tun := pk_tun p; pk_flag := v; pk_known := pk_known p |}
  else if String.eqb field NxmRegTunId then {| pk_in := pk_in p; pk_tun := v; pk_flag := pk_flag p; pk_known := pk_known p |}
  else p.
(** The ports that actions send to, given what looking up in a table does. *)
Fixpoint exec (run : Z -> packet -> list Z) (p : packet) (acts : list action) : list Z :=
  match acts with
  | [] => []
  | Drop :: _ => []
  | Load v f :: acts => exec run (load p v f) acts
  | Resubmit _ t :: acts => run t p ++ exec run p acts
  | Output port :: acts => out p port ++ exec run p acts
  | Learn _ :: acts => exec run p acts
  end.

(** Flows that only go on to later tables. *)
Definition forward (ft : flows) : Prop :=
  map_Forall (fun s acts => Forall (fun a => match a with Resubmit _ t => table_of s < t <= 255 | _ => True end) acts) ft.
(** The flow of highest priority that matches. *)
Definition selected (ft : flows) (t : Z) (p : packet) (s : slot) : Prop :=
  table_of s = t /\ match_slot p s = true /\
  forall s' acts, ft !! s' = Some acts -> table_of s' = t -> match_slot p s' = true -> s' = s \/ prio_of s' < prio_of s.

(** OpenFlow, as far as the pipeline relies on it: the flow of highest priority decides, a
    packet that no flow matches is dropped, and a destination that was learnt is sent to
    its port before flows of priority 0. *)
Record OpenFlow (run : flows -> Z -> packet -> list Z) : Prop := {
  of_hit : forall ft t p s acts, forward ft -> 0 <= t <= 255 -> ft !! s = Some acts -> selected ft t p s ->
    (t = TUcastToTun -> pk_known p (pk_tun p) = None) -> run ft t p = exec (run ft) p acts;
  of_miss : forall ft t p, forward ft -> 0 <= t <= 255 ->
    (forall s acts, ft !! s = Some acts -> table_of s = t -> match_slot p s = false) ->
    (t = TUcastToTun -> pk_known p (pk_tun p) = None) -> run ft t p = [];
  of_known : forall ft p port, forward ft -> pk_known p (pk_tun p) = Some port ->
    (forall s acts, ft !! s = Some acts -> table_of s = TUcastToTun -> match_slot p s = true -> prio_of s < 1) ->
    run ft TUcastToTun p = out p port
}.

(** ** The pipeline of a worker *)

Definition from_ls : fmatch := (MatchRegFlag, Uint2S FFromLs).
Definition from_tun : fmatch := (MatchRegFlag, Uint2S FFromTun).
Definition in_net (vni : Z) : fmatch := (NxmRegTunId, Uint2S vni).
Definition slot_flood : slot := (TFloodToTun, 1, 0, [from_ls]).
Definition slot_bor_tun : slot := (TFloodToBor, 1, 0, [from_tun]).
Definition slot_bor_ls : slot := (TFloodToBor, 1, 0, [from_ls]).
Definition slot_net (vni : Z) : slot := (TFloodToTun, 2, 0, [in_net vni; from_tun]).
Definition slot_loop (vni : Z) : slot := (TFloodLoop, 2, 0, [in_net vni; from_ls]).
Definition slot_in (id : Z) : slot := (0, 1, id, []).

(** The slots a worker uses besides those of [upTables]. *)
Inductive own_slot : slot -> Prop :=
| os_flood : own_slot slot_flood
| os_bor_tun : own_slot slot_bor_tun
| os_bor_ls : own_slot slot_bor_ls
| os_net vni : own_slot (slot_net vni)
| os_loop vni : own_slot (slot_loop vni)
| os_in id : id <> 0 -> own_slot (slot_in id).

Section pipeline.
Context (order : gmap string OvsPort -> list (string * OvsPort)).
Local Abbreviation outputs := (outputs order).

Definition when {A} (m : gmap string OvsPort) (a : A) : option A := if decide (m = ∅) then None else Some a.

(** The table of flows of a worker whose tunnels, borders and networks are as recorded;
    [ins] are the ports packets come in by, with what table 0 does to them. *)
Record programmed (w : FabricWorker) (ins : gmap Z (list action)) : Prop := {
  pg_up : Forall (fun f => flow_table (fw_requests w) !! slot_of f = Some (fl_Actions f)) upTables;
  pg_slots : forall s a, flow_table (fw_requests w) !! s = Some a -> s ∈ map slot_of upTables \/ own_slot s;
  pg_tun : flow_table (fw_requests w) !! slot_flood =
             when (fw_tunnels w) (outputs (fw_tunnels w) ++ [Resubmit 0 TFloodToBor]);
  pg_bor_tun : flow_table (fw_requests w) !! slot_bor_tun = when (fw_borders w) (outputs (fw_borders w));
  pg_bor_ls : flow_table (fw_requests w) !! slot_bor_ls =
             when (fw_borders w) (outputs (fw_borders w) ++ [Resubmit 0 TFloodLoop]);
  pg_net : forall vni, flow_table (fw_requests w) !! slot_net vni =
             (fun n => [Output (op_portId (on_patch n)); Resubmit 0 TFloodToBor]) <$> fw_networks w !! vni;
  pg_loop : forall vni, flow_table (fw_requests w) !! slot_loop vni =
             (fun n => [Output (op_portId (on_patch n))]) <$> fw_networks w !! vni;
  pg_in : forall id, id <> 0 -> flow_table (fw_requests w) !! slot_in id = ins !! id
}.

Lemma flow_table_ask w rs : flow_table (fw_requests (ask w rs)) = foldl apply_flow (flow_table (fw_requests w)) rs.
Proof. unfold flow_table. simpl. by rewrite foldl_app. Qed.

Lemma Uint2S_inj a b : Uint2S a = Uint2S b -> a = b.
Proof. apply (inj pretty). Qed.
Lemma slot_net_inj a b : slot_net a = slot_net b -> a = b.
Proof. unfold slot_net, in_net. intros [= H]. by apply Uint2S_inj. Qed.
Lemma slot_loop_inj a b : slot_loop a = slot_loop b -> a = b.
Proof. unfold slot_loop, in_net. intros [= H]. by apply Uint2S_inj. Qed.

Lemma up_not_own s : s ∈ map slot_of upTables -> ~ own_slot s.
Proof.
  intros H. unfold upTables in H. cbn [map] in H.
  repeat (apply elem_of_cons in H as [-> |H]; [by inversion 1|]). by apply not_elem_of_nil in H.
Qed.
(** One more flow of the worker's own. *)
Lemma add_own (ft : flows) s acts :
  own_slot s ->
  Forall (fun f => ft !! slot_of f = Some (fl_Actions f)) upTables ->
  (forall s a, ft !! s = Some a -> s ∈ map slot_of upTables \/ own_slot s) ->
  Forall (fun f => <[s := acts]> ft !! slot_of f = Some (fl_Actions f)) upTables /\
  (forall s' a, <[s := acts]> ft !! s' = Some a -> s' ∈ map slot_of upTables \/ own_slot s').
Proof.
  intros Ho Hu Hs. split.
  - rewrite Forall_forall in Hu |- *. intros f Hf. rewrite lookup_insert_ne; [by apply Hu|].
    intros ->. apply (up_not_own (slot_of f)); [by apply list_elem_of_fmap_2|done].
  - intros s' a [[<- _]|[_ H]]%lookup_insert_Some; [by right|by eapply Hs].
Qed.

Lemma initialized_programmed w :
  fw_requests w = [] -> fw_tunnels w = ∅ -> fw_borders w = ∅ -> fw_networks w = ∅ ->
  programmed (fabric_Initialize true w) ∅.
Proof.
  intros Hr Ht Hb Hn. unfold fabric_Initialize.
  assert (E : flow_table (fw_requests (ask w (AddBridge :: SetFailMode "secure" :: map AddFlow upTables)))
              = foldl (fun ft f => <[slot_of f := fl_Actions f]> ft) ∅ upTables).
  { rewrite flow_table_ask, Hr. cbn [foldl apply_flow flow_table]. by rewrite foldl_fmap. }
  assert (Hown : forall s, own_slot s -> foldl (fun ft f => <[slot_of f := fl_Actions f]> ft) (∅ : flows) upTables !! s = None).
  { intros s Ho. unfold upTables. cbn [foldl].
    repeat (rewrite lookup_insert_ne; [|intros <-; inversion Ho]). done. }
  split; rewrite ?E; cbn [fw_tunnels fw_borders fw_networks ask]; rewrite ?Ht, ?Hb, ?Hn; unfold when;
    try rewrite decide_True by done; try (apply Hown; constructor).
  - vm_compute. repeat constructor.
  - intros s a Hs. left. destruct (decide (s ∈ map slot_of upTables)) as [|Hni]; [done|]. exfalso.
    unfold upTables in Hs, Hni. cbn [foldl map] in Hs, Hni. rewrite !not_elem_of_cons in Hni.
    destruct_and! Hni. rewrite !lookup_insert_ne in Hs by congruence. done.
  - intros vni. rewrite lookup_empty. apply Hown. constructor.
  - intros vni. rewrite lookup_empty. apply Hown. constructor.
  - intros id Hid. rewrite lookup_empty. apply Hown. by constructor.
Qed.

Lemma when_insert {A} (m : gmap string OvsPort) k v (a : A) : when (<[k := v]> m) a = Some a.
Proof. unfold when. rewrite decide_False; [done|]. apply insert_non_empty. Qed.
Lemma slot_in_inj a b : slot_in a = slot_in b -> a = b.
Proof. by intros [= H]. Qed.

Ltac other_slot := rewrite lookup_insert_ne by discriminate.

(** Requests that are not about flows. *)
Definition quiet (rs : list request) : Prop :=
  Forall (fun r => match r with AddFlow _ | DelFlows => False | _ => True end) rs.
Lemma quiet_flows ft rs : quiet rs -> foldl apply_flow ft rs = ft.
Proof.
  intros H. revert ft. induction H as [|r rs Hr _ IH]; intros ft; [done|]. simpl. rewrite IH. by destruct r.
Qed.
Lemma quiet_programmed w ins rs : quiet rs -> programmed w ins -> programmed (ask w rs) ins.
Proof.
  intros Hq [Hup Hsl Ht Hbt Hbl Hn Hl Hi].
  split; rewrite flow_table_ask, (quiet_flows _ _ Hq); assumption.
Qed.

(** A tunnel: its port in table 0 and the new flooding of table 30. *)
Lemma programmed_tunnel w ins name port pre :
  programmed w ins -> op_portId port <> 0 -> quiet pre ->
  programmed
    (flood2Tunnel order (set_ports (ask (ask w pre) [AddFlow (from_port (op_portId port) TTunToLs)])
       (<[name := port]> (fw_tunnels w)) (fw_borders w)))
    (<[op_portId port := [Resubmit 0 TTunToLs]]> ins).
Proof.
  intros [Hup Hsl Ht Hbt Hbl Hn Hl Hi] Hid Hpre.
  unfold flood2Tunnel. cbn [fw_tunnels set_ports].
  assert (E : flow_table (fw_requests (ask (set_ports (ask (ask w pre) [AddFlow (from_port (op_portId port) TTunToLs)])
      (<[name := port]> (fw_tunnels w)) (fw_borders w)) [AddFlow {| fl_Table := TFloodToTun; fl_Priority := 1;
        fl_InPort := 0; fl_Matches := [from_ls];
        fl_Actions := outputs (<[name := port]> (fw_tunnels w)) ++ [Resubmit 0 TFloodToBor] |}])) =
    <[slot_flood := outputs (<[name := port]> (fw_tunnels w)) ++ [Resubmit 0 TFloodToBor]]>
      (<[slot_in (op_portId port) := [Resubmit 0 TTunToLs]]> (flow_table (fw_requests w)))).
  { rewrite flow_table_ask. change (fw_requests (set_ports ?x _ _)) with (fw_requests x).
    rewrite flow_table_ask, flow_table_ask, (quiet_flows _ _ Hpre). done. }
  destruct (add_own _ (slot_in (op_portId port)) [Resubmit 0 TTunToLs] (os_in _ Hid) Hup Hsl) as [Hup1 Hsl1].
  destruct (add_own _ slot_flood (outputs (<[name := port]> (fw_tunnels w)) ++ [Resubmit 0 TFloodToBor])
    os_flood Hup1 Hsl1) as [Hup2 Hsl2].
  split; cbn [from_ls] in E; change (MatchRegFlag, Uint2S FFromLs) with from_ls; rewrite E;
    cbn [fw_tunnels fw_borders fw_networks ask set_ports].
  - exact Hup2.
  - exact Hsl2.
  - by rewrite lookup_insert_eq, when_insert.
  - by do 2 other_slot.
  - by do 2 other_slot.
  - intros vni. by do 2 other_slot.
  - intros vni. by do 2 other_slot.
  - intros id Hid'. other_slot. destruct (decide (id = op_portId port)) as [->|Hne].
    + by rewrite !lookup_insert_eq.
    + rewrite !lookup_insert_ne; [by apply Hi|congruence|]. intros H%slot_in_inj. congruence.
Qed.

(** A border: its port in table 0 and the two floodings of table 31. *)
Lemma programmed_border w ins name port pre :
  programmed w ins -> op_portId port <> 0 -> quiet pre ->
  programmed
    (flood2Border order (set_ports (ask (ask w pre) [AddFlow (from_port (op_portId port) TLsToTun)])
       (fw_tunnels w) (<[name := port]> (fw_borders w))))
    (<[op_portId port := [Resubmit 0 TLsToTun]]> ins).
Proof.
  intros [Hup Hsl Ht Hbt Hbl Hn Hl Hi] Hid Hpre.
  unfold flood2Border. cbn [fw_borders set_ports]. set (bs := <[name := port]> (fw_borders w)).
  match goal with |- programmed ?W _ => assert (E : flow_table (fw_requests W) =
    <[slot_bor_ls := outputs bs ++ [Resubmit 0 TFloodLoop]]> (<[slot_bor_tun := outputs bs]>
      (<[slot_in (op_portId port) := [Resubmit 0 TLsToTun]]> (flow_table (fw_requests w))))) end.
  { rewrite flow_table_ask. change (fw_requests (set_ports ?x _ _)) with (fw_requests x).
    rewrite flow_table_ask, flow_table_ask, (quiet_flows _ _ Hpre). done. }
  destruct (add_own _ (slot_in (op_portId port)) [Resubmit 0 TLsToTun] (os_in _ Hid) Hup Hsl) as [Hup1 Hsl1].
  destruct (add_own _ slot_bor_tun (outputs bs) os_bor_tun Hup1 Hsl1) as [Hup2 Hsl2].
  destruct (add_own _ slot_bor_ls (outputs bs ++ [Resubmit 0 TFloodLoop]) os_bor_ls Hup2 Hsl2) as [Hup3 Hsl3].
  split; rewrite E; cbn [fw_tunnels fw_borders fw_networks ask set_ports].
  - exact Hup3.
  - exact Hsl3.
  - by do 3 other_slot.
  - other_slot. rewrite lookup_insert_eq. symmetry. apply when_insert.
  - rewrite lookup_insert_eq. symmetry. apply when_insert.
  - intros vni. by do 3 other_slot.
  - intros vni. by do 3 other_slot.
  - intros id Hid'. do 2 other_slot. destruct (decide (id = op_portId port)) as [->|Hne].
    + by rewrite !lookup_insert_eq.
    + rewrite !lookup_insert_ne; [by apply Hi|congruence|]. intros H%slot_in_inj. congruence.
Qed.

(** A network: its patch port in table 0, flooding to it in tables 30 and 32. *)
Lemma programmed_network w ins vni n pre :
  programmed w ins -> op_portId (on_patch n) <> 0 -> quiet pre ->
  programmed
    (ask (set_network (ask w pre) vni n) (map AddFlow (network_flows vni (op_portId (on_patch n)))))
    (<[op_portId (on_patch n) := [Load (Uint2S vni) NxmRegTunId; Resubmit 0 TLsToTun]]> ins).
Proof.
  intros [Hup Hsl Ht Hbt Hbl Hn Hl Hi] Hid Hpre. set (id := op_portId (on_patch n)) in *.
  match goal with |- programmed ?W _ => assert (E : flow_table (fw_requests W) =
    <[slot_loop vni := [Output id]]> (<[slot_net vni := [Output id; Resubmit 0 TFloodToBor]]>
      (<[slot_in id := [Load (Uint2S vni) NxmRegTunId; Resubmit 0 TLsToTun]]> (flow_table (fw_requests w))))) end.
  { rewrite flow_table_ask. change (fw_requests (set_network ?x _ _)) with (fw_requests x).
    rewrite flow_table_ask, (quiet_flows _ _ Hpre). done. }
  destruct (add_own _ (slot_in id) [Load (Uint2S vni) NxmRegTunId; Resubmit 0 TLsToTun] (os_in _ Hid) Hup Hsl) as [Hup1 Hsl1].
  destruct (add_own _ (slot_net vni) [Output id; Resubmit 0 TFloodToBor] (os_net vni) Hup1 Hsl1) as [Hup2 Hsl2].
  destruct (add_own _ (slot_loop vni) [Output id] (os_loop vni) Hup2 Hsl2) as [Hup3 Hsl3].
  split; rewrite E; cbn [fw_tunnels fw_borders fw_networks ask set_network].
  - exact Hup3.
  - exact Hsl3.
  - by do 3 other_slot.
  - by do 3 other_slot.
  - by do 3 other_slot.
  - intros v. other_slot. destruct (decide (v = vni)) as [->|Hne]; [by rewrite !lookup_insert_eq|].
    rewrite lookup_insert_ne by (intros H%slot_net_inj; congruence). other_slot.
    by rewrite (lookup_insert_ne (fw_networks w)) by congruence.
  - intros v. destruct (decide (v = vni)) as [->|Hne]; [by rewrite !lookup_insert_eq|].
    rewrite lookup_insert_ne by (intros H%slot_loop_inj; congruence). do 2 other_slot.
    by rewrite (lookup_insert_ne (fw_networks w)) by congruence.
  - intros i Hid'. do 2 other_slot. destruct (decide (i = id)) as [->|Hne].
    + by rewrite !lookup_insert_eq.
    + rewrite !lookup_insert_ne; [by apply Hi|congruence|]. intros H%slot_in_inj. congruence.
Qed.

Definition good_ins (ins : gmap Z (list action)) : Prop :=
  map_Forall (fun _ a => a = [Resubmit 0 TTunToLs] \/ a = [Resubmit 0 TLsToTun] \/
    exists vni, a = [Load (Uint2S vni) NxmRegTunId; Resubmit 0 TLsToTun]) ins.

(** Which of the recorded ports has a number. *)
Definition tunnel_port (w : FabricWorker) (id : Z) : Prop := exists nm pt, fw_tunnels w !! nm = Some pt /\ op_portId pt = id.
Definition border_port (w : FabricWorker) (id : Z) : Prop := exists nm pt, fw_borders w !! nm = Some pt /\ op_portId pt = id.
Definition network_port (w : FabricWorker) (vni id : Z) : Prop :=
  exists n, fw_networks w !! vni = Some n /\ op_portId (on_patch n) = id.

Section start.
Context (dump : string -> option Z) (add_ok set_ok : string -> bool) (index : string -> option Z)
        (vlan_ok : string -> bool).
(** Port numbers are positive. *)
Context (Hdump : forall name id, dump name = Some id -> id <> 0).
Local Abbreviation AddTunnel := (AddTunnel dump add_ok set_ok order).
Local Abbreviation AddNetwork := (AddNetwork dump).

(** The ports packets come in by are the recorded ones, each treated as what it is recorded
    for; a recorded port has the number Open vSwitch gives its name. *)
Record linked (w : FabricWorker) (ins : gmap Z (list action)) : Prop := {
  lk_tun : forall nm pt, fw_tunnels w !! nm = Some pt -> dump nm = Some (op_portId pt) /\ is_Some (ins !! op_portId pt);
  lk_bor : forall nm pt, fw_borders w !! nm = Some pt -> dump nm = Some (op_portId pt) /\ is_Some (ins !! op_portId pt);
  lk_net : forall vni n, fw_networks w !! vni = Some n ->
    dump (vni2peer vni).2 = Some (op_portId (on_patch n)) /\ is_Some (ins !! op_portId (on_patch n));
  lk_ins : forall id a, ins !! id = Some a ->
    a = [Resubmit 0 TTunToLs] /\ tunnel_port w id \/ a = [Resubmit 0 TLsToTun] /\ border_port w id \/
    exists vni, a = [Load (Uint2S vni) NxmRegTunId; Resubmit 0 TLsToTun] /\ network_port w vni id
}.
Lemma linked_good w ins : linked w ins -> good_ins ins.
Proof. intros [_ _ _ H] id a Ha. destruct (H id a Ha) as [[? _]|[[? _]|(vni & ? & _)]]; eauto. Qed.
Lemma linked_ask w ins rs : linked w ins -> linked (ask w rs) ins.
Proof. by intros []. Qed.

Lemma is_Some_insert {A} (ins : gmap Z A) i j a : is_Some (ins !! i) -> is_Some (<[j := a]> ins !! i).
Proof. intros H. destruct (decide (j = i)) as [->|]; [by rewrite lookup_insert_eq|by rewrite lookup_insert_ne]. Qed.

(** A port that is recorded under a name takes the place of one with the same number. *)
Lemma port_insert (m : gmap string OvsPort) name id port i :
  (forall nm pt, m !! nm = Some pt -> dump nm = Some (op_portId pt)) -> dump name = Some id -> op_portId port = id ->
  (exists nm pt, m !! nm = Some pt /\ op_portId pt = i) -> exists nm pt, <[name := port]> m !! nm = Some pt /\ op_portId pt = i.
Proof.
  intros Hm Hd Hp (nm & pt & H & Hi). destruct (decide (name = nm)) as [->|Hne].
  - exists nm, port. rewrite lookup_insert_eq. split; [done|]. specialize (Hm _ _ H). congruence.
  - exists nm, pt. by rewrite lookup_insert_ne.
Qed.

Lemma linked_tunnel w ins name id port w' :
  linked w ins -> dump name = Some id -> op_portId port = id -> fw_tunnels w' = <[name := port]> (fw_tunnels w) ->
  fw_borders w' = fw_borders w -> fw_networks w' = fw_networks w -> linked w' (<[id := [Resubmit 0 TTunToLs]]> ins).
Proof.
  intros [Ht Hb Hn Hi] Hd Hp E1 E2 E3. constructor; rewrite ?E1, ?E2, ?E3.
  - intros nm pt [[<- <-]|[_ H]]%lookup_insert_Some; [by rewrite Hp, lookup_insert_eq|].
    apply Ht in H as [? ?]. split; [done|by apply is_Some_insert].
  - intros nm pt [? ?]%Hb. split; [done|by apply is_Some_insert].
  - intros vni n [? ?]%Hn. split; [done|by apply is_Some_insert].
  - intros i a [[<- <-]|[_ H]]%lookup_insert_Some.
    + left. split; [done|]. exists name, port. rewrite E1. by rewrite lookup_insert_eq.
    + unfold tunnel_port, border_port, network_port. rewrite E1, E2, E3.
      destruct (Hi i a H) as [[? H2]|H2]; [left|by right]. split; [done|].
      eapply port_insert; try done. intros nm pt Hnm. by apply Ht.
Qed.
Lemma linked_border w ins name id port w' :
  linked w ins -> dump name = Some id -> op_portId port = id -> fw_borders w' = <[name := port]> (fw_borders w) ->
  fw_tunnels w' = fw_tunnels w -> fw_networks w' = fw_networks w -> linked w' (<[id := [Resubmit 0 TLsToTun]]> ins).
Proof.
  intros [Ht Hb Hn Hi] Hd Hp E1 E2 E3. constructor; rewrite ?E1, ?E2, ?E3.
  - intros nm pt [? ?]%Ht. split; [done|by apply is_Some_insert].
  - intros nm pt [[<- <-]|[_ H]]%lookup_insert_Some; [by rewrite Hp, lookup_insert_eq|].
    apply Hb in H as [? ?]. split; [done|by apply is_Some_insert].
  - intros vni n [? ?]%Hn. split; [done|by apply is_Some_insert].
  - intros i a [[<- <-]|[_ H]]%lookup_insert_Some.
    + right; left. split; [done|]. exists name, port. rewrite E1. by rewrite lookup_insert_eq.
    + unfold tunnel_port, border_port, network_port. rewrite E1, E2, E3.
      destruct (Hi i a H) as [H2|[[? H2]|H2]]; [by left|right; left|by right; right]. split; [done|].
      eapply port_insert; try done. intros nm pt Hnm. by apply Hb.
Qed.
Lemma linked_network w ins vni id n w' :
  linked w ins -> dump (vni2peer vni).2 = Some id -> op_portId (on_patch n) = id ->
  fw_networks w' = <[vni := n]> (fw_networks w) -> fw_tunnels w' = fw_tunnels w -> fw_borders w' = fw_borders w ->
  linked w' (<[id := [Load (Uint2S vni) NxmRegTunId; Resubmit 0 TLsToTun]]> ins).
Proof.
  intros [Ht Hb Hn Hi] Hd Hp E1 E2 E3. constructor; rewrite ?E1, ?E2, ?E3.
  - intros nm pt [? ?]%Ht. split; [done|by apply is_Some_insert].
  - intros nm pt [? ?]%Hb. split; [done|by apply is_Some_insert].
  - intros v m [[<- <-]|[_ H]]%lookup_insert_Some; [by rewrite Hp, lookup_insert_eq|].
    apply Hn in H as [? ?]. split; [done|by apply is_Some_insert].
  - intros i a [[<- <-]|[_ H]]%lookup_insert_Some.
    + right; right. exists vni. split; [done|]. exists n. rewrite E1. by rewrite lookup_insert_eq.
    + unfold tunnel_port, border_port, network_port. rewrite E1, E2, E3.
      destruct (Hi i a H) as [H2|[H2|(v & Ha & m & Hm & Hid)]]; [by left|by right; left|right; right].
      exists v. split; [done|]. destruct (decide (vni = v)) as [->|Hne].
      * exists n. rewrite lookup_insert_eq. split; [done|]. apply Hn in Hm as [Hm _]. congruence.
      * exists m. by rewrite lookup_insert_ne.
Qed.

(** What is recorded stays, and what was added successfully is recorded. *)
Definition keeps_ports (w w' : FabricWorker) : Prop :=
  (forall nm, is_Some (fw_tunnels w !! nm) -> is_Some (fw_tunnels w' !! nm)) /\
  (forall nm, is_Some (fw_borders w !! nm) -> is_Some (fw_borders w' !! nm)) /\
  (forall v, is_Some (fw_networks w !! v) -> is_Some (fw_networks w' !! v)).
Definition tunnel_recorded (w : FabricWorker) (t : FabricTunnel) : Prop :=
  forall name id, Addr2Port (ft_Remote t) "vx-" = Ret name -> add_ok name = true -> set_ok name = true ->
    dump name = Some id ->
    if String.eqb (ft_Mode t) "border" then is_Some (fw_borders w !! name) else is_Some (fw_tunnels w !! name).
Lemma keeps_refl w : keeps_ports w w.
Proof. done. Qed.
Lemma keeps_trans w1 w2 w3 : keeps_ports w1 w2 -> keeps_ports w2 w3 -> keeps_ports w1 w3.
Proof. intros (A1 & A2 & A3) (B1 & B2 & B3). split_and!; auto. Qed.
Lemma recorded_keeps w w' t : keeps_ports w w' -> tunnel_recorded w t -> tunnel_recorded w' t.
Proof. intros (H1 & H2 & _) H name id ? ? ? ?. specialize (H name id). destruct (String.eqb _ _); auto. Qed.
Lemma keeps_insert (m : gmap string OvsPort) k v nm : is_Some (m !! nm) -> is_Some (<[k := v]> m !! nm).
Proof. intros H. destruct (decide (k = nm)) as [->|]; [by rewrite lookup_insert_eq|by rewrite lookup_insert_ne]. Qed.

Lemma AddTunnel_programmed s w t w' ins :
  programmed w ins -> linked w ins -> AddTunnel s w t = Ret w' ->
  (exists ins', programmed w' ins' /\ linked w' ins') /\ keeps_ports w w' /\ tunnel_recorded w' t.
Proof.
  intros Hp Hg H. apply go_bind_ret in H as (name & Hname & [= <-]).
  match goal with |- context [ask w ?l] => set (pre := l) end.
  assert (Hpre : quiet pre) by (subst pre; constructor; [done|destruct (add_ok name); by repeat constructor]).
  unfold tunnel_recorded. rewrite Hname.
  destruct (add_ok name && set_ok name) eqn:Eok; cbn [negb].
  2:{ split; [exists ins; split; [by apply quiet_programmed|by apply linked_ask]|]. split; [done|].
      intros nm id [= <-] Ha Hs _. by rewrite Ha, Hs in Eok. }
  destruct (dump name) as [id|] eqn:Ed.
  2:{ split; [exists ins; split; [by apply quiet_programmed|by apply linked_ask]|]. split; [done|].
      intros nm id [= <-] _ _ Hd. congruence. }
  destruct (String.eqb (ft_Mode t) "border").
  - split; [eexists; split; [eapply (programmed_border w ins name); [done|by eapply Hdump|done]|by eapply linked_border]|].
    split; [split; [|split]; intros nm Hnm; [exact Hnm|by apply keeps_insert|exact Hnm]|]. intros nm id' [= <-] _ _ _. cbn [fw_borders ask flood2Border set_ports].
    by rewrite lookup_insert_eq.
  - split; [eexists; split; [eapply (programmed_tunnel w ins name); [done|by eapply Hdump|done]|by eapply linked_tunnel]|].
    split; [split; [|split]; intros nm Hnm; [by apply keeps_insert|exact Hnm|exact Hnm]|]. intros nm id' [= <-] _ _ _. cbn [fw_tunnels ask flood2Tunnel set_ports].
    by rewrite lookup_insert_eq.
Qed.

Lemma start_tunnels_programmed s ts : forall w ins w',
  programmed w ins -> linked w ins -> start_tunnels dump add_ok set_ok order s w ts = Ret w' ->
  (exists ins', programmed w' ins' /\ linked w' ins') /\ keeps_ports w w' /\ forall t, Some t ∈ ts -> tunnel_recorded w' t.
Proof.
  induction ts as [|[t|] ts IH]; intros w ins w' Hp Hg H; [| |done].
  { injection H as <-. split; [by exists ins|]. split; [done|]. by intros t ?%not_elem_of_nil. }
  apply go_bind_ret in H as (w1 & H1 & H).
  destruct (AddTunnel_programmed _ _ _ _ _ Hp Hg H1) as ((ins1 & Hp1 & Hg1) & Hk & Hr).
  destruct (IH _ _ _ Hp1 Hg1 H) as (He & Hk' & Hr'). split; [done|]. split; [by eapply keeps_trans|].
  intros u [[= ->]|Hu]%elem_of_cons; [by eapply recorded_keeps|by apply Hr'].
Qed.

Lemma AddNetwork_programmed w ins n :
  programmed w ins -> linked w ins -> is_Some (dump (vni2peer (fn_Vni n)).2) ->
  (exists ins', programmed (AddNetwork w n) ins' /\ linked (AddNetwork w n) ins') /\ keeps_ports w (AddNetwork w n) /\
  is_Some (fw_networks (AddNetwork w n) !! fn_Vni n).
Proof.
  intros Hp Hg [pid Hd]. pose proof Hd as Hd'. unfold Fabric.AddNetwork, UpLink. cbn [vni2peer snd] in Hd. cbn [vni2peer].
  rewrite Hd. cbn [default from_option id on_patch op_portId]. split; [eexists; split|split].
  - eapply (programmed_network w ins (fn_Vni n)); [done|by eapply Hdump|by repeat constructor].
  - by eapply linked_network.
  - split_and!; intros v Hv; [exact Hv|exact Hv|]. cbn [fw_networks ask set_network].
    destruct (decide (fn_Vni n = v)) as [->|]; [by rewrite lookup_insert_eq|by rewrite lookup_insert_ne].
  - cbn [fw_networks ask set_network]. by rewrite lookup_insert_eq.
Qed.

Lemma AddOutput_programmed w ins bridge o : programmed w ins -> linked w ins ->
  let w' := AddOutput index vlan_ok w bridge o in programmed w' ins /\ linked w' ins /\ keeps_ports w w'.
Proof.
  intros Hp Hg. unfold AddOutput. destruct (index (fo_Interface o)); [|done]. split; [|by split; [apply linked_ask|]].
  apply quiet_programmed; [|done]. constructor; [done|]. constructor; [done|]. destruct (vlan_ok _); by repeat constructor.
Qed.
Lemma AddOutputs_programmed bridge os : forall w ins, programmed w ins -> linked w ins ->
  let w' := foldl (fun w o => AddOutput index vlan_ok w bridge o) w os in
  programmed w' ins /\ linked w' ins /\ keeps_ports w w'.
Proof.
  induction os as [|o os IH]; intros w ins Hp Hg; [done|]. cbn [foldl].
  destruct (AddOutput_programmed w ins bridge o Hp Hg) as (Hp1 & Hg1 & Hk1).
  destruct (IH _ _ Hp1 Hg1) as (Hp2 & Hg2 & Hk2). split_and!; [done..|]. by eapply keeps_trans.
Qed.

Lemma start_networks_programmed s ns : forall w f ins w' f',
  programmed w ins -> linked w ins ->
  Forall (fun n => forall n0, n = Some n0 -> is_Some (dump (vni2peer (fn_Vni n0)).2)) ns ->
  start_networks dump index vlan_ok s (w, f) ns = Ret (w', f') ->
  (exists ins', programmed w' ins' /\ linked w' ins') /\ keeps_ports w w' /\
  forall n, Some n ∈ ns -> is_Some (fw_networks w' !! fn_Vni n).
Proof.
  induction ns as [|[n|] ns IH]; intros w f ins w' f' Hp Hg Hd H; [| |done].
  { injection H as <- <-. split; [by exists ins|]. split; [done|]. by intros n ?%not_elem_of_nil. }
  apply Forall_cons in Hd as [Hn Hd].
  destruct (AddNetwork_programmed w ins n Hp Hg (Hn n eq_refl)) as ((ins1 & Hp1 & Hg1) & Hk1 & Hr1). cbn [start_networks] in H.
  destruct (AddOutputs_programmed (fn_Bridge n) (fn_Outputs n) _ _ Hp1 Hg1) as (Hp2 & Hg2 & Hk2).
  destruct (IH _ _ _ _ _ Hp2 Hg2 Hd H) as (He & Hk3 & Hr3). pose proof (keeps_trans _ _ _ Hk2 Hk3) as Hk.
  split; [done|]. split; [by eapply keeps_trans|].
  intros m [[= ->]|Hm]%elem_of_cons; [by apply Hk|by apply Hr3].
Qed.
End start.

(** ** Packets in the pipeline *)

Lemma programmed_forward w ins : programmed w ins -> good_ins ins -> forward (flow_table (fw_requests w)).
Proof.
  intros [Hup Hsl Ht Hbt Hbl Hn Hl Hi] Hg s acts Hs.
  assert (Houts : forall m tl t, Forall (fun a => match a with Resubmit _ t' => t < t' <= 255 | _ => True end) tl ->
    Forall (fun a => match a with Resubmit _ t' => t < t' <= 255 | _ => True end) (outputs m ++ tl)).
  { intros m tl t H. apply Forall_app. split; [|done]. unfold Fabric.outputs. apply Forall_fmap.
    by apply Forall_forall. }
  destruct (Hsl s acts Hs) as [Hu|Ho].
  - apply list_elem_of_fmap in Hu as (f & -> & Hf). rewrite Forall_forall in Hup.
    rewrite (Hup f Hf) in Hs. injection Hs as <-. clear -Hf.
    repeat (apply elem_of_cons in Hf as [-> |Hf]; [by repeat constructor|]). by apply not_elem_of_nil in Hf.
  - destruct Ho as [| | |vni|vni|id Hid].
    + rewrite Ht in Hs. unfold when in Hs. case_decide; [done|]. injection Hs as <-. apply Houts. by repeat constructor.
    + rewrite Hbt in Hs. unfold when in Hs. case_decide; [done|]. injection Hs as <-.
      rewrite <- (app_nil_r (outputs _)). by apply Houts.
    + rewrite Hbl in Hs. unfold when in Hs. case_decide; [done|]. injection Hs as <-. apply Houts. by repeat constructor.
    + rewrite Hn in Hs. destruct (fw_networks w !! vni); [|done]. injection Hs as <-. by repeat constructor.
    + rewrite Hl in Hs. destruct (fw_networks w !! vni); [|done]. injection Hs as <-. by repeat constructor.
    + rewrite Hi in Hs by done. destruct (Hg id acts Hs) as [->|[->|[vni ->]]]; by repeat constructor.
Qed.

Section packets.
Context (run : flows -> Z -> packet -> list Z) (Hrun : OpenFlow run).
Context (w : FabricWorker) (ins : gmap Z (list action)) (Hp : programmed w ins) (Hg : good_ins ins).
Local Abbreviation FT := (flow_table (fw_requests w)).

Definition flagged (p : packet) (v : Z) : packet :=
  {| pk_in := pk_in p; pk_tun := pk_tun p; pk_flag := v; pk_known := pk_known p |}.
Definition in_tunnel (p : packet) (v : Z) : packet :=
  {| pk_in := pk_in p; pk_tun := v; pk_flag := pk_flag p; pk_known := pk_known p |}.

Lemma match_flag p v : match_field p (MatchRegFlag, Uint2S v) = (v =? pk_flag p).
Proof.
  unfold match_field. simpl. destruct (String.eqb_spec (Uint2S v) (Uint2S (pk_flag p))) as [E|E];
    destruct (Z.eqb_spec v (pk_flag p)) as [E'|E']; try done; [by apply Uint2S_inj in E|by subst].
Qed.
Lemma match_net p v : match_field p (in_net v) = (v =? pk_tun p).
Proof.
  unfold match_field. simpl. destruct (String.eqb_spec (Uint2S v) (Uint2S (pk_tun p))) as [E|E];
    destruct (Z.eqb_spec v (pk_tun p)) as [E'|E']; try done; [by apply Uint2S_inj in E|by subst].
Qed.

(** Which slots a packet matches. *)
Lemma match_own p :
  match_slot p slot_flood = (FFromLs =? pk_flag p) /\ match_slot p slot_bor_tun = (FFromTun =? pk_flag p) /\
  match_slot p slot_bor_ls = (FFromLs =? pk_flag p) /\
  (forall v, match_slot p (slot_net v) = (v =? pk_tun p) && (FFromTun =? pk_flag p)) /\
  (forall v, match_slot p (slot_loop v) = (v =? pk_tun p) && (FFromLs =? pk_flag p)) /\
  (forall i, i <> 0 -> match_slot p (slot_in i) = (i =? pk_in p)).
Proof.
  unfold slot_flood, slot_bor_tun, slot_bor_ls, slot_net, slot_loop, slot_in, match_slot, from_ls, from_tun.
  cbn [forallb]. rewrite !match_flag. split_and!; try (by rewrite ?andb_true_r); intros v;
    rewrite ?match_net, ?match_flag, ?andb_true_r; try done.
  intros Hv. by rewrite (proj2 (Z.eqb_neq v 0)).
Qed.

Lemma own_matches p s : own_slot s -> match_slot p s = true ->
  (s = slot_flood /\ pk_flag p = FFromLs) \/ (s = slot_bor_tun /\ pk_flag p = FFromTun) \/
  (s = slot_bor_ls /\ pk_flag p = FFromLs) \/ (s = slot_net (pk_tun p) /\ pk_flag p = FFromTun) \/
  (s = slot_loop (pk_tun p) /\ pk_flag p = FFromLs) \/ (s = slot_in (pk_in p) /\ pk_in p <> 0).
Proof.
  destruct (match_own p) as (M1 & M2 & M3 & M4 & M5 & M6). intros [| | |v|v|i Hi].
  - rewrite M1. intros H%Z.eqb_eq. by left.
  - rewrite M2. intros H%Z.eqb_eq. right. by left.
  - rewrite M3. intros H%Z.eqb_eq. do 2 right. by left.
  - rewrite M4. intros [H1%Z.eqb_eq H2%Z.eqb_eq]%andb_true_iff. subst v. do 3 right. by left.
  - rewrite M5. intros [H1%Z.eqb_eq H2%Z.eqb_eq]%andb_true_iff. subst v. do 4 right. by left.
  - rewrite M6 by done. intros ->%Z.eqb_eq. do 5 right. done.
Qed.

(** The slot [s] is selected when it beats the slots of [upTables] and the own slots the
    packet matches. *)
Lemma select t p s :
  table_of s = t -> match_slot p s = true ->
  Forall (fun f => table_of (slot_of f) = t -> slot_of f = s \/ prio_of (slot_of f) < prio_of s) upTables ->
  (forall s', own_slot s' -> match_slot p s' = true -> table_of s' = t -> s' = s \/ prio_of s' < prio_of s) ->
  selected FT t p s.
Proof.
  intros Ht Hm Hu Ho. split; [done|]. split; [done|]. intros s' acts Hs' Ht' Hm'.
  destruct (pg_slots _ _ Hp s' acts Hs') as [H|H]; [|by apply Ho].
  apply list_elem_of_fmap in H as (f & -> & Hf). rewrite Forall_forall in Hu. by apply Hu.
Qed.

Lemma up_at f : f ∈ upTables -> FT !! slot_of f = Some (fl_Actions f).
Proof. intros H. pose proof (pg_up _ _ Hp) as Hu. rewrite Forall_forall in Hu. by apply Hu. Qed.

(** Running a table whose selected flow is known. *)
Lemma hit t p s acts :
  0 <= t <= 255 -> FT !! s = Some acts -> selected FT t p s -> t <> TUcastToTun ->
  run FT t p = exec (run FT) p acts.
Proof. intros Ht Hs Hsel Hne. apply (of_hit _ Hrun FT t p s acts); try done. by eapply programmed_forward. Qed.

Ltac by_slots :=
  apply select;
  [done
  |done
  |unfold upTables;
   repeat (apply Forall_cons; split; [let Et := fresh in intros Et; vm_compute in Et; solve [done | by left | by right]|]);
   by apply Forall_nil
  |let Ho := fresh in let Hm := fresh in let Et := fresh in
   intros ? Ho Hm Et; apply (own_matches _ _ Ho) in Hm;
   destruct Hm as [[-> ?]|[[-> ?]|[[-> ?]|[[-> ?]|[[-> ?]|[-> ?]]]]]];
   vm_compute in Et; unfold FFromLs, FFromTun in *; solve [done | by left | by right | congruence]].

Lemma run_in p acts : pk_in p <> 0 -> ins !! pk_in p = Some acts -> run FT 0 p = exec (run FT) p acts.
Proof.
  intros Hz Hi. apply (hit 0 p (slot_in (pk_in p)) acts); [done| | |done].
  - rewrite (pg_in _ _ Hp) by done. exact Hi.
  - assert (Hm : match_slot p (slot_in (pk_in p)) = true).
    { destruct (match_own p) as (_ & _ & _ & _ & _ & ->); [|done]. by apply Z.eqb_refl. }
    by_slots.
Qed.
Lemma load_ls p : load p (Uint2S FFromLs) NxmRegFlag = flagged p FFromLs.
Proof. reflexivity. Qed.
Lemma load_tun p : load p (Uint2S FFromTun) NxmRegFlag = flagged p FFromTun.
Proof. reflexivity. Qed.
Lemma run_ls p : run FT TLsToTun p = run FT TSourceLearn (flagged p FFromLs).
Proof.
  rewrite (hit TLsToTun p (TLsToTun, 1, 0, []) [Load (Uint2S FFromLs) NxmRegFlag; Resubmit 0 TSourceLearn]);
    [cbn [exec]; by rewrite load_ls, app_nil_r|done| | |done].
  - apply (up_at (plain TLsToTun 1 _)). right. by left.
  - by_slots.
Qed.
Lemma run_tun p : run FT TTunToLs p = run FT TSourceLearn (flagged p FFromTun).
Proof.
  rewrite (hit TTunToLs p (TTunToLs, 1, 0, []) [Load (Uint2S FFromTun) NxmRegFlag; Resubmit 0 TSourceLearn]);
    [cbn [exec]; by rewrite load_tun, app_nil_r|done| | |done].
  - apply (up_at (plain TTunToLs 1 _)). right. right. by left.
  - by_slots.
Qed.

Lemma run_learn p : run FT TSourceLearn p = run FT TUcastToTun p.
Proof.
  rewrite (hit TSourceLearn p (slot_of addLearning) (fl_Actions addLearning));
    [cbn [exec addLearning fl_Actions]; by rewrite app_nil_r|done| | |done].
  - apply (up_at addLearning). do 3 right. by left.
  - by_slots.
Qed.
Lemma run_unknown p : pk_known p (pk_tun p) = None -> run FT TUcastToTun p = run FT TFloodToTun p.
Proof.
  intros Hk. rewrite (of_hit _ Hrun FT TUcastToTun p (TUcastToTun, 0, 0, []) [Resubmit 0 TFloodToTun]);
    [cbn [exec]; by rewrite app_nil_r|by eapply programmed_forward|done| | |done].
  - apply (up_at (plain TUcastToTun 0 _)). do 4 right. by left.
  - by_slots.
Qed.

(** What the actions for a map of ports send. *)
Definition sent (p : packet) (ports : gmap string OvsPort) : list Z :=
  concat (map (fun e => out p (op_portId e.2)) (order ports)).
Lemma exec_outputs p ports acts :
  exec (run FT) p (outputs ports ++ acts) = sent p ports ++ exec (run FT) p acts.
Proof.
  unfold Fabric.outputs, sent. induction (order ports) as [|e l IH]; [done|]. simpl. by rewrite IH, app_assoc.
Qed.

(** A table whose flows of higher priority do not match, or are not there, drops. *)
Lemma run_default t p :
  t = TFloodToTun \/ t = TFloodToBor ->
  (forall s, own_slot s -> match_slot p s = true -> table_of s = t -> FT !! s = None) ->
  run FT t p = [].
Proof.
  intros Ht Ho. rewrite (hit t p (t, 0, 0, []) [Drop]); [done| | | |].
  - by destruct Ht as [-> | ->].
  - destruct Ht as [-> | ->]; [apply (up_at (plain TFloodToTun 0 _)); do 5 right; by left|].
    apply (up_at (plain TFloodToBor 0 _)). do 6 right. by left.
  - split; [done|]. split; [done|]. intros s acts Hs Hst Hm. destruct (pg_slots _ _ Hp s acts Hs) as [H|H].
    + unfold upTables in H. cbn [map] in H.
      destruct Ht as [-> | ->];
        (repeat (apply elem_of_cons in H as [-> |H]; [vm_compute in Hst; solve [done|by left|by right]|]);
         by apply not_elem_of_nil in H).
    + by rewrite (Ho s H Hm Hst) in Hs.
  - by destruct Ht as [-> | ->].
Qed.
Ltac default_slots :=
  apply run_default; [by auto|];
  let Ho := fresh in let Hm := fresh in let Et := fresh in
  intros ? Ho Hm Et; apply (own_matches _ _ Ho) in Hm;
  destruct Hm as [[-> ?]|[[-> ?]|[[-> ?]|[[-> ?]|[[-> ?]|[-> ?]]]]]];
  try (vm_compute in Et; done); unfold FFromLs, FFromTun in *; try congruence.

Lemma run_flood_ls p : pk_flag p = FFromLs ->
  run FT TFloodToTun p = if decide (fw_tunnels w = ∅) then [] else sent p (fw_tunnels w) ++ run FT TFloodToBor p.
Proof.
  intros Hf. pose proof (pg_tun _ _ Hp) as Ht. unfold when in Ht. case_decide as Hd; [default_slots|].
  rewrite (hit TFloodToTun p slot_flood (outputs (fw_tunnels w) ++ [Resubmit 0 TFloodToBor])); [|done|done| |done].
  - rewrite exec_outputs. cbn [exec]. by rewrite app_nil_r.
  - assert (Hm : match_slot p slot_flood = true) by (destruct (match_own p) as [-> _]; by rewrite Hf).
    by_slots.
Qed.
Lemma run_flood_tun p : pk_flag p = FFromTun ->
  run FT TFloodToTun p = match fw_networks w !! pk_tun p with
                         | None => []
                         | Some n => out p (op_portId (on_patch n)) ++ run FT TFloodToBor p
                         end.
Proof.
  intros Hf. pose proof (pg_net _ _ Hp (pk_tun p)) as Hn. destruct (fw_networks w !! pk_tun p) as [n|] eqn:En.
  - simpl in Hn. rewrite (hit TFloodToTun p (slot_net (pk_tun p)) _ ltac:(done) Hn); [| |done].
    + cbn [exec]. by rewrite app_nil_r.
    + assert (Hm : match_slot p (slot_net (pk_tun p)) = true).
      { destruct (match_own p) as (_ & _ & _ & -> & _). by rewrite Hf, Z.eqb_refl. }
      by_slots.
  - default_slots.
Qed.
Lemma run_border_tun p : pk_flag p = FFromTun ->
  run FT TFloodToBor p = if decide (fw_borders w = ∅) then [] else sent p (fw_borders w).
Proof.
  intros Hf. pose proof (pg_bor_tun _ _ Hp) as Hb. unfold when in Hb. case_decide as Hd; [default_slots|].
  rewrite (hit TFloodToBor p slot_bor_tun (outputs (fw_borders w))); [|done|done| |done].
  - rewrite <- (app_nil_r (outputs _)), exec_outputs. cbn [exec]. by rewrite app_nil_r.
  - assert (Hm : match_slot p slot_bor_tun = true) by (destruct (match_own p) as (_ & -> & _); by rewrite Hf).
    by_slots.
Qed.
Lemma run_border_ls p : pk_flag p = FFromLs ->
  run FT TFloodToBor p = if decide (fw_borders w = ∅) then [] else sent p (fw_borders w) ++ run FT TFloodLoop p.
Proof.
  intros Hf. pose proof (pg_bor_ls _ _ Hp) as Hb. unfold when in Hb. case_decide as Hd; [default_slots|].
  rewrite (hit TFloodToBor p slot_bor_ls (outputs (fw_borders w) ++ [Resubmit 0 TFloodLoop])); [|done|done| |done].
  - rewrite exec_outputs. cbn [exec]. by rewrite app_nil_r.
  - assert (Hm : match_slot p slot_bor_ls = true) by (destruct (match_own p) as (_ & _ & -> & _); by rewrite Hf).
    by_slots.
Qed.
Lemma run_loop p : pk_flag p = FFromLs ->
  run FT TFloodLoop p = match fw_networks w !! pk_tun p with
                        | None => []
                        | Some n => out p (op_portId (on_patch n))
                        end.
Proof.
  intros Hf. pose proof (pg_loop _ _ Hp (pk_tun p)) as Hn. destruct (fw_networks w !! pk_tun p) as [n|] eqn:En.
  - simpl in Hn. rewrite (hit TFloodLoop p (slot_loop (pk_tun p)) _ ltac:(done) Hn); [| |done].
    + cbn [exec]. by rewrite app_nil_r.
    + assert (Hm : match_slot p (slot_loop (pk_tun p)) = true).
      { destruct (match_own p) as (_ & _ & _ & _ & -> & _). by rewrite Hf, Z.eqb_refl. }
      by_slots.
  - simpl in Hn. apply (of_miss _ Hrun); [by eapply programmed_forward|done| |done]. intros s acts Hs Hst.
    destruct (match_slot p s) eqn:Hm; [|done]. exfalso.
    destruct (pg_slots _ _ Hp s acts Hs) as [H|H].
    + unfold upTables in H. cbn [map] in H.
      repeat (apply elem_of_cons in H as [-> |H]; [by vm_compute in Hst|]). by apply not_elem_of_nil in H.
    + apply (own_matches _ _ H) in Hm.
      destruct Hm as [[-> ?]|[[-> ?]|[[-> ?]|[[-> ?]|[[-> ?]|[-> ?]]]]]]; try (vm_compute in Hst; done); unfold FFromLs, FFromTun in *; congruence.
Qed.
End packets.
End pipeline.

(** ** Theorems *)

Lemma sent_in order p p' ports : pk_in p = pk_in p' -> sent order p ports = sent order p' ports.
Proof. intros H. unfold sent. f_equal. apply map_ext. intros e. unfold out. by rewrite H. Qed.
Lemma load_net p vni : 0 <= vni < 2 ^ 63 -> load p (Uint2S vni) NxmRegTunId = in_tunnel p vni.
Proof. intros Hv. unfold load, Uint2S. by rewrite Atoi_FormatInt. Qed.

(** What a packet of the logical switch of network [vni] is flooded to. *)
Definition flooded order (w : FabricWorker) (p : packet) (vni : Z) : list Z :=
  if decide (fw_tunnels w = ∅) then []
  else sent order p (fw_tunnels w) ++
       (if decide (fw_borders w = ∅) then []
        else sent order p (fw_borders w) ++
             match fw_networks w !! vni with None => [] | Some n => out p (op_portId (on_patch n)) end).

Lemma run_flooded order run (Hrun : OpenFlow run) w ins (Hp : programmed order w ins) (Hg : good_ins ins) p q :
  pk_in q = pk_in p -> (forall v, pk_known q v = None) ->
  run (flow_table (fw_requests w)) TLsToTun q = flooded order w p (pk_tun q).
Proof.
  intros Hqi Hqk. rewrite (run_ls order run Hrun w ins Hp Hg), (run_learn order run Hrun w ins Hp Hg),
    (run_unknown order run Hrun w ins Hp Hg), (run_flood_ls order run Hrun w ins Hp Hg) by (done || apply Hqk).
  unfold flooded. case_decide; [done|]. rewrite (sent_in order _ p) by done. f_equal.
  rewrite (run_border_ls order run Hrun w ins Hp Hg) by done. case_decide; [done|].
  rewrite (sent_in order _ p) by done. f_equal. rewrite (run_loop order run Hrun w ins Hp Hg) by done.
  cbn [pk_tun flagged]. destruct (fw_networks w !! pk_tun q); [|done]. unfold out. by rewrite <- Hqi.
Qed.

Definition nets_up (dump : string -> option Z) (w : FabricWorker) : Prop :=
  forall s n, fw_spec w = Some s -> Some n ∈ fab_Networks s -> is_Some (dump (vni2peer (fn_Vni n)).2).

(** What [Initialize] and [Start] leave behind. *)
Lemma fabric_started dump add_ok set_ok index vlan_ok order c w0 f w f' :
  (forall name id, dump name = Some id -> id <> 0) -> NewFabricWorker c = Ret w0 -> nets_up dump w0 ->
  fabric_Start dump add_ok set_ok index vlan_ok order (fabric_Initialize true w0) f = Ret (w, f') ->
  exists s ins, fw_spec w0 = Some s /\ programmed order w ins /\ linked dump w ins /\
    (forall t, Some t ∈ fab_Tunnels s -> tunnel_recorded dump add_ok set_ok w t) /\
    (forall n, Some n ∈ fab_Networks s -> is_Some (fw_networks w !! fn_Vni n)).
Proof.
  intros Hdump Hnew Hnets Hstart. unfold NewFabricWorker in Hnew. destruct (net_Bridge c) as [br|]; [|done].
  injection Hnew as <-.
  match type of Hstart with fabric_Start _ _ _ _ _ _ (fabric_Initialize true ?W) _ = _ => set (w0 := W) in * end.
  pose proof (initialized_programmed order w0 eq_refl eq_refl eq_refl eq_refl) as H0.
  unfold fabric_Start in Hstart. change (fw_spec (fabric_Initialize true w0)) with (fw_spec w0) in Hstart.
  destruct (fw_spec w0) as [s|] eqn:Es; [|done]. apply go_bind_ret in Hstart as (w1 & H1 & H2).
  assert (L0 : linked dump (fabric_Initialize true w0) ∅) by (constructor; cbn; by intros *; rewrite lookup_empty).
  destruct (start_tunnels_programmed order dump add_ok set_ok Hdump s _ _ ∅ _ H0 L0 H1) as ((ins1 & Hp1 & Hg1) & _ & Hr1).
  destruct (start_networks_programmed order dump index vlan_ok Hdump s (fab_Networks s) w1 f ins1 w f') as ((ins & Hp & Hg) & Hk & Hr); try done.
  { apply Forall_forall. intros n Hn n0 ->. by apply (Hnets s). }
  exists s, ins. split_and!; try done. intros t Ht. eapply recorded_keeps; [exact Hk|by apply Hr1].
Qed.

(** A port that is recorded for one purpose is treated by it. *)
Lemma linked_tunnel_only dump w ins id : linked dump w ins -> tunnel_port w id -> ~ border_port w id ->
  (forall v, ~ network_port w v id) -> ins !! id = Some [Resubmit 0 TTunToLs].
Proof.
  intros [Ht _ _ Hi] (nm & pt & H & <-) Hb Hn. destruct (Ht _ _ H) as [_ [a Ha]].
  destruct (Hi _ _ Ha) as [[-> _]|[[_ ?]|(v & _ & ?)]]; [done|done|by destruct (Hn v)].
Qed.
Lemma linked_border_only dump w ins id : linked dump w ins -> border_port w id -> ~ tunnel_port w id ->
  (forall v, ~ network_port w v id) -> ins !! id = Some [Resubmit 0 TLsToTun].
Proof.
  intros [_ Hb _ Hi] (nm & pt & H & <-) Ht Hn. destruct (Hb _ _ H) as [_ [a Ha]].
  destruct (Hi _ _ Ha) as [[_ ?]|[[-> _]|(v & _ & ?)]]; [done|done|by destruct (Hn v)].
Qed.
Lemma linked_network_only dump w ins vni id : linked dump w ins -> network_port w vni id -> ~ tunnel_port w id ->
  ~ border_port w id -> (forall v, network_port w v id -> v = vni) ->
  ins !! id = Some [Load (Uint2S vni) NxmRegTunId; Resubmit 0 TLsToTun].
Proof.
  intros [_ _ Hn Hi] (n & H & <-) Ht Hb Hv. destruct (Hn _ _ H) as [_ [a Ha]].
  destruct (Hi _ _ Ha) as [[_ ?]|[[_ ?]|(v & -> & Hnp)]]; [done|done|by rewrite Ha, (Hv v Hnp)].
Qed.

(** (C19) Flooding in a fabric: after [Initialize] and [Start] every tunnel of the configuration
    whose port could be added is recorded as a tunnel or, if that is its mode, as a border,
    and every network is; and then, for any switch that follows OpenFlow, a packet for a
    destination that was not learnt
    - that comes in by the port of a tunnel goes to the patch port of its network and to
      the borders, and to no tunnel (so floods do not circle between fabrics), or nowhere
      when its network is not there;
    - that comes from the patch port of a network goes to every tunnel, every border and
      not back;
    - that comes in by the port of a border goes to every tunnel, the other borders and the
      network;
    and, of the last two kinds, to nothing at all while there is no tunnel.  The port must
    be recorded for that one purpose (a tunnel and a border to the same remote share their
    port). *)
Theorem fabric_floods run dump add_ok set_ok index vlan_ok order c w0 f w f' p :
  OpenFlow run -> (forall name id, dump name = Some id -> id <> 0) ->
  NewFabricWorker c = Ret w0 -> nets_up dump w0 ->
  fabric_Start dump add_ok set_ok index vlan_ok order (fabric_Initialize true w0) f = Ret (w, f') ->
  pk_in p <> 0 -> (forall v, pk_known p v = None) ->
  let run_in := run (flow_table (fw_requests w)) 0 in
  (forall s, fw_spec w0 = Some s ->
     (forall t, Some t ∈ fab_Tunnels s -> tunnel_recorded dump add_ok set_ok w t) /\
     (forall n, Some n ∈ fab_Networks s -> is_Some (fw_networks w !! fn_Vni n))) /\
  (tunnel_port w (pk_in p) -> ~ border_port w (pk_in p) -> (forall v, ~ network_port w v (pk_in p)) ->
     run_in p = match fw_networks w !! pk_tun p with
                | None => []
                | Some n => out p (op_portId (on_patch n)) ++
                            if decide (fw_borders w = ∅) then [] else sent order p (fw_borders w)
                end) /\
  (forall vni, 0 <= vni < 2 ^ 63 -> network_port w vni (pk_in p) -> ~ tunnel_port w (pk_in p) ->
     ~ border_port w (pk_in p) -> (forall v, network_port w v (pk_in p) -> v = vni) -> run_in p = flooded order w p vni) /\
  (border_port w (pk_in p) -> ~ tunnel_port w (pk_in p) -> (forall v, ~ network_port w v (pk_in p)) ->
     run_in p = flooded order w p (pk_tun p)).
Proof.
  intros Hrun Hdump Hnew Hnets Hstart Hin Hk run_in.
  destruct (fabric_started _ _ _ _ _ _ _ _ _ _ _ Hdump Hnew Hnets Hstart) as (s & ins & Es & Hp & Hl & Hrt & Hrn).
  pose proof (linked_good _ _ _ Hl) as Hg. set (ft := flow_table (fw_requests w)) in *.
  assert (Hls : forall q, pk_in q = pk_in p -> (forall v, pk_known q v = None) ->
    run ft TLsToTun q = flooded order w p (pk_tun q)) by (intros; by apply (run_flooded order run Hrun w ins)).
  split; [by intros s' [= <-]%(eq_trans (eq_sym Es))|split; [|split]].
  - intros H1 H2 H3. pose proof (linked_tunnel_only _ _ _ _ Hl H1 H2 H3) as Ha. unfold run_in, ft.
    rewrite (Fabric.run_in order run Hrun w ins Hp Hg p [Resubmit 0 TTunToLs]) by done. cbn [exec]. rewrite app_nil_r.
    rewrite (run_tun order run Hrun w ins Hp Hg), (run_learn order run Hrun w ins Hp Hg),
      (run_unknown order run Hrun w ins Hp Hg), (run_flood_tun order run Hrun w ins Hp Hg) by (done || apply Hk).
    cbn [pk_tun flagged]. destruct (fw_networks w !! pk_tun p); [|done]. f_equal.
    by rewrite (run_border_tun order run Hrun w ins Hp Hg).
  - intros vni Hv H1 H2 H3 H4. pose proof (linked_network_only _ _ _ _ _ Hl H1 H2 H3 H4) as Ha. unfold run_in, ft.
    rewrite (Fabric.run_in order run Hrun w ins Hp Hg p _ Hin Ha). cbn [exec]. rewrite app_nil_r, load_net by done.
    by apply (Hls (in_tunnel p vni)).
  - intros H1 H2 H3. pose proof (linked_border_only _ _ _ _ Hl H1 H2 H3) as Ha. unfold run_in, ft.
    rewrite (Fabric.run_in order run Hrun w ins Hp Hg p _ Hin Ha). cbn [exec]. rewrite app_nil_r. by apply Hls.
Qed.

(** The options a port was given, in order. *)
Definition settings (name : string) (rs : list request) : list InterfaceOptions :=
  omap (fun r => match r with SetInterface n o => if String.eqb n name then Some o else None | _ => None end) rs.

(** Two tunnels whose remote addresses have the same digits, as 192.168.1.11 and
    192.168.11.1, get the same port: when both are started, the second takes the port over
    with its own remote address, and no tunnel leads to the first remote any more. *)
Theorem fabric_tunnel_names_collide dump add_ok set_ok order s w w' a b name id :
  Addr2Port (ft_Remote a) "vx-" = Ret name -> Addr2Port (ft_Remote b) "vx-" = Ret name ->
  ft_Mode a <> "border"%string -> ft_Mode b <> "border"%string ->
  dump name = Some id -> add_ok name = true -> set_ok name = true -> fw_tunnels w = ∅ ->
  start_tunnels dump add_ok set_ok order s w [Some a; Some b] = Ret w' ->
  exists port o, fw_tunnels w' = {[name := port]} /\ op_options port = Some o /\ io_RemoteIP o = ft_Remote b /\
    settings name (fw_requests w') =
      settings name (fw_requests w) ++
      [{| io_Type := tunnelType s; io_BfdEnable := true; io_RemoteIP := ft_Remote a;
          io_Key := "flow"; io_DstPort := ft_DstPort a; io_DfDefault := if fab_Fragment s then "false" else "true" |}; o].
Proof.
  intros Ha Hb Hma Hmb Hd Had Hse Ht H. cbn [start_tunnels] in H. unfold AddTunnel in H.
  rewrite Ha, Hb in H. cbn [mbind go_bind] in H. rewrite Had, Hse, Hd in H. cbn [andb negb] in H.
  rewrite (proj2 (String.eqb_neq _ _) Hma), (proj2 (String.eqb_neq _ _) Hmb) in H. injection H as <-.
  eexists _, _. split.
  - cbn. rewrite Ht, insert_insert_eq. by rewrite insert_empty.
  - split; [done|]. split; [done|]. cbn [fw_requests ask flood2Tunnel set_ports].
    unfold settings. rewrite <- !app_assoc, omap_app. f_equal. cbn. by rewrite String.eqb_refl.
Qed.

(** ** A concrete switch *)

#[export] Instance selected_dec ft t p s : Decision (selected ft t p s).
Proof.
  refine (cast_if (decide (table_of s = t /\ match_slot p s = true /\
    map_Forall (fun s' _ => table_of s' = t -> match_slot p s' = true -> s' = s \/ prio_of s' < prio_of s) ft)));
    unfold selected, map_Forall in *; naive_solver.
Defined.
Definition pick (ft : flows) (t : Z) (p : packet) : option (slot * list action) :=
  snd <$> list_find (fun e => selected ft t p e.1) (map_to_list ft).
Fixpoint demo_n (n : nat) (ft : flows) (t : Z) (p : packet) : list Z :=
  match n with
  | O => []
  | S n =>
      match (if t =? TUcastToTun then pk_known p (pk_tun p) else None) with
      | Some port => out p port
      | None => match pick ft t p with Some (_, acts) => exec (demo_n n ft) p acts | None => [] end
      end
  end.
Definition demo_run (ft : flows) (t : Z) (p : packet) : list Z := demo_n (Z.to_nat (256 - t)) ft t p.

Lemma selected_unique ft t p s1 s2 a1 a2 :
  ft !! s1 = Some a1 -> ft !! s2 = Some a2 -> selected ft t p s1 -> selected ft t p s2 -> s1 = s2.
Proof.
  intros H1 H2 (T1 & M1 & S1) (T2 & M2 & S2).
  destruct (S2 s1 a1 H1 T1 M1) as [|L1]; [done|]. destruct (S1 s2 a2 H2 T2 M2) as [|L2]; [done|]. lia.
Qed.
Lemma pick_selected ft t p s acts : ft !! s = Some acts -> selected ft t p s -> pick ft t p = Some (s, acts).
Proof.
  intros Hs Hsel. unfold pick.
  destruct (list_find_elem_of (fun e : slot * list action => selected ft t p e.1) (map_to_list ft) (s, acts)) as [[i [s' a']] Hf];
    [by apply elem_of_map_to_list|done|].
  rewrite Hf. apply list_find_Some in Hf as (Hl & Hsel' & _). simpl in *.
  apply list_elem_of_lookup_2, elem_of_map_to_list in Hl.
  rewrite (selected_unique ft t p s s' acts a' Hs Hl Hsel Hsel') in Hs |- *. congruence.
Qed.
Lemma pick_none ft t p :
  (forall s acts, ft !! s = Some acts -> table_of s = t -> match_slot p s = false) -> pick ft t p = None.
Proof.
  intros H. unfold pick. destruct (list_find _ _) as [[i [s a]]|] eqn:E; [|done]. exfalso.
  apply list_find_Some in E as (Hl & (Ht & Hm & _) & _).
  apply list_elem_of_lookup_2, elem_of_map_to_list in Hl. simpl in *. by rewrite (H s a Hl Ht) in Hm.
Qed.
Lemma pick_lookup ft t p s acts : pick ft t p = Some (s, acts) -> ft !! s = Some acts /\ table_of s = t.
Proof.
  unfold pick. destruct (list_find _ _) as [[i [s' a']]|] eqn:E; [|done]. intros [= -> ->].
  apply list_find_Some in E as (Hl & (Ht & _) & _). split; [|done].
  by apply list_elem_of_lookup_2, elem_of_map_to_list in Hl.
Qed.

Lemma exec_ext f g t acts : forall p,
  Forall (fun a => match a with Resubmit _ t' => t < t' <= 255 | _ => True end) acts ->
  (forall t' p', t < t' <= 255 -> f t' p' = g t' p') -> exec f p acts = exec g p acts.
Proof.
  induction acts as [|a acts IH]; intros p Ha Hfg; [done|]. apply Forall_cons in Ha as [Ha Hacts].
  destruct a; simpl; [done|by apply IH| | |by apply IH]; f_equal; auto.
Qed.
(** More fuel than tables are left makes no difference. *)
Lemma demo_stable ft : forward ft -> forall k1 k2 t p,
  0 <= t <= 255 -> (Z.to_nat (256 - t) <= k1)%nat -> (Z.to_nat (256 - t) <= k2)%nat ->
  demo_n k1 ft t p = demo_n k2 ft t p.
Proof.
  intros Hf k1. induction k1 as [|k1 IH]; intros k2 t p Ht H1 H2; [lia|]. destruct k2 as [|k2]; [lia|].
  simpl. destruct (if t =? TUcastToTun then pk_known p (pk_tun p) else None); [done|].
  destruct (pick ft t p) as [[s acts]|] eqn:Ep; [|done]. apply pick_lookup in Ep as [Hs <-].
  apply (exec_ext _ _ (table_of s)); [by apply (Hf s acts Hs)|]. intros t' p' Ht'. apply IH; lia.
Qed.
Lemma demo_run_step ft t p : forward ft -> 0 <= t <= 255 -> (t = TUcastToTun -> pk_known p (pk_tun p) = None) ->
  demo_run ft t p = match pick ft t p with Some (_, acts) => exec (demo_run ft) p acts | None => [] end.
Proof.
  intros Hf Ht Hk. unfold demo_run at 1. destruct (Z.to_nat (256 - t)) as [|n] eqn:En; [lia|]. simpl.
  assert (E : (if t =? TUcastToTun then pk_known p (pk_tun p) else None) = None)
    by (destruct (Z.eqb_spec t TUcastToTun); auto).
  rewrite E. destruct (pick ft t p) as [[s acts]|] eqn:Ep; [|done]. apply pick_lookup in Ep as [Hs <-].
  apply (exec_ext _ _ (table_of s)); [by apply (Hf s acts Hs)|]. intros t' p' Ht'. apply (demo_stable ft Hf); lia.
Qed.
Lemma demo_openflow : OpenFlow demo_run.
Proof.
  split.
  - intros ft t p s acts Hf Ht Hs Hsel Hk. rewrite demo_run_step by done. by rewrite (pick_selected ft t p s acts).
  - intros ft t p Hf Ht Hm Hk. rewrite demo_run_step by done. by rewrite pick_none.
  - intros ft p port Hf Hk _. unfold demo_run. simpl. by rewrite Hk.
Qed.

Definition demo_tunnel (remote mode : string) : option FabricTunnel :=
  Some {| ft_DstPort := 4789; ft_Remote := remote; ft_Local := ""; ft_Mode := mode |}.
Definition demo_spec (ts : list (option FabricTunnel)) : FabricSpecifies :=
  {| fab_Mss := 1400; fab_Fragment := false; fab_Driver := ""; fab_Name := "fab"; fab_Tunnels := ts;
     fab_Networks := [Some {| fn_Vni := 10; fn_Bridge := "br-10"; fn_Address := ""; fn_Outputs := [] |}] |}.
Definition demo_cfg (ts : list (option FabricTunnel)) : Network :=
  {| net_ConfDir := ""; net_File := ""; net_Alias := ""; net_Name := "fab"; net_Provider := "fabric";
     net_Bridge := Some new_bridge; net_Subnet := None; net_OpenVPN := None; net_Links := []; net_Hosts := [];
     net_Routes := []; net_Password := []; net_Acl := ""; net_Specifies := Some (SpecFabric (demo_spec ts)) |}.
Definition demo_dump (name : string) : option Z :=
  if String.eqb name "vx-1111" then Some 1 else if String.eqb name "vx-2222" then Some 2
  else if String.eqb name "vx-3333" then Some 4 else if String.eqb name "vb-00000010" then Some 3 else None.
Definition demo_new (ts : list (option FabricTunnel)) : FabricWorker :=
  {| fw_name := "fab"; fw_spec := Some (demo_spec ts); fw_ovs := ""; fw_tunnels := ∅; fw_borders := ∅;
     fw_networks := ∅; fw_bridges := ∅; fw_requests := [] |}.
Definition demo_start (ts : list (option FabricTunnel)) : go (FabricWorker * FireWall) :=
  fabric_Start demo_dump (fun _ => true) (fun _ => true) (fun _ => None) (fun _ => true) map_to_list
    (fabric_Initialize true (demo_new ts)) {| chains := []; rules := [] |}.
Definition demo_started (ts : list (option FabricTunnel)) : FabricWorker :=
  match demo_start ts with Ret (w, _) => w | Panic => demo_new ts end.
Definition demo_rules : FireWall :=
  {| chains := []; rules := [bridge_mss "br-10" 1400; bridge_fwd "br-10"] |}.
Definition two_and_border : list (option FabricTunnel) :=
  [demo_tunnel "1.1.1.1" ""; demo_tunnel "2.2.2.2" ""; demo_tunnel "3.3.3.3" "border"].
Definition border_only : list (option FabricTunnel) := [demo_tunnel "3.3.3.3" "border"].
Definition demo_packet (port tun : Z) : packet :=
  {| pk_in := port; pk_tun := tun; pk_flag := 0; pk_known := fun _ => None |}.

Lemma demo_dump_pos name id : demo_dump name = Some id -> id <> 0.
Proof. unfold demo_dump. repeat case_match; intros [= <-]; done. Qed.

Lemma no_tunnel_port w id : map_Forall (fun _ pt => op_portId pt <> id) (fw_tunnels w) -> ~ tunnel_port w id.
Proof. intros H (nm & pt & Hp & E). by apply (H nm pt). Qed.
Lemma no_border_port w id : map_Forall (fun _ pt => op_portId pt <> id) (fw_borders w) -> ~ border_port w id.
Proof. intros H (nm & pt & Hp & E). by apply (H nm pt). Qed.
Lemma one_network_port w vni id : map_Forall (fun v n => op_portId (on_patch n) = id -> v = vni) (fw_networks w) ->
  forall v, network_port w v id -> v = vni.
Proof. intros H v (n & Hn & E). by apply (H v n). Qed.
Lemma no_network_port w id : map_Forall (fun _ n => op_portId (on_patch n) <> id) (fw_networks w) ->
  forall v, ~ network_port w v id.
Proof. intros H v (n & Hn & E). by apply (H v n). Qed.

Ltac recorded_at nm := exists nm; eexists; split; [vm_compute; reflexivity|reflexivity].
Lemma fabric_floods_witness :
  (let ft := flow_table (fw_requests (demo_started two_and_border)) in
   demo_run ft 0 (demo_packet 1 10) = [3; 4] /\ demo_run ft 0 (demo_packet 3 0) = [1; 2; 4]) /\
  (let ft := flow_table (fw_requests (demo_started border_only)) in
   demo_run ft 0 (demo_packet 3 0) = [] /\ demo_run ft 0 (demo_packet 4 10) = []).
Proof.
  assert (Hn : forall ts, nets_up demo_dump (demo_new ts)).
  { intros ts s n [= <-] [[= ->]|Hin]%elem_of_cons; [by eexists|by apply not_elem_of_nil in Hin]. }
  assert (Hk : forall i t v, pk_known (demo_packet i t) v = None) by done.
  assert (N1 : NewFabricWorker (demo_cfg two_and_border) = Ret (demo_new two_and_border)) by reflexivity.
  assert (N2 : NewFabricWorker (demo_cfg border_only) = Ret (demo_new border_only)) by reflexivity.
  assert (E1 : demo_start two_and_border = Ret (demo_started two_and_border, demo_rules)) by (vm_compute; reflexivity).
  assert (E2 : demo_start border_only = Ret (demo_started border_only, demo_rules)) by (vm_compute; reflexivity).
  assert (P1 : forall t, pk_in (demo_packet 1 t) <> 0) by (intros t; discriminate).
  assert (P3 : forall t, pk_in (demo_packet 3 t) <> 0) by (intros t; discriminate).
  assert (P4 : forall t, pk_in (demo_packet 4 t) <> 0) by (intros t; discriminate).
  pose proof (fun ts w p Hnew Hstart Hp Hq =>
    fabric_floods demo_run demo_dump (fun _ => true) (fun _ => true) (fun _ => None) (fun _ => true) map_to_list
      (demo_cfg ts) (demo_new ts) {| chains := []; rules := [] |} w demo_rules p demo_openflow demo_dump_pos
      Hnew (Hn ts) Hstart Hp Hq) as F.
  split; split.
  - destruct (F _ _ (demo_packet 1 10) N1 E1 (P1 10) (Hk 1 10)) as (_ & H & _).
    refine (eq_trans (H _ (no_border_port _ _ _) (no_network_port _ _ _)) _);
      [recorded_at "vx-1111"%string | by apply (bool_decide_unpack _); vm_compute..| vm_compute; reflexivity].
  - destruct (F _ _ (demo_packet 3 0) N1 E1 (P3 0) (Hk 3 0)) as (_ & _ & H & _).
    refine (eq_trans (H 10 _ _ (no_tunnel_port _ _ _) (no_border_port _ _ _) (one_network_port _ _ _ _)) _);
      [split; [discriminate|reflexivity]|eexists; split; [vm_compute; reflexivity|reflexivity]|by apply (bool_decide_unpack _); vm_compute..|vm_compute; reflexivity].
  - destruct (F _ _ (demo_packet 3 0) N2 E2 (P3 0) (Hk 3 0)) as (_ & _ & H & _).
    refine (eq_trans (H 10 _ _ (no_tunnel_port _ _ _) (no_border_port _ _ _) (one_network_port _ _ _ _)) _);
      [split; [discriminate|reflexivity]|eexists; split; [vm_compute; reflexivity|reflexivity]|by apply (bool_decide_unpack _); vm_compute..|vm_compute; reflexivity].
  - destruct (F _ _ (demo_packet 4 10) N2 E2 (P4 10) (Hk 4 10)) as (_ & _ & _ & H).
    refine (eq_trans (H _ (no_tunnel_port _ _ _) (no_network_port _ _ _)) _);
      [recorded_at "vx-3333"%string|by apply (bool_decide_unpack _); vm_compute..|vm_compute; reflexivity].
Defined.

Lemma fabric_tunnel_names_collide_witness :
  let ts := [demo_tunnel "192.168.1.11" ""; demo_tunnel "192.168.11.1" ""] in
  match start_tunnels (fun _ => Some 1) (fun _ => true) (fun _ => true) map_to_list (demo_spec ts) (demo_new ts) ts with
  | Panic => False
  | Ret w' => exists port o, fw_tunnels w' = {["vx-192168111"%string := port]} /\ op_options port = Some o /\
      io_RemoteIP o = "192.168.11.1"%string
  end.
Proof.
  cbv zeta. set (ts := [demo_tunnel "192.168.1.11" ""; demo_tunnel "192.168.11.1" ""]).
  destruct (start_tunnels (fun _ => Some 1) (fun _ => true) (fun _ => true) map_to_list (demo_spec ts) (demo_new ts) ts)
    as [w'|] eqn:E; [|by vm_compute in E].
  destruct (fabric_tunnel_names_collide (fun _ => Some 1) (fun _ => true) (fun _ => true) map_to_list (demo_spec ts)
    (demo_new ts) w' {| ft_DstPort := 4789; ft_Remote := "192.168.1.11"; ft_Local := ""; ft_Mode := "" |}
    {| ft_DstPort := 4789; ft_Remote := "192.168.11.1"; ft_Local := ""; ft_Mode := "" |} "vx-192168111" 1
    ltac:(vm_compute; reflexivity) ltac:(vm_compute; reflexivity) ltac:(done) ltac:(done) eq_refl eq_refl eq_refl eq_refl E)
    as (port & o & H1 & H2 & H3 & _).
  exists port, o. split; [exact H1|]. split; [exact H2|exact H3].
Defined.

Example fabric_examples :
  Addr2Port "192.168.100.100" "vx-" = Ret "vx-192168100100"%string /\
  vni2peer 10 = ("vt-00000010", "vb-00000010")%string /\
  VxLAN.Start (fun _ => false) (fun _ => true) (demo_cfg []) = Ret [] /\
  length (fw_requests (demo_started two_and_border)) = 29%nat.
Proof. vm_compute. repeat split. Qed.
