(* ===== verification/Relay.v ===== *)
(** * Carrying frames (pkg/libol/socket.go, pkg/olsw/switch.go, app/access.go, network/bridge_virtual.go)

    The goroutines between the parts: the two that read a client's messages and hand
    them to the switch, the two that read a point's tap and write to its client, and
    the one of a bridge that takes frames from a tap.  With them a frame's whole way
    through the switch is defined, from the message of one client to the message that
    is written to another. *)

From S2P Require Import Prelude GoStd Protocol Message SafeMap Tap Bridge Models UserCache NetCache Cache Socket Apps Switch.

Local Open Scope Z_scope.

(** ** A reader and a handler

    One goroutine reads and puts what it read into a queue, the other takes from the
    queue and handles; [done] tells the second that the first has ended.  Both
    [SocketServerImpl.Read] and [Switch.ReadTap] are of this form. *)

(** [p_src] is what reading is going to give, [p_hand] a frame that was read and not yet
    queued, [p_dones] what waits in [done]; [p_read] and [p_taken] record the frames that
    were read and those that were handled. *)
Record pipe (S : Type) := mk_pipe {
  p_src : list (result FrameMessage); p_hand : option FrameMessage; p_queue : list FrameMessage;
  p_reading : bool; p_dones : nat; p_running : bool; p_state : S;
  p_read : list FrameMessage; p_taken : list FrameMessage
}.
Arguments mk_pipe {S}.
Arguments p_src {S}.
Arguments p_hand {S}.
Arguments p_queue {S}.
Arguments p_reading {S}.
Arguments p_dones {S}.
Arguments p_running {S}.
Arguments p_state {S}.
Arguments p_read {S}.
Arguments p_taken {S}.

Section pipe.
(** The handler, with the time it runs at; what the reader does when it ends, and the
    handler when it does; which frames do not end the reading; the size of the queue. *)
Context {S : Type} (handle : S -> FrameMessage -> Z -> run (S * option error)).
Context (ended : S -> S) (leaves : S -> run S).
Context (usable : FrameMessage -> bool) (cap : Z).
Implicit Types s : pipe S.

Definition fresh_pipe (src : list (result FrameMessage)) (st : S) : pipe S :=
  mk_pipe src None [] true 0 true st [] [].

Inductive pstep : pipe S -> pipe S -> Prop :=
| P_read f src q d run st rd tk :
    usable f = true ->
    pstep (mk_pipe (inl f :: src) None q true d run st rd tk)
          (mk_pipe src (Some f) q true d run st (rd ++ [f]) tk)
| P_end r src q d run st rd tk :
    (forall f, r = inl f -> usable f = false) ->
    pstep (mk_pipe (r :: src) None q true d run st rd tk)
          (mk_pipe src None q false (1 + d) run (ended st) rd tk)
| P_push src f q rding d run st rd tk :
    zlen q < cap ->
    pstep (mk_pipe src (Some f) q rding d run st rd tk)
          (mk_pipe src None (q ++ [f]) rding d run st rd tk)
| P_handle src h f q rding d st rd tk now st' :
    handle st f now = Finished (st', None) ->
    pstep (mk_pipe src h (f :: q) rding d true st rd tk)
          (mk_pipe src h q rding d true st' rd (tk ++ [f]))
| P_refuse src h f q rding d st rd tk now st1 e st' :
    handle st f now = Finished (st1, Some e) -> leaves st1 = Finished st' ->
    pstep (mk_pipe src h (f :: q) rding d true st rd tk)
          (mk_pipe src h q rding d false st' rd (tk ++ [f]))
| P_done src h q rding d st rd tk st' :
    leaves st = Finished st' ->
    pstep (mk_pipe src h q rding (1 + d) true st rd tk)
          (mk_pipe src h q rding d false st' rd tk)
| P_other src h q rding d run st st' rd tk :
    pstep (mk_pipe src h q rding d run st rd tk)
          (mk_pipe src h q rding d run st' rd tk).

Definition pipe_inv (src : list (result FrameMessage)) s : Prop :=
  p_read s = p_taken s ++ p_queue s ++ option_list (p_hand s) /\
  (if p_reading s then src = map inl (p_read s) ++ p_src s
   else p_hand s = None /\ exists r, src = map inl (p_read s) ++ r :: p_src s /\
     forall f, r = inl f -> usable f = false) /\
  Forall (fun f => usable f = true) (p_read s).

Lemma pstep_inv src s s' : pstep s s' -> pipe_inv src s -> pipe_inv src s'.
Proof.
  intros Hs (H1 & H2 & H3). destruct Hs; simpl in *; unfold pipe_inv; simpl.
  - rewrite app_nil_r in H1. subst rd. split; [by rewrite <- !app_assoc|]. split.
    + by rewrite H2, (map_app inl (tk ++ q) [f]), <- app_assoc.
    + apply Forall_app. split; [done|]. by constructor.
  - split; [done|]. split; [|done]. split; [done|]. by exists r.
  - rewrite app_nil_r. split; [done|]. split; [|done]. destruct rding; [done|]. by destruct H2.
  - split; [|done]. rewrite H1, <- app_assoc. done.
  - split; [|done]. rewrite H1, <- app_assoc. done.
  - done.
  - done.
Qed.

Lemma psteps_inv src st s : rtc pstep (fresh_pipe src st) s -> pipe_inv src s.
Proof.
  intros H. assert (G : pipe_inv src (fresh_pipe src st)) by done.
  remember (fresh_pipe src st) as s0 eqn:E. clear E. induction H; [done|]. eauto using pstep_inv.
Qed.

(** The handler has stopped and nobody takes from the queue any more. *)
Definition blocked s : Prop :=
  is_Some (p_hand s) /\ cap <= zlen (p_queue s) /\ p_running s = false /\ p_reading s = true.

Lemma blocked_step s s' : pstep s s' -> blocked s -> blocked s'.
Proof.
  intros Hs ([f Hf] & Hc & Hr & Hd). destruct Hs; simpl in *; (done || lia || by split; [eexists|]).
Qed.

(** There is enough left to read to fill the queue. *)
Definition will_block s : Prop :=
  p_running s = false /\ p_reading s = true /\ zlen (p_queue s) <= cap /\
  exists good rest, p_src s = map inl good ++ rest /\ Forall (fun f => usable f = true) good /\
    cap < zlen (p_queue s) + zlen (option_list (p_hand s)) + zlen good.

Lemma will_block_step s s' : pstep s s' -> will_block s -> will_block s'.
Proof.
  intros Hs (Hr & Hd & Hq & good & rest & Hg & Hu & Hc). unfold zlen in *.
  destruct Hs as [f src q d run st rd tk Hf|r src q d run st rd tk Hf|src f q rding d run st rd tk Hq'| | | |];
    simpl in *; subst; try done.
  - destruct good as [|g good]; simpl in *; [lia|]. injection Hg as -> Hg.
    apply Forall_cons in Hu as [_ Hu]. split; [done|]. split; [done|]. split; [done|].
    exists good, rest. simpl. split; [done|]. split; [done|]. unfold zlen in *. simpl in *. lia.
  - destruct good as [|g good]; simpl in *; [lia|]. injection Hg as -> Hg.
    apply Forall_cons in Hu as [Hu _]. by rewrite (Hf g eq_refl) in Hu.
  - split; [done|]. split; [done|]. split; [|exists good, rest; split; [done|]; split; [done|]];
      unfold zlen in *; simpl; rewrite length_app; simpl in *; lia.
  - split; [done|]. split; [done|]. split; [done|]. by exists good, rest.
Qed.

Lemma will_block_blocks s : will_block s -> exists s', rtc pstep s s' /\ blocked s'.
Proof.
  intros (Hr & Hd & Hq & good & rest & Hg & Hu & Hc). destruct s as [src h q rding d run st rd tk]. simpl in *. subst.
  revert h q Hq rd Hc. induction good as [|f good IH]; intros h q Hq rd Hc; unfold zlen in *; simpl in *.
  - destruct h as [f|]; simpl in *; [|lia]. eexists. split; [done|]. split; [by eexists|].
    unfold zlen. simpl. split; [lia|done].
  - apply Forall_cons in Hu as [Hf Hu]. destruct h as [f0|]; simpl in *.
    + destruct (decide (Z.of_nat (length q) < cap)) as [Hlt|Hge].
      * destruct (IH Hu (Some f) (q ++ [f0])) with (rd := rd ++ [f]) as (s' & Hs' & Hb).
        { rewrite length_app. simpl. lia. }
        { rewrite length_app. simpl. lia. }
        exists s'. split; [|done]. eapply rtc_l; [by apply P_push|]. eapply rtc_l; [by apply P_read|]. done.
      * eexists. split; [done|]. split; [by eexists|]. unfold zlen. simpl. split; [lia|done].
    + destruct (IH Hu (Some f) q) with (rd := rd ++ [f]) as (s' & Hs' & Hb); [done|simpl; lia|].
      exists s'. split; [|done]. eapply rtc_l; [by apply P_read|]. done.
Qed.

Lemma will_block_steps s s' : rtc pstep s s' -> will_block s -> will_block s'.
Proof. induction 1; eauto using will_block_step. Qed.
End pipe.

(** ** The goroutines *)

(** The two of [SocketServerImpl.Read] for the client [c], over the listener's [ReadAt];
    [wr] is the size of the queue.  When the reading ends, the client is given up. *)
Definition server_reader (ReadAt : Switch -> FrameMessage -> Z -> run (Switch * option error)) (c : client_id) (wr : Z)
    : pipe Switch -> pipe Switch -> Prop :=
  pstep ReadAt (fun v => sw_upd v (emit (sw_world v) (OffClient c))) Finished (fun f => 0 <? size f) wr.

(** What [onAuth] has the switch do with a frame of the client's tap; [failed] is the
    error of [WriteMsg], if any. *)
Definition relay (c : client_id) (w : world) (failed : option error) : world * option error :=
  match failed with
  | Some e => (emit w (OffClient c), Some e)
  | None => (w, None)
  end.
(** The two of [ReadTap] for the device [d] of the client [c]; [write] is what [WriteMsg]
    of a frame answers at a time.  The handler closes the device when it ends. *)
Definition tap_reader (write : FrameMessage -> Z -> option error) (c : client_id) (d : dev_id) (tapwr : Z)
    : pipe Switch -> pipe Switch -> Prop :=
  pstep (fun v f now => let '(w, e) := relay c (sw_world v) (write f now) in Finished (sw_upd v w, e))
    (fun v => v)
    (fun v => p ← close_tap (sw_plant v) d; Finished (sw_set v (sw_auth v) (sw_online v) (sw_world v) p))
    (fun _ => true) tapwr.

(** One round of the goroutine [AddSlave] starts for the tap [d]; [false] when it ends. *)
Definition bridge_round (order : list (string * dev_id)) (now : Z) (v : plant) (id : bridge_id) (d : dev_id)
    : run (plant * bool) :=
  match pl_bridges v !! id, pl_devs v !! d with
  | Some br, Some dev =>
      r ← vt_Recv dev (ipMtu br);
      let '(dev, r) := r : VirtualTap * result bytes in
      let devs := <[d := dev]> (pl_devs v) in
      match r with
      | inr _ => Finished (pl_set v (pl_taps v) devs (pl_next v) (pl_bridges v), false)
      | inl data =>
          if zlen data =? 0 then Finished (pl_set v (pl_taps v) devs (pl_next v) (pl_bridges v), false)
          else
            r ← Input order now br devs
                  {| Data := data; spare := make_bytes (ipMtu br - zlen data); Source := d |};
            Finished (pl_set v (pl_taps v) r.2 (pl_next v) (<[id := r.1]> (pl_bridges v)), true)
      end
  | _, _ => Crashes
  end.

(** What the reader of [ReadTap] makes of one read of the tap. *)
Definition tap_round (v : plant) (d : dev_id) : run (plant * result FrameMessage) :=
  match pl_devs v !! d with
  | None => Crashes
  | Some dev =>
      let frame := NewFrameMessage 0 in
      r ← vt_Read dev (frame_len frame);
      let '(dev, r) := r : VirtualTap * result bytes in
      let v := pl_set v (pl_taps v) (<[d := dev]> (pl_devs v)) (pl_next v) (pl_bridges v) in
      match r with
      | inr e => Finished (v, inr e)
      | inl data =>
          b ← lift (frame_copy frame 0 data);
          Finished (v, inl {| control := control frame; action := action frame; params := params frame;
                              buffer := b; frame_len := frame_len frame; size := zlen data;
                              total := total frame; proto := proto frame |})
      end
  end.

(** [leftClient]: telling a client that the switch goes away. *)
Definition leftClient (encode_left : string -> string -> option bytes) (w : world) (c : client_id) : world :=
  match encode_left c (local_addr w c) with
  | Some body => emit w (WriteMsg c LeftReq body)
  | None => w
  end.

(** ** Frames of a client *)

(** (C21) The frames of a client are handled in the order they came, each once: whatever the
    interleaving of the reader and the handler, and whatever else changes the switch
    meanwhile, the frames that were handled, those in the queue and the one on its way
    to it are together what was read so far, a prefix of what the client sent; and the
    reader has ended exactly at the first error or empty message. *)
Theorem frames_handled_in_order ReadAt c wr src v0 s :
  rtc (server_reader ReadAt c wr) (fresh_pipe src v0) s ->
  exists rest, src = map inl (p_taken s ++ p_queue s ++ option_list (p_hand s)) ++ rest /\
    Forall (fun f => 0 < size f) (p_taken s ++ p_queue s ++ option_list (p_hand s)) /\
    (p_reading s = false -> p_hand s = None /\ exists r rest', rest = r :: rest' /\
       forall f, r = inl f -> size f <= 0).
Proof.
  intros H. apply psteps_inv in H as (H1 & H2 & H3). rewrite <- H1.
  assert (Hu : Forall (fun f => 0 < size f) (p_read s)) by (eapply Forall_impl; [exact H3|]; simpl; lia).
  destruct (p_reading s).
  - by exists (p_src s).
  - destruct H2 as (Hn & r & Hs & Hr). exists (r :: p_src s). split; [done|]. split; [done|]. intros _.
    split; [done|]. exists r, (p_src s). split; [done|]. intros f ->. specialize (Hr f eq_refl). lia.
Qed.

(** A client whose frame the switch could not handle is neither served nor given up: the
    handler has ended, and once the client has sent as many messages as the queue holds,
    and one more, the reader waits to queue the next for ever, so that the connection
    stays open and counted, and nothing on it is handled any more. *)
Theorem refused_client_hangs ReadAt c wr s good rest :
  p_running s = false -> p_reading s = true -> zlen (p_queue s) <= wr ->
  p_src s = map inl good ++ rest -> Forall (fun f => 0 < size f) good -> wr < zlen good ->
  forall s', rtc (server_reader ReadAt c wr) s s' ->
    p_reading s' = true /\ p_running s' = false /\
    exists s2, rtc (server_reader ReadAt c wr) s' s2 /\ blocked wr s2 /\
      forall s3, rtc (server_reader ReadAt c wr) s2 s3 -> blocked wr s3.
Proof.
  intros Hr Hd Hq Hs Hu Hl s' Hsteps.
  assert (Hw : will_block (fun f => 0 <? size f) wr s).
  { split; [done|]. split; [done|]. split; [done|]. exists good, rest. split; [done|]. split.
    - eapply Forall_impl; [exact Hu|]. simpl. lia.
    - pose proof (zlen_nonneg (p_queue s)). pose proof (zlen_nonneg (option_list (p_hand s))). lia. }
  apply (will_block_steps _ _ _ _ _ _ _ Hsteps) in Hw. split; [apply Hw|]. split; [apply Hw|].
  destruct (will_block_blocks ReadAt (fun v => sw_upd v (emit (sw_world v) (OffClient c))) Finished _ _ _ Hw) as (s2 & Hs2 & Hb). exists s2. split; [done|]. split; [done|].
  intros s3 H3. clear -H3 Hb. induction H3; eauto using blocked_step.
Qed.

(** ** A frame's way through the switch *)

Lemma side_recv h q n buf ow p l :
  side_ok h q n buf ow -> chan_items h q = p :: l ->
  exists h', chan_recv h q = Finished (h', p) /\ side_ok h' q (n - 1) buf ow /\ chan_items h' q = l /\
    (forall q', q' <> q -> (forall n' b' o', side_ok h q' n' b' o' -> side_ok h' q' n' b' o') /\
                chan_items h' q' = chan_items h q').
Proof.
  intros (c & ch & -> & Hc & Hcl & Hcap & Hn & Ho & Hle) Hi. unfold chan_items in Hi. rewrite Hc in Hi.
  unfold chan_recv. rewrite Hc, Hi. pose proof (lookup_lt_Some _ _ _ Hc) as Hlen. eexists. split; [done|].
  split; [|split].
  - eexists c, _. split; [done|]. rewrite list_lookup_insert_eq by done. split; [done|]. simpl.
    rewrite Hi in Hn. unfold zlen in *. simpl in Hn. repeat split; lia || done.
  - unfold chan_items. by rewrite list_lookup_insert_eq.
  - intros q' Hq. split.
    + intros n' b' o' (c' & ch' & -> & Hc' & H'). exists c', ch'. split; [done|].
      by rewrite list_lookup_insert_ne by congruence.
    + destruct q' as [c'|]; [|done]. unfold chan_items. by rewrite list_lookup_insert_ne by congruence.
Qed.

(** Receiving from a tap gives the first frame written to it, cut to the buffer. *)
Lemma vt_recv_head t n p l :
  vt_inv t -> hasFlags t UsUp = true -> chan_items (chans t) (virtQ t) = p :: l ->
  exists t', vt_Recv t n = Finished (t', inl (copy_out n p)) /\ vt_inv t' /\ flags t' = flags t /\
    name t' = name t /\ cfg t' = cfg t /\ chan_items (chans t') (virtQ t') = l.
Proof.
  intros (Hk & Hv & Hup) Hu Hi. unfold vt_Recv, read_check. rewrite Hu. simpl.
  destruct (Hup Hu) as (ok & ov & Sk & Sv & Hne).
  destruct (side_recv _ _ _ _ _ _ _ Sv Hi) as (h' & E & Sv' & Hi' & Hoth).
  unfold recv_take. rewrite E. cbn [mbind run_bind]. pose proof (side_ok_bounds _ _ _ _ _ Sv).
  eexists. split; [done|]. split; [|done]. split; [done|]. split; [done|]. intros _. exists ok, ov. simpl.
  rewrite wrap64s_id by (unfold i64; lia). split; [|done]. by apply Hoth.
Qed.
Lemma vt_read_head t n p l :
  vt_inv t -> hasFlags t UsUp = true -> chan_items (chans t) (kernQ t) = p :: l ->
  exists t', vt_Read t n = Finished (t', inl (copy_out n p)) /\ vt_inv t' /\
    chan_items (chans t') (kernQ t') = l.
Proof.
  intros (Hk & Hv & Hup) Hu Hi. unfold vt_Read, read_check. rewrite Hu. simpl.
  destruct (Hup Hu) as (ok & ov & Sk & Sv & Hne).
  destruct (side_recv _ _ _ _ _ _ _ Sk Hi) as (h' & E & Sk' & Hi' & Hoth).
  unfold read_take. rewrite E. cbn [mbind run_bind]. pose proof (side_ok_bounds _ _ _ _ _ Sk).
  eexists. split; [done|]. split; [|done]. split; [done|]. split; [done|]. intros _. exists ok, ov. simpl.
  rewrite wrap64s_id by (unfold i64; lia). split; [done|]. split; [|congruence]. by apply Hoth.
Qed.

(** Another tap on the bridge that is up and unchanged but for its queue. *)
Lemma bridge_ok_insert br (devs : store VirtualTap) d t :
  bridge_ok br devs -> vt_inv t -> bridge_ok br (<[d := t]> devs).
Proof.
  intros (Hi & Hp & Hj & Hf) Ht. split; [|split; [|split]].
  - intros d' t' [[_ <-]|[_ H]]%lookup_insert_Some; [by split|by apply (Hi d')].
  - intros n d' H. destruct (decide (d = d')) as [->|Hne]; [rewrite lookup_insert_eq; by eexists|].
    rewrite lookup_insert_ne by done. by eapply Hp.
  - done.
  - intros k f H. destruct (decide (d = Device f)) as [->|Hne]; [rewrite lookup_insert_eq; by eexists|].
    rewrite lookup_insert_ne by done. by eapply Hf.
Qed.

(** The frame a bridge makes of what it takes from the tap [d]. *)
Definition taken_frame (br : VirtualBridge) (d : dev_id) (p : bytes) : Framer :=
  let data := copy_out (ipMtu br) p in
  {| Data := data; spare := make_bytes (ipMtu br - zlen data); Source := d |}.

Lemma taken_frame_ok br d p : 12 <= ipMtu br -> 12 <= zlen p -> bytes_ok p ->
  frame_ok (taken_frame br d p) /\ 12 <= zlen (copy_out (ipMtu br) p).
Proof.
  intros Hm Hl Hok. assert (H : 12 <= zlen (copy_out (ipMtu br) p)).
  { unfold copy_out, zlen in *. rewrite length_take. lia. }
  split; [|done]. split; unfold backing, taken_frame; simpl.
  - apply bytes_ok_app. split; [by apply bytes_ok_take|apply bytes_ok_make].
  - rewrite zlen_app. pose proof (zlen_nonneg (make_bytes (ipMtu br - zlen (copy_out (ipMtu br) p)))). lia.
Qed.

(** One round of the bridge: the first frame of the tap goes to its recipients. *)
Lemma bridge_round_delivers order now v id br d t p l :
  pl_bridges v !! id = Some br -> pl_devs v !! d = Some t -> bridge_ok br (pl_devs v) ->
  hasFlags t UsUp = true -> chan_items (chans t) (virtQ t) = p :: l ->
  12 <= ipMtu br -> 12 <= zlen p -> bytes_ok p -> order ≡ₚ map_to_list (ports br) ->
  exists v', bridge_round order now v id d = Finished (v', true) /\
    forall d2 t2, pl_devs v !! d2 = Some t2 -> d2 <> d ->
      exists t2', pl_devs v' !! d2 = Some t2' /\
        sent_or_same (copy_out (ipMtu br) p) (recipient br (taken_frame br d p) now d2 t2) t2 t2'.
Proof.
  intros Hb Hd Hok Hu Hi Hm Hl Hp Ho. unfold bridge_round. rewrite Hb, Hd.
  destruct (proj1 Hok d t Hd) as [Ht _].
  destruct (vt_recv_head t (ipMtu br) p l Ht Hu Hi) as (t' & E & Ht' & _). rewrite E. cbn [mbind run_bind].
  destruct (taken_frame_ok br d p Hm Hl Hp) as [Hf Hz]. rewrite (proj2 (Z.eqb_neq _ _)) by lia.
  destruct (Input_spec order now br (<[d := t']> (pl_devs v)) (taken_frame br d p)) as (br' & devs' & Ei & H).
  - by apply bridge_ok_insert.
  - done.
  - simpl. rewrite lookup_insert_eq. by eexists.
  - done.
  - unfold taken_frame in Ei. rewrite Ei. cbn [mbind run_bind fst snd]. eexists. split; [done|].
    intros d2 t2 H2 Hne. simpl. apply H. by rewrite lookup_insert_ne.
Qed.

(** One read of a tap: its first frame becomes a message. *)
Lemma tap_round_reads v d t p l :
  pl_devs v !! d = Some t -> vt_inv t -> hasFlags t UsUp = true ->
  chan_items (chans t) (kernQ t) = p :: l -> zlen p <= MaxBuf + EthDI ->
  exists v' m, tap_round v d = Finished (v', inl m) /\ msg_wf m /\ payload m = p /\ size m = zlen p.
Proof.
  intros Hd Ht Hu Hi Hz. unfold tap_round. rewrite Hd.
  assert (Hl : frame_len (NewFrameMessage 0) = MaxBuf + EthDI) by reflexivity. rewrite Hl.
  destruct (vt_read_head t (MaxBuf + EthDI) p l Ht Hu Hi) as (t' & E & _). rewrite E. cbn [mbind run_bind].
  assert (Hc : copy_out (MaxBuf + EthDI) p = p) by (unfold copy_out; apply take_ge; unfold zlen in Hz; lia).
  rewrite Hc. destruct (NewFrameMessage_wf 0) as (Hw & _ & _).
  destruct (msg_split _ Hw) as (h & Eh & Hh & Hfl). pose proof (zlen_nonneg p).
  rewrite (frame_copy_ok _ h (Frame (NewFrameMessage 0)) 0 p) by (done || (rewrite ?Hfl, ?Hl; unfold MaxBuf, EthDI in *; lia)).
  cbn [lift mbind run_bind]. eexists _, _. split; [done|].
  assert (Hzf : zlen (Frame (NewFrameMessage 0)) = MaxBuf + EthDI) by congruence.
  assert (HL : length (write_at (Frame (NewFrameMessage 0)) (Z.to_nat 0) p) = length (Frame (NewFrameMessage 0))).
  { apply length_write_at. unfold zlen in *. simpl. lia. }
  split; [|split; [|done]].
  - split; [|split; [done|]]; cbn [buffer frame_len size total].
    + rewrite zlen_app. unfold zlen in *. rewrite HL, Hh. unfold HlSize. lia.
    + change (total (NewFrameMessage 0)) with (frame_len (NewFrameMessage 0)). rewrite Hl. unfold zlen in *. lia.
  - unfold payload. cbn [size]. unfold Frame at 1. cbn [buffer frame_len]. unfold HlSize.
    rewrite drop_app_length' by (rewrite Hh; done). rewrite take_take. unfold zlen. rewrite Nat.min_l.
    + rewrite Nat2Z.id. unfold write_at.
      change (Z.to_nat 0) with 0%nat. rewrite (take_ge p) by (unfold zlen in *; lia). rewrite take_0, app_nil_l. by apply take_app_length.
    + unfold zlen in *. lia.
Qed.

(** (C2) A frame crosses the switch: a well-formed Ethernet frame of a client that has logged
    in goes onto the tap of its point; the bridge takes it from there, and the tap of
    every other point that is to get it (the one its destination was last seen on, or
    all of them), if it has room and nothing waits in it, gives one message for the
    client of that point whose payload is the frame, cut to the bridge's [ipMtu] bytes,
    which is the frame itself unless it is longer; taps of points that are not to get it
    are left as they were. *)
Theorem frame_crosses_switch decode_user dial decode_net encode_net encode_neighbors encode_sign norder tz
    (v : Switch) (c : client_id) (f : FrameMessage) (now now2 : Z) (p : Point.t) (d : dev_id) (t : VirtualTap)
    (id : bridge_id) (br : VirtualBridge) (order : list (string * dev_id)) :
  have (sw_world v) c ClAuth = true -> isControl (Frame f) = false -> proto f = None ->
  (exists fp, proto_Decode (new_proto (Frame f)) = Ret fp /\ fp_Err fp = None) ->
  private_point (sw_world v) c = Some p -> Point.Device p = Some d ->
  pl_devs (sw_plant v) !! d = Some t -> hasFlags t UsUp = true ->
  chan_items (chans t) (virtQ t) = [] -> virtC t < VirBuf (cfg t) ->
  pl_bridges (sw_plant v) !! id = Some br -> bridge_ok br (pl_devs (sw_plant v)) ->
  order ≡ₚ map_to_list (ports br) -> 12 <= ipMtu br <= MaxBuf -> 12 <= zlen (Frame f) -> bytes_ok (Frame f) ->
  let cut := take (Z.to_nat (ipMtu br)) (Frame f) in
  exists v1 pl2,
    ReadClient decode_user dial decode_net encode_net encode_neighbors encode_sign norder tz v c f now =
      Finished (v1, None) /\
    bridge_round order now2 (sw_plant v1) id d = Finished (pl2, true) /\
    forall d2 t2, pl_devs (sw_plant v) !! d2 = Some t2 -> d2 <> d ->
      let hit := recipient br (taken_frame br d (Frame f)) now2 d2 t2 in
      (~ hit -> pl_devs pl2 !! d2 = Some t2) /\
      (hit -> room t2 -> queued t2 = [] ->
         exists pl3 m, tap_round pl2 d2 = Finished (pl3, inl m) /\ msg_wf m /\
           payload m = cut /\ size m = Z.min (ipMtu br) (zlen (Frame f))).
Proof.
  intros Ha Hc Hp Hfp Hpt Hd Ht Hu Hq Hroom Hbr Hok Ho Hm Hl Hb cut.
  destruct (proj1 Hok d t Ht) as [Hi _].
  destruct (client_frame_reaches_tap decode_user dial decode_net encode_net encode_neighbors encode_sign norder tz
    v c f now p d t Ha Hc Hp Hfp Hpt Hd Ht Hi Hu) as (v1 & t1 & E1 & Hdevs & Hi1 & Hup1 & Hq1 & Hbrs & _).
  rewrite Hq, (proj2 (Z.ltb_lt _ _)) in Hq1 by done. simpl in Hq1.
  destruct (bridge_round_delivers order now2 (sw_plant v1) id br d t1 (Frame f) []) as (pl2 & E2 & H2); try done.
  { by rewrite Hbrs. }
  { rewrite Hdevs. apply lookup_insert_eq. }
  { rewrite Hdevs. by apply bridge_ok_insert. }
  { unfold hasFlags in *. by rewrite Hup1. }
  { lia. }
  exists v1, pl2. split; [done|]. split; [done|]. intros d2 t2 Hd2 Hne hit.
  destruct (H2 d2 t2) as (t2' & Ht2' & Hs1 & Hs2); [by rewrite Hdevs, lookup_insert_ne|done|]. split.
  - intros Hn. by rewrite <- (Hs2 Hn).
  - intros Hhit Hr Hq2. destruct (Hs1 Hhit) as [r Es]. destruct (proj1 Hok d2 t2 Hd2) as [Hi2 _].
    destruct (send_frame t2 _ t2' r Hi2 Es) as (Hi2' & _ & Hh & _).
    pose proof (send_room t2 _ t2' r Hi2 Hr Es) as Hq2'. rewrite Hq2 in Hq2'.
    destruct (tap_round_reads pl2 d2 t2' cut []) as (pl3 & m & E3 & Hw & Hpl & Hsz); try done.
    + rewrite <- (room_up t2 Hr). apply Hh.
    + unfold cut, zlen, MaxBuf, EthDI in *. rewrite length_take. lia.
    + exists pl3, m. split; [done|]. split; [done|]. split; [done|]. rewrite Hsz.
      unfold cut, zlen. rewrite length_take. lia.
Qed.

(** Frames longer than the bridge's buffer arrive without their end. *)
Lemma bridge_cuts_frames br f d : 0 <= ipMtu br < zlen (Frame f) ->
  Data (taken_frame br d (Frame f)) = take (Z.to_nat (ipMtu br)) (Frame f) /\
  zlen (Data (taken_frame br d (Frame f))) = ipMtu br.
Proof.
  intros H. split; [done|]. unfold taken_frame, copy_out, zlen in *. simpl. rewrite length_take. lia.
Qed.

(** ** Two points on a bridge *)

Definition two_taps : plant :=
  match sw_NewTap demo_plant "net" with
  | Finished (v, _) => match sw_NewTap v "net" with Finished (v, _) => v | _ => v end
  | _ => demo_plant
  end.
Definition two_points : Switch := demo_switch two_taps logged_in_world.
Definition demo_br : VirtualBridge := default (NewVirtualBridge "" 0) (pl_bridges two_taps !! 0%nat).

Lemma demo_taps_ok : bridge_ok demo_br (pl_devs (sw_plant two_points)).
Proof.
  assert (Hd : forall d t, pl_devs (sw_plant two_points) !! d = Some t -> vt_inv t).
  { assert (E : pl_devs (sw_plant two_points) = {[ 0%nat := demo_tap0; 1%nat := default demo_tap0 (pl_devs two_taps !! 1%nat) ]})
      by (vm_compute; reflexivity).
    assert (Hi : forall t, chans t = [new_chan 4; new_chan 4] -> kernQ t = Some 0%nat -> virtQ t = Some 1%nat ->
      kernC t = 0 -> virtC t = 0 -> KernBuf (cfg t) = 4 -> VirBuf (cfg t) = 4 -> vt_inv t).
    { intros t Hc Hk Hv Kc Vc Kb Vb. unfold vt_inv. rewrite Hc, Hk, Hv, Kc, Vc, Kb, Vb. split; [lia|]. split; [lia|].
      intros _. exists 0, 0. split; [|split; [|done]]; (eexists _, _; split; [done|]; split; [done|]);
        unfold zlen; simpl; lia || (split_and!; lia || done). }
    intros d t H. rewrite E in H.
    apply lookup_insert_Some in H as [[_ <-]|[_ [_ <-]%lookup_singleton_Some]]; apply Hi; vm_compute; reflexivity. }
  assert (Hp : ports demo_br = {[ "auto"%string := 1%nat ]}) by (vm_compute; reflexivity).
  split; [intros d t H; split; [by eapply Hd|done]|]. rewrite Hp. split; [|split].
  - intros n d [_ <-]%lookup_singleton_Some. vm_compute. by eexists.
  - intros n1 n2 d [<- _]%lookup_singleton_Some [<- _]%lookup_singleton_Some. done.
  - intros k g H. assert (Hm : macs demo_br = ∅) by (vm_compute; reflexivity). by rewrite Hm, lookup_empty in H.
Qed.

Lemma frame_crosses_switch_witness :
  let f := arp_frame [2; 0; 0; 0; 0; 1] in
  exists v1 pl2 pl3 m, ReadClient (fun _ => None) (fun _ => None) (fun _ => None) (fun _ => None) (fun _ => None)
      (fun _ _ => None) (fun _ => []) 0 two_points "10.0.0.9:5000" f 60 = Finished (v1, None) /\
    bridge_round [("auto"%string, 1%nat)] 60 (sw_plant v1) 0%nat 0%nat = Finished (pl2, true) /\
    tap_round pl2 1%nat = Finished (pl3, inl m) /\ payload m = Frame f.
Proof.
  intros f.
  destruct (frame_crosses_switch (fun _ => None) (fun _ => None) (fun _ => None) (fun _ => None)
    (fun _ => None) (fun _ _ => None) (fun _ => []) 0 two_points "10.0.0.9:5000" f 60 60
    (default (demo_point "" "") (private_point logged_in_world "10.0.0.9:5000")) 0%nat demo_tap0
    0%nat demo_br [("auto"%string, 1%nat)]) as (v1 & pl2 & E1 & E2 & H);
    [reflexivity|reflexivity|reflexivity| |reflexivity|reflexivity|vm_compute; reflexivity|reflexivity
    |reflexivity|reflexivity|vm_compute; reflexivity|exact demo_taps_ok|vm_compute; reflexivity
    |vm_compute; split; discriminate|vm_compute; discriminate| |].
  - destruct (proto_Decode (new_proto (Frame f))) as [fp|] eqn:Ep; [|by vm_compute in Ep].
    exists fp. split; [reflexivity|]. vm_compute in Ep. injection Ep as <-. reflexivity.
  - repeat constructor; vm_compute; congruence.
  - destruct (H 1%nat (default demo_tap0 (pl_devs two_taps !! 1%nat))) as [_ H1]; [vm_compute; reflexivity|discriminate|].
    destruct H1 as (pl3 & m & E3 & _ & Hm & _).
    + split; [discriminate|]. vm_compute. by exists "auto"%string.
    + split; reflexivity.
    + reflexivity.
    + exists v1, pl2, pl3, m. split; [exact E1|]. split; [exact E2|]. split; [exact E3|].
      rewrite Hm. vm_compute. reflexivity.
Defined.

Definition no_handler (v : Switch) (f : FrameMessage) (now : Z) : run (Switch * option error) := Finished (v, None).
Definition two_frames : list (result FrameMessage) :=
  let f b := match NewFrameMessageFromBytes (make_bytes 4 ++ [b]) with Ret f => f | Panic => NewFrameMessage 1 end in
  [inl (f 1); inl (f 2); inr not_up].

Lemma frames_handled_in_order_witness :
  exists s, rtc (server_reader no_handler "10.0.0.9:5000" 1) (fresh_pipe two_frames two_points) s /\
    length (p_taken s) = 1%nat /\ p_reading s = false /\
    two_frames = map inl (p_taken s ++ p_queue s ++ option_list (p_hand s)) ++ [inr not_up].
Proof.
  assert (Hs : exists s, rtc (server_reader no_handler "10.0.0.9:5000" 1) (fresh_pipe two_frames two_points) s /\
    length (p_taken s) = 1%nat /\ p_reading s = false /\ length (p_queue s) = 1%nat).
  { eexists. split.
    - eapply rtc_l; [by apply P_read|]. eapply rtc_l; [by apply P_push|]. eapply rtc_l; [by apply P_read|].
      eapply rtc_l; [by apply (P_handle _ _ _ _ _ _ _ _ _ _ _ _ _ _ 0)|].
      eapply rtc_l; [by apply P_push|]. eapply rtc_l; [by apply P_end|]. apply rtc_refl.
    - split; [reflexivity|]. split; reflexivity. }
  destruct Hs as (s & H & Ht & Hr & Hq). exists s. split; [exact H|]. split; [exact Ht|]. split; [exact Hr|].
  destruct (frames_handled_in_order no_handler "10.0.0.9:5000" 1 two_frames two_points s H) as (rest & E & _ & He).
  destruct (He Hr) as (Hh & r & rest' & -> & _). rewrite Hh in E |- *.
  destruct (p_taken s) as [|a [|]]; [discriminate| |discriminate].
  destruct (p_queue s) as [|b [|]]; [discriminate| |discriminate].
  simpl in E |- *. unfold two_frames in E |- *. injection E as <- <- _ _. reflexivity.
Defined.

Lemma refused_client_hangs_witness :
  let good := take 2 two_frames in
  let s := mk_pipe (concat [good; good]) None [] true 0 false two_points [] [] in
  exists s2, rtc (server_reader no_handler "10.0.0.9:5000" 1) s s2 /\ blocked 1 s2.
Proof.
  intros good s.
  destruct (refused_client_hangs no_handler "10.0.0.9:5000" 1 s (omap (fun r => match r with inl f => Some f | inr _ => None end) (concat [good; good])) [])
    with (s' := s) as (_ & _ & s2 & H & Hb & _);
    [reflexivity|reflexivity|discriminate|reflexivity|repeat constructor|reflexivity|apply rtc_refl|].
  exists s2. split; [exact H|exact Hb].
Defined.
