(* ===== verification/Xdp.v ===== *)
(** * Connections over one datagram socket (pkg/libol/xdp.go)

    [XDP] is a listener over UDP: its loop takes every datagram from one socket and
    gives it to the connection of its sender, which it makes, and offers to [Accept],
    when it sees the sender for the first time.  The loop, those who accept and those who
    use connections run beside each other: the model is a step relation, with the loop
    cut where it may have to wait.  Connections are objects in a store, shared by the
    table of sessions, the queue of [Accept] and their users. *)

From S2P Require Import Prelude SafeMap Message.

Local Open Scope Z_scope.

(** The sizes of the two kinds of channels. *)
Definition acceptCap : Z := 2.
Definition readCap : Z := 1024.

(** [xc_readers] are the calls of [Read] that found the connection open and wait.
    [xc_since] and [xc_got] record how many datagrams the loop had seen when the
    connection was made, and which of them were taken from its queue; [xc_reads] is what
    these calls returned, each with the size of its buffer. *)
Record XDPConn := {
  xc_remote : string; xc_local : string; xc_queue : list bytes; xc_closed : bool; xc_readers : nat;
  xc_since : nat; xc_got : list bytes; xc_reads : list (nat * bytes)
}.

(** Where the loop is: waiting for a datagram, offering a connection to [Accept], about to
    look whether a connection is closed, putting a datagram into its queue, or ended. *)
Inductive loop_pc :=
| Stopped
| Waiting
| Offering (id : nat) (data : bytes)
| Checking (id : nat) (data : bytes)
| Queueing (id : nat) (data : bytes).

(** [x_sent] are the datagrams written; [x_wire] and [x_accepted] record the datagrams
    that came in and the connections that were accepted. *)
Record XDP := {
  x_bufSize : Z; x_address : string; x_sessions : SafeStrMap.t nat; x_conns : list XDPConn;
  x_accept : list nat; x_loop : loop_pc; x_sent : list (string * bytes);
  x_wire : list (string * bytes); x_accepted : list nat
}.

Definition XDPListen (addr : string) (clients bufSize : Z) : XDP :=
  {| x_bufSize := if bufSize =? 0 then MaxBuf else bufSize; x_address := addr;
     x_sessions := SafeStrMap.NewSafeStrMap clients; x_conns := []; x_accept := []; x_loop := Waiting;
     x_sent := []; x_wire := []; x_accepted := [] |}.

Definition upd (x : XDP) (ss : SafeStrMap.t nat) (cs : list XDPConn) (acc : list nat) (pc : loop_pc)
    (wire : list (string * bytes)) (accd : list nat) : XDP :=
  {| x_bufSize := x_bufSize x; x_address := x_address x; x_sessions := ss; x_conns := cs; x_accept := acc;
     x_loop := pc; x_sent := x_sent x; x_wire := wire; x_accepted := accd |}.
Definition set_loop (x : XDP) (pc : loop_pc) : XDP :=
  upd x (x_sessions x) (x_conns x) (x_accept x) pc (x_wire x) (x_accepted x).
Definition set_conn (x : XDP) (id : nat) (c : XDPConn) : XDP :=
  upd x (x_sessions x) (<[id := c]> (x_conns x)) (x_accept x) (x_loop x) (x_wire x) (x_accepted x).

Definition conn_with (c : XDPConn) (q : list bytes) (closed : bool) (readers : nat) (got : list bytes) : XDPConn :=
  {| xc_remote := xc_remote c; xc_local := xc_local c; xc_queue := q; xc_closed := closed; xc_readers := readers;
     xc_since := xc_since c; xc_got := got; xc_reads := xc_reads c |}.
(** A call of [Read] with a buffer of [size] bytes gets the datagram [d]: [copy] cuts it. *)
Definition conn_taken (c : XDPConn) (q : list bytes) (readers size : nat) (d : bytes) : XDPConn :=
  {| xc_remote := xc_remote c; xc_local := xc_local c; xc_queue := q; xc_closed := xc_closed c;
     xc_readers := readers; xc_since := xc_since c; xc_got := xc_got c ++ [d];
     xc_reads := xc_reads c ++ [(size, take size d)] |}.
Definition new_conn (x : XDP) (addr : string) : XDPConn :=
  {| xc_remote := addr; xc_local := x_address x; xc_queue := []; xc_closed := false; xc_readers := 0;
     xc_since := length (x_wire x); xc_got := []; xc_reads := [] |}.

(** [Recv] of a datagram, up to where it may have to wait. *)
Definition Recv (x : XDP) (addr : string) (data : bytes) : XDP * option error :=
  let wire := x_wire x ++ [(addr, data)] in
  match SafeStrMap.GetEx (x_sessions x) addr with
  | (Some id, true) =>
      (upd x (x_sessions x) (x_conns x) (x_accept x) (Checking id data) wire (x_accepted x), None)
  | _ =>
      let id := length (x_conns x) in
      let conns := x_conns x ++ [new_conn x addr] in
      match SafeStrMap.Set_ (x_sessions x) addr (Some id) with
      | (ss, Some e) => (upd x ss (x_conns x) (x_accept x) Waiting wire (x_accepted x), Some (NewErr "session.Set: %s" []))
      | (ss, None) => (upd x ss conns (x_accept x) (Offering id data) wire (x_accepted x), None)
      end
  end.

(** [toQueue]'s look at the connection. *)
Definition toQueue_check (x : XDP) (id : nat) (data : bytes) : XDP :=
  match x_conns x !! id with
  | None => x
  | Some c => set_loop x (if xc_closed c then Waiting else Queueing id data)
  end.

(** [Read] before it waits: an error at once, or waiting. [expired] says whether the
    deadline has passed. *)
Definition read_begin (x : XDP) (id : nat) (expired : bool) : XDP * option error :=
  match x_conns x !! id with
  | None => (x, None)
  | Some c =>
      if xc_closed c then (x, Some (NewErr "read on closed" []))
      else if expired then (x, Some (NewErr "read timeout" []))
      else (set_conn x id (conn_with c (xc_queue c) (xc_closed c) (S (xc_readers c)) (xc_got c)), None)
  end.

(** [Write]; [ok] is what the socket answers. *)
Definition Write (x : XDP) (id : nat) (b : bytes) (ok : result Z) : XDP * result Z :=
  match x_conns x !! id with
  | None => (x, inr (NewErr "write to closed" []))
  | Some c =>
      if xc_closed c then (x, inr (NewErr "write to closed" []))
      else ({| x_bufSize := x_bufSize x; x_address := x_address x; x_sessions := x_sessions x; x_conns := x_conns x;
               x_accept := x_accept x; x_loop := x_loop x;
               x_sent := match ok with inl _ => x_sent x ++ [(xc_remote c, b)] | inr _ => x_sent x end;
               x_wire := x_wire x; x_accepted := x_accepted x |}, ok)
  end.

(** [Close]: the first call takes the session away. *)
Definition Close (x : XDP) (id : nat) : XDP :=
  match x_conns x !! id with
  | None => x
  | Some c =>
      if xc_closed c then x
      else upd x (SafeStrMap.Del (x_sessions x) (xc_remote c))
             (<[id := conn_with c (xc_queue c) true (xc_readers c) (xc_got c)]> (x_conns x))
             (x_accept x) (x_loop x) (x_wire x) (x_accepted x)
  end.

Inductive xstep : XDP -> XDP -> Prop :=
| X_datagram x addr data :
    x_loop x = Waiting ->
    xstep x (Recv x addr (take (Z.to_nat (x_bufSize x)) data)).1
| X_stop x :
    x_loop x = Waiting -> xstep x (set_loop x Stopped)
| X_offer x id data :
    x_loop x = Offering id data -> zlen (x_accept x) < acceptCap ->
    xstep x (upd x (x_sessions x) (x_conns x) (x_accept x ++ [id]) (Checking id data) (x_wire x) (x_accepted x))
| X_check x id data :
    x_loop x = Checking id data -> xstep x (toQueue_check x id data)
| X_queue x id data c :
    x_loop x = Queueing id data -> x_conns x !! id = Some c -> zlen (xc_queue c) < readCap ->
    xstep x (set_loop (set_conn x id (conn_with c (xc_queue c ++ [data]) (xc_closed c) (xc_readers c) (xc_got c))) Waiting)
| X_accept x id l :
    x_accept x = id :: l ->
    xstep x (upd x (x_sessions x) (x_conns x) l (x_loop x) (x_wire x) (x_accepted x ++ [id]))
| X_read x id expired :
    xstep x (read_begin x id expired).1
| X_take x id c d l n size :
    x_conns x !! id = Some c -> xc_queue c = d :: l -> xc_readers c = S n ->
    xstep x (set_conn x id (conn_taken c l n size d))
| X_timeout x id c n :
    x_conns x !! id = Some c -> xc_readers c = S n ->
    xstep x (set_conn x id (conn_with c (xc_queue c) (xc_closed c) n (xc_got c)))
| X_write x id b ok :
    xstep x (Write x id b ok).1
| X_close x id :
    xstep x (Close x id).

(** ** The invariant *)

(** A datagram on its way to the connection [id]. *)
Definition in_flight (x : XDP) (id : nat) : list bytes :=
  match x_loop x with
  | Stopped | Waiting => []
  | Offering i d | Checking i d | Queueing i d => if decide (i = id) then [d] else []
  end.
(** What the sender has sent since the connection was made. *)
Definition from_sender (x : XDP) (c : XDPConn) : list bytes :=
  (filter (fun e => e.1 = xc_remote c) (drop (xc_since c) (x_wire x))).*2.
Definition offering (x : XDP) : list nat := match x_loop x with Offering id _ => [id] | _ => [] end.

Record xdp_inv (x : XDP) : Prop := {
  xi_open : forall id c, x_conns x !! id = Some c -> xc_closed c = false ->
    SafeStrMap.data (x_sessions x) !! xc_remote c = Some (Some id) /\
    xc_got c ++ xc_queue c ++ in_flight x id = from_sender x c;
  xi_session : forall addr v, SafeStrMap.data (x_sessions x) !! addr = Some v ->
    exists id c, v = Some id /\ x_conns x !! id = Some c /\ xc_closed c = false /\ xc_remote c = addr;
  xi_since : forall id c, x_conns x !! id = Some c -> (xc_since c <= length (x_wire x))%nat;
  xi_loop : forall id d, (x_loop x = Offering id d \/ x_loop x = Checking id d \/ x_loop x = Queueing id d) ->
    (id < length (x_conns x))%nat;
  xi_accept : x_accepted x ++ x_accept x ++ offering x = seq 0 (length (x_conns x))
}.

Lemma filter_snoc_eq (l : list (string * bytes)) a r b :
  (filter (fun e => e.1 = r) (l ++ [(a, b)])).*2 =
  (filter (fun e => e.1 = r) l).*2 ++ (if decide (a = r) then [b] else []).
Proof.
  rewrite filter_app, fmap_app. f_equal. rewrite filter_cons. simpl. by destruct (decide (a = r)).
Qed.

Lemma xdp_listen_inv addr clients bufSize : xdp_inv (XDPListen addr clients bufSize).
Proof.
  split; simpl; try done. by intros id d [H|[H|H]].
Qed.

(** A step that takes nothing from the wire, makes no connection and closes none. *)
Lemma xdp_inv_update x x' :
  xdp_inv x -> x_sessions x' = x_sessions x -> x_wire x' = x_wire x ->
  x_accepted x' ++ x_accept x' ++ offering x' = x_accepted x ++ x_accept x ++ offering x ->
  length (x_conns x') = length (x_conns x) ->
  (forall id c', x_conns x' !! id = Some c' -> exists c, x_conns x !! id = Some c /\
     xc_remote c' = xc_remote c /\ xc_closed c' = xc_closed c /\ xc_since c' = xc_since c /\
     (xc_closed c = false -> xc_got c' ++ xc_queue c' ++ in_flight x' id = xc_got c ++ xc_queue c ++ in_flight x id)) ->
  (forall id d, (x_loop x' = Offering id d \/ x_loop x' = Checking id d \/ x_loop x' = Queueing id d) ->
     (id < length (x_conns x))%nat) ->
  xdp_inv x'.
Proof.
  intros I Hs Hw Ha Hl Hc Hp. split.
  - intros id c' H Ho. destruct (Hc id c' H) as (c & E & Hr & Hcl & Hsi & Hq). rewrite Hcl in Ho.
    destruct (xi_open x I id c E Ho) as [H1 H2]. rewrite Hs, Hr, (Hq Ho), H2. split; [done|].
    unfold from_sender. by rewrite Hr, Hsi, Hw.
  - intros addr v H. rewrite Hs in H. destruct (xi_session x I addr v H) as (id & c & -> & E & Ho & Hr).
    pose proof (lookup_lt_Some _ _ _ E) as Hlt. rewrite <- Hl in Hlt.
    destruct (lookup_lt_is_Some_2 _ _ Hlt) as [c' E']. exists id, c'. split; [done|]. split; [done|].
    destruct (Hc id c' E') as (c0 & E0 & Hr' & Hcl & _). rewrite E in E0. injection E0 as <-. by rewrite Hr', Hcl.
  - intros id c' H. destruct (Hc id c' H) as (c & E & _ & _ & Hsi & _). rewrite Hsi, Hw. by apply (xi_since x I id).
  - intros id d H. rewrite Hl. by eapply Hp.
  - by rewrite Ha, Hl, (xi_accept x I).
Qed.

Lemma in_flight_lt x id : xdp_inv x -> (length (x_conns x) <= id)%nat -> in_flight x id = [].
Proof.
  intros I H. unfold in_flight. destruct (x_loop x) as [| |i d|i d|i d] eqn:E; try done;
    (destruct (decide (i = id)) as [->|]; [|done]); pose proof (xi_loop x I id d) as Hl; rewrite E in Hl; intuition lia.
Qed.

(** A datagram comes in: nothing is on its way before, and it is after. *)
Lemma recv_inv x addr data : x_loop x = Waiting -> xdp_inv x -> xdp_inv (Recv x addr data).1.
Proof.
  intros Hw I.
  assert (Hin : forall id, in_flight x id = []) by (intros id; unfold in_flight; by rewrite Hw).
  assert (Hoff : offering x = []) by (unfold offering; by rewrite Hw).
  pose proof (xi_accept x I) as Ha. rewrite Hoff, app_nil_r in Ha.
  assert (Hext : forall c, (xc_since c <= length (x_wire x))%nat ->
    (filter (fun e => e.1 = xc_remote c) (drop (xc_since c) (x_wire x ++ [(addr, data)]))).*2 =
    from_sender x c ++ (if decide (addr = xc_remote c) then [data] else [])).
  { intros c Hc. rewrite drop_app_le by done. apply filter_snoc_eq. }
  unfold Recv, SafeStrMap.GetEx. destruct (SafeStrMap.data (x_sessions x) !! addr) as [v|] eqn:Es.
  - destruct (xi_session x I addr v Es) as (i & ci & -> & Ei & Hoi & Hri). split; simpl.
    + intros id c E Ho. destruct (xi_open x I id c E Ho) as [H1 H2]. split; [done|]. unfold from_sender. simpl.
      rewrite Hext by by eapply xi_since. rewrite <- H2, Hin, app_nil_r, <- app_assoc. f_equal. f_equal.
      unfold in_flight. simpl. destruct (decide (i = id)) as [->|Hne].
      * rewrite E in Ei. injection Ei as ->. by rewrite decide_True.
      * rewrite decide_False; [done|]. intros ->. rewrite H1 in Es. by injection Es.
    + apply (xi_session x I).
    + intros id c E. rewrite length_app. simpl. pose proof (xi_since x I id c E). lia.
    + intros id d [H|[H|H]]; try done. injection H as <- _. by eapply lookup_lt_Some.
    + unfold offering. simpl. by rewrite app_nil_r.
  - unfold SafeStrMap.Set_, SafeStrMap.add. destruct (SafeStrMap.full (x_sessions x)); [|rewrite Es]; split; simpl.
    + intros id c E Ho. destruct (xi_open x I id c E Ho) as [H1 H2]. split; [done|]. unfold from_sender. simpl.
      rewrite Hext by by eapply xi_since. rewrite decide_False by congruence. rewrite !app_nil_r, <- H2, Hin, app_nil_r. done.
    + apply (xi_session x I).
    + intros id c E. rewrite length_app. simpl. pose proof (xi_since x I id c E). lia.
    + by intros id d [H|[H|H]].
    + unfold offering. simpl. by rewrite app_nil_r.
    + intros id c E Ho. apply lookup_snoc_Some in E as [[Hlt E]|[-> <-]].
      * destruct (xi_open x I id c E Ho) as [H1 H2]. rewrite lookup_insert_ne by congruence. split; [done|].
        unfold from_sender. simpl. rewrite Hext by by eapply xi_since. rewrite decide_False by congruence.
        unfold in_flight. simpl. rewrite decide_False by lia. rewrite !app_nil_r, <- H2, Hin, app_nil_r. done.
      * simpl. rewrite lookup_insert_eq. split; [done|]. unfold from_sender, in_flight. simpl.
        rewrite drop_app_length, decide_True by done. rewrite filter_cons. simpl. by rewrite decide_True.
    + intros a v H. apply lookup_insert_Some in H as [[<- <-]|[Hne H]].
      * exists (length (x_conns x)), (new_conn x addr). split; [done|]. split; [|done]. by rewrite lookup_app_r, Nat.sub_diag.
      * destruct (xi_session x I a v H) as (id & c & -> & E & R). exists id, c. split; [done|]. split; [|done].
        by apply lookup_app_l_Some.
    + intros id c E. rewrite length_app. simpl. apply lookup_snoc_Some in E as [[Hlt E]|[-> <-]]; simpl; [|lia].
      pose proof (xi_since x I id c E). lia.
    + intros id d [H|[H|H]]; try done. injection H as <- _. rewrite length_app. simpl. lia.
    + unfold offering. simpl. rewrite app_assoc, Ha, length_app, seq_app. done.
Qed.

Lemma close_inv x id : xdp_inv x -> xdp_inv (Close x id).
Proof.
  intros I. unfold Close. destruct (x_conns x !! id) as [c|] eqn:E; [|done]. destruct (xc_closed c) eqn:Ec; [done|].
  destruct (xi_open x I id c E Ec) as [Hs _]. unfold SafeStrMap.Del. rewrite Hs.
  pose proof (lookup_lt_Some _ _ _ E) as Hlt. split; simpl.
  - intros i ci Hi Ho. destruct (decide (id = i)) as [<-|Hne].
    + rewrite list_lookup_insert_eq in Hi by done. by injection Hi as <-.
    + rewrite list_lookup_insert_ne in Hi by done. destruct (xi_open x I i ci Hi Ho) as [H1 H2].
      split; [|done]. rewrite lookup_delete_ne; [done|]. intros Hr. rewrite Hr, H1 in Hs. injection Hs as ->. congruence.
  - intros a v [Hne H]%lookup_delete_Some. destruct (xi_session x I a v H) as (i & ci & -> & Ei & Hoi & Hri).
    exists i, ci. split; [done|]. split; [|done]. rewrite list_lookup_insert_ne; [done|].
    intros <-. rewrite E in Ei. injection Ei as <-. congruence.
  - intros i ci Hi. destruct (decide (id = i)) as [<-|Hne].
    + rewrite list_lookup_insert_eq in Hi by done. injection Hi as <-. exact (xi_since x I id c E).
    + rewrite list_lookup_insert_ne in Hi by done. by apply (xi_since x I i).
  - intros i d. rewrite length_insert. apply (xi_loop x I).
  - rewrite length_insert. apply (xi_accept x I).
Qed.

(** Replacing a connection by one with the same identity and state, wherever the loop goes. *)
Lemma set_conn_inv x id c c1 pc :
  xdp_inv x -> x_conns x !! id = Some c ->
  xc_remote c1 = xc_remote c -> xc_closed c1 = xc_closed c -> xc_since c1 = xc_since c ->
  (forall i d, (pc = Offering i d \/ pc = Checking i d \/ pc = Queueing i d) -> (i < length (x_conns x))%nat) ->
  offering (set_loop x pc) = offering x ->
  xc_got c1 ++ xc_queue c1 ++ in_flight (set_loop x pc) id = xc_got c ++ xc_queue c ++ in_flight x id ->
  (forall i, i <> id -> in_flight (set_loop x pc) i = in_flight x i) ->
  xdp_inv (set_loop (set_conn x id c1) pc).
Proof.
  intros I E H1 H2 H3 Hp Ho Hq Hf. pose proof (lookup_lt_Some _ _ _ E) as Hlt. apply (xdp_inv_update x); try done.
  - unfold offering in *. simpl in *. by rewrite Ho.
  - simpl. by rewrite length_insert.
  - intros i ci H. simpl in H. destruct (decide (id = i)) as [<-|Hne].
    + rewrite list_lookup_insert_eq in H by done. injection H as <-. by exists c.
    + rewrite list_lookup_insert_ne in H by done. exists ci. split_and!; try done. intros _.
      pose proof (Hf i (not_eq_sym Hne)) as Hi. unfold in_flight in *. simpl in *. by rewrite Hi.
Qed.

(** A step of the loop alone. *)
Lemma set_loop_inv x pc :
  xdp_inv x ->
  (forall i d, (pc = Offering i d \/ pc = Checking i d \/ pc = Queueing i d) -> (i < length (x_conns x))%nat) ->
  offering (set_loop x pc) = offering x ->
  (forall i c, x_conns x !! i = Some c -> xc_closed c = false -> in_flight (set_loop x pc) i = in_flight x i) ->
  xdp_inv (set_loop x pc).
Proof.
  intros I Hp Ho Hf. apply (xdp_inv_update x); try done.
  - unfold offering in *. simpl in *. by rewrite Ho.
  - intros i c H. exists c. split_and!; try done. intros Hc. by rewrite (Hf i c).
Qed.

Lemma readers_inv x id c n :
  xdp_inv x -> x_conns x !! id = Some c ->
  xdp_inv (set_conn x id (conn_with c (xc_queue c) (xc_closed c) n (xc_got c))).
Proof. intros I E. by apply (set_conn_inv x id c _ (x_loop x)); try done; apply (xi_loop x I). Qed.

Lemma loop_inv x x' : xdp_inv x ->
  (exists id data, x_loop x = Offering id data /\ zlen (x_accept x) < acceptCap /\
     x' = upd x (x_sessions x) (x_conns x) (x_accept x ++ [id]) (Checking id data) (x_wire x) (x_accepted x)) \/
  (exists id data, x_loop x = Checking id data /\ x' = toQueue_check x id data) \/
  (exists id data c, x_loop x = Queueing id data /\ x_conns x !! id = Some c /\
     x' = set_loop (set_conn x id (conn_with c (xc_queue c ++ [data]) (xc_closed c) (xc_readers c) (xc_got c))) Waiting) ->
  xdp_inv x'.
Proof.
  intros I [(id & data & Hl & _ & ->)|[(id & data & Hl & ->)|(id & data & c & Hl & E & ->)]].
  - apply (xdp_inv_update x); try done; unfold offering, in_flight; simpl; rewrite ?Hl; try done.
    + by rewrite app_nil_r.
    + intros i c H. by exists c.
    + intros i d [H|[H|H]]; try done. injection H as <- _. apply (xi_loop x I id data). tauto.
  - unfold toQueue_check. destruct (x_conns x !! id) as [c|] eqn:E; [|done].
    apply set_loop_inv; try done; unfold offering, in_flight; simpl; rewrite ?Hl; destruct (xc_closed c) eqn:Ec; try done.
    + by intros i d [H|[H|H]].
    + intros i d [H|[H|H]]; try done. injection H as <- _. by eapply lookup_lt_Some.
    + intros i ci H Ho. rewrite decide_False; [done|]. congruence.
  - apply (set_conn_inv x id c); try done; unfold offering, in_flight; simpl; rewrite ?Hl; try done.
    + by intros i d [H|[H|H]].
    + by rewrite decide_True, app_nil_r, <- ?app_assoc.
    + intros i Hne. by rewrite decide_False.
Qed.

Lemma xstep_inv x x' : xstep x x' -> xdp_inv x -> xdp_inv x'.
Proof.
  intros Hs I. destruct Hs as [x addr data Hw|x Hw|x id data Hl Hc|x id data Hl|x id data c Hl E _|x id l Ha
    |x id ex|x id c d l n size E Eq _|x id c n E _|x id b ok|x id].
  - by apply recv_inv.
  - apply set_loop_inv; try done; unfold offering, in_flight; simpl; rewrite ?Hw; try done. by intros i d [H|[H|H]].
  - apply (loop_inv x); [done|]. left. by exists id, data.
  - apply (loop_inv x); [done|]. right. left. by exists id, data.
  - apply (loop_inv x); [done|]. right. right. by exists id, data, c.
  - apply (xdp_inv_update x); try done.
    + unfold offering. simpl. by rewrite Ha, <- app_assoc.
    + intros i c H. by exists c.
    + apply (xi_loop x I).
  - unfold read_begin. destruct (x_conns x !! id) as [c|] eqn:E; [|done]. destruct (xc_closed c) eqn:Ec; [done|].
    destruct ex; [done|]. rewrite <- Ec. by apply readers_inv.
  - apply (set_conn_inv x id c _ (x_loop x)); try done; [apply (xi_loop x I)|]. simpl. by rewrite Eq, <- app_assoc.
  - by apply readers_inv.
  - unfold Write. destruct (x_conns x !! id) as [c|] eqn:E; [|done]. destruct (xc_closed c); [done|].
    apply (xdp_inv_update x); try done; [|apply (xi_loop x I)]. intros i ci H. by exists ci.
  - by apply close_inv.
Qed.

Lemma xsteps_inv x x' : rtc xstep x x' -> xdp_inv x -> xdp_inv x'.
Proof. induction 1; eauto using xstep_inv. Qed.

(** What the calls of [Read] returned: the datagrams taken, each cut to the buffer. *)
Definition reads_cut (c : XDPConn) : Prop :=
  Forall2 (fun r d => r.2 = take r.1 d) (xc_reads c) (xc_got c).
Definition reads_ok (x : XDP) : Prop := forall id c, x_conns x !! id = Some c -> reads_cut c.

Lemma reads_insert x id c : reads_ok x -> reads_cut c ->
  forall i ci, <[id := c]> (x_conns x) !! i = Some ci -> reads_cut ci.
Proof. intros I Hc i ci [(_ & <- & _)|[_ H]]%list_lookup_insert_Some; [done|by eapply I]. Qed.

Lemma xstep_reads x x' : xstep x x' -> reads_ok x -> reads_ok x'.
Proof.
  intros Hs I. destruct Hs as [x addr data Hw|x Hw|x id data Hl Hc|x id data Hl|x id data c Hl E _|x id l Ha
    |x id ex|x id c d l n size E Eq _|x id c n E _|x id b ok|x id]; try exact I.
  - unfold Recv. destruct (SafeStrMap.GetEx _ _) as [[id|] []]; try exact I;
      destruct (SafeStrMap.Set_ _ _ _) as [ss [e|]]; try exact I;
      intros i c [E|[_ <-]]%lookup_snoc_Some; try constructor; by eapply I; destruct E.
  - unfold toQueue_check. destruct (x_conns x !! id) as [c|]; [|exact I]. destruct (xc_closed c); exact I.
  - refine (reads_insert x id _ I _). exact (I id c E).
  - unfold read_begin. destruct (x_conns x !! id) as [c|] eqn:E; [|exact I]. destruct (xc_closed c), ex; try exact I.
    refine (reads_insert x id _ I _). exact (I id c E).
  - refine (reads_insert x id _ I _). apply Forall2_app; [exact (I id c E)|by repeat constructor].
  - refine (reads_insert x id _ I _). exact (I id c E).
  - unfold Write. destruct (x_conns x !! id) as [c|]; [|exact I]. destruct (xc_closed c); exact I.
  - unfold Close. destruct (x_conns x !! id) as [c|] eqn:E; [|exact I]. destruct (xc_closed c); [exact I|].
    refine (reads_insert x id _ I _). exact (I id c E).
Qed.

Lemma xsteps_reads x x' : rtc xstep x x' -> reads_ok x -> reads_ok x'.
Proof. induction 1; eauto using xstep_reads. Qed.

Definition stalled (x : XDP) : Prop :=
  exists id data c, x_loop x = Queueing id data /\ x_conns x !! id = Some c /\
    xc_closed c = true /\ xc_readers c = 0%nat /\ readCap <= zlen (xc_queue c).

Lemma stalled_step x x' : xstep x x' -> stalled x -> stalled x' /\ x_wire x' = x_wire x.
Proof.
  intros Hs (i & dt & ci & Hl & Ei & Hcl & Hrd & Hf). pose proof (lookup_lt_Some _ _ _ Ei) as Hlt.
  assert (Hput : forall j c c1, x_conns x !! j = Some c -> (j = i -> c1 = c) ->
    <[j := c1]> (x_conns x) !! i = Some ci).
  { intros j c c1 Ej Hj. destruct (decide (j = i)) as [->|Hne]; [|by rewrite list_lookup_insert_ne].
    rewrite list_lookup_insert_eq, Hj by done. congruence. }
  assert (Hstay : forall y, x_loop y = x_loop x -> x_conns y !! i = Some ci -> stalled y).
  { intros y H1 H2. exists i, dt, ci. by rewrite H1. }
  destruct Hs as [x addr data Hw|x Hw|x id data Hw Hc|x id data Hw|x id data c Hw E Hr|x id l Ha
    |x id ex|x id c d l n size E Eq Hr|x id c n E Hr|x id b ok|x id]; try congruence.
  - rewrite Hw in Hl. injection Hl as -> ->. rewrite E in Ei. injection Ei as ->. lia.
  - split; [|done]. by apply Hstay.
  - unfold read_begin. destruct (x_conns x !! id) as [c|] eqn:E; [|split; [by apply Hstay|done]].
    destruct (xc_closed c) eqn:Ec; [split; [by apply Hstay|done]|]. destruct ex; (split; [apply Hstay|]); try done.
    simpl. apply (Hput id c); [done|]. congruence.
  - split; [|done]. apply Hstay; [done|]. apply (Hput id c); [done|]. congruence.
  - split; [|done]. apply Hstay; [done|]. apply (Hput id c); [done|]. congruence.
  - unfold Write. destruct (x_conns x !! id) as [c|]; [|split; [by apply Hstay|done]].
    destruct (xc_closed c); (split; [by apply Hstay|done]).
  - unfold Close. destruct (x_conns x !! id) as [c|] eqn:E; [|split; [by apply Hstay|done]].
    destruct (xc_closed c) eqn:Ec; (split; [apply Hstay|]); try done. simpl. apply (Hput id c); [done|]. congruence.
Qed.

(** A connection nobody reads takes as many datagrams as its queue holds. *)
Lemma fill_queue x (addr : string) (data : bytes) id c n :
  x_loop x = Waiting -> SafeStrMap.data (x_sessions x) !! addr = Some (Some id) -> x_conns x !! id = Some c ->
  xc_closed c = false -> xc_readers c = 0%nat -> zlen (xc_queue c) + Z.of_nat n <= readCap ->
  exists x' c', rtc xstep x x' /\ x_loop x' = Waiting /\ x_sessions x' = x_sessions x /\
    x_conns x' !! id = Some c' /\ xc_closed c' = false /\ xc_readers c' = 0%nat /\
    zlen (xc_queue c') = zlen (xc_queue c) + Z.of_nat n.
Proof.
  revert x c. induction n as [|n IH]; intros x c Hw Hs E Hc Hr Hq.
  - exists x, c. split_and!; (done || lia).
  - pose proof (lookup_lt_Some _ _ _ E) as Hlt. set (cut := take (Z.to_nat (x_bufSize x)) data).
    set (c1 := conn_with c (xc_queue c ++ [cut]) (xc_closed c) (xc_readers c) (xc_got c)).
    set (x1 := (Recv x addr cut).1).
    assert (E1 : x1 = upd x (x_sessions x) (x_conns x) (x_accept x) (Checking id cut) (x_wire x ++ [(addr, cut)]) (x_accepted x)).
    { unfold x1, Recv, SafeStrMap.GetEx. by rewrite Hs. }
    set (x2 := set_loop x1 (Queueing id cut)).
    set (x3 := set_loop (set_conn x2 id c1) Waiting).
    destruct (IH x3 c1) as (x' & c' & Hst & H1 & H2 & H3 & H4 & H5 & H6); try done.
    + unfold x3, x2. by rewrite E1.
    + unfold x3, x2. rewrite E1. simpl. by apply list_lookup_insert_eq.
    + simpl. rewrite zlen_app. change (zlen [cut]) with 1. lia.
    + exists x', c'. split_and!; try done.
      * eapply rtc_l; [by apply (X_datagram x addr data)|]. eapply rtc_l.
        { apply (X_check _ id cut). fold cut x1. by rewrite E1. }
        fold cut x1. unfold toQueue_check. replace (x_conns x1 !! id) with (Some c) by by rewrite E1.
        rewrite Hc. fold x2. eapply rtc_l; [|exact Hst]. apply X_queue; [done|unfold x2; by rewrite E1|lia].
      * rewrite H2. unfold x3, x2. by rewrite E1.
      * rewrite H6. simpl. rewrite zlen_app. change (zlen [cut]) with 1. lia.
Qed.

(** (C22) Datagrams are delivered to the right connection, once and in order: in every state
    the listener can reach, whatever the interleaving of its loop with those who accept,
    read, write and close, what was taken from an open connection, what waits in its queue
    and the datagram on its way to it are together exactly what its peer has sent since
    the connection was made; no peer has two open connections; every connection is
    given to [Accept] once, in the order in which they were made; and what the calls of
    [Read] returned is the datagrams taken, each cut to the buffer of its call. *)
Theorem xdp_demultiplexes addr clients bufSize x :
  rtc xstep (XDPListen addr clients bufSize) x ->
  (forall id c, x_conns x !! id = Some c -> xc_closed c = false ->
     xc_got c ++ xc_queue c ++ in_flight x id =
     (filter (fun e => e.1 = xc_remote c) (drop (xc_since c) (x_wire x))).*2 /\
     forall id' c', x_conns x !! id' = Some c' -> xc_closed c' = false -> xc_remote c' = xc_remote c -> id' = id) /\
  x_accepted x ++ x_accept x ++ offering x = seq 0 (length (x_conns x)) /\
  (forall id c, x_conns x !! id = Some c -> Forall2 (fun r d => r.2 = take r.1 d) (xc_reads c) (xc_got c)).
Proof.
  intros H. pose proof (xsteps_inv _ _ H (xdp_listen_inv addr clients bufSize)) as I.
  split; [|split; [apply (xi_accept x I)|apply (xsteps_reads _ _ H); intros id c E; discriminate E]]. intros id c E Hc. destruct (xi_open x I id c E Hc) as [H1 H2].
  split; [exact H2|]. intros id' c' E' Hc' Hr. destruct (xi_open x I id' c' E' Hc') as [H1' _].
  rewrite Hr, H1 in H1'. by injection H1'.
Qed.

Lemma stalled_steps x x' : rtc xstep x x' -> stalled x -> x_wire x' = x_wire x /\ stalled x'.
Proof.
  induction 1 as [|x y z Hxy Hyz IH]; [done|]. intros St. destruct (stalled_step x y Hxy St) as [Sy Wy].
  destruct (IH Sy) as [W S]. by rewrite W.
Qed.

(** The first datagram of a peer makes its connection. *)
Lemma first_datagram addr clients bufSize peer :
  0 <= clients ->
  exists x c, rtc xstep (XDPListen addr clients bufSize) x /\ x_loop x = Waiting /\
    SafeStrMap.data (x_sessions x) !! peer = Some (Some 0%nat) /\ x_conns x !! 0%nat = Some c /\
    xc_closed c = false /\ xc_readers c = 0%nat /\ zlen (xc_queue c) = 1.
Proof.
  intros Hn. set (x0 := XDPListen addr clients bufSize). set (cut := take (Z.to_nat (x_bufSize x0)) ([] : bytes)).
  set (c0 := new_conn x0 peer). set (ss := SafeStrMap.upd (x_sessions x0) (<[peer := Some 0%nat]> ∅)).
  set (x1 := upd x0 ss [c0] [] (Offering 0 cut) [(peer, cut)] []).
  assert (E1 : (Recv x0 peer cut).1 = x1).
  { unfold Recv. simpl. unfold SafeStrMap.Set_, SafeStrMap.add, SafeStrMap.full, SafeStrMap.Len. simpl.
    rewrite lookup_empty. destruct (negb (clients =? 0) && (clients <=? _)) eqn:E; [|done].
    apply andb_true_iff in E as [E2%negb_true_iff%Z.eqb_neq E3]. rewrite map_size_empty in E3.
    apply Z.leb_le in E3. simpl in E3. lia. }
  exists (upd x1 ss [conn_with c0 [cut] false 0 []] [0%nat] Waiting [(peer, cut)] []), (conn_with c0 [cut] false 0 []).
  split.
  - eapply rtc_l; [by apply (X_datagram x0 peer [])|]. fold cut. rewrite E1.
    eapply rtc_l; [by apply X_offer|]. eapply rtc_l; [by apply X_check|].
    eapply rtc_l; [by eapply X_queue|]. apply rtc_refl.
  - split_and!; try done. apply lookup_insert_eq.
Qed.

(** One connection that was closed with its queue full stops the listener: a state can
    be reached in which the loop waits to put a datagram into the queue of a closed
    connection, and then, whatever anyone does, it takes no datagram of any peer any
    more and offers no connection. *)
Theorem xdp_stalled_by_closed addr clients bufSize :
  0 <= clients ->
  exists x, rtc xstep (XDPListen addr clients bufSize) x /\
    forall x', rtc xstep x x' -> x_wire x' = x_wire x /\ stalled x'.
Proof.
  intros Hn. set (peer := "10.0.0.9:4500"%string).
  destruct (first_datagram addr clients bufSize peer Hn) as (x3 & c3 & S3 & H1 & H2 & H3 & H4 & H5 & H6).
  destruct (fill_queue x3 peer [] 0 c3 1023) as (x4 & c4 & S4 & Hw & Hs & Hc & Ho & Hr & Hq); try done; [by rewrite H6|].
  set (d := take (Z.to_nat (x_bufSize x4)) ([] : bytes)). set (x5 := (Recv x4 peer d).1).
  assert (E5 : x5 = upd x4 (x_sessions x4) (x_conns x4) (x_accept x4) (Checking 0 d) (x_wire x4 ++ [(peer, d)]) (x_accepted x4)).
  { unfold x5, Recv, SafeStrMap.GetEx. by rewrite Hs, H2. }
  assert (Ec : x_conns x5 !! 0%nat = Some c4) by by rewrite E5.
  exists (Close (set_loop x5 (Queueing 0 d)) 0). split.
  - transitivity x3; [exact S3|]. transitivity x4; [exact S4|].
    eapply rtc_l; [by apply (X_datagram x4 peer [])|]. fold d x5.
    eapply rtc_l; [apply (X_check x5 0 d); by rewrite E5|].
    unfold toQueue_check. rewrite Ec, Ho. eapply rtc_l; [by apply X_close|]. apply rtc_refl.
  - intros x' Hx. apply (stalled_steps _ _ Hx). unfold Close. simpl. rewrite Ec, Ho.
    exists 0%nat, d, (conn_with c4 (xc_queue c4) true (xc_readers c4) (xc_got c4)).
    split; [done|]. split; [|split; [done|split; [exact Hr|]]].
    + simpl. apply list_lookup_insert_eq. apply (lookup_lt_Some _ _ _ Ec).
    + simpl. rewrite Hq, H6. done.
Qed.

(** ** Witnesses *)

Definition hello : bytes := [1; 2; 3].

Lemma rtc_computed (x y z w : XDP) : xstep x y -> y = z -> rtc xstep z w -> rtc xstep x w.
Proof. intros H -> Hz. by eapply rtc_l. Qed.
(** One step, to its computed state. *)
Ltac xgo step :=
  eapply rtc_computed;
    [step|match goal with |- ?y = _ => let v := eval vm_compute in y in exact (@eq_refl XDP v <: y = v) end|].

Lemma demo_run :
  exists x c, rtc xstep (XDPListen "0.0.0.0:4500" 128 1500) x /\ x_conns x !! 0%nat = Some c /\
    xc_closed c = false /\ xc_since c = 0%nat /\ xc_remote c = "10.0.0.9:4500"%string /\
    xc_reads c = [(2%nat, [1; 2])] /\
    x_wire x = [("10.0.0.9:4500"%string, hello); ("10.0.0.7:4500"%string, []); ("10.0.0.9:4500"%string, hello)].
Proof.
  eexists _, _. split.
  - xgo ltac:(by apply (X_datagram _ "10.0.0.9:4500" hello)). xgo ltac:(by eapply X_offer).
    xgo ltac:(by eapply X_check). xgo ltac:(by eapply X_queue).
    xgo ltac:(by apply (X_read _ 0 false)). xgo ltac:(by eapply (X_take _ 0 _ _ _ _ 2)).
    xgo ltac:(by apply (X_datagram _ "10.0.0.7:4500" [])). xgo ltac:(by eapply X_offer).
    xgo ltac:(by eapply X_check). xgo ltac:(by eapply X_queue).
    xgo ltac:(by apply (X_datagram _ "10.0.0.9:4500" hello)). apply rtc_refl.
  - split; [reflexivity|]. split; [reflexivity|]. split; [reflexivity|]. split; [reflexivity|]. split; reflexivity.
Qed.

Lemma xdp_demultiplexes_witness :
  exists x c, rtc xstep (XDPListen "0.0.0.0:4500" 128 1500) x /\ x_conns x !! 0%nat = Some c /\
    xc_closed c = false /\ xc_got c ++ xc_queue c ++ in_flight x 0 = [hello; hello] /\
    Forall2 (fun r d => r.2 = take r.1 d) (xc_reads c) (xc_got c) /\ xc_reads c = [(2%nat, [1; 2])].
Proof.
  destruct demo_run as (x & c & Hs & E & Hc & Hsi & Hr & Hrd & Hw). exists x, c.
  split; [exact Hs|]. split; [exact E|]. split; [exact Hc|].
  destruct (xdp_demultiplexes "0.0.0.0:4500" 128 1500 x Hs) as [H [_ Hreads]].
  destruct (H 0%nat c E Hc) as [H1 _]. split; [rewrite H1, Hsi, Hr, Hw; reflexivity|].
  split; [exact (Hreads 0%nat c E)|exact Hrd].
Defined.

Lemma xdp_stalled_by_closed_witness :
  exists x, rtc xstep (XDPListen "0.0.0.0:4500" 128 1500) x /\
    forall x', rtc xstep x x' -> x_wire x' = x_wire x /\ stalled x'.
Proof. apply (xdp_stalled_by_closed "0.0.0.0:4500" 128 1500). discriminate. Defined.
