(* ===== verification/Vpn.v ===== *)
(** * VPN servers (pkg/olsw/openvpn.go)

    A network's VPN servers are processes of another program: the switch writes their
    configuration and the profiles of their clients, and starts and stops them.

    Files are a map from paths to contents.  What the operating system refuses to create
    or remove is a parameter; files are written whole.  Making a directory is left out:
    its failure is only logged.  The templates are the constants of the source, executed
    by the part of package text/template they use. *)

From S2P Require Import Prelude GoStd Utils UserCache Config.

Local Open Scope Z_scope.

Definition OpenVPNBin : string := "openvpn".
Definition DefaultCurDir : string := "/var/openlan/openvpn/default".

Record OpenVPN := { o_Cfg : option VPNFields; o_Protocol : string; o_Local : string; o_Port : string }.

Definition NewOpenVPN (cfg : VPNFields) : OpenVPN :=
  let parts := SplitN (vf_Listen cfg) char_colon 2 in
  {| o_Cfg := Some cfg; o_Protocol := vf_Protocol cfg;
     o_Local := default ""%string (parts !! 0%nat);
     o_Port := if contains_char char_colon (vf_Listen cfg) then default ""%string (parts !! 1%nat) else "4494" |}.

Definition ID (o : OpenVPN) : string := (o_Protocol o +:+ o_Port o)%string.
Definition Directory (o : OpenVPN) : string :=
  match o_Cfg o with None => DefaultCurDir | Some cfg => vf_Directory cfg end.

(** The files of a server: a name in its directory, or none without a configuration. *)
Definition file_of (suffix : string) (o : OpenVPN) (full : bool) : string :=
  match o_Cfg o with
  | None => ""
  | Some cfg =>
      let name := (ID o +:+ suffix)%string in
      if full then path_Join [vf_Directory cfg; name] else name
  end.
Definition FileCfg : OpenVPN -> bool -> string := file_of "server.conf".
Definition FileClient : OpenVPN -> bool -> string := file_of "client.ovpn".
Definition FileLog : OpenVPN -> bool -> string := file_of "server.log".
Definition FilePid : OpenVPN -> bool -> string := file_of "server.pid".
Definition FileStats : OpenVPN -> bool -> string := file_of "server.stats".
Definition FileIpp : OpenVPN -> bool -> string := file_of "ipp".
Definition DirectoryClientConfig (o : OpenVPN) : string :=
  match o_Cfg o with
  | None => path_Join [DefaultCurDir; "ccd"%string]
  | Some cfg => path_Join [vf_Directory cfg; "ccd"%string]
  end.

Definition ValidConf (o : OpenVPN) : bool :=
  match o_Cfg o with
  | None => false
  | Some cfg => negb (String.eqb (vf_Listen cfg) "" || String.eqb (vf_Subnet cfg) "")
  end.

(** ** The configuration of a server *)

Record OpenVPNData := {
  d_Local : string; d_Port : string; d_CertNot : bool; d_Ca : string; d_Cert : string; d_Key : string;
  d_DhPem : string; d_TlsAuth : string; d_Cipher : string; d_Server : string; d_Device : string;
  d_Protocol : string; d_Script : string; d_Routes : list string; d_Renego : Z; d_Push : list string;
  d_ClientConfigDir : string
}.

(** [strings.ReplaceAll(s, "/", " ")] *)
Fixpoint slash_to_space (s : string) : string :=
  match s with
  | EmptyString => EmptyString
  | String a s => String (if Ascii.eqb a char_slash then Ascii.ascii_of_N 32 else a) (slash_to_space s)
  end.
Definition vpn_route (rt : string) : option string :=
  let '(addr, ok) := IPNetwork rt in if ok then Some (slash_to_space addr) else None.
Definition NewOpenVpnDataFromConf (obj : OpenVPN) (cfg : VPNFields) : OpenVPNData :=
  {| d_Local := o_Local obj; d_Port := o_Port obj; d_CertNot := negb (23 <? vf_Version cfg);
     d_Ca := vf_RootCa cfg; d_Cert := vf_ServerCrt cfg; d_Key := vf_ServerKey cfg; d_DhPem := vf_DhPem cfg;
     d_TlsAuth := vf_TlsAuth cfg; d_Cipher := vf_Cipher cfg;
     d_Server := slash_to_space (IPNetwork (vf_Subnet cfg)).1; d_Device := vf_Device cfg;
     d_Protocol := vf_Protocol cfg; d_Script := vf_Script cfg; d_Routes := omap vpn_route (vf_Routes cfg);
     d_Renego := vf_Renego cfg; d_Push := vf_Push cfg; d_ClientConfigDir := DirectoryClientConfig obj |}.

(** ** text/template

    A template is text with actions in double braces: fields, the element of a [range],
    [range], [if] and [else].  A dash inside the braces takes away the white space on its
    side. *)

(** A field of the data. *)
Inductive value := VStr (s : string) | VInt (n : Z) | VBool (b : bool) | VList (l : list string).

Inductive node :=
| NText (s : string)
| NField (f : string)
| NDot
| NRange (f : string) (body : list node)
| NIf (f : string) (yes no : list node).

Fixpoint str_drop (n : nat) (s : string) : string :=
  match n, s with O, _ => s | _, EmptyString => EmptyString | S n, String _ s => str_drop n s end.
Fixpoint cut_str (pat s : string) : option (string * string) :=
  if HasPrefix s pat then Some (EmptyString, str_drop (String.length pat) s)
  else match s with
       | EmptyString => None
       | String a s => match cut_str pat s with Some (l, r) => Some (String a l, r) | None => None end
       end.

(** White space: space, tab, newline and those between it and carriage return. *)
Definition is_space (a : Ascii.ascii) : bool :=
  let n := Ascii.N_of_ascii a in ((n =? 32) || ((9 <=? n) && (n <=? 13)))%N.
Fixpoint trim_left (s : string) : string :=
  match s with String a r => if is_space a then trim_left r else s | EmptyString => EmptyString end.
Fixpoint trim_right (s : string) : string :=
  match s with
  | EmptyString => EmptyString
  | String a s =>
      match trim_right s with
      | EmptyString => if is_space a then EmptyString else String a EmptyString
      | t => String a t
      end
  end.
(** [strings.TrimSpace] on ASCII text. *)
Definition TrimSpace (s : string) : string := trim_right (trim_left s).

Inductive token := TText (s : string) | TAction (words : list string).

(** The actions of a text, each with the text before it, trimmed as the dashes say;
    [trim] tells that the action before asked for it. *)
Fixpoint lex (fuel : nat) (trim : bool) (s : string) : option (list token) :=
  match fuel with
  | O => None
  | S fuel =>
      let s := if trim then trim_left s else s in
      match cut_str "{{" s with
      | None => Some [TText s]
      | Some (text, rest) =>
          match cut_str "}}" rest with
          | None => None
          | Some (act, rest) =>
              let before := HasPrefix act "- " in
              let act := if before then str_drop 1 act else act in
              let words := filter (fun w => w <> ""%string) (Split act (Ascii.ascii_of_N 32)) in
              let after := bool_decide (last words = Some "-"%string) in
              match lex fuel after rest with
              | None => None
              | Some toks =>
                  Some (TText (if before then trim_right text else text) ::
                        TAction (if after then removelast words else words) :: toks)
              end
          end
      end
  end.

(** The nodes up to an [end] or [else], which are left. *)
Fixpoint parse (fuel : nat) (toks : list token) : option (list node * list token) :=
  match fuel with
  | O => None
  | S fuel =>
      match toks with
      | [] => Some ([], [])
      | TText s :: toks => '(ns, toks) ← parse fuel toks; Some (NText s :: ns, toks)
      | TAction ["end"%string] :: _ | TAction ["else"%string] :: _ => Some ([], toks)
      | TAction ["range"%string; f] :: toks =>
          '(body, toks) ← parse fuel toks;
          match toks with
          | TAction ["end"%string] :: toks =>
              '(ns, toks) ← parse fuel toks; Some (NRange f body :: ns, toks)
          | _ => None
          end
      | TAction ["if"%string; f] :: toks =>
          '(yes, toks) ← parse fuel toks;
          match toks with
          | TAction ["else"%string] :: toks =>
              '(no, toks) ← parse fuel toks;
              match toks with
              | TAction ["end"%string] :: toks =>
                  '(ns, toks) ← parse fuel toks; Some (NIf f yes no :: ns, toks)
              | _ => None
              end
          | TAction ["end"%string] :: toks =>
              '(ns, toks) ← parse fuel toks; Some (NIf f yes [] :: ns, toks)
          | _ => None
          end
      | TAction ["."%string] :: toks => '(ns, toks) ← parse fuel toks; Some (NDot :: ns, toks)
      | TAction [f] :: toks => '(ns, toks) ← parse fuel toks; Some (NField f :: ns, toks)
      | TAction _ :: _ => None
      end
  end.
Definition Parse (tmpl : string) : option (list node) :=
  toks ← lex (S (String.length tmpl)) false tmpl;
  match parse (S (length toks)) toks with Some (ns, []) => Some ns | _ => None end.

Definition print_value (v : value) : option string :=
  match v with VStr s => Some s | VInt n => Some (FormatInt n) | _ => None end.
(** [field] gives the fields by their names with the dot; [dot] is the element of the
    range around the node. *)
Fixpoint exec (field : string -> option value) (dot : option string) (n : node) : option string :=
  let execs := fix execs (dot : option string) (ns : list node) : option string :=
    match ns with
    | [] => Some ""%string
    | n :: ns => s ← exec field dot n; r ← execs dot ns; Some (s +:+ r)%string
    end in
  match n with
  | NText s => Some s
  | NDot => dot
  | NField f => match dot with None => v ← field f; print_value v | Some _ => None end
  | NRange f body =>
      match dot, field f with
      | None, Some (VList l) =>
          foldr (fun e r => s ← execs (Some e) body; r ← r; Some (s +:+ r)%string) (Some ""%string) l
      | _, _ => None
      end
  | NIf f yes no =>
      match dot, field f with
      | None, Some (VBool b) => execs None (if b then yes else no)
      | _, _ => None
      end
  end.
Definition exec_all (field : string -> option value) (ns : list node) : option string :=
  foldr (fun n r => s ← exec field None n; r ← r; Some (s +:+ r)%string) (Some ""%string) ns.
Definition Execute (field : string -> option value) (tmpl : string) : option string :=
  ns ← Parse tmpl; exec_all field ns.

Definition quote : string := String (Ascii.ascii_of_N 34) EmptyString.
Definition quoted (s : string) : string := (quote +:+ s +:+ quote)%string.

Definition xAuthConfTmpl : string := unlines [
  "# Generate by OpenLAN"; "local {{ .Local }}"; "port {{ .Port }}"; "proto {{ .Protocol }}";
  "dev {{ .Device }}"; "reneg-sec {{ .Renego }}"; "keepalive 10 120"; "persist-key"; "persist-tun";
  "ca {{ .Ca }}"; "cert {{ .Cert }}"; "key {{ .Key }}"; "dh {{ .DhPem }}"; "server {{ .Server }}";
  "{{- range .Routes }}"; "push " +:+ quoted "route {{ . }}"; "{{- end }}";
  "{{- range .Push }}"; "push " +:+ quoted "{{ . }}"; "{{- end }}";
  "ifconfig-pool-persist {{ .Protocol }}{{ .Port }}ipp"; "tls-auth {{ .TlsAuth }} 0"; "cipher {{ .Cipher }}";
  "status {{ .Protocol }}{{ .Port }}server.status 5"; "{{- if .CertNot }}"; "client-cert-not-required";
  "{{- else }}"; "verify-client-cert none"; "{{- end }}"; "script-security 3";
  "auth-user-pass-verify " +:+ quoted "{{ .Script }}" +:+ " via-env"; "username-as-common-name";
  "client-config-dir {{ .ClientConfigDir }}"; "verb 3"]%string.
Definition certConfTmpl : string := unlines [
  "# Generate by OpenLAN"; "local {{ .Local }}"; "port {{ .Port }}"; "proto {{ .Protocol }}";
  "dev {{ .Device }}"; "reneg-sec {{ .Renego }}"; "keepalive 10 120"; "persist-key"; "persist-tun";
  "ca {{ .Ca }}"; "cert {{ .Cert }}"; "key {{ .Key }}"; "dh {{ .DhPem }}"; "server {{ .Server }}";
  "{{- range .Routes }}"; "push " +:+ quoted "route {{ . }}"; "{{- end }}";
  "ifconfig-pool-persist {{ .Protocol }}{{ .Port }}ipp"; "tls-auth {{ .TlsAuth }} 0"; "cipher {{ .Cipher }}";
  "status {{ .Protocol }}{{ .Port }}server.status 5"; "client-config-dir {{ .ClientConfigDir }}"; "verb 3"]%string.

Definition field_of {D} (d : D) (table : list (string * (D -> value))) (f : string) : option value :=
  match find (fun e => String.eqb e.1 f) table with Some e => Some (e.2 d) | None => None end.
Definition data_fields (d : OpenVPNData) : string -> option value :=
  field_of d
    [(".Local", fun d => VStr (d_Local d)); (".Port", fun d => VStr (d_Port d));
     (".CertNot", fun d => VBool (d_CertNot d)); (".Ca", fun d => VStr (d_Ca d));
     (".Cert", fun d => VStr (d_Cert d)); (".Key", fun d => VStr (d_Key d));
     (".DhPem", fun d => VStr (d_DhPem d)); (".TlsAuth", fun d => VStr (d_TlsAuth d));
     (".Cipher", fun d => VStr (d_Cipher d)); (".Server", fun d => VStr (d_Server d));
     (".Device", fun d => VStr (d_Device d)); (".Protocol", fun d => VStr (d_Protocol d));
     (".Script", fun d => VStr (d_Script d)); (".Routes", fun d => VList (d_Routes d));
     (".Renego", fun d => VInt (d_Renego d)); (".Push", fun d => VList (d_Push d));
     (".ClientConfigDir", fun d => VStr (d_ClientConfigDir d))]%string.

(** ** The profile of a client *)

Record OpenVPNProfile := {
  p_Server : string; p_Port : string; p_Ca : string; p_Cert : string; p_Key : string; p_TlsAuth : string;
  p_Cipher : string; p_Device : string; p_Protocol : string; p_Renego : Z
}.

Abbreviation fs := (gmap string string).

(** The device is cut to its first three characters. *)
Definition NewOpenVpnProfileFromConf (files : fs) (obj : OpenVPN) (cfg : VPNFields) : go OpenVPNProfile :=
  device ← str_slice (vf_Device cfg) 0 3;
  Ret {| p_Server := o_Local obj; p_Port := o_Port obj; p_Ca := default ""%string (files !! vf_RootCa cfg);
         p_Cert := ""; p_Key := ""; p_TlsAuth := default ""%string (files !! vf_TlsAuth cfg); p_Cipher := vf_Cipher cfg;
         p_Device := device; p_Protocol := vf_Protocol cfg; p_Renego := vf_Renego cfg |}.

Definition xAuthClientProfile : string := unlines [
  "# Generate by OpenLAN"; "client"; "dev {{ .Device }}"; "route-metric 300"; "proto {{ .Protocol }}";
  "remote {{ .Server }} {{ .Port }}"; "reneg-sec {{ .Renego }}"; "resolv-retry infinite"; "nobind";
  "persist-key"; "persist-tun"; "<ca>"; "{{ .Ca -}}"; "</ca>"; "remote-cert-tls server"; "<tls-auth>";
  "{{ .TlsAuth -}}"; "</tls-auth>"; "key-direction 1"; "cipher {{ .Cipher }}"; "auth-nocache"; "verb 4";
  "auth-user-pass"]%string.
Definition certClientProfile : string := unlines [
  "# Generate by OpenLAN"; "client"; "dev {{ .Device }}"; "route-metric 300"; "proto {{ .Protocol }}";
  "remote {{ .Server }} {{ .Port }}"; "reneg-sec {{ .Renego }}"; "resolv-retry infinite"; "nobind";
  "persist-key"; "persist-tun"; "<ca>"; "{{ .Ca -}}"; "</ca>"; "remote-cert-tls server"; "<tls-auth>";
  "{{ .TlsAuth -}}"; "</tls-auth>"; "key-direction 1"; "cipher {{ .Cipher }}"; "auth-nocache"; "verb 4"]%string.

Definition profile_fields (p : OpenVPNProfile) : string -> option value :=
  field_of p
    [(".Server", fun p => VStr (p_Server p)); (".Port", fun p => VStr (p_Port p)); (".Ca", fun p => VStr (p_Ca p));
     (".Cert", fun p => VStr (p_Cert p)); (".Key", fun p => VStr (p_Key p));
     (".TlsAuth", fun p => VStr (p_TlsAuth p)); (".Cipher", fun p => VStr (p_Cipher p));
     (".Device", fun p => VStr (p_Device p)); (".Protocol", fun p => VStr (p_Protocol p));
     (".Renego", fun p => VInt (p_Renego p))]%string.

(** ** What the switch asks of the host *)

Record host := { h_files : fs; h_commands : list (list string) }.

Section host.
(** The paths that cannot be made, written or removed. *)
Context (denied : string -> bool).

Definition write_file (h : host) (path text : string) : host :=
  if denied path then h else {| h_files := <[path := text]> (h_files h); h_commands := h_commands h |}.
Definition remove_file (h : host) (path : string) : host :=
  if denied path then h else {| h_files := delete path (h_files h); h_commands := h_commands h |}.
Definition run_command (h : host) (args : list string) : host :=
  {| h_files := h_files h; h_commands := h_commands h ++ [args] |}.

(** Clients with a name and an address have a file of their own. *)
Definition client_files (o : OpenVPN) (cfg : VPNFields) : list (string * string) :=
  omap (fun c => if String.eqb (vc_Name c) "" || String.eqb (vc_Address c) "" then None
                 else Some (path_Join [DirectoryClientConfig o; vc_Name c],
                            ("ifconfig-push " +:+ vc_Address c +:+ " " +:+ vc_Netmask c)%string))
    (vf_Clients cfg).
Definition writeClientConfig (o : OpenVPN) (cfg : VPNFields) (h : host) : host :=
  foldl (fun h f => write_file h f.1 f.2) h (client_files o cfg).

Definition ServerTmpl (o : OpenVPN) (cfg : VPNFields) (h : host) : host * string :=
  let tmplStr := if String.eqb (vf_Auth cfg) "cert" then certConfTmpl else xAuthConfTmpl in
  (write_file h (path_Join [vf_Directory cfg; (ID o +:+ "server.tmpl")%string]) tmplStr, tmplStr).
Definition ProfileTmpl (o : OpenVPN) (cfg : VPNFields) (h : host) : host * string :=
  let tmplStr := if String.eqb (vf_Auth cfg) "cert" then certClientProfile else xAuthClientProfile in
  (write_file h (path_Join [vf_Directory cfg; (ID o +:+ "client.tmpl")%string]) tmplStr, tmplStr).

(** Says whether it succeeded. *)
Definition WriteConf (o : OpenVPN) (cfg : VPNFields) (h : host) (path : string) : host * bool :=
  if denied path then (h, false)
  else
    let h := write_file h path "" in
    let data := NewOpenVpnDataFromConf o cfg in
    let h := if String.eqb (d_ClientConfigDir data) "" then h else writeClientConfig o cfg h in
    let '(h, tmplStr) := ServerTmpl o cfg h in
    match Execute (data_fields data) tmplStr with
    | None => (h, false)
    | Some text => (write_file h path text, true)
    end.

Definition Clean (o : OpenVPN) (cfg : VPNFields) (h : host) : host :=
  let h := foldl (fun h f => remove_file h f.1) h (client_files o cfg) in
  foldl remove_file h [FileStats o true; FileIpp o true].

Definition Profile (o : OpenVPN) (cfg : VPNFields) (h : host) : go (host * option string) :=
  data ← NewOpenVpnProfileFromConf (h_files h) o cfg;
  let '(h, tmplStr) := ProfileTmpl o cfg h in
  Ret (h, Execute (profile_fields data) tmplStr).

(** The configuration of a server that is valid. *)
Definition valid_cfg (o : OpenVPN) : option VPNFields := if ValidConf o then o_Cfg o else None.

Definition vpn_Initialize (o : OpenVPN) (h : host) : go host :=
  match valid_cfg o with
  | None => Ret h
  | Some cfg =>
      let h := Clean o cfg h in
      let '(h, ok) := WriteConf o cfg h (FileCfg o true) in
      if negb ok then Ret h
      else
        r ← Profile o cfg h;
        let '(h, text) := r : host * option string in
        Ret (match text with Some text => write_file h (FileClient o true) text | None => h end)
  end.

Definition vpn_Start (o : OpenVPN) (h : host) : host :=
  if negb (ValidConf o) then h
  else if denied (FileLog o true) then h
  else run_command (write_file h (FileLog o true) "")
         [OpenVPNBin; "--cd"%string; Directory o; "--config"%string; FileCfg o false;
          "--writepid"%string; FilePid o false].

Definition vpn_Stop (o : OpenVPN) (h : host) : host :=
  match valid_cfg o with
  | None => h
  | Some cfg =>
      let h := match h_files h !! FilePid o true with
               | None => h
               | Some data => run_command h ["/usr/bin/kill"%string; TrimSpace data]
               end in
      Clean o cfg h
  end.

(** The servers of a network, one after the other. *)
Fixpoint init_servers (os : list OpenVPN) (h : host) : go host :=
  match os with [] => Ret h | o :: os => h ← vpn_Initialize o h; init_servers os h end.
Definition start_servers (os : list OpenVPN) (h : host) : host := foldl (fun h o => vpn_Start o h) h os.
Definition stop_servers (os : list OpenVPN) (h : host) : host := foldl (fun h o => vpn_Stop o h) h os.
End host.

(** ** The files that are written *)

(** What the templates come to. *)
Definition push (s : string) : string := ("push " +:+ quoted s)%string.
Definition conf_head (d : OpenVPNData) : list string :=
  ["# Generate by OpenLAN"; "local " +:+ d_Local d; "port " +:+ d_Port d; "proto " +:+ d_Protocol d;
   "dev " +:+ d_Device d; "reneg-sec " +:+ FormatInt (d_Renego d); "keepalive 10 120"; "persist-key";
   "persist-tun"; "ca " +:+ d_Ca d; "cert " +:+ d_Cert d; "key " +:+ d_Key d; "dh " +:+ d_DhPem d;
   "server " +:+ d_Server d]%string ++
  map (fun rt => push ("route " +:+ rt)%string) (d_Routes d).
Definition conf_files (d : OpenVPNData) : list string :=
  [("ifconfig-pool-persist " +:+ d_Protocol d +:+ d_Port d +:+ "ipp")%string;
   ("tls-auth " +:+ d_TlsAuth d +:+ " 0")%string; ("cipher " +:+ d_Cipher d)%string;
   ("status " +:+ d_Protocol d +:+ d_Port d +:+ "server.status 5")%string].
Definition xAuthConf (d : OpenVPNData) : list string :=
  conf_head d ++ map push (d_Push d) ++ conf_files d ++
  [(if d_CertNot d then "client-cert-not-required" else "verify-client-cert none")%string;
   "script-security 3"%string; ("auth-user-pass-verify " +:+ quoted (d_Script d) +:+ " via-env")%string;
   "username-as-common-name"%string; ("client-config-dir " +:+ d_ClientConfigDir d)%string; "verb 3"%string].
Definition certConf (d : OpenVPNData) : list string :=
  conf_head d ++ conf_files d ++ [("client-config-dir " +:+ d_ClientConfigDir d)%string; "verb 3"%string].

(** The lines of a profile around those of the server, the authority and the key. *)
Definition profile_head (p : OpenVPNProfile) : list string :=
  ["# Generate by OpenLAN"; "client"; "dev " +:+ p_Device p; "route-metric 300"; "proto " +:+ p_Protocol p]%string.
Definition profile_remote (p : OpenVPNProfile) (server : string) : string :=
  ("remote " +:+ server +:+ " " +:+ p_Port p)%string.
Definition profile_more (p : OpenVPNProfile) : list string :=
  [("reneg-sec " +:+ FormatInt (p_Renego p))%string; "resolv-retry infinite"%string; "nobind"%string;
   "persist-key"%string; "persist-tun"%string; "<ca>"%string].
Definition profile_end (cert : bool) (p : OpenVPNProfile) : list string :=
  ["</tls-auth>"; "key-direction 1"; "cipher " +:+ p_Cipher p; "auth-nocache"; "verb 4"]%string ++
  (if cert then [] else ["auth-user-pass"%string]).
Definition profile_text (cert : bool) (p : OpenVPNProfile) (server : string) : string :=
  (unlines (profile_head p) +:+ unlines [profile_remote p server] +:+ unlines (profile_more p) +:+
   p_Ca p +:+ unlines ["</ca>"; "remote-cert-tls server"; "<tls-auth>"] +:+ p_TlsAuth p +:+
   unlines (profile_end cert p))%string.

Lemma exec_text field s ns r : exec_all field ns = Some r -> exec_all field (NText s :: ns) = Some (s +:+ r).
Proof. intros H. unfold exec_all in *. cbn [foldr exec mbind option_bind]. by rewrite H. Qed.
Lemma exec_field field f v s ns r :
  field f = Some v -> print_value v = Some s -> exec_all field ns = Some r ->
  exec_all field (NField f :: ns) = Some (s +:+ r).
Proof. intros Hf Hs H. unfold exec_all in *. cbn [foldr exec]. rewrite Hf. cbn [mbind option_bind]. by rewrite Hs, H. Qed.
Definition range_text (a b : string) (l : list string) : string := foldr (fun e r => a +:+ e +:+ b +:+ r) ""%string l.
Lemma exec_range field f a b l ns r :
  field f = Some (VList l) -> exec_all field ns = Some r ->
  exec_all field (NRange f [NText a; NDot; NText b] :: ns) = Some (range_text a b l +:+ r).
Proof.
  intros Hf H. unfold exec_all in *. cbn [foldr exec]. rewrite Hf.
  assert (E : foldr (fun e (r : option string) =>
      s ← (s ← Some a; r ← (s ← Some e; r ← (s ← Some b; r ← Some ""%string; Some (s +:+ r)); Some (s +:+ r)); Some (s +:+ r));
      r ← r; Some (s +:+ r)) (Some ""%string) l = Some (range_text a b l)).
  { clear Hf. induction l as [|e l IH]; [done|]. cbn [foldr]. cbn [foldr] in IH. rewrite IH. cbn [mbind option_bind range_text foldr].
    change (b +:+ EmptyString) with (b +:+ ""%string). rewrite (string_app_nil_r b), !string_app_assoc. done. }
  cbn [mbind option_bind] in E |- *. rewrite E. cbn [mbind option_bind]. by rewrite H.
Qed.
Lemma exec_if field f (c : bool) a b ns r :
  field f = Some (VBool c) -> exec_all field ns = Some r ->
  exec_all field (NIf f [NText a] [NText b] :: ns) = Some ((if c then a else b) +:+ r).
Proof.
  intros Hf H. unfold exec_all in *. cbn [foldr exec]. rewrite Hf.
  destruct c; cbn [mbind option_bind exec]; rewrite H; cbn [mbind option_bind]; do 2 f_equal; apply string_app_nil_r.
Qed.

Abbreviation nl := (Ascii.Ascii false true false true false false false false) (only parsing).
Local Arguments String.append !_ _ / : simpl nomatch.
(** The newline before each element of a range, where lines have it behind. *)
Lemma range_lines a b l t :
  range_text (String nl a) b l +:+ String nl t =
  String nl (unlines (map (fun e => a +:+ e +:+ b) l) +:+ t).
Proof.
  induction l as [|e l IH]; [done|]. cbn [range_text foldr map unlines]. fold (range_text (String nl a) b l).
  rewrite !string_app_assoc, IH. by rewrite !string_app_cons.
Qed.
Lemma unlines_app l1 l2 : unlines (l1 ++ l2) = unlines l1 +:+ unlines l2.
Proof.
  induction l1 as [|l l1 IH]; [done|]. cbn [unlines foldr app]. fold (unlines (l1 ++ l2)) (unlines l1).
  by rewrite IH, !string_app_assoc, string_app_cons.
Qed.

(** The actions of a constant template, one after the other. *)
Ltac exec_template tmpl :=
  unfold Execute; let v := eval vm_compute in (Parse tmpl) in change (Parse tmpl) with v; cbn [mbind option_bind];
  repeat first
    [apply exec_text|eapply exec_field; [reflexivity|reflexivity|]
    |eapply exec_range; [reflexivity|]|eapply exec_if; [reflexivity|]|reflexivity].

Ltac conf_lines :=
  unfold xAuthConf, certConf, conf_head, conf_files, quoted; rewrite !unlines_app; cbn [unlines foldr];
  repeat first [rewrite string_app_assoc | progress cbn [String.append newline push quoted quote]].

(** Texts that agree piece by piece. *)
Lemma append_eq (a b s t : string) : a = b -> s = t -> a +:+ s = b +:+ t.
Proof. by intros -> ->. Qed.
Ltac same_text :=
  repeat match goal with
    | |- String _ _ = String _ _ => apply f_equal2; [reflexivity|]
    | |- _ +:+ _ = _ +:+ _ => apply append_eq; [reflexivity|]
    end; try reflexivity.

Lemma exec_cert d : Execute (data_fields d) certConfTmpl = Some (unlines (certConf d)).
Proof.
  etransitivity; [exec_template certConfTmpl|]. f_equal. conf_lines.
  rewrite range_lines. cbn [String.append newline push quoted quote]. 
  same_text.
Qed.
Lemma exec_xauth d : Execute (data_fields d) xAuthConfTmpl = Some (unlines (xAuthConf d)).
Proof.
  etransitivity; [exec_template xAuthConfTmpl|]. f_equal. conf_lines.
  rewrite !range_lines. cbn [String.append newline push quoted quote]. destruct (d_CertNot d); same_text.
Qed.

Lemma exec_profile (cert : bool) p :
  Execute (profile_fields p) (if cert then certClientProfile else xAuthClientProfile) =
  Some (profile_text cert p (p_Server p)).
Proof.
  destruct cert; (etransitivity; [exec_template certClientProfile || exec_template xAuthClientProfile|]);
    f_equal; unfold profile_text, profile_head, profile_remote, profile_more, profile_end; cbn [unlines foldr app];
    repeat first [rewrite string_app_assoc | progress cbn [String.append newline]]; same_text.
Qed.

(** ** Names and paths *)

Lemma id_name o suf :
  plain char_slash (ID o) -> plain char_slash suf -> (2 < String.length suf)%nat -> base_name (ID o +:+ suf).
Proof.
  intros H1 H2 H3. unfold plain in *. split; [by rewrite contains_app, H1, H2|].
  split_and!; intros E; apply (f_equal String.length) in E; rewrite string_length_app in E; simpl in E; lia.
Qed.

(** Two files of a server are different if their suffixes are. *)
Lemma file_of_inj o cfg suf1 suf2 :
  o_Cfg o = Some cfg -> plain char_slash (ID o) ->
  plain char_slash suf1 -> plain char_slash suf2 -> (2 < String.length suf1)%nat -> (2 < String.length suf2)%nat ->
  file_of suf1 o true = file_of suf2 o true -> suf1 = suf2.
Proof.
  intros Hc Hi H1 H2 H3 H4. unfold file_of. rewrite Hc. intros E.
  apply path_Join_inj in E; [|by apply id_name..]. by apply append_inv in E.
Qed.

(** The files [Initialize] and [Stop] may change. *)
Definition touched (o : OpenVPN) (cfg : VPNFields) : list string :=
  (client_files o cfg).*1 ++
  [FileStats o true; FileIpp o true; file_of "server.tmpl" o true; FileCfg o true; file_of "client.tmpl" o true;
   FileClient o true].

Section files.
Context (denied : string -> bool).

Lemma write_lookup h p q t :
  q <> p -> h_files (write_file denied h p t) !! q = h_files h !! q.
Proof. intros H. unfold write_file. destruct (denied p); [done|]. simpl. by rewrite lookup_insert_ne. Qed.
Lemma write_this h p t : denied p = false -> h_files (write_file denied h p t) !! p = Some t.
Proof. intros H. unfold write_file. rewrite H. simpl. by rewrite lookup_insert_eq. Qed.
Lemma write_commands h p t : h_commands (write_file denied h p t) = h_commands h.
Proof. unfold write_file. by destruct (denied p). Qed.
Lemma remove_lookup h p q : q <> p -> h_files (remove_file denied h p) !! q = h_files h !! q.
Proof. intros H. unfold remove_file. destruct (denied p); [done|]. simpl. by rewrite lookup_delete_ne. Qed.
Lemma remove_commands h p : h_commands (remove_file denied h p) = h_commands h.
Proof. unfold remove_file. by destruct (denied p). Qed.

Lemma writes_frame l h q : q ∉ l.*1 ->
  h_files (foldl (fun h f => write_file denied h f.1 f.2) h l) !! q = h_files h !! q /\
  h_commands (foldl (fun h f => write_file denied h f.1 f.2) h l) = h_commands h.
Proof.
  revert h. induction l as [|f l IH]; intros h H; [done|]. simpl in H. apply not_elem_of_cons in H as [H1 H2]. simpl.
  destruct (IH (write_file denied h f.1 f.2) H2) as [-> ->]. by rewrite write_lookup, write_commands.
Qed.
Lemma writes_commands l h : h_commands (foldl (fun h f => write_file denied h f.1 f.2) h l) = h_commands h.
Proof. revert h. induction l as [|f l IH]; intros h; [done|]. simpl. by rewrite IH, write_commands. Qed.
Lemma removes_frame (l : list string) h q : q ∉ l ->
  h_files (foldl (remove_file denied) h l) !! q = h_files h !! q /\
  h_commands (foldl (remove_file denied) h l) = h_commands h.
Proof.
  revert h. induction l as [|f l IH]; intros h H; [done|]. apply not_elem_of_cons in H as [H1 H2]. simpl.
  destruct (IH (remove_file denied h f) H2) as [-> ->]. by rewrite remove_lookup, remove_commands.
Qed.
Lemma Clean_removes o cfg h :
  Clean denied o cfg h = foldl (remove_file denied) h ((client_files o cfg).*1 ++ [FileStats o true; FileIpp o true]).
Proof.
  unfold Clean. rewrite foldl_app. f_equal. generalize (client_files o cfg). intros l. revert h.
  induction l as [|f l IH]; intros h; [done|]. simpl. apply IH.
Qed.
Lemma Clean_frame o cfg h q : q ∉ (client_files o cfg).*1 ++ [FileStats o true; FileIpp o true] ->
  h_files (Clean denied o cfg h) !! q = h_files h !! q /\ h_commands (Clean denied o cfg h) = h_commands h.
Proof. rewrite Clean_removes. apply removes_frame. Qed.

Definition server_conf (o : OpenVPN) (cfg : VPNFields) : list string :=
  let d := NewOpenVpnDataFromConf o cfg in
  if String.eqb (vf_Auth cfg) "cert" then certConf d else xAuthConf d.

Lemma server_tmpl_path o cfg : o_Cfg o = Some cfg ->
  path_Join [vf_Directory cfg; (ID o +:+ "server.tmpl")%string] = file_of "server.tmpl" o true /\
  path_Join [vf_Directory cfg; (ID o +:+ "client.tmpl")%string] = file_of "client.tmpl" o true.
Proof. intros H. unfold file_of. by rewrite H. Qed.

Lemma WriteConf_spec o cfg h :
  o_Cfg o = Some cfg -> denied (FileCfg o true) = false ->
  exists h', WriteConf denied o cfg h (FileCfg o true) = (h', true) /\
    h_files h' !! FileCfg o true = Some (unlines (server_conf o cfg)) /\ h_commands h' = h_commands h /\
    forall q, q ∉ touched o cfg -> h_files h' !! q = h_files h !! q.
Proof.
  intros Hc Hd. unfold WriteConf, ServerTmpl. rewrite Hd. destruct (server_tmpl_path o cfg Hc) as [-> _].
  assert (E : Execute (data_fields (NewOpenVpnDataFromConf o cfg))
                (if String.eqb (vf_Auth cfg) "cert" then certConfTmpl else xAuthConfTmpl) =
              Some (unlines (server_conf o cfg))).
  { unfold server_conf. destruct (String.eqb _ _); [apply exec_cert|apply exec_xauth]. }
  rewrite E. eexists. split; [done|]. split; [by apply write_this|].
  rewrite !write_commands. clear E.
  set (h1 := write_file denied h _ _). set (none := String.eqb (d_ClientConfigDir _) _).
  set (h2 := if none then h1 else _).
  assert (Hq : forall q, q ∉ (client_files o cfg).*1 -> h_files h2 !! q = h_files h1 !! q).
  { intros q H. unfold h2. destruct none; [done|]. exact (proj1 (writes_frame _ _ _ H)). }
  assert (Hcm : h_commands h2 = h_commands h1).
  { unfold h2. destruct none; [done|]. apply writes_commands. }
  split; [rewrite Hcm; apply write_commands|]. intros q Hn. unfold touched in Hn. rewrite elem_of_app, !elem_of_cons in Hn.
  assert (H : q <> FileCfg o true /\ q <> file_of "server.tmpl" o true /\ q ∉ (client_files o cfg).*1) by tauto.
  destruct H as (H1 & H2 & H3). rewrite 2!write_lookup by done. rewrite (Hq q H3). unfold h1. by apply write_lookup.
Qed.
Lemma Clean_commands o cfg h : h_commands (Clean denied o cfg h) = h_commands h.
Proof.
  rewrite Clean_removes. generalize ((client_files o cfg).*1 ++ [FileStats o true; FileIpp o true]). intros l.
  revert h. induction l as [|f l IH]; intros h; [done|]. simpl. by rewrite IH, remove_commands.
Qed.

(** What [Initialize] makes of a device with a name of three characters or more. *)
Definition the_profile (o : OpenVPN) (cfg : VPNFields) (files : fs) : OpenVPNProfile :=
  {| p_Server := o_Local o; p_Port := o_Port o; p_Ca := default ""%string (files !! vf_RootCa cfg);
     p_Cert := ""; p_Key := ""; p_TlsAuth := default ""%string (files !! vf_TlsAuth cfg);
     p_Cipher := vf_Cipher cfg; p_Device := String.substring 0 3 (vf_Device cfg);
     p_Protocol := vf_Protocol cfg; p_Renego := vf_Renego cfg |}.
Definition is_cert (cfg : VPNFields) : bool := String.eqb (vf_Auth cfg) "cert".

Lemma NewProfile_spec files o cfg :
  NewOpenVpnProfileFromConf files o cfg =
  if (3 <=? String.length (vf_Device cfg))%nat then Ret (the_profile o cfg files) else Panic.
Proof.
  unfold NewOpenVpnProfileFromConf, str_slice. change ((0 <=? 0) && (0 <=? 3)) with true. cbn [andb].
  destruct (Nat.leb_spec 3 (String.length (vf_Device cfg))), (Z.leb_spec 3 (Z.of_nat (String.length (vf_Device cfg))));
    lia || done.
Qed.

Lemma Initialize_spec o cfg h :
  ValidConf o = true -> o_Cfg o = Some cfg -> plain char_slash (ID o) ->
  denied (FileCfg o true) = false -> denied (FileClient o true) = false ->
  if (3 <=? String.length (vf_Device cfg))%nat
  then exists h', vpn_Initialize denied o h = Ret h' /\ h_commands h' = h_commands h /\
    h_files h' !! FileCfg o true = Some (unlines (server_conf o cfg)) /\
    (vf_RootCa cfg ∉ touched o cfg -> vf_TlsAuth cfg ∉ touched o cfg ->
     h_files h' !! FileClient o true = Some (profile_text (is_cert cfg) (the_profile o cfg (h_files h)) (o_Local o))) /\
    forall q, q ∉ touched o cfg -> h_files h' !! q = h_files h !! q
  else vpn_Initialize denied o h = Panic.
Proof.
  intros Hv Hc Hi Hd1 Hd2. unfold vpn_Initialize, valid_cfg. rewrite Hv, Hc.
  destruct (WriteConf_spec o cfg (Clean denied o cfg h) Hc Hd1) as (h1 & -> & Hf & Hcm & Hfr). simpl negb. cbn match.
  assert (Hq : forall q, q ∉ touched o cfg -> h_files h1 !! q = h_files h !! q).
  { intros q Hn. rewrite Hfr by done. apply Clean_frame. unfold touched in Hn. clear -Hn. set_solver. }
  unfold Profile. rewrite NewProfile_spec. destruct (3 <=? _)%nat; [|done]. cbn [mbind go_bind].
  unfold ProfileTmpl. rewrite (proj2 (server_tmpl_path o cfg Hc)). cbn beta iota.
  change (String.eqb (vf_Auth cfg) "cert") with (is_cert cfg). rewrite exec_profile. eexists. split; [done|].
  rewrite !write_commands, Hcm, Clean_commands. split; [done|]. split; [|split].
  - rewrite !write_lookup; [done|intros E..];
      by apply (file_of_inj o cfg) in E; try done; simpl; try lia.
  - intros Ha Ht. rewrite write_this by done. unfold the_profile. by rewrite !Hq.
  - intros q Hn. pose proof Hn as Hn'. unfold touched in Hn'. rewrite elem_of_app, !elem_of_cons in Hn'.
    assert (H : q <> file_of "client.tmpl" o true /\ q <> FileClient o true) by tauto.
    rewrite !write_lookup by tauto. by apply Hq.
Qed.
(** [Initialize] returns unless the device of a valid server is shorter than the three
    characters its profile takes of it. *)
Lemma Initialize_returns o h :
  (forall cfg, o_Cfg o = Some cfg -> ValidConf o = true -> (3 <= String.length (vf_Device cfg))%nat) ->
  exists h', vpn_Initialize denied o h = Ret h'.
Proof.
  intros Hd. unfold vpn_Initialize, valid_cfg. destruct (ValidConf o) eqn:Ev; [|by exists h].
  destruct (o_Cfg o) as [cfg|] eqn:Ec; [|by exists h]. destruct (WriteConf _ _ _ _ _) as [h1 []]; [|by exists h1].
  simpl negb. cbn match. unfold Profile. rewrite NewProfile_spec.
  rewrite (proj2 (Nat.leb_le _ _) (Hd cfg eq_refl eq_refl)). cbn [mbind go_bind].
  destruct (ProfileTmpl _ _ _ _) as [h2 tmpl]. by eexists.
Qed.

Lemma init_servers_return os : forall h,
  Forall (fun o => forall cfg, o_Cfg o = Some cfg -> ValidConf o = true -> (3 <= String.length (vf_Device cfg))%nat) os ->
  exists h', init_servers denied os h = Ret h'.
Proof.
  induction os as [|o os IH]; intros h; [by exists h|]. intros [Ho Hos]%Forall_cons. cbn [init_servers].
  destruct (Initialize_returns o h Ho) as [h1 ->]. by apply IH.
Qed.
End files.

(** ** What a server is started with *)

Definition pushes (ls : list string) : list string := List.filter (fun l => HasPrefix l "push ") ls.
Lemma pushes_app l1 l2 : pushes (l1 ++ l2) = pushes l1 ++ pushes l2.
Proof. apply List.filter_app. Qed.
Lemma pushes_push l : pushes (map push l) = map push l.
Proof. induction l as [|s l IH]; [done|]. cbn [map]. change (pushes (push s :: map push l)) with (push s :: pushes (map push l)). by rewrite IH. Qed.

Lemma pushes_conf o cfg :
  pushes (server_conf o cfg) =
  map (fun rt => push ("route " +:+ rt)%string) (omap vpn_route (vf_Routes cfg)) ++
  (if String.eqb (vf_Auth cfg) "cert" then [] else map push (vf_Push cfg)).
Proof.
  unfold server_conf. set (d := NewOpenVpnDataFromConf o cfg).
  assert (Hh : pushes (conf_head d) = map (fun rt => push ("route " +:+ rt)%string) (d_Routes d)).
  { unfold conf_head. rewrite pushes_app. rewrite <- (List.map_map (fun rt => "route " +:+ rt) push), pushes_push. done. }
  assert (Hf : pushes (conf_files d) = []) by done.
  destruct (String.eqb _ _); unfold certConf, xAuthConf; rewrite !pushes_app, Hh, Hf.
  - reflexivity.
  - rewrite pushes_push. replace (pushes [_; _; _; _; _; _]) with (@nil string) by by destruct (d_CertNot d).
    by rewrite app_nil_l, app_nil_r.
Qed.

Lemma digit_not_space a v : digit a = Some v -> is_space a = false.
Proof.
  unfold is_space, digit. intros H. destruct (_ && _) eqn:E in H; [|done]. apply andb_true_iff in E as [E1 E2].
  apply orb_false_iff. rewrite N.eqb_neq, andb_false_iff, !N.leb_gt. lia.
Qed.
(** A number and a newline, trimmed. *)
Lemma trim_digits s t n m : dec_digits s n = Some m -> s <> ""%string ->
  trim_right t = ""%string -> trim_right (s +:+ t) = s.
Proof.
  intros Hs Hne Ht. revert n m Hs Hne. induction s as [|a s IH]; intros n m Hs Hne; [done|].
  simpl in Hs. destruct (digit a) as [v|] eqn:Ea; [|done].
  pose proof (digit_not_space a v Ea) as Hsp.
  rewrite string_app_cons. cbn [trim_right]. destruct s as [|b s].
  - change (EmptyString +:+ t) with t. by rewrite Ht, Hsp.
  - by rewrite (IH _ _ Hs).
Qed.
Lemma TrimSpace_number n : 0 <= n -> TrimSpace (FormatInt n +:+ String newline EmptyString) = FormatInt n.
Proof.
  intros Hn. destruct (dec_FormatInt n Hn) as [Hd Hne]. unfold TrimSpace.
  assert (Hl : trim_left (FormatInt n +:+ String newline EmptyString) = FormatInt n +:+ String newline EmptyString).
  { destruct (FormatInt n) as [|a s]; [done|]. rewrite string_app_cons. cbn [trim_left].
    simpl in Hd. destruct (digit a) as [v|] eqn:Ea; [|done]. by rewrite (digit_not_space a v Ea). }
  rewrite Hl. by eapply trim_digits.
Qed.

(** (C18) A server is started with what is configured, and the same process is stopped: after
    [Initialize], [Start] runs the program on a file whose lines are one directive each,
    the pushed ones being exactly the routes that parse and, with passwords, the
    configured options, in order; and whatever happens to the files meanwhile, once the
    process has written its number where it was told to, [Stop] kills that process. *)
Theorem server_lifecycle denied o cfg h :
  ValidConf o = true -> o_Cfg o = Some cfg -> plain char_slash (ID o) ->
  denied (FileCfg o true) = false -> denied (FileClient o true) = false -> denied (FileLog o true) = false ->
  (3 <= String.length (vf_Device cfg))%nat -> Forall (plain newline) (server_conf o cfg) ->
  exists h1 cd config writepid text, vpn_Initialize denied o h = Ret h1 /\
    h_commands (vpn_Start denied o h1) =
      h_commands h ++ [[OpenVPNBin; "--cd"%string; cd; "--config"%string; config; "--writepid"%string; writepid]] /\
    h_files (vpn_Start denied o h1) !! path_Join [cd; config] = Some text /\
    let lines := raw_lines (S (String.length text)) text in
    lines = server_conf o cfg /\
    pushes lines = map (fun rt => push ("route " +:+ rt)%string) (omap vpn_route (vf_Routes cfg)) ++
                   (if is_cert cfg then [] else map push (vf_Push cfg)) /\
    forall h2 pid, 0 <= pid ->
      h_files h2 !! path_Join [cd; writepid] = Some (FormatInt pid +:+ String newline EmptyString)%string ->
      h_commands (vpn_Stop denied o h2) = h_commands h2 ++ [["/usr/bin/kill"%string; FormatInt pid]].
Proof.
  intros Hv Hc Hi Hd1 Hd2 Hd3 Hdev Hl. pose proof (Initialize_spec denied o cfg h Hv Hc Hi Hd1 Hd2) as Hinit.
  rewrite (proj2 (Nat.leb_le _ _) Hdev) in Hinit. destruct Hinit as (h1 & E & Hcm & Hf & _).
  exists h1, (vf_Directory cfg), (FileCfg o false), (FilePid o false), (unlines (server_conf o cfg)).
  split; [done|]. assert (Hj : forall suf, path_Join [vf_Directory cfg; file_of suf o false] = file_of suf o true).
  { intros suf. unfold file_of. by rewrite Hc. }
  unfold vpn_Start. rewrite Hv, Hd3. cbn [negb]. unfold Directory. rewrite Hc. split; [|split; [|split; [|split]]].
  - cbn [run_command h_commands]. by rewrite write_commands, Hcm.
  - unfold FileCfg at 1. rewrite Hj. cbn [run_command h_files]. rewrite write_lookup; [exact Hf|]. intros E2.
    by apply (file_of_inj o cfg) in E2; try done; simpl; try lia.
  - apply raw_lines_unlines; [done|]. pose proof (length_unlines (server_conf o cfg)). lia.
  - rewrite raw_lines_unlines by (done || (pose proof (length_unlines (server_conf o cfg)); lia)). apply pushes_conf.
  - intros h2 pid Hpid. unfold FilePid. rewrite Hj. intros Hp. unfold vpn_Stop, valid_cfg. rewrite Hv, Hc.
    unfold FilePid. rewrite Hp, Clean_commands, TrimSpace_number by done. done.
Qed.

(** A device with a name of fewer than three characters ends the switch. *)
Lemma short_device_crashes denied o cfg h :
  ValidConf o = true -> o_Cfg o = Some cfg -> plain char_slash (ID o) ->
  denied (FileCfg o true) = false -> denied (FileClient o true) = false -> (String.length (vf_Device cfg) < 3)%nat ->
  vpn_Initialize denied o h = Panic.
Proof.
  intros Hv Hc Hi Hd1 Hd2 Hdev. pose proof (Initialize_spec denied o cfg h Hv Hc Hi Hd1 Hd2) as H.
  by rewrite (proj2 (Nat.leb_gt _ _) Hdev) in H.
Qed.

(** A server that listens on a port of all addresses, as [:1194], has no address at all:
    neither its own configuration nor the profile of its clients names one. *)
Lemma listen_without_host cfg port : vf_Listen cfg = (":" +:+ port)%string ->
  o_Local (NewOpenVPN cfg) = ""%string /\ o_Port (NewOpenVPN cfg) = port.
Proof. intros H. unfold NewOpenVPN. rewrite H. done. Qed.

(** ** A server *)

Definition demo_cfg : VPNFields :=
  {| vf_Network := "net"; vf_Directory := "/var/openlan/openvpn/net"; vf_Listen := "0.0.0.0:1194";
     vf_Protocol := "udp"; vf_Subnet := "10.8.0.0/24"; vf_Device := "tun0"; vf_Version := 24; vf_Auth := "xauth";
     vf_DhPem := "/dh.pem"; vf_RootCa := "/ca.crt"; vf_ServerCrt := "/crt"; vf_ServerKey := "/key";
     vf_TlsAuth := "/ta.key"; vf_Cipher := "AES-256-CBC"; vf_Routes := ["192.168.1.0/24"; "none"]%string;
     vf_Renego := 0; vf_Script := "/usr/bin/openlan"; vf_Push := ["dhcp-option DNS 8.8.8.8"]%string;
     vf_Clients := [{| vc_Name := "bob@net"; vc_Address := "10.8.0.6"; vc_Netmask := "255.255.255.0" |}] |}.
Definition demo_files : fs :=
  {[ "/ca.crt" := unlines ["CA"]; "/ta.key" := unlines ["KEY"] ]}%string.
Definition demo_host : host := {| h_files := demo_files; h_commands := [] |}.

Lemma server_lifecycle_witness :
  exists h1 text, vpn_Initialize (fun _ => false) (NewOpenVPN demo_cfg) demo_host = Ret h1 /\
    h_commands (vpn_Start (fun _ => false) (NewOpenVPN demo_cfg) h1) =
      [[OpenVPNBin; "--cd"; "/var/openlan/openvpn/net"; "--config"; "udp1194server.conf"; "--writepid";
        "udp1194server.pid"]]%string /\
    pushes (raw_lines (S (String.length text)) text) =
      [push "route 192.168.1.0 255.255.255.0"; push "dhcp-option DNS 8.8.8.8"]%string.
Proof.
  destruct (server_lifecycle (fun _ => false) (NewOpenVPN demo_cfg) demo_cfg demo_host)
    as (h1 & cd & config & pid & text & E & Hc & Hf & Hl & Hp & _);
    [reflexivity|reflexivity|reflexivity|reflexivity|reflexivity|reflexivity|vm_compute; lia
    |repeat constructor|].
  exists h1, text. split; [exact E|]. split; [|rewrite Hp; vm_compute; reflexivity].
  vm_compute in E. injection E as <-. vm_compute. reflexivity.
Defined.
