(* ===== verification/VpnClients.v ===== *)
(** * The clients of VPN servers (pkg/olsw/cache/openvpn.go)

    The switch lists the clients of a network's VPN servers from the status files the
    servers write, and gives out the profiles it has written for clients, with the
    address of the switch put in.  The format of a status file is the one of OpenVPN. *)

From stdpp Require Import sorting.
From S2P Require Import Prelude GoStd Utils UserCache Config Vpn.

Local Open Scope Z_scope.
Local Arguments String.append !_ _ / : simpl nomatch.

(** ** The clients of a server *)

Module schema.
Record VPNClient := {
  Uptime : Z; Name : string; UUID : string; Network : string; User : string; Remote : string; Device : string;
  RxBytes : Z; TxBytes : Z; ErrPkt : string; State : string; AliveTime : Z; Address : string
}.
Definition set_Address (c : VPNClient) (a : string) : VPNClient :=
  {| Uptime := Uptime c; Name := Name c; UUID := UUID c; Network := Network c; User := User c;
     Remote := Remote c; Device := Device c; RxBytes := RxBytes c; TxBytes := TxBytes c; ErrPkt := ErrPkt c;
     State := State c; AliveTime := AliveTime c; Address := a |}.
End schema.
Import schema.

Definition char_comma : Ascii.ascii := Ascii.ascii_of_N 44.
Definition ParseInt64 (value : string) : Z := let '(n, ok) := Atoi value in if ok then n else 0.

(** The configured networks; one that is nil panics. *)
Fixpoint GetDevice (nets : list (option Config.Network)) (name : string) : go string :=
  match nets with
  | [] => Ret ""%string
  | None :: _ => Panic
  | Some n :: nets =>
      match net_OpenVPN n with
      | Some vpn => if String.eqb (vf_Network (vpn_Fields vpn)) name then Ret (vf_Device (vpn_Fields vpn))
                    else GetDevice nets name
      | None => GetDevice nets name
      end
  end.

Inductive section := Header | Common | Routing | Global.

Section status.
(** [device] is the network's; [parse_time] reads the time a client connected. *)
Context (device : string) (parse_time : string -> option Z) (now : Z).

Definition common_line (columns : list string) : option VPNClient :=
  match columns with
  | [name; remote; rx; tx; since] =>
      let up := parse_time since in
      Some {| Uptime := default 0 up; Name := name; UUID := ""; Network := ""; User := ""; Remote := remote;
              Device := device; RxBytes := ParseInt64 rx; TxBytes := ParseInt64 tx; ErrPkt := "";
              State := "success"; AliveTime := match up with Some t => now - t | None => 0 end; Address := "" |}
  | _ => None
  end.

Definition read_section (st : section * Z) (line : string) : section * Z :=
  let st := if String.eqb line "OpenVPN CLIENT LIST" then (Common, 3) else st in
  let st := if String.eqb line "ROUTING TABLE" then (Routing, 2) else st in
  if String.eqb line "GLOBAL STATS" then (Global, 1) else st.

Definition scan_line (acc : (section * Z) * gmap string VPNClient) (line : string)
    : (section * Z) * gmap string VPNClient :=
  let '(st, clients) := acc in
  let '(readAt, offset) := read_section st line in
  if 0 <? offset then ((readAt, offset - 1), clients)
  else
    let columns := SplitN line char_comma 5 in
    ((readAt, offset),
     match readAt with
     | Common => match common_line columns with Some c => <[Remote c := c]> clients | None => clients end
     | Routing =>
         match columns with
         | [address; _; remote; _] => alter (fun c => set_Address c address) remote clients
         | _ => clients
         end
     | _ => clients
     end).

Definition scanStatus (content : string) (clients : gmap string VPNClient) : gmap string VPNClient :=
  (foldl scan_line ((Header, 0), clients) (scan_lines content)).2.
End status.

(** [VPNClient.Directory] is a directory of the switch. *)
Definition vpnDirectory : string := VarDir ["openvpn"%string].
Definition Dir (args : list string) : string := path_Join (vpnDirectory :: args).

Definition HasSuffix (s suf : string) : bool :=
  (String.length suf <=? String.length s)%nat && String.eqb (str_drop (String.length s - String.length suf) s) suf.
Definition path_le (p q : string) : Prop := String.leb p q = true.
#[export] Instance path_le_dec p q : Decision (path_le p q).
Proof. unfold path_le. apply _. Defined.
(** Whether a path is a name with a suffix in a directory. *)
Definition in_dir (dir suffix p : string) : bool :=
  match cut_str (dir +:+ "/")%string p with
  | Some (EmptyString, name) => negb (contains_char char_slash name) && HasSuffix name suffix
  | _ => false
  end.
(** [filepath.Glob] of a name that begins with the only star: the files of the directory,
    which has no special character, in order. *)
Definition glob (files : fs) (dir suffix : string) : list string :=
  merge_sort path_le (filter (fun p => in_dir dir suffix p = true) (elements (dom files))).
Definition statusFile (files : fs) (name : string) : list string := glob files (Dir [name]) "server.status".

Definition readStatus (nets : list (option Config.Network)) (parse_time : string -> option Z) (now : Z)
    (files : fs) (network : string) : go (gmap string VPNClient) :=
  let clients device :=
    foldl (fun cl f => match files !! f with
                       | Some text => scanStatus device parse_time now text cl
                       | None => cl
                       end) ∅ (statusFile files network) in
  match GetDevice nets network with
  | Ret device => Ret (clients device)
  | Panic => if bool_decide (clients ""%string = ∅) then Ret ∅ else Panic   (* asked for each client *)
  end.

(** [strings.Replace(line, "0.0.0.0", remote, 1)] *)
Definition replace_first (s old new : string) : string :=
  match cut_str old s with Some (l, r) => (l +:+ new +:+ r)%string | None => s end.
Definition profile_line (remote line : string) : string :=
  if HasPrefix line "remote 0.0.0.0" then replace_first line "0.0.0.0" remote else line.
(** A line that is too long is an error, as is a file that is not there. *)
Definition GetClientProfile (files : fs) (network client remote : string) : option string :=
  text ← files !! Dir [network; (client +:+ "client.ovpn")%string];
  let raw := raw_lines (S (String.length text)) text in
  if forallb (fun l => Z.of_nat (String.length l) <? 65536) raw
  then Some (unlines (map (profile_line remote) (scan_lines text))) else None.

(** ** Directories *)

#[export] Instance path_le_trans : Transitive path_le.
Proof.
  unfold path_le, String.leb. intros s. induction s as [|a s IH]; intros [|b t] [|c u]; simpl; try done.
  unfold Ascii.compare.
  destruct (N.compare_spec (Ascii.N_of_ascii a) (Ascii.N_of_ascii b)) as [E1|E1|E1],
           (N.compare_spec (Ascii.N_of_ascii b) (Ascii.N_of_ascii c)) as [E2|E2|E2]; try done;
    destruct (N.compare_spec (Ascii.N_of_ascii a) (Ascii.N_of_ascii c)); try done; try lia.
  intros H1 H2. by apply (IH t u).
Qed.
#[export] Instance path_le_total : Total path_le.
Proof. intros p q. apply String.leb_total. Qed.
#[export] Instance path_le_antisymm : AntiSymm eq path_le.
Proof. intros p q. apply String.leb_antisym. Qed.

(** Two hosts with the same files of a directory give the same list. *)
Lemma glob_same (f1 f2 : fs) dir suffix :
  (forall p, in_dir dir suffix p = true -> f1 !! p = f2 !! p) -> glob f1 dir suffix = glob f2 dir suffix.
Proof.
  intros H. unfold glob. apply (Sorted_unique path_le); [apply Sorted_merge_sort, _..|]. rewrite !merge_sort_Permutation.
  apply NoDup_Permutation; [apply NoDup_filter, NoDup_elements..|]. intros p.
  rewrite !list_elem_of_filter, !elem_of_elements, !elem_of_dom. split; intros [Hp Hs]; (split; [done|]).
  - by rewrite <- H.
  - by rewrite H.
Qed.

Definition vpn_dir (net : string) : string := VarDir ["openvpn"%string; net].

Lemma vpn_dir_prefix net : base_name net -> join_prefix (vpn_dir net) = vpn_dir net +:+ "/".
Proof.
  intros (Hs & H1 & H2 & H3). change (vpn_dir net) with ("/var/openlan/openvpn" +:+ String char_slash net).
  unfold join_prefix. rewrite Split_app, (Split_plain net), foldl_app by done.
  change (HasPrefix _ "/") with true. cbn [foldl].
  change (foldl (clean_step true) [] (Split "/var/openlan/openvpn" char_slash)) with ["var"; "openlan"; "openvpn"]%string.
  unfold clean_step. by rewrite !(proj2 (String.eqb_neq _ _)) by done.
Qed.
Lemma vpn_path net n : base_name net -> base_name n -> path_Join [vpn_dir net; n] = vpn_dir net +:+ "/" +:+ n.
Proof. intros H1 H2. by rewrite path_Join_name, vpn_dir_prefix, string_app_assoc. Qed.
(** The directory the switch looks in is the one a server is given by default. *)
Lemma Dir_vpn net rest : base_name net -> Dir [net; rest] = path_Join [vpn_dir net; rest] /\ Dir [net] = vpn_dir net.
Proof.
  intros H. split; [done|]. unfold Dir. rewrite path_Join_name by done. reflexivity.
Qed.

Lemma prefix_app p s : String.prefix p (p +:+ s) = true.
Proof. induction p as [|a p IH]; [by destruct s|]. rewrite string_app_cons. cbn [String.prefix]. by destruct (Ascii.ascii_dec a a). Qed.
Lemma str_drop_app p s : str_drop (String.length p) (p +:+ s) = s.
Proof. induction p as [|a p IH]; [by destruct s|]. by rewrite string_app_cons. Qed.
Lemma cut_str_app p s : cut_str p (p +:+ s) = Some (EmptyString, s).
Proof.
  assert (H : HasPrefix (p +:+ s) p = true) by apply prefix_app.
  destruct (p +:+ s) as [|a t] eqn:E; cbn [cut_str]; rewrite H; rewrite <- E, str_drop_app; done.
Qed.
Lemma in_dir_path dir suf n : in_dir dir suf (dir +:+ "/" +:+ n) = negb (contains_char char_slash n) && HasSuffix n suf.
Proof. unfold in_dir. by rewrite <- string_app_assoc, cut_str_app. Qed.

Lemma str_drop_split n s : (n <= String.length s)%nat -> exists l, s = l +:+ str_drop n s.
Proof.
  revert s. induction n as [|n IH]; intros s H; [by exists EmptyString|]. destruct s as [|a s]; [simpl in H; lia|].
  destruct (IH s) as [l E]; [simpl in H; lia|]. exists (String a l). simpl. by f_equal.
Qed.
Lemma HasSuffix_split s suf : HasSuffix s suf = true -> exists l, s = l +:+ suf.
Proof.
  unfold HasSuffix. intros [H1 H2%String.eqb_eq]%andb_true_iff.
  destruct (str_drop_split (String.length s - String.length suf) s) as [l E]; [lia|]. exists l. by rewrite H2 in E.
Qed.
Lemma suffixes_differ a b (s1 s2 : string) :
  a +:+ s1 = b +:+ s2 ->
  reverse (String.list_ascii_of_string s1) `prefix_of` reverse (String.list_ascii_of_string s2) \/
  reverse (String.list_ascii_of_string s2) `prefix_of` reverse (String.list_ascii_of_string s1).
Proof.
  assert (L : forall x y, String.list_ascii_of_string (x +:+ y) = String.list_ascii_of_string x ++ String.list_ascii_of_string y).
  { intros x y. induction x as [|c x IH]; [done|]. rewrite string_app_cons. simpl. by rewrite IH. }
  intros H%(f_equal (fun x => reverse (String.list_ascii_of_string x))). rewrite !L, !reverse_app in H.
  apply (prefix_weak_total _ _ (reverse (String.list_ascii_of_string s2) ++ reverse (String.list_ascii_of_string b))).
  - rewrite <- H. by apply prefix_app_r.
  - by apply prefix_app_r.
Qed.

(** A file that [Clean] removes is no status file. *)
Lemma not_status net o cfg suf :
  base_name net -> vf_Directory cfg = vpn_dir net -> o_Cfg o = Some cfg -> plain char_slash (ID o) ->
  suf = "server.stats"%string \/ suf = "ipp"%string ->
  in_dir (Dir [net]) "server.status" (file_of suf o true) = false.
Proof.
  intros Hn Hd Hc Hi Hs. unfold file_of. rewrite Hc, Hd. destruct (Dir_vpn net "" Hn) as [_ ->].
  rewrite vpn_path by (destruct Hs as [-> | ->]; done || (apply id_name; [done|done|simpl; lia])).
  rewrite in_dir_path. destruct (HasSuffix (ID o +:+ suf) "server.status") eqn:E; [|by rewrite andb_false_r].
  apply HasSuffix_split in E as [l E]. exfalso.
  destruct Hs as [-> | ->]; destruct (suffixes_differ _ _ _ _ E) as [[k H]|[k H]]; vm_compute in H; discriminate H.
Qed.

Lemma client_file_not_status net o cfg p :
  base_name net -> vf_Directory cfg = vpn_dir net -> o_Cfg o = Some cfg ->
  Forall (fun c => vc_Name c = ""%string \/ base_name (vc_Name c)) (vf_Clients cfg) ->
  p ∈ (client_files o cfg).*1 -> in_dir (Dir [net]) "server.status" p = false.
Proof.
  intros Hn Hd Hc Hcl Hp. apply list_elem_of_fmap in Hp as ([p' t] & -> & Hp). unfold client_files in Hp.
  apply list_elem_of_omap in Hp as (c & Hin & Hp). rewrite Forall_forall in Hcl. specialize (Hcl c Hin).
  destruct (String.eqb_spec (vc_Name c) ""%string) as [E|E]; [done|]. cbn [orb] in Hp.
  destruct (String.eqb (vc_Address c) ""); [done|]. injection Hp as <- <-. cbn [fst].
  destruct Hcl as [?|Hb]; [done|]. unfold DirectoryClientConfig. rewrite Hc, Hd. destruct (Dir_vpn net "" Hn) as [_ ->].
  assert (Hccd : base_name "ccd") by done. rewrite (vpn_path net "ccd") by done.
  assert (E2 : path_Join [(vpn_dir net +:+ "/" +:+ "ccd")%string; vc_Name c] = vpn_dir net +:+ "/" +:+ ("ccd/" +:+ vc_Name c)).
  { rewrite path_Join_name by done. change (vpn_dir net +:+ "/" +:+ "ccd") with
      (("/var/openlan/openvpn" +:+ String char_slash net) +:+ String char_slash "ccd"). unfold join_prefix.
    rewrite !Split_app, (Split_plain net), (Split_plain "ccd"), !foldl_app by (done || apply Hn).
    change (HasPrefix _ "/") with true. cbn [foldl].
    change (foldl (clean_step true) [] (Split "/var/openlan/openvpn" char_slash)) with ["var"; "openlan"; "openvpn"]%string.
    destruct Hn as (_ & N1 & N2 & N3). unfold clean_step. rewrite !(proj2 (String.eqb_neq net _)) by done.
    change (vpn_dir net) with ("/var/openlan/openvpn/" +:+ net). cbn. by rewrite !string_app_assoc. }
  change (in_dir (vpn_dir net) "server.status" (path_Join [(vpn_dir net +:+ "/" +:+ "ccd")%string; vc_Name c]) = false).
  rewrite E2, in_dir_path. by rewrite contains_app.
Qed.

(** A stopped server is still listed: [Stop] removes a file that no server writes and
    leaves the status file, so whatever clients were connected when a server of a
    network was stopped, listing the clients of the network gives the same as before. *)
Theorem stopped_server_still_listed denied o cfg net nets parse_time now h :
  base_name net -> vf_Directory cfg = vpn_dir net -> o_Cfg o = Some cfg -> plain char_slash (ID o) ->
  Forall (fun c => vc_Name c = ""%string \/ base_name (vc_Name c)) (vf_Clients cfg) ->
  readStatus nets parse_time now (h_files (vpn_Stop denied o h)) net = readStatus nets parse_time now (h_files h) net.
Proof.
  intros Hn Hd Hc Hi Hcl.
  assert (Hf : forall p, in_dir (Dir [net]) "server.status" p = true -> h_files (vpn_Stop denied o h) !! p = h_files h !! p).
  { intros p Hp. unfold vpn_Stop, valid_cfg. destruct (ValidConf o); [|done]. rewrite Hc.
    etransitivity; [apply Clean_frame|by destruct (h_files h !! FilePid o true)].
    rewrite elem_of_app, !elem_of_cons. intros [H|[H|[H|H]]]; [|subst p..|by apply not_elem_of_nil in H].
    - by rewrite (client_file_not_status net o cfg p) in Hp.
    - unfold FileStats in Hp. rewrite (not_status net o cfg) in Hp by tauto. done.
    - unfold FileIpp in Hp. rewrite (not_status net o cfg) in Hp by tauto. done. }
  assert (Hg : statusFile (h_files (vpn_Stop denied o h)) net = statusFile (h_files h) net) by by apply glob_same.
  unfold readStatus. rewrite Hg.
  assert (Hall : forall device cl, foldl (fun cl f => match h_files (vpn_Stop denied o h) !! f with
      | Some text => scanStatus device parse_time now text cl | None => cl end) cl (statusFile (h_files h) net) =
    foldl (fun cl f => match h_files h !! f with
      | Some text => scanStatus device parse_time now text cl | None => cl end) cl (statusFile (h_files h) net)).
  { intros device. assert (Ha : Forall (fun p => in_dir (Dir [net]) "server.status" p = true) (statusFile (h_files h) net)).
    { unfold statusFile, glob. rewrite merge_sort_Permutation. apply Forall_forall. intros p Hp.
      by apply list_elem_of_filter in Hp as [? _]. }
    clear Hg. revert Ha. generalize (statusFile (h_files h) net). intros l Ha.
    induction Ha as [|p l Hp Hl IH]; intros cl; [done|]. simpl. rewrite (Hf p Hp). by apply IH. }
  destruct (GetDevice nets net); by rewrite !Hall.
Qed.

(** ** Reading a status file *)

Record row := { r_name : string; r_remote : string; r_rx : Z; r_tx : Z; r_since : string }.
Record route_row := { rr_address : string; rr_name : string; rr_remote : string; rr_last : string }.

Definition comma (s t : string) : string := s +:+ String char_comma t.
Definition row_line (r : row) : string :=
  comma (r_name r) (comma (r_remote r) (comma (FormatInt (r_rx r)) (comma (FormatInt (r_tx r)) (r_since r)))).
Definition route_line (r : route_row) : string :=
  comma (rr_address r) (comma (rr_name r) (comma (rr_remote r) (rr_last r))).
(** The file a server writes (version 1 of the format). *)
Definition status_lines (updated queue : string) (rows : list row) (routes : list route_row) : list string :=
  ["OpenVPN CLIENT LIST"; "Updated," +:+ updated; "Common Name,Real Address,Bytes Received,Bytes Sent,Connected Since"]%string ++
  map row_line rows ++
  ["ROUTING TABLE"; "Virtual Address,Common Name,Real Address,Last Ref"]%string ++
  map route_line routes ++
  ["GLOBAL STATS"; "Max bcast/mcast queue length," +:+ queue; "END"]%string.

(** A line the scanner gives back as it is. *)
Definition scannable (l : string) : Prop :=
  plain newline l /\ Z.of_nat (String.length l) < 65536 /\ drop_cr l = l.
Definition row_ok (r : row) : Prop :=
  plain char_comma (r_name r) /\ plain char_comma (r_remote r) /\ 0 <= r_rx r < 2 ^ 63 /\ 0 <= r_tx r < 2 ^ 63.
Definition route_ok (r : route_row) : Prop :=
  plain char_comma (rr_address r) /\ plain char_comma (rr_name r) /\ plain char_comma (rr_remote r) /\
  plain char_comma (rr_last r).

Section reading.
Context (device : string) (parse_time : string -> option Z) (now : Z).

Definition row_client (r : row) : VPNClient :=
  {| Uptime := default 0 (parse_time (r_since r)); Name := r_name r; UUID := ""; Network := ""; User := "";
     Remote := r_remote r; Device := device; RxBytes := r_rx r; TxBytes := r_tx r; ErrPkt := ""; State := "success";
     AliveTime := match parse_time (r_since r) with Some t => now - t | None => 0 end; Address := "" |}.

Lemma comma_line s t st : read_section st (comma s t) = st.
Proof.
  assert (H : contains_char char_comma (comma s t) = true).
  { unfold comma. rewrite contains_app. simpl. by rewrite orb_true_r. }
  unfold read_section. destruct (String.eqb_spec (comma s t) "OpenVPN CLIENT LIST") as [E|_]; [by rewrite E in H|].
  destruct (String.eqb_spec (comma s t) "ROUTING TABLE") as [E|_]; [by rewrite E in H|].
  destruct (String.eqb_spec (comma s t) "GLOBAL STATS") as [E|_]; [by rewrite E in H|done].
Qed.

Lemma scan_row r cl : row_ok r ->
  scan_line device parse_time now ((Common, 0), cl) (row_line r) = ((Common, 0), <[r_remote r := row_client r]> cl).
Proof.
  intros (H1 & H2 & H3 & H4). unfold scan_line. unfold row_line at 1. rewrite comma_line. cbn [Z.ltb Z.compare].
  assert (Hs : SplitN (row_line r) char_comma 5 =
    [r_name r; r_remote r; FormatInt (r_rx r); FormatInt (r_tx r); r_since r]).
  { unfold row_line, comma. rewrite !SplitN_cons by (done || (apply FormatInt_plain; [lia|done])). done. }
  rewrite Hs. unfold common_line, ParseInt64. by rewrite !Atoi_FormatInt by lia.
Qed.
Lemma scan_route r cl : route_ok r ->
  scan_line device parse_time now ((Routing, 0), cl) (route_line r) =
  ((Routing, 0), alter (fun c => set_Address c (rr_address r)) (rr_remote r) cl).
Proof.
  intros (H1 & H2 & H3 & H4). unfold scan_line. unfold route_line at 1. rewrite comma_line. cbn [Z.ltb Z.compare].
  assert (Hs : SplitN (route_line r) char_comma 5 = [rr_address r; rr_name r; rr_remote r; rr_last r]).
  { unfold route_line, comma. rewrite !SplitN_cons by done. cbn [SplitN]. by rewrite cut_none. }
  by rewrite Hs.
Qed.

Lemma scan_rows rows (cl : gmap string VPNClient) : Forall row_ok rows ->
  foldl (scan_line device parse_time now) ((Common, 0), cl) (map row_line rows) =
  ((Common, 0), foldl (fun cl r => <[r_remote r := row_client r]> cl) cl rows).
Proof.
  intros H. revert cl. induction H as [|r rows Hr _ IH]; intros cl; [done|]. cbn [map foldl]. by rewrite scan_row.
Qed.
Lemma scan_routes routes (cl : gmap string VPNClient) : Forall route_ok routes ->
  foldl (scan_line device parse_time now) ((Routing, 0), cl) (map route_line routes) =
  ((Routing, 0), foldl (fun cl r => alter (fun c => set_Address c (rr_address r)) (rr_remote r) cl) cl routes).
Proof.
  intros H. revert cl. induction H as [|r rows Hr _ IH]; intros cl; [done|]. cbn [map foldl]. by rewrite scan_route.
Qed.

Lemma scan_head updated (cl : gmap string VPNClient) :
  foldl (scan_line device parse_time now) ((Header, 0), cl)
    ["OpenVPN CLIENT LIST"; "Updated," +:+ updated; "Common Name,Real Address,Bytes Received,Bytes Sent,Connected Since"]%string =
  ((Common, 0), cl).
Proof. reflexivity. Qed.
Lemma scan_middle (cl : gmap string VPNClient) :
  foldl (scan_line device parse_time now) ((Common, 0), cl)
    ["ROUTING TABLE"; "Virtual Address,Common Name,Real Address,Last Ref"]%string = ((Routing, 0), cl).
Proof. reflexivity. Qed.
Lemma scan_tail queue (cl : gmap string VPNClient) :
  foldl (scan_line device parse_time now) ((Routing, 0), cl)
    ["GLOBAL STATS"; "Max bcast/mcast queue length," +:+ queue; "END"]%string = ((Global, 0), cl).
Proof. reflexivity. Qed.

(** The last of the rows and of the routes of an address count. *)
Lemma rows_lookup rows (cl : gmap string VPNClient) remote :
  foldl (fun cl r => <[r_remote r := row_client r]> cl) cl rows !! remote =
  match last (filter (fun r => r_remote r = remote) rows) with Some r => Some (row_client r) | None => cl !! remote end.
Proof.
  induction rows as [|r rows IH] using rev_ind; [done|]. rewrite foldl_app, filter_app, last_app, filter_cons, filter_nil.
  simpl. destruct (decide (r_remote r = remote)) as [<-|Hne]; simpl; [by rewrite lookup_insert_eq|].
  by rewrite lookup_insert_ne.
Qed.
Lemma routes_lookup routes (cl : gmap string VPNClient) remote :
  foldl (fun cl r => alter (fun c => set_Address c (rr_address r)) (rr_remote r) cl) cl routes !! remote =
  match last (filter (fun r => rr_remote r = remote) routes) with
  | Some r => (fun c => set_Address c (rr_address r)) <$> cl !! remote
  | None => cl !! remote
  end.
Proof.
  induction routes as [|r routes IH] using rev_ind; [done|]. rewrite foldl_app, filter_app, last_app, filter_cons, filter_nil.
  simpl. destruct (decide (rr_remote r = remote)) as [<-|Hne]; simpl.
  - rewrite lookup_alter_eq, IH. destruct (last _); [|done]. by destruct (cl !! rr_remote r).
  - by rewrite lookup_alter_ne.
Qed.
End reading.

(** (C33) The clients listed are the ones in the status file: of each address the client, the
    bytes and the time of the last row for it, with the address the routing table gives
    last, and nobody else. *)
Theorem status_roundtrip device parse_time now updated queue rows routes remote :
  Forall row_ok rows -> Forall route_ok routes -> Forall scannable (status_lines updated queue rows routes) ->
  scanStatus device parse_time now (unlines (status_lines updated queue rows routes)) ∅ !! remote =
  match last (filter (fun r => r_remote r = remote) rows) with
  | None => None
  | Some r => Some (set_Address (row_client device parse_time now r)
                     (match last (filter (fun r => rr_remote r = remote) routes) with
                      | Some x => rr_address x | None => ""%string end))
  end.
Proof.
  intros Hr Ht Hl. unfold scanStatus. rewrite scan_unlines by exact Hl. unfold status_lines.
  rewrite !foldl_app, scan_head, scan_rows, scan_middle, scan_routes, scan_tail by done.
  cbn [snd]. rewrite routes_lookup, rows_lookup, lookup_empty.
  by destruct (last (filter (fun r => r_remote r = remote) rows)), (last (filter (fun r => rr_remote r = remote) routes)).
Qed.

(** ** Giving out a profile *)

Definition profile_lines (cert : bool) (p : OpenVPNProfile) (server : string) (ca ta : list string) : list string :=
  profile_head p ++ [profile_remote p server] ++ profile_more p ++ ca ++
  ["</ca>"; "remote-cert-tls server"; "<tls-auth>"]%string ++ ta ++ profile_end cert p.
Lemma profile_text_lines cert p server ca ta :
  p_Ca p = unlines ca -> p_TlsAuth p = unlines ta ->
  profile_text cert p server = unlines (profile_lines cert p server ca ta).
Proof. intros H1 H2. unfold profile_text, profile_lines. by rewrite H1, H2, !unlines_app. Qed.

Definition no_remote (l : string) : Prop := HasPrefix l "remote 0.0.0.0" = false.
Lemma profile_line_other remote l : no_remote l -> profile_line remote l = l.
Proof. unfold no_remote, profile_line. by intros ->. Qed.
Lemma map_profile_line remote ls : Forall no_remote ls -> map (profile_line remote) ls = ls.
Proof. induction 1 as [|l ls H _ IH]; [done|]. cbn [map]. by rewrite profile_line_other, IH. Qed.

Lemma profile_lines_remote cert p ca ta remote : Forall no_remote (ca ++ ta) ->
  map (profile_line remote) (profile_lines cert p "0.0.0.0" ca ta) = profile_lines cert p remote ca ta.
Proof.
  intros [Hc Ht]%Forall_app. unfold profile_lines. rewrite !map_app.
  rewrite (map_profile_line remote ca), (map_profile_line remote ta) by done.
  rewrite (map_profile_line remote (profile_head p)), (map_profile_line remote (profile_more p)),
    (map_profile_line remote (profile_end cert p)) by (destruct cert; repeat constructor).
  reflexivity.
Qed.

(** A client gets a profile that works: the profile [Initialize] writes for a server that
    listens on all addresses is given out, to whoever asks for it at an address of the
    switch, as the same text with that address as the one to connect to, the authority
    and the key in it unchanged. *)
Theorem profile_served denied o cfg net h ca ta remote :
  ValidConf o = true -> o_Cfg o = Some cfg -> plain char_slash (ID o) ->
  denied (FileCfg o true) = false -> denied (FileClient o true) = false -> (3 <= String.length (vf_Device cfg))%nat ->
  base_name net -> vf_Directory cfg = vpn_dir net -> o_Local o = "0.0.0.0"%string ->
  vf_RootCa cfg ∉ touched o cfg -> vf_TlsAuth cfg ∉ touched o cfg ->
  h_files h !! vf_RootCa cfg = Some (unlines ca) -> h_files h !! vf_TlsAuth cfg = Some (unlines ta) ->
  let p := the_profile o cfg (h_files h) in
  Forall scannable (profile_lines (is_cert cfg) p "0.0.0.0" ca ta) -> Forall no_remote (ca ++ ta) ->
  exists h', vpn_Initialize denied o h = Ret h' /\
    GetClientProfile (h_files h') net (ID o) remote = Some (profile_text (is_cert cfg) p remote).
Proof.
  intros Hv Hc Hi Hd1 Hd2 Hdev Hn Hdir Hl Hra Hrt Hca Hta p Hs Hnr.
  pose proof (Initialize_spec denied o cfg h Hv Hc Hi Hd1 Hd2) as Hinit.
  rewrite (proj2 (Nat.leb_le _ _) Hdev) in Hinit. destruct Hinit as (h' & E & _ & _ & Hp & _).
  exists h'. split; [done|]. specialize (Hp Hra Hrt). rewrite Hl in Hp. fold p in Hp.
  assert (Hpt : forall server, profile_text (is_cert cfg) p server = unlines (profile_lines (is_cert cfg) p server ca ta)).
  { intros server. apply profile_text_lines; unfold p; simpl; [by rewrite Hca|by rewrite Hta]. }
  unfold GetClientProfile. rewrite (proj1 (Dir_vpn net _ Hn)), <- Hdir.
  replace (path_Join [vf_Directory cfg; (ID o +:+ "client.ovpn")%string]) with (FileClient o true)
    by by unfold FileClient, file_of; rewrite Hc.
  rewrite Hp. cbn [mbind option_bind]. rewrite !Hpt, raw_lines_unlines, scan_unlines by
    (exact Hs || (eapply Forall_impl; [exact Hs|]; by intros l (H & _)) || (pose proof (length_unlines (profile_lines (is_cert cfg) p "0.0.0.0" ca ta)); lia)).
  replace (forallb _ _) with true; [by rewrite profile_lines_remote|]. symmetry. apply forallb_forall. intros l Hin.
  rewrite Forall_forall in Hs. destruct (Hs l) as (_ & Hlt & _); [by apply list_elem_of_In|]. lia.
Qed.

(** ** A network's clients *)

Definition demo_row (remote : string) (rx : Z) : row :=
  {| r_name := "bob@net"; r_remote := remote; r_rx := rx; r_tx := 7; r_since := "Mon Jan  2 15:04:05 2006" |}.
Definition demo_status : list string :=
  status_lines "now" "0" [demo_row "1.2.3.4:99" 5; demo_row "1.2.3.5:99" 6]
    [{| rr_address := "10.8.0.6"; rr_name := "bob@net"; rr_remote := "1.2.3.4:99"; rr_last := "now" |}].

Lemma status_roundtrip_witness :
  option_map (fun c => (RxBytes c, Address c))
    (scanStatus "tun0" (fun _ => None) 0 (unlines demo_status) ∅ !! "1.2.3.4:99"%string) = Some (5, "10.8.0.6"%string).
Proof.
  unfold demo_status. rewrite (status_roundtrip "tun0" (fun _ => None) 0 "now" "0"
    [demo_row "1.2.3.4:99" 5; demo_row "1.2.3.5:99" 6]
    [{| rr_address := "10.8.0.6"; rr_name := "bob@net"; rr_remote := "1.2.3.4:99"; rr_last := "now" |}] "1.2.3.4:99").
  - reflexivity.
  - repeat constructor; vm_compute; congruence.
  - repeat constructor.
  - repeat constructor.
Defined.

Definition served_files : fs :=
  <["/var/openlan/openvpn/net/udp1194server.status"%string := unlines demo_status]> demo_files.
Definition vpn_nets : list (option Config.Network) := [].

Lemma stopped_server_still_listed_witness :
  exists cl, readStatus vpn_nets (fun _ => None) 0
    (h_files (vpn_Stop (fun _ => false) (NewOpenVPN demo_cfg) {| h_files := served_files; h_commands := [] |})) "net" = Ret cl /\
    is_Some (cl !! "1.2.3.4:99"%string).
Proof.
  rewrite (stopped_server_still_listed (fun _ => false) (NewOpenVPN demo_cfg) demo_cfg "net" vpn_nets (fun _ => None) 0
    {| h_files := served_files; h_commands := [] |}).
  - eexists. split; [vm_compute; reflexivity|]. vm_compute. eexists. reflexivity.
  - repeat split; discriminate.
  - reflexivity.
  - reflexivity.
  - reflexivity.
  - constructor; [|constructor]. right. repeat split; discriminate.
Defined.

Lemma profile_served_witness :
  exists h', vpn_Initialize (fun _ => false) (NewOpenVPN demo_cfg) demo_host = Ret h' /\
    option_map (fun t => List.filter (fun l => HasPrefix l "remote ") (scan_lines t))
      (GetClientProfile (h_files h') "net" "udp1194" "203.0.113.9") = Some ["remote 203.0.113.9 1194"%string].
Proof.
  destruct (profile_served (fun _ => false) (NewOpenVPN demo_cfg) demo_cfg "net" demo_host ["CA"%string] ["KEY"%string] "203.0.113.9")
    as (h' & E & H);
    [reflexivity|reflexivity|reflexivity|reflexivity|reflexivity|vm_compute; lia|repeat split; discriminate|reflexivity|reflexivity
    | | |reflexivity|reflexivity|repeat constructor|repeat constructor|].
  - vm_compute. intros H. repeat (apply elem_of_cons in H as [H|H]; [discriminate H|]). by apply not_elem_of_nil in H.
  - vm_compute. intros H. repeat (apply elem_of_cons in H as [H|H]; [discriminate H|]). by apply not_elem_of_nil in H.
  - exists h'. split; [exact E|]. change (ID (NewOpenVPN demo_cfg)) with "udp1194"%string in H. rewrite H. vm_compute. reflexivity.
Defined.
