(* ===== verification/Worker.v ===== *)
(** * A network's worker as a whole (pkg/olsw/openlan.go)

    [OpenLAN] and [Vpn] model the parts of a worker; here they are put together:
    [Initialize], [Start] and [Stop], with everything asked of the system in one list, in
    order.  The files and commands of the VPN servers are in the host of [Vpn]. *)

From S2P Require Import Prelude GoStd Utils SafeMap Models UserCache NetCache Tap Cache Config OpenLAN Vpn.

Local Open Scope Z_scope.

(** What is asked: of the bridge, of the kernel's routes and for the links, and the calls
    of [Start] and [Stop] of the VPN servers that are configured. *)
Inductive event := EBridge (b : brcall) | ERoute (r : request) | ELink (a : action) | EVpnStart (id : string) | EVpnStop (id : string).

(** [lan_up] says that [NewBridger] was called; [lan_events] is the list of requests. *)
Record lan := {
  lan_worker : worker; lan_tables : tables; lan_host : host; lan_vpn : list Vpn.OpenVPN; lan_up : bool;
  lan_events : list event
}.
Definition NewLan (c : Network) (t : tables) (taps : Tap.tapers) (h : host) : lan :=
  {| lan_worker := NewOpenLANWorker c (t_link t) taps; lan_tables := t; lan_host := h; lan_vpn := []; lan_up := false;
     lan_events := [] |}.

Definition vpn_of (v : Config.OpenVPN) : Vpn.OpenVPN := NewOpenVPN (vpn_Fields v).

Section worker.
(** What the operating system refuses; the goos and the name of the host. *)
Context (denied : string -> bool) (os alias : string).

Definition Initialize (now : Z) (l : lan) : go lan :=
  t ← fill now (ow_cfg (lan_worker l)) (lan_tables l);
  let servers := map vpn_of (vpn_servers (net_OpenVPN (ow_cfg (lan_worker l)))) in
  h ← init_servers denied servers (lan_host l);
  Ret {| lan_worker := lan_worker l; lan_tables := t; lan_host := h; lan_vpn := lan_vpn l ++ servers; lan_up := true;
         lan_events := lan_events l |}.

(** The table of links is shared: the worker works on the one in the tables. *)
Definition with_cache (w : worker) (c : LinkCache.t) : worker :=
  set_links w (ow_links w) (ow_store w) c (ow_taps w) (ow_actions w).
Definition with_links (t : tables) (c : LinkCache.t) : tables :=
  {| t_user := t_user t; t_network := t_network t; t_link := c |}.
Definition set_time (w : worker) (uuid : string) (start : Z) : worker :=
  {| ow_alias := ow_alias w; ow_cfg := ow_cfg w; ow_startTime := start; ow_uuid := uuid; ow_links := ow_links w;
     ow_store := ow_store w; ow_cache := ow_cache w; ow_taps := ow_taps w; ow_actions := ow_actions w |}.

(** The order of what [Start] and [Stop] ask for. *)
Definition started_events (bs : list brcall) (ls : list action) (rs : list request) (vs : list Vpn.OpenVPN) : list event :=
  (EBridge <$> bs) ++ (ELink <$> ls) ++ (ERoute <$> rs) ++
  ((fun o => EVpnStart (ID o)) <$> filter (fun o => ValidConf o = true) vs).
Definition stopped_events (vs : list Vpn.OpenVPN) (rs : list request) (ls : list action) (bs : list brcall) : list event :=
  ((fun o => EVpnStop (ID o)) <$> filter (fun o => ValidConf o = true) vs) ++ (ERoute <$> rs) ++ (ELink <$> ls) ++
  (EBridge <$> bs).

(** [index] is the bridge's in the kernel, if it is there; [uuids] are made up for the
    links.  A bridge that was not made or is not configured panics. *)
Definition Start (switch_uuid : string) (uuids : nat -> string) (index : option Z) (now : Z) (l : lan) : go lan :=
  match net_Bridge (ow_cfg (lan_worker l)), lan_up l with
  | Some br, true =>
      let w := set_time (with_cache (lan_worker l) (t_link (lan_tables l))) switch_uuid (ow_startTime (lan_worker l)) in
      w2 ← LoadLinks (fun f => negb (denied f)) os alias w uuids;
      Ret {| lan_worker := set_time w2 switch_uuid now; lan_tables := with_links (lan_tables l) (ow_cache w2);
             lan_host := start_servers denied (lan_vpn l) (lan_host l); lan_vpn := lan_vpn l; lan_up := true;
             lan_events := lan_events l ++ started_events (UpBridge (net_Acl (ow_cfg w)) br)
               (drop (length (ow_actions w)) (ow_actions w2)) (LoadRoutes index br (net_Routes (ow_cfg w))) (lan_vpn l) |}
  | _, _ => Panic
  end.

(** [order] is the order of the map of links. *)
Definition Stop (order : list (string * Link)) (index : option Z) (l : lan) : go lan :=
  match net_Bridge (ow_cfg (lan_worker l)), lan_up l with
  | Some br, true =>
      let w := lan_worker l in
      let w2 := UnLoadLinks w order in
      Ret {| lan_worker := set_time w2 (ow_uuid w2) 0; lan_tables := lan_tables l;
             lan_host := stop_servers denied (lan_vpn l) (lan_host l); lan_vpn := lan_vpn l; lan_up := true;
             lan_events := lan_events l ++ stopped_events (lan_vpn l) (UnLoadRoutes index (net_Routes (ow_cfg w)))
               (drop (length (ow_actions w)) (ow_actions w2)) (downBridge br) |}
  | _, _ => Panic
  end.
End worker.

(** ** A network is served as configured *)

(** The servers whose profile can be made: the device has the three characters that are
    taken of it. *)
Definition devices_named (v : option Config.OpenVPN) : Prop :=
  Forall (fun v => ValidConf (vpn_of v) = true -> (3 <= String.length (vf_Device (vpn_Fields v)))%nat) (vpn_servers v).

(** (C11) A corrected network is served as configured: if the device of each of its VPN servers
    has at least three characters (a shorter one panics, [Vpn.short_device_crashes]), its
    names are new and the tables have room, then [Initialize] of its worker returns; the
    bridge is made and the VPN servers, the main one and its breed, are kept to be started;
    the network is known, with all its routes when its bridge has an address; each host
    has its fixed address under its name, also after it has left; and each configured user
    can log in with the configured password, as an administrator. *)
Theorem configured_network_served denied dial pool n i n' i' now tz (l : lan) :
  lan_Correct pool n i = Ret (n', i') -> ow_cfg (lan_worker l) = n' -> tables_fresh n now (lan_tables l) ->
  devices_named (net_OpenVPN n') -> tz < year2000 ->
  exists l' cn, Initialize denied now l = Ret l' /\ lan_up l' = true /\ lan_worker l' = lan_worker l /\
    lan_vpn l' = lan_vpn l ++ map vpn_of (vpn_servers (net_OpenVPN n')) /\
    NetCache.Get (t_network (lan_tables l')) (net_Name n) = Some cn /\
    (forall br, net_Bridge n = Some br -> (bridge_addr (br_Address br)).1 <> ""%string ->
       map Route.Prefix (Models.Network.Routes cn) = map rt_Prefix (net_Routes n)) /\
    (forall h, h ∈ net_Hosts n ->
       exists id le, NetCache.NewLease (t_network (lan_tables l')) (host_Hostname h) (net_Name n) =
           Ret (t_network (lan_tables l'), Some id) /\
         NetCache.leases (t_network (lan_tables l')) !! id = Some le /\ Lease.Address le = host_Address h /\
         NetCache.DelLease (t_network (lan_tables l')) (host_Hostname h) = Ret (t_network (lan_tables l'))) /\
    (forall p obj, p ∈ net_Password n -> User.Id obj = User.Id (pass_user (net_Name n) now p) ->
       User.Password obj = pw_Password p ->
       exists u, UserCache.Check dial (t_user (lan_tables l')) obj tz now = (t_user (lan_tables l'), inl u) /\
         User.Role u = "admin"%string).
Proof.
  intros Hc Hcfg Hfresh Hdev Htz.
  destruct (fill_serves dial _ _ _ _ _ _ _ _ Hc Hfresh Htz) as (t' & cn & Hf & H).
  destruct (init_servers_return denied (map vpn_of (vpn_servers (net_OpenVPN n'))) (lan_host l)) as [h' Hh].
  { apply Forall_fmap. eapply Forall_impl; [exact Hdev|]. intros v Hv cfg [= <-]. exact Hv. }
  unfold Initialize. rewrite Hcfg, Hf. cbn [mbind go_bind]. rewrite Hh. cbn [mbind go_bind].
  eexists _, cn. split; [reflexivity|]. done.
Qed.

Definition demo_vpn_net : Network :=
  {| net_ConfDir := net_ConfDir demo_served; net_File := ""; net_Alias := "sw"; net_Name := "lan"; net_Provider := "";
     net_Bridge := net_Bridge demo_served; net_Subnet := None;
     net_OpenVPN := Some {| vpn_Fields := demo_cfg; vpn_Breed := [] |}; net_Links := []; net_Hosts := net_Hosts demo_served;
     net_Routes := net_Routes demo_served; net_Password := net_Password demo_served; net_Acl := ""; net_Specifies := None |}.
Lemma demo_vpn_fresh : tables_fresh demo_vpn_net 7 demo_tables.
Proof. split_and!; first [by apply (bool_decide_unpack _); vm_compute | by right; vm_compute | by constructor]. Qed.

Lemma configured_network_served_witness :
  match lan_Correct "100.44" demo_vpn_net 1194 with
  | Panic => False
  | Ret (n', _) =>
      exists l' cn, let t' := lan_tables l' in
        Initialize (fun _ => false) 7 (NewLan n' demo_tables Tap.empty_taps demo_host) = Ret l' /\ length (lan_vpn l') = 1%nat /\
        NetCache.Get (t_network t') "lan" = Some cn /\
        map Route.Prefix (Models.Network.Routes cn) = ["10.9.0.0/16"%string] /\
        (exists id l, NetCache.NewLease (t_network t') "nas" "lan" = Ret (t_network t', Some id) /\
           NetCache.leases (t_network t') !! id = Some l /\ Lease.Address l = "10.1.0.8"%string) /\
        exists u, UserCache.Check (fun _ => None) (t_user t')
          {| User.Alias := ""; User.Name := "ann"; User.Network := "lan"; User.Password := "secret";
             User.UUID := ""; User.System := ""; User.Role := ""; User.Last := None; User.Lease := 0;
             User.UpdateAt := 0 |} 0 7 = (t_user t', inl u) /\ User.Role u = "admin"%string
  end.
Proof.
  destruct (lan_Correct "100.44" demo_vpn_net 1194) as [[n' i']|] eqn:E; [|by vm_compute in E].
  assert (Hdev : devices_named (net_OpenVPN n')).
  { vm_compute in E. injection E as <- _. repeat constructor. }
  assert (Hsv : length (vpn_servers (net_OpenVPN n')) = 1%nat) by (vm_compute in E; injection E as <- _; reflexivity).
  destruct (configured_network_served (fun _ => false) (fun _ => None) _ _ _ _ _ 7 0
    (NewLan n' demo_tables Tap.empty_taps demo_host) E eq_refl demo_vpn_fresh Hdev ltac:(done))
    as (l' & cn & Hf & _ & _ & Hv & Hg & Hr & Hh & Hu).
  exists l', cn. split; [exact Hf|]. split; [rewrite Hv; cbn; by rewrite length_map|]. split; [exact Hg|]. split; [|split].
  - rewrite (Hr _ eq_refl); [vm_compute; reflexivity|by vm_compute].
  - destruct (Hh {| host_Hostname := "nas"; host_Address := "10.1.0.8" |}) as (id & l & H1 & H2 & H3 & _).
    { right. left. }
    exists id, l. split; [exact H1|]. split; [exact H2|exact H3].
  - apply (Hu {| pw_Username := "ann"; pw_Password := "secret" |}); [left|vm_compute; reflexivity|reflexivity].
Defined.

(** ** What is started is stopped *)

Lemma load_links_kept create os alias ls : forall w uuids c w',
  load_links create os alias w uuids c ls = Ret w' -> (c < length (ow_store w))%nat ->
  NoDup (map (conn_of os alias) ls) ->
  (forall k p, ls !! k = Some p ->
     ow_links w' !! conn_of os alias p = Some {| lk_uuid := uuids k; lk_cfg := c |}) /\
  (forall conn, conn ∉ map (conn_of os alias) ls -> ow_links w' !! conn = ow_links w !! conn) /\
  exists new, ow_actions w' = ow_actions w ++ new /\
    forall u c', Launch u c' ∈ new -> exists k p, ls !! k = Some p /\ u = uuids k.
Proof.
  induction ls as [|p ls IH]; intros w uuids c w' H Hc Hnd.
  - injection H as <-. split; [done|]. split; [done|]. exists []. rewrite app_nil_r. split; [done|].
    by intros u c' ?%not_elem_of_nil.
  - cbn [load_links] in H. apply go_bind_ret in H as (w1 & H1 & H).
    set (w0 := assign w c (point_Default os alias p)) in *.
    assert (H0 : ow_store w0 !! c = Some (point_Default os alias p)) by by apply list_lookup_insert_eq.
    destruct (AddLink_spec _ _ _ _ _ _ H1 H0) as (f & Hf & _ & Est & _ & Eact & El & _).
    cbn [map] in Hnd. apply NoDup_cons in Hnd as [Hni Hnd].
    assert (Hlen : length (ow_store w1) = length (ow_store w)) by (rewrite Est, length_insert; apply length_insert).
    destruct (IH w1 _ c w' H ltac:(lia) Hnd) as (Hk & Hother & new & Hnew & Hl).
    split; [|split].
    + intros [|k] q Hq; [|by apply Hk]. injection Hq as <-. rewrite Hother by done. rewrite El. apply lookup_insert_eq.
    + intros conn Hn. cbn [map] in Hn. apply not_elem_of_cons in Hn as [Hn1 Hn2]. rewrite Hother by done. rewrite El.
      by apply lookup_insert_ne.
    + eexists. rewrite Hnew, Eact. change (ow_actions w0) with (ow_actions w). rewrite <- !app_assoc. split; [done|].
      intros u c'. rewrite elem_of_app. intros [Hu|Hu].
      * apply elem_of_cons in Hu as [Hu|Hu]; [done|]. unfold link_Start in Hu. destruct (create _); [|by apply not_elem_of_nil in Hu].
        apply list_elem_of_singleton in Hu. injection Hu as -> _. by exists 0%nat, p.
      * destruct (Hl u c' Hu) as (k & q & Hq & ->). by exists (S k), q.
Qed.

Lemma started_elem bs ls rs vs :
  (forall a, ELink a ∈ started_events bs ls rs vs <-> a ∈ ls) /\
  (forall r, ERoute r ∈ started_events bs ls rs vs <-> r ∈ rs) /\
  (forall id, EVpnStart id ∈ started_events bs ls rs vs <-> exists o, id = ID o /\ o ∈ vs /\ ValidConf o = true).
Proof.
  unfold started_events. split_and!; intros x; rewrite !elem_of_app, !list_elem_of_fmap;
    try setoid_rewrite list_elem_of_filter; naive_solver.
Qed.
Lemma stopped_elem vs rs ls bs :
  (forall a, ELink a ∈ stopped_events vs rs ls bs <-> a ∈ ls) /\
  (forall r, ERoute r ∈ stopped_events vs rs ls bs <-> r ∈ rs) /\
  (forall id, EVpnStop id ∈ stopped_events vs rs ls bs <-> exists o, id = ID o /\ o ∈ vs /\ ValidConf o = true).
Proof.
  unfold stopped_events. split_and!; intros x; rewrite !elem_of_app, !list_elem_of_fmap;
    try setoid_rewrite list_elem_of_filter; naive_solver.
Qed.

Lemma Start_kept denied os alias sw uuids index now l l1 :
  Start denied os alias sw uuids index now l = Ret l1 ->
  lan_up l1 = true /\ ow_cfg (lan_worker l1) = ow_cfg (lan_worker l) /\ is_Some (net_Bridge (ow_cfg (lan_worker l))).
Proof.
  unfold Start. destruct (net_Bridge (ow_cfg (lan_worker l))) as [br|] eqn:Eb; [|done].
  destruct (lan_up l); [|done]. set (w := set_time _ _ _). intros H. apply go_bind_ret in H as (w2 & Hw & [= <-]).
  split; [done|]. split; [|by eexists]. simpl. unfold LoadLinks in Hw.
  destruct (net_Links (ow_cfg w)) as [|p ls]; [by injection Hw as <-|]. cbn [alloc] in Hw.
  destruct (load_links_spec _ _ _ _ _ _ _ _ Hw) as (Ec & _); [simpl; rewrite length_app; simpl; lia|exact Ec].
Qed.
Lemma Stop_returns denied order index l :
  lan_up l = true -> is_Some (net_Bridge (ow_cfg (lan_worker l))) -> exists l', Stop denied order index l = Ret l'.
Proof. intros Hu [br Hb]. unfold Stop. rewrite Hu, Hb. by eexists. Qed.

(** (C17) A worker stops what it has started: for links with different connections, after
    [Start] and [Stop] every process of a link that was launched was asked to end, every
    route asked for was taken back, [Stop] is called for each VPN server that [Start]
    was called for, and the bridge, the first to be opened, is closed last; the worker is
    then as long up as one that never started. *)
Theorem worker_start_stop denied os alias sw uuids index now l l1 order l2 :
  Start denied os alias sw uuids index now l = Ret l1 ->
  NoDup (map (conn_of os alias) (net_Links (ow_cfg (lan_worker l)))) ->
  order ≡ₚ map_to_list (ow_links (lan_worker l1)) ->
  Stop denied order index l1 = Ret l2 ->
  exists started stopped,
    lan_events l1 = lan_events l ++ started /\ lan_events l2 = lan_events l1 ++ stopped /\
    (forall u c, ELink (Launch u c) ∈ started -> ELink (KillPid (PidFile u)) ∈ stopped) /\
    (forall r, ERoute (RouteAdd r) ∈ started -> exists d, ERoute (RouteDel d) ∈ stopped /\ r_Dst d = r_Dst r) /\
    (forall id, EVpnStart id ∈ started <-> EVpnStop id ∈ stopped) /\
    (exists addr, head started = Some (EBridge (BrOpen addr))) /\ last stopped = Some (EBridge BrClose) /\
    UpTime (lan_worker l2) now = 0.
Proof.
  unfold Start, Stop. destruct (net_Bridge (ow_cfg (lan_worker l))) as [br|] eqn:Eb; [|done].
  destruct (lan_up l); [|done]. set (w := set_time _ _ _). intros H Hnd Hord.
  apply go_bind_ret in H as (w2 & Hw & [= <-]). cbn [lan_worker lan_up lan_vpn lan_events] in *.
  assert (Hlinks : ow_cfg w2 = ow_cfg w /\ exists new, ow_actions w2 = ow_actions w ++ new /\
    forall u c, Launch u c ∈ new -> exists conn, ow_links w2 !! conn = Some {| lk_uuid := u; lk_cfg := length (ow_store w) |}).
  { unfold LoadLinks in Hw. change (net_Links (ow_cfg (lan_worker l))) with (net_Links (ow_cfg w)) in Hnd.
    destruct (net_Links (ow_cfg w)) as [|p ls] eqn:El.
    { injection Hw as <-. split; [done|]. exists []. rewrite app_nil_r. split; [done|]. by intros u c ?%not_elem_of_nil. }
    cbn [alloc] in Hw. rewrite <- El in Hw, Hnd.
    destruct (load_links_spec _ _ _ _ _ _ _ _ Hw) as (Ec & _); [simpl; rewrite length_app; simpl; lia|].
    destruct (load_links_kept _ _ _ _ _ _ _ _ Hw) as (Hk & _ & new & Hn & Hl); [simpl; rewrite length_app; simpl; lia|done|].
    split; [exact Ec|]. exists new. split; [exact Hn|]. intros u c Hu. destruct (Hl u c Hu) as (k & q & Hq & ->). eauto. }
  destruct Hlinks as (Ecfg & new & Hnew & Hl). cbn [set_time ow_cfg]. rewrite Ecfg.
  change (ow_cfg w) with (ow_cfg (lan_worker l)). rewrite Eb. intros [= <-]. cbn [lan_events lan_worker].
  eexists _, _. split; [done|]. split; [done|]. rewrite Hnew, drop_app_length. cbn [set_time UnLoadLinks set_links ow_actions].
  rewrite drop_app_length.
  destruct (started_elem (UpBridge (net_Acl (ow_cfg (lan_worker l))) br) new
    (LoadRoutes index br (net_Routes (ow_cfg (lan_worker l)))) (lan_vpn l)) as (SL & SR & SV).
  destruct (stopped_elem (lan_vpn l) (UnLoadRoutes index (net_Routes (ow_cfg (lan_worker l))))
    (concat (map (fun e => link_Stop (lk_uuid e.2)) order)) (downBridge br)) as (TL & TR & TV).
  split; [|split; [|split; [|split; [|split]]]].
  - intros u c Hu. apply SL in Hu. apply TL. destruct (Hl u c Hu) as [conn Hc].
    apply list_elem_of_In, in_concat. exists (link_Stop u). split; [|by left].
    apply in_map_iff. exists (conn, {| lk_uuid := u; lk_cfg := length (ow_store w) |}). split; [done|].
    apply list_elem_of_In. rewrite Hord. by apply elem_of_map_to_list.
  - intros r Hr. apply SR in Hr. destruct (route_undone _ _ _ _ Hr) as (d & Hd & Hdst). exists d. split; [by apply TR|done].
  - intros id. rewrite SV, TV. done.
  - by eexists.
  - unfold stopped_events, downBridge. rewrite fmap_app, !app_assoc, last_app. done.
  - done.
Qed.

Definition demo_lan : lan :=
  {| lan_worker := demo_loading; lan_tables := demo_tables; lan_host := demo_host; lan_vpn := [NewOpenVPN demo_cfg];
     lan_up := true; lan_events := [] |}.

Lemma demo_started : exists l1,
  Start (fun _ => false) "linux" "host" "sw" demo_uuid (Some 5) 77 demo_lan = Ret l1 /\
  ELink (Launch "u0" 0) ∈ lan_events l1.
Proof.
  destruct (Start (fun _ => false) "linux" "host" "sw" demo_uuid (Some 5) 77 demo_lan) as [l1|] eqn:E1; [|by vm_compute in E1].
  exists l1. split; [done|]. vm_compute in E1. injection E1 as <-. cbn [lan_events].
  repeat (apply elem_of_cons; first [left; reflexivity|right]).
Qed.

Lemma worker_start_stop_witness :
  exists l1 l2, Start (fun _ => false) "linux" "host" "sw" demo_uuid (Some 5) 77 demo_lan = Ret l1 /\
    Stop (fun _ => false) (map_to_list (ow_links (lan_worker l1))) (Some 5) l1 = Ret l2 /\
    ELink (KillPid (PidFile "u0")) ∈ lan_events l2.
Proof.
  destruct demo_started as (l1 & E1 & Hin). destruct (Start_kept _ _ _ _ _ _ _ _ _ E1) as (Hu & Hc & Hb).
  destruct (Stop_returns (fun _ => false) (map_to_list (ow_links (lan_worker l1))) (Some 5) l1) as [l2 E2];
    [exact Hu|rewrite Hc; exact Hb|].
  exists l1, l2. split; [exact E1|]. split; [exact E2|].
  destruct (worker_start_stop (fun _ => false) "linux" "host" "sw" demo_uuid (Some 5) 77 demo_lan l1
    (map_to_list (ow_links (lan_worker l1))) l2 E1) as (st & sp & Hst & Hsp & Hk & _);
    [apply (bool_decide_unpack _); vm_compute; exact I|reflexivity|exact E2|].
  rewrite Hsp. apply elem_of_app. right. apply (Hk "u0"%string 0%nat).
  change (lan_events l1 = st) in Hst. rewrite <- Hst. exact Hin.
Defined.
