(* ===== verification/ConfigFiles.v ===== *)
(** * The files of a switch's configuration (pkg/config/switch.go, network.go, pkg/libol/utils.go)

    [switch.json], a file for each network and access list, and for a network the routes
    and the links in files of their own: how [Save] writes them and [Load] reads them,
    and [Default], which loads those of networks and access lists.  What encoding/json makes of a value and of a text is a parameter. *)

From S2P Require Import Prelude GoStd Json Utils UserCache Rules Config Vpn.
From stdpp Require Import sorting.

Local Open Scope Z_scope.

(** Decoding a text over a value gives what is left in it, and whether it went well. *)
Definition decoder (A : Type) : Type := string -> A -> A * bool.

Record codec := {
  c_switch : Config.Switch -> string; c_acl : acl_file -> string; c_net : Network -> string;
  (** a slice that is nil has no text *)
  c_routes : list PrefixRoute -> option string; c_links : list Point -> option string;
  d_acl : decoder acl_file; d_net : decoder Network; d_routes : decoder (list PrefixRoute); d_links : decoder (list Point)
}.

Section files.
(** What cannot be made or written, and what cannot be read though it is there. *)
Context (denied unreadable : string -> bool) (C : codec).

(** ** Reading and writing a file *)

Definition MarshalSave (file text : string) (files : fs) : fs :=
  if denied file then files else <[file := text]> files.

Definition too_long (l : string) : bool := 65536 <=? Z.of_nat (String.length l).
(** The lines that are not annotations, joined; nothing if one is too long for the scanner. *)
Definition scanned (contents : string) : option string :=
  let ls := raw_lines (S (String.length contents)) contents in
  if existsb too_long ls then None
  else Some (string_of_bytes (ScanAnn (map (fun l => bytes_of_string (drop_cr l)) ls))).
Definition LoadWithoutAnn (file : string) (files : fs) : option string :=
  contents ← files !! file; if unreadable file then None else scanned contents.
Definition UnmarshalLoad {A} (dec : decoder A) (file : string) (files : fs) (v : A) : A * bool :=
  match LoadWithoutAnn file files with
  | None => (v, false)
  | Some text => dec text v
  end.

(** [filepath.Glob] of the files with the suffix .json in a directory, whose name has
    none of the characters of patterns. *)
Definition ends_json (nm : string) : bool :=
  (5 <=? String.length nm)%nat && String.eqb (String.substring (String.length nm - 5) 5 nm) ".json".
Definition is_json_in (dir file : string) : bool :=
  match strip (dir +:+ "/") file with
  | Some nm => negb (contains_char char_slash nm) && ends_json nm
  | None => false
  end.
Definition str_le (a b : string) : Prop := String.leb a b = true.
#[local] Instance str_le_dec : RelDecision str_le.
Proof. intros a b. unfold str_le. apply _. Defined.
Definition Glob (dir : string) (files : fs) : list string :=
  merge_sort str_le (filter (fun f => is_json_in dir f = true) (map_to_list files).*1).

(** ** A network *)

Definition net_Dir (n : Network) (elem : list string) : string := path_Join (net_ConfDir n :: elem).
Definition route_file (n : Network) : string := net_Dir n ["route"%string; (net_Name n +:+ ".json")%string].
Definition link_file (n : Network) : string := net_Dir n ["link"%string; (net_Name n +:+ ".json")%string].

Definition with_lists (n : Network) (ls : list Point) (rs : list PrefixRoute) : Network :=
  {| net_ConfDir := net_ConfDir n; net_File := net_File n; net_Alias := net_Alias n; net_Name := net_Name n;
     net_Provider := net_Provider n; net_Bridge := net_Bridge n; net_Subnet := net_Subnet n; net_OpenVPN := net_OpenVPN n;
     net_Links := ls; net_Hosts := net_Hosts n; net_Routes := rs; net_Password := net_Password n; net_Acl := net_Acl n;
     net_Specifies := net_Specifies n |}.
Definition with_spec (n : Network) (s : option Specifies) : Network := set_specifies n s (net_Bridge n).

Definition SaveRoute (n : Network) (files : fs) : fs :=
  match c_routes C (net_Routes n) with None => files | Some text => MarshalSave (route_file n) text files end.
Definition SaveLink (n : Network) (files : fs) : fs :=
  match c_links C (net_Links n) with None => files | Some text => MarshalSave (link_file n) text files end.
Definition network_Save (n : Network) (files : fs) : fs :=
  SaveLink n (SaveRoute n (MarshalSave (net_File n) (c_net C (with_lists n [] [])) files)).

(** What cannot be decoded is only logged. *)
Definition LoadLink (n : Network) (files : fs) : Network :=
  with_lists n (UnmarshalLoad (d_links C) (link_file n) files (net_Links n)).1 (net_Routes n).
Definition LoadRoute (n : Network) (files : fs) : Network :=
  with_lists n (net_Links n) (UnmarshalLoad (d_routes C) (route_file n) files (net_Routes n)).1.

(** ** The switch *)

Definition sw_Dir (s : Config.Switch) (elem : list string) : string := path_Join (sw_ConfDir s :: elem).

Definition empty_network (confDir file alias : string) : Network :=
  {| net_ConfDir := confDir; net_File := file; net_Alias := alias; net_Name := ""; net_Provider := ""; net_Bridge := None;
     net_Subnet := None; net_OpenVPN := None; net_Links := []; net_Hosts := []; net_Routes := []; net_Password := [];
     net_Acl := ""; net_Specifies := None |}.
Definition empty_state : EspState :=
  {| Local := ""; LocalIp := []; Remote := ""; RemotePort := 0; RemoteIp := []; Encap := ""; Auth := ""; Crypto := "" |}.
(** The object the specification of a provider is decoded into. *)
Definition empty_spec (n : Network) : option Specifies :=
  if String.eqb (net_Provider n) "esp" then
    Some (SpecESP {| esp_Name := ""; esp_Address := ""; esp_State := empty_state; esp_Members := [] |})
  else if String.eqb (net_Provider n) "vxlan" then Some (SpecVxLAN {| vxs_Name := ""; vxs_Local := ""; vxs_Members := [] |})
  else if String.eqb (net_Provider n) "fabric" then
    Some (SpecFabric {| fab_Mss := 0; fab_Fragment := false; fab_Driver := ""; fab_Name := ""; fab_Tunnels := []; fab_Networks := [] |})
  else net_Specifies n.

(** One file of a network; the object is dropped when the file cannot be decoded. *)
Definition load_network (s : Config.Switch) (files : fs) (k : string) : option Network :=
  match UnmarshalLoad (d_net C) k files (empty_network (sw_ConfDir s) k (sw_Alias s)) with
  | (_, false) => None
  | (obj, true) =>
      let obj := LoadRoute (LoadLink obj files) files in
      let obj := with_spec obj (empty_spec obj) in
      match net_Specifies obj with
      | None => Some obj
      | Some _ => match UnmarshalLoad (d_net C) k files obj with (obj, true) => Some obj | _ => None end
      end
  end.
Definition loaded_networks (s : Config.Switch) (files : fs) : list Network :=
  omap (load_network s files) (Glob (sw_Dir s ["network"%string]) files).
Definition LoadNetwork (LookupIP : string -> list bytes) (GetLocalByGw : string -> bytes) (s : Config.Switch) (files : fs)
    (index : Z) (rnd : nat -> nat -> Z) : go (Config.Switch * Z) :=
  Config.LoadNetwork LookupIP GetLocalByGw s (loaded_networks s files) index rnd.

Definition load_acl (files : fs) (k : string) : option acl_file :=
  match UnmarshalLoad (d_acl C) k files {| acl_File := k; acl_List := {| acl_Name := ""; acl_Rules := [] |} |} with
  | (obj, true) => Some obj
  | _ => None
  end.
(** Correcting a rule does nothing; a list that is nil panics. *)
Definition finish_acl (s : Config.Switch) (a : acl_file) : acl_file :=
  {| acl_File := or_str (acl_File a) (sw_Dir s ["acl"%string; (acl_Name (acl_List a) +:+ ".json")%string]); acl_List := acl_List a |}.
Fixpoint finish_acls (s : Config.Switch) (l : list (option acl_file)) : go (list (option acl_file)) :=
  match l with
  | [] => Ret []
  | None :: _ => Panic
  | Some a :: l => r ← finish_acls s l; Ret (Some (finish_acl s a) :: r)
  end.
Definition loaded_acls (s : Config.Switch) (files : fs) : list acl_file :=
  omap (load_acl files) (Glob (sw_Dir s ["acl"%string]) files).
Definition LoadAcl (s : Config.Switch) (files : fs) : go Config.Switch :=
  acls ← finish_acls s (sw_Acl s ++ map Some (loaded_acls s files)); Ret (set_sw_acl s acls).

Definition switch_Default (GOOS alias : string) (LookupIP : string -> list bytes) (GetLocalByGw : string -> bytes)
    (s : Config.Switch) (files : fs) (index : Z) (rnd : nat -> nat -> Z) : go (Config.Switch * Z) :=
  s ← LoadAcl (switch_defaults GOOS alias s) files; LoadNetwork LookupIP GetLocalByGw s files index rnd.

(** An access list or a network that is nil panics. *)
Fixpoint SaveAcl (acls : list (option acl_file)) (files : fs) : go fs :=
  match acls with
  | [] => Ret files
  | None :: _ => Panic
  | Some a :: acls => SaveAcl acls (MarshalSave (acl_File a) (c_acl C a) files)
  end.
Fixpoint SaveNets (nets : list (option Network)) (files : fs) : go fs :=
  match nets with
  | [] => Ret files
  | None :: _ => Panic
  | Some n :: nets => SaveNets nets (network_Save n files)
  end.
Definition switch_Save (s : Config.Switch) (files : fs) : go fs :=
  files ← SaveAcl (sw_Acl s) (MarshalSave (sw_File s) (c_switch C (set_sw_loaded s [] [])) files);
  SaveNets (sw_Network s) files.

(** ** What is written *)

Abbreviation write := (string * string)%type (only parsing).
Definition route_write (n : Network) : list write :=
  match c_routes C (net_Routes n) with Some t => [(route_file n, t)] | None => [] end.
Definition link_write (n : Network) : list write :=
  match c_links C (net_Links n) with Some t => [(link_file n, t)] | None => [] end.
Definition network_writes (n : Network) : list write :=
  (net_File n, c_net C (with_lists n [] [])) :: route_write n ++ link_write n.
Definition switch_writes (s : Config.Switch) (acls : list acl_file) (ns : list Network) : list write :=
  (sw_File s, c_switch C (set_sw_loaded s [] [])) :: map (fun a => (acl_File a, c_acl C a)) acls ++ concat (map network_writes ns).

Definition put (files : fs) (w : write) : fs := MarshalSave w.1 w.2 files.

Lemma network_Save_writes n files : network_Save n files = foldl put files (network_writes n).
Proof.
  unfold network_Save, SaveLink, SaveRoute, network_writes, route_write, link_write.
  by destruct (c_routes C (net_Routes n)), (c_links C (net_Links n)).
Qed.
Lemma SaveNets_writes ns : forall files, SaveNets (map Some ns) files = Ret (foldl put files (concat (map network_writes ns))).
Proof.
  induction ns as [|n ns IH]; intros files; [done|]. cbn [map SaveNets concat]. by rewrite IH, network_Save_writes, foldl_app.
Qed.
Lemma SaveAcl_writes acls : forall files,
  SaveAcl (map Some acls) files = Ret (foldl put files (map (fun a => (acl_File a, c_acl C a)) acls)).
Proof. induction acls as [|a acls IH]; intros files; [done|]. cbn [map SaveAcl foldl]. by rewrite IH. Qed.
Lemma switch_Save_writes s acls ns files :
  sw_Acl s = map Some acls -> sw_Network s = map Some ns ->
  switch_Save s files = Ret (foldl put files (switch_writes s acls ns)).
Proof.
  intros Ha Hn. unfold switch_Save, switch_writes. rewrite Ha, Hn, SaveAcl_writes. cbn [mbind go_bind].
  by rewrite SaveNets_writes, <- foldl_app.
Qed.

Lemma put_other ws : forall (files : fs) k, k ∉ ws.*1 -> foldl put files ws !! k = files !! k.
Proof.
  induction ws as [|[f t] ws IH]; intros files k Hk; [done|]. rewrite fmap_cons in Hk.
  apply not_elem_of_cons in Hk as [Hne Hk]. cbn [foldl]. rewrite IH by done. unfold put, MarshalSave. simpl.
  destruct (denied f); [done|]. by apply lookup_insert_ne.
Qed.
Lemma put_written ws : forall (files : fs) k t, NoDup ws.*1 -> (k, t) ∈ ws -> denied k = false -> foldl put files ws !! k = Some t.
Proof.
  induction ws as [|[f u] ws IH]; intros files k t Hnd Hin Hd; [by apply not_elem_of_nil in Hin|].
  rewrite fmap_cons in Hnd. apply NoDup_cons in Hnd as [Hf Hnd]. cbn [foldl]. apply elem_of_cons in Hin as [[= <- <-]|Hin].
  - rewrite put_other by done. unfold put, MarshalSave. cbn [fst snd]. by rewrite Hd, lookup_insert_eq.
  - by apply IH.
Qed.

(** ** What was saved is loaded *)

Lemma Glob_elem dir files k : k ∈ Glob dir files <-> is_json_in dir k = true /\ is_Some (files !! k).
Proof.
  unfold Glob. rewrite merge_sort_Permutation, list_elem_of_filter. apply and_iff_compat_l.
  rewrite list_elem_of_fmap. split.
  - intros ([f t] & -> & H). apply elem_of_map_to_list in H. by eexists.
  - intros [t H]. exists (k, t). split; [done|]. by apply elem_of_map_to_list.
Qed.

(** A network as it is read: with the directory and the alias of the switch. *)
Definition at_home (s : Config.Switch) (n : Network) : Network :=
  {| net_ConfDir := sw_ConfDir s; net_File := net_File n; net_Alias := sw_Alias s; net_Name := net_Name n;
     net_Provider := net_Provider n; net_Bridge := net_Bridge n; net_Subnet := net_Subnet n; net_OpenVPN := net_OpenVPN n;
     net_Links := net_Links n; net_Hosts := net_Hosts n; net_Routes := net_Routes n; net_Password := net_Password n;
     net_Acl := net_Acl n; net_Specifies := net_Specifies n |}.

(** The text of a network decodes to it: first without an object for its specification,
    then over one of the right kind, and over lists that the text does not have. *)
Definition readable (s : Config.Switch) (n : Network) : Prop :=
  (net_Specifies n = None <-> empty_spec (with_spec n None) = None) /\
  exists text, scanned (c_net C (with_lists n [] [])) = Some text /\
    d_net C text (empty_network (sw_ConfDir s) (net_File n) (sw_Alias s)) =
      (with_lists (with_spec (at_home s n) ((fun _ => SpecOther) <$> net_Specifies n)) [] [], true) /\
    forall ls rs spec, empty_spec n = Some spec ->
      d_net C text (with_lists (with_spec (at_home s n) (Some spec)) ls rs) = (with_lists (at_home s n) ls rs, true).
Definition routes_readable (rs : list PrefixRoute) : Prop :=
  exists t text, c_routes C rs = Some t /\ scanned t = Some text /\ d_routes C text [] = (rs, true).
Definition links_readable (ls : list Point) : Prop :=
  exists t text, c_links C ls = Some t /\ scanned t = Some text /\ d_links C text [] = (ls, true).

Lemma UnmarshalLoad_written {A} (dec : decoder A) file text t files v :
  files !! file = Some t -> unreadable file = false -> scanned t = Some text -> UnmarshalLoad dec file files v = dec text v.
Proof. intros Hf Hu Ht. unfold UnmarshalLoad, LoadWithoutAnn. by rewrite Hf; cbn [mbind option_bind]; rewrite Hu, Ht. Qed.
Lemma UnmarshalLoad_none {A} (dec : decoder A) file files v : files !! file = None -> UnmarshalLoad dec file files v = (v, false).
Proof. intros Hf. unfold UnmarshalLoad, LoadWithoutAnn. by rewrite Hf. Qed.

(** Loading the file of a network, with what its two other files give. *)
Lemma load_network_with s n files ls rs :
  readable s n -> files !! net_File n = Some (c_net C (with_lists n [] [])) -> unreadable (net_File n) = false ->
  (UnmarshalLoad (d_links C) (link_file (at_home s n)) files []).1 = ls ->
  (UnmarshalLoad (d_routes C) (route_file (at_home s n)) files []).1 = rs ->
  load_network s files (net_File n) = Some (with_lists (at_home s n) ls rs).
Proof.
  intros (Hspec & text & Ht & D1 & D2) Hf Hu Hl Hr. unfold load_network.
  rewrite (UnmarshalLoad_written _ _ _ _ _ _ Hf Hu Ht), D1. cbv beta match zeta. unfold LoadLink, LoadRoute.
  change (link_file (with_lists _ _ _)) with (link_file (at_home s n)).
  cbn [with_lists net_Links net_Routes]. rewrite Hl.
  change (route_file _) with (route_file (at_home s n)). rewrite Hr.
  set (obj := with_spec _ (empty_spec _)).
  assert (Eo : obj = with_spec (with_lists (at_home s n) ls rs) (match net_Specifies n with Some _ => empty_spec n | None => None end)).
  { subst obj. unfold empty_spec. cbn. unfold empty_spec in Hspec. cbn in Hspec.
    destruct (String.eqb (net_Provider n) "esp"); [by destruct (net_Specifies n); [|discriminate (proj1 Hspec eq_refl)]|].
    destruct (String.eqb (net_Provider n) "vxlan"); [by destruct (net_Specifies n); [|discriminate (proj1 Hspec eq_refl)]|].
    destruct (String.eqb (net_Provider n) "fabric"); [by destruct (net_Specifies n); [|discriminate (proj1 Hspec eq_refl)]|].
    destruct (net_Specifies n); [discriminate (proj2 Hspec eq_refl)|done]. }
  rewrite Eo. destruct (net_Specifies n) as [sp|] eqn:Es.
  - destruct (empty_spec n) as [spec|] eqn:Ee.
    + cbn [with_spec set_specifies net_Specifies]. rewrite (UnmarshalLoad_written _ _ _ _ _ _ Hf Hu Ht).
      change (with_spec (with_lists (at_home s n) ls rs) (Some spec)) with (with_lists (with_spec (at_home s n) (Some spec)) ls rs).
      by rewrite (D2 ls rs spec eq_refl).
    + exfalso. unfold empty_spec in Ee, Hspec. cbn in Hspec. rewrite Es in Ee. by repeat destruct (String.eqb _ _).
  - unfold with_spec, set_specifies, with_lists, at_home. cbn. by rewrite Es.
Qed.

(** What [Save] leaves in the files. *)
Lemma saved_written s acls ns files files' w :
  sw_Acl s = map Some acls -> sw_Network s = map Some ns -> switch_Save s files = Ret files' -> NoDup (switch_writes s acls ns).*1 ->
  w ∈ switch_writes s acls ns -> denied w.1 = false -> files' !! w.1 = Some w.2.
Proof.
  intros Ha Hn Hs Hnd Hw Hd. rewrite (switch_Save_writes s acls ns files Ha Hn) in Hs. injection Hs as <-.
  apply (put_written (switch_writes s acls ns)); [done| |done]. by destruct w.
Qed.
Lemma saved_other s acls ns files files' k :
  sw_Acl s = map Some acls -> sw_Network s = map Some ns -> switch_Save s files = Ret files' -> k ∉ (switch_writes s acls ns).*1 -> files' !! k = files !! k.
Proof.
  intros Ha Hn Hs Hk. rewrite (switch_Save_writes s acls ns files Ha Hn) in Hs. injection Hs as <-. by apply (put_other (switch_writes s acls ns)).
Qed.
Lemma network_write_in s acls ns n w : n ∈ ns -> w ∈ network_writes n -> w ∈ switch_writes s acls ns.
Proof.
  intros Hn Hw. unfold switch_writes. apply elem_of_cons. right. apply elem_of_app. right.
  apply list_elem_of_In, in_concat. exists (network_writes n). split; [|by apply list_elem_of_In].
  apply in_map_iff. exists n. split; [done|]. by apply list_elem_of_In.
Qed.
End files.

(** ** Theorems *)

(** (C15) What a switch saves it reads again: if its networks are in the directory of the
    configuration, no two of the files have the same name, all can be written and read and
    the texts decode to what they were made of, then after [Save] the file of each network
    is found in the directory and gives the network as it was, with its links and routes;
    and any other network that is found was there before, with the same text. *)
Theorem saved_networks_load (denied unreadable : string -> bool) (C : codec) (s : Config.Switch) (acls : list acl_file)
    (ns : list Network) (files files' : fs) :
  sw_Acl s = map Some acls -> sw_Network s = map Some ns -> switch_Save denied C s files = Ret files' ->
  NoDup (switch_writes C s acls ns).*1 ->
  (forall f, f ∈ (switch_writes C s acls ns).*1 -> denied f = false /\ unreadable f = false) ->
  (forall n, n ∈ ns -> net_ConfDir n = sw_ConfDir s /\ net_Alias n = sw_Alias s /\
     is_json_in (sw_Dir s ["network"%string]) (net_File n) = true /\
     readable C s n /\ routes_readable C (net_Routes n) /\ links_readable C (net_Links n)) ->
  (forall n, n ∈ ns -> net_File n ∈ Glob (sw_Dir s ["network"%string]) files' /\
     load_network unreadable C s files' (net_File n) = Some n) /\
  (forall k, k ∈ Glob (sw_Dir s ["network"%string]) files' -> k ∉ (switch_writes C s acls ns).*1 -> files' !! k = files !! k).
Proof.
  intros Ha Hn Hs Hnd Hok Hns. split; [|intros k _ Hk; by eapply saved_other].
  intros n Hin. destruct (Hns n Hin) as (Hd & Hal & Hj & Hr & (rt & rtext & R1 & R2 & R3) & (lt & ltext & L1 & L2 & L3)).
  assert (Hw : forall w, w ∈ network_writes C n -> files' !! w.1 = Some w.2 /\ unreadable w.1 = false).
  { intros w Hw. assert (Hw2 := network_write_in C s acls ns n w Hin Hw).
    destruct (Hok w.1) as [Hd1 Hu1]; [by apply list_elem_of_fmap_2|]. split; [|done]. by eapply saved_written. }
  assert (Ehome : at_home s n = n) by (unfold at_home; rewrite <- Hd, <- Hal; by destruct n).
  destruct (Hw (net_File n, c_net C (with_lists n [] []))) as [Hf Hu]; [by apply elem_of_cons; left|].
  destruct (Hw (route_file n, rt)) as [Hrf Hru]; [unfold network_writes, route_write; rewrite R1; right; left|].
  destruct (Hw (link_file n, lt)) as [Hlf Hlu].
  { unfold network_writes, link_write. rewrite L1. right. apply elem_of_app. right. left. }
  cbn [fst snd] in *. split; [apply Glob_elem; split; [done|by eexists]|].
  rewrite (load_network_with unreadable C s n files' (net_Links n) (net_Routes n) Hr Hf Hu).
  - rewrite Ehome. by destruct n.
  - rewrite Ehome, (UnmarshalLoad_written unreadable _ _ _ _ _ _ Hlf Hlu L2), L3. done.
  - rewrite Ehome, (UnmarshalLoad_written unreadable _ _ _ _ _ _ Hrf Hru R2), R3. done.
Qed.

(** A network that [switch.json] itself holds loses its links and routes: [Correct] gives
    it a file in the directory but no directory of its own, so [Save] writes its links and
    routes to paths relative to where the process runs and the rest to the directory; what
    is read from there is the network without them. *)
Theorem inline_network_loses_routes (denied unreadable : string -> bool) (C : codec) (s : Config.Switch) (acls : list acl_file)
    (ns : list Network) (files files' : fs) (n : Network) :
  sw_Acl s = map Some acls -> sw_Network s = map Some ns -> switch_Save denied C s files = Ret files' ->
  NoDup (switch_writes C s acls ns).*1 -> n ∈ ns -> net_ConfDir n = ""%string -> readable C s n ->
  denied (net_File n) = false -> unreadable (net_File n) = false ->
  (forall f, f ∈ [route_file (at_home s n); link_file (at_home s n)] -> f ∉ (switch_writes C s acls ns).*1 /\ files !! f = None) ->
  load_network unreadable C s files' (net_File n) = Some (with_lists (at_home s n) [] []).
Proof.
  intros Ha Hn Hs Hnd Hin Hc Hr Hd Hu Hno.
  assert (Hnone : forall f, f ∈ [route_file (at_home s n); link_file (at_home s n)] -> files' !! f = None).
  { intros f Hf. destruct (Hno f Hf) as [H1 H2]. by erewrite saved_other. }
  apply load_network_with; [done| |done|rewrite UnmarshalLoad_none; [done|apply Hnone; right; left]|
    rewrite UnmarshalLoad_none; [done|apply Hnone; left]].
  eapply (saved_written denied C s acls ns files files' (net_File n, _)); [done..| |done].
  eapply network_write_in; [done|left].
Qed.

(** ** Running [Default] again *)

Lemma finish_acl_again s s' a : sw_ConfDir s' = sw_ConfDir s -> finish_acl s' (finish_acl s a) = finish_acl s a.
Proof. intros E. unfold finish_acl, sw_Dir. cbn. by rewrite E, or_str_idem. Qed.
Lemma finish_acls_again s s' more l : forall l', sw_ConfDir s' = sw_ConfDir s -> finish_acls s l = Ret l' ->
  finish_acls s' (l' ++ map Some more) = Ret (l' ++ map (fun a => Some (finish_acl s' a)) more).
Proof.
  induction l as [|[a|] l IH]; intros l' E H; [| |done].
  - injection H as <-. cbn [app]. induction more as [|a more IH]; [done|]. cbn [map finish_acls]. by rewrite IH.
  - apply go_bind_ret in H as (r & Hr & [= <-]). cbn [app finish_acls]. rewrite (IH r E Hr). cbn [mbind go_bind].
    by rewrite finish_acl_again.
Qed.

(** (C26) Correcting a configuration once is enough, and [Default] itself is not to be run
    twice: when it has returned [s'], running it again, with whatever files are there by
    then, changes no field of [s'], none of its access lists and none of its networks
    (whatever their provider), and makes up no device for them; it only adds, behind
    them, the access lists and the networks of the directory, corrected, once more.  With
    no files in the directories it returns [s'] as it is. *)
Theorem switch_default_again unreadable C os al L G (s : Config.Switch) (files files2 : fs) i rnd s' i' j rnd2 :
  (forall a b, rnd a b <> 0) -> switch_Default unreadable C os al L G s files i rnd = Ret (s', i') ->
  switch_Default unreadable C os al L G s' files2 j rnd2 =
    (r ← networks_Correct L G (sw_AddrPool s') (sw_ConfDir s') (sw_Alias s') (map Some (loaded_networks unreadable C s' files2))
           j (fun k => rnd2 (length (sw_Network s') + k)%nat);
     Ret (set_sw_loaded s' (sw_Acl s' ++ map (fun a => Some (finish_acl s' a)) (loaded_acls unreadable C s' files2))
            (sw_Network s' ++ r.1), r.2)) /\
  (Glob (sw_Dir s' ["network"%string]) files2 = [] -> Glob (sw_Dir s' ["acl"%string]) files2 = [] ->
   switch_Default unreadable C os al L G s' files2 j rnd2 = Ret (s', j)).
Proof.
  intros Hz H. match goal with |- ?A /\ _ => assert (Hgen : A) end.
  - unfold switch_Default, LoadAcl, LoadNetwork, Config.LoadNetwork in H.
    apply go_bind_ret in H as (s1 & Ha & H). apply go_bind_ret in Ha as (acls & Ha & [= <-]).
    apply go_bind_ret in H as ([nets k] & Hn & H). injection H as <- <-.
    set (s0 := switch_defaults os al s) in *. set (s' := set_sw_network (set_sw_acl s0 acls) nets).
    assert (Hs' : switch_defaults os al s' = s').
    { subst s'. transitivity (set_sw_loaded (switch_defaults os al s0) acls nets); [done|].
      unfold s0. by rewrite switch_defaults_idem. }
    unfold switch_Default, LoadAcl, LoadNetwork, Config.LoadNetwork. rewrite Hs'.
    change (sw_Acl s') with acls. rewrite (finish_acls_again s0 s' _ _ acls eq_refl Ha). cbn [mbind go_bind].
    change (sw_Network (set_sw_acl s' _)) with nets. change (sw_Network s') with nets. rewrite networks_app.
    rewrite (networks_idem _ _ _ _ _ _ _ _ _ _ Hz Hn). cbn [mbind go_bind fst snd].
    by destruct (networks_Correct L G _ _ _ _ j _) as [[more j']|].
  - split; [exact Hgen|]. intros G1 G2. rewrite Hgen. unfold loaded_networks, loaded_acls. rewrite G1, G2.
    cbn. rewrite !app_nil_r. by destruct s'.
Qed.

(** ** Examples *)

(** A text is the name with a note in front. *)
Definition demo_text (nm : string) : string := "// a note
" +:+ nm.
Definition demo_route : PrefixRoute :=
  {| rt_Prefix := "10.9.0.0/16"; rt_NextHop := "10.1.0.1"; rt_MultiPath := None; rt_Metric := 660; rt_Mode := "snat" |}.
Definition demo_dir : string := "/etc/openlan/switch".
Definition demo_net (confDir alias nm : string) (ls : list Point) (rs : list PrefixRoute) : Network :=
  {| net_ConfDir := confDir; net_File := demo_dir +:+ "/network/" +:+ nm +:+ ".json"; net_Alias := alias;
     net_Name := nm; net_Provider := "openlan"; net_Bridge := None; net_Subnet := None; net_OpenVPN := None; net_Links := ls;
     net_Hosts := []; net_Routes := rs; net_Password := []; net_Acl := "guests"; net_Specifies := None |}.
Definition demo_codec : codec :=
  {| c_switch s := sw_File s; c_acl a := acl_File a; c_net n := demo_text (net_Name n);
     c_routes rs := Some "routes"%string; c_links ls := Some "links"%string; d_acl text a := (a, true);
     d_net text n := (demo_net (net_ConfDir n) (net_Alias n) text (net_Links n) (net_Routes n), true);
     d_routes text rs := ([demo_route], true); d_links text ls := ([], true) |}.
Definition demo_saved (nets : list Network) : Config.Switch :=
  switch_Correct "sw"
    {| sw_File := ""; sw_Alias := ""; sw_Perf := DefaultPerf; sw_Protocol := ""; sw_Listen := ""; sw_Timeout := 0;
       sw_Http := None; sw_Log := {| log_File := ""; log_Verbose := 0 |}; sw_Cert := None; sw_Crypt := None;
       sw_Network := map Some nets; sw_Acl := []; sw_FireWall := []; sw_Inspect := []; sw_Queue := no_queue;
       sw_Ldap := None; sw_PassFile := ""; sw_AddrPool := ""; sw_ConfDir := demo_dir;
       sw_TokenFile := "" |}.
Definition demo_in_dir : list Network := [demo_net demo_dir "sw" "lan" [] [demo_route]; demo_net demo_dir "sw" "wan" [] [demo_route]].
Definition demo_inline : Network := demo_net "" "sw" "lan" [] [demo_route].
Definition never (_ : string) : bool := false.

Lemma demo_readable nets confDir nm rs :
  scanned (demo_text nm) = Some nm -> readable demo_codec (demo_saved nets) (demo_net confDir "sw" nm [] rs).
Proof.
  intros Ht. split; [done|]. exists nm. split; [exact Ht|]. split; [done|]. intros ls' rs' spec. discriminate.
Qed.
Lemma demo_lists : routes_readable demo_codec [demo_route] /\ links_readable demo_codec [].
Proof. split; eexists _, _; (split; [reflexivity|split; [vm_compute; reflexivity|reflexivity]]). Qed.

Lemma saved_networks_load_witness :
  let s := demo_saved demo_in_dir in
  exists files', switch_Save never demo_codec s ∅ = Ret files' /\
    load_network never demo_codec s files' "/etc/openlan/switch/network/wan.json" = Some (demo_net demo_dir "sw" "wan" [] [demo_route]).
Proof.
  intros s. eexists. split; [reflexivity|].
  refine (proj2 (proj1 (saved_networks_load never never demo_codec s [] demo_in_dir ∅ _ eq_refl eq_refl eq_refl _ _ _)
    (demo_net demo_dir "sw" "wan" [] [demo_route]) _)).
  - apply (bool_decide_unpack _). vm_compute. exact I.
  - intros f _. split; reflexivity.
  - intros n [->|[->|[]%not_elem_of_nil]%elem_of_cons]%elem_of_cons;
      (split; [reflexivity|split; [vm_compute; reflexivity|split; [vm_compute; reflexivity|split; [|exact demo_lists]]]]);
      apply demo_readable; vm_compute; reflexivity.
  - right. left.
Defined.

Lemma inline_network_loses_routes_witness :
  let s := demo_saved [demo_inline] in
  exists files', switch_Save never demo_codec s ∅ = Ret files' /\
    files' !! "route/lan.json"%string = Some "routes"%string /\
    load_network never demo_codec s files' "/etc/openlan/switch/network/lan.json" = Some (demo_net demo_dir "sw" "lan" [] []).
Proof.
  intros s. eexists. split; [reflexivity|]. split; [vm_compute; reflexivity|].
  refine (inline_network_loses_routes never never demo_codec s [] [demo_inline] ∅ _ demo_inline eq_refl eq_refl eq_refl _ _ eq_refl _ eq_refl eq_refl _).
  - apply (bool_decide_unpack _). vm_compute. exact I.
  - left.
  - apply demo_readable. vm_compute. reflexivity.
  - intros f Hf. split; [|reflexivity]. revert f Hf. apply Forall_forall. apply (bool_decide_unpack _). vm_compute. exact I.
Defined.

(** A switch whose directory has one network: run again it has it twice. *)
Definition demo_one_file : fs := {[ "/etc/openlan/switch/network/lan.json"%string := demo_text "lan" ]}.
Lemma switch_default_again_witness :
  match switch_Default never demo_codec "linux" "host" demo_lookup demo_gw demo_switch demo_one_file 1194 (fun _ _ => 7) with
  | Panic => False
  | Ret (s', i') =>
      length (sw_Network s') = 1%nat /\
      switch_Default never demo_codec "linux" "host" demo_lookup demo_gw s' ∅ i' (fun _ _ => 8) = Ret (s', i') /\
      exists s2 i2, switch_Default never demo_codec "linux" "host" demo_lookup demo_gw s' demo_one_file i' (fun _ _ => 8) = Ret (s2, i2) /\
        length (sw_Network s2) = 2%nat
  end.
Proof.
  destruct (switch_Default never demo_codec "linux" "host" demo_lookup demo_gw demo_switch demo_one_file 1194 (fun _ _ => 7))
    as [[s' i']|] eqn:E; [|by vm_compute in E].
  assert (Hz : forall a b : nat, (fun _ _ => 7) a b <> 0) by done.
  split; [vm_compute in E; by injection E as <- _|]. split.
  - apply (switch_default_again never demo_codec "linux" "host" demo_lookup demo_gw demo_switch demo_one_file ∅ 1194
      (fun _ _ => 7) s' i' i' (fun _ _ => 8) Hz E); vm_compute; reflexivity.
  - destruct (switch_default_again never demo_codec "linux" "host" demo_lookup demo_gw demo_switch demo_one_file demo_one_file
      1194 (fun _ _ => 7) s' i' i' (fun _ _ => 8) Hz E) as [-> _].
    vm_compute in E. injection E as <- <-. eexists _, _. split; [vm_compute; reflexivity|reflexivity].
Defined.
