(* ===== verification/Schema.v ===== *)
(** * What the API shows (pkg/schema, pkg/models/schema.go, pkg/models/esp.go)

    The structs of pkg/schema with the JSON each is written as, and the conversions
    between them and the models of the switch. *)

From S2P Require Import Prelude GoStd Json Md5 Protocol SafeMap Bridge Models Cache Socket Esp VpnClients.

Local Open Scope Z_scope.

(** The members of an object: [omitempty] leaves out the empty string, zero too for a
    number. *)
Definition jstr (name v : string) : list (string * json) := [(name, JStr v)].
Definition jint (name : string) (v : Z) : list (string * json) := [(name, JInt v)].
Definition jopt (name v : string) : list (string * json) := if String.eqb v "" then [] else jstr name v.
Definition joptint (name : string) (v : Z) : list (string * json) := if v =? 0 then [] else jint name v.
Definition jlist {A} (name : string) (f : A -> json) (l : list A) : list (string * json) := [(name, JArr (map f l))].

(** ** The structs *)

Module sUser.
Record t := mk { Alias : string; Role : string; Name : string; Password : string; Network : string; Lease : string }.
Definition json (u : t) : json :=
  JObj (jopt "alias" (Alias u) ++ jopt "role" (Role u) ++ jstr "name" (Name u) ++ jstr "password" (Password u) ++
        jstr "network" (Network u) ++ jstr "leaseTime" (Lease u)).
Definition fields : list string := ["alias"; "role"; "name"; "password"; "network"; "leaseTime"]%string.
(** [json.Unmarshal] into an empty user. *)
Definition parse (text : string) : option t :=
  st ← Unmarshal fields text;
  Some (mk (got st "alias") (got st "role") (got st "name") (got st "password") (got st "network") (got st "leaseTime")).
End sUser.

Module sRoute.
Record t := mk { Prefix : string; NextHop : string; Metric : Z; Mode : string }.
Definition json (r : t) : json :=
  JObj (jstr "prefix" (Prefix r) ++ jstr "nexthop" (NextHop r) ++ jint "metric" (Metric r) ++ jstr "mode" (Mode r)).
End sRoute.

Module sNetwork.
Record t := mk { Name : string; IfAddr : string; IpStart : string; IpEnd : string; Netmask : string; Routes : option (list sRoute.t) }.
Definition zero : t := mk "" "" "" "" "" None.
(** A nil slice is null. *)
Definition json (n : t) : json :=
  JObj (jstr "name" (Name n) ++ jopt "ifAddr" (IfAddr n) ++ jopt "ipStart" (IpStart n) ++ jopt "ipEnd" (IpEnd n) ++
        jstr "netmask" (Netmask n) ++
        [("routes"%string, match Routes n with Some l => JArr (map sRoute.json l) | None => JNull end)]).
End sNetwork.

Module sPoint.
Record t := mk {
  Uptime : Z; UUID : string; Network : string; User : string; Alias : string; Protocol : string; Remote : string;
  Switch : string; Device : string; RxBytes : Z; TxBytes : Z; ErrPkt : Z; State : string; AliveTime : Z;
  System : string; Address : sNetwork.t
}.
Definition zero : t := mk 0 "" "" "" "" "" "" "" "" 0 0 0 "" 0 "" sNetwork.zero.
Definition json (p : t) : json :=
  JObj (jint "uptime" (Uptime p) ++ jstr "uuid" (UUID p) ++ jstr "network" (Network p) ++ jstr "user" (User p) ++
        jstr "alias" (Alias p) ++ jstr "protocol" (Protocol p) ++ jstr "remote" (Remote p) ++ jopt "switch" (Switch p) ++
        jstr "device" (Device p) ++ jint "rxBytes" (RxBytes p) ++ jint "txBytes" (TxBytes p) ++ jint "errors" (ErrPkt p) ++
        jstr "state" (State p) ++ jint "aliveTime" (AliveTime p) ++ jstr "system" (System p) ++
        [("address"%string, sNetwork.json (Address p))]).
End sPoint.

Module sLink.
Record t := mk {
  Uptime : Z; UUID : string; Alias : string; Network : string; User : string; Protocol : string; Server : string;
  Device : string; RxBytes : Z; TxBytes : Z; ErrPkt : Z; State : string; AliveTime : Z
}.
Definition json (l : t) : json :=
  JObj (jint "uptime" (Uptime l) ++ jstr "uuid" (UUID l) ++ jstr "alias" (Alias l) ++ jstr "network" (Network l) ++
        jstr "user" (User l) ++ jstr "protocol" (Protocol l) ++ jstr "server" (Server l) ++ jstr "device" (Device l) ++
        jint "rxBytes" (RxBytes l) ++ jint "txBytes" (TxBytes l) ++ jint "errors" (ErrPkt l) ++ jstr "state" (State l) ++
        jint "aliveTime" (AliveTime l)).
End sLink.

Module sNeighbor.
Record t := mk {
  Uptime : Z; UUID : string; HwAddr : string; IpAddr : string; Client : string; Switch : string; Network : string;
  Device : string
}.
Definition json (n : t) : json :=
  JObj (jint "uptime" (Uptime n) ++ jstr "uuid" (UUID n) ++ jstr "ethernet" (HwAddr n) ++ jstr "address" (IpAddr n) ++
        jstr "client" (Client n) ++ jstr "switch" (Switch n) ++ jstr "network" (Network n) ++ jstr "device" (Device n)).
End sNeighbor.

Module sOnLine.
Record t := mk {
  HitTime : Z; UpTime : Z; EthType : Z; IpSource : string; IpDest : string; IpProto : string; PortSource : Z; PortDest : Z
}.
Definition json (l : t) : json :=
  JObj (jint "hittime" (HitTime l) ++ jint "uptime" (UpTime l) ++ jint "ethType" (EthType l) ++ jstr "ipSource" (IpSource l) ++
        jstr "ipDestination" (IpDest l) ++ jstr "ipProtocol" (IpProto l) ++ jint "portSource" (PortSource l) ++
        jint "portDestination" (PortDest l)).
End sOnLine.

Definition lease_json (l : Lease.t) : json :=
  JObj (jstr "address" (Lease.Address l) ++ jstr "uuid" (Lease.UUID l) ++ jstr "alias" (Lease.Alias l) ++
        jstr "client" (Lease.Client l) ++ jstr "type" (Lease.Type_ l) ++ jstr "network" (Lease.Network l)).

Definition vpn_json (c : schema.VPNClient) : json :=
  JObj (jint "uptime" (schema.Uptime c) ++ jstr "name" (schema.Name c) ++ jstr "uuid" (schema.UUID c) ++
        jstr "network" (schema.Network c) ++ jstr "user" (schema.User c) ++ jstr "remote" (schema.Remote c) ++
        jstr "device" (schema.Device c) ++ jint "rxBytes" (schema.RxBytes c) ++ jint "txBytes" (schema.TxBytes c) ++
        jstr "errors" (schema.ErrPkt c) ++ jstr "state" (schema.State c) ++ jint "aliveTime" (schema.AliveTime c) ++
        jstr "address" (schema.Address c)).

Module sDevice.
Record t := mk { Name : string; Address : string; Mac : string; Type_ : string; Provider : string; Mtu : Z }.
Definition members (d : t) : list (string * json) :=
  jstr "name" (Name d) ++ jopt "address" (Address d) ++ jopt "mac" (Mac d) ++ jopt "type" (Type_ d) ++
  jstr "provider" (Provider d) ++ joptint "mtu" (Mtu d).
Definition json (d : t) : json := JObj (members d).
End sDevice.

Module sHwMac.
Record t := mk { Uptime : Z; Address : string; Device : string }.
Definition json (m : t) : json := JObj (jint "uptime" (Uptime m) ++ jstr "address" (Address m) ++ jstr "device" (Device m)).
End sHwMac.

(** The device is embedded: its members come first. *)
Module sBridge.
Record t := mk { Device : sDevice.t; Macs : list sHwMac.t; Slaves : list sDevice.t; Stats : json }.
Definition json (b : t) : json :=
  JObj (sDevice.members (Device b) ++ jlist "macs" sHwMac.json (Macs b) ++ jlist "slaves" sDevice.json (Slaves b) ++
        [("stats"%string, Stats b)]).
End sBridge.

Module sEsp.
Record t := mk { Name : string; Address : string }.
(** No conversion fills the members, which are left out when there are none. *)
Definition json (e : t) : json := JObj (jstr "name" (Name e) ++ jstr "address" (Address e)).
End sEsp.

Module sEspState.
Record t := mk {
  Name : string; AliveTime : Z; Spi : Z; Source : string; Mode : Z; Proto : Z; Dest : string; Auth : string;
  Crypt : string; TxBytes : Z; TxPackages : Z; RxBytes : Z; RxPackages : Z
}.
Definition json (s : t) : json :=
  JObj (jstr "name" (Name s) ++ jint "alive" (AliveTime s) ++ jint "spi" (Spi s) ++ jstr "source" (Source s) ++
        jint "mode" (Mode s) ++ jint "proto" (Proto s) ++ jstr "destination" (Dest s) ++ jstr "auth" (Auth s) ++
        jstr "crypt" (Crypt s) ++ jint "txBytes" (TxBytes s) ++ jint "txPackages" (TxPackages s) ++
        jint "rxBytes" (RxBytes s) ++ jint "rxPackages" (RxPackages s)).
End sEspState.

Module sEspPolicy.
Record t := mk { Name : string; Spi : Z; Source : string; Dest : string }.
Definition json (p : t) : json :=
  JObj (jstr "name" (Name p) ++ jint "spi" (Spi p) ++ jstr "local" (Source p) ++ jstr "destination" (Dest p)).
End sEspPolicy.

Module sWorker.
Record t := mk { Uptime : Z; UUID : string; Alias : string; Protocol : string }.
Definition json (w : t) : json :=
  JObj (jint "uptime" (Uptime w) ++ jstr "uuid" (UUID w) ++ jstr "alias" (Alias w) ++ jstr "protocol" (Protocol w)).
End sWorker.

Module sVersion.
Record t := mk { Version : string; Date : string; Commit : string }.
Definition json (v : t) : json := JObj (jstr "version" (Version v) ++ jstr "date" (Date v) ++ jstr "commit" (Commit v)).
End sVersion.

Module sMessage.
Record t := mk { Code : Z; Message : string }.
Definition json (m : t) : json := JObj (jint "code" (Code m) ++ jstr "message" (Message m)).
End sMessage.

Module sPProf.
Record t := mk { Listen : string }.
Definition json (p : t) : json := JObj (jstr "listen" (Listen p)).
Definition parse (text : string) : option t := st ← Unmarshal ["listen"%string] text; Some (mk (got st "listen")).
End sPProf.

(** A slice that was never made is null. *)
Module sIndex.
Record t := mk {
  Version : sVersion.t; Worker : sWorker.t; Points : option (list sPoint.t); Links : option (list sLink.t);
  Neighbors : option (list sNeighbor.t); OnLines : option (list sOnLine.t); Network : option (list sNetwork.t);
  Clients : option (list schema.VPNClient); States : option (list sEspState.t)
}.
Definition slice_json {A} (name : string) (f : A -> json) (l : option (list A)) : list (string * json) :=
  [(name, match l with Some l => JArr (map f l) | None => JNull end)].
Definition json (i : t) : json :=
  JObj ([("version"%string, sVersion.json (Version i)); ("worker"%string, sWorker.json (Worker i))] ++
        slice_json "points" sPoint.json (Points i) ++ slice_json "links" sLink.json (Links i) ++
        slice_json "neighbors" sNeighbor.json (Neighbors i) ++ slice_json "online" sOnLine.json (OnLines i) ++
        slice_json "network" sNetwork.json (Network i) ++ slice_json "clients" vpn_json (Clients i) ++
        slice_json "states" sEspState.json (States i)).
End sIndex.

(** ** Conversions *)

(** [net.IP.String] *)
Definition net_ip_string (ip : bytes) : string :=
  match length ip with
  | 0%nat => "<nil>"%string
  | 4%nat | 16%nat => ip_String ip
  | _ => ("?" +:+ Md5.EncodeToString ip)%string
  end.

(** The client and the device of a point must be there. *)
Definition NewPointSchema (client : option (SocketClientImpl Point.t)) (dev : option string) (now : Z) (p : Point.t) : go sPoint.t :=
  match client, dev with
  | Some c, Some dev =>
      let sts := Statistics c in
      Ret {| sPoint.Uptime := Point.Uptime p; sPoint.UUID := Point.UUID p; sPoint.Network := Point.Network p;
             sPoint.User := Point.User p; sPoint.Alias := Point.Alias p; sPoint.Protocol := Point.Protocol p;
             sPoint.Remote := Point.Client p; sPoint.Switch := ""; sPoint.Device := dev;
             sPoint.RxBytes := SafeStrInt64.Get sts CsRecvOkay; sPoint.TxBytes := SafeStrInt64.Get sts CsSendOkay;
             sPoint.ErrPkt := SafeStrInt64.Get sts CsSendError; sPoint.State := status_String (status c);
             sPoint.AliveTime := AliveTime c now; sPoint.System := Point.System p; sPoint.Address := sNetwork.zero |}
  | _, _ => Panic
  end.

(** [Status] loads the status file: [load] gives the zero struct when it cannot. *)
Definition NewLinkSchema (load : string -> sPoint.t) (l : LinkCache.Link) : sLink.t :=
  let sts := load (LinkCache.StatusFile l) in
  {| sLink.Uptime := sPoint.Uptime sts; sLink.UUID := sPoint.UUID sts; sLink.Alias := "";
     sLink.Network := sPoint.Network sts; sLink.User := sPoint.User sts; sLink.Protocol := sPoint.Protocol sts;
     sLink.Server := sPoint.Remote sts; sLink.Device := sPoint.Device sts; sLink.RxBytes := sPoint.RxBytes sts;
     sLink.TxBytes := sPoint.TxBytes sts; sLink.ErrPkt := sPoint.ErrPkt sts; sLink.State := sPoint.State sts;
     sLink.AliveTime := sPoint.AliveTime sts |}.

Definition NewNeighborSchema (now : Z) (n : Neighbor.t) : sNeighbor.t :=
  {| sNeighbor.Uptime := Neighbor.UpTime n now; sNeighbor.UUID := ""; sNeighbor.HwAddr := Bridge.hw_string (Neighbor.HwAddr n);
     sNeighbor.IpAddr := net_ip_string (Neighbor.IpAddr n); sNeighbor.Client := Neighbor.Client n; sNeighbor.Switch := "";
     sNeighbor.Network := Neighbor.Network n; sNeighbor.Device := Neighbor.Device n |}.

Definition NewOnLineSchema (now : Z) (l : Line.t) : sOnLine.t :=
  {| sOnLine.HitTime := Line.LastTime l now; sOnLine.UpTime := Line.UpTime l now; sOnLine.EthType := Line.EthType l;
     sOnLine.IpSource := net_ip_string (Line.IpSource l); sOnLine.IpDest := net_ip_string (Line.IpDest l);
     sOnLine.IpProto := Protocol.IpProto2Str (Line.IpProtocol l); sOnLine.PortSource := Line.PortSource l;
     sOnLine.PortDest := Line.PortDest l |}.

Definition NewUserSchema (fmt_lease : Z -> string) (u : User.t) : sUser.t :=
  {| sUser.Alias := User.Alias u; sUser.Role := User.Role u; sUser.Name := User.Name u; sUser.Password := User.Password u;
     sUser.Network := User.Network u; sUser.Lease := fmt_lease (User.Lease u) |}.

Definition SchemaToUserModel (parse_lease : string -> Z) (now : Z) (u : sUser.t) : User.t :=
  User.Update {| User.Alias := sUser.Alias u; User.Name := sUser.Name u; User.Network := sUser.Network u;
                 User.Password := sUser.Password u; User.UUID := ""; User.System := ""; User.Role := sUser.Role u;
                 User.Last := None; User.Lease := parse_lease (sUser.Lease u); User.UpdateAt := 0 |} now.

Definition NewRouteSchema (r : Route.t) : sRoute.t :=
  {| sRoute.Prefix := Route.Prefix r; sRoute.NextHop := Route.NextHop r; sRoute.Metric := Route.Metric r;
     sRoute.Mode := Route.Mode r |}.
Definition NewNetworkSchema (n : Network.t) : sNetwork.t :=
  {| sNetwork.Name := Network.Name n; sNetwork.IfAddr := Network.IfAddr n; sNetwork.IpStart := Network.IpStart n;
     sNetwork.IpEnd := Network.IpEnd n; sNetwork.Netmask := Network.Netmask n;
     sNetwork.Routes := Some (map NewRouteSchema (Network.Routes n)) |}.

Definition NewEspSchema (e : EspRow) : sEsp.t := {| sEsp.Name := er_Name e; sEsp.Address := er_Address e |}.

(** What the kernel counts for an association, and what is kept of it beside a row. *)
Record xfrm_stats := { xs_Bytes : Z; xs_Packets : Z; xs_UseTime : Z }.
Record counters := { co_TxBytes : Z; co_TxPackages : Z; co_RxBytes : Z; co_RxPackages : Z; co_Alive : Z }.
Definition no_counters : counters := {| co_TxBytes := 0; co_TxPackages := 0; co_RxBytes := 0; co_RxPackages := 0; co_Alive := 0 |}.

(** [EspState.Update] asks for the association and for the one back. *)
Definition state_Update (get : Z -> option bytes -> option bytes -> Z -> Z -> option xfrm_stats) (now : Z) (r : StateRow)
    (c : counters) : counters :=
  let src := ParseIP (sr_Source r) in
  let dst := ParseIP (sr_Dest r) in
  let out := get (sr_Spi r) src dst (sr_Mode r) (sr_Proto r) in
  let back := get (sr_Spi r) dst src (sr_Mode r) (sr_Proto r) in
  let used := match out with Some s => xs_UseTime s | None => 0 end in
  {| co_TxBytes := match out with Some s => xs_Bytes s | None => co_TxBytes c end;
     co_TxPackages := match out with Some s => xs_Packets s | None => co_TxPackages c end;
     co_RxBytes := match back with Some s => xs_Bytes s | None => co_RxBytes c end;
     co_RxPackages := match back with Some s => xs_Packets s | None => co_RxPackages c end;
     co_Alive := if 0 <? used then now - used else co_Alive c |}.
Definition NewEspStateSchema (r : StateRow) (c : counters) : sEspState.t :=
  {| sEspState.Name := sr_Name r; sEspState.AliveTime := co_Alive c; sEspState.Spi := sr_Spi r;
     sEspState.Source := sr_Source r; sEspState.Mode := 0; sEspState.Proto := 0; sEspState.Dest := sr_Dest r;
     sEspState.Auth := ""; sEspState.Crypt := ""; sEspState.TxBytes := co_TxBytes c;
     sEspState.TxPackages := co_TxPackages c; sEspState.RxBytes := co_RxBytes c; sEspState.RxPackages := co_RxPackages c |}.
Definition NewEspPolicySchema (p : PolicyRow) : sEspPolicy.t :=
  {| sEspPolicy.Name := po_Name p; sEspPolicy.Spi := 0; sEspPolicy.Source := po_Source p; sEspPolicy.Dest := po_Dest p |}.

(** ** A user sent is the user received *)

Definition user_ok (u : sUser.t) : Prop :=
  Forall (fun s => utf8 0 s = true)
    [sUser.Alias u; sUser.Role u; sUser.Name u; sUser.Password u; sUser.Network u; sUser.Lease u].

(** The text a user is written as is read as the same user. *)
Lemma user_text_roundtrip u : user_ok u -> sUser.parse (Marshal (sUser.json u)) = Some u.
Proof.
  destruct u as [al ro na pw ne le]. unfold user_ok. cbn [sUser.Alias sUser.Role sUser.Name sUser.Password sUser.Network sUser.Lease].
  rewrite !Forall_cons. intros (Hal & Hro & Hna & Hpw & Hne & Hle & _).
  assert (Hj : forall l, sUser.json (sUser.mk al ro na pw ne le) = string_struct l ->
    bool_decide (NoDup l.*1 /\ l.*1 ⊆ sUser.fields) = true ->
    Forall (fun e : string * string => utf8 0 e.1 = true /\ utf8 0 e.2 = true) l ->
    (forall st, (forall f v, (f, v) ∈ l -> got st f = v) -> (forall f, f ∉ l.*1 -> got st f = ""%string) ->
       got st "alias" = al /\ got st "role" = ro /\ got st "name" = na /\ got st "password" = pw /\
       got st "network" = ne /\ got st "leaseTime" = le) ->
    sUser.parse (Marshal (sUser.json (sUser.mk al ro na pw ne le))) = Some (sUser.mk al ro na pw ne le)).
  { intros l -> [Hnd Hin]%bool_decide_eq_true Hu Hg. destruct (Unmarshal_Marshal sUser.fields l Hnd Hin Hu) as (st & E & H1 & H2).
    unfold sUser.parse. rewrite E. cbn [mbind option_bind]. by destruct (Hg st H1 H2) as (-> & -> & -> & -> & -> & ->). }
  unfold sUser.json, jopt, jstr in Hj. cbn [sUser.Alias sUser.Role sUser.Name sUser.Password sUser.Network sUser.Lease] in Hj.
  unfold sUser.json, jopt, jstr. cbn [sUser.Alias sUser.Role sUser.Name sUser.Password sUser.Network sUser.Lease].
  set (fixed := [("name", na); ("password", pw); ("network", ne); ("leaseTime", le)]%string) in *.
  destruct (String.eqb_spec al ""%string) as [->|Ha], (String.eqb_spec ro ""%string) as [->|Hr];
    [eapply (Hj fixed)|eapply (Hj (("role"%string, ro) :: fixed))|eapply (Hj (("alias"%string, al) :: fixed))|
     eapply (Hj (("alias"%string, al) :: ("role"%string, ro) :: fixed))];
    first [ reflexivity | by repeat constructor | idtac ];
    intros st H1 H2; split_and!;
    first [ apply H1; apply list_elem_of_In; simpl; tauto
          | apply H2; intros H%list_elem_of_In; simpl in H; intuition discriminate ].
Qed.
