(* ===== verification/Mux.v ===== *)
(** * The request router (vendor/github.com/gorilla/mux, as the API uses it)

    Path templates with variables, the first route whose path and method match, and the
    canonical paths requests are redirected to.  A variable without a pattern of its own
    stands for one or more characters other than a slash, as many as possible. *)

From S2P Require Import Prelude GoStd Json Utils.

Local Open Scope Z_scope.
Local Arguments String.append !_ _ / : simpl nomatch.

Inductive piece := Lit (s : string) | Var (name : string).

Definition char_open : Ascii.ascii := Ascii.ascii_of_N 123.
Definition char_close : Ascii.ascii := Ascii.ascii_of_N 125.

(** The pieces of a template; [None] for braces that are not balanced or are nested, or
    for a name that is empty. *)
Fixpoint pieces (fuel : nat) (tpl : string) : option (list piece) :=
  match fuel with
  | O => None
  | S fuel =>
      match cut char_open tpl with
      | None => if contains_char char_close tpl then None else Some [Lit tpl]
      | Some (raw, r) =>
          '(name, r) ← cut char_close r;
          if contains_char char_close raw || contains_char char_open name || String.eqb name "" then None
          else l ← pieces fuel r; Some (Lit raw :: Var name :: l)
      end
  end.
Definition template (tpl : string) : option (list piece) := pieces (S (String.length tpl)) tpl.

Fixpoint str_cut (n : nat) (s : string) : string * string :=
  match n, s with
  | S n, String a s => let (l, r) := str_cut n s in (String a l, r)
  | _, _ => (EmptyString, s)
  end.
(** How many characters come before the first slash. *)
Fixpoint run_length (s : string) : nat :=
  match s with
  | EmptyString => 0
  | String a s => if Ascii.eqb a char_slash then 0 else S (run_length s)
  end.

(** The longest of at most [k] characters after which the rest matches. *)
Fixpoint try_length {A} (rest : string -> option A) (k : nat) (s : string) : option (string * A) :=
  match k with
  | O => None
  | S k' =>
      let (l, r) := str_cut k s in
      match rest r with Some a => Some (l, a) | None => try_length rest k' s end
  end.

(** The values of the variables, in order. *)
Fixpoint match_path (t : list piece) (path : string) : option (list (string * string)) :=
  match t with
  | [] => if String.eqb path "" then Some [] else None
  | Lit l :: t => r ← strip l path; match_path t r
  | Var n :: t => '(v, vs) ← try_length (match_path t) (run_length path) path; Some ((n, v) :: vs)
  end.

(** ** Routes *)

(** A route without methods takes any. *)
Record route (H : Type) := mk_route { rt_path : string; rt_methods : list string; rt_handler : H }.
Arguments mk_route {H}.
Arguments rt_path {H}.
Arguments rt_methods {H}.
Arguments rt_handler {H}.

Inductive outcome (H : Type) :=
| Redirect (path : string)
| Found (h : H) (vars : gmap string string)
| MethodNotAllowed
| NotFound.
Arguments Redirect {H}.
Arguments Found {H}.
Arguments MethodNotAllowed {H}.
Arguments NotFound {H}.

Definition route_vars {H} (r : route H) (path : string) : option (list (string * string)) :=
  t ← template (rt_path r); match_path t path.
Definition method_ok {H} (r : route H) (method : string) : bool :=
  match rt_methods r with [] => true | ms => existsb (String.eqb method) ms end.

(** [mismatch]: a route before had the path but not the method. *)
Fixpoint Match {H} (rs : list (route H)) (method path : string) (mismatch : bool) : outcome H :=
  match rs with
  | [] => if mismatch then MethodNotAllowed else NotFound
  | r :: rs =>
      match route_vars r path with
      | None => Match rs method path mismatch
      | Some vs => if method_ok r method then Found (rt_handler r) (list_to_map vs) else Match rs method path true
      end
  end.

Definition ends_slash (p : string) : bool :=
  match String.get (String.length p - 1) p with Some a => Ascii.eqb a char_slash | None => false end.
Definition cleanPath (p : string) : string :=
  if String.eqb p "" then "/"%string
  else
    let p := if HasPrefix p "/" then p else ("/" +:+ p)%string in
    let np := path_Clean p in
    if ends_slash p && negb (String.eqb np "/") then (np +:+ "/")%string else np.

Definition dispatch {H} (rs : list (route H)) (method path : string) : outcome H :=
  let p := cleanPath path in
  if String.eqb p path then Match rs method path false else Redirect p.

(** ** What a match means *)

Fixpoint render (t : list piece) (vs : list (string * string)) : string :=
  match t, vs with
  | Lit l :: t, _ => l +:+ render t vs
  | Var _ :: t, (_, v) :: vs => v +:+ render t vs
  | Var _ :: t, [] => render t []
  | [], _ => EmptyString
  end.
Fixpoint names (t : list piece) : list string :=
  match t with [] => [] | Lit _ :: t => names t | Var n :: t => n :: names t end.
Definition segment (v : string) : Prop := v <> ""%string /\ contains_char char_slash v = false.

Lemma str_cut_app n s l r : str_cut n s = (l, r) -> s = l +:+ r.
Proof.
  revert s l r. induction n as [|n IH]; intros s l r; [by intros [= <- <-]|].
  destruct s as [|a s]; [by intros [= <- <-]|]. simpl. destruct (str_cut n s) as [l0 r0] eqn:E. intros [= <- <-].
  simpl. by rewrite (IH _ _ _ E).
Qed.
Lemma str_cut_length p s : str_cut (String.length p) (p +:+ s) = (p, s).
Proof. induction p as [|a p IH]; simpl; [by destruct s|]. by rewrite IH. Qed.

(** A cut within the run is a segment. *)
Lemma str_cut_segment n s l r : str_cut n s = (l, r) -> (0 < n <= run_length s)%nat -> segment l.
Proof.
  intros E Hn. split.
  - destruct n as [|n]; [lia|]. destruct s as [|a s]; [simpl in Hn; lia|]. simpl in E.
    by destruct (str_cut n s); injection E as <- <-.
  - assert (Hle : (n <= run_length s)%nat) by lia. clear Hn. revert s l r E Hle.
    induction n as [|n IH]; intros s l r E Hle; [by injection E as <- <-|]. destruct s as [|a s]; [simpl in Hle; lia|].
    simpl in E, Hle. destruct (Ascii.eqb a char_slash) eqn:Ea; [lia|]. destruct (str_cut n s) as [l0 r0] eqn:E0.
    injection E as <- <-. simpl. rewrite Ea. apply (IH _ _ _ E0). lia.
Qed.

Lemma run_segment v s : contains_char char_slash v = false -> (String.length v <= run_length (v +:+ s))%nat.
Proof.
  induction v as [|a v IH]; simpl; [lia|]. intros [Ha Hv]%orb_false_iff. rewrite Ha. specialize (IH Hv). lia.
Qed.

Lemma try_length_sound {A} (rest : string -> option A) k s v a :
  try_length rest k s = Some (v, a) ->
  exists r n, str_cut n s = (v, r) /\ (0 < n <= k)%nat /\ rest r = Some a.
Proof.
  induction k as [|k IH]; [done|]. cbn [try_length]. destruct (str_cut (S k) s) as [l r] eqn:E.
  destruct (rest r) as [a0|] eqn:Er.
  - intros [= <- <-]. exists r, (S k). split; [done|]. split; [lia|done].
  - intros H. destruct (IH H) as (r0 & n & H1 & H2 & H3). exists r0, n. split; [done|]. split; [lia|done].
Qed.

Lemma try_length_complete {A} (rest : string -> option A) k s v r a :
  s = v +:+ r -> (0 < String.length v <= k)%nat -> rest r = Some a -> is_Some (try_length rest k s).
Proof.
  intros -> Hk Hr. induction k as [|k IH]; [lia|]. cbn [try_length].
  destruct (decide (String.length v = S k)) as [E|E].
  - rewrite <- E, str_cut_length, Hr. by eexists.
  - destruct (str_cut (S k) (v +:+ r)) as [l0 r0]. destruct (rest r0); [by eexists|]. apply IH. lia.
Qed.

(** The template with the values in it is the path. *)
Theorem match_path_sound t path vs :
  match_path t path = Some vs -> render t vs = path /\ vs.*1 = names t /\ Forall (fun e => segment e.2) vs.
Proof.
  revert path vs. induction t as [|[l|n] t IH]; intros path vs; cbn [match_path].
  - destruct (String.eqb_spec path ""); [|done]. by intros [= <-].
  - destruct (strip l path) as [r|] eqn:E; [|done]. intros H. destruct (IH _ _ H) as (<- & H2 & H3).
    apply strip_some in E. done.
  - destruct (try_length _ _ _) as [[v vs0]|] eqn:E; [|done]. intros [= <-].
    destruct (try_length_sound _ _ _ _ _ E) as (r & k & H1 & H2 & H3). destruct (IH _ _ H3) as (<- & Hn & Hs).
    split; [symmetry; by eapply str_cut_app|]. split; [by rewrite fmap_cons, Hn|]. constructor; [|done]. simpl.
    by eapply str_cut_segment.
Qed.

(** Every path the template can make is matched. *)
Theorem match_path_complete t vs :
  vs.*1 = names t -> Forall (fun e => segment e.2) vs -> is_Some (match_path t (render t vs)).
Proof.
  revert vs. induction t as [|[l|n] t IH]; intros vs Hn Hs; cbn [match_path render].
  - by eexists.
  - rewrite strip_app. cbn [mbind option_bind]. by apply IH.
  - destruct vs as [|[n' v] vs]; [done|]. simpl in Hn. injection Hn as -> Hn. apply Forall_cons in Hs as [[Hv1 Hv2] Hs].
    destruct (IH vs Hn Hs) as [vs' E]. cbn [snd] in Hv1, Hv2.
    destruct (try_length_complete (match_path t) (run_length (v +:+ render t vs)) (v +:+ render t vs) v (render t vs) vs')
      as [[v0 vs0] E0]; [done| |done|].
    + split; [destruct v; [done|simpl; lia]|by apply run_segment].
    + rewrite E0. by eexists.
Qed.

Lemma Match_found {H} (rs : list (route H)) method path b h vars :
  Match rs method path b = Found h vars ->
  exists r vs, r ∈ rs /\ rt_handler r = h /\ route_vars r path = Some vs /\ vars = list_to_map vs /\ method_ok r method = true.
Proof.
  revert b. induction rs as [|r rs IH]; intros b; simpl; [by destruct b|].
  destruct (route_vars r path) as [vs|] eqn:E.
  - destruct (method_ok r method) eqn:Em.
    + intros [= <- <-]. exists r, vs. by split_and!; [left|..].
    + intros Hm. destruct (IH _ Hm) as (r' & vs' & ? & ?). exists r', vs'. by split; [right|].
  - intros Hm. destruct (IH _ Hm) as (r' & vs' & ? & ?). exists r', vs'. by split; [right|].
Qed.

(** ** Canonical paths *)

(** Taking elements back never leaves a dot in the stack of a rooted path. *)
Lemma clean_stack es st :
  Forall base_name st -> Forall (fun e => contains_char char_slash e = false) es ->
  Forall base_name (foldl (clean_step true) st es).
Proof.
  intros Hst Hes. revert st Hst. induction Hes as [|e es He _ IH]; intros st Hst; [done|]. simpl. apply IH.
  unfold clean_step. destruct (String.eqb_spec e ""); [done|]. destruct (String.eqb_spec e "."); [done|].
  simpl. destruct (String.eqb_spec e "..").
  - destruct (last st) as [u|] eqn:El; [|done]. destruct (String.eqb_spec u "..").
    + subst u. apply last_Some in El as [st' ->]. apply Forall_app in Hst as [_ Hd].
      apply Forall_cons in Hd as [(_ & _ & _ & ?) _]. done.
    + destruct st as [|x st] using rev_ind; [done|]. rewrite removelast_last. by apply Forall_app in Hst as [? _].
  - apply Forall_app. split; [done|]. by repeat constructor.
Qed.

Lemma Split_plain_all s c : Forall (fun e => contains_char c e = false) (Split s c).
Proof.
  remember (String.length s) as n eqn:En. revert s En. induction n as [n IH] using (well_founded_ind lt_wf). intros s ->.
  rewrite Split_unfold. destruct (contains_char c s) eqn:E.
  - destruct (cut_some _ _ E) as (l & r & -> & -> & Hl). constructor; [done|]. eapply IH; [|done].
    rewrite string_length_app. simpl. lia.
  - rewrite cut_none by done. by repeat constructor.
Qed.

Lemma Split_concat st : Forall (fun e => contains_char char_slash e = false) st -> st <> [] ->
  Split (String.concat "/" st) char_slash = st.
Proof.
  intros Hst Hne. induction Hst as [|e st He Hst IH]; [done|]. destruct st as [|e2 st]; [by apply Split_plain|].
  change (String.concat "/" (e :: e2 :: st)) with (e +:+ String char_slash (String.concat "/" (e2 :: st))).
  rewrite Split_app, Split_plain by done. by rewrite IH.
Qed.

(** A path that is its own canonical form has no element that is a dot or two. *)
Lemma canonical_elements p e :
  cleanPath p = p -> e ∈ Split p char_slash -> e = ""%string \/ base_name e.
Proof.
  unfold cleanPath. destruct (String.eqb_spec p ""); [by subst|].
  intros Hp He. set (q := if HasPrefix p "/" then p else ("/" +:+ p)%string) in *.
  assert (Hq : HasPrefix q "/" = true).
  { unfold q. destruct (HasPrefix p "/") eqn:E; [done|]. by destruct p. }
  assert (Hc : exists st, path_Clean q = ("/" +:+ String.concat "/" st)%string /\ Forall base_name st).
  { unfold path_Clean. rewrite Hq. eexists. split; [done|]. apply clean_stack; [constructor|apply Split_plain_all]. }
  destruct Hc as (st & Ec & Hst). rewrite Ec in Hp.
  assert (Hs : Forall (fun e => contains_char char_slash e = false) st) by (eapply Forall_impl; [exact Hst|]; by intros ? []).
  assert (Hsplit : forall r, Split ("/" +:+ (String.concat "/" st +:+ r)) char_slash = ""%string :: Split (String.concat "/" st +:+ r) char_slash).
  { intros r. apply (Split_app ""). }
  assert (Hin : e ∈ Split p char_slash -> e = ""%string \/ e ∈ st).
  { rewrite <- Hp. destruct (_ && _).
    - rewrite string_app_assoc, Hsplit. change "/"%string with (String char_slash ""). rewrite Split_app.
      destruct st as [|x st]; [simpl; set_solver|]. rewrite Split_concat by done. simpl. set_solver.
    - rewrite <- (string_app_nil_r (String.concat "/" st)), Hsplit, string_app_nil_r.
      destruct st as [|x st]; [simpl; set_solver|]. rewrite Split_concat by done. set_solver. }
  destruct (Hin He) as [->|Hi]; [by left|right]. rewrite Forall_forall in Hst. by apply Hst.
Qed.

Lemma dispatch_found {H} (rs : list (route H)) method path h vars :
  dispatch rs method path = Found h vars -> cleanPath path = path /\ Match rs method path false = Found h vars.
Proof. unfold dispatch. destruct (String.eqb_spec (cleanPath path) path); [done|discriminate]. Qed.

Example mux_examples :
  template "/get/network/{id}/{ie}.ovpn" = Some [Lit "/get/network/"; Var "id"; Lit "/"; Var "ie"; Lit ".ovpn"] /\
  (t ← template "/get/network/{id}/{ie}.ovpn"; match_path t "/get/network/net/a.ovpn.ovpn") =
    Some [("id", "net"); ("ie", "a.ovpn")]%string /\
  (t ← template "/api/user/{id}"; match_path t "/api/user/") = None /\
  (t ← template "/api/user/{id}"; match_path t "/api/user/a/b") = None /\
  template "/a}b" = None /\ template "/{}" = None /\
  cleanPath "/api//user/../x/" = "/api/x/"%string /\ cleanPath "" = "/"%string /\ cleanPath "/" = "/"%string.
Proof. vm_compute. repeat split. Qed.
