(* ===== verification/Api.v ===== *)
(** * The handlers of the API (pkg/olsw/api)

    A request has been parsed by net/http; a handler answers it from the tables of the
    switch, some of which it changes.  The switch itself is behind the interface
    [Switcher]. *)

From S2P Require Import Prelude GoStd Json Md5 Protocol SafeMap Tap Bridge Models UserCache NetCache Cache Socket Apps Switch.
From S2P Require Import Utils Config Esp Vpn VpnClients Schema Mux.
From stdpp Require Import sorting.

Local Open Scope Z_scope.

(** ** Requests and responses *)

(** [q_Auth] is what [BasicAuth] gives; a body that cannot be read is [None]. *)
Record request := {
  q_Method : string; q_Path : string; q_Host : string; q_Query : list (string * list string);
  q_Auth : option (string * string); q_Body : option string
}.
Record response := { p_Code : Z; p_Headers : list (string * string); p_Body : string }.

Definition newline_string : string := String (chr 10) "".
(** [http.Error] *)
Definition Error (text : string) (code : Z) : response :=
  {| p_Code := code; p_Headers := [("Content-Type", "text/plain; charset=utf-8"); ("X-Content-Type-Options", "nosniff")]%string;
     p_Body := (text +:+ newline_string)%string |}.
Definition StatusUnauthorized : Z := 401.
Definition StatusNotFound : Z := 404.
Definition StatusConflict : Z := 409.
Definition StatusInternalServerError : Z := 500.

Definition okay (type body : string) : response :=
  {| p_Code := 200; p_Headers := [("Content-Type"%string, type)]; p_Body := body |}.
Definition ResponseJson (v : json) : response := okay "application/json" (Marshal v).
Definition ResponseMsg (code : Z) (message : string) : response :=
  ResponseJson (sMessage.json {| sMessage.Code := code; sMessage.Message := message |}).

(** A key of the query has at least one value. *)
Definition GetQueryOne (q : request) (name : string) : string :=
  match List.find (fun e => String.eqb e.1 name) (q_Query q) with
  | Some (_, v :: _) => v
  | _ => ""%string
  end.

(** ** Sorting *)

Section sort.
Context {A : Type} (less : A -> A -> bool).
Fixpoint insert_stable (x : A) (l : list A) : list A :=
  match l with
  | [] => [x]
  | y :: l' => if less y x then y :: insert_stable x l' else x :: l
  end.
(** [sort.SliceStable] *)
Definition SliceStable (l : list A) : list A := foldr insert_stable [] l.
End sort.

(** [a > b] on Go strings. *)
Definition str_gt (a b : string) : bool := String.ltb b a.

(** ** The switch, as the handlers see it *)

Class Switcher (S : Type) := {
  sw_UUID : S -> S * string;
  sw_UpTime : S -> Z -> Z;
  sw_Alias : S -> string;
  sw_Config : S -> option Config.Switch;
  sw_Server : S -> SocketServerImpl;
  sw_Clients : S -> gmap nat Apps.Client;
  sw_AddLink : string -> Config.Point -> S -> S;
  sw_DelLink : string -> string -> S -> S;
  sw_Reload : S -> Esp.tables -> go (S * Esp.tables);
  sw_Save : S -> fs -> go fs
}.

Section api.
Context {S : Type} `{Switcher S}.

(** The tables of the switch and of its data path; the registry of bridges by name; the
    counters that belong to the rows of associations; the configured networks and the
    files; the address profiles are served on and whether that failed. *)
Record state := {
  st_switch : Switch.Switch; st_bridges : gmap string bridge_id; st_links : LinkCache.t; st_esp : Esp.tables;
  st_counters : gmap string counters; st_nets : list (option Config.Network); st_files : fs;
  st_pprof : string; st_pprof_failed : bool; st_ctl : S
}.

Definition set_world (st : state) (w : world) : state :=
  {| st_switch := sw_upd (st_switch st) w; st_bridges := st_bridges st; st_links := st_links st; st_esp := st_esp st;
     st_counters := st_counters st; st_nets := st_nets st; st_files := st_files st; st_pprof := st_pprof st;
     st_pprof_failed := st_pprof_failed st; st_ctl := st_ctl st |}.
Definition set_counters (st : state) (c : gmap string counters) : state :=
  {| st_switch := st_switch st; st_bridges := st_bridges st; st_links := st_links st; st_esp := st_esp st;
     st_counters := c; st_nets := st_nets st; st_files := st_files st; st_pprof := st_pprof st;
     st_pprof_failed := st_pprof_failed st; st_ctl := st_ctl st |}.
Definition set_files (st : state) (f : fs) : state :=
  {| st_switch := st_switch st; st_bridges := st_bridges st; st_links := st_links st; st_esp := st_esp st;
     st_counters := st_counters st; st_nets := st_nets st; st_files := f; st_pprof := st_pprof st;
     st_pprof_failed := st_pprof_failed st; st_ctl := st_ctl st |}.
Definition set_pprof (st : state) (listen : string) (failed : bool) : state :=
  {| st_switch := st_switch st; st_bridges := st_bridges st; st_links := st_links st; st_esp := st_esp st;
     st_counters := st_counters st; st_nets := st_nets st; st_files := st_files st; st_pprof := listen;
     st_pprof_failed := failed; st_ctl := st_ctl st |}.
Definition set_ctl (st : state) (e : Esp.tables) (c : S) : state :=
  {| st_switch := st_switch st; st_bridges := st_bridges st; st_links := st_links st; st_esp := e;
     st_counters := st_counters st; st_nets := st_nets st; st_files := st_files st; st_pprof := st_pprof st;
     st_pprof_failed := st_pprof_failed st; st_ctl := c |}.
Definition st_world (st : state) : world := sw_world (st_switch st).
Definition st_plant (st : state) : plant := sw_plant (st_switch st).
Definition set_users (st : state) (u : UserCache.user) : state := set_world st (upd_users (st_world st) u).

(** What net/http and the handlers ask of the environment: the text of leases and of
    status times, the LDAP server, the zone of the clock, the status file of a link, the
    kernel's associations, the order in which maps are iterated, the texts of the errors of
    reading a body, of encoding/json and of reading a file, a point's configuration and the
    configuration's texts, what cannot be written, the version of the build, the page a
    template makes of an index, the pages of net/http/pprof and a request's address with
    another path. *)
Record env := {
  e_fmt_lease : Z -> string; e_parse_lease : string -> Z; e_parse_time : string -> option Z;
  e_dial : LDAPConfig -> option LDAPService; e_tz : Z; e_load_status : string -> sPoint.t;
  e_xfrm : Z -> option bytes -> option bytes -> Z -> Z -> option xfrm_stats;
  e_order : forall A : Type, gmap string A -> list (string * A);
  e_read_error : string; e_json_error : string -> string; e_file_error : string -> string; e_point : string -> option Config.Point;
  e_config_json : option Config.Switch -> string; e_config_yaml : option Config.Switch -> string;
  e_denied : string -> bool; e_version : sVersion.t; e_render : option string -> sIndex.t -> string;
  e_pprof : string -> request -> response; e_url : request -> string -> string
}.
Context (E : env) (now : Z).

Definition entries {A} (m : SafeStrMap.t A) : list (string * option A) := e_order E _ (SafeStrMap.data m).
Definition values {A} (m : SafeStrMap.t A) : list A := (SafeStrMap.visited (entries m)).*2.

(** ** Users (user.go) *)

(** The file is written if there is one. *)
Definition save_users (st : state) : state :=
  let w := w_users (st_world st) in
  match UserCache.Save (e_fmt_lease E) w (entries (Users w)) with
  | None => st
  | Some text => if e_denied E (File w) then st else set_files st (<[File w := text]> (st_files st))
  end.

Definition user_List (st : state) : state * response :=
  let users := map (NewUserSchema (e_fmt_lease E)) (values (Users (w_users (st_world st)))) in
  let key u := (sUser.Network u +:+ sUser.Name u)%string in
  (st, ResponseJson (JArr (map sUser.json (SliceStable (fun a b => str_gt (key a) (key b)) users)))).

Definition user_Get (st : state) (id : string) : state * response :=
  match UserCache.Get (w_users (st_world st)) id with
  | Some u => (st, ResponseJson (sUser.json (NewUserSchema (e_fmt_lease E) u)))
  | None => (st, Error id StatusNotFound)
  end.

(** Reading the body and decoding it. *)
Definition read_body {A} (q : request) (parse : string -> option A) : A + response :=
  match q_Body q with
  | None => inr (Error (e_read_error E) StatusInternalServerError)
  | Some body => match parse body with
                 | None => inr (Error (e_json_error E body) StatusInternalServerError)
                 | Some a => inl a
                 end
  end.

Definition user_Add (st : state) (q : request) : state * response :=
  match read_body q sUser.parse with
  | inr r => (st, r)
  | inl u =>
      let st := set_users st (UserCache.Add (w_users (st_world st)) (SchemaToUserModel (e_parse_lease E) now u)) in
      (save_users st, ResponseMsg 0 "")
  end.

Definition user_Del (st : state) (id : string) : state * response :=
  let st := set_users st (UserCache.Del (w_users (st_world st)) id) in
  (save_users st, ResponseMsg 0 "").

Definition user_Check (st : state) (q : request) : state * response :=
  match read_body q sUser.parse with
  | inr r => (st, r)
  | inl u =>
      let obj := SchemaToUserModel (e_parse_lease E) now u in
      let '(w, r) := UserCache.Check (e_dial E) (w_users (st_world st)) obj (e_tz E) now in
      let st := set_users st w in
      match r with
      | inl _ => (st, ResponseMsg 0 "success")
      | inr e => (st, Error (err_format e) StatusUnauthorized)
      end
  end.

(** ** Points, networks and leases (point.go, network.go, lease.go) *)

Definition refresh_point (st : state) : Point.t -> Point.t := refresh (st_world st) (dev_name (st_switch st)) now.
Definition point_schema (st : state) (p : Point.t) : go sPoint.t :=
  NewPointSchema (w_clients (st_world st) !! Point.Client p)
    (d ← Point.Device p; dev ← pl_devs (st_plant st) !! d; Some (name dev)) now p.

Fixpoint go_map {A B} (f : A -> go B) (l : list A) : go (list B) :=
  match l with
  | [] => Ret []
  | a :: l => b ← f a; bs ← go_map f l; Ret (b :: bs)
  end.

(** The iteration brings every point up to date. *)
Definition refresh_points (st : state) : state :=
  let p := w_points (st_world st) in
  set_world st (upd_points (st_world st)
    {| PointCache.Clients := SafeStrMap.upd (PointCache.Clients p)
         (option_map (refresh_point st) <$> SafeStrMap.data (PointCache.Clients p));
       PointCache.UUIDAddr := PointCache.UUIDAddr p; PointCache.AddrUUID := PointCache.AddrUUID p |}).
Definition list_points (st : state) : go (state * list sPoint.t) :=
  let st' := refresh_points st in
  ps ← go_map (point_schema st') (values (PointCache.Clients (w_points (st_world st'))));
  Ret (st', ps).

Definition point_List (st : state) : go (state * response) :=
  r ← list_points st;
  Ret (r.1, ResponseJson (JArr (map sPoint.json r.2))).
Definition point_Get (st : state) (id : string) : go (state * response) :=
  let '(ps, p) := PointCache.Get (refresh_point st) (w_points (st_world st)) id in
  let st := set_world st (upd_points (st_world st) ps) in
  match p with
  | Some p => s ← point_schema st p; Ret (st, ResponseJson (sPoint.json s))
  | None => Ret (st, Error id StatusNotFound)
  end.

Definition network_List (st : state) : state * response :=
  (st, ResponseJson (JArr (map (fun n => sNetwork.json (NewNetworkSchema n)) (values (Networks (w_nets (st_world st))))))).
Definition network_Get (st : state) (id : string) : state * response :=
  match NetCache.Get (w_nets (st_world st)) id with
  | Some n => (st, ResponseJson (sNetwork.json (NewNetworkSchema n)))
  | None => (st, Error id StatusNotFound)
  end.
Definition before_colon (host : string) : string := default ""%string (SplitN host char_colon 2 !! 0%nat).
(** The profile is written as it is; the type is what net/http makes of it. *)
Definition network_Profile (st : state) (q : request) (id ie : string) : state * response :=
  match GetClientProfile (st_files st) id ie (before_colon (q_Host q)) with
  | Some data => (st, {| p_Code := 200; p_Headers := []; p_Body := data |})
  | None => (st, Error (e_file_error E (VpnClients.Dir [id; (ie +:+ "client.ovpn")%string])) StatusNotFound)
  end.

Definition lease_List (st : state) : state * response :=
  let w := w_nets (st_world st) in
  (st, ResponseJson (JArr (map lease_json (ListLease w (entries (UUID w)))))).

(** ** Links, neighbors and traffic (link.go, neighbor.go, online.go) *)

Definition link_schema : LinkCache.Link -> sLink.t := NewLinkSchema (e_load_status E).
Definition link_List (st : state) : state * response :=
  (st, ResponseJson (JArr (map (fun l => sLink.json (link_schema l)) (values (st_links st))))).
Definition link_Get (st : state) (id : string) : state * response :=
  match LinkCache.Get (st_links st) id with
  | Some l => (st, ResponseJson (sLink.json (link_schema l)))
  | None => (st, Error id StatusNotFound)
  end.
(** [e_point] decodes the body into a point's configuration and gives it its defaults. *)
Definition link_Add (st : state) (q : request) : state * response :=
  match read_body q (e_point E) with
  | inr r => (st, r)
  | inl c => (set_ctl st (st_esp st) (sw_AddLink (pt_Network c) c (st_ctl st)), ResponseMsg 0 "")
  end.
Definition link_Del (st : state) (id : string) : state * response :=
  (set_ctl st (st_esp st) (sw_DelLink "" id (st_ctl st)), ResponseMsg 0 "").

Definition neighbor_List (st : state) : state * response :=
  (st, ResponseJson (JArr (map (fun n => sNeighbor.json (NewNeighborSchema now n)) (values (w_neighbors (st_world st)))))).
Definition online_List (st : state) : state * response :=
  (st, ResponseJson (JArr (map (fun l => sOnLine.json (NewOnLineSchema now l)) (values (w_lines (st_world st)))))).

(** ** Connections and devices (server.go, device.go) *)

(** The keys of a map are sorted. *)
Definition stats_json (m : SafeStrInt64.t) : json :=
  JObj (map (fun e => (e.1, JInt e.2)) (merge_sort (fun a b => String.leb a.1 b.1 = true) (map_to_list m))).
Definition connection_json (server : SocketServerImpl) (c : nat) (cl : Apps.Client) : json :=
  JObj (jint "uptime" (Socket.UpTime cl now) ++ jstr "localAddr" (localAddr cl) ++
        jstr "remoteAddr" (Socket.RemoteAddr server c) ++ [("statistic"%string, stats_json (Statistics cl))]).
Definition server_List (st : state) : state * response :=
  let server := sw_Server (st_ctl st) in
  let conns := omap (fun c => cl ← sw_Clients (st_ctl st) !! c; Some (connection_json server c cl)) (values (clients server)) in
  (st, ResponseJson (JObj (jint "uptime" (sw_UpTime (st_ctl st) now) ++ jint "total" (TotalClient server) ++
     [("statistic"%string, stats_json (ss_statistics server)); ("connection"%string, JArr conns)]))).

Definition tap_schema (t : VirtualTap) : sDevice.t :=
  {| sDevice.Name := name t; sDevice.Address := ""; sDevice.Mac := ""; sDevice.Type_ := "";
     sDevice.Provider := ProviderVir; sDevice.Mtu := ifMtu t |}.
Definition bridge_schema (b : VirtualBridge) : sDevice.t :=
  {| sDevice.Name := br_name b; sDevice.Address := ""; sDevice.Mac := ""; sDevice.Type_ := "";
     sDevice.Provider := ProviderVir; sDevice.Mtu := ipMtu b |}.

(** The registry of bridges (network/bridger.go). *)
Definition bridges_Add (m : gmap string bridge_id) (nm : string) (b : bridge_id) : gmap string bridge_id := <[nm := b]> m.
Definition bridges_Del (m : gmap string bridge_id) (nm : string) : gmap string bridge_id := delete nm m.
Definition bridges_Get (st : state) (nm : string) : option VirtualBridge :=
  b ← st_bridges st !! nm; pl_bridges (st_plant st) !! b.
Definition bridges_List (st : state) : list VirtualBridge :=
  omap (fun e => pl_bridges (st_plant st) !! e.2) (e_order E _ (st_bridges st)).

Definition taps_List (st : state) : list VirtualTap :=
  omap (fun e => pl_devs (st_plant st) !! e.2) (e_order E _ (tp_devices (pl_taps (st_plant st)))).
Definition device_List (st : state) : state * response :=
  (st, ResponseJson (JArr (map sDevice.json (map tap_schema (taps_List st) ++ map bridge_schema (bridges_List st))))).

Definition ListMac (b : VirtualBridge) : list MacFdb := (e_order E _ (macs b)).*2.
Definition ListSlave (st : state) (b : VirtualBridge) : list VirtualTap :=
  omap (fun e => pl_devs (st_plant st) !! e.2) (e_order E _ (ports b)).
Definition mac_schema (st : state) (m : MacFdb) : sHwMac.t :=
  {| sHwMac.Uptime := now - Bridge.Uptime m; sHwMac.Address := hw_string (Bridge.Address m);
     sHwMac.Device := dev_name (st_switch st) (Bridge.Device m) |}.
Definition device_stats_json (s : DeviceStats) : json :=
  JObj (jint "send" (st_Send s) ++ jint "recv" (st_Recv s) ++ jint "drop" (st_Drop s)).
Definition device_Get (st : state) (id : string) : state * response :=
  match d ← tp_Get (pl_taps (st_plant st)) id; pl_devs (st_plant st) !! d with
  | Some dev => (st, ResponseJson (sDevice.json (tap_schema dev)))
  | None =>
      match bridges_Get st id with
      | Some br =>
          (st, ResponseJson (sBridge.json
             {| sBridge.Device := bridge_schema br; sBridge.Macs := map (mac_schema st) (ListMac br);
                sBridge.Slaves := map tap_schema (ListSlave st br); sBridge.Stats := device_stats_json (br_sts br) |}))
      | None => (st, Error id StatusNotFound)
      end
  end.

(** ** VPN clients, associations, profiling (openvpn.go, esp.go, vxlan.go, pprof.go) *)

Definition vpn_clients (st : state) (network : string) : go (list schema.VPNClient) :=
  m ← readStatus (st_nets st) (e_parse_time E) now (st_files st) network;
  Ret (e_order E _ m).*2.
Fixpoint go_concat {A B} (f : A -> go (list B)) (l : list A) : go (list B) :=
  match l with
  | [] => Ret []
  | a :: l => b ← f a; bs ← go_concat f l; Ret (b ++ bs)
  end.
Definition vpn_List (st : state) (id : string) : go (state * response) :=
  cs ← (if String.eqb id ""
        then go_concat (fun n => vpn_clients st (Models.Network.Name n)) (values (Networks (w_nets (st_world st))))
        else vpn_clients st id);
  Ret (st, ResponseJson (JArr (map vpn_json cs))).

Definition esp_List (st : state) : state * response :=
  (st, ResponseJson (JArr (map (fun e => sEsp.json (NewEspSchema e)) (values (t_esp (st_esp st)))))).

(** Listing brings the counters of the rows up to date, and showing a row once more. *)
Definition update_counters (c : gmap string counters) (r : StateRow) : gmap string counters :=
  <[state_ID r := state_Update (e_xfrm E) now r (default no_counters (c !! state_ID r))]> c.
Definition list_states (st : state) (id : string) : state * list sEspState.t :=
  let rows := state_List id (entries (t_state (st_esp st))) in
  let c := foldl update_counters (st_counters st) rows in
  (set_counters st c, map (fun r => NewEspStateSchema r (default no_counters (c !! state_ID r))) rows).
Definition state_Handler (st : state) (id : string) : state * response :=
  let '(st, l) := list_states st id in (st, ResponseJson (JArr (map sEspState.json l))).
Definition policy_Handler (st : state) (id : string) : state * response :=
  (st, ResponseJson (JArr (map (fun p => sEspPolicy.json (NewEspPolicySchema p)) (policy_List id (entries (t_policy (st_esp st))))))).
Definition vxlan_List (st : state) : state * response := (st, ResponseJson JNull).

(** [PProf.Start] (libol/go.go) listens in another goroutine, which reports a failure. *)
Definition pprof_Start (listen : string) : string := if String.eqb listen "" then "localhost:6060"%string else listen.
Definition pprof_Get (st : state) : state * response := (st, ResponseJson (sPProf.json {| sPProf.Listen := st_pprof st |})).
Definition pprof_Add (st : state) (q : request) : state * response :=
  match q_Body q with
  | None => (st, Error (e_read_error E) StatusInternalServerError)
  | Some body =>
      if negb (String.eqb (st_pprof st) "") && negb (st_pprof_failed st)
      then (st, Error ("already listen on " +:+ st_pprof st)%string StatusConflict)
      else match sPProf.parse body with
           | None => (st, Error (e_json_error E body) StatusInternalServerError)
           | Some pp => (set_pprof st (pprof_Start (sPProf.Listen pp)) (st_pprof_failed st), ResponseMsg 0 "")
           end
  end.

(** ** The configuration (config.go) *)

Definition config_List (st : state) (q : request) : state * response :=
  let c := sw_Config (st_ctl st) in
  if String.eqb (GetQueryOne q "format") "yaml"
  then (st, okay "application/yaml" (e_config_yaml E c))
  else (st, okay "application/json" (e_config_json E c)).
Definition config_Reload (st : state) : go (state * response) :=
  r ← sw_Reload (st_ctl st) (st_esp st);
  Ret (set_ctl st r.2 r.1, ResponseMsg 0 "success").
Definition config_Save (st : state) : go (state * response) :=
  f ← sw_Save (st_ctl st) (st_files st);
  Ret (set_files st f, ResponseMsg 0 "success").

Definition NewWorkerSchema (st : state) : state * sWorker.t :=
  let '(c, uuid) := sw_UUID (st_ctl st) in
  (set_ctl st (st_esp st) c,
   {| sWorker.Uptime := sw_UpTime c now; sWorker.UUID := uuid; sWorker.Alias := sw_Alias c;
      sWorker.Protocol := match sw_Config c with Some cfg => Config.sw_Protocol cfg | None => ""%string end |}).

End api.
Arguments state : clear implicits.
