(* ===== verification/Node.v ===== *)
(** * A switch as a whole (pkg/olsw/switch.go, network.go)

    The server a configuration asks for, the workers of all kinds, and the operations of
    the switch that the API calls: its identity, [Reload] and [Save]. *)

From S2P Require Import Prelude GoStd Protocol SafeMap Tap Bridge FireWall Models UserCache NetCache Cache Socket Apps Switch Rules.
From S2P Require Import Utils Config OpenLAN Esp Fabric Vpn VpnClients Worker ConfigFiles Schema Api.

Local Open Scope Z_scope.

(** ** The server for points *)

(** Kcp servers share one configuration, of which the two are set; a key pair that cannot
    be loaded gives no certificate. *)
Inductive transport :=
| Kcp
| Tcp (keys : option (string * string))
| Udp
| Web (cert : option (string * string)).
(** [sv_WrQus] is the size of the queues of frames, [sv_RdQus] nobody reads. *)
Record server := {
  sv_transport : transport; sv_Block : option BlockCrypt; sv_Timeout : Z; sv_RdQus : Z; sv_WrQus : Z; sv_impl : SocketServerImpl
}.
Definition seconds (n : Z) : Z := wrap64s (n * 1000000000).
Definition GetTlsCfg (loads : string -> string -> bool) (c : Cert) : option (string * string) :=
  if String.eqb (KeyFile c) "" || String.eqb (CrtFile c) "" then None
  else if loads (CrtFile c) (KeyFile c) then Some (CrtFile c, KeyFile c) else None.
Definition GetSocketServer (loads : string -> string -> bool) (s : Config.Switch) : server :=
  let make t rd wr :=
    {| sv_transport := t; sv_Block := GetBlock (sw_Crypt s); sv_Timeout := seconds (sw_Timeout s);
       sv_RdQus := rd; sv_WrQus := wr; sv_impl := NewSocketServer (sw_Listen s) |} in
  let rd := SockRd (sw_Queue s) in
  let wr := SockWr (sw_Queue s) in
  if String.eqb (sw_Protocol s) "kcp" then make Kcp 0 1024
  else if String.eqb (sw_Protocol s) "tcp" then make (Tcp None) rd wr
  else if String.eqb (sw_Protocol s) "udp" then make Udp 0 1024
  else if String.eqb (sw_Protocol s) "ws" then make (Web None) rd wr
  else if String.eqb (sw_Protocol s) "wss" then
    make (Web (option_map (fun c => (CrtFile c, KeyFile c)) (sw_Cert s))) rd wr
  else make (Tcp (c ← sw_Cert s; GetTlsCfg loads c)) rd wr.

(** ** Workers *)

Inductive Networker :=
| WEsp (w : EspWorker)
| WVxLAN (c : Config.Network)
| WFabric (w : FabricWorker)
| WLan (l : lan).

Definition NewNetworker (c : Config.Network) (t : OpenLAN.tables) (taps : Tap.tapers) (h : host) : go Networker :=
  match OpenLAN.NewNetworker (net_Provider c) with
  | OpenLAN.ESPWorker => Ret (WEsp (NewESPWorker c))
  | OpenLAN.VxLANWorker => Ret (WVxLAN c)
  | OpenLAN.FabricWorker => w ← NewFabricWorker c; Ret (WFabric w)
  | OpenLAN.OpenLANWorker => Ret (WLan (NewLan c t taps h))
  end.

Section node.
(** The kernel's packet filter; what it refuses to the IPsec workers; the order of maps;
    the identity [GenRandom] makes; what cannot be written, and the codec of the files. *)
Context {K : Type} `{HK : Iptables K} (linux : bool).
Context (has link_ok : string -> bool) (addr_ok : string -> string -> bool).
Context (order : gmap string Networker -> list (string * Networker)) (random : string).
Context (denied : string -> bool) (C : codec).

(** The switch; [n_kernel] is the filter of the kernel and [n_asked] what was asked of it
    for associations. *)
Record node := {
  n_cfg : Config.Switch; n_firewall : FireWall; n_kernel : K; n_worker : gmap string Networker;
  n_uuid : string; n_newTime : Z; n_server : SocketServerImpl; n_clients : gmap nat Apps.Client; n_asked : list Esp.request
}.
Definition set_uuid (v : node) (u : string) : node :=
  {| n_cfg := n_cfg v; n_firewall := n_firewall v; n_kernel := n_kernel v; n_worker := n_worker v;
     n_uuid := u; n_newTime := n_newTime v; n_server := n_server v; n_clients := n_clients v; n_asked := n_asked v |}.
Definition set_reloaded (v : node) (k : K) (ws : gmap string Networker) (rs : list Esp.request) : node :=
  {| n_cfg := n_cfg v; n_firewall := n_firewall v; n_kernel := k; n_worker := ws;
     n_uuid := n_uuid v; n_newTime := n_newTime v; n_server := n_server v; n_clients := n_clients v; n_asked := n_asked v ++ rs |}.

(** ** Identity *)

Definition UUID (v : node) : node * string :=
  let v := if String.eqb (n_uuid v) "" then set_uuid v random else v in (v, n_uuid v).
Definition UpTime (v : node) (now : Z) : Z := now - n_newTime v.
Definition Alias (v : node) : string := Config.sw_Alias (n_cfg v).
Definition Protocol (v : node) : string := Config.sw_Protocol (n_cfg v).
(** The configuration is the process's. *)
Definition Config_ (v : node) : option Config.Switch := Some (n_cfg v).

(** ** Links are not added to a running switch *)

Definition AddLink (tenant : string) (c : Config.Point) (v : node) : node := v.
Definition DelLink (tenant addr : string) (v : node) : node := v.

(** ** Reload *)

(** Of the workers only those for IPsec do anything. *)
Definition reload_one (w : Networker) (t : Esp.tables) : go (Networker * Esp.tables * list Esp.request) :=
  match w with
  | WEsp e => r ← esp_Reload has link_ok addr_ok e t; Ret (WEsp r.1.1, r.1.2, r.2)
  | _ => Ret (w, t, [])
  end.
Fixpoint reload_each (ws : list (string * Networker)) (m : gmap string Networker) (t : Esp.tables)
    : go (gmap string Networker * Esp.tables * list Esp.request) :=
  match ws with
  | [] => Ret (m, t, [])
  | (nm, w) :: ws =>
      r ← reload_one w t;
      r2 ← reload_each ws (<[nm := r.1.1]> m) r.1.2;
      Ret (r2.1, r.2 ++ r2.2)
  end.
(** The firewall is started again in another goroutine, which catches a panic: the rules
    before the one that cannot be written are installed. *)
Fixpoint rules_caught (rs : IpRules) (k : K) : K :=
  match rs with
  | [] => k
  | r :: rs => match rule_Opr linux r (rule_order r) k with Panic => k | Ret ke => rules_caught rs ke.1 end
  end.
Definition install_caught (f : FireWall) (k : K) : K := rules_caught (rules f) (each_chain linux "-N" (chains f) k).
Definition Reload (v : node) (t : Esp.tables) : go (node * Esp.tables) :=
  r ← reload_each (order (n_worker v)) (n_worker v) (policy_Clear (state_Clear t));
  Ret (set_reloaded v (install_caught (n_firewall v) (n_kernel v)) r.1.1 r.2, r.1.2).

Definition Save (v : node) (files : fs) : go fs := switch_Save denied C (n_cfg v) files.

(** What the handlers of the API need. *)
#[export] Instance node_switcher : Switcher node := {|
  sw_UUID := UUID; sw_UpTime := UpTime; sw_Alias := Alias; sw_Config := Config_; sw_Server := n_server;
  sw_Clients := n_clients; sw_AddLink := AddLink; sw_DelLink := DelLink; sw_Reload := Reload; sw_Save := Save
|}.

Lemma install_caught_ret f k k' : FireWall.Start linux f k = Ret k' -> install_caught f k = k'.
Proof.
  unfold FireWall.Start, FireWall.install, install_caught. generalize (each_chain linux "-N" (chains f) k) as k0.
  induction (rules f) as [|r rs IH]; intros k0; [by intros [= ->]|]. cbn [each_rule rules_caught].
  destruct (rule_Opr linux r (rule_order r) k0) as [ke|]; [|done]. apply IH.
Qed.

(** ** The rows a configuration asks for *)

Definition state_rows (s : ESPSpecifies) : list StateRow :=
  omap (fun m => mem ← m; if has_ips mem then Some (state_row (esp_Name s) mem) else None) (esp_Members s).
Definition member_policy_rows (name : string) (mem : ESPMember) : list PolicyRow :=
  omap (fun p => pol ← p; src ← ParseNet (pol_Source pol); dst ← ParseNet (pol_Dest pol); Some (policy_row name mem pol))
    (mem_Policies (fill_member mem)).
Definition spec_policy_rows (s : ESPSpecifies) : list PolicyRow :=
  concat (map (fun m => match m with Some mem => if has_ips mem then member_policy_rows (esp_Name s) mem else [] | None => [] end)
    (esp_Members s)).
Definition of_workers {A} (f : ESPSpecifies -> list A) (ws : list (string * Networker)) : list A :=
  concat (map (fun e => match e.2 with WEsp w => match ew_spec w with Some s => f s | None => [] end | _ => [] end) ws).

Definition add_rows {A} (key : A -> string) (m : SafeStrMap.t A) (rs : list A) : SafeStrMap.t A :=
  foldl (fun m r => (SafeStrMap.Set_ m (key r) (Some r)).1) m rs.

Lemma add_rows_in {A} (key : A -> string) rs : forall m k v,
  SafeStrMap.data (add_rows key m rs) !! k = Some v ->
  SafeStrMap.data m !! k = Some v \/ exists r, r ∈ rs /\ k = key r /\ v = Some r.
Proof.
  induction rs as [|r rs IH]; intros m k v; [by left|]. cbn [add_rows foldl]. intros H. destruct (IH _ _ _ H) as [H1|(r1 & ? & ? & ?)].
  - unfold SafeStrMap.Set_, SafeStrMap.add in H1. destruct (SafeStrMap.full m); [by left|].
    destruct (SafeStrMap.data m !! key r); [by left|]. cbn in H1. apply lookup_insert_Some in H1 as [[<- <-]|[_ H1]]; [|by left].
    right. exists r. split; [left|done].
  - right. exists r1. split; [by right|done].
Qed.
Lemma add_rows_size {A} (key : A -> string) rs : forall m, SafeStrMap.size (add_rows key m rs) = SafeStrMap.size m.
Proof.
  induction rs as [|r rs IH]; intros m; [done|]. cbn [add_rows foldl]. etransitivity; [apply IH|].
  unfold SafeStrMap.Set_, SafeStrMap.add. destruct (SafeStrMap.full m), (SafeStrMap.data m !! key r); done.
Qed.
Lemma add_rows_all {A} (key : A -> string) rs : forall m,
  SafeStrMap.size m = 0 \/ SafeStrMap.Len m + zlen rs <= SafeStrMap.size m ->
  (forall k, is_Some (SafeStrMap.data m !! k) -> is_Some (SafeStrMap.data (add_rows key m rs) !! k)) /\
  forall r, r ∈ rs -> is_Some (SafeStrMap.data (add_rows key m rs) !! key r).
Proof.
  induction rs as [|r rs IH]; intros m Hr; [split; [done|by intros r ?%not_elem_of_nil]|]. cbn [add_rows foldl].
  set (m1 := (SafeStrMap.Set_ m (key r) (Some r)).1).
  assert (Hm1 : (forall k, is_Some (SafeStrMap.data m !! k) -> is_Some (SafeStrMap.data m1 !! k)) /\
    is_Some (SafeStrMap.data m1 !! key r) /\ (SafeStrMap.size m1 = 0 \/ SafeStrMap.Len m1 + zlen rs <= SafeStrMap.size m1)).
  { unfold zlen in *. cbn [length] in Hr. subst m1. unfold SafeStrMap.Set_, SafeStrMap.add. rewrite (proj2 (full_false m)) by (destruct Hr; [by left|right; lia]).
    destruct (SafeStrMap.data m !! key r) as [x|] eqn:E; cbn.
    - split; [done|]. split; [by rewrite E|]. destruct Hr; [by left|right; lia].
    - rewrite lookup_insert_eq. split; [|split; [done|]].
      + intros k Hk. destruct (decide (key r = k)) as [<-|Hne]; [by rewrite lookup_insert_eq|by rewrite lookup_insert_ne].
      + destruct Hr as [?|Hr]; [by left|right]. unfold SafeStrMap.Len in *. cbn. rewrite map_size_insert_None by done. lia. }
  destruct Hm1 as (H1 & H2 & H3). destruct (IH m1 H3) as [H4 H5]. split; [intros k Hk; by apply H4, H1|].
  intros r' [->|Hr']%elem_of_cons; [by apply H4|by apply H5].
Qed.

(** The tables of one worker. *)
Lemma addPolicies_rows name mem ps : forall wt : EspWorker * Esp.tables,
  let t' := (foldl (fun wt p => match p with Some p => addPolicy name wt mem p | None => wt end) wt ps).2 in
  t_esp t' = t_esp wt.2 /\ t_state t' = t_state wt.2 /\
  t_policy t' = add_rows policy_ID (t_policy wt.2)
    (omap (fun p => pol ← p; src ← ParseNet (pol_Source pol); dst ← ParseNet (pol_Dest pol); Some (policy_row name mem pol)) ps).
Proof.
  induction ps as [|p ps IH]; intros wt; [done|]. cbn [foldl]. set (wt1 := match p with Some _ => _ | None => _ end).
  destruct (IH wt1) as (-> & -> & ->). subst wt1. destruct p as [p|]; [|done]. unfold addPolicy. cbn.
  by destruct (ParseNet (pol_Source p)), (ParseNet (pol_Dest p)).
Qed.
Lemma update_members_rows s ms : forall wt : EspWorker * Esp.tables,
  let t' := (foldl (update_one (esp_Name s)) wt ms).2 in
  t_esp t' = t_esp wt.2 /\
  t_state t' = add_rows state_ID (t_state wt.2) (state_rows (set_members s ms)) /\
  t_policy t' = add_rows policy_ID (t_policy wt.2) (spec_policy_rows (set_members s ms)).
Proof.
  induction ms as [|m ms IH]; intros wt; [done|]. cbn [foldl]. destruct (IH (update_one (esp_Name s) wt m)) as (-> & -> & ->).
  destruct m as [mem|]; [|done].
  assert (Es : state_rows (set_members s (Some mem :: ms)) =
    (if has_ips mem then [state_row (esp_Name s) mem] else []) ++ state_rows (set_members s ms))
    by (unfold state_rows; cbn; by destruct (has_ips mem)).
  assert (Ep : spec_policy_rows (set_members s (Some mem :: ms)) =
    (if has_ips mem then member_policy_rows (esp_Name s) mem else []) ++ spec_policy_rows (set_members s ms)) by done.
  rewrite Es, Ep. cbn [update_one]. destruct (has_ips mem); [|done]. unfold update_member.
  destruct (addPolicies_rows (esp_Name s) (fill_member mem) (mem_Policies (fill_member mem)) (addState (esp_Name s) wt (fill_member mem)))
    as (-> & -> & ->). split; [done|]. split; [done|]. unfold add_rows. by rewrite foldl_app.
Qed.
Lemma esp_Reload_rows e t e' t' rs s :
  esp_Reload has link_ok addr_ok e t = Ret (e', t', rs) -> ew_spec e = Some s ->
  t_esp t' = t_esp t /\ t_state t' = add_rows state_ID (t_state t) (state_rows s) /\
  t_policy t' = add_rows policy_ID (t_policy t) (spec_policy_rows s).
Proof.
  unfold esp_Reload, updateXfrm. cbn [delXfrm set_xfrm ew_spec]. intros H Hs. rewrite Hs in H.
  pose proof (update_members_rows s (esp_Members s) (set_xfrm e [] [], t)) as Hr. cbv zeta in Hr. cbn [snd] in Hr.
  unfold set_xfrm in Hr. rewrite Hs in Hr.
  unfold set_xfrm in H. rewrite Hs in H. revert Hr H. destruct (foldl (update_one (esp_Name s)) _ _) as [w1 t1]. intros Hr H.
  cbn [mbind go_bind set_spec ew_spec snd] in *.
  apply go_bind_ret in H as (ds & _ & [= _ <- _]). by destruct s.
Qed.

(** ** What reloading does to a worker *)

Definition in_step (w w' : Networker) : Prop :=
  match w with
  | WEsp e => exists e' s, w' = WEsp e' /\ ew_spec e = Some s /\
                ew_states e' = wanted_states (esp_Members s) /\ ew_policies e' = wanted_policies (esp_Members s)
  | _ => w' = w
  end.

Lemma reload_one_spec w t w' t' rs :
  reload_one w t = Ret (w', t', rs) ->
  in_step w w' /\ t_esp t' = t_esp t /\
  forall nm, t_state t' = add_rows state_ID (t_state t) (of_workers state_rows [(nm, w)]) /\
    t_policy t' = add_rows policy_ID (t_policy t) (of_workers spec_policy_rows [(nm, w)]).
Proof.
  destruct w as [e| | |]; cbn [reload_one]; try (intros [= <- <- <-]; done).
  intros H. apply go_bind_ret in H as ([[e' t1] rs1] & H & [= <- <- <-]). cbn [fst snd].
  destruct (ew_spec e) as [s|] eqn:Es.
  2:{ unfold esp_Reload, updateXfrm in H. cbn [delXfrm set_xfrm ew_spec] in H. by rewrite Es in H. }
  destruct (esp_Reload_rows _ _ _ _ _ _ H Es) as (H1 & H2 & H3).
  split; [|split; [done|]].
  - unfold esp_Reload in H. cbn [delXfrm] in H. destruct (updateXfrm_spec (set_xfrm e [] []) t s Es) as (w1 & t2 & Hu & Hst & Hpo & _).
    rewrite Hu in H. cbn [mbind go_bind] in H. apply go_bind_ret in H as (ds & _ & [= <- _ _]). by exists w1, s.
  - intros nm. unfold of_workers. cbn [map concat snd]. by rewrite Es, !app_nil_r.
Qed.

Lemma of_workers_cons {A} (f : ESPSpecifies -> list A) e ws : of_workers f (e :: ws) = of_workers f [e] ++ of_workers f ws.
Proof. unfold of_workers. cbn [map concat]. by rewrite app_nil_r. Qed.
Lemma add_rows_app {A} (key : A -> string) m rs1 rs2 : add_rows key m (rs1 ++ rs2) = add_rows key (add_rows key m rs1) rs2.
Proof. apply foldl_app. Qed.

Lemma reload_each_spec ws : forall m t m' t' rs,
  NoDup ws.*1 -> reload_each ws m t = Ret (m', t', rs) ->
  (forall nm, nm ∉ ws.*1 -> m' !! nm = m !! nm) /\
  (forall nm w, (nm, w) ∈ ws -> exists w', m' !! nm = Some w' /\ in_step w w') /\
  t_esp t' = t_esp t /\ t_state t' = add_rows state_ID (t_state t) (of_workers state_rows ws) /\
  t_policy t' = add_rows policy_ID (t_policy t) (of_workers spec_policy_rows ws).
Proof.
  induction ws as [|[nm w] ws IH]; intros m t m' t' rs Hnd H.
  { injection H as <- <- <-. split; [done|]. split; [by intros nm w ?%not_elem_of_nil|done]. }
  rewrite fmap_cons in Hnd. apply NoDup_cons in Hnd as [Hni Hnd]. cbn [reload_each] in H.
  apply go_bind_ret in H as ([[w1 t1] rs1] & H1 & H). apply go_bind_ret in H as ([[m2 t2] rs2] & H2 & [= <- <- <-]).
  destruct (reload_one_spec _ _ _ _ _ H1) as (Hs & E1 & Hrows). destruct (Hrows nm) as [E2 E3].
  destruct (IH _ _ _ _ _ Hnd H2) as (Ho & Hin & -> & -> & ->). cbn [fst snd] in *.
  rewrite E1, E2, E3, (of_workers_cons state_rows (nm, w) ws), (of_workers_cons spec_policy_rows (nm, w) ws), !add_rows_app. split; [|split; [|done]].
  - intros nm' Hn. rewrite fmap_cons in Hn. apply not_elem_of_cons in Hn as [Hn1 Hn2]. rewrite Ho by done. by apply lookup_insert_ne.
  - intros nm' w' [[= -> ->]|Hw]%elem_of_cons; [|by apply Hin]. exists w1. split; [|done]. rewrite Ho by done. apply lookup_insert_eq.
Qed.
End node.
Arguments node : clear implicits.

(** ** Theorems *)

(** (C28) Reloading puts the switch in step with its configuration: the tables of associations
    and policies then show exactly what the configured members ask for, whatever they held
    before; while there is room for all of it nothing is missing; each IPsec worker keeps
    just the associations and policies of its members; and the other workers, the other
    table and the configuration stay as they were. *)
Theorem reload_shows_configuration {K} `{HK : Iptables K} linux has link_ok addr_ok order (v v' : node K) (t t' : Esp.tables) :
  (forall m, order m ≡ₚ map_to_list m) -> Reload linux has link_ok addr_ok order v t = Ret (v', t') ->
  let states := of_workers state_rows (order (n_worker v)) in
  let policies := of_workers spec_policy_rows (order (n_worker v)) in
  (forall k x, SafeStrMap.data (t_state t') !! k = Some x -> exists r, r ∈ states /\ k = state_ID r /\ x = Some r) /\
  (forall k x, SafeStrMap.data (t_policy t') !! k = Some x -> exists r, r ∈ policies /\ k = policy_ID r /\ x = Some r) /\
  (SafeStrMap.size (t_state t) = 0 \/ zlen states <= SafeStrMap.size (t_state t) ->
     forall r, r ∈ states -> is_Some (SafeStrMap.data (t_state t') !! state_ID r)) /\
  (SafeStrMap.size (t_policy t) = 0 \/ zlen policies <= SafeStrMap.size (t_policy t) ->
     forall r, r ∈ policies -> is_Some (SafeStrMap.data (t_policy t') !! policy_ID r)) /\
  (forall nm w, n_worker v !! nm = Some w -> exists w', n_worker v' !! nm = Some w' /\ in_step w w') /\
  t_esp t' = t_esp t /\ n_cfg v' = n_cfg v /\ n_firewall v' = n_firewall v.
Proof.
  intros Hord H states policies. unfold Reload in H. apply go_bind_ret in H as ([[m t1] rs] & H & H2).
  injection H2 as <- <-.
  assert (Hnd : NoDup (order (n_worker v)).*1) by (rewrite Hord; apply NoDup_fst_map_to_list).
  destruct (reload_each_spec has link_ok addr_ok _ _ _ _ _ _ Hnd H) as (_ & Hin & E1 & E2 & E3). cbn [fst snd] in *.
  assert (Hempty : forall A (m : SafeStrMap.t A), SafeStrMap.Len (SafeStrMap.Clear m) = 0).
  { intros A m0. unfold SafeStrMap.Len. cbn. by rewrite map_size_empty. }
  rewrite E2, E3. split; [|split; [|split; [|split; [|split; [|done]]]]].
  - intros key x Hx. apply add_rows_in in Hx as [Hx|(r & ? & ? & ?)]; [|by exists r].
    by cbn [state_Clear policy_Clear t_state t_policy SafeStrMap.Clear SafeStrMap.upd SafeStrMap.data] in Hx.
  - intros key x Hx. apply add_rows_in in Hx as [Hx|(r & ? & ? & ?)]; [|by exists r].
    by cbn [state_Clear policy_Clear t_state t_policy SafeStrMap.Clear SafeStrMap.upd SafeStrMap.data] in Hx.
  - intros Hr. apply add_rows_all. cbn [state_Clear policy_Clear t_state]. by rewrite Hempty.
  - intros Hr. apply add_rows_all. cbn [state_Clear policy_Clear t_policy]. by rewrite Hempty.
  - intros nm w Hw. apply Hin. rewrite Hord. by apply elem_of_map_to_list.
Qed.

(** ** Examples *)

Definition demo_node : node FireWall.tables :=
  {| n_cfg := ConfigFiles.demo_saved ConfigFiles.demo_in_dir; n_firewall := demo_firewall; n_kernel := FireWall.demo_tables;
     n_worker := {[ "sec"%string := WEsp Esp.demo_worker ]}; n_uuid := ""; n_newTime := 100;
     n_server := NewSocketServer "0.0.0.0:10002"; n_clients := ∅; n_asked := [] |}.
Definition demo_order {A} (m : gmap string A) : list (string * A) := map_to_list m.

Definition demo_stale : Esp.tables := state_Add no_tables
  {| sr_Name := "gone"; sr_Spi := 1; sr_Source := "a"; sr_Dest := "b"; sr_Proto := 0; sr_Mode := 0 |}.
Definition demo_reloaded : go (node FireWall.tables * Esp.tables) :=
  Reload true never never (fun _ _ => true) demo_order demo_node demo_stale.

Lemma demo_reload_returns : exists v' t', demo_reloaded = Ret (v', t').
Proof.
  assert (H : match demo_reloaded with Ret _ => true | Panic => false end = true) by (vm_compute; reflexivity).
  destruct demo_reloaded as [[v' t']|]; [by exists v', t'|discriminate H].
Qed.

Lemma reload_shows_configuration_witness :
  exists v' t', demo_reloaded = Ret (v', t') /\
    SafeStrMap.data (t_state t') !! "1-a-b"%string = None /\
    is_Some (SafeStrMap.data (t_state t') !! "10-1.1.1.1-2.2.2.2"%string).
Proof.
  destruct demo_reload_returns as (v' & t' & E). exists v', t'. split; [exact E|].
  destruct (reload_shows_configuration true never never (fun _ _ => true) demo_order demo_node v' demo_stale t' (fun _ => ltac:(reflexivity)) E)
    as (Hs & _ & Ha & _). split.
  - destruct (SafeStrMap.data (t_state t') !! "1-a-b"%string) as [x|] eqn:Ex; [|reflexivity]. exfalso.
    destruct (Hs _ _ Ex) as (r & Hr & Hk & _).
    assert (Hall : Forall (fun r => state_ID r <> "1-a-b"%string) (of_workers state_rows (demo_order (n_worker demo_node))))
      by (apply (bool_decide_unpack _); vm_compute; exact I).
    rewrite Forall_forall in Hall. apply (Hall r Hr). by symmetry.
  - assert (Hone : of_workers state_rows (demo_order (n_worker demo_node)) = [state_row "sec" demo_west]) by (vm_compute; reflexivity).
    assert (Hid : state_ID (state_row "sec" demo_west) = "10-1.1.1.1-2.2.2.2"%string) by (vm_compute; reflexivity).
    rewrite <- Hid. apply Ha; rewrite Hone; [right; vm_compute; discriminate|left].
Defined.

(** The node in the tables of the API, with one user and a file of users. *)
Definition demo_env : Api.env :=
  {| e_fmt_lease := UserCache.demo_fmt; e_parse_lease := UserCache.demo_parse; e_parse_time := fun _ => None; e_dial := fun _ => None;
     e_tz := 0; e_load_status := fun _ => sPoint.mk 0 "" "" "" "" "" "" "" "" 0 0 0 "" 0 "" sNetwork.zero; e_xfrm := fun _ _ _ _ _ => None; e_order := fun A m => map_to_list m;
     e_read_error := "EOF"; e_json_error := fun _ => "bad"%string; e_file_error := fun f => f; e_point := fun _ => None;
     e_config_json := fun _ => "{}"%string; e_config_yaml := fun _ => ""%string; e_denied := never;
     e_version := {| sVersion.Version := ""; sVersion.Date := ""; sVersion.Commit := "" |}; e_render := fun _ _ => ""%string;
     e_pprof := fun _ _ => Error "" 404; e_url := fun _ p => p |}.
Definition demo_files : fs := {[ "/etc/openlan/switch/token"%string := " secret "%string ]}.
Definition demo_api : Api.state (node FireWall.tables) :=
  {| st_switch := Switch.demo_switch demo_plant (upd_users demo_world (SetFile (w_users demo_world) "/etc/openlan/switch/password"));
     st_bridges := ∅; st_links := SafeStrMap.NewSafeStrMap 1024; st_esp := no_tables; st_counters := ∅; st_nets := []; st_files := demo_files;
     st_pprof := ""; st_pprof_failed := false; st_ctl := demo_node |}.
#[export] Instance demo_switcher : Switcher (node FireWall.tables) :=
  node_switcher true never never (fun _ _ => true) demo_order "abc" never demo_codec.
