(* ===== verification/Http.v ===== *)
(** * The HTTP server (pkg/olsw/http.go)

    The two tokens and the file the first is kept in, the table of routes, and a request
    from the router through the check of its token to its handler. *)

From S2P Require Import Prelude GoStd Json Md5 Protocol SafeMap Tap Bridge Models UserCache NetCache Cache Socket Apps Switch.
From S2P Require Import Utils Config Esp Vpn VpnClients ConfigFiles Schema Mux Api Node.

Local Open Scope Z_scope.
Local Arguments String.append !_ _ / : simpl nomatch.

(** ** Tokens *)

Record Http := {
  h_listen : string; h_adminToken : string; h_guestToken : string; h_adminFile : string;
  h_crtFile : string; h_keyFile : string; h_pubDir : string
}.

(** Without the section for the API there is no server. *)
Definition NewHttp (c : Config.Switch) : go Http :=
  match Config.sw_Http c with
  | None => Panic
  | Some hc =>
      Ret {| h_listen := http_Listen hc; h_adminToken := ""; h_guestToken := ""; h_adminFile := sw_TokenFile c;
             h_crtFile := match Config.sw_Cert c with Some ce => CrtFile ce | None => "" end;
             h_keyFile := match Config.sw_Cert c with Some ce => KeyFile ce | None => "" end;
             h_pubDir := http_Public hc |}
  end.

(** [strings.TrimSpace]: the white space of Unicode. *)
Definition spaces : list string :=
  map (fun n => String (chr n) "") [9; 10; 11; 12; 13; 32] ++
  map encode_rune ([0x85; 0xA0; 0x1680; 0x2028; 0x2029; 0x202F; 0x205F; 0x3000] ++ map (fun i => 0x2000 + Z.of_nat i) (seq 0 11)).
Definition trim_one (s : string) : option string :=
  foldr (fun sp r => match strip sp s with Some t => Some t | None => r end) None spaces.
Fixpoint trim_left (fuel : nat) (s : string) : string :=
  match fuel with
  | O => s
  | S fuel => match trim_one s with Some t => trim_left fuel t | None => s end
  end.
Definition TrimLeft (s : string) : string := trim_left (String.length s) s.
(** The longest end of the text that is all space is dropped. *)
Fixpoint TrimRight (s : string) : string :=
  match s with
  | EmptyString => EmptyString
  | String a r => if String.eqb (TrimLeft s) "" then EmptyString else String a (TrimRight r)
  end.
Definition TrimSpace (s : string) : string := TrimRight (TrimLeft s).

Definition SetToken (h : Http) (value : string) : Http :=
  {| h_listen := h_listen h; h_adminToken := value;
     h_guestToken := String.substring 0 12 (EncodeToString (Sum (bytes_of_string value)));
     h_adminFile := h_adminFile h; h_crtFile := h_crtFile h; h_keyFile := h_keyFile h; h_pubDir := h_pubDir h |}.

(** A file that is not there or cannot be read gives no token; [random] is what
    [GenRandom] makes. *)
Definition LoadToken (files : fs) (unreadable : string -> bool) (random : string) (h : Http) : Http :=
  let token := match files !! h_adminFile h with
               | Some contents => if unreadable (h_adminFile h) then "" else TrimSpace contents
               | None => ""
               end%string in
  SetToken h (if String.eqb token "" then random else token).

Definition SaveToken (denied : string -> bool) (h : Http) (files : fs) : fs :=
  if denied (h_adminFile h) then files else <[h_adminFile h := h_adminToken h]> files.

(** [Initialize], the routes apart, which are a table. *)
Definition Initialize (denied unreadable : string -> bool) (random : string) (h : Http) (files : fs) : Http * fs :=
  let h := LoadToken files unreadable random h in (h, SaveToken denied h files).

(** ** Routes *)

Inductive handler :=
| IndexHtml | PubFile | PProfPage (page : string) | GetIndex
| LinkList | LinkGet | LinkAdd | LinkDel
| UserList | UserAdd | UserGet | UserDel | UserCheck
| NeighborList | PointList | PointGet | NetworkList | NetworkGet | NetworkProfile | OnLineList
| LeaseList | ServerList | DeviceList | DeviceGet | VPNClientList | PProfGet | PProfAdd | VxLANList
| EspList | EspStateList | EspPolicyList | ConfigList | ConfigReload | ConfigSave.

Definition any (path : string) (h : handler) : route handler := mk_route path [] h.
Definition on (method path : string) (h : handler) : route handler := mk_route path [method] h.

Section tables.
Local Open Scope string_scope.
Local Notation "'GET' p h" := (on "GET" p h) (at level 10, p at level 9, h at level 9).
Local Notation "'POST' p h" := (on "POST" p h) (at level 10, p at level 9, h at level 9).
Local Notation "'PUT' p h" := (on "PUT" p h) (at level 10, p at level 9, h at level 9).
Local Notation "'DELETE' p h" := (on "DELETE" p h) (at level 10, p at level 9, h at level 9).

Definition PProf : list (route handler) :=
  [any "/debug/pprof/" (PProfPage "index"); any "/debug/pprof/cmdline" (PProfPage "cmdline");
   any "/debug/pprof/profile" (PProfPage "profile"); any "/debug/pprof/symbol" (PProfPage "symbol");
   any "/debug/pprof/trace" (PProfPage "trace")].
Definition link_Router : list (route handler) :=
  [GET "/api/link" LinkList; GET "/api/link/{id}" LinkGet; POST "/api/link/{id}" LinkAdd; DELETE "/api/link/{id}" LinkDel].
Definition user_Router : list (route handler) :=
  [GET "/api/user" UserList; POST "/api/user" UserAdd; GET "/api/user/{id}" UserGet; POST "/api/user/{id}" UserAdd;
   DELETE "/api/user/{id}" UserDel; POST "/api/user/{id}/check" UserCheck].
Definition neighbor_Router : list (route handler) := [GET "/api/neighbor" NeighborList].
Definition point_Router : list (route handler) := [GET "/api/point" PointList; GET "/api/point/{id}" PointGet].
Definition network_Router : list (route handler) :=
  [GET "/api/network" NetworkList; GET "/api/network/{id}" NetworkGet; GET "/get/network/{id}/{ie}.ovpn" NetworkProfile].
Definition online_Router : list (route handler) := [GET "/api/online" OnLineList].
Definition lease_Router : list (route handler) := [GET "/api/lease" LeaseList; GET "/api/lease/{id}" LeaseList].
Definition server_Router : list (route handler) := [GET "/api/server" ServerList; GET "/api/server/{id}" ServerList].
Definition device_Router : list (route handler) := [GET "/api/device" DeviceList; GET "/api/device/{id}" DeviceGet].
Definition vpn_Router : list (route handler) := [GET "/api/vpn/client" VPNClientList; GET "/api/vpn/client/{id}" VPNClientList].
Definition pprof_Router : list (route handler) := [GET "/api/pprof" PProfGet; POST "/api/pprof" PProfAdd].
Definition vxlan_Router : list (route handler) := [GET "/api/vxlan" VxLANList; GET "/api/vxlan/{id}" VxLANList].
Definition esp_Router : list (route handler) := [GET "/api/esp" EspList; GET "/api/esp/{id}" EspList].
Definition state_Router : list (route handler) := [GET "/api/state" EspStateList; GET "/api/state/{id}" EspStateList].
Definition policy_Router : list (route handler) := [GET "/api/policy" EspPolicyList; GET "/api/policy/{id}" EspPolicyList].
Definition config_Router : list (route handler) :=
  [GET "/api/config" ConfigList; PUT "/api/config/reload" ConfigReload; PUT "/api/config/save" ConfigSave].

Definition LoadRouter : list (route handler) :=
  ([any "/" IndexHtml; any "/index.html" IndexHtml; any "/favicon.ico" PubFile] ++ PProf ++ [GET "/api/index" GetIndex] ++
   link_Router ++ user_Router ++ neighbor_Router ++ point_Router ++ network_Router ++ online_Router ++ lease_Router ++
   server_Router ++ device_Router ++ vpn_Router ++ pprof_Router ++ vxlan_Router ++ esp_Router ++ state_Router ++
   policy_Router ++ config_Router)%list.
End tables.

(** ** Requests *)

Definition IsAuth (h : Http) (q : request) : bool :=
  let given token := match q_Auth q with Some (user, _) => String.eqb user token | None => false end in
  if HasPrefix (q_Path q) "/api/" then given (h_adminToken h)
  else if HasPrefix (q_Path q) "/get/" then given (h_guestToken h)
  else true.

Section server.
Context {S : Type} `{Switcher S}.
Context (E : env) (now : Z) (h : Http).

Definition getFile (name : string) : string := (h_pubDir h +:+ name)%string.

Definition served_file (st : state S) (q : request) : response :=
  {| p_Code := 200; p_Headers := [];
     p_Body := match st_files st !! getFile (q_Path q) with
               | Some contents => (contents +:+ newline_string)%string
               | None => "404"%string
               end |}.

(** The clients are sorted anew after those of each network. *)
Fixpoint index_clients (st : state S) (ns : list Models.Network.t) (acc : list schema.VPNClient) : go (list schema.VPNClient) :=
  match ns with
  | [] => Ret acc
  | n :: ns =>
      cs ← vpn_clients E now st (Models.Network.Name n);
      index_clients st ns (SliceStable (fun a b => String.ltb (schema.Name a) (schema.Name b)) (acc ++ cs))
  end.

Definition by_key {A} (key : A -> string) (a b : A) : bool := str_gt (key a) (key b).

(** [network] is the slice [getIndex] leaves alone. *)
Definition getIndex (network : option (list sNetwork.t)) (st : state S) : go (state S * sIndex.t) :=
  let '(st, worker) := NewWorkerSchema now st in
  r ← list_points E now st;
  let '(st, points) := r in
  clients ← index_clients st (values E (Networks (w_nets (st_world st)))) [];
  let '(st', states) := list_states E now st "" in
  Ret (st', {| sIndex.Version := e_version E; sIndex.Worker := worker;
     sIndex.Points := Some (SliceStable (by_key (fun p => sPoint.Network p +:+ sPoint.Remote p)%string) points);
     sIndex.Links := Some (SliceStable (by_key (fun l => sLink.Network l +:+ sLink.Server l)%string)
                             (map (link_schema E) (values E (st_links st))));
     sIndex.Neighbors := Some (SliceStable (by_key sNeighbor.IpAddr) (map (NewNeighborSchema now) (values E (w_neighbors (st_world st)))));
     sIndex.OnLines := Some (SliceStable (fun a b => sOnLine.HitTime a <? sOnLine.HitTime b)
                               (map (NewOnLineSchema now) (values E (w_lines (st_world st)))));
     sIndex.Network := network; sIndex.Clients := Some clients;
     sIndex.States := Some (SliceStable (fun a b => sEspState.Spi b <? sEspState.Spi a) states) |}).

Definition index_page (st : state S) : go (state S * response) :=
  r ← getIndex None st;
  Ret (r.1, {| p_Code := 200; p_Headers := []; p_Body := e_render E (st_files r.1 !! getFile "/index.html") r.2 |}).
(** The states are a slice that was never made; appending to it makes it. *)
Definition index_json (st : state S) : go (state S * response) :=
  r ← getIndex (Some []) st;
  let i := r.2 in
  let states := match sIndex.States i with Some [] => None | l => l end in
  Ret (r.1, ResponseJson (sIndex.json
    {| sIndex.Version := sIndex.Version i; sIndex.Worker := sIndex.Worker i; sIndex.Points := sIndex.Points i;
       sIndex.Links := sIndex.Links i; sIndex.Neighbors := sIndex.Neighbors i; sIndex.OnLines := sIndex.OnLines i;
       sIndex.Network := sIndex.Network i; sIndex.Clients := sIndex.Clients i; sIndex.States := states |})).

Definition handle (hd : handler) (vars : gmap string string) (st : state S) (q : request) : go (state S * response) :=
  let id := default ""%string (vars !! "id"%string) in
  match hd with
  | IndexHtml => index_page st
  | PubFile => Ret (st, served_file st q)
  | PProfPage page => Ret (st, e_pprof E page q)
  | GetIndex => index_json st
  | LinkList => Ret (link_List E st)
  | LinkGet => Ret (link_Get E st id)
  | LinkAdd => Ret (link_Add E st q)
  | LinkDel => Ret (link_Del st id)
  | UserList => Ret (user_List E st)
  | UserAdd => Ret (user_Add E now st q)
  | UserGet => Ret (user_Get E st id)
  | UserDel => Ret (user_Del E st id)
  | UserCheck => Ret (user_Check E now st q)
  | NeighborList => Ret (neighbor_List E now st)
  | PointList => point_List E now st
  | PointGet => point_Get now st id
  | NetworkList => Ret (network_List E st)
  | NetworkGet => Ret (network_Get st id)
  | NetworkProfile => Ret (network_Profile E st q id (default ""%string (vars !! "ie"%string)))
  | OnLineList => Ret (online_List E now st)
  | LeaseList => Ret (lease_List E st)
  | ServerList => Ret (server_List E now st)
  | DeviceList => Ret (device_List E st)
  | DeviceGet => Ret (device_Get E now st id)
  | VPNClientList => vpn_List E now st id
  | PProfGet => Ret (pprof_Get st)
  | PProfAdd => Ret (pprof_Add E st q)
  | VxLANList => Ret (vxlan_List st)
  | EspList => Ret (esp_List E st)
  | EspStateList => Ret (state_Handler E now st id)
  | EspPolicyList => Ret (policy_Handler E st id)
  | ConfigList => Ret (config_List E st q)
  | ConfigReload => config_Reload st
  | ConfigSave => config_Save st
  end.

Definition unauthorized : response :=
  let r := Error "Authorization Required" StatusUnauthorized in
  {| p_Code := p_Code r; p_Headers := ("WWW-Authenticate", "Basic")%string :: p_Headers r; p_Body := p_Body r |}.

(** [Middleware] wraps the handlers of the routes, not the answers to requests that match
    none. *)
Definition Middleware (next : state S -> request -> go (state S * response)) (st : state S) (q : request) : go (state S * response) :=
  if IsAuth h q then next st q else Ret (st, unauthorized).

Definition ServeHTTP (st : state S) (q : request) : go (state S * response) :=
  match dispatch LoadRouter (q_Method q) (q_Path q) with
  | Redirect p => Ret (st, {| p_Code := 301; p_Headers := [("Location"%string, e_url E q p)]; p_Body := "" |})
  | NotFound => Ret (st, Error "404 page not found" StatusNotFound)
  | MethodNotAllowed => Ret (st, {| p_Code := 405; p_Headers := []; p_Body := "" |})
  | Found hd vars => Middleware (handle hd vars) st q
  end.

End server.

(** ** Who may ask what *)

Inductive level := AdminOnly | GuestOnly | Open.
Definition access (hd : handler) : level :=
  match hd with
  | IndexHtml | PubFile | PProfPage _ => Open
  | NetworkProfile => GuestOnly
  | _ => AdminOnly
  end.
(** The handlers that change more than what listing brings up to date. *)
Definition changes (hd : handler) : bool :=
  match hd with
  | LinkAdd | LinkDel | UserAdd | UserDel | UserCheck | PProfAdd | ConfigReload | ConfigSave => true
  | _ => false
  end.

(** The path of a route begins as its level asks, and none that changes answers GET. *)
Definition guarded (r : route handler) : bool :=
  match template (rt_path r) with
  | Some (Lit l :: _) =>
      match access (rt_handler r) with
      | AdminOnly => HasPrefix l "/api/"
      | GuestOnly => HasPrefix l "/get/"
      | Open => negb (changes (rt_handler r))
      end && negb (changes (rt_handler r) && method_ok r "GET")
  | _ => false
  end.

Lemma routes_guarded : Forall (fun r => guarded r = true) LoadRouter.
Proof. apply (bool_decide_unpack _). vm_compute. exact I. Qed.

Lemma HasPrefix_app s t pre : HasPrefix s pre = true -> HasPrefix (s +:+ t) pre = true.
Proof.
  unfold HasPrefix. revert pre. induction s as [|a s IH]; intros [|b pre]; try done; [by destruct t|].
  cbn [String.append String.prefix]. destruct (Ascii.ascii_dec b a); [apply IH|done].
Qed.

Lemma found_guarded m p hd vars :
  dispatch LoadRouter m p = Found hd vars ->
  match access hd with
  | AdminOnly => HasPrefix p "/api/" = true
  | GuestOnly => HasPrefix p "/get/" = true
  | Open => changes hd = false
  end /\ (m = "GET"%string -> changes hd = false).
Proof.
  intros (_ & Hm)%dispatch_found. destruct (Match_found _ _ _ _ _ _ Hm) as (r & vs & Hr & <- & Hv & _ & Hok).
  pose proof (proj1 (Forall_forall _ _) routes_guarded r Hr) as Hg. unfold guarded in Hg. unfold route_vars in Hv.
  destruct (template (rt_path r)) as [t|]; [|done]. cbn [mbind option_bind] in Hv.
  destruct (match_path_sound _ _ _ Hv) as (Hp & _).
  destruct t as [|[l|n] t]; try done. cbn [render] in Hp. apply andb_true_iff in Hg as [Hg1 Hg2]. split.
  - destruct (access (rt_handler r)); [subst p; by apply HasPrefix_app..|]. by apply negb_true_iff.
  - intros ->. rewrite Hok, andb_true_r in Hg2. by apply negb_true_iff.
Qed.

(** What no listing changes: everything but the times of points, the counters of
    associations and the identity the switch makes up when it is first asked. *)
Definition unchanged {S} (st st' : state S) : Prop :=
  w_users (st_world st') = w_users (st_world st) /\ w_nets (st_world st') = w_nets (st_world st) /\
  dom (SafeStrMap.data (PointCache.Clients (w_points (st_world st')))) =
    dom (SafeStrMap.data (PointCache.Clients (w_points (st_world st)))) /\
  w_neighbors (st_world st') = w_neighbors (st_world st) /\ w_lines (st_world st') = w_lines (st_world st) /\
  w_clients (st_world st') = w_clients (st_world st) /\ w_effects (st_world st') = w_effects (st_world st) /\
  st_plant st' = st_plant st /\ st_bridges st' = st_bridges st /\ st_links st' = st_links st /\ st_esp st' = st_esp st /\
  st_files st' = st_files st /\ st_pprof st' = st_pprof st /\ st_pprof_failed st' = st_pprof_failed st.

Lemma unchanged_refl {S} (st : state S) : unchanged st st.
Proof. by repeat split. Qed.
Lemma unchanged_trans {S} (st1 st2 st3 : state S) : unchanged st1 st2 -> unchanged st2 st3 -> unchanged st1 st3.
Proof. unfold unchanged. intuition congruence. Qed.

Create HintDb http.
#[export] Hint Resolve unchanged_refl : http.

Section safety.
Context {S : Type} `{Switcher S}.
Context (E : env) (now : Z) (h : Http).
Implicit Types st : state S.

Lemma go_bind_inv {A B} (m : go A) (f : A -> go B) b : (a ← m; f a) = Ret b -> exists a, m = Ret a /\ f a = Ret b.
Proof. destruct m as [a|]; [|discriminate]. by exists a. Qed.

Lemma list_points_unchanged st st' l : list_points E now st = Ret (st', l) -> unchanged st st'.
Proof.
  unfold list_points. intros (ps & _ & [= <- _])%go_bind_inv. unfold unchanged, refresh_points, set_world, st_world. simpl.
  split_and!; try done. by rewrite dom_fmap_L.
Qed.

Lemma point_Get_unchanged st st' id r : point_Get now st id = Ret (st', r) -> unchanged st st'.
Proof.
  unfold point_Get, PointCache.Get. destruct (SafeStrMap.Get _ id) as [p|] eqn:Eg.
  - intros (s & _ & [= <- _])%go_bind_inv. unfold unchanged, set_world, st_world. simpl. split_and!; try done.
    unfold SafeStrMap.Get in Eg. destruct (SafeStrMap.data _ !! id) eqn:El; [|done].
    apply dom_insert_lookup_L. by eexists.
  - intros [= <- _]. by repeat split.
Qed.

Lemma list_states_unchanged st id : unchanged st (list_states E now st id).1.
Proof. by repeat split. Qed.

Lemma getIndex_unchanged n st st' i : getIndex E now n st = Ret (st', i) -> unchanged st st'.
Proof.
  unfold getIndex, NewWorkerSchema. destruct (sw_UUID (st_ctl st)) as [c uuid].
  intros ([st1 points] & Hp & (cs & _ & [= <- _])%go_bind_inv)%go_bind_inv.
  apply list_points_unchanged in Hp. eapply unchanged_trans; [|eapply unchanged_trans; [exact Hp|by repeat split]].
  by repeat split.
Qed.

(** A handler that is not one of those that change leaves the tables as they are. *)
Lemma handle_unchanged hd vars st q st' r :
  changes hd = false -> handle E now h hd vars st q = Ret (st', r) -> unchanged st st'.
Proof.
  intros Hc. destruct hd; try discriminate Hc; cbn [handle];
    try (intros [= <- _]; apply unchanged_refl).
  - intros ([st1 i] & Hi & [= <- _])%go_bind_inv. by eapply getIndex_unchanged.
  - intros ([st1 i] & Hi & [= <- _])%go_bind_inv. by eapply getIndex_unchanged.
  - unfold link_Get. case_match; intros [= <- _]; apply unchanged_refl.
  - unfold user_Get. case_match; intros [= <- _]; apply unchanged_refl.
  - intros ([st1 l] & Hl & [= <- _])%go_bind_inv. by eapply list_points_unchanged.
  - apply point_Get_unchanged.
  - unfold network_Get. case_match; intros [= <- _]; apply unchanged_refl.
  - unfold network_Profile. case_match; intros [= <- _]; apply unchanged_refl.
  - unfold device_Get. repeat case_match; intros [= <- _]; apply unchanged_refl.
  - intros (cs & _ & [= <- _])%go_bind_inv. apply unchanged_refl.
  - unfold state_Handler, list_states. intros [= <- _]. apply (list_states_unchanged st).
  - unfold config_List. case_match; intros [= <- _]; apply unchanged_refl.
Qed.

(** The token a request names. *)
Definition token_of (q : request) : option string := fst <$> q_Auth q.

Lemma IsAuth_spec q :
  IsAuth h q = true <->
  (HasPrefix (q_Path q) "/api/" = true -> token_of q = Some (h_adminToken h)) /\
  (HasPrefix (q_Path q) "/api/" = false -> HasPrefix (q_Path q) "/get/" = true -> token_of q = Some (h_guestToken h)).
Proof.
  unfold IsAuth, token_of.
  assert (Hg : forall t, (match q_Auth q with Some (user, _) => String.eqb user t | None => false end) = true <-> fst <$> q_Auth q = Some t).
  { intros t. destruct (q_Auth q) as [[u p]|]; simpl; [|done]. rewrite String.eqb_eq. split; congruence. }
  destruct (HasPrefix (q_Path q) "/api/"); [rewrite Hg; intuition done|].
  destruct (HasPrefix (q_Path q) "/get/"); [rewrite Hg; intuition done|]. intuition done.
Qed.

Lemma api_not_get p : HasPrefix p "/get/" = true -> HasPrefix p "/api/" = false.
Proof.
  destruct p as [|a p]; [done|]. unfold HasPrefix. cbn [String.prefix]. destruct (Ascii.ascii_dec _ a); [|done].
  destruct p as [|b p]; [done|]. cbn [String.prefix]. destruct (Ascii.ascii_dec _ b) as [<-|]; done.
Qed.
End safety.

(** (C8) Nothing is changed without the administrator's token: whatever a request asks for,
    if it does not name that token then the answer leaves the users, the networks and
    leases, the neighbors and traffic lines, the links, the associations, the devices and
    bridges and every file as they were, and no point appears or goes.  A route of the API
    then answers 401 and does not even bring a time up to date; a profile of a VPN client
    needs the guest token in the same way. *)
Theorem api_needs_token {S : Type} `{Switcher S} (E : env) (now : Z) (h : Http) (st st' : state S) (q : request) (r : response) :
  ServeHTTP E now h st q = Ret (st', r) -> token_of q <> Some (h_adminToken h) ->
  unchanged st st' /\
  (forall hd vars, dispatch LoadRouter (q_Method q) (q_Path q) = Found hd vars ->
     (access hd = AdminOnly \/ (access hd = GuestOnly /\ token_of q <> Some (h_guestToken h))) ->
     st' = st /\ r = unauthorized).
Proof.
  unfold ServeHTTP, Middleware. intros Hs Ht.
  destruct (dispatch LoadRouter (q_Method q) (q_Path q)) as [p|hd vars| |] eqn:Ed;
    try (injection Hs as <- _; split; [apply unchanged_refl|discriminate]).
  destruct (found_guarded _ _ _ _ Ed) as [Hg _]. split.
  - destruct (IsAuth h q) eqn:Ea; [|injection Hs as <- _; apply unchanged_refl].
    eapply handle_unchanged; [|exact Hs]. apply IsAuth_spec in Ea as [Ea _].
    destruct hd; try done; cbn [access] in Hg; specialize (Ea Hg); done.
  - intros hd' vars' [= <- <-] Hl. assert (Ea : IsAuth h q = false).
    { apply not_true_is_false. intros [Ea1 Ea2]%IsAuth_spec. destruct Hl as [Hl|[Hl Hn]]; rewrite Hl in Hg.
      - by apply Ht, Ea1.
      - by apply Hn, Ea2; [apply api_not_get|]. }
    rewrite Ea in Hs. by injection Hs as <- <-.
Qed.

(** A request with GET changes no table, whoever sends it. *)
Theorem get_changes_nothing {S : Type} `{Switcher S} (E : env) (now : Z) (h : Http) (st st' : state S) (q : request) (r : response) :
  ServeHTTP E now h st q = Ret (st', r) -> q_Method q = "GET"%string -> unchanged st st'.
Proof.
  unfold ServeHTTP, Middleware. intros Hs Hm.
  destruct (dispatch LoadRouter (q_Method q) (q_Path q)) as [p|hd vars| |] eqn:Ed;
    try (injection Hs as <- _; apply unchanged_refl).
  destruct (found_guarded _ _ _ _ Ed) as [_ Hg]. specialize (Hg Hm).
  destruct (IsAuth h q); [by eapply handle_unchanged|injection Hs as <- _; apply unchanged_refl].
Qed.

(** ** Profiles *)

Lemma profile_route m p vars :
  dispatch LoadRouter m p = Found NetworkProfile vars ->
  exists id ie, p = "/get/network/" +:+ id +:+ "/" +:+ ie +:+ ".ovpn" /\
    vars !! "id"%string = Some id /\ vars !! "ie"%string = Some ie /\ base_name id /\ segment ie.
Proof.
  intros (Hc & Hm)%dispatch_found. destruct (Match_found _ _ _ _ _ _ Hm) as (r & vs & Hr & Eh & Hv & -> & _).
  assert (Hp : Forall (fun r => match rt_handler r with
    | NetworkProfile => String.eqb (rt_path r) "/get/network/{id}/{ie}.ovpn" | _ => true end = true) LoadRouter)
    by (apply (bool_decide_unpack _); vm_compute; exact I).
  pose proof (proj1 (Forall_forall _ _) Hp r Hr) as Hpath. cbn beta in Hpath. rewrite Eh in Hpath. apply String.eqb_eq in Hpath.
  unfold route_vars in Hv. rewrite Hpath in Hv.
  change (template "/get/network/{id}/{ie}.ovpn") with
    (Some [Lit "/get/network/"; Var "id"; Lit "/"; Var "ie"; Lit ".ovpn"])%string in Hv. cbn [mbind option_bind] in Hv.
  destruct (match_path_sound _ _ _ Hv) as (Hrender & Hnames & Hseg).
  destruct vs as [|[n1 id] [|[n2 ie] [|? ?]]]; try discriminate Hnames. injection Hnames as -> ->.
  rewrite !Forall_cons in Hseg. destruct Hseg as ([Hid1 Hid2] & Hie & _). cbn [snd] in *.
  exists id, ie. split; [by rewrite <- Hrender; cbn [render]; rewrite string_app_nil_r|].
  split; [done|]. split; [done|]. split; [|done].
  assert (He : id ∈ Split p char_slash).
  { rewrite <- Hrender. cbn [render].
    change ("/get/network/" +:+ ?x) with ("/get/network" +:+ String char_slash x).
    rewrite Split_app. change ("/" +:+ ?x) with (String char_slash x). rewrite Split_app, (Split_plain id) by done.
    rewrite !elem_of_app. right. left. left. }
  destruct (canonical_elements p id Hc He); [done|done].
Qed.

Lemma profile_file id ie : base_name id -> segment ie ->
  VpnClients.Dir [id; ie +:+ "client.ovpn"] = vpnDirectory +:+ "/" +:+ id +:+ "/" +:+ ie +:+ "client.ovpn".
Proof.
  intros (Hs & H1 & H2 & H3) [_ Hie]. set (f := ie +:+ "client.ovpn").
  assert (Hf : base_name f).
  { unfold f. split; [by rewrite contains_app, Hie|].
    split_and!; intros Ef; apply (f_equal String.length) in Ef; rewrite string_length_app in Ef; simpl in Ef; lia. }
  destruct Hf as (Hf & F1 & F2 & F3).
  assert (Hstep : forall st n, n <> ""%string -> n <> "."%string -> n <> ".."%string -> clean_step true st n = st ++ [n]).
  { intros st n N1 N2 N3. unfold clean_step. by rewrite !(proj2 (String.eqb_neq _ _)). }
  unfold VpnClients.Dir. cbn [path_Join]. change (String.eqb vpnDirectory "") with false. cbn match.
  change (String.concat "/" [vpnDirectory; id; f]) with (vpnDirectory +:+ String char_slash (id +:+ String char_slash f)).
  unfold path_Clean. rewrite !Split_app, (Split_plain id), (Split_plain f) by done.
  change (HasPrefix _ "/") with true. rewrite !foldl_app. cbn [foldl]. rewrite !Hstep by done.
  change (foldl (clean_step true) [] (Split vpnDirectory char_slash)) with ["var"; "openlan"; "openvpn"]%string.
  cbn [app String.concat]. by cbn.
Qed.

(** (C34) The answer to a request for a profile depends on one file, which is in the directory
    of the network's VPN server and is a client's profile there: whatever the path holds,
    dots and encoded slashes included, it reaches no other file. *)
Theorem profile_confined {S : Type} `{Switcher S} (E : env) (now : Z) (h : Http) (st1 st2 : state S) (q : request)
    (vars : gmap string string) :
  dispatch LoadRouter (q_Method q) (q_Path q) = Found NetworkProfile vars ->
  exists net client, base_name net /\ segment client /\
    let file := vpnDirectory +:+ "/" +:+ net +:+ "/" +:+ client +:+ "client.ovpn" in
    (st_files st1 !! file = st_files st2 !! file ->
     exists r, ServeHTTP E now h st1 q = Ret (st1, r) /\ ServeHTTP E now h st2 q = Ret (st2, r)).
Proof.
  intros Hd. destruct (profile_route _ _ _ Hd) as (net & cl & _ & Hid & Hie & Hb & Hs). exists net, cl.
  split; [done|]. split; [done|]. cbv zeta. rewrite <- profile_file by done. intros Hf.
  unfold ServeHTTP, Middleware. rewrite Hd. destruct (IsAuth h q); [|by eexists].
  cbn [handle]. rewrite Hid, Hie. cbn [from_option]. unfold id. unfold network_Profile, GetClientProfile. rewrite Hf.
  destruct (_ ≫= _); by eexists.
Qed.

(** ** The token in the file *)

(** No space is the beginning of another, so the space at the start of a text is unique. *)
Lemma spaces_prefix_free sp1 sp2 s t1 t2 :
  sp1 ∈ spaces -> sp2 ∈ spaces -> strip sp1 s = Some t1 -> strip sp2 s = Some t2 -> sp1 = sp2.
Proof.
  intros H1 H2 E1 E2. apply strip_some in E1. apply strip_some in E2. subst s.
  assert (Hall : Forall (fun a => Forall (fun b => (String.prefix a b || String.prefix b a) = String.eqb a b) spaces) spaces)
    by (apply (bool_decide_unpack _); vm_compute; exact I).
  rewrite Forall_forall in Hall. specialize (Hall _ H1). rewrite Forall_forall in Hall. specialize (Hall _ H2).
  assert (Hp : String.prefix sp1 sp2 || String.prefix sp2 sp1 = true).
  { clear -E2. revert sp2 t1 t2 E2. induction sp1 as [|a sp1 IH]; intros [|b sp2] t1 t2 E; try done.
    simpl in E. injection E as <- E. simpl. destruct (Ascii.ascii_dec a a); [|done]. by eapply IH. }
  rewrite Hp in Hall. symmetry in Hall. by apply String.eqb_eq in Hall.
Qed.

Lemma trim_one_some s t : trim_one s = Some t -> exists sp, sp ∈ spaces /\ s = sp +:+ t.
Proof.
  unfold trim_one. assert (Hgen : forall l, foldr (fun sp r => match strip sp s with Some t => Some t | None => r end) None l = Some t ->
    exists sp, sp ∈ l /\ s = sp +:+ t).
  { induction l as [|sp l IH]; [done|]. simpl. destruct (strip sp s) eqn:E.
    - intros [= ->]. exists sp. split; [left|by apply strip_some].
    - intros Hl. destruct (IH Hl) as (sp' & ? & ?). exists sp'. split; [by right|done]. }
  apply Hgen.
Qed.
Lemma trim_one_app sp t : sp ∈ spaces -> trim_one (sp +:+ t) = Some t.
Proof.
  intros Hsp. destruct (trim_one (sp +:+ t)) as [t'|] eqn:E.
  - destruct (trim_one_some _ _ E) as (sp' & Hsp' & E'). f_equal.
    assert (sp = sp') as <-; [|symmetry; by eapply append_inv].
    eapply (spaces_prefix_free sp sp' (sp +:+ t)); [done|done|apply strip_app|]. rewrite E'. apply strip_app.
  - exfalso. revert E. unfold trim_one. induction Hsp as [sp l|sp sp2 l _ IH]; simpl; [by rewrite strip_app|].
    case_match; [done|exact IH].
Qed.
Lemma space_nonempty sp : sp ∈ spaces -> (0 < String.length sp)%nat.
Proof.
  intros Hsp. assert (Hall : Forall (fun s => (0 < String.length s)%nat) spaces) by (apply (bool_decide_unpack _); vm_compute; exact I).
  rewrite Forall_forall in Hall. by apply Hall.
Qed.

(** A text that is nothing but spaces. *)
Inductive blanks : string -> Prop :=
| blanks_nil : blanks ""
| blanks_cons sp s : sp ∈ spaces -> blanks s -> blanks (sp +:+ s).

Lemma trim_left_enough n s : (String.length s <= n)%nat ->
  trim_one (trim_left n s) = None /\ exists b, blanks b /\ s = b +:+ trim_left n s.
Proof.
  revert s. induction n as [|n IH]; intros s Hn.
  - destruct s as [|a s]; [|simpl in Hn; lia]. split; [vm_compute; done|]. exists "". split; [constructor|done].
  - cbn [trim_left]. destruct (trim_one s) as [t|] eqn:E; [|split; [done|exists ""; split; [constructor|done]]].
    destruct (trim_one_some _ _ E) as (sp & Hsp & ->). pose proof (space_nonempty _ Hsp) as Hl.
    rewrite string_length_app in Hn. destruct (IH t ltac:(lia)) as (H1 & b & Hb & H2). split; [done|].
    exists (sp +:+ b). split; [by constructor|]. by rewrite string_app_assoc, <- H2.
Qed.
Lemma trim_left_blanks b s n : blanks b -> trim_one s = None -> (String.length (b +:+ s) <= n)%nat -> trim_left n (b +:+ s) = s.
Proof.
  intros Hb Hs. revert n. induction Hb as [|sp b Hsp _ IH]; intros n Hn.
  - change ("" +:+ s) with s in *. destruct n; [done|]. cbn [trim_left]. by rewrite Hs.
  - pose proof (space_nonempty _ Hsp). rewrite !string_length_app in Hn. destruct n as [|n]; [lia|]. cbn [trim_left].
    rewrite string_app_assoc, trim_one_app by done. apply IH. rewrite string_length_app. lia.
Qed.
Lemma TrimLeft_blanks s : TrimLeft s = ""%string <-> blanks s.
Proof.
  unfold TrimLeft. split.
  - intros E. destruct (trim_left_enough _ s (le_n _)) as (_ & b & Hb & Es). rewrite E, string_app_nil_r in Es. by subst b.
  - intros Hb. rewrite <- (string_app_nil_r s) at 2. apply trim_left_blanks; [done|vm_compute; done|].
    by rewrite string_app_nil_r.
Qed.
Lemma blanks_app s t : blanks s -> blanks t -> blanks (s +:+ t).
Proof. induction 1 as [|sp s Hsp _ IH]; intros Ht; [done|]. rewrite string_app_assoc. constructor; [done|by apply IH]. Qed.

Lemma TrimRight_split s : exists b, blanks b /\ s = TrimRight s +:+ b.
Proof.
  induction s as [|a s (b & Hb & E)]; [exists ""; split; [constructor|done]|]. cbn [TrimRight].
  destruct (String.eqb_spec (TrimLeft (String a s)) "") as [Eb|_].
  - exists (String a s). split; [by apply TrimLeft_blanks|done].
  - exists b. split; [done|]. cbn [String.append]. by rewrite <- E.
Qed.
Lemma TrimRight_idem s : TrimRight (TrimRight s) = TrimRight s.
Proof.
  induction s as [|a s IH]; [done|]. cbn [TrimRight]. destruct (String.eqb_spec (TrimLeft (String a s)) "") as [|Hne]; [done|].
  cbn [TrimRight]. destruct (String.eqb_spec (TrimLeft (String a (TrimRight s))) "") as [Eb|_]; [|by rewrite IH].
  exfalso. apply Hne, TrimLeft_blanks. destruct (TrimRight_split s) as (b & Hb & E). rewrite E.
  change (String a (TrimRight s +:+ b)) with (String a (TrimRight s) +:+ b). apply blanks_app; [by apply TrimLeft_blanks|done].
Qed.

(** Trimming twice is trimming once. *)
Lemma TrimSpace_idem s : TrimSpace (TrimSpace s) = TrimSpace s.
Proof.
  unfold TrimSpace. set (t := TrimLeft s).
  destruct (trim_left_enough _ s (le_n _)) as (Ht & _). fold (TrimLeft s) in Ht. fold t in Ht.
  assert (Hl : TrimLeft (TrimRight t) = TrimRight t).
  { unfold TrimLeft. change (TrimRight t) with ("" +:+ TrimRight t) at 2. apply trim_left_blanks; [constructor| |done].
    destruct (trim_one (TrimRight t)) as [u|] eqn:E; [|done]. exfalso. destruct (trim_one_some _ _ E) as (sp & Hsp & Eu).
    destruct (TrimRight_split t) as (b & _ & Et). rewrite Eu, string_app_assoc in Et. rewrite Et, trim_one_app in Ht; done. }
  by rewrite Hl, TrimRight_idem.
Qed.

(** The tokens outlive the process: what [Initialize] writes is what the next process
    reads, so whether the token was in the file or was made up, and with whatever space
    around it, after a restart the administrator's and the guest's are the same and the
    file stays as it is.  (The made-up token has no space at its ends.) *)
Theorem token_survives_restart (denied unreadable : string -> bool) (rnd rnd2 : string) (h : Http) (files : fs) :
  denied (h_adminFile h) = false -> unreadable (h_adminFile h) = false ->
  TrimSpace rnd = rnd -> rnd <> ""%string ->
  let '(h1, files1) := Initialize denied unreadable rnd h files in
  h_adminToken h1 <> ""%string /\ String.length (h_guestToken h1) = 12%nat /\
  Initialize denied unreadable rnd2 h files1 = (h1, files1) /\
  (forall f, f <> h_adminFile h -> files1 !! f = files !! f).
Proof.
  intros Hd Hu Hr Hne.
  set (token := match files !! h_adminFile h with Some contents => TrimSpace contents | None => ""%string end).
  set (t := if String.eqb token "" then rnd else token).
  assert (Ht : TrimSpace t = t).
  { unfold t, token. destruct (String.eqb _ ""); [done|]. destruct (files !! h_adminFile h); [apply TrimSpace_idem|done]. }
  assert (Hn : t <> ""%string) by (unfold t; by destruct (String.eqb_spec token "")).
  assert (E1 : Initialize denied unreadable rnd h files = (SetToken h t, <[h_adminFile h := t]> files)).
  { unfold Initialize, SaveToken, LoadToken. rewrite Hu. fold token. fold t. cbn [SetToken h_adminFile h_adminToken]. by rewrite Hd. }
  assert (E2 : Initialize denied unreadable rnd2 h (<[h_adminFile h := t]> files) = (SetToken h t, <[h_adminFile h := t]> files)).
  { unfold Initialize, SaveToken, LoadToken. rewrite Hu, lookup_insert_eq, Ht, (proj2 (String.eqb_neq t "")) by done.
    cbn [SetToken h_adminFile h_adminToken]. by rewrite Hd, insert_insert_eq. }
  rewrite E1, E2. split; [done|]. split; [|split; [done|intros f Hf; by rewrite lookup_insert_ne]].
  assert (Hl : forall n s, (n <= String.length s)%nat -> String.length (String.substring 0 n s) = n).
  { induction n as [|n IH]; intros [|a s] Hs; simpl in *; try lia. rewrite IH; lia. }
  apply Hl. rewrite EncodeToString_length, Sum_length. lia.
Qed.

(** ** Examples *)

Definition demo_http : Http :=
  {| h_listen := ":10000"; h_adminToken := "secret"; h_guestToken := "guest"; h_adminFile := "/etc/openlan/switch/token";
     h_crtFile := ""; h_keyFile := ""; h_pubDir := "/var/openlan/public" |}.
Definition demo_request (method path : string) (auth : option (string * string)) : request :=
  {| q_Method := method; q_Path := path; q_Host := "sw:10000"; q_Query := []; q_Auth := auth; q_Body := Some ""%string |}.

Lemma api_needs_token_witness :
  exists st' r, ServeHTTP demo_env 0 demo_http demo_api (demo_request "DELETE" "/api/user/bob@net" (Some ("guest", "")%string)) = Ret (st', r) /\
    st' = demo_api /\ r = unauthorized.
Proof.
  eexists _, _. split; [reflexivity|].
  refine (proj2 (api_needs_token demo_env 0 demo_http demo_api _ (demo_request "DELETE" "/api/user/bob@net" (Some ("guest", "")%string)) _ eq_refl _)
    UserDel {[ "id"%string := "bob@net"%string ]} _ _); [discriminate|vm_compute; reflexivity|left; reflexivity].
Defined.

Lemma get_changes_nothing_witness :
  exists st' r, ServeHTTP demo_env 0 demo_http demo_api (demo_request "GET" "/api/user/bob@net" (Some ("secret", "")%string)) = Ret (st', r) /\
    unchanged demo_api st' /\ p_Code r = 200.
Proof.
  eexists _, _. split; [reflexivity|]. split; [|reflexivity].
  exact (get_changes_nothing demo_env 0 demo_http demo_api _ (demo_request "GET" "/api/user/bob@net" (Some ("secret", "")%string)) _ eq_refl eq_refl).
Defined.

Definition demo_profile : request := demo_request "GET" "/get/network/net/bob.ovpn" (Some ("guest", "")%string).
Lemma profile_confined_witness :
  dispatch LoadRouter "GET" "/get/network/net/bob.ovpn" = Found NetworkProfile {[ "id"%string := "net"%string; "ie"%string := "bob"%string ]} /\
  dispatch LoadRouter "GET" "/get/network/net/../../etc/passwd.ovpn" = Redirect "/get/etc/passwd.ovpn" /\
  exists net client, base_name net /\ segment client /\
    (st_files demo_api !! (vpnDirectory +:+ "/" +:+ net +:+ "/" +:+ client +:+ "client.ovpn") = None ->
     exists r, ServeHTTP demo_env 0 demo_http demo_api demo_profile = Ret (demo_api, r)).
Proof.
  assert (Hd : dispatch LoadRouter "GET" "/get/network/net/bob.ovpn" =
    Found NetworkProfile {[ "id"%string := "net"%string; "ie"%string := "bob"%string ]}) by (vm_compute; reflexivity).
  split; [exact Hd|]. split; [vm_compute; reflexivity|].
  destruct (profile_confined demo_env 0 demo_http demo_api demo_api demo_profile _ Hd) as (net & cl & Hn & Hc & H).
  exists net, cl. split; [exact Hn|]. split; [exact Hc|]. intros _. destruct (H eq_refl) as (r & Hr & _). exists r. exact Hr.
Defined.

Lemma token_survives_restart_witness :
  (Initialize never never "made-up" demo_http demo_files).1.(h_adminToken) = "secret"%string /\
  Initialize never never "other" demo_http (Initialize never never "made-up" demo_http demo_files).2 =
    Initialize never never "made-up" demo_http demo_files.
Proof.
  split; [vm_compute; reflexivity|].
  pose proof (token_survives_restart never never "made-up" "other" demo_http demo_files eq_refl eq_refl ltac:(vm_compute; reflexivity)
    ltac:(discriminate)) as H.
  destruct (Initialize never never "made-up" demo_http demo_files) as [h1 f1]. exact (proj1 (proj2 (proj2 H))).
Defined.
