(* ===== verification/UserApi.v ===== *)
(** * The API of users as a table of users

    What the requests to /api/user promise: they add to, look up and take from a table of
    users by identity, and the file of users follows the table. *)

From S2P Require Import Prelude GoStd Json Md5 Protocol SafeMap Tap Bridge Models UserCache NetCache Cache Socket Apps Switch.
From S2P Require Import Utils Config Esp Vpn VpnClients ConfigFiles Schema Mux Api Node Http.

Local Open Scope Z_scope.
Local Arguments String.append !_ _ / : simpl nomatch.

(** ** Requests *)

Definition admin_request (h : Http) (method path : string) (body : option string) : request :=
  {| q_Method := method; q_Path := path; q_Host := ""; q_Query := []; q_Auth := Some (h_adminToken h, ""%string); q_Body := body |}.
Definition user_path (id : string) : string := "/api/user/" +:+ id.

Inductive uop := UAdd (u : sUser.t) | UGet (id : string) | UDel (id : string).
Definition user_request (h : Http) (o : uop) : request :=
  match o with
  | UAdd u => admin_request h "POST" "/api/user" (Some (Marshal (sUser.json u)))
  | UGet id => admin_request h "GET" (user_path id) (Some ""%string)
  | UDel id => admin_request h "DELETE" (user_path id) (Some ""%string)
  end.

(** ** Where they go *)

(** Whether a route cannot match a path that goes on after [pre]. *)
Definition misses (pre : string) (r : route handler) : bool :=
  match template (rt_path r) with
  | Some [Lit l] => negb (HasPrefix l pre)
  | Some (Lit l :: _) => negb (HasPrefix l pre) && negb (HasPrefix pre l)
  | _ => false
  end.

Lemma prefix_app_iff a b : String.prefix a b = true <-> exists t, b = a +:+ t.
Proof.
  revert b. induction a as [|x a IH]; intros b; [split; [by exists b|by intros _; destruct b]|].
  destruct b as [|y b]; [split; [done|by intros [t [=]]]|]. cbn [String.prefix].
  destruct (Ascii.ascii_dec x y) as [->|Hn].
  - rewrite IH. split; intros [t Ht]; exists t; [by rewrite Ht|by injection Ht].
  - split; [done|]. intros [t [= -> _]]. done.
Qed.

Lemma common_prefix a b s t : a +:+ s = b +:+ t -> String.prefix a b = true \/ String.prefix b a = true.
Proof.
  revert b. induction a as [|x a IH]; intros b E; [left; by destruct b|]. destruct b as [|y b]; [by right|].
  injection E as -> E. cbn [String.prefix]. destruct (Ascii.ascii_dec y y); [by apply IH|done].
Qed.

Lemma misses_none pre s r : misses pre r = true -> s <> ""%string -> route_vars r (pre +:+ s) = None.
Proof.
  unfold misses, route_vars, HasPrefix. intros Hm Hs.
  destruct (template (rt_path r)) as [[|[l|n] t]|]; try done. cbn [mbind option_bind].
  destruct (match_path (Lit l :: t) (pre +:+ s)) as [vs|] eqn:E; [|done]. exfalso.
  destruct (match_path_sound _ _ _ E) as (Hr & _). cbn [render] in Hr. destruct t as [|p t].
  - cbn [render] in Hr. rewrite string_app_nil_r in Hr. subst l. apply negb_true_iff in Hm.
    assert (Hp : String.prefix pre (pre +:+ s) = true) by (apply prefix_app_iff; by exists s). congruence.
  - apply andb_true_iff in Hm as [H1 H2]. apply negb_true_iff in H1, H2.
    destruct (common_prefix _ _ _ _ Hr); congruence.
Qed.

Lemma Match_skip {H} (rs1 : list (route H)) r rs2 m p vs :
  Forall (fun r1 => route_vars r1 p = None \/ method_ok r1 m = false) rs1 -> route_vars r p = Some vs -> method_ok r m = true ->
  forall b, Match (rs1 ++ r :: rs2) m p b = Found (rt_handler r) (list_to_map vs).
Proof.
  intros Hrs Hv Hm. induction Hrs as [|r1 rs1 H1 _ IH]; intros b; simpl; [by rewrite Hv, Hm|].
  destruct (route_vars r1 p) as [vs1|] eqn:E1; [|apply IH].
  destruct H1 as [H1|H1]; [done|]. rewrite H1. apply IH.
Qed.

(** The last variable takes all of the name. *)
Lemma user_vars id r : segment id -> rt_path r = "/api/user/{id}"%string -> route_vars (H := handler) r (user_path id) = Some [("id"%string, id)].
Proof.
  intros Hid Hr. unfold route_vars. rewrite Hr.
  change (template "/api/user/{id}") with (Some [Lit "/api/user/"; Var "id"; Lit ""])%string. cbn [mbind option_bind].
  destruct (match_path_complete [Lit "/api/user/"; Var "id"; Lit ""]%string [("id"%string, id)]) as [vs E];
    [done|by repeat constructor; destruct Hid|].
  cbn [render] in E. change ("" +:+ "") with ""%string in E. rewrite string_app_nil_r in E. fold (user_path id) in E. rewrite E.
  destruct (match_path_sound _ _ _ E) as (Hrender & Hnames & _).
  destruct vs as [|[n v] [|? ?]]; try discriminate Hnames. injection Hnames as ->. cbn [render] in Hrender.
  change ("" +:+ "") with ""%string in Hrender. rewrite string_app_nil_r in Hrender. apply append_inv in Hrender. by rewrite Hrender.
Qed.

Lemma user_path_clean id : base_name id -> cleanPath (user_path id) = user_path id.
Proof.
  intros (Hs & H1 & H2 & H3). unfold cleanPath, user_path.
  change ("/api/user/" +:+ id) with ("/api/user" +:+ String char_slash id).
  change (String.eqb _ "") with false. change (HasPrefix _ "/") with true. cbn match.
  assert (Hc : path_Clean ("/api/user" +:+ String char_slash id) = "/api/user" +:+ String char_slash id).
  { unfold path_Clean. change (HasPrefix _ "/") with true. rewrite Split_app, (Split_plain id), foldl_app by done.
    cbn [foldl]. change (foldl (clean_step true) [] (Split "/api/user" char_slash)) with ["api"; "user"]%string.
    unfold clean_step. rewrite !(proj2 (String.eqb_neq _ _)) by done. done. }
  rewrite Hc. assert (He : ends_slash ("/api/user" +:+ String char_slash id) = false); [|by rewrite He].
  unfold ends_slash. destruct (String.get _ _) as [a|] eqn:Eg; [|done]. apply not_true_is_false. intros Ea.
  change ("/api/user" +:+ String char_slash id) with ("/api/user/" +:+ id) in Eg. rewrite string_length_app in Eg.
  destruct id as [|c id]; [done|]. change (String.length "/api/user/") with 10%nat in Eg. cbn [String.length] in Eg.
  replace (10 + S (String.length id) - 1)%nat with (10 + String.length id)%nat in Eg by lia. cbn in Eg.
  clear -Hs Eg Ea. revert c Hs Eg. induction id as [|d id IH]; intros c Hs Eg; cbn [contains_char] in Hs; cbn in Eg.
  - injection Eg as ->. rewrite Ea in Hs. done.
  - apply orb_false_iff in Hs as [_ Hs]. by eapply IH.
Qed.

Lemma user_dispatch id m hd k :
  base_name id -> (m, hd, k) ∈ [("GET", UserGet, 15); ("DELETE", UserDel, 17); ("POST", UserAdd, 16)]%string%nat ->
  dispatch LoadRouter m (user_path id) = Found hd (list_to_map [("id"%string, id)]).
Proof.
  intros Hb Hk. unfold dispatch. rewrite user_path_clean, String.eqb_refl by done.
  assert (Hi : segment id) by (by destruct Hb as (? & ? & _)).
  assert (Hr : exists r, LoadRouter !! k = Some r /\ rt_handler r = hd /\ rt_path r = "/api/user/{id}"%string /\ method_ok r m = true /\
    Forall (fun r1 => misses "/api/user/" r1 = true \/ method_ok r1 m = false) (take k LoadRouter)).
  { rewrite !elem_of_cons, elem_of_nil in Hk. destruct Hk as [[= -> -> ->]|[[= -> -> ->]|[[= -> -> ->]|[]]]];
      (eexists; split; [reflexivity|split_and!; [done..|apply (bool_decide_unpack _); vm_compute; exact I]]). }
  destruct Hr as (r & Hr & <- & Hp & Hm & Hrs).
  rewrite <- (take_drop_middle _ _ _ Hr). apply Match_skip; [|by apply user_vars|done].
  eapply Forall_impl; [exact Hrs|]. intros r1 [H1|H1]; [left|by right]. by apply misses_none; [|destruct Hi].
Qed.

Lemma user_get_dispatch id : base_name id ->
  dispatch LoadRouter "GET" (user_path id) = Found UserGet (list_to_map [("id"%string, id)]).
Proof. intros H. apply (user_dispatch id _ _ 15 H). left. Qed.
Lemma user_del_dispatch id : base_name id ->
  dispatch LoadRouter "DELETE" (user_path id) = Found UserDel (list_to_map [("id"%string, id)]).
Proof. intros H. apply (user_dispatch id _ _ 17 H). right. left. Qed.

Lemma user_post_dispatch id : base_name id ->
  dispatch LoadRouter "POST" (user_path id) = Found UserAdd (list_to_map [("id"%string, id)]).
Proof. intros H. apply (user_dispatch id _ _ 16 H). right. right. left. Qed.

(** ** The table *)

Section api.
Context {S : Type} `{Switcher S}.
Context (E : env) (now : Z) (h : Http).
Implicit Types st : state S.

Definition user_model (u : sUser.t) : User.t := SchemaToUserModel (e_parse_lease E) now u.

(** What a request promises, on the users by identity. *)
Definition spec (m : gmap string User.t) (o : uop) : gmap string User.t * response :=
  match o with
  | UAdd u =>
      let x := user_model u in
      (<[User.Id x := match m !! User.Id x with Some older => merge older x | None => x end]> m, ResponseMsg 0 "")
  | UGet id =>
      (m, match m !! id with
          | Some u => ResponseJson (sUser.json (NewUserSchema (e_fmt_lease E) u))
          | None => Error id StatusNotFound
          end)
  | UDel id => (delete id m, ResponseMsg 0 "")
  end.
Fixpoint spec_all (m : gmap string User.t) (os : list uop) : gmap string User.t * list response :=
  match os with
  | [] => (m, [])
  | o :: os => let '(m1, r) := spec m o in let '(m2, rs) := spec_all m1 os in (m2, r :: rs)
  end.

Definition uop_ok (o : uop) : Prop :=
  match o with UAdd u => user_ok u | UGet id | UDel id => base_name id end.

Definition users_of st : UserCache.user := w_users (st_world st).
(** The table of the switch holds exactly these users, none of them nil. *)
Definition holds st (m : gmap string User.t) : Prop := SafeStrMap.data (Users (users_of st)) = Some <$> m.
(** There is room for [n] more. *)
Definition room st (n : nat) : Prop :=
  SafeStrMap.size (Users (users_of st)) = 0 \/
  SafeStrMap.Len (Users (users_of st)) + Z.of_nat n <= SafeStrMap.size (Users (users_of st)).
(** The file of users is what [Save] writes of the table. *)
Definition in_file st : Prop :=
  st_files st !! File (users_of st) = UserCache.Save (e_fmt_lease E) (users_of st) (entries E (Users (users_of st))).

Lemma ServeHTTP_admin st method path body hd vars :
  dispatch LoadRouter method path = Found hd vars -> access hd = AdminOnly ->
  ServeHTTP E now h st (admin_request h method path body) = handle E now h hd vars st (admin_request h method path body).
Proof.
  intros Hd Ha. unfold ServeHTTP, Middleware. cbn [admin_request q_Method q_Path]. rewrite Hd.
  assert (Hi : IsAuth h (admin_request h method path body) = true).
  { unfold IsAuth. cbn [admin_request q_Path q_Auth]. destruct (found_guarded _ _ _ _ Hd) as [Hg _]. rewrite Ha in Hg.
    by rewrite Hg, String.eqb_refl. }
  by rewrite Hi.
Qed.

Lemma Get_holds st m id : holds st m -> UserCache.Get (users_of st) id = m !! id.
Proof. intros Hm. unfold UserCache.Get, SafeStrMap.Get. rewrite Hm, lookup_fmap. by destruct (m !! id). Qed.

(** Adding to the table while there is room. *)
Lemma Add_holds st m x :
  holds st m -> room st 1 ->
  SafeStrMap.data (Users (UserCache.Add (users_of st) x)) =
    Some <$> <[User.Id x := match m !! User.Id x with Some older => merge older x | None => x end]> m /\
  SafeStrMap.size (Users (UserCache.Add (users_of st) x)) = SafeStrMap.size (Users (users_of st)) /\
  File (UserCache.Add (users_of st) x) = File (users_of st).
Proof.
  intros Hm Hr. unfold UserCache.Add. rewrite (Get_holds st m) by done.
  destruct (m !! User.Id x) as [older|] eqn:Eg.
  - cbn. rewrite Hm, fmap_insert. done.
  - unfold SafeStrMap.Set_, SafeStrMap.add. rewrite (proj2 (full_false _)).
    + rewrite Hm, lookup_fmap, Eg. cbn. by rewrite Hm, fmap_insert.
    + destruct Hr as [?|Hr]; [by left|right]. unfold users_of in *. lia.
Qed.

Lemma save_users_spec st :
  e_denied E (File (users_of st)) = false -> File (users_of st) <> ""%string ->
  users_of (save_users E st) = users_of st /\ in_file (save_users E st) /\
  (forall f, f <> File (users_of st) -> st_files (save_users E st) !! f = st_files st !! f).
Proof.
  intros Hd Hf. unfold save_users. fold (users_of st). destruct (UserCache.Save _ _ _) as [text|] eqn:Es.
  - rewrite Hd. split; [done|]. split; [|intros f Hn; cbn; by rewrite lookup_insert_ne].
    unfold in_file. change (users_of (set_files st ?f)) with (users_of st). rewrite Es. cbn. by rewrite lookup_insert_eq.
  - rewrite save_unlines in Es by done. discriminate Es.
Qed.

Lemma Len_holds st m : holds st m -> SafeStrMap.Len (Users (users_of st)) = Z.of_nat (base.size m).
Proof. intros Hm. unfold SafeStrMap.Len. by rewrite Hm, map_size_fmap. Qed.

(** One request does what it promises. *)
Lemma serve_step st m o n :
  uop_ok o -> holds st m -> room st (Datatypes.S n) ->
  e_denied E (File (users_of st)) = false -> File (users_of st) <> ""%string ->
  exists st', ServeHTTP E now h st (user_request h o) = Ret (st', (spec m o).2) /\ holds st' (spec m o).1 /\ room st' n /\
    File (users_of st') = File (users_of st) /\
    (match o with UGet _ => in_file st | _ => True end -> in_file st').
Proof.
  intros Ho Hm Hr Hd Hf. destruct o as [u|id|id]; cbn [user_request].
  - rewrite (ServeHTTP_admin st "POST" "/api/user" _ UserAdd ∅) by (vm_compute; reflexivity). cbn [handle].
    unfold user_Add, read_body. cbn [admin_request q_Body]. rewrite user_text_roundtrip by done. fold (user_model u).
    destruct (Add_holds st m (user_model u) Hm) as (H1 & H2 & H3); [destruct Hr; [by left|right; lia]|].
    set (st1 := set_users st _).
    destruct (save_users_spec st1) as (Hu & Hin & _); [by change (users_of st1) with (UserCache.Add (users_of st) (user_model u)); rewrite H3..|].
    assert (Eu : users_of (save_users E st1) = UserCache.Add (users_of st) (user_model u)) by exact Hu.
    exists (save_users E st1). split; [done|]. split; [unfold holds; by rewrite Eu|]. split; [|by rewrite Eu].
    unfold room. rewrite Eu, H2. destruct Hr as [?|Hr]; [by left|right]. rewrite (Len_holds st m Hm) in Hr.
    unfold SafeStrMap.Len. rewrite H1, map_size_fmap.
    rewrite map_size_insert. destruct (m !! _); simpl; lia.
  - rewrite (ServeHTTP_admin st "GET" _ _ UserGet _ (user_get_dispatch id Ho)) by done. cbn [handle].
    change (default ""%string (list_to_map [("id"%string, id)] !! "id"%string)) with id.
    exists st. unfold user_Get. fold (users_of st). rewrite (Get_holds st m) by done. cbn [spec fst snd].
    split; [by destruct (m !! id)|]. split; [done|]. split; [destruct Hr; [by left|right; lia]|done].
  - rewrite (ServeHTTP_admin st "DELETE" _ _ UserDel _ (user_del_dispatch id Ho)) by done. cbn [handle].
    change (default ""%string (list_to_map [("id"%string, id)] !! "id"%string)) with id. unfold user_Del.
    set (st1 := set_users st _).
    assert (E1 : users_of st1 = UserCache.Del (users_of st) id) by done.
    assert (Hdata : SafeStrMap.data (Users (users_of st1)) = Some <$> delete id m).
    { rewrite E1. unfold UserCache.Del, SafeStrMap.Del. cbn. rewrite Hm, lookup_fmap, fmap_delete.
      destruct (m !! id) eqn:Eg; cbn; [by rewrite Hm|]. rewrite Hm, delete_id; [done|]. by rewrite lookup_fmap, Eg. }
    assert (Hs : SafeStrMap.size (Users (users_of st1)) = SafeStrMap.size (Users (users_of st)) /\ File (users_of st1) = File (users_of st)).
    { rewrite E1. unfold UserCache.Del, SafeStrMap.Del. cbn. by destruct (_ !! id). }
    destruct Hs as [Hs Hfile]. destruct (save_users_spec st1) as (Hu & Hin & _); [by rewrite Hfile..|].
    exists (save_users E st1). split; [done|]. split; [unfold holds; by rewrite Hu|]. split; [|by rewrite Hu].
    unfold room. rewrite Hu, Hs. destruct Hr as [?|Hr]; [by left|right]. rewrite (Len_holds st m Hm) in Hr.
    unfold SafeStrMap.Len. rewrite Hdata, map_size_fmap. rewrite map_size_delete. destruct (m !! id); simpl; lia.
Qed.

Fixpoint serve_all st (qs : list request) : go (state S * list response) :=
  match qs with
  | [] => Ret (st, [])
  | q :: qs =>
      r ← ServeHTTP E now h st q;
      rs ← serve_all r.1 qs;
      Ret (rs.1, r.2 :: rs.2)
  end.

(** The identities are the keys. *)
Definition keyed (m : gmap string User.t) : Prop := forall k u, m !! k = Some u -> k = User.Id u.

Lemma keyed_insert m x : keyed m -> keyed (<[User.Id x := x]> m).
Proof. intros Hm k v. rewrite lookup_insert_Some. intros [[<- <-]|[_ Hk]]; [done|by apply Hm]. Qed.

Lemma spec_keyed m o : keyed m -> keyed (spec m o).1.
Proof.
  intros Hm. destruct o as [u|id|id]; cbn [spec fst]; [|done|].
  - intros k v. rewrite lookup_insert_Some. intros [[<- <-]|[_ Hk]]; [|by apply Hm].
    destruct (m !! User.Id (user_model u)) as [older|] eqn:Eg; [|done]. by rewrite (Hm _ _ Eg).
  - intros k v [_ Hk]%lookup_delete_Some. by apply Hm.
Qed.

Lemma Get_load st m text t :
  holds st m -> keyed m -> (forall A (x : gmap string A), e_order E A x ≡ₚ map_to_list x) ->
  SafeStrMap.Len (Users (users_of st)) <= 1024 -> map_Forall (fun _ u => savable (e_fmt_lease E) (e_parse_lease E) u) m ->
  UserCache.Save (e_fmt_lease E) (users_of st) (entries E (Users (users_of st))) = Some text ->
  forall key, UserCache.Get (Load (e_parse_lease E) NewUserCache (Some text) t) key =
    match m !! key with
    | Some u => if String.eqb (User.Role u) "ldap" then None else Some (reloaded u t)
    | None => None
    end.
Proof.
  intros Hm Hk Ho Hlen Hs Htext key. rewrite <- (Get_holds st m) by done.
  apply (save_load (e_fmt_lease E) (e_parse_lease E) (users_of st) (entries E (Users (users_of st)))); [apply Ho|done| |done].
  intros k u. rewrite (Get_holds st m) by done. intros Hu. split; [by apply Hk|by eapply Hs].
Qed.

Lemma spec_all_keyed m os : keyed m -> keyed (spec_all m os).1.
Proof.
  revert m. induction os as [|o os IH]; intros m Hm; [done|]. cbn [spec_all].
  pose proof (spec_keyed m o Hm) as Hk. destruct (spec m o) as [m1 r]. specialize (IH m1 Hk).
  by destruct (spec_all m1 os).
Qed.

Lemma serve_all_spec os : forall st m,
  Forall uop_ok os -> holds st m -> room st (length os) ->
  e_denied E (File (users_of st)) = false -> File (users_of st) <> ""%string ->
  exists st', serve_all st (map (user_request h) os) = Ret (st', (spec_all m os).2) /\
    holds st' (spec_all m os).1 /\ File (users_of st') = File (users_of st) /\ (in_file st -> in_file st').
Proof.
  induction os as [|o os IH]; intros st m Hok Hm Hr Hd Hf; [by exists st|].
  apply Forall_cons in Hok as [Ho Hok].
  destruct (serve_step st m o (length os) Ho Hm Hr Hd Hf) as (st1 & E1 & Hm1 & Hr1 & Hf1 & Hi1).
  cbn [map serve_all spec_all]. rewrite E1. destruct (spec m o) as [m1 r]. cbn [fst snd] in *.
  assert (Hi : in_file st -> in_file st1) by (destruct o; auto).
  destruct (IH st1 m1 Hok Hm1 Hr1) as (st2 & E2 & Hm2 & Hf2 & Hi2); [by rewrite Hf1..|].
  exists st2. destruct (spec_all m1 os) as [m2 rs]. cbn [fst snd] in *.
  split; [|split; [done|split; [congruence|tauto]]]. cbn. by rewrite E2.
Qed.
End api.

(** ** Theorems *)

(** (C9) The API of users refines a table of users: whatever additions, look-ups and
    removals are asked for, in any order and as the texts a client would send, with the
    administrator's token and while there is room, every request is answered with what the
    table promises at that moment (the user or 404; an addition keeps what the new user
    leaves empty of the older one), the switch holds exactly the users of the table in the
    end, and the file of users, if it followed the table, still does. *)
Theorem user_api_refines {S : Type} `{Switcher S} (E : env) (now : Z) (h : Http) (st : state S) (m : gmap string User.t)
    (os : list uop) :
  Forall uop_ok os -> holds st m -> room st (length os) ->
  e_denied E (File (users_of st)) = false -> File (users_of st) <> ""%string ->
  exists st', serve_all E now h st (map (user_request h) os) = Ret (st', (spec_all E now m os).2) /\
    holds st' (spec_all E now m os).1 /\ (in_file E st -> in_file E st').
Proof.
  intros Hok Hm Hr Hd Hf. destruct (serve_all_spec E now h os st m Hok Hm Hr Hd Hf) as (st' & H1 & H2 & _ & H3).
  by exists st'.
Qed.

(** (C12) A user sent to the API can log in, and still can after a restart, if the file of
    users can hold it: let the switch have room for one user more and fewer than 1024
    users, let the new user have a local role and a name it does not have yet, and let
    every user, the new one included, be one whose line can be read back ([savable]: a
    network, no colon in identity, password or role, no line break, a lease the time format
    keeps), and let the file be writable.  When the text of the user is posted with the
    administrator's token, the request is accepted; from then on a login with that identity
    is answered by the password and the lease that were sent, without asking an LDAP
    server; and the file that was written, loaded by a process that starts with no users,
    gives the same answers. *)
Theorem added_user_logs_in {S : Type} `{Switcher S} (E : env) (now : Z) (h : Http) (st : state S) (m : gmap string User.t)
    (u : sUser.t) :
  let x := user_model E now u in
  let refused (obj : User.t) (ok : User.t) tz t :=
    if String.eqb (User.Password x) (User.Password obj)
    then if lease_valid tz t (User.Lease x) then inl ok else inr out_of_date else inr wrong_login in
  user_ok u -> local_role (User.Role x) = true -> holds st m -> keyed m -> m !! User.Id x = None -> room st 1 ->
  e_denied E (File (users_of st)) = false -> File (users_of st) <> ""%string ->
  (forall A (l : gmap string A), e_order E A l ≡ₚ map_to_list l) ->
  Z.of_nat (base.size m) < 1024 ->
  map_Forall (fun _ v => savable (e_fmt_lease E) (e_parse_lease E) v) (<[User.Id x := x]> m) ->
  exists st' text,
    ServeHTTP E now h st (user_request h (UAdd u)) = Ret (st', ResponseMsg 0 "") /\
    st_files st' !! File (users_of st) = Some text /\
    (forall dial obj tz t, User.Id obj = User.Id x ->
       (Check dial (users_of st') obj tz t).2 = refused obj x tz t) /\
    (forall dial obj tz t0 t, User.Id obj = User.Id x ->
       (Check dial (Load (e_parse_lease E) NewUserCache (Some text) t0) obj tz t).2 = refused obj (reloaded x t0) tz t).
Proof.
  intros x refused Hu Hrole Hm Hk Hnew Hroom Hd Hf Ho Hsize Hsav.
  destruct (serve_step E now h st m (UAdd u) 0 Hu Hm Hroom Hd Hf) as (st' & Hserve & Hm' & _ & Hf' & Hin').
  cbn [spec fst snd] in *. fold x in Hm'. rewrite Hnew in Hm'. specialize (Hin' I). unfold in_file in Hin'.
  assert (Hsave := save_unlines (e_fmt_lease E) (users_of st') (entries E (Users (users_of st'))) ltac:(congruence)).
  rewrite Hsave, Hf' in Hin'. eexists st', _. split; [exact Hserve|]. split; [exact Hin'|].
  assert (Hid : forall obj : User.t, User.Id obj = User.Id x -> UserCache.Get (users_of st') (User.Id obj) = Some x).
  { intros obj ->. rewrite (Get_holds st' _ _ Hm'). apply lookup_insert_eq. }
  split.
  - intros dial obj tz t Eo. by rewrite (proj2 (check_stored dial _ obj x tz t (Hid obj Eo) Hrole)).
  - intros dial obj tz t0 t Eo.
    assert (Hg : UserCache.Get (Load (e_parse_lease E) NewUserCache (Some (unlines (user_line (e_fmt_lease E) <$>
        filter (fun u => User.Role u <> "ldap"%string) (UserCache.List_ (entries E (Users (users_of st'))))))) t0) (User.Id obj) =
      Some (reloaded x t0)).
    { rewrite (Get_load E st' _ _ t0 Hm'); [|by apply keyed_insert|done| |done|done].
      - rewrite Eo, lookup_insert_eq. assert (Hn : String.eqb (User.Role x) "ldap" = false); [|by rewrite Hn].
        apply String.eqb_neq. intros Er. by rewrite Er in Hrole.
      - rewrite (Len_holds st' _ Hm'). rewrite map_size_insert_None by done. lia. }
    by rewrite (proj2 (check_stored dial _ obj (reloaded x t0) tz t Hg Hrole)).
Qed.

(** ** Examples *)

Definition demo_table : gmap string User.t := {[ "bob@net"%string := demo_user ]}.
Definition demo_new : sUser.t := sUser.mk "" "guest" "ann" "pw" "net" "77".
Definition demo_model : User.t := user_model demo_env 0 demo_new.
Definition demo_ops : list uop := [UAdd demo_new; UGet "ann@net"; UDel "bob@net"; UGet "bob@net"].

Lemma demo_holds : holds demo_api demo_table.
Proof. unfold holds. vm_compute. reflexivity. Qed.
Lemma demo_new_ok : user_ok demo_new.
Proof. repeat constructor. Qed.
Lemma demo_ops_ok : Forall uop_ok demo_ops.
Proof. unfold demo_ops. repeat constructor; try exact demo_new_ok; try discriminate. Qed.
Lemma demo_room n : (n <= 1000)%nat -> room demo_api n.
Proof.
  intros Hn. right. change (SafeStrMap.Len (Users (users_of demo_api))) with 1.
  change (SafeStrMap.size (Users (users_of demo_api))) with 1024. lia.
Qed.
Lemma demo_savable : map_Forall (fun _ v => savable (e_fmt_lease demo_env) (e_parse_lease demo_env) v) (<[User.Id demo_model := demo_model]> demo_table).
Proof.
  apply map_Forall_insert_2; [|apply map_Forall_singleton];
    (split; [vm_compute; reflexivity|]; split; [discriminate|]; vm_compute; repeat split; discriminate).
Qed.

Lemma user_api_refines_witness :
  exists st', serve_all demo_env 0 demo_http demo_api (map (user_request demo_http) demo_ops) =
      Ret (st', [ResponseMsg 0 ""; ResponseJson (sUser.json (NewUserSchema UserCache.demo_fmt demo_model)); ResponseMsg 0 ""; Error "bob@net" 404]) /\
    holds st' {[ "ann@net"%string := demo_model ]}.
Proof.
  destruct (user_api_refines demo_env 0 demo_http demo_api demo_table demo_ops demo_ops_ok demo_holds (demo_room 4 ltac:(lia)) eq_refl
    ltac:(discriminate)) as (st' & H1 & H2 & _).
  exists st'. split.
  - etransitivity; [exact H1|]. vm_compute. reflexivity.
  - assert (E : (spec_all demo_env 0 demo_table demo_ops).1 = {[ "ann@net"%string := demo_model ]}) by (vm_compute; reflexivity).
    rewrite <- E. exact H2.
Defined.

Lemma added_user_logs_in_witness :
  exists st' text,
    ServeHTTP demo_env 0 demo_http demo_api (user_request demo_http (UAdd demo_new)) = Ret (st', ResponseMsg 0 "") /\
    st_files st' !! "/etc/openlan/switch/password"%string = Some text /\
    (Check (fun _ => None) (Load UserCache.demo_parse NewUserCache (Some text) 5)
       (User.Update (User.with_login "ann@net" "pw" "" "" 0) 5) 0 60).2 = inl (reloaded demo_model 5) /\
    (Check (fun _ => None) (Load UserCache.demo_parse NewUserCache (Some text) 5)
       (User.Update (User.with_login "ann@net" "no" "" "" 0) 5) 0 60).2 = inr wrong_login.
Proof.
  destruct (added_user_logs_in demo_env 0 demo_http demo_api demo_table demo_new demo_new_ok eq_refl demo_holds) as (st' & text & H1 & H2 & _ & H4).
  - unfold demo_table. intros k u [<- <-]%lookup_singleton_Some. reflexivity.
  - vm_compute. reflexivity.
  - apply demo_room. lia.
  - reflexivity.
  - discriminate.
  - intros A l. reflexivity.
  - vm_compute. reflexivity.
  - exact demo_savable.
  - exists st', text. split; [exact H1|]. split; [|split].
    + exact H2.
    + rewrite (H4 (fun _ => None) _ 0 5 60); [vm_compute; reflexivity|reflexivity].
    + rewrite (H4 (fun _ => None) _ 0 5 60); [vm_compute; reflexivity|reflexivity].
Defined.
