(* ===== verification/Proxy.v ===== *)
(** * The proxy (pkg/proxy, pkg/config/proxy.go)

    Its configuration, the HTTP proxy with its authentication, the TCP proxy that
    balances connections over its targets, the two copies of a tunnel as a step relation,
    and the proxies of one configuration.  The SOCKS server itself, dialling and the
    round trip of a request are the environment's. *)

From S2P Require Import Prelude GoStd Json Base64 Utils Config Socket.

Local Open Scope Z_scope.
Local Arguments String.append !_ _ / : simpl nomatch.

(** ** Configuration (config/proxy.go) *)

Record ShadowProxy := {
  shp_Server : string; shp_Key : string; shp_Cipher : string; shp_Password : string; shp_Plugin : string;
  shp_PluginOpts : string; shp_Protocol : string
}.
Record SocksConfig := { sc_Listen : string; sc_Auth : Password }.
Record HttpConfig := { hc_Listen : string; hc_Auth : Password; hc_Cert : option Cert }.
Record TcpConfig := { tc_Listen : string; tc_Target : list string }.

(** The elements of the lists are pointers, which a null of the file makes nil. *)
Record ProxyConfig := {
  px_Conf : string; px_Log : Log; px_Socks : list (option SocksConfig); px_Http : list (option HttpConfig);
  px_Tcp : list (option TcpConfig); px_Shadow : list (option ShadowProxy); px_PProf : string
}.

Definition http_cert_Correct (h : HttpConfig) : HttpConfig :=
  {| hc_Listen := hc_Listen h; hc_Auth := hc_Auth h; hc_Cert := option_map cert_Correct (hc_Cert h) |}.

(** The loop reads the field of each element without a test. *)
Fixpoint correct_https (l : list (option HttpConfig)) : go (list (option HttpConfig)) :=
  match l with
  | [] => mret []
  | None :: _ => Panic
  | Some h :: l => l ← correct_https l; mret (Some (http_cert_Correct h) :: l)
  end.
Definition proxy_Correct (p : ProxyConfig) : go ProxyConfig :=
  https ← correct_https (px_Http p);
  mret {| px_Conf := px_Conf p; px_Log := px_Log p; px_Socks := px_Socks p; px_Http := https; px_Tcp := px_Tcp p;
          px_Shadow := px_Shadow p; px_PProf := px_PProf p |}.
Definition proxy_Default (p : ProxyConfig) : go ProxyConfig := proxy_Correct p.

Definition DefaultProxy (GOOS : string) : go ProxyConfig :=
  proxy_Correct {| px_Conf := ""; px_Log := {| log_File := LogFile GOOS "openlan-proxy.log"; log_Verbose := INFO |};
                   px_Socks := []; px_Http := []; px_Tcp := []; px_Shadow := []; px_PProf := "" |}.

(** [load] is [UnmarshalLoad]: what it made of the file, with an error or without. *)
Definition proxy_Initialize (load : ProxyConfig -> ProxyConfig * bool) (p : ProxyConfig) : go ProxyConfig :=
  proxy_Default (load p).1.

(** ** The HTTP proxy (proxy/http.go) *)

Abbreviation header := (gmap string (list string)).

(** [Get], [Set] and [Add] of a header, for names in canonical form. *)
Definition Header_Get (h : header) (key : string) : string := default "" (h !! key ≫= head).
Definition Header_Set (h : header) (key v : string) : header := <[key := [v]]> h.
Definition Header_Add (h : header) (key v : string) : header := <[key := default [] (h !! key) ++ [v]]> h.

Record Request := { rq_Method : string; rq_Host : string; rq_Header : header }.
Record Response := { rs_StatusCode : Z; rs_Header : header; rs_Body : string }.

(** [http.Error] on the header made so far. *)
Definition http_Error (h : header) (text : string) (code : Z) : Response :=
  {| rs_StatusCode := code;
     rs_Header := Header_Set (Header_Set h "Content-Type" "text/plain; charset=utf-8") "X-Content-Type-Options" "nosniff";
     rs_Body := text +:+ String (chr 10) "" |}.

Record HttpProxy := { hp_users : gmap string string; hp_cfg : HttpConfig }.

Definition NewHttpProxy (cfg : HttpConfig) : HttpProxy :=
  {| hp_users := if (0 <? String.length (pw_Username (hc_Auth cfg)))%nat
                 then {[pw_Username (hc_Auth cfg) := pw_Password (hc_Auth cfg)]} else ∅;
     hp_cfg := cfg |}.

(** [strings.EqualFold] of six bytes with an ASCII text. *)
Definition parseBasicAuth (auth : string) : option (string * string) :=
  let prefix := "Basic "%string in
  if (String.length auth <? String.length prefix)%nat
     || negb (String.eqb (ToLower (String.substring 0 (String.length prefix) auth)) (ToLower prefix)) then None
  else
    match DecodeString StdAlphabet
            (String.substring (String.length prefix) (String.length auth - String.length prefix) auth) with
    | None => None
    | Some cs => match cut char_colon cs with Some (u, p) => Some (u, p) | None => None end
    end.

Definition isAuth (t : HttpProxy) (username password : string) : bool :=
  match hp_users t !! username with Some p => String.eqb p password | None => false end.

(** The answer that refuses the request, or nothing. *)
Definition CheckAuth (t : HttpProxy) (r : Request) : option Response :=
  if Nat.eqb (size (hp_users t)) 0 then None
  else
    let denied := Some (http_Error (Header_Set ∅ "Proxy-Authenticate" "Basic") "Proxy Authentication Required" 407) in
    match parseBasicAuth (Header_Get (rq_Header r) "Proxy-Authorization") with
    | Some (user, password) => if isAuth t user password then None else denied
    | None => denied
    end.

(** The header of the target's answer, copied; the first value of the one name is dropped. *)
Definition route_values (key : string) (value : list string) : list string :=
  if String.eqb key "Proxy-Authorization" then drop 1 value else value.
Definition add_values (key : string) (value : list string) (h : header) : header :=
  foldl (fun h v => Header_Add h key v) h value.
Definition http_route (p : Response) : Response :=
  {| rs_StatusCode := rs_StatusCode p;
     rs_Header := map_fold (fun key value h => add_values key (route_values key value) h) ∅ (rs_Header p);
     rs_Body := rs_Body p |}.

Definition connectOkay : string :=
  "HTTP/1.1 200 Connection established" +:+ string_of_bytes [13; 10; 13; 10].

(** What a request comes to: an answer, or a tunnel to a host. *)
Inductive outcome :=
| Answered (p : Response)
| Tunnelled (host : string).

Section http.
(** [net.Dial] gives the text of its error; [RoundTrip] an answer or the text of its
    error; [Hijack] the text of its error. *)
Context (dial : string -> option string) (RoundTrip : Request -> Response + string) (Hijack : option string).

(** [tunnel] after the greeting was written, which is the body of an answer if the
    connection cannot be taken over. *)
Definition http_tunnel (host : string) : outcome :=
  match Hijack with
  | Some err => Answered {| rs_StatusCode := 200; rs_Header := ∅; rs_Body := connectOkay +:+ err +:+ String (chr 10) "" |}
  | None => Tunnelled host
  end.

Definition http_ServeHTTP (t : HttpProxy) (r : Request) : outcome :=
  match CheckAuth t r with
  | Some denied => Answered denied
  | None =>
      if String.eqb (rq_Method r) "CONNECT" then
        match dial (rq_Host r) with
        | Some err => Answered (http_Error ∅ err 502)
        | None => http_tunnel (rq_Host r)
        end
      else
        match RoundTrip r with
        | inr err => Answered (http_Error ∅ err 502)
        | inl p => Answered (http_route p)
        end
  end.
End http.

(** *** Start *)

(** [http.Server]: one that was shut down serves no more. *)
Record Server := { srv_Addr : string; srv_inShutdown : bool }.
Definition Shutdown (s : Server) : Server := {| srv_Addr := srv_Addr s; srv_inShutdown := true |}.

(** [ListenAndServe] up to the point where it serves; [can_listen] is whether the port
    can be had. *)
Definition ListenAndServe (can_listen : bool) (s : Server) : bool := negb (srv_inShutdown s) && can_listen.

(** The call that [Start] promises: it shuts the server down when [ListenAndServe] returns,
    that is, when it does not serve. *)
Fixpoint http_Start (s : Server) (can_listen : list bool) : Server * bool :=
  match can_listen with
  | [] => (s, false)
  | c :: more => if ListenAndServe c s then (s, true) else http_Start (Shutdown s) more
  end.

(** ** The TCP proxy (proxy/tcp.go) *)

(** [rr] is a uint64. *)
Record TcpProxy := { tp_listen : string; tp_target : list string; tp_listening : bool; tp_rr : Z }.
Definition NewTcpProxy (cfg : TcpConfig) : TcpProxy :=
  {| tp_listen := tc_Listen cfg; tp_target := tc_Target cfg; tp_listening := false; tp_rr := 0 |}.

Definition set_rr (t : TcpProxy) (rr : Z) : TcpProxy :=
  {| tp_listen := tp_listen t; tp_target := tp_target t; tp_listening := tp_listening t; tp_rr := rr |}.
Definition set_listening (t : TcpProxy) (l : bool) : TcpProxy :=
  {| tp_listen := tp_listen t; tp_target := tp_target t; tp_listening := l; tp_rr := tp_rr t |}.

Definition loadBalance (t : TcpProxy) (fail : nat) : TcpProxy * string :=
  let size := length (tp_target t) in
  if (fail <? size)%nat then
    let i := tp_rr t mod Z.of_nat size in
    (set_rr t ((tp_rr t + 1) mod 2 ^ 64), default "" (tp_target t !! Z.to_nat i))
  else (t, "")%string.

(** The loop that connects an accepted connection to a target: [None] leaves the
    connection as it is, neither piped nor closed.  [dial n b] is whether the n-th dial
    of this connection reaches the target. *)
Fixpoint connect (dial : nat -> string -> bool) (fuel fail : nat) (t : TcpProxy) : TcpProxy * option string :=
  match fuel with
  | O => (t, None)
  | S fuel =>
      let '(t, backend) := loadBalance t fail in
      if String.eqb backend "" then (t, None)
      else if dial fail backend then (t, Some backend)
      else connect dial fuel (S fail) t
  end.
(** Each failed dial counts, and there are no more backends after as many as there are targets. *)
Definition accepted (dial : nat -> string -> bool) (t : TcpProxy) : TcpProxy * option string :=
  connect dial (S (length (tp_target t))) 0 t.

(** [Start] up to the loop that accepts: the outcomes of [net.Listen] until it succeeds. *)
Definition tcp_Start (t : TcpProxy) (can_listen : list bool) : TcpProxy :=
  match promise_Done {| Count := 0; MaxTry := 0; First := 2; MinInt := 10; MaxInt := 60 |} can_listen [] with
  | Some _ => set_listening t true
  | None => t
  end.
Definition tcp_Stop (t : TcpProxy) : TcpProxy := set_listening t false.

(** ** Tunnels *)

(** A connection with its peer: everything the peer has sent, the part of it that has not
    been read yet, whether the peer has said that nothing more will come, everything that
    was written to the peer, and whether the connection is open on this side. *)
Record conn := {
  cn_sent : bytes; cn_unread : bytes; cn_fin : bool; cn_given : bytes; cn_open : bool
}.
Definition new_conn : conn := {| cn_sent := []; cn_unread := []; cn_fin := false; cn_given := []; cn_open := true |}.
Definition peer_sends (c : conn) (piece : bytes) : conn :=
  {| cn_sent := cn_sent c ++ piece; cn_unread := cn_unread c ++ piece; cn_fin := cn_fin c; cn_given := cn_given c; cn_open := cn_open c |}.
Definition peer_ends (c : conn) : conn :=
  {| cn_sent := cn_sent c; cn_unread := cn_unread c; cn_fin := true; cn_given := cn_given c; cn_open := cn_open c |}.
Definition conn_take (c : conn) (n : nat) : conn :=
  {| cn_sent := cn_sent c; cn_unread := drop n (cn_unread c); cn_fin := cn_fin c; cn_given := cn_given c; cn_open := cn_open c |}.
Definition conn_give (c : conn) (piece : bytes) : conn :=
  {| cn_sent := cn_sent c; cn_unread := cn_unread c; cn_fin := cn_fin c; cn_given := cn_given c ++ piece; cn_open := cn_open c |}.
Definition shut (c : conn) : conn :=
  {| cn_sent := cn_sent c; cn_unread := cn_unread c; cn_fin := cn_fin c; cn_given := cn_given c; cn_open := false |}.

(** [io.Copy] in one direction: it is about to read, it holds a piece it has read and not
    written yet, or it has returned. *)
Inductive copier := Reading | Holding (piece : bytes) | Returned.
#[export] Instance copier_eq_dec : EqDecision copier.
Proof. solve_decision. Defined.

(** [Up] copies from the client to the target, [Down] back. *)
Inductive dir := Up | Down.
#[export] Instance dir_eq_dec : EqDecision dir.
Proof. solve_decision. Defined.
Definition other (d : dir) : dir := match d with Up => Down | Down => Up end.

(** The goroutine that set the copiers up: it waits for the first that is done, has closed
    the connection of the client, has closed that of the target too. *)
Inductive stage := Waits | Closing | Ended.
#[export] Instance stage_eq_dec : EqDecision stage.
Proof. solve_decision. Defined.

(** [tn_src] is the connection of the client, [tn_dst] that of the target. *)
Record tunnel := { tn_up : copier; tn_down : copier; tn_src : conn; tn_dst : conn; tn_stage : stage }.
Definition new_tunnel : tunnel :=
  {| tn_up := Reading; tn_down := Reading; tn_src := new_conn; tn_dst := new_conn; tn_stage := Waits |}.

Definition side (t : tunnel) (d : dir) : copier := match d with Up => tn_up t | Down => tn_down t end.
Definition set_side (t : tunnel) (d : dir) (c : copier) : tunnel :=
  match d with
  | Up => {| tn_up := c; tn_down := tn_down t; tn_src := tn_src t; tn_dst := tn_dst t; tn_stage := tn_stage t |}
  | Down => {| tn_up := tn_up t; tn_down := c; tn_src := tn_src t; tn_dst := tn_dst t; tn_stage := tn_stage t |}
  end.
(** The connection a copier reads from, and the one it writes to: [io.Copy(dst, src)] and
    [io.Copy(src, dst)]. *)
Definition conn_from (t : tunnel) (d : dir) : conn := match d with Up => tn_src t | Down => tn_dst t end.
Definition conn_to (t : tunnel) (d : dir) : conn := match d with Up => tn_dst t | Down => tn_src t end.
Definition set_from (t : tunnel) (d : dir) (c : conn) : tunnel :=
  match d with
  | Up => {| tn_up := tn_up t; tn_down := tn_down t; tn_src := c; tn_dst := tn_dst t; tn_stage := tn_stage t |}
  | Down => {| tn_up := tn_up t; tn_down := tn_down t; tn_src := tn_src t; tn_dst := c; tn_stage := tn_stage t |}
  end.
Definition set_to (t : tunnel) (d : dir) (c : conn) : tunnel :=
  match d with
  | Up => {| tn_up := tn_up t; tn_down := tn_down t; tn_src := tn_src t; tn_dst := c; tn_stage := tn_stage t |}
  | Down => {| tn_up := tn_up t; tn_down := tn_down t; tn_src := c; tn_dst := tn_dst t; tn_stage := tn_stage t |}
  end.

(** Who makes a step: a peer (who sends, ends, resets, or refuses what is written to it), a
    copier that moves bytes, or the proxy without either. *)
Inductive cause := Peer | Moves (d : dir) | Alone.

(** [closes_dst]: the TCP proxy closes both connections at the end, the HTTP proxy the
    client's alone.  A read takes some of what has arrived, and the end only when
    everything has been taken; a reset ends a copy at any time; a write that is refused may
    have written the first part of its piece; reading from and writing to a connection that
    this side has closed fail. *)
Inductive tunnel_step (closes_dst : bool) : cause -> tunnel -> tunnel -> Prop :=
| TS_send t d piece :
    cn_fin (conn_from t d) = false -> tunnel_step closes_dst Peer t (set_from t d (peer_sends (conn_from t d) piece))
| TS_fin t d : tunnel_step closes_dst Peer t (set_from t d (peer_ends (conn_from t d)))
| TS_read t d n :
    side t d = Reading -> cn_open (conn_from t d) = true -> (0 < n <= length (cn_unread (conn_from t d)))%nat ->
    tunnel_step closes_dst (Moves d) t
      (set_side (set_from t d (conn_take (conn_from t d) n)) d (Holding (firstn n (cn_unread (conn_from t d)))))
| TS_eof t d :
    side t d = Reading -> cn_open (conn_from t d) = true -> cn_unread (conn_from t d) = [] -> cn_fin (conn_from t d) = true ->
    tunnel_step closes_dst Alone t (set_side t d Returned)
| TS_reset t d :
    side t d = Reading -> cn_open (conn_from t d) = true -> tunnel_step closes_dst Peer t (set_side t d Returned)
| TS_write t d piece :
    side t d = Holding piece -> cn_open (conn_to t d) = true ->
    tunnel_step closes_dst (Moves d) t (set_side (set_to t d (conn_give (conn_to t d) piece)) d Reading)
| TS_refused t d piece n :
    side t d = Holding piece -> cn_open (conn_to t d) = true -> (n < length piece)%nat ->
    tunnel_step closes_dst Peer t (set_side (set_to t d (conn_give (conn_to t d) (firstn n piece))) d Returned)
| TS_read_closed t d :
    side t d = Reading -> cn_open (conn_from t d) = false -> tunnel_step closes_dst Alone t (set_side t d Returned)
| TS_write_closed t d piece :
    side t d = Holding piece -> cn_open (conn_to t d) = false -> tunnel_step closes_dst Alone t (set_side t d Returned)
| TS_close_src t d :
    tn_stage t = Waits -> side t d = Returned ->
    tunnel_step closes_dst Alone t
      {| tn_up := tn_up t; tn_down := tn_down t; tn_src := shut (tn_src t); tn_dst := tn_dst t; tn_stage := Closing |}
| TS_close_dst t :
    closes_dst = true -> tn_stage t = Closing ->
    tunnel_step closes_dst Alone t
      {| tn_up := tn_up t; tn_down := tn_down t; tn_src := tn_src t; tn_dst := shut (tn_dst t); tn_stage := Ended |}.

Definition tunnel_move (closes_dst : bool) (t t' : tunnel) : Prop := exists w, tunnel_step closes_dst w t t'.

(** ** The SOCKS proxy (proxy/socks.go) *)

(** The credentials of each method of authentication; none is no authentication. *)
Record SocksProxy := { sp_methods : list (gmap string string); sp_cfg : SocksConfig }.
Definition NewSocksProxy (socks5_New : list (gmap string string) -> option string) (cfg : SocksConfig) : option SocksProxy :=
  let auth := sc_Auth cfg in
  let methods := if (0 <? String.length (pw_Username auth))%nat then [{[pw_Username auth := pw_Password auth]}] else [] in
  match socks5_New methods with
  | Some _ => None
  | None => Some {| sp_methods := methods; sp_cfg := cfg |}
  end.

(** ** The proxies of a configuration (proxy/proxy.go) *)

(** [S] is a shadowsocks server, made by [new_shadow]. *)
Record ProxySet (S : Type) := {
  ps_cfg : option ProxyConfig; ps_tcp : gmap string TcpProxy; ps_socks : gmap string SocksProxy;
  ps_http : gmap string HttpProxy; ps_shadow : gmap string S
}.
Arguments ps_cfg {S}. Arguments ps_tcp {S}. Arguments ps_socks {S}. Arguments ps_http {S}. Arguments ps_shadow {S}.

Definition NewProxy {S} (cfg : option ProxyConfig) : ProxySet S :=
  {| ps_cfg := cfg; ps_tcp := ∅; ps_socks := ∅; ps_http := ∅; ps_shadow := ∅ |}.

Section set.
Context {S : Type} (new_shadow : ShadowProxy -> S) (socks5_New : list (gmap string string) -> option string).

Definition set_socks (p : ProxySet S) m : ProxySet S :=
  {| ps_cfg := ps_cfg p; ps_tcp := ps_tcp p; ps_socks := m; ps_http := ps_http p; ps_shadow := ps_shadow p |}.
Definition set_tcp (p : ProxySet S) m : ProxySet S :=
  {| ps_cfg := ps_cfg p; ps_tcp := m; ps_socks := ps_socks p; ps_http := ps_http p; ps_shadow := ps_shadow p |}.
Definition set_http (p : ProxySet S) m : ProxySet S :=
  {| ps_cfg := ps_cfg p; ps_tcp := ps_tcp p; ps_socks := ps_socks p; ps_http := m; ps_shadow := ps_shadow p |}.
Definition set_shadow (p : ProxySet S) m : ProxySet S :=
  {| ps_cfg := ps_cfg p; ps_tcp := ps_tcp p; ps_socks := ps_socks p; ps_http := ps_http p; ps_shadow := m |}.

(** A loop over pointers whose body puts an element into a map; [guarded] bodies skip a
    nil pointer, the others panic on it. *)
Fixpoint fill_map {A B} (guarded : bool) (add : A -> gmap string B -> gmap string B) (l : list (option A))
    (m : gmap string B) : go (gmap string B) :=
  match l with
  | [] => mret m
  | None :: l => if guarded then fill_map guarded add l m else Panic
  | Some a :: l => fill_map guarded add l (add a m)
  end.

Definition add_socks (c : SocksConfig) (m : gmap string SocksProxy) : gmap string SocksProxy :=
  match NewSocksProxy socks5_New c with Some s => <[sc_Listen c := s]> m | None => m end.
Definition add_tcp (c : TcpConfig) (m : gmap string TcpProxy) : gmap string TcpProxy :=
  <[tc_Listen c := NewTcpProxy c]> m.
Definition add_http (c : HttpConfig) (m : gmap string HttpProxy) : gmap string HttpProxy :=
  if String.eqb (hc_Listen c) "" then m else <[hc_Listen c := NewHttpProxy c]> m.
Definition add_shadow (c : ShadowProxy) (m : gmap string S) : gmap string S :=
  if String.eqb (shp_Server c) "" then m else <[shp_Server c := new_shadow c]> m.

Definition Initialize (p : ProxySet S) : go (ProxySet S) :=
  match ps_cfg p with
  | None => mret p
  | Some cfg =>
      socks ← fill_map false add_socks (px_Socks cfg) (ps_socks p);
      tcp ← fill_map false add_tcp (px_Tcp cfg) (ps_tcp p);
      http ← fill_map true add_http (px_Http cfg) (ps_http p);
      shadow ← fill_map true add_shadow (px_Shadow cfg) (ps_shadow p);
      mret (set_shadow (set_http (set_tcp (set_socks p socks) tcp) http) shadow)
  end.

(** [Start] and [Stop] of the set, for the TCP proxies; [Stop] leaves the SOCKS and HTTP
    servers running. *)
Definition Start_tcp (can_listen : string -> list bool) (p : ProxySet S) : ProxySet S :=
  match ps_cfg p with
  | None => p
  | Some _ => set_tcp p (map_imap (fun k t => Some (tcp_Start t (can_listen k))) (ps_tcp p))
  end.
Definition Stop_tcp (p : ProxySet S) : ProxySet S :=
  match ps_cfg p with
  | None => p
  | Some _ => set_tcp p (tcp_Stop <$> ps_tcp p)
  end.
End set.

(** ** Authentication *)

(** The copy of the parser is the one of the standard library. *)
Lemma parseBasicAuth_std auth : parseBasicAuth auth = http_parseBasicAuth auth.
Proof.
  unfold parseBasicAuth, http_parseBasicAuth. cbn [String.length]. change (ToLower "Basic ") with "basic "%string.
  destruct (_ || _); [done|]. destruct (DecodeString _ _) as [cs|]; [|done]. cbn [mbind option_bind].
  by destruct (cut char_colon cs) as [[u p]|].
Qed.

Definition credentials (cfg : HttpConfig) : string * string :=
  (pw_Username (hc_Auth cfg), pw_Password (hc_Auth cfg)).
Definition offered (r : Request) : option (string * string) :=
  parseBasicAuth (Header_Get (rq_Header r) "Proxy-Authorization").

Lemma isAuth_new cfg u p :
  pw_Username (hc_Auth cfg) <> ""%string -> isAuth (NewHttpProxy cfg) u p = true <-> (u, p) = credentials cfg.
Proof.
  intros Hn. unfold isAuth, NewHttpProxy, credentials. cbn [hp_users].
  destruct (pw_Username (hc_Auth cfg)) as [|a s] eqn:E; [done|]. cbn [String.length Nat.ltb Nat.leb].
  destruct (decide (u = String a s)) as [->|Hne].
  - rewrite lookup_singleton_eq, String.eqb_eq. split; [by intros ->|by intros [= ->]].
  - rewrite lookup_singleton_ne by congruence. split; [done|]. intros [= -> _]. congruence.
Qed.

Lemma CheckAuth_new cfg r :
  pw_Username (hc_Auth cfg) <> ""%string -> CheckAuth (NewHttpProxy cfg) r = None <-> offered r = Some (credentials cfg).
Proof.
  intros Hn. unfold CheckAuth, offered.
  assert (Hs : Nat.eqb (size (hp_users (NewHttpProxy cfg))) 0 = false).
  { unfold NewHttpProxy. cbn [hp_users]. destruct (pw_Username (hc_Auth cfg)) as [|a s]; [done|].
    cbn [String.length Nat.ltb Nat.leb]. by rewrite map_size_singleton. }
  rewrite Hs. destruct (parseBasicAuth _) as [[u p]|]; [|done].
  destruct (isAuth (NewHttpProxy cfg) u p) eqn:E.
  - apply isAuth_new in E; [|done]. by rewrite E.
  - split; [done|]. intros Ho. injection Ho as H1 H2.
    rewrite (proj2 (isAuth_new cfg u p Hn)) in E; [done|]. unfold credentials. by rewrite H1, H2.
Qed.

Lemma CheckAuth_denies t r p : CheckAuth t r = Some p -> rs_StatusCode p = 407 /\
  Header_Get (rs_Header p) "Proxy-Authenticate" = "Basic"%string.
Proof.
  unfold CheckAuth. destruct (Nat.eqb _ _); [done|]. destruct (parseBasicAuth _) as [[u q]|].
  - destruct (isAuth t u q); [done|]. by intros [= <-].
  - by intros [= <-].
Qed.

(** (C35) A proxy with a user serves exactly the requests that carry his name and password:
    for the others the answer is 407 with a challenge, whatever the network would do, so
    nothing is dialled or forwarded; the header a client makes of the configured name
    and password is accepted when the name has no colon, and no header is when it has one. *)
Theorem http_proxy_authenticates (cfg : HttpConfig) (r : Request) :
  pw_Username (hc_Auth cfg) <> ""%string ->
  (offered r <> Some (credentials cfg) ->
     exists p, rs_StatusCode p = 407 /\ Header_Get (rs_Header p) "Proxy-Authenticate" = "Basic"%string /\
       forall dial RoundTrip Hijack, http_ServeHTTP dial RoundTrip Hijack (NewHttpProxy cfg) r = Answered p) /\
  (offered r = Some (credentials cfg) ->
     forall dial RoundTrip Hijack, http_ServeHTTP dial RoundTrip Hijack (NewHttpProxy cfg) r =
       if String.eqb (rq_Method r) "CONNECT"
       then match dial (rq_Host r) with
            | Some err => Answered (http_Error ∅ err 502)
            | None => http_tunnel Hijack (rq_Host r)
            end
       else match RoundTrip r with inl p => Answered (http_route p) | inr err => Answered (http_Error ∅ err 502) end) /\
  (Header_Get (rq_Header r) "Proxy-Authorization" = basicAuth (pw_Username (hc_Auth cfg)) (pw_Password (hc_Auth cfg)) ->
     contains_char char_colon (pw_Username (hc_Auth cfg)) = false -> offered r = Some (credentials cfg)) /\
  (contains_char char_colon (pw_Username (hc_Auth cfg)) = true -> offered r <> Some (credentials cfg)).
Proof.
  intros Hn. split; [|split; [|split]].
  - intros Ho. destruct (CheckAuth (NewHttpProxy cfg) r) as [p|] eqn:E; [|by apply CheckAuth_new in E].
    destruct (CheckAuth_denies _ _ _ E) as [H1 H2]. exists p. split; [done|]. split; [done|].
    intros. unfold http_ServeHTTP. by rewrite E.
  - intros Ho dial RoundTrip Hijack. unfold http_ServeHTTP. rewrite (proj2 (CheckAuth_new cfg r Hn) Ho).
    destruct (String.eqb _ _); [done|]. by destruct (RoundTrip r).
  - intros Hh Hc. unfold offered. rewrite Hh, parseBasicAuth_std. by apply http_parse_basicAuth.
  - intros Hc. unfold offered, credentials. rewrite parseBasicAuth_std. unfold http_parseBasicAuth.
    destruct (_ || _); [done|]. destruct (DecodeString _ _) as [cs|]; [|done]. cbn [mbind option_bind].
    destruct (contains_char char_colon cs) eqn:Ecs; [|by rewrite cut_none].
    destruct (cut_some _ _ Ecs) as (l & rest & -> & _ & Hl). intros Ho. injection Ho as H1 _. congruence.
Qed.

Definition demo_http_proxy : HttpConfig :=
  {| hc_Listen := ":11082"; hc_Auth := {| pw_Username := "user"; pw_Password := "p:w" |}; hc_Cert := None |}.
Definition demo_connect (auth : string) : Request :=
  {| rq_Method := "CONNECT"; rq_Host := "example.org:443"; rq_Header := {["Proxy-Authorization" := [auth]]} |}.

Lemma http_proxy_authenticates_witness :
  http_ServeHTTP (fun _ => None) (fun _ => inr ""%string) None (NewHttpProxy demo_http_proxy) (demo_connect "basic dXNlcjpwOnc=")
    = Tunnelled "example.org:443" /\
  exists p, rs_StatusCode p = 407 /\
    http_ServeHTTP (fun _ => None) (fun _ => inr ""%string) None (NewHttpProxy demo_http_proxy) (demo_connect "Basic dXNlcjpwdw==")
      = Answered p.
Proof.
  split.
  - destruct (http_proxy_authenticates demo_http_proxy (demo_connect "basic dXNlcjpwOnc=")) as (_ & H & _); [done|].
    rewrite H by (vm_compute; reflexivity). vm_compute. reflexivity.
  - destruct (http_proxy_authenticates demo_http_proxy (demo_connect "Basic dXNlcjpwdw==")) as (H & _); [done|].
    destruct H as (p & H1 & _ & H2); [vm_compute; discriminate|]. exists p. split; [exact H1|]. apply H2.
Defined.

(** The name and password for the proxy are passed on to the target. *)
Lemma credentials_reach_target cfg r dial Hijack :
  CheckAuth (NewHttpProxy cfg) r = None -> rq_Method r <> "CONNECT"%string ->
  exists body, http_ServeHTTP dial
    (fun r' => inl {| rs_StatusCode := 200; rs_Header := ∅; rs_Body := Header_Get (rq_Header r') "Proxy-Authorization" |})
    Hijack (NewHttpProxy cfg) r = Answered {| rs_StatusCode := 200; rs_Header := ∅; rs_Body := body |} /\
  body = Header_Get (rq_Header r) "Proxy-Authorization".
Proof.
  intros Hc Hm. eexists. split; [|done]. unfold http_ServeHTTP. rewrite Hc.
  rewrite (proj2 (String.eqb_neq _ _) Hm). done.
Qed.

(** ** The header of an answer *)

Lemma add_values_lookup key value h k :
  add_values key value h !! k =
    if decide (k = key) then match value with [] => h !! k | _ => Some (default [] (h !! k) ++ value) end else h !! k.
Proof.
  revert h. induction value as [|v value IH]; intros h; [by destruct (decide _)|].
  change (add_values key (v :: value) h) with (add_values key value (Header_Add h key v)). rewrite IH.
  unfold Header_Add. destruct (decide (k = key)) as [->|Hne]; [|by rewrite lookup_insert_ne by congruence].
  rewrite lookup_insert_eq. destruct value; [done|]. simpl. by rewrite <- app_assoc.
Qed.

(** Every value of every name is copied, but for the first of the one name. *)
Lemma http_route_header p k :
  rs_Header (http_route p) !! k =
    match route_values k <$> rs_Header p !! k with Some [] | None => None | Some l => Some l end.
Proof.
  unfold http_route. cbn [rs_Header]. generalize (rs_Header p) as h. intros h.
  apply (map_fold_weak_ind (fun r h => r !! k = match route_values k <$> h !! k with Some [] | None => None | Some l => Some l end)).
  - done.
  - intros i v m r Hi IH. rewrite add_values_lookup. destruct (decide (k = i)) as [->|Hne].
    + rewrite lookup_insert_eq. rewrite Hi in IH. cbn [fmap option_fmap option_map] in *. rewrite IH.
      by destruct (route_values i v).
    + rewrite lookup_insert_ne by congruence. done.
Qed.

(** ** Getting the port *)

Lemma http_Start_shut s l : srv_inShutdown s = true -> (http_Start s l).2 = false.
Proof.
  revert s. induction l as [|c l IH]; intros s Hs; [done|]. cbn [http_Start]. unfold ListenAndServe. rewrite Hs.
  by apply IH.
Qed.

(** The HTTP proxy serves when the first attempt gets the port and never otherwise,
    since each attempt shuts the server down for good; the TCP proxy serves as soon as
    an attempt gets it. *)
Lemma http_start_first_only s l :
  srv_inShutdown s = false -> (http_Start s l).2 = default false (head l).
Proof.
  intros Hs. destruct l as [|[] l]; [done| |]; cbn [http_Start]; unfold ListenAndServe; rewrite Hs; [done|].
  by apply http_Start_shut.
Qed.
Lemma tcp_start_retries t n l : tp_listening (tcp_Start t (replicate n false ++ true :: l)) = true.
Proof.
  unfold tcp_Start.
  destruct (promise_Done_fails n l {| Count := 0; MaxTry := 0; First := 2; MinInt := 10; MaxInt := 60 |} []) as (p & more & -> & _);
    [done|simpl; lia|simpl; lia|done].
Qed.

(** ** Balancing *)

Section balance.
Context (t : TcpProxy).
Abbreviation size := (length (tp_target t)).

(** The backends in the order in which a connection tries them. *)
Definition ring (k : nat) : string :=
  default "" (tp_target t !! Z.to_nat ((tp_rr t + Z.of_nat k) mod Z.of_nat size)).

Definition no_wrap : Prop := 0 <= tp_rr t /\ tp_rr t + Z.of_nat size <= 2 ^ 64.
Definition named : Prop := Forall (fun b => b <> ""%string) (tp_target t).

Lemma ring_target k : (0 < size)%nat -> exists i, tp_target t !! i = Some (ring k).
Proof.
  intros Hs. unfold ring. set (i := Z.to_nat _). exists i.
  destruct (lookup_lt_is_Some_2 (tp_target t) i) as [b Hb]; [|by rewrite Hb].
  unfold i. pose proof (Z.mod_pos_bound (tp_rr t + Z.of_nat k) (Z.of_nat size) ltac:(lia)). lia.
Qed.

(** Every target is tried by a connection that finds none. *)
Lemma ring_covers i b : tp_target t !! i = Some b -> exists k, (k < size)%nat /\ ring k = b.
Proof.
  intros Hb. pose proof (lookup_lt_Some _ _ _ Hb) as Hi.
  exists (Z.to_nat ((Z.of_nat i - tp_rr t) mod Z.of_nat size)).
  pose proof (Z.mod_pos_bound (Z.of_nat i - tp_rr t) (Z.of_nat size) ltac:(lia)) as Hm. split; [lia|].
  unfold ring. rewrite Z2Nat.id by lia. rewrite Zplus_mod_idemp_r.
  replace (tp_rr t + (Z.of_nat i - tp_rr t)) with (Z.of_nat i) by lia.
  by rewrite Z.mod_small, Nat2Z.id, Hb by lia.
Qed.

Lemma connect_S dial fuel fail u :
  connect dial (S fuel) fail u =
    let '(u, backend) := loadBalance u fail in
    if String.eqb backend "" then (u, None)
    else if dial fail backend then (u, Some backend) else connect dial fuel (S fail) u.
Proof. done. Qed.

(** [connect] after [fail] failures. *)
Lemma connect_spec dial n fail rr :
  (fail + n = size)%nat -> no_wrap -> named -> rr = (tp_rr t + Z.of_nat fail) mod 2 ^ 64 ->
  match connect dial (S n) fail (set_rr t rr) with
  | (t', Some b) => exists k, (fail <= k < size)%nat /\ b = ring k /\ dial k b = true /\
      (forall j, (fail <= j < k)%nat -> dial j (ring j) = false) /\ t' = set_rr t ((tp_rr t + Z.of_nat k + 1) mod 2 ^ 64)
  | (t', None) => (forall j, (fail <= j < size)%nat -> dial j (ring j) = false) /\
      t' = set_rr t ((tp_rr t + Z.of_nat size) mod 2 ^ 64)
  end.
Proof.
  intros Hn [H0 Hw] Hnamed. revert fail rr Hn. induction n as [|n IH]; intros fail rr Hn Hrr.
  - cbn [connect]. unfold loadBalance. cbn [set_rr tp_target]. rewrite (proj2 (Nat.ltb_ge _ _)) by lia. cbn [String.eqb].
    split; [lia|]. rewrite Hrr. do 2 f_equal. lia.
  - rewrite Z.mod_small in Hrr by lia. rewrite connect_S. unfold loadBalance. cbn [set_rr tp_target tp_rr].
    rewrite (proj2 (Nat.ltb_lt _ _)) by lia. rewrite Hrr. fold (ring fail).
    destruct (ring_target fail ltac:(lia)) as [i Hi].
    pose proof (Forall_lookup_1 _ _ _ _ Hnamed Hi) as Hne. cbv beta in Hne.
    rewrite (proj2 (String.eqb_neq _ _) Hne).
    destruct (dial fail (ring fail)) eqn:Ed.
    + exists fail. split; [lia|]. do 2 (split; [done|]). split; [lia|]. done.
    + pose proof (IH (S fail) ((tp_rr t + Z.of_nat fail + 1) mod 2 ^ 64) ltac:(lia)) as IH'.
      assert (E : (tp_rr t + Z.of_nat fail + 1) mod 2 ^ 64 = (tp_rr t + Z.of_nat (S fail)) mod 2 ^ 64) by (f_equal; lia).
      specialize (IH' E). unfold set_rr in *. cbn [tp_listen tp_target tp_listening tp_rr] in *.
      assert (Hstep : forall j hi, (fail <= j < hi)%nat -> j = fail \/ (S fail <= j < hi)%nat) by lia.
      destruct (connect dial (S n) (S fail) _) as [t' [b|]].
      * destruct IH' as (k & Hk & -> & Hd & Hf & ->). exists k. split; [lia|]. do 2 (split; [done|]). split; [|done].
        intros j Hj. destruct (Hstep j k Hj) as [->|Hj']; [done|by apply Hf].
      * destruct IH' as [Hf ->]. split; [|done]. intros j Hj. destruct (Hstep j size Hj) as [->|Hj']; [done|by apply Hf].
Qed.
End balance.

Lemma set_rr_same t : set_rr t (tp_rr t) = t.
Proof. by destruct t. Qed.

(** A connection is piped to the first target in turn that can be reached, counting from
    where the last connection left off, and is left alone only when it has tried every
    target and reached none. *)
Theorem tcp_proxy_balances (t : TcpProxy) (dial : nat -> string -> bool) :
  no_wrap t -> named t -> tp_rr t < 2 ^ 64 ->
  match accepted dial t with
  | (t', Some b) => exists k, (k < length (tp_target t))%nat /\ b = ring t k /\ dial k b = true /\
      (forall j, (j < k)%nat -> dial j (ring t j) = false) /\ t' = set_rr t ((tp_rr t + Z.of_nat k + 1) mod 2 ^ 64)
  | (t', None) => forall i b, tp_target t !! i = Some b -> exists k, (k < length (tp_target t))%nat /\ ring t k = b /\ dial k b = false
  end.
Proof.
  intros Hw Hn Hrr. unfold accepted.
  pose proof (connect_spec t dial (length (tp_target t)) 0 (tp_rr t) eq_refl Hw Hn) as H.
  rewrite set_rr_same in H. destruct Hw as [H0 Hw].
  specialize (H ltac:(rewrite Z.add_0_r, Z.mod_small; lia)). destruct (connect dial _ 0 t) as [t' [b|]].
  - destruct H as (k & Hk & -> & Hd & Hf & ->). exists k. split; [lia|]. do 2 (split; [done|]). split; [|done].
    intros j Hj. apply Hf. lia.
  - intros i b Hb. destruct (ring_covers t i b Hb) as (k & Hk & <-). exists k. do 2 (split; [done|]). apply H. lia.
Qed.

Definition demo_tcp : TcpProxy :=
  {| tp_listen := ":80"; tp_target := ["a"; "b"; "c"]%string; tp_listening := true; tp_rr := 4 |}.
Lemma tcp_proxy_balances_witness :
  accepted (fun _ b => String.eqb b "a") demo_tcp = (set_rr demo_tcp 7, Some "a"%string).
Proof.
  pose proof (tcp_proxy_balances demo_tcp (fun _ b => String.eqb b "a")) as H.
  destruct (accepted _ demo_tcp) as [t' [b|]] eqn:E.
  - destruct H as (k & Hk & Hb & Hd & _ & ->); [split; vm_compute; congruence| |reflexivity|].
    { repeat constructor; discriminate. }
    apply String.eqb_eq in Hd. subst b. f_equal; [|f_equal; congruence].
    destruct k as [|[|[|k]]]; [discriminate Hd|discriminate Hd|reflexivity|simpl in Hk; lia].
  - exfalso. vm_compute in E. discriminate E.
Defined.

(** ** Tunnels *)

(** What a copier holds. *)
Definition held (c : copier) : bytes := match c with Holding piece => piece | _ => [] end.
(** What one direction has moved is the beginning of what was sent; while its copy lasts,
    nothing is missing. *)
Definition copied (c : copier) (rd wr : conn) : Prop :=
  cn_given wr `prefix_of` cn_sent rd /\
  (c <> Returned -> cn_sent rd = cn_given wr ++ held c ++ cn_unread rd).
Record tunnel_ok (closes_dst : bool) (t : tunnel) : Prop := {
  tok_up : copied (tn_up t) (tn_src t) (tn_dst t);
  tok_down : copied (tn_down t) (tn_dst t) (tn_src t);
  tok_src : cn_open (tn_src t) = bool_decide (tn_stage t = Waits);
  tok_dst : cn_open (tn_dst t) = negb (bool_decide (tn_stage t = Ended));
  tok_end : tn_stage t = Ended -> closes_dst = true;
  tok_over : tn_stage t <> Waits -> tn_up t = Returned \/ tn_down t = Returned
}.

Lemma copied_sends c rd wr piece : copied c rd wr -> copied c (peer_sends rd piece) wr.
Proof.
  intros [Hp He]. split; cbn; [by apply prefix_app_r|]. intros Hc. rewrite (He Hc), <- !app_assoc. done.
Qed.
Lemma copied_take rd wr n : copied Reading rd wr -> copied (Holding (firstn n (cn_unread rd))) (conn_take rd n) wr.
Proof.
  intros [Hp He]. split; cbn; [done|]. intros _. rewrite (take_drop n). by rewrite (He ltac:(done)).
Qed.
Lemma copied_give piece rd wr : copied (Holding piece) rd wr -> copied Reading rd (conn_give wr piece).
Proof.
  intros [Hp He]. specialize (He ltac:(done)). cbn in He. split; cbn.
  - rewrite He, app_assoc. by eexists.
  - intros _. by rewrite He, <- app_assoc.
Qed.
Lemma copied_refused piece n rd wr : copied (Holding piece) rd wr -> copied Returned rd (conn_give wr (firstn n piece)).
Proof.
  intros [Hp He]. specialize (He ltac:(done)). cbn in He. split; [cbn|done].
  rewrite He. apply prefix_app, prefix_app_r. exists (drop n piece). by rewrite take_drop.
Qed.
Lemma copied_over c rd wr : copied c rd wr -> copied Returned rd wr.
Proof. by intros [Hp _]. Qed.
#[local] Hint Resolve copied_sends copied_take copied_give copied_refused copied_over : core.

Lemma tunnel_ok_step closes_dst w t t' : tunnel_ok closes_dst t -> tunnel_step closes_dst w t t' -> tunnel_ok closes_dst t'.
Proof.
  intros [Hu Hd Hs Ht Hn Ho] Hst.
  destruct Hst as [t [] pc Hf|t []|t [] n Hc Hop Hl|t [] Hc Hop Hun Hf|t [] Hc Hop|t [] pc Hc Hop|t [] pc n Hc Hop Hl|t [] Hc Hop|t [] pc Hc Hop|t d Hw Hc|t Hcd Hw];
    cbn in *; try (rewrite Hc in *); constructor; cbn; eauto; try done;
    try (intros Hne; destruct (Ho Hne) as [?|?]; by auto).
  - by rewrite Ht, Hw.
  - intros _. destruct d; cbn in Hc; auto.
  - by rewrite Hs, Hw.
  - intros _. apply Ho. by rewrite Hw.
Qed.

Lemma tunnel_invariant closes_dst t : rtc (tunnel_move closes_dst) new_tunnel t -> tunnel_ok closes_dst t.
Proof.
  intros H. apply (rtc_ind_r (R := tunnel_move closes_dst) (fun t => tunnel_ok closes_dst t) new_tunnel); [| |exact H].
  - by constructor.
  - intros u v _ [w Hst] IH. by eapply tunnel_ok_step.
Qed.

(** A copy that lasts, between open connections, can move everything that has arrived. *)
Lemma copier_delivers closes_dst t d :
  tunnel_ok closes_dst t -> tn_stage t = Waits -> side t d <> Returned ->
  exists t', rtc (tunnel_step closes_dst (Moves d)) t t' /\ side t' d = Reading /\ cn_unread (conn_from t' d) = [] /\
    cn_sent (conn_from t' d) = cn_sent (conn_from t d) /\ tunnel_ok closes_dst t'.
Proof.
  intros Hok Hw Hr.
  assert (Hopen : forall u, tunnel_ok closes_dst u -> tn_stage u = Waits ->
    cn_open (conn_from u d) = true /\ cn_open (conn_to u d) = true).
  { intros u [_ _ Hs Ht _ _] Hu. rewrite Hu in Hs, Ht. by destruct d. }
  (* what is held goes first *)
  assert (exists u, rtc (tunnel_step closes_dst (Moves d)) t u /\ side u d = Reading /\ tn_stage u = Waits /\
    cn_sent (conn_from u d) = cn_sent (conn_from t d) /\ tunnel_ok closes_dst u) as (u & Hu & Hur & Huw & Hus & Huok).
  { destruct (side t d) as [|pc|] eqn:Ed; [by exists t| |done]. destruct (Hopen t Hok Hw) as [_ Hto].
    pose proof (TS_write closes_dst t d pc Ed Hto) as Hst. eexists. split; [by apply rtc_once|].
    split; [by destruct d|]. split; [by destruct d|]. split; [by destruct d|]. by eapply tunnel_ok_step. }
  destruct (cn_unread (conn_from u d)) as [|a l] eqn:El; [by exists u|].
  destruct (Hopen u Huok Huw) as [Hfrom _].
  pose proof (TS_read closes_dst u d (length (cn_unread (conn_from u d))) Hur Hfrom ltac:(rewrite El; simpl; lia)) as H1.
  set (v := set_side _ _ _) in H1. pose proof (tunnel_ok_step _ _ _ _ Huok H1) as Hv.
  assert (Hvw : tn_stage v = Waits) by by destruct d. destruct (Hopen v Hv Hvw) as [_ Hto].
  pose proof (TS_write closes_dst v d (firstn (length (cn_unread (conn_from u d))) (cn_unread (conn_from u d)))
    ltac:(by destruct d) Hto) as H2.
  eexists. split; [etrans; [exact Hu|eapply rtc_l; [exact H1|by apply rtc_once]]|]. split; [by destruct d|].
  split; [|split; [|by eapply tunnel_ok_step]].
  - transitivity (drop (length (cn_unread (conn_from u d))) (cn_unread (conn_from u d))); [by destruct d|by rewrite drop_all].
  - transitivity (cn_sent (conn_from u d)); [by destruct d|done].
Qed.

(** Without its connections a copier ends by itself. *)
Lemma copier_ends closes_dst t d : cn_open (tn_src t) = false -> cn_open (tn_dst t) = false ->
  rtc (tunnel_step closes_dst Alone) t (set_side t d Returned).
Proof.
  intros Hs Hd. assert (Hf : cn_open (conn_from t d) = false) by by destruct d.
  assert (Ht : cn_open (conn_to t d) = false) by by destruct d. destruct (side t d) as [|pc|] eqn:E.
  - apply rtc_once. by constructor.
  - apply rtc_once. by eapply TS_write_closed.
  - replace (set_side t d Returned) with t; [constructor|]. rewrite <- E. by destruct t, d.
Qed.

(** The goroutine that waits closes both connections when a copy has returned. *)
Lemma tunnel_closes t d : tunnel_ok true t -> side t d = Returned ->
  exists t', rtc (tunnel_step true Alone) t t' /\ tn_stage t' = Ended /\
    cn_open (tn_src t') = false /\ cn_open (tn_dst t') = false /\
    cn_given (tn_src t') = cn_given (tn_src t) /\ cn_given (tn_dst t') = cn_given (tn_dst t).
Proof.
  intros Hok Hd. assert (Hfin : forall u, tn_stage u = Closing -> cn_open (tn_src u) = false ->
    cn_given (tn_src u) = cn_given (tn_src t) -> cn_given (tn_dst u) = cn_given (tn_dst t) ->
    exists t', rtc (tunnel_step true Alone) u t' /\ tn_stage t' = Ended /\
      cn_open (tn_src t') = false /\ cn_open (tn_dst t') = false /\
      cn_given (tn_src t') = cn_given (tn_src t) /\ cn_given (tn_dst t') = cn_given (tn_dst t)).
  { intros u Hu Hs Hg1 Hg2. eexists. split; [by apply rtc_once, (TS_close_dst true u)|]. by split_and!. }
  destruct Hok as [_ _ Hs Ht _ _]. destruct (tn_stage t) eqn:Ew.
  - destruct (Hfin {| tn_up := tn_up t; tn_down := tn_down t; tn_src := shut (tn_src t); tn_dst := tn_dst t;
      tn_stage := Closing |}) as (t' & H1 & H2); [done..|].
    exists t'. split; [|done]. eapply rtc_l; [|exact H1]. by apply TS_close_src with d.
  - apply Hfin; done.
  - exists t. split; [constructor|]. done.
Qed.

(** (C36) What a tunnel of the TCP proxy has written to the target is the beginning of what
    the client has sent, and what it has written to the client the beginning of what the
    target has sent; while the connections are open and a copy lasts, it can move
    everything that has been sent so far in its direction, if the other side takes it.
    Once one copy has returned (its sender has ended or a connection has failed), the proxy
    by itself, whatever the peers do, closes both connections and ends both copies, and
    nothing more is written to anybody: what the other copy had not moved by then is lost. *)
Theorem tcp_tunnel_relays (t : tunnel) :
  rtc (tunnel_move true) new_tunnel t ->
  (cn_given (tn_dst t) `prefix_of` cn_sent (tn_src t) /\ cn_given (tn_src t) `prefix_of` cn_sent (tn_dst t)) /\
  (tn_stage t = Waits -> tn_up t <> Returned -> exists t', rtc (tunnel_step true (Moves Up)) t t' /\
     cn_sent (tn_src t') = cn_sent (tn_src t) /\ cn_given (tn_dst t') = cn_sent (tn_src t)) /\
  (tn_stage t = Waits -> tn_down t <> Returned -> exists t', rtc (tunnel_step true (Moves Down)) t t' /\
     cn_sent (tn_dst t') = cn_sent (tn_dst t) /\ cn_given (tn_src t') = cn_sent (tn_dst t)) /\
  ((tn_up t = Returned \/ tn_down t = Returned) ->
     exists t', rtc (tunnel_step true Alone) t t' /\ cn_open (tn_src t') = false /\ cn_open (tn_dst t') = false /\
       tn_up t' = Returned /\ tn_down t' = Returned /\
       cn_given (tn_src t') = cn_given (tn_src t) /\ cn_given (tn_dst t') = cn_given (tn_dst t) /\
       forall w t'', tunnel_step true w t' t'' ->
         cn_given (tn_src t'') = cn_given (tn_src t') /\ cn_given (tn_dst t'') = cn_given (tn_dst t')).
Proof.
  intros Hr. pose proof (tunnel_invariant _ _ Hr) as Hok.
  split; [split; [apply (tok_up _ _ Hok)|apply (tok_down _ _ Hok)]|]. split; [|split].
  - intros Hw Hne. destruct (copier_delivers true t Up Hok Hw Hne) as (t' & H1 & H2 & H3 & H4 & Hok').
    exists t'. split; [exact H1|]. split; [exact H4|]. destruct (tok_up _ _ Hok') as [_ He]. cbn in *.
    rewrite <- H4, He, H2, H3 by congruence. by rewrite app_nil_r.
  - intros Hw Hne. destruct (copier_delivers true t Down Hok Hw Hne) as (t' & H1 & H2 & H3 & H4 & Hok').
    exists t'. split; [exact H1|]. split; [exact H4|]. destruct (tok_down _ _ Hok') as [_ He]. cbn in *.
    rewrite <- H4, He, H2, H3 by congruence. by rewrite app_nil_r.
  - intros Hover. assert (exists d, side t d = Returned) as [d Hd] by (destruct Hover; [by exists Up|by exists Down]).
    destruct (tunnel_closes t d Hok Hd) as (u & H1 & He & Hs & Ht & G1 & G2).
    exists (set_side (set_side u Up Returned) Down Returned). split.
    { etrans; [exact H1|]. etrans; [by apply (copier_ends true u Up)|]. by apply copier_ends. }
    split_and!; try done. intros w t'' Hst.
    inversion Hst as [? [] |? []|? [] ? Hc|? [] Hc|? [] Hc|? [] ? Hc|? [] ? ? Hc|? [] Hc|? [] ? Hc|? ? Hw|? ? Hw]; subst; cbn in *; congruence || done.
Qed.

(** A client that has sent one byte, which the target got, and hung up. *)
Definition hung_up : tunnel :=
  {| tn_up := Returned; tn_down := Reading;
     tn_src := {| cn_sent := [7]; cn_unread := []; cn_fin := true; cn_given := []; cn_open := true |};
     tn_dst := {| cn_sent := []; cn_unread := []; cn_fin := false; cn_given := [7]; cn_open := true |};
     tn_stage := Waits |}.
Lemma hung_up_reachable closes_dst : rtc (tunnel_move closes_dst) new_tunnel hung_up.
Proof.
  eapply rtc_l; [exists Peer; by apply (TS_send closes_dst new_tunnel Up [7])|].
  eapply rtc_l; [eexists (Moves Up); apply (TS_read closes_dst _ Up 1); [done|done|simpl; lia]|].
  eapply rtc_l; [eexists (Moves Up); by eapply (TS_write closes_dst _ Up [7])|].
  eapply rtc_l; [eexists Peer; by apply (TS_fin closes_dst _ Up)|].
  apply rtc_once. exists Alone. by apply (TS_eof closes_dst (set_side hung_up Up Reading) Up).
Qed.
Lemma tcp_tunnel_relays_witness :
  (exists t', rtc (tunnel_step true Alone) hung_up t' /\ cn_open (tn_src t') = false /\ cn_open (tn_dst t') = false /\
     cn_given (tn_dst t') = [7]) /\
  [7] `prefix_of` cn_sent (tn_src hung_up).
Proof.
  destruct (tcp_tunnel_relays hung_up (hung_up_reachable true)) as ([Hp _] & _ & _ & H). split; [|exact Hp].
  destruct H as (t' & H1 & H2 & H3 & _ & _ & _ & H4 & _); [left; reflexivity|].
  exists t'. split; [exact H1|]. split; [exact H2|]. split; [exact H3|exact H4].
Defined.

(** The HTTP proxy never closes the connection to the target: after a client has hung up
    and its connection is closed, the copy back goes on waiting for the target. *)
Lemma http_tunnel_keeps_target :
  (forall t, rtc (tunnel_move false) new_tunnel t -> cn_open (tn_dst t) = true) /\
  exists t, rtc (tunnel_move false) new_tunnel t /\ cn_open (tn_src t) = false /\ tn_down t = Reading /\
    forall w t', tunnel_step false w t t' -> w = Peer.
Proof.
  split.
  { intros t Ht. pose proof (tunnel_invariant _ _ Ht) as Hok. rewrite (tok_dst _ _ Hok).
    destruct (tn_stage t) eqn:E; [done|done|]. by pose proof (tok_end _ _ Hok E). }
  eexists. split; [eapply rtc_r; [apply (hung_up_reachable false)|]; exists Alone; by apply (TS_close_src false hung_up Up)|].
  split; [done|]. split; [done|]. intros w t' Hst.
  inversion Hst as [? [] |? []|? [] ? Hc Ho Hl|? [] Hc Ho Hu Hf|? [] Hc|? [] ? Hc|? [] ? ? Hc|? [] Hc|? [] ? Hc|? ? Hw|? ? Hw]; subst; try done.
  simpl in Hl. lia.
Qed.

(** A client that has said all it has to say, and waits for the answer, loses what of the
    answer has not been written: the end of either direction closes both connections. *)
Lemma half_close_cuts_answer :
  exists t, rtc (tunnel_move true) new_tunnel t /\ cn_sent (tn_dst t) = [9] /\ cn_given (tn_src t) = [] /\
    forall w t', tunnel_step true w t t' -> cn_given (tn_src t') = [].
Proof.
  eexists. split.
  - eapply rtc_r; [eapply rtc_r; [apply (hung_up_reachable true)|]|].
    + exists Peer. by apply (TS_send true hung_up Down [9]).
    + exists Alone. by apply (TS_close_src true _ Up).
  - split; [done|]. split; [done|]. intros w t' Hst.
    inversion Hst as [? [] |? []|? [] ? Hc|? [] Hc|? [] Hc|? [] ? Hc|? [] ? ? Hc|? [] Hc|? [] ? Hc|? ? Hw|? ? Hw]; subst; done.
Qed.

(** ** The proxies of a configuration *)

Lemma fill_map_ret {A B} guarded (add : A -> gmap string B -> gmap string B) l m :
  guarded = true \/ None ∉ l -> fill_map guarded add l m = Ret (foldl (fun m a => add a m) m (omap id l)).
Proof.
  revert m. induction l as [|[a|] l IH]; intros m Hg; [done| |]; cbn [fill_map].
  - apply IH. destruct Hg as [?|Hg]; [by left|]. right. intros Hin. apply Hg. by right.
  - destruct Hg as [->|Hg]; [apply IH; by left|]. by destruct Hg; left.
Qed.
Lemma fill_map_nil {A B} (add : A -> gmap string B -> gmap string B) l m : None ∈ l -> fill_map false add l m = Panic.
Proof.
  revert m. induction l as [|[a|] l IH]; intros m Hin; [by apply not_elem_of_nil in Hin| |done].
  apply IH. by apply elem_of_cons in Hin as [|].
Qed.

Lemma nil_or_not {A} (l : list (option A)) : None ∈ l \/ None ∉ l.
Proof.
  induction l as [|[a|] l [IH|IH]]; try (left; (by left) || by right); right; [apply not_elem_of_nil|].
  by intros [|]%elem_of_cons.
Qed.

(** A map filled with the elements to keep: the last of each name stays. *)
Lemma foldl_last {A B} (add : A -> gmap string B -> gmap string B) (key : A -> string) (keep : A -> bool) (f : A -> B) l k :
  (forall a m, add a m = if keep a then <[key a := f a]> m else m) ->
  foldl (fun m a => add a m) ∅ l !! k = f <$> last (filter (fun a => keep a = true /\ key a = k) l).
Proof.
  intros Hadd. induction l as [|a l IH] using rev_ind; [apply lookup_empty|].
  rewrite foldl_app, filter_app. cbn [foldl]. rewrite filter_cons, filter_nil, Hadd. case_decide as Hd.
  - destruct Hd as [-> <-]. by rewrite last_snoc, lookup_insert_eq.
  - rewrite app_nil_r. destruct (keep a) eqn:Ek; [|done].
    rewrite lookup_insert_ne by (intros E; by apply Hd). done.
Qed.

(** The same for proxies that must have an address. *)
Lemma foldl_named {A B} (add : A -> gmap string B -> gmap string B) (key : A -> string) (f : A -> B) l k :
  (forall a m, add a m = if String.eqb (key a) "" then m else <[key a := f a]> m) ->
  foldl (fun m a => add a m) ∅ l !! k = f <$> last (filter (fun a => key a <> ""%string /\ key a = k) l).
Proof.
  intros Hadd. rewrite (foldl_last add key (fun a => negb (String.eqb (key a) "")) f).
  - f_equal. f_equal. apply list_filter_iff. intros a. by rewrite negb_true_iff, String.eqb_neq.
  - intros a m. rewrite Hadd. by destruct (String.eqb _ _).
Qed.

(** The TCP and HTTP proxies of the set are those of the configuration: for an address
    that several ask for the last one, and no HTTP proxy without an address; a nil
    pointer among the TCP or SOCKS proxies is a panic, one among the HTTP or shadowsocks
    proxies is skipped. *)
Theorem proxies_registered {S} (new_shadow : ShadowProxy -> S) socks5_New (cfg : ProxyConfig) :
  (None ∈ px_Socks cfg \/ None ∈ px_Tcp cfg -> Initialize new_shadow socks5_New (NewProxy (Some cfg)) = Panic) /\
  (None ∉ px_Socks cfg -> None ∉ px_Tcp cfg ->
     exists p, Initialize new_shadow socks5_New (NewProxy (Some cfg)) = Ret p /\
       forall k, ps_tcp p !! k = NewTcpProxy <$> last (filter (fun c => tc_Listen c = k) (omap id (px_Tcp cfg))) /\
         ps_http p !! k = NewHttpProxy <$> last (filter (fun c => hc_Listen c <> ""%string /\ hc_Listen c = k) (omap id (px_Http cfg))) /\
         ps_shadow p !! k = new_shadow <$> last (filter (fun c => shp_Server c <> ""%string /\ shp_Server c = k) (omap id (px_Shadow cfg)))).
Proof.
  unfold Initialize. cbn [NewProxy ps_cfg]. split.
  - intros Hnil. destruct (nil_or_not (px_Socks cfg)) as [Hs|Hs]; [by rewrite (fill_map_nil _ _ _ Hs)|].
    destruct Hnil as [?|Ht]; [done|]. rewrite (fill_map_ret false _ _ _ (or_intror Hs)). cbn [mbind go_bind]. by rewrite (fill_map_nil _ _ _ Ht).
  - intros Hs Ht. rewrite !fill_map_ret by (first [by left | by right]). cbn [mbind go_bind].
    eexists. split; [done|]. intros k. cbn [set_socks set_tcp set_http set_shadow ps_tcp ps_http ps_shadow NewProxy].
    split; [|split].
    + rewrite (foldl_last add_tcp tc_Listen (fun _ => true) NewTcpProxy) by done.
      f_equal. f_equal. apply list_filter_iff. tauto.
    + by apply foldl_named.
    + by apply foldl_named.
Qed.

Definition demo_config : ProxyConfig :=
  {| px_Conf := ""; px_Log := {| log_File := ""; log_Verbose := INFO |}; px_Socks := [];
     px_Http := [None; Some demo_http_proxy];
     px_Tcp := [Some {| tc_Listen := ":80"; tc_Target := ["a"]%string |}; Some {| tc_Listen := ":80"; tc_Target := ["b"]%string |}];
     px_Shadow := []; px_PProf := "" |}.
Lemma proxies_registered_witness :
  exists p, Initialize (fun _ => tt) (fun _ => None) (NewProxy (Some demo_config)) = Ret p /\
    tp_target <$> ps_tcp p !! ":80"%string = Some ["b"]%string /\
    Initialize (fun _ => tt) (fun _ => None) (NewProxy (Some
      {| px_Conf := ""; px_Log := px_Log demo_config; px_Socks := []; px_Http := []; px_Tcp := [None]; px_Shadow := []; px_PProf := "" |}))
      = Panic.
Proof.
  destruct (proxies_registered (fun _ => tt) (fun _ => None) demo_config) as [_ H].
  destruct H as (p & E & Hp); [simpl; intros H%elem_of_nil; done|simpl; intros [|[|H%elem_of_nil]%elem_of_cons]%elem_of_cons; done|]. exists p. split; [exact E|].
  destruct (Hp ":80"%string) as (-> & _). split; [reflexivity|].
  apply proxies_registered. right. by left.
Defined.

(** The null that the set would skip stops the program before: the configuration's
    own loop does not test for it. *)
Lemma null_http_proxy_crashes cfg : None ∈ px_Http cfg -> proxy_Correct cfg = Panic.
Proof.
  intros Hn. unfold proxy_Correct. enough (correct_https (px_Http cfg) = Panic) as -> by done.
  induction (px_Http cfg) as [|[h|] l IH]; [by apply not_elem_of_nil in Hn| |done].
  apply elem_of_cons in Hn as [|Hn]; [done|]. cbn [correct_https]. by rewrite (IH Hn).
Qed.
