(* ===== verification/Shadow.v ===== *)
(** * Shadowsocks servers (pkg/proxy/ss)

    Their start with key, plugin and cipher, the NAT table of the UDP relays with the
    copies of the answers (a relay and its copies are goroutines, cut at every use of the
    table and of a socket), one accepted connection of the TCP relay, and the corked
    connection.  Ciphers and the SOCKS form of an address are parameters. *)

From S2P Require Import Prelude GoStd Json Base64 Proxy.

Local Open Scope Z_scope.
Local Arguments String.append !_ _ / : simpl nomatch.

(** ** The package's configuration (config.go) *)

(** Nothing in the program assigns it, so it is the zero value. *)
Record ss_config := { Verbose : bool; UDPTimeout : Z; TCPCork : bool }.
Definition config : ss_config := {| Verbose := false; UDPTimeout := 0; TCPCork := false |}.

(** ** Plugins (plugin.go) *)

(** [net.SplitHostPort] *)
Fixpoint cut_last (c : Ascii.ascii) (s : string) : option (string * string) :=
  match s with
  | EmptyString => None
  | String a r =>
      match cut_last c r with
      | Some (l, p) => Some (String a l, p)
      | None => if Ascii.eqb a c then Some (EmptyString, r) else None
      end
  end.
Definition open_bracket : Ascii.ascii := chr 91.
Definition close_bracket : Ascii.ascii := chr 93.
Definition no_brackets (s : string) : bool := negb (contains_char open_bracket s) && negb (contains_char close_bracket s).
Definition SplitHostPort (hostport : string) : option (string * string) :=
  match cut_last char_colon hostport with
  | None => None
  | Some (host, port) =>
      match host with
      | String a r =>
          if Ascii.eqb a open_bracket then
            match cut close_bracket r with
            | Some (h, EmptyString) => if no_brackets port && negb (contains_char open_bracket h) then Some (h, port) else None
            | _ => None
            end
          else if contains_char char_colon host || negb (no_brackets hostport) then None else Some (host, port)
      | EmptyString => if no_brackets port then Some (host, port) else None
      end
  end.

Record plugin := {
  pg_Path : string; pg_RemoteHost : string; pg_RemotePort : string; pg_LocalHost : string; pg_LocalPort : string;
  pg_Options : string
}.
(** The processes that were started, in order, and the variable [pluginCmd]. *)
Record plugins := { pg_started : list plugin; pg_signalled : list nat; pluginCmd : option nat }.
Definition no_plugins : plugins := {| pg_started := []; pg_signalled := []; pluginCmd := None |}.

Section plugin.
(** The files that exist and whether each is a directory, [exec.LookPath], whether the
    process starts, and the free port. *)
Context (stat : string -> option bool) (LookPath : string -> option string) (can_start : plugin -> bool)
        (getFreePort : option string).

Definition fileExists (filename : string) : bool :=
  match stat filename with None => false | Some is_dir => negb is_dir end.

Definition plugin_file (name : string) : option string :=
  if fileExists name then Some (if HasPrefix name "/" then name else "./" +:+ name)%string else LookPath name.

Definition execPlugin (name opts remoteHost remotePort localHost localPort : string) (g : plugins) : plugins * bool :=
  match plugin_file name with
  | None => (g, false)
  | Some path =>
      let cmd := {| pg_Path := path; pg_RemoteHost := remoteHost; pg_RemotePort := remotePort; pg_LocalHost := localHost;
                    pg_LocalPort := localPort; pg_Options := opts |} in
      if can_start cmd
      then ({| pg_started := pg_started g ++ [cmd]; pg_signalled := pg_signalled g; pluginCmd := Some (length (pg_started g)) |}, true)
      else (g, false)
  end.

Definition startPlugin (name opts ssAddr : string) (isServer : bool) (g : plugins) : plugins * option string :=
  match getFreePort with
  | None => (g, None)
  | Some freePort =>
      match SplitHostPort ssAddr with
      | None => (g, None)
      | Some (ssHost, ssPort) =>
          let newAddr := ("127.0.0.1:" +:+ freePort)%string in
          let ssHost := if isServer && String.eqb ssHost "" then "0.0.0.0"%string else ssHost in
          let '(g, ok) := execPlugin name opts ssHost ssPort "127.0.0.1" freePort g in
          (g, if ok then Some newAddr else None)
      end
  end.

(** The signal goes to the process the variable holds. *)
Definition killPlugin (g : plugins) : plugins :=
  match pluginCmd g with
  | None => g
  | Some i => {| pg_started := pg_started g; pg_signalled := pg_signalled g ++ [i]; pluginCmd := pluginCmd g |}
  end.

(** ** A server (shadow.go) *)

Record ShadowSocks := {
  ss_Server : string; ss_Key : string; ss_Cipher : string; ss_Password : string; ss_Plugin : string;
  ss_PluginOpts : string; ss_Protocol : string
}.
Definition NewShadowSocks (cfg : ShadowProxy) : ShadowSocks :=
  {| ss_Server := shp_Server cfg; ss_Key := shp_Key cfg; ss_Cipher := shp_Cipher cfg; ss_Password := shp_Password cfg;
     ss_Plugin := shp_Plugin cfg; ss_PluginOpts := shp_PluginOpts cfg;
     ss_Protocol := if String.eqb (shp_Protocol cfg) "" then "tcp" else shp_Protocol cfg |}.

(** [Fatal] ends the program; otherwise one relay is started. *)
Inductive started (C : Type) : Type :=
| Fatal
| UdpRemote (addr : string) (c : C)
| TcpRemote (addr : string) (c : C).
Arguments Fatal {C}. Arguments UdpRemote {C}. Arguments TcpRemote {C}.

(** [PickCipher] of the name, the key and the password. *)
Definition shadow_Start {C} (PickCipher : string -> string -> string -> option C) (s : ShadowSocks) (g : plugins)
    : plugins * started C :=
  match (if String.eqb (ss_Key s) "" then Some EmptyString else DecodeString URLAlphabet (ss_Key s)) with
  | None => (g, Fatal)
  | Some key =>
      let '(g, addr) := if String.eqb (ss_Plugin s) "" then (g, Some (ss_Server s))
                        else startPlugin (ss_Plugin s) (ss_PluginOpts s) (ss_Server s) true g in
      match addr with
      | None => (g, Fatal)
      | Some addr =>
          match PickCipher (ss_Cipher s) key (ss_Password s) with
          | None => (g, Fatal)
          | Some ciph => (g, if String.eqb (ss_Protocol s) "udp" then UdpRemote (ss_Server s) ciph else TcpRemote addr ciph)
          end
      end
  end.
Definition shadow_Stop (s : ShadowSocks) (g : plugins) : plugins := killPlugin g.
End plugin.
Arguments Fatal {C}. Arguments UdpRemote {C}. Arguments TcpRemote {C}.

(** ** UDP relays (udp.go) *)

Inductive mode := remoteServer | relayClient | socksClient.
#[export] Instance mode_eq_dec : EqDecision mode.
Proof. solve_decision. Defined.

Definition udpBufSize : Z := 64 * 1024.

(** The table of a relay, from peers to sockets; each call holds the lock. *)
Definition natmap := gmap string nat.
Definition newNATmap : natmap := ∅.
Definition nat_Get (m : natmap) (key : string) : option nat := m !! key.
Definition nat_Set (m : natmap) (key : string) (pc : nat) : natmap := <[key := pc]> m.
Definition nat_Del (m : natmap) (key : string) : natmap * option nat :=
  match m !! key with Some pc => (delete key m, Some pc) | None => (m, None) end.

Section udp.
(** [socks.SplitAddr], [socks.ParseAddr], the text of a SOCKS address and the name it
    resolves to. *)
Context (SplitAddr : bytes -> option bytes) (ParseAddr : string -> option bytes) (addr_String : bytes -> string)
        (ResolveUDPAddr : string -> option string).

(** What a relay makes of a packet: the bytes to send and where to, or nothing.  The local
    relays look at the packet when they send it, that of SOCKS leaves out its first three
    bytes without a look whether they are there. *)
Definition remote_out (packet : bytes) : go (option (bytes * string)) :=
  match SplitAddr packet with
  | None => Ret None
  | Some tgtAddr =>
      match ResolveUDPAddr (addr_String tgtAddr) with
      | None => Ret None
      | Some tgtUDPAddr => Ret (Some (drop (length tgtAddr) packet, tgtUDPAddr))
      end
  end.
Definition local_out (tgt : bytes) (srvAddr : string) (packet : bytes) : go (option (bytes * string)) :=
  Ret (Some (tgt ++ packet, srvAddr)).
Definition socks_out (srvAddr : string) (packet : bytes) : go (option (bytes * string)) :=
  payload ← slice packet 3 (zlen packet); Ret (Some (payload, srvAddr)).

(** The target and the server of the local relays are those they were started with. *)
Definition relay_out (role : mode) (tgt : bytes) (srvAddr : string) (packet : bytes) : go (option (bytes * string)) :=
  match role with
  | remoteServer => remote_out packet
  | relayClient => local_out tgt srvAddr packet
  | socksClient => socks_out srvAddr packet
  end.

(** An answer on its way to the peer. *)
Definition relayed (role : mode) (packet : bytes) (raddr : string) : bytes :=
  match role with
  | remoteServer => default [] (ParseAddr raddr) ++ packet
  | relayClient => drop (length (default [] (SplitAddr packet))) packet
  | socksClient => [0; 0; 0] ++ packet
  end.

(** [ReadFrom] under a deadline: a packet that comes after a delay is read only when the
    deadline has not passed by then. *)
Record arrival := { ar_delay : Z; ar_packet : bytes; ar_from : string }.

(** [timedCopy]: what is written to the peer until the first error; [write_ok] is
    whether the n-th write succeeds. *)
Fixpoint timedCopy (timeout : Z) (role : mode) (write_ok : nat -> bool) (n : nat) (l : list arrival) : list bytes :=
  match l with
  | [] => []
  | a :: l =>
      if ar_delay a <? timeout then
        let out := relayed role (ar_packet a) (ar_from a) in
        if write_ok n then out :: timedCopy timeout role write_ok (S n) l else []
      else []
  end.

(** ** A relay at work

    The loop of a relay and the goroutines that [Add] starts, one for each socket, share
    the table; between two calls of the table, of the sockets and of the peers everything
    else may happen. *)

(** A packet that is to be sent: whose it is, the bytes, the target. *)
Record packet_out := { po_peer : string; po_bytes : bytes; po_target : string }.

(** Where the loop is: before [ReadFrom], [Get], [ListenPacket], [Set], the start of the
    copy, [WriteTo]. *)
Inductive main_state :=
| AtRead
| AtGet (p : packet_out)
| AtListen (p : packet_out)
| AtSet (p : packet_out) (pc : nat)
| AtSpawn (p : packet_out) (pc : nat)
| AtWrite (p : packet_out) (pc : nat).
(** Where the goroutine of a socket is: in [timedCopy], before [Del], before [Close]. *)
Inductive copy_state := Copies | AtDel | AtClose (pc : nat).

(** [rl_sockets]: for whom each socket was opened, in order; [rl_closed]: the sockets that
    were closed; [rl_read]: the packets that were taken for sending, [rl_sent]: those that
    left, each with its socket; [rl_answers]: what was written back, by which socket's copy
    and to whom. *)
Record relay_state := {
  rl_m : natmap; rl_sockets : list string; rl_closed : gset nat; rl_main : main_state;
  rl_copies : gmap nat (string * copy_state);
  rl_read : list packet_out; rl_sent : list (nat * packet_out); rl_answers : list (nat * string * bytes)
}.
Definition new_relay : relay_state :=
  {| rl_m := newNATmap; rl_sockets := []; rl_closed := ∅; rl_main := AtRead; rl_copies := ∅; rl_read := [];
     rl_sent := []; rl_answers := [] |}.
Definition set_main (r : relay_state) (s : main_state) : relay_state :=
  {| rl_m := rl_m r; rl_sockets := rl_sockets r; rl_closed := rl_closed r; rl_main := s; rl_copies := rl_copies r;
     rl_read := rl_read r; rl_sent := rl_sent r; rl_answers := rl_answers r |}.

Section relay.
(** What is made of a packet; the time a copy waits for an answer, and what it makes of it. *)
Context (out : bytes -> go (option (bytes * string))) (timeout : Z) (role : mode).

Inductive relay_step : relay_state -> relay_state -> Prop :=
| M_read r packet raddr payload target :
    rl_main r = AtRead -> out packet = Ret (Some (payload, target)) ->
    let p := {| po_peer := raddr; po_bytes := payload; po_target := target |} in
    relay_step r
      {| rl_m := rl_m r; rl_sockets := rl_sockets r; rl_closed := rl_closed r; rl_main := AtGet p; rl_copies := rl_copies r;
         rl_read := rl_read r ++ [p]; rl_sent := rl_sent r; rl_answers := rl_answers r |}
| M_get r p :
    rl_main r = AtGet p ->
    relay_step r (set_main r (match nat_Get (rl_m r) (po_peer p) with Some pc => AtWrite p pc | None => AtListen p end))
| M_listen r p :
    rl_main r = AtListen p ->
    relay_step r
      {| rl_m := rl_m r; rl_sockets := rl_sockets r ++ [po_peer p]; rl_closed := rl_closed r;
         rl_main := AtSet p (length (rl_sockets r)); rl_copies := rl_copies r; rl_read := rl_read r; rl_sent := rl_sent r;
         rl_answers := rl_answers r |}
| M_listen_fails r p : rl_main r = AtListen p -> relay_step r (set_main r AtRead)
| M_set r p pc :
    rl_main r = AtSet p pc ->
    relay_step r
      {| rl_m := nat_Set (rl_m r) (po_peer p) pc; rl_sockets := rl_sockets r; rl_closed := rl_closed r;
         rl_main := AtSpawn p pc; rl_copies := rl_copies r; rl_read := rl_read r; rl_sent := rl_sent r;
         rl_answers := rl_answers r |}
| M_spawn r p pc :
    rl_main r = AtSpawn p pc ->
    relay_step r
      {| rl_m := rl_m r; rl_sockets := rl_sockets r; rl_closed := rl_closed r; rl_main := AtWrite p pc;
         rl_copies := <[pc := (po_peer p, Copies)]> (rl_copies r); rl_read := rl_read r; rl_sent := rl_sent r;
         rl_answers := rl_answers r |}
| M_write r p pc :
    rl_main r = AtWrite p pc -> pc ∉ rl_closed r ->
    relay_step r
      {| rl_m := rl_m r; rl_sockets := rl_sockets r; rl_closed := rl_closed r; rl_main := AtRead; rl_copies := rl_copies r;
         rl_read := rl_read r; rl_sent := rl_sent r ++ [(pc, p)]; rl_answers := rl_answers r |}
| M_write_fails r p pc : rl_main r = AtWrite p pc -> relay_step r (set_main r AtRead)
| C_answer r pc peer a :
    rl_copies r !! pc = Some (peer, Copies) -> pc ∉ rl_closed r -> 0 <= ar_delay a < timeout ->
    relay_step r
      {| rl_m := rl_m r; rl_sockets := rl_sockets r; rl_closed := rl_closed r; rl_main := rl_main r; rl_copies := rl_copies r;
         rl_read := rl_read r; rl_sent := rl_sent r;
         rl_answers := rl_answers r ++ [(pc, peer, relayed role (ar_packet a) (ar_from a))] |}
| C_ends r pc peer :
    rl_copies r !! pc = Some (peer, Copies) ->
    relay_step r
      {| rl_m := rl_m r; rl_sockets := rl_sockets r; rl_closed := rl_closed r; rl_main := rl_main r;
         rl_copies := <[pc := (peer, AtDel)]> (rl_copies r); rl_read := rl_read r; rl_sent := rl_sent r;
         rl_answers := rl_answers r |}
| C_del r pc peer :
    rl_copies r !! pc = Some (peer, AtDel) ->
    relay_step r
      {| rl_m := (nat_Del (rl_m r) peer).1; rl_sockets := rl_sockets r; rl_closed := rl_closed r; rl_main := rl_main r;
         rl_copies := match (nat_Del (rl_m r) peer).2 with
                      | Some pc' => <[pc := (peer, AtClose pc')]> (rl_copies r)
                      | None => delete pc (rl_copies r)
                      end;
         rl_read := rl_read r; rl_sent := rl_sent r; rl_answers := rl_answers r |}
| C_close r pc peer pc' :
    rl_copies r !! pc = Some (peer, AtClose pc') ->
    relay_step r
      {| rl_m := rl_m r; rl_sockets := rl_sockets r; rl_closed := {[pc']} ∪ rl_closed r; rl_main := rl_main r;
         rl_copies := delete pc (rl_copies r); rl_read := rl_read r; rl_sent := rl_sent r; rl_answers := rl_answers r |}.
End relay.
End udp.

(** ** The TCP relay (tcp.go) *)

(** The error of a copy. *)
Inductive copy_error := DeadlineExceeded | CopyFailed.
#[export] Instance copy_error_eq_dec : EqDecision copy_error.
Proof. solve_decision. Defined.

(** [relay], when both copies have ended: the deadline that ends the second is no error. *)
Definition relay (err err1 : option copy_error) : option copy_error :=
  match err1 with
  | Some CopyFailed => err1
  | _ => match err with Some CopyFailed => err | _ => None end
  end.

(** An accepted connection of [tcpRemote], which is closed in every case; one without a
    readable address is read to its end first. *)
Inductive handled := Drained | Unreachable (tgt : bytes) | RelayedTo (tgt : bytes) (err : option copy_error).
Definition tcpRemote (addr_String : bytes -> string) (ReadAddr : option bytes) (dial : string -> bool)
    (err err1 : option copy_error) : handled :=
  match ReadAddr with
  | None => Drained
  | Some tgt => if dial (addr_String tgt) then RelayedTo tgt (relay err err1) else Unreachable tgt
  end.

(** ** The table and its sockets *)

(** The loop is about to put the socket into the table; its copy is about to close it. *)
Definition being_added (r : relay_state) (pc : nat) : Prop := exists p, rl_main r = AtSet p pc.
Definition being_closed (r : relay_state) (pc : nat) : Prop := exists peer, rl_copies r !! pc = Some (peer, AtClose pc).
(** The goroutine of an entry of the table. *)
Definition copied (r : relay_state) (peer : string) (pc : nat) : Prop :=
  rl_copies r !! pc = Some (peer, Copies) \/ rl_copies r !! pc = Some (peer, AtDel) \/
  exists p, rl_main r = AtSpawn p pc /\ po_peer p = peer.

(** What holds of the point the loop has reached. *)
Definition main_ok (r : relay_state) : Prop :=
  match rl_main r with
  | AtRead | AtGet _ => True
  | AtListen p => rl_m r !! po_peer p = None
  | AtSet p pc => rl_m r !! po_peer p = None /\ rl_sockets r !! pc = Some (po_peer p) /\ pc ∉ rl_closed r /\ rl_copies r !! pc = None
  | AtSpawn p pc => rl_m r !! po_peer p = Some pc /\ rl_copies r !! pc = None
  | AtWrite p pc => rl_sockets r !! pc = Some (po_peer p)
  end.

Record table_ok (r : relay_state) : Prop := {
  tb_entry : forall peer pc, rl_m r !! peer = Some pc ->
    rl_sockets r !! pc = Some peer /\ pc ∉ rl_closed r /\ copied r peer pc;
  tb_copy : forall peer pc, rl_copies r !! pc = Some (peer, Copies) \/ rl_copies r !! pc = Some (peer, AtDel) ->
    rl_m r !! peer = Some pc;
  tb_close : forall peer pc pc', rl_copies r !! pc = Some (peer, AtClose pc') ->
    pc' = pc /\ rl_sockets r !! pc = Some peer /\ rl_m r !! peer <> Some pc /\ pc ∉ rl_closed r;
  tb_main : main_ok r;
  tb_open : forall pc, (pc < length (rl_sockets r))%nat -> pc ∉ rl_closed r ->
    (exists peer, rl_m r !! peer = Some pc) \/ being_added r pc \/ being_closed r pc;
  tb_closed : forall pc, pc ∈ rl_closed r -> (pc < length (rl_sockets r))%nat
}.

Lemma copied_socket r pc peer st : table_ok r -> rl_copies r !! pc = Some (peer, st) -> rl_sockets r !! pc = Some peer.
Proof.
  intros Hok H. destruct st.
  - by apply (tb_entry _ Hok), (tb_copy _ Hok); left.
  - by apply (tb_entry _ Hok), (tb_copy _ Hok); right.
  - by apply (tb_close _ Hok) in H as (_ & ? & _).
Qed.

Ltac relay_cbn := unfold natmap in *; cbn [rl_m rl_sockets rl_closed rl_main rl_copies rl_read rl_sent rl_answers] in *.

Section relay_ok.
Implicit Types r : relay_state.

(** A step of the loop that only moves it on. *)
Lemma table_ok_main r r' :
  table_ok r -> rl_m r' = rl_m r -> rl_sockets r' = rl_sockets r -> rl_closed r' = rl_closed r -> rl_copies r' = rl_copies r ->
  main_ok r' -> (forall p pc, rl_main r = AtSet p pc \/ rl_main r = AtSpawn p pc -> rl_main r' = rl_main r) -> table_ok r'.
Proof.
  intros [He Hc Hcl Hm Ho Hx] E1 E2 E3 E4 Hm' Hk.
  constructor; unfold copied, being_added, being_closed in *; rewrite ?E1, ?E2, ?E3, ?E4; try done.
  - intros peer pc (H1 & H2 & H3)%He. split_and!; [done..|]. destruct H3 as [?|[?|(p & Hp & Hpp)]]; [auto..|].
    right; right. exists p. by rewrite (Hk p pc) by auto.
  - intros pc Hl Hcd. destruct (Ho pc Hl Hcd) as [?|[[p Hp]|?]]; [auto| |auto].
    right; left. exists p. by rewrite (Hk p pc) by auto.
Qed.

Lemma listen_ok r p : table_ok r -> rl_main r = AtListen p ->
  table_ok {| rl_m := rl_m r; rl_sockets := rl_sockets r ++ [po_peer p]; rl_closed := rl_closed r;
              rl_main := AtSet p (length (rl_sockets r)); rl_copies := rl_copies r; rl_read := rl_read r;
              rl_sent := rl_sent r; rl_answers := rl_answers r |}.
Proof.
  intros Hok Hp. pose proof (copied_socket r) as Hsock. destruct Hok as [He Hc Hcl Hm Ho Hx] eqn:E. clear E.
  assert (Hnew : forall (l : list string) peer, l !! length l = Some peer -> False).
  { intros l peer H%lookup_lt_Some. lia. }
  constructor; unfold copied, being_added, being_closed in *; relay_cbn.
  - intros peer pc (H1 & H2 & H3)%He. split_and!; [by apply lookup_app_l_Some|done|].
    rewrite Hp in H3. destruct H3 as [?|[?|(? & ? & _)]]; auto; done.
  - done.
  - intros peer pc pc' (H1 & H2 & H3 & H4)%Hcl. split_and!; try done. by apply lookup_app_l_Some.
  - unfold main_ok in Hm |- *. relay_cbn. rewrite Hp in Hm. split_and!; [done|by rewrite lookup_app_r, Nat.sub_diag by done| |].
    + intros H%Hx. lia.
    + destruct (rl_copies r !! length (rl_sockets r)) as [[peer st]|] eqn:E; [|done].
      apply Hsock in E; [by apply Hnew in E|done].
  - intros pc Hl Hcd. rewrite length_app in Hl. cbn in Hl.
    destruct (decide (pc = length (rl_sockets r))) as [->|]; [right; left; by exists p|].
    destruct (Ho pc) as [?|[[p' Hp']|?]]; [lia|done|auto|congruence|auto].
  - intros pc H%Hx. rewrite length_app. lia.
Qed.

Lemma set_ok r p pc : table_ok r -> rl_main r = AtSet p pc ->
  table_ok {| rl_m := nat_Set (rl_m r) (po_peer p) pc; rl_sockets := rl_sockets r; rl_closed := rl_closed r;
              rl_main := AtSpawn p pc; rl_copies := rl_copies r; rl_read := rl_read r; rl_sent := rl_sent r;
              rl_answers := rl_answers r |}.
Proof.
  intros [He Hc Hcl Hm Ho Hx] Hp. unfold main_ok in Hm. rewrite Hp in Hm. destruct Hm as (Hn & Hs & Hcd & Hcp).
  constructor; unfold copied, being_added, being_closed, nat_Set in *; relay_cbn.
  - intros peer q. rewrite lookup_insert_Some. intros [[<- <-]|[_ (H1 & H2 & H3)%He]].
    + split_and!; [done..|]. right; right. by exists p.
    + split_and!; [done..|]. rewrite Hp in H3. destruct H3 as [?|[?|(? & ? & _)]]; auto; done.
  - intros peer q H%Hc. rewrite lookup_insert_ne; [done|]. congruence.
  - intros peer q q' H. pose proof (Hcl _ _ _ H) as (-> & H2 & H3 & H4). split_and!; try done.
    rewrite lookup_insert_Some. intros [[_ <-]|[_ ?]]; congruence.
  - unfold main_ok. relay_cbn. by rewrite lookup_insert_eq.
  - intros q Hl Hq. destruct (Ho q Hl Hq) as [[peer H]|[[p' H]|?]]; [| |auto].
    + left. exists peer. rewrite lookup_insert_ne; congruence.
    + left. exists (po_peer p). rewrite lookup_insert_Some. left. split; [done|congruence].
  - done.
Qed.

Lemma spawn_ok r p pc : table_ok r -> rl_main r = AtSpawn p pc ->
  table_ok {| rl_m := rl_m r; rl_sockets := rl_sockets r; rl_closed := rl_closed r; rl_main := AtWrite p pc;
              rl_copies := <[pc := (po_peer p, Copies)]> (rl_copies r); rl_read := rl_read r; rl_sent := rl_sent r;
              rl_answers := rl_answers r |}.
Proof.
  intros [He Hc Hcl Hm Ho Hx] Hp. unfold main_ok in Hm. rewrite Hp in Hm. destruct Hm as (Hn & Hcp).
  constructor; unfold copied, being_added, being_closed in *; relay_cbn.
  - intros peer q H. pose proof (He _ _ H) as (H1 & H2 & H3). split_and!; [done..|].
    destruct (decide (q = pc)) as [->|Hne].
    + left. rewrite lookup_insert_eq. pose proof (He _ _ Hn) as (? & _ & _). congruence.
    + rewrite lookup_insert_ne by done. destruct H3 as [?|[?|(p' & H' & _)]]; [auto..|congruence].
  - intros peer q. destruct (decide (q = pc)) as [->|Hne]; [|by rewrite lookup_insert_ne by done; apply Hc].
    rewrite lookup_insert_eq. intros [[= <-]|?]; done.
  - intros peer q q'. rewrite lookup_insert_Some. intros [[_ ?]|[_ H]]; [done|]. by apply Hcl.
  - unfold main_ok. relay_cbn. by apply He.
  - intros q Hl Hq. destruct (Ho q Hl Hq) as [?|[[p' H]|[peer H]]]; [auto|congruence|].
    right; right. exists peer. rewrite lookup_insert_ne; [done|]. congruence.
  - done.
Qed.

Lemma ends_ok r pc peer : table_ok r -> rl_copies r !! pc = Some (peer, Copies) ->
  table_ok {| rl_m := rl_m r; rl_sockets := rl_sockets r; rl_closed := rl_closed r; rl_main := rl_main r;
              rl_copies := <[pc := (peer, AtDel)]> (rl_copies r); rl_read := rl_read r; rl_sent := rl_sent r;
              rl_answers := rl_answers r |}.
Proof.
  intros [He Hc Hcl Hm Ho Hx] Hp.
  constructor; unfold copied, being_added, being_closed in *; relay_cbn.
  - intros p q H. pose proof (He _ _ H) as (H1 & H2 & H3). split_and!; [done..|].
    destruct (decide (q = pc)) as [->|Hne]; [|by rewrite lookup_insert_ne by done].
    right; left. rewrite lookup_insert_eq. pose proof (He _ _ (Hc _ _ (or_introl Hp))) as (? & _ & _). congruence.
  - intros p q. destruct (decide (q = pc)) as [->|Hne]; [|by rewrite lookup_insert_ne by done; apply Hc].
    rewrite lookup_insert_eq. intros [?|[= <-]]; [done|]. by apply Hc; left.
  - intros p q q'. rewrite lookup_insert_Some. intros [[_ ?]|[_ H]]; [done|]. by apply Hcl.
  - unfold main_ok in *. relay_cbn. destruct (rl_main r) as [| | |p q|p q|]; try done.
    + destruct Hm as (? & ? & ? & ?). split_and!; try done. rewrite lookup_insert_ne; [done|]. congruence.
    + destruct Hm as (? & ?). split; [done|]. rewrite lookup_insert_ne; [done|]. congruence.
  - intros q Hl Hq. destruct (Ho q Hl Hq) as [?|[?|[p H]]]; [auto..|].
    right; right. exists p. rewrite lookup_insert_ne; [done|]. congruence.
  - done.
Qed.

Lemma del_ok r pc peer : table_ok r -> rl_copies r !! pc = Some (peer, AtDel) ->
  table_ok {| rl_m := delete peer (rl_m r); rl_sockets := rl_sockets r; rl_closed := rl_closed r; rl_main := rl_main r;
              rl_copies := <[pc := (peer, AtClose pc)]> (rl_copies r); rl_read := rl_read r; rl_sent := rl_sent r;
              rl_answers := rl_answers r |}.
Proof.
  intros [He Hc Hcl Hm Ho Hx] Hp. pose proof (Hc _ _ (or_intror Hp)) as Hmp. pose proof (He _ _ Hmp) as (Hs & Hcd & _).
  constructor; unfold copied, being_added, being_closed in *; relay_cbn.
  - intros p q. rewrite lookup_delete_Some. intros [Hne H]. pose proof (He _ _ H) as (H1 & H2 & H3).
    split_and!; [done..|]. rewrite lookup_insert_ne; [done|]. congruence.
  - intros p q. destruct (decide (q = pc)) as [->|Hne]; [rewrite lookup_insert_eq; by intros [?|?]|].
    rewrite lookup_insert_ne by done. intros H%Hc. rewrite lookup_delete_ne; [done|]. congruence.
  - intros p q q'. rewrite lookup_insert_Some. intros [[<- [= <- <-]]|[_ (? & ? & Hn & ?)%Hcl]].
    + split_and!; try done. by rewrite lookup_delete_eq.
    + split_and!; try done. by rewrite lookup_delete_Some; intros [_ ?].
  - unfold main_ok in *. relay_cbn. destruct (rl_main r) as [| |p|p q|p q|]; try done.
    + by rewrite lookup_delete_None; right.
    + destruct Hm as (? & ? & ? & ?). split_and!; try done; [by rewrite lookup_delete_None; right|].
      rewrite lookup_insert_ne; [done|]. congruence.
    + destruct Hm as (H1 & H2). rewrite lookup_delete_ne, lookup_insert_ne by congruence. done.
  - intros q Hl Hq. destruct (decide (q = pc)) as [->|Hne].
    + right; right. exists peer. by rewrite lookup_insert_eq.
    + destruct (Ho q Hl Hq) as [[p H]|[?|[p H]]]; [left; exists p; rewrite lookup_delete_ne; congruence|auto|].
      right; right. exists p. by rewrite lookup_insert_ne.
  - done.
Qed.

Lemma close_ok r pc peer : table_ok r -> rl_copies r !! pc = Some (peer, AtClose pc) ->
  table_ok {| rl_m := rl_m r; rl_sockets := rl_sockets r; rl_closed := {[pc]} ∪ rl_closed r; rl_main := rl_main r;
              rl_copies := delete pc (rl_copies r); rl_read := rl_read r; rl_sent := rl_sent r; rl_answers := rl_answers r |}.
Proof.
  intros [He Hc Hcl Hm Ho Hx] Hp. pose proof (Hcl _ _ _ Hp) as (_ & Hs & Hn & Hcd).
  constructor; unfold copied, being_added, being_closed in *; relay_cbn.
  - intros p q H. pose proof (He _ _ H) as (H1 & H2 & H3).
    assert (q <> pc) by congruence. split_and!; [done|set_solver|]. by rewrite lookup_delete_ne by done.
  - intros p q. rewrite !lookup_delete_Some. intros [[_ H]|[_ H]]; apply Hc; auto.
  - intros p q q'. rewrite lookup_delete_Some. intros [Hne (? & ? & ? & ?)%Hcl]. split_and!; try done. set_solver.
  - unfold main_ok in *. relay_cbn. destruct (rl_main r) as [| |p|p q|p q|]; try done.
    + destruct Hm as (? & ? & ? & ?). split_and!; try done; [|by rewrite lookup_delete_None; right].
      assert (q <> pc) by congruence. set_solver.
    + destruct Hm as (H1 & H2). split; [done|]. by rewrite lookup_delete_None; right.
  - intros q Hl Hq. destruct (Ho q Hl ltac:(set_solver)) as [?|[?|[p H]]]; [auto..|].
    right; right. exists p. rewrite lookup_delete_ne; [done|]. intros <-. set_solver.
  - intros q. rewrite elem_of_union, elem_of_singleton. intros [->|?%Hx]; [by eapply lookup_lt_Some|done].
Qed.
Lemma relay_step_ok SplitAddr ParseAddr out timeout role r r' :
  relay_step SplitAddr ParseAddr out timeout role r r' -> table_ok r -> table_ok r'.
Proof.
  intros Hst Hok. pose proof (tb_main r Hok) as Hm. unfold main_ok in Hm.
  destruct Hst as [r packet raddr payload target Hp _|r p Hp|r p Hp|r p Hp|r p pc Hp|r p pc Hp|r p pc Hp _|r p pc Hp
                  |r pc peer a Hp _ _|r pc peer Hp|r pc peer Hp|r pc peer pc' Hp].
  - apply (table_ok_main r); try done. by rewrite Hp; intros ?? [?|?].
  - apply (table_ok_main r); try done; [|by rewrite Hp; intros ?? [?|?]].
    unfold main_ok, nat_Get. cbn. destruct (rl_m r !! po_peer p) as [pc|] eqn:E; [by apply (tb_entry _ Hok)|done].
  - by apply listen_ok.
  - apply (table_ok_main r); try done. by rewrite Hp; intros ?? [?|?].
  - by apply set_ok.
  - by apply spawn_ok.
  - apply (table_ok_main r); try done. by rewrite Hp; intros ?? [?|?].
  - apply (table_ok_main r); try done. by rewrite Hp; intros ?? [?|?].
  - by apply (table_ok_main r).
  - by apply ends_ok.
  - unfold nat_Del. rewrite (tb_copy r Hok peer pc) by auto. by apply del_ok.
  - destruct (tb_close r Hok _ _ _ Hp) as (-> & _). by apply (close_ok r pc peer).
Qed.
End relay_ok.

(** What is on its way from [ReadFrom] to [WriteTo]. *)
Definition under_way (r : relay_state) : list packet_out :=
  match rl_main r with
  | AtRead => []
  | AtGet p | AtListen p | AtSet p _ | AtSpawn p _ | AtWrite p _ => [p]
  end.

(** What the relay has done so far. *)
Record record_ok SplitAddr ParseAddr (out : bytes -> go (option (bytes * string))) (timeout : Z) (role : mode)
    (r : relay_state) : Prop := {
  rc_sent : forall pc p, (pc, p) ∈ rl_sent r -> rl_sockets r !! pc = Some (po_peer p);
  rc_order : (map snd (rl_sent r) ++ under_way r) `sublist_of` rl_read r;
  rc_read : Forall (fun p => exists packet, out packet = Ret (Some (po_bytes p, po_target p))) (rl_read r);
  rc_answers : forall pc peer b, (pc, peer, b) ∈ rl_answers r ->
    rl_sockets r !! pc = Some peer /\ 0 < timeout /\
    exists a, b = relayed SplitAddr ParseAddr role (ar_packet a) (ar_from a)
}.

Lemma record_ok_same SplitAddr ParseAddr out timeout role r r' extra :
  record_ok SplitAddr ParseAddr out timeout role r -> rl_sockets r' = rl_sockets r ++ extra -> rl_read r' = rl_read r ->
  rl_sent r' = rl_sent r -> rl_answers r' = rl_answers r -> under_way r' = under_way r \/ under_way r' = [] ->
  record_ok SplitAddr ParseAddr out timeout role r'.
Proof.
  intros [Hs Ho Hr Ha] E1 E2 E3 E4 Hw. constructor; rewrite ?E1, ?E2, ?E3, ?E4; try done.
  - intros pc p H%Hs. by apply lookup_app_l_Some.
  - destruct Hw as [-> | ->]; [done|]. rewrite app_nil_r. etrans; [|exact Ho]. by apply sublist_inserts_r.
  - intros pc peer b (H1 & H2)%Ha. split; [by apply lookup_app_l_Some|done].
Qed.

Lemma relay_step_record SplitAddr ParseAddr out timeout role r r' :
  relay_step SplitAddr ParseAddr out timeout role r r' -> table_ok r ->
  record_ok SplitAddr ParseAddr out timeout role r -> record_ok SplitAddr ParseAddr out timeout role r'.
Proof.
  intros Hst Hok Hrec. pose proof (tb_main r Hok) as Hm. unfold main_ok in Hm.
  destruct Hst as [r packet raddr payload target Hp Hout|r p Hp|r p Hp|r p Hp|r p pc Hp|r p pc Hp|r p pc Hp _|r p pc Hp
                  |r pc peer a Hp _ Hd|r pc peer Hp|r pc peer Hp|r pc peer pc' Hp];
    try (apply (record_ok_same _ _ _ _ _ r _ []); rewrite ?app_nil_r; unfold under_way; cbn; rewrite ?Hp; auto; fail).
  - destruct Hrec as [Hs Ho Hr Ha]. constructor; try done.
    + unfold under_way in *. cbn. rewrite Hp, app_nil_r in Ho. by apply sublist_app.
    + cbn. apply Forall_app. split; [done|]. repeat constructor. by exists packet.
  - apply (record_ok_same _ _ _ _ _ r _ []); rewrite ?app_nil_r; unfold under_way; cbn; rewrite ?Hp; auto.
    destruct (nat_Get _ _); auto.
  - apply (record_ok_same _ _ _ _ _ r _ [po_peer p]); unfold under_way; cbn; rewrite ?Hp; auto.
  - destruct Hrec as [Hs Ho Hr Ha]. rewrite Hp in Hm. constructor; try done.
    + cbn. intros q p'. rewrite elem_of_app, list_elem_of_singleton. intros [H|[= -> ->]]; [by apply Hs|done].
    + unfold under_way in *. cbn. rewrite Hp in Ho. by rewrite map_app, app_nil_r.
  - destruct Hrec as [Hs Ho Hr Ha]. constructor; try done. cbn.
    intros q p' b. rewrite elem_of_app, list_elem_of_singleton. intros [H|[= -> -> ->]]; [by apply Ha|].
    split_and!; [by apply (copied_socket _ _ _ Copies)|lia|by exists a].
Qed.

Lemma relay_reachable SplitAddr ParseAddr out timeout role r :
  rtc (relay_step SplitAddr ParseAddr out timeout role) new_relay r ->
  table_ok r /\ record_ok SplitAddr ParseAddr out timeout role r.
Proof.
  intros H. apply (rtc_ind_r (R := relay_step SplitAddr ParseAddr out timeout role)
    (fun r => table_ok r /\ record_ok SplitAddr ParseAddr out timeout role r) new_relay); [| |exact H].
  - split; constructor; unfold copied; cbn; try done; try (intros; set_solver); intros; lia.
  - intros u v _ Hst [H1 H2]. split; [by eapply relay_step_ok|by eapply relay_step_record].
Qed.

(** (C37) Whatever the order in which the loop of a relay and the goroutines of its sockets
    take their steps: the packets that left are, in order, some of those that were read,
    each made of a packet as the relay's mode has it, and each left by a socket that was
    opened for the peer it came from and for no other; what a socket's goroutine wrote back
    went to that peer, was made of an answer as the mode has it, and nothing was written
    back when the relay waits no time for an answer; a socket of the table is open, is that
    of its peer and has a goroutine that will close it; and every open socket is one of the
    table, or is just being put into it, or has just been taken out to be closed. *)
Theorem udp_nat_exact SplitAddr ParseAddr addr_String ResolveUDPAddr timeout role tgt srv (r : relay_state) :
  let out := relay_out SplitAddr addr_String ResolveUDPAddr role tgt srv in
  rtc (relay_step SplitAddr ParseAddr out timeout role) new_relay r ->
  map snd (rl_sent r) `sublist_of` rl_read r /\
  (forall p, p ∈ rl_read r -> exists packet, out packet = Ret (Some (po_bytes p, po_target p))) /\
  (forall pc p, (pc, p) ∈ rl_sent r -> rl_sockets r !! pc = Some (po_peer p)) /\
  (forall pc peer b, (pc, peer, b) ∈ rl_answers r -> rl_sockets r !! pc = Some peer /\
    exists a, b = relayed SplitAddr ParseAddr role (ar_packet a) (ar_from a)) /\
  (timeout <= 0 -> rl_answers r = []) /\
  (forall peer pc, rl_m r !! peer = Some pc -> rl_sockets r !! pc = Some peer /\ pc ∉ rl_closed r /\ copied r peer pc) /\
  (forall pc, (pc < length (rl_sockets r))%nat ->
    pc ∉ rl_closed r <-> (exists peer, rl_m r !! peer = Some pc) \/ being_added r pc \/ being_closed r pc).
Proof.
  intros out [Hok [Hs Ho Hr Ha]]%relay_reachable. split_and!.
  - etrans; [|exact Ho]. by apply sublist_inserts_r.
  - by apply Forall_forall.
  - done.
  - intros pc peer b (H1 & _ & H2)%Ha. done.
  - intros Ht. destruct (rl_answers r) as [|[[pc peer] b] l]; [done|].
    destruct (Ha pc peer b) as (_ & ? & _); [by left|lia].
  - apply (tb_entry r Hok).
  - intros pc Hl. split; [by apply (tb_open r Hok)|]. intros [[peer H]|[[p H]|[peer H]]].
    + by apply (tb_entry r Hok) in H as (_ & ? & _).
    + pose proof (tb_main r Hok) as Hm. unfold main_ok in Hm. rewrite H in Hm. apply Hm.
    + by apply (tb_close r Hok) in H as (_ & _ & _ & ?).
Qed.

(** One packet through the relay of a server, with one answer, whose copy then ends. *)
Definition demo_split (p : bytes) : option bytes := match p with a :: _ => Some [a] | [] => None end.
Definition demo_parse (_ : string) : option bytes := Some [7].
Definition demo_peer : string := "192.0.2.7:999".
Definition demo_dns : string := "10.0.0.1:53".
Definition demo_run : relay_state :=
  let p := {| po_peer := demo_peer; po_bytes := [2; 3]; po_target := demo_dns |} in
  {| rl_m := ∅; rl_sockets := [demo_peer]; rl_closed := ∅; rl_main := AtRead; rl_copies := {[0%nat := (demo_peer, AtClose 0)]};
     rl_read := [p]; rl_sent := [(0%nat, p)]; rl_answers := [(0%nat, demo_peer, [7; 9])] |}.
Ltac relay_next t := eapply rtc_l; [t; first [done | set_solver] |]; unfold set_main; relay_cbn.
Lemma demo_run_reachable :
  rtc (relay_step demo_split demo_parse (relay_out demo_split (fun _ => demo_dns) Some remoteServer [] "") 60 remoteServer)
    new_relay demo_run.
Proof.
  relay_next ltac:(apply (M_read _ _ _ _ _ _ [1; 2; 3] demo_peer [2; 3] demo_dns)). relay_next ltac:(eapply M_get).
  relay_next ltac:(apply M_listen). relay_next ltac:(apply M_set). relay_next ltac:(apply M_spawn).
  relay_next ltac:(eapply M_write).
  relay_next ltac:(apply (C_answer _ _ _ _ _ _ 0%nat demo_peer {| ar_delay := 5; ar_packet := [9]; ar_from := demo_dns |})).
  relay_next ltac:(apply (C_ends _ _ _ _ _ _ 0%nat demo_peer)). relay_next ltac:(apply (C_del _ _ _ _ _ _ 0%nat demo_peer)).
  apply reflexive_eq. vm_compute. reflexivity.
Qed.
Lemma udp_nat_exact_witness :
  length (rl_sent demo_run) = 1%nat /\ map snd (rl_sent demo_run) `sublist_of` rl_read demo_run.
Proof.
  split; [reflexivity|].
  exact (proj1 (udp_nat_exact demo_split demo_parse (fun _ => demo_dns) Some 60 remoteServer [] "" demo_run demo_run_reachable)).
Defined.

(** A packet goes through a local relay and a server to the target as it was, and the
    answer comes back as it was. *)
Lemma udp_relay_roundtrip SplitAddr ParseAddr addr_String ResolveUDPAddr tgt target srv srv' packet pay t :
  (forall a rest, ParseAddr a <> None -> SplitAddr (default [] (ParseAddr a) ++ rest) = ParseAddr a) ->
  ParseAddr target = Some tgt -> addr_String tgt = target ->
  relay_out SplitAddr addr_String ResolveUDPAddr relayClient tgt srv packet = Ret (Some (pay, srv')) ->
  ResolveUDPAddr target = Some t ->
  srv' = srv /\ relay_out SplitAddr addr_String ResolveUDPAddr remoteServer [] "" pay = Ret (Some (packet, t)) /\
  forall answer from, ParseAddr from <> None ->
    relayed SplitAddr ParseAddr relayClient (relayed SplitAddr ParseAddr remoteServer answer from) srv = answer.
Proof.
  intros Hlaw Ht Hs [= <- <-] Hr. split; [done|]. split.
  - unfold relay_out, remote_out. pose proof (Hlaw target packet) as H. rewrite Ht in H. cbn in H. rewrite H by done.
    by rewrite Hs, Hr, drop_app_length.
  - intros answer from Hf. unfold relayed. rewrite Hlaw by done. by rewrite drop_app_length.
Qed.

(** No answer is ever copied: the time a relay waits for one is zero. *)
Lemma udp_answers_never_come SplitAddr ParseAddr role write_ok n l :
  Forall (fun a => 0 <= ar_delay a) l -> timedCopy SplitAddr ParseAddr (UDPTimeout config) role write_ok n l = [].
Proof.
  intros H. destruct l as [|a l]; [done|]. apply Forall_cons_1 in H as [Ha _]. cbn [timedCopy config UDPTimeout].
  by rewrite (proj2 (Z.ltb_ge (ar_delay a) 0) Ha).
Qed.

(** ** Start and stop *)

(** A server with a plugin listens on the loopback address the plugin forwards to when it
    serves TCP, and on its own address, next to the plugin, when it serves UDP. *)
Lemma shadow_start_plugin {C} stat LookPath can_start port PickCipher s g (c : C) :
  ss_Key s = ""%string -> ss_Plugin s <> ""%string -> PickCipher (ss_Cipher s) ""%string (ss_Password s) = Some c ->
  SplitHostPort (ss_Server s) <> None -> plugin_file stat LookPath (ss_Plugin s) <> None -> (forall p, can_start p = true) ->
  (shadow_Start stat LookPath can_start (Some port) PickCipher s g).2 =
    if String.eqb (ss_Protocol s) "udp" then UdpRemote (ss_Server s) c else TcpRemote ("127.0.0.1:" +:+ port)%string c.
Proof.
  intros Hk Hp Hc Hs Hf Hst. unfold shadow_Start. rewrite Hk. cbn [String.eqb].
  rewrite (proj2 (String.eqb_neq _ _) Hp). unfold startPlugin.
  destruct (SplitHostPort (ss_Server s)) as [[h p]|]; [|done]. unfold execPlugin.
  destruct (plugin_file _ _ _) as [f|]; [|done]. rewrite Hst. cbv zeta. by rewrite Hc.
Qed.

(** Of two servers with plugins, the end of both signals the second plugin twice and the
    first not at all. *)
Lemma first_plugin_left_running :
  exists s1 s2 : ShadowSocks,
    let start := shadow_Start (fun _ => Some false) (fun _ => None) (fun _ => true) (Some "4000"%string) (fun _ _ _ => Some tt) in
    let g := (start s2 (start s1 no_plugins).1).1 in
    length (pg_started g) = 2%nat /\ pg_signalled (shadow_Stop s2 (shadow_Stop s1 g)) = [1; 1]%nat.
Proof.
  exists (NewShadowSocks {| shp_Server := ":8388"; shp_Key := ""; shp_Cipher := "aes"; shp_Password := "p"; shp_Plugin := "obfs";
                            shp_PluginOpts := ""; shp_Protocol := "" |}),
         (NewShadowSocks {| shp_Server := ":8389"; shp_Key := ""; shp_Cipher := "aes"; shp_Password := "p"; shp_Plugin := "obfs";
                            shp_PluginOpts := ""; shp_Protocol := "" |}).
  vm_compute. done.
Qed.
