(* ===== verification/Cmd.v ===== *)
(** * The command line (cmd, pkg/libol/http.go)

    The client of the API and the commands that use it: the URL a command asks for, the
    request net/http makes of it, the redirects it follows, and what the command does with
    the answer.  The server at the other end is [ServeHTTP] of [Http]; flags come from
    urfave/cli as texts, and formatting what is shown is not modelled. *)

From S2P Require Import Prelude GoStd Json Md5 Base64 Protocol SafeMap Tap Bridge Models UserCache NetCache Cache Socket Apps Switch.
From S2P Require Import Utils Config Esp Vpn VpnClients ConfigFiles Schema Mux Api Node Http UserApi.

Local Open Scope Z_scope.
Local Arguments String.append !_ _ / : simpl nomatch.

(** ** URLs (net/url) *)

(** [unescape]: in a query a plus is a space. *)
Fixpoint unescape (plus : bool) (s : string) : option string :=
  match s with
  | EmptyString => Some EmptyString
  | String a r =>
      if byte a =? 37 then
        match r with
        | String h (String l r) =>
            x ← hex_digit_val h; y ← hex_digit_val l; t ← unescape plus r; Some (String (chr (16 * x + y)) t)
        | _ => None
        end
      else t ← unescape plus r; Some (String (if plus && (byte a =? 43) then chr 32 else a) t)
  end.

Fixpoint has_control (s : string) : bool :=
  match s with EmptyString => false | String a r => (byte a <? 32) || (byte a =? 127) || has_control r end.

Definition cut_or (c : Z) (s : string) : string * string :=
  match cut (chr c) s with Some (l, r) => (l, r) | None => (s, EmptyString) end.

(** The path and the query of what follows the host; [None] when it does not parse. *)
Definition parse_target (s : string) : option (string * string) :=
  let '(u, fragment) := cut_or 35 s in
  _ ← unescape false fragment;
  let '(p, query) := cut_or 63 u in
  path ← unescape false p;
  if has_control s then None else Some (path, query).

(** [ParseQuery]: pairs that do not parse are left out. *)
Definition add_value (k v : string) (l : list (string * list string)) : list (string * list string) :=
  if existsb (fun e => String.eqb e.1 k) l then map (fun e => if String.eqb e.1 k then (e.1, e.2 ++ [v]) else e) l
  else l ++ [(k, [v])].
Definition ParseQuery (query : string) : list (string * list string) :=
  foldl (fun l pair =>
           if String.eqb pair "" then l
           else
             let '(k, v) := cut_or 61 pair in
             match unescape true k, unescape true v with
             | Some k, Some v => add_value k v l
             | _, _ => l
             end) [] (concat (map (fun s => Split s (chr 59)) (Split query (chr 38)))).

(** ** The HTTP client (libol/http.go, libol/wsclient.go) *)

Record Auth := { au_Type : string; au_Username : string; au_Password : string }.
Record HttpClient := { ht_Method : string; ht_Url : string; ht_Payload : option string; ht_Auth : Auth }.

Definition BasicAuth (username password : string) : string :=
  let auth := username +:+ ":" in
  let auth := if String.eqb password "" then auth else auth +:+ password in
  "Basic " +:+ Encode StdAlphabet auth.

(** Why there is no answer, or none that is wanted. *)
Inductive cmd_error :=
| Usage (text : string)
| BadUrl (url : string)
| BadLocation (code : Z)
| TooManyRedirects
| Refused (code : Z) (body : string)
| BadBody (body : string).

Section client.
Context {S : Type} `{Switcher S}.
Context (E : env) (now : Z) (h : Http).
(** The address of the server, scheme, host and port, and the host. *)
Context (base host : string).

Definition make_request (method path query : string) (auth : Auth) (body : string) : request :=
  {| q_Method := method; q_Path := if String.eqb path "" then "/" else path; q_Host := host; q_Query := ParseQuery query;
     q_Auth := if String.eqb (au_Type auth) "basic" then http_parseBasicAuth (BasicAuth (au_Username auth) (au_Password auth)) else None;
     q_Body := Some body |}.

(** A query with a space makes a request line the server does not take. *)
Definition bad_line (query : string) : bool := contains_char (chr 32) query.
Definition bad_request : response := {| p_Code := 400; p_Headers := []; p_Body := "400 Bad Request" |}.

Definition location (r : response) : option string :=
  option_map snd (List.find (fun e => String.eqb e.1 "Location") (p_Headers r)).

(** [http.Client.Do] from a request on: at most ten, one per redirect. *)
Fixpoint follow (fuel : nat) (method path query : string) (auth : Auth) (body : string) (st : state S)
    : go (state S * (response + cmd_error)) :=
  match fuel with
  | O => mret (st, inr TooManyRedirects)
  | Datatypes.S fuel =>
      if bad_line query then mret (st, inl bad_request)
      else
        r ← ServeHTTP E now h st (make_request method path query auth body);
        let '(st, p) := r in
        let moved := (p_Code p =? 301) || (p_Code p =? 302) || (p_Code p =? 303) in
        if moved || (p_Code p =? 307) || (p_Code p =? 308) then
          match location p with
          | None => mret (st, if moved then inr (BadLocation (p_Code p)) else inl p)
          | Some loc =>
              match parse_target loc with
              | None => mret (st, inr (BadLocation (p_Code p)))
              | Some (path, query) =>
                  if moved && negb (String.eqb method "GET" || String.eqb method "HEAD")
                  then follow fuel "GET" path query auth "" st
                  else follow fuel method path query auth (if moved then "" else body) st
              end
          end
        else mret (st, inl p)
  end.

Definition Do (cl : HttpClient) (st : state S) : go (state S * (response + cmd_error)) :=
  let method := if String.eqb (ht_Method cl) "" then "GET"%string else ht_Method cl in
  match strip base (ht_Url cl) with
  | None => mret (st, inr (BadUrl (ht_Url cl)))
  | Some rest =>
      match parse_target rest with
      | None => mret (st, inr (BadUrl (ht_Url cl)))
      | Some (path, query) => follow 10 method path query (ht_Auth cl) (default ""%string (ht_Payload cl)) st
      end
  end.

(** ** The client of the API (cmd/api/v5/client.go) *)

Record Client := { cl_Auth : Auth }.
Definition NewHttp (token : string) : Client :=
  {| cl_Auth := {| au_Type := ""; au_Username := token; au_Password := "" |} |}.
Definition NewRequest (cl : Client) (method url : string) (payload : option string) : HttpClient :=
  {| ht_Method := method; ht_Url := url; ht_Payload := payload;
     ht_Auth := {| au_Type := "basic"; au_Username := au_Username (cl_Auth cl); au_Password := au_Password (cl_Auth cl) |} |}.

Definition reply (A : Type) : Type := state S * (A + cmd_error).

Definition GetBody (cl : Client) (url : string) (st : state S) : go (reply string) :=
  r ← Do (NewRequest cl "" url None) st;
  mret (r.1, match r.2 with
             | inr e => inr e
             | inl p => if p_Code p =? 200 then inl (p_Body p) else inr (Refused (p_Code p) (p_Body p))
             end).

(** [JSON] of a value, nil as null; [o] decodes the answer, none leaves it unread. *)
Definition JSON {A} (cl : Client) (method url : string) (i : json) (o : string -> option A) (st : state S) : go (reply A) :=
  r ← Do (NewRequest cl method url (Some (Marshal i))) st;
  mret (r.1, match r.2 with
             | inr e => inr e
             | inl p => if p_Code p =? 200
                        then match o (p_Body p) with Some a => inl a | None => inr (BadBody (p_Body p)) end
                        else inr (Refused (p_Code p) (p_Body p))
             end).
Definition unread (body : string) : option unit := Some tt.
Definition GetJSON {A} (cl : Client) (url : string) (o : string -> option A) := JSON cl "GET" url JNull o.
Definition PostJSON {A} (cl : Client) (url : string) (i : json) (o : string -> option A) := JSON cl "POST" url i o.
Definition PutJSON {A} (cl : Client) (url : string) (i : json) (o : string -> option A) := JSON cl "PUT" url i o.
Definition DeleteJSON {A} (cl : Client) (url : string) (i : json) (o : string -> option A) := JSON cl "DELETE" url i o.


(** ** Commands (cmd/api/v5) *)

(** What a command shows when it succeeds: the value it was sent, or a text. *)
Inductive shown := Quiet | ShowUser (u : sUser.t) | ShowValue (v : json) | ShowText (s : string) | ShowFiles (l : list (string * bool)).

Definition show {A} (f : A -> shown) (r : go (reply A)) : go (reply shown) :=
  r ← r; mret (r.1, match r.2 with inl a => inl (f a) | inr e => inr e end).

(** A context gives the text of each flag. *)
Abbreviation context := (string -> string).
Abbreviation command := (state S -> go (reply shown)).
Definition fails (text : string) : command := fun st => mret (st, inr (Usage text)).
Definition does_nothing : command := fun st => mret (st, inl Quiet).

(** The [Url] of most: the collection, or one of it. *)
Definition item_url (path prefix name : string) : string :=
  if String.eqb name "" then prefix +:+ path else prefix +:+ path +:+ "/" +:+ name.

Definition clt (c : context) : Client := NewHttp (c "token"%string).
Definition list_items (path name : string) (c : context) : command := fun st =>
  show ShowValue (GetJSON (clt c) (item_url path (c "url"%string) name) Json.Parse st).

(** Lists that are sorted before they are shown, by fields of their elements. *)
Definition field (name : string) (v : json) : option json :=
  match v with JObj l => option_map snd (List.find (fun e => String.eqb e.1 name) l) | _ => None end.
Definition text_field (name : string) (v : json) : string :=
  match field name v with Some (JStr s) => s | _ => EmptyString end.
Definition int_field (name : string) (v : json) : Z :=
  match field name v with Some (JNum lit) => (Atoi lit).1 | _ => 0 end.
Definition sorted (less : json -> json -> bool) (v : json) : json :=
  match v with JArr l => JArr (SliceStable less l) | v => v end.
Definition sorted_items (path : string) (less : json -> json -> bool) (c : context) : command := fun st =>
  show (fun v => ShowValue (sorted less v)) (GetJSON (clt c) (item_url path (c "url"%string) "") Json.Parse st).

(** *** user.go *)

Definition user_Url (prefix name : string) : string := item_url "/api/user" prefix name.

Definition user_add (c : context) : command := fun st =>
  let username := c "name"%string in
  if String.eqb username "" then fails "name is empty" st
  else if negb (contains_char User.char_at username) then fails "name not contains network" st
  else
    let values := SplitN username User.char_at 2 in
    let user := sUser.mk "" (c "role"%string) (User.nth_or values 0) (c "password"%string) (User.nth_or values 1) (c "lease"%string) in
    show (fun _ => Quiet) (PostJSON (clt c) (user_Url (c "url"%string) (sUser.Name user)) (sUser.json user) unread st).

Definition user_remove (c : context) : command := fun st =>
  show (fun _ => Quiet) (DeleteJSON (clt c) (user_Url (c "url"%string) (c "name"%string)) JNull unread st).

Definition user_list (c : context) : command := fun st =>
  show ShowValue (GetJSON (clt c) (user_Url (c "url"%string) "") Json.Parse st).

Definition user_get (c : context) : command := fun st =>
  show ShowUser (GetJSON (clt c) (user_Url (c "url"%string) (c "name"%string)) sUser.parse st).

(** The address of the client, as OpenVPN passes it. *)
Definition client_alias (env_var : string -> option string) : string :=
  match env_var "untrusted_ip"%string with
  | Some ip => ip +:+ ":" +:+ default ""%string (env_var "untrusted_port"%string)
  | None => ""%string
  end.
(** [LookupEnv]; a variable that is not set reads as the empty text. *)
Definition user_check (env_var : string -> option string) (c : context) : command := fun st =>
  let getenv k := default ""%string (env_var k) in
  let netFromO := c "network"%string in
  let nameFromE := if String.eqb (c "name"%string) "" then getenv "username"%string else c "name"%string in
  let passFromE := if String.eqb (c "name"%string) "" then getenv "password"%string else c "password"%string in
  let has_at := contains_char User.char_at nameFromE in
  let netFromE := if has_at then User.nth_or (Split nameFromE User.char_at) 1 else "default"%string in
  let fullName := if has_at then nameFromE else nameFromE +:+ "@" +:+ netFromE in
  if negb (String.eqb netFromO "") && negb (String.eqb netFromE netFromO) then fails "wrong" st
  else
    let data := sUser.mk (client_alias env_var) "" fullName passFromE "" "" in
    show (fun _ => ShowText ("success: us=" +:+ nameFromE))
      (PostJSON (clt c) (user_Url (c "url"%string) fullName +:+ "/check") (sUser.json data) unread st).

(** *** The others *)

Definition device_list : context -> command := list_items "/api/device" "".
Definition lease_list : context -> command := list_items "/api/lease" "".
Definition point_list : context -> command := list_items "/api/point" "".
Definition link_list : context -> command := list_items "/api/link" "".
Definition esp_list : context -> command := list_items "/api/esp" "".
Definition vxlan_list : context -> command := list_items "/api/vxlan" "".
Definition state_list : context -> command :=
  sorted_items "/api/state" (fun a b => int_field "spi" b <? int_field "spi" a).
Definition policy_list : context -> command :=
  sorted_items "/api/policy" (fun a b => str_gt (text_field "name" a +:+ text_field "source" a) (text_field "name" b +:+ text_field "source" b)).
Definition client_list (c : context) : command := list_items "/api/vpn/client" (c "network"%string) c.

Definition body_list (path : string) (c : context) : command := fun st =>
  show ShowText (GetBody (clt c) (c "url"%string +:+ path +:+ "?format=" +:+ c "format"%string) st).
Definition network_list : context -> command := body_list "/api/network".
Definition server_list : context -> command := body_list "/api/server".

Definition config_Url (prefix name : string) : string := item_url "/api/config" prefix name.
Definition config_list (c : context) : command := fun st =>
  show ShowValue (GetJSON (clt c) (config_Url (c "url"%string) "") Json.Parse st).
Definition config_reload (c : context) : command := fun st =>
  show ShowValue (PutJSON (clt c) (config_Url (c "url"%string) "reload") JNull Json.Parse st).
Definition config_save (c : context) : command := fun st =>
  show ShowValue (PutJSON (clt c) (config_Url (c "url"%string) "save") JNull Json.Parse st).

(** The files of a configuration, each with whether it decodes as what it should hold. *)
Section check.
Context (unreadable : string -> bool) (decodes : string -> string -> bool).
Definition Base (file : string) : string := default file (last (Split file char_slash)).
Definition check_file (kind file : string) (files : fs) : string * bool :=
  (Base file, match LoadWithoutAnn unreadable file files with Some text => decodes kind text | None => false end).
Definition check_one (kind file : string) (files : fs) : list (string * bool) :=
  match files !! file with Some _ => [check_file kind file files] | None => [] end.
Definition check_dir (kind dir : string) (files : fs) : list (string * bool) :=
  map (fun f => check_file kind f files) (Glob dir files).
Definition config_check (c : context) : command := fun st =>
  let files := st_files st in
  let dir := c "dir"%string in
  mret (st, inl (ShowFiles
    (check_one "proxy" (path_Join [dir; "proxy.json"%string]) files ++ check_one "point" (path_Join [dir; "point.json"%string]) files ++
     check_one "switch" (path_Join [dir; "switch"; "switch.json"]%string) files ++
     concat (map (fun k => check_dir k (path_Join [dir; "switch"%string; k]) files) ["network"; "acl"; "link"; "route"]%string)))).
End check.

Definition pprof_Url (prefix : string) : string := prefix +:+ "/api/pprof".
Definition pprof_add (c : context) : command := fun st =>
  if String.eqb (c "listen"%string) "" then fails "listen value is empty" st
  else show (fun _ => Quiet)
         (PostJSON (clt c) (pprof_Url (c "url"%string)) (JObj (jstr "listen" (c "listen"%string))) unread st).
Definition pprof_del (c : context) : command := fun st =>
  show (fun _ => Quiet) (DeleteJSON (clt c) (pprof_Url (c "url"%string)) JNull unread st).
Definition pprof_list (c : context) : command := fun st =>
  show ShowText (GetJSON (clt c) (pprof_Url (c "url"%string)) (fun b => st ← Unmarshal ["listen"%string] b; Some (got st "listen")) st).

(** Access lists are not asked for. *)
Definition acl_add (c : context) : command := does_nothing.
Definition acl_remove (c : context) : command := does_nothing.
Definition acl_list (c : context) : command := does_nothing.
Definition acl_apply (c : context) : command := does_nothing.

(** ** The tables of commands *)

(** A command under its names, with its flags and their defaults. *)
Record subcommand := { sc_names : list string; sc_flags : list (string * string); sc_action : context -> command }.
Record group := { gr_names : list string; gr_subs : list subcommand }.
Definition sub (names : list string) (flags : list (string * string)) (action : context -> command) : subcommand :=
  {| sc_names := names; sc_flags := flags; sc_action := action |}.

Section tables.
Local Open Scope string_scope.
(** The random password and the date in ninety-nine years. *)
Context (random lease : string) (env_var : string -> option string) (no_file : string -> bool) (decodes : string -> string -> bool).

Definition user_Commands : group :=
  {| gr_names := ["user"; "us"];
     gr_subs :=
       [sub ["add"] [("name", ""); ("password", random); ("role", "guest"); ("lease", lease)] user_add;
        sub ["set"] [("name", ""); ("password", ""); ("role", ""); ("lease", "")] user_add;
        sub ["remove"; "rm"] [("name", "")] user_remove;
        sub ["list"; "ls"] [("network", "")] user_list;
        sub ["get"] [("name", "")] user_get;
        sub ["check"; "co"] [("name", ""); ("password", ""); ("network", "")] (user_check env_var)] |}.
Definition acl_Commands : group :=
  {| gr_names := ["acl"];
     gr_subs := [sub ["add"] [] acl_add; sub ["remove"; "ls"] [] acl_remove; sub ["list"; "ls"] [] acl_list;
                 sub ["apply"] [("network", "")] acl_apply] |}.
Definition only_list (names : list string) (action : context -> command) : group :=
  {| gr_names := names; gr_subs := [sub ["list"; "ls"] [] action] |}.
Definition device_Commands : group := only_list ["device"; "dev"] device_list.
Definition lease_Commands : group := only_list ["lease"; "le"] lease_list.
Definition config_Commands : group :=
  {| gr_names := ["config"; "cfg"];
     gr_subs := [sub ["list"; "ls"] [("format", "json")] config_list;
                 sub ["check"; "co"] [("dir", "/etc/openlan")] (config_check no_file decodes);
                 sub ["reload"; "re"] [("dir", "/etc/openlan")] config_reload;
                 sub ["save"; "sa"] [("dir", "/etc/openlan")] config_save] |}.
Definition point_Commands : group := only_list ["point"; "ap"] point_list.
Definition client_Commands : group := only_list ["client"; "cl"] client_list.
Definition link_Commands : group := only_list ["link"; "ln"] link_list.
Definition server_Commands : group := only_list ["server"; "sr"] server_list.
Definition network_Commands : group := only_list ["network"; "net"] network_list.
Definition pprof_Commands : group :=
  {| gr_names := ["pprof"; "pp"];
     gr_subs := [sub ["list"; "ls"] [] pprof_list; sub ["enable"] [("listen", "127.0.0.1:6060")] pprof_add] |}.
Definition esp_Commands : group := only_list ["esp"] esp_list.
Definition vxlan_Commands : group := only_list ["vxlan"; "vx"] vxlan_list.
Definition state_Commands : group := only_list ["state"; "se"] state_list.
Definition policy_Commands : group := only_list ["policy"; "po"] policy_list.

Definition Commands : list group :=
  [user_Commands; acl_Commands; device_Commands; lease_Commands; config_Commands; point_Commands; client_Commands;
   link_Commands; server_Commands; network_Commands; pprof_Commands; esp_Commands; vxlan_Commands; state_Commands;
   policy_Commands].

(** The first with the name. *)
Definition find_command (g s : string) : option subcommand :=
  gr ← List.find (fun gr => existsb (String.eqb g) (gr_names gr)) Commands;
  List.find (fun sc => existsb (String.eqb s) (sc_names sc)) (gr_subs gr).

(** *** Flags *)

(** The flags every command has, with the token and the address of the environment. *)
Definition Flags (Token Url : string) : list (string * string) := [("format", "table"); ("token", Token); ("url", Url)].

(** The text of a flag: the command's own first; what was given, or the default. *)
Definition c_String (globals locals : list (string * string)) (given_global given_local : gmap string string) : context := fun name =>
  match List.find (fun f => String.eqb f.1 name) locals with
  | Some f => default f.2 (given_local !! name)
  | None => match List.find (fun f => String.eqb f.1 name) globals with
            | Some f => default f.2 (given_global !! name)
            | None => ""
            end
  end.

Definition AdminTokenFile : string := "/etc/openlan/switch/token".
(** [Before]: a token that is not given comes from the file of the switch. *)
Definition Before (files : fs) (Token : string) (given : gmap string string) : gmap string string :=
  if String.eqb (default Token (given !! "token")) "" then
    <["token" := match files !! AdminTokenFile with
                 | Some data => if no_file AdminTokenFile then "" else TrimSpace data
                 | None => ""
                 end]> given
  else given.

(** A run with its flags, and the whole program with those of the environment. *)
Definition Run (Token Url g s : string) (given_global given_local : gmap string string) (st : state S) : go (reply shown) :=
  let given_global := Before (st_files st) Token given_global in
  match find_command g s with
  | None => mret (st, inr (Usage "no such command"))
  | Some sc => sc_action sc (c_String (Flags Token Url) (sc_flags sc) given_global given_local) st
  end.

Definition GetEnv (key value : string) : string :=
  match env_var key with
  | Some val => if String.eqb val "" then value else val
  | None => value
  end.
Definition main (g s : string) (given_global given_local : gmap string string) (st : state S) : go (reply shown) :=
  Run (GetEnv "OL_TOKEN" "") (GetEnv "OL_URL" "https://localhost:10000") g s given_global given_local st.
End tables.

End client.
