(* ===== verification/CmdUser.v ===== *)
(** * Users by the command line

    A user that is added with the command line is the user the switch checks: the run of
    [openlan user add] from its flags over the request and its handler to the tables and
    back, followed by the run of [openlan user check] that a VPN server makes for each
    client. *)

From S2P Require Import Prelude GoStd Json Md5 Base64 Protocol SafeMap Tap Bridge Models UserCache NetCache Cache Socket Apps Switch.
From S2P Require Import Utils Config Esp Vpn VpnClients ConfigFiles Schema Mux Api Node Http UserApi Cmd.

Local Open Scope Z_scope.
Local Arguments String.append !_ _ / : simpl nomatch.

(** ** URLs *)

(** A text that stands for itself in a path: neither escapes nor the ends of a path. *)
Definition url_plain (s : string) : bool :=
  negb (contains_char (chr 37) s) && negb (contains_char (chr 35) s) && negb (contains_char (chr 63) s) && negb (has_control s).

Lemma has_control_app s t : has_control (s +:+ t) = has_control s || has_control t.
Proof. induction s as [|a s IH]; [done|]. cbn. by rewrite IH, !orb_assoc. Qed.
Lemma url_plain_app s t : url_plain (s +:+ t) = url_plain s && url_plain t.
Proof.
  unfold url_plain. rewrite !contains_app, has_control_app, !negb_orb.
  destruct (contains_char _ s), (contains_char (chr 35) s), (contains_char (chr 63) s), (has_control s); simpl;
    rewrite ?andb_false_r; done.
Qed.

Lemma byte_is n a : (byte a =? n) = Ascii.eqb a (chr n) \/ ~ 0 <= n < 256.
Proof.
  destruct (decide (0 <= n < 256)) as [Hn|Hn]; [left|by right].
  destruct (Ascii.eqb_spec a (chr n)) as [->|Hne].
  - apply Z.eqb_eq. unfold byte, chr. rewrite Ascii.N_ascii_embedding; lia.
  - apply Z.eqb_neq. intros <-. apply Hne. symmetry. apply chr_byte.
Qed.

Lemma unescape_plain s : contains_char (chr 37) s = false -> unescape false s = Some s.
Proof.
  induction s as [|a s IH]; [done|]. cbn [contains_char]. intros [Ha Hs]%orb_false_iff. cbn [unescape].
  destruct (byte_is 37 a) as [->|?]; [|lia]. rewrite Ha, IH by done. done.
Qed.

Lemma parse_target_plain s : url_plain s = true -> parse_target s = Some (s, ""%string).
Proof.
  unfold url_plain. rewrite !andb_true_iff, !negb_true_iff. intros [[[H37 H35] H63] Hc].
  unfold parse_target, cut_or. rewrite !(cut_none _ s) by done. cbn [unescape mbind option_bind].
  by rewrite unescape_plain, Hc.
Qed.

(** ** Requests with the token *)

Section server.
Context {S : Type} `{Switcher S}.
Context (E : env) (now : Z) (h : Http) (base host : string).
Implicit Types st : state S.

Definition token_ok : Prop := contains_char char_colon (h_adminToken h) = false.

(** The request of a client with the administrator's token. *)
Definition cli_request (method path body : string) : request :=
  {| q_Method := method; q_Path := path; q_Host := host; q_Query := []; q_Auth := Some (h_adminToken h, ""%string); q_Body := Some body |}.

Lemma make_request_token method path body : token_ok -> path <> ""%string ->
  make_request host method path "" {| au_Type := "basic"; au_Username := h_adminToken h; au_Password := "" |} body =
    cli_request method path body.
Proof.
  intros Ht Hp. unfold make_request, cli_request. cbn [au_Type au_Username au_Password]. rewrite (proj2 (String.eqb_neq _ _) Hp).
  change (String.eqb "basic" "basic") with true. cbv iota. change (ParseQuery "") with (@nil (string * list string)).
  assert (Ha : BasicAuth (h_adminToken h) "" = basicAuth (h_adminToken h) "") by done.
  by rewrite Ha, http_parse_basicAuth.
Qed.

Lemma ServeHTTP_cli st method path body hd vars :
  dispatch LoadRouter method path = Found hd vars -> access hd = AdminOnly ->
  ServeHTTP E now h st (cli_request method path body) = handle E now h hd vars st (cli_request method path body).
Proof.
  intros Hd Ha. unfold ServeHTTP, Middleware. cbn [cli_request q_Method q_Path]. rewrite Hd.
  destruct (found_guarded _ _ _ _ Hd) as [Hg _]. rewrite Ha in Hg. unfold IsAuth. cbn [cli_request q_Path q_Auth].
  by rewrite Hg, String.eqb_refl.
Qed.

Definition final (p : response) : bool :=
  negb ((p_Code p =? 301) || (p_Code p =? 302) || (p_Code p =? 303) || (p_Code p =? 307) || (p_Code p =? 308)).

Lemma follow_final fuel method path query auth body st st' p :
  bad_line query = false -> ServeHTTP E now h st (make_request host method path query auth body) = Ret (st', p) -> final p = true ->
  follow E now h host (Datatypes.S fuel) method path query auth body st = Ret (st', inl p).
Proof.
  intros Hq Hs Hf. cbn [follow]. rewrite Hq, Hs. cbn [mbind go_bind]. unfold final in Hf. apply negb_true_iff in Hf. by rewrite Hf.
Qed.

(** A request for a plain path of the API that is answered finally is one request. *)
Lemma Do_once st st' method path body hd vars p :
  token_ok -> method <> ""%string -> url_plain path = true -> dispatch LoadRouter method path = Found hd vars -> access hd = AdminOnly ->
  handle E now h hd vars st (cli_request method path body) = Ret (st', p) -> final p = true ->
  Do E now h base host (NewRequest (NewHttp (h_adminToken h)) method (base +:+ path) (Some body)) st = Ret (st', inl p).
Proof.
  intros Ht Hm Hp Hd Ha Hh Hf. unfold Do. cbn [NewRequest NewHttp ht_Method ht_Url ht_Payload ht_Auth cl_Auth au_Username au_Password].
  rewrite (proj2 (String.eqb_neq _ _) Hm), strip_app, parse_target_plain by done. cbn [default].
  assert (Hne : path <> ""%string) by (intros ->; discriminate Hd).
  apply (follow_final 9); [done| |done]. cbn [from_option id]. by rewrite make_request_token, (ServeHTTP_cli st _ _ _ hd vars).
Qed.

Lemma JSON_once {A} st st' method path (i : json) (o : string -> option A) hd vars p :
  token_ok -> method <> ""%string -> url_plain path = true -> dispatch LoadRouter method path = Found hd vars -> access hd = AdminOnly ->
  handle E now h hd vars st (cli_request method path (Marshal i)) = Ret (st', p) -> final p = true ->
  JSON E now h base host (NewHttp (h_adminToken h)) method (base +:+ path) i o st =
    Ret (st', if p_Code p =? 200 then match o (p_Body p) with Some a => inl a | None => inr (BadBody (p_Body p)) end
              else inr (Refused (p_Code p) (p_Body p))).
Proof. intros. unfold JSON. by erewrite Do_once. Qed.
End server.

(** ** The path of a check *)

Definition check_path (id : string) : string := user_path id +:+ "/check".

Lemma get_app s n t : String.get (String.length s + n) (s +:+ t) = String.get n t.
Proof. induction s as [|a s IH]; [done|]. exact IH. Qed.
Lemma ends_slash_app s a t : ends_slash (s +:+ String a t) = ends_slash (String a t).
Proof.
  unfold ends_slash. rewrite string_length_app. cbn [String.length].
  replace (String.length s + Datatypes.S (String.length t) - 1)%nat with (String.length s + (Datatypes.S (String.length t) - 1))%nat by lia.
  by rewrite get_app.
Qed.

Lemma check_path_eq id : check_path id = ("/api/user" +:+ String char_slash id) +:+ String char_slash "check".
Proof. done. Qed.
Lemma check_path_clean id : base_name id -> cleanPath (check_path id) = check_path id.
Proof.
  intros (Hs & H1 & H2 & H3). rewrite check_path_eq. set (p := _ +:+ String char_slash "check"). unfold cleanPath.
  change (String.eqb p "") with false. change (HasPrefix p "/") with true. cbn match.
  assert (Hc : path_Clean p = p).
  { unfold path_Clean. change (HasPrefix p "/") with true. unfold p. rewrite !Split_app, (Split_plain id), !foldl_app by done.
    change (foldl (clean_step true) [] (Split "/api/user" char_slash)) with ["api"; "user"]%string.
    change (Split "check" char_slash) with ["check"]%string. cbn [foldl].
    assert (E1 : clean_step true ["api"; "user"]%string id = ["api"; "user"; id]%string)
      by (unfold clean_step; by rewrite !(proj2 (String.eqb_neq _ _))).
    rewrite E1. done. }
  rewrite Hc. unfold p. by rewrite ends_slash_app.
Qed.

(** No name stands for more than one segment. *)
Lemma user_var_misses id r : rt_path r = "/api/user/{id}"%string -> route_vars (H := handler) r (check_path id) = None.
Proof.
  intros Hr. unfold route_vars. rewrite Hr.
  change (template "/api/user/{id}") with (Some [Lit "/api/user/"; Var "id"; Lit ""])%string. cbn [mbind option_bind].
  destruct (match_path _ _) as [vs|] eqn:Em; [|done]. exfalso. destruct (match_path_sound _ _ _ Em) as (Hrender & Hn & Hseg).
  destruct vs as [|[n v] [|? ?]]; try discriminate Hn. apply Forall_cons_1 in Hseg as [[_ Hv] _]. cbn [snd] in Hv.
  cbn [render] in Hrender. change ("" +:+ "") with ""%string in Hrender. rewrite string_app_nil_r in Hrender.
  unfold check_path, user_path in Hrender. rewrite string_app_assoc in Hrender. apply append_inv in Hrender. subst v.
  by rewrite contains_app, orb_true_r in Hv.
Qed.

Lemma app_inj_r (s1 s2 t : string) : s1 +:+ t = s2 +:+ t -> s1 = s2.
Proof.
  intros E. apply (f_equal String.length) in E as El. rewrite !string_length_app in El.
  revert s2 E El. induction s1 as [|a s1 IH]; intros [|b s2] E El; try (done || (simpl in El; lia)).
  injection E as -> E. simpl in El. f_equal. apply IH; [done|lia].
Qed.

Lemma check_vars id r : segment id -> rt_path r = "/api/user/{id}/check"%string ->
  route_vars (H := handler) r (check_path id) = Some [("id"%string, id)].
Proof.
  intros Hid Hr. unfold route_vars. rewrite Hr.
  change (template "/api/user/{id}/check") with (Some [Lit "/api/user/"; Var "id"; Lit "/check"])%string. cbn [mbind option_bind].
  destruct (match_path_complete [Lit "/api/user/"; Var "id"; Lit "/check"]%string [("id"%string, id)]) as [vs Em];
    [done|by repeat constructor; destruct Hid|].
  cbn [render] in Em. rewrite string_app_nil_r in Em.
  assert (Hp : "/api/user/" +:+ id +:+ "/check" = check_path id) by (unfold check_path, user_path; by rewrite string_app_assoc).
  rewrite Hp in Em. rewrite Em. destruct (match_path_sound _ _ _ Em) as (Hrender & Hn & _).
  destruct vs as [|[n v] [|? ?]]; try discriminate Hn. injection Hn as ->. cbn [render] in Hrender.
  rewrite string_app_nil_r in Hrender. rewrite <- Hp in Hrender. apply append_inv, app_inj_r in Hrender. by rewrite Hrender.
Qed.

Lemma check_dispatch id : base_name id ->
  dispatch LoadRouter "POST" (check_path id) = Found UserCheck (list_to_map [("id"%string, id)]).
Proof.
  intros Hb. unfold dispatch. rewrite check_path_clean, String.eqb_refl by done.
  assert (Hi : segment id) by (by destruct Hb as (? & ? & _)).
  assert (Hr : exists r, LoadRouter !! 18%nat = Some r /\ rt_handler r = UserCheck /\ rt_path r = "/api/user/{id}/check"%string /\
    method_ok r "POST" = true /\
    Forall (fun r1 => misses "/api/user/" r1 = true \/ method_ok r1 "POST" = false \/ rt_path r1 = "/api/user/{id}"%string) (take 18 LoadRouter)).
  { eexists. split; [reflexivity|]. split_and!; [done..|]. apply (bool_decide_unpack _). vm_compute. exact I. }
  destruct Hr as (r & Hr & <- & Hp & Hm & Hrs).
  rewrite <- (take_drop_middle _ _ _ Hr). apply Match_skip; [|by apply check_vars|done].
  eapply Forall_impl; [exact Hrs|]. intros r1 [H1|[H1|H1]]; [left|by right|left; by apply user_var_misses].
  assert (Hpre : check_path id = "/api/user/" +:+ (id +:+ "/check")) by (unfold check_path, user_path; by rewrite string_app_assoc).
  rewrite Hpre. apply misses_none; [done|]. by destruct id.
Qed.

(** ** The two commands *)

Lemma Update_at u now n net : User.Network u = ""%string -> User.Name u = n +:+ String User.char_at net ->
  contains_char User.char_at n = false -> net <> ""%string -> User.Id (User.Update u now) = n +:+ String User.char_at net.
Proof.
  intros Hn Hname H1 Hne. unfold User.Update, User.Id. cbn [User.Name User.Network]. rewrite Hn, Hname.
  assert (Hc : contains_char User.char_at (n +:+ String User.char_at net) = true).
  { rewrite contains_app. cbn. by rewrite orb_true_r. }
  rewrite Hc. cbn [String.eqb andb]. rewrite SplitN_cons by done. unfold User.nth_or. cbn [nth SplitN].
  by rewrite (proj2 (String.eqb_neq _ _) Hne).
Qed.
Lemma Update_apart u now : contains_char User.char_at (User.Name u) = false -> User.Network u <> ""%string ->
  User.Id (User.Update u now) = User.Name u +:+ String User.char_at (User.Network u).
Proof.
  intros H1 Hne. unfold User.Update, User.Id. cbn [User.Name User.Network]. rewrite H1, andb_false_r.
  by rewrite !(proj2 (String.eqb_neq _ _) Hne).
Qed.

Section run.
Context {S : Type} `{Switcher S}.
Context (E : env) (h : Http) (base : string) (unreadable : string -> bool) (decodes : string -> string -> bool).
Implicit Types st : state S.

(** The token of the switch is in the file the command line reads. *)
Definition token_filed st : Prop :=
  token_ok h /\ TrimSpace <$> st_files st !! AdminTokenFile = Some (h_adminToken h) /\ unreadable AdminTokenFile = false.

Lemma Before_filed st : token_filed st -> Before unreadable (st_files st) "" ∅ = {[ "token"%string := h_adminToken h ]}.
Proof.
  intros (_ & Hf & Hu). unfold Before. rewrite lookup_empty. cbn [from_option String.eqb id default].
  destruct (st_files st !! AdminTokenFile) as [data|]; [|done]. injection Hf as Hf. by rewrite Hu, Hf.
Qed.

Lemma post_once now host path f i hd vars st st' p :
  token_ok h -> url_plain path = true -> dispatch LoadRouter "POST" path = Found hd vars -> access hd = AdminOnly ->
  handle E now h hd vars st (cli_request h host "POST" path (Marshal i)) = Ret (st', p) -> final p = true ->
  show (S := S) f (PostJSON E now h base host (NewHttp (h_adminToken h)) (base +:+ path) i unread st) =
    Ret (st', if p_Code p =? 200 then inl (f tt) else inr (Refused (p_Code p) (p_Body p))).
Proof.
  intros Ht Hp Hd Ha Hh Hf. unfold show, PostJSON. erewrite JSON_once by done. cbn. by destruct (p_Code p =? 200).
Qed.

(** The flags of a run whose token comes from the file. *)
Definition run_flags (locals : list (string * string)) (given : gmap string string) : string -> string :=
  c_String (Flags "" base) locals {[ "token"%string := h_adminToken h ]} given.
Lemma run_token locals given : List.find (fun f : string * string => String.eqb f.1 "token") locals = None ->
  run_flags locals given "token"%string = h_adminToken h.
Proof. intros Hl. unfold run_flags, c_String. rewrite Hl. cbn [List.find Flags fst String.eqb Ascii.eqb Bool.eqb]. by rewrite lookup_singleton_eq. Qed.
Lemma run_url locals given : List.find (fun f : string * string => String.eqb f.1 "url") locals = None ->
  run_flags locals given "url"%string = base.
Proof. intros Hl. unfold run_flags, c_String. by rewrite Hl. Qed.

(** The user that [add] sends. *)
Definition sent_user (random lease n net : string) (given : gmap string string) : sUser.t :=
  sUser.mk "" (default "guest"%string (given !! "role"%string)) n (default random (given !! "password"%string)) net
    (default lease (given !! "lease"%string)).

(** A name at a network that stands for itself in a URL. *)
Record full_name (name n net : string) : Prop := {
  fn_eq : name = n +:+ String User.char_at net;
  fn_user : base_name n;
  fn_no_at : contains_char User.char_at n = false;
  fn_net : net <> ""%string;
  fn_net_at : contains_char User.char_at net = false;
  fn_net_slash : contains_char char_slash net = false;
  fn_plain : url_plain name = true
}.

Lemma full_name_facts name n net : full_name name n net ->
  name <> ""%string /\ contains_char User.char_at name = true /\ base_name name /\ url_plain n = true /\ SplitN name User.char_at 2 = [n; net] /\ Split name User.char_at = [n; net].
Proof.
  intros [-> Hu H1 Hne H2 Hs Hp]. assert (Hat : contains_char User.char_at (n +:+ String User.char_at net) = true)
    by (rewrite contains_app; cbn; by rewrite orb_true_r).
  assert (Hn : n +:+ String User.char_at net <> ""%string) by (by destruct n).
  split; [done|]. split; [done|]. split; [|split; [|split]].
  - destruct Hu as (Hsl & _). split; [rewrite contains_app, Hsl; exact Hs|]. split; [done|].
    split; intros En; rewrite En in Hat; discriminate Hat.
  - rewrite url_plain_app in Hp. by apply andb_true_iff in Hp as [Hp _].
  - by rewrite SplitN_cons.
  - by rewrite Split_app, !Split_plain.
Qed.

Lemma run_user_add now host random lease env_var st st' given name n net p :
  token_filed st -> full_name name n net -> given !! "name"%string = Some name ->
  user_Add E now st (cli_request h host "POST" (user_path n) (Marshal (sUser.json (sent_user random lease n net given)))) = (st', p) ->
  final p = true ->
  Run E now h base host random lease env_var unreadable decodes "" base "user" "add" ∅ given st =
    Ret (st', if p_Code p =? 200 then inl Quiet else inr (Refused (p_Code p) (p_Body p))).
Proof.
  intros Hf Hn Hg Ha Hp. destruct (full_name_facts _ _ _ Hn) as (Hne & Hat & _ & Hpl & Hsplit & _).
  unfold Run. rewrite (Before_filed st Hf). cbn [find_command mbind option_bind]. change (find_command _ _ _ _ _ _ _ _ _ _ "user" "add") with
    (Some (sub ["add"] [("name", ""); ("password", random); ("role", "guest"); ("lease", lease)] (user_add E now h base host)))%string.
  cbn [sub sc_action sc_flags]. fold (run_flags [("name", ""); ("password", random); ("role", "guest"); ("lease", lease)]%string given).
  set (c := run_flags _ _). unfold user_add.
  assert (Hname : c "name"%string = name) by (unfold c, run_flags, c_String; cbn; by rewrite Hg).
  rewrite Hname, (proj2 (String.eqb_neq _ _) Hne), Hat, Hsplit. cbn [negb].
  unfold User.nth_or. cbn [nth]. fold (sent_user random lease n net given).
  change (sUser.mk "" (c "role") n (c "password") net (c "lease"))%string with (sent_user random lease n net given).
  cbn [sent_user sUser.Name]. unfold clt, user_Url, item_url.
  assert (Hn0 : n <> ""%string) by (by destruct Hn as [_ (_ & ? & _)]).
  unfold c. rewrite run_token, run_url by done. rewrite (proj2 (String.eqb_neq _ _) Hn0).
  apply (post_once now host (user_path n) (fun _ => Quiet) _ UserAdd (list_to_map [("id"%string, n)])).
  - apply Hf.
  - unfold user_path. by rewrite url_plain_app, Hpl.
  - apply user_post_dispatch, Hn.
  - done.
  - cbn [handle]. by rewrite Ha.
  - done.
Qed.

(** The name and password a check is for: those of the flags, or of the environment. *)
Definition check_login (env_var : string -> option string) (given : gmap string string) : string * string :=
  if String.eqb (default ""%string (given !! "name"%string)) ""
  then (default ""%string (env_var "username"%string), default ""%string (env_var "password"%string))
  else (default ""%string (given !! "name"%string), default ""%string (given !! "password"%string)).

Lemma run_user_check now host random lease env_var st st' given name n net pass p :
  token_filed st -> full_name name n net -> check_login env_var given = (name, pass) ->
  (default ""%string (given !! "network"%string) = ""%string \/ default ""%string (given !! "network"%string) = net) ->
  user_Check E now st (cli_request h host "POST" (check_path name)
    (Marshal (sUser.json (sUser.mk (client_alias env_var) "" name pass "" "")))) = (st', p) -> final p = true ->
  Run E now h base host random lease env_var unreadable decodes "" base "user" "check" ∅ given st =
    Ret (st', if p_Code p =? 200 then inl (ShowText ("success: us=" +:+ name)) else inr (Refused (p_Code p) (p_Body p))).
Proof.
  intros Hf Hn Hl Hnet Ha Hp. destruct (full_name_facts _ _ _ Hn) as (Hne & Hat & Hb & _ & _ & Hsplit).
  unfold Run. rewrite (Before_filed st Hf).
  change (find_command _ _ _ _ _ _ _ _ _ _ "user" "check") with
    (Some (sub ["check"; "co"] [("name", ""); ("password", ""); ("network", "")] (user_check E now h base host env_var)))%string.
  cbn [sub sc_action sc_flags]. fold (run_flags [("name", ""); ("password", ""); ("network", "")]%string given).
  set (c := run_flags _ _). unfold user_check.
  assert (Hflag : forall k, k ∈ ["name"; "password"; "network"]%string -> c k = default ""%string (given !! k)).
  { intros k. rewrite !elem_of_cons, elem_of_nil. by intros [->|[->|[->|[]]]]. }
  rewrite (Hflag "name"%string), (Hflag "password"%string), (Hflag "network"%string) by (rewrite !elem_of_cons; tauto). cbv beta zeta.
  unfold check_login in Hl.
  assert (El : (if String.eqb (default ""%string (given !! "name"%string)) "" then default ""%string (env_var "username"%string)
                else default ""%string (given !! "name"%string)) = name /\
               (if String.eqb (default ""%string (given !! "name"%string)) "" then default ""%string (env_var "password"%string)
                else default ""%string (given !! "password"%string)) = pass)
    by (destruct (String.eqb _ ""); by injection Hl).
  destruct El as [-> ->]. rewrite Hat, Hsplit. cbn [User.nth_or nth]. unfold User.nth_or. cbn [nth].
  assert (Hw : negb (String.eqb (default ""%string (given !! "network"%string)) "") &&
               negb (String.eqb net (default ""%string (given !! "network"%string))) = false).
  { destruct Hnet as [->| ->]; [done|]. by rewrite String.eqb_refl, andb_false_r. }
  rewrite Hw. unfold clt, user_Url, item_url, c. rewrite run_token, run_url by done. rewrite (proj2 (String.eqb_neq _ _) Hne).
  rewrite string_app_assoc.
  apply (post_once now host (check_path name) (fun _ => ShowText ("success: us=" +:+ name)) _ UserCheck (list_to_map [("id"%string, name)])).
  - apply Hf.
  - unfold check_path, user_path. rewrite !url_plain_app, (fn_plain _ _ _ Hn). done.
  - by apply check_dispatch.
  - done.
  - cbn [handle]. by rewrite Ha.
  - done.
Qed.
End run.

(** (C13) Whoever is added with the command line is checked by it, if the name is one that a
    URL keeps as it is ([full_name]: a name and a network without percent sign, hash,
    question mark, slash, at sign or control character), the table has room and no user of
    that name, the role is local, and the file of users can be written and is not that of the
    token: [openlan user add], run on the host of the switch without a token of its own,
    puts the user with the given name and password into the table; from then on
    [openlan user check] with that name, from its flags or from the environment a VPN
    server sets, succeeds exactly when the password is the one that was given and the
    lease has not run out. *)
Theorem cli_added_user_checks {S : Type} `{Switcher S} (E : env) (now : Z) (h : Http) (base host random lease : string)
    (env0 : string -> option string) (unreadable : string -> bool) (decodes : string -> string -> bool) (st : state S) (m : gmap string User.t)
    (given : gmap string string) (name n net : string) :
  let u := sent_user random lease n net given in
  let x := user_model E now u in
  token_filed h unreadable st -> full_name name n net -> given !! "name"%string = Some name ->
  user_ok u -> utf8 0 name = true -> local_role (User.Role x) = true ->
  holds st m -> m !! name = None -> room st 1 ->
  e_denied E (File (users_of st)) = false -> File (users_of st) <> ""%string -> File (users_of st) <> AdminTokenFile ->
  exists st1, Run E now h base host random lease env0 unreadable decodes "" base "user" "add" ∅ given st = Ret (st1, inl Quiet) /\
    holds st1 (<[name := x]> m) /\
    forall now2 random2 lease2 host2 env_var given2 pass,
      check_login env_var given2 = (name, pass) -> utf8 0 pass = true -> utf8 0 (client_alias env_var) = true ->
      (default ""%string (given2 !! "network"%string) = ""%string \/ default ""%string (given2 !! "network"%string) = net) ->
      exists st2, Run E now2 h base host2 random2 lease2 env_var unreadable decodes "" base "user" "check" ∅ given2 st1 =
        Ret (st2, if String.eqb (default random (given !! "password"%string)) pass && lease_valid (e_tz E) now2 (User.Lease x)
                  then inl (ShowText ("success: us=" +:+ name))
                  else inr (Refused 401 ((if String.eqb (default random (given !! "password"%string)) pass
                                          then err_format out_of_date else err_format wrong_login) +:+ newline_string))).
Proof.
  intros u x Ht Hn Hg Hu Hutf Hrole Hm Hnew Hroom Hd Hf Hft.
  assert (Hid : User.Id x = name).
  { unfold x, user_model, SchemaToUserModel. rewrite Update_apart; [symmetry; apply Hn|apply Hn|apply Hn]. }
  set (st1 := save_users E (set_users st (UserCache.Add (users_of st) x))).
  destruct (Add_holds st m x Hm Hroom) as (H1 & _ & H3). rewrite Hid, Hnew in H1.
  destruct (save_users_spec E (set_users st (UserCache.Add (users_of st) x))) as (Hu1 & _ & Hfiles);
    [by change (users_of (set_users st (UserCache.Add (users_of st) x))) with (UserCache.Add (users_of st) x); rewrite H3..|].
  fold st1 in Hu1, Hfiles. change (users_of (set_users st (UserCache.Add (users_of st) x))) with (UserCache.Add (users_of st) x) in Hu1, Hfiles.
  rewrite H3 in Hfiles.
  exists st1. split; [|split].
  - rewrite (run_user_add E h base unreadable decodes now host random lease env0 st st1 given name n net (ResponseMsg 0 "")); try done.
    unfold user_Add, read_body. cbn [cli_request q_Body]. by rewrite user_text_roundtrip.
  - unfold holds. by rewrite Hu1.
  - intros now2 random2 lease2 host2 env_var given2 pass Hl Hpass Halias Hnet.
    set (obj := SchemaToUserModel (e_parse_lease E) now2 (sUser.mk (client_alias env_var) "" name pass "" "")).
    assert (Hoid : User.Id obj = name).
    { unfold obj, SchemaToUserModel. rewrite (Update_at _ _ n net); [symmetry; apply Hn|done|apply Hn|apply Hn|apply Hn]. }
    assert (Hget : UserCache.Get (users_of st1) (User.Id obj) = Some x).
    { rewrite Hoid. unfold UserCache.Get, SafeStrMap.Get. by rewrite Hu1, H1, lookup_fmap, lookup_insert_eq. }
    pose proof (proj2 (check_stored (e_dial E) (users_of st1) obj x (e_tz E) now2 Hget Hrole)) as Hc.
    assert (Ht1 : token_filed h unreadable st1).
    { destruct Ht as (? & ? & ?). split; [done|]. split; [|done]. by rewrite Hfiles. }
    assert (Hok2 : user_ok (sUser.mk (client_alias env_var) "" name pass "" "")) by (repeat constructor; done).
    change (User.Password x) with (default random (given !! "password"%string)) in Hc. change (User.Password obj) with pass in Hc.
    destruct (user_Check E now2 st1 (cli_request h host2 "POST" (check_path name)
      (Marshal (sUser.json (sUser.mk (client_alias env_var) "" name pass "" ""))))) as [st2 p] eqn:Ec.
    exists st2. unfold user_Check, read_body in Ec. cbn [cli_request q_Body] in Ec. rewrite user_text_roundtrip in Ec by done.
    fold obj in Ec. destruct (UserCache.Check _ _ obj _ _) as [w r] eqn:Ech. fold (users_of st1) in Ech.
    cbn [snd] in Hc.
    rewrite (run_user_check E h base unreadable decodes now2 host2 random2 lease2 env_var st1 st2 given2 name n net pass p); try done.
    + f_equal. f_equal. destruct (String.eqb _ pass); [destruct (lease_valid _ _ _)|]; subst r; injection Ec as <- <-; done.
    + unfold user_Check, read_body. cbn [cli_request q_Body]. rewrite user_text_roundtrip by done. fold obj. fold (users_of st1).
      by rewrite Ech.
    + destruct (String.eqb _ pass); [destruct (lease_valid _ _ _)|]; subst r; injection Ec as <- <-; done.
Qed.

(** What the switch writes at its start is what the command line finds. *)
Lemma token_filed_initialized {S} denied unreadable rnd h files (st : state S) :
  h_adminFile h = AdminTokenFile -> denied AdminTokenFile = false -> unreadable AdminTokenFile = false -> TrimSpace rnd = rnd ->
  st_files st = (Initialize denied unreadable rnd h files).2 ->
  token_ok (Initialize denied unreadable rnd h files).1 ->
  token_filed (Initialize denied unreadable rnd h files).1 unreadable st.
Proof.
  intros Hfile Hd Hu Hr Hst Htok. split; [exact Htok|]. split; [|done]. rewrite Hst. unfold Initialize. cbn [fst snd].
  unfold SaveToken. assert (Hf : h_adminFile (LoadToken files unreadable rnd h) = AdminTokenFile) by done.
  rewrite Hf, Hd, lookup_insert_eq. cbn [fmap option_fmap option_map]. f_equal.
  unfold LoadToken. cbn [SetToken h_adminToken]. rewrite Hfile, Hu.
  destruct (files !! AdminTokenFile) as [data|]; [|done]. destruct (String.eqb _ ""); [done|]. apply TrimSpace_idem.
Qed.

(** Names are put into URLs as they are: what comes after a hash mark is not sent, and a
    removal takes away the user whose name comes before it. *)
Lemma remove_cuts_name {S} `{Switcher S} E now h base host (c1 c2 : string -> string) (st : state S) id rest :
  c1 "name"%string = id +:+ String (chr 35) rest -> c2 "name"%string = id -> c1 "url"%string = base -> c2 "url"%string = base ->
  c1 "token"%string = c2 "token"%string -> id <> ""%string -> url_plain id = true ->
  contains_char (chr 37) rest = false -> has_control rest = false ->
  user_remove E now h base host c1 st = user_remove E now h base host c2 st.
Proof.
  intros Hn1 Hn2 Hu1 Hu2 Ht Hid Hp Hr Hc. unfold user_remove, clt. rewrite Hn1, Hn2, Hu1, Hu2, Ht. unfold user_Url, item_url.
  assert (Hne : id +:+ String (chr 35) rest <> ""%string) by (by destruct id).
  rewrite !(proj2 (String.eqb_neq _ _)) by done. unfold DeleteJSON, JSON, show. do 2 f_equal. unfold Do.
  cbn [NewRequest ht_Url ht_Method ht_Auth ht_Payload String.eqb]. rewrite !strip_app.
  change ("/api/user" +:+ "/" +:+ id +:+ String (chr 35) rest) with (("/api/user/" +:+ id) +:+ String (chr 35) rest).
  change ("/api/user" +:+ "/" +:+ id) with ("/api/user/" +:+ id).
  assert (Hpp : url_plain ("/api/user/" +:+ id) = true) by (by rewrite url_plain_app, Hp).
  rewrite (parse_target_plain _ Hpp). set (p := "/api/user/" +:+ id) in *.
  assert (E1 : parse_target (p +:+ String (chr 35) rest) = Some (p, ""%string)).
  { unfold url_plain in Hpp. rewrite !andb_true_iff, !negb_true_iff in Hpp. destruct Hpp as [[[H37 H35] H63] Hctl].
    unfold parse_target, cut_or. rewrite cut_app by done. rewrite unescape_plain by done. cbn [mbind option_bind].
    rewrite cut_none by done. rewrite unescape_plain by done. cbn [mbind option_bind].
    rewrite has_control_app, Hctl. cbn. by rewrite Hc. }
  by rewrite E1.
Qed.

(** The list of access lists is the name of their removal. *)
Lemma acl_ls_removes {S} `{Switcher S} E now h base host random lease env_var no_file decodes :
  sc_names <$> find_command E now h base host random lease env_var no_file decodes "acl" "ls" = Some ["remove"; "ls"]%string.
Proof. reflexivity. Qed.

(** ** Example *)

Definition demo_add : gmap string string :=
  {[ "name"%string := "ann@net"%string; "password"%string := "pw"%string; "lease"%string := "77"%string ]}.
Definition demo_vpn_env (pass : string) (k : string) : option string :=
  if String.eqb k "username" then Some "ann@net"%string else if String.eqb k "password" then Some pass else None.

Lemma demo_filed : token_filed demo_http never demo_api.
Proof. split; [reflexivity|]. split; [vm_compute; reflexivity|reflexivity]. Qed.
Lemma demo_full : full_name "ann@net" "ann" "net".
Proof. split; try reflexivity; [|discriminate]. repeat split; discriminate. Qed.

Lemma cli_added_user_checks_witness :
  exists st1, Run demo_env 0 demo_http "https://localhost:10000" "localhost" "r" "l" (fun _ => None) never (fun _ _ => true) "" "https://localhost:10000"
      "user" "add" ∅ demo_add demo_api = Ret (st1, inl Quiet) /\
    (exists st2, Run demo_env 60 demo_http "https://localhost:10000" "localhost" "r" "l" (demo_vpn_env "pw") never (fun _ _ => true) "" "https://localhost:10000"
       "user" "check" ∅ ∅ st1 = Ret (st2, inl (ShowText "success: us=ann@net"))) /\
    exists st2, (Run demo_env 60 demo_http "https://localhost:10000" "localhost" "r" "l" (demo_vpn_env "no") never (fun _ _ => true) "" "https://localhost:10000"
       "user" "check" ∅ ∅ st1) = Ret (st2, inr (Refused 401 (err_format wrong_login +:+ newline_string))).
Proof.
  destruct (cli_added_user_checks demo_env 0 demo_http "https://localhost:10000" "localhost" "r" "l" (fun _ => None) never (fun _ _ => true) demo_api
    demo_table demo_add "ann@net" "ann" "net" demo_filed demo_full) as (st1 & H1 & _ & H2).
  - reflexivity.
  - repeat constructor.
  - reflexivity.
  - reflexivity.
  - exact demo_holds.
  - reflexivity.
  - apply demo_room. lia.
  - reflexivity.
  - discriminate.
  - discriminate.
  - exists st1. split; [exact H1|]. split.
    + destruct (H2 60 "r" "l" "localhost" (demo_vpn_env "pw") ∅ "pw")%string as (st2 & E2); [reflexivity..|left; reflexivity|].
      exists st2. etransitivity; [exact E2|]. vm_compute. reflexivity.
    + destruct (H2 60 "r" "l" "localhost" (demo_vpn_env "no") ∅ "no")%string as (st2 & E2); [reflexivity..|left; reflexivity|].
      exists st2. etransitivity; [exact E2|]. vm_compute. reflexivity.
Defined.
