(* ===== verification/Ovsdb.v ===== *)
(** * The configuration database (pkg/database, vendor ovn-org/libovsdb)

    The rows the sources keep in the database [OpenLAN_Switch], the client's copy of them
    with its indexes, the operations a client asks for, and the events its copy announces.
    The server at the other end is an argument of what talks to it. *)

From S2P Require Import Prelude GoStd Json Utils.

Local Open Scope Z_scope.

(** ** Columns *)

(** A native value of a column; a nil map is a column that is absent, as is any other zero
    value. *)
Inductive value := VStr (s : string) | VInt (n : Z) | VMap (m : gmap string string) | VSet (l : list string) | VPtr (s : string).
#[export] Instance value_eq_dec : EqDecision value.
Proof. solve_decision. Defined.

Abbreviation cols := (gmap string value).
Abbreviation strmap := (option (gmap string string)).

Definition str_of (r : cols) (c : string) : string := match r !! c with Some (VStr s) => s | _ => "" end.
Definition int_of (r : cols) (c : string) : Z := match r !! c with Some (VInt n) => n | _ => 0 end.
Definition map_of (r : cols) (c : string) : strmap := match r !! c with Some (VMap m) => Some m | _ => None end.
Definition set_of (r : cols) (c : string) : list string := match r !! c with Some (VSet l) => l | _ => [] end.
Definition ptr_of (r : cols) (c : string) : option string := match r !! c with Some (VPtr s) => Some s | _ => None end.

(** A UUID in the form of the wire; any other text names a row of the same transaction. *)
Fixpoint uuid_chars (s : string) (n : nat) : bool :=
  match s with
  | EmptyString => Nat.eqb n 36
  | String a s =>
      (if existsb (Nat.eqb n) [8; 13; 18; 23]%nat then Ascii.eqb a (chr 45)
       else ((48 <=? byte a) && (byte a <=? 57)) || ((97 <=? byte a) && (byte a <=? 102)))
      && uuid_chars s (S n)
  end.
Definition validUUID (s : string) : bool := uuid_chars s 0.
Definition zero_uuid : string := "00000000-0000-0000-0000-000000000000".

(** [IsDefaultValue] *)
Definition is_default (c : string) (v : value) : bool :=
  match v with
  | VStr s => if String.eqb c "_uuid" then String.eqb s zero_uuid || negb (validUUID s) else String.eqb s ""
  | VInt n => n =? 0
  | VMap m => bool_decide (m = ∅)
  | VSet l => bool_decide (l = [])
  | VPtr _ => false
  end.

(** ** Rows (schema.go, models.go) *)

Module database.
Record Switch := {
  sw_UUID : string; sw_Protocol : string; sw_Listen : Z; sw_OtherConfig : strmap; sw_VirtualNetworks : list string
}.
Record VirtualNetwork := {
  vn_UUID : string; vn_Name : string; vn_Provider : string; vn_Bridge : string; vn_Address : string;
  vn_OtherConfig : strmap; vn_RemoteLinks : list string; vn_LocalLinks : list string; vn_OpenVPN : option string;
  vn_PrefixRoutes : list string
}.
Record VirtualLink := {
  ln_UUID : string; ln_Network : string; ln_Connection : string; ln_Device : string; ln_OtherConfig : strmap;
  ln_Authentication : strmap; ln_LinkState : string; ln_Status : strmap
}.
Record OpenVPN := { ov_UUID : string; ov_Protocol : string; ov_Listen : Z }.
Record NameCache := { na_UUID : string; na_Name : string; na_Address : string; na_UpdateAt : string }.
End database.

(** A type of rows: its table, the columns of the struct by their tags, and back. *)
Class Model (A : Type) := {
  table_of : string;
  uuid_of : A -> string;
  fields_of : A -> list (string * option value);
  of_cols : string -> cols -> A
}.
Arguments table_of A {_}.

Definition fstr (c s : string) : string * option value := (c, Some (VStr s)).
Definition fmap_ (c : string) (m : strmap) : string * option value := (c, option_map VMap m).

#[export] Instance model_Switch : Model database.Switch := {
  table_of := "Global_Switch";
  uuid_of := database.sw_UUID;
  fields_of x := [fstr "protocol" (database.sw_Protocol x); ("listen"%string, Some (VInt (database.sw_Listen x)));
                  fmap_ "other_config" (database.sw_OtherConfig x);
                  ("virtual_networks"%string, Some (VSet (database.sw_VirtualNetworks x)))];
  of_cols u r := {| database.sw_UUID := u; database.sw_Protocol := str_of r "protocol"; database.sw_Listen := int_of r "listen";
                    database.sw_OtherConfig := map_of r "other_config";
                    database.sw_VirtualNetworks := set_of r "virtual_networks" |} }.
#[export] Instance model_VirtualNetwork : Model database.VirtualNetwork := {
  table_of := "Virtual_Network";
  uuid_of := database.vn_UUID;
  fields_of x := [fstr "name" (database.vn_Name x); fstr "provider" (database.vn_Provider x); fstr "bridge" (database.vn_Bridge x);
                  fstr "address" (database.vn_Address x); fmap_ "other_config" (database.vn_OtherConfig x);
                  ("remote_links"%string, Some (VSet (database.vn_RemoteLinks x)));
                  ("local_links"%string, Some (VSet (database.vn_LocalLinks x)));
                  ("open_vpn"%string, option_map VPtr (database.vn_OpenVPN x));
                  ("prefix_routes"%string, Some (VSet (database.vn_PrefixRoutes x)))];
  of_cols u r := {| database.vn_UUID := u; database.vn_Name := str_of r "name"; database.vn_Provider := str_of r "provider";
                    database.vn_Bridge := str_of r "bridge"; database.vn_Address := str_of r "address";
                    database.vn_OtherConfig := map_of r "other_config"; database.vn_RemoteLinks := set_of r "remote_links";
                    database.vn_LocalLinks := set_of r "local_links"; database.vn_OpenVPN := ptr_of r "open_vpn";
                    database.vn_PrefixRoutes := set_of r "prefix_routes" |} }.
#[export] Instance model_VirtualLink : Model database.VirtualLink := {
  table_of := "Virtual_Link";
  uuid_of := database.ln_UUID;
  fields_of x := [fstr "network" (database.ln_Network x); fstr "connection" (database.ln_Connection x);
                  fstr "device" (database.ln_Device x); fmap_ "other_config" (database.ln_OtherConfig x);
                  fmap_ "authentication" (database.ln_Authentication x); fstr "link_state" (database.ln_LinkState x);
                  fmap_ "status" (database.ln_Status x)];
  of_cols u r := {| database.ln_UUID := u; database.ln_Network := str_of r "network"; database.ln_Connection := str_of r "connection";
                    database.ln_Device := str_of r "device"; database.ln_OtherConfig := map_of r "other_config";
                    database.ln_Authentication := map_of r "authentication"; database.ln_LinkState := str_of r "link_state";
                    database.ln_Status := map_of r "status" |} }.
#[export] Instance model_OpenVPN : Model database.OpenVPN := {
  table_of := "Open_VPN";
  uuid_of := database.ov_UUID;
  fields_of x := [fstr "protocol" (database.ov_Protocol x); ("listen"%string, Some (VInt (database.ov_Listen x)))];
  of_cols u r := {| database.ov_UUID := u; database.ov_Protocol := str_of r "protocol"; database.ov_Listen := int_of r "listen" |} }.
#[export] Instance model_NameCache : Model database.NameCache := {
  table_of := "Name_Cache";
  uuid_of := database.na_UUID;
  fields_of x := [fstr "name" (database.na_Name x); fstr "address" (database.na_Address x); fstr "update_at" (database.na_UpdateAt x)];
  of_cols u r := {| database.na_UUID := u; database.na_Name := str_of r "name"; database.na_Address := str_of r "address";
                    database.na_UpdateAt := str_of r "update_at" |} }.

(** What the schema of the server says of each table: the columns there are a field for,
    the indexes, and the columns that cannot be changed. *)
Record table_schema := { ts_columns : list string; ts_indexes : list (list string); ts_immutable : list string }.
Definition models : gmap string table_schema :=
  list_to_map
    [("Global_Switch"%string, {| ts_columns := ["protocol"; "listen"; "other_config"; "virtual_networks"]; ts_indexes := []; ts_immutable := [] |});
     ("Virtual_Network"%string,
       {| ts_columns := ["name"; "provider"; "bridge"; "address"; "other_config"; "remote_links"; "local_links"; "open_vpn"; "prefix_routes"];
          ts_indexes := [["name"]]; ts_immutable := ["name"] |});
     ("Virtual_Link"%string,
       {| ts_columns := ["network"; "connection"; "device"; "other_config"; "authentication"; "link_state"; "status"];
          ts_indexes := [["connection"; "network"]]; ts_immutable := ["network"] |});
     ("Open_VPN"%string, {| ts_columns := ["protocol"; "listen"]; ts_indexes := []; ts_immutable := [] |});
     ("Name_Cache"%string, {| ts_columns := ["name"; "address"; "update_at"]; ts_indexes := [["name"]]; ts_immutable := [] |})]%string.
Definition schema (t : string) : table_schema :=
  default {| ts_columns := []; ts_indexes := []; ts_immutable := [] |} (models !! t).

(** ** Operations (client/api.go, mapper) *)

Definition cols_of {A} `{Model A} (x : A) : cols :=
  list_to_map (omap (fun f : string * option value => match f.2 with Some v => Some (f.1, v) | None => None end) (fields_of x)).

Abbreviation condition := (string * value)%type.
Inductive mutator := MutateInsert | MutateDelete.
Inductive operation :=
| OpInsert (table : string) (row : cols) (name : string)
| OpUpdate (table : string) (row : cols) (where_ : list condition)
| OpMutate (table column : string) (m : mutator) (v : list string) (where_ : list condition)
| OpDelete (table : string) (where_ : list condition).

(** What the library refuses without asking the server. *)
Inductive api_error := NoValidIndex | EmptyRow.

(** [NewRow]: the columns that are not at their default. *)
Definition NewRow {A} `{Model A} (x : A) : cols :=
  filter (fun e : string * value => is_default e.1 e.2 = false) (<["_uuid" := VStr (uuid_of x)]> (cols_of x)).

(** The indexes for which the row has values, the UUID first. *)
Definition column {A} `{Model A} (x : A) (c : string) : value :=
  if String.eqb c "_uuid" then VStr (uuid_of x) else default (VStr "") (cols_of x !! c).
Definition getValidIndexes {A} `{Model A} (x : A) : list (list string) :=
  List.filter (forallb (fun c => negb (is_default c (column x c)))) (["_uuid"%string] :: ts_indexes (schema (table_of A))).
(** The first of them, one operation for each of its columns. *)
Definition Generate {A} `{Model A} (x : A) : list (list condition) + api_error :=
  match getValidIndexes x with
  | [] => inr NoValidIndex
  | idx :: _ => inl (map (fun c => [(c, column x c)]) idx)
  end.

Definition Create {A} `{Model A} (x : A) : list operation + api_error := inl [OpInsert (table_of A) (NewRow x) (uuid_of x)].
Definition Where_Update {A} `{Model A} (cond x : A) : list operation + api_error :=
  match Generate cond with
  | inr e => inr e
  | inl cs =>
      let row := foldr delete (NewRow x) ("_uuid"%string :: ts_immutable (schema (table_of A))) in
      if decide (row = ∅) then inr EmptyRow else inl (map (OpUpdate (table_of A) row) cs)
  end.
Definition Where_Mutate {A} `{Model A} (cond : A) (column : string) (m : mutator) (v : list string) : list operation + api_error :=
  match Generate cond with
  | inr e => inr e
  | inl cs => inl (map (OpMutate (table_of A) column m v) cs)
  end.
Definition Where_Delete {A} `{Model A} (cond : A) : list operation + api_error :=
  match Generate cond with
  | inr e => inr e
  | inl cs => inl (map (OpDelete (table_of A)) cs)
  end.

(** ** The client's copy of a table (cache/cache.go) *)

(** The rows by UUID, and for each index the row with given values of its columns. *)
Record RowCache := { rc_rows : gmap string cols; rc_indexes : list (list string * gmap (list string) string) }.
Definition newRowCache (t : string) : RowCache :=
  {| rc_rows := ∅; rc_indexes := map (fun i => (i, ∅)) (ts_indexes (schema t)) |}.
Definition valueFromIndex (r : cols) (index : list string) : list string := map (str_of r) index.

Fixpoint by_indexes (ixs : list (list string * gmap (list string) string)) (r : cols) : option string :=
  match ixs with
  | [] => None
  | (i, vals) :: ixs => match vals !! valueFromIndex r i with Some u => Some u | None => by_indexes ixs r end
  end.
(** [RowByModel]: by its UUID when it has one, or by the first index that knows it. *)
Definition RowByModel {A} `{Model A} (c : RowCache) (x : A) : option A :=
  u ← (if String.eqb (uuid_of x) "" then by_indexes (rc_indexes c) (cols_of x) else Some (uuid_of x));
  r ← rc_rows c !! u;
  Some (of_cols u r).

(** [Create], [Update] and [Delete]; [Populate2] has the indexes unchecked. *)
Definition rc_Create (c : RowCache) (u : string) (r : cols) : option RowCache :=
  if decide (is_Some (rc_rows c !! u)) then None
  else Some {| rc_rows := <[u := r]> (rc_rows c);
               rc_indexes := map (fun iv => (iv.1, <[valueFromIndex r iv.1 := u]> iv.2)) (rc_indexes c) |}.
Definition reindex (u : string) (old r : cols) (iv : list string * gmap (list string) string) :=
  let o := valueFromIndex old iv.1 in
  let n := valueFromIndex r iv.1 in
  (iv.1, if decide (o = n) then iv.2 else delete o (<[n := u]> iv.2)).
Definition rc_Update (c : RowCache) (u : string) (r : cols) : option RowCache :=
  old ← rc_rows c !! u;
  Some {| rc_rows := <[u := r]> (rc_rows c); rc_indexes := map (reindex u old r) (rc_indexes c) |}.
Definition unindex (u : string) (old : cols) (iv : list string * gmap (list string) string) :=
  let o := valueFromIndex old iv.1 in
  (iv.1, if decide (iv.2 !! o = Some u) then delete o iv.2 else iv.2).
Definition rc_Delete (c : RowCache) (u : string) : option RowCache :=
  old ← rc_rows c !! u;
  Some {| rc_rows := delete u (rc_rows c); rc_indexes := map (unindex u old) (rc_indexes c) |}.

(** ** Updates from the server *)

(** A row as it is sent: the columns in the order the client goes over them. *)
Inductive RowUpdate2 :=
| Initial (row : list (string * value))
| Insert (row : list (string * value))
| Modify (row : list (string * value))
| Delete.
Inductive event :=
| EvAdd (table uuid : string) (new : cols)
| EvUpdate (table uuid : string) (old new : cols)
| EvDelete (table uuid : string) (old : cols).

(** Zero values are not kept. *)
Definition zero (v : value) : bool :=
  match v with VStr s => String.eqb s "" | VInt n => n =? 0 | VSet l => bool_decide (l = []) | _ => false end.
Definition set_field (c : string) (v : value) (r : cols) : cols := if zero v then delete c r else <[c := v]> r.

(** [CreateModel]: columns there is no field for are passed over. *)
Definition CreateModel (t : string) (row : list (string * value)) : cols :=
  foldl (fun r e => if bool_decide (e.1 ∈ ts_columns (schema t)) then set_field e.1 e.2 r else r) ∅ row.

(** [ApplyModifications]: what comes is the difference of sets and maps, the new value
    otherwise. *)
Fixpoint remove_first (x : string) (l : list string) : list string :=
  match l with [] => [] | y :: l => if String.eqb x y then l else y :: remove_first x l end.
Definition toggle (l : list string) (x : string) : list string :=
  if existsb (String.eqb x) l then remove_first x l else l ++ [x].
Definition toggle_key (base diff : option string) : option string :=
  match diff with
  | None => base
  | Some v => if bool_decide (base = Some v) then None else Some v
  end.
Definition toggle_map (base diff : gmap string string) : gmap string string := merge toggle_key base diff.

(** [None] on an error, which a column without a field is; a column that is a pointer
    ends the loop, or takes the second of two values. *)
Fixpoint ApplyModifications (t : string) (r : cols) (row : list (string * value)) : option cols :=
  match row with
  | [] => Some r
  | (c, v) :: row =>
      if String.eqb c "_uuid" then ApplyModifications t r row
      else if negb (bool_decide (c ∈ ts_columns (schema t))) then None
      else if String.eqb c "open_vpn" then
        match v with
        | VPtr _ => Some (set_field c v r)
        | VSet [] => Some (delete c r)
        | VSet [_; b] => ApplyModifications t (<[c := VPtr b]> r) row
        | _ => None
        end
      else
        ApplyModifications t
          (match v with
           | VSet l => set_field c (VSet (foldl toggle (set_of r c) l)) r
           | VMap m =>
               let m := toggle_map (default ∅ (map_of r c)) m in
               if decide (m = ∅) then delete c r else <[c := VMap m]> r
           | v => set_field c v r
           end) row
  end.

Abbreviation TableCache := (gmap string RowCache).
Definition NewTableCache : TableCache := map_imap (fun t _ => Some (newRowCache t)) models.

(** One row of [Populate2]: the copy and the event; [None] on an error. *)
Definition populate_row (tc : TableCache) (t u : string) (up : RowUpdate2) : option (TableCache * list event) :=
  match tc !! t with
  | None => Some (tc, [])
  | Some c =>
      match up with
      | Initial row | Insert row =>
          let m := CreateModel t row in
          c ← rc_Create c u m; Some (<[t := c]> tc, [EvAdd t u m])
      | Modify row =>
          old ← rc_rows c !! u;
          m ← ApplyModifications t old row;
          if decide (m = old) then Some (tc, [])
          else c ← rc_Update c u m; Some (<[t := c]> tc, [EvUpdate t u old m])
      | Delete =>
          old ← rc_rows c !! u;
          c ← rc_Delete c u; Some (<[t := c]> tc, [EvDelete t u old])
      end
  end.
(** All of them in the order they are gone over; the first error ends it. *)
Fixpoint Populate2 (tc : TableCache) (ups : list (string * string * RowUpdate2)) : TableCache * list event * bool :=
  match ups with
  | [] => (tc, [], true)
  | (t, u, up) :: ups =>
      match populate_row tc t u up with
      | None => (tc, [], false)
      | Some (tc, evs) => let '(tc, evs', ok) := Populate2 tc ups in (tc, evs ++ evs', ok)
      end
  end.

(** ** The client (client.go, utils.go) *)

(** What the server answers to one operation: an error and its details, both empty when
    there is none. *)
Record OperationResult := { or_Error : string; or_Details : string }.

(** The copy, the operations collected, what was sent so far, and what was printed. *)
Record OvSDB := { db_cache : TableCache; db_Ops : list operation; db_sent : list (list operation); db_log : list string }.

Definition rows_of (d : OvSDB) (t : string) : gmap string cols := default ∅ (rc_rows <$> db_cache d !! t).
Section client.
(** The order Go iterates over rows, and what the server answers to a transaction: the
    connection can fail. *)
Context (order : gmap string cols -> list (string * cols)) (server : list operation -> option (list OperationResult)).

Definition List_ (A : Type) `{Model A} (d : OvSDB) : list A := map (fun e => of_cols e.1 e.2) (order (rows_of d (table_of A))).
Definition Get {A} `{Model A} (d : OvSDB) (x : A) : option A := c ← db_cache d !! table_of A; RowByModel c x.
Definition Switch_ (d : OvSDB) : option database.Switch := head (List_ database.Switch d).
Definition Execute (d : OvSDB) (ops : list operation) : OvSDB :=
  {| db_cache := db_cache d; db_Ops := db_Ops d ++ ops; db_sent := db_sent d; db_log := db_log d |}.
Definition Transact (d : OvSDB) (ops : list operation) : OvSDB * option (list OperationResult) :=
  ({| db_cache := db_cache d; db_Ops := db_Ops d; db_sent := db_sent d ++ [ops]; db_log := db_log d |}, server ops).
Definition Commit (d : OvSDB) : OvSDB * option (list OperationResult) :=
  Transact {| db_cache := db_cache d; db_Ops := []; db_sent := db_sent d; db_log := db_log d |} (db_Ops d).
Definition PrintError (d : OvSDB) (result : list OperationResult) : OvSDB :=
  {| db_cache := db_cache d; db_Ops := db_Ops d; db_sent := db_sent d;
     db_log := db_log d ++ map or_Details (List.filter (fun r => negb (String.eqb (or_Error r) "")) result) |}.
End client.

(** [NewDBClient] over the two package variables; [opened] is what [Open] makes, [None]
    when it fails. *)
Definition NewDBClient (opened : option OvSDB) (vars : option (option OvSDB) * option OvSDB)
    : (option (option OvSDB) * option OvSDB) * bool :=
  let '(conf, client) := vars in
  let '(conf, ok) := match conf with Some c => (c, true) | None => (opened, bool_decide (is_Some opened)) end in
  ((Some conf, match client with None => conf | c => c end), ok).

(** * Properties *)

(** ** Rows on the wire *)

Definition nonzero (l : list (string * value)) : Prop := Forall (fun e => zero e.2 = false) l.

Lemma set_field_nonzero c v r : zero v = false -> set_field c v r = <[c := v]> r.
Proof. unfold set_field. by intros ->. Qed.

Lemma CreateModel_from t l : forall r,
  NoDup l.*1 -> nonzero l ->
  foldl (fun r e => if bool_decide (e.1 ∈ ts_columns (schema t)) then set_field e.1 e.2 r else r) r l =
  filter (fun e : string * value => e.1 ∈ ts_columns (schema t)) (list_to_map l) ∪ r.
Proof.
  induction l as [|[c v] l IH]; intros r Hd Hz.
  { simpl. by rewrite map_filter_empty, (left_id_L ∅ _). }
  apply NoDup_cons in Hd as [Hc Hd]. apply Forall_cons in Hz as [Hv Hz]. cbn [foldl list_to_map foldr fst snd].
  rewrite IH by done. assert (Hn : (list_to_map l : cols) !! c = None) by by apply not_elem_of_list_to_map_1.
  cbn [list_to_map foldr fst snd]. case_bool_decide as Hin.
  - rewrite set_field_nonzero by done. rewrite map_filter_insert_True by done.
    rewrite <- insert_union_l, <- insert_union_r; [done|]. rewrite map_lookup_filter_None. by left.
  - rewrite map_filter_insert_not by (by intros). done.
Qed.

(** The columns of a new row, in whatever order they come: those there is a field for. *)
Lemma CreateModel_row t (row : cols) l :
  l ≡ₚ map_to_list row -> map_Forall (fun _ v => zero v = false) row ->
  CreateModel t l = filter (fun e : string * value => e.1 ∈ ts_columns (schema t)) row.
Proof.
  intros Hp Hz. assert (Hd : NoDup l.*1) by (rewrite Hp; apply NoDup_fst_map_to_list).
  unfold CreateModel. rewrite CreateModel_from; [|done|].
  - rewrite (right_id_L ∅ _). f_equal. rewrite (list_to_map_proper l (map_to_list row)) by done. apply list_to_map_to_list.
  - unfold nonzero. rewrite Hp. apply map_Forall_to_list in Hz.
    eapply Forall_impl; [exact Hz|]. by intros [].
Qed.

Lemma default_zero c v : is_default c v = false -> zero v = false.
Proof.
  destruct v as [s| | | |]; simpl; try done. destruct (String.eqb_spec c "_uuid"); [|done].
  by destruct s.
Qed.
Lemma NewRow_nonzero {A} `{Model A} (x : A) : map_Forall (fun _ v => zero v = false) (NewRow x).
Proof. intros c v Hv. apply map_lookup_filter_Some in Hv as [_ Hv]. by eapply default_zero. Qed.

(** A column of what is made of a row that was sent is that of the row, unless it is at
    its default. *)
Lemma sent_column {A} `{Model A} (x : A) l c :
  l ≡ₚ map_to_list (NewRow x) -> c <> "_uuid"%string -> c ∈ ts_columns (schema (table_of A)) ->
  CreateModel (table_of A) l !! c = v ← cols_of x !! c; if is_default c v then None else Some v.
Proof.
  intros Hp Hu Hc. rewrite (CreateModel_row _ _ _ Hp (NewRow_nonzero x)). unfold NewRow.
  rewrite !map_lookup_filter, lookup_insert_ne by done. destruct (cols_of x !! c) as [v|]; [|done]. simpl.
  unfold guard. destruct (is_default c v) eqn:E; repeat case_decide; try done; by rewrite E in *.
Qed.

(** A map without keys comes as a nil one. *)
Definition kept (m : strmap) : strmap := match m with Some m => if decide (m = ∅) then None else Some m | None => None end.
Section sent.
Context {A : Type} `{Model A} (x : A) (l : list (string * value)) (Hp : l ≡ₚ map_to_list (NewRow x)).

Lemma sent_str c s : cols_of x !! c = Some (VStr s) -> c <> "_uuid"%string -> c ∈ ts_columns (schema (table_of A)) ->
  str_of (CreateModel (table_of A) l) c = s.
Proof.
  intros Hs Hu Hc. unfold str_of. rewrite (sent_column x) by done. rewrite Hs. simpl.
  rewrite (proj2 (String.eqb_neq _ _) Hu). by destruct (String.eqb_spec s "").
Qed.
Lemma sent_map c m : cols_of x !! c = option_map VMap m -> c <> "_uuid"%string -> c ∈ ts_columns (schema (table_of A)) ->
  map_of (CreateModel (table_of A) l) c = kept m.
Proof.
  intros Hs Hu Hc. unfold map_of. rewrite (sent_column x) by done. rewrite Hs. destruct m as [m|]; [|done]. simpl.
  by case_bool_decide; case_decide.
Qed.
End sent.

(** A link that was sent is the link made of it, under the UUID the server gave it. *)
Lemma link_roundtrip (x : database.VirtualLink) l uuid :
  l ≡ₚ map_to_list (NewRow x) ->
  of_cols uuid (CreateModel (table_of database.VirtualLink) l) =
  {| database.ln_UUID := uuid; database.ln_Network := database.ln_Network x; database.ln_Connection := database.ln_Connection x;
     database.ln_Device := database.ln_Device x; database.ln_OtherConfig := kept (database.ln_OtherConfig x);
     database.ln_Authentication := kept (database.ln_Authentication x); database.ln_LinkState := database.ln_LinkState x;
     database.ln_Status := kept (database.ln_Status x) |}.
Proof.
  intros Hp. cbn [of_cols model_VirtualLink]. f_equal.
  all: first [apply (sent_str x l Hp)|apply (sent_map x l Hp)]; [|done|by apply (bool_decide_unpack _); vm_compute].
  all: destruct x as [u net conn dev [other|] [auth|] state [status|]]; reflexivity.
Qed.

(** ** The copy of a table and its indexes *)

(** Each index leads from values to the row that has them. *)
Definition indexed (rows : gmap string cols) (iv : list string * gmap (list string) string) : Prop :=
  forall v u, iv.2 !! v = Some u <-> exists r, rows !! u = Some r /\ valueFromIndex r iv.1 = v.
Definition rc_ok (c : RowCache) : Prop := Forall (indexed (rc_rows c)) (rc_indexes c).
(** What the server sees to: no other row has the values of an index. *)
Definition unique (c : RowCache) (u : string) (r : cols) : Prop :=
  Forall (fun iv => forall u' r', rc_rows c !! u' = Some r' ->
                    valueFromIndex r' iv.1 = valueFromIndex r iv.1 -> u' = u) (rc_indexes c).

Lemma rc_new t : rc_ok (newRowCache t).
Proof.
  apply Forall_map, Forall_true. intros i v u. simpl. rewrite lookup_empty. split; [done|].
  intros (r & Hr & _). by rewrite lookup_empty in Hr.
Qed.

Lemma rc_Create_ok c u r c' : rc_ok c -> unique c u r -> rc_Create c u r = Some c' -> rc_ok c' /\ rc_rows c' = <[u := r]> (rc_rows c).
Proof.
  unfold rc_Create. intros Hok Hun H. destruct (decide _) as [|Hn]; [done|]. injection H as <-. split; [|done].
  apply eq_None_not_Some in Hn. apply Forall_map. pose proof (conj Hok Hun) as Hb. apply Forall_and in Hb.
  eapply Forall_impl; [exact Hb|]. intros [i vals] [Hi Hu] v u'. simpl in *.
  destruct (decide (valueFromIndex r i = v)) as [<-|Hv].
  - rewrite lookup_insert_eq. split.
    + intros [= <-]. exists r. by rewrite lookup_insert_eq.
    + intros (r' & Hr' & Hv'). destruct (decide (u = u')) as [->|Hne]; [done|]. rewrite lookup_insert_ne in Hr' by done.
      by rewrite (Hu u' r') in Hne.
  - rewrite lookup_insert_ne by done. rewrite (Hi v u'). split; intros (r' & Hr' & Hv').
    + exists r'. rewrite lookup_insert_ne; [done|]. intros ->. by rewrite Hn in Hr'.
    + destruct (decide (u = u')) as [->|Hne]; [rewrite lookup_insert_eq in Hr'; by injection Hr' as ->|].
      rewrite lookup_insert_ne in Hr' by done. by exists r'.
Qed.

Lemma or_apart (P Q R : Prop) : ~ P -> R <-> P /\ Q \/ ~ P /\ R.
Proof. tauto. Qed.
Lemma rc_Update_ok c u r c' : rc_ok c -> unique c u r -> rc_Update c u r = Some c' -> rc_ok c' /\ rc_rows c' = <[u := r]> (rc_rows c).
Proof.
  unfold rc_Update. intros Hok Hun H. destruct (rc_rows c !! u) as [old|] eqn:Ho; [|done]. injection H as <-. split; [|done].
  apply Forall_map. pose proof (conj Hok Hun) as Hb. apply Forall_and in Hb. eapply Forall_impl; [exact Hb|].
  intros [i vals] [Hi Hu] v u'. unfold indexed in Hi. unfold reindex. simpl in *.
  assert (Hrow : (exists r', <[u := r]> (rc_rows c) !! u' = Some r' /\ valueFromIndex r' i = v) <->
                 (u' = u /\ valueFromIndex r i = v) \/ (u' <> u /\ exists r', rc_rows c !! u' = Some r' /\ valueFromIndex r' i = v)).
  { destruct (decide (u' = u)) as [->|Hne].
    - rewrite lookup_insert_eq. split.
      + intros (r' & [= <-] & Hv). by left.
      + intros [[_ Hv]|[[] _]]; [|done]. by exists r.
    - rewrite lookup_insert_ne by done. by apply or_apart. }
  rewrite Hrow. clear Hrow. case_decide as Hon.
  - rewrite (Hi v u'). destruct (decide (u' = u)) as [->|Hne]; [|by apply or_apart]. split.
    + intros (r' & Hr' & Hv'). rewrite Ho in Hr'. injection Hr' as <-. left. by rewrite <- Hon.
    + intros [[_ Hv]|[Hn _]]; [|done]. exists old. split; [done|]. by rewrite <- Hv.
  - destruct (decide (v = valueFromIndex old i)) as [->|Hvo].
    + rewrite lookup_delete_eq. split; [done|]. intros [[_ ?]|[Hne (r' & Hr' & Hv')]]; [congruence|].
      assert (H1 : vals !! valueFromIndex old i = Some u') by (apply Hi; eauto).
      assert (H2 : vals !! valueFromIndex old i = Some u) by (apply Hi; eauto). congruence.
    + rewrite lookup_delete_ne by done. destruct (decide (valueFromIndex r i = v)) as [<-|Hvn].
      * rewrite lookup_insert_eq. split; [intros [= <-]; by left|]. intros [[-> _]|[Hne (r' & Hr' & Hv')]]; [done|].
        by rewrite (Hu u' r') in Hne.
      * rewrite lookup_insert_ne by done. rewrite (Hi v u'). destruct (decide (u' = u)) as [->|Hne]; [|by apply or_apart]. split.
        -- intros (r' & Hr' & Hv'). rewrite Ho in Hr'. injection Hr' as <-. by destruct Hvo.
        -- intros [[_ Hv]|[Hn _]]; [by rewrite Hv in Hvn|done].
Qed.

Lemma rc_Delete_ok c u c' : rc_ok c -> rc_Delete c u = Some c' -> rc_ok c' /\ rc_rows c' = delete u (rc_rows c).
Proof.
  unfold rc_Delete. intros Hok H. destruct (rc_rows c !! u) as [old|] eqn:Ho; [|done]. injection H as <-. split; [|done].
  apply Forall_map. eapply Forall_impl; [exact Hok|]. intros [i vals] Hi v u'. unfold indexed in Hi. unfold unindex. simpl in *.
  assert (Hold : vals !! valueFromIndex old i = Some u) by (apply Hi; eauto). rewrite decide_True by done.
  destruct (decide (v = valueFromIndex old i)) as [->|Hv].
  - rewrite lookup_delete_eq. split; [done|]. intros (r & Hr & Hvr). apply lookup_delete_Some in Hr as [Hne Hr].
    assert (vals !! valueFromIndex old i = Some u') by (apply Hi; eauto). congruence.
  - rewrite lookup_delete_ne by done. rewrite (Hi v u'). split; intros (r & Hr & Hvr).
    + exists r. rewrite lookup_delete_ne; [done|]. intros ->. simpl in Hr. rewrite Ho in Hr. congruence.
    + apply lookup_delete_Some in Hr as [_ Hr]. by exists r.
Qed.

(** A row without a UUID is found by an index exactly when some row has its values: it is
    that row. *)
Lemma RowByModel_index {A} `{Model A} (c : RowCache) (x : A) i vals :
  rc_ok c -> rc_indexes c = [(i, vals)] -> uuid_of x = ""%string ->
  forall y, RowByModel c x = Some y <->
    exists u r, rc_rows c !! u = Some r /\ valueFromIndex r i = valueFromIndex (cols_of x) i /\ y = of_cols u r.
Proof.
  intros Hok Hi Hu y. unfold RowByModel, rc_ok in *. rewrite Hi in *. rewrite Hu. simpl. apply Forall_cons in Hok as [Hok _].
  split.
  - destruct (vals !! _) as [u|] eqn:Ev; [|done]. simpl. apply Hok in Ev as (r & Hr & Hv). rewrite Hr. simpl. intros [= <-]. eauto.
  - intros (u & r & Hr & Hv & ->). assert (Ev : vals !! valueFromIndex (cols_of x) i = Some u) by (apply Hok; eauto).
    rewrite Ev. simpl. by rewrite Hr.
Qed.

(** A database that could not be opened is not opened by a second call, which reports no
    error and leaves the program without a client. *)
Lemma second_open_says_ok : NewDBClient None (NewDBClient None (None, None)).1 = ((Some None, None), true).
Proof. done. Qed.

(** The statistics of a link are monitored with every column of the schema, and there is
    no field for them: a change of them ends the message it comes in. *)
Lemma statistics_end_updates tc u v ups : Populate2 tc ((table_of database.VirtualLink, u, Modify [("statistics"%string, v)]) :: ups) =
  match tc !! table_of database.VirtualLink with
  | Some _ => (tc, [], false)
  | None => Populate2 tc ups
  end.
Proof.
  cbn [Populate2]. unfold populate_row. destruct (tc !! _) as [c|].
  - destruct (rc_rows c !! u); reflexivity.
  - by destruct (Populate2 tc ups) as [[tc' es] ok].
Qed.
