(* ===== verification/CmdDb.v ===== *)
(** * The database commands (cmd/api/v6)

    The commands of [openlan] with OL_VERSION=v6: they read the client's copy of the
    configuration database and send transactions to its server.  Formatting what is shown
    is not modelled. *)

From S2P Require Import Prelude GoStd Json Utils Config Api Cmd Ovsdb.

Local Open Scope Z_scope.
Import database.

(** ** link.go, the helpers *)

Definition GetUserPassword (auth : string) : string * string :=
  match SplitN auth char_colon 2 with
  | [u; p] => (u, p)
  | _ => (auth, auth)
  end.

(** [strings.Replace] of the first colon. *)
Definition drop_colon (s : string) : string := match cut char_colon s with Some (l, r) => l +:+ r | None => s end.
Definition GetDeviceName (conn provider device : string) : go string :=
  p ← GetPrefix conn 4;
  Ret (if String.eqb p "spi:" then drop_colon conn
       else if String.eqb provider "esp" then "spi" +:+ device else "vir" +:+ device).

(** What a command shows, or the error it ends with. *)
Inductive db_shown := DbQuiet | ShowSwitches (l : list Switch) | ShowNetworks (l : list VirtualNetwork)
  | ShowLinks (l : list VirtualLink) | ShowNames (l : list NameCache).
Inductive db_error := DbUsage (text : string) | NotFound | NoSwitch | Api (e : api_error) | NoServer.

Section commands.
(** The order of maps, the server, the resolver, the identity drawn and the minute. *)
Context (order : gmap string cols -> list (string * cols)) (server : list operation -> option (list OperationResult)).
Context (LookupIP : string -> list bytes) (GenUUID now : string).
(** The texts and the numbers of flags. *)
Context (c : string -> string) (c_Int : string -> Z).

Local Abbreviation List_ := (List_ order).
Local Abbreviation outcome := (OvSDB * (db_shown + db_error))%type.

(** A transaction whose errors are printed, which is where most commands end. *)
Definition finish (r : OvSDB * option (list OperationResult)) : outcome :=
  match r.2 with
  | None => (r.1, inr NoServer)
  | Some result => (PrintError r.1 result, inl DbQuiet)
  end.
Definition transact_all (d : OvSDB) (ops : list operation + api_error) : outcome :=
  match ops with inr e => (d, inr (Api e)) | inl ops => finish (Transact server d ops) end.
Definition with_ops (d : OvSDB) (ops : list operation + api_error) (k : OvSDB -> outcome) : outcome :=
  match ops with inr e => (d, inr (Api e)) | inl ops => k (Execute d ops) end.
Definition commit (d : OvSDB) : outcome := finish (Commit server d).

(** ** switch.go *)

Definition switch_List (d : OvSDB) : outcome := (d, inl (ShowSwitches (List_ Switch d))).
Definition switch_Add (d : OvSDB) : outcome :=
  let newSw := {| sw_UUID := ""; sw_Protocol := c "protocol"; sw_Listen := c_Int "listen"; sw_OtherConfig := None;
                  sw_VirtualNetworks := [] |} in
  match Switch_ order d with
  | None => transact_all d (Create newSw)
  | Some sw => transact_all d (Where_Update sw newSw)
  end.

(** ** network.go *)

Definition named_network (name : string) : VirtualNetwork :=
  {| vn_UUID := ""; vn_Name := name; vn_Provider := ""; vn_Bridge := ""; vn_Address := ""; vn_OtherConfig := None;
     vn_RemoteLinks := []; vn_LocalLinks := []; vn_OpenVPN := None; vn_PrefixRoutes := [] |}.
Definition network_List (d : OvSDB) : outcome :=
  (d, inl (ShowNetworks (SliceStable (fun a b => str_gt (vn_Name a) (vn_Name b)) (List_ VirtualNetwork d)))).
Definition network_Add (d : OvSDB) : outcome :=
  let name := c "name" in
  if String.eqb name "" then (d, inr (DbUsage "name is nil"))
  else match Get d (named_network name) with
       | Some old => (d, inr (DbUsage ("network " +:+ vn_Name old +:+ " already existed.")))
       | None =>
           let newVn := {| vn_UUID := GenUUID; vn_Name := name; vn_Provider := c "provider"; vn_Bridge := "br-" +:+ name;
                           vn_Address := c "address"; vn_OtherConfig := None; vn_RemoteLinks := []; vn_LocalLinks := [];
                           vn_OpenVPN := None; vn_PrefixRoutes := [] |} in
           with_ops d (Create newVn) (fun d =>
             match Switch_ order d with
             | None => (d, inr NoSwitch)
             | Some sw => with_ops d (Where_Mutate sw "virtual_networks" MutateInsert [vn_UUID newVn]) commit
             end)
       end.
Definition network_Remove (d : OvSDB) : outcome :=
  match Get d (named_network (c "name")) with
  | None => (d, inr NotFound)
  | Some oldVn =>
      with_ops d (Where_Delete oldVn) (fun d =>
        match Switch_ order d with
        | None => (d, inr NoSwitch)
        | Some sw => with_ops d (Where_Mutate sw "virtual_networks" MutateDelete [vn_UUID oldVn]) commit
        end)
  end.

(** ** link.go *)

Definition link_List (d : OvSDB) : outcome :=
  (d, inl (ShowLinks (SliceStable (fun a b => str_gt (ln_Connection a) (ln_Connection b)) (List_ VirtualLink d)))).
(** What the flags say of the link. *)
Definition flag_link : VirtualLink :=
  {| ln_UUID := c "uuid"; ln_Network := c "network"; ln_Connection := c "connection"; ln_Device := ""; ln_OtherConfig := None;
     ln_Authentication := None; ln_LinkState := ""; ln_Status := None |}.
(** [m[k] = v], where v is not empty; a nil map panics. *)
Definition assign (m : strmap) (k v : string) : go strmap :=
  if String.eqb v "" then Ret m else match m with None => Panic | Some m => Ret (Some (<[k := v]> m)) end.
Definition find_network (name : string) (d : OvSDB) (k : VirtualNetwork -> go outcome) : go outcome :=
  if String.eqb name "" then Ret (d, inr (DbUsage "network is nil"))
  else match Get d (named_network name) with
       | None => Ret (d, inr (DbUsage ("find network " +:+ name +:+ ": object not found")))
       | Some lsVn => k lsVn
       end.

Definition changed_link (lsLn : VirtualLink) (lsVn : VirtualNetwork) : go VirtualLink :=
  let connection := c "connection" in
  let '(user, pass) := GetUserPassword (c "authentication") in
  let deviceId := c "device-id" in
  auth ← assign (ln_Authentication lsLn) "username" user;
  auth ← assign auth "password" pass;
  other ← assign (ln_OtherConfig lsLn) "remote_address" (c "remote-address");
  device ← (if String.eqb deviceId "" then Ret (ln_Device lsLn) else GetDeviceName connection (vn_Provider lsVn) deviceId);
  Ret {| ln_UUID := ln_UUID lsLn; ln_Network := ln_Network lsLn;
         ln_Connection := if String.eqb connection "" then ln_Connection lsLn else connection; ln_Device := device;
         ln_OtherConfig := other; ln_Authentication := auth; ln_LinkState := ln_LinkState lsLn; ln_Status := ln_Status lsLn |}.
Definition new_link (lsVn : VirtualNetwork) : go VirtualLink :=
  let '(user, pass) := GetUserPassword (c "authentication") in
  device ← GetDeviceName (c "connection") (vn_Provider lsVn) (c "device-id");
  Ret {| ln_UUID := if String.eqb (c "uuid") "" then GenUUID else c "uuid"; ln_Network := c "network";
         ln_Connection := c "connection"; ln_Device := device;
         ln_OtherConfig := Some (<["local_address" := vn_Address lsVn]> {["remote_address" := c "remote-address"]});
         ln_Authentication := Some (<["username" := user]> {["password" := pass]});
         ln_LinkState := ""; ln_Status := None |}.
(** The maps of the row that is read are those of the new one: the update is asked for
    with a condition on the UUID, which does not read them. *)
Definition link_Add (d : OvSDB) : go outcome :=
  match Get d flag_link with
  | Some lsLn =>
      find_network (ln_Network lsLn) d (fun lsVn =>
        newLn ← changed_link lsLn lsVn;
        Ret (transact_all d (Where_Update lsLn newLn)))
  | None =>
      find_network (c "network") d (fun lsVn =>
        newLn ← new_link lsVn;
        Ret (with_ops d (Create newLn) (fun d =>
          with_ops d (Where_Mutate lsVn "local_links" MutateInsert [ln_UUID newLn]) commit)))
  end.
Definition link_Remove (d : OvSDB) : outcome :=
  match Get d flag_link with
  | None => (d, inr NotFound)
  | Some lsLn =>
      match Get d (named_network (ln_Network lsLn)) with
      | None => (d, inr (DbUsage ("find network " +:+ ln_Network lsLn +:+ ": object not found")))
      | Some lsVn =>
          match Get d lsLn with
          | None => (d, inr NotFound)
          | Some lsLn =>
              with_ops d (Where_Delete lsLn) (fun d =>
                with_ops d (Where_Mutate lsVn "local_links" MutateDelete [ln_UUID lsLn]) commit)
          end
      end
  end.

(** ** name.go *)

Definition name_List (d : OvSDB) : outcome :=
  (d, inl (ShowNames (SliceStable (fun a b => str_gt (na_Name a) (na_Name b)) (List_ NameCache d)))).
Definition flag_name : NameCache := {| na_UUID := c "uuid"; na_Name := c "name"; na_Address := ""; na_UpdateAt := "" |}.
Definition name_address : string :=
  if String.eqb (c "address") "" then
    match LookupIP (c "name") with a :: _ => netip_String a | [] => "" end
  else c "address".
Definition name_Add (d : OvSDB) : outcome :=
  let lsNa := flag_name in
  if String.eqb (na_Name lsNa) "" && String.eqb (na_UUID lsNa) "" then (d, inr (DbUsage "Name is nil"))
  else
    let newNa := {| na_UUID := na_UUID lsNa; na_Name := na_Name lsNa; na_Address := name_address; na_UpdateAt := now |} in
    match Get d lsNa with
    | Some lsNa =>
        if String.eqb (na_Address lsNa) name_address then (d, inl DbQuiet) else transact_all d (Where_Update lsNa newNa)
    | None => transact_all d (Create newNa)
    end.
Definition name_Remove (d : OvSDB) : outcome :=
  match Get d flag_name with
  | None => (d, inl DbQuiet)
  | Some lsNa => with_ops d (Where_Delete lsNa) commit
  end.
End commands.

(** ** The tables of commands *)

(** A command with its flags, those that are numbers apart. *)
Record db_command := {
  dc_names : list string; dc_flags : list (string * string); dc_ints : list (string * Z);
  dc_action : (string -> string) -> (string -> Z) -> OvSDB -> go (OvSDB * (db_shown + db_error))
}.
Record db_group := { dg_names : list string; dg_subs : list db_command }.

Section tables.
Local Open Scope string_scope.
Context (order : gmap string cols -> list (string * cols)) (server : list operation -> option (list OperationResult)).
Context (LookupIP : string -> list bytes) (GenUUID now : string).

Definition dsub (names : list string) (flags : list (string * string)) (ints : list (string * Z))
    (action : (string -> string) -> (string -> Z) -> OvSDB -> go (OvSDB * (db_shown + db_error))) : db_command :=
  {| dc_names := names; dc_flags := flags; dc_ints := ints; dc_action := action |}.
Definition texts (names : list string) : list (string * string) := map (fun n => (n, "")) names.

Definition switch_Commands : db_group :=
  {| dg_names := ["switch"; "sw"];
     dg_subs := [dsub ["list"; "ls"] [] [] (fun _ _ d => Ret (switch_List order d));
                 dsub ["add"] [("protocol", "tcp")] [("listen", 10002)] (fun c i d => Ret (switch_Add order server c i d))] |}.
Definition network_Commands : db_group :=
  {| dg_names := ["network"; "vn"];
     dg_subs := [dsub ["list"; "ls"] [] [] (fun _ _ d => Ret (network_List order d));
                 dsub ["add"] [("name", ""); ("provider", "openlan"); ("address", "169.255.169.0/24")] []
                   (fun c _ d => Ret (network_Add order server GenUUID c d));
                 dsub ["del"] (texts ["name"]) [] (fun c _ d => Ret (network_Remove order server c d))] |}.
Definition link_Commands : db_group :=
  {| dg_names := ["link"; "vl"];
     dg_subs := [dsub ["list"; "ls"] [] [] (fun _ _ d => Ret (link_List order d));
                 dsub ["add"] (texts ["uuid"; "network"; "connection"; "device-id"; "authentication"; "remote-address"]) []
                   (fun c _ d => link_Add server GenUUID c d);
                 dsub ["del"] (texts ["uuid"; "network"; "connection"]) [] (fun c _ d => Ret (link_Remove server c d))] |}.
Definition name_Commands : db_group :=
  {| dg_names := ["name"; "na"];
     dg_subs := [dsub ["list"; "ls"] [] [] (fun _ _ d => Ret (name_List order d));
                 dsub ["add"] (texts ["uuid"; "name"; "address"]) [] (fun c _ d => Ret (name_Add server LookupIP now c d));
                 dsub ["del"] (texts ["uuid"; "name"]) [] (fun c _ d => Ret (name_Remove server c d))] |}.
Definition db_Commands : list db_group := [switch_Commands; network_Commands; link_Commands; name_Commands].
Definition find_db_command (g s : string) : option db_command :=
  gr ← List.find (fun gr => existsb (String.eqb g) (dg_names gr)) db_Commands;
  List.find (fun sc => existsb (String.eqb s) (dc_names sc)) (dg_subs gr).

(** The flags every command has. *)
Definition db_Flags (Server Database : string) : list (string * string) :=
  [("format", "yaml"); ("conf", Server); ("database", Database)].

(** A run: the database of the environment is opened, then the command runs.  [env_var]
    is the environment, [opens] the connection to a server for a database. *)
Context (env_var : string -> option string) (opens : string -> string -> option OvSDB).
Definition db_Before : (option (option OvSDB) * option OvSDB) * bool :=
  NewDBClient (opens (GetEnv env_var "OL_CONF" "unix:/var/openlan/confd.sock") (GetEnv env_var "OL_DATABASE" "OpenLAN_Switch")) (None, None).
Definition db_main (g s : string) (given_global given_local : gmap string string) (given_ints : gmap string Z)
    : go (option OvSDB * (db_shown + db_error)) :=
  match find_db_command g s with
  | None => Ret (None, inr (DbUsage "no such command"))
  | Some sc =>
      let globals := db_Flags (GetEnv env_var "OL_CONF" "unix:/var/openlan/confd.sock") (GetEnv env_var "OL_DATABASE" "OpenLAN_Switch") in
      let i := fun name => match List.find (fun f => String.eqb f.1 name) (dc_ints sc) with
                           | Some f => default f.2 (given_ints !! name) | None => 0 end in
      match db_Before with
      | ((_, Some d), true) =>
          r ← dc_action sc (c_String globals (dc_flags sc) given_global given_local) i d; Ret (Some r.1, r.2)
      | _ => Ret (None, inr NoServer)
      end
  end.
End tables.

(** * Properties *)

(** ** Operations *)

Definition real_uuid (u : string) : Prop := validUUID u = true /\ u <> zero_uuid.

Lemma Generate_uuid {A} `{Model A} (x : A) : real_uuid (uuid_of x) -> Generate x = inl [[("_uuid"%string, VStr (uuid_of x))]].
Proof.
  intros [Hv Hz]. unfold Generate, getValidIndexes. simpl. unfold column at 1. simpl. rewrite Hv.
  by rewrite (proj2 (String.eqb_neq _ _) Hz).
Qed.
Lemma Where_Mutate_uuid {A} `{Model A} (x : A) col m v : real_uuid (uuid_of x) ->
  Where_Mutate x col m v = inl [OpMutate (table_of A) col m v [("_uuid"%string, VStr (uuid_of x))]].
Proof. intros Hu. unfold Where_Mutate. by rewrite Generate_uuid. Qed.

Lemma GetUserPassword_pair u p : contains_char char_colon u = false ->
  GetUserPassword (u +:+ String char_colon p) = (u, p).
Proof. intros Hu. unfold GetUserPassword. simpl. by rewrite cut_app. Qed.
(** A name without a password is the password as well. *)
Lemma GetUserPassword_alone u : contains_char char_colon u = false -> GetUserPassword u = (u, u).
Proof. intros Hu. unfold GetUserPassword. simpl. by rewrite cut_none. Qed.

Lemma assign_nil k v : v <> ""%string -> assign None k v = Panic.
Proof. intros Hv. unfold assign. by rewrite (proj2 (String.eqb_neq _ _) Hv). Qed.

Section link.
Context (order : gmap string cols -> list (string * cols)) (server : list operation -> option (list OperationResult)).
Context (GenUUID : string) (c : string -> string).

(** A link that is not there is sent with the insertion of its name into the links of its
    network, in one transaction. *)
Lemma link_Add_sends d lsVn newLn :
  Get d (flag_link c) = None -> c "network" <> ""%string -> Get d (named_network (c "network")) = Some lsVn ->
  real_uuid (database.vn_UUID lsVn) -> db_Ops d = [] -> new_link GenUUID c lsVn = Ret newLn ->
  exists d' r, link_Add server GenUUID c d = Ret (d', r) /\ db_Ops d' = [] /\
    db_sent d' = db_sent d ++
      [[OpInsert "Virtual_Link" (NewRow newLn) (database.ln_UUID newLn);
        OpMutate "Virtual_Network" "local_links" MutateInsert [database.ln_UUID newLn]
          [("_uuid"%string, VStr (database.vn_UUID lsVn))]]].
Proof.
  intros Hg Hn Hv Hu Ho Hl. unfold link_Add. rewrite Hg. unfold find_network.
  rewrite (proj2 (String.eqb_neq _ _) Hn), Hv, Hl. cbn [mbind go_bind]. unfold with_ops at 1. simpl.
  rewrite (Where_Mutate_uuid lsVn) by done. simpl. unfold commit, finish, Commit, Transact. simpl. rewrite Ho. simpl.
  destruct (server _); by eexists _, _.
Qed.

(** What the server answers is only printed: an addition it refused ends like one it
    accepted. *)
Lemma refused_add_succeeds d lsVn newLn :
  Get d (flag_link c) = None -> c "network" <> ""%string -> Get d (named_network (c "network")) = Some lsVn ->
  real_uuid (database.vn_UUID lsVn) -> new_link GenUUID c lsVn = Ret newLn -> (forall ops, is_Some (server ops)) ->
  exists d', link_Add server GenUUID c d = Ret (d', inl DbQuiet).
Proof.
  intros Hg Hn Hv Hu Hl Hs. unfold link_Add. rewrite Hg. unfold find_network.
  rewrite (proj2 (String.eqb_neq _ _) Hn), Hv, Hl. cbn [mbind go_bind]. unfold with_ops at 1. simpl.
  rewrite (Where_Mutate_uuid lsVn) by done. simpl. unfold commit, finish, Commit, Transact. simpl.
  edestruct Hs as [x ->]. by eexists.
Qed.

(** Credentials given for a link whose row has none end the command with a panic: the map
    read for an empty column is nil. *)
Lemma auth_of_bare_link_panics d lsLn lsVn u p :
  Get d (flag_link c) = Some lsLn -> database.ln_Network lsLn <> ""%string ->
  Get d (named_network (database.ln_Network lsLn)) = Some lsVn -> database.ln_Authentication lsLn = None ->
  c "authentication" = u +:+ String char_colon p -> contains_char char_colon u = false -> u <> ""%string ->
  link_Add server GenUUID c d = Panic.
Proof.
  intros Hg Hn Hv Ha Hc Hu Hne. unfold link_Add. rewrite Hg. unfold find_network.
  rewrite (proj2 (String.eqb_neq _ _) Hn), Hv. unfold changed_link. rewrite Hc, GetUserPassword_pair by done. cbv beta iota zeta.
  by rewrite Ha, assign_nil.
Qed.

(** A device given to a link that is named by its UUID alone is called after the flag, not
    after the connection of the link. *)
Lemma device_forgets_connection lsLn lsVn dev newLn :
  c "connection" = ""%string -> c "device-id" = dev -> dev <> ""%string -> changed_link c lsLn lsVn = Ret newLn ->
  database.ln_Device newLn = ((if String.eqb (database.vn_Provider lsVn) "esp" then "spi" else "vir") +:+ dev)%string /\
  database.ln_Connection newLn = database.ln_Connection lsLn.
Proof.
  intros Hc Hd Hne. unfold changed_link. rewrite Hc, Hd. destruct (GetUserPassword _) as [u p]. intros H.
  apply go_bind_ret in H as (a1 & _ & H). apply go_bind_ret in H as (a2 & _ & H). apply go_bind_ret in H as (o & _ & H).
  rewrite (proj2 (String.eqb_neq _ _) Hne) in H. unfold GetDeviceName in H. simpl in H. injection H as <-. simpl.
  by destruct (String.eqb _ _).
Qed.

(** A network added before there is a switch is not sent. *)
Lemma network_needs_switch d :
  c "name" <> ""%string -> Get d (named_network (c "name")) = None -> Switch_ order d = None ->
  db_sent (network_Add order server GenUUID c d).1 = db_sent d /\ (network_Add order server GenUUID c d).2 = inr NoSwitch.
Proof.
  intros Hn Hg Hs. unfold network_Add. rewrite (proj2 (String.eqb_neq _ _) Hn), Hg. unfold with_ops. simpl.
  assert (E : forall d', db_cache d' = db_cache d -> Switch_ order d' = Switch_ order d).
  { intros d' E. unfold Switch_, List_, rows_of. by rewrite E. }
  by rewrite E, Hs.
Qed.
End link.

(** The server and the database named by flags are not looked at. *)
Lemma conf_flag_ignored order server LookupIP uuid now env_var opens g s given given' locals ints :
  db_main order server LookupIP uuid now env_var opens g s given locals ints =
  db_main order server LookupIP uuid now env_var opens g s given' locals ints.
Proof.
  unfold db_main. destruct (find_db_command _ _ _ _ _ g s) as [sc|] eqn:E; [|done].
  destruct (db_Before _ _) as [[v [d|]] [|]]; [|done..]. unfold find_db_command in E.
  destruct (List.find _ _) as [gr|] eqn:Eg; [|done]. simpl in E. f_equal.
  apply find_some in Eg as [Hg _]. apply find_some in E as [Hs _]. simpl in Hg.
  destruct Hg as [<-|[<-|[<-|[<-|[]]]]]; simpl in Hs; destruct_or?; subst; try done; reflexivity.
Qed.
