(* ===== verification/ConfD.v ===== *)
(** * The database watcher (pkg/olsw/confd.go)

    The watcher follows the configuration database and hands what changes to the workers
    of the switch: [ConfD] dispatches the events of its copy of the database.  The file
    then joins the three parts: a link added by a command ([CmdDb]), the transaction that
    is announced to the watcher ([Ovsdb]), and the member of the IPsec worker ([Esp]). *)

From S2P Require Import Prelude GoStd Json Base64 Utils FireWall Tap Bridge Switch ConfigFiles Schema Api Node Cmd Config Esp Ovsdb CmdDb.

Local Open Scope Z_scope.

(** ** The handlers *)

(** A nil map reads as an empty one. *)
Definition esp_link (x : database.VirtualLink) : Esp.VirtualLink :=
  {| vl_Network := database.ln_Network x; vl_Connection := database.ln_Connection x; vl_Device := database.ln_Device x;
     vl_OtherConfig := default ∅ (database.ln_OtherConfig x); vl_Authentication := default ∅ (database.ln_Authentication x);
     vl_Status := default ∅ (database.ln_Status x) |}.

Section watcher.
Context {K : Type}.
(** The resolver, the kernel's routes, what the kernel refuses, the order of maps. *)
Context (LookupIP : string -> list bytes) (GetLocalByGw : string -> bytes).
Context (has link_ok : string -> bool) (addr_ok : string -> string -> bool).
Context (order : gmap string Networker -> list (string * Networker)).

Local Abbreviation node := (Node.node K).

Definition set_worker (v : node) (name : string) (w : Networker) (rs : list Esp.request) : node :=
  set_reloaded v (n_kernel v) (<[name := w]> (n_worker v)) rs.

(** [AddMember]: a network that is not there, or that is not one for IPsec, is left. *)
Definition AddMember (rnd : nat -> Z) (v : node) (t : Esp.tables) (obj : database.VirtualLink) : go (node * Esp.tables) :=
  _ ← link_end (esp_link obj);
  match n_worker v !! database.ln_Network obj with
  | Some (WEsp w) =>
      r ← Esp.AddMember LookupIP GetLocalByGw has link_ok addr_ok rnd w t (esp_link obj);
      Ret (set_worker v (database.ln_Network obj) (WEsp r.1.1) r.2, r.1.2)
  | _ => Ret (v, t)
  end.

(** [UpdateName] goes over all workers. *)
Fixpoint UpdateName_each (ws : list (string * Networker)) (rnd : nat -> Z) (v : node) (t : Esp.tables) (name addr : string)
    : go (node * Esp.tables) :=
  match ws with
  | [] => Ret (v, t)
  | (nm, WEsp w) :: ws =>
      r ← Esp.UpdateName LookupIP GetLocalByGw has link_ok addr_ok rnd w t name addr;
      UpdateName_each ws rnd (set_worker v nm (WEsp r.1.1) r.2) r.1.2 name addr
  | _ :: ws => UpdateName_each ws rnd v t name addr
  end.
Definition UpdateName (rnd : nat -> Z) (v : node) (t : Esp.tables) (obj : database.NameCache) : go (node * Esp.tables) :=
  if String.eqb (database.na_Address obj) "" then Ret (v, t)
  else UpdateName_each (order (n_worker v)) rnd v t (database.na_Name obj) (database.na_Address obj).

(** What [Add] and [Update] do with the new row. *)
Definition changed (rnd : nat -> Z) (v : node) (t : Esp.tables) (table uuid : string) (row : cols) : go (node * Esp.tables) :=
  if String.eqb table (table_of database.VirtualLink) then
    let obj : database.VirtualLink := of_cols uuid row in
    proto ← GetPrefix (database.ln_Connection obj) 4;
    if String.eqb proto "spi:" || String.eqb proto "udp:" then AddMember rnd v t obj else Ret (v, t)
  else if String.eqb table (table_of database.NameCache) then UpdateName rnd v t (of_cols uuid row)
  else Ret (v, t).
(** The handler of an event; what is deleted is only logged. *)
Definition handle (rnd : nat -> Z) (v : node) (t : Esp.tables) (e : event) : go (node * Esp.tables) :=
  match e with
  | EvAdd table uuid new => changed rnd v t table uuid new
  | EvUpdate table uuid old new => changed rnd v t table uuid new
  | EvDelete table uuid old => Ret (v, t)
  end.
(** Events one after the other; [rnd] are the numbers drawn for each. *)
Fixpoint handle_all (rnd : nat -> nat -> Z) (v : node) (t : Esp.tables) (es : list event) : go (node * Esp.tables) :=
  match es with
  | [] => Ret (v, t)
  | e :: es => r ← handle (rnd 0%nat) v t e; handle_all (fun k => rnd (S k)) r.1 r.2 es
  end.

(** [Start]: a database that cannot be opened is not tried again; the rows there are come
    first. *)
Definition confd_Start (opened : option OvSDB) (initial : list (string * string * RowUpdate2)) (rnd : nat -> nat -> Z)
    (v : node) (t : Esp.tables) : go (option TableCache * (node * Esp.tables)) :=
  match NewDBClient opened (None, None) with
  | (_, true) =>
      let '(tc, es, _) := Populate2 NewTableCache initial in
      r ← handle_all rnd v t es; Ret (Some tc, r)
  | _ => Ret (None, (v, t))
  end.
(** One message of the server. *)
Definition watch (tc : TableCache) (ups : list (string * string * RowUpdate2)) (rnd : nat -> nat -> Z)
    (v : node) (t : Esp.tables) : go (TableCache * (node * Esp.tables)) :=
  let '(tc, es, _) := Populate2 tc ups in r ← handle_all rnd v t es; Ret (tc, r).
End watcher.

(** * Properties *)

(** ** What is announced *)

(** The rows a transaction inserts, and the tables it changes otherwise. *)
Definition inserts (ops : list operation) : list (string * cols) :=
  omap (fun o => match o with OpInsert t row _ => Some (t, row) | _ => None end) ops.
Definition op_changes (t : string) (o : operation) : Prop :=
  match o with OpInsert _ _ _ => False | OpUpdate t' _ _ => t' = t | OpMutate t' _ _ _ _ => t' = t | OpDelete t' _ => t' = t end.

(** What a server that follows RFC 7047 sends to a client that monitors all tables when it
    has made the transaction: each row inserted, under a UUID of its own; changes and
    deletions only in tables the transaction changes. *)
Definition announces (ops : list operation) (ups : list (string * string * RowUpdate2)) : Prop :=
  exists us others, ups ≡ₚ us ++ others /\
    Forall2 (fun (i : string * cols) u => exists uuid l, u = (i.1, uuid, Insert l) /\ l ≡ₚ map_to_list i.2) (inserts ops) us /\
    Forall (fun u : string * string * RowUpdate2 =>
      (exists o, o ∈ ops /\ op_changes u.1.1 o) /\ (u.2 = Delete \/ exists row, u.2 = Modify row)) others.

Definition event_table (e : event) : string := match e with EvAdd t _ _ => t | EvUpdate t _ _ _ => t | EvDelete t _ _ => t end.
(** Tables of which the watcher only logs the changes. *)
Definition unwatched (t : string) : Prop := t <> table_of database.VirtualLink /\ t <> table_of database.NameCache.

Lemma populate_row_events tc t u up tc' es : populate_row tc t u up = Some (tc', es) ->
  Forall (fun e => event_table e = t) es /\ (forall t', is_Some (tc !! t') -> is_Some (tc' !! t')).
Proof.
  unfold populate_row. destruct (tc !! t) as [c|]; [|intros [= <- <-]; by split].
  assert (Hin : forall c' t', is_Some (tc !! t') -> is_Some (<[t := c']> tc !! t')).
  { intros c' t' [x Hx]. destruct (decide (t = t')) as [->|Hn]; [rewrite lookup_insert_eq; by eexists|].
    rewrite lookup_insert_ne by done. by eexists. }
  destruct up as [row|row|row|]; simpl.
  1, 2: destruct (rc_Create _ _ _) as [c'|]; [|done]; simpl; intros [= <- <-]; split; [by constructor|by apply Hin].
  - destruct (rc_rows c !! u) as [old|]; [|done]. simpl. destruct (ApplyModifications _ _ _) as [m|]; [|done]. simpl.
    destruct (decide _); [intros [= <- <-]; by split|]. destruct (rc_Update _ _ _) as [c'|]; [|done].
    simpl. intros [= <- <-]. split; [by constructor|by apply Hin].
  - destruct (rc_rows c !! u) as [old|]; [|done]. simpl. destruct (rc_Delete _ _) as [c'|]; [|done].
    simpl. intros [= <- <-]. split; [by constructor|by apply Hin].
Qed.
Lemma insert_events tc t u l tc' es : is_Some (tc !! t) -> populate_row tc t u (Insert l) = Some (tc', es) ->
  es = [EvAdd t u (CreateModel t l)].
Proof. unfold populate_row. intros [c ->]. simpl. destruct (rc_Create _ _ _); [|done]. simpl. by intros [= _ <-]. Qed.

Lemma Populate2_cons tc t u up ups tc' es : Populate2 tc ((t, u, up) :: ups) = (tc', es, true) ->
  exists tc1 es1 es2, populate_row tc t u up = Some (tc1, es1) /\ Populate2 tc1 ups = (tc', es2, true) /\ es = es1 ++ es2.
Proof.
  simpl. destruct (populate_row _ _ _ _) as [[tc1 es1]|]; [|done].
  destruct (Populate2 tc1 ups) as [[tc2 es2] ok] eqn:E. intros [= <- <- ->]. by eexists _, _, _.
Qed.
Lemma Populate2_unwatched ups : forall tc tc' es,
  Populate2 tc ups = (tc', es, true) -> Forall (fun u : string * string * RowUpdate2 => unwatched u.1.1) ups ->
  Forall (fun e => unwatched (event_table e)) es.
Proof.
  induction ups as [|[[t u] up] ups IH]; intros tc tc' es H Hf; [injection H as <- <-; constructor|].
  apply Populate2_cons in H as (tc1 & es1 & es2 & H1 & H2 & ->). apply Forall_cons in Hf as [Hu Hf].
  apply Forall_app. split; [|by eapply IH]. apply populate_row_events in H1 as [H1 _].
  eapply Forall_impl; [exact H1|]. by intros e ->.
Qed.

(** One row inserted among changes the watcher does not look at is the one event it looks
    at. *)
Lemma Populate2_insert t u l ups1 ups2 : forall tc tc' es,
  Populate2 tc (ups1 ++ (t, u, Insert l) :: ups2) = (tc', es, true) -> is_Some (tc !! t) ->
  Forall (fun u : string * string * RowUpdate2 => unwatched u.1.1) (ups1 ++ ups2) ->
  exists es1 es2, es = es1 ++ EvAdd t u (CreateModel t l) :: es2 /\ Forall (fun e => unwatched (event_table e)) (es1 ++ es2).
Proof.
  induction ups1 as [|[[t1 u1] up1] ups1 IH]; intros tc tc' es H Ht Hf.
  - apply Populate2_cons in H as (tc1 & es1 & es2 & H1 & H2 & ->). rewrite (insert_events _ _ _ _ _ _ Ht H1).
    exists [], es2. split; [done|]. by eapply Populate2_unwatched.
  - apply Populate2_cons in H as (tc1 & es1 & es2 & H1 & H2 & ->). apply populate_row_events in H1 as [H1 Hin].
    apply Forall_cons in Hf as [Hu Hf]. apply IH in H2 as (es3 & es4 & -> & H2); [|by apply Hin|done].
    exists (es1 ++ es3), es4. rewrite <- !app_assoc. split; [done|]. apply Forall_app. split; [|done].
    eapply Forall_impl; [exact H1|]. by intros e ->.
Qed.

(** ** The member of a link *)

Section member.
Context (L : string -> list bytes) (G : string -> bytes).
Context (has link_ok : string -> bool) (addr_ok : string -> string -> bool).

Local Abbreviation fine s := (fun m : option ESPMember => exists m0, m = Some m0 /\ member_fine s m0).

Lemma put_member_returns s mem ms : Forall (fine s) ms -> member_fine s mem ->
  exists ms', put_member mem ms = Ret ms' /\ Forall (fine s) ms' /\ Some mem ∈ ms'.
Proof.
  intros Hf Hm. assert (Hr : exists ms' found, replace_members mem ms = Ret (ms', found) /\ Forall (fine s) ms' /\
                                          (found = true -> Some mem ∈ ms')).
  { induction Hf as [|m ms (m0 & -> & Hm0) _ (ms' & found & IH & Hf & Hin)]; [by exists [], false|].
    simpl. rewrite IH. cbn [mbind go_bind]. destruct (mem_Spi m0 =? mem_Spi mem).
    - eexists _, _. split; [done|]. split; [constructor; [by eexists|done]|]. intros _. by left.
    - eexists _, _. split; [done|]. split; [constructor; [by eexists|done]|]. intros Hfo. right. by apply Hin. }
  destruct Hr as (ms' & found & Hr & Hf' & Hin). unfold put_member. rewrite Hr. cbn [mbind go_bind].
  destruct found; [exists ms'; naive_solver|]. eexists. split; [done|]. split.
  - apply Forall_app. split; [done|]. constructor; [by eexists|constructor].
  - apply elem_of_app. right. by left.
Qed.

Lemma members_Correct_elem s mem ms : forall rnd ms', members_Correct L G s rnd ms = Ret ms' -> Some mem ∈ ms ->
  exists k mem', member_Correct L G s k mem = Ret mem' /\ Some mem' ∈ ms'.
Proof.
  induction ms as [|[m|] ms IH]; intros rnd ms' H Hin; simpl in H; [by apply elem_of_nil in Hin| |done].
  apply go_bind_ret in H as (m' & H1 & H). apply go_bind_ret in H as (ms2 & H2 & [= <-]).
  apply elem_of_cons in Hin as [[= ->]|Hin].
  - exists (rnd 0%nat), m'. split; [done|]. by left.
  - destruct (IH _ _ H2 Hin) as (k & mem' & Hk & Hin'). exists k, mem'. split; [done|]. by right.
Qed.
Lemma corrected_some s rnd ms ms' : members_Correct L G s rnd ms = Ret ms' -> Forall is_Some ms'.
Proof.
  intros H. apply members_ok in H. eapply Forall_impl; [exact H|]. intros m (m0 & -> & _). by eexists.
Qed.

Lemma upMember_returns ms : Forall is_Some ms -> exists rs, upMember has link_ok addr_ok ms = Ret rs.
Proof.
  induction 1 as [|m ms [m0 ->] _ [rs IH]]; [by eexists|]. simpl. rewrite IH. by eexists.
Qed.
Lemma esp_Reload_returns w t s : ew_spec w = Some s -> Forall is_Some (esp_Members s) ->
  exists w' t' rs, esp_Reload has link_ok addr_ok w t = Ret (w', t', rs) /\
    ew_states w' = wanted_states (esp_Members s) /\ ew_spec w' = Some (set_members s (map updated (esp_Members s))) /\
    Forall (fun st => StateAdd st ∈ rs) (ew_states w').
Proof.
  intros Hs Hf. unfold esp_Reload. cbn [delXfrm].
  destruct (updateXfrm_spec (set_xfrm w [] []) t s Hs) as (w1 & t1 & -> & Hst & _ & Hsp). cbn [mbind go_bind]. rewrite Hsp.
  cbn [set_members esp_Members mbind go_bind]. destruct (upMember_returns (map updated (esp_Members s))) as [rs ->].
  { apply Forall_map. eapply Forall_impl; [exact Hf|]. intros m [m0 ->]. by eexists. }
  cbn [set_members esp_Members mbind go_bind]. eexists _, _, _. split; [done|]. split; [done|]. split; [done|].
  apply Forall_forall. intros st Hin. unfold addXfrm. rewrite !elem_of_app, !list_elem_of_fmap. right. left. left. by exists st.
Qed.

(** A link that has an end puts its member, corrected, into the network and asks the
    kernel for the associations of all members. *)
Lemma AddMember_puts rnd w t s obj spi remote :
  ew_spec w = Some s -> Forall (fine s) (esp_Members s) ->
  link_end obj = Ret (Some (spi, remote)) -> member_fine s (link_member obj spi remote) ->
  exists w' t' rs s' k mem, Esp.AddMember L G has link_ok addr_ok rnd w t obj = Ret (w', t', rs) /\
    ew_spec w' = Some s' /\ member_Correct L G s k (link_member obj spi remote) = Ret mem /\
    Some (default mem (updated (Some mem))) ∈ esp_Members s' /\
    (has_ips mem = true -> Forall (fun st => StateAdd st ∈ rs) (member_states mem)).
Proof.
  intros Hs Hf He Hm. destruct (put_member_returns _ _ _ Hf Hm) as (ms & Hp & Hf' & Hin).
  assert (Hc : exists ms', members_Correct L G s rnd ms = Ret ms') by by apply members_returns.
  destruct Hc as [ms' Hc]. destruct (members_Correct_elem _ _ _ _ _ Hc Hin) as (k & mem & Hk & Hin').
  set (s1 := set_members s ms').
  destruct (esp_Reload_returns (set_spec w (Some s1)) t s1) as (w' & t' & rs & Hr & Hst & Hsp & Hrs);
    [done|by eapply corrected_some|].
  exists w', t', rs, (set_members s1 (map updated ms')), k, mem. unfold Esp.AddMember.
  rewrite He. cbn [mbind go_bind]. rewrite Hs, Hp. cbn [mbind go_bind]. unfold esp_Correct.
  cbn [set_members esp_Name esp_Address esp_State esp_Members]. rewrite (members_same L G _ s) by done. rewrite Hc. cbn [mbind go_bind].
  split; [exact Hr|]. split; [exact Hsp|]. split; [exact Hk|]. split.
  - simpl. apply list_elem_of_fmap. exists (Some mem). split; [done|exact Hin'].
  - intros Hips. rewrite Hst in Hrs. eapply incl_Forall; [|exact Hrs]. intros st Hst'. apply in_concat.
    exists (member_states mem). split; [|done]. apply in_map_iff. exists (Some mem). split; [by rewrite Hips|]. by apply list_elem_of_In.
Qed.
End member.

(** ** From the command to the kernel *)

(** The flags of [link add] for a tunnel over UDP. *)
Record udp_link (c : string -> string) (net R A u p : string) (P D : Z) : Prop := {
  ul_network : c "network" = net; ul_named : net <> ""%string;
  ul_connection : c "connection" = ("udp:" +:+ R +:+ String char_colon (FormatInt P))%string;
  ul_remote : contains_char char_colon R = false; ul_port : 0 < P < 2 ^ 63;
  ul_device : c "device-id" = FormatInt D; ul_spi : 0 < D < 2 ^ 63;
  ul_auth : c "authentication" = (u +:+ String char_colon p)%string; ul_user : contains_char char_colon u = false;
  ul_given : u <> ""%string /\ p <> ""%string; ul_fit : (String.length u <= 64)%nat /\ (String.length p <= 64)%nat;
  ul_peer : c "remote-address" = A
}.

Lemma GetPrefix_udp s : GetPrefix ("udp:" +:+ s) 4 = Ret "udp:"%string.
Proof.
  unfold GetPrefix, str_slice. rewrite string_length_app. change (String.length "udp:") with 4%nat.
  rewrite (proj2 (Z.leb_le 4 _)) by lia. simpl. by rewrite substring_zero.
Qed.
Lemma from4_udp s : from4 ("udp:" +:+ s) = s.
Proof. unfold from4. simpl. rewrite Nat.sub_0_r. apply substring_all. Qed.
Lemma GetSuffix_spi s : GetSuffix ("spi" +:+ s) 3 = Ret s.
Proof.
  unfold GetSuffix, str_slice. rewrite string_length_app. change (String.length "spi") with 3%nat.
  rewrite (proj2 (Z.leb_le 3 _)) by lia. rewrite Z.leb_refl. simpl.
  replace (Z.to_nat _) with (String.length s) by lia. by rewrite substring_all.
Qed.

(** The member such a link stands for, before it is corrected. *)
Definition udp_member (local R A u p : string) (P D : Z) : ESPMember :=
  {| mem_Name := "spi" +:+ FormatInt D; mem_Address := local; mem_Peer := A; mem_Spi := D;
     mem_State := {| Local := ""; LocalIp := []; Remote := R; RemotePort := P; RemoteIp := []; Encap := ""; Auth := p; Crypto := u |};
     mem_Policies := [] |}.

Section fields.
Context (c : string -> string) (net R A u p : string) (P D : Z) (Hc : udp_link c net R A u p P D).
Context (lsVn : database.VirtualNetwork) (Hesp : database.vn_Provider lsVn = "esp"%string) (GenUUID : string).

Lemma new_udp_link : exists uuid, new_link GenUUID c lsVn =
  Ret {| database.ln_UUID := uuid; database.ln_Network := net;
         database.ln_Connection := "udp:" +:+ R +:+ String char_colon (FormatInt P);
         database.ln_Device := "spi" +:+ FormatInt D;
         database.ln_OtherConfig := Some (<["local_address"%string := database.vn_Address lsVn]> {["remote_address"%string := A]});
         database.ln_Authentication := Some (<["username"%string := u]> {["password"%string := p]});
         database.ln_LinkState := ""; database.ln_Status := None |}.
Proof.
  destruct Hc as [Hn _ Hco _ _ Hd _ Ha Hu _ _ Hp]. eexists. unfold new_link. rewrite Hn, Hco, Hd, Ha, Hp, GetUserPassword_pair by done.
  unfold GetDeviceName. rewrite GetPrefix_udp, Hesp. cbn [mbind go_bind]. reflexivity.
Qed.

Lemma received_udp_link newLn l uuid : new_link GenUUID c lsVn = Ret newLn -> l ≡ₚ map_to_list (NewRow newLn) ->
  let obj : database.VirtualLink := of_cols uuid (CreateModel (table_of database.VirtualLink) l) in
  GetPrefix (database.ln_Connection obj) 4 = Ret "udp:"%string /\ database.ln_Network obj = net /\
  link_end (esp_link obj) = Ret (Some (D, (R, P))) /\
  link_member (esp_link obj) D (R, P) = udp_member (database.vn_Address lsVn) R A u p P D.
Proof.
  intros Hn Hl obj. subst obj. rewrite (link_roundtrip newLn) by done. destruct new_udp_link as [uid Hnew].
  rewrite Hnew in Hn. injection Hn as <-. cbn [database.ln_Connection database.ln_Network]. split; [apply GetPrefix_udp|].
  split; [done|]. destruct Hc as [_ _ _ HR HP _ HD _ _ _ _ _]. split.
  - unfold link_end. cbn [esp_link vl_Connection vl_Device database.ln_Connection database.ln_Device].
    rewrite GetPrefix_udp, GetSuffix_spi, from4_udp. cbn [mbind go_bind]. simpl.
    unfold GetAddrPort. simpl. rewrite cut_app by done. rewrite !Atoi_FormatInt by lia. done.
  - unfold link_member, udp_member. simpl. done.
Qed.
End fields.

Lemma udp_member_fine s local R A u p P D :
  u <> ""%string /\ p <> ""%string -> (String.length u <= 64)%nat /\ (String.length p <= 64)%nat ->
  member_fine s (udp_member local R A u p P D).
Proof.
  intros [Hu Hp] [Lu Lp]. right. split; [|by apply not_elem_of_nil]. unfold secrets_fit, auth_secret, crypt_secret. simpl.
  rewrite (or_str_id p), (or_str_id u) by done. by rewrite or_str_id.
Qed.
(** What correcting makes of it. *)
Lemma udp_member_corrected L G s k local R A u p P D mem :
  local <> ""%string -> u <> ""%string /\ p <> ""%string -> P <> 0 -> D <> 0 ->
  member_Correct L G s k (udp_member local R A u p P D) = Ret mem ->
  mem_Name mem = ("spi" +:+ FormatInt D)%string /\ mem_Address mem = with_len local /\ mem_Peer mem = with_len A /\
  mem_Spi mem = D /\ Remote (mem_State mem) = R /\ RemotePort (mem_State mem) = P /\
  RemoteIp (mem_State mem) = lookup_or L R [] /\
  Padding p 32 = Ret (Auth (mem_State mem)) /\ Padding u 32 = Ret (Crypto (mem_State mem)).
Proof.
  intros Hl [Hu Hp] HP HD. unfold member_Correct. simpl. rewrite (or_str_id local) by done.
  rewrite (proj2 (String.eqb_neq local "")) by done. intros H. apply go_bind_ret in H as (st & Hst & [= <-]).
  cbn [mem_Name mem_Address mem_Peer mem_Spi mem_State]. rewrite (or_int_id D) by done.
  unfold state_Correct in Hst. cbn [inherit_state Auth Crypto Local Remote LocalIp RemoteIp RemotePort Encap] in Hst.
  rewrite (or_str_id p), (or_str_id u) in Hst by done. rewrite (or_str_id p), !(or_str_id u) in Hst by done.
  apply go_bind_ret in Hst as (a & Ha & Hst). apply go_bind_ret in Hst as (cr & Hcr & [= <-]). simpl.
  rewrite (or_int_id P) by done. by rewrite (or_int_id P).
Qed.

Section flow.
Context {K : Type} (L : string -> list bytes) (G : string -> bytes).
Context (has link_ok : string -> bool) (addr_ok : string -> string -> bool).
Context (order : gmap string Networker -> list (string * Networker)).

Lemma handle_unwatched rnd (v : node K) t e : unwatched (event_table e) ->
  handle L G has link_ok addr_ok order rnd v t e = Ret (v, t).
Proof.
  intros [H1 H2]. destruct e; unfold handle, changed; simpl in *; try done;
    by rewrite (proj2 (String.eqb_neq _ _) H1), (proj2 (String.eqb_neq _ _) H2).
Qed.
Lemma handle_all_unwatched es : forall rnd (v : node K) t, Forall (fun e => unwatched (event_table e)) es ->
  handle_all L G has link_ok addr_ok order rnd v t es = Ret (v, t).
Proof.
  induction es as [|e es IH]; intros rnd v t H; [done|]. apply Forall_cons in H as [He H]. simpl.
  rewrite handle_unwatched by done. by apply IH.
Qed.
Lemma handle_all_one es1 e es2 : forall rnd (v : node K) t,
  Forall (fun e => unwatched (event_table e)) (es1 ++ es2) ->
  handle_all L G has link_ok addr_ok order rnd v t (es1 ++ e :: es2) =
  handle L G has link_ok addr_ok order (rnd (length es1)) v t e.
Proof.
  induction es1 as [|e1 es1 IH]; intros rnd v t H.
  - simpl. destruct (handle _ _ _ _ _ _ _ v t e) as [[v' t']|]; [|done]. simpl. by apply handle_all_unwatched.
  - apply Forall_cons in H as [He H]. simpl. rewrite handle_unwatched by done. simpl. by rewrite IH.
Qed.

(** What is deleted from the database stays in the switch. *)
Lemma deletion_ignored rnd (v : node K) t table uuid old :
  handle L G has link_ok addr_ok order rnd v t (EvDelete table uuid old) = Ret (v, t).
Proof. done. Qed.

(** The transaction of [link add], announced, is one event of the watcher. *)
Lemma announced_once tc ups tc' es row name u0 vn rest :
  announces [OpInsert (table_of database.VirtualLink) row name; OpMutate (table_of database.VirtualNetwork) u0 MutateInsert vn rest] ups ->
  is_Some (tc !! table_of database.VirtualLink) -> Populate2 tc ups = (tc', es, true) ->
  exists es1 uuid l es2, es = es1 ++ EvAdd (table_of database.VirtualLink) uuid (CreateModel (table_of database.VirtualLink) l) :: es2 /\
    l ≡ₚ map_to_list row /\ Forall (fun e => unwatched (event_table e)) (es1 ++ es2).
Proof.
  intros (us & others & Hp & Hi & Ho) Ht Hpop. simpl in Hi. apply Forall2_cons_inv_l in Hi as (x & us' & (uuid & l & -> & Hl) & Hi & ->).
  apply Forall2_nil_inv_l in Hi as ->. simpl in Hp.
  assert (Hin : ("Virtual_Link"%string, uuid, Insert l) ∈ ups) by (rewrite Hp; by left).
  apply list_elem_of_split in Hin as (a & b & ->). symmetry in Hp. apply Permutation_cons_app_inv in Hp.
  assert (Hq : Forall (fun u : string * string * RowUpdate2 => unwatched u.1.1) (a ++ b)).
  { rewrite <- Hp. eapply Forall_impl; [exact Ho|]. intros [[t u] up] [(o & Hin & Hc) _]. simpl in Hc.
    apply elem_of_cons in Hin as [->|Hin]; [done|]. apply list_elem_of_singleton in Hin as ->. simpl in Hc. subst t. by split. }
  destruct (Populate2_insert _ _ _ _ _ _ _ _ Hpop Ht Hq) as (es1 & es2 & -> & He). by exists es1, uuid, l, es2.
Qed.
End flow.

(** The watcher's part, for any transaction that was announced. *)
Lemma announced_link_member {K} L G has link_ok addr_ok order (v : node K) t rnd w s
    c net R A u p P D (Hc : udp_link c net R A u p P D) lsVn GenUUID newLn tc ups tc' es name u0 vn rest :
  database.vn_Provider lsVn = "esp"%string -> database.vn_Address lsVn <> ""%string -> new_link GenUUID c lsVn = Ret newLn ->
  n_worker v !! net = Some (WEsp w) -> ew_spec w = Some s ->
  Forall (fun m => exists m0, m = Some m0 /\ member_fine s m0) (esp_Members s) ->
  announces [OpInsert (table_of database.VirtualLink) (NewRow newLn) name;
             OpMutate (table_of database.VirtualNetwork) u0 MutateInsert vn rest] ups ->
  is_Some (tc !! table_of database.VirtualLink) -> Populate2 tc ups = (tc', es, true) ->
  exists v' t' w' s' m, watch L G has link_ok addr_ok order tc ups rnd v t = Ret (tc', (v', t')) /\
    n_worker v' = <[net := WEsp w']> (n_worker v) /\ ew_spec w' = Some s' /\ Some m ∈ esp_Members s' /\
    mem_Name m = ("spi" +:+ FormatInt D)%string /\ mem_Address m = with_len (database.vn_Address lsVn) /\
    mem_Peer m = with_len A /\ mem_Spi m = D /\ Remote (mem_State m) = R /\ RemotePort (mem_State m) = P /\
    RemoteIp (mem_State m) = lookup_or L R [] /\
    Padding p 32 = Ret (Auth (mem_State m)) /\ Padding u 32 = Ret (Crypto (mem_State m)) /\
    (has_ips m = true -> Forall (fun st => StateAdd st ∈ n_asked v') (member_states m)).
Proof.
  intros Hesp Hl Hn Hw Hs Hf Han Ht Hpop. destruct (announced_once _ _ _ _ _ _ _ _ _ Han Ht Hpop) as (es1 & uuid & l & es2 & -> & Hp & He).
  destruct (received_udp_link _ _ _ _ _ _ _ _ Hc _ Hesp GenUUID newLn l uuid Hn Hp) as (Hpre & Hnet & Hend & Hmem).
  pose proof (ul_given _ _ _ _ _ _ _ _ Hc) as Hg. pose proof (ul_port _ _ _ _ _ _ _ _ Hc). pose proof (ul_spi _ _ _ _ _ _ _ _ Hc).
  pose proof (udp_member_fine s (database.vn_Address lsVn) R A u p P D Hg (ul_fit _ _ _ _ _ _ _ _ Hc)) as Hfine.
  rewrite <- Hmem in Hfine.
  destruct (AddMember_puts L G has link_ok addr_ok (rnd (length es1)) w t s _ _ _ Hs Hf Hend Hfine)
    as (w' & t' & rs & s' & k & mem & Hadd & Hs' & Hk & Hin & Hips).
  rewrite Hmem in Hk. apply udp_member_corrected in Hk as (H1 & H2 & H3 & H4 & H5 & H6 & H7 & H8 & H9); [|done|done|lia|lia].
  exists (set_worker v net (WEsp w') rs), t', w', s', (if has_ips mem then fill_member mem else mem).
  unfold watch. rewrite Hpop, handle_all_one by done. unfold handle, changed. rewrite String.eqb_refl. cbv zeta.
  rewrite Hpre. cbn [mbind go_bind]. change (String.eqb "udp:" "spi:" || String.eqb "udp:" "udp:") with true. cbv iota.
  unfold AddMember. rewrite Hend. cbn [mbind go_bind]. rewrite Hnet, Hw, Hadd. cbn [mbind go_bind fst snd].
  split; [done|]. split; [done|]. split; [done|]. split; [done|].
  assert (Hsame : has_ips (if has_ips mem then fill_member mem else mem) = has_ips mem) by (destruct (has_ips mem) eqn:E; exact E).
  assert (Hst : member_states (if has_ips mem then fill_member mem else mem) = member_states mem) by by destruct (has_ips mem).
  rewrite Hsame, Hst. repeat split; try by destruct (has_ips mem).
  intros Hi. specialize (Hips Hi). eapply Forall_impl; [exact Hips|]. intros st Hin'. simpl. apply elem_of_app. by right.
Qed.

(** (C14) [openlan link add] with a connection over UDP, a device number, credentials and a
    remote address, on a network for IPsec the database has: the command sends one
    transaction, which inserts the link and puts it among the links of its network; and
    whatever order a server announces it in, a watcher that takes the announcement puts
    into the running worker of that network a member with exactly that number, name, peer,
    remote end and port and the padded credentials, the network's address as its own, and
    asks the kernel for both its associations if its ends are known.  No step of it
    panics. *)
Theorem link_add_makes_member {K} L G has link_ok addr_ok order server GenUUID c (d : OvSDB) lsVn (v : node K) t rnd w s net R A u p P D :
  udp_link c net R A u p P D -> Get d (flag_link c) = None -> Get d (named_network net) = Some lsVn -> db_Ops d = [] ->
  real_uuid (database.vn_UUID lsVn) -> database.vn_Provider lsVn = "esp"%string -> database.vn_Address lsVn <> ""%string ->
  n_worker v !! net = Some (WEsp w) -> ew_spec w = Some s ->
  Forall (fun m => exists m0, m = Some m0 /\ member_fine s m0) (esp_Members s) ->
  exists d' r ops, link_Add server GenUUID c d = Ret (d', r) /\ db_sent d' = db_sent d ++ [ops] /\
    forall tc ups tc' es, announces ops ups -> is_Some (tc !! table_of database.VirtualLink) -> Populate2 tc ups = (tc', es, true) ->
    exists v' t' w' s' m, watch L G has link_ok addr_ok order tc ups rnd v t = Ret (tc', (v', t')) /\
      n_worker v' = <[net := WEsp w']> (n_worker v) /\ ew_spec w' = Some s' /\ Some m ∈ esp_Members s' /\
      mem_Name m = ("spi" +:+ FormatInt D)%string /\ mem_Address m = with_len (database.vn_Address lsVn) /\
      mem_Peer m = with_len A /\ mem_Spi m = D /\ Remote (mem_State m) = R /\ RemotePort (mem_State m) = P /\
      RemoteIp (mem_State m) = lookup_or L R [] /\
      Padding p 32 = Ret (Auth (mem_State m)) /\ Padding u 32 = Ret (Crypto (mem_State m)) /\
      (has_ips m = true -> Forall (fun st => StateAdd st ∈ n_asked v') (member_states m)).
Proof.
  intros Hc Hg Hv Ho Hu Hesp Hl Hw Hs Hf. destruct (new_udp_link _ _ _ _ _ _ _ _ Hc lsVn Hesp GenUUID) as [uid Hn].
  pose proof (ul_network _ _ _ _ _ _ _ _ Hc) as Hnet. pose proof (ul_named _ _ _ _ _ _ _ _ Hc) as Hne.
  rewrite <- Hnet in Hv, Hne. destruct (link_Add_sends server GenUUID c d lsVn _ Hg Hne Hv Hu Ho Hn) as (d' & r & Hadd & _ & Hsent).
  eexists d', r, _. split; [exact Hadd|]. split; [exact Hsent|]. intros tc ups tc' es Han Ht Hpop.
  by eapply announced_link_member.
Qed.

(** ** Examples *)

Section demo.
Local Open Scope string_scope.
Definition demo_vn_uuid : string := "11111111-2222-3333-4444-555555555555".
Definition demo_link_uuid : string := "66666666-7777-8888-9999-aaaaaaaaaaaa".
Definition demo_cache : TableCache :=
  (Populate2 NewTableCache
     [("Virtual_Network", demo_vn_uuid, Initial [("name", VStr "sec"); ("provider", VStr "esp"); ("address", VStr "10.9.0.1")])]).1.1.
Definition demo_network : database.VirtualNetwork :=
  {| database.vn_UUID := demo_vn_uuid; database.vn_Name := "sec"; database.vn_Provider := "esp"; database.vn_Bridge := "";
     database.vn_Address := "10.9.0.1"; database.vn_OtherConfig := None; database.vn_RemoteLinks := [];
     database.vn_LocalLinks := []; database.vn_OpenVPN := None; database.vn_PrefixRoutes := [] |}.
Definition demo_db : OvSDB := {| db_cache := demo_cache; db_Ops := []; db_sent := []; db_log := [] |}.
Definition demo_flags (name : string) : string :=
  default "" (list_to_map (M := gmap string string)
    [("network", "sec"); ("connection", "udp:192.0.2.7:4500"); ("device-id", "10"); ("authentication", "west:key");
     ("remote-address", "10.9.0.2")] !! name).
Definition demo_link : database.VirtualLink :=
  {| database.ln_UUID := "n1"; database.ln_Network := "sec"; database.ln_Connection := "udp:192.0.2.7:4500";
     database.ln_Device := "spi10"; database.ln_OtherConfig := Some (<["local_address" := "10.9.0.1"]> {["remote_address" := "10.9.0.2"]});
     database.ln_Authentication := Some (<["username" := "west"]> {["password" := "key"]});
     database.ln_LinkState := ""; database.ln_Status := None |}.
Definition demo_ops : list operation :=
  [OpInsert "Virtual_Link" (NewRow demo_link) "n1";
   OpMutate "Virtual_Network" "local_links" MutateInsert ["n1"] [("_uuid", VStr demo_vn_uuid)]].
(** The server accepts it and announces the network first. *)
Definition demo_server (ops : list operation) : option (list OperationResult) :=
  Some (map (fun _ => {| or_Error := ""; or_Details := "" |}) ops).
Definition demo_ups : list (string * string * RowUpdate2) :=
  [("Virtual_Network", demo_vn_uuid, Modify [("local_links", VSet [demo_link_uuid])]);
   ("Virtual_Link", demo_link_uuid, Insert (map_to_list (NewRow demo_link)))].
Definition demo_spec : ESPSpecifies := {| esp_Name := "sec"; esp_Address := ""; esp_State := demo_state ""; esp_Members := [] |}.
Definition demo_esp_worker : EspWorker :=
  {| ew_name := "sec"; ew_uuid := ""; ew_states := []; ew_policies := [];
     ew_spec := Some demo_spec |}.
Definition demo_confd_node : node FireWall.tables :=
  set_reloaded demo_node (n_kernel demo_node) {["sec" := WEsp demo_esp_worker]} [].
Definition demo_resolve (name : string) : list bytes := match ParseIP name with Some ip => [ip] | None => [] end.
Definition demo_route (remote : string) : bytes := [192; 0; 2; 1]%Z.
Definition demo_watch :=
  watch demo_resolve demo_route never never (fun _ _ => true) demo_order demo_cache demo_ups (fun _ _ => 7%Z)
    demo_confd_node Esp.no_tables.
End demo.

Lemma demo_udp_link : udp_link demo_flags "sec" "192.0.2.7" "10.9.0.2" "west" "key" 4500 10.
Proof. split; try reflexivity; try done; try lia; split; try done; simpl; lia. Qed.
Lemma demo_announced : announces demo_ops demo_ups.
Proof.
  exists [("Virtual_Link"%string, demo_link_uuid, Insert (map_to_list (NewRow demo_link)))],
    [("Virtual_Network"%string, demo_vn_uuid, Modify [("local_links"%string, VSet [demo_link_uuid])])].
  split; [apply Permutation_swap|]. split.
  - constructor; [|constructor]. by eexists _, _.
  - constructor; [|constructor]. split; [|right; by eexists]. eexists. split; [right; left|done].
Qed.

(** The whole way on this link: the kernel is asked for its two associations and the
    device. *)
Example demo_watched :
  match demo_watch with
  | Ret (_, (v, _)) => length (List.filter (fun r => match r with StateAdd _ => true | _ => false end) (n_asked v))
  | Panic => 0%nat
  end = 2%nat.
Proof. vm_compute. reflexivity. Qed.

Lemma link_add_makes_member_witness :
  exists d' r, link_Add demo_server "n1" demo_flags demo_db = Ret (d', r) /\ db_sent d' = [demo_ops] /\
    exists tc v t w s m, demo_watch = Ret (tc, (v, t)) /\ n_worker v !! "sec"%string = Some (WEsp w) /\ ew_spec w = Some s /\
      Some m ∈ esp_Members s /\ mem_Spi m = 10 /\ mem_Name m = "spi10"%string /\ Remote (mem_State m) = "192.0.2.7"%string /\
      RemotePort (mem_State m) = 4500 /\ mem_Address m = "10.9.0.1/32"%string.
Proof.
  assert (H1 : Get demo_db (flag_link demo_flags) = None) by (vm_compute; reflexivity).
  assert (H2 : Get demo_db (named_network "sec") = Some demo_network) by (vm_compute; reflexivity).
  assert (H3 : real_uuid (database.vn_UUID demo_network)) by (split; [vm_compute; reflexivity|discriminate]).
  assert (H4 : database.vn_Address demo_network <> ""%string) by discriminate.
  destruct (link_add_makes_member demo_resolve demo_route never never (fun _ _ => true) demo_order demo_server "n1" demo_flags demo_db
    demo_network demo_confd_node Esp.no_tables (fun _ _ => 7) demo_esp_worker demo_spec _ _ _ _ _ _ _ demo_udp_link
    H1 H2 eq_refl H3 eq_refl H4 eq_refl eq_refl (List.Forall_nil _)) as (d' & r & ops & Hadd & Hsent & H).
  clear H1 H2 H3 H4.
  assert (Hd : link_Add demo_server "n1" demo_flags demo_db = Ret (
    {| db_cache := demo_cache; db_Ops := []; db_sent := [demo_ops]; db_log := [] |}, inl DbQuiet)) by (vm_compute; reflexivity).
  rewrite Hd in Hadd. injection Hadd as <- <-. injection Hsent as <-.
  exists {| db_cache := demo_cache; db_Ops := []; db_sent := [demo_ops]; db_log := [] |}, (inl DbQuiet).
  split; [exact Hd|]. split; [reflexivity|].
  destruct (Populate2 demo_cache demo_ups) as [[tc es] ok] eqn:Hp.
  assert (Hok : ok = true) by (change ok with (tc, es, ok).2; rewrite <- Hp; vm_compute; reflexivity). subst ok.
  destruct (H demo_cache demo_ups tc es demo_announced) as (v & t & w & s & m & Hw & Hn & Hs & Hin & H1 & H2 & _ & H4 & H5 & H6 & _);
    [by eexists|exact Hp|].
  exists tc, v, t, w, s, m. split; [exact Hw|]. rewrite Hn. split; [reflexivity|]. split; [exact Hs|]. split; [exact Hin|].
  split; [exact H4|]. split; [exact H1|]. split; [exact H5|]. split; [exact H6|exact H2].
Defined.
