(* ===== verification/Transports.v ===== *)
(** * Transports (pkg/libol/websocket.go, kcpsocket.go, tcpsocket.go, udpsocket.go)

    The clients over web sockets and KCP beside those over TCP and UDP of [Socket]; what a
    point dials and a switch listens on for each protocol; and the loop that accepts
    connections.  A web client tells a handler when it is closed, over a channel of two
    places and with its lock held. *)

From S2P Require Import Prelude Protocol Message SafeMap Socket Config Vpn Node.

Local Open Scope Z_scope.

(** ** Configurations *)

Record WebCert := { wb_Key : string; wb_Crt : string; wb_RootCa : string; wb_Insecure : bool }.
Record WebConfig := { wb_Cert : option WebCert; wb_Block : option Config.BlockCrypt; wb_RdQus : Z; wb_WrQus : Z }.
Record KcpConfig := {
  kc_Block : option Config.BlockCrypt; kc_WinSize : Z; kc_DataShards : Z; kc_ParityShards : Z; kc_Timeout : Z;
  kc_RdQus : Z; kc_WrQus : Z
}.
Definition defaultKcpConfig : KcpConfig :=
  {| kc_Block := None; kc_WinSize := 1024; kc_DataShards := 10; kc_ParityShards := 3; kc_Timeout := seconds 120;
     kc_RdQus := 0; kc_WrQus := 0 |}.

(** ** Dialling *)

(** The roots a certificate is checked against: [None] are those of the system. *)
Inductive dial :=
| DialTcp (addr : string)
| DialTls (addr : string) (insecure : bool) (roots : option string)
| DialUdp (addr : string)
| DialKcp (addr : string) (block : option Config.BlockCrypt) (dataShards parityShards : Z)
| DialWs (url : string)
| DialWss (url : string) (insecure : bool) (roots : option string).

Section clients.
Context {P : Type}.
(** The cipher of a key, the files, those that cannot be read, and whether the text of a
    file is certificates. *)
Context (cipher : Config.BlockCrypt -> Message.BlockCrypt) (files : fs) (unreadable : string -> bool).

Local Abbreviation SocketClientImpl := (SocketClientImpl P).

Definition read_file (name : string) : option string := if unreadable name then None else files !! name.
(** A file that is not certificates makes a pool of none. *)
Definition web_GetCertPool (ca : string) : option string := read_file ca.
Definition cert_GetCertPool (c : Cert) : option string := if String.eqb (CaFile c) "" then None else read_file (CaFile c).

Definition stream_client (addr : string) (block : option Config.BlockCrypt) (rdQus now : Z) : SocketClientImpl :=
  NewSocketClient addr (MStream {| sm_block := option_map cipher block; sm_buffer := []; sm_bufSize := rdQus * MaxFrame |}) now.

(** KCP encrypts what it carries itself: its messager has no cipher. *)
Definition NewKcpClient (addr : string) (cfg : option KcpConfig) (now : Z) : SocketClientImpl :=
  stream_client addr None (kc_RdQus (default defaultKcpConfig cfg)) now.
Definition NewKcpClientFromConn (conn : net_conn) (cfg : option KcpConfig) (now : Z) : go SocketClientImpl :=
  updateConn (NewKcpClient (nc_remote conn) cfg now) (Some conn) now.
(** The number of parity shards is the number of data shards. *)
Definition kcp_dial (addr : string) (cfg : KcpConfig) : dial := DialKcp addr (kc_Block cfg) (kc_DataShards cfg) (kc_DataShards cfg).

(** *** Web sockets *)

(** [wc_done] counts what is in the channel; [wc_held]: some call waits for a place in it,
    with the lock. *)
Record WebClient := { wc_impl : SocketClientImpl; wc_done : Z; wc_held : bool }.

Definition NewWebClient (addr : string) (cfg : WebConfig) (now : Z) : WebClient :=
  {| wc_impl := stream_client addr (wb_Block cfg) (wb_RdQus cfg) now; wc_done := 0; wc_held := false |}.
Definition NewWebClientFromConn (conn : net_conn) (cfg : WebConfig) (now : Z) : go WebClient :=
  s ← updateConn (stream_client (nc_remote conn) (wb_Block cfg) (wb_RdQus cfg) now) (Some conn) now;
  Ret {| wc_impl := s; wc_done := 0; wc_held := false |}.
Definition web_dial (addr : string) (cfg : WebConfig) : dial :=
  match wb_Cert cfg with
  | Some c => DialWss ("wss://" +:+ addr) (wb_Insecure c) (web_GetCertPool (wb_RootCa c))
  | None => DialWs ("ws://" +:+ addr)
  end.

Definition web_with (w : WebClient) (s : SocketClientImpl) : WebClient := {| wc_impl := s; wc_done := wc_done w; wc_held := wc_held w |}.

(** [Close]: a third word about a closed connection finds no place. *)
Definition web_Close (w : WebClient) (now : Z) : go (WebClient * list event) :=
  let s := wc_impl w in
  if IsOk s then
    let s := if status s =? ClTerminal then s else set_status s ClClosed in
    s ← updateConn s None now;
    if wc_done w <? 2 then
      Ret ({| wc_impl := SetPrivate s None; wc_done := wc_done w + 1; wc_held := false |}, [OnClose])
    else Ret ({| wc_impl := s; wc_done := wc_done w; wc_held := true |}, [])
  else Ret (w, []).
Definition web_Connect (w : WebClient) (d : result net_conn) (now : Z) : go WebClient :=
  r ← Connect (wc_impl w) d now; Ret (web_with w r.1.1).
Definition web_SetStatus (w : WebClient) (v : Z) : WebClient * list event :=
  let '(s, es) := SetStatus (wc_impl w) v in (web_with w s, es).
Definition web_Terminal (w : WebClient) (now : Z) : go (WebClient * list event) :=
  let '(w, es) := web_SetStatus w ClTerminal in r ← web_Close w now; Ret (r.1, es ++ r.2).

(** A call, and whether it returns: every one of them takes the lock. *)
Definition web_step (w : WebClient) (o : client_op P) (now : Z) : go (WebClient * bool) :=
  if wc_held w then Ret (w, false)
  else
    w ← match o with
        | OConnect d => web_Connect w d now
        | OClose => r ← web_Close w now; Ret r.1
        | OTerminal => r ← web_Terminal w now; Ret r.1
        | OPrivate v => Ret (web_with w (SetPrivate (wc_impl w) v))
        end;
    Ret (w, negb (wc_held w)).
Fixpoint web_run (w : WebClient) (os : list (client_op P)) (now : Z) : go (WebClient * list bool) :=
  match os with
  | [] => Ret (w, [])
  | o :: os =>
      r ← web_step w o now;
      r2 ← web_run r.1 os now;
      Ret (r2.1, r.2 :: r2.2)
  end.

(** ** The client of a point (pkg/olap/worker.go) *)

Inductive PointClient :=
| Plain (c : SocketClientImpl) (d : dial)
| Webbed (c : WebClient) (d : dial).

(** [kcp] is the one configuration all KCP sockets share, which is changed here; a point
    without queues panics. *)
Definition GetSocketClient (p : Config.Point) (kcp : KcpConfig) (now : Z) : go (PointClient * KcpConfig) :=
  let addr := pt_Connection p in
  let block := GetBlock (pt_Crypt p) in
  match pt_Queue p with
  | None => Panic
  | Some q =>
      let tcp d := Ret (Plain (stream_client addr block (SockRd q) now) d, kcp) in
      let web cert :=
        let cfg := {| wb_Cert := cert; wb_Block := block; wb_RdQus := SockRd q; wb_WrQus := SockWr q |} in
        Ret (Webbed (NewWebClient addr cfg now) (web_dial addr cfg), kcp) in
      if String.eqb (pt_Protocol p) "kcp" then
        let c := {| kc_Block := block; kc_WinSize := kc_WinSize kcp; kc_DataShards := kc_DataShards kcp;
                    kc_ParityShards := kc_ParityShards kcp; kc_Timeout := kc_Timeout kcp; kc_RdQus := SockRd q; kc_WrQus := SockWr q |} in
        Ret (Plain (NewKcpClient addr (Some c) now) (kcp_dial addr c), c)
      else if String.eqb (pt_Protocol p) "tcp" then tcp (DialTcp addr)
      else if String.eqb (pt_Protocol p) "udp" then
        Ret (Plain (NewUdpClient addr (option_map cipher block) (SockRd q) now) (DialUdp addr), kcp)
      else if String.eqb (pt_Protocol p) "ws" then web None
      else if String.eqb (pt_Protocol p) "wss" then
        web (option_map (fun c => {| wb_Key := ""; wb_Crt := ""; wb_RootCa := CaFile c; wb_Insecure := Insecure c |}) (pt_Cert p))
      else tcp (match pt_Cert p with Some c => DialTls addr (Insecure c) (cert_GetCertPool c) | None => DialTcp addr end)
  end.
End clients.
Arguments WebClient : clear implicits.

(** ** Listening *)

Inductive listen :=
| ListenTcp (addr : string)
| ListenTls (addr : string) (crt key : string)
| ListenUdp (addr : string) (clients bufSize : Z)
| ListenKcp (addr : string) (block : option Config.BlockCrypt) (dataShards parityShards : Z)
| ListenWs (addr : string)
| ListenWss (addr : string) (crt key : string).

(** [Listen] of each server; a UDP server that is not told how many clients has 1024. *)
Definition server_listen (s : server) : listen :=
  let addr := ss_address (sv_impl s) in
  match sv_transport s with
  | Node.Tcp None => ListenTcp addr
  | Node.Tcp (Some (crt, key)) => ListenTls addr crt key
  | Node.Udp => ListenUdp addr 1024 (sv_RdQus s * 2)
  | Node.Kcp => ListenKcp addr (sv_Block s) (kc_DataShards defaultKcpConfig) (kc_ParityShards defaultKcpConfig)
  | Node.Web None => ListenWs addr
  | Node.Web (Some (crt, key)) => ListenWss addr crt key
  end.

(** ** The accept loop (TcpServer, UdpServer, KcpServer) *)

(** The loop looks at the listener twice: whether it is there, and to call it. *)
Inductive accept_pc := Trying (p : Promise) | Looking | Calling | Waiting | Ended | Crashed.
Record acceptor := { ac_impl : SocketServerImpl; ac_listener : bool; ac_pc : accept_pc }.
Definition new_acceptor (t : SocketServerImpl) : acceptor :=
  {| ac_impl := t; ac_listener := false; ac_pc := Trying (NewPromise 2 5 30) |}.

Definition retried (p : Promise) : Promise :=
  {| Count := Count p + 1; MaxTry := MaxTry p; First := if First p <? MaxInt p then First p + MinInt p else First p;
     MinInt := MinInt p; MaxInt := MaxInt p |}.
Inductive accept_step : acceptor -> acceptor -> Prop :=
| AC_listen_fails t l p :
    accept_step {| ac_impl := t; ac_listener := l; ac_pc := Trying p |} {| ac_impl := t; ac_listener := false; ac_pc := Trying (retried p) |}
| AC_listens t l p :
    accept_step {| ac_impl := t; ac_listener := l; ac_pc := Trying p |} {| ac_impl := t; ac_listener := true; ac_pc := Looking |}
| AC_look t :
    accept_step {| ac_impl := t; ac_listener := true; ac_pc := Looking |} {| ac_impl := t; ac_listener := true; ac_pc := Calling |}
| AC_gone t :
    accept_step {| ac_impl := t; ac_listener := false; ac_pc := Looking |} {| ac_impl := t; ac_listener := false; ac_pc := Ended |}
| AC_call t :
    accept_step {| ac_impl := t; ac_listener := true; ac_pc := Calling |} {| ac_impl := t; ac_listener := true; ac_pc := Waiting |}
| AC_nil t :
    accept_step {| ac_impl := t; ac_listener := false; ac_pc := Calling |} {| ac_impl := t; ac_listener := false; ac_pc := Crashed |}
| AC_conn t l c addr :
    remote t !! c = None -> addr <> ""%string -> (forall c', RemoteAddr t c' <> addr) ->
    accept_step {| ac_impl := t; ac_listener := l; ac_pc := Waiting |} {| ac_impl := accept t c addr; ac_listener := l; ac_pc := Looking |}
| AC_error t l e :
    accept_step {| ac_impl := t; ac_listener := l; ac_pc := Waiting |}
      {| ac_impl := (preAccept t (Some e)).1; ac_listener := l; ac_pc := Looking |}
| AC_close t l pc :
    accept_step {| ac_impl := t; ac_listener := l; ac_pc := pc |} {| ac_impl := t; ac_listener := false; ac_pc := pc |}
| AC_server t t' l pc :
    server_step t t' -> accept_step {| ac_impl := t; ac_listener := l; ac_pc := pc |} {| ac_impl := t'; ac_listener := l; ac_pc := pc |}.

(** *** WebServer *)

(** The handler of a connection: refused, or handed over, after which it waits until the
    client is closed; [None] when it is refused. *)
Definition web_handler (t : SocketServerImpl) (c : nat) (addr : string) : SocketServerImpl * bool :=
  match preAccept t None with
  | (t', Some _) => (t', false)
  | (_, None) => (accept t c addr, true)
  end.
(** [Accept]: serving never ends without an error, after which it is tried again; [closed]
    says of each time whether the server was closed meanwhile.  [None]: it still runs. *)
Fixpoint web_Accept (listener : bool) (closed : list bool) : go (option unit) :=
  match closed with
  | [] => Ret None
  | c :: closed => if listener then web_Accept (listener && negb c) closed else Panic
  end.

(** * Properties *)

(** ** Web clients *)

Section web.
Context {P : Type}.
Implicit Types (w : WebClient P) (s : SocketClientImpl P).

Definition closes (o : client_op P) : bool := match o with OClose | OTerminal => true | _ => false end.
(** How often calls close an open connection. *)
Fixpoint closings s (os : list (client_op P)) (now : Z) : go Z :=
  match os with
  | [] => Ret 0
  | o :: os => s' ← client_step s o now; n ← closings s' os now; Ret ((if IsOk s && closes o then 1 else 0) + n)
  end.

Lemma closings_nonneg os : forall s now n, closings s os now = Ret n -> 0 <= n.
Proof.
  induction os as [|o os IH]; intros s now n H; [injection H as <-; lia|]. simpl in H.
  apply go_bind_ret in H as (s' & _ & H). apply go_bind_ret in H as (k & Hk & [= <-]). apply IH in Hk. case_match; lia.
Qed.

(** A call of a client is that call of the socket, until a third word is to be sent. *)
Lemma web_Close_spec w now s' es : wc_held w = false -> 0 <= wc_done w <= 2 -> Close (wc_impl w) now = Ret (s', es) ->
  exists w', web_Close w now = Ret (w', if IsOk (wc_impl w) && (wc_done w =? 2) then [] else es) /\
    wc_held w' = IsOk (wc_impl w) && (wc_done w =? 2) /\
    (wc_held w' = false -> wc_impl w' = s' /\ wc_done w' = wc_done w + if IsOk (wc_impl w) then 1 else 0).
Proof.
  intros Hh Hd. unfold Close, web_Close. destruct (IsOk (wc_impl w)) eqn:Ho; cbn [andb].
  - destruct (updateConn (if status (wc_impl w) =? ClTerminal then wc_impl w else set_status (wc_impl w) ClClosed) None now)
      as [s|]; cbn [mbind go_bind]; [|by intros]. intros [= <- <-].
    destruct (Z.ltb_spec (wc_done w) 2).
    + rewrite (proj2 (Z.eqb_neq _ 2)) by lia. eexists. by split.
    + rewrite (proj2 (Z.eqb_eq _ 2)) by lia. eexists. by split.
  - intros [= <- <-]. exists w. rewrite Hh, Z.add_0_r. by split.
Qed.

Lemma web_step_spec w o now s' : wc_held w = false -> 0 <= wc_done w <= 2 -> client_step (wc_impl w) o now = Ret s' ->
  let last := IsOk (wc_impl w) && closes o && (wc_done w =? 2) in
  exists w', web_step w o now = Ret (w', negb last) /\ wc_held w' = last /\
    (last = false -> wc_impl w' = s' /\ wc_done w' = wc_done w + if IsOk (wc_impl w) && closes o then 1 else 0).
Proof.
  intros Hh Hd Hs. unfold web_step. rewrite Hh. destruct o as [d| | |v]; simpl in *.
  - unfold web_Connect. apply go_bind_ret in Hs as ([[s1 es] e] & -> & [= <-]). cbn [mbind go_bind fst snd web_with wc_held].
    rewrite Hh, andb_false_r, Z.add_0_r. by eexists.
  - apply go_bind_ret in Hs as ([s1 es] & Hc & [= <-]). destruct (web_Close_spec w now _ _ Hh Hd Hc) as (w' & -> & Hw & Hr).
    cbn [mbind go_bind fst snd]. exists w'. rewrite Hw, !andb_true_r. split; [done|]. split; [done|]. intros Hl. apply Hr. by rewrite Hw.
  - apply go_bind_ret in Hs as ([s1 es] & Ht & [= <-]). unfold Terminal in Ht. unfold web_Terminal, web_SetStatus.
    destruct (SetStatus (wc_impl w) ClTerminal) as [s0 es0] eqn:E0. apply go_bind_ret in Ht as ([s2 es2] & Hc & [= <- <-]).
    assert (Ho : IsOk s0 = IsOk (wc_impl w)).
    { unfold SetStatus in E0. destruct (status (wc_impl w) =? ClTerminal); by injection E0 as <- _. }
    destruct (web_Close_spec (web_with w s0) now _ _ Hh Hd Hc) as (w' & -> & Hw & Hr). cbn [web_with wc_impl wc_done] in Hw, Hr.
    rewrite Ho in Hw, Hr. cbn [mbind go_bind fst snd]. exists w'. rewrite Hw, !andb_true_r. split; [done|]. split; [done|].
    intros Hl. apply Hr. by rewrite Hw.
  - injection Hs as <-. cbn [mbind go_bind web_with wc_held]. rewrite Hh, andb_false_r, Z.add_0_r. by eexists.
Qed.

Lemma web_held os : forall w now, wc_held w = true -> web_run w os now = Ret (w, map (fun _ => false) os).
Proof. induction os as [|o os IH]; intros w now H; [done|]. simpl. unfold web_step. rewrite H. cbn [mbind go_bind fst snd]. by rewrite IH. Qed.

(** Calls one after the other on a web client do what they do on any socket as long as
    they close at most two connections, together with what is in the channel already; the
    call that closes a third never returns and keeps the lock, so that no call after it
    returns either. *)
Theorem web_client_hangs os : forall w now n,
  wc_held w = false -> 0 <= wc_done w <= 2 -> closings (wc_impl w) os now = Ret n ->
  exists w' rs, web_run w os now = Ret (w', rs) /\ (wc_held w' = true <-> 2 < wc_done w + n) /\
    (wc_done w + n <= 2 -> client_run (wc_impl w) os now = Ret (wc_impl w') /\ Forall (eq true) rs) /\
    (2 < wc_done w + n -> last rs = Some false).
Proof.
  induction os as [|o os IH]; intros w now n Hh Hd Hn; simpl in Hn.
  { injection Hn as <-. exists w, []. rewrite Hh. split; [done|]. split; [split; [done|lia]|]. split; [by repeat split|lia]. }
  apply go_bind_ret in Hn as (s' & Hs & Hn). apply go_bind_ret in Hn as (k & Hk & [= <-]).
  destruct (web_step_spec w o now s' Hh Hd Hs) as (w1 & Hw & Hl & Hr). pose proof (closings_nonneg _ _ _ _ Hk) as Hk0.
  simpl. rewrite Hw, Hs. cbn [mbind go_bind fst snd]. destruct (IsOk (wc_impl w) && closes o && (wc_done w =? 2)) eqn:E.
  - apply andb_prop in E as [E1 E2]. apply Z.eqb_eq in E2. rewrite E1, E2. rewrite web_held by done.
    cbn [mbind go_bind fst snd negb]. eexists _, _. split; [done|]. rewrite Hl. split; [split; [lia|done]|]. split; [lia|]. intros _.
    clear. induction os as [|o' os IH]; [done|]. simpl. destruct os; [done|]. simpl in *. done.
  - destruct (Hr eq_refl) as [Hi Hdone]. rewrite <- Hi in Hk.
    assert (Hle : 0 <= wc_done w1 <= 2).
    { rewrite Hdone. destruct (IsOk (wc_impl w) && closes o); [|lia]. simpl in E. apply Z.eqb_neq in E. lia. }
    destruct (IH w1 now k Hl Hle Hk) as (w' & rs & -> & H1 & H2 & H3). cbn [mbind go_bind fst snd negb].
    replace (wc_done w + ((if IsOk (wc_impl w) && closes o then 1 else 0) + k)) with (wc_done w1 + k) by lia.
    eexists _, _. split; [done|]. split; [done|]. rewrite <- Hi. split.
    + intros Hx. destruct (H2 Hx) as [Hc Hf]. split; [done|]. by constructor.
    + intros Hx. specialize (H3 Hx). simpl. by destruct rs.
Qed.
End web.

(** A client that a server made from a connection is closed once and not dialled: its
    calls all return. *)
Lemma accepted_web_client_returns {P} (os : list (client_op P)) : forall (s : SocketClientImpl P) now n,
  Forall (fun o => match o with OConnect _ => False | _ => True end) os -> closings s os now = Ret n ->
  n <= if IsOk s then 1 else 0.
Proof.
  induction os as [|o os IH]; intros s now n Hf Hn; simpl in Hn; [injection Hn as <-; by destruct (IsOk s)|].
  apply Forall_cons in Hf as [Ho Hf]. apply go_bind_ret in Hn as (s' & Hs & Hn). apply go_bind_ret in Hn as (k & Hk & [= <-]).
  apply IH in Hk; [|done].
  assert (Hc : forall (s0 s1 : SocketClientImpl P) es, Close s0 now = Ret (s1, es) -> IsOk s1 = false).
  { intros s0 s1 es H. unfold Close in H. destruct (IsOk s0) eqn:E; [|by injection H as <- _].
    apply go_bind_ret in H as (s2 & Hu & [= <- <-]). unfold updateConn in Hu. destruct (message _); [|done].
    by injection Hu as <-. }
  destruct o as [d| | |v]; [done|..]; simpl in *.
  - apply go_bind_ret in Hs as ([s1 es] & H1 & [= <-]). rewrite (Hc _ _ _ H1) in Hk. rewrite andb_true_r. simpl in Hk. destruct (IsOk s); lia.
  - apply go_bind_ret in Hs as ([s1 es] & H1 & [= <-]). unfold Terminal in H1. destruct (SetStatus s ClTerminal) as [s0 es0].
    apply go_bind_ret in H1 as ([s2 es2] & H2 & [= <- _]). rewrite (Hc _ _ _ H2) in Hk. rewrite andb_true_r. simpl in Hk.
    destruct (IsOk s); lia.
  - injection Hs as <-. rewrite andb_false_r. change (IsOk (SetPrivate s v)) with (IsOk s) in Hk. lia.
Qed.

(** ** What is dialled and listened on *)

(** Over KCP a switch listens with three parity shards and a point dials with as many as
    there are data shards. *)
Lemma kcp_parity_differs addr block rd wr :
  kcp_dial addr {| kc_Block := block; kc_WinSize := kc_WinSize defaultKcpConfig; kc_DataShards := kc_DataShards defaultKcpConfig;
                   kc_ParityShards := kc_ParityShards defaultKcpConfig; kc_Timeout := kc_Timeout defaultKcpConfig;
                   kc_RdQus := rd; kc_WrQus := wr |} = DialKcp addr block 10 10 /\
  forall s, sv_transport s = Node.Kcp -> server_listen s = ListenKcp (ss_address (sv_impl s)) (sv_Block s) 10 3.
Proof. split; [done|]. intros s H. unfold server_listen. by rewrite H. Qed.

(** Protocols that ask for TLS are spoken in the clear when there is no certificate, on
    both sides. *)
Lemma wss_without_cert_in_clear {P} cipher files unreadable loads (p : Config.Point) q kcp now (s : Config.Switch) :
  pt_Queue p = Some q -> pt_Protocol p = "wss"%string -> pt_Cert p = None -> sw_Protocol s = "wss"%string -> sw_Cert s = None ->
  (exists c, GetSocketClient (P := P) cipher files unreadable p kcp now =
               Ret (Webbed c (DialWs ("ws://" +:+ pt_Connection p)), kcp)) /\
  server_listen (GetSocketServer loads s) = ListenWs (sw_Listen s).
Proof.
  intros Hq Hp Hc Hs Hsc. split.
  - unfold GetSocketClient. rewrite Hq, Hp, Hc. simpl. by eexists.
  - unfold GetSocketServer. by rewrite Hs, Hsc.
Qed.
Lemma tls_without_cert_in_clear {P} cipher files unreadable loads (p : Config.Point) q kcp now (s : Config.Switch) :
  pt_Queue p = Some q -> pt_Protocol p = "tls"%string -> pt_Cert p = None -> sw_Protocol s = "tls"%string -> sw_Cert s = None ->
  (exists c, GetSocketClient (P := P) cipher files unreadable p kcp now = Ret (Plain c (DialTcp (pt_Connection p)), kcp)) /\
  server_listen (GetSocketServer loads s) = ListenTcp (sw_Listen s).
Proof.
  intros Hq Hp Hc Hs Hsc. split.
  - unfold GetSocketClient. rewrite Hq, Hp, Hc. simpl. by eexists.
  - unfold GetSocketServer. by rewrite Hs, Hsc.
Qed.

(** ** Accepting *)

(** The loop changes its server only by the steps a server has. *)
Lemma accept_step_server a a' : accept_step a a' -> ac_impl a' = ac_impl a \/ server_step (ac_impl a) (ac_impl a').
Proof. destruct 1; simpl; try (by left); right; [by constructor|by constructor|done]. Qed.
(** With the loop running, whatever closes the listener when, the counts stay exact. *)
Lemma accepting_keeps_counts addr a :
  rtc accept_step (new_acceptor (NewSocketServer addr)) a -> server_inv (ac_impl a).
Proof.
  intros H. apply (rtc_ind_r (R := accept_step) (fun a => server_inv (ac_impl a)) (new_acceptor (NewSocketServer addr))); [|clear a H|exact H].
  - apply server_inv_new.
  - intros a a' _ Hs Hi. destruct (accept_step_server a a' Hs) as [->|Hst]; [done|]. by eapply server_step_inv.
Qed.
(** A closed listener ends the loop, unless it is closed between the two looks at it. *)
Lemma closed_loop_ends a a' : ac_listener a = false -> accept_step a a' ->
  (ac_pc a = Looking -> ac_pc a' = Looking \/ ac_pc a' = Ended) /\ (ac_pc a = Calling -> ac_pc a' = Calling \/ ac_pc a' = Crashed).
Proof. intros Hl H. destruct H; simpl in *; split; intros E; try done; try (by left); by right. Qed.
Lemma close_between_looks t : exists a, rtc accept_step (new_acceptor t) a /\ ac_pc a = Crashed.
Proof.
  exists {| ac_impl := t; ac_listener := false; ac_pc := Crashed |}. split; [|done].
  eapply rtc_l; [apply AC_listens|]. eapply rtc_l; [apply AC_look|].
  eapply rtc_l; [apply AC_close|]. eapply rtc_l; [apply AC_nil|]. reflexivity.
Qed.

(** A web server that is closed panics: the next attempt to serve is on no server. *)
Lemma closed_web_server_panics n rest : web_Accept true (replicate n false ++ true :: false :: rest) = Panic.
Proof. induction n as [|n IH]; [done|exact IH]. Qed.

(** ** Examples *)

Definition demo_web : WebClient nat := NewWebClient (fun _ => {| Encrypt := id; Decrypt := id |}) "host:443"
  {| wb_Cert := None; wb_Block := None; wb_RdQus := 8; wb_WrQus := 8 |} 100.
Definition demo_rounds : list (client_op nat) :=
  [OConnect (inl demo_conn); OClose; OConnect (inl demo_conn); OClose; OConnect (inl demo_conn); OClose; OPrivate None].
Lemma web_client_hangs_witness :
  exists w rs, web_run demo_web demo_rounds 200 = Ret (w, rs) /\ wc_held w = true /\ last rs = Some false.
Proof.
  destruct (web_client_hangs demo_rounds demo_web 200 3) as (w & rs & H & [_ Hh] & _ & Hl); [reflexivity|simpl; lia|reflexivity|].
  exists w, rs. split; [exact H|]. split; [apply Hh; simpl; lia|apply Hl; simpl; lia].
Defined.
