(* ===== verification/LinuxBridge.v ===== *)
(** * The Linux bridge (pkg/network/bridge_linux.go, brctl_linux.go)

    A bridge of the kernel, driven over netlink and the files of sysfs.  The kernel is an
    interface, [LinkKernel]: what it is asked and what it answers, with the laws the bridge
    relies on; [linux] is a kernel of that kind. *)

From S2P Require Import Prelude GoStd Utils Protocol Tap.

Local Open Scope Z_scope.

(** ** The kernel *)

(** Each request gives the kernel after it and whether it succeeded. *)
Class LinkKernel (K : Type) := {
  LinkByName : K -> string -> bool;
  LinkAdd : K -> string -> Z -> K * bool;
  LinkSetUp : K -> string -> K * bool;
  LinkSetMTU : K -> string -> Z -> K * bool;
  LinkSetMaster : K -> string -> string -> K * bool;
  LinkSetNoMaster : K -> string -> K * bool;
  AddrAdd : K -> string -> string -> K * bool;
  AddrDel : K -> string -> string -> K * bool;
  sys_write : K -> string -> string -> K * bool;
  master_of : K -> string -> option string;
  mtu_of : K -> string -> Z
}.

(** What the kernel sees to: a refused request changes nothing, no request removes a
    device, and only the two about masters change the master of a device. *)
Class LinkLaws (K : Type) `{LinkKernel K} : Prop := {
  law_add : forall k n m k', LinkAdd k n m = (k', true) -> LinkByName k' n = true;
  law_kept_add : forall k n m x, LinkByName k x = true -> LinkByName (LinkAdd k n m).1 x = true;
  law_kept_up : forall k n x, LinkByName k x = true -> LinkByName (LinkSetUp k n).1 x = true;
  law_kept_addr : forall k n a x, LinkByName k x = true -> LinkByName (AddrAdd k n a).1 x = true;
  law_up_master : forall k n x, master_of (LinkSetUp k n).1 x = master_of k x;
  law_mtu_master : forall k n m x, master_of (LinkSetMTU k n m).1 x = master_of k x;
  law_mtu : forall k n m k', LinkSetMTU k n m = (k', true) -> mtu_of k' n = m;
  law_master : forall k n b k', LinkSetMaster k n b = (k', true) -> forall x, master_of k' x = if String.eqb x n then Some b else master_of k x;
  law_master_refused : forall k n b k', LinkSetMaster k n b = (k', false) -> forall x, master_of k' x = master_of k x;
  law_master_mtu : forall k n b x, mtu_of (LinkSetMaster k n b).1 x = mtu_of k x;
  law_nomaster : forall k n k', LinkSetNoMaster k n = (k', true) -> forall x, master_of k' x = if String.eqb x n then None else master_of k x;
  law_nomaster_refused : forall k n k', LinkSetNoMaster k n = (k', false) -> forall x, master_of k' x = master_of k x
}.

Section bridge.
Context {K : Type} `{LinkKernel K}.

(** ** BrCtl, BrPort *)

Record BrCtl := { bc_Name : string; bc_Path : string; bc_Mtu : Z }.
Definition NewBrCtl (name : string) (mtu : Z) : BrCtl :=
  {| bc_Name := name; bc_Path := ""; bc_Mtu := if mtu =? 0 then 1500 else mtu |}.
Definition ctl_Has (b : BrCtl) (k : K) : bool := LinkByName k (bc_Name b).
(** The path is made up the first time it is asked for. *)
Definition ctl_SysPath (b : BrCtl) (fun_ : string) : BrCtl * string :=
  let path := if String.eqb (bc_Path b) "" then "/sys/devices/virtual/net/" +:+ bc_Name b +:+ "/bridge" else bc_Path b in
  ({| bc_Name := bc_Name b; bc_Path := path; bc_Mtu := bc_Mtu b |}, path +:+ "/" +:+ fun_).
Definition ctl_write (b : BrCtl) (file value : string) (k : K) : BrCtl * (K * bool) :=
  let '(b, path) := ctl_SysPath b file in (b, sys_write k path value).
Definition ctl_Stp (b : BrCtl) (on : bool) (k : K) : BrCtl * (K * bool) := ctl_write b "stp_state" (if on then "1" else "0") k.
Definition ctl_Delay (b : BrCtl) (delay : Z) (k : K) : BrCtl * (K * bool) :=
  ctl_write b "forward_delay" (FormatInt (wrap64s (delay * 100))) k.
Definition ctl_CallIptables (b : BrCtl) (value : Z) (k : K) : BrCtl * (K * bool) :=
  ctl_write b "nf_call_iptables" (FormatInt value) k.

(** A request after another that succeeded. *)
Definition and_then (r : K * bool) (f : K -> K * bool) : K * bool := if r.2 then f r.1 else r.
Definition AddPort (b : BrCtl) (port : string) (k : K) : K * bool :=
  if LinkByName k port then
    and_then (LinkSetUp k port) (fun k =>
    and_then (LinkSetMTU k port (bc_Mtu b)) (fun k =>
    LinkSetMaster k port (bc_Name b)))
  else (k, false).
Definition DelPort (b : BrCtl) (port : string) (k : K) : K * bool :=
  if LinkByName k port then LinkSetNoMaster k port else (k, false).

Definition port_SysPath (name fun_ : string) : string := "/sys/devices/virtual/net/" +:+ name +:+ "/brport//" +:+ fun_.
Definition port_Cost (name : string) (cost : Z) (k : K) : K * bool := sys_write k (port_SysPath name "path_cost") (FormatInt cost).

(** ** LinuxBridge *)

(** The device is known by its name. *)
Record LinuxBridge := { lb_address : option string; lb_ipMtu : Z; lb_name : string; lb_device : bool; lb_ctl : BrCtl }.
Definition NewLinuxBridge (name : string) (mtu : Z) : LinuxBridge :=
  {| lb_address := None; lb_ipMtu := if mtu =? 0 then 1500 else mtu; lb_name := name; lb_device := false;
     lb_ctl := NewBrCtl name (if mtu =? 0 then 1500 else mtu) |}.
Definition lb_set (b : LinuxBridge) (a : option string) (d : bool) : LinuxBridge :=
  {| lb_address := a; lb_ipMtu := lb_ipMtu b; lb_name := lb_name b; lb_device := d; lb_ctl := lb_ctl b |}.
Definition lb_with_ctl (b : LinuxBridge) (c : BrCtl) : LinuxBridge :=
  {| lb_address := lb_address b; lb_ipMtu := lb_ipMtu b; lb_name := lb_name b; lb_device := lb_device b; lb_ctl := c |}.

(** [netlink.ParseAddr] of an address with its length; a label may follow. *)
Definition parses (addr : string) : bool :=
  match SplitN addr (Ascii.ascii_of_N 32) 2 with
  | a :: _ => bool_decide (is_Some (ParseCIDR a))
  | [] => false
  end.
(** [Open]: a bridge that is not there is made.  An address that does not parse is logged
    and then used all the same, which panics. *)
Definition Open (b : LinuxBridge) (addr : string) (k : K) : go (LinuxBridge * K) :=
  let '(k, found) :=
    if LinkByName k (lb_name b) then (k, true)
    else let '(k, ok) := LinkAdd k (lb_name b) (lb_ipMtu b) in (k, ok && LinkByName k (lb_name b)) in
  if found then
    let k := (LinkSetUp k (lb_name b)).1 in
    if String.eqb addr "" then Ret (lb_set b (lb_address b) true, k)
    else if parses addr then Ret (lb_set b (Some addr) true, (AddrAdd k (lb_name b) addr).1)
    else Panic
  else Ret (b, k).
(** [Close] takes the address back, and leaves the device. *)
Definition Close (b : LinuxBridge) (k : K) : K * bool :=
  match lb_address b with
  | Some a => if lb_device b then AddrDel k (lb_name b) a else (k, true)
  | None => (k, true)
  end.
Definition AddSlave (b : LinuxBridge) (name : string) (k : K) : K * bool := AddPort (lb_ctl b) name k.
Definition DelSlave (b : LinuxBridge) (name : string) (k : K) : K * bool := DelPort (lb_ctl b) name k.
Definition Stp (b : LinuxBridge) (on : bool) (k : K) : LinuxBridge * (K * bool) :=
  let '(c, r) := ctl_Stp (lb_ctl b) on k in (lb_with_ctl b c, r).
Definition Delay (b : LinuxBridge) (value : Z) (k : K) : LinuxBridge * (K * bool) :=
  let '(c, r) := ctl_Delay (lb_ctl b) value k in (lb_with_ctl b c, r).
Definition CallIptables (b : LinuxBridge) (value : Z) (k : K) : LinuxBridge * (K * bool) :=
  let '(c, r) := ctl_CallIptables (lb_ctl b) value k in (lb_with_ctl b c, r).
Definition Kernel (b : LinuxBridge) : string := lb_name b.
Definition Type_ (b : LinuxBridge) : string := "linux".
Definition Name_ (b : LinuxBridge) : string := lb_name b.
Definition Mtu (b : LinuxBridge) : Z := lb_ipMtu b.

(** ** Ports *)

(** Ports given and taken, one call after the other. *)
Inductive port_op := Add (port : string) | Del (port : string).
Definition port_step (b : LinuxBridge) (o : port_op) (k : K) : K * bool :=
  match o with Add p => AddSlave b p k | Del p => DelSlave b p k end.
Fixpoint port_run (b : LinuxBridge) (os : list port_op) (k : K) : K * list bool :=
  match os with
  | [] => (k, [])
  | o :: os => let '(k, r) := port_step b o k in let '(k, rs) := port_run b os k in (k, r :: rs)
  end.

(** The ports after the calls that succeeded: those whose last one was [Add]. *)
Definition ports_after (name : string) (o : port_op) (done : bool) (f : string -> option string) : string -> option string := fun x =>
  match o with
  | Add p => if done && String.eqb x p then Some name else f x
  | Del p => if done && String.eqb x p then None else f x
  end.
Fixpoint ports_spec (name : string) (os : list port_op) (rs : list bool) (f : string -> option string) : string -> option string :=
  match os, rs with
  | o :: os, r :: rs => ports_spec name os rs (ports_after name o r f)
  | _, _ => f
  end.

Context `{!LinkLaws K}.

Lemma AddPort_spec b port k k' ok : AddPort b port k = (k', ok) ->
  (forall x, master_of k' x = if ok && String.eqb x port then Some (bc_Name b) else master_of k x) /\
  (ok = true -> mtu_of k' port = bc_Mtu b).
Proof.
  unfold AddPort. destruct (LinkByName k port); [|by intros [= <- <-]].
  unfold and_then. destruct (LinkSetUp k port) as [k1 r1] eqn:E1. pose proof (fun x => law_up_master k port x) as H1. rewrite E1 in H1.
  simpl in H1 |- *. destruct r1; [|by intros [= <- <-]].
  destruct (LinkSetMTU k1 port (bc_Mtu b)) as [k2 r2] eqn:E2. pose proof (fun x => law_mtu_master k1 port (bc_Mtu b) x) as H2. rewrite E2 in H2.
  simpl in H2 |- *. destruct r2; [|intros [= <- <-]; split; [intros x; by rewrite H2|done]].
  intros E3. pose proof (law_master_mtu k2 port (bc_Name b) port) as H3. rewrite E3 in H3. simpl in H3. split.
  - intros x. destruct ok; [rewrite (law_master _ _ _ _ E3)|rewrite (law_master_refused _ _ _ _ E3)]; simpl; by rewrite H2, H1.
  - intros _. rewrite H3. by eapply law_mtu.
Qed.
Lemma DelPort_spec b port k k' ok : DelPort b port k = (k', ok) ->
  forall x, master_of k' x = if ok && String.eqb x port then None else master_of k x.
Proof.
  unfold DelPort. destruct (LinkByName k port); [|by intros [= <- <-]]. intros E x.
  destruct ok; [by rewrite (law_nomaster _ _ _ E)|by rewrite (law_nomaster_refused _ _ _ E)].
Qed.

(** However ports are given and taken, and whatever the kernel refuses, a device is a port
    of the bridge exactly when the last call for it that succeeded gave it; devices the
    calls do not name keep their masters. *)
Theorem bridge_ports_exact b os : bc_Name (lb_ctl b) = lb_name b -> forall k k' rs,
  port_run b os k = (k', rs) -> forall x, master_of k' x = ports_spec (lb_name b) os rs (master_of k) x.
Proof.
  intros Hb. assert (Hext : forall os rs f g, (forall x, f x = g x) -> forall x, ports_spec (lb_name b) os rs f x = ports_spec (lb_name b) os rs g x).
  { induction os0 as [|o os0 IH]; intros [|r rs] f g Hfg x; simpl; try by apply Hfg. apply IH. intros y. unfold ports_after.
    by destruct o; rewrite Hfg. }
  induction os as [|o os IH]; intros k k' rs H1 x; simpl in H1; [by injection H1 as <- <-|].
  destruct (port_step b o k) as [k1 r] eqn:E. destruct (port_run b os k1) as [k2 rs'] eqn:E2. injection H1 as <- <-.
  rewrite (IH _ _ _ E2). simpl. apply Hext. intros y. destruct o as [p|p]; simpl in *.
  - apply AddPort_spec in E as [E _]. by rewrite E, Hb.
  - by rewrite (DelPort_spec _ _ _ _ _ E).
Qed.

(** Opening finds or makes the device: it is there afterwards unless it cannot be made. *)
Lemma Open_there b addr k b' k' : Open b addr k = Ret (b', k') -> lb_device b' = true -> lb_device b = false ->
  LinkByName k' (lb_name b) = true.
Proof.
  unfold Open. intros H1 Hd Hd0.
  assert (G : forall k0, LinkByName k0 (lb_name b) = true ->
    (let k1 := (LinkSetUp k0 (lb_name b)).1 in
     if String.eqb addr "" then Ret (lb_set b (lb_address b) true, k1)
     else if parses addr then Ret (lb_set b (Some addr) true, (AddrAdd k1 (lb_name b) addr).1) else Panic) = Ret (b', k') ->
    LinkByName k' (lb_name b) = true).
  { intros k0 Hk0. cbv zeta. destruct (String.eqb addr ""); [intros [= _ <-]; by apply law_kept_up|].
    destruct (parses addr); [|done]. intros [= _ <-]. by apply law_kept_addr, law_kept_up. }
  destruct (LinkByName k (lb_name b)) eqn:Ek; [by eapply G|].
  destruct (LinkAdd k (lb_name b) (lb_ipMtu b)) as [k1 ok]. destruct (ok && LinkByName k1 (lb_name b)) eqn:E.
  - apply andb_prop in E as [_ E]. by eapply G.
  - injection H1 as <- <-. by rewrite Hd0 in Hd.
Qed.
(** An address that does not parse ends the program that opens the bridge. *)
Lemma bad_address_panics b addr k : LinkByName k (lb_name b) = true -> addr <> ""%string -> parses addr = false -> Open b addr k = Panic.
Proof. intros Hk Ha Hp. unfold Open. by rewrite Hk, (proj2 (String.eqb_neq _ _) Ha), Hp. Qed.
End bridge.

(** ** A kernel *)

(** Devices with their MTU and master; addresses; files. *)
Record linux := { lx_links : gmap string (Z * option string); lx_addrs : list (string * string); lx_files : gmap string string }.
Definition on_link (k : linux) (n : string) (f : Z * option string -> Z * option string) : linux * bool :=
  match lx_links k !! n with
  | Some l => ({| lx_links := <[n := f l]> (lx_links k); lx_addrs := lx_addrs k; lx_files := lx_files k |}, true)
  | None => (k, false)
  end.
Definition lx_with_addrs (k : linux) (a : list (string * string)) : linux :=
  {| lx_links := lx_links k; lx_addrs := a; lx_files := lx_files k |}.
#[export] Instance linux_kernel : LinkKernel linux := {
  LinkByName k n := bool_decide (is_Some (lx_links k !! n));
  LinkAdd k n m :=
    match lx_links k !! n with
    | Some _ => (k, false)
    | None => ({| lx_links := <[n := (m, None)]> (lx_links k); lx_addrs := lx_addrs k; lx_files := lx_files k |}, true)
    end;
  LinkSetUp k n := (k, bool_decide (is_Some (lx_links k !! n)));
  LinkSetMTU k n m := on_link k n (fun l => (m, l.2));
  LinkSetMaster k n b := if bool_decide (is_Some (lx_links k !! b)) then on_link k n (fun l => (l.1, Some b)) else (k, false);
  LinkSetNoMaster k n := on_link k n (fun l => (l.1, None));
  AddrAdd k n a := if bool_decide ((n, a) ∈ lx_addrs k) then (k, false) else (lx_with_addrs k ((n, a) :: lx_addrs k), true);
  AddrDel k n a := (lx_with_addrs k (List.filter (fun x => negb (bool_decide (x = (n, a)))) (lx_addrs k)), true);
  sys_write k p v := ({| lx_links := lx_links k; lx_addrs := lx_addrs k; lx_files := <[p := v]> (lx_files k) |}, true);
  master_of k n := l ← lx_links k !! n; l.2;
  mtu_of k n := match lx_links k !! n with Some l => l.1 | None => 0 end
}.

Lemma on_link_lookup k n f k' x : on_link k n f = (k', true) ->
  lx_links k' !! x = if String.eqb x n then f <$> lx_links k !! x else lx_links k !! x.
Proof.
  unfold on_link. destruct (lx_links k !! n) as [l|] eqn:E; [|done]. intros [= <-]. simpl.
  destruct (String.eqb_spec x n) as [->|Hn]; [by rewrite lookup_insert_eq, E|by rewrite lookup_insert_ne].
Qed.
Lemma on_link_refused k n f k' : on_link k n f = (k', false) -> k' = k.
Proof. unfold on_link. destruct (lx_links k !! n); [done|]. by intros [= <-]. Qed.
#[export] Instance linux_laws : LinkLaws linux.
Proof.
  split; simpl.
  - intros k n m k'. destruct (lx_links k !! n); [done|]. intros [= <-]. simpl. rewrite lookup_insert_eq. by apply bool_decide_eq_true.
  - intros k n m x Hx%bool_decide_eq_true. apply bool_decide_eq_true. destruct (lx_links k !! n) eqn:E; [done|]. simpl.
    rewrite lookup_insert_is_Some. destruct (decide (n = x)); [by left|by right].
  - done.
  - intros k n a x Hx. by destruct (bool_decide ((n, a) ∈ lx_addrs k)).
  - done.
  - intros k n m x. unfold on_link. destruct (lx_links k !! n) as [l|] eqn:E; [|done]. simpl.
    destruct (decide (n = x)) as [->|Hn]; [by rewrite lookup_insert_eq, E|by rewrite lookup_insert_ne].
  - intros k n m k' E. rewrite (on_link_lookup _ _ _ _ _ E), String.eqb_refl. unfold on_link in E. by destruct (lx_links k !! n).
  - intros k n b k'. case_bool_decide; [|done]. intros E x. rewrite (on_link_lookup _ _ _ _ _ E).
    destruct (String.eqb_spec x n) as [->|]; [|done]. unfold on_link in E. by destruct (lx_links k !! n).
  - intros k n b k'. case_bool_decide; [|by intros [= <-]]. by intros ->%on_link_refused.
  - intros k n b x. case_bool_decide; [|done]. unfold on_link. destruct (lx_links k !! n) as [l|] eqn:E; [|done]. simpl.
    destruct (decide (n = x)) as [->|Hn]; [by rewrite lookup_insert_eq, E|by rewrite lookup_insert_ne].
  - intros k n k' E x. rewrite (on_link_lookup _ _ _ _ _ E). destruct (String.eqb x n); [|done]. by destruct (lx_links k !! x).
  - by intros k n k' ->%on_link_refused.
Qed.

Definition demo_linux : linux :=
  {| lx_links := {[ "br0"%string := (1500, None); "tap0"%string := (1400, None); "tap1"%string := (1400, None) ]};
     lx_addrs := []; lx_files := ∅ |}.
Lemma bridge_ports_exact_witness :
  let os := [Add "tap0"; Add "tap1"; Add "gone"; Del "tap1"] in
  let r := port_run (NewLinuxBridge "br0" 0) os demo_linux in
  r.2 = [true; true; false; true] /\ master_of r.1 "tap0" = Some "br0"%string /\ master_of r.1 "tap1" = None.
Proof.
  intros os r. destruct (port_run (NewLinuxBridge "br0" 0) os demo_linux) as [k rs] eqn:E.
  pose proof (bridge_ports_exact (NewLinuxBridge "br0" 0) os eq_refl _ _ _ E) as H.
  assert (Hr : rs = [true; true; false; true]) by (change rs with (k, rs).2; rewrite <- E; vm_compute; reflexivity).
  subst r. simpl. split; [exact Hr|]. rewrite Hr in H.
  split; [exact (H "tap0"%string)|exact (H "tap1"%string)].
Defined.
