(* ===== verification/Logger.v ===== *)
(** * The log and the goroutines (pkg/libol/logger.go, go.go, wait.go)

    One log serves the whole process: a level below which nothing is printed, a file the
    messages of level INFO and above go to once it is set, and a list of the latest of
    them.  A [SubLogger] is a prefix of that log.  The messages are formatted by
    [fmt.Sprintf]; of its verbs those for text and decimal numbers are modelled.  What is
    printed is recorded without the time stamps of package log.  [Go] counts the
    goroutines and logs the panic of one. *)

From S2P Require Import Prelude GoStd Json Utils.

Local Open Scope Z_scope.
Local Arguments String.append !_ _ / : simpl nomatch.

(** ** [fmt.Sprintf] *)

Inductive arg := AStr (s : string) | AInt (n : Z).

Definition percent : Ascii.ascii := chr 37.
Definition is_char (c : Z) (a : Ascii.ascii) : bool := Ascii.eqb a (chr c).

Definition arg_text (a : arg) : string := match a with AStr s => s | AInt n => FormatInt n end.
Definition arg_typed (a : arg) : string :=
  match a with AStr s => "string=" +:+ s | AInt n => "int=" +:+ FormatInt n end%string.

(** The text of an argument under a verb: [%v] takes both kinds, [%s] text, [%d] numbers. *)
Definition verb_text (v : Ascii.ascii) (a : arg) : string :=
  let bad := ("%!" +:+ String v ("(" +:+ arg_typed a +:+ ")"))%string in
  if is_char 118 v then arg_text a
  else match a with
       | AStr s => if is_char 115 v then s else bad
       | AInt n => if is_char 100 v then FormatInt n else bad
       end.

Fixpoint join_extra (args : list arg) : string :=
  match args with
  | [] => ""
  | [a] => arg_typed a
  | a :: args => (arg_typed a +:+ ", " +:+ join_extra args)%string
  end.
Definition extra (args : list arg) : string :=
  match args with [] => ""%string | _ => ("%!(EXTRA " +:+ join_extra args +:+ ")")%string end.

(** [verb] says that the character follows a percent sign. *)
Fixpoint format_from (format : string) (verb : bool) (args : list arg) : string :=
  match format with
  | EmptyString => if verb then ("%!(NOVERB)" +:+ extra args)%string else extra args
  | String c format =>
      if verb then
        if Ascii.eqb c percent then String percent (format_from format false args)
        else match args with
             | [] => ("%!" +:+ String c ("(MISSING)" +:+ format_from format false []))%string
             | a :: args => (verb_text c a +:+ format_from format false args)%string
             end
      else if Ascii.eqb c percent then format_from format true args
      else String c (format_from format false args)
  end.
Definition Sprintf (format : string) (args : list arg) : string := format_from format false args.

(** ** The log *)

Definition PRINT : Z := 0.
Definition LOG : Z := 5.
Definition STACK : Z := 6.
Definition DEBUG : Z := 10.
Definition FLOW : Z := 11.
Definition CMD : Z := 15.
Definition EVENT : Z := 16.
Definition INFO : Z := 20.
Definition WARN : Z := 30.
Definition ERROR : Z := 40.
Definition FATAL : Z := 99.

Definition levels : list (Z * string) :=
  [(PRINT, "PRINT"); (LOG, "LOG"); (DEBUG, "DEBUG"); (STACK, "STACK"); (FLOW, "FLOW"); (CMD, "CMD");
   (EVENT, "EVENT"); (INFO, "INFO"); (WARN, "WARN"); (ERROR, "ERROR"); (FATAL, "FATAL")]%string.
Definition level_name (level : Z) : string :=
  match List.find (fun e => e.1 =? level) levels with Some (_, s) => s | None => "NULL"%string end.

Record Message := { Level : string; Date : string; Msg : string; Module_ : string }.

(** [FileLog] is the path of the file it writes, [printed] the lines on the standard error,
    [files] the lines of each log file. *)
Record logger := {
  l_Level : Z; l_FileName : string; l_FileLog : option string; l_Errors : list Message;
  printed : list string; files : list (string * string)
}.

Definition Logger : logger :=
  {| l_Level := INFO; l_FileName := ".log.error"; l_FileLog := None; l_Errors := []; printed := []; files := [] |}.

Definition print_line (l : logger) (s : string) : logger :=
  {| l_Level := l_Level l; l_FileName := l_FileName l; l_FileLog := l_FileLog l; l_Errors := l_Errors l;
     printed := printed l ++ [s]; files := files l |}.
Definition file_line (l : logger) (s : string) : logger :=
  match l_FileLog l with
  | None => l
  | Some f => {| l_Level := l_Level l; l_FileName := l_FileName l; l_FileLog := l_FileLog l;
                 l_Errors := l_Errors l; printed := printed l; files := files l ++ [(f, s)] |}
  end.
Definition set_errors (l : logger) (e : list Message) : logger :=
  {| l_Level := l_Level l; l_FileName := l_FileName l; l_FileLog := l_FileLog l; l_Errors := e;
     printed := printed l; files := files l |}.

(** The clock is read twice, for the day and for the time of the day. *)
Record clock := { yy : Z; mm : Z; dd : Z; hh : Z; mn : Z; se : Z }.
Definition stamp (day time : clock) : string :=
  (FormatInt (yy day) +:+ "/" +:+ pad2 (mm day) +:+ "/" +:+ pad2 (dd day) +:+ " " +:+
   pad2 (hh time) +:+ ":" +:+ pad2 (mn time) +:+ ":" +:+ pad2 (se time))%string.

(** [Remove(Back())] *)
Definition drop_last {A} (l : list A) : list A := take (length l - 1) l.
Definition capacity : nat := 1024.
#[local] Arguments capacity : simpl never.
#[local] Arguments Nat.leb : simpl never.

Definition Save (l : logger) (day time : clock) (level format : string) (args : list arg) : logger :=
  let m := Sprintf format args in
  let l := file_line l ("[" +:+ level +:+ "] " +:+ m)%string in
  let errors := if (capacity <=? length (l_Errors l))%nat then drop_last (l_Errors l) else l_Errors l in
  set_errors l (errors ++ [{| Level := level; Date := stamp day time; Msg := m; Module_ := "" |}]).

Definition Write (l : logger) (day time : clock) (level : Z) (format : string) (args : list arg) : logger :=
  let str := level_name level in
  let l := if l_Level l <=? level
           then print_line l (Sprintf (Sprintf "[%s] %s" [AStr str; AStr format]) args) else l in
  if INFO <=? level then Save l day time str format args else l.

(** What comes out of the channel: the latest message first, [nil] at the end. *)
Definition List_ (l : logger) : list (option Message) := map Some (rev (l_Errors l)) ++ [None].

(** ** Prefixes *)

Definition SubLogger := string.
Definition NewSubLogger (prefix : string) : SubLogger := prefix.
Definition rLogger : SubLogger := NewSubLogger "root".

Definition Has (l : logger) (level : Z) : bool := l_Level l <=? level.
Definition HasLog (l : logger) (level : Z) : bool := Has l level.
Definition Fmt (s : SubLogger) (format : string) : string := ("[" +:+ s +:+ "] " +:+ format)%string.

Section methods.
Context (l : logger) (day time : clock).

(** The methods of a prefix. *)
Definition at_level (level : Z) (s : SubLogger) (format : string) (args : list arg) : logger :=
  Write l day time level (Fmt s format) args.
Definition Print_ := at_level PRINT.
Definition Log_ := at_level LOG.
Definition Stack := at_level STACK.
Definition Debug_ := at_level DEBUG.
Definition Flow := at_level FLOW.
Definition Cmd := at_level CMD.
Definition Event := at_level EVENT.
Definition Info := at_level INFO.
Definition Warn := at_level WARN.
Definition Error := at_level ERROR.
Definition Fatal := at_level FATAL.

(** The functions of the package, which are the methods of [rLogger]. *)
Definition root_Print := Print_ rLogger.
Definition root_Log := Log_ rLogger.
Definition root_Stack := Stack rLogger.
Definition root_Debug := Debug_ rLogger.
Definition root_Cmd := Cmd rLogger.
Definition root_Info := Info rLogger.
Definition root_Warn := Warn rLogger.
Definition root_Error := Error rLogger.
Definition root_Fatal := Fatal rLogger.

(** [open] says why the file cannot be opened for appending, if it cannot. *)
Definition SetLogger (open : string -> option string) (file : string) (level : Z) : logger :=
  let l := {| l_Level := level; l_FileName := l_FileName l; l_FileLog := l_FileLog l;
              l_Errors := l_Errors l; printed := printed l; files := files l |} in
  if String.eqb file "" || String.eqb (l_FileName l) file then l
  else
    let named o := {| l_Level := level; l_FileName := file; l_FileLog := o;
                      l_Errors := l_Errors l; printed := printed l; files := files l |} in
    match open file with
    | None => named (Some file)
    | Some err => Write (named (l_FileLog l)) day time WARN (Fmt rLogger "Logger.Init: %s") [AStr err] (* [Warn] *)
    end.

End methods.

(** [recovered] is the text of what was thrown, [trace] that of [debug.Stack()]. *)
Definition Catch (l : logger) (day time : clock) (name : string) (recovered : option string)
    (trace : string) : logger :=
  match recovered with
  | None => l
  | Some err =>
      let l := root_Fatal l day time "[%s] [PANIC] >>> %s <<<" [AStr name; AStr err] in
      root_Fatal l day time "[%s] [STACK] >>> %s <<<" [AStr name; AStr trace]
  end.

(** ** Goroutines *)

(** [total] is an unsigned number of 64 bits. *)
Definition total_add (t d : Z) : Z := (t + d) mod 2 ^ 64.
Definition gos_Add (t : Z) : Z := total_add t 1.
Definition gos_Del (t : Z) : Z := total_add t (-1).

(** One goroutine from its start to its end: how [call] ends is given, with the text of
    the panic.  The debug messages are left out. *)
Definition Go_ (l : logger) (day time : clock) (total : Z) (ends : option string) (trace : string) : logger * Z :=
  let total := gos_Add total in
  match ends with
  | None => (l, gos_Del total)
  | Some err => (Catch l day time "Go.func" (Some err) trace, total)
  end.

Record PProf := { pp_File : string; pp_Listen : string; pp_Error : option string }.
(** [Start]; [serve] is the error [ListenAndServe] ends with. *)
Definition pp_Start (p : PProf) (serve : string -> string) : PProf :=
  let listen := if String.eqb (pp_Listen p) "" then "localhost:6060"%string else pp_Listen p in
  {| pp_File := pp_File p; pp_Listen := listen; pp_Error := Some (serve listen) |}.

(** A channel of [n] places as a counter that is waited for. *)
Record WaitOne := { w_cap : nat; w_done : nat }.
Definition NewWaitOne (n : nat) : WaitOne := {| w_cap := n; w_done := 0 |}.
Definition Done (w : WaitOne) : run WaitOne :=
  if (w_done w <? w_cap w)%nat then Finished {| w_cap := w_cap w; w_done := S (w_done w) |} else Blocks.
Definition Wait (w : WaitOne) : run WaitOne :=
  match w_done w with O => Blocks | S n => Finished {| w_cap := w_cap w; w_done := n |} end.

(** ** Theorems: formats *)

Fixpoint plain (s : string) : bool :=
  match s with EmptyString => true | String c s => negb (Ascii.eqb c percent) && plain s end.

Lemma format_plain s t args :
  plain s = true -> format_from (s +:+ t) false args = (s +:+ format_from t false args)%string.
Proof.
  induction s as [|c s IH]; simpl; [done|]. rewrite andb_true_iff, negb_true_iff.
  intros [-> H]. by rewrite IH.
Qed.

Lemma plain_app s t : plain (s +:+ t) = plain s && plain t.
Proof. induction s as [|c s IH]; simpl; [done|]. by rewrite IH, andb_assoc. Qed.

Lemma text_app_nil (s : string) : (s +:+ "")%string = s.
Proof. induction s as [|c s IH]; simpl; [done|]. by rewrite IH. Qed.

(** A text without percent signs and without arguments is its own message. *)
Lemma Sprintf_plain s : plain s = true -> Sprintf s [] = s.
Proof.
  intros H. pose proof (format_plain s "" [] H) as E. rewrite text_app_nil in E.
  unfold Sprintf. rewrite E. apply text_app_nil.
Qed.

Lemma level_plain level : plain (level_name level) = true.
Proof.
  unfold level_name. destruct (List.find _ levels) as [[z s]|] eqn:E; [|done].
  apply List.find_some in E as [Hin _]. simpl in Hin.
  destruct_or! Hin; by simplify_eq.
Qed.

(** The line of a level: its name and the format, as one format. *)
Lemma line_format str format : Sprintf "[%s] %s" [AStr str; AStr format] = ("[" +:+ str +:+ "] " +:+ format)%string.
Proof. unfold Sprintf. cbn -[String.append]. unfold verb_text. simpl. by rewrite text_app_nil. Qed.

Lemma line_text level format args :
  Sprintf (Sprintf "[%s] %s" [AStr (level_name level); AStr format]) args
  = ("[" +:+ level_name level +:+ "] " +:+ Sprintf format args)%string.
Proof.
  rewrite line_format. unfold Sprintf. simpl. f_equal.
  rewrite (format_plain (level_name level)) by apply level_plain. reflexivity.
Qed.

Lemma prefix_text s format args :
  plain s = true -> Sprintf (Fmt s format) args = ("[" +:+ s +:+ "] " +:+ Sprintf format args)%string.
Proof. intros H. unfold Fmt, Sprintf. simpl. f_equal. by rewrite format_plain. Qed.

(** ** Theorems: what is printed and kept *)

Lemma Save_fields l day time level format args :
  let l' := Save l day time level format args in
  l_Level l' = l_Level l /\ l_FileName l' = l_FileName l /\ l_FileLog l' = l_FileLog l /\ printed l' = printed l.
Proof. unfold Save, file_line. destruct (l_FileLog l) eqn:E; simpl; rewrite ?E; auto. Qed.

(** Below the level of the log and below INFO nothing happens. *)
Lemma Write_quiet l day time level format args :
  level < l_Level l -> level < INFO -> Write l day time level format args = l.
Proof.
  intros H1 H2. unfold Write. rewrite (proj2 (Z.leb_gt _ _) H1), (proj2 (Z.leb_gt _ _) H2). done.
Qed.

(** The messages that are kept do not depend on the level of the log. *)
Definition message_of (day time : clock) (level : Z) (format : string) (args : list arg) : Message :=
  {| Level := level_name level; Date := stamp day time; Msg := Sprintf format args; Module_ := "" |}.
Definition push (e : list Message) (m : Message) : list Message :=
  (if (capacity <=? length e)%nat then drop_last e else e) ++ [m].

Lemma Save_errors l day time level format args :
  l_Errors (Save l day time (level_name level) format args) = push (l_Errors l) (message_of day time level format args).
Proof. unfold Save, file_line. destruct (l_FileLog l); reflexivity. Qed.

Lemma Write_errors l day time level format args :
  l_Errors (Write l day time level format args)
  = if INFO <=? level then push (l_Errors l) (message_of day time level format args) else l_Errors l.
Proof.
  unfold Write. destruct (INFO <=? level), (l_Level l <=? level); rewrite ?Save_errors; reflexivity.
Qed.

Lemma Write_fields l day time level format args :
  let l' := Write l day time level format args in
  l_Level l' = l_Level l /\ l_FileName l' = l_FileName l /\ l_FileLog l' = l_FileLog l.
Proof.
  unfold Write. destruct (l_Level l <=? level), (INFO <=? level); try done.
  all: match goal with |- context [Save ?l0 _ _ ?v _ _] =>
         destruct (Save_fields l0 day time v format args) as (? & ? & ? & _) end; auto.
Qed.

Lemma Write_printed l day time level format args :
  printed (Write l day time level format args)
  = printed l ++ (if l_Level l <=? level
                  then ["[" +:+ level_name level +:+ "] " +:+ Sprintf format args]%string else []).
Proof.
  unfold Write. rewrite <- line_text.
  assert (Hs : forall l' level', printed (Save l' day time level' format args) = printed l').
  { intros. apply Save_fields. }
  destruct (INFO <=? level), (l_Level l <=? level); rewrite ?Hs, ?app_nil_r; reflexivity.
Qed.

(** A method of a [SubLogger] at level INFO or above, whose prefix has no percent sign,
    prints and keeps the prefix before the message. *)
Lemma logged_line l day time level s format args :
  plain s = true -> INFO <= level -> l_Level l <= level ->
  let m := ("[" +:+ s +:+ "] " +:+ Sprintf format args)%string in
  let l' := at_level l day time level s format args in
  printed l' = printed l ++ ["[" +:+ level_name level +:+ "] " +:+ m]%string /\
  (exists e, l_Errors l' = e ++ [{| Level := level_name level; Date := stamp day time; Msg := m; Module_ := "" |}]).
Proof.
  intros Hp Hi Hl m l'. unfold l', at_level.
  rewrite Write_printed, Write_errors, prefix_text by done.
  rewrite (proj2 (Z.leb_le _ _) Hi), (proj2 (Z.leb_le _ _) Hl). split; [done|].
  unfold push, message_of. rewrite prefix_text by done. eauto.
Qed.

(** The prefix is part of the format: a percent sign in a name takes an argument. *)
Example percent_prefix l day time :
  printed (Info l day time "eu%s" "connected to %s" [AStr "hub"]) =
  printed l ++ (if l_Level l <=? INFO then ["[INFO] [euhub] connected to %!s(MISSING)"]%string else []).
Proof. unfold Info, at_level. by rewrite Write_printed. Qed.

(** ** Theorems: the list of messages *)

Record event := { ev_day : clock; ev_time : clock; ev_level : Z; ev_format : string; ev_args : list arg }.
Definition write_event (l : logger) (e : event) : logger :=
  Write l (ev_day e) (ev_time e) (ev_level e) (ev_format e) (ev_args e).
Definition message (e : event) : Message := message_of (ev_day e) (ev_time e) (ev_level e) (ev_format e) (ev_args e).
Definition kept_level (e : event) : bool := INFO <=? ev_level e.
Definition saved (es : list event) : list Message := map message (List.filter kept_level es).

(** The first of a full list, and the last message. *)
Definition keep (ms : list Message) : list Message :=
  if (length ms <=? capacity)%nat then ms else take (capacity - 1) ms ++ drop (length ms - 1) ms.

Lemma keep_length ms : length (keep ms) = Nat.min capacity (length ms).
Proof.
  unfold keep. destruct (Nat.leb_spec (length ms) capacity).
  - lia.
  - rewrite length_app, length_take, length_drop. unfold capacity in *. lia.
Qed.

Lemma push_keep ms m : push (keep ms) m = keep (ms ++ [m]).
Proof.
  unfold push. rewrite keep_length. unfold keep at 3. rewrite length_app. simpl (length [m]).
  destruct (Nat.leb_spec capacity (Nat.min capacity (length ms))) as [H|H],
    (Nat.leb_spec (length ms + 1) capacity) as [H'|H']; try lia.
  - rewrite drop_app_length' by lia. f_equal. unfold drop_last. rewrite keep_length.
    rewrite Nat.min_l by lia. rewrite take_app_le by (unfold capacity in *; lia).
    unfold keep. destruct (Nat.leb_spec (length ms) capacity); [done|].
    rewrite take_app_le; [|rewrite length_take; unfold capacity in *; lia].
    by rewrite take_take, Nat.min_id.
  - f_equal. unfold keep. by rewrite (proj2 (Nat.leb_le _ _)) by lia.
Qed.

(** Whatever is logged, in any order of levels: the list holds every message of level INFO
    and above as long as there are at most 1024; from then on the first 1023 of them, and
    the latest.  A message between those is gone when the next one comes. *)
Theorem log_keeps_first es :
  l_Errors (foldl write_event Logger es) = keep (saved es).
Proof.
  induction es as [|e es IH] using rev_ind; [done|].
  rewrite foldl_snoc. unfold write_event at 1. rewrite Write_errors, IH.
  unfold saved. rewrite List.filter_app, map_app. cbn [List.filter].
  destruct (kept_level e) eqn:K; unfold kept_level in K; rewrite K.
  - apply push_keep.
  - simpl. by rewrite app_nil_r.
Qed.

Lemma log_bounded es : (length (l_Errors (foldl write_event Logger es)) <= capacity)%nat.
Proof. rewrite log_keeps_first, keep_length. lia. Qed.

(** [List] gives them the latest first, then the end mark. *)
Lemma List_latest_first l m : List_ (set_errors l (l_Errors l ++ [m])) = Some m :: List_ l.
Proof. unfold List_. simpl. by rewrite rev_app_distr. Qed.

Lemma push_full e m : (capacity <= length e)%nat -> push e m = drop_last e ++ [m].
Proof. intros H. unfold push. by rewrite (proj2 (Nat.leb_le _ _) H). Qed.

Lemma drop_last_snoc {A} (l : list A) x : drop_last (l ++ [x]) = l.
Proof. unfold drop_last. apply take_app_length'. rewrite length_app. simpl. lia. Qed.

(** On a full list a message is lost as soon as the next one is kept. *)
Lemma full_list_loses e m m' : length e = capacity -> push (push e m) m' = push e m'.
Proof.
  intros H. rewrite (push_full e m), (push_full e m') by lia. rewrite push_full.
  - by rewrite drop_last_snoc.
  - unfold drop_last. rewrite length_app, length_take. simpl. unfold capacity in *. lia.
Qed.

(** ** Theorems: the file *)

(** The name the log starts with names no open file, and asking for it opens none. *)
Lemma default_file_not_opened day time open level :
  l_FileLog (SetLogger Logger day time open ".log.error" level) = None.
Proof. done. Qed.

(** A file that cannot be opened takes the name all the same: a second call with the same
    name does not try again. *)
Lemma failed_file_not_retried l day time open open' file level level' err :
  file <> ""%string -> l_FileName l <> file -> open file = Some err ->
  l_FileLog (SetLogger (SetLogger l day time open file level) day time open' file level') = l_FileLog l.
Proof.
  intros H1 H2 He. set (l1 := SetLogger l day time open file level).
  assert (Hf : l_FileName l1 = file /\ l_FileLog l1 = l_FileLog l).
  { unfold l1, SetLogger. simpl.
    rewrite (proj2 (String.eqb_neq _ _) H1), (proj2 (String.eqb_neq _ _) H2). simpl. rewrite He.
    match goal with |- context [Write ?l0 _ _ ?v ?f ?a] =>
      by destruct (Write_fields l0 day time v f a) as (_ & -> & ->) end. }
  destruct Hf as [Hn Hf]. unfold SetLogger. simpl. rewrite Hn, String.eqb_refl, orb_true_r. simpl. done.
Qed.

(** A file that opens gets every message of level INFO and above, whatever the level. *)
Lemma file_gets l day time level format args f :
  l_FileLog l = Some f -> INFO <= level ->
  files (Write l day time level format args)
  = files l ++ [(f, "[" +:+ level_name level +:+ "] " +:+ Sprintf format args)]%string.
Proof.
  intros Hf Hi. unfold Write. rewrite (proj2 (Z.leb_le _ _) Hi).
  destruct (_ <=? level); unfold Save, file_line; simpl; by rewrite Hf.
Qed.

(** The day and the time are those of two readings of the clock. *)
Example midnight :
  stamp {| yy := 2021; mm := 6; dd := 30; hh := 23; mn := 59; se := 59 |}
        {| yy := 2021; mm := 7; dd := 1; hh := 0; mn := 0; se := 0 |} = "2021/06/30 00:00:00"%string.
Proof. reflexivity. Qed.

(** ** Theorems: goroutines *)

Definition run_go (day time : clock) (st : logger * Z) (ends : option string) : logger * Z :=
  Go_ st.1 day time st.2 ends "".
Definition panics (ends : list (option string)) : Z :=
  Z.of_nat (length (List.filter (fun e => match e with Some _ => true | None => false end) ends)).

Lemma gos_Add_Del t : 0 <= t < 2 ^ 64 -> gos_Del (gos_Add t) = t.
Proof.
  intros H. unfold gos_Del, gos_Add, total_add. rewrite Zplus_mod_idemp_l, Z.mod_small; lia.
Qed.

(** When all have ended, the count is the number of those that panicked: [Del] is not
    deferred. *)
Lemma panicked_stay_counted day time l t ends :
  0 <= t < 2 ^ 64 ->
  (foldl (run_go day time) (l, t) ends).2 = (t + panics ends) mod 2 ^ 64.
Proof.
  revert l t. induction ends as [|[err|] ends IH]; intros l t Ht; simpl foldl.
  - unfold panics. simpl. rewrite Z.add_0_r, Z.mod_small; done.
  - cbn [run_go Go_ fst snd]. rewrite IH by (apply Z.mod_pos_bound; lia).
    unfold gos_Add, total_add, panics. cbn [List.filter length].
    rewrite Nat2Z.inj_succ, Zplus_mod_idemp_l. f_equal. lia.
  - cbn [run_go Go_ fst snd]. rewrite gos_Add_Del, IH by done. reflexivity.
Qed.

(** A panic is logged as two messages of level FATAL, and kept. *)
Lemma Catch_kept l day time name err trace :
  (length (l_Errors l) + 2 <= capacity)%nat ->
  exists m1 m2, l_Errors (Catch l day time name (Some err) trace) = l_Errors l ++ [m1; m2] /\
    Level m1 = "FATAL"%string /\ Level m2 = "FATAL"%string /\
    Msg m1 = ("[root] [" +:+ name +:+ "] [PANIC] >>> " +:+ err +:+ " <<<")%string.
Proof.
  intros Hc. unfold Catch, root_Fatal, Fatal, at_level. rewrite !Write_errors. simpl. unfold push.
  rewrite (proj2 (Nat.leb_gt capacity (length (l_Errors l)))) by lia.
  rewrite (proj2 (Nat.leb_gt capacity (length (l_Errors l ++ [_])))) by (rewrite length_app; simpl; lia).
  rewrite <- app_assoc. eexists _, _. split; [done|]. done.
Qed.

(** What one side puts in, the other takes out; with [n] places, [n] sides never wait. *)
Lemma Wait_Done w w' : Done w = Finished w' -> Wait w' = Finished w.
Proof.
  unfold Done. destruct (Nat.ltb_spec (w_done w) (w_cap w)); [|done]. intros [= <-]. by destruct w.
Qed.

Lemma Done_places w k : (w_done w + k <= w_cap w)%nat ->
  Nat.iter k (fun r => r ← (r : run WaitOne); Done r) (Finished w) = Finished {| w_cap := w_cap w; w_done := w_done w + k |}.
Proof.
  induction k as [|k IH]; intros H; simpl.
  - rewrite Nat.add_0_r. by destruct w.
  - rewrite IH by lia. unfold mbind, run_bind, Done. simpl.
    rewrite (proj2 (Nat.ltb_lt _ _)) by lia. by rewrite Nat.add_succ_r.
Qed.
