(* ===== verification/IpCmd.v ===== *)
(** * Addresses and routes by command (pkg/libol/iputils.go, pkg/olap/point_darwin.go, point_windows.go)

    The commands that set addresses and routes, per operating system, and the points that
    use them.  A command is the program and its arguments: no shell is between, so a name
    or an address is one argument whatever it holds.  Commands are recorded in order; what
    they answer is the environment's.  The point is the listener of the worker of
    PointWorker, whose calls it carries out. *)

From S2P Require Import Prelude GoStd Json Utils Models PointWorker.

Local Open Scope Z_scope.
Local Arguments String.append !_ _ / : simpl nomatch.

(** ** iputils.go *)

Record cmd := { prog : string; args : list string }.

(** A function runs one command, does nothing, or says that the system is not supported. *)
Inductive act := Exec (c : cmd) | Nothing | NotSupport.

Inductive os := Linux | Windows | Darwin | OtherOS.
Definition GOOS_os (goos : string) : os :=
  if String.eqb goos "linux" then Linux
  else if String.eqb goos "windows" then Windows
  else if String.eqb goos "darwin" then Darwin else OtherOS.

Definition ip (a : list string) : act := Exec {| prog := "ip"; args := a |}.
Definition netsh (a : list string) : act := Exec {| prog := "netsh"; args := a |}.
Definition ifconfig (a : list string) : act := Exec {| prog := "ifconfig"; args := a |}.
Definition route (a : list string) : act := Exec {| prog := "route"; args := a |}.

Section commands.
Local Open Scope string_scope.
Context (goos : string).

Definition IpLinkUp (name : string) : act :=
  match GOOS_os goos with
  | Linux => ip ["link"; "set"; "dev"; name; "up"]
  | Windows => netsh ["interface"; "set"; "interface"; "name=" +:+ name; "admin=ENABLED"]
  | _ => NotSupport
  end.
Definition IpLinkDown (name : string) : act :=
  match GOOS_os goos with
  | Linux => ip ["link"; "set"; "dev"; name; "down"]
  | Windows => netsh ["interface"; "set"; "interface"; "name=" +:+ name; "admin=DISABLED"]
  | _ => NotSupport
  end.
Definition IpAddrAdd (name addr : string) (opts : list string) : act :=
  match GOOS_os goos with
  | Linux => ip (["address"; "add"; addr; "dev"; name] ++ opts)
  | Windows => netsh (["interface"; "ipv4"; "add"; "address"; "name=" +:+ name; "address=" +:+ addr; "store=active"] ++ opts)
  | Darwin => ifconfig ([name; addr] ++ opts)
  | OtherOS => NotSupport
  end.
(** [SplitN] of the address into one piece, which is the address. *)
Definition IpAddrDel (name addr : string) : act :=
  match GOOS_os goos with
  | Linux => ip ["address"; "del"; addr; "dev"; name]
  | Windows =>
      let ipAddr := default "" (SplitN addr char_slash 1 !! 0%nat) in
      netsh ["interface"; "ipv4"; "delete"; "address"; "name=" +:+ name; "address=" +:+ ipAddr; "store=active"]
  | Darwin => ifconfig [name; addr; "delete"]
  | OtherOS => NotSupport
  end.
Definition IpAddrShow_cmd (name : string) : act :=
  match GOOS_os goos with
  | Windows => netsh ["interface"; "ipv4"; "show"; "ipaddress"; "interface=" +:+ name; "level=verbose"]
  | _ => Nothing
  end.

(** [strings.Contains] *)
Fixpoint ContainsStr (s sub : string) : bool :=
  HasPrefix s sub || match s with EmptyString => false | String _ s => ContainsStr s sub end.
(** The addresses in the output of the command. *)
Definition show_line (line : string) : option string :=
  match SplitN line (chr 32) 3 with
  | [a; b; c] => if String.eqb a "Remote" && ContainsStr c "Parameters" then Some b else None
  | _ => None
  end.
Definition IpAddrShow_out (out : string) : list string := omap show_line (Split out (chr 10)).

Definition route_args (verb prefix name nexthop : string) (opts : list string) : list string :=
  [verb; "-net"; prefix] ++ (if String.eqb name "" then [] else ["-iface"; name])
  ++ (if String.eqb nexthop "" then [] else [nexthop]) ++ opts.
Definition netsh_route (verb name prefix nexthop : string) : act :=
  netsh ["interface"; "ipv4"; verb; "route"; "prefix=" +:+ prefix; "interface=" +:+ name;
         "nexthop=" +:+ nexthop; "store=active"].
Definition IpRouteAdd (name prefix nexthop : string) (opts : list string) : act :=
  match GOOS_os goos with
  | Linux => ip ["route"; "address"; prefix; "via"; nexthop]
  | Windows => netsh_route "add" name prefix nexthop
  | Darwin => route (route_args "add" prefix name nexthop opts)
  | OtherOS => NotSupport
  end.
Definition IpRouteDel (name prefix nexthop : string) (opts : list string) : act :=
  match GOOS_os goos with
  | Linux => ip ["route"; "del"; prefix; "via"; nexthop]
  | Windows => netsh_route "delete" name prefix nexthop
  | Darwin => route (route_args "delete" prefix name nexthop opts)
  | OtherOS => NotSupport
  end.
Definition IpRouteShow (name : string) : list string := [].
Definition IpMetricSet (name metric : string) (opts : list string) : act :=
  match GOOS_os goos with
  | Linux | Darwin => Nothing
  | Windows => netsh (["interface"; "ipv4"; "set"; "interface"; "interface=" +:+ name; "metric=" +:+ metric] ++ opts)
  | OtherOS => NotSupport
  end.

End commands.

(** ** The points *)

(** [log] are the commands run so far, [saved] the file [.routes.json] of Windows. *)
Record HostPoint := {
  hp_brName : string; hp_addr : string; hp_routes : option (list Route.t);
  hp_saved : option (list Route.t); hp_log : list cmd
}.
Definition NewPoint (brName : string) (saved : option (list Route.t)) : HostPoint :=
  {| hp_brName := brName; hp_addr := ""; hp_routes := None; hp_saved := saved; hp_log := [] |}.
Definition hp_set (p : HostPoint) (addr : string) (rts saved : option (list Route.t)) : HostPoint :=
  {| hp_brName := hp_brName p; hp_addr := addr; hp_routes := rts; hp_saved := saved; hp_log := hp_log p |}.
Definition hp_set_addr (p : HostPoint) (addr : string) : HostPoint := hp_set p addr (hp_routes p) (hp_saved p).
Definition hp_set_routes (p : HostPoint) (rts : option (list Route.t)) : HostPoint := hp_set p (hp_addr p) rts (hp_saved p).
Definition hp_run (p : HostPoint) (c : cmd) : HostPoint :=
  {| hp_brName := hp_brName p; hp_addr := hp_addr p; hp_routes := hp_routes p; hp_saved := hp_saved p;
     hp_log := hp_log p ++ [c] |}.

Section points.
(** The output of a command after those before it, and whether it succeeds; whether the
    file of the routes can be written.  [name] is what [IfName] gives. *)
Context (answer : list cmd -> cmd -> string * bool) (can_save : bool) (name : string).

Definition exec (p : HostPoint) (a : act) : HostPoint * (string * bool) :=
  match a with
  | Exec c => (hp_run p c, answer (hp_log p) c)
  | Nothing => (p, (""%string, true))
  | NotSupport => (p, (""%string, false))
  end.
Definition exec_ (p : HostPoint) (a : act) : HostPoint := (exec p a).1.

Definition before_slash (s : string) : string := default ""%string (SplitN s char_slash 2 !! 0%nat).

Definition darwin_goos : string := "darwin".
Definition darwin_AddAddr (p : HostPoint) (ipStr : string) : HostPoint :=
  if String.eqb ipStr "" then p
  else
    let a := before_slash ipStr in
    let '(p, (_, ok)) := exec p (IpAddrAdd darwin_goos name a [a]) in
    if ok then hp_set_addr (exec_ p (IpRouteAdd darwin_goos name ipStr "" [])) ipStr else p.
Definition darwin_DelAddr (p : HostPoint) (ipStr : string) : HostPoint :=
  let p := exec_ p (IpRouteDel darwin_goos name ipStr "" []) in
  let '(p, (_, ok)) := exec p (IpAddrDel darwin_goos name (before_slash ipStr)) in
  if ok then hp_set_addr p "" else p.
Definition darwin_AddRoutes (p : HostPoint) (routes : option (list Route.t)) : HostPoint :=
  match routes with
  | None => p
  | Some rts => hp_set_routes (foldl (fun p rt => exec_ p (IpRouteAdd darwin_goos name (Route.Prefix rt) "" [])) p rts) routes
  end.
Definition darwin_DelRoutes (p : HostPoint) (routes : option (list Route.t)) : HostPoint :=
  hp_set_routes (foldl (fun p rt => exec_ p (IpRouteDel darwin_goos name (Route.Prefix rt) "" [])) p (default [] routes)) None.

Definition windows_goos : string := "windows".
Definition windows_IpAddrShow (p : HostPoint) : HostPoint * list string :=
  let '(p, (out, ok)) := exec p (IpAddrShow_cmd windows_goos name) in (p, if ok then IpAddrShow_out out else []).
Definition windows_OnTap (p : HostPoint) : HostPoint :=
  let p := match hp_saved p with
           | None => p
           | Some rts => foldl (fun p rt => exec_ p (IpRouteDel windows_goos name (Route.Prefix rt) (Route.NextHop rt) [])) p rts
           end in
  exec_ p (IpMetricSet windows_goos name "235" []).
Definition windows_AddAddr (p : HostPoint) (ipStr : string) : HostPoint :=
  if String.eqb ipStr "" then p
  else
    let '(p, existed) := windows_IpAddrShow p in
    let p := foldl (fun p addr => exec_ p (IpAddrDel windows_goos name addr)) p existed in
    let '(p, (_, ok)) := exec p (IpAddrAdd windows_goos name ipStr []) in
    if ok then hp_set_addr p ipStr else p.
Definition windows_DelAddr (p : HostPoint) (ipStr : string) : HostPoint :=
  let '(p, (_, ok)) := exec p (IpAddrDel windows_goos name (default ""%string (Split ipStr char_slash !! 0%nat))) in
  if ok then hp_set_addr p "" else p.
Definition windows_AddRoutes (p : HostPoint) (routes : option (list Route.t)) : HostPoint :=
  match routes with
  | None => p
  | Some rts =>
      let p := if can_save then hp_set p (hp_addr p) (hp_routes p) routes else p in
      hp_set_routes (foldl (fun p rt => exec_ p (IpRouteAdd windows_goos name (Route.Prefix rt) (Route.NextHop rt) [])) p rts) routes
  end.
Definition windows_DelRoutes (p : HostPoint) (routes : option (list Route.t)) : HostPoint :=
  hp_set_routes (foldl (fun p rt => exec_ p (IpRouteDel windows_goos name (Route.Prefix rt) (Route.NextHop rt) [])) p (default [] routes)) None.

(** The listener: the calls of the worker, carried out; [OnIpAddr] of the device worker is
    not the point's.  A network without routes has an empty list. *)
Definition darwin_call (p : HostPoint) (c : wcall) : HostPoint :=
  match c with
  | AddAddr s => darwin_AddAddr p s
  | DelAddr s => darwin_DelAddr p s
  | AddRoutes rts => darwin_AddRoutes p (Some rts)
  | DelRoutes rts => darwin_DelRoutes p (Some rts)
  | TapIpAddr _ => p
  end.
Definition windows_call (p : HostPoint) (c : wcall) : HostPoint :=
  match c with
  | AddAddr s => windows_AddAddr p s
  | DelAddr s => windows_DelAddr p s
  | AddRoutes rts => windows_AddRoutes p (Some rts)
  | DelRoutes rts => windows_DelRoutes p (Some rts)
  | TapIpAddr _ => p
  end.

End points.

(** ** Theorems: commands *)

(** The command that takes back what a command sets: the first word of [route] and the
    third of [netsh] say what to do, and of [ifconfig] the third. *)
Definition undo (c : cmd) : cmd :=
  {| prog := prog c;
     args := if String.eqb (prog c) "route" then "delete" :: tail (args c)
             else <[2%nat := "delete"]> (args c) |}%string.

Definition run_all (p : HostPoint) (cs : list cmd) : HostPoint := foldl hp_run p cs.

Lemma run_all_fields p cs :
  hp_log (run_all p cs) = hp_log p ++ cs /\ hp_addr (run_all p cs) = hp_addr p /\
  hp_routes (run_all p cs) = hp_routes p /\ hp_saved (run_all p cs) = hp_saved p.
Proof.
  revert p. induction cs as [|c cs IH]; intros p; simpl; [by rewrite app_nil_r|].
  destruct (IH (hp_run p c)) as (H1 & H2 & H3 & H4). unfold run_all in *.
  rewrite H1, H2, H3, H4. simpl. by rewrite <- app_assoc.
Qed.

Lemma fold_exec {A} (answer : list cmd -> cmd -> string * bool) (f : A -> cmd) (l : list A) p :
  foldl (fun p x => exec_ answer p (Exec (f x))) p l = run_all p (map f l).
Proof. revert p. induction l as [|x l IH]; intros p; simpl; [done|]. by rewrite IH. Qed.

Section theorems.
Context (answer : list cmd -> cmd -> string * bool) (can_save : bool) (name : string).

Definition darwin_route (verb prefix : string) : cmd :=
  {| prog := "route"; args := route_args verb prefix name "" [] |}.
Definition windows_route (verb : string) (rt : Route.t) : cmd :=
  {| prog := "netsh";
     args := ["interface"; "ipv4"; verb; "route"; "prefix=" +:+ Route.Prefix rt; "interface=" +:+ name;
              "nexthop=" +:+ Route.NextHop rt; "store=active"]%string |}.

Lemma darwin_AddRoutes_runs p rts :
  darwin_AddRoutes answer name p (Some rts)
  = hp_set_routes (run_all p (map (fun rt => darwin_route "add" (Route.Prefix rt)) rts)) (Some rts).
Proof. simpl. by rewrite <- (fold_exec answer). Qed.
Lemma darwin_DelRoutes_runs p rts :
  darwin_DelRoutes answer name p (Some rts)
  = hp_set_routes (run_all p (map (fun rt => darwin_route "delete" (Route.Prefix rt)) rts)) None.
Proof. unfold darwin_DelRoutes. by rewrite <- (fold_exec answer). Qed.
Lemma windows_AddRoutes_runs p rts :
  windows_AddRoutes answer can_save name p (Some rts)
  = hp_set_routes (run_all (if can_save then hp_set p (hp_addr p) (hp_routes p) (Some rts) else p)
                           (map (windows_route "add") rts)) (Some rts).
Proof. simpl. by rewrite <- (fold_exec answer). Qed.
Lemma windows_OnTap_runs p :
  windows_OnTap answer name p
  = run_all p (map (windows_route "delete") (default [] (hp_saved p)) ++
               [{| prog := "netsh"; args := (["interface"; "ipv4"; "set"; "interface"; "interface=" +:+ name; "metric=235"])%string |}]).
Proof.
  unfold windows_OnTap, run_all. rewrite foldl_app. simpl.
  destruct (hp_saved p) as [rts|]; simpl; [|done]. by rewrite <- (fold_exec answer).
Qed.

Lemma darwin_AddAddr_runs p s :
  s <> ""%string -> (forall l c, (answer l c).2 = true) ->
  darwin_AddAddr answer name p s
  = hp_set_addr (run_all p [{| prog := "ifconfig"; args := [name; before_slash s; before_slash s] |};
                            darwin_route "add" s]) s.
Proof.
  intros Hs Ha. unfold darwin_AddAddr. rewrite (proj2 (String.eqb_neq _ _) Hs). simpl.
  destruct (answer _ _) as [o ok] eqn:E. pose proof (Ha (hp_log p) {| prog := "ifconfig"; args := [name; before_slash s; before_slash s] |}) as H.
  rewrite E in H. simpl in H. by subst ok.
Qed.
Lemma darwin_DelAddr_runs p s :
  (forall l c, (answer l c).2 = true) ->
  darwin_DelAddr answer name p s
  = hp_set_addr (run_all p [darwin_route "delete" s; {| prog := "ifconfig"; args := [name; before_slash s; "delete"%string] |}]) "".
Proof.
  intros Ha. unfold darwin_DelAddr. simpl.
  match goal with |- context [answer ?l ?c] => destruct (answer l c) as [o ok] eqn:E; pose proof (Ha l c) as H end.
  rewrite E in H. simpl in H. by subst ok.
Qed.

Lemma ip_prefix_nonempty n : ip_prefix n <> ""%string.
Proof. unfold ip_prefix. by destruct (Network.IfAddr n). Qed.

(** A network given and taken again, on a Mac whose commands succeed: every command that
    set something is undone, the routes first, and the point is as it was before. *)
Theorem darwin_frees_what_it_adds p a n :
  (forall l c, (answer l c).2 = true) ->
  let w := FreeIpAddr (OnIpAddr (PointWorker.NewWorker a) n) in
  let p' := foldl (darwin_call answer name) p (w_calls w) in
  exists addr routes,
    length addr = 2%nat /\ length routes = length (Network.Routes n) /\
    hp_log p' = hp_log p ++ addr ++ routes ++ map undo routes ++ rev (map undo addr) /\
    hp_addr p' = ""%string /\ hp_routes p' = None.
Proof.
  intros Ha w p'. unfold p', w. clear p' w. set (s := ip_prefix n).
  exists [{| prog := "ifconfig"; args := [name; before_slash s; before_slash s] |}; darwin_route "add" s].
  exists (map (fun rt => darwin_route "add" (Route.Prefix rt)) (Network.Routes n)).
  split; [done|]. split; [by rewrite length_map|].
  assert (Hc : w_calls (FreeIpAddr (OnIpAddr (PointWorker.NewWorker a) n))
               = [TapIpAddr s; AddAddr s; AddRoutes (Network.Routes n); DelRoutes (Network.Routes n); DelAddr s])
    by reflexivity.
  rewrite Hc. cbn [foldl darwin_call].
  rewrite (darwin_AddAddr_runs _ _ (ip_prefix_nonempty n) Ha), darwin_AddRoutes_runs, darwin_DelRoutes_runs,
    darwin_DelAddr_runs by done.
  cbn [hp_set_addr hp_set_routes hp_set hp_log hp_addr hp_routes].
  rewrite ?(proj1 (run_all_fields _ _)), ?(proj1 (proj2 (proj2 (run_all_fields _ _)))).
  cbn [hp_set_addr hp_set_routes hp_set hp_log hp_addr hp_routes].
  rewrite ?(proj1 (run_all_fields _ _)).
  cbn [hp_set_addr hp_set_routes hp_set hp_log hp_addr hp_routes].
  rewrite ?(proj1 (run_all_fields _ _)).
  cbn [hp_set_addr hp_set_routes hp_set hp_log hp_addr hp_routes].
  rewrite ?(proj1 (run_all_fields _ _)).
  split; [|done]. rewrite <- !app_assoc. do 3 f_equal. by rewrite map_map.
Qed.

(** The routes of a Windows point outlive it in their file: the next point that opens its
    device first undoes the command of every one of them. *)
Theorem windows_clears_old_routes p rts br :
  can_save = true ->
  exists added metric,
    hp_log (windows_AddRoutes answer can_save name p (Some rts)) = hp_log p ++ added /\
    length added = length rts /\
    hp_log (windows_OnTap answer name
              (NewPoint br (hp_saved (windows_AddRoutes answer can_save name p (Some rts)))))
    = map undo added ++ [metric].
Proof.
  intros Hs. rewrite windows_AddRoutes_runs, windows_OnTap_runs, Hs.
  exists (map (windows_route "add") rts). eexists.
  cbn [hp_set_routes hp_set hp_log hp_saved].
  rewrite !(proj1 (run_all_fields _ _)), !(proj2 (proj2 (proj2 (run_all_fields _ _)))).
  cbn [NewPoint hp_log hp_saved hp_set default]. split; [done|]. split; [by rewrite length_map|].
  by rewrite map_map.
Qed.

End theorems.

Lemma darwin_frees_what_it_adds_witness :
  let n := demo_net "10.1.0.2" [Route.NewRoute "172.16.0.0/12" "10.1.0.1" ""] in
  let w := FreeIpAddr (OnIpAddr (PointWorker.NewWorker "") n) in
  let p' := foldl (darwin_call (fun _ _ => (""%string, true)) "utun3") (NewPoint "" None) (w_calls w) in
  exists addr routes,
    length addr = 2%nat /\ length routes = 1%nat /\
    hp_log p' = addr ++ routes ++ map undo routes ++ rev (map undo addr) /\
    hp_addr p' = ""%string /\ hp_routes p' = None.
Proof.
  intros n w p'.
  exact (darwin_frees_what_it_adds (fun _ _ => (""%string, true)) "utun3" (NewPoint "" None) "" n (fun _ _ => eq_refl)).
Defined.

Lemma windows_clears_old_routes_witness :
  let rts := [Route.NewRoute "172.16.0.0/12" "10.1.0.1" ""; Route.NewRoute "192.168.0.0/16" "10.1.0.1" ""] in
  let ok := fun (_ : list cmd) (_ : cmd) => (""%string, true) in
  let p := windows_AddRoutes ok true "tap0" (NewPoint "" None) (Some rts) in
  exists added metric, hp_log p = added /\ length added = 2%nat /\
    hp_log (windows_OnTap ok "tap0" (NewPoint "" (hp_saved p))) = map undo added ++ [metric].
Proof.
  intros rts ok p.
  exact (windows_clears_old_routes ok true "tap0" (NewPoint "" None) rts "" eq_refl).
Defined.

(** On Windows the address is to be taken without its length, and keeps it: [SplitN] into
    one piece does not split. *)
Lemma windows_del_keeps_length name addr :
  IpAddrDel "windows" name addr =
  netsh ["interface"; "ipv4"; "delete"; "address"; "name=" +:+ name; "address=" +:+ addr; "store=active"]%string.
Proof. reflexivity. Qed.

(** On Linux the command that adds a route is none of [ip route]'s: what [IpRouteDel]
    deletes, [IpRouteAdd] does not add. *)
Lemma linux_route_mismatch name prefix nexthop opts :
  exists rest, IpRouteDel "linux" name prefix nexthop opts = ip ("route" :: "del" :: rest)%string /\
    IpRouteAdd "linux" name prefix nexthop opts = ip ("route" :: "address" :: rest)%string.
Proof. by eexists. Qed.

(** The addresses of Windows are found line by line. *)
Example show_addresses :
  IpAddrShow_out ("Remote 10.1.0.2 Parameters" +:+ String (chr 10) ("Interface Luid 7" +:+ String (chr 10)
                  "Remote 10.2.0.2 Parameters")) = ["10.1.0.2"; "10.2.0.2"]%string.
Proof. reflexivity. Qed.
