(* ===== verification/PointNode.v ===== *)
(** * The point as a whole (pkg/olap/pointer.go, worker.go, terminal.go, point_linux.go, olap/http, cmd/point_linux)

    [Node] is a [MixPoint] with its [Worker]: the socket worker of PointSocket, the device
    worker of PointTap and the network between them of PointWorker, made by [Initialize],
    run by [Start] and taken down by [Stop], with the terminal and the HTTP server of the
    point.  On Linux [OnTap] puts the device into its bridge, over the kernel interface of
    LinuxBridge.  Goroutines run the rounds of the two workers, which those files model;
    here is what the calls of the main program do. *)

From S2P Require Import Prelude GoStd Utils Json Protocol SafeMap Message Models Socket Schema.
From S2P Require Import Mux Api Http LinuxBridge Tap PointTap PointSocket PointWorker.
From S2P Require Import Config.

Local Open Scope Z_scope.
Local Arguments String.append !_ _ / : simpl nomatch.

(** ** The HTTP server of a point *)

Record PHttp := { x_listen : string; x_pubDir : string; x_server : bool; x_token : string }.

(** What a response renders. *)
Inductive shown := ShowUUID (uuid : string) | ShowConfig.
Inductive xhandler := CurrentUUID | CurrentConfig.

Section http.
(** [json.MarshalIndent] and [yaml.Marshal]. *)
Context (to_json to_yaml : shown -> option string).
(** The location of a redirect: the path, with the query of the request. *)
Context (url : request -> string -> string).

Definition x_NewHttp (http : option (string * string)) : PHttp :=
  match http with
  | Some (listen, public) => {| x_listen := listen; x_pubDir := public; x_server := false; x_token := "" |}
  | None => {| x_listen := ""; x_pubDir := ""; x_server := false; x_token := "" |}
  end.
(** [random] is what [GenRandom] makes. *)
Definition x_Initialize (h : PHttp) (random : string) : PHttp :=
  {| x_listen := x_listen h; x_pubDir := x_pubDir h; x_server := true; x_token := random |}.
Definition x_Shutdown (h : PHttp) : go PHttp := if x_server h then Ret h else Panic.

Definition x_IsAuth (h : PHttp) (q : request) : bool :=
  match q_Auth q with Some (token, _) => String.eqb token (x_token h) | None => false end.
(** The refusal is written by [IsAuth] and once more by [Middleware]: the body twice. *)
Definition x_refused : response :=
  let r := Api.Error "Authorization Required." StatusUnauthorized in
  {| p_Code := p_Code r; p_Headers := ("WWW-Authenticate", "Basic")%string :: p_Headers r;
     p_Body := (p_Body r +:+ p_Body r)%string |}.
Definition x_LoadRouter : list (route xhandler) :=
  [mk_route "/current/uuid" [] CurrentUUID; mk_route "/current/config" [] CurrentConfig].

Definition x_response (type : string) (text : option string) : response :=
  match text with
  | Some s => okay type s
  | None => Api.Error "json" StatusInternalServerError
  end.
Definition x_handle (uuid : string) (hd : xhandler) (q : request) : response :=
  let v := match hd with CurrentUUID => ShowUUID uuid | CurrentConfig => ShowConfig end in
  if String.eqb (GetQueryOne q "format") "yaml" then x_response "application/yaml" (to_yaml v)
  else x_response "application/json" (to_json v).
Definition x_ServeHTTP (h : PHttp) (uuid : string) (q : request) : response :=
  match Mux.dispatch x_LoadRouter (q_Method q) (q_Path q) with
  | Found hd _ => if x_IsAuth h q then x_handle uuid hd q else x_refused
  | Redirect p => {| p_Code := 301; p_Headers := [("Location"%string, url q p)]; p_Body := "" |}
  | NotFound => Api.Error "404 page not found" StatusNotFound
  | MethodNotAllowed => {| p_Code := 405; p_Headers := []; p_Body := "" |}
  end.

End http.

(** ** The node *)

(** The configuration, with the fields [Config.Point] leaves out: the address and the
    directory of the HTTP server, and the address of the profiler. *)
Record node_cfg := { nc_point : Config.Point; nc_http : option (string * string); nc_pprof : string }.

Definition pc_of (c : Config.Point) : PointCfg :=
  {| pc_Alias := pt_Alias c; pc_Username := pt_Username c; pc_Password := pt_Password c;
     pc_Network := pt_Network c; pc_Address := if_Address (pt_Interface c);
     pc_IPMtu := if_IPMtu (pt_Interface c); pc_RequestAddr := pt_RequestAddr c; pc_Timeout := pt_Timeout c |}.

Section node.
Context {T : Type} `{HT : Taper T}.

(** [nd_ticks] says that the goroutine of [Start] waits for its end, [nd_status] and
    [nd_pidfile] are the contents of the two files, [nd_pprof] where the profiler listens. *)
Record Node := {
  nd_cfg : node_cfg; nd_uuid : string; nd_worker : PointWorker.Worker; nd_wuuid : string;
  nd_con : option SocketWorker; nd_tap : option (TapWorker T); nd_ticks : bool;
  nd_http : option PHttp; nd_pprof : option string; nd_status : option sPoint.t; nd_pidfile : string
}.

Definition NewMixPoint (c : node_cfg) (pidfile : string) : Node :=
  {| nd_cfg := c; nd_uuid := ""; nd_worker := NewWorker (if_Address (pt_Interface (nc_point c)));
     nd_wuuid := ""; nd_con := None; nd_tap := None; nd_ticks := false; nd_http := None; nd_pprof := None;
     nd_status := None; nd_pidfile := pidfile |}.

Definition with_parts (n : Node) (w : PointWorker.Worker) (con : option SocketWorker) (tap : option (TapWorker T))
    (ticks : bool) : Node :=
  {| nd_cfg := nd_cfg n; nd_uuid := nd_uuid n; nd_worker := w; nd_wuuid := nd_wuuid n; nd_con := con;
     nd_tap := tap; nd_ticks := ticks; nd_http := nd_http n; nd_pprof := nd_pprof n; nd_status := nd_status n;
     nd_pidfile := nd_pidfile n |}.
Definition with_uuids (n : Node) (u wu : string) : Node :=
  {| nd_cfg := nd_cfg n; nd_uuid := u; nd_worker := nd_worker n; nd_wuuid := wu; nd_con := nd_con n;
     nd_tap := nd_tap n; nd_ticks := nd_ticks n; nd_http := nd_http n; nd_pprof := nd_pprof n;
     nd_status := nd_status n; nd_pidfile := nd_pidfile n |}.
Definition with_services (n : Node) (h : option PHttp) (pp : option string) (s : option sPoint.t) (pid : string) : Node :=
  {| nd_cfg := nd_cfg n; nd_uuid := nd_uuid n; nd_worker := nd_worker n; nd_wuuid := nd_wuuid n;
     nd_con := nd_con n; nd_tap := nd_tap n; nd_ticks := nd_ticks n; nd_http := h; nd_pprof := pp;
     nd_status := s; nd_pidfile := pid |}.

(** [UUID] of the worker and of the point: made the first time, by [GenRandom]. *)
Definition made (u random : string) : string := if String.eqb u "" then random else u.
Definition w_UUID (n : Node) (random : string) : Node * string :=
  let u := made (nd_wuuid n) random in (with_uuids n (nd_uuid n) u, u).
Definition w_SetUUID (n : Node) (v : string) : Node := with_uuids n (nd_uuid n) v.
Definition UUID (n : Node) (random : string) : Node * string :=
  let u := made (nd_uuid n) random in (with_uuids n u (nd_wuuid n), u).

(** [Client] and [Device], which are nil before [Initialize] and after [Stop]. *)
Definition Client (n : Node) : option (SocketClientImpl unit) := t ← nd_con n; client t.
Definition Device (n : Node) : option T := t ← nd_tap n; device t.
Definition Status (n : Node) : Z := match Client n with Some c => status c | None => 0 end.
Definition Addr (n : Node) : string := pt_Connection (nc_point (nd_cfg n)).
Definition IfName (n : Node) : string := match Device n with Some d => Tap.Name d | None => ""%string end.
Definition IfAddr (n : Node) : string := w_ifAddr (nd_worker n).
Definition Tenant (n : Node) : string := pt_Network (nc_point (nd_cfg n)).
Definition User_ (n : Node) : string := pt_Username (nc_point (nd_cfg n)).
Definition Alias (n : Node) : string := pt_Alias (nc_point (nd_cfg n)).
Definition Protocol_ (n : Node) : string := pt_Protocol (nc_point (nd_cfg n)).
Definition Config_ (n : Node) : node_cfg := nd_cfg n.
Definition Network_ (n : Node) : option Network.t := w_network (nd_worker n).
(** The two that ask the socket worker without a look whether it is there. *)
Definition UpTime (n : Node) (now : Z) : go Z :=
  match nd_con n with
  | None => Panic
  | Some t => Ret (match client t with Some c => AliveTime c now | None => 0 end)
  end.
Definition Record_ (n : Node) : go SafeStrInt64.t :=
  match nd_con n with None => Panic | Some t => Ret (record t) end.

Section run.
(** What runs below: the system, the codec of the leave message, the dialler, the fuel of a
    write, and opening a device. *)
Context (goos : string) (encode_ping : PingMsg -> option bytes) (dial : Z -> result net_conn) (fuel : nat).

(** [cl] is the client [GetSocketClient] makes, [taper] what [NewTaper] answers, [pid] the
    number of the process; a pid file that cannot be opened is skipped.  A missing queue
    section panics. *)
Definition w_Initialize (n : Node) (cl : SocketClientImpl unit) (taper : result T) (up : T -> run T)
    (genHw : bytes) (random : string) (pid : Z) (pid_opens : bool) (now : Z) : run Node :=
  let c := nc_point (nd_cfg n) in
  let n := with_services n (nd_http n) (nd_pprof n) (nd_status n)
             (if pid_opens then (nd_pidfile n +:+ FormatInt pid)%string else nd_pidfile n) in
  match pt_Queue c with
  | None => Crashes
  | Some q =>
      let con := NewSocketWorker goos cl (pc_of c) now in
      let i := pt_Interface c in
      let tap := NewTapWorker (GetTapCfg (if_Provider i) (if_Name i) (if_Address i) (VirSnd q) (VirWrt q)) in
      let '(n, uuid) := w_UUID n random in
      con ← PointSocket.Initialize (SetUUID con uuid) now;
      tap ← PointTap.Initialize tap (if_Address i) genHw taper up (fun a => Finished a) now;
      Finished (with_parts n (nd_worker n) (Some con) (Some tap) (nd_ticks n))
  end.

Definition status_of (n : Node) (d : T) (c : SocketClientImpl unit) (now : Z) : sPoint.t :=
  let cfg := nc_point (nd_cfg n) in
  let sts := Statistics c in
  {| sPoint.Uptime := Socket.UpTime c now; sPoint.UUID := nd_wuuid n; sPoint.Network := pt_Network cfg;
     sPoint.User := default ""%string (SplitN (pt_Username cfg) char_at 2 !! 0%nat); sPoint.Alias := pt_Alias cfg;
     sPoint.Protocol := pt_Protocol cfg; sPoint.Remote := pt_Connection cfg; sPoint.Switch := "";
     sPoint.Device := Tap.Name d; sPoint.RxBytes := SafeStrInt64.Get sts CsRecvOkay;
     sPoint.TxBytes := SafeStrInt64.Get sts CsSendOkay; sPoint.ErrPkt := SafeStrInt64.Get sts CsSendError;
     sPoint.State := status_String (status c); sPoint.AliveTime := AliveTime c now; sPoint.System := goos;
     sPoint.Address := match w_network (nd_worker n) with
                       | Some nw => NewNetworkSchema nw
                       | None => sNetwork.zero
                       end |}.
(** [FlushStatus] writes the status file, if one is asked for and both sides are there. *)
Definition FlushStatus (n : Node) (now : Z) : run Node :=
  match nd_tap n, nd_con n with
  | Some tap, Some con =>
      Finished (match device tap, client con with
                | Some d, Some c =>
                    if String.eqb (pt_StatusFile (nc_point (nd_cfg n))) "" then n
                    else with_services n (nd_http n) (nd_pprof n) (Some (status_of n d c now)) (nd_pidfile n)
                | _, _ => n
                end)
  | _, _ => Crashes
  end.

(** [Start] of the device worker only starts goroutines; that of the socket worker dials. *)
Definition w_Start (n : Node) (now : Z) : run Node :=
  n ← FlushStatus n now;
  match nd_con n with
  | None => Crashes
  | Some con =>
      con ← PointSocket.Start dial con now;
      Finished (with_parts n (nd_worker n) (Some con) (nd_tap n) true)
  end.

(** [Stop] waits for the goroutine of [Start] to take the end. *)
Definition w_Stop (n : Node) (now : Z) : run Node :=
  match nd_tap n, nd_con n with
  | Some tap, Some con =>
      if nd_ticks n then
        let w := FreeIpAddr (nd_worker n) in
        _ ← PointSocket.Stop encode_ping fuel con now;
        _ ← PointTap.Stop tap;
        Finished (with_parts n w None None false)
      else Blocks
  | _, _ => Finished n
  end.

Definition Initialize_ (n : Node) (cl : SocketClientImpl unit) (taper : result T) (up : T -> run T)
    (genHw : bytes) (random wrandom : string) (pid : Z) (pid_opens : bool) (now : Z) : run Node :=
  let '(n, uuid) := UUID n random in
  n ← w_Initialize (w_SetUUID n uuid) cl taper up genHw wrandom pid pid_opens now;
  Finished (match nc_http (nd_cfg n) with
            | Some h => with_services n (Some (x_NewHttp (Some h))) (nd_pprof n) (nd_status n) (nd_pidfile n)
            | None => n
            end).
Definition Start_ (n : Node) (now : Z) : run Node :=
  let listen := nc_pprof (nd_cfg n) in
  let n := if String.eqb listen "" then n
           else with_services n (nd_http n) (Some listen) (nd_status n) (nd_pidfile n) in
  w_Start n now.
(** [Stop] catches what panics in it; the log says so.  The worker's own panics are left as
    they are. *)
Definition Stop_ (n : Node) (now : Z) : run (Node * bool) :=
  match (match nd_http n with Some h => x_Shutdown h | None => Ret (x_NewHttp None) end) with
  | Panic => Finished (n, true)
  | Ret _ => n ← w_Stop n now; Finished (n, false)
  end.

End run.

(** ** The terminal *)

(** What a command prints: a map, the statistics, the configuration, the network, or the
    summary; or how the keys of the console are set. *)
Inductive term_out :=
| OutRecord (r : SafeStrInt64.t) | OutStatistics (s : SafeStrInt64.t) | OutConfig (c : node_cfg)
| OutNetwork (n : option Network.t)
| OutSummary (uuid : string) (uptime : Z) (dev status : string)
| SetVimMode (on : bool).

Definition Prompt (n : Node) : string :=
  ("[" +:+ User_ n +:+ "@" +:+ Alias n +:+ " " +:+ Tenant n +:+ "]# ")%string.
(** [random] is for a point that has no identity yet. *)
Definition CmdShow (n : Node) (args random : string) (now : Z) : go (list term_out) :=
  if String.eqb args "record" then r ← Record_ n; Ret [OutRecord r]
  else if String.eqb args "statistics" then
    Ret (match Client n with Some c => [OutStatistics (Statistics c)] | None => [] end)
  else if String.eqb args "config" then Ret [OutConfig (Config_ n)]
  else if String.eqb args "network" then Ret [OutNetwork (Network_ n)]
  else up ← UpTime n now;
       Ret [OutSummary (UUID n random).2 up (IfName n) (status_String (Status n))].
Definition CmdMode (args : string) : list term_out :=
  if String.eqb args "vi" then [SetVimMode true]
  else if String.eqb args "emacs" then [SetVimMode false] else [].

(** What the console answers: a line, an interrupt with what was typed, the end of the
    input, or another error, which the loop takes for the line that comes with it. *)
Inductive readline := RLine (s : string) | RInterrupt (s : string) | REof | RError (s : string).

Definition term_line (n : Node) (line random : string) (now : Z) : go (list term_out * bool) :=
  let line := Http.TrimSpace line in
  let rest pre := match strip pre line with Some r => Some (Http.TrimSpace r) | None => None end in
  match rest "mode "%string with
  | Some args => Ret (CmdMode args, true)
  | None =>
      if String.eqb line "show" then o ← CmdShow n "" random now; Ret (o, true)
      else if String.eqb line "quit" || String.eqb line "exit" then Ret ([], false)
      else match rest "show "%string with
           | Some args => o ← CmdShow n args random now; Ret (o, true)
           | None => Ret ([], true)      (* [edit] does nothing *)
           end
  end.
(** One round of [Start], and whether there is another. *)
Definition term_round (n : Node) (r : readline) (random : string) (now : Z) : go (list term_out * bool) :=
  match r with
  | RInterrupt s => Ret ([], negb (String.eqb s ""))
  | REof => Ret ([], false)
  | RLine s | RError s => term_line n s random now
  end.
(** The rounds on what the console answers; [false] when the loop has ended. *)
Fixpoint term_run (n : Node) (rs : list readline) (random : string) (now : Z) : go (list term_out * bool) :=
  match rs with
  | [] => Ret ([], true)
  | r :: rs =>
      o ← term_round n r random now;
      if (o : list term_out * bool).2 then
        o' ← term_run n rs random now; Ret (o.1 ++ (o' : list term_out * bool).1, o'.2)
      else Ret (o.1, false)
  end.

End node.
Arguments Node : clear implicits.

(** ** Linux *)

Section linux.
Context {K : Type} `{LinkKernel K}.

(** The bridge of the point, made when it is not there; [false] without one. *)
Definition UpBr (name : string) (k : K) : K * bool :=
  if String.eqb name "" then (k, false)
  else
    let k := if LinkByName k name then k else (LinkAdd k name 0).1 in
    if LinkByName k name then ((LinkSetUp k name).1, true) else (k, false).

(** [OnTap] for the device [name]: the kernel, [p.link] and whether it went well.  A
    virtual device is refused without an error. *)
Definition OnTap (virtual : bool) (name brName : string) (ipMtu cost : Z) (link : option string) (k : K)
    : K * option string * bool :=
  if virtual then (k, link, true)
  else if negb (LinkByName k name) then (k, link, false)
  else
    let k := (LinkSetMTU k name ipMtu).1 in
    let '(k, up) := UpBr brName k in
    let '(k, dev) :=
      if up then
        let k := (LinkSetMaster k name brName).1 in
        (k, if LinkByName k brName then Some brName else None)
      else (k, Some name) in
    let k := if 0 <? cost then (port_Cost name cost k).1 else k in
    (k, dev, true).

End linux.

(** The address of the switch without its port: what comes before the first colon. *)
Definition GetRemote {T} (n : Node T) : go string :=
  match nd_con n with
  | None => Ret ""%string
  | Some t => match client t with
              | None => Panic
              | Some c => Ret (default ""%string (SplitN (remoteAddr c) char_colon 2 !! 0%nat))
              end
  end.

(** What the main program does, by the setting for the terminal; only Linux knows the value
    off. *)
Inductive main_step := MPreNotify | MInitialize | MStart | MTerminal | MNotify | MWait | MStop.
Definition main_steps (goos terminal : string) : list main_step :=
  let off := String.eqb goos "linux" && String.eqb terminal "off" in
  (if off then [MPreNotify] else []) ++ [MInitialize; MStart] ++
  (if String.eqb terminal "on" then [MTerminal] else if off then [MNotify; MWait] else [MWait]) ++ [MStop].

(** ** Theorems: stopping *)

Section stop.
Context {T : Type} `{HT : Taper T}.
Context (goos : string) (encode_ping : PingMsg -> option bytes) (dial : Z -> result net_conn) (fuel : nat).

Lemma Close_events (c : SocketClientImpl unit) now : client_ok c ->
  exists c' ev, Socket.Close c now = Ret (c', ev) /\ (ev = [] \/ ev = [Socket.OnClose]).
Proof.
  intros Hm. unfold Socket.Close, IsOk, updateConn. case_bool_decide; [|eexists _, _; split; [done|by left]].
  unfold client_ok in Hm. destruct (status c =? ClTerminal); simpl; (destruct (message c); [|done]); simpl;
    eexists _, _; (split; [done|by right]).
Qed.
Lemma Terminal_events (c : SocketClientImpl unit) now : client_ok c ->
  exists c' ev, Terminal c now = Ret (c', ev) /\
    (forall t, zlen (events t) < evCap -> exists t', on_events t ev now = Finished t').
Proof.
  intros Hm. unfold Terminal.
  assert (Hs : client_ok (SetStatus c ClTerminal).1) by (unfold SetStatus; by destruct (_ =? _)).
  destruct (Close_events _ now Hs) as (c' & ev & Hc & Hev). revert Hc. unfold SetStatus.
  destruct (status c =? ClTerminal); simpl; intros ->; simpl; eexists _, _; (split; [done|]);
    intros t Ht; destruct Hev as [-> | ->]; simpl; eauto;
    unfold post, ev_push; simpl; rewrite (proj2 (Z.ltb_lt _ _) Ht); simpl; eauto.
Qed.

(** The socket worker can be stopped when its leave message goes out, or is refused, and
    there is room for one more event. *)
Lemma socket_Stop_finishes t t1 now :
  leave encode_ping fuel t now = Finished t1 -> sw_inv t1 -> client t1 <> None -> zlen (events t1) < evCap ->
  exists t', PointSocket.Stop encode_ping fuel t now = Finished t'.
Proof.
  intros Hl (Hc & _ & _) Hn Hq. unfold PointSocket.Stop. rewrite Hl. simpl.
  unfold cl_Terminal, with_client. destruct (client t1) as [c|]; [|done].
  destruct (Terminal_events c now Hc) as (c' & ev & -> & Hev). simpl.
  destruct (Hev (upd_client t1 (Some c')) Hq) as [t' ->]. simpl. eauto.
Qed.

(** Without a connection the leave message is refused at once. *)
Lemma leave_disconnected t c body now :
  client t = Some c -> connection c = None -> encode_ping (session_msg t c now) = Some body -> bytes_ok body ->
  exists t1, leave encode_ping fuel t now = Finished t1 /\ events t1 = events t /\
    exists c1, client t1 = Some c1 /\ message c1 = message c.
Proof.
  intros Hc Hn He Hb. unfold leave, sendLeave, send. rewrite Hc, He.
  destruct (control_roundtrip LeftReq body eq_refl Hb) as (m & -> & _). simpl.
  unfold cl_Write, with_client. rewrite Hc. unfold WriteMsg. rewrite Hn. simpl. eauto 10.
Qed.

Lemma tap_Stop_finishes (a : TapWorker T) :
  (forall d, device a = Some d -> exists r, Tap.Close d = Finished r) ->
  exists a', PointTap.Stop a = Finished a'.
Proof.
  intros H. unfold PointTap.Stop, PointTap.close. destruct (device a) as [d|]; simpl; [|eauto].
  destruct (H d eq_refl) as [r ->]. simpl. eauto.
Qed.

(** The calls [FreeIpAddr] makes. *)
Definition freed (w : PointWorker.Worker) : list wcall :=
  match w_network w with
  | Some nw => [DelRoutes (Network.Routes nw); DelAddr (ip_prefix nw)]
  | None => []
  end.
Lemma FreeIpAddr_frees w :
  w_network (FreeIpAddr w) = None /\ w_calls (FreeIpAddr w) = w_calls w ++ freed w.
Proof.
  unfold FreeIpAddr, freed. destruct (w_network w) as [nw|] eqn:E; simpl; [|by rewrite app_nil_r].
  by rewrite <- app_assoc.
Qed.

(** A running point without an HTTP server that is told to stop gives back the routes and
    the address of its network and drops both workers; a second call changes nothing. *)
Theorem point_stop_frees (n : Node T) con con1 tap now :
  nd_http n = None -> nd_con n = Some con -> nd_tap n = Some tap -> nd_ticks n = true ->
  leave encode_ping fuel con now = Finished con1 -> sw_inv con1 -> client con1 <> None ->
  zlen (events con1) < evCap -> (forall d, device tap = Some d -> exists r, Tap.Close d = Finished r) ->
  exists n', Stop_ encode_ping fuel n now = Finished (n', false) /\
    nd_con n' = None /\ nd_tap n' = None /\ Network_ n' = None /\
    w_calls (nd_worker n') = w_calls (nd_worker n) ++ freed (nd_worker n) /\
    Stop_ encode_ping fuel n' now = Finished (n', false).
Proof.
  intros Hh Hc Ht Hk Hl Hi Hn Hq Hd.
  destruct (socket_Stop_finishes con con1 now Hl Hi Hn Hq) as [t' Hs].
  destruct (tap_Stop_finishes tap Hd) as [a' Ha].
  destruct (FreeIpAddr_frees (nd_worker n)) as [Hf Hcalls].
  exists (with_parts n (FreeIpAddr (nd_worker n)) None None false).
  unfold Stop_, w_Stop. simpl. rewrite Hh, Hc, Ht, Hk, Hs. simpl. rewrite Ha. simpl. done.
Qed.

(** A point that is configured with an HTTP server makes one and never starts it: from
    [Initialize] and [Start] on, whatever its workers did since, [Stop] panics in the
    server's [Shutdown], is caught, and leaves the address, the routes and the workers as
    they are. *)
Theorem http_point_never_stops c pidfile h cl taper up genHw random wrandom pid opens now now' now2 n1 n2 w con tap ticks :
  nc_http c = Some h ->
  Initialize_ goos (NewMixPoint c pidfile) cl taper up genHw random wrandom pid opens now = Finished n1 ->
  Start_ goos dial n1 now' = Finished n2 ->
  let n3 := with_parts (n2 : Node T) w con tap ticks in
  Stop_ encode_ping fuel n3 now2 = Finished (n3, true) /\ nd_http n3 = Some (x_NewHttp (Some h)).
Proof.
  intros Hh Hi Hs n3. assert (H : nd_http n2 = Some (x_NewHttp (Some h))).
  { assert (H1 : nd_http n1 = Some (x_NewHttp (Some h))).
    { revert Hi. unfold Initialize_. destruct (UUID _ _) as [m u] eqn:Eu.
      destruct (w_Initialize _ _ _ _ _ _ _ _ _ _) as [m1| |] eqn:Ei; simpl; try done.
      intros [= <-]. assert (Hm : nd_cfg m1 = c).
      { revert Ei. unfold w_Initialize. injection Eu as <- <-. destruct (pt_Queue _); [|done].
        destruct (w_UUID _ _) as [m2 u2] eqn:E2. injection E2 as <- <-.
        destruct (PointSocket.Initialize _ _) as [t1| |]; simpl; try done.
        destruct (PointTap.Initialize _ _ _ _ _ _ _) as [a1| |]; simpl; try done. by intros [= <-]. }
      rewrite Hm, Hh. done. }
    revert Hs. unfold Start_, w_Start, FlushStatus. set (m := if String.eqb _ _ then _ else _).
    assert (Hm : nd_http m = Some (x_NewHttp (Some h))) by (unfold m; by destruct (String.eqb _ _)).
    clearbody m. destruct (nd_tap m) as [a|]; [|done]. destruct (nd_con m) as [t|]; [|done]. simpl.
    match goal with |- context [nd_con ?x] => set (m' := x) end.
    assert (Hm' : nd_http m' = Some (x_NewHttp (Some h))).
    { unfold m'. destruct (device a); [|exact Hm]. destruct (client t); [|exact Hm].
      destruct (String.eqb _ _); exact Hm. }
    destruct (nd_con m') as [t'|]; [|done]. destruct (PointSocket.Start _ _ _) as [t2| |]; simpl; try done.
    intros [= <-]. exact Hm'. }
  split; [|exact H]. unfold Stop_, n3. cbn [with_parts nd_http]. rewrite H. by destruct h.
Qed.

(** [Stop] waits for the goroutine that [Start] starts. *)
Lemma stop_waits_for_start (n : Node T) now con tap :
  nd_http n = None -> nd_con n = Some con -> nd_tap n = Some tap -> nd_ticks n = false ->
  Stop_ encode_ping fuel n now = Blocks.
Proof. intros Hh Hc Ht Hk. unfold Stop_, w_Stop. by rewrite Hh, Hc, Ht, Hk. Qed.

End stop.

Definition demo_point : Config.Point :=
  {| pt_Alias := "pi"; pt_Connection := "10.0.0.1:10002"; pt_Timeout := 60; pt_Username := "hi@net";
     pt_Network := "net"; pt_Password := "1"; pt_Protocol := "tcp";
     pt_Interface := {| if_Name := "tap0"; if_IPMtu := 1500; if_Address := ""; if_Bridge := ""; if_Provider := "kernel"; if_Cost := 0 |};
     pt_Log := {| log_File := ""; log_Verbose := 20 |}; pt_Crypt := None; pt_RequestAddr := true; pt_ByPass := false;
     pt_SaveFile := ""; pt_Queue := Some {| SockWr := 8; SockRd := 8; TapWr := 8; TapRd := 8; VirSnd := 8; VirWrt := 8 |};
     pt_Terminal := "off"; pt_Cert := None; pt_StatusFile := ""; pt_PidFile := "/run/point.pid" |}.
Definition demo_cfg (http : option (string * string)) : node_cfg :=
  {| nc_point := demo_point; nc_http := http; nc_pprof := "" |}.
Definition demo_con : SocketWorker := NewSocketWorker "linux" (NewTcpClient "10.0.0.1:10002" None 8 100) (pc_of demo_point) 100.
Definition demo_net1 : Network.t := demo_net "10.0.0.7" [Route.NewRoute "192.168.0.0/16" "10.0.0.1" ""].
Definition demo_node : Node KernelTap :=
  with_parts (NewMixPoint (demo_cfg None) "") (OnIpAddr (NewWorker "") demo_net1) (Some demo_con)
    (Some (upd_device (NewTapWorker (GetTapCfg "kernel" "tap0" "" 8 8)) (Some (demo_dev [])))) true.

Lemma point_stop_frees_witness :
  exists n', Stop_ (fun _ => None) 5 demo_node 200 = Finished (n', false) /\
    nd_con n' = None /\ nd_tap n' = None /\ Network_ n' = None /\
    w_calls (nd_worker n') = w_calls (nd_worker demo_node) ++
      [DelRoutes [Route.NewRoute "192.168.0.0/16" "10.0.0.1" ""]; DelAddr "10.0.0.7/24"] /\
    Stop_ (fun _ => None) 5 n' 200 = Finished (n', false).
Proof.
  assert (Hi : sw_inv demo_con) by (apply NewSocketWorker_inv; done).
  assert (Hn : client demo_con <> None) by done.
  assert (Hq : zlen (events demo_con) < evCap) by reflexivity.
  apply (point_stop_frees (fun _ => None) 5 demo_node demo_con demo_con
           (upd_device (NewTapWorker (GetTapCfg "kernel" "tap0" "" 8 8)) (Some (demo_dev []))) 200
           eq_refl eq_refl eq_refl eq_refl eq_refl Hi Hn Hq).
  intros d [= <-]. by eexists.
Defined.

Lemma http_point_never_stops_witness :
  exists n1 n2 : Node KernelTap,
    Initialize_ "linux" (NewMixPoint (demo_cfg (Some ("0.0.0.0:10001", "/var/openlan/point"))) "")
      (NewTcpClient "10.0.0.1:10002" None 8 100) (inl (demo_dev [])) (fun d => Finished d) [] "a1" "b2" 42 true 100 = Finished n1 /\
    Start_ "linux" (fun _ => inr not_okay) n1 100 = Finished n2 /\
    let n3 := with_parts n2 (OnIpAddr (nd_worker n2) demo_net1) (nd_con n2) (nd_tap n2) (nd_ticks n2) in
    Stop_ (fun _ => None) 5 n3 200 = Finished (n3, true) /\ Network_ n3 = Some demo_net1.
Proof.
  set (i := Initialize_ _ _ _ _ _ _ _ _ _ _ _).
  destruct i as [n1| |] eqn:Ei; [|exfalso; by vm_compute in Ei|exfalso; by vm_compute in Ei].
  exists n1. destruct (Start_ "linux" (fun _ => inr not_okay) n1 100) as [n2| |] eqn:Es.
  - exists n2. split; [done|]. split; [done|].
    split; [|by unfold Network_; cbn [with_parts nd_worker];
              vm_compute in Ei; injection Ei as <-; vm_compute in Es; injection Es as <-; reflexivity].
    destruct (http_point_never_stops "linux" (fun _ => None) (fun _ => inr not_okay) 5
      (demo_cfg (Some ("0.0.0.0:10001", "/var/openlan/point")%string)) "" ("0.0.0.0:10001", "/var/openlan/point")%string
      _ _ _ _ _ _ _ _ _ _ 200 n1 n2 (OnIpAddr (nd_worker n2) demo_net1) (nd_con n2) (nd_tap n2) (nd_ticks n2)
      eq_refl Ei Es) as [H _]. exact H.
  - exfalso. vm_compute in Ei. injection Ei as <-. by vm_compute in Es.
  - exfalso. vm_compute in Ei. injection Ei as <-. by vm_compute in Es.
Defined.

(** ** Theorems: starting *)

Section start.
Context {T : Type} `{HT : Taper T}.

(** The number of the process is added to the end of the pid file. *)
Lemma pid_appended goos (n : Node T) cl taper up genHw random pid now n' :
  w_Initialize goos n cl taper up genHw random pid true now = Finished n' ->
  nd_pidfile n' = (nd_pidfile n +:+ FormatInt pid)%string.
Proof.
  unfold w_Initialize. destruct (pt_Queue _); [|done]. simpl.
  destruct (PointTap.Initialize _ _ _ _ _ _ _) as [a1| |]; simpl; try done. by intros [= <-].
Qed.

(** The point, its worker and the user that logs in share one identity. *)
Lemma one_identity goos (n : Node T) cl taper up genHw random wrandom pid opens now n' :
  random <> ""%string ->
  Initialize_ goos n cl taper up genHw random wrandom pid opens now = Finished n' ->
  nd_uuid n' = made (nd_uuid n) random /\ nd_wuuid n' = nd_uuid n' /\
  exists t, nd_con n' = Some t /\ User.UUID (user t) = nd_uuid n'.
Proof.
  intros Hr. unfold Initialize_. simpl. unfold w_Initialize. destruct (pt_Queue _); [|done].
  simpl. set (u := made (nd_uuid n) random).
  assert (Hu : made u wrandom = u).
  { unfold u, made. destruct (String.eqb (nd_uuid n) "") eqn:E; [|by rewrite E].
    by rewrite (proj2 (String.eqb_neq _ _) Hr). }
  rewrite Hu. destruct (PointTap.Initialize _ _ _ _ _ _ _) as [a1| |]; simpl; try done.
  destruct (nc_http (nd_cfg n)); intros [= <-]; simpl; split; eauto.
Qed.

(** ** Theorems: the terminal *)

Lemma terminal_quits (n : Node T) r rs random now :
  r ∈ [RLine "quit"; RLine "exit"; RInterrupt ""; REof] -> term_run n (r :: rs) random now = Ret ([], false).
Proof. intros H. repeat (apply elem_of_cons in H as [->|H]; [done|]). by apply elem_of_nil in H. Qed.

(** An error of the console other than the end of its input goes round for ever. *)
Lemma terminal_spins (n : Node T) k random now :
  term_run n (replicate k (RError "")) random now = Ret ([], true).
Proof. induction k as [|k IH]; [done|]. simpl. by rewrite IH. Qed.

(** While the socket worker is there, no line takes the point down. *)
Lemma terminal_safe (n : Node T) rs random now :
  nd_con n <> None -> returns (term_run n rs random now).
Proof.
  intros Hc. assert (Hs : forall args, returns (CmdShow n args random now)).
  { intros args. unfold CmdShow, Record_, UpTime. destruct (nd_con n); [|done].
    repeat (destruct (String.eqb _ _); [by eexists|]). by eexists. }
  assert (Hl : forall line, returns (term_line n line random now)).
  { intros line. unfold term_line. destruct (strip "mode " _); [by eexists|].
    destruct (String.eqb _ _); [destruct (Hs ""%string) as [o ->]; by eexists|].
    destruct (_ || _); [by eexists|]. destruct (strip "show " _) as [a|]; [|by eexists].
    destruct (Hs (Http.TrimSpace a)) as [o ->]. by eexists. }
  induction rs as [|r rs [o Ho]]; [by eexists|]. simpl.
  assert (Hr : returns (term_round n r random now)) by (destruct r; simpl; first [apply Hl|by eexists]).
  destruct Hr as [[o1 b] ->]. simpl. destruct b; [|by eexists]. rewrite Ho. by eexists.
Qed.

End start.

(** ** Theorems: the HTTP server *)

(** Who does not name the token is told neither the identity nor the configuration. *)
Lemma config_needs_token to_json to_yaml to_json' to_yaml' url h uuid uuid' q :
  x_IsAuth h q = false -> x_ServeHTTP to_json to_yaml url h uuid q = x_ServeHTTP to_json' to_yaml' url h uuid' q.
Proof. intros H. unfold x_ServeHTTP. by destruct (Mux.dispatch _ _ _); rewrite ?H. Qed.

(** ** Theorems: Linux *)

Section linux_theorems.
Context {K : Type} `{HK : LinkKernel K} `{!LinkLaws K}.

(** A device that comes up is put into the bridge of the point, and the addresses go to
    the bridge from then on. *)
Lemma OnTap_bridged name brName ipMtu cost link k k3 :
  LinkByName k name = true -> brName <> ""%string -> cost <= 0 ->
  (UpBr brName (LinkSetMTU k name ipMtu).1).2 = true ->
  LinkSetMaster (UpBr brName (LinkSetMTU k name ipMtu).1).1 name brName = (k3, true) ->
  LinkByName k3 brName = true ->
  OnTap false name brName ipMtu cost link k = (k3, Some brName, true) /\ master_of k3 name = Some brName.
Proof.
  intros Hn Hb Hc Hu Hm Hk. unfold OnTap. rewrite Hn. simpl.
  destruct (UpBr brName _) as [k2 up]. simpl in *. subst up. rewrite Hm. simpl. rewrite Hk.
  rewrite (proj2 (Z.ltb_ge _ _)) by lia. split; [done|].
  rewrite (law_master _ _ _ _ Hm). by rewrite String.eqb_refl.
Qed.

(** Without a bridge the addresses go to the device. *)
Lemma OnTap_alone name ipMtu link k :
  LinkByName k name = true -> OnTap false name "" ipMtu 0 link k = ((LinkSetMTU k name ipMtu).1, Some name, true).
Proof. intros Hn. unfold OnTap. by rewrite Hn. Qed.

(** A virtual device leaves the point without a link: no address is ever set. *)
Lemma OnTap_virtual name brName ipMtu cost k : OnTap true name brName ipMtu cost None k = (k, None, true).
Proof. done. Qed.

End linux_theorems.

(** The remote address of a switch by IPv6 is cut at its first colon. *)
Example remote_ipv6 : SplitN "[fd00::1]:10002" char_colon 2 = ["[fd00"; ":1]:10002"]%string.
Proof. reflexivity. Qed.

(** The point is made and started first and stopped last. *)
Lemma main_order goos terminal : exists l r,
  main_steps goos terminal = l ++ [MInitialize; MStart] ++ r ++ [MStop] /\ MStop ∉ l ++ r.
Proof.
  unfold main_steps. destruct (String.eqb goos "linux" && _), (String.eqb terminal "on");
    eexists _, _; (split; [reflexivity|]); set_solver.
Qed.
