(* ===== verification/SwitchNode.v ===== *)
(** * The switch from start to stop (pkg/olsw/switch.go, pkg/cmd/switch)

    [Initialize], [Start] and [Stop] of the switch, which put together what the other
    files model: the firewall of [Rules] and [FireWall], the hooks of [Switch], the
    workers of [Node], each with the tables all of them share, the users of [UserCache]
    and the tokens of [Http].  The goroutines that are started, and the order in which
    things are asked, are in a log. *)

From S2P Require Import Prelude GoStd Utils Protocol SafeMap Tap Bridge FireWall Models UserCache NetCache Cache Socket Apps.
From S2P Require Rules.
From S2P Require Switch Relay.
From S2P Require Import OpenLAN Esp Fabric Vpn VpnClients Worker ConfigFiles Schema Api Node Http Config.

Local Open Scope Z_scope.

(** ** The configuration *)

(** What the rules of the packet filter are made of. *)
Fixpoint rules_vpn (v : Config.OpenVPN) : Rules.OpenVPN :=
  let f := vpn_Fields v in
  {| Rules.vpn_Listen := vf_Listen f; Rules.vpn_Protocol := vf_Protocol f; Rules.vpn_Subnet := vf_Subnet f;
     Rules.vpn_Device := vf_Device f; Rules.vpn_Routes := vf_Routes f; Rules.vpn_Push := vf_Push f;
     Rules.vpn_Breed := map (option_map rules_vpn) (vpn_Breed v) |}.
Definition rules_route (r : Config.PrefixRoute) : Rules.PrefixRoute :=
  {| Rules.Prefix := rt_Prefix r; Rules.NextHop := rt_NextHop r;
     Rules.MultiPath := match rt_MultiPath r with Some _ => true | None => false end; Rules.Mode := rt_Mode r |}.
Definition rules_net (n : Config.Network) : Rules.Network :=
  {| Rules.net_Name := net_Name n; Rules.net_Provider := net_Provider n;
     Rules.net_Bridge := option_map (fun b => {| Rules.br_Name := br_Name b; Rules.br_Address := br_Address b; Rules.br_Mss := br_Mss b |}) (net_Bridge n);
     Rules.net_Subnet := option_map (fun s => {| Rules.Start := sub_Start s; Rules.Netmask := sub_Netmask s |}) (net_Subnet n);
     Rules.net_OpenVPN := option_map rules_vpn (net_OpenVPN n);
     Rules.net_Routes := map rules_route (net_Routes n); Rules.net_Acl := net_Acl n |}.
(** A nil network panics where it is looked at first. *)
Fixpoint all_there {A} (l : list (option A)) : go (list A) :=
  match l with
  | [] => Ret []
  | None :: _ => Panic
  | Some a :: l => r ← all_there l; Ret (a :: r)
  end.
Definition rules_cfg (c : Config.Switch) (nets : list Config.Network) (acls : list acl_file) : Rules.SwitchCfg :=
  {| Rules.cfg_Listen := Config.sw_Listen c; Rules.cfg_Http := option_map http_Listen (sw_Http c);
     Rules.cfg_Network := map rules_net nets; Rules.cfg_Acl := map acl_List acls; Rules.cfg_FireWall := sw_FireWall c |}.

(** [preWorkerVPN] changes the configuration of the VPN in place: the worker, made before,
    starts its servers with the routes and options it added. *)
Definition with_routes (f : VPNFields) (routes push : list string) : VPNFields :=
  {| vf_Network := vf_Network f; vf_Directory := vf_Directory f; vf_Listen := vf_Listen f; vf_Protocol := vf_Protocol f;
     vf_Subnet := vf_Subnet f; vf_Device := vf_Device f; vf_Version := vf_Version f; vf_Auth := vf_Auth f;
     vf_DhPem := vf_DhPem f; vf_RootCa := vf_RootCa f; vf_ServerCrt := vf_ServerCrt f; vf_ServerKey := vf_ServerKey f;
     vf_TlsAuth := vf_TlsAuth f; vf_Cipher := vf_Cipher f; vf_Routes := routes; vf_Renego := vf_Renego f;
     vf_Script := vf_Script f; vf_Push := push; vf_Clients := vf_Clients f |}.
Fixpoint complete_vpn (subnet : string) (rts : list Rules.PrefixRoute) (v : Config.OpenVPN) : Config.OpenVPN :=
  let f := vpn_Fields v in
  let routes := vf_Routes f ++ [vf_Subnet f] in
  let routes := if String.eqb subnet "" then routes else routes ++ [subnet] in
  let '(routes, push) := foldl Rules.vpn_route (routes, vf_Push f) rts in
  {| vpn_Fields := with_routes f routes push; vpn_Breed := map (option_map (complete_vpn subnet rts)) (vpn_Breed v) |}.
Definition set_vpn (n : Config.Network) (v : option Config.OpenVPN) : Config.Network :=
  {| net_ConfDir := net_ConfDir n; net_File := net_File n; net_Alias := net_Alias n; net_Name := net_Name n;
     net_Provider := net_Provider n; net_Bridge := net_Bridge n; net_Subnet := net_Subnet n; net_OpenVPN := v;
     net_Links := net_Links n; net_Hosts := net_Hosts n; net_Routes := net_Routes n; net_Password := net_Password n;
     net_Acl := net_Acl n; net_Specifies := net_Specifies n |}.
Definition complete_net (n : Config.Network) : go Config.Network :=
  match net_Bridge n, net_OpenVPN n with
  | Some _, Some v =>
      s ← Rules.GetSubnet (rules_net n);
      Ret (set_vpn n (Some (complete_vpn s (map rules_route (net_Routes n)) v)))
  | _, _ => Ret n
  end.

(** ** What the workers share *)

Record shared := { sh_lan : OpenLAN.tables; sh_esp : Esp.tables; sh_host : host; sh_taps : Tap.tapers }.
Definition sh_set_esp (sh : shared) (t : Esp.tables) : shared :=
  {| sh_lan := sh_lan sh; sh_esp := t; sh_host := sh_host sh; sh_taps := sh_taps sh |}.
(** A worker of an OpenLAN network, with the tables as they are now, and the tables after
    it worked on them. *)
Definition enter (l : lan) (sh : shared) : lan :=
  {| lan_worker := set_links (lan_worker l) (ow_links (lan_worker l)) (ow_store (lan_worker l)) (t_link (sh_lan sh))
                     (sh_taps sh) (ow_actions (lan_worker l));
     lan_tables := sh_lan sh; lan_host := sh_host sh; lan_vpn := lan_vpn l; lan_up := lan_up l; lan_events := lan_events l |}.
Definition leave (l : lan) (sh : shared) : shared :=
  {| sh_lan := lan_tables l; sh_esp := sh_esp sh; sh_host := lan_host l; sh_taps := ow_taps (lan_worker l) |}.

(** ** The switch *)

(** What is done, in order: the calls of workers with what they ask of the kernel, the
    goroutines, the messages to points. *)
Inductive sys_event :=
| EvInitialized (name : string) (bs : list brcall)
| EvStarted (name : string) (xs : list Esp.request) (vs : list VxLAN.request)
| EvStopped (name : string) (xs : list Esp.request) (vs : list VxLAN.request)
| EvOpenUDP | EvAccept | EvLoop | EvHttpStart | EvConfdStart | EvFirewallStart
| EvLeft (c : string) | EvFirewallStop | EvHttpShutdown | EvServerClose.

Section switch.
Context {K : Type} `{HK : Iptables K} (linux : bool).
(** What the kernel refuses, per kind of worker; the system and the name of the host. *)
Context (has link_ok : string -> bool) (addr_ok : string -> string -> bool).
Context (dump : string -> option Z) (add_ok set_ok : string -> bool) (dev_index : string -> option Z) (vlan_ok ovs_ok : string -> bool).
Context (ports : gmap string OvsPort -> list (string * OvsPort)).
Context (denied : string -> bool) (os alias : string).
(** The order of maps, random texts, certificates that load, LDAP servers, times of leases. *)
Context (order : gmap string Networker -> list (string * Networker)) (links : gmap string Link -> list (string * Link)).
Context (bridges : FabricWorker -> list string) (points : PointCache.t -> list Point.t).
Context (random : string) (uuids : string -> nat -> string) (loads : string -> string -> bool).
Context (dial : LDAPConfig -> option LDAPService) (parse_lease : string -> Z).

(** [rn_http] is the server of the API, [rn_frames] the side of the frames, whose world has
    the tables of users, networks and points. *)
Record running := {
  rn_conf : Config.Switch; rn_node : node K; rn_frames : Switch.Switch; rn_links : LinkCache.t; rn_esp : Esp.tables;
  rn_host : host; rn_taps : Tap.tapers; rn_http : option Http.Http; rn_log : list sys_event
}.

Definition with_firewall (v : node K) (f : FireWall) (k : K) : node K :=
  {| n_cfg := n_cfg v; n_firewall := f; n_kernel := k; n_worker := n_worker v; n_uuid := n_uuid v;
     n_newTime := n_newTime v; n_server := n_server v; n_clients := n_clients v; n_asked := n_asked v |}.
Definition with_workers (v : node K) (ws : gmap string Networker) : node K :=
  {| n_cfg := n_cfg v; n_firewall := n_firewall v; n_kernel := n_kernel v; n_worker := ws;
     n_uuid := n_uuid v; n_newTime := n_newTime v; n_server := n_server v; n_clients := n_clients v; n_asked := n_asked v |}.
Definition rn_set (s : running) (v : node K) (fr : Switch.Switch) (lk : LinkCache.t) (e : Esp.tables) (h : host)
    (taps : Tap.tapers) (http : option Http.Http) (log : list sys_event) : running :=
  {| rn_conf := rn_conf s; rn_node := v; rn_frames := fr; rn_links := lk; rn_esp := e; rn_host := h; rn_taps := taps;
     rn_http := http; rn_log := rn_log s ++ log |}.

Definition set_tables (w : world) (us : user) (ns : NetCache.network) : world :=
  {| w_users := us; w_nets := ns; w_points := w_points w; w_neighbors := w_neighbors w; w_lines := w_lines w;
     w_clients := w_clients w; w_effects := w_effects w |}.
Definition share (s : running) : shared :=
  let w := Switch.sw_world (rn_frames s) in
  {| sh_lan := {| t_user := w_users w; t_network := w_nets w; t_link := rn_links s |}; sh_esp := rn_esp s;
     sh_host := rn_host s; sh_taps := rn_taps s |}.
Definition unshare (s : running) (v : node K) (sh : shared) (log : list sys_event) : running :=
  let fr := rn_frames s in
  rn_set s v (Switch.sw_upd fr (set_tables (Switch.sw_world fr) (t_user (sh_lan sh)) (t_network (sh_lan sh))))
    (t_link (sh_lan sh)) (sh_esp sh) (sh_host sh) (sh_taps sh) (rn_http s) log.

(** [NewSwitch] *)
Definition NewSwitch (c : Config.Switch) (k : K) (fr : Switch.Switch) (lk : LinkCache.t) (e : Esp.tables) (h : host)
    (taps : Tap.tapers) (now : Z) : running :=
  {| rn_conf := c;
     rn_node := {| n_cfg := c; n_firewall := NewFireWall (sw_FireWall c); n_kernel := k; n_worker := ∅;
                   n_uuid := ""; n_newTime := now; n_server := sv_impl (GetSocketServer loads c); n_clients := ∅;
                   n_asked := [] |};
     rn_frames := fr; rn_links := lk; rn_esp := e; rn_host := h; rn_taps := taps; rn_http := None; rn_log := [] |}.

(** ** Initialize *)

(** The workers of [preNets]: of two networks of one name the later one. *)
Fixpoint make_workers (nets : list Config.Network) (sh : shared) (ws : gmap string Networker) : go (gmap string Networker) :=
  match nets with
  | [] => Ret ws
  | n :: nets =>
      n ← complete_net n;
      w ← NewNetworker n (sh_lan sh) (sh_taps sh) (sh_host sh);
      make_workers nets sh (<[net_Name n := w]> ws)
  end.
Definition init_worker (now : Z) (w : Networker) (sh : shared) : go (Networker * shared * list brcall) :=
  match w with
  | WEsp e => r ← esp_Initialize e (sh_esp sh); Ret (WEsp r.1, sh_set_esp sh r.2, [])
  | WVxLAN c => Ret (w, sh, VxLAN.Initialize c)
  | WFabric f => Ret (WFabric (fabric_Initialize (ovs_ok (fw_name f)) f), sh, [])
  | WLan l => l ← Worker.Initialize denied now (enter l sh); Ret (WLan l, leave l sh, [])
  end.
Fixpoint init_each (now : Z) (ws : list (string * Networker)) (m : gmap string Networker) (sh : shared)
    : go (gmap string Networker * shared * list sys_event) :=
  match ws with
  | [] => Ret (m, sh, [])
  | (nm, w) :: ws =>
      r ← init_worker now w sh;
      r2 ← init_each now ws (<[nm := r.1.1]> m) r.1.2;
      Ret (r2.1, EvInitialized nm r.2 :: r2.2)
  end.

(** [SetPass], [LoadPass] and [SetLdap] *)
Definition ldap_config (l : LDAP) : LDAPConfig :=
  {| Server := ldap_Server l; lc_BindDN := ldap_BindDN l; lc_Password := ldap_Password l; lc_BaseDN := ldap_BaseDN l;
     lc_Attr := ldap_Attribute l; lc_Filter := ldap_Filter l; lc_EnableTls := ldap_EnableTls l; Timeout_ := 0 |}.
Definition load_pass (c : Config.Switch) (passwd : option string) (now : Z) (us : user) : user :=
  let us := UserCache.Load parse_lease (SetFile us (sw_PassFile c)) passwd now in
  match sw_Ldap c with
  | Some l => if String.eqb (ldap_Server l) "" then us else SetLdap dial us (ldap_config l)
  | None => us
  end.

(** [passwd] is the text of the file of users, if it can be read. *)
Definition Initialize (passwd : option string) (now : Z) (s : running) : go running :=
  let c := rn_conf s in
  nets ← all_there (sw_Network c);
  acls ← all_there (sw_Acl c);
  f ← Rules.switch_firewall (rules_cfg c nets acls);
  http ← (match sw_Http c with None => Ret None | Some _ => h ← NewHttp c; Ret (Some h) end : go (option Http.Http));
  ws ← make_workers nets (share s) (n_worker (rn_node s));
  r ← init_each now (order ws) ws (share s);
  let '(ws, sh, log) := r in
  let v := with_workers (with_firewall (rn_node s) f (n_kernel (rn_node s))) ws in
  let s := unshare s v sh log in
  let w := Switch.sw_world (rn_frames s) in
  let fr := Switch.preApps (Switch.sw_upd (rn_frames s) (set_tables w (load_pass c passwd now (w_users w)) (w_nets w)))
              (sw_Inspect c) (perf_OnLine (sw_Perf c)) in
  Ret (rn_set s v fr (rn_links s) (rn_esp s) (rn_host s) (rn_taps s) http []).

(** ** Start *)

(** The index of the bridge of a network in the kernel. *)
Definition lan_index (l : lan) : option Z :=
  match net_Bridge (ow_cfg (lan_worker l)) with Some br => dev_index (br_Name br) | None => None end.
(** A fabric adds its rules to the firewall when it starts. *)
Definition start_worker (uuid : string) (now : Z) (nm : string) (w : Networker) (sh : shared) (f : FireWall)
    : go (Networker * shared * FireWall * sys_event) :=
  match w with
  | WEsp e =>
      r ← esp_Start has link_ok addr_ok e (sh_esp sh) uuid;
      Ret (WEsp r.1.1, sh_set_esp sh r.1.2, f, EvStarted nm r.2 [])
  | WVxLAN c => r ← VxLAN.Start has link_ok c; Ret (w, sh, f, EvStarted nm [] r)
  | WFabric b =>
      r ← fabric_Start dump add_ok set_ok dev_index vlan_ok ports b f;
      Ret (WFabric r.1, sh, r.2, EvStarted nm [] [])
  | WLan l =>
      l ← Worker.Start denied os alias uuid (uuids nm) (lan_index l) now (enter l sh);
      Ret (WLan l, leave l sh, f, EvStarted nm [] [])
  end.
Fixpoint start_each (uuid : string) (now : Z) (ws : list (string * Networker)) (m : gmap string Networker) (sh : shared)
    (f : FireWall) : go (gmap string Networker * shared * FireWall * list sys_event) :=
  match ws with
  | [] => Ret (m, sh, f, [])
  | (nm, w) :: ws =>
      r ← start_worker uuid now nm w sh f;
      let '(w, sh, f, e) := r in
      r2 ← start_each uuid now ws (<[nm := w]> m) sh f;
      Ret (r2.1, e :: r2.2)
  end.
(** The firewall is started in a goroutine, where a panic is caught. *)
Definition Start (now : Z) (s : running) : go running :=
  let '(v, uuid) := Node.UUID random (rn_node s) in
  r ← start_each uuid now (order (n_worker v)) (n_worker v) (share s) (n_firewall v);
  let '(ws, sh, f, log) := r in
  let v := with_workers (with_firewall v f (install_caught linux f (n_kernel v))) ws in
  Ret (unshare s v sh ([EvOpenUDP] ++ log ++ [EvAccept; EvLoop] ++
    match rn_http s with Some _ => [EvHttpStart] | None => [] end ++ [EvFirewallStart; EvConfdStart])).

(** ** Stop *)

Definition stop_worker (nm : string) (w : Networker) (sh : shared) : go (Networker * shared * sys_event) :=
  match w with
  | WEsp e => r ← esp_Stop has e; Ret (WEsp r.1, sh, EvStopped nm r.2 [])
  | WVxLAN c => r ← VxLAN.Stop has c; Ret (w, sh, EvStopped nm [] r)
  | WFabric b => b ← fabric_Stop b (bridges b); Ret (WFabric b, sh, EvStopped nm [] [])
  | WLan l =>
      l ← Worker.Stop denied (links (ow_links (lan_worker l))) (lan_index l) (enter l sh);
      Ret (WLan l, leave l sh, EvStopped nm [] [])
  end.
Fixpoint stop_each (ws : list (string * Networker)) (m : gmap string Networker) (sh : shared)
    : go (gmap string Networker * shared * list sys_event) :=
  match ws with
  | [] => Ret (m, sh, [])
  | (nm, w) :: ws =>
      r ← stop_worker nm w sh;
      r2 ← stop_each ws (<[nm := r.1.1]> m) r.1.2;
      Ret (r2.1, r.2 :: r2.2)
  end.
(** Every point of the table is told to leave; a panic of the firewall goes on. *)
Definition Stop (encode_left : string -> string -> option bytes) (s : running) : go running :=
  let w := Switch.sw_world (rn_frames s) in
  let cs := map Point.Client (points (w_points w)) in
  let v := match cs with [] => rn_node s | _ => (Node.UUID random (rn_node s)).1 end in
  let fr := Switch.sw_upd (rn_frames s) (foldl (Relay.leftClient encode_left) w cs) in
  k ← FireWall.Stop linux (n_firewall v) (n_kernel v);
  let log := map EvLeft cs ++ [EvFirewallStop] ++ match rn_http s with Some _ => [EvHttpShutdown] | None => [] end ++
             [EvServerClose] in
  let s := rn_set s (with_firewall v (n_firewall v) k) fr (rn_links s) (rn_esp s) (rn_host s) (rn_taps s) None log in
  r ← stop_each (order (n_worker v)) (n_worker v) (share s);
  let '(ws, sh, log) := r in
  Ret (unshare s (with_workers (rn_node s) ws) sh log).

(** The configuration, the time of the start and the side of the frames are looked at by
    others. *)
Definition Server (s : running) : SocketServerImpl := n_server (rn_node s).
Definition Firewall (s : running) : FireWall := n_firewall (rn_node s).
Definition worker_of (s : running) (tenant : string) : option Networker := n_worker (rn_node s) !! tenant.

End switch.
Arguments running : clear implicits.

(** * Properties *)

(** ** The configuration of the rules *)

(** The worker's VPN servers get the routes and options the rules are made with. *)
Lemma complete_vpn_rules subnet rts v : rules_vpn (complete_vpn subnet rts v) = Rules.preWorkerVPN subnet rts (rules_vpn v).
Proof.
  induction v as [f b IH] using vpn_ind. cbn [complete_vpn Rules.preWorkerVPN rules_vpn vpn_Fields vpn_Breed
    Rules.vpn_Routes Rules.vpn_Subnet Rules.vpn_Push Rules.vpn_Breed].
  destruct (foldl Rules.vpn_route _ _) as [routes push]. cbn. f_equal.
  rewrite !map_map. apply map_ext_in. intros [w|] Hw; [|done]. simpl. f_equal.
  rewrite Forall_forall in IH. apply (IH (Some w)). by apply list_elem_of_In.
Qed.

(** ** Kinds of workers *)

Definition kind (w : Networker) : OpenLAN.networker :=
  match w with
  | WEsp _ => OpenLAN.ESPWorker
  | WVxLAN _ => OpenLAN.VxLANWorker
  | WFabric _ => OpenLAN.FabricWorker
  | WLan _ => OpenLAN.OpenLANWorker
  end.
Definition kinds (m : gmap string Networker) (nm : string) : option OpenLAN.networker := kind <$> m !! nm.
(** The kind the configuration asks for: that of the last network of the name. *)
Definition wanted (nets : list Config.Network) (nm : string) : option OpenLAN.networker :=
  foldl (fun a n => if String.eqb (net_Name n) nm then Some (OpenLAN.NewNetworker (net_Provider n)) else a) None nets.
Definition wanted_from (a : option OpenLAN.networker) (nets : list Config.Network) (nm : string) : option OpenLAN.networker :=
  foldl (fun a n => if String.eqb (net_Name n) nm then Some (OpenLAN.NewNetworker (net_Provider n)) else a) a nets.

Lemma complete_net_same n n' : complete_net n = Ret n' -> net_Name n' = net_Name n /\ net_Provider n' = net_Provider n.
Proof.
  unfold complete_net. destruct (net_Bridge n), (net_OpenVPN n); try by intros [= <-].
  intros H. by apply go_bind_ret in H as (s & _ & [= <-]).
Qed.
Lemma NewNetworker_kind n t taps h w : NewNetworker n t taps h = Ret w -> kind w = OpenLAN.NewNetworker (net_Provider n).
Proof.
  unfold NewNetworker. destruct (OpenLAN.NewNetworker (net_Provider n)); try by intros [= <-].
  intros H. by apply go_bind_ret in H as (b & _ & [= <-]).
Qed.
Lemma kinds_insert m nm w nm' : kinds (<[nm := w]> m) nm' = if decide (nm = nm') then Some (kind w) else kinds m nm'.
Proof. unfold kinds. case_decide as H; [subst; by rewrite lookup_insert_eq|by rewrite lookup_insert_ne]. Qed.

(** A step that keeps the kind of a worker keeps those of all when its result is put back. *)
Lemma kinds_kept m nm w w' : kind w' = kind w -> kinds m nm = Some (kind w) -> forall nm', kinds (<[nm := w']> m) nm' = kinds m nm'.
Proof. intros Hk Hm nm'. rewrite kinds_insert. case_decide as H; [subst; by rewrite Hk|done]. Qed.

(** The names in the log. *)
Definition ev_init (e : sys_event) : option string := match e with EvInitialized nm _ => Some nm | _ => None end.
Definition ev_start (e : sys_event) : option string := match e with EvStarted nm _ _ => Some nm | _ => None end.
Definition ev_stop (e : sys_event) : option string := match e with EvStopped nm _ _ => Some nm | _ => None end.

Section lifecycle.
Context {K : Type} `{HK : Iptables K}.
Context (has link_ok : string -> bool) (addr_ok : string -> string -> bool).
Context (dump : string -> option Z) (add_ok set_ok : string -> bool) (dev_index : string -> option Z) (vlan_ok ovs_ok : string -> bool).
Context (ports : gmap string OvsPort -> list (string * OvsPort)).
Context (denied : string -> bool) (os alias : string).
Context (order : gmap string Networker -> list (string * Networker)) (links : gmap string Link -> list (string * Link)).
Context (bridges : FabricWorker -> list string) (points : PointCache.t -> list Point.t).
Context (random : string) (uuids : string -> nat -> string) (loads : string -> string -> bool).
Context (dial : LDAPConfig -> option LDAPService) (parse_lease : string -> Z).

Lemma make_workers_kinds nets : forall sh ws ws', make_workers nets sh ws = Ret ws' ->
  forall nm, kinds ws' nm = wanted_from (kinds ws nm) nets nm.
Proof.
  induction nets as [|n nets IH]; intros sh ws ws' H nm; [by injection H as <-|].
  cbn [make_workers] in H. apply go_bind_ret in H as (n' & Hn & H). apply go_bind_ret in H as (w & Hw & H).
  rewrite (IH _ _ _ H). destruct (complete_net_same _ _ Hn) as [En Ep]. rewrite kinds_insert, (NewNetworker_kind _ _ _ _ _ Hw), En, Ep.
  unfold wanted_from. simpl. f_equal. destruct (String.eqb_spec (net_Name n) nm) as [E|E]; [by rewrite decide_True|by rewrite decide_False].
Qed.

Lemma init_worker_kind now w sh w' sh' bs : init_worker ovs_ok denied now w sh = Ret (w', sh', bs) -> kind w' = kind w.
Proof.
  destruct w as [e|c|f|l]; cbn [init_worker]; [|by intros [= <- _ _]|by intros [= <- _ _]|];
    intros H; by apply go_bind_ret in H as (r & _ & [= <- _ _]).
Qed.
Lemma start_worker_kind uuid now nm w sh f w' sh' f' e :
  start_worker has link_ok addr_ok dump add_ok set_ok dev_index vlan_ok ports denied os alias uuids uuid now nm w sh f = Ret (w', sh', f', e) ->
  kind w' = kind w /\ ev_start e = Some nm /\ ev_init e = None /\ ev_stop e = None.
Proof.
  destruct w as [x|c|b|l]; cbn [start_worker]; intros H; apply go_bind_ret in H as (r & _ & [= <- _ _ <-]); done.
Qed.
Lemma stop_worker_kind nm w sh w' sh' e :
  stop_worker has dev_index denied links bridges nm w sh = Ret (w', sh', e) ->
  kind w' = kind w /\ ev_stop e = Some nm /\ ev_init e = None /\ ev_start e = None.
Proof.
  destruct w as [x|c|b|l]; cbn [stop_worker]; intros H; apply go_bind_ret in H as (r & _ & [= <- _ <-]); done.
Qed.

(** The workers in the list are in the map, by kind. *)
Definition listed (ws : list (string * Networker)) (m : gmap string Networker) : Prop :=
  forall nm w, (nm, w) ∈ ws -> kinds m nm = Some (kind w).
Lemma listed_step nm w ws m w' : kind w' = kind w -> listed ((nm, w) :: ws) m ->
  (forall nm', kinds (<[nm := w']> m) nm' = kinds m nm') /\ listed ws (<[nm := w']> m).
Proof.
  intros Hk Hl. assert (Hs : forall nm', kinds (<[nm := w']> m) nm' = kinds m nm').
  { apply (kinds_kept m nm w w' Hk), Hl. by left. }
  split; [done|]. intros nm1 w1 H1. rewrite Hs. apply Hl. by right.
Qed.
Lemma listed_order m : (forall m, order m ≡ₚ map_to_list m) -> listed (order m) m.
Proof. intros Ho nm w H. rewrite Ho in H. apply elem_of_map_to_list in H. unfold kinds. by rewrite H. Qed.
Lemma order_names m : (forall m, order m ≡ₚ map_to_list m) ->
  NoDup (order m).*1 /\ forall nm, nm ∈ (order m).*1 <-> is_Some (kinds m nm).
Proof.
  intros Ho. split; [rewrite Ho; apply NoDup_fst_map_to_list|]. intros nm. rewrite Ho. unfold kinds. rewrite fmap_is_Some.
  rewrite list_elem_of_fmap. split.
  - intros ([nm' w] & -> & H). apply elem_of_map_to_list in H. by eexists.
  - intros [w H]. exists (nm, w). split; [done|]. by apply elem_of_map_to_list.
Qed.

Lemma init_each_spec now ws : forall m sh m' sh' log, listed ws m ->
  init_each ovs_ok denied now ws m sh = Ret (m', sh', log) ->
  (forall nm, kinds m' nm = kinds m nm) /\ omap ev_init log = ws.*1 /\ omap ev_start log = [] /\ omap ev_stop log = [].
Proof.
  induction ws as [|[nm w] ws IH]; intros m sh m' sh' log Hl H; [by injection H as <- _ <-|].
  cbn [init_each] in H. apply go_bind_ret in H as ([[w1 sh1] bs] & H1 & H). apply go_bind_ret in H as ([[m2 sh2] log2] & H2 & [= <- _ <-]).
  destruct (listed_step _ _ _ _ _ (init_worker_kind _ _ _ _ _ _ H1) Hl) as [Hk Hl2].
  destruct (IH _ _ _ _ _ Hl2 H2) as (K1 & K2 & K3 & K4). cbn. rewrite K2, K3, K4.
  split; [|done]. intros nm'. by rewrite K1, Hk.
Qed.
Lemma start_each_spec uuid now ws : forall m sh f m' sh' f' log, listed ws m ->
  start_each has link_ok addr_ok dump add_ok set_ok dev_index vlan_ok ports denied os alias uuids uuid now ws m sh f = Ret (m', sh', f', log) ->
  (forall nm, kinds m' nm = kinds m nm) /\ omap ev_start log = ws.*1 /\ omap ev_init log = [] /\ omap ev_stop log = [].
Proof.
  induction ws as [|[nm w] ws IH]; intros m sh f m' sh' f' log Hl H; [by injection H as <- _ _ <-|].
  cbn [start_each] in H. apply go_bind_ret in H as ([[[w1 sh1] f1] e] & H1 & H). apply go_bind_ret in H as ([[[m2 sh2] f2] log2] & H2 & [= <- _ _ <-]).
  destruct (start_worker_kind _ _ _ _ _ _ _ _ _ _ H1) as (Hk1 & He1 & He2 & He3).
  destruct (listed_step _ _ _ _ _ Hk1 Hl) as [Hk Hl2].
  destruct (IH _ _ _ _ _ _ _ Hl2 H2) as (K1 & K2 & K3 & K4). cbn. rewrite He1, He2, He3, K2, K3, K4.
  split; [|done]. intros nm'. by rewrite K1, Hk.
Qed.
Lemma stop_each_spec ws : forall m sh m' sh' log, listed ws m ->
  stop_each has dev_index denied links bridges ws m sh = Ret (m', sh', log) ->
  (forall nm, kinds m' nm = kinds m nm) /\ omap ev_stop log = ws.*1 /\ omap ev_init log = [] /\ omap ev_start log = [].
Proof.
  induction ws as [|[nm w] ws IH]; intros m sh m' sh' log Hl H; [by injection H as <- _ <-|].
  cbn [stop_each] in H. apply go_bind_ret in H as ([[w1 sh1] e] & H1 & H). apply go_bind_ret in H as ([[m2 sh2] log2] & H2 & [= <- _ <-]).
  destruct (stop_worker_kind _ _ _ _ _ _ H1) as (Hk1 & He1 & He2 & He3).
  destruct (listed_step _ _ _ _ _ Hk1 Hl) as [Hk Hl2].
  destruct (IH _ _ _ _ _ Hl2 H2) as (K1 & K2 & K3 & K4). cbn. rewrite He1, He2, He3, K2, K3, K4.
  split; [|done]. intros nm'. by rewrite K1, Hk.
Qed.

Local Abbreviation Init := (Initialize ovs_ok denied order dial parse_lease).
Local Abbreviation Begin := (Start true has link_ok addr_ok dump add_ok set_ok dev_index vlan_ok ports denied os alias order random uuids).
Local Abbreviation End_ := (Stop true has dev_index denied order links bridges points random).
Hypothesis Horder : forall m, order m ≡ₚ map_to_list m.

Lemma switch_Initialize_spec passwd now (s s1 : running K) : Init passwd now s = Ret s1 ->
  exists nets acls log, all_there (sw_Network (rn_conf s)) = Ret nets /\ all_there (sw_Acl (rn_conf s)) = Ret acls /\
    Rules.switch_firewall (rules_cfg (rn_conf s) nets acls) = Ret (Firewall s1) /\
    n_kernel (rn_node s1) = n_kernel (rn_node s) /\ rn_log s1 = rn_log s ++ log /\
    (forall nm, kinds (n_worker (rn_node s1)) nm = wanted_from (kinds (n_worker (rn_node s)) nm) nets nm) /\
    NoDup (omap ev_init log) /\ (forall nm, nm ∈ omap ev_init log <-> is_Some (kinds (n_worker (rn_node s1)) nm)) /\
    omap ev_start log = [] /\ omap ev_stop log = [].
Proof.
  intros H. unfold Initialize in H. apply go_bind_ret in H as (nets & Hn & H). apply go_bind_ret in H as (acls & Hacl & H).
  apply go_bind_ret in H as (f & Hf & H).
  apply go_bind_ret in H as (http & _ & H). apply go_bind_ret in H as (ws & Hw & H).
  apply go_bind_ret in H as ([[m sh] log] & Hi & [= <-]).
  destruct (init_each_spec _ _ _ _ _ _ _ (listed_order ws Horder) Hi) as (K1 & K2 & K3 & K4).
  destruct (order_names ws Horder) as [Hnd Hin].
  exists nets, acls, log. unfold Firewall. cbn. rewrite app_nil_r, K2. split_and!; try done.
  - intros nm. rewrite K1. by apply (make_workers_kinds _ _ _ _ Hw).
  - intros nm. by rewrite Hin, K1.
Qed.
Lemma switch_Start_spec now (s s1 : running K) : Begin now s = Ret s1 ->
  exists log, rn_log s1 = rn_log s ++ log /\
    n_kernel (rn_node s1) = install_caught true (Firewall s1) (n_kernel (rn_node s)) /\
    (forall nm, kinds (n_worker (rn_node s1)) nm = kinds (n_worker (rn_node s)) nm) /\
    NoDup (omap ev_start log) /\ (forall nm, nm ∈ omap ev_start log <-> is_Some (kinds (n_worker (rn_node s)) nm)) /\
    omap ev_init log = [] /\ omap ev_stop log = [].
Proof.
  intros H. unfold Start in H. destruct (Node.UUID random (rn_node s)) as [v uuid] eqn:Eu.
  assert (Hv : n_worker v = n_worker (rn_node s) /\ n_kernel v = n_kernel (rn_node s)).
  { revert Eu. unfold Node.UUID. intros [= <- _]. by destruct (String.eqb _ _). }
  destruct Hv as [Hvw Hvk]. apply go_bind_ret in H as ([[[m sh] f] log] & Hs & [= <-]).
  destruct (start_each_spec _ _ _ _ _ _ _ _ _ _ (listed_order _ Horder) Hs) as (K1 & K2 & K3 & K4).
  destruct (order_names (n_worker v) Horder) as [Hnd Hin]. rewrite Hvw in *.
  eexists. unfold Firewall. cbn. split; [done|]. rewrite Hvk. split; [done|].
  assert (Ht : omap ev_start (match rn_http s with Some _ => [EvHttpStart] | None => [] end ++ [EvFirewallStart; EvConfdStart]) = [] /\
               omap ev_init (match rn_http s with Some _ => [EvHttpStart] | None => [] end ++ [EvFirewallStart; EvConfdStart]) = [] /\
               omap ev_stop (match rn_http s with Some _ => [EvHttpStart] | None => [] end ++ [EvFirewallStart; EvConfdStart]) = [])
    by by destruct (rn_http s).
  destruct Ht as (T1 & T2 & T3). cbn [omap list_omap ev_start ev_init ev_stop].
  rewrite !omap_app. cbn [omap list_omap ev_start ev_init ev_stop].
  rewrite T1, T2, T3, K2, K3, K4, !app_nil_r. done.
Qed.
Lemma switch_Stop_spec encode_left (s s1 : running K) : End_ encode_left s = Ret s1 ->
  exists log, rn_log s1 = rn_log s ++ log /\
    FireWall.Stop true (Firewall s) (n_kernel (rn_node s)) = Ret (n_kernel (rn_node s1)) /\
    (forall nm, kinds (n_worker (rn_node s1)) nm = kinds (n_worker (rn_node s)) nm) /\
    NoDup (omap ev_stop log) /\ (forall nm, nm ∈ omap ev_stop log <-> is_Some (kinds (n_worker (rn_node s)) nm)) /\
    omap ev_init log = [] /\ omap ev_start log = [].
Proof.
  intros H. unfold Stop in H. set (cs := map Point.Client _) in H.
  set (v := match cs with [] => _ | _ => _ end) in H.
  assert (Hv : n_worker v = n_worker (rn_node s) /\ n_kernel v = n_kernel (rn_node s) /\ n_firewall v = n_firewall (rn_node s)).
  { unfold v, Node.UUID. destruct cs; [done|]. by destruct (String.eqb _ _). }
  destruct Hv as (Hvw & Hvk & Hvf). clearbody v. apply go_bind_ret in H as (k & Hk & H).
  apply go_bind_ret in H as ([[m sh] log] & Hs & [= <-]). cbn in Hs. rewrite Hvw in Hs.
  destruct (stop_each_spec _ _ _ _ _ _ (listed_order _ Horder) Hs) as (K1 & K2 & K3 & K4).
  destruct (order_names (n_worker (rn_node s)) Horder) as [Hnd Hin].
  unfold Firewall. rewrite Hvk, Hvf in Hk. cbn. eexists. rewrite <- app_assoc. split; [done|]. split; [done|]. split; [done|].
  assert (Hleft : forall l, omap ev_stop (map EvLeft l) = [] /\ omap ev_init (map EvLeft l) = [] /\ omap ev_start (map EvLeft l) = []).
  { intros l. induction l as [|x l IH]; [done|exact IH]. }
  destruct (Hleft cs) as (L1 & L2 & L3). rewrite !omap_app, L1, L2, L3. cbn [omap list_omap ev_start ev_init ev_stop app].
  rewrite K2, K3, K4. by destruct (rn_http s).
Qed.
End lifecycle.

(** (C16) A switch that is initialized, started and stopped: it has a worker for each name of a
    network, of the kind of the last network of that name, and no other; the firewall is
    the one of [Rules]; each of the workers was initialized once, started once and stopped
    once; and if the kernel's packet filter held nothing of the firewall before, it is
    afterwards what it was. *)
Theorem switch_lifecycle {K} `{HK : Iptables K} `{HL : !IptablesLaws K}
    has link_ok addr_ok dump add_ok set_ok dev_index vlan_ok ovs_ok ports denied os alias
    order links bridges points random uuids loads dial parse_lease encode_left
    c k fr lk e h taps passwd now0 now1 now2 (s1 s2 s3 : running K) :
  (forall m, order m ≡ₚ map_to_list m) ->
  Initialize ovs_ok denied order dial parse_lease passwd now1 (NewSwitch loads c k fr lk e h taps now0) = Ret s1 ->
  Start true has link_ok addr_ok dump add_ok set_ok dev_index vlan_ok ports denied os alias order random uuids now2 s1 = Ret s2 ->
  Stop true has dev_index denied order links bridges points random encode_left s2 = Ret s3 ->
  (exists nets acls, all_there (sw_Network c) = Ret nets /\ all_there (sw_Acl c) = Ret acls /\
     Rules.switch_firewall (rules_cfg c nets acls) = Ret (Firewall s1) /\
     forall nm, kinds (n_worker (rn_node s1)) nm = wanted nets nm /\ kinds (n_worker (rn_node s2)) nm = wanted nets nm /\
                kinds (n_worker (rn_node s3)) nm = wanted nets nm) /\
  (forall f, f ∈ [ev_init; ev_start; ev_stop] ->
     NoDup (omap f (rn_log s3)) /\ forall nm, nm ∈ omap f (rn_log s3) <-> is_Some (kinds (n_worker (rn_node s1)) nm)) /\
  (rules_ok (rules (Firewall s2)) ->
   (forall t ch args, args ∈ our_args (rules (Firewall s2)) t ch -> forall l, rules_in k t ch = Some l -> args ∉ l) ->
   (forall ch, ch ∈ chains (Firewall s2) ->
      rules_in k (ch_Table ch) (ch_Name ch) = None /\
      forall c' l args, rules_in k (ch_Table ch) c' = Some l -> args ∈ l -> args <> [] /\ jumps args (ch_Name ch) = false) ->
   forall t ch, rules_in (n_kernel (rn_node s3)) t ch = rules_in k t ch).
Proof.
  intros Ho H1 H2 H3.
  destruct (switch_Initialize_spec _ _ _ _ _ Ho _ _ _ _ H1) as (nets & acls & l1 & Hn & Hacl & Hf & Hk1 & Hl1 & Hw1 & Nd1 & In1 & S1 & P1).
  destruct (switch_Start_spec _ _ _ _ _ _ _ _ _ _ _ _ _ _ _ Ho _ _ _ H2) as (l2 & Hl2 & Hk2 & Hw2 & Nd2 & In2 & I2 & P2).
  destruct (switch_Stop_spec _ _ _ _ _ _ _ _ Ho _ _ _ H3) as (l3 & Hl3 & Hk3 & Hw3 & Nd3 & In3 & I3 & S3).
  split; [exists nets, acls; split; [done|]; split; [done|]; split; [done|]; intros nm; by rewrite Hw3, Hw2, Hw1|]. split.
  - cbn in Hl1. rewrite Hl3, Hl2, Hl1. intros f Hfin.
    repeat (apply elem_of_cons in Hfin as [->|Hfin]; [|try by apply elem_of_nil in Hfin]); rewrite !omap_app.
    + rewrite I2, I3, !app_nil_r. done.
    + rewrite S1, S3, app_nil_r. done.
    + rewrite P1, P2. split; [done|]. intros nm. by rewrite In3, Hw2.
  - intros R1 R2 R3 t ch. destruct (install_uninstall _ _ R1 R2 R3 1) as (k1 & k2 & E1 & E2 & E3).
    cbn [FireWall.Start_again] in E1. apply go_bind_ret in E1 as (k1' & E1 & [= <-]).
    rewrite Hk2, Hk1 in Hk3. cbn in Hk3. rewrite (install_caught_ret _ _ _ _ E1) in Hk3.
    unfold FireWall.Stop in Hk3. rewrite E2 in Hk3. injection Hk3 as <-. apply E3.
Qed.

(** ** An example *)

Definition demo_nets : list Config.Network :=
  match lan_Correct "100.44" OpenLAN.demo_served 1194 with Ret (n, _) => [n] | Panic => [] end.
Definition demo_conf : Config.Switch :=
  let s := ConfigFiles.demo_saved demo_nets in
  {| sw_File := sw_File s; sw_Alias := sw_Alias s; sw_Perf := sw_Perf s; sw_Protocol := sw_Protocol s;
     sw_Listen := sw_Listen s; sw_Timeout := sw_Timeout s; sw_Http := sw_Http s; sw_Log := sw_Log s; sw_Cert := sw_Cert s;
     sw_Crypt := sw_Crypt s; sw_Network := sw_Network s; sw_Acl := []; sw_FireWall := []; sw_Inspect := ["neighbor"%string];
     sw_Queue := sw_Queue s; sw_Ldap := None; sw_PassFile := sw_PassFile s; sw_AddrPool := sw_AddrPool s;
     sw_ConfDir := sw_ConfDir s; sw_TokenFile := sw_TokenFile s |}.
Definition demo_kernel : FireWall.tables := {[ (TFilter, CInput) := [] ]}.
Definition demo_order {A} (m : gmap string A) : list (string * A) := map_to_list m.
Definition demo_begin : running FireWall.tables :=
  NewSwitch (fun _ _ => false) demo_conf demo_kernel (Switch.demo_switch Switch.demo_plant demo_world) LinkCache.New no_tables
    {| h_files := ∅; h_commands := [] |} Tap.empty_taps 5.
Definition demo_initialized : go (running FireWall.tables) :=
  Initialize (fun _ => true) never demo_order (fun _ => None) (fun _ => 0) None 6 demo_begin.
Definition demo_started (s : running FireWall.tables) : go (running FireWall.tables) :=
  Start true never never (fun _ _ => true) (fun _ => None) never never (fun _ => None) never (fun m => []) never "linux" "sw"
    demo_order "r" (fun _ _ => "u"%string) 7 s.
Definition demo_stopped (s : running FireWall.tables) : go (running FireWall.tables) :=
  Stop true never (fun _ => None) never demo_order demo_order (fun _ => []) (fun _ => []) "r" (fun _ _ => None) s.

#[local] Instance rules_ok_dec rs : Decision (rules_ok rs).
Proof. unfold rules_ok. apply _. Defined.
#[local] Instance networker_dec : EqDecision OpenLAN.networker.
Proof. solve_decision. Defined.

Lemma demo_runs : exists s1 s2 s3,
  demo_initialized = Ret s1 /\ demo_started s1 = Ret s2 /\ demo_stopped s2 = Ret s3 /\
  rules_ok (rules (Firewall s2)) /\ Forall (fun ch => demo_kernel !! (ch_Table ch, ch_Name ch) = None) (chains (Firewall s2)) /\
  kinds (n_worker (rn_node s1)) "lan" = Some OpenLAN.OpenLANWorker.
Proof.
  assert (E2 : match demo_initialized with Ret s => match demo_started s with Ret s2 =>
                 bool_decide (rules_ok (rules (Firewall s2)) /\
                   Forall (fun ch => demo_kernel !! (ch_Table ch, ch_Name ch) = None) (chains (Firewall s2)) /\
                   kinds (n_worker (rn_node s)) "lan" = Some OpenLAN.OpenLANWorker) &&
                 match demo_stopped s2 with Ret _ => true | Panic => false end | Panic => false end | Panic => false end = true)
    by (vm_compute; reflexivity).
  destruct demo_initialized as [s1|]; [|discriminate E2]. destruct (demo_started s1) as [s2|] eqn:E3; [|discriminate E2]. apply andb_true_iff in E2 as [E2 E4].
  destruct (demo_stopped s2) as [s3|] eqn:E5; [|discriminate E4]. apply bool_decide_eq_true in E2 as (H1 & H2 & H3).
  exists s1, s2, s3. exact (conj eq_refl (conj E3 (conj E5 (conj H1 (conj H2 H3))))).
Qed.

Lemma switch_lifecycle_witness : exists s1 s2 s3,
  demo_initialized = Ret s1 /\ demo_started s1 = Ret s2 /\ demo_stopped s2 = Ret s3 /\
  "lan"%string ∈ omap ev_init (rn_log s3) /\ "lan"%string ∈ omap ev_start (rn_log s3) /\ "lan"%string ∈ omap ev_stop (rn_log s3) /\
  rules_in (n_kernel (rn_node s3)) TFilter CInput = Some [] /\ rules_in (n_kernel (rn_node s3)) TFilter OLCInput = None.
Proof.
  destruct demo_runs as (s1 & s2 & s3 & E1 & E2 & E3 & R1 & R3 & Hk). exists s1, s2, s3.
  split; [exact E1|]. split; [exact E2|]. split; [exact E3|].
  destruct (switch_lifecycle never never (fun _ _ => true) (fun _ => None) never never (fun _ => None) never (fun _ => true) (fun m => [])
    never "linux" "sw" demo_order demo_order (fun _ => []) (fun _ => []) "r" (fun _ _ => "u"%string) (fun _ _ => false) (fun _ => None)
    (fun _ => 0) (fun _ _ => None) demo_conf demo_kernel (Switch.demo_switch Switch.demo_plant demo_world) LinkCache.New no_tables
    {| h_files := ∅; h_commands := [] |} Tap.empty_taps None 5 6 7 s1 s2 s3 (fun m => reflexivity _) E1 E2 E3) as (_ & Hl & Hr).
  assert (Hall : forall f, f ∈ [ev_init; ev_start; ev_stop] -> "lan"%string ∈ omap f (rn_log s3)).
  { intros f Hf. apply (proj2 (Hl f Hf)). rewrite Hk. by eexists. }
  split; [apply Hall; left|]. split; [apply Hall; right; left|]. split; [apply Hall; right; right; left|].
  assert (Hin : forall t c l, rules_in demo_kernel t c = Some l -> l = []).
  { intros t c l Hc. change (demo_kernel !! (t, c) = Some l) in Hc. unfold demo_kernel in Hc. by apply lookup_singleton_Some in Hc as [_ <-]. }
  assert (Hback : forall t c, rules_in (n_kernel (rn_node s3)) t c = rules_in demo_kernel t c).
  { apply (Hr R1).
    - intros t c args _ l Hc. rewrite (Hin t c l Hc). apply not_elem_of_nil.
    - intros ch Hch. rewrite Forall_forall in R3. split; [exact (R3 ch Hch)|]. intros c' l args Hc Ha.
      rewrite (Hin _ _ _ Hc) in Ha. destruct (not_elem_of_nil _ Ha). }
  split; rewrite Hback; reflexivity.
Defined.
